(* ===== verification/_CoqProject ===== *)
-Q . S2P
Prelude.v
PyStrings.v
Json.v
Permissions.v
Regex.v
RegexSafety.v
Database.v
Repositories.v
RepositoryFacts.v
RepositoryInvariant.v
Ownership.v
Users.v
Samples.v
UserFacts.v
Groups.v
Cache.v
RedisCache.v
Resolution.v
ResolutionFacts.v
Batch.v
BatchFacts.v
Sessions.v
SessionFacts.v
Store.v
StoreFacts.v
StoreCaches.v
StoreCoherence.v
Requests.v
RequestFacts.v
Validators.v
Hooks.v
AfterRequest.v
BeforeRequest.v
BeforeRequestFacts.v
AfterRequestFacts.v
SampleMlflow.v
RequestWitnesses.v
Concurrency.v
Kubernetes.v
ProviderRegistry.v
RegistryFacts.v
TokenVerification.v
TokenFacts.v
Identity.v
AuthMiddleware.v
AuthFacts.v
ProvisioningFacts.v
AuthWitnesses.v
RedirectUri.v
OAuthClients.v
SignIn.v
DataFetching.v
ApiModels.v
FastApi.v
RouterLib.v
UserPermissions.v
GroupPermissions.v
WorkspaceRouters.v
UsersRouter.v
Management.v
ManagementFacts.v
ManagementWitnesses.v
AccountFacts.v
SignInFacts.v
SignInSafety.v
ConfigProviders.v
Configuration.v
ConfigStartup.v
Entities.v
Ui.v
AuditLog.v
Assembly.v
GraphQL.v
ResourceRouters.v
Trash.v
Webhooks.v
Middlewares.v
Stack.v
Witnesses.v
