(* ===== verification/Prelude.v ===== *)
(** * mlflow-oidc-auth: a verification library

    mlflow-oidc-auth is an authorization layer in front of an MLflow tracking
    server: it signs users in through identity providers, keeps users, groups and
    grants in its own database, and decides for every request to MLflow whether
    the sender may perform it. This library models that code in the order a
    request meets it, bottom up, and proves what makes it correct.

    ** The parts and how they interact

    A request passes the workspace context and the authentication middleware,
    which turns a password, a bearer token or a session cookie into an
    [AuthContext], then the proxy headers and the permission middleware, which
    decides on the routes that FastAPI serves for MLflow. The management API is
    FastAPI's too: a dependency checks the sender, a handler calls the store. All
    other routes are Flask's: its before-request
    hook finds the validator of the route and asks it; the validator reads the
    resource from the request, and the permission resolution decides on it, from
    the permission repositories, behind two caches. MLflow then serves the request,
    and the after-request hook grants the creator, cascades renames and deletions,
    and filters search results. Administration goes through the store facade,
    which delegates to the repositories and drops the cache entries that a change
    makes stale.

    ** Files, and the source they model (under [src/mlflow_oidc_auth/])

    Foundations
    - [Prelude]: outcomes and errors, the state monad [M], Hoare triples, stable
      sorting, list lemmas. [PyStrings]: Python's string methods.
    - [Regex]: the regular expressions the source itself writes, by derivatives.

    The database and its repositories
    - [Permissions] ([permissions.py]); [RegexSafety] ([repository/utils.py]).
    - [Database] ([db/models/], [repository/utils.py]): the tables as lists of rows,
      transactions ([managed]), and the well-formedness [wf_db].
    - [Repositories], with [RepositoryFacts], [RepositoryInvariant] (the permission
      repositories of [repository/]); [Ownership] ([ownership.py]); [Users] and
      [UserFacts] ([repository/user.py]); [Groups] ([repository/group.py]);
      [Sessions] and [SessionFacts] ([repository/auth_session.py], [auth_state.py],
      [user_identity.py]); [Concurrency]: the interleavings of concurrent callbacks.

    Permission resolution
    - [Cache] ([cache/backend.py], [cache/local_backend.py]) and [RedisCache]
      ([cache/redis_backend.py], [cache/factory.py]); [Resolution],
      [ResolutionFacts] ([utils/permissions.py], [utils/workspace_cache.py]);
      [Batch], [BatchFacts] ([utils/batch_permissions.py]).
    - [Store] and [StoreFacts], [StoreCaches], [StoreCoherence]
      ([sqlalchemy_store.py], [store.py]).

    The request hooks
    - [Requests], [RequestFacts] ([hooks/dual_spelling_guard.py],
      [utils/request_helpers.py], [bridge/user.py]); [Validators] ([validators/]);
      [Hooks], [BeforeRequest], [BeforeRequestFacts] ([hooks/before_request.py]);
      [AfterRequest], [AfterRequestFacts] ([hooks/after_request.py]).
      [BeforeRequestFacts] ends with the hook, the guard, the resolution and the
      database composed.

    Signing in
    - [Json]: the JSON values that tokens, settings and bodies hold. [Kubernetes]
      ([kubernetes.py]); [ProviderRegistry], [RegistryFacts]
      ([provider_registry.py]); [TokenVerification], [TokenFacts] ([auth.py]).
    - [Identity] ([identity_resolution.py], [provisioning_policy.py],
      [utils/oidc_field_extraction.py], and the admission of [routers/auth.py], with
      [user.py]).
    - [RedirectUri] ([urllib.parse], [utils/uri.py]); [OAuthClients]
      ([oauth.py], [authorization_response.py]); [SignIn] ([routers/auth.py]: the
      endpoints under their names, with what browsers keep in their cookies);
      [SignInFacts], [SignInSafety]: the proofs.
    - [AuthMiddleware], [AuthFacts], [ProvisioningFacts]
      ([middleware/auth_middleware.py]), witnesses in [AuthWitnesses].

    The management API and the routes FastAPI serves
    - [DataFetching] ([utils/data_fetching.py]); [ApiModels] ([models/], and how an
      entity fills a response); [FastApi] ([exceptions.py], [dependencies.py],
      [utils/request_helpers_fastapi.py]).
    - [RouterLib], [UserPermissions], [GroupPermissions]
      ([routers/user_permissions.py], [routers/group_permissions.py]): one
      definition per endpoint, under the name of its handler. [Management]: a
      request as a constructor per endpoint, served with its dependencies; and, for
      every request that writes, the permission it needs and the store call it
      stands for. [ManagementFacts], [ManagementWitnesses]: the proofs.
    - [WorkspaceRouters], [UsersRouter] ([routers/workspace_permissions.py],
      [routers/workspace_regex_permissions.py], [routers/users.py]);
      [AccountFacts] refines each request by a program on the database or an
      operation of the user repository.
    - [Middlewares] ([middleware/proxy_headers_middleware.py],
      [middleware/fastapi_permission_middleware.py]); [Stack]
      ([middleware/workspace_context_middleware.py], [app.py]): the middlewares in
      their order.

    Around the server
    - [ConfigProviders] ([config_providers/], the back ends), [Configuration]
      ([config.py], [config_providers/manager.py], [mlflow_env.py]): every setting,
      as startup reads it; [ConfigStartup]: the proofs.
    - [GraphQL] ([graphql/middleware.py]); [Trash] ([routers/trash.py]); [Webhooks]
      ([routers/webhook.py], [models/webhook.py]); [ResourceRouters]: the seven
      routers that list the grants of a resource.
    - [Entities] ([entities/], [to_mlflow_entity] of [db/models/]); [Ui]
      ([routers/ui.py]); [AuditLog] ([audit.py]); [Assembly] ([app.py],
      [routers/__init__.py], [routers/health.py],
      [middleware/auth_aware_wsgi_middleware.py]): the twins of the routes, startup
      and the probes, the bridge to Flask. Each of these files holds the
      definitions, then the proofs, then what is evaluated on a sample.

    [Samples] and [SampleMlflow] are the concrete database, process and server on
    which [Witnesses] and [RequestWitnesses] evaluate the theorems.

    ** State and effects

    A database is a record of tables; a table is the list of its rows in the order
    a query returns them. A repository method is a function [M db A], that is
    [db -> outcome A * db], run under [managed], which commits or restores. The
    process state ([world]) adds the two caches, the fallback counters and the
    tracking store; a hook runs in [hook_state], a world with [flask.g]; [audited]
    pairs a database with the audit log, which a rollback does not undo. A Python
    exception is [Raise e]; [catch] is [try]/[except]. Time, salts and random
    tokens are arguments. A [datetime] is what it shows with its offset; the columns
    have no zone, and the back end says what they keep ([column_datetime]): SQLite
    drops the offset. Concurrent callbacks are a step relation over one
    database ([Concurrency]).

    ** What the theorems show

    - Database: every repository operation, whether it returns or raises, keeps
      [wf_db] (keys, references, valid levels); the user repository refines a
      partial map; deletions leave no reference; an active administrator remains.
    - Sessions: a revoked session, or any of a deactivated user, is never honoured
      again; one attempt is given to one callback under every interleaving.
    - Resolution: the cached, configurable, workspace-aware resolution implements
      [decision], a function of the database alone; batches agree with it; the
      store keeps the caches coherent, so every answer is current, with workspaces
      on or off, as long as no name holds the separator of the cache's keys.
    - Requests: what the guard lets through is read as MLflow parses it; nothing
      reaches a protected route unchecked, the routes of workspaces and of logged
      models included; the hook decides on the resource MLflow will act on; filtered searches end and fill their page.
    - Signing in: an accepted token obeys the policy of one configured provider and is
      signed with keys of the source that provider names, or, where it names none,
      with those of the deployment-wide discovery document; a request gets through authentication only for an active account; a
      bearer token adds an account only behind the gates of its kind, a token of the
      identity provider by the opt-in, one of the cluster by its namespace list; a registry holds
      well-formed providers only. A browser login completes only an attempt of its
      own, with the provider it was begun with, and opens one session; it ends on
      this site, by an invariant over all visits; a logout ends the session, or, when
      the database fails to revoke it, says so with a 503 and keeps the cookie.
    - Management API: every request is answered; a write happens exactly when the
      sender may make it and the store call succeeds, and leaves one audit line;
      nothing else touches the database ([user_permission_requests_are_settled],
      [group_permission_requests_are_settled], and the like for workspaces); a
      request about accounts is one user operation, and a token signs its user in.
    - Middlewares: the permission middleware answers as a table over the database
      says, and a native route is reached only with what the table asks, unless a
      forwarded prefix is honoured ([a_forwarded_prefix_opens_every_route]).
    - Around the server: as long as its providers answer, startup fails on the
      cookie setting only, and exactly on the value it reads; a key is answered by
      the strongest provider that has it, a secret by one that may hold it; a GraphQL field shows what its sender may read; the trash deletes nothing
      that is alive and its report accounts for every run and experiment that the
      request and the store make its targets; a webhook's address is https with a
      network location (a port alone is one); the grants on a resource are shown to its managers; a
      deletion by prefix in Redis is exact; the UI serves files of its directory
      only; a line of the audit log cannot be forged.
    Where the code does not do what it means to, a theorem states what it does
    ([gateway_group_grants_miss_the_members],
    [a_crafted_name_poisons_the_cache], [scorer_grants_follow_the_query],
    [a_young_run_goes_with_the_old], [a_local_time_outlives_the_limit],
    [keyless_providers_use_the_deployment_keys], [a_prefix_with_brackets_is_never_cleared],
    [a_deployment_without_a_default_provider_is_never_ready] and others).

    ** Bounds and fuel

    Strings are ASCII; numbers in JSON are integers and times whole seconds. Row ids are
    unbounded, as SQL's autoincrement is for the purposes here. Fuel occurs where the
    length of an input bounds a recursion: [split_str] and [substitute_parameters]
    take the length of the string, which each step shortens. The re-fetch loops of
    the after-request hook are bounded by the store alone; they take fuel as an
    argument, [None] means still running, and the termination theorems show that
    one round per remaining row is enough; so do the page loops of [DataFetching],
    for which [every_readable_row_is_fetched] says the same. Where the
    trash reads pages by recursion, the frames left of Python's stack bound it, an
    argument too; the SCAN loop of [RedisCache] takes as many rounds as the
    server's iteration needs, which is known to end. A session autoflushes: a unique or
    foreign-key violation is raised where the row is written. A foreign key is
    enforced or not, as the back end decides ([SqlBackend]).

    ** Parameters

    Code outside [src/] is a parameter, with its documented behaviour as laws of a
    class, instantiated by a concrete function in the sample files: SQLAlchemy's
    back end ([SqlBackend], [ColumnTyping]), werkzeug and MLflow's validation of user
    names ([UserLibs]), Python's [re] on patterns that users supply ([PyRe]), the
    cache back ends ([CacheBackend], [TTLCache]), MLflow's tracking store, routing
    table, request parser, entities, messages and responses ([TrackingStore],
    [MlflowServer], [MlflowParser], [MlflowEntities], [MlflowRoutes],
    [ValidatorLibs], [ResponseApi]),
    JSON and Base64 decoding, HTTP, files of a pod and JWT verification
    ([JsonLoads], [Encodings], [Network], [PodFiles], [JwtLib]), the identity
    provider's client ([IdpClient]), MLflow's listings and error numbers
    ([MlflowListings], [ErrorCodeNumbers]), its resolution of a workspace
    ([WorkspaceContext]), [ipaddress] ([IpAddresses]), Starlette's routing
    ([StarletteRouting]), dates in ISO form ([DateTimes]), authlib's registry of
    clients ([AuthlibOAuth]), MLflow's workspace store ([MlflowWorkspaces]) and the
    check of a bracketed host ([UrlLib]); the services that hold secrets
    ([ConfigServices]), MLflow's trash, webhooks and scorers ([TrashStore],
    [WebhookStore], [ScorerListing], the first two with laws), floating-point
    [timedelta], Redis and pickle ([RedisServer], [RedisScan], [Pickle]) and the
    file system ([UiFiles]). The deployment's configuration is a class
    too ([Config], [RequestConfig], [TokenConfig],
    [AuthConfig], [ProxyConfig], [OAuthConfig], [SignInConfig], [UiConfig]); that
    the settings come from [Configuration] is not threaded through.

    ** Not modelled

    - FastAPI's own routing and validation of bodies; the registration of the
      middlewares, hooks and routers with FastAPI and Flask; patches of MLflow.
    - Migrations, command line, UI assets: glue.
    - A Redis server that cannot be reached, links below the UI's directory, a
      refresh of the settings that fails half way, the setters of the entities.
    - Races between a cache flush and a resolution in another thread: the library
      runs cache operations one after the other.
    - MLflow's [catch_mlflow_exception]: a parameter of the before-request hook,
      left out for the after-request hook, whose failures are its outcome. *)

From stdpp Require Export base list gmap strings sorting.
From Stdlib Require Export ssreflect ZArith Lia.
From Stdlib Require Import Ascii.

#[global] Open Scope general_if_scope.
#[global] Set SsrOldRewriteGoalsOrder.
#[global] Set Warnings "-rewrite-rw,-clear-no-such-hyp,-level-tolerance".
#[global] Open Scope Z_scope.

(** ** Errors *)

(** The protobuf error codes the source raises by name; any other code MLflow
    may attach is [OtherCode]. *)
Inductive error_code :=
  | INVALID_PARAMETER_VALUE
  | INVALID_STATE
  | RESOURCE_DOES_NOT_EXIST
  | RESOURCE_ALREADY_EXISTS
  | INTERNAL_ERROR
  | OtherCode (name : string).

#[export] Instance error_code_eq_dec : EqDecision error_code.
Proof. solve_decision. Defined.

(** Python exceptions that cross a function boundary in the modelled code.
    Messages are modelled where a caller in the source branches on one, which is
    the detail of FastAPI's [HTTPException]. *)
Inductive exc :=
  | MlflowException (code : error_code)
  | HTTPException (status_code : Z) (detail : string)
  | NoResultFound
  | MultipleResultsFound
  | IntegrityError
  | KeyError
  | OtherException (name : string).

#[export] Instance exc_eq_dec : EqDecision exc.
Proof. solve_decision. Defined.

(** ** Outcomes: a value or a raised exception *)

Inductive outcome (A : Type) :=
  | Ok (a : A)
  | Raise (e : exc).
Arguments Ok {A} _.
Arguments Raise {A} _.

#[export] Instance outcome_eq_dec `{EqDecision A} : EqDecision (outcome A).
Proof. solve_decision. Defined.

#[export] Instance Ok_inj {A} : Inj (=) (=) (@Ok A).
Proof. by intros ?? [=]. Qed.

#[export] Instance outcome_ret : MRet outcome := @Ok.
#[export] Instance outcome_bind : MBind outcome := λ A B f m,
  match m with Ok a => f a | Raise e => Raise e end.
#[export] Instance outcome_fmap : FMap outcome := λ A B f m,
  match m with Ok a => Ok (f a) | Raise e => Raise e end.

(** ** The state and exception monad

    A computation receives the state and returns the outcome together with the
    state it leaves behind; a raised exception keeps the state reached so far
    (Python does not undo side effects), except under a managed session. *)

Definition M (S A : Type) : Type := S → outcome A * S.

#[export] Instance M_ret {S} : MRet (M S) := λ A a s, (Ok a, s).
#[export] Instance M_bind {S} : MBind (M S) := λ A B f m s,
  match m s with
  | (Ok a, s') => f a s'
  | (Raise e, s') => (Raise e, s')
  end.
Definition raise {S A} (e : exc) : M S A := λ s, (Raise e, s).
Definition lift {S A} (o : outcome A) : M S A := λ s, (o, s).
Definition gets {S A} (f : S → A) : M S A := λ s, (Ok (f s), s).
Definition ask {S A} (f : S → outcome A) : M S A := λ s, (f s, s).
Definition modify {S} (f : S → S) : M S unit := λ s, (Ok tt, f s).
(** [try ... except]: the handler runs in the state the body left. *)
Definition catch {S A} (m : M S A) (h : exc → M S A) : M S A := λ s,
  match m s with
  | (Ok a, s') => (Ok a, s')
  | (Raise e, s') => h e s'
  end.

Lemma outcome_bind_ok {A B} (f : A → outcome B) m b :
  (m ≫= f) = Ok b ↔ ∃ a, m = Ok a ∧ f a = Ok b.
Proof. destruct m; split; [by eauto|by intros (?&[= ->]&?)|done|by intros (?&?&?)]. Qed.

Lemma M_bind_ok {S A B} (m : M S A) (f : A → M S B) s b s' :
  (m ≫= f) s = (Ok b, s') ↔ ∃ a s1, m s = (Ok a, s1) ∧ f a s1 = (Ok b, s').
Proof. rewrite /mbind /M_bind. destruct (m s) as [[a|e] s1]; naive_solver. Qed.

(** One step of a run. The database [run] exposes the first operation of a
    monadic program; the lemma about that operation then rewrites it. *)
Create Rewrite HintDb run.

Lemma M_bind_run {S A B} (m : M S A) (f : A → M S B) s :
  (m ≫= f) s = match m s with (Ok a, s') => f a s' | (Raise e, s') => (Raise e, s') end.
Proof. done. Qed.
Lemma M_ret_run {S A} (a : A) (s : S) : (mret a : M S A) s = (Ok a, s).
Proof. done. Qed.
Lemma raise_run {S A} e (s : S) : (raise e : M S A) s = (Raise e, s).
Proof. done. Qed.
Lemma lift_run {S A} (o : outcome A) (s : S) : lift o s = (o, s).
Proof. done. Qed.
Lemma gets_run {S A} (f : S → A) s : gets f s = (Ok (f s), s).
Proof. done. Qed.
Lemma ask_run {S A} (f : S → outcome A) s : ask f s = (f s, s).
Proof. done. Qed.
Lemma modify_run {S} (f : S → S) s : modify f s = (Ok tt, f s).
Proof. done. Qed.
Lemma catch_run {S A} (m : M S A) h (s : S) :
  catch m h s = match m s with (Ok a, s') => (Ok a, s') | (Raise e, s') => h e s' end.
Proof. done. Qed.

Lemma catch_cases {S A} (m : M S A) h a s s' :
  catch m h s = (Ok a, s') → m s = (Ok a, s') ∨ ∃ e s1, m s = (Raise e, s1) ∧ h e s1 = (Ok a, s').
Proof. unfold catch. destruct (m s) as [[x|e] s1]; [by left|]. intros ?. right. eauto. Qed.

(** A handler that answers [inl] was not what answered [inr]. *)
Lemma catch_inr {S A B} (m : M S (A + B)) (e : A) b s s' :
  catch m (λ _, mret (inl e)) s = (Ok (inr b), s') → m s = (Ok (inr b), s').
Proof. unfold catch. destruct (m s) as [[r|x] s1]; [done|]. rewrite M_ret_run. by intros [= ]. Qed.

#[export] Hint Rewrite @M_bind_run @M_ret_run @raise_run @lift_run @gets_run @ask_run @modify_run @catch_run : run.

(** ** Database results: [Query.one()] and [Query.one_or_none()] *)

Definition query_one {A} (l : list A) : outcome A :=
  match l with
  | [] => Raise NoResultFound
  | [a] => Ok a
  | _ => Raise MultipleResultsFound
  end.

Definition query_one_or_none {A} (l : list A) : outcome (option A) :=
  match l with
  | [] => Ok None
  | [a] => Ok (Some a)
  | _ => Raise MultipleResultsFound
  end.

(** The [try: .one() except NoResultFound / MultipleResultsFound] idiom of the
    repositories: the two SQLAlchemy errors become MLflow errors. *)
Definition one_or_mlflow {A} (l : list A) : outcome A :=
  match query_one l with
  | Raise NoResultFound => Raise (MlflowException RESOURCE_DOES_NOT_EXIST)
  | Raise MultipleResultsFound => Raise (MlflowException INVALID_STATE)
  | o => o
  end.

Lemma query_one_ok {A} (l : list A) a : query_one l = Ok a ↔ l = [a].
Proof. destruct l as [|x [|]]; naive_solver. Qed.
Lemma query_one_or_none_ok {A} (l : list A) o :
  query_one_or_none l = Ok o ↔ match o with Some a => l = [a] | None => l = [] end.
Proof. destruct l as [|x [|]], o; naive_solver. Qed.
Lemma one_or_mlflow_ok {A} (l : list A) a : one_or_mlflow l = Ok a ↔ l = [a].
Proof. destruct l as [|x [|]]; unfold one_or_mlflow; cbn; naive_solver. Qed.

(** The one row of a filtered query satisfies the filter. *)
Lemma filter_singleton {A} (P : A → Prop) `{∀ x, Decision (P x)} l a :
  filter P l = [a] → a ∈ l ∧ P a.
Proof.
  intros Hf. assert (a ∈ filter P l) as Hin by (rewrite Hf; by apply list_elem_of_singleton).
  by apply list_elem_of_filter in Hin as [? ?].
Qed.

Lemma ask_ok {S A} (f : S → outcome A) s a s' : ask f s = (Ok a, s') ↔ f s = Ok a ∧ s' = s.
Proof. unfold ask. split; [intros [= -> ->]|intros [-> ->]]; done. Qed.
Lemma gets_ok {S A} (f : S → A) s a s' : gets f s = (Ok a, s') ↔ a = f s ∧ s' = s.
Proof. unfold gets. split; [intros [= <- <-]|intros [-> ->]]; done. Qed.
Lemma lift_ok {S A} (o : outcome A) (s : S) a s' : lift o s = (Ok a, s') ↔ o = Ok a ∧ s' = s.
Proof. unfold lift. split; [intros [= -> ->]|intros [-> ->]]; done. Qed.
Lemma ret_ok {S A} (a b : A) (s s' : S) : (mret a : M S A) s = (Ok b, s') ↔ b = a ∧ s' = s.
Proof. rewrite M_ret_run. split; [intros [= -> ->]|intros [-> ->]]; done. Qed.

(** ** Partial-correctness triples

    What holds when a program returns, given what held before. *)
Definition triple {S A} (P : S → Prop) (m : M S A) (Q : A → S → Prop) : Prop :=
  ∀ s a s', P s → m s = (Ok a, s') → Q a s'.

Section triple.
Context {S A B : Type}.
Implicit Types (P : S → Prop) (m : M S A).

Lemma triple_bind P m (f : A → M S B) Q R :
  triple P m Q → (∀ a, triple (Q a) (f a) R) → triple P (m ≫= f) R.
Proof. intros Hm Hf s b s' HP (a&s1&Ha&Hb)%M_bind_ok. eapply Hf; [eapply Hm; eassumption|exact Hb]. Qed.

Lemma triple_ret P (a : A) Q : (∀ s, P s → Q a s) → triple P (mret a) Q.
Proof. intros HQ s b s' HP [-> ->]%ret_ok. auto. Qed.

Lemma triple_ask P (f : S → outcome A) Q : (∀ s a, P s → f s = Ok a → Q a s) → triple P (ask f) Q.
Proof. intros HQ s a s' HP [Hf ->]%ask_ok. auto. Qed.

Lemma triple_gets P (f : S → A) Q : (∀ s, P s → Q (f s) s) → triple P (gets f) Q.
Proof. intros HQ s a s' HP [-> ->]%gets_ok. auto. Qed.

Lemma triple_lift P (o : outcome A) Q : (∀ s a, P s → o = Ok a → Q a s) → triple P (lift o) Q.
Proof. intros HQ s a s' HP [Ho ->]%lift_ok. auto. Qed.

Lemma triple_raise P e Q : triple P (raise e : M S A) Q.
Proof. by intros s a s' _ [=]. Qed.

Lemma triple_catch P m (h : exc → M S A) Q :
  triple P m Q → (∀ e, triple (λ _, True) (h e) Q) → triple P (catch m h) Q.
Proof.
  intros Hm Hh s a s' HP. rewrite catch_run. destruct (m s) as [[b|e] s1] eqn:E.
  - intros [= <- <-]. eapply Hm; eassumption.
  - by apply Hh.
Qed.

Lemma triple_weaken P P' m Q Q' :
  triple P m Q → (∀ s, P' s → P s) → (∀ a s, Q a s → Q' a s) → triple P' m Q'.
Proof. intros Hm HP HQ s a s' Hs Hrun. apply HQ. eapply Hm; [apply HP; eassumption|exact Hrun]. Qed.
End triple.

(** ** Computations that move along a relation

    Whatever the outcome, the state they leave is related to the one they found. *)
Definition within {S A} (R : relation S) (m : M S A) : Prop := ∀ s, R s (m s).2.
(** A relation on a component of the state. *)
Definition via {S T} (f : S → T) (R : relation T) : relation S := λ s s', R (f s) (f s').

#[export] Instance via_preorder {S T} (f : S → T) (R : relation T) : PreOrder R → PreOrder (via f R).
Proof. intros HR. split; [intros s; unfold via; reflexivity|]. intros s1 s2 s3 H1 H2. unfold via in *. etrans; [exact H1|exact H2]. Qed.

Section within.
Context {S : Type} (R : relation S) `{!PreOrder R}.

Lemma within_ret {A} (a : A) : within R (mret a).
Proof. intros s. reflexivity. Qed.
Lemma within_lift {A} (o : outcome A) : within R (lift o).
Proof. intros s. reflexivity. Qed.
Lemma within_raise {A} e : within R (raise e : M S A).
Proof. intros s. reflexivity. Qed.
Lemma within_gets {A} (f : S → A) : within R (gets f).
Proof. intros s. reflexivity. Qed.
Lemma within_ask {A} (f : S → outcome A) : within R (ask f).
Proof. intros s. reflexivity. Qed.
Lemma within_modify (f : S → S) : (∀ s, R s (f s)) → within R (modify f).
Proof. intros Hf s. apply Hf. Qed.
Lemma within_bind {A B} (m : M S A) (f : A → M S B) : within R m → (∀ a, within R (f a)) → within R (m ≫= f).
Proof. intros Hm Hf s. rewrite M_bind_run. specialize (Hm s). destruct (m s) as [[a|e] s1]; [|exact Hm]. etrans; [exact Hm|apply Hf]. Qed.
Lemma within_catch {A} (m : M S A) h : within R m → (∀ e, within R (h e)) → within R (catch m h).
Proof. intros Hm Hh s. rewrite catch_run. specialize (Hm s). destruct (m s) as [[a|e] s1]; [exact Hm|]. etrans; [exact Hm|apply Hh]. Qed.
Lemma within_step {A} (m : M S A) s o s' : within R m → m s = (o, s') → R s s'.
Proof. intros Hm Hrun. specialize (Hm s). by rewrite Hrun in Hm. Qed.
End within.

(** One step through the program of a [within] goal; lemmas about the operations
    it meets are hints. *)
Create HintDb within discriminated.
Ltac within_step :=
  first
    [ solve [eauto 3 with within nocore]
    | apply within_ret; apply _ | apply within_lift; apply _ | apply within_raise; apply _ | apply within_gets; apply _ | apply within_ask; apply _
    | apply within_bind; [apply _| |intros ?] | apply within_catch; [apply _| |intros ?]
    | case_match ].

(** ** ORDER BY: a stable insertion sort on an integer column *)

Section sort_by.
Context {A : Type} (f : A → Z).

Fixpoint insert_by (a : A) (l : list A) : list A :=
  match l with
  | [] => [a]
  | b :: l' => if decide (f a ≤ f b) then a :: l else b :: insert_by a l'
  end.

Fixpoint sort_by (l : list A) : list A :=
  match l with
  | [] => []
  | a :: l' => insert_by a (sort_by l')
  end.

Lemma insert_by_perm a l : insert_by a l ≡ₚ a :: l.
Proof.
  induction l as [|b l IH]; cbn; [done|]. case_decide; [done|].
  by rewrite IH; constructor.
Qed.

Lemma sort_by_perm l : sort_by l ≡ₚ l.
Proof. induction l as [|a l IH]; cbn; [done|]. by rewrite insert_by_perm IH. Qed.

Lemma elem_of_sort_by a l : a ∈ sort_by l ↔ a ∈ l.
Proof. by rewrite sort_by_perm. Qed.

Lemma insert_by_sorted a l :
  StronglySorted (λ x y, f x ≤ f y) l → StronglySorted (λ x y, f x ≤ f y) (insert_by a l).
Proof.
  induction 1 as [|b l Hl IH Hb]; cbn; [by repeat constructor|].
  case_decide.
  - repeat constructor; try done.
    eapply Forall_impl; [exact Hb|]. cbn. lia.
  - constructor; [done|]. rewrite insert_by_perm. constructor; [lia|done].
Qed.

Lemma sort_by_sorted l : StronglySorted (λ x y, f x ≤ f y) (sort_by l).
Proof. induction l; cbn; eauto using insert_by_sorted, StronglySorted. Qed.

(** Sorting a list that is already sorted changes nothing. *)
Lemma sort_by_id l : StronglySorted (λ x y, f x ≤ f y) l → sort_by l = l.
Proof.
  induction 1 as [|b l Hl IH Hb]; cbn; [done|]. rewrite IH.
  destruct Hb as [|c l Hc]; cbn; [done|]. by rewrite decide_True.
Qed.

(** Stability: rows that tie keep the order the table has. *)
Lemma filter_insert_by (P : A → Prop) `{∀ x, Decision (P x)} a l (k : Z) :
  (∀ x, P x → f x = k) →
  filter P (insert_by a l) = filter P (a :: l).
Proof.
  intros HP. induction l as [|b l IH]; [done|]. cbn [insert_by].
  case_decide as Hab; [done|].
  rewrite filter_cons IH !filter_cons.
  repeat case_decide; try done.
  exfalso. pose proof (HP a ltac:(done)). pose proof (HP b ltac:(done)). lia.
Qed.

Lemma filter_sort_by (P : A → Prop) `{∀ x, Decision (P x)} l (k : Z) :
  (∀ x, P x → f x = k) → filter P (sort_by l) = filter P l.
Proof.
  intros HP. induction l as [|a l IH]; [done|]. cbn [sort_by].
  rewrite (filter_insert_by P a _ k HP). by rewrite !filter_cons IH.
Qed.

Lemma insert_by_head a l : Forall (λ b, f a ≤ f b) l → insert_by a l = a :: l.
Proof. destruct 1 as [|b l Hb]; cbn; [done|]. by rewrite decide_True. Qed.

(** [WHERE] and [ORDER BY] commute. *)
Lemma filter_insert_by_sorted (P : A → Prop) `{∀ x, Decision (P x)} a l :
  StronglySorted (λ x y, f x ≤ f y) l →
  filter P (insert_by a l) = if decide (P a) then insert_by a (filter P l) else filter P l.
Proof.
  induction 1 as [|b l Hl IH Hb].
  { cbn [insert_by]. rewrite filter_cons. by case_decide. }
  cbn [insert_by]. destruct (decide (f a ≤ f b)) as [Hab|Hab].
  - rewrite filter_cons. destruct (decide (P a)); [|done]. rewrite insert_by_head; [done|].
    apply Forall_forall. intros x [_ Hx]%list_elem_of_filter.
    apply elem_of_cons in Hx as [->|Hx]; [done|]. rewrite Forall_forall in Hb. specialize (Hb x Hx). lia.
  - rewrite !filter_cons IH. destruct (decide (P a)), (decide (P b)); try done.
    cbn [insert_by]. by destruct (decide (f a ≤ f b)).
Qed.

Lemma filter_sort_by_comm (P : A → Prop) `{∀ x, Decision (P x)} l :
  filter P (sort_by l) = sort_by (filter P l).
Proof.
  induction l as [|a l IH]; [done|]. cbn [sort_by].
  rewrite filter_insert_by_sorted; [|apply sort_by_sorted]. rewrite filter_cons IH. by case_decide.
Qed.
End sort_by.

(** ** Generic list facts *)

Lemma filter_nil_iff {A} (P : A → Prop) `{∀ x, Decision (P x)} l :
  filter P l = [] ↔ ∀ x, x ∈ l → ¬ P x.
Proof.
  split.
  - intros Hf x Hx HPx. by assert (x ∈ filter P l) as Hin by (by apply list_elem_of_filter); rewrite Hf in Hin; apply not_elem_of_nil in Hin.
  - intros Hall. induction l as [|y l IH]; [done|]. rewrite filter_cons decide_False; [|set_solver].
    apply IH. set_solver.
Qed.

(** A unique column selects at most one row. *)
Lemma filter_unique {A B} `{EqDecision B} (g : A → B) (l : list A) (x : A) :
  NoDup (g <$> l) → x ∈ l → filter (λ y, g y = g x) l = [x].
Proof.
  induction l as [|y l IH]; [by intros _ ?%not_elem_of_nil|]. rewrite fmap_cons.
  intros [Hy Hl]%NoDup_cons [->|Hx]%elem_of_cons; rewrite filter_cons.
  - rewrite decide_True; [|done]. f_equal. apply filter_nil_iff. intros z Hz Heq.
    apply Hy. rewrite -Heq. by apply list_elem_of_fmap_2.
  - rewrite decide_False; [by auto|]. intros Heq. apply Hy. rewrite Heq. by apply list_elem_of_fmap_2.
Qed.

Lemma filter_fmap {A B} (g : A → B) (P : B → Prop) `{∀ x, Decision (P x)} (l : list A) :
  filter P (g <$> l) = g <$> filter (λ x, P (g x)) l.
Proof.
  induction l as [|x l IH]; [done|]. rewrite fmap_cons !filter_cons IH. by case_decide.
Qed.

Lemma list_filter_iff_in {A} (P Q : A → Prop) `{∀ x, Decision (P x), ∀ x, Decision (Q x)} (l : list A) :
  (∀ x, x ∈ l → P x ↔ Q x) → filter P l = filter Q l.
Proof.
  induction l as [|x l IH]; intros HPQ; [done|]. rewrite !filter_cons IH; [|set_solver].
  assert (P x ↔ Q x) by set_solver. repeat case_decide; tauto.
Qed.

Lemma Forall_filter {A} (Q P : A → Prop) `{∀ x, Decision (P x)} l : Forall Q l → Forall Q (filter P l).
Proof. rewrite !Forall_forall. intros HQ x [_ Hx]%list_elem_of_filter. auto. Qed.

Lemma NoDup_fmap_filter {A B} (g : A → B) (P : A → Prop) `{∀ x, Decision (P x)} l :
  NoDup (g <$> l) → NoDup (g <$> filter P l).
Proof. intros H'. eapply sublist_NoDup; [exact H'|]. apply fmap_sublist, sublist_filter. Qed.

Lemma NoDup_fmap_snoc {A B} (g : A → B) l x :
  NoDup (g <$> l) → g x ∉ g <$> l → NoDup (g <$> l ++ [x]).
Proof.
  intros. rewrite fmap_app NoDup_app. repeat split; [done| |by apply NoDup_singleton].
  cbn. intros y Hy ->%list_elem_of_singleton. done.
Qed.

(** ** Tactics *)

(** Case on every [match] and [if] the goal or a hypothesis still blocks on. *)
Ltac case_all :=
  repeat (case_match || case_decide || case_bool_decide); simplify_eq/=.

(** Destruct one step of a monadic run that is known to end in [Ok]. *)
Ltac inv_bind H :=
  let a := fresh "a" in let s := fresh "s" in
  let H1 := fresh "Hm" in
  apply M_bind_ok in H as (a & s & H1 & H).
