(* ===== verification/PyStrings.v ===== *)
(** * The string operations of Python the source uses

    Strings are ASCII text: [str.lower] folds [A]-[Z] and [str.strip] drops the
    ASCII whitespace characters. *)
From S2P Require Import Prelude.
From Stdlib Require Import Ascii.

(** ** [str.lower] *)

Definition lower_ascii (c : ascii) : ascii :=
  let n := nat_of_ascii c in
  if decide (65 ≤ n ≤ 90)%nat then ascii_of_nat (n + 32) else c.

Fixpoint py_lower (s : string) : string :=
  match s with
  | EmptyString => EmptyString
  | String c s => String (lower_ascii c) (py_lower s)
  end.

Lemma lower_ascii_idemp c : lower_ascii (lower_ascii c) = lower_ascii c.
Proof. by destruct c as [[] [] [] [] [] [] [] []]. Qed.

Lemma py_lower_idemp s : py_lower (py_lower s) = py_lower s.
Proof. induction s as [|c s IH]; [done|]. cbn [py_lower]. by rewrite lower_ascii_idemp IH. Qed.

Lemma py_lower_length s : String.length (py_lower s) = String.length s.
Proof. induction s as [|c s IH]; [done|]. cbn. by rewrite IH. Qed.

(** ** [str.strip] *)

Definition is_space (c : ascii) : bool :=
  let n := nat_of_ascii c in bool_decide ((9 ≤ n ≤ 13)%nat ∨ (28 ≤ n ≤ 32)%nat).

Fixpoint lstrip (s : string) : string :=
  match s with
  | EmptyString => EmptyString
  | String c s' => if is_space c then lstrip s' else s
  end.

Fixpoint rstrip (s : string) : string :=
  match s with
  | EmptyString => EmptyString
  | String c s' =>
      match rstrip s' with
      | EmptyString => if is_space c then EmptyString else String c EmptyString
      | t => String c t
      end
  end.

Definition py_strip (s : string) : string := rstrip (lstrip s).

Lemma lstrip_head s c t : lstrip s = String c t → is_space c = false.
Proof.
  induction s as [|a s IH]; [done|]. cbn. destruct (is_space a) eqn:E; [auto|]. by intros [= <- _].
Qed.

Lemma lstrip_idemp s : lstrip (lstrip s) = lstrip s.
Proof.
  destruct (lstrip s) as [|c t] eqn:E; [done|]. cbn. by rewrite (lstrip_head s c t).
Qed.

Lemma rstrip_idemp s : rstrip (rstrip s) = rstrip s.
Proof.
  induction s as [|c s IH]; [done|]. cbn [rstrip].
  destruct (rstrip s) as [|a t] eqn:E.
  - destruct (is_space c) eqn:Ec; [done|]. cbn. by rewrite Ec.
  - change (rstrip (String c (String a t))) with
      (match rstrip (String a t) with EmptyString => if is_space c then EmptyString else String c EmptyString | t' => String c t' end).
    by rewrite IH.
Qed.

Lemma lstrip_rstrip s : lstrip s = s → lstrip (rstrip s) = rstrip s.
Proof.
  destruct s as [|c s]; [done|]. intros Hs. pose proof (lstrip_head _ _ _ Hs) as Hc.
  cbn [rstrip]. destruct (rstrip s); rewrite ?Hc; cbn; by rewrite ?Hc.
Qed.

Lemma py_strip_idemp s : py_strip (py_strip s) = py_strip s.
Proof. unfold py_strip. rewrite lstrip_rstrip; [|apply lstrip_idemp]. apply rstrip_idemp. Qed.

(** ** Truthiness and [or] *)

(** [bool(s)] of an optional string: neither [None] nor empty. *)
Definition truthy (o : option string) : bool :=
  match o with Some s => negb (String.eqb s "") | None => false end.

(** [o or default] *)
Definition or_default (o : option string) (default : string) : string :=
  match o with
  | Some s => if decide (s = "") then default else s
  | None => default
  end.

(** [value or None] for an optional string. *)
Definition nonempty (o : option string) : option string := i ← o; if decide (i = "") then None else Some i.

Lemma truthy_Some s : truthy (Some s) = true ↔ s ≠ "".
Proof. cbn. rewrite negb_true_iff String.eqb_neq. done. Qed.

Lemma truthy_spec o : truthy o = true ↔ ∃ s, o = Some s ∧ s ≠ "".
Proof. destruct o; [rewrite truthy_Some|]; naive_solver. Qed.

Lemma or_default_truthy o d : truthy o = true → ∃ s, o = Some s ∧ or_default o d = s ∧ s ≠ "".
Proof. intros (s&->&Hs)%truthy_spec. exists s. cbn. by rewrite decide_False. Qed.

(** ** Characters and splitting *)

(** [s.count(c)] for a single character. *)
Fixpoint py_count (c : ascii) (s : string) : nat :=
  match s with
  | EmptyString => 0
  | String a s => (if Ascii.eqb a c then 1 else 0) + py_count c s
  end%nat.

(** [s.split(c, 1)]: the text before the first [c] and the text after it. *)
Fixpoint py_split_once (c : ascii) (s : string) : option (string * string) :=
  match s with
  | EmptyString => None
  | String a s =>
      if Ascii.eqb a c then Some (EmptyString, s)
      else match py_split_once c s with Some (l, r) => Some (String a l, r) | None => None end
  end.

Lemma py_split_once_spec c s l r :
  py_split_once c s = Some (l, r) ↔ s = (l +:+ String c r)%string ∧ py_count c l = 0%nat.
Proof.
  revert l. induction s as [|a s IH]; intros l.
  { split; [done|]. by destruct l; intros [? _]. }
  cbn. destruct (Ascii.eqb_spec a c) as [->|Hne].
  - split; [by intros [= <- <-]|]. intros [Heq Hl]. destruct l as [|b l]; cbn in *; [by injection Heq as ->|].
    injection Heq as <- _. by rewrite Ascii.eqb_refl in Hl.
  - destruct (py_split_once c s) as [[l' r']|].
    + split.
      * intros [= <- <-]. destruct (proj1 (IH l') eq_refl) as [-> Hl']. cbn. split; [done|].
        by rewrite (proj2 (Ascii.eqb_neq a c) Hne).
      * intros [Heq Hl]. destruct l as [|b l]; cbn in *; [by injection Heq as -> _|].
        injection Heq as -> Heq. destruct (Ascii.eqb b c); [done|].
        by injection (proj2 (IH l) (conj Heq Hl)) as -> ->.
    + split; [done|]. intros [Heq Hl]. destruct l as [|b l]; cbn in *; [by injection Heq as -> _|].
      injection Heq as -> Heq. destruct (Ascii.eqb b c); [done|].
      discriminate (proj2 (IH l) (conj Heq Hl)).
Qed.

(** ** Searching and splitting *)

(** [s.startswith(p)], [sub in s] and [s.endswith(suffix)]. *)
Definition startswith (s p : string) : bool := String.prefix p s.
Definition contains (sub s : string) : bool := match String.index 0 sub s with Some _ => true | None => false end.
Definition endswith (s suffix : string) : bool :=
  (String.length suffix <=? String.length s)%nat
  && String.eqb (String.substring (String.length s - String.length suffix) (String.length suffix) s) suffix.

(** [s[n:]] *)
Definition drop_str (n : nat) (s : string) : string := String.substring n (String.length s - n) s.
Definition take_str (n : nat) (s : string) : string := String.substring 0 n s.

(** [s.split(c)] for a single character. *)
Fixpoint py_split (c : ascii) (s : string) : list string :=
  match s with
  | EmptyString => [""]
  | String d s =>
      if decide (d = c) then "" :: py_split c s
      else match py_split c s with
           | w :: ws => String d w :: ws
           | [] => [String d ""]
           end
  end.

(** [s.split(sep)] for a non-empty separator; each part but the last shortens
    the text, so its length is fuel enough. *)
Fixpoint split_str_from (fuel : nat) (sep s : string) : list string :=
  match fuel, String.index 0 sep s with
  | S fuel, Some i => take_str i s :: split_str_from fuel sep (drop_str (i + String.length sep) s)
  | _, _ => [s]
  end.
Definition split_str (sep s : string) : list string := split_str_from (String.length s) sep s.

(** [s.rstrip(c)] and [s.strip(c)] for one character. *)
Fixpoint rstrip_char (c : ascii) (s : string) : string :=
  match s with
  | EmptyString => ""
  | String d s =>
      match rstrip_char c s with
      | EmptyString => if decide (d = c) then "" else String d ""
      | t => String d t
      end
  end.
Fixpoint lstrip_char (c : ascii) (s : string) : string :=
  match s with
  | EmptyString => ""
  | String d s' => if decide (d = c) then lstrip_char c s' else s
  end.
Definition strip_char (c : ascii) (s : string) : string := rstrip_char c (lstrip_char c s).

Definition is_digit (c : ascii) : bool := let n := nat_of_ascii c in (48 <=? n)%nat && (n <=? 57)%nat.
(** [s.isdigit()] *)
Definition py_isdigit (s : string) : bool := negb (String.eqb s "") && forallb is_digit (String.list_ascii_of_string s).

Definition upper_ascii (c : ascii) : ascii :=
  let n := nat_of_ascii c in if decide (97 ≤ n ≤ 122)%nat then ascii_of_nat (n - 32) else c.
(** [word[:1].upper() + word[1:]] *)
Definition capitalise (word : string) : string :=
  match word with EmptyString => "" | String c rest => String (upper_ascii c) rest end.

(** [s.upper()] *)
Fixpoint py_upper (s : string) : string :=
  match s with EmptyString => "" | String c s => String (upper_ascii c) (py_upper s) end.

(** ** Concatenation *)

Lemma append_length s t : String.length (s +:+ t) = (String.length s + String.length t)%nat.
Proof. induction s as [|c s IH]; [done|]. change (S (String.length (s +:+ t)) = S (String.length s + String.length t)%nat). by rewrite IH. Qed.

Lemma append_inj_r a b c : a +:+ b = c +:+ b → a = c.
Proof.
  revert c. induction a as [|x a IH]; intros [|y c] Heq; [done|..].
  1,2: apply (f_equal String.length) in Heq; rewrite ?append_length in Heq; cbn in Heq; lia.
  injection Heq as -> Heq. by rewrite (IH c).
Qed.

Lemma startswith_drop p s : startswith s p = true ↔ s = p +:+ drop_str (String.length p) s.
Proof.
  revert s. induction p as [|c p IH]; intros s.
  - cbn. unfold drop_str. split; [intros _|by destruct s]. rewrite Nat.sub_0_r. change ("" +:+ ?t) with t.
    induction s as [|a s IH]; [done|]. cbn. by rewrite -IH.
  - destruct s as [|a s]; [by split|]. change (drop_str _ (String a s)) with (drop_str (String.length p) s).
    cbn. destruct (ascii_dec c a) as [->|Hne].
    + rewrite (IH s). split; [intros Heq; exact (f_equal (String a) Heq)|by intros [= Heq]].
    + split; [done|]. intros [= ?]. congruence.
Qed.

Lemma substring_all s : String.substring 0 (String.length s) s = s.
Proof. induction s as [|c s IH]; [done|]. cbn. by rewrite IH. Qed.
Lemma drop_str_app p s : drop_str (String.length p) (p +:+ s) = s.
Proof.
  unfold drop_str. rewrite append_length. assert (String.length p + String.length s - String.length p = String.length s)%nat as -> by lia.
  induction p as [|c p IH]; [apply substring_all|exact IH].
Qed.
Lemma startswith_app p s : startswith (p +:+ s) p = true.
Proof. apply startswith_drop. by rewrite drop_str_app. Qed.
