(* ===== verification/Json.v ===== *)
(** * JSON values and the dicts built of them *)
#[local] Set Warnings "-register-all".
From S2P Require Import Prelude PyStrings.
From Stdlib Require Import Ascii.

(** ** JSON values, as [json.loads] builds them

    Numbers are integers; an object keeps its pairs in the order of the text. *)

Inductive json :=
  | JNull
  | JBool (b : bool)
  | JNum (n : Z)
  | JStr (s : string)
  | JArr (l : list json)
  | JObj (fields : list (string * json)).

(** [bool(value)] *)
Definition json_truthy (v : json) : bool :=
  match v with
  | JNull | JArr [] | JObj [] => false
  | JBool b => b
  | JNum n => negb (n =? 0)
  | JStr s => negb (String.eqb s "")
  | _ => true
  end.

(** Python's [None] and JSON's [null] are one value. *)
Definition some_value (v : json) : option json := match v with JNull => None | v => Some v end.

(** ** Dicts read by key only: claims, configuration entries *)

Abbreviation claims := (gmap string json).

(** The dict of an object's pairs: the last one of a key counts. *)
Definition dict_of (fields : list (string * json)) : claims := list_to_map (reverse fields).

(** [d.get(key, default)] and [d.get(key)]. *)
Definition get_or (default : json) (key : string) (d : claims) : json :=
  match d !! key with Some v => v | None => default end.
Definition get_key (key : string) (d : claims) : json := get_or JNull key d.

(** [value in names], for a tuple of strings. *)
Definition json_in (v : json) (names : list string) : bool :=
  match v with JStr s => bool_decide (s ∈ names) | _ => false end.

(** [isinstance(value, str) and value.strip()]: the stripped text, unless it is
    blank. *)
Definition text_of (v : json) : option string :=
  match v with
  | JStr s => if decide (py_strip s = "") then None else Some (py_strip s)
  | _ => None
  end.

Lemma json_in_true v names : json_in v names = true ↔ ∃ s, v = JStr s ∧ s ∈ names.
Proof. destruct v; cbn; rewrite ?bool_decide_eq_true; naive_solver. Qed.

Lemma text_of_Some v s :
  text_of v = Some s ↔ ∃ raw, v = JStr raw ∧ s = py_strip raw ∧ s ≠ "".
Proof. destruct v; cbn; try case_decide; naive_solver. Qed.

Lemma text_of_stripped v s : text_of v = Some s → py_strip s = s.
Proof. intros (raw&_&->&_)%text_of_Some. apply py_strip_idemp. Qed.
