(* ===== verification/Permissions.v ===== *)
(** * Permission levels ([mlflow_oidc_auth/permissions.py]) *)
From S2P Require Import Prelude.

(** The dataclass [Permission]. *)
Record Permission := MkPermission {
  name : string;
  priority : Z;
  can_read : bool;
  can_use : bool;
  can_update : bool;
  can_delete : bool;
  can_manage : bool;
}.

#[export] Instance Permission_eq_dec : EqDecision Permission.
Proof. solve_decision. Defined.

Definition READ : Permission := MkPermission "READ" 1 true false false false false.
Definition USE : Permission := MkPermission "USE" 2 true true false false false.
Definition EDIT : Permission := MkPermission "EDIT" 3 true true true false false.
Definition MANAGE : Permission := MkPermission "MANAGE" 4 true true true true true.
Definition NO_PERMISSIONS : Permission := MkPermission "NO_PERMISSIONS" 100 false false false false false.

(** The dict [ALL_PERMISSIONS], keyed by permission name. *)
Definition ALL_PERMISSIONS : gmap string Permission :=
  list_to_map ((λ p, (name p, p)) <$> [READ; USE; EDIT; MANAGE; NO_PERMISSIONS]).

(** [ALL_PERMISSIONS[permission]]: an unknown name raises [KeyError]. *)
Definition get_permission (permission : string) : outcome Permission :=
  match ALL_PERMISSIONS !! permission with
  | Some p => Ok p
  | None => Raise KeyError
  end.

Definition _validate_permission (permission : string) : outcome unit :=
  if decide (is_Some (ALL_PERMISSIONS !! permission)) then Ok tt
  else Raise (MlflowException INVALID_PARAMETER_VALUE).

Definition compare_permissions (permission1 permission2 : string) : outcome bool :=
  _ ← _validate_permission permission1;
  _ ← _validate_permission permission2;
  p1 ← get_permission permission1;
  p2 ← get_permission permission2;
  mret (bool_decide (priority p1 ≤ priority p2)).

(** ** Facts the other components use *)

(** A stored permission string is valid when it names a level. *)
Definition valid_permission (s : string) : Prop := is_Some (ALL_PERMISSIONS !! s).

#[export] Instance valid_permission_dec s : Decision (valid_permission s).
Proof. unfold valid_permission. apply _. Defined.

(** The rank a valid name has in [compare_permissions]; 0 for other strings. *)
Definition rank (s : string) : Z :=
  match ALL_PERMISSIONS !! s with Some p => priority p | None => 0 end.

Create HintDb perms discriminated.

Lemma lookup_ALL_PERMISSIONS s p :
  ALL_PERMISSIONS !! s = Some p →
  p = READ ∨ p = USE ∨ p = EDIT ∨ p = MANAGE ∨ p = NO_PERMISSIONS.
Proof.
  unfold ALL_PERMISSIONS. cbn. rewrite !lookup_insert lookup_empty.
  repeat case_decide; naive_solver.
Qed.

Lemma lookup_ALL_PERMISSIONS_name s p : ALL_PERMISSIONS !! s = Some p → name p = s.
Proof.
  unfold ALL_PERMISSIONS. cbn. rewrite !lookup_insert lookup_empty.
  repeat case_decide; naive_solver.
Qed.

Lemma get_permission_valid s : valid_permission s → ∃ p, get_permission s = Ok p ∧ name p = s.
Proof.
  intros [p Hp]. exists p. unfold get_permission. rewrite Hp.
  eauto using lookup_ALL_PERMISSIONS_name.
Qed.

Lemma get_permission_ok s p : get_permission s = Ok p ↔ ALL_PERMISSIONS !! s = Some p.
Proof. unfold get_permission. case_match; naive_solver. Qed.

Lemma validate_permission_ok s : _validate_permission s = Ok tt ↔ valid_permission s.
Proof. unfold _validate_permission, valid_permission. case_decide; naive_solver. Qed.

Lemma validate_permission_invalid s :
  ¬ valid_permission s → _validate_permission s = Raise (MlflowException INVALID_PARAMETER_VALUE).
Proof. intros H. unfold _validate_permission. by rewrite decide_False. Qed.

Lemma compare_permissions_valid s1 s2 :
  valid_permission s1 → valid_permission s2 →
  compare_permissions s1 s2 = Ok (bool_decide (rank s1 ≤ rank s2)).
Proof.
  intros H1 H2. unfold compare_permissions.
  rewrite (proj2 (validate_permission_ok _) H1) (proj2 (validate_permission_ok _) H2).
  destruct H1 as [p1 H1], H2 as [p2 H2].
  unfold get_permission, rank. by rewrite H1 H2.
Qed.

Lemma compare_permissions_invalid s1 s2 :
  ¬ (valid_permission s1 ∧ valid_permission s2) →
  compare_permissions s1 s2 = Raise (MlflowException INVALID_PARAMETER_VALUE).
Proof.
  intros H. unfold compare_permissions.
  destruct (decide (valid_permission s1)) as [H1|H1]; [|by rewrite (validate_permission_invalid s1)].
  rewrite (proj2 (validate_permission_ok _) H1).
  rewrite (validate_permission_invalid s2); [done|]. intros H2. by apply H.
Qed.

Lemma rank_inj s1 s2 : valid_permission s1 → valid_permission s2 → rank s1 = rank s2 → s1 = s2.
Proof.
  intros [p1 H1] [p2 H2]. unfold rank. rewrite H1 H2.
  rewrite -(lookup_ALL_PERMISSIONS_name _ _ H1) -(lookup_ALL_PERMISSIONS_name _ _ H2).
  apply lookup_ALL_PERMISSIONS in H1, H2. intros Hp.
  destruct_or!; subst; first [reflexivity | discriminate Hp].
Qed.

#[export] Hint Resolve compare_permissions_valid get_permission_valid rank_inj : perms.

(** The capabilities a level grants, in the order of the record's flags. *)
Definition capabilities (p : Permission) : list bool :=
  [can_read p; can_use p; can_update p; can_delete p; can_manage p].

(** [p] grants nothing that [q] does not grant. *)
Definition grants_le (p q : Permission) : Prop :=
  Forall2 (λ a b, a = true → b = true) (capabilities p) (capabilities q).

#[export] Instance grants_le_dec p q : Decision (grants_le p q).
Proof. unfold grants_le. apply Forall2_dec. intros a b. apply _. Defined.

(** ** Properties *)

(** On valid names, compare_permissions says that the first is no stronger
    than the second exactly when the second is NO_PERMISSIONS, or the first is
    not and grants no capability the second lacks. *)
Theorem compare_permissions_is_capability_order (s1 s2 : string) (p1 p2 : Permission) :
  ALL_PERMISSIONS !! s1 = Some p1 →
  ALL_PERMISSIONS !! s2 = Some p2 →
  compare_permissions s1 s2 = Ok true ↔
    (s2 = "NO_PERMISSIONS" ∨ (s1 ≠ "NO_PERMISSIONS" ∧ grants_le p1 p2)).
Proof.
  intros H1 H2.
  rewrite (compare_permissions_valid s1 s2); [|by exists p1|by exists p2]. unfold rank. rewrite H1 H2.
  rewrite -(lookup_ALL_PERMISSIONS_name _ _ H1) -(lookup_ALL_PERMISSIONS_name _ _ H2).
  apply lookup_ALL_PERMISSIONS in H1, H2.
  rewrite (inj_iff Ok) bool_decide_eq_true.
  destruct_or!; subst; cbn -[grants_le];
    match goal with |- _ ↔ _ ∨ (_ ∧ grants_le ?a ?b) =>
      let E := fresh "E" in
      destruct (decide (grants_le a b)) as [Hg|Hg] eqn:E; vm_compute in E;
      try discriminate E; clear E
    end;
    (split; [intros Hle | intros [Hs|[Hs Hg']]];
     first [by exfalso; lia | done | by auto | by right | lia]).
Qed.
