(* ===== verification/Regex.v ===== *)
(** * Regular expressions: the fragment of Python's [re] the source's own
    patterns use

    The patterns written in the source (the nested-quantifier detector of
    [repository/utils.py], the route patterns of [hooks/before_request.py]) have
    no anchors, look-around or back-references, so a pattern denotes a regular
    language: [fullmatch] is membership, [search] is membership of a factor.
    The matcher is by derivatives, and proved against the language. *)
From S2P Require Import Prelude.
From Stdlib Require Import Ascii.

Abbreviation chars := (list ascii).

Definition chars_of (s : string) : chars := String.list_ascii_of_string s.

Inductive re :=
  | Void
  | Eps
  | Chr (P : ascii → bool)
  | Seq (r1 r2 : re)
  | Alt (r1 r2 : re)
  | Star (r : re).

(** ** The language of a pattern *)

Inductive lang : re → chars → Prop :=
  | L_Eps : lang Eps []
  | L_Chr P c : P c = true → lang (Chr P) [c]
  | L_Seq r1 r2 s1 s2 : lang r1 s1 → lang r2 s2 → lang (Seq r1 r2) (s1 ++ s2)
  | L_Alt_l r1 r2 s : lang r1 s → lang (Alt r1 r2) s
  | L_Alt_r r1 r2 s : lang r2 s → lang (Alt r1 r2) s
  | L_Star_nil r : lang (Star r) []
  | L_Star_app r s1 s2 : lang r s1 → lang (Star r) s2 → lang (Star r) (s1 ++ s2).

(** ** Derivatives *)

Fixpoint nullable (r : re) : bool :=
  match r with
  | Void | Chr _ => false
  | Eps | Star _ => true
  | Seq r1 r2 => nullable r1 && nullable r2
  | Alt r1 r2 => nullable r1 || nullable r2
  end.

(** Smart constructors keep derivatives small; they drop [Void] and [Eps]. *)
Definition seq_ (r1 r2 : re) : re :=
  match r1, r2 with
  | Void, _ => Void
  | _, Void => Void
  | Eps, _ => r2
  | _, _ => Seq r1 r2
  end.
Definition alt_ (r1 r2 : re) : re :=
  match r1, r2 with
  | Void, _ => r2
  | _, Void => r1
  | _, _ => Alt r1 r2
  end.

Fixpoint deriv (c : ascii) (r : re) : re :=
  match r with
  | Void | Eps => Void
  | Chr P => if P c then Eps else Void
  | Seq r1 r2 =>
      if nullable r1 then alt_ (seq_ (deriv c r1) r2) (deriv c r2)
      else seq_ (deriv c r1) r2
  | Alt r1 r2 => alt_ (deriv c r1) (deriv c r2)
  | Star r => seq_ (deriv c r) (Star r)
  end.

Fixpoint matches (r : re) (s : chars) : bool :=
  match s with
  | [] => nullable r
  | c :: s' => matches (deriv c r) s'
  end.

(** [pattern.fullmatch(s)] and [pattern.search(s)]. *)
Definition fullmatch (r : re) (s : string) : bool := matches r (chars_of s).
Definition any : re := Chr (λ _, true).
Definition search (r : re) (s : string) : bool :=
  matches (Seq (Star any) (Seq r (Star any))) (chars_of s).

(** ** Correctness of the matcher *)

Lemma lang_seq r1 r2 s :
  lang (Seq r1 r2) s ↔ ∃ s1 s2, s = s1 ++ s2 ∧ lang r1 s1 ∧ lang r2 s2.
Proof. split; [inversion 1; eauto|]. intros (?&?&->&?&?). by constructor. Qed.

Lemma lang_alt r1 r2 s : lang (Alt r1 r2) s ↔ lang r1 s ∨ lang r2 s.
Proof. split; [inversion 1; auto|]. intros [?|?]; by constructor. Qed.

Lemma lang_eps s : lang Eps s ↔ s = [].
Proof. split; [by inversion 1|]. intros ->. constructor. Qed.

Lemma lang_chr P s : lang (Chr P) s ↔ ∃ c, s = [c] ∧ P c = true.
Proof. split; [inversion 1; eauto|]. intros (?&->&?). by constructor. Qed.

Lemma lang_void s : ¬ lang Void s.
Proof. by inversion 1. Qed.

Create Rewrite HintDb re_lang.
#[export] Hint Rewrite lang_seq lang_alt lang_eps lang_chr : re_lang.

Lemma lang_seq_void_l r s : ¬ lang (Seq Void r) s.
Proof. intros (?&?&?&[]%lang_void&?)%lang_seq. Qed.

Lemma lang_seq_void_r r s : ¬ lang (Seq r Void) s.
Proof. intros (?&?&?&?&[]%lang_void)%lang_seq. Qed.

Lemma lang_seq_eps_l r s : lang (Seq Eps r) s ↔ lang r s.
Proof.
  rewrite lang_seq. split; [by intros (?&?&->&->%lang_eps&?)|].
  intros. exists [], s. by rewrite lang_eps.
Qed.

Lemma lang_seq_ r1 r2 s : lang (seq_ r1 r2) s ↔ lang (Seq r1 r2) s.
Proof.
  unfold seq_. destruct r1, r2; rewrite ?lang_seq_eps_l; try done;
    split; by first [intros []%lang_void | intros []%lang_seq_void_l | intros []%lang_seq_void_r].
Qed.

Lemma lang_alt_ r1 r2 s : lang (alt_ r1 r2) s ↔ lang (Alt r1 r2) s.
Proof.
  pose proof (lang_void s). rewrite lang_alt. unfold alt_.
  destruct r1; [|destruct r2..]; rewrite ?lang_alt; tauto.
Qed.

Lemma nullable_lang r : nullable r = true ↔ lang r [].
Proof.
  induction r as [| |P|r1 IH1 r2 IH2|r1 IH1 r2 IH2|r IH]; cbn.
  - split; [done|]. by intros ?%lang_void.
  - split; [constructor|done].
  - rewrite lang_chr. naive_solver.
  - rewrite andb_true_iff IH1 IH2 lang_seq. split; [intros []; by exists [], []|].
    intros (s1&s2&Heq&?&?). symmetry in Heq. by apply app_nil in Heq as [-> ->].
  - by rewrite orb_true_iff IH1 IH2 lang_alt.
  - split; [constructor|done].
Qed.

(** A non-empty word of a starred language starts with a non-empty factor. *)
Lemma lang_star_cons r c s :
  lang (Star r) (c :: s) ↔ ∃ s1 s2, s = s1 ++ s2 ∧ lang r (c :: s1) ∧ lang (Star r) s2.
Proof.
  split.
  - intros Hl. remember (Star r) as r' eqn:Hr. remember (c :: s) as w eqn:Hw.
    revert c s Hw. induction Hl as [| | | | | |r0 s1 s2 H1 _ H2 IH]; try done. injection Hr as ->.
    destruct s1 as [|a s1]; [by auto|]. intros c s [= -> <-]. eauto.
  - intros (s1&s2&->&H1&H2). change (c :: s1 ++ s2) with ((c :: s1) ++ s2). by constructor.
Qed.

Lemma deriv_lang c r s : lang (deriv c r) s ↔ lang r (c :: s).
Proof.
  revert s. induction r as [| |P|r1 IH1 r2 IH2|r1 IH1 r2 IH2|r IH]; intros s; cbn [deriv].
  - split; by intros ?%lang_void.
  - split; [by intros ?%lang_void|]. by rewrite lang_eps.
  - rewrite lang_chr. destruct (P c) eqn:HP; [rewrite lang_eps; naive_solver|].
    split; [by intros ?%lang_void|]. intros (?&[= -> ->]&?). congruence.
  - assert (lang (Seq r1 r2) (c :: s) ↔
      (∃ s1 s2, s = s1 ++ s2 ∧ lang r1 (c :: s1) ∧ lang r2 s2) ∨ (lang r1 [] ∧ lang r2 (c :: s))) as ->.
    { rewrite lang_seq. split.
      - intros ([|a s1]&s2&Heq&H1&H2); [by right; rewrite Heq|]. left.
        injection Heq as -> ->. eauto.
      - intros [(s1&s2&->&?&?)|[??]]; [by exists (c :: s1), s2|by exists [], (c :: s)]. }
    assert (lang (seq_ (deriv c r1) r2) s ↔ (∃ s1 s2, s = s1 ++ s2 ∧ lang r1 (c :: s1) ∧ lang r2 s2)) as Hs.
    { rewrite lang_seq_ lang_seq. by setoid_rewrite IH1. }
    pose proof (nullable_lang r1) as Hnull. destruct (nullable r1).
    + rewrite lang_alt_ lang_alt IH2 Hs. tauto.
    + rewrite Hs. split; [by left|]. intros [|[Hn _]]; [done|]. by apply Hnull in Hn.
  - by rewrite lang_alt_ !lang_alt IH1 IH2.
  - rewrite lang_seq_ lang_seq lang_star_cons. by setoid_rewrite IH.
Qed.

Lemma matches_lang r s : matches r s = true ↔ lang r s.
Proof.
  revert r. induction s as [|c s IH]; intros r; cbn; [apply nullable_lang|].
  by rewrite IH deriv_lang.
Qed.

Lemma lang_star_any s : lang (Star any) s.
Proof.
  induction s as [|c s IH]; [constructor|]. apply lang_star_cons. exists [], s.
  split; [done|]. split; [|done]. by apply lang_chr; eexists.
Qed.

(** [search] looks for a factor of the string. *)
Lemma search_spec r s :
  search r s = true ↔ ∃ pre w post, chars_of s = pre ++ w ++ post ∧ lang r w.
Proof.
  unfold search. rewrite matches_lang lang_seq. split.
  - intros (pre&s2&->&_&(w&post&->&?&_)%lang_seq). eauto.
  - intros (pre&w&post&->&?). exists pre, (w ++ post). split; [done|].
    split; [apply lang_star_any|]. apply lang_seq. eauto using lang_star_any.
Qed.

(** ** Character classes *)

Definition one_of (cs : string) (c : ascii) : bool := bool_decide (c ∈ chars_of cs).
Definition none_of (cs : string) (c : ascii) : bool := negb (one_of cs c).
Definition opt (r : re) : re := Alt Eps r.
Definition plus (r : re) : re := Seq r (Star r).
Definition lit (s : string) : re := foldr (λ c r, Seq (Chr (Ascii.eqb c)) r) Eps (chars_of s).

Lemma lang_star_chr P s : lang (Star (Chr P)) s ↔ Forall (λ c, P c = true) s.
Proof.
  induction s as [|c s IH]; [split; constructor|]. rewrite lang_star_cons Forall_cons -IH. split.
  - intros (s1&s2&->&(?&[= <- ->]&?)%lang_chr&?). done.
  - intros [??]. exists [], s. split; [done|]. split; [|done]. apply lang_chr. eauto.
Qed.

Lemma lang_plus_chr P s : lang (plus (Chr P)) s ↔ s ≠ [] ∧ Forall (λ c, P c = true) s.
Proof.
  unfold plus. rewrite lang_seq. split.
  - intros (s1&s2&->&(c&->&?)%lang_chr&?%lang_star_chr). split; [done|]. by constructor.
  - intros [Hne Hall]. destruct s as [|c s]; [done|]. apply Forall_cons in Hall as [??].
    exists [c], s. split; [done|]. rewrite lang_chr lang_star_chr. eauto.
Qed.
