(* ===== verification/RegexSafety.v ===== *)
(** * Regex validation ([repository/utils.py], [validate_regex] and
    [_check_redos_patterns]) *)
From S2P Require Import Prelude Regex.
From Stdlib Require Import Ascii.

(** ** Python's engine for user-supplied patterns

    The patterns administrators store are arbitrary Python regular
    expressions; the code relies on [re.compile] accepting or rejecting them
    (or warning) and on [re.match] being a function of pattern and subject.
    Nothing else is assumed, so every theorem holds for any engine. *)
Inductive compile_result :=
  | Compiled (syntax_warning : bool)
  | CompileError.

Class PyRe := {
  re_compile : string → compile_result;
  re_match : string → string → bool;
}.

(** An engine for running the model: patterns without metacharacters, which
    [re.match] matches at the start of the subject. *)
Definition literal_engine : PyRe := {|
  re_compile := λ _, Compiled false;
  re_match := String.prefix;
|}.

(** ** [_NESTED_QUANTIFIER_RE] *)

Definition digit : re := Chr (one_of "0123456789").
Definition outer_quantifier : re :=
  Alt (Chr (one_of "+*"))
      (Seq (lit "{") (Seq (plus digit) (Seq (lit ",") (Seq (Star digit) (lit "}"))))).

Definition _NESTED_QUANTIFIER_RE : re :=
  Seq (lit "(")
  (Seq (opt (Seq (lit "?") (Chr (one_of ":<>=!"))))
  (Seq (Star (Chr (none_of ")")))
  (Seq (Chr (one_of "+*?"))
  (Seq (Star (Chr (none_of ")")))
  (Seq (lit ")")
       outer_quantifier))))).

Definition _check_redos_patterns (regex : string) : outcome unit :=
  if search _NESTED_QUANTIFIER_RE regex then Raise (MlflowException INVALID_STATE) else Ok tt.

Definition validate_regex `{PyRe} (regex : string) : outcome unit :=
  if decide (regex = "") then Raise (MlflowException INVALID_STATE)
  else if decide (1024 < String.length regex)%nat then Raise (MlflowException INVALID_STATE)
  else match re_compile regex with
       | CompileError => Raise (MlflowException INVALID_STATE)
       | Compiled true => Raise (MlflowException INVALID_STATE)
       | Compiled false => _check_redos_patterns regex
       end.

(** ** What the detector recognises, without reference to the engine *)

(** [s] repeats what precedes it: [+], [*], [{n,}] or [{n,m}]. *)
Inductive is_outer : chars → Prop :=
  | outer_plus : is_outer (chars_of "+")
  | outer_star : is_outer (chars_of "*")
  | outer_braces ds1 ds2 :
      ds1 ≠ [] → Forall (λ c, one_of "0123456789" c = true) ds1 →
      Forall (λ c, one_of "0123456789" c = true) ds2 →
      is_outer (chars_of "{" ++ ds1 ++ chars_of "," ++ ds2 ++ chars_of "}").

(** [s] contains a parenthesised piece without an inner [)] in which one of
    [+ * ?] occurs, directly followed by a repeating quantifier. *)
Definition quantified_group (s : chars) : Prop :=
  ∃ pre body q post,
    s = pre ++ chars_of "(" ++ body ++ chars_of ")" ++ q ++ post ∧
    Forall (λ c, none_of ")" c = true) body ∧
    Exists (λ c, one_of "+*?" c = true) body ∧
    is_outer q.

Lemma lang_lit s w : lang (lit s) w ↔ w = chars_of s.
Proof.
  unfold lit. generalize (chars_of s) as l. intros l. revert w.
  induction l as [|c l IH]; intros w; cbn; [apply lang_eps|].
  rewrite lang_seq. split.
  - intros (?&?&->&(?&->&->%Ascii.eqb_eq)%lang_chr&->%IH). done.
  - intros ->. exists [c], l. rewrite lang_chr IH. split; [done|]. split; [|done].
    eexists. split; [done|]. by apply Ascii.eqb_eq.
Qed.

Lemma lang_outer_quantifier q : lang outer_quantifier q ↔ is_outer q.
Proof.
  unfold outer_quantifier. rewrite lang_alt. split.
  - intros [(c&->&Hc)%lang_chr|Hrest].
    + unfold one_of in Hc. apply bool_decide_eq_true in Hc.
      cbn in Hc. apply list_elem_of_In in Hc. destruct Hc as [<-|[<-|[]]]; constructor.
    + revert Hrest. intros (?&?&->&->%lang_lit&Hrest)%lang_seq.
      revert Hrest. intros (ds1&?&->&[??]%lang_plus_chr&Hrest)%lang_seq.
      revert Hrest. intros (?&?&->&->%lang_lit&Hrest)%lang_seq.
      revert Hrest. intros (ds2&?&->&?%lang_star_chr&->%lang_lit)%lang_seq. by constructor.
  - destruct 1 as [| |ds1 ds2 ???]; [left; apply lang_chr; by eexists..|right].
    repeat (apply lang_seq; do 2 eexists; split; [reflexivity|];
            rewrite ?lang_lit ?lang_plus_chr ?lang_star_chr; split; [done|]).
    done.
Qed.

(** The optional [?:] prefix adds nothing: its characters may also be read as
    group contents. *)
Lemma lang_nested_quantifier w :
  lang _NESTED_QUANTIFIER_RE w ↔
  ∃ body q, w = chars_of "(" ++ body ++ chars_of ")" ++ q ∧
    Forall (λ c, none_of ")" c = true) body ∧ Exists (λ c, one_of "+*?" c = true) body ∧ is_outer q.
Proof.
  unfold _NESTED_QUANTIFIER_RE. split.
  - intros Hrest.
    revert Hrest. intros (?&?&->&->%lang_lit&Hrest)%lang_seq.
    revert Hrest. intros (prefix&?&->&Hp&Hrest)%lang_seq.
    revert Hrest. intros (b1&?&->&Hb1%lang_star_chr&Hrest)%lang_seq.
    revert Hrest. intros (?&?&->&(c&->&Hc)%lang_chr&Hrest)%lang_seq.
    revert Hrest. intros (b2&?&->&Hb2%lang_star_chr&Hrest)%lang_seq.
    revert Hrest. intros (?&q&->&->%lang_lit&Hq%lang_outer_quantifier)%lang_seq.
    exists (prefix ++ b1 ++ [c] ++ b2), q. split; [by rewrite -!app_assoc|].
    assert (Forall (λ c, none_of ")" c = true) [c]) as Hcok.
    { constructor; [|done]. unfold one_of in Hc. apply bool_decide_eq_true, list_elem_of_In in Hc.
      cbn in Hc. destruct Hc as [<-|[<-|[<-|[]]]]; done. }
    assert (Forall (λ c, none_of ")" c = true) prefix) as Hpok.
    { apply lang_alt in Hp as [->%lang_eps|Hp]; [done|].
      revert Hp. intros (?&?&->&->%lang_lit&(p&->&Hp)%lang_chr)%lang_seq.
      unfold one_of in Hp. apply bool_decide_eq_true, list_elem_of_In in Hp. cbn in Hp.
      repeat constructor. by destruct_or! Hp; subst. }
    rewrite !Forall_app !Exists_app. repeat split; try done.
    right; right; left. by constructor.
  - intros (body&q&->&Hall&(i&Hi)%Exists_exists&Hq).
    destruct Hi as [(b1&b2&->)%list_elem_of_split Hc].
    apply Forall_app in Hall as [Hb1 [_ Hb2]%Forall_cons].
    apply lang_seq. eexists _, _. split; [reflexivity|]. split; [by apply lang_lit|].
    apply lang_seq. exists [], ((b1 ++ i :: b2) ++ chars_of ")" ++ q).
    split; [done|]. split; [apply lang_alt; left; constructor|].
    rewrite -app_assoc. apply lang_seq. eexists _, _. split; [reflexivity|].
    split; [by apply lang_star_chr|].
    apply lang_seq. exists [i], (b2 ++ chars_of ")" ++ q). split; [done|].
    split; [apply lang_chr; eauto|].
    apply lang_seq. eexists _, _. split; [reflexivity|]. split; [by apply lang_star_chr|].
    apply lang_seq. eexists _, _. split; [reflexivity|].
    split; [by apply lang_lit|by apply lang_outer_quantifier].
Qed.

Lemma check_redos_iff regex :
  search _NESTED_QUANTIFIER_RE regex = true ↔ quantified_group (chars_of regex).
Proof.
  rewrite search_spec. unfold quantified_group. split.
  - intros (pre&w&post&->&(body&q&->&?&?&?)%lang_nested_quantifier).
    exists pre, body, q, post. split; [|done]. by rewrite -!app_assoc.
  - intros (pre&body&q&post&->&?&?&?).
    exists pre, (chars_of "(" ++ body ++ chars_of ")" ++ q), post.
    split; [by rewrite -!app_assoc|]. apply lang_nested_quantifier. eauto 10.
Qed.

Lemma validate_regex_ok `{PyRe} regex :
  validate_regex regex = Ok tt ↔
  regex ≠ "" ∧ (String.length regex ≤ 1024)%nat ∧ re_compile regex = Compiled false ∧
  ¬ quantified_group (chars_of regex).
Proof.
  rewrite -check_redos_iff not_true_iff_false. unfold validate_regex, _check_redos_patterns.
  case_decide; [naive_solver|]. case_decide; [split; [done|lia]|].
  destruct (re_compile regex) as [[]|]; [naive_solver| |naive_solver].
  destruct (search _ _); [naive_solver|]. split; [intros _|done].
  repeat split; [done|lia].
Qed.

Lemma validate_regex_error `{PyRe} regex e :
  validate_regex regex = Raise e → e = MlflowException INVALID_STATE.
Proof. unfold validate_regex, _check_redos_patterns. repeat (case_match || case_decide); naive_solver. Qed.
