(* ===== verification/Database.v ===== *)
(** * The authorization database ([mlflow_oidc_auth/db/models], [repository/utils.py])

    Tables are lists of rows in the order the database returns them; a
    transaction is a function on the whole database, run under [managed]. *)
From S2P Require Import Prelude Permissions.

(** ** Rows *)

(** The resource column(s) of a permission table: one string
    ([experiment_id], [name], [endpoint_id], [workspace], ...), except for
    scorers, whose key has two columns. *)
Inductive resource_key :=
  | Key (id : string)
  | ScorerKey (experiment_id scorer_name : string).

#[export] Instance resource_key_eq_dec : EqDecision resource_key.
Proof. solve_decision. Defined.

#[export] Instance resource_key_countable : Countable resource_key.
Proof.
  refine (inj_countable' (λ k, match k with Key s => inl s | ScorerKey a b => inr (a, b) end)
    (λ x, match x with inl s => Key s | inr (a, b) => ScorerKey a b end) _).
  by intros [].
Defined.

(** [Sql*Permission] and [Sql*GroupPermission]: [p_owner] is [user_id] or
    [group_id]. [p_prompt] is the column only the registered-model group
    table has, [false] in the others. *)
Record perm_row := PermRow {
  p_key : resource_key;
  p_owner : Z;
  p_permission : string;
  p_prompt : bool;
}.

(** [Sql*RegexPermission] and [Sql*GroupRegexPermission]. *)
Record regex_row := RegexRow {
  r_id : Z;
  r_regex : string;
  r_priority : Z;
  r_owner : Z;
  r_permission : string;
  r_prompt : bool;
}.

(** A [datetime]: what it shows, in seconds, and its offset where it has one.
    One without offset is read as UTC wherever the source needs a moment:
    [if t.tzinfo is None: t = t.replace(tzinfo=timezone.utc)]. *)
Record datetime := Datetime { wall : Z; utcoffset : option Z }.
Definition instant (t : datetime) : Z := wall t - default 0 (utcoffset t).
Definition aware (t : datetime) : datetime := Datetime (wall t) (Some (default 0 (utcoffset t))).

(** A column of type [DateTime()] has no zone: it holds [wall] and is read as this. *)
Definition naive (wall : Z) : datetime := Datetime wall None.

Lemma instant_aware t : instant (aware t) = instant t.
Proof. done. Qed.
Lemma instant_naive e : instant (aware (naive e)) = e.
Proof. unfold instant. cbn. lia. Qed.

(** [SqlUser]. [password_expiration] is what its zone-less column shows. *)
Record user_row := UserRow {
  u_id : Z;
  u_username : string;
  u_display_name : string;
  u_password_hash : string;
  u_password_expiration : option Z;
  u_is_admin : bool;
  u_is_service_account : bool;
  u_active : bool;
  u_managed_by : string;
}.

(** [SqlGroup] and [SqlUserGroup]. *)
Record group_row := GroupRow { g_id : Z; g_name : string }.
Record membership_row := MembershipRow { m_user_id : Z; m_group_id : Z }.

(** [SqlUserIdentity], [SqlAuthSession], [SqlAuthState]. *)
Record identity_row := IdentityRow {
  i_provider_id : string;
  i_subject : string;
  i_user_id : Z;
  i_last_login_at : option Z;
}.
Record auth_session_row := AuthSessionRow {
  s_session_id : string;
  s_user_id : Z;
  s_provider_id : option string;
  s_expires_at : Z;
  s_revoked_at : option Z;
}.
Record auth_state_row := AuthStateRow {
  st_state : string;
  st_provider_id : option string;
  st_relay_state : option string;
  st_expires_at : Z;
}.

#[export] Instance perm_row_eq_dec : EqDecision perm_row.
Proof. solve_decision. Defined.
#[export] Instance regex_row_eq_dec : EqDecision regex_row.
Proof. solve_decision. Defined.
#[export] Instance user_row_eq_dec : EqDecision user_row.
Proof. solve_decision. Defined.
#[export] Instance group_row_eq_dec : EqDecision group_row.
Proof. solve_decision. Defined.
#[export] Instance membership_row_eq_dec : EqDecision membership_row.
Proof. solve_decision. Defined.
#[export] Instance identity_row_eq_dec : EqDecision identity_row.
Proof. solve_decision. Defined.
#[export] Instance auth_session_row_eq_dec : EqDecision auth_session_row.
Proof. solve_decision. Defined.
#[export] Instance auth_state_row_eq_dec : EqDecision auth_state_row.
Proof. solve_decision. Defined.

(** ** The database *)

(** The families of permission tables, one per module of [db/models]. Prompts
    have no tables of their own: they share the registered-model ones. *)
Inductive table :=
  | Experiments
  | RegisteredModels
  | Scorers
  | GatewayEndpoints
  | GatewaySecrets
  | GatewayModelDefinitions
  | Workspaces.

#[export] Instance table_eq_dec : EqDecision table.
Proof. solve_decision. Defined.

Record perm_tables := PermTables {
  t_user : list perm_row;
  t_group : list perm_row;
  t_regex : list regex_row;
  t_group_regex : list regex_row;
}.

Record db := MkDb {
  users : list user_row;
  groups : list group_row;
  user_groups : list membership_row;
  user_identities : list identity_row;
  auth_sessions : list auth_session_row;
  auth_states : list auth_state_row;
  perms : table → perm_tables;
}.

Definition set_users (f : list user_row → list user_row) (d : db) : db :=
  MkDb (f (users d)) (groups d) (user_groups d) (user_identities d) (auth_sessions d) (auth_states d) (perms d).
Definition set_groups (f : list group_row → list group_row) (d : db) : db :=
  MkDb (users d) (f (groups d)) (user_groups d) (user_identities d) (auth_sessions d) (auth_states d) (perms d).
Definition set_user_groups_rows (f : list membership_row → list membership_row) (d : db) : db :=
  MkDb (users d) (groups d) (f (user_groups d)) (user_identities d) (auth_sessions d) (auth_states d) (perms d).
Definition set_identities (f : list identity_row → list identity_row) (d : db) : db :=
  MkDb (users d) (groups d) (user_groups d) (f (user_identities d)) (auth_sessions d) (auth_states d) (perms d).
Definition set_auth_sessions (f : list auth_session_row → list auth_session_row) (d : db) : db :=
  MkDb (users d) (groups d) (user_groups d) (user_identities d) (f (auth_sessions d)) (auth_states d) (perms d).
Definition set_auth_states (f : list auth_state_row → list auth_state_row) (d : db) : db :=
  MkDb (users d) (groups d) (user_groups d) (user_identities d) (auth_sessions d) (f (auth_states d)) (perms d).
Definition set_perms (t : table) (f : perm_tables → perm_tables) (d : db) : db :=
  MkDb (users d) (groups d) (user_groups d) (user_identities d) (auth_sessions d) (auth_states d)
    (λ t', (if decide (t = t') then f else id) (perms d t')).

Definition set_t_user (f : list perm_row → list perm_row) (pt : perm_tables) : perm_tables :=
  PermTables (f (t_user pt)) (t_group pt) (t_regex pt) (t_group_regex pt).
Definition set_t_group (f : list perm_row → list perm_row) (pt : perm_tables) : perm_tables :=
  PermTables (t_user pt) (f (t_group pt)) (t_regex pt) (t_group_regex pt).
Definition set_t_regex (f : list regex_row → list regex_row) (pt : perm_tables) : perm_tables :=
  PermTables (t_user pt) (t_group pt) (f (t_regex pt)) (t_group_regex pt).
Definition set_t_group_regex (f : list regex_row → list regex_row) (pt : perm_tables) : perm_tables :=
  PermTables (t_user pt) (t_group pt) (t_regex pt) (f (t_group_regex pt)).

Definition no_tables : perm_tables := PermTables [] [] [] [].
Definition empty_db : db := MkDb [] [] [] [] [] [] (λ _, no_tables).

(** ** The database engine and MLflow's session manager

    Not part of the repository: which key a new row gets, whether foreign keys
    are enforced (always on PostgreSQL, on SQLite when the pragma is on), and the
    error code [ManagedSessionMaker] gives an exception that is not already an
    [MlflowException] ("the managed session wraps every other exception into
    one", [repository/user_identity.py]), and what a [DateTime()] column keeps of
    a datetime with an offset: SQLite and MySQL drop the offset, PostgreSQL
    converts to the time zone of the session. *)
Class SqlBackend := {
  new_id : list Z → Z;
  new_id_fresh : ∀ l, new_id l ∉ l;
  fk_enforced : bool;
  session_error_code : exc → error_code;
  column_datetime : datetime → Z;
}.

(** A backend for running the model: SQLite's [max + 1] row ids, foreign keys on,
    offsets dropped. *)
Definition max_id (l : list Z) : Z := 1 + foldr Z.max 0 l.

Lemma max_id_fresh l : max_id l ∉ l.
Proof.
  assert (∀ x, x ∈ l → x ≤ foldr Z.max 0 l) as Hle.
  { induction l as [|y l IH]; [by intros ? ?%not_elem_of_nil|].
    cbn. intros x [->|Hx]%elem_of_cons; [lia|]. specialize (IH x Hx). lia. }
  intros Hin. apply Hle in Hin. unfold max_id in Hin. lia.
Qed.

Definition sqlite_backend : SqlBackend := {|
  new_id := max_id;
  new_id_fresh := max_id_fresh;
  fk_enforced := true;
  session_error_code := λ _, INTERNAL_ERROR;
  column_datetime := wall;
|}.

Section session.
Context `{SqlBackend}.

Definition session_exc (e : exc) : exc :=
  match e with
  | MlflowException c => MlflowException c
  | e => MlflowException (session_error_code e)
  end.

(** [with self._Session(...) as session: body]: commit when the body returns,
    roll back and convert the exception when it raises. *)
Definition managed {A} (body : M db A) : M db A := λ d,
  match body d with
  | (Ok a, d') => (Ok a, d')
  | (Raise e, _) => (Raise (session_exc e), d)
  end.
End session.

(** ** [session.add] followed by [session.flush]: the unique constraints *)

Definition perm_pk (r : perm_row) : resource_key * Z := (p_key r, p_owner r).
Definition regex_pk (r : regex_row) : string * Z * bool := (r_regex r, r_owner r, r_prompt r).

(** Flushing a table that now breaks one of its unique constraints raises. *)
Definition flush_unique {A B} `{EqDecision B} (pk : A → B) (rows : list A) : outcome (list A) :=
  if decide (NoDup (pk <$> rows)) then Ok rows else Raise IntegrityError.

Definition flush_perm_rows := flush_unique perm_pk.
Definition flush_regex_rows := flush_unique regex_pk.

(** Write a user, group, regex or group-regex table of family [t], checking its
    unique constraint. *)
Definition write_t_user (t : table) (f : list perm_row → list perm_row) : M db unit := λ d,
  match flush_perm_rows (f (t_user (perms d t))) with
  | Ok _ => (Ok tt, set_perms t (set_t_user f) d)
  | Raise e => (Raise e, d)
  end.
Definition write_t_group (t : table) (f : list perm_row → list perm_row) : M db unit := λ d,
  match flush_perm_rows (f (t_group (perms d t))) with
  | Ok _ => (Ok tt, set_perms t (set_t_group f) d)
  | Raise e => (Raise e, d)
  end.
Definition write_t_regex (t : table) (f : list regex_row → list regex_row) : M db unit := λ d,
  match flush_regex_rows (f (t_regex (perms d t))) with
  | Ok _ => (Ok tt, set_perms t (set_t_regex f) d)
  | Raise e => (Raise e, d)
  end.
Definition write_t_group_regex (t : table) (f : list regex_row → list regex_row) : M db unit := λ d,
  match flush_regex_rows (f (t_group_regex (perms d t))) with
  | Ok _ => (Ok tt, set_perms t (set_t_group_regex f) d)
  | Raise e => (Raise e, d)
  end.

(** Rewrite or delete one row object of a table. *)
Definition replace_row {A} `{EqDecision A} (old new : A) (rows : list A) : list A :=
  (λ r, if decide (r = old) then new else r) <$> rows.
Definition delete_row {A} `{EqDecision A} (old : A) (rows : list A) : list A :=
  filter (λ r, r ≠ old) rows.

(** ** [repository/utils.py] *)

Definition get_user (username : string) : M db user_row :=
  ask (λ d, one_or_mlflow (filter (λ u, u_username u = username) (users d))).

Definition get_group (group_name : string) : M db group_row :=
  ask (λ d, one_or_mlflow (filter (λ g, g_name g = group_name) (groups d))).

Definition list_user_groups (user : user_row) : M db (list membership_row) :=
  gets (λ d, filter (λ m, m_user_id m = u_id user) (user_groups d)).

(** ** Joins *)

(** [query(model).join(SqlUser, model.user_id == SqlUser.id)
    .filter(SqlUser.username == username)] *)
Definition join_user {A} (owner : A → Z) (rows : list A) (username : string) (d : db) : list A :=
  r ← rows;
  u ← users d;
  if decide (owner r = u_id u ∧ u_username u = username) then [r] else [].

(** [query(model).join(SqlUserGroup, ug.group_id == model.group_id)
    .join(SqlUser, SqlUser.id == ug.user_id).filter(SqlUser.username == username)] *)
Definition join_user_groups {A} (owner : A → Z) (rows : list A) (username : string) (d : db) : list A :=
  r ← rows;
  ug ← user_groups d;
  u ← users d;
  if decide (m_group_id ug = owner r ∧ u_id u = m_user_id ug ∧ u_username u = username) then [r] else [].

(** ** The well-formedness invariant *)

Definition user_ids (d : db) : list Z := u_id <$> users d.
Definition group_ids (d : db) : list Z := g_id <$> groups d.

(** Every table but the two workspace ones is written through
    [_validate_permission]. *)
Definition rows_valid (t : table) (rows : list perm_row) : Prop :=
  t ≠ Workspaces → Forall (λ r, valid_permission (p_permission r)) rows.

Record wf_tables (t : table) (uids : list Z) (pt : perm_tables) : Prop := {
  wf_user_unique : NoDup (perm_pk <$> t_user pt);
  wf_user_fk : Forall (λ r, p_owner r ∈ uids) (t_user pt);
  wf_user_valid : rows_valid t (t_user pt);
  wf_group_unique : NoDup (perm_pk <$> t_group pt);
  wf_group_valid : rows_valid t (t_group pt);
  wf_regex_unique : NoDup (regex_pk <$> t_regex pt);
  wf_regex_ids : NoDup (r_id <$> t_regex pt);
  wf_regex_fk : Forall (λ r, r_owner r ∈ uids) (t_regex pt);
  wf_regex_valid : Forall (λ r, valid_permission (r_permission r)) (t_regex pt);
  wf_group_regex_unique : NoDup (regex_pk <$> t_group_regex pt);
  wf_group_regex_ids : NoDup (r_id <$> t_group_regex pt);
  wf_group_regex_valid : Forall (λ r, valid_permission (r_permission r)) (t_group_regex pt);
}.

Record wf_db (d : db) : Prop := {
  wf_user_ids : NoDup (user_ids d);
  wf_usernames : NoDup (u_username <$> users d);
  wf_group_ids : NoDup (group_ids d);
  wf_group_names : NoDup (g_name <$> groups d);
  wf_memberships : NoDup (user_groups d);
  wf_membership_fk : Forall (λ m, m_user_id m ∈ user_ids d ∧ m_group_id m ∈ group_ids d) (user_groups d);
  wf_identities : NoDup ((λ i, (i_provider_id i, i_subject i)) <$> user_identities d);
  wf_identity_fk : Forall (λ i, i_user_id i ∈ user_ids d) (user_identities d);
  wf_sessions : NoDup (s_session_id <$> auth_sessions d);
  wf_session_fk : Forall (λ s, s_user_id s ∈ user_ids d) (auth_sessions d);
  wf_states : NoDup (st_state <$> auth_states d);
  wf_perms : ∀ t, wf_tables t (user_ids d) (perms d t);
}.

(** ** Lemmas *)

Create HintDb db discriminated.
Create Rewrite HintDb db_simpl.

Lemma perms_set_perms_eq t f d : perms (set_perms t f d) t = f (perms d t).
Proof. cbn. by rewrite decide_True. Qed.

Lemma perms_set_perms_ne t t' f d : t ≠ t' → perms (set_perms t f d) t' = perms d t'.
Proof. intros. cbn. by rewrite decide_False. Qed.

#[export] Hint Rewrite perms_set_perms_eq : db_simpl.

(** Looking a user (or a group) up by its unique name. *)
Lemma filter_username d u :
  wf_db d → u ∈ users d → filter (λ v, u_username v = u_username u) (users d) = [u].
Proof. intros. apply filter_unique; [by apply wf_usernames|done]. Qed.

Lemma filter_username_none d username :
  (∀ u, u ∈ users d → u_username u ≠ username) → filter (λ v, u_username v = username) (users d) = [].
Proof. intros. by apply filter_nil_iff. Qed.

Lemma get_user_found d u :
  wf_db d → u ∈ users d → get_user (u_username u) d = (Ok u, d).
Proof. intros. unfold get_user, ask. by rewrite filter_username. Qed.

Lemma get_user_missing d username :
  (∀ u, u ∈ users d → u_username u ≠ username) →
  get_user username d = (Raise (MlflowException RESOURCE_DOES_NOT_EXIST), d).
Proof. intros. unfold get_user, ask. by rewrite filter_username_none. Qed.

Lemma get_user_ok d username u d' :
  get_user username d = (Ok u, d') → d' = d ∧ u ∈ users d ∧ u_username u = username.
Proof.
  unfold get_user, ask. intros [= Hone <-]. split; [done|].
  destruct (filter _ _) as [|v [|]] eqn:Hf; try discriminate. injection Hone as ->.
  assert (u ∈ filter (λ v, u_username v = username) (users d)) as Hin by (rewrite Hf; set_solver).
  by apply list_elem_of_filter in Hin as [? ?].
Qed.

(** Under [wf_db] a username names at most one user: it is found or missing. *)
Lemma username_cases d username :
  wf_db d →
  (∃ u, u ∈ users d ∧ u_username u = username) ∨ (∀ u, u ∈ users d → u_username u ≠ username).
Proof.
  intros _. destruct (decide (username ∈ u_username <$> users d)) as [Hin|Hnin].
  - apply list_elem_of_fmap in Hin as (u & -> & Hu). eauto.
  - right. intros u Hu <-. apply Hnin. by apply list_elem_of_fmap_2.
Qed.

Lemma get_group_found d g :
  wf_db d → g ∈ groups d → get_group (g_name g) d = (Ok g, d).
Proof.
  intros Hwf Hg. unfold get_group, ask.
  by rewrite (filter_unique g_name _ g) //; apply wf_group_names.
Qed.

Lemma get_group_ok d group_name g d' :
  get_group group_name d = (Ok g, d') → d' = d ∧ g ∈ groups d ∧ g_name g = group_name.
Proof.
  unfold get_group, ask. intros [= Hone <-]. split; [done|].
  destruct (filter _ _) as [|v [|]] eqn:Hf; try discriminate. injection Hone as ->.
  assert (g ∈ filter (λ v, g_name v = group_name) (groups d)) as Hin by (rewrite Hf; set_solver).
  by apply list_elem_of_filter in Hin as [? ?].
Qed.

(** Two users of a well-formed database with one name, or one id, are one. *)
Lemma user_unique_name d u v :
  wf_db d → u ∈ users d → v ∈ users d → u_username u = u_username v → u = v.
Proof.
  intros Hwf Hu Hv Heq. pose proof (filter_username d v Hwf Hv) as Hf.
  assert (u ∈ filter (λ w, u_username w = u_username v) (users d)) as Hin by (by apply list_elem_of_filter).
  rewrite Hf in Hin. by apply list_elem_of_singleton in Hin.
Qed.

Lemma user_unique_id d u v :
  wf_db d → u ∈ users d → v ∈ users d → u_id u = u_id v → u = v.
Proof.
  intros Hwf Hu Hv Heq.
  pose proof (filter_unique u_id (users d) v (wf_user_ids _ Hwf) Hv) as Hf.
  assert (u ∈ filter (λ w, u_id w = u_id v) (users d)) as Hin by (by apply list_elem_of_filter).
  rewrite Hf in Hin. by apply list_elem_of_singleton in Hin.
Qed.

(** A join against [users] restricted to one username selects the rows that
    user owns, in table order. *)
Lemma join_user_found {A} (owner : A → Z) rows u d :
  wf_db d → u ∈ users d →
  join_user owner rows (u_username u) d = filter (λ r, owner r = u_id u) rows.
Proof.
  intros Hwf Hu. unfold join_user. induction rows as [|r rows IH]; [done|].
  rewrite bind_cons IH filter_cons. clear IH.
  assert (∀ us, us ⊆ users d → NoDup (u_id <$> us) →
    (us ≫= λ v, if decide (owner r = u_id v ∧ u_username v = u_username u) then [r] else [])
      = if decide (owner r = u_id u ∧ u ∈ us) then [r] else []) as Hus.
  { induction us as [|v us IHus]; intros Hsub Hnd.
    { rewrite decide_False; [done|]. set_solver. }
    rewrite bind_cons IHus; [|set_solver|by inversion Hnd].
    apply NoDup_cons in Hnd as [Hv Hnd].
    destruct (decide (owner r = u_id v ∧ u_username v = u_username u)) as [[Ho Hn]|Hno].
    - assert (v = u) as -> by (apply (user_unique_name d); set_solver).
      rewrite decide_False; [|intros [_ Hin]; by apply Hv, list_elem_of_fmap_2].
      rewrite decide_True; [done|set_solver].
    - apply decide_ext. set_solver. }
  rewrite Hus; [|done|by apply wf_user_ids].
  destruct (decide (owner r = u_id u)) as [Ho|Ho].
  - by rewrite decide_True.
  - rewrite decide_False; [done|]. by intros [? _].
Qed.

Lemma join_user_missing {A} (owner : A → Z) rows username d :
  (∀ u, u ∈ users d → u_username u ≠ username) → join_user owner rows username d = [].
Proof.
  intros Hno. unfold join_user. induction rows as [|r rows IH]; [done|].
  rewrite bind_cons IH app_nil_r. clear IH.
  assert (∀ us, us ⊆ users d →
    (us ≫= λ v, if decide (owner r = u_id v ∧ u_username v = username) then [r] else []) = []) as Hus; [|by apply Hus].
  induction us as [|v us IHus]; [done|]. intros Hsub. rewrite bind_cons IHus; [|set_solver].
  rewrite decide_False; [done|]. intros [_ Hn]. eapply Hno; [|exact Hn]. set_solver.
Qed.

(** At most one element of a list satisfies a condition: its [if]s collapse. *)
Lemma bind_if_unique {A B} (P : A → Prop) `{EqDecision A, ∀ a, Decision (P a)} (x : A) (g : A → B) l :
  NoDup l → (∀ a, a ∈ l → P a → a = x) →
  (a ← l; if decide (P a) then [g a] else []) = if decide (x ∈ l ∧ P x) then [g x] else [].
Proof.
  induction l as [|a l IH]; intros Hnd Hx.
  { destruct (decide (x ∈ [] ∧ P x)) as [[Hin _]|]; [by apply not_elem_of_nil in Hin|done]. }
  apply NoDup_cons in Hnd as [Ha Hnd]. rewrite bind_cons IH; [|done|set_solver].
  destruct (decide (P a)) as [HP|HP].
  - assert (a = x) as -> by set_solver. rewrite decide_False; [|by intros []].
    rewrite decide_True; [done|set_solver].
  - apply decide_ext. set_solver.
Qed.

Lemma bind_if_false {A B} (P : A → Prop) `{∀ a, Decision (P a)} (g : A → B) l :
  (∀ a, a ∈ l → ¬ P a) → (a ← l; if decide (P a) then [g a] else []) = [].
Proof.
  induction l as [|a l IH]; intros Hx; [done|].
  rewrite bind_cons IH; [|set_solver]. rewrite decide_False; [done|set_solver].
Qed.

(** Through the memberships of one user: the rows of the user's groups, each
    once, in table order. *)
Lemma join_user_groups_found {A} (owner : A → Z) rows u d :
  wf_db d → u ∈ users d →
  join_user_groups owner rows (u_username u) d = filter (λ r, MembershipRow (u_id u) (owner r) ∈ user_groups d) rows.
Proof.
  intros Hwf Hu. unfold join_user_groups. induction rows as [|r rows IH]; [done|].
  rewrite bind_cons IH filter_cons. clear IH.
  assert (∀ ug, (v ← users d; if decide (m_group_id ug = owner r ∧ u_id v = m_user_id ug ∧ u_username v = u_username u) then [r] else [])
     = if decide (ug = MembershipRow (u_id u) (owner r)) then [r] else []) as Hus.
  { intros ug. rewrite (bind_if_unique _ u (λ _, r)).
    - destruct ug as [mu mg]. apply decide_ext. cbn. split; [naive_solver|]. intros [= -> ->]. done.
    - apply (NoDup_fmap_1 u_id), (wf_user_ids _ Hwf).
    - intros v Hv (_&_&Hn). by apply (user_unique_name d). }
  rewrite (list_bind_ext _ (λ ug, if decide (ug = MembershipRow (u_id u) (owner r)) then [r] else []) _ (user_groups d) Hus eq_refl).
  rewrite (bind_if_unique _ (MembershipRow (u_id u) (owner r)) (λ _, r)); [|by apply wf_memberships|done].
  destruct (decide (MembershipRow (u_id u) (owner r) ∈ user_groups d)) as [Hin|Hin].
  - by rewrite decide_True.
  - rewrite decide_False; [done|]. by intros [].
Qed.

Lemma join_user_groups_missing {A} (owner : A → Z) rows username d :
  (∀ u, u ∈ users d → u_username u ≠ username) → join_user_groups owner rows username d = [].
Proof.
  intros Hno. unfold join_user_groups. induction rows as [|r rows IH]; [done|].
  rewrite bind_cons IH app_nil_r. clear IH.
  induction (user_groups d) as [|ug ugs IH]; [done|].
  rewrite bind_cons IH (bind_if_false _ (λ _, r)); [done|]. intros v Hv (_&_&Hn). by apply (Hno v).
Qed.

Lemma elem_of_join_user_groups {A} (owner : A → Z) rows username d r :
  r ∈ join_user_groups owner rows username d ↔
  r ∈ rows ∧ ∃ ug u, ug ∈ user_groups d ∧ u ∈ users d ∧
    m_group_id ug = owner r ∧ u_id u = m_user_id ug ∧ u_username u = username.
Proof.
  unfold join_user_groups. rewrite list_elem_of_bind. split.
  - intros (r' & (ug & (u & Hin & Hu)%list_elem_of_bind & Hug)%list_elem_of_bind & Hr').
    case_decide; [|by apply not_elem_of_nil in Hin].
    apply list_elem_of_singleton in Hin as ->. naive_solver.
  - intros (Hr & ug & u & Hug & Hu & Hc). exists r. split; [|done].
    apply list_elem_of_bind. exists ug. split; [|done].
    apply list_elem_of_bind. exists u. split; [|done].
    rewrite decide_True; [set_solver|done].
Qed.

(** ** Managed transactions *)

Section managed.
Context `{SqlBackend}.

Lemma managed_run {A} (m : M db A) d :
  managed m d = match m d with (Ok a, d') => (Ok a, d') | (Raise e, _) => (Raise (session_exc e), d) end.
Proof. done. Qed.

Lemma managed_ok {A} (m : M db A) d a d' : managed m d = (Ok a, d') ↔ m d = (Ok a, d').
Proof. unfold managed. destruct (m d) as [[?|?] ?]; naive_solver. Qed.

(** A transaction that raises leaves no trace, and always an MLflow error. *)
Lemma managed_raise {A} (m : M db A) d e d' :
  managed m d = (Raise e, d') → d' = d ∧ ∃ c, e = MlflowException c.
Proof.
  unfold managed. destruct (m d) as [[?|e'] ?]; [done|]. intros [= <- <-].
  split; [done|]. destruct e'; cbn; eauto.
Qed.
End managed.

#[export] Hint Rewrite @managed_run : run.

(** ** Preservation of well-formedness *)

(** A body keeps the database well formed whenever it returns; a body that
    raises is rolled back by [managed], so nothing is asked of it. *)
Definition keeps_wf {A} (m : M db A) : Prop :=
  ∀ d a d', wf_db d → m d = (Ok a, d') → wf_db d'.

Lemma keeps_wf_managed `{SqlBackend} {A} (m : M db A) :
  keeps_wf m → ∀ d o d', wf_db d → managed m d = (o, d') → wf_db d'.
Proof.
  intros Hm d [a|e] d' Hwf Hrun.
  - rewrite managed_ok in Hrun. exact (Hm _ _ _ Hwf Hrun).
  - by apply managed_raise in Hrun as [-> _].
Qed.

Lemma flush_unique_ok {A B} `{EqDecision B} (pk : A → B) rows rows' :
  flush_unique pk rows = Ok rows' ↔ rows' = rows ∧ NoDup (pk <$> rows).
Proof. unfold flush_unique. case_decide; naive_solver. Qed.

Lemma wf_set_perms t f d :
  wf_db d → wf_tables t (user_ids d) (f (perms d t)) → wf_db (set_perms t f d).
Proof.
  intros [] Ht. constructor; try done. intros t'. cbn.
  destruct (decide (t = t')) as [->|]; [done|]. apply wf_perms0.
Qed.

Definition user_rows_ok (t : table) (d : db) (rows : list perm_row) : Prop :=
  Forall (λ r, p_owner r ∈ user_ids d) rows ∧ rows_valid t rows.

Lemma write_t_user_ok t f d d' :
  write_t_user t f d = (Ok tt, d') ↔
  NoDup (perm_pk <$> f (t_user (perms d t))) ∧ d' = set_perms t (set_t_user f) d.
Proof.
  unfold write_t_user, flush_perm_rows, flush_unique. case_decide; [|by split; [|intros [? _]]].
  split; [by intros [= <-]|by intros [_ ->]].
Qed.

Lemma write_t_user_raise t f d e d' :
  write_t_user t f d = (Raise e, d') ↔
  e = IntegrityError ∧ d' = d ∧ ¬ NoDup (perm_pk <$> f (t_user (perms d t))).
Proof.
  unfold write_t_user, flush_perm_rows, flush_unique. case_decide; [by split; [|intros (_&_&?)]|].
  split; [by intros [= <- <-]|by intros (->&->&_)].
Qed.

Lemma write_t_group_ok t f d d' :
  write_t_group t f d = (Ok tt, d') ↔
  NoDup (perm_pk <$> f (t_group (perms d t))) ∧ d' = set_perms t (set_t_group f) d.
Proof.
  unfold write_t_group, flush_perm_rows, flush_unique. case_decide; [|by split; [|intros [? _]]].
  split; [by intros [= <-]|by intros [_ ->]].
Qed.

Lemma write_t_group_raise t f d e d' :
  write_t_group t f d = (Raise e, d') ↔
  e = IntegrityError ∧ d' = d ∧ ¬ NoDup (perm_pk <$> f (t_group (perms d t))).
Proof.
  unfold write_t_group, flush_perm_rows, flush_unique. case_decide; [by split; [|intros (_&_&?)]|].
  split; [by intros [= <- <-]|by intros (->&->&_)].
Qed.

Lemma write_t_regex_ok t f d d' :
  write_t_regex t f d = (Ok tt, d') ↔
  NoDup (regex_pk <$> f (t_regex (perms d t))) ∧ d' = set_perms t (set_t_regex f) d.
Proof.
  unfold write_t_regex, flush_regex_rows, flush_unique. case_decide; [|by split; [|intros [? _]]].
  split; [by intros [= <-]|by intros [_ ->]].
Qed.

Lemma write_t_regex_raise t f d e d' :
  write_t_regex t f d = (Raise e, d') ↔
  e = IntegrityError ∧ d' = d ∧ ¬ NoDup (regex_pk <$> f (t_regex (perms d t))).
Proof.
  unfold write_t_regex, flush_regex_rows, flush_unique. case_decide; [by split; [|intros (_&_&?)]|].
  split; [by intros [= <- <-]|by intros (->&->&_)].
Qed.

Lemma write_t_group_regex_ok t f d d' :
  write_t_group_regex t f d = (Ok tt, d') ↔
  NoDup (regex_pk <$> f (t_group_regex (perms d t))) ∧ d' = set_perms t (set_t_group_regex f) d.
Proof.
  unfold write_t_group_regex, flush_regex_rows, flush_unique. case_decide; [|by split; [|intros [? _]]].
  split; [by intros [= <-]|by intros [_ ->]].
Qed.

Lemma write_t_group_regex_raise t f d e d' :
  write_t_group_regex t f d = (Raise e, d') ↔
  e = IntegrityError ∧ d' = d ∧ ¬ NoDup (regex_pk <$> f (t_group_regex (perms d t))).
Proof.
  unfold write_t_group_regex, flush_regex_rows, flush_unique. case_decide; [by split; [|intros (_&_&?)]|].
  split; [by intros [= <- <-]|by intros (->&->&_)].
Qed.

(** Deleting rows, and adding or replacing one, keeps unique columns unique. *)
Lemma elem_of_delete_row {A} `{EqDecision A} (old r : A) rows :
  r ∈ delete_row old rows ↔ r ∈ rows ∧ r ≠ old.
Proof. unfold delete_row. rewrite list_elem_of_filter. naive_solver. Qed.

Lemma Forall_delete_row {A} `{EqDecision A} (P : A → Prop) (old : A) rows :
  Forall P rows → Forall P (delete_row old rows).
Proof. rewrite !Forall_forall. intros Hf r [Hr _]%elem_of_delete_row. auto. Qed.

Lemma Forall_replace_row {A} `{EqDecision A} (P : A → Prop) (old new : A) rows :
  Forall P rows → (old ∈ rows → P new) → Forall P (replace_row old new rows).
Proof.
  rewrite !Forall_forall. intros Hf Hnew r (r' & -> & Hr')%list_elem_of_fmap.
  case_decide; subst; auto.
Qed.

Lemma NoDup_fmap_delete_row {A B} `{EqDecision A} (g : A → B) (old : A) rows :
  NoDup (g <$> rows) → NoDup (g <$> delete_row old rows).
Proof. apply NoDup_fmap_filter. Qed.

(** Replacing a row by one with the same key leaves the column as it was. *)
Lemma fmap_replace_row {A B} `{EqDecision A} (g : A → B) (old new : A) rows :
  g new = g old → g <$> replace_row old new rows = g <$> rows.
Proof.
  intros Hg. unfold replace_row. rewrite -list_fmap_compose.
  apply list_fmap_ext. intros i r _. cbn. case_decide; by subst.
Qed.

Lemma rows_valid_app t rows r :
  rows_valid t rows → (t ≠ Workspaces → valid_permission (p_permission r)) → rows_valid t (rows ++ [r]).
Proof. intros Hr Hv Ht. apply Forall_app. split; [by apply Hr|]. constructor; auto. Qed.

#[export] Hint Resolve Forall_delete_row Forall_replace_row NoDup_fmap_filter rows_valid_app : db.
