(* ===== verification/Repositories.v ===== *)
(** * The permission repositories ([mlflow_oidc_auth/repository/_base.py] and the
    subclasses that override it)

    One Module per base class. A repository is its [model_class], here the
    [table] family; every method is a transaction under [managed]. *)
From S2P Require Import Prelude Permissions Regex RegexSafety Database.

(** [except IntegrityError as e: raise MlflowException(..., RESOURCE_ALREADY_EXISTS)] *)
Definition already_exists_on_conflict {A} (m : M db A) : M db A :=
  catch m (λ e, match e with
                | IntegrityError => raise (MlflowException RESOURCE_ALREADY_EXISTS)
                | e => raise e
                end).

(** ** [BaseUserPermissionRepository] *)
Module UserPermissions.
Section repo.
Context `{SqlBackend} (t : table).

Definition _get_permission (k : resource_key) (username : string) : M db perm_row :=
  ask (λ d, one_or_mlflow (filter (λ r, p_key r = k) (join_user p_owner (t_user (perms d t)) username d))).

Definition grant_permission (k : resource_key) (username permission : string) : M db perm_row :=
  _ ← lift (_validate_permission permission);
  managed (already_exists_on_conflict (
    user ← get_user username;
    let perm := PermRow k (u_id user) permission false in
    _ ← write_t_user t (λ rows, rows ++ [perm]);
    mret perm)).

Definition get_permission (k : resource_key) (username : string) : M db perm_row :=
  managed (_get_permission k username).

Definition list_permissions_for_user (username : string) : M db (list perm_row) :=
  managed (gets (λ d, join_user p_owner (t_user (perms d t)) username d)).

Definition list_permissions_for_resource (k : resource_key) : M db (list perm_row) :=
  managed (gets (λ d, filter (λ r, p_key r = k) (t_user (perms d t)))).

Definition update_permission (k : resource_key) (username permission : string) : M db perm_row :=
  _ ← lift (_validate_permission permission);
  managed (
    perm ← _get_permission k username;
    let perm' := PermRow (p_key perm) (p_owner perm) permission (p_prompt perm) in
    _ ← write_t_user t (replace_row perm perm');
    mret perm').

Definition revoke_permission (k : resource_key) (username : string) : M db unit :=
  managed (
    perm ← _get_permission k username;
    write_t_user t (delete_row perm)).

Definition rename_rows (old new : resource_key) : list perm_row → list perm_row :=
  fmap (λ r, if decide (p_key r = old) then PermRow new (p_owner r) (p_permission r) (p_prompt r) else r).

Definition rename (old_name new_name : resource_key) : M db unit :=
  managed (write_t_user t (rename_rows old_name new_name)).

(** [RegisteredModelPermissionRepository.rename] refuses to rename nothing. *)
Definition rename_checked (old_name new_name : resource_key) : M db unit :=
  managed (
    perms ← gets (λ d, filter (λ r, p_key r = old_name) (t_user (perms d t)));
    if decide (perms = []) then raise (MlflowException RESOURCE_DOES_NOT_EXIST)
    else write_t_user t (rename_rows old_name new_name)).

Definition wipe (k : resource_key) : M db unit :=
  managed (write_t_user t (filter (λ r, p_key r ≠ k))).
End repo.
End UserPermissions.

(** ** [BaseGroupPermissionRepository] *)
Module GroupPermissions.
Section repo.
Context `{SqlBackend} (t : table).

Definition _get_group_permission (k : resource_key) (group_name : string) : M db perm_row :=
  ask (λ d, one_or_mlflow (
    r ← t_group (perms d t);
    g ← groups d;
    if decide (p_owner r = g_id g ∧ p_key r = k ∧ g_name g = group_name) then [r] else [])).

Definition _get_group_permission_or_none (k : resource_key) (group_name : string) : M db (option perm_row) :=
  group ← ask (λ d, query_one_or_none (filter (λ g, g_name g = group_name) (groups d)));
  match group with
  | None => mret None
  | Some g => ask (λ d, query_one_or_none (filter (λ r, p_key r = k ∧ p_owner r = g_id g) (t_group (perms d t))))
  end.

(** [GROUP BY] is absent: one name per membership row, in group-id order. *)
Definition _list_user_groups (username : string) : M db (list string) :=
  managed (gets (λ d, g_name <$> sort_by g_id (join_user_groups g_id (groups d) username d))).

Definition insert_group_row (k : resource_key) (prompt : bool) (group_name permission : string) : M db perm_row :=
  group ← get_group group_name;
  let perm := PermRow k (g_id group) permission prompt in
  _ ← write_t_group t (λ rows, rows ++ [perm]);
  mret perm.

Definition grant_group_permission (group_name : string) (k : resource_key) (permission : string) : M db perm_row :=
  _ ← lift (_validate_permission permission);
  managed (already_exists_on_conflict (insert_group_row k false group_name permission)).

Definition list_permissions_for_group (group_name : string) : M db (list perm_row) :=
  managed (
    group ← get_group group_name;
    gets (λ d, filter (λ r, p_owner r = g_id group) (t_group (perms d t)))).

Definition list_permissions_for_group_id (group_id : Z) : M db (list perm_row) :=
  managed (gets (λ d, filter (λ r, p_owner r = group_id) (t_group (perms d t)))).

Definition list_groups_for_resource (k : resource_key) : M db (list (string * string)) :=
  managed (gets (λ d,
    g ← groups d;
    r ← t_group (perms d t);
    if decide (p_owner r = g_id g ∧ p_key r = k) then [(g_name g, p_permission r)] else [])).

(** The loop over [candidates]: keep the first row, then every row that
    [compare_permissions] says is at least as strong as the one kept. *)
Fixpoint strongest_from (user_perms : perm_row) (candidates : list perm_row) : outcome perm_row :=
  match candidates with
  | [] => Ok user_perms
  | perms :: rest =>
      b ← compare_permissions (p_permission user_perms) (p_permission perms);
      strongest_from (if b : bool then perms else user_perms) rest
  end.

Definition strongest (candidates : list perm_row) : outcome perm_row :=
  match candidates with
  | [] => Raise (MlflowException RESOURCE_DOES_NOT_EXIST)
  | perms :: rest => strongest_from perms rest
  end.

Definition user_candidates (k : resource_key) (username : string) (d : db) : list perm_row :=
  sort_by p_owner (filter (λ r, p_key r = k) (join_user_groups p_owner (t_group (perms d t)) username d)).

Definition get_group_permission_for_user_resource (k : resource_key) (username : string) : M db perm_row :=
  managed (ask (λ d, strongest (user_candidates k username d))).

Definition list_permissions_for_user_groups (username : string) : M db (list perm_row) :=
  managed (gets (λ d, sort_by p_owner (join_user_groups p_owner (t_group (perms d t)) username d))).

(** [.one()] is not caught here, unlike in [_get_group_permission]. *)
Definition one_of_group (k : resource_key) (group : group_row) : M db perm_row :=
  ask (λ d, query_one (filter (λ r, p_key r = k ∧ p_owner r = g_id group) (t_group (perms d t)))).

Definition update_group_permission (group_name : string) (k : resource_key) (permission : string) : M db perm_row :=
  _ ← lift (_validate_permission permission);
  managed (
    group ← get_group group_name;
    perm ← one_of_group k group;
    let perm' := PermRow (p_key perm) (p_owner perm) permission (p_prompt perm) in
    _ ← write_t_group t (replace_row perm perm');
    mret perm').

Definition revoke_group_permission (group_name : string) (k : resource_key) : M db unit :=
  managed (
    group ← get_group group_name;
    perm ← one_of_group k group;
    write_t_group t (delete_row perm)).

Definition rename (old_name new_name : resource_key) : M db unit :=
  managed (write_t_group t (UserPermissions.rename_rows old_name new_name)).

(** [RegisteredModelPermissionGroupRepository.rename]. *)
Definition rename_checked (old_name new_name : resource_key) : M db unit :=
  managed (
    perms ← gets (λ d, filter (λ r, p_key r = old_name) (t_group (perms d t)));
    if decide (perms = []) then raise (MlflowException RESOURCE_DOES_NOT_EXIST)
    else write_t_group t (UserPermissions.rename_rows old_name new_name)).

Definition wipe (k : resource_key) : M db unit :=
  managed (write_t_group t (filter (λ r, p_key r ≠ k))).

(** [RegisteredModelPermissionGroupRepository.list_for_user]: resolves the
    user and the memberships first, so it raises for an unknown user. *)
Definition list_for_user (username : string) : M db (list perm_row) :=
  managed (
    user ← get_user username;
    ugs ← list_user_groups user;
    gets (λ d, filter (λ r, p_owner r ∈ m_group_id <$> ugs) (t_group (perms d t)))).

(** [Gateway*GroupPermissionRepository.get_group_permission_for_user]: the
    second parameter is a group name. *)
Definition get_group_permission_for_user (k : resource_key) (group_name : string) : M db perm_row :=
  managed (_get_group_permission k group_name).

(** [ScorerPermissionGroupRepository.grant_group_permission] and
    [PromptPermissionGroupRepository.grant_prompt_permission_to_group]: the
    integrity error is left to the session. *)
Definition grant_uncaught (prompt : bool) (group_name : string) (k : resource_key) (permission : string) : M db perm_row :=
  _ ← lift (_validate_permission permission);
  managed (insert_group_row k prompt group_name permission).
End repo.
End GroupPermissions.

(** ** [PromptPermissionGroupRepository]: registered-model group rows flagged
    [prompt] *)
Module PromptGroupPermissions.
Section repo.
Context `{SqlBackend}.

Definition _get_prompt_group_permission (k : resource_key) (group_id : Z) : M db perm_row :=
  ask (λ d, one_or_mlflow (
    filter (λ r, p_key r = k ∧ p_owner r = group_id ∧ p_prompt r = true) (t_group (perms d RegisteredModels)))).

Definition grant_prompt_permission_to_group (group_name : string) (k : resource_key) (permission : string) : M db perm_row :=
  GroupPermissions.grant_uncaught RegisteredModels true group_name k permission.

Definition list_prompt_permissions_for_group (group_name : string) : M db (list perm_row) :=
  managed (
    group ← get_group group_name;
    gets (λ d, filter (λ r, p_owner r = g_id group ∧ p_prompt r = true) (t_group (perms d RegisteredModels)))).

Definition update_prompt_permission_for_group (group_name : string) (k : resource_key) (permission : string) : M db perm_row :=
  _ ← lift (_validate_permission permission);
  managed (
    group ← get_group group_name;
    perm ← _get_prompt_group_permission k (g_id group);
    let perm' := PermRow (p_key perm) (p_owner perm) permission (p_prompt perm) in
    _ ← write_t_group RegisteredModels (replace_row perm perm');
    mret perm').

Definition revoke_prompt_permission_from_group (group_name : string) (k : resource_key) : M db unit :=
  managed (
    group ← get_group group_name;
    perm ← _get_prompt_group_permission k (g_id group);
    write_t_group RegisteredModels (delete_row perm)).
End repo.
End PromptGroupPermissions.

(** ** [BaseRegexPermissionRepository] *)
Module RegexPermissions.
Section repo.
Context `{SqlBackend, PyRe} (t : table).

Definition _get_regex_permission (user_id id : Z) : M db regex_row :=
  ask (λ d, one_or_mlflow (filter (λ r, r_owner r = user_id ∧ r_id r = id) (t_regex (perms d t)))).

(** [session.add(model_class(...)); session.flush()]. *)
Definition insert_regex_row (regex : string) (priority owner : Z) (permission : string) (prompt : bool) : M db regex_row := λ d,
  let perm := RegexRow (new_id (r_id <$> t_regex (perms d t))) regex priority owner permission prompt in
  (_ ← write_t_regex t (λ rows, rows ++ [perm]); mret perm) d.

Definition grant (regex : string) (priority : Z) (permission username : string) : M db regex_row :=
  _ ← lift (validate_regex regex);
  _ ← lift (_validate_permission permission);
  managed (already_exists_on_conflict (
    user ← get_user username;
    insert_regex_row regex priority (u_id user) permission false)).

Definition get (username : string) (id : Z) : M db regex_row :=
  managed (
    user ← get_user username;
    _get_regex_permission (u_id user) id).

Definition list_all : M db (list regex_row) :=
  managed (gets (λ d, t_regex (perms d t))).

Definition list_regex_for_user (username : string) : M db (list regex_row) :=
  managed (gets (λ d, sort_by r_priority (join_user r_owner (t_regex (perms d t)) username d))).

Definition update (regex : string) (priority : Z) (permission username : string) (id : Z) : M db regex_row :=
  _ ← lift (validate_regex regex);
  _ ← lift (_validate_permission permission);
  managed (
    user ← get_user username;
    perm ← _get_regex_permission (u_id user) id;
    let perm' := RegexRow (r_id perm) regex priority (r_owner perm) permission (r_prompt perm) in
    _ ← write_t_regex t (replace_row perm perm');
    mret perm').

Definition revoke (username : string) (id : Z) : M db unit :=
  managed (
    user ← get_user username;
    perm ← _get_regex_permission (u_id user) id;
    write_t_regex t (delete_row perm)).
End repo.
End RegexPermissions.

(** ** [RegisteredModelPermissionRegexRepository]: every method takes [prompt] *)
Module ModelRegexPermissions.
Section repo.
Context `{SqlBackend, PyRe}.

Definition _get_registered_model_regex_permission (id user_id : Z) (prompt : bool) : M db regex_row :=
  ask (λ d, one_or_mlflow (
    filter (λ r, r_id r = id ∧ r_owner r = user_id ∧ r_prompt r = prompt) (t_regex (perms d RegisteredModels)))).

Definition grant (regex : string) (priority : Z) (permission username : string) (prompt : bool) : M db regex_row :=
  _ ← lift (validate_regex regex);
  _ ← lift (_validate_permission permission);
  managed (already_exists_on_conflict (
    user ← get_user username;
    RegexPermissions.insert_regex_row RegisteredModels regex priority (u_id user) permission prompt)).

Definition get (id : Z) (username : string) (prompt : bool) : M db regex_row :=
  managed (
    user ← get_user username;
    _get_registered_model_regex_permission id (u_id user) prompt).

Definition list_regex_for_user (username : string) (prompt : bool) : M db (list regex_row) :=
  managed (
    user ← get_user username;
    gets (λ d, sort_by r_priority
      (filter (λ r, r_owner r = u_id user ∧ r_prompt r = prompt) (t_regex (perms d RegisteredModels))))).

(** The new [regex] is validated and then not stored. *)
Definition update (id : Z) (regex : string) (priority : Z) (permission username : string) (prompt : bool) : M db regex_row :=
  _ ← lift (validate_regex regex);
  _ ← lift (_validate_permission permission);
  managed (
    user ← get_user username;
    perm ← _get_registered_model_regex_permission id (u_id user) prompt;
    let perm' := RegexRow (r_id perm) (r_regex perm) priority (r_owner perm) permission (r_prompt perm) in
    _ ← write_t_regex RegisteredModels (replace_row perm perm');
    mret perm').

Definition revoke (id : Z) (username : string) (prompt : bool) : M db unit :=
  managed (
    user ← get_user username;
    perm ← _get_registered_model_regex_permission id (u_id user) prompt;
    write_t_regex RegisteredModels (delete_row perm)).
End repo.
End ModelRegexPermissions.

(** ** The gateway regex repositories: like the model one, [update] validates the
    new [regex] and does not store it *)
Module GatewayRegexPermissions.
Section repo.
Context `{SqlBackend, PyRe} (t : table).

Definition update (regex : string) (priority : Z) (permission username : string) (id : Z) : M db regex_row :=
  _ ← lift (validate_regex regex);
  _ ← lift (_validate_permission permission);
  managed (
    user ← get_user username;
    perm ← RegexPermissions._get_regex_permission t (u_id user) id;
    let perm' := RegexRow (r_id perm) (r_regex perm) priority (r_owner perm) permission (r_prompt perm) in
    _ ← write_t_regex t (replace_row perm perm');
    mret perm').
End repo.
End GatewayRegexPermissions.

(** ** [BaseGroupRegexPermissionRepository] *)
Module GroupRegexPermissions.
Section repo.
Context `{SqlBackend, PyRe} (t : table).

Definition _get_group_regex_permission (id group_id : Z) : M db regex_row :=
  ask (λ d, one_or_mlflow (filter (λ r, r_id r = id ∧ r_owner r = group_id) (t_group_regex (perms d t)))).

Definition _list_group_permissions (groups : list Z) : M db (list regex_row) :=
  gets (λ d, sort_by r_priority (filter (λ r, r_owner r ∈ groups) (t_group_regex (perms d t)))).

Definition insert_group_regex_row (regex : string) (priority owner : Z) (permission : string) (prompt : bool) : M db regex_row := λ d,
  let perm := RegexRow (new_id (r_id <$> t_group_regex (perms d t))) regex priority owner permission prompt in
  (_ ← write_t_group_regex t (λ rows, rows ++ [perm]); mret perm) d.

Definition grant (group_name regex : string) (priority : Z) (permission : string) : M db regex_row :=
  _ ← lift (_validate_permission permission);
  _ ← lift (validate_regex regex);
  managed (already_exists_on_conflict (
    group ← get_group group_name;
    insert_group_regex_row regex priority (g_id group) permission false)).

Definition get (group_name : string) (id : Z) : M db regex_row :=
  managed (
    group ← get_group group_name;
    _get_group_regex_permission id (g_id group)).

Definition update (id : Z) (group_name regex : string) (priority : Z) (permission : string) : M db regex_row :=
  _ ← lift (_validate_permission permission);
  _ ← lift (validate_regex regex);
  managed (
    group ← get_group group_name;
    perm ← _get_group_regex_permission id (g_id group);
    let perm' := RegexRow (r_id perm) regex priority (r_owner perm) permission (r_prompt perm) in
    _ ← write_t_group_regex t (replace_row perm perm');
    mret perm').

Definition revoke (group_name : string) (id : Z) : M db unit :=
  managed (
    group ← get_group group_name;
    perm ← _get_group_regex_permission id (g_id group);
    write_t_group_regex t (delete_row perm)).

Definition list_permissions_for_group (group_name : string) : M db (list regex_row) :=
  managed (
    group ← get_group group_name;
    _list_group_permissions [g_id group]).

Fixpoint get_groups (group_names : list string) : M db (list group_row) :=
  match group_names with
  | [] => mret []
  | n :: rest => g ← get_group n; gs ← get_groups rest; mret (g :: gs)
  end.

Definition list_permissions_for_groups (group_names : list string) : M db (list regex_row) :=
  managed (
    gs ← get_groups group_names;
    _list_group_permissions (g_id <$> gs)).

Definition list_permissions_for_group_id (group_id : Z) : M db (list regex_row) :=
  managed (_list_group_permissions [group_id]).

Definition list_permissions_for_groups_ids (group_ids : list Z) : M db (list regex_row) :=
  managed (_list_group_permissions group_ids).

Definition list_permissions_for_user_groups (username : string) : M db (list regex_row) :=
  managed (
    group_ids ← gets (λ d, m_group_id <$> join_user m_user_id (user_groups d) username d);
    _list_group_permissions group_ids).
End repo.
End GroupRegexPermissions.

(** ** [RegisteredModelGroupRegexPermissionRepository] *)
Module ModelGroupRegexPermissions.
Section repo.
Context `{SqlBackend, PyRe}.

Definition _get_registered_model_group_regex_permission (id group_id : Z) (prompt : bool) : M db regex_row :=
  ask (λ d, one_or_mlflow (
    filter (λ r, r_id r = id ∧ r_owner r = group_id ∧ r_prompt r = prompt) (t_group_regex (perms d RegisteredModels)))).

Definition ids_filter (group_ids : list Z) (prompt : bool) (d : db) : list regex_row :=
  sort_by r_priority (filter (λ r, r_owner r ∈ group_ids ∧ r_prompt r = prompt) (t_group_regex (perms d RegisteredModels))).

(** No [validate_regex] here, and the integrity error is left to the session. *)
Definition grant (group_name regex permission : string) (priority : Z) (prompt : bool) : M db regex_row :=
  _ ← lift (_validate_permission permission);
  managed (
    group ← get_group group_name;
    GroupRegexPermissions.insert_group_regex_row RegisteredModels regex priority (g_id group) permission prompt).

Definition get (id : Z) (group_name : string) (prompt : bool) : M db regex_row :=
  managed (
    group ← get_group group_name;
    _get_registered_model_group_regex_permission id (g_id group) prompt).

Definition list_permissions_for_group (group_name : string) (prompt : bool) : M db (list regex_row) :=
  managed (
    group ← get_group group_name;
    gets (ids_filter [g_id group] prompt)).

Definition list_permissions_for_groups (group_names : list string) (prompt : bool) : M db (list regex_row) :=
  managed (
    gs ← GroupRegexPermissions.get_groups group_names;
    gets (ids_filter (g_id <$> gs) prompt)).

Definition list_permissions_for_groups_ids (group_ids : list Z) (prompt : bool) : M db (list regex_row) :=
  managed (gets (ids_filter group_ids prompt)).

Definition update (id : Z) (regex group_name permission : string) (priority : Z) (prompt : bool) : M db regex_row :=
  _ ← lift (_validate_permission permission);
  managed (
    group ← get_group group_name;
    perm ← _get_registered_model_group_regex_permission id (g_id group) prompt;
    let perm' := RegexRow (r_id perm) regex priority (r_owner perm) permission prompt in
    _ ← write_t_group_regex RegisteredModels (replace_row perm perm');
    mret perm').

Definition revoke (id : Z) (group_name : string) (prompt : bool) : M db unit :=
  managed (
    group ← get_group group_name;
    perm ← _get_registered_model_group_regex_permission id (g_id group) prompt;
    write_t_group_regex RegisteredModels (delete_row perm)).
End repo.
End ModelGroupRegexPermissions.

(** ** [WorkspacePermissionRepository] and [WorkspaceGroupPermissionRepository]

    Keyed by the owner's id; no [_validate_permission], and only
    [NoResultFound] is caught. *)
Module WorkspacePermissions.
Section repo.
Context `{SqlBackend}.

Definition one_workspace_row (rows : db → list perm_row) (workspace : string) (owner : Z) : M db perm_row :=
  ask (λ d,
    match query_one (filter (λ r, p_key r = Key workspace ∧ p_owner r = owner) (rows d)) with
    | Raise NoResultFound => Raise (MlflowException RESOURCE_DOES_NOT_EXIST)
    | o => o
    end).

Definition user_rows (d : db) : list perm_row := t_user (perms d Workspaces).
Definition group_rows (d : db) : list perm_row := t_group (perms d Workspaces).

Definition get (workspace : string) (user_id : Z) : M db perm_row :=
  managed (one_workspace_row user_rows workspace user_id).

Definition create (workspace : string) (user_id : Z) (permission : string) : M db perm_row :=
  managed (already_exists_on_conflict (
    let perm := PermRow (Key workspace) user_id permission false in
    _ ← write_t_user Workspaces (λ rows, rows ++ [perm]);
    mret perm)).

Definition update (workspace : string) (user_id : Z) (permission : string) : M db perm_row :=
  managed (
    perm ← one_workspace_row user_rows workspace user_id;
    let perm' := PermRow (p_key perm) (p_owner perm) permission (p_prompt perm) in
    _ ← write_t_user Workspaces (replace_row perm perm');
    mret perm').

Definition delete (workspace : string) (user_id : Z) : M db unit :=
  managed (
    perm ← one_workspace_row user_rows workspace user_id;
    write_t_user Workspaces (delete_row perm)).

Definition list_for_user (user_id : Z) : M db (list perm_row) :=
  managed (gets (λ d, filter (λ r, p_owner r = user_id) (user_rows d))).

Definition list_for_workspace (workspace : string) : M db (list perm_row) :=
  managed (gets (λ d, filter (λ r, p_key r = Key workspace) (user_rows d))).

(** The bulk [delete()] returns the number of rows it removed. *)
Definition delete_all_for_workspace (workspace : string) : M db Z :=
  managed (
    gone ← gets (λ d, filter (λ r, p_key r = Key workspace) (user_rows d));
    _ ← write_t_user Workspaces (filter (λ r, p_key r ≠ Key workspace));
    mret (Z.of_nat (length gone))).

Definition group_get (workspace : string) (group_id : Z) : M db perm_row :=
  managed (one_workspace_row group_rows workspace group_id).

Definition group_create (workspace : string) (group_id : Z) (permission : string) : M db perm_row :=
  managed (already_exists_on_conflict (
    let perm := PermRow (Key workspace) group_id permission false in
    _ ← write_t_group Workspaces (λ rows, rows ++ [perm]);
    mret perm)).

Definition group_update (workspace : string) (group_id : Z) (permission : string) : M db perm_row :=
  managed (
    perm ← one_workspace_row group_rows workspace group_id;
    let perm' := PermRow (p_key perm) (p_owner perm) permission (p_prompt perm) in
    _ ← write_t_group Workspaces (replace_row perm perm');
    mret perm').

Definition group_delete (workspace : string) (group_id : Z) : M db unit :=
  managed (
    perm ← one_workspace_row group_rows workspace group_id;
    write_t_group Workspaces (delete_row perm)).

Definition list_for_group (group_id : Z) : M db (list perm_row) :=
  managed (gets (λ d, filter (λ r, p_owner r = group_id) (group_rows d))).

Definition group_list_for_workspace (workspace : string) : M db (list perm_row) :=
  managed (gets (λ d, filter (λ r, p_key r = Key workspace) (group_rows d))).

Definition group_delete_all_for_workspace (workspace : string) : M db Z :=
  managed (
    gone ← gets (λ d, filter (λ r, p_key r = Key workspace) (group_rows d));
    _ ← write_t_group Workspaces (filter (λ r, p_key r ≠ Key workspace));
    mret (Z.of_nat (length gone))).

(** [get_highest_for_user]: the join is on [user_groups] only, in table order. *)
Definition highest_candidates (workspace : string) (user_id : Z) (d : db) : list perm_row :=
  r ← group_rows d;
  ug ← user_groups d;
  if decide (p_owner r = m_group_id ug ∧ p_key r = Key workspace ∧ m_user_id ug = user_id) then [r] else [].

Definition get_highest_for_user (workspace : string) (user_id : Z) : M db perm_row :=
  managed (ask (λ d, GroupPermissions.strongest (highest_candidates workspace user_id d))).
End repo.
End WorkspacePermissions.
