(* ===== verification/RepositoryFacts.v ===== *)
(** * The permission repositories: functional behaviour and invariants *)
From S2P Require Import Prelude Permissions Regex RegexSafety Database Repositories.

(** ** The user repository as a partial map

    What a client of [BaseUserPermissionRepository] may rely on: a map from
    (resource, username) to a permission name. *)

Definition perm_view := resource_key → string → option string.

Definition user_view (t : table) (d : db) : perm_view := λ k username,
  p_permission <$> head (filter (λ r, p_key r = k) (join_user p_owner (t_user (perms d t)) username d)).

Definition upd_view (v : perm_view) (k : resource_key) (username : string) (o : option string) : perm_view :=
  λ k' n', if decide (k' = k ∧ n' = username) then o else v k' n'.

(** The operations and what each does to the map. *)
Inductive perm_op :=
  | OpGet
  | OpGrant (permission : string)
  | OpUpdate (permission : string)
  | OpRevoke.

Definition not_found {A} : outcome A := Raise (MlflowException RESOURCE_DOES_NOT_EXIST).
Definition bad_permission {A} : outcome A := Raise (MlflowException INVALID_PARAMETER_VALUE).

(** Result (the permission read or written) and new map. *)
Definition spec_perm_op (known : string → Prop) `{∀ n, Decision (known n)}
    (v : perm_view) (k : resource_key) (username : string) (op : perm_op) : outcome (option string) * perm_view :=
  match op with
  | OpGet =>
      match v k username with
      | Some p => (Ok (Some p), v)
      | None => (not_found, v)
      end
  | OpGrant p =>
      if decide (valid_permission p) then
        if decide (known username) then
          match v k username with
          | Some _ => (Raise (MlflowException RESOURCE_ALREADY_EXISTS), v)
          | None => (Ok (Some p), upd_view v k username (Some p))
          end
        else (not_found, v)
      else (bad_permission, v)
  | OpUpdate p =>
      if decide (valid_permission p) then
        match v k username with
        | Some _ => (Ok (Some p), upd_view v k username (Some p))
        | None => (not_found, v)
        end
      else (bad_permission, v)
  | OpRevoke =>
      match v k username with
      | Some _ => (Ok None, upd_view v k username None)
      | None => (not_found, v)
      end
  end.

Definition run_perm_op `{SqlBackend} (t : table) (k : resource_key) (username : string) (op : perm_op) : M db (option string) :=
  match op with
  | OpGet => r ← UserPermissions.get_permission t k username; mret (Some (p_permission r))
  | OpGrant p => r ← UserPermissions.grant_permission t k username p; mret (Some (p_permission r))
  | OpUpdate p => r ← UserPermissions.update_permission t k username p; mret (Some (p_permission r))
  | OpRevoke => _ ← UserPermissions.revoke_permission t k username; mret None
  end.

Definition known_user (d : db) (username : string) : Prop := Exists (λ u, u_username u = username) (users d).
#[export] Instance known_user_dec d n : Decision (known_user d n).
Proof. unfold known_user. apply _. Defined.

(** ** Lemmas on rows selected by key and owner *)

Section rows.
Context `{SqlBackend}.

Lemma filter_key_owner rows k o :
  NoDup (perm_pk <$> rows) →
  (∃ r, filter (λ r, p_key r = k) (filter (λ r, p_owner r = o) rows) = [r] ∧ r ∈ rows ∧ perm_pk r = (k, o)) ∨
  (filter (λ r, p_key r = k) (filter (λ r, p_owner r = o) rows) = [] ∧ (k, o) ∉ (perm_pk <$> rows)).
Proof.
  intros Hnd. rewrite list_filter_filter.
  assert (filter (λ r, p_key r = k ∧ p_owner r = o) rows = filter (λ r, perm_pk r = (k, o)) rows) as ->.
  { apply list_filter_iff. intros r. unfold perm_pk. naive_solver. }
  destruct (decide ((k, o) ∈ perm_pk <$> rows)) as [Hin|Hnin].
  - left. apply list_elem_of_fmap in Hin as (r & Hr & Hin). exists r.
    rewrite Hr. by rewrite (filter_unique perm_pk).
  - right. split; [|done]. apply filter_nil_iff. intros r Hr Heq. apply Hnin.
    rewrite -Heq. by apply list_elem_of_fmap_2.
Qed.

(** [_get_permission] either finds the unique row or reports it missing. *)
Lemma get_row_cases t d k u :
  wf_db d → u ∈ users d →
  (∃ r, r ∈ t_user (perms d t) ∧ perm_pk r = (k, u_id u) ∧
     UserPermissions._get_permission t k (u_username u) d = (Ok r, d) ∧
     user_view t d k (u_username u) = Some (p_permission r)) ∨
  ((k, u_id u) ∉ (perm_pk <$> t_user (perms d t)) ∧
     UserPermissions._get_permission t k (u_username u) d = (not_found, d) ∧
     user_view t d k (u_username u) = None).
Proof.
  intros Hwf Hu. unfold user_view, UserPermissions._get_permission, ask.
  rewrite (join_user_found p_owner _ u d Hwf Hu).
  destruct (filter_key_owner (t_user (perms d t)) k (u_id u)) as [(r&->&?&?)|[-> ?]].
  - by apply wf_perms.
  - left. by exists r.
  - by right.
Qed.

Lemma get_row_unknown t d k username :
  (∀ u, u ∈ users d → u_username u ≠ username) →
  UserPermissions._get_permission t k username d = (not_found, d) ∧ user_view t d k username = None.
Proof.
  intros Hno. unfold user_view, UserPermissions._get_permission, ask.
  by rewrite join_user_missing.
Qed.

Lemma known_user_in d u : u ∈ users d → known_user d (u_username u).
Proof. intros. apply Exists_exists. eauto. Qed.

Lemma not_known_user d username :
  ¬ known_user d username ↔ ∀ u, u ∈ users d → u_username u ≠ username.
Proof. unfold known_user. rewrite Exists_exists. naive_solver. Qed.
End rows.

(** ** Well-formedness after a write *)

Lemma wf_set_t_user t f d :
  wf_db d → NoDup (perm_pk <$> f (t_user (perms d t))) → user_rows_ok t d (f (t_user (perms d t))) →
  wf_db (set_perms t (set_t_user f) d).
Proof.
  intros Hwf Hnd [Hfk Hv]. apply wf_set_perms; [done|].
  destruct (wf_perms _ Hwf t). by constructor.
Qed.

Lemma wf_set_t_group t f d :
  wf_db d → NoDup (perm_pk <$> f (t_group (perms d t))) → rows_valid t (f (t_group (perms d t))) →
  wf_db (set_perms t (set_t_group f) d).
Proof.
  intros Hwf Hnd Hv. apply wf_set_perms; [done|].
  destruct (wf_perms _ Hwf t). by constructor.
Qed.

Definition regex_rows_ok (rows : list regex_row) : Prop :=
  NoDup (r_id <$> rows) ∧ Forall (λ r, valid_permission (r_permission r)) rows.

Lemma wf_set_t_regex t f d :
  wf_db d → NoDup (regex_pk <$> f (t_regex (perms d t))) → regex_rows_ok (f (t_regex (perms d t))) →
  Forall (λ r, r_owner r ∈ user_ids d) (f (t_regex (perms d t))) →
  wf_db (set_perms t (set_t_regex f) d).
Proof.
  intros Hwf Hnd [Hid Hv] Hfk. apply wf_set_perms; [done|].
  destruct (wf_perms _ Hwf t). by constructor.
Qed.

Lemma wf_set_t_group_regex t f d :
  wf_db d → NoDup (regex_pk <$> f (t_group_regex (perms d t))) → regex_rows_ok (f (t_group_regex (perms d t))) →
  wf_db (set_perms t (set_t_group_regex f) d).
Proof.
  intros Hwf Hnd [Hid Hv]. apply wf_set_perms; [done|].
  destruct (wf_perms _ Hwf t). by constructor.
Qed.

#[export] Hint Resolve wf_set_t_user wf_set_t_group wf_set_t_regex wf_set_t_group_regex : db.

Lemma user_rows_ok_wf t d : wf_db d → user_rows_ok t d (t_user (perms d t)).
Proof. intros Hwf. destruct (wf_perms _ Hwf t). by split. Qed.

Lemma user_rows_ok_insert t d r :
  wf_db d → p_owner r ∈ user_ids d → (t ≠ Workspaces → valid_permission (p_permission r)) →
  user_rows_ok t d (t_user (perms d t) ++ [r]).
Proof.
  intros Hwf Hr Hv. destruct (user_rows_ok_wf t d Hwf) as [Hfk Hval]. split.
  - apply Forall_app. split; [exact Hfk|]. constructor; [exact Hr|constructor].
  - apply rows_valid_app; assumption.
Qed.

Lemma user_rows_ok_delete t d r :
  wf_db d → user_rows_ok t d (delete_row r (t_user (perms d t))).
Proof.
  intros Hwf. destruct (user_rows_ok_wf t d Hwf) as [? Hv].
  split; [by apply Forall_delete_row|]. intros Ht. apply Forall_delete_row. by apply Hv.
Qed.

Lemma user_rows_ok_replace t d r r' :
  wf_db d → p_owner r' = p_owner r → (t ≠ Workspaces → valid_permission (p_permission r')) →
  user_rows_ok t d (replace_row r r' (t_user (perms d t))).
Proof.
  intros Hwf Ho Hv'. destruct (user_rows_ok_wf t d Hwf) as [Hfk Hv]. split.
  - apply Forall_replace_row; [done|]. intros Hr. rewrite Ho. rewrite Forall_forall in Hfk. by apply Hfk.
  - intros Ht. apply Forall_replace_row; [by apply Hv|]. intros _. by apply Hv'.
Qed.

Lemma rows_valid_group t d : wf_db d → rows_valid t (t_group (perms d t)).
Proof. intros Hwf. by destruct (wf_perms _ Hwf t). Qed.

Lemma rows_valid_delete t r rows : rows_valid t rows → rows_valid t (delete_row r rows).
Proof. intros Hv Ht. by apply Forall_delete_row, Hv. Qed.

Lemma rows_valid_replace t r r' rows :
  rows_valid t rows → (t ≠ Workspaces → valid_permission (p_permission r')) → rows_valid t (replace_row r r' rows).
Proof. intros Hv Hr Ht. apply Forall_replace_row; [by apply Hv|]. intros _. by apply Hr. Qed.

#[export] Hint Resolve user_rows_ok_insert user_rows_ok_delete user_rows_ok_replace
  rows_valid_group rows_valid_delete rows_valid_replace : db.

(** ** Reading the view off the rows *)

Lemma user_view_Some t d k username p :
  wf_db d →
  user_view t d k username = Some p ↔
  ∃ u r, u ∈ users d ∧ u_username u = username ∧ r ∈ t_user (perms d t) ∧
         perm_pk r = (k, u_id u) ∧ p_permission r = p.
Proof.
  intros Hwf. destruct (username_cases d username Hwf) as [(u&Hu&<-)|Hno].
  - destruct (get_row_cases t d k u Hwf Hu) as [(r&Hr&Hpk&_&->)|(Hnin&_&->)].
    + split; [intros [= <-]; eauto 10|]. intros (u'&r'&Hu'&Hn&Hr'&Hpk'&<-).
      apply (user_unique_name d) in Hn as ->; [|done..].
      pose proof (filter_unique perm_pk _ r (wf_user_unique _ _ _ (wf_perms _ Hwf t)) Hr) as Hf.
      assert (r' ∈ filter (λ y, perm_pk y = perm_pk r) (t_user (perms d t))) as Hin.
      { apply list_elem_of_filter. split; [by rewrite Hpk Hpk'|done]. }
      rewrite Hf in Hin. by apply list_elem_of_singleton in Hin as ->.
    + split; [done|]. intros (u'&r'&Hu'&Hn&Hr'&Hpk'&<-).
      apply (user_unique_name d) in Hn as ->; [|done..].
      destruct Hnin. rewrite -Hpk'. by apply list_elem_of_fmap_2.
  - destruct (get_row_unknown t d k username Hno) as [_ ->]. split; [done|].
    intros (u&?&Hu&Hn&_). by destruct (Hno u).
Qed.

(** Rewriting the rows of table [t] changes the view exactly as it changes the
    rows with the key. *)
Lemma user_view_write t f d k u o :
  wf_db d → wf_db (set_perms t (set_t_user f) d) → u ∈ users d →
  (∀ r, perm_pk r ≠ (k, u_id u) → r ∈ f (t_user (perms d t)) ↔ r ∈ t_user (perms d t)) →
  (∀ r, r ∈ f (t_user (perms d t)) → perm_pk r = (k, u_id u) → o = Some (p_permission r)) →
  (∀ p, o = Some p → ∃ r, r ∈ f (t_user (perms d t)) ∧ perm_pk r = (k, u_id u) ∧ p_permission r = p) →
  ∀ k' n', user_view t (set_perms t (set_t_user f) d) k' n' = upd_view (user_view t d) k (u_username u) o k' n'.
Proof.
  intros Hwf Hwf' Hu Hother Hkey Ho k' n'. apply option_eq. intros p.
  rewrite (user_view_Some _ _ _ _ _ Hwf'). rewrite perms_set_perms_eq. cbn [users set_perms set_t_user t_user].
  unfold upd_view. case_decide as Hc.
  - destruct Hc as [-> ->]. split.
    + intros (u'&r&Hu'&Hn&Hr&Hpk&<-). apply (user_unique_name d) in Hn as ->; [|done..].
      by apply Hkey.
    + intros (r&Hr&Hpk&<-)%Ho. eauto 10.
  - rewrite (user_view_Some _ _ _ _ _ Hwf).
    assert (∀ u' r, u' ∈ users d → u_username u' = n' → perm_pk r = (k', u_id u') → perm_pk r ≠ (k, u_id u)) as Hne.
    { intros u' r Hu' Hn Hpk. rewrite Hpk. intros [= -> Hid]. destruct Hc.
      split; [done|]. rewrite -Hn. f_equal. by apply (user_unique_id d). }
    split; intros (u'&r&Hu'&Hn&Hr&Hpk&<-); exists u', r; repeat split; try done;
      eapply Hother; eauto.
Qed.

(** ** One lemma per operation *)

Section refinement.
Context `{SqlBackend}.

(** What an operation has to establish: its outcome, the new view, the
    invariant, and the tables it leaves alone. *)
Definition refines_to (t : table) (d : db) (run : outcome (option string) * db) (spec : outcome (option string) * perm_view) : Prop :=
  run.1 = spec.1 ∧ (∀ k' n', user_view t run.2 k' n' = spec.2 k' n') ∧ wf_db run.2 ∧
  (∀ t', t' ≠ t → perms run.2 t' = perms d t') ∧ users run.2 = users d.

Lemma refines_unchanged t d o v :
  wf_db d → (∀ k' n', user_view t d k' n' = v k' n') → refines_to t d (o, d) (o, v).
Proof. done. Qed.

Lemma refines_write t d f k u o o' :
  wf_db d → u ∈ users d →
  NoDup (perm_pk <$> f (t_user (perms d t))) → user_rows_ok t d (f (t_user (perms d t))) →
  (∀ r, perm_pk r ≠ (k, u_id u) → r ∈ f (t_user (perms d t)) ↔ r ∈ t_user (perms d t)) →
  (∀ r, r ∈ f (t_user (perms d t)) → perm_pk r = (k, u_id u) → o' = Some (p_permission r)) →
  (∀ p, o' = Some p → ∃ r, r ∈ f (t_user (perms d t)) ∧ perm_pk r = (k, u_id u) ∧ p_permission r = p) →
  refines_to t d (o, set_perms t (set_t_user f) d) (o, upd_view (user_view t d) k (u_username u) o').
Proof.
  intros Hwf Hu Hnd Hok Hother Hkey Ho.
  assert (wf_db (set_perms t (set_t_user f) d)) as Hwf' by auto with db.
  unfold refines_to. split_and!; [done|by apply user_view_write|done| |done]. intros t' Ht. apply perms_set_perms_ne. congruence.
Qed.

Lemma grant_refines t d k username p :
  wf_db d →
  refines_to t d (run_perm_op t k username (OpGrant p) d)
    (spec_perm_op (known_user d) (user_view t d) k username (OpGrant p)).
Proof.
  intros Hwf. unfold run_perm_op, UserPermissions.grant_permission, spec_perm_op.
  autorewrite with run.
  case_decide as Hv.
  2:{ rewrite (validate_permission_invalid _ Hv). by apply refines_unchanged. }
  rewrite (proj2 (validate_permission_ok _) Hv).
  unfold already_exists_on_conflict. autorewrite with run.
  case_decide as Hknown.
  - apply Exists_exists in Hknown as (u&Hu&<-). rewrite (get_user_found d u) //.
    autorewrite with run. unfold write_t_user, flush_perm_rows, flush_unique.
    destruct (get_row_cases t d k u Hwf Hu) as [(r&Hr&Hpk&_&->)|(Hnin&_&->)].
    + rewrite decide_False; [by apply refines_unchanged|].
      rewrite fmap_app. intros (_&Hd&_)%NoDup_app. apply (Hd (perm_pk r)); [by apply list_elem_of_fmap_2|].
      rewrite Hpk. by apply list_elem_of_singleton.
    + rewrite decide_True.
      * apply refines_write; try done; cbn.
        -- by apply NoDup_fmap_snoc; [apply wf_perms|].
        -- apply user_rows_ok_insert; [done| |done]. by apply (list_elem_of_fmap_2 u_id).
        -- intros r Hr. rewrite elem_of_app list_elem_of_singleton. split; [|by left].
           intros [?|Heq]; [done|subst; by destruct Hr].
        -- intros r [Hr|Hr%list_elem_of_singleton]%elem_of_app Hpk; [|by subst].
           destruct Hnin. rewrite -Hpk. by apply list_elem_of_fmap_2.
        -- intros p' [= <-]. exists (PermRow k (u_id u) p false). set_solver.
      * by apply NoDup_fmap_snoc; [apply wf_perms|].
  - rewrite (get_user_missing d username); [|by apply not_known_user].
    by apply refines_unchanged.
Qed.

(** The three other operations look the row up first. *)
Lemma get_refines t d k username :
  wf_db d →
  refines_to t d (run_perm_op t k username OpGet d)
    (spec_perm_op (known_user d) (user_view t d) k username OpGet).
Proof.
  intros Hwf. unfold run_perm_op, UserPermissions.get_permission, spec_perm_op. autorewrite with run.
  destruct (username_cases d username Hwf) as [(u&Hu&<-)|Hno].
  - destruct (get_row_cases t d k u Hwf Hu) as [(r&Hr&Hpk&->&->)|(Hnin&->&->)]; by apply refines_unchanged.
  - destruct (get_row_unknown t d k username Hno) as [-> ->]. by apply refines_unchanged.
Qed.

Lemma row_of_key t d k r r' :
  wf_db d → r ∈ t_user (perms d t) → perm_pk r = k → r' ∈ t_user (perms d t) → perm_pk r' = k → r' = r.
Proof.
  intros Hwf Hr Hk Hr' Hk'.
  pose proof (filter_unique perm_pk _ r (wf_user_unique _ _ _ (wf_perms _ Hwf t)) Hr) as Hf.
  assert (r' ∈ filter (λ y, perm_pk y = perm_pk r) (t_user (perms d t))) as Hin
    by (apply list_elem_of_filter; split; [congruence|done]).
  rewrite Hf in Hin. by apply list_elem_of_singleton in Hin.
Qed.

Lemma update_refines t d k username p :
  wf_db d →
  refines_to t d (run_perm_op t k username (OpUpdate p) d)
    (spec_perm_op (known_user d) (user_view t d) k username (OpUpdate p)).
Proof.
  intros Hwf. unfold run_perm_op, UserPermissions.update_permission, spec_perm_op. autorewrite with run.
  case_decide as Hv.
  2:{ rewrite (validate_permission_invalid _ Hv). by apply refines_unchanged. }
  rewrite (proj2 (validate_permission_ok _) Hv). autorewrite with run.
  destruct (username_cases d username Hwf) as [(u&Hu&<-)|Hno].
  2:{ destruct (get_row_unknown t d k username Hno) as [-> ->]. by apply refines_unchanged. }
  destruct (get_row_cases t d k u Hwf Hu) as [(r&Hr&Hpk&->&->)|(Hnin&->&->)]; [|by apply refines_unchanged].
  set (r' := PermRow (p_key r) (p_owner r) p (p_prompt r)).
  assert (perm_pk r' = perm_pk r) as Hpk' by done.
  pose proof (wf_user_unique _ _ _ (wf_perms _ Hwf t)) as Hnd.
  autorewrite with run. unfold write_t_user, flush_perm_rows, flush_unique.
  rewrite decide_True; [|by rewrite fmap_replace_row]. apply refines_write; try done.
  - by rewrite fmap_replace_row.
  - by apply user_rows_ok_replace.
  - intros s Hs. rewrite list_elem_of_fmap. split.
    + intros (s'&->&Hs'). case_decide; [by destruct Hs; rewrite Hpk' Hpk|done].
    + intros Hs'. exists s. rewrite decide_False; [done|]. intros ->. by destruct Hs.
  - intros s (s'&->&Hs')%list_elem_of_fmap. case_decide as Hs; [done|]. intros Hk.
    destruct Hs. by apply (row_of_key t d (k, u_id u)).
  - intros p' [= <-]. exists r'. split_and!; [|by rewrite Hpk'|done].
    apply list_elem_of_fmap. exists r. by rewrite decide_True.
Qed.

Lemma revoke_refines t d k username :
  wf_db d →
  refines_to t d (run_perm_op t k username OpRevoke d)
    (spec_perm_op (known_user d) (user_view t d) k username OpRevoke).
Proof.
  intros Hwf. unfold run_perm_op, UserPermissions.revoke_permission, spec_perm_op. autorewrite with run.
  destruct (username_cases d username Hwf) as [(u&Hu&<-)|Hno].
  2:{ destruct (get_row_unknown t d k username Hno) as [-> ->]. by apply refines_unchanged. }
  destruct (get_row_cases t d k u Hwf Hu) as [(r&Hr&Hpk&->&->)|(Hnin&->&->)]; [|by apply refines_unchanged].
  pose proof (wf_user_unique _ _ _ (wf_perms _ Hwf t)) as Hnd.
  autorewrite with run. unfold write_t_user, flush_perm_rows, flush_unique.
  rewrite decide_True; [|by apply NoDup_fmap_filter]. apply refines_write; try done.
  - by apply NoDup_fmap_filter.
  - by apply user_rows_ok_delete.
  - intros s Hs. rewrite elem_of_delete_row. split; [by intros []|]. intros Hin. split; [done|]. intros ->. by destruct Hs.
  - intros s [Hs Hne]%elem_of_delete_row Hk. destruct Hne. by apply (row_of_key t d (k, u_id u)).
Qed.

(** C32: Every operation of a user permission repository (get, grant, update,
    revoke) behaves as the same operation on a partial map from (resource,
    username) to permission: same result or error, same map afterwards,
    invariant kept, other tables and the users untouched. *)
Theorem user_repository_refines_map t d k username op :
  wf_db d →
  refines_to t d (run_perm_op t k username op d) (spec_perm_op (known_user d) (user_view t d) k username op).
Proof. destruct op; auto using get_refines, grant_refines, update_refines, revoke_refines. Qed.
End refinement.

(** ** Group permissions: the strongest grant wins *)

(** [r] is a grant on [k] to a group [username] is a member of. *)
Definition group_grant (t : table) (d : db) (k : resource_key) (username : string) (r : perm_row) : Prop :=
  r ∈ t_group (perms d t) ∧ p_key r = k ∧
  ∃ ug u, ug ∈ user_groups d ∧ u ∈ users d ∧
    m_group_id ug = p_owner r ∧ u_id u = m_user_id ug ∧ u_username u = username.

Abbreviation valid_row := (λ r, valid_permission (p_permission r)).

Lemma strongest_from_max acc l :
  valid_row acc → Forall valid_row l →
  ∃ r, GroupPermissions.strongest_from acc l = Ok r ∧ r ∈ acc :: l ∧
       ∀ r', r' ∈ acc :: l → rank (p_permission r') ≤ rank (p_permission r).
Proof.
  intros Hacc Hl. revert acc Hacc. induction Hl as [|x l Hx Hl IH]; intros acc Hacc; cbn.
  { exists acc. set_solver by lia. }
  rewrite (compare_permissions_valid _ _ Hacc Hx). cbn.
  case_bool_decide as Hle; [destruct (IH x Hx) as (r&->&Hr&Hmax)|destruct (IH acc Hacc) as (r&->&Hr&Hmax)];
    exists r; (split_and!; [done|set_solver|]); intros r' Hr'.
  - apply elem_of_cons in Hr' as [->|Hr']; [|by apply Hmax].
    pose proof (Hmax x ltac:(set_solver)). lia.
  - apply elem_of_cons in Hr' as [->|[->|Hr']%elem_of_cons]; [by apply Hmax; set_solver| |by apply Hmax; set_solver].
    pose proof (Hmax acc ltac:(set_solver)). lia.
Qed.

Lemma strongest_max l :
  Forall valid_row l → l ≠ [] →
  ∃ r, GroupPermissions.strongest l = Ok r ∧ r ∈ l ∧
       ∀ r', r' ∈ l → rank (p_permission r') ≤ rank (p_permission r).
Proof. destruct 1 as [|x l Hx Hl]; [done|]. intros _. by apply strongest_from_max. Qed.

(** Two candidate lists with the same rows name the same permission, whatever
    the order and the duplicates. *)
Lemma strongest_order_irrelevant l l' :
  Forall valid_row l → (∀ r, r ∈ l ↔ r ∈ l') →
  p_permission <$> GroupPermissions.strongest l = p_permission <$> GroupPermissions.strongest l'.
Proof.
  intros Hl Hiff. assert (Forall valid_row l') as Hl'.
  { rewrite Forall_forall. rewrite Forall_forall in Hl. intros r Hr. by apply Hl, Hiff. }
  destruct l as [|x l]; [destruct l' as [|y l']; [done|]; exfalso; by destruct (Hiff y); set_solver|].
  destruct (strongest_max (x :: l) Hl) as (r&->&Hr&Hmax); [done|].
  destruct (strongest_max l' Hl') as (r'&->&Hr'&Hmax'); [intros ->; destruct (Hiff x); set_solver|].
  cbn. f_equal. rewrite Forall_forall in Hl. rewrite Forall_forall in Hl'. apply rank_inj; [by apply Hl|by apply Hl'|].
  apply Z.le_antisymm; [apply Hmax', Hiff|apply Hmax, Hiff]; done.
Qed.

Lemma elem_of_user_candidates t d k username r :
  r ∈ GroupPermissions.user_candidates t k username d ↔ group_grant t d k username r.
Proof.
  unfold GroupPermissions.user_candidates, group_grant.
  rewrite elem_of_sort_by list_elem_of_filter elem_of_join_user_groups. naive_solver.
Qed.

Lemma valid_user_candidates t d k username :
  wf_db d → t ≠ Workspaces → Forall valid_row (GroupPermissions.user_candidates t k username d).
Proof.
  intros Hwf Ht. apply Forall_forall. intros r (Hr&_)%elem_of_user_candidates.
  pose proof (rows_valid_group t d Hwf Ht) as Hv. rewrite Forall_forall in Hv. by apply Hv.
Qed.

(** A user's group permission on a resource is one of the grants to the
    groups the user belongs to, and every other such grant compares as no
    stronger; without any grant the lookup raises RESOURCE_DOES_NOT_EXIST. *)
Theorem group_permission_for_user_is_strongest `{SqlBackend} t d k username :
  wf_db d → t ≠ Workspaces →
  match GroupPermissions.get_group_permission_for_user_resource t k username d with
  | (Ok r, d') =>
      d' = d ∧ group_grant t d k username r ∧
      ∀ r', group_grant t d k username r' → compare_permissions (p_permission r') (p_permission r) = Ok true
  | (Raise e, d') =>
      d' = d ∧ e = MlflowException RESOURCE_DOES_NOT_EXIST ∧ ∀ r, ¬ group_grant t d k username r
  end.
Proof.
  intros Hwf Ht. unfold GroupPermissions.get_group_permission_for_user_resource. autorewrite with run.
  pose proof (valid_user_candidates t d k username Hwf Ht) as Hv.
  destruct (decide (GroupPermissions.user_candidates t k username d = [])) as [Hnil|Hne].
  - rewrite Hnil. cbn. split_and!; try done. intros r. rewrite -elem_of_user_candidates Hnil. apply not_elem_of_nil.
  - destruct (strongest_max _ Hv Hne) as (r&->&Hr&Hmax). split_and!; [done|by apply elem_of_user_candidates|].
    rewrite Forall_forall in Hv. intros r' Hr'%elem_of_user_candidates.
    rewrite compare_permissions_valid; [|by apply Hv..]. f_equal. by apply bool_decide_eq_true, Hmax.
Qed.

(** The permission a user gets through groups does not depend on the order
    of the rows in the permission, membership and user tables. *)
Theorem group_permission_for_user_order_irrelevant `{SqlBackend} t d1 d2 k username :
  wf_db d1 → t ≠ Workspaces →
  t_group (perms d1 t) ≡ₚ t_group (perms d2 t) → user_groups d1 ≡ₚ user_groups d2 → users d1 ≡ₚ users d2 →
  p_permission <$> (GroupPermissions.get_group_permission_for_user_resource t k username d1).1 =
  p_permission <$> (GroupPermissions.get_group_permission_for_user_resource t k username d2).1.
Proof.
  intros Hwf Ht Hrows Hmem Husers. unfold GroupPermissions.get_group_permission_for_user_resource. autorewrite with run.
  assert (∀ r, r ∈ GroupPermissions.user_candidates t k username d1 ↔ r ∈ GroupPermissions.user_candidates t k username d2) as Hiff.
  { intros r. rewrite !elem_of_user_candidates. unfold group_grant.
    setoid_rewrite Hrows. setoid_rewrite Hmem. by setoid_rewrite Husers. }
  pose proof (strongest_order_irrelevant _ _ (valid_user_candidates t d1 k username Hwf Ht) Hiff) as Heq.
  revert Heq. by do 2 case: (GroupPermissions.strongest _) => ?; cbn; try (by intros [= ->]).
Qed.

(** ** Regex permissions *)

Section regex.
Context `{SqlBackend, PyRe}.

(** The rows of table [t] that belong to [username]. *)
Definition owned_regex (t : table) (d : db) (username : string) (r : regex_row) : Prop :=
  r ∈ t_regex (perms d t) ∧ ∃ u, u ∈ users d ∧ u_username u = username ∧ r_owner r = u_id u.

Lemma elem_of_join_user {A} (owner : A → Z) rows username d r :
  wf_db d →
  r ∈ join_user owner rows username d ↔ r ∈ rows ∧ ∃ u, u ∈ users d ∧ u_username u = username ∧ owner r = u_id u.
Proof.
  intros Hwf. destruct (username_cases d username Hwf) as [(u&Hu&<-)|Hno].
  - rewrite join_user_found // list_elem_of_filter. split; [naive_solver|].
    intros (Hr&u'&Hu'&Hn&Ho). split; [|done]. rewrite Ho. f_equal. by apply (user_unique_name d).
  - rewrite join_user_missing //. split; [by intros ?%not_elem_of_nil|]. intros (_&u&Hu&Hn&_). by destruct (Hno u).
Qed.

(** The regex permissions listed for a user are exactly the rows the user
    owns, each once, in ascending priority. *)
Theorem list_regex_for_user_sorted_exact t d username :
  wf_db d →
  ∃ l, RegexPermissions.list_regex_for_user t username d = (Ok l, d) ∧
    StronglySorted (λ r r', r_priority r ≤ r_priority r') l ∧
    NoDup (r_id <$> l) ∧
    ∀ r, r ∈ l ↔ owned_regex t d username r.
Proof.
  intros Hwf. eexists. split; [reflexivity|]. split_and!; [apply sort_by_sorted| |].
  - rewrite sort_by_perm. destruct (username_cases d username Hwf) as [(u&Hu&<-)|Hno].
    + rewrite join_user_found //. apply NoDup_fmap_filter, (wf_regex_ids _ _ _ (wf_perms _ Hwf t)).
    + rewrite join_user_missing //. constructor.
  - intros r. by rewrite elem_of_sort_by elem_of_join_user.
Qed.

(** Rewriting a row without its regex leaves the patterns of the table alone. *)
Lemma replace_keeps_patterns t row priority permission d :
  row ∈ t_regex (perms d t) →
  let r := RegexRow (r_id row) (r_regex row) priority (r_owner row) permission (r_prompt row) in
  let d' := set_perms t (set_t_regex (replace_row row r)) d in
  r_regex <$> t_regex (perms d' t) = r_regex <$> t_regex (perms d t) ∧ r ∈ t_regex (perms d' t).
Proof.
  intros Hrow r d'. unfold d'. rewrite perms_set_perms_eq. cbn. split.
  - by rewrite fmap_replace_row.
  - apply list_elem_of_fmap. exists row. by rewrite decide_True.
Qed.

Lemma gateway_regex_update_never_changes_a_regex t regex priority permission username id d r d' :
  GatewayRegexPermissions.update t regex priority permission username id d = (Ok r, d') →
  r_regex <$> t_regex (perms d' t) = r_regex <$> t_regex (perms d t) ∧ r ∈ t_regex (perms d' t).
Proof.
  intros (?&?&[_ ->]%lift_ok&(?&?&[_ ->]%lift_ok&Hrun)%M_bind_ok)%M_bind_ok.
  apply managed_ok, M_bind_ok in Hrun as (u&?&(->&Hu&Hn)%get_user_ok&Hrun).
  apply M_bind_ok in Hrun as (row&?&[Hrow ->]%ask_ok&([]&?&[Hnd ->]%write_t_regex_ok&[-> ->]%ret_ok)%M_bind_ok).
  apply one_or_mlflow_ok, filter_singleton in Hrow as [Hrow _]. by apply replace_keeps_patterns.
Qed.

(** A successful update of a registered-model regex permission stores the
    new priority and permission, and leaves every stored regex as it was,
    whatever regex was passed. *)
Theorem model_regex_update_never_changes_a_regex id regex priority permission username prompt d r d' :
  ModelRegexPermissions.update id regex priority permission username prompt d = (Ok r, d') →
  r_regex <$> t_regex (perms d' RegisteredModels) = r_regex <$> t_regex (perms d RegisteredModels) ∧
  r_priority r = priority ∧ r_permission r = permission ∧ r ∈ t_regex (perms d' RegisteredModels).
Proof.
  unfold ModelRegexPermissions.update. intros Hrun.
  apply M_bind_ok in Hrun as (?&?&[_ ->]%lift_ok&Hrun).
  apply M_bind_ok in Hrun as (?&?&[_ ->]%lift_ok&Hrun). rewrite managed_ok in Hrun.
  apply M_bind_ok in Hrun as (u&?&(->&Hu&Hn)%get_user_ok&Hrun).
  apply M_bind_ok in Hrun as (row&?&[Hrow ->]%ask_ok&Hrun).
  apply M_bind_ok in Hrun as ([]&?&[Hnd ->]%write_t_regex_ok&[-> ->]%ret_ok).
  apply one_or_mlflow_ok, filter_singleton in Hrow as [Hrow _].
  destruct (replace_keeps_patterns RegisteredModels row priority permission d Hrow). split_and!; done.
Qed.
End regex.
