(* ===== verification/RepositoryInvariant.v ===== *)
(** * Every permission-repository operation keeps the database well formed *)
From S2P Require Import Prelude Permissions Regex RegexSafety Database Repositories RepositoryFacts.

(** An operation preserves the invariant whether it returns or raises. *)
Definition preserves {A} (m : M db A) : Prop := ∀ d, wf_db d → wf_db (m d).2.

Create HintDb wf discriminated.

Section preserves.
Context `{SqlBackend}.

Lemma preserves_bind {A B} (m : M db A) (f : A → M db B) :
  preserves m → (∀ a, preserves (f a)) → preserves (m ≫= f).
Proof.
  intros Hm Hf d Hwf. rewrite M_bind_run. specialize (Hm d Hwf).
  destruct (m d) as [[a|e] d1]; [by apply Hf|done].
Qed.

Lemma preserves_lift_bind {A B} (o : outcome A) (f : A → M db B) :
  (∀ a, o = Ok a → preserves (f a)) → preserves (lift o ≫= f).
Proof. intros Hf d Hwf. rewrite M_bind_run lift_run. destruct o; [by apply Hf|done]. Qed.

Lemma preserves_validated {A} p (f : unit → M db A) :
  (valid_permission p → preserves (f tt)) → preserves (_validate ← lift (_validate_permission p); f _validate).
Proof. intros Hf. apply preserves_lift_bind. intros [] Hp%validate_permission_ok. auto. Qed.

Lemma preserves_lift {A} (o : outcome A) : preserves (lift o).
Proof. by intros d. Qed.
Lemma preserves_ret {A} (a : A) : preserves (mret a).
Proof. by intros d. Qed.
Lemma preserves_gets {A} (f : db → A) : preserves (gets f).
Proof. by intros d. Qed.
Lemma preserves_raise {A} e : preserves (raise e : M db A).
Proof. by intros d. Qed.
Lemma preserves_ask {A} (f : db → outcome A) : preserves (ask f).
Proof. by intros d. Qed.

Lemma preserves_managed {A} (m : M db A) : triple wf_db m (λ _, wf_db) → preserves (managed m).
Proof.
  intros Hm d Hwf. rewrite managed_run. destruct (m d) as [[a|e] d1] eqn:E; [|done].
  by apply Hm in E.
Qed.

Lemma triple_conflict {A} P (m : M db A) Q : triple P m Q → triple P (already_exists_on_conflict m) Q.
Proof. intros Hm. apply triple_catch; [done|]. intros []; by intros ???? [=]. Qed.

Lemma triple_get_user username :
  triple wf_db (get_user username) (λ u d, wf_db d ∧ u ∈ users d ∧ u_username u = username).
Proof. by intros d u d' Hwf (->&Hu&Hn)%get_user_ok. Qed.

Lemma triple_get_group group_name :
  triple wf_db (get_group group_name) (λ g d, wf_db d ∧ g ∈ groups d ∧ g_name g = group_name).
Proof. by intros d u d' Hwf (->&Hu&Hn)%get_group_ok. Qed.

Lemma triple_write_t_user t f P :
  (∀ d, P d → wf_db d ∧ user_rows_ok t d (f (t_user (perms d t)))) →
  triple P (write_t_user t f) (λ _, wf_db).
Proof. intros HP d [] d' [Hwf Hok]%HP [Hnd ->]%write_t_user_ok. by apply wf_set_t_user. Qed.

Lemma triple_write_t_group t f P :
  (∀ d, P d → wf_db d ∧ rows_valid t (f (t_group (perms d t)))) →
  triple P (write_t_group t f) (λ _, wf_db).
Proof. intros HP d [] d' [Hwf Hok]%HP [Hnd ->]%write_t_group_ok. by apply wf_set_t_group. Qed.

Lemma triple_write_t_regex t f P :
  (∀ d, P d → wf_db d ∧ regex_rows_ok (f (t_regex (perms d t))) ∧ Forall (λ r, r_owner r ∈ user_ids d) (f (t_regex (perms d t)))) →
  triple P (write_t_regex t f) (λ _, wf_db).
Proof. intros HP d [] d' (Hwf&Hok&Hfk)%HP [Hnd ->]%write_t_regex_ok. by apply wf_set_t_regex. Qed.

Lemma triple_write_t_group_regex t f P :
  (∀ d, P d → wf_db d ∧ regex_rows_ok (f (t_group_regex (perms d t)))) →
  triple P (write_t_group_regex t f) (λ _, wf_db).
Proof. intros HP d [] d' [Hwf Hok]%HP [Hnd ->]%write_t_group_regex_ok. by apply wf_set_t_group_regex. Qed.

(** The common shape of a write: look rows up, write, return the row. *)
Lemma triple_write_ret {A B} P (w : M db B) (a : A) : triple P w (λ _, wf_db) → triple P (_ ← w; mret a) (λ _, wf_db).
Proof. intros Hw. eapply triple_bind; [exact Hw|]. intros b. by apply triple_ret. Qed.
End preserves.

#[export] Hint Resolve preserves_lift preserves_ret preserves_gets preserves_raise preserves_ask : wf.

(** ** Rows after an edit *)

Lemma user_rows_ok_rename t d old new :
  wf_db d → user_rows_ok t d (UserPermissions.rename_rows old new (t_user (perms d t))).
Proof.
  intros Hwf. destruct (user_rows_ok_wf t d Hwf) as [Hfk Hv]. split.
  - apply Forall_fmap. eapply Forall_impl; [exact Hfk|]. intros r Hr. cbn. by case_decide.
  - intros Ht. apply Forall_fmap. eapply Forall_impl; [by apply Hv|]. intros r Hr. cbn. by case_decide.
Qed.

Lemma rows_valid_rename t old new rows : rows_valid t rows → rows_valid t (UserPermissions.rename_rows old new rows).
Proof.
  intros Hv Ht. apply Forall_fmap. eapply Forall_impl; [by apply Hv|]. intros r Hr. cbn. by case_decide.
Qed.

Lemma user_rows_ok_filter t d (P : perm_row → Prop) `{∀ r, Decision (P r)} :
  wf_db d → user_rows_ok t d (filter P (t_user (perms d t))).
Proof.
  intros Hwf. destruct (user_rows_ok_wf t d Hwf) as [Hfk Hv]. split; [by apply Forall_filter|].
  intros Ht. by apply Forall_filter, Hv.
Qed.

Lemma rows_valid_filter t (P : perm_row → Prop) `{∀ r, Decision (P r)} rows :
  rows_valid t rows → rows_valid t (filter P rows).
Proof. intros Hv Ht. by apply Forall_filter, Hv. Qed.

Lemma regex_rows_ok_user t d : wf_db d → regex_rows_ok (t_regex (perms d t)).
Proof. intros Hwf. by destruct (wf_perms _ Hwf t). Qed.

Lemma regex_rows_ok_group t d : wf_db d → regex_rows_ok (t_group_regex (perms d t)).
Proof. intros Hwf. by destruct (wf_perms _ Hwf t). Qed.

Lemma regex_rows_ok_insert rows r :
  regex_rows_ok rows → r_id r ∉ (r_id <$> rows) → valid_permission (r_permission r) → regex_rows_ok (rows ++ [r]).
Proof.
  intros [Hid Hv] Hr Hp. split; [by apply NoDup_fmap_snoc|]. apply Forall_app. split; [done|]. by constructor.
Qed.

Lemma regex_rows_ok_replace rows r r' :
  regex_rows_ok rows → r_id r' = r_id r → valid_permission (r_permission r') → regex_rows_ok (replace_row r r' rows).
Proof. intros [Hid Hv] Hr Hp. split; [by rewrite fmap_replace_row|by apply Forall_replace_row]. Qed.

Lemma regex_rows_ok_delete rows r : regex_rows_ok rows → regex_rows_ok (delete_row r rows).
Proof. intros [Hid Hv]. split; [by apply NoDup_fmap_filter|by apply Forall_delete_row]. Qed.

(** ** The user and group repositories *)

Section permission_repositories.
Context `{SqlBackend}.

Lemma triple_get_row t k username :
  triple wf_db (UserPermissions._get_permission t k username) (λ r d, wf_db d ∧ r ∈ t_user (perms d t)).
Proof.
  intros d r d' Hwf [Hr ->]%ask_ok. split; [done|].
  apply one_or_mlflow_ok, filter_singleton in Hr as [Hr _].
  apply elem_of_join_user in Hr as [Hr _]; done.
Qed.

Lemma UserPermissions_grant t k username p : preserves (UserPermissions.grant_permission t k username p).
Proof.
  apply preserves_validated. intros Hp. apply preserves_managed.
  apply triple_conflict. eapply triple_bind; [apply triple_get_user|]. intros u.
  apply triple_write_ret, triple_write_t_user. intros d (Hwf&Hu&_). split; [done|].
  apply user_rows_ok_insert; [done| |done]. by apply (list_elem_of_fmap_2 u_id).
Qed.

Lemma UserPermissions_update t k username p : preserves (UserPermissions.update_permission t k username p).
Proof.
  apply preserves_validated. intros Hp. apply preserves_managed.
  eapply triple_bind; [apply triple_get_row|]. intros r.
  apply triple_write_ret, triple_write_t_user. intros d [Hwf Hr]. split; [done|].
  by apply user_rows_ok_replace.
Qed.

Lemma UserPermissions_revoke t k username : preserves (UserPermissions.revoke_permission t k username).
Proof.
  apply preserves_managed. eapply triple_bind; [apply triple_get_row|]. intros r.
  apply triple_write_t_user. intros d [Hwf Hr]. split; [done|]. by apply user_rows_ok_delete.
Qed.

Lemma UserPermissions_rename t old new : preserves (UserPermissions.rename t old new).
Proof.
  apply preserves_managed. apply triple_write_t_user. intros d Hwf.
  split; [done|]. by apply user_rows_ok_rename.
Qed.

Lemma UserPermissions_rename_checked t old new : preserves (UserPermissions.rename_checked t old new).
Proof.
  apply preserves_managed. eapply (triple_bind _ _ _ (λ _, wf_db)); [by apply triple_gets|].
  intros l. case_decide; [apply triple_raise|]. apply triple_write_t_user. intros d Hwf.
  split; [done|]. by apply user_rows_ok_rename.
Qed.

Lemma UserPermissions_wipe t k : preserves (UserPermissions.wipe t k).
Proof.
  apply preserves_managed. apply triple_write_t_user. intros d Hwf.
  split; [done|]. by apply user_rows_ok_filter.
Qed.

Lemma triple_insert_group_row t k prompt group_name p :
  valid_permission p → triple wf_db (GroupPermissions.insert_group_row t k prompt group_name p) (λ _, wf_db).
Proof.
  intros Hp. eapply triple_bind; [apply triple_get_group|]. intros g.
  apply triple_write_ret, triple_write_t_group. intros d (Hwf&_). split; [done|].
  apply rows_valid_app; [by apply rows_valid_group|done].
Qed.

Lemma GroupPermissions_grant t group_name k p : preserves (GroupPermissions.grant_group_permission t group_name k p).
Proof.
  apply preserves_validated. intros Hp. apply preserves_managed.
  by apply triple_conflict, triple_insert_group_row.
Qed.

Lemma GroupPermissions_grant_uncaught t prompt group_name k p :
  preserves (GroupPermissions.grant_uncaught t prompt group_name k p).
Proof.
  apply preserves_validated. intros Hp. apply preserves_managed.
  by apply triple_insert_group_row.
Qed.

(** Every update and revocation of a group row: look it up, rewrite it. *)
Lemma triple_replace_group t r p P :
  (∀ d, P d → wf_db d) → valid_permission p →
  triple P (_ ← write_t_group t (replace_row r (PermRow (p_key r) (p_owner r) p (p_prompt r)));
            mret (PermRow (p_key r) (p_owner r) p (p_prompt r))) (λ _, wf_db).
Proof.
  intros HP Hp. apply triple_write_ret, triple_write_t_group. intros d Hwf%HP. split; [done|].
  apply rows_valid_replace; [by apply rows_valid_group|done].
Qed.

Lemma triple_delete_group t r P :
  (∀ d, P d → wf_db d) → triple P (write_t_group t (delete_row r)) (λ _, wf_db).
Proof.
  intros HP. apply triple_write_t_group. intros d Hwf%HP. split; [done|].
  by apply rows_valid_delete, rows_valid_group.
Qed.

Lemma GroupPermissions_update t group_name k p : preserves (GroupPermissions.update_group_permission t group_name k p).
Proof.
  apply preserves_validated. intros Hp. apply preserves_managed.
  eapply triple_bind; [apply triple_get_group|]. intros g.
  eapply (triple_bind _ _ _ (λ _, wf_db)); [apply triple_ask; naive_solver|]. intros r. by apply triple_replace_group.
Qed.

Lemma GroupPermissions_revoke t group_name k : preserves (GroupPermissions.revoke_group_permission t group_name k).
Proof.
  apply preserves_managed.
  eapply triple_bind; [apply triple_get_group|]. intros g.
  eapply (triple_bind _ _ _ (λ _, wf_db)); [apply triple_ask; naive_solver|]. intros r. by apply triple_delete_group.
Qed.

Lemma GroupPermissions_rename t old new : preserves (GroupPermissions.rename t old new).
Proof.
  apply preserves_managed. apply triple_write_t_group. intros d Hwf.
  split; [done|]. by apply rows_valid_rename, rows_valid_group.
Qed.

Lemma GroupPermissions_rename_checked t old new : preserves (GroupPermissions.rename_checked t old new).
Proof.
  apply preserves_managed. eapply (triple_bind _ _ _ (λ _, wf_db)); [by apply triple_gets|].
  intros l. case_decide; [apply triple_raise|]. apply triple_write_t_group. intros d Hwf.
  split; [done|]. by apply rows_valid_rename, rows_valid_group.
Qed.

Lemma GroupPermissions_wipe t k : preserves (GroupPermissions.wipe t k).
Proof.
  apply preserves_managed. apply triple_write_t_group. intros d Hwf.
  split; [done|]. by apply rows_valid_filter, rows_valid_group.
Qed.

Lemma PromptGroupPermissions_update group_name k p :
  preserves (PromptGroupPermissions.update_prompt_permission_for_group group_name k p).
Proof.
  apply preserves_validated. intros Hp. apply preserves_managed.
  eapply triple_bind; [apply triple_get_group|]. intros g.
  eapply (triple_bind _ _ _ (λ _, wf_db)); [apply triple_ask; naive_solver|]. intros r. by apply triple_replace_group.
Qed.

Lemma PromptGroupPermissions_revoke group_name k :
  preserves (PromptGroupPermissions.revoke_prompt_permission_from_group group_name k).
Proof.
  apply preserves_managed.
  eapply triple_bind; [apply triple_get_group|]. intros g.
  eapply (triple_bind _ _ _ (λ _, wf_db)); [apply triple_ask; naive_solver|]. intros r. by apply triple_delete_group.
Qed.
End permission_repositories.

#[export] Hint Resolve UserPermissions_grant UserPermissions_update UserPermissions_revoke UserPermissions_rename
  UserPermissions_rename_checked UserPermissions_wipe GroupPermissions_grant GroupPermissions_grant_uncaught
  GroupPermissions_update GroupPermissions_revoke GroupPermissions_rename GroupPermissions_rename_checked
  GroupPermissions_wipe PromptGroupPermissions_update PromptGroupPermissions_revoke : wf.

(** ** The regex repositories *)

Section regex_repositories.
Context `{SqlBackend, PyRe}.

Lemma triple_insert_regex_row t regex priority u p prompt :
  valid_permission p →
  triple (λ d, wf_db d ∧ u ∈ users d) (RegexPermissions.insert_regex_row t regex priority (u_id u) p prompt) (λ _, wf_db).
Proof.
  intros Hp d a d' [Hwf Hu] Hrun. revert Hrun. unfold RegexPermissions.insert_regex_row.
  set (r := RegexRow _ _ _ _ _ _). apply (triple_write_ret (λ d0, d0 = d)); [|done].
  apply triple_write_t_regex. intros ? ->. split_and!; [done| |].
  - apply regex_rows_ok_insert; [by apply regex_rows_ok_user|apply new_id_fresh|done].
  - apply Forall_app. split; [apply (wf_regex_fk _ _ _ (wf_perms _ Hwf t))|].
    constructor; [|done]. by apply (list_elem_of_fmap_2 u_id).
Qed.

Lemma triple_insert_group_regex_row t regex priority owner p prompt :
  valid_permission p →
  triple wf_db (GroupRegexPermissions.insert_group_regex_row t regex priority owner p prompt) (λ _, wf_db).
Proof.
  intros Hp d a d' Hwf Hrun. revert Hrun. unfold GroupRegexPermissions.insert_group_regex_row.
  set (r := RegexRow _ _ _ _ _ _). apply (triple_write_ret (λ d0, d0 = d)); [|done].
  apply triple_write_t_group_regex. intros ? ->. split; [done|].
  apply regex_rows_ok_insert; [by apply regex_rows_ok_group|apply new_id_fresh|done].
Qed.

(** Updates keep the row's id and owner; deletions drop it. *)
Lemma triple_replace_regex t r regex priority p P :
  (∀ d, P d → wf_db d ∧ r ∈ t_regex (perms d t)) → valid_permission p →
  triple P (_ ← write_t_regex t (replace_row r (RegexRow (r_id r) regex priority (r_owner r) p (r_prompt r)));
            mret (RegexRow (r_id r) regex priority (r_owner r) p (r_prompt r))) (λ _, wf_db).
Proof.
  intros HP Hp. apply triple_write_ret, triple_write_t_regex. intros d [Hwf Hr]%HP.
  pose proof (wf_regex_fk _ _ _ (wf_perms _ Hwf t)) as Hfk. split_and!; [done| |].
  - apply regex_rows_ok_replace; [by apply regex_rows_ok_user|done..].
  - apply Forall_replace_row; [done|]. intros Hin. rewrite Forall_forall in Hfk. by apply (Hfk r).
Qed.

Lemma triple_delete_regex t r P :
  (∀ d, P d → wf_db d) → triple P (write_t_regex t (delete_row r)) (λ _, wf_db).
Proof.
  intros HP. apply triple_write_t_regex. intros d Hwf%HP. split_and!; [done| |].
  - by apply regex_rows_ok_delete, regex_rows_ok_user.
  - apply Forall_delete_row, (wf_regex_fk _ _ _ (wf_perms _ Hwf t)).
Qed.

Lemma triple_replace_group_regex t r regex priority p prompt P :
  (∀ d, P d → wf_db d) → valid_permission p →
  triple P (_ ← write_t_group_regex t (replace_row r (RegexRow (r_id r) regex priority (r_owner r) p prompt));
            mret (RegexRow (r_id r) regex priority (r_owner r) p prompt)) (λ _, wf_db).
Proof.
  intros HP Hp. apply triple_write_ret, triple_write_t_group_regex. intros d Hwf%HP. split; [done|].
  apply regex_rows_ok_replace; [by apply regex_rows_ok_group|done..].
Qed.

Lemma triple_delete_group_regex t r P :
  (∀ d, P d → wf_db d) → triple P (write_t_group_regex t (delete_row r)) (λ _, wf_db).
Proof.
  intros HP. apply triple_write_t_group_regex. intros d Hwf%HP. split; [done|].
  by apply regex_rows_ok_delete, regex_rows_ok_group.
Qed.

(** A lookup of one row returns a row of the table. *)
Lemma triple_one_regex t (F : regex_row → Prop) `{∀ r, Decision (F r)} P :
  (∀ d, P d → wf_db d) →
  triple P (ask (λ d, one_or_mlflow (filter F (t_regex (perms d t))))) (λ r d, wf_db d ∧ r ∈ t_regex (perms d t)).
Proof. intros HP. apply triple_ask. intros d r Hwf%HP Hr%one_or_mlflow_ok. by apply filter_singleton in Hr as [Hr _]. Qed.

Lemma RegexPermissions_grant t regex priority p username : preserves (RegexPermissions.grant t regex priority p username).
Proof.
  apply preserves_lift_bind. intros [] _. apply preserves_validated. intros Hp. apply preserves_managed, triple_conflict.
  eapply triple_bind; [apply triple_get_user|]. intros u.
  eapply triple_weaken; [by apply (triple_insert_regex_row t regex priority u p false)| |done]. naive_solver.
Qed.

Lemma RegexPermissions_update t regex priority p username id :
  preserves (RegexPermissions.update t regex priority p username id).
Proof.
  apply preserves_lift_bind. intros [] _. apply preserves_validated. intros Hp. apply preserves_managed.
  eapply triple_bind; [apply triple_get_user|]. intros u.
  eapply triple_bind; [apply triple_one_regex; naive_solver|]. intros r. by apply triple_replace_regex.
Qed.

Lemma RegexPermissions_revoke t username id : preserves (RegexPermissions.revoke t username id).
Proof.
  apply preserves_managed. eapply triple_bind; [apply triple_get_user|]. intros u.
  eapply triple_bind; [apply (triple_one_regex t); naive_solver|]. intros r. apply triple_delete_regex. naive_solver.
Qed.

Lemma ModelRegexPermissions_grant regex priority p username prompt :
  preserves (ModelRegexPermissions.grant regex priority p username prompt).
Proof.
  apply preserves_lift_bind. intros [] _. apply preserves_validated. intros Hp. apply preserves_managed, triple_conflict.
  eapply triple_bind; [apply triple_get_user|]. intros u.
  eapply triple_weaken; [by apply (triple_insert_regex_row RegisteredModels regex priority u p prompt)| |done]. naive_solver.
Qed.

Lemma ModelRegexPermissions_update id regex priority p username prompt :
  preserves (ModelRegexPermissions.update id regex priority p username prompt).
Proof.
  apply preserves_lift_bind. intros [] _. apply preserves_validated. intros Hp. apply preserves_managed.
  eapply triple_bind; [apply triple_get_user|]. intros u.
  eapply triple_bind; [apply triple_one_regex; naive_solver|]. intros r. by apply triple_replace_regex.
Qed.

Lemma ModelRegexPermissions_revoke id username prompt : preserves (ModelRegexPermissions.revoke id username prompt).
Proof.
  apply preserves_managed. eapply triple_bind; [apply triple_get_user|]. intros u.
  eapply triple_bind; [apply (triple_one_regex RegisteredModels); naive_solver|]. intros r.
  apply triple_delete_regex. naive_solver.
Qed.

Lemma triple_ask_wf {A} (f : db → outcome A) P : (∀ d, P d → wf_db d) → triple P (ask f) (λ _, wf_db).
Proof. intros HP. apply triple_ask. naive_solver. Qed.

Lemma GroupRegexPermissions_grant t group_name regex priority p :
  preserves (GroupRegexPermissions.grant t group_name regex priority p).
Proof.
  apply preserves_validated. intros Hp. apply preserves_lift_bind. intros [] _. apply preserves_managed, triple_conflict.
  eapply triple_bind; [apply triple_get_group|]. intros g.
  eapply triple_weaken; [by apply (triple_insert_group_regex_row t regex priority (g_id g) p false)| |done]. naive_solver.
Qed.

Lemma GroupRegexPermissions_update t id group_name regex priority p :
  preserves (GroupRegexPermissions.update t id group_name regex priority p).
Proof.
  apply preserves_validated. intros Hp. apply preserves_lift_bind. intros [] _. apply preserves_managed.
  eapply triple_bind; [apply triple_get_group|]. intros g.
  eapply triple_bind; [apply triple_ask_wf; naive_solver|]. intros r. by apply triple_replace_group_regex.
Qed.

Lemma GroupRegexPermissions_revoke t group_name id : preserves (GroupRegexPermissions.revoke t group_name id).
Proof.
  apply preserves_managed. eapply triple_bind; [apply triple_get_group|]. intros g.
  eapply triple_bind; [apply triple_ask_wf; naive_solver|]. intros r. by apply triple_delete_group_regex.
Qed.

Lemma ModelGroupRegexPermissions_grant group_name regex p priority prompt :
  preserves (ModelGroupRegexPermissions.grant group_name regex p priority prompt).
Proof.
  apply preserves_validated. intros Hp. apply preserves_managed.
  eapply triple_bind; [apply triple_get_group|]. intros g.
  eapply triple_weaken; [by apply (triple_insert_group_regex_row RegisteredModels regex priority (g_id g) p prompt)| |done]. naive_solver.
Qed.

Lemma ModelGroupRegexPermissions_update id regex group_name p priority prompt :
  preserves (ModelGroupRegexPermissions.update id regex group_name p priority prompt).
Proof.
  apply preserves_validated. intros Hp. apply preserves_managed.
  eapply triple_bind; [apply triple_get_group|]. intros g.
  eapply triple_bind; [apply triple_ask_wf; naive_solver|]. intros r. by apply triple_replace_group_regex.
Qed.

Lemma ModelGroupRegexPermissions_revoke id group_name prompt :
  preserves (ModelGroupRegexPermissions.revoke id group_name prompt).
Proof.
  apply preserves_managed. eapply triple_bind; [apply triple_get_group|]. intros g.
  eapply triple_bind; [apply triple_ask_wf; naive_solver|]. intros r. by apply triple_delete_group_regex.
Qed.
End regex_repositories.

#[export] Hint Resolve RegexPermissions_grant RegexPermissions_update RegexPermissions_revoke
  ModelRegexPermissions_grant ModelRegexPermissions_update ModelRegexPermissions_revoke
  GroupRegexPermissions_grant GroupRegexPermissions_update GroupRegexPermissions_revoke
  ModelGroupRegexPermissions_grant ModelGroupRegexPermissions_update ModelGroupRegexPermissions_revoke : wf.

(** ** The workspace repositories

    They are given the owner's id, so [create] keeps the foreign key only for
    the id of an existing user, which is how the store calls it. *)

Section workspace_repositories.
Context `{SqlBackend}.

Lemma not_Workspaces_valid p : Workspaces ≠ Workspaces → valid_permission p.
Proof. done. Qed.

Lemma WorkspacePermissions_create workspace u p d :
  wf_db d → u ∈ users d → wf_db (WorkspacePermissions.create workspace (u_id u) p d).2.
Proof.
  intros Hwf Hu. unfold WorkspacePermissions.create. rewrite managed_run.
  destruct (already_exists_on_conflict _ d) as [[a|e] d1] eqn:E; [|done]. revert E.
  apply (triple_conflict (λ d0, d0 = d) _ (λ _, wf_db)); [|done].
  apply triple_write_ret, triple_write_t_user. intros ? ->. split; [done|].
  apply user_rows_ok_insert; [done| |apply not_Workspaces_valid]. by apply (list_elem_of_fmap_2 u_id).
Qed.

Lemma triple_one_workspace_row rows workspace owner :
  triple wf_db (WorkspacePermissions.one_workspace_row rows workspace owner) (λ _, wf_db).
Proof. apply triple_ask. naive_solver. Qed.

Lemma WorkspacePermissions_update workspace user_id p : preserves (WorkspacePermissions.update workspace user_id p).
Proof.
  apply preserves_managed. eapply triple_bind; [apply triple_one_workspace_row|]. intros r.
  apply triple_write_ret, triple_write_t_user. intros d Hwf. split; [done|].
  apply user_rows_ok_replace; [done..|apply not_Workspaces_valid].
Qed.

Lemma WorkspacePermissions_delete workspace user_id : preserves (WorkspacePermissions.delete workspace user_id).
Proof.
  apply preserves_managed. eapply triple_bind; [apply triple_one_workspace_row|]. intros r.
  apply triple_write_t_user. intros d Hwf. split; [done|]. by apply user_rows_ok_delete.
Qed.

Lemma WorkspacePermissions_delete_all workspace : preserves (WorkspacePermissions.delete_all_for_workspace workspace).
Proof.
  apply preserves_managed. eapply (triple_bind _ _ _ (λ _, wf_db)); [by apply triple_gets|]. intros gone.
  apply triple_write_ret, triple_write_t_user. intros d Hwf. split; [done|]. by apply user_rows_ok_filter.
Qed.

Lemma workspace_group_rows_valid rows : rows_valid Workspaces rows.
Proof. by intros ?. Qed.

Lemma WorkspacePermissions_group_create workspace group_id p :
  preserves (WorkspacePermissions.group_create workspace group_id p).
Proof.
  apply preserves_managed, triple_conflict, triple_write_ret, triple_write_t_group.
  intros d Hwf. split; [done|apply workspace_group_rows_valid].
Qed.

Lemma WorkspacePermissions_group_update workspace group_id p :
  preserves (WorkspacePermissions.group_update workspace group_id p).
Proof.
  apply preserves_managed. eapply triple_bind; [apply triple_one_workspace_row|]. intros r.
  apply triple_write_ret, triple_write_t_group. intros d Hwf. split; [done|apply workspace_group_rows_valid].
Qed.

Lemma WorkspacePermissions_group_delete workspace group_id :
  preserves (WorkspacePermissions.group_delete workspace group_id).
Proof.
  apply preserves_managed. eapply triple_bind; [apply triple_one_workspace_row|]. intros r.
  apply triple_write_t_group. intros d Hwf. split; [done|apply workspace_group_rows_valid].
Qed.

Lemma WorkspacePermissions_group_delete_all workspace :
  preserves (WorkspacePermissions.group_delete_all_for_workspace workspace).
Proof.
  apply preserves_managed. eapply (triple_bind _ _ _ (λ _, wf_db)); [by apply triple_gets|]. intros gone.
  apply triple_write_ret, triple_write_t_group. intros d Hwf. split; [done|apply workspace_group_rows_valid].
Qed.
End workspace_repositories.

#[export] Hint Resolve WorkspacePermissions_update WorkspacePermissions_delete WorkspacePermissions_delete_all
  WorkspacePermissions_group_create WorkspacePermissions_group_update WorkspacePermissions_group_delete
  WorkspacePermissions_group_delete_all : wf.
