(* ===== verification/Ownership.v ===== *)
(** * Row ownership ([mlflow_oidc_auth/ownership.py]) *)
From S2P Require Import Prelude PyStrings.

Definition MANUAL : string := "manual".

Inductive Enforcement :=
  | OFF
  | REPORT
  | ENFORCE.

#[export] Instance Enforcement_eq_dec : EqDecision Enforcement.
Proof. solve_decision. Defined.

(** The [reason] of a decision; the source formats it for the audit log. *)
Inductive conflict_reason :=
  | NoReason
  | AdministratorOverride (owner writer : string)
  | MayNotWrite (owner writer : string)
  | MayNotWriteReported (owner writer : string).

Record OwnershipDecision := MkDecision {
  allowed : bool;
  conflict : bool;
  reason : conflict_reason;
  owner : option string;
}.

(** [OwnershipDecision(allowed=True)]: the dataclass defaults. *)
Definition just_allowed : OwnershipDecision := MkDecision true false NoReason None.

(** [Enforcement(s)], which raises [ValueError] for another string. *)
Definition enforcement_of_string (s : string) : option Enforcement :=
  if decide (s = "off") then Some OFF
  else if decide (s = "report") then Some REPORT
  else if decide (s = "enforce") then Some ENFORCE
  else None.

Definition parse_enforcement (value : option string) : Enforcement :=
  match value with
  | None => REPORT
  | Some v =>
      match enforcement_of_string (py_lower (py_strip v)) with
      | Some e => e
      | None => REPORT
      end
  end.

Definition evaluate_write (current_owner writer : option string) (enforcement : Enforcement) (admin_override : bool) : OwnershipDecision :=
  let writer := or_default writer MANUAL in
  let owner := or_default current_owner MANUAL in
  if decide (owner = writer ∨ owner = MANUAL) then just_allowed
  else if admin_override then MkDecision true true (AdministratorOverride owner writer) (Some owner)
  else if decide (enforcement = ENFORCE) then MkDecision false true (MayNotWrite owner writer) (Some owner)
  else if decide (enforcement = OFF) then just_allowed
  else MkDecision true true (MayNotWriteReported owner writer) (Some owner).

(** ** Facts *)

(** A write crosses ownership when another source owns the row. *)
Definition crosses (current_owner writer : option string) : Prop :=
  or_default current_owner MANUAL ≠ MANUAL ∧ or_default current_owner MANUAL ≠ or_default writer MANUAL.

#[export] Instance crosses_dec o w : Decision (crosses o w).
Proof. unfold crosses. apply _. Defined.

Lemma evaluate_write_refuses o w e admin_override :
  allowed (evaluate_write o w e admin_override) = false ↔ crosses o w ∧ admin_override = false ∧ e = ENFORCE.
Proof.
  unfold evaluate_write, crosses. repeat case_decide; destruct admin_override, e; cbn; naive_solver.
Qed.

Lemma evaluate_write_conflict o w e admin_override :
  conflict (evaluate_write o w e admin_override) = true ↔ crosses o w ∧ (admin_override = true ∨ e ≠ OFF).
Proof.
  unfold evaluate_write, crosses. repeat case_decide; destruct admin_override, e; cbn; naive_solver.
Qed.
