(* ===== verification/Users.v ===== *)
(** * The user repository ([mlflow_oidc_auth/repository/user.py]) *)
From S2P Require Import Prelude PyStrings Json Ownership Permissions Database Repositories RepositoryInvariant.

(** ** The libraries it calls: werkzeug's password hashes and MLflow's username
    validation. A generated hash is salted and verifies the password it was
    generated from. *)
Class UserLibs := {
  generate_password_hash : string → string → string → string;
  check_password_hash : string → string → bool;
  check_generated : ∀ method salt password,
    check_password_hash (generate_password_hash method salt password) password = true;
  _validate_username : string → outcome unit;
}.

Definition TOKEN_HASH_METHOD : string := "pbkdf2:sha256:1000".

Definition normalize_username (username : string) : string := py_lower username.

(** ** Audit records and transactions that emit them

    An audit line is not part of the transaction: it survives a rollback. The
    routers give [emit_audit_event] its arguments as they are. *)
Inductive audit_event :=
  | AuditEvent (event : string) (actor : option string) (resource_type resource_id : option string) (detail : list (string * json))
  | OwnershipConflict (username : string) (decision : OwnershipDecision) (written_by : string) (permitted : bool)
  | SessionsRevoked (username : string) (count : Z) (why : string)
  | IdentityRefused (actor provider_id : string)
  | LoginRefused (username provider_id : string)
  | IdentityBindFailed (username provider_id : string)
  | SignInDenied (event username : string)
  | LogoutFailed (actor : string)
  | NamespaceDenied (username provider_id namespace : string)
  | ServiceAccountProvisioned (username provider_id namespace name : string).

Record audited := Audited { a_db : db; audit : list audit_event }.

Definition emit (e : audit_event) : M audited unit := modify (λ w, Audited (a_db w) (audit w ++ [e])).

Definition on_db {A} (m : M db A) : M audited A := λ w,
  let '(o, d) := m (a_db w) in (o, Audited d (audit w)).

Definition managed_audited `{SqlBackend} {A} (body : M audited A) : M audited A := λ w,
  match body w with
  | (Ok a, w') => (Ok a, w')
  | (Raise e, w') => (Raise (session_exc e), Audited (a_db w) (audit w'))
  end.

(** ** References to a user, for the foreign keys *)

Definition all_tables : list table :=
  [Experiments; RegisteredModels; Scorers; GatewayEndpoints; GatewaySecrets; GatewayModelDefinitions; Workspaces].

Definition user_referenced (uid : Z) (d : db) : Prop :=
  Exists (λ m, m_user_id m = uid) (user_groups d) ∨
  Exists (λ i, i_user_id i = uid) (user_identities d) ∨
  Exists (λ s, s_user_id s = uid) (auth_sessions d) ∨
  Exists (λ t, Exists (λ r, p_owner r = uid) (t_user (perms d t)) ∨ Exists (λ r, r_owner r = uid) (t_regex (perms d t))) all_tables.

#[export] Instance user_referenced_dec uid d : Decision (user_referenced uid d).
Proof. unfold user_referenced. apply _. Defined.

(** The arguments of [update] that default to [None] or [False]. *)
Record user_update := UserUpdate {
  upd_password : option string;
  upd_password_expiration : option datetime;
  upd_is_admin : option bool;
  upd_is_service_account : option bool;
  upd_active : option bool;
  upd_managed_by : option string;
  upd_written_by : option string;
  upd_admin_override : bool;
}.

Module UserRepository.
Section repo.
Context `{SqlBackend, UserLibs}.

Definition is_active_admin (u : user_row) : bool := u_is_admin u && u_active u.

Definition _assert_not_last_active_admin (user : user_row) (d : db) : outcome unit :=
  if negb (is_active_admin user) then Ok tt
  else
    let remaining := length (filter (λ u, u_is_admin u = true ∧ u_active u = true ∧ u_id u ≠ u_id user) (users d)) in
    if decide (remaining = 0%nat) then Raise (MlflowException INVALID_STATE) else Ok tt.

(** [salt] is the randomness the hash draws. *)
Definition create (salt username password display_name : string) (is_admin is_service_account : bool) : M db user_row :=
  let username := normalize_username username in
  _ ← lift (_validate_username username);
  let pwhash := generate_password_hash TOKEN_HASH_METHOD salt password in
  managed (already_exists_on_conflict (λ d,
    let u := UserRow (new_id (user_ids d)) username display_name pwhash None is_admin is_service_account true MANUAL in
    match flush_unique u_username (users d ++ [u]) with
    | Ok rows => (Ok u, set_users (λ _, rows) d)
    | Raise e => (Raise e, d)
    end)).

Definition get (username : string) : M db user_row :=
  let username := normalize_username username in
  managed (
    u ← ask (λ d, query_one_or_none (filter (λ u, u_username u = username) (users d)));
    match u with
    | None => raise (MlflowException RESOURCE_DOES_NOT_EXIST)
    | Some u => mret u
    end).

(** The groups of the [user_groups] secondary table. *)
Definition groups_of (u : user_row) (d : db) : list group_row :=
  filter (λ g, MembershipRow (u_id u) (g_id g) ∈ user_groups d) (groups d).

Definition get_profile (username : string) : M db (user_row * list group_row) :=
  let username := normalize_username username in
  managed (
    u ← ask (λ d, query_one_or_none (filter (λ u, u_username u = username) (users d)));
    match u with
    | None => raise (MlflowException RESOURCE_DOES_NOT_EXIST)
    | Some u =>
        gs ← gets (groups_of u);
        mret (UserRow (u_id u) (u_username u) (u_display_name u) "REDACTED" (u_password_expiration u)
                (u_is_admin u) (u_is_service_account u) (u_active u) (u_managed_by u), gs)
    end).

Definition exist (username : string) : M db bool :=
  let username := normalize_username username in
  managed (gets (λ d, bool_decide (filter (λ u, u_username u = username) (users d) ≠ []))).

Definition list_users (is_service_account all : bool) : M db (list user_row) :=
  managed (gets (λ d, if all then users d else filter (λ u, u_is_service_account u = is_service_account) (users d))).

Definition list_usernames (is_service_account : bool) : M db (list string) :=
  managed (gets (λ d, u_username <$> filter (λ u, u_is_service_account u = is_service_account) (users d))).

(** The bulk update that ends a user's live sessions; returns their number. *)
Definition live_sessions_of (uid : Z) (d : db) : list auth_session_row :=
  filter (λ s, s_user_id s = uid ∧ s_revoked_at s = None) (auth_sessions d).

Definition revoke_where (now : Z) (P : auth_session_row → Prop) `{∀ s, Decision (P s)} : list auth_session_row → list auth_session_row :=
  fmap (λ s, if decide (P s ∧ s_revoked_at s = None)
             then AuthSessionRow (s_session_id s) (s_user_id s) (s_provider_id s) (s_expires_at s) (Some now)
             else s).

Definition revoke_sessions (now uid : Z) : M db Z :=
  n ← gets (λ d, Z.of_nat (length (live_sessions_of uid d)));
  _ ← modify (set_auth_sessions (revoke_where now (λ s, s_user_id s = uid)));
  mret n.

(** The assignments to the ORM object, in the order of the source, as the
    columns keep them. *)
Definition set_secret (salt : string) (c : user_update) (u : user_row) : user_row :=
  match upd_password c, upd_password_expiration c with
  | Some p, e =>
      UserRow (u_id u) (u_username u) (u_display_name u) (generate_password_hash TOKEN_HASH_METHOD salt p) (column_datetime <$> e)
        (u_is_admin u) (u_is_service_account u) (u_active u) (u_managed_by u)
  | None, Some e =>
      UserRow (u_id u) (u_username u) (u_display_name u) (u_password_hash u) (Some (column_datetime e))
        (u_is_admin u) (u_is_service_account u) (u_active u) (u_managed_by u)
  | None, None => u
  end.

Definition set_flags (c : user_update) (u : user_row) : user_row :=
  UserRow (u_id u) (u_username u) (u_display_name u) (u_password_hash u) (u_password_expiration u)
    (default (u_is_admin u) (upd_is_admin c)) (default (u_is_service_account u) (upd_is_service_account c))
    (default (u_active u) (upd_active c)) (default (u_managed_by u) (upd_managed_by c)).

Definition update (enforcement : Enforcement) (now : Z) (salt username : string) (c : user_update) : M audited user_row :=
  let username := normalize_username username in
  let writer := or_default (upd_written_by c) MANUAL in
  '(entity, permitted_conflict, sessions_revoked) ← managed_audited (
    user ← on_db (get_user username);
    let decision := evaluate_write (Some (u_managed_by user)) (upd_written_by c) enforcement (upd_admin_override c) in
    _ ← (if conflict decision && negb (allowed decision)
         then emit (OwnershipConflict username decision writer false) else mret tt);
    let permitted_conflict := if conflict decision && allowed decision then Some decision else None in
    if negb (allowed decision) then raise (MlflowException INVALID_PARAMETER_VALUE)
    else
      _ ← (if decide (upd_active c = Some false ∨ upd_is_admin c = Some false)
           then on_db (ask (_assert_not_last_active_admin user)) else mret tt);
      sessions_revoked ← (if decide (upd_active c = Some false)
                          then on_db (revoke_sessions now (u_id user)) else mret 0);
      let user' := set_flags c (set_secret salt c user) in
      _ ← on_db (modify (set_users (replace_row user user')));
      mret (user', permitted_conflict, sessions_revoked));
  _ ← match permitted_conflict with
      | Some decision => emit (OwnershipConflict username decision writer true)
      | None => mret tt
      end;
  _ ← (if decide (sessions_revoked ≠ 0) then emit (SessionsRevoked username sessions_revoked "user_deactivated") else mret tt);
  mret entity.

(** [query(model).filter(model.user_id == user_id).delete()] *)
Definition delete_permissions (uid : Z) (t : table) : M db unit :=
  _ ← modify (set_perms t (set_t_user (filter (λ r, p_owner r ≠ uid))));
  modify (set_perms t (set_t_regex (filter (λ r, r_owner r ≠ uid)))).

(** [session.delete(user); session.flush()]: refused while a row refers to
    the user, on a backend that enforces foreign keys. *)
Definition delete_user_row (user : user_row) : M db unit := λ d,
  if fk_enforced && bool_decide (user_referenced (u_id user) d) then (Raise IntegrityError, d)
  else (Ok tt, set_users (delete_row user) d).

Definition delete (username : string) : M audited unit :=
  let username := normalize_username username in
  deleted_sessions ← managed_audited (on_db (
    user ← get_user username;
    _ ← ask (_assert_not_last_active_admin user);
    let user_id := u_id user in
    live_sessions ← gets (λ d, Z.of_nat (length (live_sessions_of user_id d)));
    _ ← modify (set_auth_sessions (filter (λ s, s_user_id s ≠ user_id)));
    _ ← modify (set_identities (filter (λ i, i_user_id i ≠ user_id)));
    _ ← delete_permissions user_id Experiments;
    _ ← delete_permissions user_id RegisteredModels;
    _ ← delete_permissions user_id Scorers;
    _ ← delete_permissions user_id GatewayEndpoints;
    _ ← delete_permissions user_id GatewaySecrets;
    _ ← delete_permissions user_id GatewayModelDefinitions;
    _ ← delete_permissions user_id Workspaces;
    _ ← modify (set_user_groups_rows (filter (λ m, m_user_id m ≠ user_id)));
    _ ← delete_user_row user;
    mret live_sessions));
  if decide (deleted_sessions ≠ 0) then emit (SessionsRevoked username deleted_sessions "user_deleted") else mret tt.

Definition authenticate (now : Z) (username password : string) : M db bool :=
  let username := normalize_username username in
  managed (catch (
    user ← get_user username;
    match u_password_expiration user with
    | Some expiration =>
        if decide (instant (aware (naive expiration)) < now) then mret false
        else mret (check_password_hash (u_password_hash user) password)
    | None => mret (check_password_hash (u_password_hash user) password)
    end)
    (λ e, match e with MlflowException _ => mret false | e => raise e end)).
End repo.
End UserRepository.
