(* ===== verification/Samples.v ===== *)
(** * A small database on which the theorems are evaluated

    Two users (an administrator and a member of one group), their grants, a
    session, a login attempt and an identity. *)
From S2P Require Import Prelude PyStrings Permissions Regex RegexSafety Database Repositories Users.

#[export] Existing Instance sqlite_backend | 100.

Definition alice : user_row := UserRow 1 "alice" "Alice" "s3cret" None true false true "manual".
Definition bob : user_row := UserRow 2 "bob" "Bob" "hunter2" (Some 1000) false false true "oidc:corp".
Definition team : group_row := GroupRow 1 "team".
Definition ops_group : group_row := GroupRow 2 "ops".

Definition sample_perms (t : table) : perm_tables :=
  match t with
  | Experiments =>
      PermTables
        [PermRow (Key "exp1") 2 "READ" false; PermRow (Key "exp2") 1 "MANAGE" false]
        [PermRow (Key "exp1") 1 "EDIT" false; PermRow (Key "exp1") 2 "USE" false]
        [RegexRow 1 "prod" 5 2 "NO_PERMISSIONS" false; RegexRow 2 "dev" 1 2 "MANAGE" false]
        [RegexRow 1 "exp" 3 1 "READ" false]
  | RegisteredModels =>
      PermTables [] [] [RegexRow 7 "llm" 1 2 "READ" false] []
  | Workspaces =>
      PermTables [PermRow (Key "ws1") 2 "READ" false] [PermRow (Key "ws1") 1 "MANAGE" false] [] []
  | _ => no_tables
  end.

Definition sample_db : db :=
  MkDb [alice; bob] [team; ops_group] [MembershipRow 2 1; MembershipRow 2 2]
    [IdentityRow "corp" "sub-bob" 2 None]
    [AuthSessionRow "sid-bob" 2 None 5000 None; AuthSessionRow "sid-alice" 1 None 5000 None]
    [AuthStateRow "state-1" (Some "corp") None 5000]
    sample_perms.

Lemma sample_wf : wf_db sample_db.
Proof.
  constructor; try (apply (bool_decide_unpack _); vm_compute; exact I).
  intros []; (constructor; unfold rows_valid; first
    [apply (bool_decide_unpack _); vm_compute; exact I | intros _; apply (bool_decide_unpack _); vm_compute; exact I | by intros []]).
Qed.

Lemma alice_in : alice ∈ users sample_db.
Proof. by left. Qed.
Lemma bob_in : bob ∈ users sample_db.
Proof. right. by left. Qed.

(** Hashes that keep the password, and a validator that accepts any name. *)
#[export] Instance plain_libs : UserLibs | 100 := {|
  generate_password_hash := λ _ _ p, p;
  check_password_hash := String.eqb;
  check_generated := λ _ _ p, String.eqb_refl p;
  _validate_username := λ _, Ok tt;
|}.

#[export] Existing Instance literal_engine | 100.
