(* ===== verification/UserFacts.v ===== *)
(** * The user repository: administrators, deletion, updates, authentication *)
From S2P Require Import Prelude PyStrings Ownership Permissions Regex RegexSafety Database Repositories RepositoryFacts RepositoryInvariant Users.
Import UserRepository.

(** ** Transactions that emit audit records *)

Section audited.
Context `{SqlBackend}.

Lemma on_db_run {A} (m : M db A) w : on_db m w = ((m (a_db w)).1, Audited (m (a_db w)).2 (audit w)).
Proof. unfold on_db. by destruct (m (a_db w)). Qed.

Lemma emit_run e w : emit e w = (Ok tt, Audited (a_db w) (audit w ++ [e])).
Proof. done. Qed.

Lemma managed_audited_run {A} (m : M audited A) w :
  managed_audited m w =
    match m w with (Ok a, w') => (Ok a, w') | (Raise e, w') => (Raise (session_exc e), Audited (a_db w) (audit w')) end.
Proof. done. Qed.
End audited.

#[export] Hint Rewrite @on_db_run emit_run @managed_audited_run : run.

(** ** Deletion *)

(** The database without the rows that refer to user [uid]. *)
Definition without_permissions (uid : Z) (t : table) (d : db) : db :=
  set_perms t (set_t_regex (filter (λ r, r_owner r ≠ uid))) (set_perms t (set_t_user (filter (λ r, p_owner r ≠ uid))) d).

Definition without_references (uid : Z) (d : db) : db :=
  set_user_groups_rows (filter (λ m, m_user_id m ≠ uid))
    (foldl (λ d t, without_permissions uid t d)
       (set_identities (filter (λ i, i_user_id i ≠ uid)) (set_auth_sessions (filter (λ s, s_user_id s ≠ uid)) d))
       all_tables).

Definition without_user (u : user_row) (d : db) : db := set_users (delete_row u) (without_references (u_id u) d).

Lemma perms_without_references uid d t :
  perms (without_references uid d) t =
  PermTables (filter (λ r, p_owner r ≠ uid) (t_user (perms d t))) (t_group (perms d t))
    (filter (λ r, r_owner r ≠ uid) (t_regex (perms d t))) (t_group_regex (perms d t)).
Proof. by destruct t. Qed.

Lemma Exists_filter_ne {A} (f : A → Z) uid l : ¬ Exists (λ x, f x = uid) (filter (λ x, f x ≠ uid) l).
Proof. rewrite Exists_exists. intros (x & [Hne _]%list_elem_of_filter & Hx). by destruct Hne. Qed.

Lemma without_references_unreferenced uid d : ¬ user_referenced uid (without_references uid d).
Proof.
  intros [Hr|[Hr|[Hr|Hr]]]; [by apply Exists_filter_ne in Hr..|].
  apply Exists_exists in Hr as (t & _ & Hr). rewrite perms_without_references in Hr.
  destruct Hr as [Hr|Hr]; by apply Exists_filter_ne in Hr.
Qed.

Lemma user_referenced_set_users uid f d : user_referenced uid (set_users f d) ↔ user_referenced uid d.
Proof. done. Qed.

Lemma without_user_unreferenced u d : ¬ user_referenced (u_id u) (without_user u d).
Proof. unfold without_user. rewrite user_referenced_set_users. apply without_references_unreferenced. Qed.

(** Deleting a user id and every reference to it keeps the foreign keys. *)
Lemma Forall_fk_delete {A} (f : A → Z) (l : list A) us u :
  Forall (λ x, f x ∈ u_id <$> us) l →
  Forall (λ x, f x ∈ u_id <$> delete_row u us) (filter (λ x, f x ≠ u_id u) l).
Proof.
  rewrite !Forall_forall. intros Hl x [Hne Hx]%list_elem_of_filter.
  specialize (Hl x Hx). apply list_elem_of_fmap in Hl as (v & Heq & Hv). rewrite Heq.
  apply list_elem_of_fmap_2, elem_of_delete_row. split; [done|]. intros ->. congruence.
Qed.

Create Rewrite HintDb without_user.

Lemma perms_set_users f d : perms (set_users f d) = perms d.
Proof. done. Qed.


Lemma users_without_user u d : users (without_user u d) = delete_row u (users d).
Proof. reflexivity. Qed.
Lemma groups_without_user u d : groups (without_user u d) = groups d.
Proof. reflexivity. Qed.
Lemma user_groups_without_user u d :
  user_groups (without_user u d) = filter (λ m, m_user_id m ≠ u_id u) (user_groups d).
Proof. reflexivity. Qed.
Lemma user_identities_without_user u d :
  user_identities (without_user u d) = filter (λ i, i_user_id i ≠ u_id u) (user_identities d).
Proof. reflexivity. Qed.
Lemma auth_sessions_without_user u d :
  auth_sessions (without_user u d) = filter (λ s, s_user_id s ≠ u_id u) (auth_sessions d).
Proof. reflexivity. Qed.
Lemma auth_states_without_user u d : auth_states (without_user u d) = auth_states d.
Proof. reflexivity. Qed.
Lemma perms_without_user u d t :
  perms (without_user u d) t =
  PermTables (filter (λ r, p_owner r ≠ u_id u) (t_user (perms d t))) (t_group (perms d t))
    (filter (λ r, r_owner r ≠ u_id u) (t_regex (perms d t))) (t_group_regex (perms d t)).
Proof. unfold without_user. rewrite perms_set_users. apply perms_without_references. Qed.

#[local] Opaque without_user.

#[export] Hint Rewrite users_without_user groups_without_user user_groups_without_user user_identities_without_user
  auth_sessions_without_user auth_states_without_user perms_without_user : without_user.

Lemma wf_tables_without_user u d t :
  wf_tables t (user_ids d) (perms d t) → wf_tables t (u_id <$> delete_row u (users d)) (perms (without_user u d) t).
Proof.
  intros []. rewrite perms_without_user.
  constructor; cbn [t_user t_group t_regex t_group_regex]; try done;
    auto using NoDup_fmap_filter, Forall_filter, Forall_fk_delete.
  intros Ht. by apply Forall_filter, wf_user_valid.
Qed.

Lemma wf_without_user u d : wf_db d → wf_db (without_user u d).
Proof.
  intros [Hids Hnames Hgids Hgn Hm Hmfk Hi Hifk Hs Hsfk Hst Hp].
  constructor; unfold user_ids, group_ids; autorewrite with without_user;
    auto using NoDup_fmap_filter, NoDup_fmap_delete_row, Forall_fk_delete, NoDup_filter.
  - apply Forall_and in Hmfk as [Hu Hg]. apply Forall_and.
    split; [by apply Forall_fk_delete|by apply Forall_filter].
  - intros t. by apply wf_tables_without_user.
Qed.

#[local] Transparent without_user.

Section delete.
Context `{SqlBackend, UserLibs}.

(** The revocation record [delete] and [update] emit when sessions were live. *)
Definition revoked_events (username : string) (n : Z) (why : string) : list audit_event :=
  if decide (n ≠ 0) then [SessionsRevoked username n why] else [].

Definition live_count (uid : Z) (d : db) : Z := Z.of_nat (length (live_sessions_of uid d)).

Lemma delete_run username w u :
  wf_db (a_db w) → u ∈ users (a_db w) → u_username u = normalize_username username →
  delete username w =
    match _assert_not_last_active_admin u (a_db w) with
    | Ok _ => (Ok tt, Audited (without_user u (a_db w))
                 (audit w ++ revoked_events (u_username u) (live_count (u_id u) (a_db w)) "user_deleted"))
    | Raise e => (Raise (session_exc e), w)
    end.
Proof.
  intros Hwf Hu Hn. unfold delete. rewrite -Hn. autorewrite with run.
  rewrite get_user_found //. autorewrite with run.
  destruct (_assert_not_last_active_admin u (a_db w)) as [[]|e]; [|by destruct w].
  set (d2 := without_references (u_id u) (a_db w)).
  unfold delete_permissions. autorewrite with run.
  match goal with |- context[delete_user_row u ?d] =>
    replace d with d2 by (unfold d2, without_references, all_tables; cbn [foldl]; unfold without_permissions; reflexivity)
  end.
  unfold delete_user_row. rewrite (bool_decide_eq_false_2 _ (without_references_unreferenced (u_id u) (a_db w))).
  rewrite andb_false_r. autorewrite with run. cbn [fst snd]. unfold revoked_events, live_count.
  case_decide; autorewrite with run; [done|]. by rewrite app_nil_r.
Qed.
End delete.

(** ** Updates *)

Section update.
Context `{SqlBackend, UserLibs}.

Definition guarded (c : user_update) : Prop := upd_active c = Some false ∨ upd_is_admin c = Some false.
#[export] Instance guarded_dec c : Decision (guarded c).
Proof. unfold guarded. apply _. Defined.

Definition updated_row (salt : string) (c : user_update) (u : user_row) : user_row := set_flags c (set_secret salt c u).

(** Deactivation ends the live sessions; the row is rewritten in place. *)
Definition updated_db (now : Z) (salt : string) (c : user_update) (u : user_row) (d : db) : db :=
  set_users (replace_row u (updated_row salt c u))
    (if decide (upd_active c = Some false) then set_auth_sessions (revoke_where now (λ s, s_user_id s = u_id u)) d else d).

Definition write_decision (enforcement : Enforcement) (c : user_update) (u : user_row) : OwnershipDecision :=
  evaluate_write (Some (u_managed_by u)) (upd_written_by c) enforcement (upd_admin_override c).

Definition conflict_events (enforcement : Enforcement) (c : user_update) (u : user_row) : list audit_event :=
  let decision := write_decision enforcement c u in
  if conflict decision
  then [OwnershipConflict (u_username u) decision (or_default (upd_written_by c) MANUAL) (allowed decision)] else [].

Definition revoked_count (c : user_update) (u : user_row) (d : db) : Z :=
  if decide (upd_active c = Some false) then live_count (u_id u) d else 0.

(** The two conditional steps of the transaction. *)
Lemma guard_step c u d log :
  (if decide (upd_active c = Some false ∨ upd_is_admin c = Some false)
   then on_db (ask (_assert_not_last_active_admin u)) else mret tt) (Audited d log) =
  (if decide (guarded c) then _assert_not_last_active_admin u d else Ok tt, Audited d log).
Proof. unfold guarded. by destruct (decide (upd_active c = Some false ∨ upd_is_admin c = Some false)). Qed.

Lemma revoke_step now c u d log :
  (if decide (upd_active c = Some false) then on_db (revoke_sessions now (u_id u)) else mret 0) (Audited d log) =
  (Ok (revoked_count c u d),
   Audited (if decide (upd_active c = Some false) then set_auth_sessions (revoke_where now (λ s, s_user_id s = u_id u)) d else d) log).
Proof. unfold revoked_count. by destruct (decide (upd_active c = Some false)). Qed.

Lemma revoked_events_step username n why d log :
  (if decide (n ≠ 0) then emit (SessionsRevoked username n why) else mret tt) (Audited d log) =
  (Ok tt, Audited d (log ++ revoked_events username n why)).
Proof. unfold revoked_events. case_decide; [done|]. by rewrite app_nil_r. Qed.

Lemma update_run enforcement now salt username c w u :
  wf_db (a_db w) → u ∈ users (a_db w) → u_username u = normalize_username username →
  update enforcement now salt username c w =
    if allowed (write_decision enforcement c u) then
      match (if decide (guarded c) then _assert_not_last_active_admin u (a_db w) else Ok tt) with
      | Ok _ =>
          (Ok (updated_row salt c u),
           Audited (updated_db now salt c u (a_db w))
             (audit w ++ conflict_events enforcement c u ++
              revoked_events (u_username u) (revoked_count c u (a_db w)) "user_deactivated"))
      | Raise e => (Raise (session_exc e), w)
      end
    else (Raise (MlflowException INVALID_PARAMETER_VALUE), Audited (a_db w) (audit w ++ conflict_events enforcement c u)).
Proof.
  intros Hwf Hu Hn. unfold update. rewrite -Hn. autorewrite with run. rewrite get_user_found //. cbn [fst snd].
  unfold conflict_events. fold (write_decision enforcement c u). destruct w as [d log]. cbn [a_db audit] in *.
  destruct (write_decision enforcement c u) as [[] cf re ow]; cbn [allowed conflict negb].
  2:{ destruct cf; cbn; by rewrite ?app_nil_r. }
  rewrite andb_false_r andb_true_r. autorewrite with run. rewrite guard_step.
  destruct (if decide (guarded c) then _ else _) as [[]|e]; [|done]. autorewrite with run.
  rewrite revoke_step. autorewrite with run. cbn [a_db audit fst snd].
  destruct cf; autorewrite with run; cbn [a_db audit]; rewrite revoked_events_step; autorewrite with run; [|done].
  by rewrite -app_assoc.
Qed.

Lemma update_unknown enforcement now salt username c w :
  (∀ u, u ∈ users (a_db w) → u_username u ≠ normalize_username username) →
  update enforcement now salt username c w = (not_found, w).
Proof.
  intros Hno. unfold update. autorewrite with run. rewrite get_user_missing //. by destruct w.
Qed.

Lemma delete_unknown username w :
  (∀ u, u ∈ users (a_db w) → u_username u ≠ normalize_username username) → delete username w = (not_found, w).
Proof.
  intros Hno. unfold delete. autorewrite with run. rewrite get_user_missing //. by destruct w.
Qed.

(** The row keeps its id and its name, whatever is supplied. *)
Lemma updated_row_key salt c u : u_id (updated_row salt c u) = u_id u ∧ u_username (updated_row salt c u) = u_username u.
Proof. unfold updated_row, set_flags, set_secret. by destruct (upd_password c), (upd_password_expiration c). Qed.

Lemma wf_updated_db now salt c u d : wf_db d → wf_db (updated_db now salt c u d).
Proof.
  destruct (updated_row_key salt c u) as [Hid Hname].
  assert (∀ us, u_id <$> replace_row u (updated_row salt c u) us = u_id <$> us) as Hids by (intros; by apply fmap_replace_row).
  intros []. unfold updated_db.
  case_decide; constructor; unfold user_ids, group_ids in *; cbn; rewrite ?Hids ?fmap_replace_row; try done.
  - unfold revoke_where. rewrite -list_fmap_compose. erewrite list_fmap_ext; [exact wf_sessions|].
    intros i s _. cbn. by case_decide.
  - apply Forall_fmap. eapply Forall_impl; [exact wf_session_fk|]. intros s Hs. cbn. by case_decide.
Qed.
End update.

(** ** Creation *)

Lemma wf_tables_more_users t uids uids' pt : uids ⊆ uids' → wf_tables t uids pt → wf_tables t uids' pt.
Proof.
  intros Hsub []. constructor; try done.
  - eapply Forall_impl; [exact wf_user_fk|]. intros r. apply Hsub.
  - eapply Forall_impl; [exact wf_regex_fk|]. intros r. apply Hsub.
Qed.

Lemma wf_add_user u d :
  u_id u ∉ user_ids d → u_username u ∉ (u_username <$> users d) → wf_db d → wf_db (set_users (λ rows, rows ++ [u]) d).
Proof.
  intros Hid Hname []. assert (user_ids d ⊆ user_ids (set_users (λ rows, rows ++ [u]) d)) as Hsub.
  { unfold user_ids. cbn. rewrite fmap_app. set_solver. }
  constructor; unfold user_ids; cbn; try done.
  - by apply NoDup_fmap_snoc.
  - by apply NoDup_fmap_snoc.
  - eapply Forall_impl; [exact wf_membership_fk|]. intros m [? ?]. split; [by apply Hsub|done].
  - eapply Forall_impl; [exact wf_identity_fk|]. intros m. apply Hsub.
  - eapply Forall_impl; [exact wf_session_fk|]. intros m. apply Hsub.
  - intros t. eapply wf_tables_more_users; [exact Hsub|done].
Qed.

Section create.
Context `{SqlBackend, UserLibs}.

Definition created_row (salt username password display_name : string) (is_admin is_service_account : bool) (d : db) : user_row :=
  UserRow (new_id (user_ids d)) (normalize_username username) display_name
    (generate_password_hash TOKEN_HASH_METHOD salt password) None is_admin is_service_account true MANUAL.

Lemma create_run salt username password display_name is_admin is_sa d :
  create salt username password display_name is_admin is_sa d =
    match _validate_username (normalize_username username) with
    | Raise e => (Raise e, d)
    | Ok _ =>
        let u := created_row salt username password display_name is_admin is_sa d in
        if decide (NoDup (u_username <$> users d ++ [u])) then (Ok u, set_users (λ _, users d ++ [u]) d)
        else (Raise (MlflowException RESOURCE_ALREADY_EXISTS), d)
    end.
Proof.
  unfold create. autorewrite with run. destruct (_validate_username _) as [[]|e]; [|done].
  unfold already_exists_on_conflict. autorewrite with run. unfold flush_unique. cbv zeta. fold (created_row salt username password display_name is_admin is_sa d).
  by case_decide.
Qed.

Lemma wf_create salt username password display_name is_admin is_sa : preserves (create salt username password display_name is_admin is_sa).
Proof.
  intros d Hwf. rewrite create_run. destruct (_validate_username _); [|done]. cbv zeta. case_decide as Hnd; [|done].
  cbn [snd]. rewrite fmap_app NoDup_app in Hnd. destruct Hnd as (_ & Hnew & _).
  apply (wf_add_user (created_row salt username password display_name is_admin is_sa d)); [apply new_id_fresh| |done].
  intros Hin. by apply (Hnew _ Hin), list_elem_of_singleton.
Qed.
End create.

(** ** Histories of user operations *)

Inductive user_op :=
  | CreateUser (salt username password display_name : string) (is_admin is_service_account : bool)
  | UpdateUser (enforcement : Enforcement) (now : Z) (salt username : string) (c : user_update)
  | DeleteUser (username : string).

Definition has_active_admin (d : db) : Prop := ∃ u, u ∈ users d ∧ is_active_admin u = true.

Section histories.
Context `{SqlBackend, UserLibs}.

Definition run_user_op (op : user_op) (w : audited) : audited :=
  match op with
  | CreateUser salt username password display_name is_admin is_sa =>
      (on_db (create salt username password display_name is_admin is_sa) w).2
  | UpdateUser enforcement now salt username c => (update enforcement now salt username c w).2
  | DeleteUser username => (delete username w).2
  end.

Definition run_user_ops (ops : list user_op) (w : audited) : audited := foldl (λ w op, run_user_op op w) w ops.

Lemma run_user_op_wf op w : wf_db (a_db w) → wf_db (a_db (run_user_op op w)).
Proof.
  intros Hwf. destruct op as [salt username password dn adm sa|enforcement now salt username c|username]; cbn [run_user_op].
  - rewrite on_db_run. by apply wf_create.
  - destruct (username_cases (a_db w) (normalize_username username) Hwf) as [(u&Hu&Hn)|Hno].
    + rewrite (update_run _ _ _ _ _ _ u) //. destruct (allowed _); [|done].
      destruct (if decide (guarded c) then _ else _) as [[]|e]; [by apply wf_updated_db|done].
    + by rewrite update_unknown.
  - destruct (username_cases (a_db w) (normalize_username username) Hwf) as [(u&Hu&Hn)|Hno].
    + rewrite (delete_run _ _ u) //. case_match; [by apply wf_without_user|done].
    + by rewrite delete_unknown.
Qed.

(** The guard: either the user is not an active administrator, or another is. *)
Lemma guard_ok u d :
  _assert_not_last_active_admin u d = Ok tt →
  is_active_admin u = false ∨ ∃ v, v ∈ users d ∧ is_active_admin v = true ∧ u_id v ≠ u_id u.
Proof.
  unfold _assert_not_last_active_admin. destruct (is_active_admin u); [|by left]. cbn. case_decide as Hn; [done|].
  intros _. right. destruct (filter _ _) as [|v l] eqn:E; [done|].
  assert (v ∈ filter (λ u0, u_is_admin u0 = true ∧ u_active u0 = true ∧ u_id u0 ≠ u_id u) (users d)) as Hv by (rewrite E; set_solver).
  apply list_elem_of_filter in Hv as [(Ha&Hact&Hne) Hv]. exists v. unfold is_active_admin. by rewrite Ha Hact.
Qed.

Lemma other_admin_survives (f : list user_row → list user_row) u d :
  has_active_admin d → (∀ v, v ∈ users d → u_id v ≠ u_id u → v ∈ f (users d)) →
  (∀ v, v ∈ users d → u_id v = u_id u → is_active_admin v = true →
     (∃ v', v' ∈ users d ∧ is_active_admin v' = true ∧ u_id v' ≠ u_id u) ∨ (∃ v', v' ∈ f (users d) ∧ is_active_admin v' = true)) →
  ∃ v, v ∈ f (users d) ∧ is_active_admin v = true.
Proof.
  intros (v&Hv&Ha) Hother Hsame. destruct (decide (u_id v = u_id u)) as [Heq|Hne]; [|by eauto].
  destruct (Hsame v Hv Heq Ha) as [(v'&Hv'&Ha'&Hne)|]; eauto.
Qed.

Lemma run_user_op_admin op w :
  wf_db (a_db w) → has_active_admin (a_db w) → has_active_admin (a_db (run_user_op op w)).
Proof.
  intros Hwf Hadm. destruct op as [salt username password dn adm sa|enforcement now salt username c|username]; cbn [run_user_op].
  - rewrite on_db_run create_run. destruct (_validate_username _); [|done]. cbv zeta. case_decide; [|done].
    destruct Hadm as (u&Hu&Ha).
    exists u. split; [|done]. cbn. set_solver.
  - destruct (username_cases (a_db w) (normalize_username username) Hwf) as [(u&Hu&Hn)|Hno]; [|by rewrite update_unknown].
    rewrite (update_run _ _ _ _ _ _ u) //. destruct (allowed _); [|done].
    destruct (if decide (guarded c) then _ else _) as [[]|e] eqn:Eg; [|done]. cbn [a_db snd].
    assert (users (updated_db now salt c u (a_db w)) = replace_row u (updated_row salt c u) (users (a_db w))) as Heq
      by (unfold updated_db; by destruct (decide (upd_active c = Some false))).
    unfold has_active_admin. rewrite Heq. apply (other_admin_survives (replace_row u (updated_row salt c u)) u); [done| |].
    + intros v Hv Hne. apply list_elem_of_fmap. exists v. rewrite decide_False; [done|]. by intros ->.
    + intros v Hv Hid Ha. assert (v = u) as -> by (by apply (user_unique_id (a_db w))).
      case_decide as Hg.
      * apply guard_ok in Eg as [Hna|?]; [congruence|by left].
      * right. exists (updated_row salt c u). split.
        -- apply list_elem_of_fmap. exists u. by rewrite decide_True.
        -- revert Ha. unfold is_active_admin, updated_row, set_flags, set_secret, guarded in *.
           destruct (upd_password c), (upd_password_expiration c), (upd_active c) as [[]|], (upd_is_admin c) as [[]|]; cbn;
             try (by destruct Hg; auto); rewrite ?andb_true_iff; naive_solver.
  - destruct (username_cases (a_db w) (normalize_username username) Hwf) as [(u&Hu&Hn)|Hno]; [|by rewrite delete_unknown].
    rewrite (delete_run _ _ u) //. destruct (_assert_not_last_active_admin u (a_db w)) as [[]|e] eqn:Eg; [|done]. cbn [a_db snd].
    unfold has_active_admin. rewrite users_without_user. apply (other_admin_survives (delete_row u) u); [done| |].
    + intros v Hv Hne. apply elem_of_delete_row. split; [done|]. by intros ->.
    + intros v Hv Hid Ha. assert (v = u) as -> by (by apply (user_unique_id (a_db w))).
      apply guard_ok in Eg as [Hna|?]; [congruence|by left].
Qed.

(** C1: Whatever sequence of user creations, updates (demotion and deactivation
    included) and deletions is run from a well-formed database with an active
    administrator, the database stays well formed and an active administrator
    remains. *)
Theorem an_active_administrator_always_remains ops w :
  wf_db (a_db w) → has_active_admin (a_db w) →
  wf_db (a_db (run_user_ops ops w)) ∧ has_active_admin (a_db (run_user_ops ops w)).
Proof.
  revert w. induction ops as [|op ops IH]; intros w Hwf Hadm; [done|].
  apply IH; [by apply run_user_op_wf|by apply run_user_op_admin].
Qed.
End histories.

(** ** Properties of single operations *)

Section properties.
Context `{SqlBackend, UserLibs}.

(** C36: Deleting a user either removes the row together with every session,
    identity, membership, permission and pattern row that refers to it, and
    nothing else: of each of these tables exactly the rows of other users are
    left, in their order, and every other table is as it was; or it is refused
    with INVALID_STATE because the user is the only active administrator, and
    then changes nothing. *)
Theorem delete_leaves_no_reference username w u :
  wf_db (a_db w) → u ∈ users (a_db w) → u_username u = normalize_username username →
  match delete username w with
  | (Ok _, w') =>
      let d := a_db w in let d' := a_db w' in
      users d' = delete_row u (users d) ∧ ¬ user_referenced (u_id u) d' ∧ wf_db d' ∧
      groups d' = groups d ∧ auth_states d' = auth_states d ∧
      (∀ t, t_group (perms d' t) = t_group (perms d t) ∧ t_group_regex (perms d' t) = t_group_regex (perms d t)) ∧
      auth_sessions d' = filter (λ s, s_user_id s ≠ u_id u) (auth_sessions d) ∧
      user_identities d' = filter (λ i, i_user_id i ≠ u_id u) (user_identities d) ∧
      user_groups d' = filter (λ m, m_user_id m ≠ u_id u) (user_groups d) ∧
      (∀ t, t_user (perms d' t) = filter (λ r, p_owner r ≠ u_id u) (t_user (perms d t)) ∧
            t_regex (perms d' t) = filter (λ r, r_owner r ≠ u_id u) (t_regex (perms d t)))
  | (Raise e, w') => w' = w ∧ e = MlflowException INVALID_STATE ∧
      is_active_admin u = true ∧ ∀ v, v ∈ users (a_db w) → is_active_admin v = true → v = u
  end.
Proof.
  intros Hwf Hu Hn. rewrite (delete_run _ _ u) //.
  destruct (_assert_not_last_active_admin u (a_db w)) as [[]|e] eqn:Eg; cbn [a_db].
  - cbv zeta. autorewrite with without_user. split_and!; try done.
    + apply without_user_unreferenced.
    + by apply wf_without_user.
    + intros t. by rewrite perms_without_user.
    + intros t. by rewrite perms_without_user.
  - unfold _assert_not_last_active_admin in Eg. destruct (is_active_admin u) eqn:Ea; [|done]. cbn in Eg.
    case_decide as Hlen; [|done]. injection Eg as <-. split_and!; try done.
    intros v Hv Hva. apply length_zero_iff_nil in Hlen. rewrite filter_nil_iff in Hlen.
    apply (user_unique_id (a_db w)); [done..|].
    destruct (decide (u_id v = u_id u)) as [|Hne]; [done|]. destruct (Hlen v Hv).
    unfold is_active_admin in Hva. apply andb_true_iff in Hva as [? ?]. by split_and!.
Qed.

Definition live (s : auth_session_row) : Prop := s_revoked_at s = None.

Lemma elem_of_revoke_where now (P : auth_session_row → Prop) `{∀ s, Decision (P s)} s l :
  s ∈ revoke_where now P l ∧ live s ↔ s ∈ l ∧ live s ∧ ¬ P s.
Proof.
  unfold revoke_where, live. rewrite list_elem_of_fmap. split.
  - intros [(s'&->&Hs') Hl]. case_decide as Hc; [done|]. split_and!; [done..|]. intros HP. by apply Hc.
  - intros (Hs&Hl&HP). split; [|done]. exists s. rewrite decide_False; naive_solver.
Qed.

(** A successful deactivation revokes every live session of that user and
    of nobody else, and appends the conflict record followed by one revocation
    record with the number of sessions ended, if any were live. *)
Theorem deactivation_ends_exactly_the_live_sessions enforcement now salt username c w u w' r :
  wf_db (a_db w) → u ∈ users (a_db w) → u_username u = normalize_username username →
  upd_active c = Some false →
  update enforcement now salt username c w = (Ok r, w') →
  u_active r = false ∧ r ∈ users (a_db w') ∧
  (∀ s, s ∈ auth_sessions (a_db w') ∧ live s ↔ s ∈ auth_sessions (a_db w) ∧ live s ∧ s_user_id s ≠ u_id u) ∧
  audit w' = audit w ++ conflict_events enforcement c u ++
    revoked_events (u_username u) (Z.of_nat (length (live_sessions_of (u_id u) (a_db w)))) "user_deactivated".
Proof.
  intros Hwf Hu Hn Hact. rewrite (update_run _ _ _ _ _ _ u) //.
  destruct (allowed _); [|done]. destruct (if decide (guarded c) then _ else _); [|done].
  intros [= <- <-]. cbn [a_db audit]. unfold updated_db, revoked_count. rewrite !decide_True //. split_and!; try done.
  - unfold updated_row, set_flags. cbn. by rewrite Hact.
  - cbn. apply list_elem_of_fmap. exists u. by rewrite decide_True.
  - intros s. cbn [auth_sessions set_users set_auth_sessions]. apply elem_of_revoke_where.
Qed.

(** A successful update keeps every field that was not supplied, gives a
    new secret exactly the expiry passed with it, and leaves other users,
    groups, memberships, identities and permissions alone. *)
Theorem update_changes_only_what_is_supplied enforcement now salt username c w u w' r :
  wf_db (a_db w) → u ∈ users (a_db w) → u_username u = normalize_username username →
  update enforcement now salt username c w = (Ok r, w') →
  u_id r = u_id u ∧ u_username r = u_username u ∧ u_display_name r = u_display_name u ∧
  u_is_admin r = default (u_is_admin u) (upd_is_admin c) ∧
  u_is_service_account r = default (u_is_service_account u) (upd_is_service_account c) ∧
  u_active r = default (u_active u) (upd_active c) ∧
  u_managed_by r = default (u_managed_by u) (upd_managed_by c) ∧
  match upd_password c with
  | Some p => u_password_hash r = generate_password_hash TOKEN_HASH_METHOD salt p ∧
              u_password_expiration r = column_datetime <$> upd_password_expiration c
  | None => u_password_hash r = u_password_hash u ∧
            u_password_expiration r = (if upd_password_expiration c is Some e then Some (column_datetime e) else u_password_expiration u)
  end ∧
  users (a_db w') = replace_row u r (users (a_db w)) ∧
  groups (a_db w') = groups (a_db w) ∧ user_groups (a_db w') = user_groups (a_db w) ∧
  user_identities (a_db w') = user_identities (a_db w) ∧ perms (a_db w') = perms (a_db w).
Proof.
  intros Hwf Hu Hn. rewrite (update_run _ _ _ _ _ _ u) //.
  destruct (allowed _); [|done]. destruct (if decide (guarded c) then _ else _); [|done].
  intros [= <- <-]. cbn [a_db]. unfold updated_db, updated_row, set_flags, set_secret.
  destruct (decide (upd_active c = Some false)); by destruct (upd_password c), (upd_password_expiration c).
Qed.

(** update raises INVALID_PARAMETER_VALUE, leaving the database as it was
    and recording one denied conflict, exactly when enforcement is on, no
    administrator override was given and the write crosses ownership. *)
Theorem enforcement_refuses_without_a_trace enforcement now salt username c w u :
  wf_db (a_db w) → u ∈ users (a_db w) → u_username u = normalize_username username →
  (∃ w', update enforcement now salt username c w = (Raise (MlflowException INVALID_PARAMETER_VALUE), w') ∧ a_db w' = a_db w ∧
     ∃ dec, audit w' = audit w ++ [OwnershipConflict (u_username u) dec (or_default (upd_written_by c) MANUAL) false]) ↔
  enforcement = ENFORCE ∧ upd_admin_override c = false ∧ crosses (Some (u_managed_by u)) (upd_written_by c).
Proof.
  intros Hwf Hu Hn. rewrite (update_run _ _ _ _ _ _ u) //.
  pose proof (evaluate_write_refuses (Some (u_managed_by u)) (upd_written_by c) enforcement (upd_admin_override c)) as Href.
  pose proof (evaluate_write_conflict (Some (u_managed_by u)) (upd_written_by c) enforcement (upd_admin_override c)) as Hcf.
  fold (write_decision enforcement c u) in Href, Hcf. unfold conflict_events.
  destruct (allowed (write_decision enforcement c u)) eqn:Eal.
  - split; [|intros (?&?&?); discriminate (proj2 Href ltac:(done))].
    intros (w'&Hrun&_). exfalso. destruct (decide (guarded c)); [|done]. revert Hrun. unfold _assert_not_last_active_admin.
    destruct (is_active_admin u); [|done]. cbn [negb]. by case_decide.
  - pose proof (proj1 Href eq_refl) as Hc. split; [naive_solver|]. intros _. eexists. split_and!; [done|done|].
    cbn [audit]. rewrite (proj2 Hcf); [by eauto|]. destruct Hc as (?&?&->). split; [done|by right].
Qed.

(** Authentication never raises and never writes: it returns true exactly
    when the case-folded name is a user whose secret has not expired and whose
    stored hash verifies the password. *)
Theorem authenticate_spec now username password d :
  wf_db d →
  ∃ b, authenticate now username password d = (Ok b, d) ∧
    (b = true ↔ ∃ u, u ∈ users d ∧ u_username u = normalize_username username ∧
       (∀ e, u_password_expiration u = Some e → now ≤ e) ∧ check_password_hash (u_password_hash u) password = true).
Proof.
  intros Hwf. unfold authenticate. autorewrite with run.
  destruct (username_cases d (normalize_username username) Hwf) as [(u&Hu&Hn)|Hno].
  - rewrite -Hn get_user_found //.
    exists (match u_password_expiration u with
            | Some e => if decide (instant (aware (naive e)) < now) then false else check_password_hash (u_password_hash u) password
            | None => check_password_hash (u_password_hash u) password end). split.
    { destruct (u_password_expiration u) as [e|]; [|done]. by destruct (decide (_ < now)). }
    assert (∀ P : user_row → Prop, (∃ v, v ∈ users d ∧ u_username v = u_username u ∧ P v) ↔ P u) as ->.
    { intros P. split; [|by eauto]. intros (v&Hv&Hnv&HP). by apply (user_unique_name d) in Hnv as ->. }
    destruct (u_password_expiration u) as [e|]; [|naive_solver]. rewrite instant_naive.
    case_decide; split; try naive_solver lia. intros [Hle _]. specialize (Hle e eq_refl). lia.
  - rewrite get_user_missing //. exists false. split; [done|]. split; [done|]. intros (u&Hu&Hn&_). by destruct (Hno u).
Qed.

(** A user who has just been created authenticates with the password given,
    in any letter case of the name, and a second creation under any letter case
    is refused with RESOURCE_ALREADY_EXISTS. *)
Theorem created_user_authenticates_in_any_case salt username username' password dn adm sa now d u d' :
  wf_db d → create salt username password dn adm sa d = (Ok u, d') →
  normalize_username username' = normalize_username username →
  authenticate now username' password d' = (Ok true, d') ∧
  (create salt username' password dn adm sa d').1 = Raise (MlflowException RESOURCE_ALREADY_EXISTS).
Proof.
  intros Hwf Hrun Hn. assert (wf_db d') as Hwf' by (pose proof (wf_create salt username password dn adm sa d Hwf) as Hw; by rewrite Hrun in Hw).
  revert Hrun. rewrite create_run. destruct (_validate_username _) as [[]|] eqn:Ev; [|done]. cbv zeta. case_decide as Hnd; [|done].
  intros [= <- <-]. split.
  - unfold authenticate. autorewrite with run. rewrite Hn.
    rewrite (get_user_found _ (created_row salt username password dn adm sa d) Hwf'); [|cbn; set_solver].
    cbn. by rewrite check_generated.
  - rewrite create_run Hn Ev. cbv zeta. rewrite decide_False; [done|].
    rewrite fmap_app NoDup_app. intros (_&Hd&_). apply (Hd (normalize_username username)); [cbn; set_solver|].
    cbn. rewrite Hn. set_solver.
Qed.
End properties.
