(* ===== verification/Groups.v ===== *)
(** * The group repository ([mlflow_oidc_auth/repository/group.py]) *)
From S2P Require Import Prelude PyStrings Permissions Regex RegexSafety Database Repositories RepositoryFacts RepositoryInvariant Users.

(** [list(dict.fromkeys(l))]: the first occurrence of every name. *)
Fixpoint dict_fromkeys (l : list string) : list string :=
  match l with
  | [] => []
  | x :: l => x :: filter (λ y, y ≠ x) (dict_fromkeys l)
  end.

Definition membership_pk (m : membership_row) : Z * Z := (m_user_id m, m_group_id m).

(** Rows that refer to a group by foreign key, memberships apart (the ORM
    deletes those with the group, [user_groups] being its secondary table). *)
Definition group_referenced (gid : Z) (d : db) : Prop :=
  Exists (λ t, Exists (λ r, p_owner r = gid) (t_group (perms d t)) ∨
               Exists (λ r, r_owner r = gid) (t_group_regex (perms d t))) all_tables.

#[export] Instance group_referenced_dec gid d : Decision (group_referenced gid d).
Proof. unfold group_referenced. apply _. Defined.

Module GroupRepository.
Section repo.
Context `{SqlBackend}.

Definition insert_group (group_name : string) : M db unit := λ d,
  match flush_unique g_name (groups d ++ [GroupRow (new_id (group_ids d)) group_name]) with
  | Ok rows => (Ok tt, set_groups (λ _, rows) d)
  | Raise e => (Raise e, d)
  end.

Definition create_group (group_name : string) : M db unit :=
  managed (already_exists_on_conflict (insert_group group_name)).

(** Each query of the loop flushes the groups added so far. *)
Fixpoint create_missing (group_names : list string) : M db unit :=
  match group_names with
  | [] => mret tt
  | group_name :: rest =>
      group ← gets (λ d, head (filter (λ g, g_name g = group_name) (groups d)));
      _ ← match group with None => insert_group group_name | Some _ => mret tt end;
      create_missing rest
  end.

Definition create_groups (group_names : list string) : M db unit := managed (create_missing group_names).

Definition list_groups : M db (list string) := managed (gets (λ d, g_name <$> groups d)).

Definition delete_group_row (g : group_row) : M db unit := λ d,
  let d' := set_user_groups_rows (filter (λ m, m_group_id m ≠ g_id g)) d in
  if fk_enforced && bool_decide (group_referenced (g_id g) d') then (Raise IntegrityError, d)
  else (Ok tt, set_groups (delete_row g) d').

Definition delete_group (group_name : string) : M db unit :=
  managed (
    grp ← get_group group_name;
    delete_group_row grp).

Definition write_memberships (f : list membership_row → list membership_row) : M db unit := λ d,
  match flush_unique membership_pk (f (user_groups d)) with
  | Ok _ => (Ok tt, set_user_groups_rows f d)
  | Raise e => (Raise e, d)
  end.

Definition add_user_to_group (username group_name : string) : M db unit :=
  managed (
    user ← get_user username;
    grp ← get_group group_name;
    write_memberships (λ l, l ++ [MembershipRow (u_id user) (g_id grp)])).

(** [.one()] is not caught here: a missing membership surfaces as the
    session's error. *)
Definition remove_user_from_group (username group_name : string) : M db unit :=
  managed (
    user ← get_user username;
    grp ← get_group group_name;
    ug ← ask (λ d, query_one (filter (λ m, m_user_id m = u_id user ∧ m_group_id m = g_id grp) (user_groups d)));
    write_memberships (delete_row ug)).

Definition list_group_members (group_name : string) : M db (list user_row) :=
  managed (
    grp ← get_group group_name;
    user_ids ← gets (λ d, m_user_id <$> filter (λ m, m_group_id m = g_id grp) (user_groups d));
    gets (λ d, filter (λ u, u_id u ∈ user_ids) (users d))).

Definition list_groups_for_user (username : string) : M db (list string) :=
  managed (gets (λ d, g_name <$> sort_by g_id (join_user_groups g_id (groups d) username d))).

Definition list_group_ids_for_user (username : string) : M db (list Z) :=
  managed (gets (λ d, m_group_id <$> join_user m_user_id (user_groups d) username d)).

Fixpoint add_memberships (user : user_row) (group_names : list string) : M db unit :=
  match group_names with
  | [] => mret tt
  | group_name :: rest =>
      group ← get_group group_name;
      _ ← write_memberships (λ l, l ++ [MembershipRow (u_id user) (g_id group)]);
      add_memberships user rest
  end.

Definition set_groups_for_user (username : string) (group_names : list string) : M db unit :=
  let group_names := dict_fromkeys group_names in
  managed (
    user ← get_user username;
    user_groups ← list_user_groups user;
    _ ← write_memberships (filter (λ m, m ∉ user_groups));
    add_memberships user group_names).
End repo.
End GroupRepository.
Import GroupRepository.

(** ** Facts *)

Lemma elem_of_dict_fromkeys x l : x ∈ dict_fromkeys l ↔ x ∈ l.
Proof.
  induction l as [|y l IH]; [done|]. cbn. rewrite !elem_of_cons list_elem_of_filter IH.
  destruct (decide (x = y)); naive_solver.
Qed.

Lemma NoDup_dict_fromkeys l : NoDup (dict_fromkeys l).
Proof.
  induction l as [|y l IH]; [constructor|]. cbn. constructor; [|by apply NoDup_filter].
  rewrite list_elem_of_filter. by intros [].
Qed.

Lemma dict_fromkeys_NoDup l : NoDup l → dict_fromkeys l = l.
Proof.
  induction 1 as [|x l Hx Hl IH]; [done|]. cbn. rewrite IH. f_equal. clear -Hx.
  induction l as [|y l IH]; [done|]. rewrite filter_cons decide_True; [|set_solver]. f_equal. set_solver.
Qed.

Lemma group_unique_name d g g' :
  wf_db d → g ∈ groups d → g' ∈ groups d → g_name g = g_name g' → g = g'.
Proof.
  intros Hwf Hg Hg' Heq. pose proof (filter_unique g_name (groups d) g' (wf_group_names _ Hwf) Hg') as Hf.
  assert (g ∈ filter (λ y, g_name y = g_name g') (groups d)) as Hin by (by apply list_elem_of_filter).
  rewrite Hf in Hin. by apply list_elem_of_singleton in Hin.
Qed.

Lemma group_unique_id d g g' :
  wf_db d → g ∈ groups d → g' ∈ groups d → g_id g = g_id g' → g = g'.
Proof.
  intros Hwf Hg Hg' Heq. pose proof (filter_unique g_id (groups d) g' (wf_group_ids _ Hwf) Hg') as Hf.
  assert (g ∈ filter (λ y, g_id y = g_id g') (groups d)) as Hin by (by apply list_elem_of_filter).
  rewrite Hf in Hin. by apply list_elem_of_singleton in Hin.
Qed.

Lemma get_group_missing d group_name :
  (∀ g, g ∈ groups d → g_name g ≠ group_name) → get_group group_name d = (not_found, d).
Proof. intros Hno. unfold get_group. rewrite ask_run. by rewrite (proj2 (filter_nil_iff _ _)). Qed.

Lemma group_name_cases d group_name :
  (∃ g, g ∈ groups d ∧ g_name g = group_name) ∨ (∀ g, g ∈ groups d → g_name g ≠ group_name).
Proof.
  destruct (decide (group_name ∈ g_name <$> groups d)) as [Hin|Hnin].
  - apply list_elem_of_fmap in Hin as (g & -> & Hg). eauto.
  - right. intros g Hg <-. apply Hnin. by apply list_elem_of_fmap_2.
Qed.

Lemma fmap_membership_pk l : NoDup l → NoDup (membership_pk <$> l).
Proof. apply NoDup_fmap_2. intros [] []. by intros [= -> ->]. Qed.

Lemma NoDup_membership_pk l : NoDup (membership_pk <$> l) → NoDup l.
Proof. apply NoDup_fmap_1. Qed.

Lemma wf_set_memberships f d :
  wf_db d → NoDup (f (user_groups d)) →
  Forall (λ m, m_user_id m ∈ user_ids d ∧ m_group_id m ∈ group_ids d) (f (user_groups d)) →
  wf_db (set_user_groups_rows f d).
Proof. intros [] Hnd Hfk. by constructor. Qed.

Section facts.
Context `{SqlBackend}.

Lemma write_memberships_ok f d d' :
  write_memberships f d = (Ok tt, d') ↔ NoDup (membership_pk <$> f (user_groups d)) ∧ d' = set_user_groups_rows f d.
Proof.
  unfold write_memberships, flush_unique. case_decide; [|by split; [|intros [? _]]].
  split; [by intros [= <-]|by intros [_ ->]].
Qed.

(** The groups of a user, by name: sorted by id, each once. *)
Lemma list_groups_for_user_found d u :
  wf_db d → u ∈ users d →
  list_groups_for_user (u_username u) d =
    (Ok (g_name <$> sort_by g_id (filter (λ g, MembershipRow (u_id u) (g_id g) ∈ user_groups d) (groups d))), d).
Proof. intros Hwf Hu. unfold list_groups_for_user. autorewrite with run. by rewrite join_user_groups_found. Qed.

(** Adding memberships to groups that exist and are not yet joined. *)
Lemma add_memberships_ok user gs d :
  wf_db d → user ∈ users d → NoDup gs → (∀ g, g ∈ gs → g ∈ groups d) →
  (∀ g, g ∈ gs → MembershipRow (u_id user) (g_id g) ∉ user_groups d) →
  ∃ d', add_memberships user (g_name <$> gs) d = (Ok tt, d') ∧ wf_db d' ∧
    users d' = users d ∧ groups d' = groups d ∧ perms d' = perms d ∧
    user_groups d' = user_groups d ++ ((λ g, MembershipRow (u_id user) (g_id g)) <$> gs).
Proof.
  revert d. induction gs as [|g gs IH]; intros d Hwf Hu Hnd Hin Hnew.
  { exists d. by rewrite app_nil_r. }
  apply NoDup_cons in Hnd as [Hg Hnd]. rewrite !fmap_cons. cbn [add_memberships]. autorewrite with run.
  rewrite get_group_found //; [|set_solver].
  set (f := λ l, l ++ [MembershipRow (u_id user) (g_id g)]).
  assert (NoDup (f (user_groups d))) as Hf.
  { apply NoDup_app. split_and!; [by apply wf_memberships| |by apply NoDup_singleton].
    intros m Hm ->%list_elem_of_singleton. by apply (Hnew g); [set_solver|]. }
  autorewrite with run. rewrite (proj2 (write_memberships_ok f d _) (conj (fmap_membership_pk _ Hf) eq_refl)).
  destruct (IH (set_user_groups_rows f d)) as (d'&Hrun&Hwf'&Hus&Hgs&Hps&Hugs); try done.
  - apply wf_set_memberships; [done|done|]. apply Forall_app. split; [by apply wf_membership_fk|].
    constructor; [|done]. split; [by apply (list_elem_of_fmap_2 u_id)|].
    apply (list_elem_of_fmap_2 g_id). set_solver.
  - set_solver.
  - intros g' Hg'. cbn. intros [Hm|Hm]%elem_of_app; [by apply (Hnew g'); set_solver|].
    apply list_elem_of_singleton in Hm as [= Hid].
    assert (g' = g) as -> by (apply (group_unique_id d); set_solver). done.
  - exists d'. split_and!; try done. rewrite Hugs. cbn. unfold f. by rewrite -app_assoc.
Qed.

(** A list of names: all known, or known up to the first unknown one. *)
Lemma group_names_cases d names :
  (∃ gs, names = g_name <$> gs ∧ ∀ g, g ∈ gs → g ∈ groups d) ∨
  (∃ gs bad post, names = (g_name <$> gs) ++ bad :: post ∧ (∀ g, g ∈ gs → g ∈ groups d) ∧
     ∀ g, g ∈ groups d → g_name g ≠ bad).
Proof.
  induction names as [|n names IH]; [left; exists []; split; [done|by intros ? ?%not_elem_of_nil]|].
  destruct (group_name_cases d n) as [(g&Hg&<-)|Hno].
  - destruct IH as [(gs&->&Hgs)|(gs&bad&post&->&Hgs&Hbad)].
    + left. exists (g :: gs). split; [done|]. set_solver.
    + right. exists (g :: gs), bad, post. split_and!; [done| |done]. set_solver.
  - right. exists [], n, names. split_and!; [done| |done]. by intros ? ?%not_elem_of_nil.
Qed.

Lemma add_memberships_app user l1 l2 d :
  add_memberships user (l1 ++ l2) d =
    match add_memberships user l1 d with (Ok _, d1) => add_memberships user l2 d1 | (Raise e, d1) => (Raise e, d1) end.
Proof.
  revert d. induction l1 as [|n l1 IH]; intros d; [done|]. cbn [app add_memberships]. autorewrite with run.
  destruct (get_group n d) as [[g|e] d1]; [|done]. autorewrite with run.
  by destruct (write_memberships _ d1) as [[[]|e] d2].
Qed.

(** The memberships of the other users and of this one, after the deletion. *)
Definition without_memberships (u : user_row) (d : db) : db :=
  set_user_groups_rows (filter (λ m, m ∉ filter (λ m, m_user_id m = u_id u) (user_groups d))) d.

Lemma elem_of_without_memberships u d m :
  m ∈ user_groups (without_memberships u d) ↔ m ∈ user_groups d ∧ m_user_id m ≠ u_id u.
Proof. cbn. rewrite !list_elem_of_filter. naive_solver. Qed.

Lemma wf_without_memberships u d : wf_db d → wf_db (without_memberships u d).
Proof.
  intros Hwf. apply wf_set_memberships; [done|by apply NoDup_filter, wf_memberships|by apply Forall_filter, wf_membership_fk].
Qed.

Lemma set_groups_run username names d u :
  wf_db d → u ∈ users d → u_username u = username →
  set_groups_for_user username names d =
    match add_memberships u (dict_fromkeys names) (without_memberships u d) with
    | (Ok _, d') => (Ok tt, d')
    | (Raise e, _) => (Raise (session_exc e), d)
    end.
Proof.
  intros Hwf Hu <-. unfold set_groups_for_user. autorewrite with run. rewrite get_user_found //.
  autorewrite with run. unfold list_user_groups. autorewrite with run.
  rewrite (proj2 (write_memberships_ok _ d _) (conj (fmap_membership_pk _ (wf_memberships _ (wf_without_memberships u d Hwf))) eq_refl)).
  fold (without_memberships u d). by destruct (add_memberships _ _ _) as [[[]|e] d'].
Qed.

Lemma add_memberships_after_delete u gs d :
  wf_db d → u ∈ users d → NoDup gs → (∀ g, g ∈ gs → g ∈ groups d) →
  ∃ d', add_memberships u (g_name <$> gs) (without_memberships u d) = (Ok tt, d') ∧ wf_db d' ∧
    users d' = users d ∧ groups d' = groups d ∧ perms d' = perms d ∧
    ∀ m, m ∈ user_groups d' ↔ (m ∈ user_groups d ∧ m_user_id m ≠ u_id u) ∨ ∃ g, g ∈ gs ∧ m = MembershipRow (u_id u) (g_id g).
Proof.
  intros Hwf Hu Hnd Hgs.
  destruct (add_memberships_ok u gs (without_memberships u d)) as (d'&Hrun&Hwf'&Hus&Hgr&Hps&Hug); try done.
  - by apply wf_without_memberships.
  - intros g Hg [_ Hm]%elem_of_without_memberships. done.
  - exists d'. split_and!; try done. intros m. rewrite Hug elem_of_app elem_of_without_memberships list_elem_of_fmap.
    naive_solver.
Qed.

(** Setting a user's groups is all or nothing: on success the user's groups
    are exactly the names given, each once, and other memberships are untouched;
    if any name is unknown it raises RESOURCE_DOES_NOT_EXIST and the old
    memberships are still there. *)
Theorem set_groups_for_user_replaces_the_groups username names d u :
  wf_db d → u ∈ users d → u_username u = username →
  match set_groups_for_user username names d with
  | (Ok _, d') =>
      wf_db d' ∧
      (∃ l, list_groups_for_user username d' = (Ok l, d') ∧ NoDup l ∧ ∀ n, n ∈ l ↔ n ∈ names) ∧
      (∀ m, m_user_id m ≠ u_id u → m ∈ user_groups d' ↔ m ∈ user_groups d) ∧
      users d' = users d ∧ groups d' = groups d ∧ perms d' = perms d
  | (Raise e, d') => d' = d ∧ e = MlflowException RESOURCE_DOES_NOT_EXIST ∧
      ∃ n, n ∈ names ∧ ∀ g, g ∈ groups d → g_name g ≠ n
  end.
Proof.
  intros Hwf Hu Hn. rewrite (set_groups_run _ _ _ u) //.
  pose proof (NoDup_dict_fromkeys names) as Hnd.
  destruct (group_names_cases d (dict_fromkeys names)) as [(gs&Hgs&Hin)|(gs&bad&post&Hgs&Hin&Hbad)].
  - rewrite Hgs in Hnd. rewrite Hgs. apply NoDup_fmap_1 in Hnd.
    destruct (add_memberships_after_delete u gs d Hwf Hu Hnd Hin) as (d'&->&Hwf'&Hus&Hgr&Hps&Hug).
    split_and!; try done; [|intros m Hm; rewrite Hug; naive_solver].
    rewrite -Hn list_groups_for_user_found ?Hus //. eexists. split_and!; [done| |].
    + rewrite sort_by_perm. by apply NoDup_fmap_filter, wf_group_names.
    + intros n. rewrite -(elem_of_dict_fromkeys n names) Hgs !list_elem_of_fmap.
      apply exist_proper. intros g. rewrite elem_of_sort_by list_elem_of_filter Hug Hgr.
      split; [|naive_solver]. intros [-> [[[_ Hne]|(g'&Hg'&[= Hid])] Hg]]; [by destruct Hne|].
      split; [done|]. by rewrite (group_unique_id d g g') //; apply Hin.
  - rewrite Hgs add_memberships_app. rewrite Hgs fmap_app in Hnd || rewrite Hgs in Hnd.
    apply NoDup_app in Hnd as (Hnd&_&_). apply NoDup_fmap_1 in Hnd.
    destruct (add_memberships_after_delete u gs d Hwf Hu Hnd Hin) as (d'&->&_&_&Hgr&_&_).
    cbn [add_memberships]. autorewrite with run. rewrite get_group_missing; [|by rewrite Hgr].
    split_and!; [done|done|]. exists bad. split; [|done]. apply elem_of_dict_fromkeys. rewrite Hgs. set_solver.
Qed.
End facts.

(** ** Every group operation keeps the database well formed *)

Lemma wf_add_group g d :
  g_id g ∉ group_ids d → NoDup (g_name <$> groups d ++ [g]) → wf_db d → wf_db (set_groups (λ _, groups d ++ [g]) d).
Proof.
  intros Hid Hname []. constructor; unfold group_ids; cbn; try done.
  - by apply NoDup_fmap_snoc.
  - eapply Forall_impl; [exact wf_membership_fk|]. intros m [? Hg]. split; [done|].
    rewrite fmap_app. apply elem_of_app. by left.
Qed.

Lemma wf_without_group g d :
  wf_db d → wf_db (set_groups (delete_row g) (set_user_groups_rows (filter (λ m, m_group_id m ≠ g_id g)) d)).
Proof.
  intros []. constructor; unfold group_ids; cbn; try done.
  - by apply NoDup_fmap_delete_row.
  - by apply NoDup_fmap_delete_row.
  - by apply NoDup_filter.
  - rewrite Forall_forall. intros m [Hne Hm]%list_elem_of_filter. rewrite Forall_forall in wf_membership_fk.
    destruct (wf_membership_fk m Hm) as [Hu Hg]. split; [done|].
    apply list_elem_of_fmap in Hg as (g'&Hid&Hg'). apply list_elem_of_fmap. exists g'. split; [done|].
    apply elem_of_delete_row. split; [done|]. by intros ->.
Qed.

Section preserves.
Context `{SqlBackend}.

Lemma triple_insert_group group_name : triple wf_db (insert_group group_name) (λ _, wf_db).
Proof.
  intros d [] d' Hwf. unfold insert_group, flush_unique. case_decide as Hnd; [|done]. intros [= <-].
  by apply wf_add_group; [apply new_id_fresh| |].
Qed.

Lemma triple_write_memberships f P :
  (∀ d, P d → wf_db d ∧ Forall (λ m, m_user_id m ∈ user_ids d ∧ m_group_id m ∈ group_ids d) (f (user_groups d))) →
  triple P (write_memberships f) (λ _, wf_db).
Proof.
  intros HP d [] d' [Hwf Hfk]%HP [Hnd ->]%write_memberships_ok.
  by apply wf_set_memberships; [|apply NoDup_membership_pk|].
Qed.

Lemma wf_create_group group_name : preserves (create_group group_name).
Proof. apply preserves_managed, triple_conflict, triple_insert_group. Qed.

Lemma wf_create_groups group_names : preserves (create_groups group_names).
Proof.
  apply preserves_managed. induction group_names as [|n names IH]; [by apply triple_ret|].
  cbn [create_missing]. eapply (triple_bind _ _ _ (λ _, wf_db)); [by apply triple_gets|]. intros o.
  eapply (triple_bind _ _ _ (λ _, wf_db)); [|done]. destruct o; [by apply triple_ret|apply triple_insert_group].
Qed.

Lemma delete_group_row_ok g d d' :
  delete_group_row g d = (Ok tt, d') ↔
  ¬ (fk_enforced = true ∧ group_referenced (g_id g) d) ∧
  d' = set_groups (delete_row g) (set_user_groups_rows (filter (λ m, m_group_id m ≠ g_id g)) d).
Proof.
  unfold delete_group_row. cbv zeta.
  change (group_referenced (g_id g) (set_user_groups_rows _ d)) with (group_referenced (g_id g) d).
  destruct fk_enforced; cbn [andb].
  - case_bool_decide as Hr; [split; [done|by intros [[] _]]|].
    split; [intros [= <-]; split; [by intros [_ ?]|done]|by intros [_ ->]].
  - split; [intros [= <-]; split; [by intros [? _]|done]|by intros [_ ->]].
Qed.

Lemma wf_delete_group group_name : preserves (delete_group group_name).
Proof.
  apply preserves_managed. eapply triple_bind; [apply triple_get_group|]. intros g.
  intros d [] d' (Hwf&_) [_ ->]%delete_group_row_ok. by apply wf_without_group.
Qed.

Lemma triple_get_user_group username group_name :
  triple wf_db (user ← get_user username; grp ← get_group group_name; mret (user, grp))
    (λ ug d, wf_db d ∧ ug.1 ∈ users d ∧ ug.2 ∈ groups d).
Proof.
  intros d a d' Hwf (u&?&(->&Hu&_)%get_user_ok&(g&?&(->&Hg&_)%get_group_ok&[-> ->]%ret_ok)%M_bind_ok)%M_bind_ok. done.
Qed.

Lemma wf_snoc_membership d u g :
  wf_db d → u ∈ users d → g ∈ groups d →
  Forall (λ m, m_user_id m ∈ user_ids d ∧ m_group_id m ∈ group_ids d) (user_groups d ++ [MembershipRow (u_id u) (g_id g)]).
Proof.
  intros Hwf Hu Hg. apply Forall_app. split; [by apply wf_membership_fk|]. constructor; [|done].
  split; [by apply (list_elem_of_fmap_2 u_id)|by apply (list_elem_of_fmap_2 g_id)].
Qed.

Lemma wf_add_user_to_group username group_name : preserves (add_user_to_group username group_name).
Proof.
  apply preserves_managed. intros d [] d' Hwf (u&?&(->&Hu&_)%get_user_ok&(g&?&(->&Hg&_)%get_group_ok&Hw)%M_bind_ok)%M_bind_ok.
  revert Hw. apply (triple_write_memberships _ (λ d0, d0 = d)); [|done]. intros ? ->. split; [done|]. by apply wf_snoc_membership.
Qed.

Lemma wf_remove_user_from_group username group_name : preserves (remove_user_from_group username group_name).
Proof.
  apply preserves_managed. intros d [] d' Hwf (u&?&(->&Hu&_)%get_user_ok&(g&?&(->&Hg&_)%get_group_ok&Hw)%M_bind_ok)%M_bind_ok.
  apply M_bind_ok in Hw as (m&?&[_ ->]%ask_ok&Hw). revert Hw.
  apply (triple_write_memberships _ (λ d0, d0 = d)); [|done]. intros ? ->. split; [done|].
  by apply Forall_delete_row, wf_membership_fk.
Qed.

Lemma triple_add_memberships u names :
  triple (λ d, wf_db d ∧ u ∈ users d) (add_memberships u names) (λ _, wf_db).
Proof.
  induction names as [|n names IH]; [by apply triple_ret; naive_solver|].
  intros d [] d' [Hwf Hu]. cbn [add_memberships].
  intros (g&?&(->&Hg&_)%get_group_ok&([]&d1&Hw&Hrest)%M_bind_ok)%M_bind_ok.
  eapply IH; [|exact Hrest].
  apply write_memberships_ok in Hw as [Hnd ->]. split; [|done].
  apply wf_set_memberships; [done|by apply NoDup_membership_pk|by apply wf_snoc_membership].
Qed.

Lemma wf_set_groups_for_user username names : preserves (set_groups_for_user username names).
Proof.
  intros d Hwf. destruct (username_cases d username Hwf) as [(u&Hu&Hn)|Hno].
  - rewrite (set_groups_run _ _ _ u) //. destruct (add_memberships _ _ _) as [[[]|e] d'] eqn:E; [|done].
    eapply triple_add_memberships; [|exact E]. split; [by apply wf_without_memberships|done].
  - unfold set_groups_for_user. autorewrite with run. by rewrite get_user_missing.
Qed.

(** Deleting a group removes it, its memberships and its name from every
    user's group list; if foreign keys are enforced and a grant still refers to
    the group, it raises and changes nothing. *)
Theorem delete_group_removes_the_group_or_nothing group_name d g :
  wf_db d → g ∈ groups d → g_name g = group_name →
  if decide (fk_enforced = true ∧ group_referenced (g_id g) d)
  then delete_group group_name d = (Raise (session_exc IntegrityError), d)
  else ∃ d', delete_group group_name d = (Ok tt, d') ∧ wf_db d' ∧
    (∀ g', g' ∈ groups d' ↔ g' ∈ groups d ∧ g' ≠ g) ∧
    (∀ m, m ∈ user_groups d' ↔ m ∈ user_groups d ∧ m_group_id m ≠ g_id g) ∧
    (∀ username, (list_groups_for_user username d').1 = (filter (λ n, n ≠ group_name) <$> (list_groups_for_user username d).1)) ∧
    perms d' = perms d ∧ users d' = users d.
Proof.
  intros Hwf Hg <-. unfold delete_group. autorewrite with run. rewrite get_group_found //.
  case_decide as Hc.
  - unfold delete_group_row. cbv zeta.
    change (group_referenced (g_id g) (set_user_groups_rows _ d)) with (group_referenced (g_id g) d).
    destruct Hc as [-> Hr]. by rewrite bool_decide_true.
  - rewrite (proj2 (delete_group_row_ok g d _) (conj Hc eq_refl)). eexists. split_and!; [done|by apply wf_without_group| | | |done|done].
    + intros g'. apply elem_of_delete_row.
    + intros m. cbn. rewrite list_elem_of_filter. naive_solver.
    + intros username. unfold list_groups_for_user. autorewrite with run. cbn [fst].
      destruct (username_cases d username Hwf) as [(u&Hu&<-)|Hno].
      2:{ by rewrite !join_user_groups_missing. }
      set (d' := set_groups _ _). assert (wf_db d') as Hwf' by (by apply wf_without_group).
      rewrite (join_user_groups_found _ _ u d) // (join_user_groups_found _ _ u d') //.
      cbn. f_equal. rewrite filter_fmap filter_sort_by_comm list_filter_filter. do 2 f_equal.
      unfold delete_row. rewrite list_filter_filter. apply list_filter_iff_in. intros g' Hg'.
      rewrite list_elem_of_filter. cbn. split.
      -- intros [[_ Hm] Hne]. split; [|done]. intros Heq. destruct Hne. by apply (group_unique_name d).
      -- intros [Hne Hm]. split; [split; [|done]|congruence]. intros Heq. destruct Hne. f_equal. by apply (group_unique_id d).
Qed.
End preserves.

#[export] Hint Resolve wf_create_group wf_create_groups wf_delete_group wf_add_user_to_group wf_remove_user_from_group
  wf_set_groups_for_user : wf.
