(* ===== verification/Cache.v ===== *)
(** * Cache back ends ([mlflow_oidc_auth/cache])

    [CacheBackend] is the protocol of [cache/backend.py] with the laws its
    clients rely on; [LocalTTLCacheBackend] implements it over cachetools'
    [TTLCache], which is a parameter. *)
From S2P Require Import Prelude PyStrings.

(** ** The protocol

    An entry may expire or be evicted at any moment, so the laws only say that a
    read never invents a value: what [get] returns was stored under that key and
    has not been deleted since. *)
Class CacheBackend (V : Type) := {
  cache : Type;
  cache_get : string → cache → option V;
  cache_set : string → V → cache → cache;
  cache_delete : string → cache → cache;
  cache_delete_prefix : string → cache → cache;
  cache_clear : cache → cache;
  cache_get_set k v w c : cache_get k (cache_set k v c) = Some w → w = v;
  cache_get_set_ne k k' v w c : k ≠ k' → cache_get k' (cache_set k v c) = Some w → cache_get k' c = Some w;
  cache_get_delete k c : cache_get k (cache_delete k c) = None;
  cache_get_delete_sub k k' w c : cache_get k' (cache_delete k c) = Some w → cache_get k' c = Some w;
  cache_get_delete_prefix p k c : String.prefix p k = true → cache_get k (cache_delete_prefix p c) = None;
  cache_get_delete_prefix_sub p k w c : cache_get k (cache_delete_prefix p c) = Some w → cache_get k c = Some w;
  cache_get_clear k c : cache_get k (cache_clear c) = None;
}.
Arguments cache V {_}.

(** The cache between two requests: entries expire, none appears. *)
Definition lapses `{CacheBackend V} (c c' : cache V) : Prop :=
  ∀ k v, cache_get k c' = Some v → cache_get k c = Some v.

(** ** [LocalTTLCacheBackend] *)

(** cachetools' [TTLCache] as a mutable mapping: [get], item assignment, [pop]
    with a default, [keys] and [clear]. *)
Class TTLCache (K V : Type) := {
  ttl : Type;
  ttl_get : K → ttl → option V;
  ttl_setitem : K → V → ttl → ttl;
  ttl_pop : K → ttl → ttl;
  ttl_keys : ttl → list K;
  ttl_clear : ttl → ttl;
  ttl_get_setitem k v w c : ttl_get k (ttl_setitem k v c) = Some w → w = v;
  ttl_get_setitem_ne k k' v w c : k ≠ k' → ttl_get k' (ttl_setitem k v c) = Some w → ttl_get k' c = Some w;
  ttl_get_pop k c : ttl_get k (ttl_pop k c) = None;
  ttl_get_pop_sub k k' w c : ttl_get k' (ttl_pop k c) = Some w → ttl_get k' c = Some w;
  ttl_get_keys k w c : ttl_get k c = Some w → k ∈ ttl_keys c;
  ttl_get_clear k c : ttl_get k (ttl_clear c) = None;
}.
Arguments ttl K V {_}.

Module LocalTTLCacheBackend.
Section local.
Context {V : Type} `{TTLCache string V}.

Definition get (key : string) (c : ttl string V) : option V := ttl_get key c.
Definition set (key : string) (value : V) (c : ttl string V) : ttl string V := ttl_setitem key value c.
Definition delete (key : string) (c : ttl string V) : ttl string V := ttl_pop key c.

(** The keys are listed before the first one is popped. *)
Definition delete_prefix (prefix : string) (c : ttl string V) : ttl string V :=
  foldl (λ c key, ttl_pop key c) c (filter (λ key, String.prefix prefix key = true) (ttl_keys c)).

Definition clear (c : ttl string V) : ttl string V := ttl_clear c.

Lemma pop_all_sub keys k w c :
  ttl_get k (foldl (λ c key, ttl_pop key c) c keys) = Some w → ttl_get k c = Some w.
Proof.
  revert c. induction keys as [|key keys IH]; intros c; cbn; [done|].
  intros Hget%IH. by apply ttl_get_pop_sub in Hget.
Qed.

Lemma pop_all_gone keys k c : k ∈ keys → ttl_get k (foldl (λ c key, ttl_pop key c) c keys) = None.
Proof.
  revert c. induction keys as [|key keys IH]; intros c; [by intros ?%not_elem_of_nil|].
  intros [->|Hk]%elem_of_cons; cbn; [|by apply IH].
  destruct (ttl_get key _) as [w|] eqn:E; [|done]. apply pop_all_sub in E. by rewrite ttl_get_pop in E.
Qed.

Lemma delete_prefix_gone p k c : String.prefix p k = true → get k (delete_prefix p c) = None.
Proof.
  intros Hp. unfold get, delete_prefix. destruct (ttl_get k c) as [w|] eqn:E.
  - apply pop_all_gone, list_elem_of_filter. eauto using ttl_get_keys.
  - apply eq_None_not_Some. intros [w Hw%pop_all_sub]. congruence.
Qed.

#[export] Instance local_backend : CacheBackend V := {|
  cache_get := get;
  cache_set := set;
  cache_delete := delete;
  cache_delete_prefix := delete_prefix;
  cache_clear := clear;
  cache_get_set := ttl_get_setitem;
  cache_get_set_ne := ttl_get_setitem_ne;
  cache_get_delete := ttl_get_pop;
  cache_get_delete_sub := ttl_get_pop_sub;
  cache_get_delete_prefix := delete_prefix_gone;
  cache_get_delete_prefix_sub := λ p k w c, pop_all_sub _ k w c;
  cache_get_clear := ttl_get_clear;
|}.
End local.
End LocalTTLCacheBackend.

(** A [TTLCache] for running the model: no entry expires. *)
Section map_cache.
Context {K V : Type} `{Countable K}.
Implicit Types (c : gmap K V).

Lemma map_get_setitem k v w c : <[k:=v]> c !! k = Some w → w = v.
Proof. rewrite lookup_insert_eq. by intros [= ->]. Qed.
Lemma map_get_setitem_ne k k' v w c : k ≠ k' → <[k:=v]> c !! k' = Some w → c !! k' = Some w.
Proof. intros Hne Hget. by rewrite lookup_insert_ne in Hget. Qed.
Lemma map_get_pop k c : delete k c !! k = None.
Proof. apply lookup_delete_eq. Qed.
Lemma map_get_pop_sub k k' w c : delete k c !! k' = Some w → c !! k' = Some w.
Proof. by intros [_ ?]%lookup_delete_Some. Qed.
Lemma map_get_keys k w c : c !! k = Some w → k ∈ (map_to_list c).*1.
Proof. intros Hk%elem_of_map_to_list. by apply (list_elem_of_fmap_2 fst) in Hk. Qed.

Definition map_cache : TTLCache K V := {|
  ttl := gmap K V;
  ttl_get := λ k c, c !! k;
  ttl_setitem := λ k v c, <[k:=v]> c;
  ttl_pop := λ k c, delete k c;
  ttl_keys := λ c, (map_to_list c).*1;
  ttl_clear := λ _, ∅;
  ttl_get_setitem := map_get_setitem;
  ttl_get_setitem_ne := map_get_setitem_ne;
  ttl_get_pop := map_get_pop;
  ttl_get_pop_sub := map_get_pop_sub;
  ttl_get_keys := map_get_keys;
  ttl_get_clear := λ k _, lookup_empty k;
|}.
End map_cache.
