(* ===== verification/RedisCache.v ===== *)
(** * The Redis back end ([cache/redis_backend.py]) and the choice of a back end
    ([cache/factory.py])

    The server and pickle are parameters, with what their documentation says of
    the commands used here. A server that cannot be reached is left out: the
    operations of the protocol are total. *)
From S2P Require Import Prelude PyStrings Cache.
From Stdlib Require Import Ascii.
#[local] Open Scope Z_scope.

(** ** [_escape_glob] *)

Definition backslash : ascii := ascii_of_nat 92.
Definition _GLOB_METACHARS : list ascii := [backslash; "*"; "?"; "["; "]"]%char.

(** [value.replace(char, "\\" + char)] *)
Fixpoint escape_char (char : ascii) (value : string) : string :=
  match value with
  | EmptyString => ""
  | String c value => if decide (c = char) then String backslash (String c (escape_char char value)) else String c (escape_char char value)
  end.
Definition _escape_glob (value : string) : string := foldl (λ value char, escape_char char value) value _GLOB_METACHARS.

(** ** Redis and pickle *)

Class RedisServer := {
  redis : Type;
  redis_get : string → redis → option string;
  redis_setex : string → Z → string → redis → redis;
  redis_delete : list string → redis → redis;
  (** One call of SCAN: cursor, MATCH, COUNT; the next cursor and some keys. *)
  redis_scan : Z → string → Z → redis → Z * list string;
  glob_match : string → string → bool;
  redis_get_setex k t v w c : redis_get k (redis_setex k t v c) = Some w → w = v;
  redis_get_setex_ne k k' t v w c : k ≠ k' → redis_get k' (redis_setex k t v c) = Some w → redis_get k' c = Some w;
  redis_get_delete k ks c : redis_get k (redis_delete ks c) = if decide (k ∈ ks) then None else redis_get k c;
  (** Only keys that match are returned. *)
  redis_scan_matches cursor pattern count k c : k ∈ (redis_scan cursor pattern count c).2 → glob_match pattern k = true;
  (** Patterns: an escaped or ordinary character stands for itself, a final star
      for anything. *)
  glob_escaped c p s : glob_match (String backslash (String c p)) s = match s with String d s => bool_decide (c = d) && glob_match p s | "" => false end;
  glob_literal c p s : c ∉ _GLOB_METACHARS → glob_match (String c p) s = match s with String d s => bool_decide (c = d) && glob_match p s | "" => false end;
  glob_star s : glob_match "*" s = true;
}.

Class Pickle (V : Type) := {
  dumps : V → string;
  loads : string → V;
  loads_dumps v : loads (dumps v) = v;
}.

(** ** [_scan_delete] *)

Section scan.
Context `{RedisServer}.

Definition SCAN_COUNT : Z := 500.

(** [if keys: self._client.delete( *keys)] *)
Definition delete_found (keys : list string) (c : redis) : redis := if decide (keys = []) then c else redis_delete keys c.

(** [while True: ...]; [None] when the rounds run out. *)
Fixpoint scan_delete (rounds : nat) (cursor : Z) (pattern : string) (c : redis) : option redis :=
  match rounds with
  | O => None
  | S rounds =>
      let '(cursor, keys) := redis_scan cursor pattern SCAN_COUNT c in
      let c := delete_found keys c in
      if decide (cursor = 0) then Some c else scan_delete rounds cursor pattern c
  end.

(** A full iteration of SCAN, where the caller deletes the keys of each page
    before it asks for the next: the number of calls, the keys returned and the
    server at the end. *)
Inductive scanned (pattern : string) : nat → Z → redis → list string → redis → Prop :=
  | last_scan cursor c keys :
      redis_scan cursor pattern SCAN_COUNT c = (0, keys) → scanned pattern 1 cursor c keys (delete_found keys c)
  | one_more_scan calls cursor c cursor' keys rest c' :
      redis_scan cursor pattern SCAN_COUNT c = (cursor', keys) → cursor' ≠ 0 →
      scanned pattern calls cursor' (delete_found keys c) rest c' → scanned pattern (S calls) cursor c (keys ++ rest) c'.
End scan.

(** "A full iteration always retrieves all the elements that were present in the
    collection from the start to the end of a full iteration", and the iteration
    of a collection that does not grow ends. *)
Class RedisScan `{RedisServer} := {
  scan_complete pattern calls c keys c' k v :
    scanned pattern calls 0 c keys c' → redis_get k c' = Some v → glob_match pattern k = true → k ∈ keys;
  scan_rounds : string → redis → nat;
  scan_ends pattern c : ∃ calls keys c', (calls ≤ scan_rounds pattern c)%nat ∧ scanned pattern calls 0 c keys c';
}.

(** ** [RedisCacheBackend] *)

Module RedisCacheBackend.
Section backend.
Context {V : Type} `{RedisScan, Pickle V}.
Variables (_prefix : string) (_ttl : Z).

Definition _make_key (key : string) : string := _prefix +:+ key.
Definition get (key : string) (c : redis) : option V :=
  match redis_get (_make_key key) c with None => None | Some raw => Some (loads raw) end.
Definition set (key : string) (value : V) (c : redis) : redis := redis_setex (_make_key key) _ttl (dumps value) c.
Definition delete (key : string) (c : redis) : redis := redis_delete [_make_key key] c.

Definition _scan_delete (pattern : string) (c : redis) : redis := default c (scan_delete (scan_rounds pattern c) 0 pattern c).
Definition delete_prefix (prefix : string) (c : redis) : redis := _scan_delete (_make_key (_escape_glob prefix) +:+ "*") c.
Definition clear (c : redis) : redis := _scan_delete (_prefix +:+ "*") c.
End backend.
End RedisCacheBackend.

(** ** [get_cache_backend] *)

(** What is constructed, with its arguments. *)
Inductive backend_choice :=
  | Local (maxsize ttl : Z)
  | Redis (url prefix : string) (ttl : Z).

Record CacheConfig := MkCacheConfig { CACHE_BACKEND : string; CACHE_REDIS_URL : option string; CACHE_KEY_PREFIX : string }.

Definition get_cache_backend (config : CacheConfig) (namespace : string) (maxsize ttl : Z) : outcome backend_choice :=
  if decide (CACHE_BACKEND config = "local") then Ok (Local maxsize ttl)
  else if decide (CACHE_BACKEND config = "redis") then
    match nonempty (CACHE_REDIS_URL config) with
    | None => Raise (OtherException "ValueError")
    | Some redis_url => Ok (Redis redis_url (CACHE_KEY_PREFIX config +:+ namespace +:+ ":") ttl)
    end
  else Raise (OtherException "ValueError").

(** * The Redis back end keeps the protocol of the caches *)

(** ** Escaping *)

(** One pass: a backslash before each metacharacter. *)
Definition escaped (c : ascii) (rest : string) : string := if decide (c ∈ _GLOB_METACHARS) then String backslash (String c rest) else String c rest.
Fixpoint escape_all (value : string) : string := match value with EmptyString => "" | String c value => escaped c (escape_all value) end.

(** The five replacements of [_escape_glob], the backslash first, escape each
    metacharacter once. *)
Lemma _escape_glob_spec value : _escape_glob value = escape_all value.
Proof.
  induction value as [|c value IH]; [done|]. unfold _escape_glob, escaped, _GLOB_METACHARS in *. cbn [foldl escape_all] in *. cbn [escape_char]. rewrite -IH. clear IH.
  destruct (decide (c = backslash)) as [->|H1]; [done|]. unfold escaped, _GLOB_METACHARS.
  destruct (decide (c = "*"%char)) as [->|H2]; [done|]. destruct (decide (c = "?"%char)) as [->|H3]; [done|].
  destruct (decide (c = "["%char)) as [->|H4]; [done|]. destruct (decide (c = "]"%char)) as [->|H5]; [done|].
  assert (c ∉ [backslash; "*"; "?"; "["; "]"]%char) by (rewrite !not_elem_of_cons; split_and!; try done; apply not_elem_of_nil).
  rewrite (decide_False (P := c ∈ _)) //. repeat (cbn [escape_char]; rewrite decide_False //).
Qed.

Definition literal (s : string) : Prop := Forall (λ c, c ∉ _GLOB_METACHARS) (String.list_ascii_of_string s).

Section glob.
Context `{RedisServer}.

Lemma glob_text_star p s : literal p → glob_match (p +:+ "*") s = String.prefix p s.
Proof.
  revert s. induction p as [|c p IH]; intros s Hp; [rewrite (glob_star s : glob_match ("" +:+ "*") s = true); by destruct s|].
  inversion_clear Hp as [|? ? Hc Hp']. change (String c p +:+ "*") with (String c (p +:+ "*")). rewrite glob_literal //. destruct s as [|d s]; [done|].
  cbn [String.prefix]. rewrite (IH s Hp'). destruct (ascii_dec c d) as [->|Hne]; [by rewrite bool_decide_true|by rewrite bool_decide_false].
Qed.

Lemma glob_escape_star p s : glob_match (escape_all p +:+ "*") s = String.prefix p s.
Proof.
  revert s. induction p as [|c p IH]; intros s; [rewrite (glob_star s : glob_match ("" +:+ "*") s = true); by destruct s|].
  cbn [escape_all]. unfold escaped. case_decide as Hc.
  - change (String backslash (String c (escape_all p)) +:+ "*") with (String backslash (String c (escape_all p +:+ "*"))). rewrite glob_escaped.
    destruct s as [|d s]; [done|]. cbn [String.prefix]. rewrite IH. destruct (ascii_dec c d) as [->|Hne]; [by rewrite bool_decide_true|by rewrite bool_decide_false].
  - change (String c (escape_all p) +:+ "*") with (String c (escape_all p +:+ "*")). rewrite glob_literal //. destruct s as [|d s]; [done|].
    cbn [String.prefix]. rewrite IH. destruct (ascii_dec c d) as [->|Hne]; [by rewrite bool_decide_true|by rewrite bool_decide_false].
Qed.

(** A literal namespace in front. *)
Lemma glob_namespace ns p s : literal ns → glob_match ((ns +:+ escape_all p) +:+ "*") s = String.prefix (ns +:+ p) s.
Proof.
  revert s. induction ns as [|c ns IH]; intros s Hns; [apply glob_escape_star|]. inversion_clear Hns as [|? ? Hc Hns'].
  change ((String c ns +:+ escape_all p) +:+ "*") with (String c ((ns +:+ escape_all p) +:+ "*")). change (String c ns +:+ p) with (String c (ns +:+ p)).
  rewrite glob_literal //. destruct s as [|d s]; [done|]. cbn [String.prefix]. rewrite (IH s Hns').
  destruct (ascii_dec c d) as [->|Hne]; [by rewrite bool_decide_true|by rewrite bool_decide_false].
Qed.
End glob.

(** ** Scanning *)

Section scan.
Context `{RedisScan}.

Lemma delete_found_get keys c k : redis_get k (delete_found keys c) = if decide (k ∈ keys) then None else redis_get k c.
Proof. unfold delete_found. destruct (decide (keys = [])) as [->|E]; [done|]. apply redis_get_delete. Qed.

(** With rounds for its calls, the loop is the iteration. *)
Lemma scanned_scan_delete pattern calls cursor c keys c' rounds :
  scanned pattern calls cursor c keys c' → (calls ≤ rounds)%nat → scan_delete rounds cursor pattern c = Some c'.
Proof.
  intros Hs. revert rounds. induction Hs as [cursor c keys Hs|calls cursor c cursor' keys rest c' Hs Hne _ IH]; intros [|rounds] Hle; [lia| |lia|]; cbn [scan_delete]; rewrite Hs.
  - done.
  - destruct (decide (cursor' = 0)); [done|]. apply IH. lia.
Qed.

Lemma scan_delete_ends pattern c : ∃ calls keys c', scanned pattern calls 0 c keys c' ∧ scan_delete (scan_rounds pattern c) 0 pattern c = Some c'.
Proof. destruct (scan_ends pattern c) as (calls&keys&c'&Hle&Hs). exists calls, keys, c'. split; [done|exact (scanned_scan_delete _ _ _ _ _ _ _ Hs Hle)]. Qed.

Lemma scanned_matches pattern calls cursor c keys c' : scanned pattern calls cursor c keys c' → Forall (λ k, glob_match pattern k = true) keys.
Proof.
  induction 1 as [cursor c keys Hs|calls cursor c cursor' keys rest c' Hs _ _ IH].
  - apply Forall_forall. intros k Hk. apply (redis_scan_matches cursor pattern SCAN_COUNT k c). by rewrite Hs.
  - apply Forall_app. split; [|done]. apply Forall_forall. intros k Hk. apply (redis_scan_matches cursor pattern SCAN_COUNT k c). by rewrite Hs.
Qed.

Lemma scanned_get pattern calls cursor c keys c' k : scanned pattern calls cursor c keys c' → redis_get k c' = if decide (k ∈ keys) then None else redis_get k c.
Proof.
  induction 1 as [cursor c keys Hs|calls cursor c cursor' keys rest c' Hs _ _ IH]; [apply delete_found_get|].
  rewrite IH delete_found_get. repeat case_decide; set_solver.
Qed.

(** The loop deletes what matches the pattern, all of it and nothing else. *)
Lemma scan_delete_get pattern c k :
  redis_get k (RedisCacheBackend._scan_delete pattern c) = if glob_match pattern k then None else redis_get k c.
Proof.
  unfold RedisCacheBackend._scan_delete. destruct (scan_delete_ends pattern c) as (calls&keys&c'&Hkeys&Hc'). rewrite Hc'. cbn [default].
  pose proof (scanned_get _ _ _ _ _ _ k Hkeys) as Hget.
  pose proof (scanned_matches _ _ _ _ _ _ Hkeys) as Hm. rewrite Forall_forall in Hm.
  destruct (glob_match pattern k) eqn:Hk.
  - destruct (redis_get k c') as [v|] eqn:Hv; [|done]. pose proof (scan_complete _ _ _ _ _ _ _ Hkeys Hv Hk) as Hin. by rewrite decide_True in Hget.
  - rewrite Hget decide_False //. intros Hin%Hm. congruence.
Qed.
End scan.

(** ** The back end, in a namespace without metacharacters *)

Section backend.
Context {V : Type} `{RedisScan, Pickle V}.
Variables (ns : string) (t : Z).
Hypothesis Hns : literal ns.
Import RedisCacheBackend.

Lemma make_key_inj k k' : _make_key ns k = _make_key ns k' → k = k'.
Proof.
  unfold _make_key. clear Hns. induction ns as [|c n IH]; [done|]. change (String c n +:+ k) with (String c (n +:+ k)). change (String c n +:+ k') with (String c (n +:+ k')).
  by intros [= ?%IH].
Qed.

Lemma prefix_namespace p k : String.prefix (ns +:+ p) (ns +:+ k) = String.prefix p k.
Proof. clear Hns. induction ns as [|c n IH]; [done|]. change (String.prefix (String c (n +:+ p)) (String c (n +:+ k)) = String.prefix p k). cbn. destruct (ascii_dec c c); [exact IH|done]. Qed.

Lemma delete_prefix_raw p raw c :
  redis_get raw (delete_prefix ns p c) = if String.prefix (ns +:+ p) raw then None else redis_get raw c.
Proof. unfold delete_prefix. by rewrite scan_delete_get _escape_glob_spec /_make_key (glob_namespace ns p raw Hns). Qed.
Lemma clear_raw raw c : redis_get raw (clear ns c) = if String.prefix ns raw then None else redis_get raw c.
Proof. unfold clear. by rewrite scan_delete_get (glob_text_star ns raw Hns). Qed.

Lemma prefix_of_namespace k : String.prefix ns (ns +:+ k) = true.
Proof. clear Hns. induction ns as [|c n IH]; [by destruct k|]. change (String.prefix (String c n) (String c (n +:+ k)) = true). cbn. by destruct (ascii_dec c c). Qed.

Lemma get_delete_prefix p k c : get ns k (delete_prefix ns p c) = if String.prefix p k then None else get ns k c.
Proof. unfold get. rewrite delete_prefix_raw. unfold _make_key. rewrite prefix_namespace. by destruct (String.prefix p k). Qed.
Lemma get_clear k c : get ns k (clear ns c) = None.
Proof. unfold get. rewrite clear_raw. unfold _make_key. by rewrite prefix_of_namespace. Qed.

Lemma get_set k v w c : get ns k (set ns t k v c) = Some w → w = v.
Proof. unfold get, set. destruct (redis_get _ _) as [raw|] eqn:E; [|done]. apply redis_get_setex in E as ->. rewrite loads_dumps. by intros [= ->]. Qed.
Lemma get_set_ne k k' v w c : k ≠ k' → get ns k' (set ns t k v c) = Some w → get ns k' c = Some w.
Proof.
  unfold get, set. intros Hne. destruct (redis_get _ _) as [raw|] eqn:E; [|done]. apply redis_get_setex_ne in E as ->; [done|]. by intros ?%make_key_inj.
Qed.
Lemma get_delete k c : get ns k (delete ns k c) = None.
Proof. unfold get, delete. rewrite redis_get_delete decide_True //. by left. Qed.
Lemma get_delete_sub k k' w c : get ns k' (delete ns k c) = Some w → get ns k' c = Some w.
Proof. unfold get, delete. rewrite redis_get_delete. by case_decide. Qed.
Lemma get_delete_prefix_gone p k c : String.prefix p k = true → get ns k (delete_prefix ns p c) = None.
Proof. intros Hp. by rewrite get_delete_prefix Hp. Qed.
Lemma get_delete_prefix_sub p k w c : get ns k (delete_prefix ns p c) = Some w → get ns k c = Some w.
Proof. rewrite get_delete_prefix. by destruct (String.prefix p k). Qed.

(** The laws of the protocol. *)
Definition redis_backend : CacheBackend V := {|
  cache := redis;
  cache_get := get ns;
  cache_set := set ns t;
  cache_delete := delete ns;
  cache_delete_prefix := delete_prefix ns;
  cache_clear := clear ns;
  cache_get_set := get_set;
  cache_get_set_ne := get_set_ne;
  cache_get_delete := get_delete;
  cache_get_delete_sub := get_delete_sub;
  cache_get_delete_prefix := get_delete_prefix_gone;
  cache_get_delete_prefix_sub := get_delete_prefix_sub;
  cache_get_clear := get_clear;
|}.

(** C12: On a shared Redis, in a namespace without glob metacharacters, deleting
    by prefix removes exactly the entries whose key starts with the prefix,
    whatever characters a username puts into it, clearing removes the namespace,
    neither touches another key of the server, and the scan loops end. *)
Theorem invalidation_is_exact p c :
  is_Some (scan_delete (scan_rounds (_make_key ns (_escape_glob p) +:+ "*") c) 0 (_make_key ns (_escape_glob p) +:+ "*") c) ∧
  (∀ k, get ns k (delete_prefix ns p c) = if String.prefix p k then None else get ns k c) ∧
  (∀ k, get ns k (clear ns c) = None) ∧
  (∀ raw, String.prefix ns raw = false → redis_get raw (delete_prefix ns p c) = redis_get raw c ∧ redis_get raw (clear ns c) = redis_get raw c).
Proof.
  split_and!; [destruct (scan_delete_ends (_make_key ns (_escape_glob p) +:+ "*") c) as (?&?&c'&_&Hc'); by exists c'|intros k; apply get_delete_prefix|intros k; apply get_clear|]. intros raw Hraw. rewrite delete_prefix_raw clear_raw Hraw. split; [|done].
  destruct (String.prefix (ns +:+ p) raw) eqn:E; [|done]. exfalso. apply (not_true_iff_false (String.prefix ns raw)) in Hraw. apply Hraw.
  apply startswith_drop in E. unfold startswith in E. apply startswith_drop. rewrite E. clear. generalize (drop_str (String.length (ns +:+ p)) raw). intros r.
  assert ((ns +:+ p) +:+ r = ns +:+ (p +:+ r)) as -> by (clear; induction ns as [|x n IH]; [done|exact (f_equal (String x) IH)]). by rewrite drop_str_app.
Qed.
End backend.

(** ** The two caches of the application share a server *)

Lemma prefix_common p s t : String.prefix (p +:+ s) (p +:+ t) = String.prefix s t.
Proof. induction p as [|c p IH]; [done|]. change (String.prefix (String c (p +:+ s)) (String c (p +:+ t)) = String.prefix s t). cbn. by destruct (ascii_dec c c). Qed.

(** What [get_cache_backend] makes of the namespaces in use: no key of one cache
    is in the namespace of the other, so flushing one leaves the other alone. *)
Theorem namespaces_are_apart config maxsize t url1 p1 t1 url2 p2 t2 k :
  get_cache_backend config "permissions" maxsize t = Ok (Redis url1 p1 t1) →
  get_cache_backend config "workspace" maxsize t = Ok (Redis url2 p2 t2) →
  String.prefix p1 (p2 +:+ k) = false ∧ String.prefix p2 (p1 +:+ k) = false.
Proof.
  unfold get_cache_backend. case_decide; [done|]. case_decide; [|done]. destruct (nonempty _) as [url|]; [|done].
  intros [= <- <- <-] [= <- <- <-]. generalize (CACHE_KEY_PREFIX config). intros p.
  assert (∀ s, (p +:+ s) +:+ k = p +:+ (s +:+ k)) as Hassoc by (intros s; induction p as [|x n IH]; [done|exact (f_equal (String x) IH)]).
  by rewrite !Hassoc !prefix_common.
Qed.

(** * A Redis that keeps strings and serves its scans one key at a time *)

(** ** Redis' patterns: stars, question marks, classes of characters, escapes *)

Fixpoint class_of (p : string) : option (list ascii * string) :=
  match p with
  | EmptyString => None
  | String c p => if decide (c = "]"%char) then Some ([], p) else match class_of p with Some (cs, rest) => Some (c :: cs, rest) | None => None end
  end.
Fixpoint glob (fuel : nat) (p s : string) : bool :=
  match fuel with
  | O => false
  | S fuel =>
      match p with
      | EmptyString => match s with EmptyString => true | _ => false end
      | String c p =>
          if decide (c = backslash) then
            match p, s with String e p, String d s => bool_decide (e = d) && glob fuel p s | _, _ => false end
          else if decide (c = "*"%char) then
            glob fuel p s || match s with String _ s => glob fuel (String c p) s | EmptyString => false end
          else if decide (c = "?"%char) then match s with String _ s => glob fuel p s | EmptyString => false end
          else if decide (c = "["%char) then
            match class_of p, s with Some (cs, p), String d s => bool_decide (d ∈ cs) && glob fuel p s | _, _ => false end
          else match s with String d s => bool_decide (c = d) && glob fuel p s | EmptyString => false end
      end
  end.
(** Each step shortens the pattern or the text. *)
Definition sample_glob (p s : string) : bool := glob (S (String.length p + String.length s)) p s.

Lemma glob_more n p s : (String.length p + String.length s < n)%nat → glob n p s = sample_glob p s.
Proof.
  unfold sample_glob. assert (∀ m k, (String.length p + String.length s < m)%nat → (String.length p + String.length s < k)%nat → glob m p s = glob k p s) as Hmk; [|intros; apply Hmk; lia].
  intros m. revert p s. induction m as [|m IH]; intros p s [|k] Hm Hk; [lia..|]. destruct p as [|c p]; [done|]. cbn in Hm, Hk. cbn [glob].
  assert (∀ q r, (String.length q ≤ String.length p)%nat → (String.length r ≤ String.length s)%nat → glob m q r = glob k q r) as Hg by (intros; apply IH; lia).
  destruct (decide (c = backslash)); [destruct p as [|x p]; [done|]; destruct s as [|d s]; [done|]; rewrite Hg //=; lia|].
  destruct (decide (c = "*"%char)).
  { rewrite Hg //. destruct s as [|d s]; [done|]. cbn in Hm, Hk. f_equal. apply IH; cbn; lia. }
  destruct (decide (c = "?"%char)); [destruct s as [|d s]; [done|]; apply Hg; cbn; lia|].
  destruct (decide (c = "["%char)).
  { destruct (class_of p) as [[cs p']|] eqn:Ec; [|done]. destruct s as [|d s]; [done|]. f_equal. apply Hg; [|cbn; lia].
    clear -Ec. revert cs Ec. induction p as [|x p IHp]; intros cs; [done|]. cbn [class_of]. case_decide; [intros [= <- <-]; cbn; lia|].
    destruct (class_of p) as [[cs' rest]|]; [|done]. intros [= <- <-]. specialize (IHp _ eq_refl). cbn. lia. }
  destruct s as [|d s]; [done|]. f_equal. apply Hg; cbn; lia.
Qed.

(** One step on a pattern with a first character. *)
Lemma glob_step n c p s :
  glob (S n) (String c p) s =
    if decide (c = backslash) then match p, s with String x p, String d s => bool_decide (x = d) && glob n p s | _, _ => false end
    else if decide (c = "*"%char) then glob n p s || match s with String _ s => glob n (String c p) s | EmptyString => false end
    else if decide (c = "?"%char) then match s with String _ s => glob n p s | EmptyString => false end
    else if decide (c = "["%char) then match class_of p, s with Some (cs, p), String d s => bool_decide (d ∈ cs) && glob n p s | _, _ => false end
    else match s with String d s => bool_decide (c = d) && glob n p s | EmptyString => false end.
Proof. reflexivity. Qed.

Lemma sample_glob_escaped c p s : sample_glob (String backslash (String c p)) s = match s with String d s => bool_decide (c = d) && sample_glob p s | "" => false end.
Proof. unfold sample_glob at 1. rewrite glob_step. destruct (decide (backslash = backslash)) as [_|Hn]; [|done]. destruct s as [|d s]; [done|]. rewrite glob_more //. cbn. lia. Qed.
Lemma sample_glob_literal c p s : c ∉ _GLOB_METACHARS → sample_glob (String c p) s = match s with String d s => bool_decide (c = d) && sample_glob p s | "" => false end.
Proof.
  unfold _GLOB_METACHARS. rewrite !not_elem_of_cons. intros (?&?&?&?&?&_). unfold sample_glob at 1. rewrite glob_step. repeat (destruct (decide (c = _)); [done|]).
  destruct s as [|d s]; [done|]. rewrite glob_more //. cbn. lia.
Qed.
Lemma sample_glob_star s : sample_glob "*" s = true.
Proof.
  assert (∀ n, (String.length s < n)%nat → glob (S n) "*" s = true) as Hs; [|apply Hs; cbn; lia].
  induction s as [|d s IH]; intros [|n] Hn; [by cbn in Hn; lia|done|by cbn in Hn; lia|]. cbn in Hn.
  change (glob (S (S n)) "*" (String d s)) with (glob (S n) "" (String d s) || glob (S n) "*" s). rewrite IH; [apply orb_true_r|lia].
Qed.

(** ** The server *)

Abbreviation store := (gmap string string).
Definition matching (pattern : string) (c : store) : list string := elements (filter (λ k, sample_glob pattern k = true) (dom c)).
Definition scan_one (pattern : string) (c : store) : Z * list string := (if (length (matching pattern c) <=? 1)%nat then 0 else 1, take 1 (matching pattern c)).

Lemma elem_matching pattern c k : k ∈ matching pattern c ↔ sample_glob pattern k = true ∧ is_Some (c !! k).
Proof. unfold matching. by rewrite elem_of_elements elem_of_filter elem_of_dom. Qed.

Lemma lookup_foldr_delete (k : string) (ks : list string) (c : store) : foldr delete c ks !! k = if decide (k ∈ ks) then None else c !! k.
Proof.
  induction ks as [|k' ks IH]; [done|]. cbn [foldr]. destruct (decide (k = k')) as [->|Hne].
  - rewrite lookup_delete_eq decide_True //. by left.
  - rewrite lookup_delete_ne; last congruence. rewrite IH. repeat case_decide; set_solver.
Qed.

#[export, refine] Instance sample_redis : RedisServer | 100 := {|
  redis := store;
  redis_get k c := c !! k;
  redis_setex k t v c := <[k := v]> c;
  redis_delete ks c := foldr delete c ks;
  redis_scan cursor pattern count c := scan_one pattern c;
  glob_match := sample_glob;
  glob_escaped := sample_glob_escaped;
  glob_literal := sample_glob_literal;
  glob_star := sample_glob_star;
|}.
Proof.
  - intros k t v w c. rewrite lookup_insert_eq. by intros [= ->].
  - intros k k' t v w c Hne. by rewrite lookup_insert_ne.
  - exact lookup_foldr_delete.
  - intros cursor pattern count k c Hk. cbn [snd scan_one] in Hk. assert (k ∈ matching pattern c) as [? _]%elem_matching; [|done].
    rewrite -(take_drop 1 (matching pattern c)). apply elem_of_app. by left.
Defined.

(** A key that is found is deleted, so there is one fewer to find. *)
Lemma scan_one_deletes pattern c k ks : matching pattern c = k :: ks → (length (matching pattern (delete k c)) < length (matching pattern c))%nat.
Proof.
  intros Em. assert (k ∈ matching pattern c) as Hk by (rewrite Em; by left). apply elem_matching in Hk as [Hg Hv]. unfold matching.
  change (size (filter (λ k, sample_glob pattern k = true) (dom (delete k c))) < size (filter (λ k, sample_glob pattern k = true) (dom c)))%nat.
  apply subset_size. rewrite dom_delete_L. apply elem_of_dom in Hv. split; [set_solver|]. intros Hsub.
  assert (k ∈ filter (λ k, sample_glob pattern k = true) (dom c)) as Hin%Hsub by by apply elem_of_filter.
  apply elem_of_filter in Hin as [_ Hin]. set_solver.
Qed.

Lemma scan_one_last pattern c cursor :
  (length (matching pattern c) ≤ 1)%nat → scanned pattern 1 cursor c (take 1 (matching pattern c)) (delete_found (H := sample_redis) (take 1 (matching pattern c)) c).
Proof. intros Hle. apply last_scan. cbn [redis_scan sample_redis]. unfold scan_one. by destruct (Nat.leb_spec (length (matching pattern c)) 1); [|lia]. Qed.

Lemma scan_one_ends pattern n c cursor :
  (length (matching pattern c) ≤ n)%nat → ∃ calls keys c', (calls ≤ S n)%nat ∧ scanned pattern calls cursor c keys c'.
Proof.
  revert c cursor. induction n as [|n IH]; intros c cursor Hn; [eexists 1%nat, _, _; split; [lia|apply scan_one_last; lia]|].
  destruct (Nat.le_gt_cases (length (matching pattern c)) 1) as [Hle|Hgt]; [eexists 1%nat, _, _; split; [lia|by apply scan_one_last]|].
  destruct (IH (delete_found (H := sample_redis) (take 1 (matching pattern c)) c) 1) as (calls&keys&c'&Hle&Hs).
  - destruct (matching pattern c) as [|k ks] eqn:Em; [cbn in Hgt; lia|]. pose proof (scan_one_deletes _ _ _ _ Em) as Hlt. rewrite Em in Hlt.
    change (length (matching pattern (delete k c)) ≤ n)%nat. cbn [length] in *. lia.
  - exists (S calls), (take 1 (matching pattern c) ++ keys), c'. split; [lia|]. apply (one_more_scan _ _ _ _ 1); [|done|done].
    cbn [redis_scan sample_redis]. unfold scan_one. by destruct (Nat.leb_spec (length (matching pattern c)) 1); [lia|].
Qed.

#[export, refine] Instance sample_scan : RedisScan | 100 := {| scan_rounds pattern c := S (length (matching pattern c)) |}.
Proof.
  - intros pattern calls c keys c' k v Hs Hv Hk. cbn in Hv, Hk. revert Hv. induction Hs as [cursor c keys Hs|calls cursor c cursor' keys rest c' Hs Hne _ IH]; intros Hv.
    + cbn in Hs. unfold scan_one in Hs. destruct (Nat.leb_spec (length (matching pattern c)) 1) as [Hle|]; [|done]. injection Hs as <-.
      rewrite take_ge //. apply elem_matching. split; [done|]. pose proof (delete_found_get (take 1 (matching pattern c)) c k) as Hget. cbn in Hget.
      rewrite Hv in Hget. case_decide; [done|]. by exists v.
    + apply elem_of_app. right. by apply IH.
  - intros pattern c. by apply scan_one_ends.
Defined.

#[export] Instance text_pickle : Pickle string | 100 := {| dumps v := v; loads s := s; loads_dumps v := eq_refl |}.

(** ** Two users with awkward names *)

Definition ns : string := "mlflow_oidc_auth:workspace:".
Definition other_key : string := "mlflow_oidc_auth:permissions:exp1".
Definition filled : store :=
  RedisCacheBackend.set (V := string) ns 300 "a*:ws1" "READ" (RedisCacheBackend.set (V := string) ns 300 "alice:ws1" "MANAGE" {[ other_key := "EDIT" ]}).

Lemma invalidation_is_exact_witness :
  (is_Some (scan_delete (scan_rounds (RedisCacheBackend._make_key ns (_escape_glob "a*:") +:+ "*") filled) 0 (RedisCacheBackend._make_key ns (_escape_glob "a*:") +:+ "*") filled) ∧
   (∀ k, RedisCacheBackend.get (V := string) ns k (RedisCacheBackend.delete_prefix ns "a*:" filled) = if String.prefix "a*:" k then None else RedisCacheBackend.get ns k filled) ∧
   (∀ k, RedisCacheBackend.get (V := string) ns k (RedisCacheBackend.clear ns filled) = None) ∧
   (∀ raw, String.prefix ns raw = false →
      redis_get raw (RedisCacheBackend.delete_prefix ns "a*:" filled) = redis_get raw filled ∧ redis_get raw (RedisCacheBackend.clear ns filled) = redis_get raw filled)) ∧
  RedisCacheBackend.get (V := string) ns "alice:ws1" (RedisCacheBackend.delete_prefix ns "a*:" filled) = Some "MANAGE" ∧
  RedisCacheBackend.get (V := string) ns "a*:ws1" (RedisCacheBackend.delete_prefix ns "a*:" filled) = None.
Proof.
  split; [|split; vm_compute; reflexivity].
  apply (invalidation_is_exact (V := string) ns). apply (bool_decide_unpack _). vm_compute. exact I.
Defined.

(** The namespace itself is not escaped: with a class of characters in
    [CACHE_KEY_PREFIX] nothing is cleared. *)
Lemma a_prefix_with_brackets_is_never_cleared :
  RedisCacheBackend.get (V := string) "app[1]:workspace:" "alice:ws1"
    (RedisCacheBackend.clear "app[1]:workspace:" (RedisCacheBackend.set (V := string) "app[1]:workspace:" 300 "alice:ws1" "MANAGE" ∅)) = Some "MANAGE".
Proof. vm_compute. reflexivity. Qed.
