(* ===== verification/Resolution.v ===== *)
(** * Permission resolution ([utils/permissions.py], [utils/workspace_cache.py])

    The sources of a permission, the order they are asked in, the workspace
    fallback, the two caches and the accounting of the default. *)
From S2P Require Import Prelude PyStrings Permissions Regex RegexSafety Database Repositories Groups Cache.

(** ** What the code reads from outside *)

(** The attributes of [config] used here. *)
Class Config := {
  PERMISSION_SOURCE_ORDER : list string;
  DEFAULT_MLFLOW_PERMISSION : string;
  MLFLOW_ENABLE_WORKSPACES : bool;
}.

(** MLflow's tracking store: [get_experiment(experiment_id).name], which raises
    for an unknown id. *)
Class TrackingStore := { get_experiment_name : string → outcome string }.

(** [re.match(regex, name)], which compiles the stored pattern first. *)
Definition py_re_match `{PyRe} (regex name : string) : outcome bool :=
  match re_compile regex with
  | CompileError => Raise (OtherException "re.error")
  | Compiled _ => Ok (re_match regex name)
  end.

(** ** [PermissionResult] and the process state *)

Record PermissionResult := MkResult { permission : Permission; kind : string }.

#[export] Instance PermissionResult_eq_dec : EqDecision PermissionResult.
Proof. solve_decision. Defined.

(** The arguments of the rate-limited warning of [record_permission_fallback]. *)
Record fallback_warning := FallbackWarning {
  fw_permission : string; fw_resource_type : string; fw_username : string; fw_count : Z
}.

Section world.
Context `{CacheBackend PermissionResult, CacheBackend Permission}.

Record world := World {
  w_db : db;
  _permission_cache : cache PermissionResult;
  _workspace_cache : cache Permission;
  _FALLBACK_COUNTS : gmap string Z;
  _FALLBACK_SAMPLES : gmap string (list string);
  w_warnings : list fallback_warning;
}.

Definition set_db (d : db) (w : world) : world :=
  World d (_permission_cache w) (_workspace_cache w) (_FALLBACK_COUNTS w) (_FALLBACK_SAMPLES w) (w_warnings w).
Definition set_permission_cache (f : cache PermissionResult → cache PermissionResult) (w : world) : world :=
  World (w_db w) (f (_permission_cache w)) (_workspace_cache w) (_FALLBACK_COUNTS w) (_FALLBACK_SAMPLES w) (w_warnings w).
Definition set_workspace_cache (f : cache Permission → cache Permission) (w : world) : world :=
  World (w_db w) (_permission_cache w) (f (_workspace_cache w)) (_FALLBACK_COUNTS w) (_FALLBACK_SAMPLES w) (w_warnings w).
Definition set_fallbacks (counts : gmap string Z) (samples : gmap string (list string)) (warnings : list fallback_warning) (w : world) : world :=
  World (w_db w) (_permission_cache w) (_workspace_cache w) counts samples warnings.

(** A call of the store: a transaction on the database of the world. *)
Definition on_store {A} (m : M db A) : M world A := λ w,
  let '(o, d) := m (w_db w) in (o, set_db d w).
End world.
Arguments world {_ _}.

Section resolution.
Context `{SqlBackend, PyRe, Config, TrackingStore, CacheBackend PermissionResult, CacheBackend Permission}.

(** ** [utils/workspace_cache.py] *)

Definition _make_workspace_cache_key (username workspace : string) : string := username +:+ ":" +:+ workspace.

(** The loop, with [best_perm] and [best_priority] as one option. *)
Fixpoint _match_workspace_regex_from (best : option (Permission * Z)) (regexes : list regex_row) (workspace : string) : outcome (option Permission) :=
  match regexes with
  | [] => Ok (fst <$> best)
  | regex_perm :: rest =>
      if match best with Some (_, best_priority) => bool_decide (best_priority < r_priority regex_perm) | None => false end
      then Ok (fst <$> best)
      else
        matched ← py_re_match (r_regex regex_perm) workspace;
        if matched : bool then
          perm ← get_permission (r_permission regex_perm);
          _match_workspace_regex_from
            (match best with
             | None => Some (perm, r_priority regex_perm)
             | Some (best_perm, best_priority) =>
                 if decide (priority best_perm < priority perm) then Some (perm, best_priority) else best
             end) rest workspace
        else _match_workspace_regex_from best rest workspace
  end.

Definition _match_workspace_regex_permission (regexes : list regex_row) (workspace : string) : outcome (option Permission) :=
  _match_workspace_regex_from None regexes workspace.

(** Store methods that resolve the username in a session of their own. *)
Definition get_workspace_permission (workspace username : string) : M db perm_row :=
  managed (user ← get_user username; WorkspacePermissions.get workspace (u_id user)).

Definition get_user_groups_workspace_permission (workspace username : string) : M db perm_row :=
  managed (user ← get_user username; WorkspacePermissions.get_highest_for_user workspace (u_id user)).

(** [except MlflowException] and [except Exception]: both return None. *)
Definition none_on_error {A} (m : M db (option A)) : M db (option A) := catch m (λ _, mret None).

Definition _resolve_user_direct (username workspace : string) : M db (option Permission) :=
  none_on_error (
    perm ← get_workspace_permission workspace username;
    p ← lift (get_permission (p_permission perm));
    mret (Some p)).

Definition _resolve_group_direct (username workspace : string) : M db (option Permission) :=
  none_on_error (
    perm ← get_user_groups_workspace_permission workspace username;
    p ← lift (get_permission (p_permission perm));
    mret (Some p)).

Definition _resolve_user_regex (username workspace : string) : M db (option Permission) :=
  none_on_error (
    regexes ← RegexPermissions.list_regex_for_user Workspaces username;
    if decide (regexes = []) then mret None
    else lift (_match_workspace_regex_permission regexes workspace)).

Definition _resolve_group_regex (username workspace : string) : M db (option Permission) :=
  none_on_error (
    group_ids ← GroupRepository.list_group_ids_for_user username;
    if decide (group_ids = []) then mret None
    else
      regexes ← GroupRegexPermissions.list_permissions_for_groups_ids Workspaces group_ids;
      if decide (regexes = []) then mret None
      else lift (_match_workspace_regex_permission regexes workspace)).

Definition source_resolvers (username workspace : string) : gmap string (M db (option Permission)) :=
  list_to_map [
    ("user", _resolve_user_direct username workspace);
    ("group", _resolve_group_direct username workspace);
    ("regex", _resolve_user_regex username workspace);
    ("group-regex", _resolve_group_regex username workspace)].

Fixpoint first_resolver (resolvers : gmap string (M db (option Permission))) (order : list string) : M db (option Permission) :=
  match order with
  | [] => mret None
  | source_name :: rest =>
      match resolvers !! source_name with
      | None => first_resolver resolvers rest
      | Some resolver =>
          result ← resolver;
          match result with
          | Some p => mret (Some p)
          | None => first_resolver resolvers rest
          end
      end
  end.

Definition _lookup_workspace_permission (username workspace : string) : M db (option Permission) :=
  first_resolver (source_resolvers username workspace) PERMISSION_SOURCE_ORDER.

Definition get_workspace_permission_cached (username workspace : string) : M world (option Permission) :=
  if negb MLFLOW_ENABLE_WORKSPACES then mret None
  else
    let key := _make_workspace_cache_key username workspace in
    cached ← gets (λ w, cache_get key (_workspace_cache w));
    match cached with
    | Some p => mret (Some p)
    | None =>
        perm ← on_store (_lookup_workspace_permission username workspace);
        _ ← match perm with
            | Some p => modify (set_workspace_cache (cache_set key p))
            | None => mret tt
            end;
        mret perm
    end.

Definition invalidate_workspace_permission (username workspace : string) : M world unit :=
  modify (set_workspace_cache (cache_delete (_make_workspace_cache_key username workspace))).

Definition invalidate_user_workspace_entries (username : string) : M world unit :=
  if negb MLFLOW_ENABLE_WORKSPACES then mret tt
  else modify (set_workspace_cache (cache_delete_prefix (username +:+ ":"))).

Definition flush_workspace_cache : M world unit := modify (set_workspace_cache cache_clear).

(** A failure to list the members falls back to a full flush. *)
Definition invalidate_group_workspace_permission (group_name workspace : string) : M world unit :=
  if negb MLFLOW_ENABLE_WORKSPACES then mret tt
  else
    members ← catch (m ← on_store (GroupRepository.list_group_members group_name); mret (Some m))
      (λ _, _ ← flush_workspace_cache; mret None);
    match members with
    | None => mret tt
    | Some members =>
        modify (set_workspace_cache (λ c,
          foldl (λ c member, cache_delete (_make_workspace_cache_key (u_username member) workspace) c) c members))
    end.

(** ** The permission cache of [utils/permissions.py] *)

Definition _NO_WORKSPACE_CACHE_MARKER : string := "::no-workspace".

(** [request_workspace] is the result of [get_request_workspace()]. *)
Definition _get_cache_workspace (request_workspace : option string) : option string :=
  if negb MLFLOW_ENABLE_WORKSPACES then None
  else Some (or_default request_workspace _NO_WORKSPACE_CACHE_MARKER).

Definition _make_cache_key (resource_type resource_id username : string) (workspace : option string) : string :=
  match workspace with
  | Some workspace => workspace +:+ ":" +:+ resource_type +:+ ":" +:+ resource_id +:+ ":" +:+ username
  | None => resource_type +:+ ":" +:+ resource_id +:+ ":" +:+ username
  end.

Definition invalidate_permission_cache (request_workspace : option string) (resource_type resource_id username : string) (workspace : option string) : M world unit :=
  let workspace := match workspace with None => _get_cache_workspace request_workspace | w => w end in
  modify (set_permission_cache (cache_delete (_make_cache_key resource_type resource_id username workspace))).

Definition flush_permission_cache : M world unit := modify (set_permission_cache cache_clear).

(** ** The sources of each resource type *)

Definition EXPERIMENT : string := "experiment".
Definition REGISTERED_MODEL : string := "registered_model".
Definition PROMPT : string := "prompt".
Definition SCORER : string := "scorer".
Definition GATEWAY_ENDPOINT : string := "gateway_endpoint".
Definition GATEWAY_SECRET : string := "gateway_secret".
Definition GATEWAY_MODEL_DEFINITION : string := "gateway_model_definition".

(** The first pattern that matches decides. *)
Fixpoint _match_regex_permission (regexes : list regex_row) (nm : string) : outcome string :=
  match regexes with
  | [] => Raise (MlflowException RESOURCE_DOES_NOT_EXIST)
  | regex :: rest =>
      matched ← py_re_match (r_regex regex) nm;
      if matched : bool then Ok (r_permission regex) else _match_regex_permission rest nm
  end.

Definition _get_experiment_permission_from_regex (regexes : list regex_row) (experiment_id : string) : outcome string :=
  experiment_name ← get_experiment_name experiment_id;
  _match_regex_permission regexes experiment_name.

(** The dict a builder returns. *)
Definition sources (user group regex group_regex : M db string) : gmap string (M db string) :=
  list_to_map [("user", user); ("group", group); ("regex", regex); ("group-regex", group_regex)].

Definition user_permission (t : table) (k : resource_key) (username : string) : M db string :=
  perm ← UserPermissions.get_permission t k username; mret (p_permission perm).
Definition group_permission (t : table) (k : resource_key) (username : string) : M db string :=
  perm ← GroupPermissions.get_group_permission_for_user_resource t k username; mret (p_permission perm).
Definition group_regexes (t : table) (username : string) : M db (list regex_row) :=
  ids ← GroupRepository.list_group_ids_for_user username;
  GroupRegexPermissions.list_permissions_for_groups_ids t ids.
Definition model_group_regexes (prompt : bool) (username : string) : M db (list regex_row) :=
  ids ← GroupRepository.list_group_ids_for_user username;
  ModelGroupRegexPermissions.list_permissions_for_groups_ids ids prompt.

Definition _build_experiment_sources (experiment_id username : string) : gmap string (M db string) :=
  sources
    (user_permission Experiments (Key experiment_id) username)
    (group_permission Experiments (Key experiment_id) username)
    (regexes ← RegexPermissions.list_regex_for_user Experiments username;
     lift (_get_experiment_permission_from_regex regexes experiment_id))
    (regexes ← group_regexes Experiments username;
     lift (_get_experiment_permission_from_regex regexes experiment_id)).

Definition _build_registered_model_sources (model_name username : string) : gmap string (M db string) :=
  sources
    (user_permission RegisteredModels (Key model_name) username)
    (group_permission RegisteredModels (Key model_name) username)
    (regexes ← ModelRegexPermissions.list_regex_for_user username false;
     lift (_match_regex_permission regexes model_name))
    (regexes ← model_group_regexes false username;
     lift (_match_regex_permission regexes model_name)).

(** Prompts use the registered-model tables; only the patterns are their own. *)
Definition _build_prompt_sources (model_name username : string) : gmap string (M db string) :=
  sources
    (user_permission RegisteredModels (Key model_name) username)
    (group_permission RegisteredModels (Key model_name) username)
    (regexes ← ModelRegexPermissions.list_regex_for_user username true;
     lift (_match_regex_permission regexes model_name))
    (regexes ← model_group_regexes true username;
     lift (_match_regex_permission regexes model_name)).

Definition _build_scorer_sources (experiment_id username scorer_name : string) : gmap string (M db string) :=
  sources
    (user_permission Scorers (ScorerKey experiment_id scorer_name) username)
    (group_permission Scorers (ScorerKey experiment_id scorer_name) username)
    (regexes ← RegexPermissions.list_regex_for_user Scorers username;
     lift (_match_regex_permission regexes scorer_name))
    (regexes ← group_regexes Scorers username;
     lift (_match_regex_permission regexes scorer_name)).

(** The store's [get_user_groups_gateway_*_permission] takes a group name; the
    builders give it the username. *)
Definition gateway_group_permission (t : table) (k : resource_key) (username : string) : M db string :=
  perm ← GroupPermissions.get_group_permission_for_user t k username; mret (p_permission perm).

Definition gateway_sources (t : table) (gateway_name username : string) : gmap string (M db string) :=
  sources
    (user_permission t (Key gateway_name) username)
    (gateway_group_permission t (Key gateway_name) username)
    (regexes ← RegexPermissions.list_regex_for_user t username;
     lift (_match_regex_permission regexes gateway_name))
    (regexes ← group_regexes t username;
     lift (_match_regex_permission regexes gateway_name)).

Definition _build_gateway_endpoint_sources := gateway_sources GatewayEndpoints.
Definition _build_gateway_secret_sources := gateway_sources GatewaySecrets.
Definition _build_gateway_model_definition_sources := gateway_sources GatewayModelDefinitions.

(** [PERMISSION_REGISTRY[resource_type](resource_id, username, **kwargs)]: an
    unknown type, and a scorer without [scorer_name], raise [KeyError]. *)
Definition PERMISSION_REGISTRY : gmap string (string → string → option string → outcome (gmap string (M db string))) :=
  list_to_map [
    (EXPERIMENT, λ id u _, Ok (_build_experiment_sources id u));
    (REGISTERED_MODEL, λ id u _, Ok (_build_registered_model_sources id u));
    (PROMPT, λ id u _, Ok (_build_prompt_sources id u));
    (SCORER, λ id u scorer_name,
      match scorer_name with Some s => Ok (_build_scorer_sources id u s) | None => Raise KeyError end);
    (GATEWAY_ENDPOINT, λ id u _, Ok (_build_gateway_endpoint_sources id u));
    (GATEWAY_SECRET, λ id u _, Ok (_build_gateway_secret_sources id u));
    (GATEWAY_MODEL_DEFINITION, λ id u _, Ok (_build_gateway_model_definition_sources id u))].

Definition build_sources (resource_type resource_id username : string) (scorer_name : option string) : outcome (gmap string (M db string)) :=
  match PERMISSION_REGISTRY !! resource_type with
  | Some builder => builder resource_id username scorer_name
  | None => Raise KeyError
  end.

(** ** The resolution loop *)

(** One source: only RESOURCE_DOES_NOT_EXIST moves on to the next one. *)
Definition try_source (source_name : string) (permission_func : M db string) : M db (option PermissionResult) :=
  catch (
    perm ← permission_func;
    p ← lift (get_permission perm);
    mret (Some (MkResult p source_name)))
  (λ e, match e with
        | MlflowException RESOURCE_DOES_NOT_EXIST => mret None
        | e => raise e
        end).

Fixpoint first_source (config : gmap string (M db string)) (order : list string) : M db (option PermissionResult) :=
  match order with
  | [] => mret None
  | source_name :: rest =>
      match config !! source_name with
      | None => first_source config rest
      | Some permission_func =>
          result ← try_source source_name permission_func;
          match result with
          | Some r => mret (Some r)
          | None => first_source config rest
          end
      end
  end.

Definition get_permission_from_store_or_default (config : gmap string (M db string)) : M db PermissionResult :=
  result ← first_source config PERMISSION_SOURCE_ORDER;
  match result with
  | Some r => mret r
  | None => p ← lift (get_permission DEFAULT_MLFLOW_PERMISSION); mret (MkResult p "fallback")
  end.

(** ** The workspace fallback and the accounting of the default *)

Definition _apply_workspace_fallback (request_workspace : option string) (result : PermissionResult) (username : string) : M world PermissionResult :=
  if decide (kind result ≠ "fallback") then mret result
  else if negb MLFLOW_ENABLE_WORKSPACES then mret result
  else match request_workspace with
       | None | Some "" => mret result
       | Some workspace =>
           ws_perm ← get_workspace_permission_cached username workspace;
           match ws_perm with
           | Some p => mret (MkResult p "workspace")
           | None => mret (MkResult NO_PERMISSIONS "workspace-deny")
           end
       end.

Definition _FALLBACK_WARN_AT : list Z := [1; 10; 100; 1000].
Definition _FALLBACK_WARN_EVERY : Z := 10000.
Definition _FALLBACK_SAMPLE_LIMIT : nat := 50.

Definition sample_fallback (resource_id : string) (samples : list string) : list string :=
  if decide ((length samples < _FALLBACK_SAMPLE_LIMIT)%nat ∧ resource_id ∉ samples) then samples ++ [resource_id] else samples.

Definition record_permission_fallback (resource_type resource_id username : string) (p : Permission) : M world unit :=
  modify (λ w,
    let count := default 0 (_FALLBACK_COUNTS w !! resource_type) + 1 in
    let samples := sample_fallback resource_id (default [] (_FALLBACK_SAMPLES w !! resource_type)) in
    let warnings :=
      if negb (can_read p) then w_warnings w
      else if decide (count ∈ _FALLBACK_WARN_AT ∨ count mod _FALLBACK_WARN_EVERY = 0)
           then w_warnings w ++ [FallbackWarning (name p) resource_type username count]
           else w_warnings w in
    set_fallbacks (<[resource_type := count]> (_FALLBACK_COUNTS w))
      (<[resource_type := samples]> (_FALLBACK_SAMPLES w)) warnings w).

Definition get_permission_fallback_counts : M world (gmap string Z) := gets _FALLBACK_COUNTS.
Definition get_permission_fallback_samples : M world (gmap string (list string)) := gets _FALLBACK_SAMPLES.
Definition reset_permission_fallback_counts : M world unit := modify (λ w, set_fallbacks ∅ ∅ (w_warnings w) w).

(** ** [resolve_permission] *)

Definition resolve_permission (request_workspace : option string) (resource_type resource_id username : string) (scorer_name : option string) : M world PermissionResult :=
  let cache_key := _make_cache_key resource_type resource_id username (_get_cache_workspace request_workspace) in
  cached ← gets (λ w, cache_get cache_key (_permission_cache w));
  match cached with
  | Some r => mret r
  | None =>
      sources_config ← lift (build_sources resource_type resource_id username scorer_name);
      result ← on_store (get_permission_from_store_or_default sources_config);
      result ← _apply_workspace_fallback request_workspace result username;
      _ ← (if decide (kind result = "fallback")
           then record_permission_fallback resource_type resource_id username (permission result)
           else mret tt);
      _ ← modify (set_permission_cache (cache_set cache_key result));
      mret result
  end.

(** ** The public wrappers *)

Definition effective_experiment_permission ws id user := resolve_permission ws EXPERIMENT id user None.
Definition effective_registered_model_permission ws nm user := resolve_permission ws REGISTERED_MODEL nm user None.
Definition effective_prompt_permission ws nm user := resolve_permission ws PROMPT nm user None.
Definition effective_scorer_permission ws id scorer user := resolve_permission ws SCORER id user (Some scorer).
Definition effective_gateway_endpoint_permission ws nm user := resolve_permission ws GATEWAY_ENDPOINT nm user None.
Definition effective_gateway_secret_permission ws nm user := resolve_permission ws GATEWAY_SECRET nm user None.
Definition effective_gateway_model_definition_permission ws nm user := resolve_permission ws GATEWAY_MODEL_DEFINITION nm user None.

Definition can (f : Permission → bool) (m : M world PermissionResult) : M world bool :=
  r ← m; mret (f (permission r)).

Definition can_read_experiment ws id user := can can_read (effective_experiment_permission ws id user).
Definition can_manage_experiment ws id user := can can_manage (effective_experiment_permission ws id user).
Definition can_read_registered_model ws nm user := can can_read (effective_registered_model_permission ws nm user).
Definition can_manage_registered_model ws nm user := can can_manage (effective_registered_model_permission ws nm user).
Definition can_manage_scorer ws id scorer user := can can_manage (effective_scorer_permission ws id scorer user).
Definition can_read_gateway_endpoint ws nm user := can can_read (effective_gateway_endpoint_permission ws nm user).
Definition can_use_gateway_endpoint ws nm user := can can_use (effective_gateway_endpoint_permission ws nm user).
Definition can_update_gateway_endpoint ws nm user := can can_update (effective_gateway_endpoint_permission ws nm user).
Definition can_manage_gateway_endpoint ws nm user := can can_manage (effective_gateway_endpoint_permission ws nm user).
Definition can_read_gateway_secret ws nm user := can can_read (effective_gateway_secret_permission ws nm user).
Definition can_use_gateway_secret ws nm user := can can_use (effective_gateway_secret_permission ws nm user).
Definition can_update_gateway_secret ws nm user := can can_update (effective_gateway_secret_permission ws nm user).
Definition can_manage_gateway_secret ws nm user := can can_manage (effective_gateway_secret_permission ws nm user).
Definition can_read_gateway_model_definition ws nm user := can can_read (effective_gateway_model_definition_permission ws nm user).
Definition can_use_gateway_model_definition ws nm user := can can_use (effective_gateway_model_definition_permission ws nm user).
Definition can_update_gateway_model_definition ws nm user := can can_update (effective_gateway_model_definition_permission ws nm user).
Definition can_manage_gateway_model_definition ws nm user := can can_manage (effective_gateway_model_definition_permission ws nm user).

(** ** Creation-time resolvers: name patterns only, uncached *)

Definition _permission_new_experiment_sources_config (experiment_name username : string) : gmap string (M db string) :=
  list_to_map [
    ("regex",
      regexes ← RegexPermissions.list_regex_for_user Experiments username;
      lift (_match_regex_permission regexes experiment_name));
    ("group-regex",
      regexes ← group_regexes Experiments username;
      lift (_match_regex_permission regexes experiment_name))].

Definition _permission_new_registered_model_sources_config (model_name username : string) : gmap string (M db string) :=
  list_to_map [
    ("regex",
      regexes ← ModelRegexPermissions.list_regex_for_user username false;
      lift (_match_regex_permission regexes model_name));
    ("group-regex",
      regexes ← model_group_regexes false username;
      lift (_match_regex_permission regexes model_name))].

Definition effective_new_experiment_permission (request_workspace : option string) (experiment_name user : string) : M world PermissionResult :=
  result ← on_store (get_permission_from_store_or_default (_permission_new_experiment_sources_config experiment_name user));
  _apply_workspace_fallback request_workspace result user.

Definition effective_new_registered_model_permission (request_workspace : option string) (model_name user : string) : M world PermissionResult :=
  result ← on_store (get_permission_from_store_or_default (_permission_new_registered_model_sources_config model_name user));
  _apply_workspace_fallback request_workspace result user.
End resolution.
