(* ===== verification/ResolutionFacts.v ===== *)
(** * What permission resolution computes

    The cached resolution refines [decision], which looks at the database only:
    the keys separate the requests, the caches stay coherent, and the source
    order decides. *)
From S2P Require Import Prelude PyStrings Permissions Regex RegexSafety Database Repositories Groups Cache Resolution.
From Stdlib Require Import Ascii.
#[local] Open Scope Z_scope.

(** ** Keys *)

Fixpoint colon_free (s : string) : bool :=
  match s with
  | EmptyString => true
  | String c s => negb (Ascii.eqb c ":") && colon_free s
  end.

Lemma colon_free_cons c s : colon_free (String c s) = true ↔ c ≠ ":"%char ∧ colon_free s = true.
Proof. cbn. destruct (Ascii.eqb_spec c ":"); cbn; naive_solver. Qed.

Lemma colon_free_app_colon s t : colon_free (s +:+ String ":" t) = false.
Proof. induction s as [|c s IH]; [done|]. change (negb (Ascii.eqb c ":") && colon_free (s +:+ String ":" t) = false). by rewrite IH andb_false_r. Qed.

(** Splitting at the first colon, and at the last. *)
Lemma first_colon_inj a b c d :
  colon_free a = true → colon_free c = true → a +:+ String ":" b = c +:+ String ":" d → a = c ∧ b = d.
Proof.
  revert c. induction a as [|x a IH]; intros [|y c]; cbn -[colon_free].
  - by intros _ _ [= ->].
  - intros _ [Hy _]%colon_free_cons [= <- _]. done.
  - intros [Hx _]%colon_free_cons _ [= -> _]. done.
  - intros [_ Ha]%colon_free_cons [_ Hc]%colon_free_cons [= -> Heq].
    by destruct (IH c Ha Hc Heq) as [-> ->].
Qed.

Lemma last_colon_inj a b c d :
  colon_free b = true → colon_free d = true → a +:+ String ":" b = c +:+ String ":" d → a = c ∧ b = d.
Proof.
  intros Hb Hd. revert c. induction a as [|x a IH]; intros [|y c]; cbn -[colon_free].
  - by intros [= ->].
  - intros [= _ ->]. by rewrite colon_free_app_colon in Hb.
  - intros [= _ <-]. by rewrite colon_free_app_colon in Hd.
  - intros [= -> Heq]. by destruct (IH c Heq) as [-> ->].
Qed.

Lemma append_inj_l a b c : a +:+ b = a +:+ c → b = c.
Proof. induction a; cbn; [done|]. intros [= ?]. auto. Qed.

(** ** Programs that only read *)

Definition read_only {A} (m : M db A) : Prop := ∀ d, (m d).2 = d.

Create HintDb reads discriminated.

Section read_only.
Context `{SqlBackend, PyRe}.

Lemma read_only_run {A} (m : M db A) d : read_only m → m d = ((m d).1, d).
Proof. intros Hm. rewrite -{3}(Hm d). by destruct (m d). Qed.

Lemma read_only_ret {A} (a : A) : read_only (mret a).
Proof. done. Qed.
Lemma read_only_ask {A} (f : db → outcome A) : read_only (ask f).
Proof. done. Qed.
Lemma read_only_gets {A} (f : db → A) : read_only (gets f).
Proof. done. Qed.
Lemma read_only_lift {A} (o : outcome A) : read_only (lift o).
Proof. done. Qed.
Lemma read_only_raise {A} e : read_only (raise e : M db A).
Proof. done. Qed.

Lemma read_only_bind {A B} (m : M db A) (f : A → M db B) :
  read_only m → (∀ a, read_only (f a)) → read_only (m ≫= f).
Proof.
  intros Hm Hf d. rewrite M_bind_run. specialize (Hm d). destruct (m d) as [[a|e] d']; cbn in *; [|done].
  subst. apply Hf.
Qed.

Lemma read_only_catch {A} (m : M db A) h : read_only m → (∀ e, read_only (h e)) → read_only (catch m h).
Proof.
  intros Hm Hh d. rewrite catch_run. specialize (Hm d). destruct (m d) as [[a|e] d']; cbn in *; [done|].
  subst. apply Hh.
Qed.

Lemma read_only_managed {A} (m : M db A) : read_only m → read_only (managed m).
Proof. intros Hm d. rewrite managed_run. specialize (Hm d). by destruct (m d) as [[a|e] d']. Qed.

Lemma read_only_decide {A} (P : Prop) `{Decision P} (m1 m2 : M db A) :
  read_only m1 → read_only m2 → read_only (if decide P then m1 else m2).
Proof. by destruct (decide P). Qed.

Lemma read_only_get_user n : read_only (get_user n).
Proof. done. Qed.
End read_only.

#[export] Hint Resolve read_only_ret read_only_ask read_only_gets read_only_lift read_only_raise read_only_bind
  read_only_catch read_only_managed read_only_decide read_only_get_user : reads.

(** Unfold the store call under the goal's [read_only], then go through it. *)
Ltac reads := intros; eauto 20 with reads.

Section sources_read.
Context `{SqlBackend, PyRe, TrackingStore}.

Lemma read_only_user_permission t k u : read_only (user_permission t k u).
Proof. unfold user_permission, UserPermissions.get_permission, UserPermissions._get_permission. reads. Qed.
Lemma read_only_group_permission t k u : read_only (group_permission t k u).
Proof. unfold group_permission, GroupPermissions.get_group_permission_for_user_resource. reads. Qed.
Lemma read_only_gateway_group_permission t k u : read_only (gateway_group_permission t k u).
Proof.
  unfold gateway_group_permission, GroupPermissions.get_group_permission_for_user, GroupPermissions._get_group_permission. reads.
Qed.
Lemma read_only_list_regex t u : read_only (RegexPermissions.list_regex_for_user t u).
Proof. unfold RegexPermissions.list_regex_for_user. reads. Qed.
Lemma read_only_model_list_regex u p : read_only (ModelRegexPermissions.list_regex_for_user u p).
Proof. unfold ModelRegexPermissions.list_regex_for_user. reads. Qed.
Lemma read_only_group_ids u : read_only (GroupRepository.list_group_ids_for_user u).
Proof. unfold GroupRepository.list_group_ids_for_user. reads. Qed.
Lemma read_only_ids_regexes t ids : read_only (GroupRegexPermissions.list_permissions_for_groups_ids t ids).
Proof. unfold GroupRegexPermissions.list_permissions_for_groups_ids, GroupRegexPermissions._list_group_permissions. reads. Qed.
#[local] Hint Resolve read_only_group_ids read_only_ids_regexes : reads.
Lemma read_only_group_regexes t u : read_only (group_regexes t u).
Proof. unfold group_regexes. reads. Qed.
Lemma read_only_model_group_regexes p u : read_only (model_group_regexes p u).
Proof. unfold model_group_regexes, ModelGroupRegexPermissions.list_permissions_for_groups_ids. reads. Qed.
End sources_read.

#[export] Hint Resolve read_only_user_permission read_only_group_permission read_only_gateway_group_permission
  read_only_list_regex read_only_model_list_regex read_only_group_ids read_only_ids_regexes
  read_only_group_regexes read_only_model_group_regexes : reads.

(** ** The source loops *)

Section resolution.
Context `{SqlBackend, PyRe, Config, TrackingStore, CacheBackend PermissionResult, CacheBackend Permission}.

Definition sources_read (config : gmap string (M db string)) : Prop :=
  map_Forall (λ _ f, read_only f) config.

Lemma sources_read_only u g r gr :
  read_only u → read_only g → read_only r → read_only gr → sources_read (sources u g r gr).
Proof. intros. unfold sources_read, sources. cbn. by repeat apply map_Forall_insert_2; [..|apply map_Forall_empty]. Qed.

(** Every builder of the registry returns the four sources, all of them reads. *)
Lemma build_sources_read rt id u sc config : build_sources rt id u sc = Ok config → sources_read config.
Proof.
  unfold build_sources, PERMISSION_REGISTRY. cbn.
  rewrite !lookup_insert lookup_empty. repeat case_decide; try (destruct sc); try done; intros [= <-];
    apply sources_read_only; reads.
Qed.

Lemma read_only_try_source s f : read_only f → read_only (try_source s f).
Proof. intros. unfold try_source. apply read_only_catch; [reads|]. intros []; try done. by destruct code. Qed.

Lemma read_only_first_source config order : sources_read config → read_only (first_source config order).
Proof.
  intros Hc. induction order as [|s order IH]; cbn; [done|].
  destruct (config !! s) as [f|] eqn:E; [|done].
  apply read_only_bind; [exact (read_only_try_source _ _ (Hc _ _ E))|]. by intros [].
Qed.

Lemma read_only_store_or_default config : sources_read config → read_only (get_permission_from_store_or_default config).
Proof.
  intros. apply read_only_bind; [by apply read_only_first_source|]. intros []; reads.
Qed.

Lemma read_only_first_resolver resolvers order :
  map_Forall (λ _ m, read_only m) resolvers → read_only (first_resolver resolvers order).
Proof.
  intros Hr. induction order as [|s order IH]; cbn; [done|].
  destruct (resolvers !! s) as [f|] eqn:E; [|done].
  apply read_only_bind; [exact (Hr _ _ E)|]. by intros [].
Qed.

Lemma read_only_none_on_error {A} (m : M db (option A)) : read_only m → read_only (none_on_error m).
Proof. intros. unfold none_on_error. reads. Qed.

Lemma read_only_lookup_workspace u ws : read_only (_lookup_workspace_permission u ws).
Proof.
  apply read_only_first_resolver. unfold source_resolvers. cbn.
  repeat apply map_Forall_insert_2; [..|apply map_Forall_empty]; apply read_only_none_on_error.
  - unfold get_workspace_permission, WorkspacePermissions.get, WorkspacePermissions.one_workspace_row. reads.
  - unfold get_user_groups_workspace_permission, WorkspacePermissions.get_highest_for_user. reads.
  - reads.
  - reads.
Qed.

(** A failing source counts as one without an answer: the lookup does not raise. *)
Lemma none_on_error_total {A} (m : M db (option A)) d : ∃ o d', none_on_error m d = (Ok o, d').
Proof. unfold none_on_error. autorewrite with run. destruct (m d) as [[o|e] d']; by eauto. Qed.

Lemma lookup_workspace_total u ws d : ∃ o, (_lookup_workspace_permission u ws d).1 = Ok o.
Proof.
  unfold _lookup_workspace_permission. revert d. induction PERMISSION_SOURCE_ORDER as [|s order IH]; intros d; [by exists None|].
  cbn [first_resolver]. destruct (source_resolvers u ws !! s) as [m|] eqn:E; [|apply IH].
  assert (∃ m', m = none_on_error m') as [m' ->].
  { revert E. unfold source_resolvers. cbn. rewrite !lookup_insert lookup_empty.
    repeat case_decide; try done; intros [= <-]; by eexists. }
  destruct (none_on_error_total m' d) as (o&d'&Hrun). rewrite M_bind_run Hrun. destruct o as [p|]; [by exists (Some p)|apply IH].
Qed.

(** A source that has nothing for this request. *)
Definition missing (config : gmap string (M db string)) (d : db) (s : string) : Prop :=
  ∀ f, config !! s = Some f → (f d).1 = Raise (MlflowException RESOURCE_DOES_NOT_EXIST).

Lemma try_source_run s f d :
  read_only f →
  try_source s f d =
    (match (f d).1 with
     | Ok n => match get_permission n with Ok p => Ok (Some (MkResult p s)) | Raise e => Raise e end
     | Raise (MlflowException RESOURCE_DOES_NOT_EXIST) => Ok None
     | Raise e => Raise e
     end, d).
Proof.
  intros Hf. unfold try_source. autorewrite with run. rewrite (read_only_run _ _ Hf).
  destruct (f d).1 as [n|e]; cbn.
  - autorewrite with run. unfold get_permission. by destruct (_ !! n).
  - destruct e as [[]| | | | | |]; done.
Qed.

Definition source_error (f : M db string) (d : db) (e : exc) : Prop :=
  ((f d).1 = Raise e ∧ e ≠ MlflowException RESOURCE_DOES_NOT_EXIST) ∨
  (∃ n, (f d).1 = Ok n ∧ get_permission n = Raise e).

Lemma get_permission_error n e : get_permission n = Raise e → e = KeyError.
Proof. unfold get_permission. by case_match; intros [= <-]. Qed.

(** What the loop over [order] may return on [d]. *)
Definition loop_result (config : gmap string (M db string)) (d : db) (order : list string) (o : outcome (option PermissionResult)) : Prop :=
  match o with
  | Ok (Some r) => ∃ pre post f n, order = pre ++ kind r :: post ∧ Forall (missing config d) pre ∧
      config !! kind r = Some f ∧ (f d).1 = Ok n ∧ get_permission n = Ok (permission r)
  | Ok None => Forall (missing config d) order
  | Raise e => ∃ pre s post f, order = pre ++ s :: post ∧ Forall (missing config d) pre ∧
      config !! s = Some f ∧ source_error f d e
  end.

Lemma loop_result_skip config d s order o :
  missing config d s → loop_result config d order o → loop_result config d (s :: order) o.
Proof.
  intros Hs. destruct o as [[r|]|e]; cbn; [| |].
  - intros (pre&post&f&n&->&?&?). exists (s :: pre), post, f, n. split; [done|]. by split; [constructor|].
  - by constructor.
  - intros (pre&s'&post&f&->&?&?). exists (s :: pre), s', post, f. split; [done|]. by split; [constructor|].
Qed.

(** The loop stops at the first source that is not missing. *)
Lemma first_source_spec config order d :
  sources_read config → loop_result config d order (first_source config order d).1.
Proof.
  intros Hc. induction order as [|s order IH]; [constructor|]. cbn [first_source].
  destruct (config !! s) as [f|] eqn:E.
  2:{ apply loop_result_skip; [|exact IH]. intros f Hf. by rewrite E in Hf. }
  rewrite M_bind_run (try_source_run s f d (Hc _ _ E)).
  destruct (f d).1 as [n|e] eqn:Ef.
  - destruct (get_permission n) as [p|e] eqn:Ep; cbn.
    + exists [], order, f, n. split_and!; [done|constructor|done|done|done].
    + exists [], s, order, f. split_and!; [done|constructor|done|]. right. eauto.
  - destruct (decide (e = MlflowException RESOURCE_DOES_NOT_EXIST)) as [->|Hne].
    + apply loop_result_skip; [|exact IH]. intros f' Hf'. rewrite E in Hf'. injection Hf' as <-. exact Ef.
    + assert (loop_result config d (s :: order) (Raise e)) as Hx.
      { exists [], s, order, f. split_and!; [done|constructor|done|]. left. eauto. }
      by destruct e as [[]| | | | | |].
Qed.

(** The permission is the one of the first configured source that has one,
    every earlier source having answered RESOURCE_DOES_NOT_EXIST; if all did, it
    is the default; any other error of a source, or an unknown permission name,
    is raised instead. *)
Theorem first_configured_source_decides config d :
  sources_read config →
  match (get_permission_from_store_or_default config d).1 with
  | Ok r =>
      (∃ pre post f n, PERMISSION_SOURCE_ORDER = pre ++ kind r :: post ∧ Forall (missing config d) pre ∧
         config !! kind r = Some f ∧ (f d).1 = Ok n ∧ get_permission n = Ok (permission r)) ∨
      (Forall (missing config d) PERMISSION_SOURCE_ORDER ∧ kind r = "fallback" ∧
         get_permission DEFAULT_MLFLOW_PERMISSION = Ok (permission r))
  | Raise e =>
      (∃ pre s post f, PERMISSION_SOURCE_ORDER = pre ++ s :: post ∧ Forall (missing config d) pre ∧
         config !! s = Some f ∧ source_error f d e) ∨
      (Forall (missing config d) PERMISSION_SOURCE_ORDER ∧ get_permission DEFAULT_MLFLOW_PERMISSION = Raise e)
  end.
Proof.
  intros Hc. unfold get_permission_from_store_or_default.
  rewrite M_bind_run (read_only_run _ _ (read_only_first_source _ _ Hc)).
  pose proof (first_source_spec config PERMISSION_SOURCE_ORDER d Hc) as Hs.
  destruct (first_source config PERMISSION_SOURCE_ORDER d).1 as [[r|]|e]; cbn; [by left| |by left].
  destruct (get_permission DEFAULT_MLFLOW_PERMISSION) as [p|e] eqn:Ep; cbn; by right.
Qed.

(** ** The specification: what a request is granted, from the database alone *)

Definition apply_workspace (request_workspace : option string) (username : string) (d : db) (result : PermissionResult) : outcome PermissionResult :=
  if decide (kind result ≠ "fallback") then Ok result
  else if negb MLFLOW_ENABLE_WORKSPACES then Ok result
  else match request_workspace with
       | None | Some "" => Ok result
       | Some workspace =>
           p ← (_lookup_workspace_permission username workspace d).1;
           Ok (match p with Some p => MkResult p "workspace" | None => MkResult NO_PERMISSIONS "workspace-deny" end)
       end.

Definition decision (request_workspace : option string) (resource_type resource_id username : string) (scorer_name : option string) (d : db) : outcome PermissionResult :=
  config ← build_sources resource_type resource_id username scorer_name;
  result ← (get_permission_from_store_or_default config d).1;
  apply_workspace request_workspace username d result.

(** Requests whose cache key can be read back: no colon in the resource type,
    the username, or the workspace (MLflow rejects one there). *)
Definition separable (request_workspace : option string) (resource_type username : string) : Prop :=
  colon_free resource_type = true ∧ colon_free username = true ∧
  (MLFLOW_ENABLE_WORKSPACES = true → ∀ workspace, request_workspace = Some workspace → colon_free workspace = true).

(** Two request workspaces the resolution cannot tell apart. *)
Definition same_workspace (ws ws' : option string) : Prop :=
  MLFLOW_ENABLE_WORKSPACES = true → ws = ws' ∨ (or_default ws "" = "" ∧ or_default ws' "" = "").

(** The workspace part of a key: the marker, or a name that does not start as
    the marker does. *)
Lemma cache_workspace_cases ws :
  (∀ workspace, ws = Some workspace → colon_free workspace = true) →
  (or_default ws "" = "" ∧ or_default ws _NO_WORKSPACE_CACHE_MARKER = _NO_WORKSPACE_CACHE_MARKER) ∨
  (∃ c w, ws = Some (String c w) ∧ c ≠ ":"%char ∧ or_default ws _NO_WORKSPACE_CACHE_MARKER = String c w).
Proof.
  intros Hws. destruct ws as [[|c w]|]; [by left| |by left].
  right. exists c, w. specialize (Hws _ eq_refl). apply colon_free_cons in Hws as [Hc _]. done.
Qed.

Lemma cache_workspace_inj ws ws' k k' :
  (∀ workspace, ws = Some workspace → colon_free workspace = true) →
  (∀ workspace, ws' = Some workspace → colon_free workspace = true) →
  or_default ws _NO_WORKSPACE_CACHE_MARKER +:+ String ":" k = or_default ws' _NO_WORKSPACE_CACHE_MARKER +:+ String ":" k' →
  (ws = ws' ∨ (or_default ws "" = "" ∧ or_default ws' "" = "")) ∧ k = k'.
Proof.
  intros Hw Hw'.
  destruct (cache_workspace_cases ws Hw) as [[He ->]|(c&w&E&Hc&->)],
    (cache_workspace_cases ws' Hw') as [[He' ->]|(c'&w'&E'&Hc'&->)].
  - intros Heq%append_inj_l. injection Heq as ->. auto.
  - intros [= <- _]. done.
  - intros [= -> _]. done.
  - intros [Heq ->]%first_colon_inj; [|by auto..]. split; [|done]. left. by rewrite E E' Heq.
Qed.

Lemma resource_key_inj rt rt' id id' u u' :
  colon_free rt = true → colon_free rt' = true → colon_free u = true → colon_free u' = true →
  rt +:+ ":" +:+ id +:+ ":" +:+ u = rt' +:+ ":" +:+ id' +:+ ":" +:+ u' → rt = rt' ∧ id = id' ∧ u = u'.
Proof.
  intros Hr Hr' Hu Hu' [-> Heq]%first_colon_inj; [|done..].
  by apply last_colon_inj in Heq as [-> ->].
Qed.

(** Separable requests with one key are one request. *)
Lemma make_cache_key_inj ws ws' rt rt' id id' u u' :
  separable ws rt u → separable ws' rt' u' →
  _make_cache_key rt id u (_get_cache_workspace ws) = _make_cache_key rt' id' u' (_get_cache_workspace ws') →
  same_workspace ws ws' ∧ rt = rt' ∧ id = id' ∧ u = u'.
Proof.
  intros (Hr&Hu&Hw) (Hr'&Hu'&Hw'). unfold same_workspace, _get_cache_workspace.
  destruct MLFLOW_ENABLE_WORKSPACES; cbn [negb _make_cache_key].
  - intros [Hws Hk]%cache_workspace_inj; [|by auto..].
    apply resource_key_inj in Hk; [|done..]. by split.
  - intros Hk%resource_key_inj; [|done..]. by split.
Qed.

(** ** Coherence of the caches *)

(** Workspace entries repeat what the database says now. *)
Definition workspace_coherent (w : world) : Prop :=
  ∀ username workspace p, colon_free workspace = true →
    cache_get (_make_workspace_cache_key username workspace) (_workspace_cache w) = Some p →
    (_lookup_workspace_permission username workspace (w_db w)).1 = Ok (Some p).

(** So do resource entries, scorers apart: their key leaves the scorer out. *)
Definition permission_coherent (w : world) : Prop :=
  ∀ ws rt id username sc r, separable ws rt username → rt ≠ SCORER →
    cache_get (_make_cache_key rt id username (_get_cache_workspace ws)) (_permission_cache w) = Some r →
    decision ws rt id username sc (w_db w) = Ok r.

Definition coherent (w : world) : Prop := workspace_coherent w ∧ permission_coherent w.

Lemma set_db_id (w : world) : set_db (w_db w) w = w.
Proof. by destruct w. Qed.

Lemma on_store_read {A} (m : M db A) w : read_only m → on_store m w = ((m (w_db w)).1, w).
Proof. intros Hm. unfold on_store. rewrite (read_only_run _ _ Hm). by rewrite set_db_id. Qed.

(** Only the scorer source list looks at the scorer name. *)
Lemma build_sources_scorer_irrelevant rt id u sc sc' :
  rt ≠ SCORER → build_sources rt id u sc = build_sources rt id u sc'.
Proof.
  intros Hne. unfold build_sources, PERMISSION_REGISTRY. cbn. rewrite !lookup_insert lookup_empty.
  repeat case_decide; by subst.
Qed.

Lemma apply_workspace_same ws ws' u d r :
  same_workspace ws ws' → apply_workspace ws u d r = apply_workspace ws' u d r.
Proof.
  intros Hws. unfold apply_workspace. case_decide; [done|].
  destruct MLFLOW_ENABLE_WORKSPACES eqn:E; [|done]. destruct (Hws E) as [->|[He He']]; [done|].
  assert (∀ o, or_default o "" = "" → o = None ∨ o = Some "") as Hempty.
  { intros [o|]; [|by left]. cbn. case_decide; subst; [by right|]. intros ->. by right. }
  by destruct (Hempty _ He) as [->| ->], (Hempty _ He') as [->| ->].
Qed.

Lemma decision_same ws ws' rt id u sc sc' d :
  same_workspace ws ws' → rt ≠ SCORER → decision ws rt id u sc d = decision ws' rt id u sc' d.
Proof.
  intros Hws Hrt. unfold decision. rewrite (build_sources_scorer_irrelevant _ _ _ sc sc') //.
  destruct (build_sources _ _ _ _) as [config|]; [|done]. cbn.
  destruct (get_permission_from_store_or_default config d).1; [|done]. cbn. by apply apply_workspace_same.
Qed.

(** Entries that lapse, and fallback accounting, leave the caches coherent. *)
Lemma coherent_sub w w' :
  coherent w → w_db w' = w_db w →
  lapses (_permission_cache w) (_permission_cache w') → lapses (_workspace_cache w) (_workspace_cache w') →
  coherent w'.
Proof.
  intros [Hws Hps] Hd Hp Hw. split.
  - intros u ws p Hc Hget%Hw. rewrite Hd. by apply Hws.
  - intros ws rt id u sc r Hsep Hne Hget%Hp. rewrite Hd. by apply (Hps ws rt id u sc r).
Qed.

Lemma get_workspace_permission_cached_spec u ws w :
  coherent w → MLFLOW_ENABLE_WORKSPACES = true → colon_free ws = true →
  ∃ w', get_workspace_permission_cached u ws w = ((_lookup_workspace_permission u ws (w_db w)).1, w') ∧
    coherent w' ∧ w_db w' = w_db w.
Proof.
  intros Hco E Hc. unfold get_workspace_permission_cached. rewrite E. cbn [negb]. autorewrite with run.
  destruct (cache_get _ _) as [p|] eqn:Eg.
  { exists w. destruct Hco as [Hws Hps]. by rewrite (Hws u ws p Hc Eg). }
  autorewrite with run. rewrite on_store_read; [|apply read_only_lookup_workspace].
  destruct (_lookup_workspace_permission u ws (w_db w)).1 as [[p|]|e] eqn:El; [|by exists w..].
  autorewrite with run. eexists. split; [done|]. split; [|done]. destruct Hco as [Hws Hps]. split; [|exact Hps].
  intros u' ws' p' Hc' Hget. cbn in Hget.
  destruct (decide (_make_workspace_cache_key u ws = _make_workspace_cache_key u' ws')) as [Heq|Hne].
  - rewrite -Heq in Hget. apply cache_get_set in Hget as ->. apply last_colon_inj in Heq as [<- <-]; done.
  - apply cache_get_set_ne in Hget; [|done]. by apply Hws.
Qed.

Lemma apply_workspace_fallback_spec ws rt u w r :
  coherent w → separable ws rt u →
  ∃ w', _apply_workspace_fallback ws r u w = (apply_workspace ws u (w_db w) r, w') ∧ coherent w' ∧ w_db w' = w_db w.
Proof.
  intros Hco (_&_&Hsep). unfold _apply_workspace_fallback, apply_workspace.
  case_decide; [by exists w|]. destruct MLFLOW_ENABLE_WORKSPACES eqn:E; [|by exists w]. cbn [negb].
  destruct ws as [ws|]; [|by exists w]. destruct ws as [|c ws]; [by exists w|].
  destruct (get_workspace_permission_cached_spec u (String c ws) w Hco E) as (w'&Hrun&Hco'&Hd); [by apply Hsep|].
  exists w'. rewrite M_bind_run Hrun. by destruct (_lookup_workspace_permission _ _ _).1 as [[]|].
Qed.

Lemma record_fallback_coherent rt id u p w :
  coherent w → ∃ w', record_permission_fallback rt id u p w = (Ok tt, w') ∧ coherent w' ∧ w_db w' = w_db w.
Proof. intros Hco. eexists. split; [done|]. split; [|done]. by apply (coherent_sub w). Qed.

(** The cached resolution returns what [decision] returns, and keeps the caches
    coherent. *)
Lemma resolve_permission_run ws rt id u sc w :
  coherent w → separable ws rt u →
  ∃ o w', resolve_permission ws rt id u sc w = (o, w') ∧ coherent w' ∧ w_db w' = w_db w ∧
    (rt ≠ SCORER → o = decision ws rt id u sc (w_db w)).
Proof.
  intros Hco Hsep. unfold resolve_permission. autorewrite with run.
  destruct (cache_get _ _) as [r|] eqn:Eg.
  { exists (Ok r), w. split_and!; [done..|]. intros Hne. by rewrite (proj2 Hco ws rt id u sc r). }
  autorewrite with run. destruct (build_sources rt id u sc) as [config|e] eqn:Eb.
  2:{ exists (Raise e), w. unfold decision. by rewrite Eb. }
  autorewrite with run. rewrite on_store_read; [|exact (read_only_store_or_default _ (build_sources_read _ _ _ _ _ Eb))].
  destruct (get_permission_from_store_or_default config (w_db w)).1 as [r|e] eqn:Er.
  2:{ exists (Raise e), w. unfold decision. by rewrite Eb /= Er. }
  autorewrite with run. destruct (apply_workspace_fallback_spec ws rt u w r Hco Hsep) as (w1&->&Hco1&Hd1).
  destruct (apply_workspace ws u (w_db w) r) as [r'|e] eqn:Ea.
  2:{ exists (Raise e), w1. unfold decision. by rewrite Eb /= Er /= Ea. }
  assert (decision ws rt id u sc (w_db w) = Ok r') as Hdec by (unfold decision; by rewrite Eb /= Er /= Ea).
  assert (∃ w2, (if decide (kind r' = "fallback") then record_permission_fallback rt id u (permission r') else mret tt) w1 = (Ok tt, w2)
    ∧ coherent w2 ∧ w_db w2 = w_db w) as (w2&Hrun2&Hco2&Hd2).
  { case_decide; [|by exists w1]. rewrite -Hd1. by apply record_fallback_coherent. }
  rewrite M_bind_run Hrun2. autorewrite with run. eexists _, _. split; [done|]. split_and!; [|done|done].
  destruct Hco2 as [Hws2 Hps2]. split; [exact Hws2|].
  intros ws' rt' id' u' sc' r0 Hsep' Hne' Hget. cbn in Hget. cbn [w_db set_permission_cache]. rewrite Hd2.
  destruct (decide (_make_cache_key rt id u (_get_cache_workspace ws) = _make_cache_key rt' id' u' (_get_cache_workspace ws'))) as [Heq|Hkey].
  - rewrite -Heq in Hget. apply cache_get_set in Hget as ->.
    apply make_cache_key_inj in Heq as (Hsame&<-&<-&<-); [|done..].
    by rewrite -(decision_same ws ws' rt id u sc sc').
  - apply cache_get_set_ne in Hget; [|done]. rewrite -Hd2. by apply (Hps2 ws' rt' id' u' sc' r0).
Qed.

(** C2: With coherent caches and names that hold no colon, resolve_permission
    returns exactly what the database alone decides (the first source in order,
    else the workspace, else the default), for every resource type but scorers,
    and leaves the caches coherent and the database as it was. *)
Theorem resolve_permission_implements_decision ws rt id u sc w :
  coherent w → separable ws rt u → rt ≠ SCORER →
  ∃ w', resolve_permission ws rt id u sc w = (decision ws rt id u sc (w_db w), w') ∧ coherent w' ∧ w_db w' = w_db w.
Proof.
  intros Hco Hsep Hne. destruct (resolve_permission_run ws rt id u sc w Hco Hsep) as (o&w'&->&?&?&Ho).
  exists w'. by rewrite Ho.
Qed.

(** The kinds of a result: the four sources, or the default. *)
Lemma build_sources_kinds rt id u sc config s f :
  build_sources rt id u sc = Ok config → config !! s = Some f → s ∈ ["user"; "group"; "regex"; "group-regex"].
Proof.
  assert (∀ a b c d, sources a b c d !! s = Some f → s ∈ ["user"; "group"; "regex"; "group-regex"]) as Hs.
  { intros a b c d. unfold sources. cbn. rewrite !lookup_insert lookup_empty. repeat case_decide; set_solver. }
  unfold build_sources, PERMISSION_REGISTRY. cbn. rewrite !lookup_insert lookup_empty.
  repeat case_decide; try (destruct sc); try done; intros [= <-]; apply Hs.
Qed.

Lemma store_or_default_kind config d r :
  sources_read config → (get_permission_from_store_or_default config d).1 = Ok r →
  kind r = "fallback" ∨ ∃ f, config !! kind r = Some f.
Proof.
  intros Hc. unfold get_permission_from_store_or_default.
  rewrite M_bind_run (read_only_run _ _ (read_only_first_source _ _ Hc)).
  pose proof (first_source_spec config PERMISSION_SOURCE_ORDER d Hc) as Hs.
  destruct (first_source config PERMISSION_SOURCE_ORDER d).1 as [[r0|]|e]; cbn; [|destruct (get_permission _); cbn|done].
  - intros [= <-]. destruct Hs as (?&?&f&?&_&_&?&_). eauto.
  - intros [= <-]. by left.
  - done.
Qed.

(** With workspaces enabled and a workspace on the request, a resolved
    permission never comes from the configured default: it is a grant on the
    resource, or the user's current permission on that workspace, or
    NO_PERMISSIONS. *)
Theorem no_default_grant_in_a_workspace workspace rt id u sc w r w' :
  coherent w → separable (Some workspace) rt u → rt ≠ SCORER →
  MLFLOW_ENABLE_WORKSPACES = true → workspace ≠ "" →
  resolve_permission (Some workspace) rt id u sc w = (Ok r, w') →
  kind r ≠ "fallback" ∧
  (kind r = "workspace" → (_lookup_workspace_permission u workspace (w_db w)).1 = Ok (Some (permission r))) ∧
  (kind r = "workspace-deny" → permission r = NO_PERMISSIONS).
Proof.
  intros Hco Hsep Hrt Hon Hne Hrun.
  destruct (resolve_permission_run (Some workspace) rt id u sc w Hco Hsep) as (o&w2&Hrun'&_&_&Ho).
  rewrite Hrun in Hrun'. injection Hrun' as <- <-. specialize (Ho Hrt). symmetry in Ho.
  unfold decision in Ho. destruct (build_sources rt id u sc) as [config|] eqn:Eb; [|done].
  apply outcome_bind_ok in Ho as (config'&[= <-]&Ho). apply outcome_bind_ok in Ho as (r0&Er&Ho).
  unfold apply_workspace in Ho. destruct (decide (kind r0 ≠ "fallback")) as [Hk|Hk].
  - injection Ho as ->. split; [done|].
    assert (kind r ∈ ["user"; "group"; "regex"; "group-regex"]) as Hkind.
    { destruct (store_or_default_kind config (w_db w) r (build_sources_read _ _ _ _ _ Eb) Er) as [Hf|[f Hf]]; [done|].
      exact (build_sources_kinds _ _ _ _ _ _ _ Eb Hf). }
    split; intros Heq; rewrite Heq in Hkind; set_solver.
  - rewrite Hon in Ho. cbn in Ho. destruct workspace as [|c workspace]; [done|].
    destruct (_lookup_workspace_permission u _ (w_db w)).1 as [[p|]|e]; cbn in Ho; simplify_eq/=; done.
Qed.
End resolution.

(** * Particular paths of permission resolution

    The workspace patterns, the accounting of the default, and two places where
    the code does not do what it means to. *)

Section cases.
Context `{SqlBackend, PyRe, Config, TrackingStore, CacheBackend PermissionResult, CacheBackend Permission}.

(** ** Workspace patterns *)

(** A stored pattern that can be used: it compiles and grants a valid level. *)
Definition usable (r : regex_row) : Prop :=
  re_compile (r_regex r) ≠ CompileError ∧ valid_permission (r_permission r).

Definition hits (workspace : string) (r : regex_row) : Prop := re_match (r_regex r) workspace = true.

(** No row of [l] beats level [p] at priority number [pr]. *)
Definition unbeaten (workspace : string) (pr : Z) (p : Permission) (l : list regex_row) : Prop :=
  ∀ r, r ∈ l → hits workspace r →
    pr < r_priority r ∨ (r_priority r = pr ∧ ∃ p', get_permission (r_permission r) = Ok p' ∧ priority p' ≤ priority p).

Lemma py_re_match_usable r workspace :
  usable r → py_re_match (r_regex r) workspace = Ok (re_match (r_regex r) workspace).
Proof. intros [Hc _]. unfold py_re_match. by destruct (re_compile _). Qed.

(** The loop once a match was found: it keeps to the tier of that match. *)
Lemma match_workspace_from_best workspace bp pr l :
  Forall usable l → StronglySorted (λ x y, r_priority x ≤ r_priority y) l → Forall (λ r, pr ≤ r_priority r) l →
  ∃ p, _match_workspace_regex_from (Some (bp, pr)) l workspace = Ok (Some p) ∧ priority bp ≤ priority p ∧
    (p = bp ∨ ∃ r, r ∈ l ∧ hits workspace r ∧ r_priority r = pr ∧ get_permission (r_permission r) = Ok p) ∧
    unbeaten workspace pr p l.
Proof.
  intros Hus Hsort. revert bp Hus. induction Hsort as [|r l Hl IH Hr]; intros bp Hus Hpr.
  { exists bp. split_and!; [done|lia|by left|]. by intros r ?%not_elem_of_nil. }
  apply Forall_cons in Hus as [Hu Hus]. apply Forall_cons in Hpr as [Hp Hpr]. cbn [_match_workspace_regex_from].
  case_bool_decide as Hlt.
  { exists bp. split_and!; [done|lia|by left|]. intros r' [->|Hin]%elem_of_cons _; [by left|].
    rewrite Forall_forall in Hr. specialize (Hr r' Hin). left. lia. }
  rewrite (py_re_match_usable r workspace Hu). cbn [mbind outcome_bind].
  destruct (re_match (r_regex r) workspace) eqn:Em.
  2:{ destruct (IH bp Hus Hpr) as (p&->&Hle&Hfrom&Hun). exists p. split_and!; [done|done| |].
      - destruct Hfrom as [?|(r'&?&?)]; [by left|]. right. exists r'. split; [by right|done].
      - intros r' [->|Hin]%elem_of_cons Hh; [|by apply Hun]. unfold hits in Hh. congruence. }
  destruct (get_permission_valid _ (proj2 Hu)) as (q&Hq&_). rewrite Hq. cbn [mbind outcome_bind].
  assert (∀ b : Permission, priority bp ≤ priority b → priority q ≤ priority b → (b = bp ∨ b = q) →
    ∃ p, _match_workspace_regex_from (Some (b, pr)) l workspace = Ok (Some p) ∧ priority bp ≤ priority p ∧
      (p = bp ∨ ∃ r', r' ∈ r :: l ∧ hits workspace r' ∧ r_priority r' = pr ∧ get_permission (r_permission r') = Ok p) ∧
      unbeaten workspace pr p (r :: l)) as Hgo.
  { intros b Hb1 Hb2 Hb3. destruct (IH b Hus Hpr) as (p&->&Hle&Hfrom&Hun). exists p. split_and!; [done|lia| |].
    - destruct Hfrom as [->|(r'&?&?)]; [|right; exists r'; split; [by right|done]].
      destruct Hb3 as [->| ->]; [by left|]. right. exists r. split_and!; [by left|done|lia|done].
    - intros r' [->|Hin]%elem_of_cons Hh; [|by apply Hun]. right. split; [lia|]. exists q. split; [done|lia]. }
  destruct (decide (priority bp < priority q)); apply Hgo; auto; lia.
Qed.

(** Matching a workspace against patterns sorted by priority gives the
    level with the highest priority number among the matching patterns of the
    first tier that has a match, and None exactly when nothing matches. *)
Theorem workspace_regex_strongest_of_first_tier workspace l :
  Forall usable l → StronglySorted (λ x y, r_priority x ≤ r_priority y) l →
  match _match_workspace_regex_permission l workspace with
  | Ok None => ∀ r, r ∈ l → ¬ hits workspace r
  | Ok (Some p) => ∃ r, r ∈ l ∧ hits workspace r ∧ get_permission (r_permission r) = Ok p ∧ unbeaten workspace (r_priority r) p l
  | Raise _ => False
  end.
Proof.
  unfold _match_workspace_regex_permission. intros Hus. induction 1 as [|r l Hl IH Hr].
  { by intros r ?%not_elem_of_nil. }
  apply Forall_cons in Hus as [Hu Hus]. specialize (IH Hus). cbn [_match_workspace_regex_from].
  rewrite (py_re_match_usable r workspace Hu). cbn [mbind outcome_bind].
  destruct (re_match (r_regex r) workspace) eqn:Em.
  - destruct (get_permission_valid _ (proj2 Hu)) as (q&Hq&_). rewrite Hq. cbn [mbind outcome_bind].
    destruct (match_workspace_from_best workspace q (r_priority r) l Hus Hl Hr) as (p&->&Hle&Hfrom&Hun).
    assert (unbeaten workspace (r_priority r) p (r :: l)) as Hun'.
    { intros r' [->|Hin]%elem_of_cons Hh; [|by apply Hun]. right. split; [done|]. by exists q. }
    destruct Hfrom as [->|(r'&Hin&Hh&Hpr&Hg)].
    + exists r. split_and!; [by left|done|done|done].
    + exists r'. split_and!; [by right|done|done|by rewrite Hpr].
  - assert (¬ hits workspace r) as Hno by (unfold hits; congruence).
    destruct (_match_workspace_regex_from None l workspace) as [[p|]|e]; [| |done].
    + destruct IH as (r'&Hin&Hh&Hg&Hun). exists r'. split_and!; [by right|done|done|].
      intros r'' [->|Hin']%elem_of_cons Hh'; [done|by apply Hun].
    + intros r' [->|Hin]%elem_of_cons; [done|by apply IH].
Qed.

(** ** The accounting of the default *)

Record fallback_call := FallbackCall { fc_resource_type : string; fc_resource_id : string; fc_username : string; fc_permission : Permission }.

Definition record_call (w : world) (c : fallback_call) : world :=
  (record_permission_fallback (fc_resource_type c) (fc_resource_id c) (fc_username c) (fc_permission c) w).2.

Definition calls_for (rt : string) (calls : list fallback_call) : list fallback_call :=
  filter (λ c, fc_resource_type c = rt) calls.
Definition warnings_for (rt : string) (w : world) : list fallback_warning :=
  filter (λ fw, fw_resource_type fw = rt) (w_warnings w).

(** How many of the first [n] occurrences are warned about. *)
Definition warned_up_to (n : Z) : Z := Z.of_nat (length (filter (λ k, k ≤ n) _FALLBACK_WARN_AT)) + n / _FALLBACK_WARN_EVERY.

Lemma warned_step n : 0 ≤ n →
  (n + 1 ∈ _FALLBACK_WARN_AT ∨ (n + 1) mod _FALLBACK_WARN_EVERY = 0) → warned_up_to n + 1 ≤ warned_up_to (n + 1).
Proof.
  unfold warned_up_to, _FALLBACK_WARN_AT, _FALLBACK_WARN_EVERY. intros Hn [Hin|Hmod].
  - pose proof (Z.div_le_mono n (n + 1) 10000 ltac:(lia) ltac:(lia)). rewrite !elem_of_cons in Hin.
    rewrite !filter_cons !filter_nil. destruct_or!; [..|by apply not_elem_of_nil in Hin]; repeat case_decide; cbn [length]; lia.
  - rewrite !filter_cons !filter_nil. assert ((n + 1) / 10000 = n / 10000 + 1) as ->.
    { pose proof (Z.div_mod (n + 1) 10000 ltac:(lia)).
      rewrite -(Z.div_unique n 10000 ((n + 1) / 10000 - 1) 9999); lia. }
    repeat case_decide; cbn [length]; lia.
Qed.

Lemma warned_mono n : 0 ≤ n → warned_up_to n ≤ warned_up_to (n + 1).
Proof.
  unfold warned_up_to, _FALLBACK_WARN_AT, _FALLBACK_WARN_EVERY. intros Hn.
  pose proof (Z.div_le_mono n (n + 1) 10000 ltac:(lia) ltac:(lia)).
  rewrite !filter_cons !filter_nil. repeat case_decide; cbn [length]; lia.
Qed.

(** What holds of the counters after any calls. *)
Record accounted (calls : list fallback_call) (w : world) : Prop := {
  acc_count rt : default 0 (_FALLBACK_COUNTS w !! rt) = Z.of_nat (length (calls_for rt calls));
  acc_limit rt : (length (default [] (_FALLBACK_SAMPLES w !! rt)) ≤ _FALLBACK_SAMPLE_LIMIT)%nat;
  acc_nodup rt : NoDup (default [] (_FALLBACK_SAMPLES w !! rt));
  acc_samples rt id : id ∈ default [] (_FALLBACK_SAMPLES w !! rt) → ∃ c, c ∈ calls_for rt calls ∧ fc_resource_id c = id;
  acc_warnings rt : Z.of_nat (length (warnings_for rt w)) ≤ warned_up_to (Z.of_nat (length (calls_for rt calls)));
}.

Lemma calls_for_snoc rt calls c :
  calls_for rt (calls ++ [c]) = calls_for rt calls ++ (if decide (fc_resource_type c = rt) then [c] else []).
Proof. unfold calls_for. rewrite filter_app filter_cons filter_nil. done. Qed.

Lemma record_call_accounted calls w c : accounted calls w → accounted (calls ++ [c]) (record_call w c).
Proof.
  intros [Hcount Hlim Hnd Hsam Hwarn]. destruct c as [rt0 id0 u p]. cbn.
  assert (∀ rt, length (calls_for rt (calls ++ [FallbackCall rt0 id0 u p])) =
    (length (calls_for rt calls) + if decide (rt0 = rt) then 1 else 0)%nat) as Hlen.
  { intros rt. rewrite calls_for_snoc length_app. cbn. by case_decide. }
  split; intros rt; cbn.
  - rewrite Hlen lookup_insert. specialize (Hcount rt). repeat case_decide; subst; cbn; lia.
  - rewrite lookup_insert. case_decide as Hd; [subst|apply Hlim]. cbn. unfold sample_fallback.
    case_decide as Hc; [|apply Hlim]. rewrite length_app. cbn. lia.
  - rewrite lookup_insert. case_decide as Hd; [subst|apply Hnd]. cbn. unfold sample_fallback.
    case_decide as Hc; [|apply Hnd]. apply NoDup_app. split_and!; [apply Hnd| |apply NoDup_singleton]. set_solver.
  - intros id. rewrite calls_for_snoc lookup_insert. cbn. case_decide as Hd; [subst|].
    + intros Hin.
      assert (id ∈ default [] (_FALLBACK_SAMPLES w !! rt) ∨ id = id0) as [(c&?&?)%Hsam| ->].
      { unfold sample_fallback in Hin. case_decide; set_solver. }
      * exists c. set_solver.
      * exists (FallbackCall rt id0 u p). set_solver.
    + intros (c&?&?)%Hsam. exists c. set_solver.
  - rewrite Hlen. unfold warnings_for. cbn. pose proof (Hwarn rt) as Hw. pose proof (Hcount rt) as Hn. unfold warnings_for in Hw.
    set (n := length (calls_for rt calls)) in *. pose proof (warned_mono (Z.of_nat n) ltac:(lia)) as Hmono.
    assert (rt0 = rt → default 0 (_FALLBACK_COUNTS w !! rt0) = Z.of_nat n) as Hc by (by intros ->).
    destruct (negb (can_read p)).
    { destruct (decide (rt0 = rt)); [|by rewrite Nat.add_0_r]. rewrite Nat2Z.inj_add. change (Z.of_nat 1) with 1. lia. }
    destruct (decide (default 0 (_FALLBACK_COUNTS w !! rt0) + 1 ∈ _FALLBACK_WARN_AT ∨ _)) as [Ht|Ht].
    + rewrite filter_app filter_cons filter_nil length_app. cbn [fw_resource_type].
      destruct (decide (rt0 = rt)) as [Hrt|]; [|cbn [length]; rewrite !Nat.add_0_r; exact Hw].
      rewrite (Hc Hrt) in Ht. pose proof (warned_step (Z.of_nat n) ltac:(lia) Ht). cbn [length]. rewrite !Nat2Z.inj_add. change (Z.of_nat 1) with 1. lia.
    + destruct (decide (rt0 = rt)); [|by rewrite Nat.add_0_r]. rewrite Nat2Z.inj_add. change (Z.of_nat 1) with 1. lia.
Qed.

(** C40: After any calls of record_permission_fallback from a fresh process,
    each type's counter is its number of calls, its sample holds at most 50
    distinct ids that were really recorded, and its warnings number at most one
    per threshold 1, 10, 100, 1000 plus one per 10000 calls. *)
Theorem fallback_accounting_is_bounded calls w :
  _FALLBACK_COUNTS w = ∅ → _FALLBACK_SAMPLES w = ∅ → w_warnings w = [] →
  accounted calls (foldl record_call w calls).
Proof.
  intros Hc Hs Hw. induction calls as [|c calls IH] using rev_ind.
  - split; intros rt; cbn; unfold warnings_for; rewrite ?Hc ?Hs ?Hw ?lookup_empty; try done.
    + cbn. lia.
    + constructor.
    + by intros id ?%not_elem_of_nil.
  - rewrite foldl_snoc. by apply record_call_accounted.
Qed.

(** ** The scorer cache entry *)

(** While the decision for one scorer of an experiment is cached, every
    other scorer of that experiment gets the same decision for that user. *)
Theorem scorer_decision_is_shared ws experiment_id u scorer scorer' w r w' :
  resolve_permission ws SCORER experiment_id u (Some scorer) w = (Ok r, w') →
  cache_get (_make_cache_key SCORER experiment_id u (_get_cache_workspace ws)) (_permission_cache w') = Some r →
  resolve_permission ws SCORER experiment_id u (Some scorer') w' = (Ok r, w').
Proof. intros _ Hget. unfold resolve_permission. autorewrite with run. by rewrite Hget. Qed.

(** ** The group source of the gateway resources *)

Lemma lookup_group_source u g r gr : sources u g r gr !! "group" = Some g.
Proof. done. Qed.

Lemma gateway_group_source_missing t gateway_name u d :
  (∀ g, g ∈ groups d → g_name g ≠ u) → missing (gateway_sources t gateway_name u) d "group".
Proof.
  intros Hno f. unfold gateway_sources. rewrite lookup_group_source. intros [= <-].
  unfold gateway_group_permission, GroupPermissions.get_group_permission_for_user, GroupPermissions._get_group_permission.
  autorewrite with run.
  assert ((r ← t_group (perms d t); g ← groups d;
    if decide (p_owner r = g_id g ∧ p_key r = Key gateway_name ∧ g_name g = u) then [r] else []) = []) as ->; [|done].
  induction (t_group (perms d t)) as [|r rows IH]; [done|]. rewrite bind_cons IH app_nil_r.
  apply (bind_if_false (λ g, p_owner r = g_id g ∧ p_key r = Key gateway_name ∧ g_name g = u) (λ _, r)).
  intros g Hg (_&_&Hn). by apply (Hno g).
Qed.

(** For the gateway resource types the group source has nothing for a user
    whose name is not the name of a group, whatever groups the user belongs to
    and whatever those groups were granted. *)
Theorem gateway_group_grants_miss_the_members rt gateway_name u sc config d :
  rt ∈ [GATEWAY_ENDPOINT; GATEWAY_SECRET; GATEWAY_MODEL_DEFINITION] →
  (∀ g, g ∈ groups d → g_name g ≠ u) →
  build_sources rt gateway_name u sc = Ok config → missing config d "group".
Proof.
  intros Hrt Hno. rewrite !elem_of_cons in Hrt.
  destruct_or!; [subst..|by apply not_elem_of_nil in Hrt]; intros [= <-]; by apply gateway_group_source_missing.
Qed.
End cases.
