(* ===== verification/Batch.v ===== *)
(** * Batch permission resolution ([utils/batch_permissions.py])

    The data of one user is fetched once; each resource is then resolved without
    a query, with the workspace permission memoised in the context. *)
From S2P Require Import Prelude PyStrings Permissions Regex RegexSafety Database Repositories Groups Cache Resolution.

Record UserPermissionContext := MkContext {
  ctx_username : string;
  ctx_group_ids : list Z;
  user_experiment_permissions : gmap resource_key string;
  group_experiment_permissions : gmap resource_key string;
  experiment_regex_permissions : list regex_row;
  group_experiment_regex_permissions : list regex_row;
  user_model_permissions : gmap resource_key string;
  group_model_permissions : gmap resource_key string;
  model_regex_permissions : list regex_row;
  group_model_regex_permissions : list regex_row;
  prompt_regex_permissions : list regex_row;
  group_prompt_regex_permissions : list regex_row;
}.

(** The one field of the context that changes: workspace name to permission. *)
Abbreviation memo := (gmap string (option Permission)).

(** The experiments, models and prompts of a listing. *)
Record experiment := MkExperiment { exp_id : string; exp_name : string }.

(** [{p.resource_id: p.permission for p in perms}] *)
Definition permission_dict (rows : list perm_row) : gmap resource_key string :=
  foldl (λ m p, <[p_key p := p_permission p]> m) ∅ rows.

Fixpoint collapse_into (collapsed : gmap resource_key string) (permissions : list perm_row) : outcome (gmap resource_key string) :=
  match permissions with
  | [] => Ok collapsed
  | perm :: rest =>
      replace ← match collapsed !! p_key perm with
                | None => Ok true
                | Some current => compare_permissions current (p_permission perm)
                end;
      collapse_into (if replace : bool then <[p_key perm := p_permission perm]> collapsed else collapsed) rest
  end.

Definition _collapse_group_permissions (permissions : list perm_row) : outcome (gmap resource_key string) :=
  collapse_into ∅ permissions.

(** [for regex_perm in regexes: if re.match(...): return permission] *)
Fixpoint _find_regex_permission `{PyRe} (regexes : list regex_row) (nm : string) : outcome (option string) :=
  match regexes with
  | [] => Ok None
  | regex_perm :: rest =>
      matched ← py_re_match (r_regex regex_perm) nm;
      if matched : bool then Ok (Some (r_permission regex_perm)) else _find_regex_permission rest nm
  end.

Section batch.
Context `{SqlBackend, PyRe, Config, TrackingStore, CacheBackend PermissionResult, CacheBackend Permission}.

(** [... if group_ids else []] *)
Definition if_groups (group_ids : list Z) (m : M db (list regex_row)) : M db (list regex_row) :=
  if decide (group_ids = []) then mret [] else m.

Definition build_user_permission_context (username : string) : M db UserPermissionContext :=
  group_ids ← GroupRepository.list_group_ids_for_user username;
  user_exp_perms ← UserPermissions.list_permissions_for_user Experiments username;
  let user_experiment_permissions := permission_dict user_exp_perms in
  group_exp_perms ← GroupPermissions.list_permissions_for_user_groups Experiments username;
  group_experiment_permissions ← lift (_collapse_group_permissions group_exp_perms);
  experiment_regex_permissions ← RegexPermissions.list_regex_for_user Experiments username;
  group_experiment_regex_permissions ← if_groups group_ids (GroupRegexPermissions.list_permissions_for_groups_ids Experiments group_ids);
  user_model_perms ← UserPermissions.list_permissions_for_user RegisteredModels username;
  let user_model_permissions := permission_dict user_model_perms in
  group_model_perms ← GroupPermissions.list_for_user RegisteredModels username;
  group_model_permissions ← lift (_collapse_group_permissions group_model_perms);
  model_regex_permissions ← ModelRegexPermissions.list_regex_for_user username false;
  group_model_regex_permissions ← if_groups group_ids (ModelGroupRegexPermissions.list_permissions_for_groups_ids group_ids false);
  prompt_regex_permissions ← ModelRegexPermissions.list_regex_for_user username true;
  group_prompt_regex_permissions ← if_groups group_ids (ModelGroupRegexPermissions.list_permissions_for_groups_ids group_ids true);
  mret (MkContext username group_ids user_experiment_permissions group_experiment_permissions
    experiment_regex_permissions group_experiment_regex_permissions user_model_permissions group_model_permissions
    model_regex_permissions group_model_regex_permissions prompt_regex_permissions group_prompt_regex_permissions).

(** [source_map.get(source)], and the loop over the configured order. *)
Definition source_map (user_direct group_direct user_regex_match group_regex_match : option string) : gmap string (option string) :=
  list_to_map [("user", user_direct); ("group", group_direct); ("regex", user_regex_match); ("group-regex", group_regex_match)].

Fixpoint from_context (sources : gmap string (option string)) (source_order : list string) : outcome PermissionResult :=
  match source_order with
  | [] => p ← get_permission DEFAULT_MLFLOW_PERMISSION; Ok (MkResult p "fallback")
  | source :: rest =>
      match mjoin (sources !! source) with
      | Some perm => p ← get_permission perm; Ok (MkResult p source)
      | None => from_context sources rest
      end
  end.

Definition _resolve_permission_from_context (source_order : list string) (user_direct group_direct user_regex_match group_regex_match : option string) : outcome PermissionResult :=
  from_context (source_map user_direct group_direct user_regex_match group_regex_match) source_order.

(** Programs that also carry the memo of their context. *)
Definition on_world {A} (m : M world A) : M (world * memo) A := λ s,
  let '(o, w) := m s.1 in (o, (w, s.2)).

Definition _record_if_fallback (result : PermissionResult) (resource_type resource_id username : string) : M world PermissionResult :=
  _ ← (if decide (kind result = "fallback")
       then record_permission_fallback resource_type resource_id username (permission result)
       else mret tt);
  mret result.

(** [request_workspace] is MLflow's own [get_request_workspace()]. *)
Definition _apply_workspace_fallback_batch (request_workspace : option string) (result : PermissionResult) (username : string) : M (world * memo) PermissionResult :=
  if decide (kind result ≠ "fallback") then mret result
  else if negb MLFLOW_ENABLE_WORKSPACES then mret result
  else match request_workspace with
       | None | Some "" => mret result
       | Some workspace =>
           memoised ← gets (λ s, s.2 !! workspace);
           ws_perm ← match memoised with
                     | Some ws_perm => mret ws_perm
                     | None =>
                         ws_perm ← on_world (get_workspace_permission_cached username workspace);
                         _ ← modify (λ s, (s.1, <[workspace := ws_perm]> s.2));
                         mret ws_perm
                     end;
           match ws_perm with
           | Some p => mret (MkResult p "workspace")
           | None => mret (MkResult NO_PERMISSIONS "workspace-deny")
           end
       end.

(** The common tail of the three resolvers. *)
Definition resolve_from_context (request_workspace : option string) (ctx : UserPermissionContext) (resource_type resource_id : string)
    (user_direct group_direct : option string) (user_regexes group_regexes : list regex_row) (nm : string) : M (world * memo) PermissionResult :=
  user_regex ← lift (_find_regex_permission user_regexes nm);
  group_regex ← lift (_find_regex_permission group_regexes nm);
  result ← lift (_resolve_permission_from_context PERMISSION_SOURCE_ORDER user_direct group_direct user_regex group_regex);
  result ← on_world (_record_if_fallback result resource_type resource_id (ctx_username ctx));
  _apply_workspace_fallback_batch request_workspace result (ctx_username ctx).

Definition resolve_experiment_permission_from_context (ws : option string) (ctx : UserPermissionContext) (experiment_id : string) (experiment_name : option string) : M (world * memo) PermissionResult :=
  nm ← match experiment_name with Some n => mret n | None => lift (get_experiment_name experiment_id) end;
  resolve_from_context ws ctx EXPERIMENT experiment_id
    (user_experiment_permissions ctx !! Key experiment_id) (group_experiment_permissions ctx !! Key experiment_id)
    (experiment_regex_permissions ctx) (group_experiment_regex_permissions ctx) nm.

Definition resolve_model_permission_from_context (ws : option string) (ctx : UserPermissionContext) (model_name : string) : M (world * memo) PermissionResult :=
  resolve_from_context ws ctx REGISTERED_MODEL model_name
    (user_model_permissions ctx !! Key model_name) (group_model_permissions ctx !! Key model_name)
    (model_regex_permissions ctx) (group_model_regex_permissions ctx) model_name.

Definition resolve_prompt_permission_from_context (ws : option string) (ctx : UserPermissionContext) (prompt_name : string) : M (world * memo) PermissionResult :=
  resolve_from_context ws ctx PROMPT prompt_name
    (user_model_permissions ctx !! Key prompt_name) (group_model_permissions ctx !! Key prompt_name)
    (prompt_regex_permissions ctx) (group_prompt_regex_permissions ctx) prompt_name.

(** [{item.key: resolve(item) for item in items}] *)
Fixpoint dict_comprehension {A} (key : A → string) (resolve : A → M (world * memo) PermissionResult) (acc : gmap string PermissionResult) (items : list A) : M (world * memo) (gmap string PermissionResult) :=
  match items with
  | [] => mret acc
  | item :: rest =>
      r ← resolve item;
      dict_comprehension key resolve (<[key item := r]> acc) rest
  end.

(** The memo of a new context is empty, and goes away with the context. *)
Definition with_fresh_memo {A} (m : M (world * memo) A) : M world A := λ w,
  let '(o, s) := m (w, ∅) in (o, s.1).

(** A batch: the context, then the comprehension. *)
Definition batch {A} (username : string) (key : A → string) (resolve : UserPermissionContext → A → M (world * memo) PermissionResult) (items : list A) : M world (gmap string PermissionResult) :=
  ctx ← on_store (build_user_permission_context username);
  with_fresh_memo (dict_comprehension key (resolve ctx) ∅ items).

Definition batch_resolve_experiment_permissions (ws : option string) (username : string) (experiments : list experiment) : M world (gmap string PermissionResult) :=
  batch username exp_id (λ ctx e, resolve_experiment_permission_from_context ws ctx (exp_id e) (Some (exp_name e))) experiments.

Definition batch_resolve_model_permissions (ws : option string) (username : string) (models : list string) : M world (gmap string PermissionResult) :=
  batch username id (resolve_model_permission_from_context ws) models.

Definition batch_resolve_prompt_permissions (ws : option string) (username : string) (prompts : list string) : M world (gmap string PermissionResult) :=
  batch username id (resolve_prompt_permission_from_context ws) prompts.

(** [[item for item in items if permissions[item.key].permission.can_manage]] *)
Fixpoint keep_manageable {A} (key : A → string) (permissions : gmap string PermissionResult) (items : list A) : outcome (list A) :=
  match items with
  | [] => Ok []
  | item :: rest =>
      r ← match permissions !! key item with Some r => Ok r | None => Raise KeyError end;
      kept ← keep_manageable key permissions rest;
      Ok (if can_manage (permission r) then item :: kept else kept)
  end.

Definition filter_manageable_experiments (ws : option string) (username : string) (experiments : list experiment) : M world (list experiment) :=
  permissions ← batch_resolve_experiment_permissions ws username experiments;
  lift (keep_manageable exp_id permissions experiments).

Definition filter_manageable_models (ws : option string) (username : string) (models : list string) : M world (list string) :=
  permissions ← batch_resolve_model_permissions ws username models;
  lift (keep_manageable id permissions models).

Definition filter_manageable_prompts (ws : option string) (username : string) (prompts : list string) : M world (list string) :=
  permissions ← batch_resolve_prompt_permissions ws username prompts;
  lift (keep_manageable id permissions prompts).

(** The gateway filters ask for one resource at a time; a dict without a name is
    skipped, and an error counts as not manageable. *)
Abbreviation dict := (gmap string string).

Fixpoint filter_gateway (resource_name : dict → string) (can_manage_it : string → M world bool) (items : list dict) : M world (list dict) :=
  match items with
  | [] => mret []
  | item :: rest =>
      if decide (resource_name item = "") then filter_gateway resource_name can_manage_it rest
      else
        keep ← catch (can_manage_it (resource_name item)) (λ _, mret false);
        kept ← filter_gateway resource_name can_manage_it rest;
        mret (if keep : bool then item :: kept else kept)
  end.

Definition name_of (d : dict) : string := default "" (d !! "name").
Definition secret_name_of (d : dict) : string :=
  or_default (d !! "secret_name") (or_default (d !! "name") (default "" (d !! "key"))).

Definition filter_manageable_gateway_endpoints ws username (endpoints : list dict) : M world (list dict) :=
  filter_gateway name_of (λ n, can_manage_gateway_endpoint ws n username) endpoints.
Definition filter_manageable_gateway_secrets ws username (secrets : list dict) : M world (list dict) :=
  filter_gateway secret_name_of (λ n, can_manage_gateway_secret ws n username) secrets.
Definition filter_manageable_gateway_model_definitions ws username (models : list dict) : M world (list dict) :=
  filter_gateway name_of (λ n, can_manage_gateway_model_definition ws n username) models.
End batch.
