(* ===== verification/BatchFacts.v ===== *)
(** * Batch resolution agrees with the resolution of each resource *)
From S2P Require Import Prelude PyStrings Permissions Regex RegexSafety Database Repositories RepositoryFacts Groups Cache Resolution ResolutionFacts Batch.

Definition to_option {A} (o : outcome A) : option A :=
  match o with Ok a => Some a | Raise _ => None end.

(** ** Dictionaries of permissions *)

Lemma permission_dict_from (m : gmap resource_key string) rows k :
  foldl (λ m p, <[p_key p := p_permission p]> m) m rows !! k =
    match last (filter (λ r, p_key r = k) rows) with Some r => Some (p_permission r) | None => m !! k end.
Proof.
  revert m. induction rows as [|r rows IH]; intros m; [done|]. cbn [foldl]. rewrite IH filter_cons lookup_insert.
  destruct (decide (p_key r = k)); [|done].
  rewrite last_cons. by destruct (last (filter _ rows)).
Qed.

(** Where a key selects at most one row, the dict has that row's permission. *)
Lemma permission_dict_lookup rows k r :
  filter (λ r, p_key r = k) rows = [r] → permission_dict rows !! k = Some (p_permission r).
Proof. intros Hf. unfold permission_dict. by rewrite permission_dict_from Hf. Qed.

Lemma permission_dict_lookup_none rows k :
  filter (λ r, p_key r = k) rows = [] → permission_dict rows !! k = None.
Proof. intros Hf. unfold permission_dict. by rewrite permission_dict_from Hf lookup_empty. Qed.

(** ** Collapsing the group grants *)

Lemma collapse_into_app m l l' : collapse_into m (l ++ l') = m' ← collapse_into m l; collapse_into m' l'.
Proof.
  revert m. induction l as [|r l IH]; intros m; [done|]. cbn.
  destruct (match m !! p_key r with None => _ | Some _ => _ end); [|done]. cbn. apply IH.
Qed.

Lemma strongest_from_app acc l l' :
  GroupPermissions.strongest_from acc (l ++ l') = x ← GroupPermissions.strongest_from acc l; GroupPermissions.strongest_from x l'.
Proof.
  revert acc. induction l as [|r l IH]; intros acc; [done|]. cbn.
  destruct (compare_permissions _ _); [|done]. cbn. apply IH.
Qed.

Lemma strongest_snoc l r x :
  GroupPermissions.strongest l = Ok x →
  GroupPermissions.strongest (l ++ [r]) =
    b ← compare_permissions (p_permission x) (p_permission r); Ok (if b : bool then r else x).
Proof. destruct l as [|y l]; [done|]. cbn. intros Hx. rewrite strongest_from_app Hx. done. Qed.

(** The dict holds, for each key, the strongest of the rows with that key. *)
Lemma collapse_spec rows :
  Forall valid_row rows →
  ∃ m, _collapse_group_permissions rows = Ok m ∧
    ∀ k, m !! k = to_option (p_permission <$> GroupPermissions.strongest (filter (λ r, p_key r = k) rows)).
Proof.
  unfold _collapse_group_permissions. induction rows as [|r rows IH] using rev_ind; intros Hv.
  { exists ∅. split; [done|]. intros k. by rewrite lookup_empty. }
  apply Forall_app in Hv as [Hv [Hr _]%Forall_cons]. destruct (IH Hv) as (m&Hm&Hk).
  rewrite collapse_into_app Hm. cbn [mbind outcome_bind collapse_into].
  assert (∀ k, filter (λ r, p_key r = k) (rows ++ [r]) = filter (λ r, p_key r = k) rows ++ (if decide (p_key r = k) then [r] else [])) as Hsnoc.
  { intros k. by rewrite filter_app filter_cons filter_nil. }
  pose proof (Forall_filter valid_row (λ x, p_key x = p_key r) rows Hv) as Hvk.
  rewrite (Hk (p_key r)).
  destruct (filter (λ x, p_key x = p_key r) rows) as [|y l] eqn:Ef.
  - cbn. eexists. split; [done|]. intros k. rewrite Hsnoc lookup_insert Hk.
    destruct (decide (p_key r = k)) as [<-|]; [by rewrite Ef|by rewrite app_nil_r].
  - destruct (strongest_max (y :: l) Hvk) as (x&Hx&Hin&_); [done|]. rewrite Hx. cbn [fmap outcome_fmap to_option].
    assert (valid_row x) as Hvx by (rewrite Forall_forall in Hvk; by apply Hvk).
    rewrite (compare_permissions_valid _ _ Hvx Hr). cbn [mbind outcome_bind].
    eexists. split; [done|]. intros k. rewrite Hsnoc.
    destruct (decide (p_key r = k)) as [<-|Hne].
    + rewrite Ef (strongest_snoc _ _ _ Hx) (compare_permissions_valid _ _ Hvx Hr). cbn [mbind outcome_bind].
      case_bool_decide; cbn; [by rewrite lookup_insert_eq|]. by rewrite Hk Ef Hx.
    + rewrite app_nil_r -Hk. case_bool_decide; [by rewrite lookup_insert_ne|done].
Qed.

(** ** One source at a time *)

Section batch.
Context `{SqlBackend, PyRe, Config, TrackingStore, CacheBackend PermissionResult, CacheBackend Permission}.

(** A source of the per-resource path has what the context has. *)
Definition answers (d : db) (m : M db string) (o : option string) : Prop :=
  (m d).1 = match o with Some n => Ok n | None => Raise (MlflowException RESOURCE_DOES_NOT_EXIST) end.

Lemma first_source_from_context config smap order d :
  sources_read config →
  (∀ s, match config !! s with Some f => answers d f (mjoin (smap !! s)) | None => mjoin (smap !! s) = None end) →
  from_context smap order =
    match (first_source config order d).1 with
    | Ok (Some r) => Ok r
    | Ok None => p ← get_permission DEFAULT_MLFLOW_PERMISSION; Ok (MkResult p "fallback")
    | Raise e => Raise e
    end.
Proof.
  intros Hc Hans. induction order as [|s order IH]; [done|]. cbn [from_context first_source].
  pose proof (Hans s) as Hs. destruct (config !! s) as [f|] eqn:E; [|by rewrite Hs].
  rewrite M_bind_run (try_source_run s f d (Hc _ _ E)). unfold answers in Hs. rewrite Hs.
  destruct (mjoin (smap !! s)) as [n|]; [|exact IH].
  by destruct (get_permission n) as [p|e].
Qed.

Lemma sources_lookup u g r gr s :
  sources u g r gr !! s =
    if decide (s = "user") then Some u else if decide (s = "group") then Some g
    else if decide (s = "regex") then Some r else if decide (s = "group-regex") then Some gr else None.
Proof. unfold sources. cbn. rewrite !lookup_insert lookup_empty. by repeat case_decide; subst. Qed.

Lemma source_map_lookup u g r gr s :
  mjoin (source_map u g r gr !! s) =
    if decide (s = "user") then u else if decide (s = "group") then g
    else if decide (s = "regex") then r else if decide (s = "group-regex") then gr else None.
Proof. unfold source_map. cbn. rewrite !lookup_insert lookup_empty. by repeat case_decide; subst. Qed.

(** When the four sources answer alike, so do the two loops. *)
Lemma from_context_agrees u g r gr ou og or ogr d :
  sources_read (sources u g r gr) →
  answers d u ou → answers d g og → answers d r or → answers d gr ogr →
  (get_permission_from_store_or_default (sources u g r gr) d).1 =
    _resolve_permission_from_context PERMISSION_SOURCE_ORDER ou og or ogr.
Proof.
  intros Hc Hu Hg Hr Hgr. unfold _resolve_permission_from_context, get_permission_from_store_or_default.
  rewrite (first_source_from_context (sources u g r gr) _ _ d Hc).
  - rewrite M_bind_run (read_only_run _ _ (read_only_first_source _ _ Hc)).
    destruct (first_source _ _ _).1 as [[x|]|e]; try done. cbn. by destruct (get_permission _).
  - intros s. rewrite sources_lookup source_map_lookup. repeat case_decide; done.
Qed.

Lemma user_source_answers t k u d :
  wf_db d → u ∈ users d →
  answers d (user_permission t k (u_username u)) (permission_dict (join_user p_owner (t_user (perms d t)) (u_username u) d) !! k).
Proof.
  intros Hwf Hu. unfold answers, user_permission, UserPermissions.get_permission, UserPermissions._get_permission.
  rewrite (join_user_found p_owner _ u d Hwf Hu). autorewrite with run. rewrite (join_user_found p_owner _ u d Hwf Hu).
  destruct (filter_key_owner (t_user (perms d t)) k (u_id u)) as [(r&Hf&_&_)|[Hf _]]; [by apply wf_perms| |]; rewrite Hf.
  - by rewrite (permission_dict_lookup _ _ r).
  - by rewrite permission_dict_lookup_none.
Qed.

(** The group source names the strongest of the candidates. *)
Lemma group_source_answers t k username d o :
  wf_db d → t ≠ Workspaces →
  o = to_option (p_permission <$> GroupPermissions.strongest (GroupPermissions.user_candidates t k username d)) →
  answers d (group_permission t k username) o.
Proof.
  intros Hwf Ht ->. unfold answers, group_permission, GroupPermissions.get_group_permission_for_user_resource.
  autorewrite with run. pose proof (valid_user_candidates t d k username Hwf Ht) as Hv.
  destruct (GroupPermissions.user_candidates t k username d) as [|x l]; [done|].
  by destruct (strongest_max (x :: l) Hv) as (r&->&_).
Qed.

Definition compiling (l : list regex_row) : Prop := Forall (λ r, re_compile (r_regex r) ≠ CompileError) l.

Lemma find_regex_answers (m : M db (list regex_row)) f l nm d :
  compiling l → m d = (Ok l, d) → (∀ l, f l = _match_regex_permission l nm) →
  ∃ o, _find_regex_permission l nm = Ok o ∧ answers d (regexes ← m; lift (f regexes)) o ∧ (∀ n, o = Some n → ∃ r, r ∈ l ∧ r_permission r = n).
Proof.
  intros Hc Hm Hf.
  assert (∃ o, _find_regex_permission l nm = Ok o ∧
    _match_regex_permission l nm = match o with Some n => Ok n | None => Raise (MlflowException RESOURCE_DOES_NOT_EXIST) end ∧
    (∀ n, o = Some n → ∃ r, r ∈ l ∧ r_permission r = n)) as (o&Hfind&Hmatch&Hin).
  { clear Hm. induction Hc as [|r l Hr Hl IH]; [by exists None|]. destruct IH as (o&Ho&Hm&Hin). cbn.
    unfold py_re_match. destruct (re_compile (r_regex r)) eqn:E; [|done]. cbn.
    destruct (re_match _ _); cbn.
    - exists (Some (r_permission r)). split_and!; [done..|]. intros n [= <-]. exists r. set_solver.
    - rewrite Ho Hm. exists o. split_and!; [done..|]. intros n (r'&?&?)%Hin. exists r'. set_solver. }
  exists o. split_and!; [done| |done]. unfold answers. autorewrite with run. rewrite Hm. autorewrite with run. by rewrite Hf Hmatch.
Qed.

(** ** The context of a known user *)

Definition ids_of (username : string) (d : db) : list Z := m_group_id <$> join_user m_user_id (user_groups d) username d.

Definition group_rows_by_id (t : table) (ids : list Z) (d : db) : list regex_row :=
  sort_by r_priority (filter (λ r, r_owner r ∈ ids) (t_group_regex (perms d t))).

Definition model_regexes_of (u : user_row) (prompt : bool) (d : db) : list regex_row :=
  sort_by r_priority (filter (λ r, r_owner r = u_id u ∧ r_prompt r = prompt) (t_regex (perms d RegisteredModels))).

Record context_of (u : user_row) (d : db) (ctx : UserPermissionContext) : Prop := {
  of_username : ctx_username ctx = u_username u;
  of_user_exp : user_experiment_permissions ctx = permission_dict (join_user p_owner (t_user (perms d Experiments)) (u_username u) d);
  of_group_exp k : group_experiment_permissions ctx !! k =
    to_option (p_permission <$> GroupPermissions.strongest (GroupPermissions.user_candidates Experiments k (u_username u) d));
  of_exp_regex : experiment_regex_permissions ctx = sort_by r_priority (join_user r_owner (t_regex (perms d Experiments)) (u_username u) d);
  of_group_exp_regex : group_experiment_regex_permissions ctx = group_rows_by_id Experiments (ids_of (u_username u) d) d;
  of_user_model : user_model_permissions ctx = permission_dict (join_user p_owner (t_user (perms d RegisteredModels)) (u_username u) d);
  of_group_model k : group_model_permissions ctx !! k =
    to_option (p_permission <$> GroupPermissions.strongest (GroupPermissions.user_candidates RegisteredModels k (u_username u) d));
  of_model_regex : model_regex_permissions ctx = model_regexes_of u false d;
  of_group_model_regex : group_model_regex_permissions ctx = ModelGroupRegexPermissions.ids_filter (ids_of (u_username u) d) false d;
  of_prompt_regex : prompt_regex_permissions ctx = model_regexes_of u true d;
  of_group_prompt_regex : group_prompt_regex_permissions ctx = ModelGroupRegexPermissions.ids_filter (ids_of (u_username u) d) true d;
}.

Lemma filter_in_nil {A} (f : A → Z) (Q : A → Prop) `{∀ x, Decision (Q x)} l :
  filter (λ r, f r ∈ [] ∧ Q r) l = [].
Proof. apply filter_nil_iff. by intros r _ [?%not_elem_of_nil _]. Qed.

Lemma if_groups_ids t ids d :
  if_groups ids (GroupRegexPermissions.list_permissions_for_groups_ids t ids) d = (Ok (group_rows_by_id t ids d), d).
Proof.
  unfold if_groups. case_decide as Hd; [subst|done]. unfold group_rows_by_id.
  rewrite (proj2 (filter_nil_iff (λ r, r_owner r ∈ []) _)); [done|]. by intros r _ ?%not_elem_of_nil.
Qed.

Lemma if_groups_model_ids ids prompt d :
  if_groups ids (ModelGroupRegexPermissions.list_permissions_for_groups_ids ids prompt) d
    = (Ok (ModelGroupRegexPermissions.ids_filter ids prompt d), d).
Proof.
  unfold if_groups. case_decide as Hd; [subst|done]. unfold ModelGroupRegexPermissions.ids_filter.
  by rewrite (filter_in_nil r_owner (λ r, r_prompt r = prompt)).
Qed.

Lemma valid_join_user_groups t username d :
  wf_db d → t ≠ Workspaces → Forall valid_row (join_user_groups p_owner (t_group (perms d t)) username d).
Proof.
  intros Hwf Ht. apply Forall_forall. intros r (Hr&_)%elem_of_join_user_groups.
  pose proof (rows_valid_group t d Hwf Ht) as Hv. rewrite Forall_forall in Hv. by apply Hv.
Qed.

Lemma Forall_sort_by {A} (P : A → Prop) (f : A → Z) l : Forall P l → Forall P (sort_by f l).
Proof. rewrite !Forall_forall. intros HP x. rewrite elem_of_sort_by. auto. Qed.

(** The experiment rows come in the candidates' own order ... *)
Lemma collapse_candidates t username d :
  wf_db d → t ≠ Workspaces →
  ∃ m, _collapse_group_permissions (sort_by p_owner (join_user_groups p_owner (t_group (perms d t)) username d)) = Ok m ∧
    ∀ k, m !! k = to_option (p_permission <$> GroupPermissions.strongest (GroupPermissions.user_candidates t k username d)).
Proof.
  intros Hwf Ht. destruct (collapse_spec _ (Forall_sort_by _ p_owner _ (valid_join_user_groups t username d Hwf Ht))) as (m&Hm&Hk).
  exists m. split; [done|]. intros k. by rewrite Hk filter_sort_by_comm.
Qed.

(** ... and the model rows in table order, which makes no difference. *)
Lemma collapse_table_order t u d :
  wf_db d → u ∈ users d → t ≠ Workspaces →
  ∃ m, _collapse_group_permissions
      (filter (λ r, p_owner r ∈ m_group_id <$> filter (λ m, m_user_id m = u_id u) (user_groups d)) (t_group (perms d t))) = Ok m ∧
    ∀ k, m !! k = to_option (p_permission <$> GroupPermissions.strongest (GroupPermissions.user_candidates t k (u_username u) d)).
Proof.
  intros Hwf Hu Ht. pose proof (rows_valid_group t d Hwf Ht) as Hv.
  destruct (collapse_spec _ (Forall_filter valid_row (λ r, p_owner r ∈ m_group_id <$> filter (λ m, m_user_id m = u_id u) (user_groups d)) _ Hv)) as (m&Hm&Hk).
  exists m. split; [done|]. intros k. rewrite Hk. f_equal. symmetry.
  apply strongest_order_irrelevant; [by apply valid_user_candidates|]. intros r.
  rewrite elem_of_user_candidates /group_grant !list_elem_of_filter list_elem_of_fmap. split.
  - intros (Hr&Hkey&ug&v&Hug&Hv'&Hg&Hid&Hn). assert (v = u) as -> by (by apply (user_unique_name d)).
    split_and!; [done| |done]. exists ug. split; [done|]. by apply list_elem_of_filter.
  - intros (Hkey&(ug&Ho&[Hid Hug]%list_elem_of_filter)&Hr). split_and!; [done..|]. by exists ug, u.
Qed.

Lemma build_context_run u d :
  wf_db d → u ∈ users d → ∃ ctx, build_user_permission_context (u_username u) d = (Ok ctx, d) ∧ context_of u d ctx.
Proof.
  intros Hwf Hu.
  destruct (collapse_candidates Experiments (u_username u) d Hwf) as (ge&Hge&Hgek); [done|].
  destruct (collapse_table_order RegisteredModels u d Hwf Hu) as (gm&Hgm&Hgmk); [done|].
  unfold build_user_permission_context, GroupRepository.list_group_ids_for_user, UserPermissions.list_permissions_for_user,
    GroupPermissions.list_permissions_for_user_groups, RegexPermissions.list_regex_for_user, GroupPermissions.list_for_user,
    ModelRegexPermissions.list_regex_for_user, list_user_groups.
  autorewrite with run. rewrite Hge. autorewrite with run. rewrite if_groups_ids. autorewrite with run.
  rewrite (get_user_found d u Hwf Hu). autorewrite with run. rewrite Hgm. autorewrite with run.
  rewrite (get_user_found d u Hwf Hu). autorewrite with run. rewrite if_groups_model_ids. autorewrite with run.
  rewrite (get_user_found d u Hwf Hu). autorewrite with run. rewrite if_groups_model_ids. autorewrite with run.
  eexists. split; [done|]. by constructor.
Qed.

(** ** Resolution against the context *)

(** The memo repeats what the database says. *)
Definition memo_ok (username : string) (s : world * memo) : Prop :=
  coherent s.1 ∧ ∀ ws p, s.2 !! ws = Some p → (_lookup_workspace_permission username ws (w_db s.1)).1 = Ok p.

Lemma memo_ok_empty username w : coherent w → memo_ok username (w, ∅).
Proof. intros Hco. split; [done|]. intros ws p. cbn. by rewrite lookup_empty. Qed.

Lemma apply_workspace_batch_spec ws u s r :
  memo_ok u s → (MLFLOW_ENABLE_WORKSPACES = true → ∀ w, ws = Some w → colon_free w = true) →
  ∃ s', _apply_workspace_fallback_batch ws r u s = (apply_workspace ws u (w_db s.1) r, s') ∧ memo_ok u s' ∧ w_db s'.1 = w_db s.1.
Proof.
  intros Hok Hsep. unfold _apply_workspace_fallback_batch, apply_workspace.
  case_decide; [by exists s|]. destruct MLFLOW_ENABLE_WORKSPACES eqn:E; [|by exists s]. cbn [negb].
  destruct ws as [[|c ws]|]; [by exists s| |by exists s]. specialize (Hsep eq_refl _ eq_refl).
  autorewrite with run. destruct (s.2 !! String c ws) as [p|] eqn:Em.
  { exists s. rewrite (proj2 Hok _ _ Em). by destruct p. }
  destruct Hok as [Hco Hmemo].
  destruct (get_workspace_permission_cached_spec u (String c ws) s.1 Hco E Hsep) as (w'&Hrun&Hco'&Hd).
  unfold on_world. autorewrite with run. rewrite Hrun.
  destruct (_lookup_workspace_permission u (String c ws) (w_db s.1)).1 as [p|e] eqn:El; autorewrite with run.
  - eexists. split; [by destruct p|]. split; [|exact Hd]. split; [exact Hco'|]. intros ws' p'. cbn. rewrite Hd lookup_insert.
    case_decide as Heq; [|apply Hmemo]. subst. by intros [= ->].
  - exists (w', s.2). split; [done|]. split; [|exact Hd]. split; [exact Hco'|]. intros ws' p'. cbn. rewrite Hd. apply Hmemo.
Qed.

Lemma record_if_fallback_spec r rt id u s :
  memo_ok u s →
  ∃ s', on_world (_record_if_fallback r rt id u) s = (Ok r, s') ∧ memo_ok u s' ∧ w_db s'.1 = w_db s.1.
Proof.
  intros [Hco Hmemo]. unfold on_world, _record_if_fallback. rewrite M_bind_run. case_decide; autorewrite with run.
  - destruct (record_fallback_coherent rt id u (permission r) s.1 Hco) as (w'&->&Hco'&Hd). autorewrite with run.
    exists (w', s.2). split; [done|]. split; [|done]. split; [done|]. intros ws p Hp. cbn. rewrite Hd. by apply Hmemo.
  - exists s. by destruct s.
Qed.

(** What the per-resource path decides from one source list. *)
Definition decided (ws : option string) (u : string) (config : gmap string (M db string)) (d : db) : outcome PermissionResult :=
  result ← (get_permission_from_store_or_default config d).1;
  apply_workspace ws u d result.

Lemma resolve_from_context_spec ws ctx u rt id us gs rs grs ou og lr lgr or ogr nm s :
  ctx_username ctx = u → memo_ok u s →
  (MLFLOW_ENABLE_WORKSPACES = true → ∀ w, ws = Some w → colon_free w = true) →
  sources_read (sources us gs rs grs) →
  answers (w_db s.1) us ou → answers (w_db s.1) gs og →
  _find_regex_permission lr nm = Ok or → answers (w_db s.1) rs or →
  _find_regex_permission lgr nm = Ok ogr → answers (w_db s.1) grs ogr →
  ∃ s', resolve_from_context ws ctx rt id ou og lr lgr nm s = (decided ws u (sources us gs rs grs) (w_db s.1), s') ∧
    memo_ok u s' ∧ w_db s'.1 = w_db s.1.
Proof.
  intros Hu Hok Hsep Hc Hau Hag Hfr Har Hfg Hagr. unfold resolve_from_context, decided.
  rewrite (from_context_agrees us gs rs grs ou og or ogr _ Hc) //.
  autorewrite with run. rewrite Hfr. autorewrite with run. rewrite Hfg. autorewrite with run.
  destruct (_resolve_permission_from_context _ _ _ _ _) as [r|e]; [|by exists s].
  destruct (record_if_fallback_spec r rt id u s Hok) as (s1&Hrun1&Hok1&Hd1).
  rewrite Hu M_bind_run Hrun1.
  destruct (apply_workspace_batch_spec ws u s1 r Hok1 Hsep) as (s2&->&Hok2&Hd2).
  exists s2. rewrite Hd1. split; [done|]. split; [done|]. by rewrite Hd2.
Qed.

(** *** Every request is decided *)

Lemma apply_workspace_total ws u d r : ∃ r', apply_workspace ws u d r = Ok r'.
Proof.
  unfold apply_workspace. case_decide; [by eauto|]. destruct (negb _); [by eauto|]. destruct ws as [[|c ws]|]; [by eauto| |by eauto].
  destruct (lookup_workspace_total u (String c ws) d) as [o ->]. cbn. eauto.
Qed.

Lemma from_context_total smap order :
  (∀ s n, mjoin (smap !! s) = Some n → valid_permission n) → valid_permission DEFAULT_MLFLOW_PERMISSION →
  ∃ r, from_context smap order = Ok r.
Proof.
  intros Hs Hd. induction order as [|s order IH]; cbn.
  - destruct (get_permission_valid _ Hd) as (p&->&_). cbn. eauto.
  - destruct (mjoin (smap !! s)) as [n|] eqn:E; [|done]. destruct (get_permission_valid _ (Hs _ _ E)) as (p&->&_). cbn. eauto.
Qed.

Definition names_valid (o : option string) : Prop := ∀ n, o = Some n → valid_permission n.

Lemma decided_total ws u us gs rs grs ou og or ogr d :
  sources_read (sources us gs rs grs) → valid_permission DEFAULT_MLFLOW_PERMISSION →
  answers d us ou → answers d gs og → answers d rs or → answers d grs ogr →
  names_valid ou → names_valid og → names_valid or → names_valid ogr →
  ∃ r, decided ws u (sources us gs rs grs) d = Ok r.
Proof.
  intros Hc Hdef A1 A2 A3 A4 V1 V2 V3 V4. unfold decided. rewrite (from_context_agrees us gs rs grs ou og or ogr) //.
  destruct (from_context_total (source_map ou og or ogr) PERMISSION_SOURCE_ORDER) as [r Hr]; [|done|].
  - intros s n. rewrite source_map_lookup. repeat case_decide; [apply V1|apply V2|apply V3|apply V4|done].
  - unfold _resolve_permission_from_context. rewrite Hr. apply apply_workspace_total.
Qed.

Lemma user_dict_valid t u d k :
  wf_db d → u ∈ users d → t ≠ Workspaces → names_valid (permission_dict (join_user p_owner (t_user (perms d t)) (u_username u) d) !! k).
Proof.
  intros Hwf Hu Ht n. unfold permission_dict. rewrite permission_dict_from join_user_found // lookup_empty.
  destruct (last _) as [r|] eqn:El; [|done]. intros [= <-]. apply last_Some in El as [l' El].
  assert (r ∈ filter (λ r, p_key r = k) (filter (λ r, p_owner r = u_id u) (t_user (perms d t)))) as Hin by (rewrite El; set_solver).
  apply list_elem_of_filter in Hin as [_ [_ Hin]%list_elem_of_filter].
  pose proof (wf_user_valid _ _ _ (wf_perms _ Hwf t) Ht) as Hv. rewrite Forall_forall in Hv. by apply Hv.
Qed.

Lemma group_option_valid t k username d :
  wf_db d → t ≠ Workspaces →
  names_valid (to_option (p_permission <$> GroupPermissions.strongest (GroupPermissions.user_candidates t k username d))).
Proof.
  intros Hwf Ht n. pose proof (valid_user_candidates t d k username Hwf Ht) as Hv.
  destruct (GroupPermissions.user_candidates t k username d) as [|x l]; [done|].
  destruct (strongest_max (x :: l) Hv) as (r&->&Hr&_); [done|]. intros [= <-]. rewrite Forall_forall in Hv. by apply Hv.
Qed.

Lemma regex_option_valid (l full : list regex_row) o :
  (∀ n, o = Some n → ∃ r, r ∈ l ∧ r_permission r = n) → (∀ r, r ∈ l → r ∈ full) →
  Forall (λ r, valid_permission (r_permission r)) full → names_valid o.
Proof. intros Ho Hsub Hv n (r&Hr&<-)%Ho. rewrite Forall_forall in Hv. by apply Hv, Hsub. Qed.

(** *** Experiments *)

Definition regexes_compile (d : db) (t : table) : Prop := compiling (t_regex (perms d t)) ∧ compiling (t_group_regex (perms d t)).

Lemma compiling_sub (l l' : list regex_row) : (∀ r, r ∈ l' → r ∈ l) → compiling l → compiling l'.
Proof. unfold compiling. rewrite !Forall_forall. auto. Qed.

(** The lists the sources read are parts of the tables. *)
Lemma group_rows_sub t ids d r : r ∈ group_rows_by_id t ids d → r ∈ t_group_regex (perms d t).
Proof. by intros [_ ?]%elem_of_sort_by%list_elem_of_filter. Qed.
Lemma ids_filter_sub ids prompt d r :
  r ∈ ModelGroupRegexPermissions.ids_filter ids prompt d → r ∈ t_group_regex (perms d RegisteredModels).
Proof. by intros [_ ?]%elem_of_sort_by%list_elem_of_filter. Qed.
Lemma model_regexes_sub u prompt d r : r ∈ model_regexes_of u prompt d → r ∈ t_regex (perms d RegisteredModels).
Proof. by intros [_ ?]%elem_of_sort_by%list_elem_of_filter. Qed.

Lemma join_user_sub t username d r :
  r ∈ sort_by r_priority (join_user r_owner (t_regex (perms d t)) username d) → r ∈ t_regex (perms d t).
Proof.
  intros (r'&(u&Hin&_)%list_elem_of_bind&Hr')%elem_of_sort_by%list_elem_of_bind. case_decide; set_solver.
Qed.

Lemma get_experiment_regex_named id nm l :
  get_experiment_name id = Ok nm → _get_experiment_permission_from_regex l id = _match_regex_permission l nm.
Proof. intros Hn. unfold _get_experiment_permission_from_regex. by rewrite Hn. Qed.

Lemma resolve_experiment_spec ws ctx u id nm s :
  wf_db (w_db s.1) → u ∈ users (w_db s.1) → context_of u (w_db s.1) ctx → memo_ok (u_username u) s →
  separable ws EXPERIMENT (u_username u) → regexes_compile (w_db s.1) Experiments → get_experiment_name id = Ok nm →
  ∃ s', resolve_experiment_permission_from_context ws ctx id (Some nm) s =
      (decision ws EXPERIMENT id (u_username u) None (w_db s.1), s') ∧ memo_ok (u_username u) s' ∧ w_db s'.1 = w_db s.1 ∧
    (valid_permission DEFAULT_MLFLOW_PERMISSION → ∃ r, decision ws EXPERIMENT id (u_username u) None (w_db s.1) = Ok r).
Proof.
  intros Hwf Hu Hctx Hok Hsep [Hcu Hcg] Hnm. unfold resolve_experiment_permission_from_context. autorewrite with run.
  rewrite (of_exp_regex _ _ _ Hctx) (of_group_exp_regex _ _ _ Hctx).
  destruct (find_regex_answers (RegexPermissions.list_regex_for_user Experiments (u_username u))
    (λ l, _get_experiment_permission_from_regex l id) _ nm (w_db s.1) (compiling_sub _ _ (join_user_sub Experiments (u_username u) _) Hcu) eq_refl)
    as (o1&Hf1&Ha1&Hv1); [by intros; apply get_experiment_regex_named|].
  destruct (find_regex_answers (group_regexes Experiments (u_username u))
    (λ l, _get_experiment_permission_from_regex l id) _ nm (w_db s.1) (compiling_sub _ _ (group_rows_sub Experiments (ids_of (u_username u) (w_db s.1)) _) Hcg) eq_refl)
    as (o2&Hf2&Ha2&Hv2); [by intros; apply get_experiment_regex_named|].
  set (d := w_db s.1) in *. pose proof (user_source_answers Experiments (Key id) u d Hwf Hu) as Ha3.
  pose proof (group_source_answers Experiments (Key id) (u_username u) d _ Hwf ltac:(done) eq_refl) as Ha4.
  pose proof (build_sources_read EXPERIMENT id (u_username u) None _ eq_refl) as Hread.
  change (decision ws EXPERIMENT id (u_username u) None d) with (decided ws (u_username u) (_build_experiment_sources id (u_username u)) d).
  destruct (resolve_from_context_spec ws ctx (u_username u) EXPERIMENT id _ _ _ _ _ _ _ _ _ _ nm s (of_username _ _ _ Hctx) Hok
    (proj2 (proj2 Hsep)) Hread Ha3 Ha4 Hf1 Ha1 Hf2 Ha2) as (s'&Hrun&Hok'&Hd').
  rewrite (of_user_exp _ _ _ Hctx) (of_group_exp _ _ _ Hctx). exists s'. split_and!; [exact Hrun|done|done|]. intros Hdef.
  eapply decided_total; [exact Hread|exact Hdef|exact Ha3|exact Ha4|exact Ha1|exact Ha2|by apply user_dict_valid|by apply group_option_valid|..].
  - exact (regex_option_valid _ _ _ Hv1 (join_user_sub Experiments (u_username u) d) (wf_regex_valid _ _ _ (wf_perms _ Hwf _))).
  - exact (regex_option_valid _ _ _ Hv2 (group_rows_sub Experiments _ d) (wf_group_regex_valid _ _ _ (wf_perms _ Hwf _))).
Qed.

(** *** Models and prompts *)

Lemma model_list_run u prompt d :
  wf_db d → u ∈ users d → ModelRegexPermissions.list_regex_for_user (u_username u) prompt d = (Ok (model_regexes_of u prompt d), d).
Proof.
  intros Hwf Hu. unfold ModelRegexPermissions.list_regex_for_user. autorewrite with run. by rewrite get_user_found.
Qed.

Lemma resolve_model_like_spec ws ctx u rt nm prompt s :
  wf_db (w_db s.1) → u ∈ users (w_db s.1) → context_of u (w_db s.1) ctx → memo_ok (u_username u) s →
  separable ws rt (u_username u) → regexes_compile (w_db s.1) RegisteredModels →
  ∃ s', resolve_from_context ws ctx rt nm (user_model_permissions ctx !! Key nm) (group_model_permissions ctx !! Key nm)
      (model_regexes_of u prompt (w_db s.1)) (ModelGroupRegexPermissions.ids_filter (ids_of (u_username u) (w_db s.1)) prompt (w_db s.1)) nm s =
      (decided ws (u_username u) ((if prompt then _build_prompt_sources else _build_registered_model_sources) nm (u_username u)) (w_db s.1), s') ∧
    memo_ok (u_username u) s' ∧ w_db s'.1 = w_db s.1 ∧
    (valid_permission DEFAULT_MLFLOW_PERMISSION →
     ∃ r, decided ws (u_username u) ((if prompt then _build_prompt_sources else _build_registered_model_sources) nm (u_username u)) (w_db s.1) = Ok r).
Proof.
  intros Hwf Hu Hctx Hok Hsep [Hcu Hcg].
  destruct (find_regex_answers (ModelRegexPermissions.list_regex_for_user (u_username u) prompt)
    (λ l, _match_regex_permission l nm) _ nm (w_db s.1) (compiling_sub _ _ (model_regexes_sub u prompt _) Hcu) (model_list_run u prompt _ Hwf Hu))
    as (o1&Hf1&Ha1&Hv1); [done|].
  destruct (find_regex_answers (model_group_regexes prompt (u_username u))
    (λ l, _match_regex_permission l nm) _ nm (w_db s.1) (compiling_sub _ _ (ids_filter_sub (ids_of (u_username u) (w_db s.1)) prompt _) Hcg) eq_refl)
    as (o2&Hf2&Ha2&Hv2); [done|].
  set (d := w_db s.1) in *. pose proof (user_source_answers RegisteredModels (Key nm) u d Hwf Hu) as Ha3.
  pose proof (group_source_answers RegisteredModels (Key nm) (u_username u) d _ Hwf ltac:(done) eq_refl) as Ha4.
  rewrite (of_user_model _ _ _ Hctx) (of_group_model _ _ _ Hctx).
  assert (sources_read (sources (user_permission RegisteredModels (Key nm) (u_username u)) (group_permission RegisteredModels (Key nm) (u_username u))
    (regexes ← ModelRegexPermissions.list_regex_for_user (u_username u) prompt; lift (_match_regex_permission regexes nm))
    (regexes ← model_group_regexes prompt (u_username u); lift (_match_regex_permission regexes nm)))) as Hread by (apply sources_read_only; reads).
  assert ((if prompt then _build_prompt_sources else _build_registered_model_sources) nm (u_username u) =
    sources (user_permission RegisteredModels (Key nm) (u_username u)) (group_permission RegisteredModels (Key nm) (u_username u))
    (regexes ← ModelRegexPermissions.list_regex_for_user (u_username u) prompt; lift (_match_regex_permission regexes nm))
    (regexes ← model_group_regexes prompt (u_username u); lift (_match_regex_permission regexes nm))) as -> by (by destruct prompt).
  destruct (resolve_from_context_spec ws ctx (u_username u) rt nm _ _ _ _ _ _ _ _ _ _ nm s (of_username _ _ _ Hctx) Hok
    (proj2 (proj2 Hsep)) Hread Ha3 Ha4 Hf1 Ha1 Hf2 Ha2) as (s'&Hrun&Hok'&Hd').
  exists s'. split_and!; [exact Hrun|done|done|]. intros Hdef.
  eapply decided_total; [exact Hread|exact Hdef|exact Ha3|exact Ha4|exact Ha1|exact Ha2|by apply user_dict_valid|by apply group_option_valid|..].
  - exact (regex_option_valid _ _ _ Hv1 (model_regexes_sub u prompt d) (wf_regex_valid _ _ _ (wf_perms _ Hwf _))).
  - exact (regex_option_valid _ _ _ Hv2 (ids_filter_sub _ prompt d) (wf_group_regex_valid _ _ _ (wf_perms _ Hwf _))).
Qed.

(** ** Whole listings *)

(** [D] gives the decision of each key. *)
Lemma comprehension_spec {A} (key : A → string) resolve (D : string → outcome PermissionResult) u d items acc s :
  (∀ item s, item ∈ items → memo_ok u s → w_db s.1 = d →
     ∃ s' r, resolve item s = (Ok r, s') ∧ D (key item) = Ok r ∧ memo_ok u s' ∧ w_db s'.1 = d) →
  memo_ok u s → w_db s.1 = d → (∀ k r, acc !! k = Some r → D k = Ok r) →
  ∃ m s', dict_comprehension key resolve acc items s = (Ok m, s') ∧ memo_ok u s' ∧ w_db s'.1 = d ∧
    (∀ k r, m !! k = Some r → D k = Ok r) ∧ ∀ k, is_Some (m !! k) ↔ is_Some (acc !! k) ∨ k ∈ key <$> items.
Proof.
  revert acc s. induction items as [|item items IH]; intros acc s Hres Hok Hd Hacc.
  { exists acc, s. split_and!; try done. intros k. split; [by left|]. by intros [|?%not_elem_of_nil]. }
  destruct (Hres item s) as (s1&r&Hrun&HD&Hok1&Hd1); [by left|done|done|].
  cbn [dict_comprehension]. rewrite M_bind_run Hrun.
  destruct (IH (<[key item := r]> acc) s1) as (m&s2&Hrun2&Hok2&Hd2&Hm&Hdom); [|done|done| |].
  - intros. apply Hres; [by right|done|done].
  - intros k r'. rewrite lookup_insert. case_decide as Hk; [|apply Hacc]. by intros [= <-]; rewrite -Hk.
  - exists m, s2. split_and!; try done. intros k. rewrite Hdom fmap_cons elem_of_cons lookup_insert.
    case_decide as Hk; [subst; split; [by right; left|by left]|]. naive_solver.
Qed.

Definition manages (o : outcome PermissionResult) : bool :=
  match o with Ok r => can_manage (permission r) | Raise _ => false end.

Lemma keep_manageable_spec {A} (key : A → string) (D : string → outcome PermissionResult) m items :
  (∀ k r, m !! k = Some r → D k = Ok r) → (∀ item, item ∈ items → is_Some (m !! key item)) →
  keep_manageable key m items = Ok (filter (λ item, manages (D (key item)) = true) items).
Proof.
  intros Hm. induction items as [|item items IH]; intros Hdom; [done|]. cbn [keep_manageable].
  destruct (Hdom item ltac:(by left)) as [r Hr]. rewrite Hr. cbn [mbind outcome_bind]. rewrite IH; [|intros; apply Hdom; by right].
  cbn [mbind outcome_bind]. rewrite filter_cons.
  destruct (decide (manages (D (key item)) = true)) as [Hk|Hk]; rewrite (Hm _ _ Hr) /= in Hk; by destruct (can_manage (permission r)).
Qed.

(** A batch is the context and the comprehension. *)
Lemma batch_spec {A} (key : A → string) resolve (D : string → outcome PermissionResult) u items w :
  wf_db (w_db w) → u ∈ users (w_db w) → coherent w →
  (∀ ctx item s, context_of u (w_db w) ctx → item ∈ items → memo_ok (u_username u) s → w_db s.1 = w_db w →
     ∃ s' r, resolve ctx item s = (Ok r, s') ∧ D (key item) = Ok r ∧ memo_ok (u_username u) s' ∧ w_db s'.1 = w_db w) →
  ∃ m w', batch (u_username u) key resolve items w = (Ok m, w') ∧ coherent w' ∧ w_db w' = w_db w ∧
    (∀ k r, m !! k = Some r → D k = Ok r) ∧ ∀ k, is_Some (m !! k) ↔ k ∈ key <$> items.
Proof.
  intros Hwf Hu Hco Hres. destruct (build_context_run u (w_db w) Hwf Hu) as (ctx&Hrun&Hctx).
  unfold batch. rewrite M_bind_run. unfold on_store. rewrite Hrun set_db_id. unfold with_fresh_memo.
  destruct (comprehension_spec key (resolve ctx) D (u_username u) (w_db w) items ∅ (w, ∅)) as (m&s'&->&[Hco' _]&Hd&Hm&Hdom).
  - intros. by apply Hres.
  - by apply memo_ok_empty.
  - done.
  - intros k r. by rewrite lookup_empty.
  - exists m, s'.1. split_and!; try done. intros k. rewrite Hdom lookup_empty. split; [by intros [[]|]|by right].
Qed.

(** The decision on each experiment of a listing. *)
Lemma batch_experiments_spec ws u exps w :
  wf_db (w_db w) → u ∈ users (w_db w) → coherent w → separable ws EXPERIMENT (u_username u) →
  regexes_compile (w_db w) Experiments → valid_permission DEFAULT_MLFLOW_PERMISSION →
  (∀ e, e ∈ exps → get_experiment_name (exp_id e) = Ok (exp_name e)) →
  ∃ m w', batch_resolve_experiment_permissions ws (u_username u) exps w = (Ok m, w') ∧ coherent w' ∧ w_db w' = w_db w ∧
    (∀ id r, m !! id = Some r → decision ws EXPERIMENT id (u_username u) None (w_db w) = Ok r) ∧
    ∀ id, is_Some (m !! id) ↔ id ∈ exp_id <$> exps.
Proof.
  intros Hwf Hu Hco Hsep Hre Hdef Hnames.
  apply (batch_spec exp_id _ (λ id, decision ws EXPERIMENT id (u_username u) None (w_db w))); [done..|].
  intros ctx e s Hctx He Hok Hd. rewrite -Hd in Hwf Hu Hctx Hre.
  destruct (resolve_experiment_spec ws ctx u (exp_id e) (exp_name e) s Hwf Hu Hctx Hok Hsep Hre (Hnames e He)) as (s'&Hrun&Hok'&Hd'&Htot).
  destruct (Htot Hdef) as [r Hr]. exists s', r. rewrite Hrun Hr -Hd. split_and!; try done.
Qed.

Lemma decision_model_like ws u nm (prompt : bool) d :
  decision ws (if prompt then PROMPT else REGISTERED_MODEL) nm u None d =
    decided ws u ((if prompt then _build_prompt_sources else _build_registered_model_sources) nm u) d.
Proof. by destruct prompt. Qed.

(** C30: Filtering a listing of experiments keeps, in order, exactly those for
    which the single-resource decision grants manage, although the data of the
    user is read only once and the workspace permission is memoised; the
    database is not written and the caches stay coherent. *)
Theorem manageable_experiments_are_those_decided_manageable ws u exps w :
  wf_db (w_db w) → u ∈ users (w_db w) → coherent w → separable ws EXPERIMENT (u_username u) →
  regexes_compile (w_db w) Experiments → valid_permission DEFAULT_MLFLOW_PERMISSION →
  (∀ e, e ∈ exps → get_experiment_name (exp_id e) = Ok (exp_name e)) →
  ∃ w', filter_manageable_experiments ws (u_username u) exps w =
      (Ok (filter (λ e, manages (decision ws EXPERIMENT (exp_id e) (u_username u) None (w_db w)) = true) exps), w') ∧
    coherent w' ∧ w_db w' = w_db w.
Proof.
  intros Hwf Hu Hco Hsep Hre Hdef Hnames.
  destruct (batch_experiments_spec ws u exps w Hwf Hu Hco Hsep Hre Hdef Hnames) as (m&w'&Hrun&Hco'&Hd&Hm&Hdom).
  exists w'. split; [|done]. unfold filter_manageable_experiments. rewrite M_bind_run Hrun. autorewrite with run.
  rewrite (keep_manageable_spec exp_id _ m exps Hm); [done|]. intros e He. apply Hdom. by apply list_elem_of_fmap_2.
Qed.

(** A batch over registered models or prompts returns, for exactly the
    names given, the permission and the source that the single-resource
    resolution decides for each. *)
Theorem batch_models_resolve_as_one_by_one ws (prompt : bool) u names w :
  wf_db (w_db w) → u ∈ users (w_db w) → coherent w → separable ws (if prompt then PROMPT else REGISTERED_MODEL) (u_username u) →
  regexes_compile (w_db w) RegisteredModels → valid_permission DEFAULT_MLFLOW_PERMISSION →
  ∃ m w', (if prompt then batch_resolve_prompt_permissions else batch_resolve_model_permissions) ws (u_username u) names w = (Ok m, w') ∧
    coherent w' ∧ w_db w' = w_db w ∧
    (∀ nm r, m !! nm = Some r → decision ws (if prompt then PROMPT else REGISTERED_MODEL) nm (u_username u) None (w_db w) = Ok r) ∧
    ∀ nm, is_Some (m !! nm) ↔ nm ∈ names.
Proof.
  intros Hwf Hu Hco Hsep Hre Hdef.
  assert (∀ ctx nm s, context_of u (w_db w) ctx → nm ∈ names → memo_ok (u_username u) s → w_db s.1 = w_db w →
    ∃ s' r, (if prompt then resolve_prompt_permission_from_context else resolve_model_permission_from_context) ws ctx nm s = (Ok r, s') ∧
      decision ws (if prompt then PROMPT else REGISTERED_MODEL) nm (u_username u) None (w_db w) = Ok r ∧
      memo_ok (u_username u) s' ∧ w_db s'.1 = w_db w) as Hone.
  { intros ctx nm s Hctx _ Hok Hd. rewrite -Hd in Hwf Hu Hctx Hre.
    destruct (resolve_model_like_spec ws ctx u (if prompt then PROMPT else REGISTERED_MODEL) nm prompt s Hwf Hu Hctx Hok Hsep Hre)
      as (s'&Hrun&Hok'&Hd'&Htot).
    destruct (Htot Hdef) as [r Hr]. exists s', r. rewrite -Hd decision_model_like -Hr -Hrun. split_and!; try done.
    destruct prompt; [unfold resolve_prompt_permission_from_context|unfold resolve_model_permission_from_context].
    - by rewrite (of_prompt_regex _ _ _ Hctx) (of_group_prompt_regex _ _ _ Hctx).
    - by rewrite (of_model_regex _ _ _ Hctx) (of_group_model_regex _ _ _ Hctx). }
  unfold batch_resolve_prompt_permissions, batch_resolve_model_permissions.
  destruct (batch_spec id (λ ctx nm, (if prompt then resolve_prompt_permission_from_context else resolve_model_permission_from_context) ws ctx nm)
    (λ nm, decision ws (if prompt then PROMPT else REGISTERED_MODEL) nm (u_username u) None (w_db w)) u names w Hwf Hu Hco Hone)
    as (m&w'&Hrun&Hco'&Hd&Hm&Hdom).
  exists m, w'. rewrite list_fmap_id in Hdom. split_and!; try done. by destruct prompt.
Qed.
End batch.
