(* ===== verification/Sessions.v ===== *)
(** * Server-side sessions, in-flight logins and external identities
    ([mlflow_oidc_auth/repository/auth_session.py], [auth_state.py],
    [user_identity.py])

    Random tokens are arguments: [token] is what [secrets.token_urlsafe] drew. *)
From S2P Require Import Prelude PyStrings Permissions Regex RegexSafety Database Repositories RepositoryFacts RepositoryInvariant Users.

(** ** Sessions *)

Record ResolvedSession := MkResolved {
  rs_username : string;
  rs_is_admin : bool;
  rs_is_active : bool;
  rs_expires_at : Z;
}.

Module AuthSessionRepository.
Section repo.
Context `{SqlBackend}.

Definition find_user (username : string) : M db (option user_row) :=
  ask (λ d, query_one_or_none (filter (λ u, u_username u = username) (users d))).

(** [session.add(...); session.flush()] *)
Definition add_session (s : auth_session_row) : M db unit := λ d,
  match flush_unique s_session_id (auth_sessions d ++ [s]) with
  | Ok rows => (Ok tt, set_auth_sessions (λ _, rows) d)
  | Raise e => (Raise e, d)
  end.

Definition create (token username : string) (expires_at : Z) (provider_id : option string) : M db string :=
  let username := normalize_username username in
  let session_id := token in
  managed (
    user ← find_user username;
    match user with
    | None => raise (MlflowException RESOURCE_DOES_NOT_EXIST)
    | Some u =>
        _ ← add_session (AuthSessionRow session_id (u_id u) provider_id expires_at None);
        mret session_id
    end).

(** The joined, filtered rows of [resolve]. *)
Definition resolvable (now : Z) (session_id : string) (d : db) : list (user_row * auth_session_row) :=
  u ← users d;
  s ← auth_sessions d;
  if decide (s_user_id s = u_id u ∧ s_session_id s = session_id ∧ s_revoked_at s = None ∧ now < s_expires_at s)
  then [(u, s)] else [].

Definition resolve (now : Z) (session_id : string) : M db (option ResolvedSession) :=
  if decide (session_id = "") then mret None
  else managed (
    row ← ask (λ d, query_one_or_none (resolvable now session_id d));
    mret ((λ '(u, s), MkResolved (u_username u) (u_is_admin u) (u_active u) (s_expires_at s)) <$> row)).

(** The bulk update; the number of rows it changed. *)
Definition revoke_rows (now : Z) (P : auth_session_row → Prop) `{∀ s, Decision (P s)} : M db Z :=
  updated ← gets (λ d, Z.of_nat (length (filter (λ s, P s ∧ s_revoked_at s = None) (auth_sessions d))));
  _ ← modify (set_auth_sessions (UserRepository.revoke_where now P));
  mret updated.

Definition revoke (now : Z) (session_id : string) : M db bool :=
  managed (
    updated ← revoke_rows now (λ s, s_session_id s = session_id);
    mret (bool_decide (updated ≠ 0))).

Definition revoke_all_for_user (now : Z) (username : string) : M db Z :=
  let username := normalize_username username in
  managed (
    user ← find_user username;
    match user with
    | None => mret 0
    | Some u => revoke_rows now (λ s, s_user_id s = u_id u)
    end).

Definition list_live_for_user (now : Z) (username : string) : M db (list string) :=
  let username := normalize_username username in
  managed (gets (λ d,
    s_session_id <$> filter (λ s, s_revoked_at s = None ∧ now < s_expires_at s) (join_user s_user_id (auth_sessions d) username d))).

(** [cutoff] is [before], or the clock when it is not given. *)
Definition delete_expired (now : Z) (before : option Z) : M db Z :=
  let cutoff := default now before in
  managed (
    gone ← gets (λ d, Z.of_nat (length (filter (λ s, s_expires_at s ≤ cutoff) (auth_sessions d))));
    _ ← modify (set_auth_sessions (filter (λ s, ¬ s_expires_at s ≤ cutoff)));
    mret gone).
End repo.
End AuthSessionRepository.

(** ** In-flight logins *)

Record AuthAttempt := MkAttempt {
  at_state : string;
  at_provider_id : string;
  at_redirect_after_login : option string;
}.

#[export] Instance AuthAttempt_eq_dec : EqDecision AuthAttempt.
Proof. solve_decision. Defined.

Module AuthStateRepository.
Section repo.
Context `{SqlBackend}.

Definition add_state (row : auth_state_row) : M db unit := λ d,
  match flush_unique st_state (auth_states d ++ [row]) with
  | Ok rows => (Ok tt, set_auth_states (λ _, rows) d)
  | Raise e => (Raise e, d)
  end.

Definition create (now : Z) (token provider_id : string) (redirect_after_login : option string) (lifetime_seconds : Z) : M db string :=
  let state := token in
  managed (
    _ ← add_state (AuthStateRow state (Some provider_id) redirect_after_login (now + lifetime_seconds));
    mret state).

(** The first statement of [consume]: read the row, and judge its expiry. *)
Definition consume_read (now : Z) (state : string) : M db (option (AuthAttempt * bool)) :=
  row ← ask (λ d, query_one_or_none (filter (λ r, st_state r = state) (auth_states d)));
  mret ((λ r, (MkAttempt (st_state r) (or_default (st_provider_id r) "") (st_relay_state r),
               bool_decide (st_expires_at r ≤ now))) <$> row).

(** The second: the delete that claims the attempt, with its row count. *)
Definition consume_claim (state : string) : M db Z :=
  claimed ← gets (λ d, Z.of_nat (length (filter (λ r, st_state r = state) (auth_states d))));
  _ ← modify (set_auth_states (filter (λ r, st_state r ≠ state)));
  mret claimed.

Definition consume_result (attempt : AuthAttempt) (expired : bool) (claimed : Z) : option AuthAttempt :=
  if decide (claimed = 0) then None else if expired then None else Some attempt.

Definition consume (now : Z) (state : string) : M db (option AuthAttempt) :=
  if decide (state = "") then mret None
  else managed (
    row ← consume_read now state;
    match row with
    | None => mret None
    | Some (attempt, expired) =>
        claimed ← consume_claim state;
        mret (consume_result attempt expired claimed)
    end).

Definition delete_expired (now : Z) (before : option Z) : M db Z :=
  let cutoff := default now before in
  managed (
    gone ← gets (λ d, Z.of_nat (length (filter (λ r, st_expires_at r ≤ cutoff) (auth_states d))));
    _ ← modify (set_auth_states (filter (λ r, ¬ st_expires_at r ≤ cutoff)));
    mret gone).
End repo.
End AuthStateRepository.

(** ** External identities *)

Module UserIdentityRepository.
Section repo.
Context `{SqlBackend}.

Definition bound_usernames (provider_id subject : string) (d : db) : list string :=
  u ← users d;
  i ← user_identities d;
  if decide (i_user_id i = u_id u ∧ i_provider_id i = provider_id ∧ i_subject i = subject) then [u_username u] else [].

Definition get_username_by_identity (provider_id subject : string) : M db (option string) :=
  managed (ask (λ d, query_one_or_none (bound_usernames provider_id subject d))).

Definition list_providers_for_username (username : string) : M db (list string) :=
  let username := normalize_username username in
  managed (gets (λ d, i_provider_id <$> join_user i_user_id (user_identities d) username d)).

Definition identity_pk (i : identity_row) : string * string := (i_provider_id i, i_subject i).

Definition add_identity (i : identity_row) : M db unit := λ d,
  match flush_unique identity_pk (user_identities d ++ [i]) with
  | Ok rows => (Ok tt, set_identities (λ _, rows) d)
  | Raise e => (Raise e, d)
  end.

Definition link (provider_id subject username : string) (allow_additional_provider : bool) : M db bool :=
  let username := normalize_username username in
  managed (
    user ← AuthSessionRepository.find_user username;
    match user with
    | None => raise (MlflowException RESOURCE_DOES_NOT_EXIST)
    | Some user =>
        existing ← ask (λ d, query_one_or_none (filter (λ i, i_provider_id i = provider_id ∧ i_subject i = subject) (user_identities d)));
        match existing with
        | Some e =>
            if decide (i_user_id e ≠ u_id user) then raise (MlflowException RESOURCE_ALREADY_EXISTS) else mret false
        | None =>
            foreign ← gets (λ d, head (filter (λ i, i_user_id i = u_id user ∧ i_provider_id i ≠ provider_id) (user_identities d)));
            if negb allow_additional_provider && bool_decide (foreign ≠ None) then raise (MlflowException INVALID_STATE)
            else
              _ ← add_identity (IdentityRow provider_id subject (u_id user) None);
              mret true
        end
    end).

Definition touch_last_login (now : Z) (provider_id subject : string) : M db unit :=
  managed (
    identity ← ask (λ d, query_one_or_none (filter (λ i, i_provider_id i = provider_id ∧ i_subject i = subject) (user_identities d)));
    match identity with
    | None => mret tt
    | Some i => modify (set_identities (replace_row i (IdentityRow (i_provider_id i) (i_subject i) (i_user_id i) (Some now))))
    end).
End repo.
End UserIdentityRepository.
