(* ===== verification/SessionFacts.v ===== *)
(** * Sessions, logins and identities: single use, revocation, no takeover *)
From S2P Require Import Prelude PyStrings Ownership Permissions Regex RegexSafety Database Repositories RepositoryFacts RepositoryInvariant Users UserFacts Sessions.

Section find.
Context `{SqlBackend}.

Lemma find_user_found d u :
  wf_db d → u ∈ users d → AuthSessionRepository.find_user (u_username u) d = (Ok (Some u), d).
Proof. intros Hwf Hu. unfold AuthSessionRepository.find_user. by rewrite ask_run filter_username. Qed.

Lemma find_user_missing d username :
  (∀ u, u ∈ users d → u_username u ≠ username) → AuthSessionRepository.find_user username d = (Ok None, d).
Proof. intros Hno. unfold AuthSessionRepository.find_user. by rewrite ask_run filter_username_none. Qed.
End find.

(** ** Sessions *)

Section sessions.
Context `{SqlBackend}.
Import AuthSessionRepository.

Lemma session_unique d s s' :
  wf_db d → s ∈ auth_sessions d → s' ∈ auth_sessions d → s_session_id s = s_session_id s' → s = s'.
Proof.
  intros Hwf Hs Hs' Heq. pose proof (filter_unique s_session_id _ s' (wf_sessions _ Hwf) Hs') as Hf.
  assert (s ∈ filter (λ y, s_session_id y = s_session_id s') (auth_sessions d)) as Hin by (by apply list_elem_of_filter).
  rewrite Hf in Hin. by apply list_elem_of_singleton in Hin.
Qed.

Definition honoured (now : Z) (session_id : string) (d : db) (u : user_row) (s : auth_session_row) : Prop :=
  u ∈ users d ∧ s ∈ auth_sessions d ∧ s_user_id s = u_id u ∧ s_session_id s = session_id ∧
  s_revoked_at s = None ∧ now < s_expires_at s.

Lemma resolvable_cases now session_id d :
  wf_db d →
  (∃ u s, honoured now session_id d u s ∧ resolvable now session_id d = [(u, s)]) ∨
  ((∀ u s, ¬ honoured now session_id d u s) ∧ resolvable now session_id d = []).
Proof.
  intros Hwf. unfold resolvable.
  destruct (decide (session_id ∈ s_session_id <$> auth_sessions d)) as [Hin|Hnin].
  2:{ right. split; [intros u s (_&Hs&_&<-&_); by apply Hnin, list_elem_of_fmap_2|].
      induction (users d) as [|u us IH]; [done|]. rewrite bind_cons IH app_nil_r.
      apply (bind_if_false _ (λ s, (u, s))). intros s Hs (_&<-&_). by apply Hnin, list_elem_of_fmap_2. }
  apply list_elem_of_fmap in Hin as (s&->&Hs).
  pose proof (wf_session_fk _ Hwf) as Hfk. rewrite Forall_forall in Hfk. specialize (Hfk s Hs).
  apply list_elem_of_fmap in Hfk as (u&Hid&Hu).
  set (ok := s_revoked_at s = None ∧ now < s_expires_at s).
  assert (∀ v, (s' ← auth_sessions d; if decide (s_user_id s' = u_id v ∧ s_session_id s' = s_session_id s ∧ s_revoked_at s' = None ∧ now < s_expires_at s') then [(v, s')] else [])
    = if decide (u_id v = u_id u ∧ ok) then [(v, s)] else []) as Hinner.
  { intros v. rewrite (bind_if_unique _ s (λ s', (v, s'))).
    - apply decide_ext. unfold ok. rewrite Hid. naive_solver.
    - apply (NoDup_fmap_1 s_session_id), (wf_sessions _ Hwf).
    - intros s' Hs' (_&Heq&_). by apply (session_unique d). }
  rewrite (list_bind_ext _ _ _ _ Hinner eq_refl).
  rewrite (bind_if_unique _ u (λ v, (v, s))); [| |intros v Hv [Heq _]; by apply (user_unique_id d)].
  2:{ apply (NoDup_fmap_1 u_id), (wf_user_ids _ Hwf). }
  destruct (decide (u ∈ users d ∧ u_id u = u_id u ∧ ok)) as [(_&_&Hok)|Hno].
  - left. exists u, s. by destruct Hok.
  - right. split; [|done]. intros v s' (Hv&Hs'&Ho&Heq&Hr&He). destruct Hno.
    assert (s' = s) as -> by (by apply (session_unique d)). done.
Qed.

(** A session id resolves exactly when it is non-empty and names an
    unrevoked, unexpired session of an existing user, and the result carries
    that user's current name, administrator flag and active flag. *)
Theorem resolve_honours_exactly_live_sessions now session_id d :
  wf_db d →
  ∃ o, resolve now session_id d = (Ok o, d) ∧
    ∀ r, o = Some r ↔ session_id ≠ "" ∧ ∃ u s, honoured now session_id d u s ∧
      r = MkResolved (u_username u) (u_is_admin u) (u_active u) (s_expires_at s).
Proof.
  intros Hwf. unfold resolve. case_decide as He; [exists None; split; [done|naive_solver]|].
  autorewrite with run. destruct (resolvable_cases now session_id d Hwf) as [(u&s&Hh&->)|[Hno ->]]; eexists; (split; [done|]).
  - intros r. split; [intros [= <-]; eauto 10|]. intros (_&u'&s'&Hh'&->). cbn.
    destruct Hh as (Hu&Hs&Ho&Hsid&_), Hh' as (Hu'&Hs'&Ho'&Hsid'&_).
    assert (s' = s) as -> by (apply (session_unique d); congruence).
    assert (u' = u) as -> by (apply (user_unique_id d); congruence). done.
  - naive_solver.
Qed.
End sessions.

(** ** Revocation is permanent *)

Inductive session_op :=
  | CreateSession (token username : string) (expires_at : Z) (provider_id : option string)
  | RevokeSession (now : Z) (session_id : string)
  | RevokeAll (now : Z) (username : string)
  | DeleteExpired (now : Z) (before : option Z).

Inductive account_op :=
  | UserOp (op : user_op)
  | SessionOp (op : session_op).

Section histories.
Context `{SqlBackend, UserLibs}.
Import AuthSessionRepository.

Definition run_session_op (op : session_op) (d : db) : db :=
  match op with
  | CreateSession token username expires_at provider_id => (create token username expires_at provider_id d).2
  | RevokeSession now session_id => (revoke now session_id d).2
  | RevokeAll now username => (revoke_all_for_user now username d).2
  | DeleteExpired now before => (delete_expired now before d).2
  end.

Definition run_account_op (op : account_op) (w : audited) : audited :=
  match op with
  | UserOp op => run_user_op op w
  | SessionOp op => Audited (run_session_op op (a_db w)) (audit w)
  end.

Definition run_account_ops (ops : list account_op) (w : audited) : audited := foldl (λ w op, run_account_op op w) w ops.

(** The random token of a new session is not this session's id. *)
Definition never_draws (session_id : string) (op : account_op) : Prop :=
  match op with SessionOp (CreateSession token _ _ _) => token ≠ session_id | _ => True end.

(** No row of that id is live. *)
Definition dead (session_id : string) (d : db) : Prop :=
  Forall (λ s, s_session_id s = session_id → s_revoked_at s ≠ None) (auth_sessions d).

Lemma dead_revoke_where session_id now (P : auth_session_row → Prop) `{∀ s, Decision (P s)} d :
  dead session_id d → dead session_id (set_auth_sessions (UserRepository.revoke_where now P) d).
Proof.
  intros Hd. apply Forall_fmap. eapply Forall_impl; [exact Hd|]. intros s Hs. cbn. by case_decide.
Qed.

Lemma dead_filter session_id (P : auth_session_row → Prop) `{∀ s, Decision (P s)} d :
  dead session_id d → dead session_id (set_auth_sessions (filter P) d).
Proof. apply Forall_filter. Qed.

Lemma dead_user_op session_id op w : wf_db (a_db w) → dead session_id (a_db w) → dead session_id (a_db (run_user_op op w)).
Proof.
  intros Hwf Hd. destruct op as [salt username password dn adm sa|enforcement now salt username c|username]; cbn [run_user_op].
  - rewrite on_db_run create_run. destruct (_validate_username _); [|done]. cbv zeta. by case_decide.
  - destruct (username_cases (a_db w) (normalize_username username) Hwf) as [(u&Hu&Hn)|Hno]; [|by rewrite update_unknown].
    rewrite (update_run _ _ _ _ _ _ u) //. destruct (allowed _); [|done].
    destruct (if decide (guarded c) then _ else _) as [[]|e]; [|done]. cbn [a_db snd]. unfold updated_db.
    destruct (decide (upd_active c = Some false)); [|done].
    apply (dead_revoke_where session_id now (λ s, s_user_id s = u_id u) (a_db w) Hd).
  - destruct (username_cases (a_db w) (normalize_username username) Hwf) as [(u&Hu&Hn)|Hno]; [|by rewrite delete_unknown].
    rewrite (delete_run _ _ u) //. destruct (UserRepository._assert_not_last_active_admin _ _); [|done]. cbn [a_db snd].
    unfold dead. rewrite auth_sessions_without_user. by apply Forall_filter.
Qed.

Lemma wf_revoke_where now (P : auth_session_row → Prop) `{∀ s, Decision (P s)} d :
  wf_db d → wf_db (set_auth_sessions (UserRepository.revoke_where now P) d).
Proof.
  intros []. constructor; cbn; try done.
  - unfold UserRepository.revoke_where. rewrite -list_fmap_compose. erewrite list_fmap_ext; [exact wf_sessions|].
    intros i s _. cbn. by case_decide.
  - apply Forall_fmap. eapply Forall_impl; [exact wf_session_fk|]. intros s Hs. cbn. by case_decide.
Qed.

Lemma wf_filter_sessions (P : auth_session_row → Prop) `{∀ s, Decision (P s)} d :
  wf_db d → wf_db (set_auth_sessions (filter P) d).
Proof. intros []. constructor; cbn; try done; [by apply NoDup_fmap_filter|by apply Forall_filter]. Qed.

Lemma wf_add_session s d :
  wf_db d → s_user_id s ∈ user_ids d → NoDup (s_session_id <$> auth_sessions d ++ [s]) →
  wf_db (set_auth_sessions (λ _, auth_sessions d ++ [s]) d).
Proof. intros [] Hs Hnd. constructor; cbn; try done. apply Forall_app. split; [done|]. by constructor. Qed.

(** What each session operation does to the sessions table. *)
Lemma run_session_op_cases op d :
  wf_db d →
  run_session_op op d = d ∨
  (∃ now P (Pdec : ∀ s : auth_session_row, Decision (P s)), run_session_op op d = set_auth_sessions (UserRepository.revoke_where now P) d) ∨
  (∃ P (Pdec : ∀ s : auth_session_row, Decision (P s)), run_session_op op d = set_auth_sessions (filter P) d) ∨
  (∃ token username expires_at provider_id u, op = CreateSession token username expires_at provider_id ∧ u ∈ users d ∧
     let s := AuthSessionRow token (u_id u) provider_id expires_at None in
     NoDup (s_session_id <$> auth_sessions d ++ [s]) ∧ run_session_op op d = set_auth_sessions (λ _, auth_sessions d ++ [s]) d).
Proof.
  intros Hwf. destruct op as [token username expires_at provider_id|now session_id|now username|now before]; cbn [run_session_op].
  - unfold create. autorewrite with run.
    destruct (username_cases d (normalize_username username) Hwf) as [(u&Hu&<-)|Hno].
    + rewrite find_user_found //. autorewrite with run. unfold add_session, flush_unique.
      case_decide; [|by left]. right; right; right. by exists token, username, expires_at, provider_id, u.
    + rewrite find_user_missing //. by left.
  - right; left. by eexists now, _, _.
  - unfold revoke_all_for_user. autorewrite with run.
    destruct (username_cases d (normalize_username username) Hwf) as [(u&Hu&<-)|Hno].
    + rewrite find_user_found //. right; left. by eexists now, _, _.
    + rewrite find_user_missing //. by left.
  - right; right; left. by eexists _, _.
Qed.

Lemma run_session_op_wf op d : wf_db d → wf_db (run_session_op op d).
Proof.
  intros Hwf. destruct (run_session_op_cases op d Hwf) as [->|[(now&P&?&->)|[(P&?&->)|(token&n&e&p&u&->&Hu&Hnd&->)]]];
    [done|by apply wf_revoke_where|by apply wf_filter_sessions|].
  apply wf_add_session; [done| |done]. by apply (list_elem_of_fmap_2 u_id).
Qed.

Lemma dead_session_op session_id op d :
  wf_db d → never_draws session_id (SessionOp op) → dead session_id d → dead session_id (run_session_op op d).
Proof.
  intros Hwf Hfresh Hd. destruct (run_session_op_cases op d Hwf) as [->|[(now&P&?&->)|[(P&?&->)|(token&n&e&p&u&->&Hu&Hnd&->)]]];
    [done|by apply dead_revoke_where|by apply dead_filter|].
  apply Forall_app. split; [done|]. constructor; [|done]. intros Heq. by destruct Hfresh.
Qed.

Lemma run_account_ops_dead session_id ops w :
  wf_db (a_db w) → Forall (never_draws session_id) ops → dead session_id (a_db w) →
  wf_db (a_db (run_account_ops ops w)) ∧ dead session_id (a_db (run_account_ops ops w)).
Proof.
  intros Hwf Hops. revert w Hwf. induction Hops as [|op ops Hop _ IH]; intros w Hwf Hd; [done|].
  apply IH; destruct op as [op|op]; cbn [run_account_op a_db].
  - by apply run_user_op_wf.
  - by apply run_session_op_wf.
  - by apply dead_user_op.
  - by apply dead_session_op.
Qed.

Lemma dead_unresolvable now session_id d : wf_db d → dead session_id d → resolve now session_id d = (Ok None, d).
Proof.
  intros Hwf Hd. unfold resolve. case_decide; [done|]. autorewrite with run.
  destruct (resolvable_cases now session_id d Hwf) as [(u&s&(Hu&Hs&_&Hsid&Hr&_)&_)|[_ ->]]; [|done].
  rewrite /dead Forall_forall in Hd. by destruct (Hd s Hs).
Qed.

(** After revoke, the session id never resolves again, whatever user and
    session operations follow, as long as no new session draws the same id. *)
Theorem a_revoked_session_is_never_honoured_again now session_id d b d' log ops now' :
  wf_db d → revoke now session_id d = (Ok b, d') → Forall (never_draws session_id) ops →
  (resolve now' session_id (a_db (run_account_ops ops (Audited d' log)))).1 = Ok None.
Proof.
  intros Hwf Hrev Hops.
  assert (d' = set_auth_sessions (UserRepository.revoke_where now (λ s, s_session_id s = session_id)) d) as -> by (by injection Hrev).
  destruct (run_account_ops_dead session_id ops (Audited _ log) (wf_revoke_where now (λ s, s_session_id s = session_id) d Hwf) Hops) as [Hwf' Hd'].
  - apply Forall_fmap, Forall_forall. intros s Hs. cbn. case_decide; [done|naive_solver].
  - by rewrite dead_unresolvable.
Qed.

(** C35: Once update has deactivated a user, no session that user held is ever
    resolved again, whatever user and session operations follow, as long as no
    new session draws the same random id. *)
Theorem a_deactivated_user_holds_no_session enforcement now salt username c w u r w' ops s now' :
  wf_db (a_db w) → u ∈ users (a_db w) → u_username u = normalize_username username →
  upd_active c = Some false → UserRepository.update enforcement now salt username c w = (Ok r, w') →
  s ∈ auth_sessions (a_db w) → s_user_id s = u_id u → Forall (never_draws (s_session_id s)) ops →
  (resolve now' (s_session_id s) (a_db (run_account_ops ops w'))).1 = Ok None.
Proof.
  intros Hwf Hu Hn Hact Hrun Hs Ho Hops.
  assert (w' = Audited (updated_db now salt c u (a_db w)) (audit w')) as Hw'.
  { revert Hrun. rewrite (update_run _ _ _ _ _ _ u) //. destruct (allowed _); [|done].
    destruct (if decide (guarded c) then _ else _) as [[]|e]; [|done]. by intros [= _ <-]. }
  destruct (run_account_ops_dead (s_session_id s) ops w') as [Hwf' Hd'].
  - rewrite Hw'. by apply wf_updated_db.
  - done.
  - rewrite Hw'. unfold updated_db. rewrite decide_True //. cbn. apply Forall_fmap, Forall_forall.
    intros s' Hs' Heq. cbn in *. assert (s' = s) as ->.
    { apply (session_unique (a_db w)); [done..|]. revert Heq. by case_decide. }
    destruct (decide (s_user_id s = u_id u ∧ s_revoked_at s = None)); [done|naive_solver].
  - by rewrite dead_unresolvable.
Qed.
End histories.
