(* ===== verification/Store.v ===== *)
(** * The store facade ([sqlalchemy_store.py])

    One definition per method of [SqlAlchemyStore], in the order of the file,
    with the method's own parameters, delegating as the method does; then the
    wrappers that the module installs over the mutating methods by name. A method
    without a result of its own ([None]) has type [M db unit]. *)
From S2P Require Import Prelude PyStrings Permissions Regex RegexSafety Database Repositories Ownership Users Groups Sessions Cache Resolution.

(** Comparing a text column with an integer parameter, and an integer column
    with a text parameter: [None] where the database refuses the statement
    (PostgreSQL), the comparison it makes where it converts (SQLite, MySQL). *)
Class ColumnTyping := {
  text_column_eq : Z → option (string → bool);
  int_column_eq : string → option (Z → bool);
}.

Module SqlAlchemyStore.
Section methods.
Context `{SqlBackend, PyRe, UserLibs, ColumnTyping}.

(** The gateway methods call [get] and [revoke] of
    [BaseGroupRegexPermissionRepository], whose parameters are [group_name, id],
    with [id, group_name]: the id is looked up as a group name, the name as an id. *)
Definition get_group_by_number (n : Z) : M db group_row :=
  match text_column_eq n with
  | None => raise (OtherException "ProgrammingError")
  | Some eq => ask (λ d, one_or_mlflow (filter (λ g, eq (g_name g) = true) (groups d)))
  end.

Definition _get_group_regex_permission_by_text (t : table) (text : string) (group_id : Z) : M db regex_row :=
  match int_column_eq text with
  | None => raise (OtherException "ProgrammingError")
  | Some eq => ask (λ d, one_or_mlflow (filter (λ r, eq (r_id r) = true ∧ r_owner r = group_id) (t_group_regex (perms d t))))
  end.

Definition get_by_swapped_arguments (t : table) (id : Z) (group_name : string) : M db regex_row :=
  managed (
    group ← get_group_by_number id;
    _get_group_regex_permission_by_text t group_name (g_id group)).

Definition revoke_by_swapped_arguments (t : table) (id : Z) (group_name : string) : M db unit :=
  managed (
    group ← get_group_by_number id;
    perm ← _get_group_regex_permission_by_text t group_name (g_id group);
    write_t_group_regex t (delete_row perm)).

Definition create_scorer_permission (experiment_id scorer_name username permission : string) :=
  UserPermissions.grant_permission Scorers (ScorerKey experiment_id scorer_name) username permission.
Definition get_scorer_permission (experiment_id scorer_name username : string) :=
  UserPermissions.get_permission Scorers (ScorerKey experiment_id scorer_name) username.
Definition list_scorer_permissions (username : string) := UserPermissions.list_permissions_for_user Scorers username.
Definition update_scorer_permission (experiment_id scorer_name username permission : string) :=
  UserPermissions.update_permission Scorers (ScorerKey experiment_id scorer_name) username permission.
Definition delete_scorer_permission (experiment_id scorer_name username : string) :=
  UserPermissions.revoke_permission Scorers (ScorerKey experiment_id scorer_name) username.
Definition delete_scorer_permissions_for_scorer (experiment_id scorer_name : string) : M db unit :=
  managed (
    _ ← write_t_user Scorers (filter (λ r, p_key r ≠ ScorerKey experiment_id scorer_name));
    write_t_group Scorers (filter (λ r, p_key r ≠ ScorerKey experiment_id scorer_name))).
Definition create_group_scorer_permission (group_name experiment_id scorer_name permission : string) :=
  GroupPermissions.grant_uncaught Scorers false group_name (ScorerKey experiment_id scorer_name) permission.
Definition update_group_scorer_permission (group_name experiment_id scorer_name permission : string) :=
  GroupPermissions.update_group_permission Scorers group_name (ScorerKey experiment_id scorer_name) permission.
Definition delete_group_scorer_permission (group_name experiment_id scorer_name : string) :=
  GroupPermissions.revoke_group_permission Scorers group_name (ScorerKey experiment_id scorer_name).
Definition list_group_scorer_permissions (group_name : string) := GroupPermissions.list_permissions_for_group Scorers group_name.
Definition get_user_groups_scorer_permission (experiment_id scorer_name username : string) :=
  GroupPermissions.get_group_permission_for_user_resource Scorers (ScorerKey experiment_id scorer_name) username.
Definition create_scorer_regex_permission (regex : string) (priority : Z) (permission username : string) :=
  RegexPermissions.grant Scorers regex priority permission username.
Definition list_scorer_regex_permissions (username : string) := RegexPermissions.list_regex_for_user Scorers username.
Definition get_scorer_regex_permission (username : string) (id : Z) := RegexPermissions.get Scorers username id.
Definition update_scorer_regex_permission (id : Z) (regex : string) (priority : Z) (permission username : string) :=
  RegexPermissions.update Scorers regex priority permission username id.
Definition delete_scorer_regex_permission (id : Z) (username : string) := RegexPermissions.revoke Scorers username id.
Definition create_group_scorer_regex_permission (group_name regex : string) (priority : Z) (permission : string) :=
  GroupRegexPermissions.grant Scorers group_name regex priority permission.
Definition list_group_scorer_regex_permissions_for_groups_ids (group_ids : list Z) :=
  GroupRegexPermissions.list_permissions_for_groups_ids Scorers group_ids.
Definition list_group_scorer_regex_permissions (group_name : string) : M db (list regex_row) :=
  managed (
    group ← ask (λ d, query_one_or_none (filter (λ g, g_name g = group_name) (groups d)));
    match group with
    | None => mret []
    | Some group => GroupRegexPermissions.list_permissions_for_groups_ids Scorers [g_id group]
    end).
Definition get_group_scorer_regex_permission (group_name : string) (id : Z) := GroupRegexPermissions.get Scorers group_name id.
Definition update_group_scorer_regex_permission (id : Z) (group_name regex : string) (priority : Z) (permission : string) :=
  GroupRegexPermissions.update Scorers id group_name regex priority permission.
Definition delete_group_scorer_regex_permission (id : Z) (group_name : string) := GroupRegexPermissions.revoke Scorers group_name id.
Definition authenticate_user (now : Z) (username password : string) : M db bool :=
  UserRepository.authenticate now username password.
Definition create_user (salt username password display_name : string) (is_admin is_service_account : bool) : M db user_row :=
  UserRepository.create salt username password display_name is_admin is_service_account.
Definition create_auth_session (token username : string) (expires_at : Z) (provider_id : option string) : M db string :=
  AuthSessionRepository.create token username expires_at provider_id.
Definition create_auth_state (now : Z) (token provider_id : string) (redirect_after_login : option string) (lifetime_seconds : Z) : M db string :=
  AuthStateRepository.create now token provider_id redirect_after_login lifetime_seconds.
Definition consume_auth_state (now : Z) (state : string) : M db (option AuthAttempt) :=
  AuthStateRepository.consume now state.
Definition resolve_auth_session (now : Z) (session_id : string) : M db (option ResolvedSession) :=
  AuthSessionRepository.resolve now session_id.
Definition revoke_auth_session (now : Z) (session_id : string) : M db bool :=
  AuthSessionRepository.revoke now session_id.
Definition revoke_all_auth_sessions (now : Z) (username : string) : M db Z :=
  AuthSessionRepository.revoke_all_for_user now username.
Definition has_user (username : string) : M db bool := UserRepository.exist username.
Definition get_user (username : string) : M db user_row := UserRepository.get username.
Definition get_user_profile (username : string) : M db (user_row * list group_row) := UserRepository.get_profile username.
Definition list_users (is_service_account all : bool) : M db (list user_row) := UserRepository.list_users is_service_account all.
Definition list_usernames (is_service_account : bool) : M db (list string) := UserRepository.list_usernames is_service_account.
Definition update_user (enforcement : Enforcement) (now : Z) (salt username : string) (c : user_update) : M audited user_row :=
  UserRepository.update enforcement now salt username c.
Definition delete_user (username : string) : M audited unit := UserRepository.delete username.
Definition create_experiment_permission (experiment_id username permission : string) :=
  UserPermissions.grant_permission Experiments (Key experiment_id) username permission.
Definition get_experiment_permission (experiment_id username : string) := UserPermissions.get_permission Experiments (Key experiment_id) username.
Definition get_user_groups_experiment_permission (experiment_id username : string) :=
  GroupPermissions.get_group_permission_for_user_resource Experiments (Key experiment_id) username.
Definition list_experiment_permissions (username : string) := UserPermissions.list_permissions_for_user Experiments username.
Definition list_group_experiment_permissions (group_name : string) := GroupPermissions.list_permissions_for_group Experiments group_name.
Definition list_group_id_experiment_permissions (group_id : Z) := GroupPermissions.list_permissions_for_group_id Experiments group_id.
Definition list_user_groups_experiment_permissions (username : string) := GroupPermissions.list_permissions_for_user_groups Experiments username.
Definition update_experiment_permission (experiment_id username permission : string) :=
  UserPermissions.update_permission Experiments (Key experiment_id) username permission.
Definition delete_experiment_permission (experiment_id username : string) :=
  UserPermissions.revoke_permission Experiments (Key experiment_id) username.
Definition create_registered_model_permission (name username permission : string) :=
  UserPermissions.grant_permission RegisteredModels (Key name) username permission.
Definition get_registered_model_permission (name username : string) := UserPermissions.get_permission RegisteredModels (Key name) username.
Definition get_user_groups_registered_model_permission (name username : string) :=
  GroupPermissions.get_group_permission_for_user_resource RegisteredModels (Key name) username.
Definition list_registered_model_permissions (username : string) := UserPermissions.list_permissions_for_user RegisteredModels username.
Definition list_user_groups_registered_model_permissions (username : string) := GroupPermissions.list_for_user RegisteredModels username.
Definition update_registered_model_permission (name username permission : string) :=
  UserPermissions.update_permission RegisteredModels (Key name) username permission.
Definition rename_registered_model_permissions (old_name new_name : string) :=
  UserPermissions.rename_checked RegisteredModels (Key old_name) (Key new_name).
Definition delete_registered_model_permission (name username : string) := UserPermissions.revoke_permission RegisteredModels (Key name) username.
Definition wipe_registered_model_permissions (name : string) := UserPermissions.wipe RegisteredModels (Key name).
Definition list_experiment_permissions_for_experiment (experiment_id : string) :=
  UserPermissions.list_permissions_for_resource Experiments (Key experiment_id).
Definition populate_groups (group_names : list string) : M db unit := GroupRepository.create_groups group_names.
Definition get_groups : M db (list string) := GroupRepository.list_groups.
Definition get_group_users (group_name : string) : M db (list user_row) := GroupRepository.list_group_members group_name.
Definition add_user_to_group (username group_name : string) : M db unit := GroupRepository.add_user_to_group username group_name.
Definition remove_user_from_group (username group_name : string) : M db unit := GroupRepository.remove_user_from_group username group_name.
Definition get_groups_for_user (username : string) : M db (list string) := GroupRepository.list_groups_for_user username.
Definition get_groups_ids_for_user (username : string) : M db (list Z) := GroupRepository.list_group_ids_for_user username.
Definition set_user_groups (username : string) (group_names : list string) : M db unit := GroupRepository.set_groups_for_user username group_names.
Definition get_group_experiments (group_name : string) := GroupPermissions.list_permissions_for_group Experiments group_name.
Definition create_group_experiment_permission (group_name experiment_id permission : string) :=
  GroupPermissions.grant_group_permission Experiments group_name (Key experiment_id) permission.
Definition delete_group_experiment_permission (group_name experiment_id : string) :=
  GroupPermissions.revoke_group_permission Experiments group_name (Key experiment_id).
Definition update_group_experiment_permission (group_name experiment_id permission : string) :=
  GroupPermissions.update_group_permission Experiments group_name (Key experiment_id) permission.
Definition get_group_models (group_name : string) := GroupPermissions.list_permissions_for_group RegisteredModels group_name.
Definition create_group_model_permission (group_name name permission : string) :=
  GroupPermissions.grant_group_permission RegisteredModels group_name (Key name) permission.
Definition rename_group_model_permissions (old_name new_name : string) :=
  GroupPermissions.rename_checked RegisteredModels (Key old_name) (Key new_name).
Definition delete_group_model_permission (group_name name : string) :=
  GroupPermissions.revoke_group_permission RegisteredModels group_name (Key name).
Definition wipe_group_model_permissions (name : string) := GroupPermissions.wipe RegisteredModels (Key name).
Definition update_group_model_permission (group_name name permission : string) :=
  GroupPermissions.update_group_permission RegisteredModels group_name (Key name) permission.
Definition create_group_prompt_permission (group_name name permission : string) :=
  PromptGroupPermissions.grant_prompt_permission_to_group group_name (Key name) permission.
Definition get_group_prompts (group_name : string) := PromptGroupPermissions.list_prompt_permissions_for_group group_name.
Definition update_group_prompt_permission (group_name name permission : string) :=
  PromptGroupPermissions.update_prompt_permission_for_group group_name (Key name) permission.
Definition delete_group_prompt_permission (group_name name : string) :=
  PromptGroupPermissions.revoke_prompt_permission_from_group group_name (Key name).
Definition create_experiment_regex_permission (regex : string) (priority : Z) (permission username : string) :=
  RegexPermissions.grant Experiments regex priority permission username.
Definition get_experiment_regex_permission (username : string) (id : Z) := RegexPermissions.get Experiments username id.
Definition list_experiment_regex_permissions (username : string) := RegexPermissions.list_regex_for_user Experiments username.
Definition update_experiment_regex_permission (regex : string) (priority : Z) (permission username : string) (id : Z) :=
  RegexPermissions.update Experiments regex priority permission username id.
Definition delete_experiment_regex_permission (username : string) (id : Z) := RegexPermissions.revoke Experiments username id.
Definition create_group_experiment_regex_permission (group_name regex : string) (priority : Z) (permission : string) :=
  GroupRegexPermissions.grant Experiments group_name regex priority permission.
Definition get_group_experiment_regex_permission (group_name : string) (id : Z) := GroupRegexPermissions.get Experiments group_name id.
Definition list_group_experiment_regex_permissions (group_name : string) := GroupRegexPermissions.list_permissions_for_group Experiments group_name.
Definition list_group_experiment_regex_permissions_for_groups (group_names : list string) :=
  GroupRegexPermissions.list_permissions_for_groups Experiments group_names.
Definition list_group_experiment_regex_permissions_for_groups_ids (group_ids : list Z) :=
  GroupRegexPermissions.list_permissions_for_groups_ids Experiments group_ids.
Definition update_group_experiment_regex_permission (id : Z) (group_name regex : string) (priority : Z) (permission : string) :=
  GroupRegexPermissions.update Experiments id group_name regex priority permission.
Definition delete_group_experiment_regex_permission (group_name : string) (id : Z) := GroupRegexPermissions.revoke Experiments group_name id.
Definition create_registered_model_regex_permission (regex : string) (priority : Z) (permission username : string) :=
  ModelRegexPermissions.grant regex priority permission username false.
Definition get_registered_model_regex_permission (id : Z) (username : string) := ModelRegexPermissions.get id username false.
Definition list_registered_model_regex_permissions (username : string) := ModelRegexPermissions.list_regex_for_user username false.
Definition update_registered_model_regex_permission (id : Z) (regex : string) (priority : Z) (permission username : string) :=
  ModelRegexPermissions.update id regex priority permission username false.
Definition delete_registered_model_regex_permission (id : Z) (username : string) := ModelRegexPermissions.revoke id username false.
Definition create_group_registered_model_regex_permission (group_name regex : string) (priority : Z) (permission : string) :=
  ModelGroupRegexPermissions.grant group_name regex permission priority false.
Definition get_group_registered_model_regex_permission (group_name : string) (id : Z) := ModelGroupRegexPermissions.get id group_name false.
Definition list_group_registered_model_regex_permissions (group_name : string) :=
  ModelGroupRegexPermissions.list_permissions_for_group group_name false.
Definition list_group_registered_model_regex_permissions_for_groups (group_names : list string) :=
  ModelGroupRegexPermissions.list_permissions_for_groups group_names false.
Definition list_group_registered_model_regex_permissions_for_groups_ids (group_ids : list Z) :=
  ModelGroupRegexPermissions.list_permissions_for_groups_ids group_ids false.
Definition update_group_registered_model_regex_permission (id : Z) (group_name regex : string) (priority : Z) (permission : string) :=
  ModelGroupRegexPermissions.update id regex group_name permission priority false.
Definition delete_group_registered_model_regex_permission (group_name : string) (id : Z) := ModelGroupRegexPermissions.revoke id group_name false.
Definition create_prompt_regex_permission (regex : string) (priority : Z) (permission username : string) (prompt : bool) :=
  ModelRegexPermissions.grant regex priority permission username prompt.
Definition get_prompt_regex_permission (id : Z) (username : string) (prompt : bool) := ModelRegexPermissions.get id username prompt.
Definition list_prompt_regex_permissions (username : string) (prompt : bool) := ModelRegexPermissions.list_regex_for_user username prompt.
Definition update_prompt_regex_permission (id : Z) (regex : string) (priority : Z) (permission username : string) (prompt : bool) :=
  ModelRegexPermissions.update id regex priority permission username prompt.
Definition delete_prompt_regex_permission (id : Z) (username : string) := ModelRegexPermissions.revoke id username true.
Definition create_group_prompt_regex_permission (regex : string) (priority : Z) (permission group_name : string) (prompt : bool) :=
  ModelGroupRegexPermissions.grant group_name regex permission priority prompt.
Definition get_group_prompt_regex_permission (id : Z) (group_name : string) (prompt : bool) := ModelGroupRegexPermissions.get id group_name prompt.
Definition list_group_prompt_regex_permissions (group_name : string) (prompt : bool) :=
  ModelGroupRegexPermissions.list_permissions_for_group group_name prompt.
Definition list_group_prompt_regex_permissions_for_groups (group_names : list string) (prompt : bool) :=
  ModelGroupRegexPermissions.list_permissions_for_groups group_names prompt.
Definition list_group_prompt_regex_permissions_for_groups_ids (group_ids : list Z) (prompt : bool) :=
  ModelGroupRegexPermissions.list_permissions_for_groups_ids group_ids prompt.
Definition update_group_prompt_regex_permission (id : Z) (regex : string) (priority : Z) (permission group_name : string) (prompt : bool) :=
  ModelGroupRegexPermissions.update id regex group_name permission priority prompt.
Definition delete_group_prompt_regex_permission (id : Z) (group_name : string) := ModelGroupRegexPermissions.revoke id group_name true.
Definition create_gateway_secret_permission (gateway_name username permission : string) :=
  UserPermissions.grant_permission GatewaySecrets (Key gateway_name) username permission.
Definition get_gateway_secret_permission (gateway_name username : string) :=
  UserPermissions.get_permission GatewaySecrets (Key gateway_name) username.
Definition list_gateway_secret_permissions (username : string) := UserPermissions.list_permissions_for_user GatewaySecrets username.
Definition update_gateway_secret_permission (gateway_name username permission : string) :=
  UserPermissions.update_permission GatewaySecrets (Key gateway_name) username permission.
Definition delete_gateway_secret_permission (gateway_name username : string) :=
  UserPermissions.revoke_permission GatewaySecrets (Key gateway_name) username.
Definition wipe_gateway_secret_permissions (gateway_name : string) : M db unit :=
  _ ← UserPermissions.wipe GatewaySecrets (Key gateway_name);
  GroupPermissions.wipe GatewaySecrets (Key gateway_name).
Definition create_group_gateway_secret_permission (group_name gateway_name permission : string) :=
  GroupPermissions.grant_group_permission GatewaySecrets group_name (Key gateway_name) permission.
Definition list_group_gateway_secret_permissions (group_name : string) := GroupPermissions.list_permissions_for_group GatewaySecrets group_name.
Definition get_user_groups_gateway_secret_permission (gateway_name group_name : string) :=
  GroupPermissions.get_group_permission_for_user GatewaySecrets (Key gateway_name) group_name.
Definition update_group_gateway_secret_permission (group_name gateway_name permission : string) :=
  GroupPermissions.update_group_permission GatewaySecrets group_name (Key gateway_name) permission.
Definition delete_group_gateway_secret_permission (group_name gateway_name : string) :=
  GroupPermissions.revoke_group_permission GatewaySecrets group_name (Key gateway_name).
Definition create_gateway_secret_regex_permission (regex : string) (priority : Z) (permission username : string) :=
  RegexPermissions.grant GatewaySecrets regex priority permission username.
Definition get_gateway_secret_regex_permission (id : Z) (username : string) := RegexPermissions.get GatewaySecrets username id.
Definition list_gateway_secret_regex_permissions (username : string) := RegexPermissions.list_regex_for_user GatewaySecrets username.
Definition update_gateway_secret_regex_permission (id : Z) (regex : string) (priority : Z) (permission username : string) :=
  GatewayRegexPermissions.update GatewaySecrets regex priority permission username id.
Definition delete_gateway_secret_regex_permission (id : Z) (username : string) := RegexPermissions.revoke GatewaySecrets username id.
Definition create_group_gateway_secret_regex_permission (group_name regex : string) (priority : Z) (permission : string) :=
  GroupRegexPermissions.grant GatewaySecrets group_name regex priority permission.
Definition get_group_gateway_secret_regex_permission (id : Z) (group_name : string) := get_by_swapped_arguments GatewaySecrets id group_name.
Definition list_group_gateway_secret_regex_permissions (group_name : string) :=
  GroupRegexPermissions.list_permissions_for_group GatewaySecrets group_name.
Definition list_group_gateway_secret_regex_permissions_for_groups_ids (group_ids : list Z) :=
  GroupRegexPermissions.list_permissions_for_groups_ids GatewaySecrets group_ids.
Definition update_group_gateway_secret_regex_permission (id : Z) (group_name regex : string) (priority : Z) (permission : string) :=
  GroupRegexPermissions.update GatewaySecrets id group_name regex priority permission.
Definition delete_group_gateway_secret_regex_permission (id : Z) (group_name : string) := revoke_by_swapped_arguments GatewaySecrets id group_name.
Definition create_gateway_endpoint_permission (gateway_name username permission : string) :=
  UserPermissions.grant_permission GatewayEndpoints (Key gateway_name) username permission.
Definition get_gateway_endpoint_permission (gateway_name username : string) :=
  UserPermissions.get_permission GatewayEndpoints (Key gateway_name) username.
Definition list_gateway_endpoint_permissions (username : string) := UserPermissions.list_permissions_for_user GatewayEndpoints username.
Definition update_gateway_endpoint_permission (gateway_name username permission : string) :=
  UserPermissions.update_permission GatewayEndpoints (Key gateway_name) username permission.
Definition delete_gateway_endpoint_permission (gateway_name username : string) :=
  UserPermissions.revoke_permission GatewayEndpoints (Key gateway_name) username.
Definition rename_gateway_endpoint_permissions (old_name new_name : string) : M db unit :=
  _ ← UserPermissions.rename GatewayEndpoints (Key old_name) (Key new_name);
  GroupPermissions.rename GatewayEndpoints (Key old_name) (Key new_name).
Definition wipe_gateway_endpoint_permissions (gateway_name : string) : M db unit :=
  _ ← UserPermissions.wipe GatewayEndpoints (Key gateway_name);
  GroupPermissions.wipe GatewayEndpoints (Key gateway_name).
Definition create_group_gateway_endpoint_permission (group_name gateway_name permission : string) :=
  GroupPermissions.grant_group_permission GatewayEndpoints group_name (Key gateway_name) permission.
Definition list_group_gateway_endpoint_permissions (group_name : string) := GroupPermissions.list_permissions_for_group GatewayEndpoints group_name.
Definition list_group_gateway_endpoint_regex_permissions_for_groups_ids (group_ids : list Z) :=
  GroupRegexPermissions.list_permissions_for_groups_ids GatewayEndpoints group_ids.
Definition get_user_groups_gateway_endpoint_permission (gateway_name group_name : string) :=
  GroupPermissions.get_group_permission_for_user GatewayEndpoints (Key gateway_name) group_name.
Definition update_group_gateway_endpoint_permission (group_name gateway_name permission : string) :=
  GroupPermissions.update_group_permission GatewayEndpoints group_name (Key gateway_name) permission.
Definition delete_group_gateway_endpoint_permission (group_name gateway_name : string) :=
  GroupPermissions.revoke_group_permission GatewayEndpoints group_name (Key gateway_name).
Definition create_gateway_endpoint_regex_permission (regex : string) (priority : Z) (permission username : string) :=
  RegexPermissions.grant GatewayEndpoints regex priority permission username.
Definition get_gateway_endpoint_regex_permission (id : Z) (username : string) := RegexPermissions.get GatewayEndpoints username id.
Definition list_gateway_endpoint_regex_permissions (username : string) := RegexPermissions.list_regex_for_user GatewayEndpoints username.
Definition update_gateway_endpoint_regex_permission (id : Z) (regex : string) (priority : Z) (permission username : string) :=
  GatewayRegexPermissions.update GatewayEndpoints regex priority permission username id.
Definition delete_gateway_endpoint_regex_permission (id : Z) (username : string) := RegexPermissions.revoke GatewayEndpoints username id.
Definition create_group_gateway_endpoint_regex_permission (group_name regex : string) (priority : Z) (permission : string) :=
  GroupRegexPermissions.grant GatewayEndpoints group_name regex priority permission.
Definition get_group_gateway_endpoint_regex_permission (id : Z) (group_name : string) := get_by_swapped_arguments GatewayEndpoints id group_name.
Definition list_group_gateway_endpoint_regex_permissions (group_name : string) :=
  GroupRegexPermissions.list_permissions_for_group GatewayEndpoints group_name.
Definition update_group_gateway_endpoint_regex_permission (id : Z) (group_name regex : string) (priority : Z) (permission : string) :=
  GroupRegexPermissions.update GatewayEndpoints id group_name regex priority permission.
Definition delete_group_gateway_endpoint_regex_permission (id : Z) (group_name : string) :=
  revoke_by_swapped_arguments GatewayEndpoints id group_name.
Definition create_gateway_model_definition_permission (gateway_name username permission : string) :=
  UserPermissions.grant_permission GatewayModelDefinitions (Key gateway_name) username permission.
Definition get_gateway_model_definition_permission (gateway_name username : string) :=
  UserPermissions.get_permission GatewayModelDefinitions (Key gateway_name) username.
Definition list_gateway_model_definition_permissions (username : string) :=
  UserPermissions.list_permissions_for_user GatewayModelDefinitions username.
Definition update_gateway_model_definition_permission (gateway_name username permission : string) :=
  UserPermissions.update_permission GatewayModelDefinitions (Key gateway_name) username permission.
Definition delete_gateway_model_definition_permission (gateway_name username : string) :=
  UserPermissions.revoke_permission GatewayModelDefinitions (Key gateway_name) username.
Definition wipe_gateway_model_definition_permissions (gateway_name : string) : M db unit :=
  _ ← UserPermissions.wipe GatewayModelDefinitions (Key gateway_name);
  GroupPermissions.wipe GatewayModelDefinitions (Key gateway_name).
Definition create_group_gateway_model_definition_permission (group_name gateway_name permission : string) :=
  GroupPermissions.grant_group_permission GatewayModelDefinitions group_name (Key gateway_name) permission.
Definition list_group_gateway_model_definition_permissions (group_name : string) :=
  GroupPermissions.list_permissions_for_group GatewayModelDefinitions group_name.
Definition get_user_groups_gateway_model_definition_permission (gateway_name group_name : string) :=
  GroupPermissions.get_group_permission_for_user GatewayModelDefinitions (Key gateway_name) group_name.
Definition update_group_gateway_model_definition_permission (group_name gateway_name permission : string) :=
  GroupPermissions.update_group_permission GatewayModelDefinitions group_name (Key gateway_name) permission.
Definition delete_group_gateway_model_definition_permission (group_name gateway_name : string) :=
  GroupPermissions.revoke_group_permission GatewayModelDefinitions group_name (Key gateway_name).
Definition create_gateway_model_definition_regex_permission (regex : string) (priority : Z) (permission username : string) :=
  RegexPermissions.grant GatewayModelDefinitions regex priority permission username.
Definition get_gateway_model_definition_regex_permission (id : Z) (username : string) := RegexPermissions.get GatewayModelDefinitions username id.
Definition list_gateway_model_definition_regex_permissions (username : string) :=
  RegexPermissions.list_regex_for_user GatewayModelDefinitions username.
Definition update_gateway_model_definition_regex_permission (id : Z) (regex : string) (priority : Z) (permission username : string) :=
  GatewayRegexPermissions.update GatewayModelDefinitions regex priority permission username id.
Definition delete_gateway_model_definition_regex_permission (id : Z) (username : string) :=
  RegexPermissions.revoke GatewayModelDefinitions username id.
Definition create_group_gateway_model_definition_regex_permission (group_name regex : string) (priority : Z) (permission : string) :=
  GroupRegexPermissions.grant GatewayModelDefinitions group_name regex priority permission.
Definition get_group_gateway_model_definition_regex_permission (id : Z) (group_name : string) :=
  get_by_swapped_arguments GatewayModelDefinitions id group_name.
Definition list_group_gateway_model_definition_regex_permissions (group_name : string) :=
  GroupRegexPermissions.list_permissions_for_group GatewayModelDefinitions group_name.
Definition list_group_gateway_model_definition_regex_permissions_for_groups_ids (group_ids : list Z) :=
  GroupRegexPermissions.list_permissions_for_groups_ids GatewayModelDefinitions group_ids.
Definition update_group_gateway_model_definition_regex_permission (id : Z) (group_name regex : string) (priority : Z) (permission : string) :=
  GroupRegexPermissions.update GatewayModelDefinitions id group_name regex priority permission.
Definition delete_group_gateway_model_definition_regex_permission (id : Z) (group_name : string) :=
  revoke_by_swapped_arguments GatewayModelDefinitions id group_name.
Definition create_workspace_permission (workspace username : string) (permission : string) : M db perm_row :=
  managed (user ← Database.get_user username; WorkspacePermissions.create workspace (u_id user) permission).
Definition update_workspace_permission (workspace username : string) (permission : string) : M db perm_row :=
  managed (user ← Database.get_user username; WorkspacePermissions.update workspace (u_id user) permission).
Definition delete_workspace_permission (workspace username : string) : M db unit :=
  managed (user ← Database.get_user username; WorkspacePermissions.delete workspace (u_id user)).
Definition list_workspace_permissions (workspace : string) : M db (list perm_row) := WorkspacePermissions.list_for_workspace workspace.
Definition get_workspace_group_permission (workspace group_name : string) : M db perm_row :=
  managed (group ← get_group group_name; WorkspacePermissions.group_get workspace (g_id group)).
Definition create_workspace_group_permission (workspace group_name : string) (permission : string) : M db perm_row :=
  managed (group ← get_group group_name; WorkspacePermissions.group_create workspace (g_id group) permission).
Definition update_workspace_group_permission (workspace group_name : string) (permission : string) : M db perm_row :=
  managed (group ← get_group group_name; WorkspacePermissions.group_update workspace (g_id group) permission).
Definition delete_workspace_group_permission (workspace group_name : string) : M db unit :=
  managed (group ← get_group group_name; WorkspacePermissions.group_delete workspace (g_id group)).
Definition list_workspace_group_permissions (workspace : string) : M db (list perm_row) := WorkspacePermissions.group_list_for_workspace workspace.
Definition wipe_workspace_permissions (workspace : string) : M db Z :=
  user_count ← WorkspacePermissions.delete_all_for_workspace workspace;
  group_count ← WorkspacePermissions.group_delete_all_for_workspace workspace;
  mret (user_count + group_count).
Definition create_workspace_regex_permission (regex : string) (priority : Z) (permission username : string) :=
  RegexPermissions.grant Workspaces regex priority permission username.
Definition get_workspace_regex_permission (username : string) (id : Z) := RegexPermissions.get Workspaces username id.
Definition list_workspace_regex_permissions (username : string) := RegexPermissions.list_regex_for_user Workspaces username.
Definition list_all_workspace_regex_permissions := RegexPermissions.list_all Workspaces.
Definition update_workspace_regex_permission (regex : string) (priority : Z) (permission username : string) (id : Z) :=
  RegexPermissions.update Workspaces regex priority permission username id.
Definition delete_workspace_regex_permission (username : string) (id : Z) := RegexPermissions.revoke Workspaces username id.
Definition create_workspace_group_regex_permission (group_name regex : string) (priority : Z) (permission : string) :=
  GroupRegexPermissions.grant Workspaces group_name regex priority permission.
Definition get_workspace_group_regex_permission (group_name : string) (id : Z) := GroupRegexPermissions.get Workspaces group_name id.
Definition list_workspace_group_regex_permissions (group_name : string) := GroupRegexPermissions.list_permissions_for_group Workspaces group_name.
Definition list_workspace_group_regex_permissions_for_groups_ids (group_ids : list Z) :=
  GroupRegexPermissions.list_permissions_for_groups_ids Workspaces group_ids.
Definition list_all_workspace_group_regex_permissions : M db (list regex_row) :=
  managed (gets (λ d, t_group_regex (perms d Workspaces))).
Definition update_workspace_group_regex_permission (id : Z) (group_name regex : string) (priority : Z) (permission : string) :=
  GroupRegexPermissions.update Workspaces id group_name regex priority permission.
Definition delete_workspace_group_regex_permission (group_name : string) (id : Z) := GroupRegexPermissions.revoke Workspaces group_name id.
End methods.
End SqlAlchemyStore.

(** ** The cache wiring at the end of the module *)

Definition _PERMISSION_CUD_METHODS : list string := [
  "create_experiment_permission"; "update_experiment_permission"; "delete_experiment_permission";
  "create_group_experiment_permission"; "update_group_experiment_permission";
  "delete_group_experiment_permission"; "create_experiment_regex_permission";
  "update_experiment_regex_permission"; "delete_experiment_regex_permission";
  "create_group_experiment_regex_permission"; "update_group_experiment_regex_permission";
  "delete_group_experiment_regex_permission"; "create_registered_model_permission";
  "update_registered_model_permission"; "delete_registered_model_permission";
  "rename_registered_model_permissions"; "wipe_registered_model_permissions"; "create_group_model_permission";
  "update_group_model_permission"; "delete_group_model_permission"; "rename_group_model_permissions";
  "wipe_group_model_permissions"; "create_registered_model_regex_permission";
  "update_registered_model_regex_permission"; "delete_registered_model_regex_permission";
  "create_group_registered_model_regex_permission"; "update_group_registered_model_regex_permission";
  "delete_group_registered_model_regex_permission"; "create_group_prompt_permission";
  "update_group_prompt_permission"; "delete_group_prompt_permission"; "create_prompt_regex_permission";
  "update_prompt_regex_permission"; "delete_prompt_regex_permission"; "create_group_prompt_regex_permission";
  "update_group_prompt_regex_permission"; "delete_group_prompt_regex_permission"; "create_scorer_permission";
  "update_scorer_permission"; "delete_scorer_permission"; "delete_scorer_permissions_for_scorer";
  "create_group_scorer_permission"; "update_group_scorer_permission"; "delete_group_scorer_permission";
  "create_scorer_regex_permission"; "update_scorer_regex_permission"; "delete_scorer_regex_permission";
  "create_group_scorer_regex_permission"; "update_group_scorer_regex_permission";
  "delete_group_scorer_regex_permission"; "create_gateway_endpoint_permission";
  "update_gateway_endpoint_permission"; "delete_gateway_endpoint_permission";
  "rename_gateway_endpoint_permissions"; "wipe_gateway_endpoint_permissions";
  "create_group_gateway_endpoint_permission"; "update_group_gateway_endpoint_permission";
  "delete_group_gateway_endpoint_permission"; "create_gateway_endpoint_regex_permission";
  "update_gateway_endpoint_regex_permission"; "delete_gateway_endpoint_regex_permission";
  "create_group_gateway_endpoint_regex_permission"; "update_group_gateway_endpoint_regex_permission";
  "delete_group_gateway_endpoint_regex_permission"; "create_gateway_secret_permission";
  "update_gateway_secret_permission"; "delete_gateway_secret_permission"; "wipe_gateway_secret_permissions";
  "create_group_gateway_secret_permission"; "update_group_gateway_secret_permission";
  "delete_group_gateway_secret_permission"; "create_gateway_secret_regex_permission";
  "update_gateway_secret_regex_permission"; "delete_gateway_secret_regex_permission";
  "create_group_gateway_secret_regex_permission"; "update_group_gateway_secret_regex_permission";
  "delete_group_gateway_secret_regex_permission"; "create_gateway_model_definition_permission";
  "update_gateway_model_definition_permission"; "delete_gateway_model_definition_permission";
  "wipe_gateway_model_definition_permissions"; "create_group_gateway_model_definition_permission";
  "update_group_gateway_model_definition_permission"; "delete_group_gateway_model_definition_permission";
  "create_gateway_model_definition_regex_permission"; "update_gateway_model_definition_regex_permission";
  "delete_gateway_model_definition_regex_permission";
  "create_group_gateway_model_definition_regex_permission";
  "update_group_gateway_model_definition_regex_permission";
  "delete_group_gateway_model_definition_regex_permission"; "set_user_groups"; "add_user_to_group";
  "remove_user_from_group"; "create_workspace_permission"; "update_workspace_permission";
  "delete_workspace_permission"; "create_workspace_group_permission"; "update_workspace_group_permission";
  "delete_workspace_group_permission"; "create_workspace_regex_permission";
  "update_workspace_regex_permission"; "delete_workspace_regex_permission";
  "create_workspace_group_regex_permission"; "update_workspace_group_regex_permission";
  "delete_workspace_group_regex_permission"; "wipe_workspace_permissions"].

Definition _WORKSPACE_WIPE_METHODS : list string := [
  "wipe_workspace_permissions"].

Definition _MEMBERSHIP_CUD_METHODS : list string := [
  "set_user_groups"; "add_user_to_group"; "remove_user_from_group"].

Definition _WORKSPACE_GROUP_CUD_METHODS : list string := [
  "create_workspace_group_permission"; "update_workspace_group_permission";
  "delete_workspace_group_permission"].

Definition _WORKSPACE_USER_CUD_METHODS : list string := [
  "create_workspace_permission"; "update_workspace_permission"; "delete_workspace_permission"].

Section wiring.
Context `{SqlBackend, PyRe, ColumnTyping, Config, CacheBackend PermissionResult, CacheBackend Permission}.

(** A wrapper runs the method; only when it returns does it invalidate. The
    [except Exception] around the invalidation swallows what it raises. *)
Definition then_invalidate {A} (method : M world A) (invalidate : M world unit) : M world A :=
  result ← method;
  _ ← invalidate;
  mret result.

Definition logged_not_raised (m : M world unit) : M world unit := catch m (λ _, mret tt).

(** [args]: the leading positional arguments. An absent or empty one is skipped. *)
Definition argument (args : list string) (n : nat) : option string :=
  match args !! n with Some "" => None | o => o end.

Definition _wrap_with_cache_flush {A} (args : list string) (method : M world A) : M world A :=
  then_invalidate method flush_permission_cache.

Definition _wrap_with_membership_invalidation {A} (args : list string) (method : M world A) : M world A :=
  then_invalidate method
    (match argument args 0 with
     | Some username => logged_not_raised (invalidate_user_workspace_entries username)
     | None => mret tt
     end).

Definition _wrap_with_workspace_group_invalidation {A} (args : list string) (method : M world A) : M world A :=
  then_invalidate method
    (match argument args 0, argument args 1 with
     | Some workspace, Some group_name => logged_not_raised (invalidate_group_workspace_permission group_name workspace)
     | _, _ => mret tt
     end).

Definition _wrap_with_workspace_user_invalidation {A} (args : list string) (method : M world A) : M world A :=
  then_invalidate method
    (match argument args 0, argument args 1 with
     | Some workspace, Some username => logged_not_raised (invalidate_workspace_permission username workspace)
     | _, _ => mret tt
     end).

Definition _wrap_with_workspace_flush {A} (args : list string) (method : M world A) : M world A :=
  then_invalidate method (logged_not_raised flush_workspace_cache).

(** [for name in METHODS: setattr(SqlAlchemyStore, name, wrap(getattr(...)))] *)
Definition installed {A} (methods : list string) (wrap : list string → M world A → M world A)
    (method_name : string) (args : list string) (method : M world A) : M world A :=
  if decide (method_name ∈ methods) then wrap args method else method.

(** The attribute [method_name] of the class after the five loops, called. *)
Definition called {A} (method_name : string) (args : list string) (m : M db A) : M world A :=
  let method := on_store m in
  let method := installed _PERMISSION_CUD_METHODS _wrap_with_cache_flush method_name args method in
  let method := installed _MEMBERSHIP_CUD_METHODS _wrap_with_membership_invalidation method_name args method in
  let method := installed _WORKSPACE_GROUP_CUD_METHODS _wrap_with_workspace_group_invalidation method_name args method in
  let method := installed _WORKSPACE_USER_CUD_METHODS _wrap_with_workspace_user_invalidation method_name args method in
  installed _WORKSPACE_WIPE_METHODS _wrap_with_workspace_flush method_name args method.

(** ** The mutating calls, one constructor per name in [_PERMISSION_CUD_METHODS] *)

Inductive call :=
  | CreateExperimentPermission (experiment_id username permission : string)
  | UpdateExperimentPermission (experiment_id username permission : string)
  | DeleteExperimentPermission (experiment_id username : string)
  | CreateGroupExperimentPermission (group_name experiment_id permission : string)
  | UpdateGroupExperimentPermission (group_name experiment_id permission : string)
  | DeleteGroupExperimentPermission (group_name experiment_id : string)
  | CreateExperimentRegexPermission (regex : string) (priority : Z) (permission username : string)
  | UpdateExperimentRegexPermission (regex : string) (priority : Z) (permission username : string) (id : Z)
  | DeleteExperimentRegexPermission (username : string) (id : Z)
  | CreateGroupExperimentRegexPermission (group_name regex : string) (priority : Z) (permission : string)
  | UpdateGroupExperimentRegexPermission (id : Z) (group_name regex : string) (priority : Z) (permission : string)
  | DeleteGroupExperimentRegexPermission (group_name : string) (id : Z)
  | CreateRegisteredModelPermission (name username permission : string)
  | UpdateRegisteredModelPermission (name username permission : string)
  | DeleteRegisteredModelPermission (name username : string)
  | RenameRegisteredModelPermissions (old_name new_name : string)
  | WipeRegisteredModelPermissions (name : string)
  | CreateGroupModelPermission (group_name name permission : string)
  | UpdateGroupModelPermission (group_name name permission : string)
  | DeleteGroupModelPermission (group_name name : string)
  | RenameGroupModelPermissions (old_name new_name : string)
  | WipeGroupModelPermissions (name : string)
  | CreateRegisteredModelRegexPermission (regex : string) (priority : Z) (permission username : string)
  | UpdateRegisteredModelRegexPermission (id : Z) (regex : string) (priority : Z) (permission username : string)
  | DeleteRegisteredModelRegexPermission (id : Z) (username : string)
  | CreateGroupRegisteredModelRegexPermission (group_name regex : string) (priority : Z) (permission : string)
  | UpdateGroupRegisteredModelRegexPermission (id : Z) (group_name regex : string) (priority : Z) (permission : string)
  | DeleteGroupRegisteredModelRegexPermission (group_name : string) (id : Z)
  | CreateGroupPromptPermission (group_name name permission : string)
  | UpdateGroupPromptPermission (group_name name permission : string)
  | DeleteGroupPromptPermission (group_name name : string)
  | CreatePromptRegexPermission (regex : string) (priority : Z) (permission username : string) (prompt : bool)
  | UpdatePromptRegexPermission (id : Z) (regex : string) (priority : Z) (permission username : string) (prompt : bool)
  | DeletePromptRegexPermission (id : Z) (username : string)
  | CreateGroupPromptRegexPermission (regex : string) (priority : Z) (permission group_name : string) (prompt : bool)
  | UpdateGroupPromptRegexPermission (id : Z) (regex : string) (priority : Z) (permission group_name : string) (prompt : bool)
  | DeleteGroupPromptRegexPermission (id : Z) (group_name : string)
  | CreateScorerPermission (experiment_id scorer_name username permission : string)
  | UpdateScorerPermission (experiment_id scorer_name username permission : string)
  | DeleteScorerPermission (experiment_id scorer_name username : string)
  | DeleteScorerPermissionsForScorer (experiment_id scorer_name : string)
  | CreateGroupScorerPermission (group_name experiment_id scorer_name permission : string)
  | UpdateGroupScorerPermission (group_name experiment_id scorer_name permission : string)
  | DeleteGroupScorerPermission (group_name experiment_id scorer_name : string)
  | CreateScorerRegexPermission (regex : string) (priority : Z) (permission username : string)
  | UpdateScorerRegexPermission (id : Z) (regex : string) (priority : Z) (permission username : string)
  | DeleteScorerRegexPermission (id : Z) (username : string)
  | CreateGroupScorerRegexPermission (group_name regex : string) (priority : Z) (permission : string)
  | UpdateGroupScorerRegexPermission (id : Z) (group_name regex : string) (priority : Z) (permission : string)
  | DeleteGroupScorerRegexPermission (id : Z) (group_name : string)
  | CreateGatewayEndpointPermission (gateway_name username permission : string)
  | UpdateGatewayEndpointPermission (gateway_name username permission : string)
  | DeleteGatewayEndpointPermission (gateway_name username : string)
  | RenameGatewayEndpointPermissions (old_name new_name : string)
  | WipeGatewayEndpointPermissions (gateway_name : string)
  | CreateGroupGatewayEndpointPermission (group_name gateway_name permission : string)
  | UpdateGroupGatewayEndpointPermission (group_name gateway_name permission : string)
  | DeleteGroupGatewayEndpointPermission (group_name gateway_name : string)
  | CreateGatewayEndpointRegexPermission (regex : string) (priority : Z) (permission username : string)
  | UpdateGatewayEndpointRegexPermission (id : Z) (regex : string) (priority : Z) (permission username : string)
  | DeleteGatewayEndpointRegexPermission (id : Z) (username : string)
  | CreateGroupGatewayEndpointRegexPermission (group_name regex : string) (priority : Z) (permission : string)
  | UpdateGroupGatewayEndpointRegexPermission (id : Z) (group_name regex : string) (priority : Z) (permission : string)
  | DeleteGroupGatewayEndpointRegexPermission (id : Z) (group_name : string)
  | CreateGatewaySecretPermission (gateway_name username permission : string)
  | UpdateGatewaySecretPermission (gateway_name username permission : string)
  | DeleteGatewaySecretPermission (gateway_name username : string)
  | WipeGatewaySecretPermissions (gateway_name : string)
  | CreateGroupGatewaySecretPermission (group_name gateway_name permission : string)
  | UpdateGroupGatewaySecretPermission (group_name gateway_name permission : string)
  | DeleteGroupGatewaySecretPermission (group_name gateway_name : string)
  | CreateGatewaySecretRegexPermission (regex : string) (priority : Z) (permission username : string)
  | UpdateGatewaySecretRegexPermission (id : Z) (regex : string) (priority : Z) (permission username : string)
  | DeleteGatewaySecretRegexPermission (id : Z) (username : string)
  | CreateGroupGatewaySecretRegexPermission (group_name regex : string) (priority : Z) (permission : string)
  | UpdateGroupGatewaySecretRegexPermission (id : Z) (group_name regex : string) (priority : Z) (permission : string)
  | DeleteGroupGatewaySecretRegexPermission (id : Z) (group_name : string)
  | CreateGatewayModelDefinitionPermission (gateway_name username permission : string)
  | UpdateGatewayModelDefinitionPermission (gateway_name username permission : string)
  | DeleteGatewayModelDefinitionPermission (gateway_name username : string)
  | WipeGatewayModelDefinitionPermissions (gateway_name : string)
  | CreateGroupGatewayModelDefinitionPermission (group_name gateway_name permission : string)
  | UpdateGroupGatewayModelDefinitionPermission (group_name gateway_name permission : string)
  | DeleteGroupGatewayModelDefinitionPermission (group_name gateway_name : string)
  | CreateGatewayModelDefinitionRegexPermission (regex : string) (priority : Z) (permission username : string)
  | UpdateGatewayModelDefinitionRegexPermission (id : Z) (regex : string) (priority : Z) (permission username : string)
  | DeleteGatewayModelDefinitionRegexPermission (id : Z) (username : string)
  | CreateGroupGatewayModelDefinitionRegexPermission (group_name regex : string) (priority : Z) (permission : string)
  | UpdateGroupGatewayModelDefinitionRegexPermission (id : Z) (group_name regex : string) (priority : Z) (permission : string)
  | DeleteGroupGatewayModelDefinitionRegexPermission (id : Z) (group_name : string)
  | SetUserGroups (username : string) (group_names : list string)
  | AddUserToGroup (username group_name : string)
  | RemoveUserFromGroup (username group_name : string)
  | CreateWorkspacePermission (workspace username permission : string)
  | UpdateWorkspacePermission (workspace username permission : string)
  | DeleteWorkspacePermission (workspace username : string)
  | CreateWorkspaceGroupPermission (workspace group_name permission : string)
  | UpdateWorkspaceGroupPermission (workspace group_name permission : string)
  | DeleteWorkspaceGroupPermission (workspace group_name : string)
  | CreateWorkspaceRegexPermission (regex : string) (priority : Z) (permission username : string)
  | UpdateWorkspaceRegexPermission (regex : string) (priority : Z) (permission username : string) (id : Z)
  | DeleteWorkspaceRegexPermission (username : string) (id : Z)
  | CreateWorkspaceGroupRegexPermission (group_name regex : string) (priority : Z) (permission : string)
  | UpdateWorkspaceGroupRegexPermission (id : Z) (group_name regex : string) (priority : Z) (permission : string)
  | DeleteWorkspaceGroupRegexPermission (group_name : string) (id : Z)
  | WipeWorkspacePermissions (workspace : string).

Definition method_name (c : call) : string :=
  match c with
  | CreateExperimentPermission _ _ _ => "create_experiment_permission"
  | UpdateExperimentPermission _ _ _ => "update_experiment_permission"
  | DeleteExperimentPermission _ _ => "delete_experiment_permission"
  | CreateGroupExperimentPermission _ _ _ => "create_group_experiment_permission"
  | UpdateGroupExperimentPermission _ _ _ => "update_group_experiment_permission"
  | DeleteGroupExperimentPermission _ _ => "delete_group_experiment_permission"
  | CreateExperimentRegexPermission _ _ _ _ => "create_experiment_regex_permission"
  | UpdateExperimentRegexPermission _ _ _ _ _ => "update_experiment_regex_permission"
  | DeleteExperimentRegexPermission _ _ => "delete_experiment_regex_permission"
  | CreateGroupExperimentRegexPermission _ _ _ _ => "create_group_experiment_regex_permission"
  | UpdateGroupExperimentRegexPermission _ _ _ _ _ => "update_group_experiment_regex_permission"
  | DeleteGroupExperimentRegexPermission _ _ => "delete_group_experiment_regex_permission"
  | CreateRegisteredModelPermission _ _ _ => "create_registered_model_permission"
  | UpdateRegisteredModelPermission _ _ _ => "update_registered_model_permission"
  | DeleteRegisteredModelPermission _ _ => "delete_registered_model_permission"
  | RenameRegisteredModelPermissions _ _ => "rename_registered_model_permissions"
  | WipeRegisteredModelPermissions _ => "wipe_registered_model_permissions"
  | CreateGroupModelPermission _ _ _ => "create_group_model_permission"
  | UpdateGroupModelPermission _ _ _ => "update_group_model_permission"
  | DeleteGroupModelPermission _ _ => "delete_group_model_permission"
  | RenameGroupModelPermissions _ _ => "rename_group_model_permissions"
  | WipeGroupModelPermissions _ => "wipe_group_model_permissions"
  | CreateRegisteredModelRegexPermission _ _ _ _ => "create_registered_model_regex_permission"
  | UpdateRegisteredModelRegexPermission _ _ _ _ _ => "update_registered_model_regex_permission"
  | DeleteRegisteredModelRegexPermission _ _ => "delete_registered_model_regex_permission"
  | CreateGroupRegisteredModelRegexPermission _ _ _ _ => "create_group_registered_model_regex_permission"
  | UpdateGroupRegisteredModelRegexPermission _ _ _ _ _ => "update_group_registered_model_regex_permission"
  | DeleteGroupRegisteredModelRegexPermission _ _ => "delete_group_registered_model_regex_permission"
  | CreateGroupPromptPermission _ _ _ => "create_group_prompt_permission"
  | UpdateGroupPromptPermission _ _ _ => "update_group_prompt_permission"
  | DeleteGroupPromptPermission _ _ => "delete_group_prompt_permission"
  | CreatePromptRegexPermission _ _ _ _ _ => "create_prompt_regex_permission"
  | UpdatePromptRegexPermission _ _ _ _ _ _ => "update_prompt_regex_permission"
  | DeletePromptRegexPermission _ _ => "delete_prompt_regex_permission"
  | CreateGroupPromptRegexPermission _ _ _ _ _ => "create_group_prompt_regex_permission"
  | UpdateGroupPromptRegexPermission _ _ _ _ _ _ => "update_group_prompt_regex_permission"
  | DeleteGroupPromptRegexPermission _ _ => "delete_group_prompt_regex_permission"
  | CreateScorerPermission _ _ _ _ => "create_scorer_permission"
  | UpdateScorerPermission _ _ _ _ => "update_scorer_permission"
  | DeleteScorerPermission _ _ _ => "delete_scorer_permission"
  | DeleteScorerPermissionsForScorer _ _ => "delete_scorer_permissions_for_scorer"
  | CreateGroupScorerPermission _ _ _ _ => "create_group_scorer_permission"
  | UpdateGroupScorerPermission _ _ _ _ => "update_group_scorer_permission"
  | DeleteGroupScorerPermission _ _ _ => "delete_group_scorer_permission"
  | CreateScorerRegexPermission _ _ _ _ => "create_scorer_regex_permission"
  | UpdateScorerRegexPermission _ _ _ _ _ => "update_scorer_regex_permission"
  | DeleteScorerRegexPermission _ _ => "delete_scorer_regex_permission"
  | CreateGroupScorerRegexPermission _ _ _ _ => "create_group_scorer_regex_permission"
  | UpdateGroupScorerRegexPermission _ _ _ _ _ => "update_group_scorer_regex_permission"
  | DeleteGroupScorerRegexPermission _ _ => "delete_group_scorer_regex_permission"
  | CreateGatewayEndpointPermission _ _ _ => "create_gateway_endpoint_permission"
  | UpdateGatewayEndpointPermission _ _ _ => "update_gateway_endpoint_permission"
  | DeleteGatewayEndpointPermission _ _ => "delete_gateway_endpoint_permission"
  | RenameGatewayEndpointPermissions _ _ => "rename_gateway_endpoint_permissions"
  | WipeGatewayEndpointPermissions _ => "wipe_gateway_endpoint_permissions"
  | CreateGroupGatewayEndpointPermission _ _ _ => "create_group_gateway_endpoint_permission"
  | UpdateGroupGatewayEndpointPermission _ _ _ => "update_group_gateway_endpoint_permission"
  | DeleteGroupGatewayEndpointPermission _ _ => "delete_group_gateway_endpoint_permission"
  | CreateGatewayEndpointRegexPermission _ _ _ _ => "create_gateway_endpoint_regex_permission"
  | UpdateGatewayEndpointRegexPermission _ _ _ _ _ => "update_gateway_endpoint_regex_permission"
  | DeleteGatewayEndpointRegexPermission _ _ => "delete_gateway_endpoint_regex_permission"
  | CreateGroupGatewayEndpointRegexPermission _ _ _ _ => "create_group_gateway_endpoint_regex_permission"
  | UpdateGroupGatewayEndpointRegexPermission _ _ _ _ _ => "update_group_gateway_endpoint_regex_permission"
  | DeleteGroupGatewayEndpointRegexPermission _ _ => "delete_group_gateway_endpoint_regex_permission"
  | CreateGatewaySecretPermission _ _ _ => "create_gateway_secret_permission"
  | UpdateGatewaySecretPermission _ _ _ => "update_gateway_secret_permission"
  | DeleteGatewaySecretPermission _ _ => "delete_gateway_secret_permission"
  | WipeGatewaySecretPermissions _ => "wipe_gateway_secret_permissions"
  | CreateGroupGatewaySecretPermission _ _ _ => "create_group_gateway_secret_permission"
  | UpdateGroupGatewaySecretPermission _ _ _ => "update_group_gateway_secret_permission"
  | DeleteGroupGatewaySecretPermission _ _ => "delete_group_gateway_secret_permission"
  | CreateGatewaySecretRegexPermission _ _ _ _ => "create_gateway_secret_regex_permission"
  | UpdateGatewaySecretRegexPermission _ _ _ _ _ => "update_gateway_secret_regex_permission"
  | DeleteGatewaySecretRegexPermission _ _ => "delete_gateway_secret_regex_permission"
  | CreateGroupGatewaySecretRegexPermission _ _ _ _ => "create_group_gateway_secret_regex_permission"
  | UpdateGroupGatewaySecretRegexPermission _ _ _ _ _ => "update_group_gateway_secret_regex_permission"
  | DeleteGroupGatewaySecretRegexPermission _ _ => "delete_group_gateway_secret_regex_permission"
  | CreateGatewayModelDefinitionPermission _ _ _ => "create_gateway_model_definition_permission"
  | UpdateGatewayModelDefinitionPermission _ _ _ => "update_gateway_model_definition_permission"
  | DeleteGatewayModelDefinitionPermission _ _ => "delete_gateway_model_definition_permission"
  | WipeGatewayModelDefinitionPermissions _ => "wipe_gateway_model_definition_permissions"
  | CreateGroupGatewayModelDefinitionPermission _ _ _ => "create_group_gateway_model_definition_permission"
  | UpdateGroupGatewayModelDefinitionPermission _ _ _ => "update_group_gateway_model_definition_permission"
  | DeleteGroupGatewayModelDefinitionPermission _ _ => "delete_group_gateway_model_definition_permission"
  | CreateGatewayModelDefinitionRegexPermission _ _ _ _ => "create_gateway_model_definition_regex_permission"
  | UpdateGatewayModelDefinitionRegexPermission _ _ _ _ _ => "update_gateway_model_definition_regex_permission"
  | DeleteGatewayModelDefinitionRegexPermission _ _ => "delete_gateway_model_definition_regex_permission"
  | CreateGroupGatewayModelDefinitionRegexPermission _ _ _ _ => "create_group_gateway_model_definition_regex_permission"
  | UpdateGroupGatewayModelDefinitionRegexPermission _ _ _ _ _ => "update_group_gateway_model_definition_regex_permission"
  | DeleteGroupGatewayModelDefinitionRegexPermission _ _ => "delete_group_gateway_model_definition_regex_permission"
  | SetUserGroups _ _ => "set_user_groups"
  | AddUserToGroup _ _ => "add_user_to_group"
  | RemoveUserFromGroup _ _ => "remove_user_from_group"
  | CreateWorkspacePermission _ _ _ => "create_workspace_permission"
  | UpdateWorkspacePermission _ _ _ => "update_workspace_permission"
  | DeleteWorkspacePermission _ _ => "delete_workspace_permission"
  | CreateWorkspaceGroupPermission _ _ _ => "create_workspace_group_permission"
  | UpdateWorkspaceGroupPermission _ _ _ => "update_workspace_group_permission"
  | DeleteWorkspaceGroupPermission _ _ => "delete_workspace_group_permission"
  | CreateWorkspaceRegexPermission _ _ _ _ => "create_workspace_regex_permission"
  | UpdateWorkspaceRegexPermission _ _ _ _ _ => "update_workspace_regex_permission"
  | DeleteWorkspaceRegexPermission _ _ => "delete_workspace_regex_permission"
  | CreateWorkspaceGroupRegexPermission _ _ _ _ => "create_workspace_group_regex_permission"
  | UpdateWorkspaceGroupRegexPermission _ _ _ _ _ => "update_workspace_group_regex_permission"
  | DeleteWorkspaceGroupRegexPermission _ _ => "delete_workspace_group_regex_permission"
  | WipeWorkspacePermissions _ => "wipe_workspace_permissions"
  end.

(** The leading string arguments. *)
Definition arguments (c : call) : list string :=
  match c with
  | CreateExperimentPermission experiment_id username permission => [experiment_id; username; permission]
  | UpdateExperimentPermission experiment_id username permission => [experiment_id; username; permission]
  | DeleteExperimentPermission experiment_id username => [experiment_id; username]
  | CreateGroupExperimentPermission group_name experiment_id permission => [group_name; experiment_id; permission]
  | UpdateGroupExperimentPermission group_name experiment_id permission => [group_name; experiment_id; permission]
  | DeleteGroupExperimentPermission group_name experiment_id => [group_name; experiment_id]
  | CreateExperimentRegexPermission regex _ _ _ => [regex]
  | UpdateExperimentRegexPermission regex _ _ _ _ => [regex]
  | DeleteExperimentRegexPermission username _ => [username]
  | CreateGroupExperimentRegexPermission group_name regex _ _ => [group_name; regex]
  | UpdateGroupExperimentRegexPermission _ _ _ _ _ => []
  | DeleteGroupExperimentRegexPermission group_name _ => [group_name]
  | CreateRegisteredModelPermission name username permission => [name; username; permission]
  | UpdateRegisteredModelPermission name username permission => [name; username; permission]
  | DeleteRegisteredModelPermission name username => [name; username]
  | RenameRegisteredModelPermissions old_name new_name => [old_name; new_name]
  | WipeRegisteredModelPermissions name => [name]
  | CreateGroupModelPermission group_name name permission => [group_name; name; permission]
  | UpdateGroupModelPermission group_name name permission => [group_name; name; permission]
  | DeleteGroupModelPermission group_name name => [group_name; name]
  | RenameGroupModelPermissions old_name new_name => [old_name; new_name]
  | WipeGroupModelPermissions name => [name]
  | CreateRegisteredModelRegexPermission regex _ _ _ => [regex]
  | UpdateRegisteredModelRegexPermission _ _ _ _ _ => []
  | DeleteRegisteredModelRegexPermission _ _ => []
  | CreateGroupRegisteredModelRegexPermission group_name regex _ _ => [group_name; regex]
  | UpdateGroupRegisteredModelRegexPermission _ _ _ _ _ => []
  | DeleteGroupRegisteredModelRegexPermission group_name _ => [group_name]
  | CreateGroupPromptPermission group_name name permission => [group_name; name; permission]
  | UpdateGroupPromptPermission group_name name permission => [group_name; name; permission]
  | DeleteGroupPromptPermission group_name name => [group_name; name]
  | CreatePromptRegexPermission regex _ _ _ _ => [regex]
  | UpdatePromptRegexPermission _ _ _ _ _ _ => []
  | DeletePromptRegexPermission _ _ => []
  | CreateGroupPromptRegexPermission regex _ _ _ _ => [regex]
  | UpdateGroupPromptRegexPermission _ _ _ _ _ _ => []
  | DeleteGroupPromptRegexPermission _ _ => []
  | CreateScorerPermission experiment_id scorer_name username permission => [experiment_id; scorer_name; username; permission]
  | UpdateScorerPermission experiment_id scorer_name username permission => [experiment_id; scorer_name; username; permission]
  | DeleteScorerPermission experiment_id scorer_name username => [experiment_id; scorer_name; username]
  | DeleteScorerPermissionsForScorer experiment_id scorer_name => [experiment_id; scorer_name]
  | CreateGroupScorerPermission group_name experiment_id scorer_name permission => [group_name; experiment_id; scorer_name; permission]
  | UpdateGroupScorerPermission group_name experiment_id scorer_name permission => [group_name; experiment_id; scorer_name; permission]
  | DeleteGroupScorerPermission group_name experiment_id scorer_name => [group_name; experiment_id; scorer_name]
  | CreateScorerRegexPermission regex _ _ _ => [regex]
  | UpdateScorerRegexPermission _ _ _ _ _ => []
  | DeleteScorerRegexPermission _ _ => []
  | CreateGroupScorerRegexPermission group_name regex _ _ => [group_name; regex]
  | UpdateGroupScorerRegexPermission _ _ _ _ _ => []
  | DeleteGroupScorerRegexPermission _ _ => []
  | CreateGatewayEndpointPermission gateway_name username permission => [gateway_name; username; permission]
  | UpdateGatewayEndpointPermission gateway_name username permission => [gateway_name; username; permission]
  | DeleteGatewayEndpointPermission gateway_name username => [gateway_name; username]
  | RenameGatewayEndpointPermissions old_name new_name => [old_name; new_name]
  | WipeGatewayEndpointPermissions gateway_name => [gateway_name]
  | CreateGroupGatewayEndpointPermission group_name gateway_name permission => [group_name; gateway_name; permission]
  | UpdateGroupGatewayEndpointPermission group_name gateway_name permission => [group_name; gateway_name; permission]
  | DeleteGroupGatewayEndpointPermission group_name gateway_name => [group_name; gateway_name]
  | CreateGatewayEndpointRegexPermission regex _ _ _ => [regex]
  | UpdateGatewayEndpointRegexPermission _ _ _ _ _ => []
  | DeleteGatewayEndpointRegexPermission _ _ => []
  | CreateGroupGatewayEndpointRegexPermission group_name regex _ _ => [group_name; regex]
  | UpdateGroupGatewayEndpointRegexPermission _ _ _ _ _ => []
  | DeleteGroupGatewayEndpointRegexPermission _ _ => []
  | CreateGatewaySecretPermission gateway_name username permission => [gateway_name; username; permission]
  | UpdateGatewaySecretPermission gateway_name username permission => [gateway_name; username; permission]
  | DeleteGatewaySecretPermission gateway_name username => [gateway_name; username]
  | WipeGatewaySecretPermissions gateway_name => [gateway_name]
  | CreateGroupGatewaySecretPermission group_name gateway_name permission => [group_name; gateway_name; permission]
  | UpdateGroupGatewaySecretPermission group_name gateway_name permission => [group_name; gateway_name; permission]
  | DeleteGroupGatewaySecretPermission group_name gateway_name => [group_name; gateway_name]
  | CreateGatewaySecretRegexPermission regex _ _ _ => [regex]
  | UpdateGatewaySecretRegexPermission _ _ _ _ _ => []
  | DeleteGatewaySecretRegexPermission _ _ => []
  | CreateGroupGatewaySecretRegexPermission group_name regex _ _ => [group_name; regex]
  | UpdateGroupGatewaySecretRegexPermission _ _ _ _ _ => []
  | DeleteGroupGatewaySecretRegexPermission _ _ => []
  | CreateGatewayModelDefinitionPermission gateway_name username permission => [gateway_name; username; permission]
  | UpdateGatewayModelDefinitionPermission gateway_name username permission => [gateway_name; username; permission]
  | DeleteGatewayModelDefinitionPermission gateway_name username => [gateway_name; username]
  | WipeGatewayModelDefinitionPermissions gateway_name => [gateway_name]
  | CreateGroupGatewayModelDefinitionPermission group_name gateway_name permission => [group_name; gateway_name; permission]
  | UpdateGroupGatewayModelDefinitionPermission group_name gateway_name permission => [group_name; gateway_name; permission]
  | DeleteGroupGatewayModelDefinitionPermission group_name gateway_name => [group_name; gateway_name]
  | CreateGatewayModelDefinitionRegexPermission regex _ _ _ => [regex]
  | UpdateGatewayModelDefinitionRegexPermission _ _ _ _ _ => []
  | DeleteGatewayModelDefinitionRegexPermission _ _ => []
  | CreateGroupGatewayModelDefinitionRegexPermission group_name regex _ _ => [group_name; regex]
  | UpdateGroupGatewayModelDefinitionRegexPermission _ _ _ _ _ => []
  | DeleteGroupGatewayModelDefinitionRegexPermission _ _ => []
  | SetUserGroups username _ => [username]
  | AddUserToGroup username group_name => [username; group_name]
  | RemoveUserFromGroup username group_name => [username; group_name]
  | CreateWorkspacePermission workspace username permission => [workspace; username; permission]
  | UpdateWorkspacePermission workspace username permission => [workspace; username; permission]
  | DeleteWorkspacePermission workspace username => [workspace; username]
  | CreateWorkspaceGroupPermission workspace group_name permission => [workspace; group_name; permission]
  | UpdateWorkspaceGroupPermission workspace group_name permission => [workspace; group_name; permission]
  | DeleteWorkspaceGroupPermission workspace group_name => [workspace; group_name]
  | CreateWorkspaceRegexPermission regex _ _ _ => [regex]
  | UpdateWorkspaceRegexPermission regex _ _ _ _ => [regex]
  | DeleteWorkspaceRegexPermission username _ => [username]
  | CreateWorkspaceGroupRegexPermission group_name regex _ _ => [group_name; regex]
  | UpdateWorkspaceGroupRegexPermission _ _ _ _ _ => []
  | DeleteWorkspaceGroupRegexPermission group_name _ => [group_name]
  | WipeWorkspacePermissions workspace => [workspace]
  end.

Definition discard {A} (m : M db A) : M db unit := _ ← m; mret tt.

Import SqlAlchemyStore.
Definition body (c : call) : M db unit :=
  match c with
  | CreateExperimentPermission experiment_id username permission => discard (create_experiment_permission experiment_id username permission)
  | UpdateExperimentPermission experiment_id username permission => discard (update_experiment_permission experiment_id username permission)
  | DeleteExperimentPermission experiment_id username => discard (delete_experiment_permission experiment_id username)
  | CreateGroupExperimentPermission group_name experiment_id permission => discard (create_group_experiment_permission group_name experiment_id permission)
  | UpdateGroupExperimentPermission group_name experiment_id permission => discard (update_group_experiment_permission group_name experiment_id permission)
  | DeleteGroupExperimentPermission group_name experiment_id => discard (delete_group_experiment_permission group_name experiment_id)
  | CreateExperimentRegexPermission regex priority permission username => discard (create_experiment_regex_permission regex priority permission username)
  | UpdateExperimentRegexPermission regex priority permission username id => discard (update_experiment_regex_permission regex priority permission username id)
  | DeleteExperimentRegexPermission username id => discard (delete_experiment_regex_permission username id)
  | CreateGroupExperimentRegexPermission group_name regex priority permission => discard (create_group_experiment_regex_permission group_name regex priority permission)
  | UpdateGroupExperimentRegexPermission id group_name regex priority permission => discard (update_group_experiment_regex_permission id group_name regex priority permission)
  | DeleteGroupExperimentRegexPermission group_name id => discard (delete_group_experiment_regex_permission group_name id)
  | CreateRegisteredModelPermission name username permission => discard (create_registered_model_permission name username permission)
  | UpdateRegisteredModelPermission name username permission => discard (update_registered_model_permission name username permission)
  | DeleteRegisteredModelPermission name username => discard (delete_registered_model_permission name username)
  | RenameRegisteredModelPermissions old_name new_name => discard (rename_registered_model_permissions old_name new_name)
  | WipeRegisteredModelPermissions name => discard (wipe_registered_model_permissions name)
  | CreateGroupModelPermission group_name name permission => discard (create_group_model_permission group_name name permission)
  | UpdateGroupModelPermission group_name name permission => discard (update_group_model_permission group_name name permission)
  | DeleteGroupModelPermission group_name name => discard (delete_group_model_permission group_name name)
  | RenameGroupModelPermissions old_name new_name => discard (rename_group_model_permissions old_name new_name)
  | WipeGroupModelPermissions name => discard (wipe_group_model_permissions name)
  | CreateRegisteredModelRegexPermission regex priority permission username => discard (create_registered_model_regex_permission regex priority permission username)
  | UpdateRegisteredModelRegexPermission id regex priority permission username => discard (update_registered_model_regex_permission id regex priority permission username)
  | DeleteRegisteredModelRegexPermission id username => discard (delete_registered_model_regex_permission id username)
  | CreateGroupRegisteredModelRegexPermission group_name regex priority permission => discard (create_group_registered_model_regex_permission group_name regex priority permission)
  | UpdateGroupRegisteredModelRegexPermission id group_name regex priority permission => discard (update_group_registered_model_regex_permission id group_name regex priority permission)
  | DeleteGroupRegisteredModelRegexPermission group_name id => discard (delete_group_registered_model_regex_permission group_name id)
  | CreateGroupPromptPermission group_name name permission => discard (create_group_prompt_permission group_name name permission)
  | UpdateGroupPromptPermission group_name name permission => discard (update_group_prompt_permission group_name name permission)
  | DeleteGroupPromptPermission group_name name => discard (delete_group_prompt_permission group_name name)
  | CreatePromptRegexPermission regex priority permission username prompt => discard (create_prompt_regex_permission regex priority permission username prompt)
  | UpdatePromptRegexPermission id regex priority permission username prompt => discard (update_prompt_regex_permission id regex priority permission username prompt)
  | DeletePromptRegexPermission id username => discard (delete_prompt_regex_permission id username)
  | CreateGroupPromptRegexPermission regex priority permission group_name prompt => discard (create_group_prompt_regex_permission regex priority permission group_name prompt)
  | UpdateGroupPromptRegexPermission id regex priority permission group_name prompt => discard (update_group_prompt_regex_permission id regex priority permission group_name prompt)
  | DeleteGroupPromptRegexPermission id group_name => discard (delete_group_prompt_regex_permission id group_name)
  | CreateScorerPermission experiment_id scorer_name username permission => discard (create_scorer_permission experiment_id scorer_name username permission)
  | UpdateScorerPermission experiment_id scorer_name username permission => discard (update_scorer_permission experiment_id scorer_name username permission)
  | DeleteScorerPermission experiment_id scorer_name username => discard (delete_scorer_permission experiment_id scorer_name username)
  | DeleteScorerPermissionsForScorer experiment_id scorer_name => discard (delete_scorer_permissions_for_scorer experiment_id scorer_name)
  | CreateGroupScorerPermission group_name experiment_id scorer_name permission => discard (create_group_scorer_permission group_name experiment_id scorer_name permission)
  | UpdateGroupScorerPermission group_name experiment_id scorer_name permission => discard (update_group_scorer_permission group_name experiment_id scorer_name permission)
  | DeleteGroupScorerPermission group_name experiment_id scorer_name => discard (delete_group_scorer_permission group_name experiment_id scorer_name)
  | CreateScorerRegexPermission regex priority permission username => discard (create_scorer_regex_permission regex priority permission username)
  | UpdateScorerRegexPermission id regex priority permission username => discard (update_scorer_regex_permission id regex priority permission username)
  | DeleteScorerRegexPermission id username => discard (delete_scorer_regex_permission id username)
  | CreateGroupScorerRegexPermission group_name regex priority permission => discard (create_group_scorer_regex_permission group_name regex priority permission)
  | UpdateGroupScorerRegexPermission id group_name regex priority permission => discard (update_group_scorer_regex_permission id group_name regex priority permission)
  | DeleteGroupScorerRegexPermission id group_name => discard (delete_group_scorer_regex_permission id group_name)
  | CreateGatewayEndpointPermission gateway_name username permission => discard (create_gateway_endpoint_permission gateway_name username permission)
  | UpdateGatewayEndpointPermission gateway_name username permission => discard (update_gateway_endpoint_permission gateway_name username permission)
  | DeleteGatewayEndpointPermission gateway_name username => discard (delete_gateway_endpoint_permission gateway_name username)
  | RenameGatewayEndpointPermissions old_name new_name => discard (rename_gateway_endpoint_permissions old_name new_name)
  | WipeGatewayEndpointPermissions gateway_name => discard (wipe_gateway_endpoint_permissions gateway_name)
  | CreateGroupGatewayEndpointPermission group_name gateway_name permission => discard (create_group_gateway_endpoint_permission group_name gateway_name permission)
  | UpdateGroupGatewayEndpointPermission group_name gateway_name permission => discard (update_group_gateway_endpoint_permission group_name gateway_name permission)
  | DeleteGroupGatewayEndpointPermission group_name gateway_name => discard (delete_group_gateway_endpoint_permission group_name gateway_name)
  | CreateGatewayEndpointRegexPermission regex priority permission username => discard (create_gateway_endpoint_regex_permission regex priority permission username)
  | UpdateGatewayEndpointRegexPermission id regex priority permission username => discard (update_gateway_endpoint_regex_permission id regex priority permission username)
  | DeleteGatewayEndpointRegexPermission id username => discard (delete_gateway_endpoint_regex_permission id username)
  | CreateGroupGatewayEndpointRegexPermission group_name regex priority permission => discard (create_group_gateway_endpoint_regex_permission group_name regex priority permission)
  | UpdateGroupGatewayEndpointRegexPermission id group_name regex priority permission => discard (update_group_gateway_endpoint_regex_permission id group_name regex priority permission)
  | DeleteGroupGatewayEndpointRegexPermission id group_name => discard (delete_group_gateway_endpoint_regex_permission id group_name)
  | CreateGatewaySecretPermission gateway_name username permission => discard (create_gateway_secret_permission gateway_name username permission)
  | UpdateGatewaySecretPermission gateway_name username permission => discard (update_gateway_secret_permission gateway_name username permission)
  | DeleteGatewaySecretPermission gateway_name username => discard (delete_gateway_secret_permission gateway_name username)
  | WipeGatewaySecretPermissions gateway_name => discard (wipe_gateway_secret_permissions gateway_name)
  | CreateGroupGatewaySecretPermission group_name gateway_name permission => discard (create_group_gateway_secret_permission group_name gateway_name permission)
  | UpdateGroupGatewaySecretPermission group_name gateway_name permission => discard (update_group_gateway_secret_permission group_name gateway_name permission)
  | DeleteGroupGatewaySecretPermission group_name gateway_name => discard (delete_group_gateway_secret_permission group_name gateway_name)
  | CreateGatewaySecretRegexPermission regex priority permission username => discard (create_gateway_secret_regex_permission regex priority permission username)
  | UpdateGatewaySecretRegexPermission id regex priority permission username => discard (update_gateway_secret_regex_permission id regex priority permission username)
  | DeleteGatewaySecretRegexPermission id username => discard (delete_gateway_secret_regex_permission id username)
  | CreateGroupGatewaySecretRegexPermission group_name regex priority permission => discard (create_group_gateway_secret_regex_permission group_name regex priority permission)
  | UpdateGroupGatewaySecretRegexPermission id group_name regex priority permission => discard (update_group_gateway_secret_regex_permission id group_name regex priority permission)
  | DeleteGroupGatewaySecretRegexPermission id group_name => discard (delete_group_gateway_secret_regex_permission id group_name)
  | CreateGatewayModelDefinitionPermission gateway_name username permission => discard (create_gateway_model_definition_permission gateway_name username permission)
  | UpdateGatewayModelDefinitionPermission gateway_name username permission => discard (update_gateway_model_definition_permission gateway_name username permission)
  | DeleteGatewayModelDefinitionPermission gateway_name username => discard (delete_gateway_model_definition_permission gateway_name username)
  | WipeGatewayModelDefinitionPermissions gateway_name => discard (wipe_gateway_model_definition_permissions gateway_name)
  | CreateGroupGatewayModelDefinitionPermission group_name gateway_name permission => discard (create_group_gateway_model_definition_permission group_name gateway_name permission)
  | UpdateGroupGatewayModelDefinitionPermission group_name gateway_name permission => discard (update_group_gateway_model_definition_permission group_name gateway_name permission)
  | DeleteGroupGatewayModelDefinitionPermission group_name gateway_name => discard (delete_group_gateway_model_definition_permission group_name gateway_name)
  | CreateGatewayModelDefinitionRegexPermission regex priority permission username => discard (create_gateway_model_definition_regex_permission regex priority permission username)
  | UpdateGatewayModelDefinitionRegexPermission id regex priority permission username => discard (update_gateway_model_definition_regex_permission id regex priority permission username)
  | DeleteGatewayModelDefinitionRegexPermission id username => discard (delete_gateway_model_definition_regex_permission id username)
  | CreateGroupGatewayModelDefinitionRegexPermission group_name regex priority permission => discard (create_group_gateway_model_definition_regex_permission group_name regex priority permission)
  | UpdateGroupGatewayModelDefinitionRegexPermission id group_name regex priority permission => discard (update_group_gateway_model_definition_regex_permission id group_name regex priority permission)
  | DeleteGroupGatewayModelDefinitionRegexPermission id group_name => discard (delete_group_gateway_model_definition_regex_permission id group_name)
  | SetUserGroups username group_names => discard (set_user_groups username group_names)
  | AddUserToGroup username group_name => discard (add_user_to_group username group_name)
  | RemoveUserFromGroup username group_name => discard (remove_user_from_group username group_name)
  | CreateWorkspacePermission workspace username permission => discard (create_workspace_permission workspace username permission)
  | UpdateWorkspacePermission workspace username permission => discard (update_workspace_permission workspace username permission)
  | DeleteWorkspacePermission workspace username => discard (delete_workspace_permission workspace username)
  | CreateWorkspaceGroupPermission workspace group_name permission => discard (create_workspace_group_permission workspace group_name permission)
  | UpdateWorkspaceGroupPermission workspace group_name permission => discard (update_workspace_group_permission workspace group_name permission)
  | DeleteWorkspaceGroupPermission workspace group_name => discard (delete_workspace_group_permission workspace group_name)
  | CreateWorkspaceRegexPermission regex priority permission username => discard (create_workspace_regex_permission regex priority permission username)
  | UpdateWorkspaceRegexPermission regex priority permission username id => discard (update_workspace_regex_permission regex priority permission username id)
  | DeleteWorkspaceRegexPermission username id => discard (delete_workspace_regex_permission username id)
  | CreateWorkspaceGroupRegexPermission group_name regex priority permission => discard (create_workspace_group_regex_permission group_name regex priority permission)
  | UpdateWorkspaceGroupRegexPermission id group_name regex priority permission => discard (update_workspace_group_regex_permission id group_name regex priority permission)
  | DeleteWorkspaceGroupRegexPermission group_name id => discard (delete_workspace_group_regex_permission group_name id)
  | WipeWorkspacePermissions workspace => discard (wipe_workspace_permissions workspace)
  end.

Definition run_call (c : call) : M world unit := called (method_name c) (arguments c) (body c).
End wiring.
