(* ===== verification/StoreFacts.v ===== *)
(** * What a store call can change

    A repository operation writes the permission tables of one family only, and
    an operation that raises leaves the database as it was. Both are proved once
    per building block and applied to every mutating call of the store. *)
From S2P Require Import Prelude PyStrings Permissions Regex RegexSafety Database Repositories RepositoryInvariant Groups Cache Resolution Store RepositoryFacts ResolutionFacts.

(** ** Effects bounded by a relation *)

Definition respects (R : relation db) {A} (m : M db A) : Prop := ∀ d, R d (m d).2.

(** Raising changes nothing. *)
Definition atomic {A} (m : M db A) : Prop := ∀ d e d', m d = (Raise e, d') → d' = d.

(** Everything but the permission tables of [t]. *)
Definition same_outside (t : table) (d d' : db) : Prop :=
  users d' = users d ∧ groups d' = groups d ∧ user_groups d' = user_groups d ∧
  user_identities d' = user_identities d ∧ auth_sessions d' = auth_sessions d ∧ auth_states d' = auth_states d ∧
  ∀ t', t' ≠ t → perms d' t' = perms d t'.

#[export] Instance same_outside_preorder t : PreOrder (same_outside t).
Proof.
  split; [by intros d|]. intros d1 d2 d3 (?&?&?&?&?&?&H12) (?&?&?&?&?&?&H23).
  split_and!; try congruence. intros t' Ht. by rewrite H23 ?H12.
Qed.

Lemma same_outside_set_perms t f d : same_outside t d (set_perms t f d).
Proof. split_and!; try done. intros t' Ht. apply perms_set_perms_ne; congruence. Qed.

Create HintDb frames discriminated.

Section respects.
Context `{SqlBackend} (R : relation db) `{!PreOrder R}.

Lemma respects_ret {A} (a : A) : respects R (mret a).
Proof. intros d. reflexivity. Qed.
Lemma respects_lift {A} (o : outcome A) : respects R (lift o).
Proof. intros d. reflexivity. Qed.
Lemma respects_ask {A} (f : db → outcome A) : respects R (ask f).
Proof. intros d. reflexivity. Qed.
Lemma respects_gets {A} (f : db → A) : respects R (gets f).
Proof. intros d. reflexivity. Qed.
Lemma respects_raise {A} e : respects R (raise e : M db A).
Proof. intros d. reflexivity. Qed.
Lemma respects_get_user n : respects R (get_user n).
Proof. intros d. reflexivity. Qed.
Lemma respects_get_group n : respects R (get_group n).
Proof. intros d. reflexivity. Qed.

Lemma respects_bind {A B} (m : M db A) (f : A → M db B) :
  respects R m → (∀ a, respects R (f a)) → respects R (m ≫= f).
Proof.
  intros Hm Hf d. rewrite M_bind_run. specialize (Hm d). destruct (m d) as [[a|e] d']; [|exact Hm].
  etrans; [exact Hm|apply Hf].
Qed.

Lemma respects_catch {A} (m : M db A) h : respects R m → (∀ e, respects R (h e)) → respects R (catch m h).
Proof.
  intros Hm Hh d. rewrite catch_run. specialize (Hm d). destruct (m d) as [[a|e] d']; [exact Hm|].
  etrans; [exact Hm|apply Hh].
Qed.

Lemma respects_managed {A} (m : M db A) : respects R m → respects R (managed m).
Proof. intros Hm d. rewrite managed_run. specialize (Hm d). destruct (m d) as [[a|e] d']; [exact Hm|reflexivity]. Qed.

Lemma respects_decide {A} (P : Prop) `{Decision P} (m1 m2 : M db A) :
  respects R m1 → respects R m2 → respects R (if decide P then m1 else m2).
Proof. by destruct (decide P). Qed.
End respects.

Section same_outside.
Context `{SqlBackend} (t : table).

Lemma respects_write_t_user f : respects (same_outside t) (write_t_user t f).
Proof. intros d. unfold write_t_user. case_match; [apply same_outside_set_perms|reflexivity]. Qed.
Lemma respects_write_t_group f : respects (same_outside t) (write_t_group t f).
Proof. intros d. unfold write_t_group. case_match; [apply same_outside_set_perms|reflexivity]. Qed.
Lemma respects_write_t_regex f : respects (same_outside t) (write_t_regex t f).
Proof. intros d. unfold write_t_regex. case_match; [apply same_outside_set_perms|reflexivity]. Qed.
Lemma respects_write_t_group_regex f : respects (same_outside t) (write_t_group_regex t f).
Proof. intros d. unfold write_t_group_regex. case_match; [apply same_outside_set_perms|reflexivity]. Qed.

Lemma respects_conflict {A} (m : M db A) : respects (same_outside t) m → respects (same_outside t) (already_exists_on_conflict m).
Proof. intros Hm. apply respects_catch; [apply _|done|]. intros []; apply respects_raise; apply _. Qed.

Lemma respects_insert_regex_row regex priority owner p prompt :
  respects (same_outside t) (RegexPermissions.insert_regex_row t regex priority owner p prompt).
Proof. intros d. unfold RegexPermissions.insert_regex_row. apply respects_bind; [apply _|apply respects_write_t_regex|]. intros ?. apply respects_ret, _. Qed.
Lemma respects_insert_group_regex_row regex priority owner p prompt :
  respects (same_outside t) (GroupRegexPermissions.insert_group_regex_row t regex priority owner p prompt).
Proof. intros d. unfold GroupRegexPermissions.insert_group_regex_row. apply respects_bind; [apply _|apply respects_write_t_group_regex|]. intros ?. apply respects_ret, _. Qed.
End same_outside.

Section atomic.
Context `{SqlBackend}.

Lemma atomic_managed {A} (m : M db A) : atomic (managed m).
Proof. intros d e d' [-> _]%managed_raise. done. Qed.
Lemma atomic_ret {A} (a : A) : atomic (mret a).
Proof. by intros d e d' [=]. Qed.
Lemma atomic_lift_bind {A B} (o : outcome A) (f : A → M db B) : (∀ a, atomic (f a)) → atomic (lift o ≫= f).
Proof. intros Hf d e d'. rewrite M_bind_run lift_run. destruct o; [apply Hf|by intros [= _ <-]]. Qed.
(** A transaction followed by code that cannot raise. *)
Lemma atomic_then {A B} (m : M db A) (f : A → M db B) :
  atomic m → (∀ a d1 d2 e, m d1 = (Ok a, d2) → (f a d2).1 ≠ Raise e) → atomic (m ≫= f).
Proof.
  intros Hm Hf d e d'. rewrite M_bind_run. destruct (m d) as [[a|e'] d1] eqn:E.
  - intros Hr. exfalso. apply (Hf a d d1 e E). by rewrite Hr.
  - intros [= -> <-]. by apply Hm in E.
Qed.
End atomic.

(** ** The repository operations, read through *)

(** Open the operation the store method delegates to. *)
Ltac open_operation := cbv beta iota delta [
  discard SqlAlchemyStore.get_by_swapped_arguments SqlAlchemyStore.revoke_by_swapped_arguments
  UserPermissions.grant_permission UserPermissions.update_permission UserPermissions.revoke_permission UserPermissions.rename
  UserPermissions.rename_checked UserPermissions.wipe UserPermissions._get_permission
  GroupPermissions.grant_group_permission GroupPermissions.grant_uncaught GroupPermissions.update_group_permission
  GroupPermissions.revoke_group_permission GroupPermissions.rename GroupPermissions.rename_checked GroupPermissions.wipe
  GroupPermissions.insert_group_row GroupPermissions.one_of_group
  PromptGroupPermissions.grant_prompt_permission_to_group PromptGroupPermissions.update_prompt_permission_for_group
  PromptGroupPermissions.revoke_prompt_permission_from_group PromptGroupPermissions._get_prompt_group_permission
  RegexPermissions.grant RegexPermissions.update RegexPermissions.revoke RegexPermissions._get_regex_permission GatewayRegexPermissions.update
  ModelRegexPermissions.grant ModelRegexPermissions.update ModelRegexPermissions.revoke ModelRegexPermissions._get_registered_model_regex_permission
  GroupRegexPermissions.grant GroupRegexPermissions.update GroupRegexPermissions.revoke GroupRegexPermissions._get_group_regex_permission
  ModelGroupRegexPermissions.grant ModelGroupRegexPermissions.update ModelGroupRegexPermissions.revoke
  ModelGroupRegexPermissions._get_registered_model_group_regex_permission
  SqlAlchemyStore.get_group_by_number SqlAlchemyStore._get_group_regex_permission_by_text
  WorkspacePermissions.create WorkspacePermissions.update WorkspacePermissions.delete WorkspacePermissions.delete_all_for_workspace
  WorkspacePermissions.group_create WorkspacePermissions.group_update WorkspacePermissions.group_delete
  WorkspacePermissions.group_delete_all_for_workspace WorkspacePermissions.one_workspace_row].

(** Walk through the program under the goal's [respects]. *)
Ltac frame_step :=
  first
    [ apply same_outside_preorder | apply respects_managed | apply respects_conflict
    | apply respects_bind; [apply _| |intros ?]
    | apply respects_decide
    | apply respects_ret; apply _ | apply respects_lift; apply _ | apply respects_ask; apply _ | apply respects_gets; apply _
    | apply respects_raise; apply _ | apply respects_get_user; apply _ | apply respects_get_group; apply _
    | apply respects_write_t_user | apply respects_write_t_group | apply respects_write_t_regex | apply respects_write_t_group_regex
    | apply respects_insert_regex_row | apply respects_insert_group_regex_row
    | case_match ].
Ltac frame := open_operation; repeat frame_step.

Ltac atomic_step :=
  first [ apply atomic_managed | apply atomic_ret | apply atomic_lift_bind; intros ? ].

(** ** Every mutating call *)

Ltac head x := match x with ?f _ => head f | _ => x end.
(** From the call to the repository operation. *)
Ltac open_call := cbn [body]; match goal with |- context [discard ?x] => let h := head x in unfold h end.

Section calls.
Context `{SqlBackend, PyRe, ColumnTyping}.

(** The calls that go further than the tables of one resource type. *)
Definition workspace_calls : list string :=
  _MEMBERSHIP_CUD_METHODS ++ _WORKSPACE_USER_CUD_METHODS ++ _WORKSPACE_GROUP_CUD_METHODS ++ _WORKSPACE_WIPE_METHODS ++
  ["create_workspace_regex_permission"; "update_workspace_regex_permission"; "delete_workspace_regex_permission";
   "create_workspace_group_regex_permission"; "update_workspace_group_regex_permission"; "delete_workspace_group_regex_permission"].

Definition is_workspace_call (c : call) : bool := bool_decide (method_name c ∈ workspace_calls).

Ltac frame_in t := exists t; split; [discriminate|]; solve [frame].

(** A permission call on a resource type writes the tables of that type. *)
Lemma permission_call_frame c :
  is_workspace_call c = false → ∃ t, t ≠ Workspaces ∧ respects (same_outside t) (body c).
Proof.
  destruct c; intros Hc; try discriminate Hc; clear Hc; open_call;
    first [ frame_in Experiments | frame_in RegisteredModels | frame_in Scorers
          | frame_in GatewayEndpoints | frame_in GatewaySecrets | frame_in GatewayModelDefinitions ].
Qed.
End calls.

(** * The store calls keep the database well formed, and fail without a trace *)

Section wf.
Context `{SqlBackend, PyRe, ColumnTyping}.

Lemma preserves_discard {A} (m : M db A) : preserves m → preserves (discard m).
Proof. intros Hm. apply preserves_bind; [done|]. intros ?. apply preserves_ret. Qed.

Lemma GatewayRegexPermissions_update t regex priority p username id :
  preserves (GatewayRegexPermissions.update t regex priority p username id).
Proof.
  apply preserves_lift_bind. intros [] _. apply preserves_validated. intros Hp. apply preserves_managed.
  eapply triple_bind; [apply triple_get_user|]. intros u.
  eapply triple_bind; [apply triple_one_regex; naive_solver|]. intros r. by apply triple_replace_regex.
Qed.

Lemma PromptGroupPermissions_grant group_name k p :
  preserves (PromptGroupPermissions.grant_prompt_permission_to_group group_name k p).
Proof. apply GroupPermissions_grant_uncaught. Qed.

Lemma triple_get_group_by_number n : triple wf_db (SqlAlchemyStore.get_group_by_number n) (λ _, wf_db).
Proof. unfold SqlAlchemyStore.get_group_by_number. case_match; [by apply triple_ask|apply triple_raise]. Qed.

Lemma triple_regex_by_text t text gid :
  triple wf_db (SqlAlchemyStore._get_group_regex_permission_by_text t text gid) (λ _, wf_db).
Proof. unfold SqlAlchemyStore._get_group_regex_permission_by_text. case_match; [by apply triple_ask|apply triple_raise]. Qed.

Lemma revoke_by_swapped_arguments_wf t id group_name :
  preserves (SqlAlchemyStore.revoke_by_swapped_arguments t id group_name).
Proof.
  apply preserves_managed. eapply triple_bind; [apply triple_get_group_by_number|]. intros g.
  eapply triple_bind; [apply triple_regex_by_text|]. intros r. by apply triple_delete_group_regex.
Qed.

Lemma triple_write_t_user_filter t (P : perm_row → Prop) `{∀ r, Decision (P r)} : triple wf_db (write_t_user t (filter P)) (λ _, wf_db).
Proof. apply triple_write_t_user. intros d Hwf. split; [done|]. by apply user_rows_ok_filter. Qed.
Lemma triple_write_t_group_filter t (P : perm_row → Prop) `{∀ r, Decision (P r)} : triple wf_db (write_t_group t (filter P)) (λ _, wf_db).
Proof. apply triple_write_t_group. intros d Hwf. split; [done|]. by apply rows_valid_filter, rows_valid_group. Qed.

Lemma delete_scorer_permissions_for_scorer_wf experiment_id scorer_name :
  preserves (SqlAlchemyStore.delete_scorer_permissions_for_scorer experiment_id scorer_name).
Proof.
  apply preserves_managed. eapply triple_bind; [apply triple_write_t_user_filter|]. intros []. apply triple_write_t_group_filter.
Qed.

Lemma preserves_managed_user {A} username (m : user_row → M db A) :
  (∀ d u, wf_db d → u ∈ users d → wf_db (m u d).2) → preserves (managed (user ← get_user username; m user)).
Proof.
  intros Hm. apply preserves_managed. intros d a d' Hwf (u&?&(->&Hu&_)%get_user_ok&Hrun)%M_bind_ok.
  specialize (Hm d u Hwf Hu). by rewrite Hrun in Hm.
Qed.

Lemma preserves_managed_group {A} group_name (m : group_row → M db A) :
  (∀ g, preserves (m g)) → preserves (managed (group ← get_group group_name; m group)).
Proof.
  intros Hm. apply preserves_managed. intros d a d' Hwf (g&?&(->&Hg&_)%get_group_ok&Hrun)%M_bind_ok.
  specialize (Hm g d Hwf). by rewrite Hrun in Hm.
Qed.
End wf.

#[export] Hint Resolve GatewayRegexPermissions_update PromptGroupPermissions_grant revoke_by_swapped_arguments_wf
  delete_scorer_permissions_for_scorer_wf WorkspacePermissions_create preserves_bind : wf.

Section calls.
Context `{SqlBackend, PyRe, ColumnTyping}.

Lemma body_wf c : preserves (body c).
Proof.
  destruct c; cbn [body]; apply preserves_discard; try by eauto with wf.
  all: match goal with |- preserves ?x => let h := head x in unfold h end.
  all: first [ by eauto with wf | by apply preserves_managed_group; eauto with wf
             | apply preserves_managed_user; intros d u Hwf Hu;
               first [by apply WorkspacePermissions_create | by apply WorkspacePermissions_update | by apply WorkspacePermissions_delete] ].
Qed.
(** ** Failing calls *)

Lemma write_filter_ok t (P : perm_row → Prop) `{∀ r, Decision (P r)} d e d' :
  wf_db d → write_t_group t (filter P) d ≠ (Raise e, d').
Proof.
  intros Hwf (->&->&[])%write_t_group_raise. apply NoDup_fmap_filter. by destruct (wf_perms _ Hwf t).
Qed.

(** From a well-formed database, a call that raises leaves it alone. *)
Definition atomic_wf {A} (m : M db A) : Prop := ∀ d e d', wf_db d → m d = (Raise e, d') → d' = d.

Lemma atomic_atomic_wf {A} (m : M db A) : atomic m → atomic_wf m.
Proof. intros Hm d e d' _. apply Hm. Qed.

Lemma atomic_wf_discard {A} (m : M db A) : atomic_wf m → atomic_wf (discard m).
Proof. intros Hm d e d' Hwf. unfold discard. rewrite M_bind_run. destruct (m d) as [[a|e'] d1] eqn:E; [done|]. intros [= -> <-]. eauto. Qed.

(** Two transactions of which the second cannot fail. *)
Lemma atomic_wf_then {A B} (m : M db A) (f : A → M db B) :
  preserves m → atomic m → (∀ a d e, wf_db d → (f a d).1 ≠ Raise e) → atomic_wf (m ≫= f).
Proof.
  intros Hwf Hm Hf d e d' Hd. rewrite M_bind_run. specialize (Hwf d Hd). destruct (m d) as [[a|e'] d1] eqn:E.
  - intros Hr. destruct (Hf a d1 e Hwf). by rewrite Hr.
  - intros [= -> <-]. exact (Hm _ _ _ E).
Qed.

Lemma wipe_never_raises t k d e : wf_db d → (GroupPermissions.wipe t k d).1 ≠ Raise e.
Proof.
  intros Hwf. unfold GroupPermissions.wipe. autorewrite with run.
  destruct (write_t_group t _ d) as [[a|e'] d1] eqn:E; [done|]. by apply write_filter_ok in E.
Qed.

Lemma wipe_both_atomic t k : atomic_wf (_ ← UserPermissions.wipe t k; GroupPermissions.wipe t k).
Proof.
  apply atomic_wf_then; [apply UserPermissions_wipe|apply atomic_managed|]. intros _ d e. apply wipe_never_raises.
Qed.

Lemma wipe_workspace_atomic workspace : atomic_wf (SqlAlchemyStore.wipe_workspace_permissions workspace).
Proof.
  apply atomic_wf_then; [apply WorkspacePermissions_delete_all|apply atomic_managed|].
  intros n d e Hwf. unfold WorkspacePermissions.group_delete_all_for_workspace. autorewrite with run.
  destruct (write_t_group Workspaces _ d) as [[a|e'] d1] eqn:E; [done|]. by apply write_filter_ok in E.
Qed.

(** The one call that may fail half-way. *)
Definition is_gateway_rename (c : call) : bool :=
  match c with RenameGatewayEndpointPermissions _ _ => true | _ => false end.

Lemma body_atomic c : is_gateway_rename c = false → atomic_wf (body c).
Proof.
  destruct c; intros Hc; try discriminate Hc; clear Hc; cbn [body]; apply atomic_wf_discard;
    match goal with |- atomic_wf ?x => let h := head x in unfold h end;
    first [ apply atomic_atomic_wf, atomic_managed | apply wipe_both_atomic | apply wipe_workspace_atomic
          | apply atomic_atomic_wf; open_operation; repeat atomic_step ].
Qed.
End calls.

(** ** The gateway group patterns *)

Section gateway.
Context `{SqlBackend, PyRe, ColumnTyping}.

(** The group whose name the database takes the number for. *)
Definition named_by_number (id : Z) (g : group_row) : Prop :=
  ∃ eq, text_column_eq id = Some eq ∧ eq (g_name g) = true.

Lemma group_by_number_missing id d :
  (∀ g, g ∈ groups d → ¬ named_by_number id g) → ∃ e, SqlAlchemyStore.get_group_by_number id d = (Raise e, d).
Proof.
  intros Hno. unfold SqlAlchemyStore.get_group_by_number. destruct (text_column_eq id) as [eq|] eqn:E; [|by eexists].
  eexists. unfold ask. rewrite (proj2 (filter_nil_iff _ _)); [done|]. intros g Hg Heq. apply (Hno g Hg). by exists eq.
Qed.

Lemma managed_raises {A} (m : M db A) d e : m d = (Raise e, d) → ∃ code, managed m d = (Raise (MlflowException code), d).
Proof. intros Hm. rewrite managed_run Hm. unfold session_exc. destruct e; by eexists. Qed.

(** Fetching or deleting a gateway pattern of a group raises and changes
    nothing, unless some group happens to be named by the number of the pattern:
    the store passes the id as the group name. *)
Theorem gateway_group_patterns_out_of_reach t id group_name d :
  (∀ g, g ∈ groups d → ¬ named_by_number id g) →
  (∃ code, SqlAlchemyStore.get_by_swapped_arguments t id group_name d = (Raise (MlflowException code), d)) ∧
  (∃ code, SqlAlchemyStore.revoke_by_swapped_arguments t id group_name d = (Raise (MlflowException code), d)).
Proof.
  intros [e He]%group_by_number_missing.
  split; eapply managed_raises; rewrite M_bind_run He; reflexivity.
Qed.
End gateway.
