(* ===== verification/StoreCaches.v ===== *)
(** * The store keeps the caches coherent

    A cached workspace permission depends on a few rows only: those of the user,
    of the user's groups, and the patterns. Every mutating call of the store either
    leaves these rows alone or drops the entries that depend on them. *)
From S2P Require Import Prelude PyStrings Permissions Regex RegexSafety Database Repositories RepositoryFacts RepositoryInvariant Groups Cache Resolution ResolutionFacts Store StoreFacts.

(** ** The rows a workspace lookup reads *)

Definition memberships_of (u : user_row) (d : db) : list membership_row :=
  filter (λ m, m_user_id m = u_id u) (user_groups d).

Definition direct_rows (u : user_row) (ws : string) (d : db) : list perm_row :=
  filter (λ r, p_key r = Key ws ∧ p_owner r = u_id u) (t_user (perms d Workspaces)).

Definition group_grants (u : user_row) (ws : string) (d : db) : list perm_row :=
  filter (λ r, p_key r = Key ws ∧ p_owner r ∈ m_group_id <$> memberships_of u d) (t_group (perms d Workspaces)).

Record same_view (u : user_row) (ws : string) (d d' : db) : Prop := {
  view_memberships : memberships_of u d' = memberships_of u d;
  view_direct : direct_rows u ws d' = direct_rows u ws d;
  view_groups : group_grants u ws d' = group_grants u ws d;
}.

Definition same_patterns (d d' : db) : Prop :=
  t_regex (perms d' Workspaces) = t_regex (perms d Workspaces) ∧
  t_group_regex (perms d' Workspaces) = t_group_regex (perms d Workspaces).

Lemma bind_unrelated (r : perm_row) (l : list membership_row) :
  p_owner r ∉ m_group_id <$> l → (ug ← l; if decide (p_owner r = m_group_id ug) then [r] else []) = [].
Proof.
  induction l as [|ug l IH]; [done|]. rewrite fmap_cons not_elem_of_cons bind_cons. intros [Hne Hl].
  rewrite decide_False; [|done]. by apply IH.
Qed.

(** The join of the group grants with all memberships is the join of the
    relevant grants with the user's own. *)
Lemma highest_candidates_view ws u d :
  WorkspacePermissions.highest_candidates ws (u_id u) d =
  (r ← group_grants u ws d; ug ← memberships_of u d; if decide (p_owner r = m_group_id ug) then [r] else []).
Proof.
  unfold WorkspacePermissions.highest_candidates, WorkspacePermissions.group_rows, group_grants.
  assert (∀ r, (ug ← user_groups d; if decide (p_owner r = m_group_id ug ∧ p_key r = Key ws ∧ m_user_id ug = u_id u) then [r] else []) =
    if decide (p_key r = Key ws)
    then ug ← memberships_of u d; if decide (p_owner r = m_group_id ug) then [r] else [] else []) as Hrow.
  { intros r. unfold memberships_of. induction (user_groups d) as [|ug ugs IH]; [by case_decide|].
    rewrite bind_cons IH filter_cons. repeat case_decide; try tauto; rewrite ?bind_cons; repeat case_decide; tauto || done. }
  induction (t_group (perms d Workspaces)) as [|r rows IH]; [done|].
  rewrite bind_cons IH Hrow filter_cons. destruct (decide (p_key r = Key ws)) as [Hk|Hk].
  - case_decide as Hin; [by rewrite bind_cons|].
    rewrite bind_unrelated; [done|tauto].
  - rewrite decide_False; [|tauto]. done.
Qed.

(** ** Programs that read the same on two databases *)

Section lookups.
Context `{SqlBackend, PyRe, Config, CacheBackend PermissionResult, CacheBackend Permission} (d d' : db).

Definition agrees {A} (m : M db A) : Prop := read_only m ∧ (m d').1 = (m d).1.

Lemma agrees_ret {A} (a : A) : agrees (mret a).
Proof. done. Qed.
Lemma agrees_lift {A} (o : outcome A) : agrees (lift o).
Proof. done. Qed.
Lemma agrees_gets {A} (f : db → A) : f d' = f d → agrees (gets f).
Proof. intros Hf. split; [done|]. cbn. by rewrite Hf. Qed.
Lemma agrees_ask {A} (f : db → outcome A) : f d' = f d → agrees (ask f).
Proof. intros Hf. split; done. Qed.

Lemma agrees_bind {A B} (m : M db A) (f : A → M db B) : agrees m → (∀ a, agrees (f a)) → agrees (m ≫= f).
Proof.
  intros [Hm He] Hf. split; [apply read_only_bind; [done|apply Hf]|].
  rewrite !M_bind_run (read_only_run m d) // (read_only_run m d') // He. destruct (m d).1; [apply Hf|done].
Qed.

Lemma agrees_managed {A} (m : M db A) : agrees m → agrees (managed m).
Proof.
  intros [Hm He]. split; [by apply read_only_managed|].
  rewrite !managed_run (read_only_run m d) // (read_only_run m d') // He. by destruct (m d).1.
Qed.

Lemma agrees_catch {A} (m : M db A) h : agrees m → (∀ e, agrees (h e)) → agrees (catch m h).
Proof.
  intros [Hm He] Hh. split; [apply read_only_catch; [done|apply Hh]|].
  rewrite !catch_run (read_only_run m d) // (read_only_run m d') // He. destruct (m d).1; [done|apply Hh].
Qed.

Lemma agrees_none_on_error {A} (m : M db (option A)) : agrees m → agrees (none_on_error m).
Proof. intros Hm. by apply agrees_catch. Qed.

Lemma agrees_decide {A} (P : Prop) `{Decision P} (m1 m2 : M db A) : agrees m1 → agrees m2 → agrees (if decide P then m1 else m2).
Proof. by destruct (decide P). Qed.

Lemma agrees_first_resolver resolvers order :
  map_Forall (λ _ m, agrees m) resolvers → agrees (first_resolver resolvers order).
Proof.
  intros Hr. induction order as [|s order IH]; [apply agrees_ret|]. cbn [first_resolver].
  destruct (resolvers !! s) as [m|] eqn:E; [|done]. apply agrees_bind; [exact (Hr _ _ E)|]. intros [p|]; [apply agrees_ret|done].
Qed.

(** ** Two databases that show the user the same rows *)

Context (Hwf : wf_db d) (Hwf' : wf_db d') (Hus : users d' = users d) (Hpat : same_patterns d d').
Context (username ws : string) (Hview : ∀ u, u ∈ users d → u_username u = username → same_view u ws d d').

Lemma agrees_join_user {A} (owner : A → Z) (rows : db → list A) n :
  rows d' = rows d → agrees (gets (λ d, join_user owner (rows d) n d)).
Proof. intros Hr. apply agrees_gets. unfold join_user. by rewrite Hus Hr. Qed.

(** The body only matters for the user of that name, if there is one. *)
Lemma agrees_after_get_user {A} (f : user_row → M db A) :
  (∀ u, read_only (f u)) →
  (∀ u, u ∈ users d → same_view u ws d d' → agrees (f u)) →
  agrees (user ← get_user username; f user).
Proof.
  intros Hro Hf. split; [apply read_only_bind; [apply read_only_get_user|done]|].
  destruct (username_cases d username Hwf) as [(u&Hu&Hn)|Hno].
  - rewrite -Hn !M_bind_run (get_user_found d u) // (get_user_found d' u) ?Hus //. apply Hf; [done|by apply Hview].
  - by rewrite !M_bind_run (get_user_missing d) // (get_user_missing d') ?Hus.
Qed.

Lemma agrees_direct : agrees (_resolve_user_direct username ws).
Proof.
  apply agrees_none_on_error, agrees_bind; [|intros r; by apply agrees_bind].
  apply agrees_managed, agrees_after_get_user.
  - intros u. unfold WorkspacePermissions.get, WorkspacePermissions.one_workspace_row. reads.
  - intros u Hu Hv. apply agrees_managed, agrees_ask.
    pose proof (view_direct _ _ _ _ Hv) as Hd. unfold direct_rows in Hd. unfold WorkspacePermissions.user_rows. by rewrite Hd.
Qed.

Lemma agrees_group : agrees (_resolve_group_direct username ws).
Proof.
  apply agrees_none_on_error, agrees_bind; [|intros r; by apply agrees_bind].
  apply agrees_managed, agrees_after_get_user.
  - intros u. unfold WorkspacePermissions.get_highest_for_user. reads.
  - intros u Hu Hv. apply agrees_managed, agrees_ask. rewrite !highest_candidates_view.
    by rewrite (view_memberships _ _ _ _ Hv) (view_groups _ _ _ _ Hv).
Qed.

Lemma agrees_regex : agrees (_resolve_user_regex username ws).
Proof.
  apply agrees_none_on_error, agrees_bind; [|intros r; by apply agrees_decide].
  apply agrees_managed, agrees_gets. unfold join_user. destruct Hpat as [Hr _]. by rewrite Hus Hr.
Qed.

Lemma agrees_group_ids : agrees (GroupRepository.list_group_ids_for_user username).
Proof.
  apply agrees_managed, agrees_gets. f_equal.
  destruct (username_cases d username Hwf) as [(u&Hu&Hn)|Hno].
  - rewrite -Hn (join_user_found _ _ u d) // (join_user_found _ _ u d') ?Hus //. exact (view_memberships _ _ _ _ (Hview u Hu Hn)).
  - by rewrite !join_user_missing ?Hus.
Qed.

Lemma agrees_group_regex : agrees (_resolve_group_regex username ws).
Proof.
  apply agrees_none_on_error, agrees_bind; [apply agrees_group_ids|]. intros ids. apply agrees_decide; [done|].
  apply agrees_bind; [|intros r; by apply agrees_decide].
  apply agrees_managed, agrees_gets. destruct Hpat as [_ Hr]. by rewrite Hr.
Qed.

Lemma same_lookup : (_lookup_workspace_permission username ws d').1 = (_lookup_workspace_permission username ws d).1.
Proof.
  apply agrees_first_resolver. unfold source_resolvers. cbn.
  repeat apply map_Forall_insert_2; [..|apply map_Forall_empty];
    [apply agrees_direct|apply agrees_group|apply agrees_regex|apply agrees_group_regex].
Qed.
End lookups.

(** ** What the workspace calls change *)

Section effects.
Context `{SqlBackend, PyRe, ColumnTyping}.

(** A membership call for [username] changes the memberships of that user only. *)
Definition membership_effect (username : string) (d d' : db) : Prop :=
  users d' = users d ∧ groups d' = groups d ∧ perms d' = perms d ∧
  ∀ v, v ∈ users d → u_username v ≠ username → memberships_of v d' = memberships_of v d.

Definition others_kept (u : user_row) (f : list membership_row → list membership_row) : Prop :=
  ∀ id rows, id ≠ u_id u → filter (λ m, m_user_id m = id) (f rows) = filter (λ m, m_user_id m = id) rows.

Lemma others_kept_snoc u gid : others_kept u (λ l, l ++ [MembershipRow (u_id u) gid]).
Proof. intros id rows Hne. rewrite filter_app filter_cons_False ?filter_nil ?app_nil_r //. cbn. congruence. Qed.

(** Rows of the user may be filtered out. *)
Lemma others_kept_filter u (P : membership_row → Prop) `{∀ m, Decision (P m)} :
  (∀ m, ¬ P m → m_user_id m = u_id u) → others_kept u (filter P).
Proof.
  intros HP id rows Hne. rewrite list_filter_filter. apply list_filter_iff. intros m.
  destruct (decide (P m)) as [|Hn%HP]; [tauto|]. split; [tauto|congruence].
Qed.

Lemma membership_effect_write u f d :
  wf_db d → u ∈ users d → others_kept u f → membership_effect (u_username u) d (set_user_groups_rows f d).
Proof.
  intros Hwf Hu Hf. split_and!; [done..|]. intros v Hv Hne. apply Hf. intros Hid. destruct Hne.
  by rewrite (user_unique_id d v u).
Qed.

Lemma membership_effect_trans username d1 d2 d3 :
  membership_effect username d1 d2 → membership_effect username d2 d3 → membership_effect username d1 d3.
Proof.
  intros (Hu&Hg&Hp&Hm) (Hu'&Hg'&Hp'&Hm'). split_and!; try congruence. intros v Hv Hne. rewrite Hm' ?Hm //. by rewrite Hu.
Qed.

Lemma add_user_to_group_effect username group_name d d' :
  wf_db d → GroupRepository.add_user_to_group username group_name d = (Ok tt, d') → membership_effect username d d'.
Proof.
  intros Hwf (u&?&(->&Hu&<-)%get_user_ok&(g&?&(->&Hg&_)%get_group_ok&[_ ->]%write_memberships_ok)%M_bind_ok)%managed_ok%M_bind_ok.
  apply membership_effect_write; [done..|apply others_kept_snoc].
Qed.

Lemma remove_user_from_group_effect username group_name d d' :
  wf_db d → GroupRepository.remove_user_from_group username group_name d = (Ok tt, d') → membership_effect username d d'.
Proof.
  intros Hwf (u&?&(->&Hu&<-)%get_user_ok&(g&?&(->&Hg&_)%get_group_ok&(m&?&[Hm ->]%ask_ok&[_ ->]%write_memberships_ok)%M_bind_ok)%M_bind_ok)%managed_ok%M_bind_ok.
  apply membership_effect_write; [done..|]. apply others_kept_filter. intros m' Hm'. apply dec_stable in Hm' as ->.
  apply query_one_ok, filter_singleton in Hm as [_ [Hid _]]. done.
Qed.

Lemma add_memberships_effect u names d d' :
  wf_db d → u ∈ users d → GroupRepository.add_memberships u names d = (Ok tt, d') → membership_effect (u_username u) d d'.
Proof.
  revert d. induction names as [|n names IH]; intros d Hwf Hu; cbn [GroupRepository.add_memberships].
  - intros [= <-]. done.
  - intros (g&?&(->&Hg&_)%get_group_ok&([]&d1&[Hnd ->]%write_memberships_ok&Hrest)%M_bind_ok)%M_bind_ok.
    eapply membership_effect_trans; [apply membership_effect_write, (others_kept_snoc u (g_id g)); done|].
    apply IH; [|done|exact Hrest]. apply wf_set_memberships; [done|by apply NoDup_membership_pk|by apply wf_snoc_membership].
Qed.

Lemma set_groups_for_user_effect username names d d' :
  wf_db d → GroupRepository.set_groups_for_user username names d = (Ok tt, d') → membership_effect username d d'.
Proof.
  intros Hwf Hrun. destruct (username_cases d username Hwf) as [(u&Hu&<-)|Hno].
  - rewrite (set_groups_run _ _ _ u) // in Hrun. destruct (GroupRepository.add_memberships _ _ _) as [[[]|e] d1] eqn:E; [|done].
    injection Hrun as <-. apply add_memberships_effect in E; [|by apply wf_without_memberships|done].
    eapply membership_effect_trans; [|exact E]. apply membership_effect_write; [done..|].
    apply others_kept_filter. intros m Hm. apply dec_stable, list_elem_of_filter in Hm as [? _]. done.
  - unfold GroupRepository.set_groups_for_user in Hrun. rewrite managed_run M_bind_run get_user_missing // in Hrun.
Qed.

(** ** Grants on a workspace *)

(** [f] edits the rows with this key and owner only. *)
Definition rows_kept (k : resource_key) (owner : Z) (f : list perm_row → list perm_row) : Prop :=
  ∀ (P : perm_row → Prop) (Hdec : ∀ r, Decision (P r)) rows,
    (∀ r, P r → ¬ (p_key r = k ∧ p_owner r = owner)) → filter P (f rows) = filter P rows.

Lemma rows_kept_snoc k owner p b : rows_kept k owner (λ rows, rows ++ [PermRow k owner p b]).
Proof.
  intros P HP rows Hne. rewrite filter_app filter_cons_False ?filter_nil ?app_nil_r //.
  intros Hr. by apply (Hne _ Hr).
Qed.

Lemma rows_kept_replace k owner r r' :
  p_key r = k → p_owner r = owner → p_key r' = k → p_owner r' = owner → rows_kept k owner (replace_row r r').
Proof.
  intros Hk Ho Hk' Ho' P HP rows Hne. unfold replace_row. induction rows as [|x rows IH]; [done|].
  rewrite fmap_cons !filter_cons IH. destruct (decide (x = r)) as [->|Hx]; [|done].
  destruct (decide (P r)) as [HPr|]; [by destruct (Hne r HPr)|].
  destruct (decide (P r')) as [HPr|]; [by destruct (Hne r' HPr)|done].
Qed.

Lemma rows_kept_delete k owner r : p_key r = k → p_owner r = owner → rows_kept k owner (delete_row r).
Proof.
  intros Hk Ho P HP rows Hne. unfold delete_row. rewrite list_filter_filter. apply list_filter_iff. intros x.
  split; [tauto|]. intros HPx. split; [exact HPx|]. intros ->. by apply (Hne r).
Qed.

Lemma one_workspace_row_ok rows ws owner d r d' :
  WorkspacePermissions.one_workspace_row rows ws owner d = (Ok r, d') → d' = d ∧ p_key r = Key ws ∧ p_owner r = owner.
Proof.
  intros [Hone ->]%ask_ok. split; [done|].
  assert (query_one (filter (λ r, p_key r = Key ws ∧ p_owner r = owner) (rows d)) = Ok r) as Hq.
  { revert Hone. destruct (query_one _) as [x|[]]; naive_solver. }
  by apply query_one_ok, filter_singleton in Hq as [_ ?].
Qed.

(** What a call on one user's, or one group's, workspace grant does. *)
Definition direct_effect (d d' : db) (ws : string) (u : user_row) : Prop :=
  ∃ f, d' = set_perms Workspaces (set_t_user f) d ∧ rows_kept (Key ws) (u_id u) f.
Definition group_effect (d d' : db) (ws : string) (g : group_row) : Prop :=
  ∃ f, d' = set_perms Workspaces (set_t_group f) d ∧ rows_kept (Key ws) (g_id g) f.

Lemma conflict_ok {A} (m : M db A) d a d' : already_exists_on_conflict m d = (Ok a, d') → m d = (Ok a, d').
Proof.
  unfold already_exists_on_conflict. rewrite catch_run. destruct (m d) as [[a0|e] d1]; [done|]. by destruct e.
Qed.

Lemma create_workspace_permission_effect ws username p d a d' :
  SqlAlchemyStore.create_workspace_permission ws username p d = (Ok a, d') →
  ∃ u, u ∈ users d ∧ u_username u = username ∧ direct_effect d d' ws u.
Proof.
  intros (u&?&(->&Hu&Hn)%get_user_ok&Hw)%managed_ok%M_bind_ok. exists u. split_and!; [done..|].
  apply managed_ok, conflict_ok, M_bind_ok in Hw as ([]&d1&[_ ->]%write_t_user_ok&[_ ->]%ret_ok).
  eexists. split; [done|apply rows_kept_snoc].
Qed.

Lemma update_workspace_permission_effect ws username p d a d' :
  SqlAlchemyStore.update_workspace_permission ws username p d = (Ok a, d') →
  ∃ u, u ∈ users d ∧ u_username u = username ∧ direct_effect d d' ws u.
Proof.
  intros (u&?&(->&Hu&Hn)%get_user_ok&Hw)%managed_ok%M_bind_ok. exists u. split_and!; [done..|].
  apply managed_ok, M_bind_ok in Hw as (r&?&(->&Hk&Ho)%one_workspace_row_ok&Hw).
  apply M_bind_ok in Hw as ([]&d1&[_ ->]%write_t_user_ok&[_ ->]%ret_ok).
  eexists. split; [done|by apply rows_kept_replace].
Qed.

Lemma delete_workspace_permission_effect ws username d d' :
  SqlAlchemyStore.delete_workspace_permission ws username d = (Ok tt, d') →
  ∃ u, u ∈ users d ∧ u_username u = username ∧ direct_effect d d' ws u.
Proof.
  intros (u&?&(->&Hu&Hn)%get_user_ok&Hw)%managed_ok%M_bind_ok. exists u. split_and!; [done..|].
  apply managed_ok, M_bind_ok in Hw as (r&?&(->&Hk&Ho)%one_workspace_row_ok&[_ ->]%write_t_user_ok).
  eexists. split; [done|by apply rows_kept_delete].
Qed.

Lemma create_workspace_group_permission_effect ws group_name p d a d' :
  SqlAlchemyStore.create_workspace_group_permission ws group_name p d = (Ok a, d') →
  ∃ g, g ∈ groups d ∧ g_name g = group_name ∧ group_effect d d' ws g.
Proof.
  intros (g&?&(->&Hg&Hn)%get_group_ok&Hw)%managed_ok%M_bind_ok. exists g. split_and!; [done..|].
  apply managed_ok, conflict_ok, M_bind_ok in Hw as ([]&d1&[_ ->]%write_t_group_ok&[_ ->]%ret_ok).
  eexists. split; [done|apply rows_kept_snoc].
Qed.

Lemma update_workspace_group_permission_effect ws group_name p d a d' :
  SqlAlchemyStore.update_workspace_group_permission ws group_name p d = (Ok a, d') →
  ∃ g, g ∈ groups d ∧ g_name g = group_name ∧ group_effect d d' ws g.
Proof.
  intros (g&?&(->&Hg&Hn)%get_group_ok&Hw)%managed_ok%M_bind_ok. exists g. split_and!; [done..|].
  apply managed_ok, M_bind_ok in Hw as (r&?&(->&Hk&Ho)%one_workspace_row_ok&Hw).
  apply M_bind_ok in Hw as ([]&d1&[_ ->]%write_t_group_ok&[_ ->]%ret_ok).
  eexists. split; [done|by apply rows_kept_replace].
Qed.

Lemma delete_workspace_group_permission_effect ws group_name d d' :
  SqlAlchemyStore.delete_workspace_group_permission ws group_name d = (Ok tt, d') →
  ∃ g, g ∈ groups d ∧ g_name g = group_name ∧ group_effect d d' ws g.
Proof.
  intros (g&?&(->&Hg&Hn)%get_group_ok&Hw)%managed_ok%M_bind_ok. exists g. split_and!; [done..|].
  apply managed_ok, M_bind_ok in Hw as (r&?&(->&Hk&Ho)%one_workspace_row_ok&[_ ->]%write_t_group_ok).
  eexists. split; [done|by apply rows_kept_delete].
Qed.

(** ** The rows other users see *)

Lemma same_view_membership username d d' v ws :
  membership_effect username d d' → v ∈ users d → u_username v ≠ username → same_view v ws d d' ∧ same_patterns d d'.
Proof.
  intros (_&_&Hp&Hm) Hv Hne. specialize (Hm v Hv Hne).
  split; [|split; by rewrite Hp]. split; unfold direct_rows, group_grants; by rewrite ?Hm ?Hp.
Qed.

Lemma same_view_direct d d' ws u v ws' :
  wf_db d → u ∈ users d → v ∈ users d → direct_effect d d' ws u → (u_username v ≠ u_username u ∨ ws' ≠ ws) → same_view v ws' d d'.
Proof.
  intros Hwf Hu Hv (f&->&Hf) Hne. split; [done| |done]. unfold direct_rows. rewrite perms_set_perms_eq. cbn. apply Hf.
  intros r [Hk Ho] [Hk' Ho']. destruct Hne as [Hne|Hne]; [|congruence]. destruct Hne.
  by rewrite (user_unique_id d v u) //; congruence.
Qed.

Lemma same_view_group d d' ws g v ws' :
  group_effect d d' ws g → (MembershipRow (u_id v) (g_id g) ∉ user_groups d ∨ ws' ≠ ws) → same_view v ws' d d'.
Proof.
  intros (f&->&Hf) Hne. split; [done|done|]. unfold group_grants. rewrite perms_set_perms_eq. cbn. apply Hf.
  intros r [Hk Ho] [Hk' Ho']. destruct Hne as [Hne|Hne]; [|congruence]. destruct Hne.
  apply list_elem_of_fmap in Ho as ([uid gid]&Hgid&[Hm1 Hm2]%list_elem_of_filter). cbn in *. by rewrite -Hm1 -Ho' Hgid.
Qed.
End effects.
