(* ===== verification/StoreCoherence.v ===== *)
(** * Coherence of the caches under the store and the resolution

    One run of a wrapped store method first, then any history of them. *)
From S2P Require Import Prelude PyStrings Permissions Regex RegexSafety Database Repositories RepositoryFacts RepositoryInvariant Groups Cache Resolution ResolutionFacts Store.
From S2P Require Import StoreFacts StoreCaches.

Section runs.
Context `{SqlBackend, PyRe, ColumnTyping, Config, TrackingStore, CacheBackend PermissionResult, CacheBackend Permission}.

(** What the wrappers around [c] invalidate besides the permission cache. *)
Definition invalidation (c : call) : M world unit :=
  match c with
  | SetUserGroups username _ | AddUserToGroup username _ | RemoveUserFromGroup username _ => invalidate_user_workspace_entries username
  | CreateWorkspacePermission ws username _ | UpdateWorkspacePermission ws username _ | DeleteWorkspacePermission ws username =>
      invalidate_workspace_permission username ws
  | CreateWorkspaceGroupPermission ws group_name _ | UpdateWorkspaceGroupPermission ws group_name _ | DeleteWorkspaceGroupPermission ws group_name =>
      invalidate_group_workspace_permission group_name ws
  | WipeWorkspacePermissions _ => flush_workspace_cache
  | _ => mret tt
  end.

Definition arguments_given (c : call) : Prop := Forall (λ a, a ≠ "") (arguments c).

Lemma installed_decided {A} methods wrap nm args (m : M world A) :
  installed methods wrap nm args m = if bool_decide (nm ∈ methods) then wrap args m else m.
Proof. unfold installed. case_bool_decide; by case_decide. Qed.

Lemma then_invalidate_run {A} (m : M world A) i w :
  then_invalidate m (logged_not_raised i) w =
    match m w with (Ok a, w') => (Ok a, (logged_not_raised i w').2) | (Raise e, w') => (Raise e, w') end.
Proof.
  unfold then_invalidate, logged_not_raised. autorewrite with run. destruct (m w) as [[a|e] w']; [|done].
  autorewrite with run. by destruct (i w') as [[[]|e] w''].
Qed.

Lemma flush_run {A} (m : M db A) w :
  then_invalidate (on_store m) flush_permission_cache w =
    match m (w_db w) with
    | (Ok a, d) => (Ok a, set_permission_cache cache_clear (set_db d w))
    | (Raise e, d) => (Raise e, set_db d w)
    end.
Proof. unfold then_invalidate, on_store, flush_permission_cache. autorewrite with run. by destruct (m (w_db w)) as [[a|e] d]. Qed.

Lemma flush_then_run {A} (m : M db A) i w :
  then_invalidate (then_invalidate (on_store m) flush_permission_cache) (logged_not_raised i) w =
    match m (w_db w) with
    | (Ok a, d) => (Ok a, (logged_not_raised i (set_permission_cache cache_clear (set_db d w))).2)
    | (Raise e, d) => (Raise e, set_db d w)
    end.
Proof. rewrite then_invalidate_run flush_run. by destruct (m (w_db w)) as [[a|e] d]. Qed.

Lemma argument_0 a args : a ≠ "" → argument (a :: args) 0 = Some a.
Proof. by destruct a. Qed.
Lemma argument_1 a b args : b ≠ "" → argument (a :: b :: args) 1 = Some b.
Proof. by destruct b. Qed.

Ltac decide_names :=
  rewrite !installed_decided;
  repeat match goal with |- context [bool_decide ?P] =>
    let b := eval vm_compute in (bool_decide P) in replace (bool_decide P) with b by (vm_compute; reflexivity) end.

Lemma run_call_run c w :
  arguments_given c →
  run_call c w =
    match body c (w_db w) with
    | (Ok _, d) => (Ok tt, (logged_not_raised (invalidation c) (set_permission_cache cache_clear (set_db d w))).2)
    | (Raise e, d) => (Raise e, set_db d w)
    end.
Proof.
  intros Hgiven. unfold arguments_given in Hgiven. unfold run_call, called. destruct c; cbn [method_name arguments invalidation] in *; decide_names.
  all: unfold _wrap_with_workspace_flush, _wrap_with_workspace_user_invalidation, _wrap_with_workspace_group_invalidation,
         _wrap_with_membership_invalidation, _wrap_with_cache_flush.
  all: repeat match goal with H : Forall _ (_ :: _) |- _ => apply Forall_cons in H as [? H] end.
  all: rewrite ?argument_0 ?argument_1 //.
  all: rewrite ?flush_then_run ?flush_run; by destruct (body _ (w_db w)) as [[[]|e] d].
Qed.
End runs.

(** * Coherence of the caches under the store and the resolution *)

Section coherence.
Context `{SqlBackend, PyRe, ColumnTyping, Config, TrackingStore, CacheBackend PermissionResult, CacheBackend Permission}.

(** ** Coherence after a call *)

Lemma coherent_after w w' :
  wf_db (w_db w) → wf_db (w_db w') → users (w_db w') = users (w_db w) → same_patterns (w_db w) (w_db w') → coherent w →
  (∀ k, cache_get k (_permission_cache w') = None) → lapses (_workspace_cache w) (_workspace_cache w') →
  (∀ u ws p, u ∈ users (w_db w) → cache_get (_make_workspace_cache_key (u_username u) ws) (_workspace_cache w') = Some p →
     same_view u ws (w_db w) (w_db w')) →
  coherent w'.
Proof.
  intros Hwf Hwf' Hus Hpat [Hws _] Hempty Hlapse Hview. split.
  - intros username ws p Hfree Hget. rewrite (same_lookup (w_db w) (w_db w')) //; [by apply Hws, Hlapse|].
    intros u Hu <-. exact (Hview u ws p Hu Hget).
  - intros ws rt id username sc r _ _ Hget. by rewrite Hempty in Hget.
Qed.

(** The state after the flush, before the second invalidation. *)
Definition flushed (w : world) (d : db) : world := set_permission_cache cache_clear (set_db d w).

Lemma flushed_empty w d k : cache_get k (_permission_cache (flushed w d)) = None.
Proof. apply cache_get_clear. Qed.

Lemma no_invalidation c : is_workspace_call c = false → invalidation c = mret tt.
Proof. by destruct c. Qed.

Lemma coherent_permission_call c w d :
  is_workspace_call c = false → wf_db (w_db w) → coherent w → body c (w_db w) = (Ok tt, d) → coherent (flushed w d).
Proof.
  intros Hc Hwf Hco Hrun. destruct (permission_call_frame c Hc) as (t&Ht&Hframe).
  specialize (Hframe (w_db w)). pose proof (body_wf c (w_db w) Hwf) as Hwf'. rewrite Hrun in Hframe, Hwf'.
  destruct Hframe as (Hus&Hgr&Hug&_&_&_&Hp). cbn in *. specialize (Hp Workspaces (not_eq_sym Ht)).
  apply (coherent_after w); [done..| |done|apply flushed_empty|by intros k v|].
  - split; cbn; by rewrite Hp.
  - intros u ws p Hu _. split; unfold memberships_of, direct_rows, group_grants; cbn; unfold memberships_of; by rewrite ?Hug ?Hp.
Qed.

(** Dropping the entries of a user, of a pair, or of the members of a group. *)

Lemma key_prefix username ws : String.prefix (username +:+ ":") (_make_workspace_cache_key username ws) = true.
Proof.
  unfold _make_workspace_cache_key. induction username as [|c username IH]; [by destruct ws|].
  change ((if Ascii.ascii_dec c c then String.prefix (username +:+ ":") (username +:+ ":" +:+ ws) else false) = true).
  destruct (Ascii.ascii_dec c c); [exact IH|done].
Qed.

Lemma user_entries_dropped username ws w p :
  MLFLOW_ENABLE_WORKSPACES = true →
  cache_get (_make_workspace_cache_key username ws)
    (_workspace_cache (logged_not_raised (invalidate_user_workspace_entries username) w).2) ≠ Some p.
Proof.
  intros Hon. unfold invalidate_user_workspace_entries, logged_not_raised. rewrite Hon. cbn.
  by rewrite cache_get_delete_prefix ?key_prefix.
Qed.

Lemma user_entries_rest username w :
  w_db (logged_not_raised (invalidate_user_workspace_entries username) w).2 = w_db w ∧
  _permission_cache (logged_not_raised (invalidate_user_workspace_entries username) w).2 = _permission_cache w ∧
  lapses (_workspace_cache w) (_workspace_cache (logged_not_raised (invalidate_user_workspace_entries username) w).2).
Proof.
  unfold invalidate_user_workspace_entries, logged_not_raised. destruct MLFLOW_ENABLE_WORKSPACES; [|by split_and!]. cbn.
  split_and!; [done..|]. intros k v. apply cache_get_delete_prefix_sub.
Qed.

Lemma coherent_membership_call c username w d :
  MLFLOW_ENABLE_WORKSPACES = true → wf_db (w_db w) → wf_db d → coherent w → membership_effect username (w_db w) d →
  invalidation c = invalidate_user_workspace_entries username →
  coherent (logged_not_raised (invalidation c) (flushed w d)).2.
Proof.
  intros Hon Hwf Hwf' Hco Heff ->. destruct (user_entries_rest username (flushed w d)) as (Hd&Hp&Hl).
  apply (coherent_after w); rewrite ?Hd ?Hp //.
  - by destruct Heff as (?&_).
  - destruct Heff as (_&_&Hps&_). split; cbn; by rewrite Hps.
  - apply flushed_empty.
  - intros u ws p Hu Hget. destruct (decide (u_username u = username)) as [Heq|Hne].
    + rewrite Heq in Hget. by apply user_entries_dropped in Hget.
    + by destruct (same_view_membership username (w_db w) d u ws Heff Hu Hne).
Qed.

Lemma coherent_direct_call c ws username u w d :
  wf_db (w_db w) → wf_db d → coherent w → u ∈ users (w_db w) → u_username u = username → direct_effect (w_db w) d ws u →
  invalidation c = invalidate_workspace_permission username ws →
  coherent (logged_not_raised (invalidation c) (flushed w d)).2.
Proof.
  intros Hwf Hwf' Hco Hu Hn Heff ->. unfold logged_not_raised, invalidate_workspace_permission. cbn.
  pose proof Heff as (f&Hd&_). apply (coherent_after w); cbn; [done|done|by rewrite Hd| |done| | |].
  - rewrite Hd. split; by rewrite perms_set_perms_eq.
  - intros k. exact (flushed_empty w d k).
  - intros k v. exact (cache_get_delete_sub _ _ _ _).
  - intros v ws' p Hv Hget.
    apply (same_view_direct (w_db w) d ws u v ws'); [done..|].
    destruct (decide (u_username v = u_username u)) as [Heq|]; [|by left]. right. intros ->.
    rewrite -Hn Heq cache_get_delete in Hget. done.
Qed.

Lemma members_found group_name d g :
  wf_db d → g ∈ groups d → g_name g = group_name →
  GroupRepository.list_group_members group_name d =
    (Ok (filter (λ u, u_id u ∈ m_user_id <$> filter (λ m, m_group_id m = g_id g) (user_groups d)) (users d)), d).
Proof. intros Hwf Hg <-. unfold GroupRepository.list_group_members. autorewrite with run. by rewrite get_group_found. Qed.

(** The entries of the members are gone. *)
Lemma members_dropped ws members (c : cache Permission) k v :
  cache_get k (foldl (λ c member, cache_delete (_make_workspace_cache_key (u_username member) ws) c) c members) = Some v →
  cache_get k c = Some v ∧ ∀ member, member ∈ members → k ≠ _make_workspace_cache_key (u_username member) ws.
Proof.
  revert c. induction members as [|member members IH]; intros c; cbn [foldl].
  - intros Hget. split; [done|]. by intros ? ?%not_elem_of_nil.
  - intros [Hget Hrest]%IH. split; [exact (cache_get_delete_sub _ _ _ _ Hget)|].
    intros m [->|Hm]%elem_of_cons; [|by apply Hrest]. intros ->. by rewrite cache_get_delete in Hget.
Qed.

Lemma coherent_group_call c ws group_name g w d :
  MLFLOW_ENABLE_WORKSPACES = true → wf_db (w_db w) → wf_db d → coherent w → g ∈ groups (w_db w) → g_name g = group_name →
  group_effect (w_db w) d ws g → invalidation c = invalidate_group_workspace_permission group_name ws →
  coherent (logged_not_raised (invalidation c) (flushed w d)).2.
Proof.
  intros Hon Hwf Hwf' Hco Hg Hn Heff ->. pose proof Heff as (f&Hd&_).
  assert (groups d = groups (w_db w)) as Hgr by (by rewrite Hd).
  unfold logged_not_raised, invalidate_group_workspace_permission, on_store. rewrite Hon. cbn [negb]. autorewrite with run.
  cbn [w_db flushed set_permission_cache set_db]. rewrite (members_found group_name d g) ?Hgr //. cbn.
  apply (coherent_after w); cbn; [done|done|by rewrite Hd| |done| | |].
  - rewrite Hd. split; by rewrite perms_set_perms_eq.
  - intros k. exact (flushed_empty w d k).
  - intros k v Hget. by apply members_dropped in Hget as [? _].
  - intros v ws' p Hv Hget. apply (same_view_group (w_db w) d ws g v ws' Heff).
    destruct (decide (ws' = ws)) as [->|]; [|by right]. left. intros Hm.
    apply members_dropped in Hget as [_ Hne]. apply (Hne v); [|done]. apply list_elem_of_filter. rewrite Hd. cbn. split; [|done].
    apply list_elem_of_fmap. eexists. split; [|apply list_elem_of_filter; split; [|exact Hm]]; done.
Qed.

Lemma coherent_empty w :
  (∀ k, cache_get k (_permission_cache w) = None) → (∀ k, cache_get k (_workspace_cache w) = None) → coherent w.
Proof. intros Hp Hw. split; [intros u ws p _ Hget; by rewrite Hw in Hget|intros ws rt id u sc r _ _ Hget; by rewrite Hp in Hget]. Qed.

(** The endpoints of [routers/workspace_regex_permissions.py] flush the workspace
    cache after the store call; every other call is left to the store. *)
Definition is_workspace_regex_call (c : call) : bool :=
  match c with
  | CreateWorkspaceRegexPermission _ _ _ _ | UpdateWorkspaceRegexPermission _ _ _ _ _ | DeleteWorkspaceRegexPermission _ _
  | CreateWorkspaceGroupRegexPermission _ _ _ _ | UpdateWorkspaceGroupRegexPermission _ _ _ _ _ | DeleteWorkspaceGroupRegexPermission _ _ => true
  | _ => false
  end.

Definition administer (c : call) : M world unit :=
  _ ← run_call c;
  if is_workspace_regex_call c then flush_workspace_cache else mret tt.

Lemma discard_ok {A} (m : M db A) d d' : discard m d = (Ok tt, d') → ∃ a, m d = (Ok a, d').
Proof. intros (a&d1&Hm&[_ ->]%ret_ok)%M_bind_ok. by exists a. Qed.

Lemma coherent_workspace_call c w d :
  MLFLOW_ENABLE_WORKSPACES = true → is_workspace_call c = true → is_workspace_regex_call c = false →
  wf_db (w_db w) → coherent w → body c (w_db w) = (Ok tt, d) →
  coherent (logged_not_raised (invalidation c) (flushed w d)).2.
Proof.
  intros Hon Hc Hr Hwf Hco Hrun. pose proof (body_wf c (w_db w) Hwf) as Hwf'. rewrite Hrun in Hwf'. cbn in Hwf'.
  destruct c; try discriminate Hc; try discriminate Hr; clear Hc Hr; pose proof (discard_ok _ _ _ Hrun) as [a Hrun']; try match type of a with unit => destruct a end.
  - eapply coherent_membership_call; [done..|exact (set_groups_for_user_effect _ _ _ _ Hwf Hrun')|done].
  - eapply coherent_membership_call; [done..|exact (add_user_to_group_effect _ _ _ _ Hwf Hrun')|done].
  - eapply coherent_membership_call; [done..|exact (remove_user_from_group_effect _ _ _ _ Hwf Hrun')|done].
  - apply create_workspace_permission_effect in Hrun' as (u&Hu&Hn&Heff). eapply coherent_direct_call; [exact Hwf|exact Hwf'|exact Hco|exact Hu|exact Hn|exact Heff|reflexivity].
  - apply update_workspace_permission_effect in Hrun' as (u&Hu&Hn&Heff). eapply coherent_direct_call; [exact Hwf|exact Hwf'|exact Hco|exact Hu|exact Hn|exact Heff|reflexivity].
  - apply delete_workspace_permission_effect in Hrun' as (u&Hu&Hn&Heff). eapply coherent_direct_call; [exact Hwf|exact Hwf'|exact Hco|exact Hu|exact Hn|exact Heff|reflexivity].
  - apply create_workspace_group_permission_effect in Hrun' as (g&Hg&Hn&Heff). eapply coherent_group_call; [exact Hon|exact Hwf|exact Hwf'|exact Hco|exact Hg|exact Hn|exact Heff|reflexivity].
  - apply update_workspace_group_permission_effect in Hrun' as (g&Hg&Hn&Heff). eapply coherent_group_call; [exact Hon|exact Hwf|exact Hwf'|exact Hco|exact Hg|exact Hn|exact Heff|reflexivity].
  - apply delete_workspace_group_permission_effect in Hrun' as (g&Hg&Hn&Heff). eapply coherent_group_call; [exact Hon|exact Hwf|exact Hwf'|exact Hco|exact Hg|exact Hn|exact Heff|reflexivity].
  - apply coherent_empty; [exact (flushed_empty w d)|]. exact (λ k, cache_get_clear k _).
Qed.

(** ** Calls that raise *)

Lemma then_invalidate_raise {A} (m : M world A) i w e w' :
  (∀ w1, ∃ w2, i w1 = (Ok tt, w2)) → then_invalidate m i w = (Raise e, w') → m w = (Raise e, w').
Proof.
  intros Hi. unfold then_invalidate. autorewrite with run. destruct (m w) as [[a|e'] w1]; [|done].
  autorewrite with run. by destruct (Hi w1) as [w2 ->].
Qed.

Lemma logged_never_raises (i : M world unit) w : ∃ w', logged_not_raised i w = (Ok tt, w').
Proof. unfold logged_not_raised. autorewrite with run. destruct (i w) as [[[]|e] w1]; by eexists. Qed.

(** A wrapper that raises only what the method raises. *)
Definition passes_errors (wrap : ∀ A, list string → M world A → M world A) : Prop :=
  ∀ A args (m : M world A) w e w', wrap A args m w = (Raise e, w') → m w = (Raise e, w').

Lemma installed_raise wrap methods nm {A} args (m : M world A) w e w' :
  passes_errors wrap → installed methods (wrap A) nm args m w = (Raise e, w') → m w = (Raise e, w').
Proof. intros Hw. unfold installed. case_decide; [apply Hw|done]. Qed.

Lemma wrappers_pass_errors :
  passes_errors (@_wrap_with_cache_flush _ _) ∧ passes_errors (@_wrap_with_membership_invalidation _ _ _) ∧
  passes_errors (@_wrap_with_workspace_group_invalidation _ _ _ _) ∧ passes_errors (@_wrap_with_workspace_user_invalidation _ _) ∧
  passes_errors (@_wrap_with_workspace_flush _ _).
Proof.
  split_and!; intros A args m w e w'; apply then_invalidate_raise; intros w1; try apply logged_never_raises; try by eexists.
  all: repeat case_match; try apply logged_never_raises; by eexists.
Qed.

Lemma called_raise {A} nm args (m : M db A) w e w' :
  called nm args m w = (Raise e, w') → ∃ d, m (w_db w) = (Raise e, d) ∧ w' = set_db d w.
Proof.
  destruct wrappers_pass_errors as (H1'&H2'&H3'&H4'&H5').
  intros Hc%(installed_raise _ _ _ _ _ _ _ _ H5')%(installed_raise _ _ _ _ _ _ _ _ H4')%(installed_raise _ _ _ _ _ _ _ _ H3')%(installed_raise _ _ _ _ _ _ _ _ H2')%(installed_raise _ _ _ _ _ _ _ _ H1').
  unfold on_store in Hc. destruct (m (w_db w)) as [o d]. injection Hc as -> <-. eauto.
Qed.

(** C39: A mutating store call that raises leaves the database and both caches
    exactly as they were; the one exception is the gateway endpoint rename,
    which is two transactions. *)
Theorem failed_store_calls_leave_no_trace c w e w' :
  wf_db (w_db w) → is_gateway_rename c = false → run_call c w = (Raise e, w') → w' = w.
Proof.
  intros Hwf Hc (d&Hrun&->)%called_raise. rewrite (body_atomic c Hc _ _ _ Hwf Hrun). apply set_db_id.
Qed.

(** ** Histories: administration, resolution, expiry *)

(** A gateway rename is two transactions; one that fails half-way is left out. *)
Definition completes (c : call) (w : world) : Prop :=
  is_gateway_rename c = true → (run_call c w).1 = Ok tt.

Inductive history_step : world → world → Prop :=
  | step_administer c w : arguments_given c → completes c w → history_step w (administer c w).2
  | step_resolve ws rt id username sc w : separable ws rt username → history_step w (resolve_permission ws rt id username sc w).2
  | step_lapse w w' : w_db w' = w_db w → lapses (_permission_cache w) (_permission_cache w') →
      lapses (_workspace_cache w) (_workspace_cache w') → history_step w w'.

Definition agreeing (w : world) : Prop := wf_db (w_db w) ∧ coherent w.

Lemma invalidation_keeps_db c w : w_db (logged_not_raised (invalidation c) w).2 = w_db w.
Proof.
  destruct c; cbn [invalidation]; try done.
  all: unfold logged_not_raised, invalidate_user_workspace_entries, invalidate_group_workspace_permission, on_store;
    destruct MLFLOW_ENABLE_WORKSPACES; try done; cbn [negb]; autorewrite with run.
  all: rewrite (read_only_run (GroupRepository.list_group_members group_name));
    [|unfold GroupRepository.list_group_members, get_group; reads].
  all: by destruct (GroupRepository.list_group_members group_name (w_db w)).1.
Qed.

Lemma run_call_agreeing c w :
  MLFLOW_ENABLE_WORKSPACES = true → agreeing w → arguments_given c → completes c w → is_workspace_regex_call c = false →
  agreeing (run_call c w).2.
Proof.
  intros Hon [Hwf Hco] Hgiven Hdone Hr. unfold completes in Hdone. rewrite run_call_run // in Hdone *.
  pose proof (body_wf c (w_db w) Hwf) as Hwf'. destruct (body c (w_db w)) as [[[]|e] d] eqn:E; cbn in *.
  - split; [by rewrite invalidation_keeps_db|]. destruct (is_workspace_call c) eqn:Hc.
    + by apply coherent_workspace_call.
    + rewrite no_invalidation //. by apply (coherent_permission_call c).
  - destruct (is_gateway_rename c) eqn:Hg; [by discriminate Hdone|].
    rewrite (body_atomic c Hg _ _ _ Hwf E) set_db_id. done.
Qed.

Lemma regex_call_agreeing c w :
  agreeing w → arguments_given c → is_workspace_regex_call c = true → agreeing (administer c w).2.
Proof.
  intros [Hwf Hco] Hgiven Hr. unfold administer. rewrite Hr M_bind_run run_call_run //.
  pose proof (body_wf c (w_db w) Hwf) as Hwf'. destruct (body c (w_db w)) as [[[]|e] d] eqn:E; cbn in *.
  - split; [by cbn; rewrite invalidation_keeps_db|].
    assert (invalidation c = mret tt) as -> by (by destruct c). cbn.
    apply coherent_empty; [exact (flushed_empty w d)|]. exact (λ k, cache_get_clear k _).
  - assert (is_gateway_rename c = false) as Hg by (by destruct c).
    rewrite (body_atomic c Hg _ _ _ Hwf E) set_db_id. done.
Qed.

Lemma step_agreeing w w' : MLFLOW_ENABLE_WORKSPACES = true → agreeing w → history_step w w' → agreeing w'.
Proof.
  intros Hon Hw Hs. destruct Hs as [c w Hg Hd|ws rt id username sc w Hsep|w w' Hdb Hp Hl].
  - destruct (is_workspace_regex_call c) eqn:Hr; [by apply regex_call_agreeing|].
    unfold administer. rewrite Hr M_bind_run. pose proof (run_call_agreeing c w Hon Hw Hg Hd Hr) as Hx.
    by destruct (run_call c w) as [[[]|e] w1].
  - destruct Hw as [Hwf Hco]. destruct (resolve_permission_run ws rt id username sc w Hco Hsep) as (o&w1&->&Hco1&Hd1&_).
    split; [by cbn; rewrite Hd1|done].
  - destruct Hw as [Hwf Hco]. split; [by rewrite Hdb|by apply (coherent_sub w)].
Qed.

Lemma steps_agreeing w w' : MLFLOW_ENABLE_WORKSPACES = true → agreeing w → rtc history_step w w' → agreeing w'.
Proof. intros Hon Hw Hs. induction Hs as [w|w1 w2 w3 H12 _ IH]; [done|]. by apply IH, (step_agreeing w1). Qed.

Lemma run_invalidation_rest c w :
  _permission_cache (logged_not_raised (invalidation c) w).2 = _permission_cache w.
Proof.
  destruct c; cbn [invalidation]; try done.
  all: unfold logged_not_raised, invalidate_user_workspace_entries, invalidate_group_workspace_permission, on_store;
    destruct MLFLOW_ENABLE_WORKSPACES; try done; cbn [negb]; autorewrite with run.
  all: by destruct (GroupRepository.list_group_members group_name (w_db w)) as [[]].
Qed.

(** With the workspaces off, a call leaves the state as it was or an empty
    permission cache. *)
Lemma administer_off c w :
  MLFLOW_ENABLE_WORKSPACES = false → wf_db (w_db w) → arguments_given c → completes c w →
  (administer c w).2 = w ∨
  ∃ d, wf_db d ∧ w_db (administer c w).2 = d ∧ _permission_cache (administer c w).2 = cache_clear (_permission_cache w).
Proof.
  intros Hoff Hwf Hgiven Hdone. unfold completes in Hdone. unfold administer. rewrite M_bind_run. rewrite run_call_run // in Hdone *.
  pose proof (body_wf c (w_db w) Hwf) as Hwf'. destruct (body c (w_db w)) as [[[]|e] d] eqn:E; cbn in *.
  - right. exists d. split; [done|].
    destruct (is_workspace_regex_call c); cbn; rewrite invalidation_keeps_db run_invalidation_rest; by split.
  - left. destruct (is_gateway_rename c) eqn:Hg; [by discriminate Hdone|].
    by rewrite (body_atomic c Hg _ _ _ Hwf E) set_db_id.
Qed.

(** With the workspaces off (the default) the workspace cache is neither read nor
    kept up to date: the state is compared after wiping it. *)
Definition wiped (w : world) : world := set_workspace_cache cache_clear w.

Definition settled (w : world) : Prop :=
  wf_db (w_db w) ∧ (if MLFLOW_ENABLE_WORKSPACES then coherent w else coherent (wiped w)).

Lemma coherent_wiped w : coherent w → coherent (wiped w).
Proof.
  intros Hco. apply (coherent_sub w); [done|done|by intros k v|].
  intros k v Hget. cbn in Hget. by rewrite cache_get_clear in Hget.
Qed.

Lemma resolve_permission_wiped ws rt id username sc w :
  MLFLOW_ENABLE_WORKSPACES = false →
  resolve_permission ws rt id username sc (wiped w) =
    ((resolve_permission ws rt id username sc w).1, wiped (resolve_permission ws rt id username sc w).2).
Proof.
  intros Hoff. unfold resolve_permission, _apply_workspace_fallback, on_store, record_permission_fallback.
  rewrite Hoff. cbn [negb]. autorewrite with run. cbn [_permission_cache wiped set_workspace_cache].
  destruct (cache_get _ _) as [r|]; [done|]. autorewrite with run.
  destruct (build_sources rt id username sc) as [config|e]; [|done]. autorewrite with run. cbn [w_db wiped set_workspace_cache].
  destruct (get_permission_from_store_or_default config (w_db w)) as [[r|e] d]; [|done]. autorewrite with run.
  case_decide; autorewrite with run; by case_decide.
Qed.

(** An answer of a settled state is the database's, and leaves it settled. *)
Lemma settled_answer ws rt id username sc w :
  settled w → separable ws rt username →
  settled (resolve_permission ws rt id username sc w).2 ∧
  (rt ≠ SCORER → (resolve_permission ws rt id username sc w).1 = decision ws rt id username sc (w_db w)).
Proof.
  unfold settled. intros [Hwf Hco] Hsep. destruct MLFLOW_ENABLE_WORKSPACES eqn:Hon.
  - destruct (resolve_permission_run ws rt id username sc w Hco Hsep) as (o&w1&->&Hco1&Hd1&Ho). cbn. by rewrite Hd1.
  - destruct (resolve_permission_run ws rt id username sc (wiped w) Hco Hsep) as (o&w1&Hrun&Hco1&Hd1&Ho).
    rewrite (resolve_permission_wiped _ _ _ _ _ _ Hon) in Hrun. injection Hrun as -> <-. cbn in Hd1. by rewrite Hd1.
Qed.

Lemma settled_call c w : settled w → arguments_given c → completes c w → settled (administer c w).2.
Proof.
  unfold settled. intros [Hwf Hco] Hg Hd. destruct MLFLOW_ENABLE_WORKSPACES eqn:Hon.
  - exact (step_agreeing _ _ Hon (conj Hwf Hco) (step_administer c w Hg Hd)).
  - destruct (administer_off c w Hon Hwf Hg Hd) as [->|(d&Hwf'&Hdb&Hp)]; [done|].
    rewrite Hdb. split; [done|]. apply coherent_empty; intros k; cbn; [rewrite Hp|]; apply cache_get_clear.
Qed.

Lemma settled_steps w w' : settled w → rtc history_step w w' → settled w'.
Proof.
  intros Hw Hs. induction Hs as [w|w1 w2 w3 H12 _ IH]; [done|]. apply IH. clear IH.
  destruct H12 as [c w Hg Hd|ws rt id username sc w Hsep|w w' Hdb Hp Hl]; [by apply settled_call|by apply settled_answer|].
  unfold settled in *. rewrite Hdb. destruct Hw as [Hwf Hco]. split; [done|].
  destruct MLFLOW_ENABLE_WORKSPACES; [by apply (coherent_sub w)|].
  apply (coherent_sub (wiped w)); [done|done|exact Hp|]. intros k v Hget. cbn in Hget. by rewrite cache_get_clear in Hget.
Qed.

(** Well-formedness of the database and coherence of both caches with it are
    preserved by every mutating store call with non-empty names (a gateway
    rename must complete), by every resolution and by the expiry of entries, in
    any order. *)
Theorem caches_agree_after_any_history w w' :
  MLFLOW_ENABLE_WORKSPACES = true → wf_db (w_db w) → coherent w → rtc history_step w w' → wf_db (w_db w') ∧ coherent w'.
Proof. intros Hon Hwf Hco. by apply steps_agreeing. Qed.

(** C3: From a well-formed database and coherent caches, with workspaces on or
    off: after any history of mutating store calls (any of the 106, each with
    non-empty string arguments, the workspace-regex ones with the flush of their
    endpoints, gateway renames only when they complete), cache expiries, and
    resolutions none of which is for a username, resource type or (with
    workspaces on) workspace that holds a colon, a resolution for such
    colon-free names answers exactly what the current database decides, for
    every resource type but scorers. All three conditions are needed: a colon in
    one name lets a resolution leave its answer under the key of another
    request, and an empty name is not invalidated. *)
Theorem every_answer_is_current w w' ws rt id username sc :
  wf_db (w_db w) → coherent w → rtc history_step w w' → separable ws rt username → rt ≠ SCORER →
  (resolve_permission ws rt id username sc w').1 = decision ws rt id username sc (w_db w').
Proof.
  intros Hwf Hco Hs Hsep Hrt. apply settled_answer; [|done..]. apply (settled_steps w); [|done]. split; [done|].
  destruct MLFLOW_ENABLE_WORKSPACES; [done|by apply coherent_wiped].
Qed.
End coherence.
