(* ===== verification/Requests.v ===== *)
(** * Requests, their parameters, and the dual-spelling guard
    ([hooks/dual_spelling_guard.py], [utils/request_helpers.py],
    [bridge/user.py])

    MLflow's own routing table and its request parser are parameters
    ([MlflowServer]); the maps the guard derives from them at import time are
    computed here as the module computes them. *)
From S2P Require Import Prelude PyStrings Json Regex.
From Stdlib Require Import Ascii.

(** ** Multi-dicts *)

(** A dict as its items, in order; a multi-dict may repeat a key, and [get] and
    item access give the first value. *)
Fixpoint dict_get {A} (k : string) (d : list (string * A)) : option A :=
  match d with
  | [] => None
  | (k', v) :: d => if decide (k' = k) then Some v else dict_get k d
  end.

(** [MultiDict.getlist(key)] *)
Definition getlist {A} (k : string) (d : list (string * A)) : list A :=
  snd <$> filter (λ kv, kv.1 = k) d.

(** ** The request *)

(** [entities/auth_context.py] *)
Record AuthContext := MkAuthContext { username : string; is_admin : bool; workspace : option string }.

(** [request_json] is [get_json(force=True, silent=True)]: the parsed body
    whatever the content type, [None] if it does not parse. *)
Record Request := MkRequest {
  method : string;
  path : string;
  args : list (string * string);
  view_args : list (string * string);
  is_json : bool;
  request_json : option json;
  form : list (string * string);
  environ : option AuthContext;
}.

(** [request.get_json(silent=True)] *)
Definition get_json (req : Request) : option json :=
  if is_json req then request_json req else None.

(** [request.json]: werkzeug raises where [get_json] gives [None]. *)
Definition request_dot_json (req : Request) : outcome json :=
  if is_json req
  then match request_json req with Some v => Ok v | None => Raise (OtherException "BadRequest") end
  else Raise (OtherException "UnsupportedMediaType").

(** ** The authentication context ([bridge/user.py]) *)

(** [environ] holds the context that AuthAwareWSGIMiddleware injected, if any. *)
Definition get_auth_context (req : Request) : outcome AuthContext :=
  match environ req with Some ctx => Ok ctx | None => Raise (OtherException "Exception") end.
Definition get_fastapi_username (req : Request) : outcome string :=
  match get_auth_context req with
  | Ok ctx => if decide (username ctx = "") then Raise (OtherException "Exception") else Ok (username ctx)
  | Raise _ => Raise (OtherException "Exception")
  end.
Definition get_fastapi_admin_status (req : Request) : bool :=
  match get_auth_context req with Ok ctx => is_admin ctx | Raise _ => false end.
Definition get_request_workspace (req : Request) : option string :=
  match get_auth_context req with Ok ctx => workspace ctx | Raise _ => None end.

(** ** MLflow's server *)

(** A protobuf request class: its name, and its fields as [(name, json_name)]. *)
Record proto_class := ProtoClass { proto_name : string; proto_fields : list (string * string) }.

(** [mlflow_endpoints] is [get_endpoints(lambda rc: rc)]: path, request class
    ([None] for a plain function), methods. [url_rules] is Flask's [url_map].
    [_get_normalized_request_json] is the parser of [mlflow.server.handlers]. *)
Class MlflowServer := {
  mlflow_endpoints : list (string * option proto_class * list string);
  url_rules : list (string * list string);
  _get_normalized_request_json : Request → outcome json;
  SearchDatasets : proto_class;
  (** A Python dict has each key once. *)
  normalized_keys req data : _get_normalized_request_json req = Ok (JObj data) → NoDup data.*1;
}.

(** What the tracking store, the job store and the gateway say of an entity: the
    experiment of a run, a logged model, a trace; the experiment with a name;
    the names behind gateway ids; the parameters of a job, parsed. The ids are
    whatever JSON value the request held. *)
Class MlflowEntities := {
  get_experiment_by_name : json → outcome (option string);
  run_experiment_id : json → outcome string;
  logged_model_experiment_id : json → outcome string;
  trace_experiment_id : json → outcome string;
  gateway_endpoint_name : json → outcome string;
  gateway_secret_name : json → outcome string;
  gateway_model_definition_name : json → outcome string;
  job_params : string → outcome json;
  (** A JSON value as the identifier the permission store is asked for; a string
      is itself. *)
  identifier : json → outcome string;
  identifier_str s : identifier (JStr s) = Ok s;
}.


(** ** [dual_spelling_guard.py] *)

(** [_re_compile_path]: [re.sub] turns each [<param>] into a group matching one
    path segment, and the result is compiled. Patterns are equal when their
    texts are, so the text is kept. *)

(** The text after the first closing bracket, if the parameter is not empty. *)
Fixpoint after_bracket (s : string) : option string :=
  match s with
  | EmptyString => None
  | String c s => if decide (c = ">"%char) then Some s else after_bracket s
  end.
Definition after_parameter (s : string) : option string :=
  match s with String ">"%char _ => None | s => after_bracket s end.

Fixpoint substitute_parameters (fuel : nat) (s : string) : string :=
  match fuel, s with
  | S fuel, String c s =>
      match (if decide (c = "<"%char) then after_parameter s else None) with
      | Some rest => "([^/]+)" +:+ substitute_parameters fuel rest
      | None => String c (substitute_parameters fuel s)
      end
  | _, _ => ""
  end.

(** The compiler of that text: the group, a dot for any character but a newline,
    every other character for itself. *)
Definition dot : re := Chr (none_of (String (ascii_of_nat 10) "")).
Definition segment : re := plus (Chr (none_of "/")).
Fixpoint compile_text (s : string) : re :=
  match s with
  | EmptyString => Eps
  | String "(" (String "[" (String "^" (String "/" (String "]" (String "+" (String ")" rest)))))) => Seq segment (compile_text rest)
  | String c rest => Seq (if decide (c = "."%char) then dot else Chr (Ascii.eqb c)) (compile_text rest)
  end.

Record Pattern := MkPattern { pattern : string }.
#[export] Instance Pattern_eq_dec : EqDecision Pattern.
Proof. solve_decision. Defined.
Definition pat_fullmatch (p : Pattern) (s : string) : bool := fullmatch (compile_text (pattern p)) s.

Definition _re_compile_path (path : string) : Pattern :=
  MkPattern (substitute_parameters (String.length path) path).

(** ["<" in path] *)
Definition parameterized (path : string) : bool := contains "<" path.

(** The four module-level maps. *)
Abbreviation collidable_pairs := (list (string * string)).
Record route_maps := MkMaps {
  _EXACT_COLLIDABLE : gmap (string * string) collidable_pairs;
  _PATTERN_COLLIDABLE : list (Pattern * string * collidable_pairs);
  _EXACT_PROTO_ROUTES : gset (string * string);
  _PATTERN_PROTO_ROUTES : list (Pattern * string);
}.
Definition no_routes : route_maps := MkMaps ∅ [] ∅ [].

(** The body of the loop over the methods in [_register_route]. *)
Definition register_method (http_path : string) (collidable : collidable_pairs) (m : route_maps) (meth : string) : route_maps :=
  let compiled := _re_compile_path http_path in
  if parameterized http_path then
    MkMaps (_EXACT_COLLIDABLE m)
      (if decide (collidable = []) then _PATTERN_COLLIDABLE m else _PATTERN_COLLIDABLE m ++ [(compiled, meth, collidable)])
      (_EXACT_PROTO_ROUTES m) (_PATTERN_PROTO_ROUTES m ++ [(compiled, meth)])
  else
    MkMaps (if decide (collidable = []) then _EXACT_COLLIDABLE m else <[(http_path, meth) := collidable]> (_EXACT_COLLIDABLE m))
      (_PATTERN_COLLIDABLE m) ({[ (http_path, meth) ]} ∪ _EXACT_PROTO_ROUTES m) (_PATTERN_PROTO_ROUTES m).

Definition _register_route (http_path : string) (methods : list string) (descriptor : collidable_pairs) (m : route_maps) : route_maps :=
  let collidable := filter (λ f, f.1 ≠ f.2) descriptor in
  foldl (register_method http_path collidable) m methods.

Section guard.
Context `{MlflowServer}.

(** [SearchDatasets] is MLflow's class. *)
Definition _NON_REGISTRY_PROTO_ROUTES : list (string * string * proto_class) :=
  [("mlflow/experiments/search-datasets", "POST", SearchDatasets)].

Definition bind_rule (suffix meth : string) (proto : proto_class) (m : route_maps) (rule : string * list string) : route_maps :=
  let '(rule_path, methods) := rule in
  if endswith rule_path suffix && bool_decide (meth ∈ methods) then _register_route rule_path [meth] (proto_fields proto) m else m.

Definition _bind_non_registry_proto_routes (m : route_maps) : route_maps :=
  foldl (λ m '(suffix, meth, proto), foldl (bind_rule suffix meth proto) m url_rules) m _NON_REGISTRY_PROTO_ROUTES.

(** [get_endpoints(lambda rc: rc)]: a plain function has no descriptor. *)
Definition register_endpoint (m : route_maps) (endpoint : string * option proto_class * list string) : route_maps :=
  match endpoint with
  | (http_path, Some cls, methods) => _register_route http_path methods (proto_fields cls) m
  | (_, None, _) => m
  end.

Definition _build_proto_route_maps : route_maps :=
  _bind_non_registry_proto_routes (foldl register_endpoint no_routes mlflow_endpoints).

#[global] Arguments _build_proto_route_maps : simpl never.

(** The module refuses to load with empty maps. *)
Definition _assert_maps_populated (m : route_maps) : outcome unit :=
  if decide (_EXACT_COLLIDABLE m = ∅ ∧ _PATTERN_COLLIDABLE m = []) then Raise (OtherException "RuntimeError") else Ok tt.

Fixpoint first_pattern (req_path meth : string) (rows : list (Pattern * string * collidable_pairs)) : option collidable_pairs :=
  match rows with
  | [] => None
  | (compiled, m, collidable) :: rows =>
      if bool_decide (m = meth) && pat_fullmatch compiled req_path then Some collidable else first_pattern req_path meth rows
  end.

Definition _collidable_fields_for (req_path meth : string) : option collidable_pairs :=
  match _EXACT_COLLIDABLE _build_proto_route_maps !! (req_path, meth) with
  | Some fields => Some fields
  | None => first_pattern req_path meth (_PATTERN_COLLIDABLE _build_proto_route_maps)
  end.

(** HEAD is served by the view of GET. *)
Definition head_as_get (meth : string) : string := if decide (meth = "HEAD") then "GET" else meth.

Definition _is_proto_route (req_path meth : string) : bool :=
  let meth := head_as_get meth in
  bool_decide ((req_path, meth) ∈ _EXACT_PROTO_ROUTES _build_proto_route_maps)
  || existsb (λ '(compiled, m), bool_decide (m = meth) && pat_fullmatch compiled req_path) (_PATTERN_PROTO_ROUTES _build_proto_route_maps).

Definition _request_body (req : Request) : option (list (string * json)) :=
  match _get_normalized_request_json req with Ok (JObj data) => Some data | _ => None end.

Definition _mlflow_reads_args (req : Request) : bool :=
  bool_decide (method req = "GET") && negb (bool_decide (args req = [])).

Definition has_key {A} (k : string) (d : list (string * A)) : bool := match dict_get k d with Some _ => true | None => false end.

Definition find_dual_spelling_collision (req : Request) : option string :=
  match _collidable_fields_for (path req) (method req) with
  | None | Some [] => None
  | Some collidable =>
      if _mlflow_reads_args req then None
      else match _request_body req with
           | None | Some [] => None
           | Some data => fst <$> List.find (λ '(snake, camel), has_key snake data && has_key camel data) collidable
           end
  end.

Definition _snake_to_camel (nm : string) : string :=
  match py_split "_" nm with
  | [] => ""
  | head :: rest => head +:+ String.concat "" (capitalise <$> rest)
  end.

(** [(route_is_proto, value)]; a key that is present but [null] ends the search. *)
Definition proto_request_value (req : Request) (field : string) : bool * option json :=
  if negb (_is_proto_route (path req) (method req)) then (false, None)
  else if _mlflow_reads_args req then (true, JStr <$> dict_get field (args req))
  else match _request_body req with
       | None | Some [] => (true, None)
       | Some data =>
           match dict_get field data, dict_get (_snake_to_camel field) data with
           | Some v, _ | None, Some v => (true, some_value v)
           | None, None => (true, None)
           end
       end.

Definition has_unexpected_get_body (req : Request) : bool :=
  if negb (bool_decide (method req ∈ ["GET"; "HEAD"])) then false
  else if bool_decide (method req = "GET") && negb (bool_decide (args req = [])) then false
  else if negb (_is_proto_route (path req) (method req)) then false
  else match _request_body req with None | Some [] => false | Some _ => true end.

(** ** [utils/request_helpers.py] *)

Context `{MlflowEntities}.

(** A multi-dict, as a container of parameters. *)
Definition of_multidict (d : list (string * string)) : json := JObj (prod_map id JStr <$> d).

(** [k in v] and [v[k]], for [v] as [json.loads] builds it. *)
Definition py_in (k : string) (v : json) : outcome bool :=
  match v with
  | JObj d => Ok (has_key k d)
  | JArr l => Ok (existsb (λ x, match x with JStr s => String.eqb s k | _ => false end) l)
  | JStr s => Ok (contains k s)
  | _ => Raise (OtherException "TypeError")
  end.
Definition py_item (k : string) (v : json) : outcome json :=
  match v with
  | JObj d => match dict_get k d with Some v => Ok v | None => Raise KeyError end
  | _ => Raise (OtherException "TypeError")
  end.

Definition get_url_param (req : Request) (param : string) : outcome string :=
  match dict_get param (view_args req) with
  | Some v => Ok v
  | None => Raise (MlflowException INVALID_PARAMETER_VALUE)
  end.
Definition get_optional_url_param (req : Request) (param : string) : option string := dict_get param (view_args req).

(** Where the method says the parameters are. *)
Definition request_params (req : Request) : outcome json :=
  if bool_decide (method req ∈ ["GET"; "HEAD"]) then Ok (of_multidict (args req))
  else if bool_decide (method req ∈ ["POST"; "PATCH"; "DELETE"]) then
    if is_json req then request_dot_json req else Ok (of_multidict (form req))
  else Raise (MlflowException (OtherCode "BAD_REQUEST")).

(** [not args or param not in args], and then the item. *)
Definition lookup_param (req : Request) (param : string) : outcome (option json) :=
  params ← request_params req;
  if json_truthy params then
    present ← py_in param params;
    if present : bool then v ← py_item param params; Ok (Some v) else Ok None
  else Ok None.

Definition blank (v : json) : bool :=
  negb (json_truthy v) || match v with JStr s => bool_decide (py_strip s = "") | _ => false end.

Definition get_request_param_or (missing : outcome json) (req : Request) (param : string) : outcome json :=
  found ← lookup_param req param;
  match found with
  | None => missing
  | Some value => if blank value then Raise (MlflowException INVALID_PARAMETER_VALUE) else Ok value
  end.

(** A missing [run_id] is looked for once more as [run_uuid]. *)
Definition get_request_param (req : Request) (param : string) : outcome json :=
  let missing := Raise (MlflowException INVALID_PARAMETER_VALUE) in
  get_request_param_or (if decide (param = "run_id") then get_request_param_or missing req "run_uuid" else missing) req param.

Definition get_optional_request_param (req : Request) (param : string) : outcome (option json) :=
  found ← lookup_param req param;
  mret (found ≫= some_value).

(** [try: if body and param in body: return body[param]], for one of the two
    ways of reading the body; an exception means the next way is tried. *)
Definition param_of_body (body : outcome json) (param : string) : option json :=
  match (body ← body;
         if json_truthy body then
           present ← py_in param body;
           if present : bool then v ← py_item param body; Ok (Some v) else Ok None
         else Ok None) with
  | Ok r => r
  | Raise _ => None
  end.
Definition param_from_body (req : Request) (param : string) : option json :=
  match param_of_body (request_dot_json req) param with
  | Some v => some_value v
  | None => param_of_body (Ok (default JNull (get_json req))) param ≫= some_value
  end.

Definition _extract_param_from_all_sources (req : Request) (param : string) : outcome (option json) :=
  let '(is_proto, proto_value) := proto_request_value req param in
  let path_value := dict_get param (view_args req) in
  match path_value, proto_value with
  | Some p, Some v =>
      if is_proto && negb (match v with JStr s => String.eqb s p | _ => false end)
      then Raise (MlflowException INVALID_PARAMETER_VALUE) else Ok (Some (JStr p))
  | Some p, None => Ok (Some (JStr p))
  | None, _ =>
      if is_proto then Ok proto_value
      else match dict_get param (args req) with
           | Some v => Ok (Some (JStr v))
           | None => Ok (param_from_body req param)
           end
  end.

Definition _experiment_id_from_name (experiment_name : json) : outcome json :=
  match get_experiment_by_name experiment_name with
  | Ok (Some experiment_id) => Ok (JStr experiment_id)
  | Ok None => Raise (MlflowException INVALID_PARAMETER_VALUE)
  | Raise (MlflowException e) => Raise (MlflowException e)
  | Raise _ => Raise (MlflowException INVALID_PARAMETER_VALUE)
  end.

Definition get_experiment_id (req : Request) : outcome json :=
  experiment_id ← _extract_param_from_all_sources req "experiment_id";
  match experiment_id with
  | Some id => Ok id
  | None =>
      experiment_name ← _extract_param_from_all_sources req "experiment_name";
      match experiment_name with
      | Some nm => _experiment_id_from_name nm
      | None => Raise (MlflowException INVALID_PARAMETER_VALUE)
      end
  end.

Definition required_param (req : Request) (param : string) : outcome json :=
  v ← _extract_param_from_all_sources req param;
  match v with Some v => Ok v | None => Raise (MlflowException INVALID_PARAMETER_VALUE) end.
Definition get_model_id (req : Request) : outcome json := required_param req "model_id".
Definition get_model_name (req : Request) : outcome json := required_param req "name".
End guard.
