(* ===== verification/RequestFacts.v ===== *)
(** * The guard reads what MLflow parses

    The route maps the guard builds at import time, and what follows from a
    request passing the two rejections: a field read through
    [proto_request_value] is the one MLflow's parser assigns. *)
From S2P Require Import Prelude PyStrings Json Regex Requests.

(** ** Dictionaries *)

Section dicts.
Context {A : Type}.
Implicit Types d : list (string * A).

Lemma dict_get_Some k d v : dict_get k d = Some v → (k, v) ∈ d.
Proof.
  induction d as [|[k' w] d IH]; cbn; [done|]. case_decide as Hk.
  - intros [= ->]. subst. left.
  - intros. right. auto.
Qed.

Lemma dict_get_None k d : dict_get k d = None ↔ k ∉ d.*1.
Proof.
  induction d as [|[k' w] d IH]; cbn; [split; [by intros _ ?%not_elem_of_nil|done]|].
  case_decide as Hk; [subst; split; [done|set_solver]|]. rewrite IH. set_solver.
Qed.

Lemma dict_get_iff k d v : NoDup d.*1 → dict_get k d = Some v ↔ (k, v) ∈ d.
Proof.
  intros Hd. split; [apply dict_get_Some|]. induction d as [|[k' w] d IH]; [by intros ?%not_elem_of_nil|].
  rewrite fmap_cons in Hd. apply NoDup_cons in Hd as [Hk Hd]. cbn in Hk |- *. intros [[= -> ->]|Hin]%elem_of_cons.
  - by case_decide.
  - case_decide as Heq; [|by auto]. destruct Hk. apply list_elem_of_fmap. exists (k, v). by rewrite Heq.
Qed.

Lemma has_key_iff k d : has_key k d = true ↔ k ∈ d.*1.
Proof.
  unfold has_key. destruct (dict_get k d) eqn:E.
  - split; [intros _|done]. apply dict_get_Some in E. apply list_elem_of_fmap. by exists (k, a).
  - split; [done|]. intros Hin. by apply dict_get_None in E.
Qed.

(** The last entry under either of two names. *)
Definition last_spelled (f c : string) d : option A := snd <$> last (filter (λ kv, kv.1 = f ∨ kv.1 = c) d).

Lemma last_spelled_same f d : NoDup d.*1 → last_spelled f f d = dict_get f d.
Proof.
  intros Hd. unfold last_spelled. induction d as [|[k v] d IH]; [done|]. rewrite fmap_cons in Hd.
  apply NoDup_cons in Hd as [Hk Hd]. rewrite filter_cons. cbn in *. case_decide as Hkf; case_decide as Hf.
  - subst. rewrite (proj2 (filter_nil_iff _ _)); [done|]. intros [k' w] Hin Heq. cbn in Heq. apply Hk.
    apply list_elem_of_fmap. exists (k', w). cbn. naive_solver.
  - naive_solver.
  - naive_solver.
  - by rewrite IH.
Qed.

(** With at most one of the two names present, the last entry is the one a
    lookup of the first name, then of the second, finds. *)
Lemma last_spelled_one f c d :
  NoDup d.*1 → ¬ (f ∈ d.*1 ∧ c ∈ d.*1) →
  last_spelled f c d = match dict_get f d, dict_get c d with Some v, _ => Some v | None, o => o end.
Proof.
  intros Hd Hone. unfold last_spelled.
  assert (∀ g h, h ∉ d.*1 → filter (λ kv, kv.1 = g ∨ kv.1 = h) d = filter (λ kv, kv.1 = g ∨ kv.1 = g) d) as Hdrop.
  { intros g h Hh. apply list_filter_iff_in. intros [k v] Hin. cbn. split; [|tauto].
    intros [?| ->]; [by left|]. destruct Hh. apply list_elem_of_fmap. by exists (h, v). }
  destruct (dict_get f d) as [v|] eqn:Ef.
  - rewrite Hdrop; [rewrite -Ef; apply last_spelled_same, Hd|]. intros Hc. apply Hone. split; [|done].
    apply list_elem_of_fmap. exists (f, v). split; [done|]. by apply dict_get_Some.
  - apply dict_get_None in Ef. rewrite -(last_spelled_same c d Hd). unfold last_spelled. do 2 f_equal.
    transitivity (filter (λ kv : string * A, kv.1 = c ∨ kv.1 = f) d); [|by apply Hdrop].
    apply list_filter_iff_in. intros. tauto.
Qed.
End dicts.

(** ** What the route maps hold *)

(** A registration: a path template, a method, and the fields of the class. *)
Record registration := Registration { reg_path : string; reg_method : string; reg_fields : collidable_pairs }.

Definition collidable (fields : collidable_pairs) : collidable_pairs := filter (λ f, f.1 ≠ f.2) fields.

Definition register (m : route_maps) (r : registration) : route_maps :=
  register_method (reg_path r) (collidable (reg_fields r)) m (reg_method r).

(** A request path is an instance of a template. *)
Definition route_matches (template req_path : string) : bool :=
  if parameterized template then pat_fullmatch (_re_compile_path template) req_path else bool_decide (req_path = template).

Section guard_facts.
Context `{MlflowServer}.

Definition route_registrations (http_path : string) (methods : list string) (fields : collidable_pairs) : list registration :=
  (λ meth, Registration http_path meth fields) <$> methods.

Definition endpoint_registrations (endpoint : string * option proto_class * list string) : list registration :=
  match endpoint with
  | (http_path, Some cls, methods) => route_registrations http_path methods (proto_fields cls)
  | (_, None, _) => []
  end.

Definition rule_registrations (entry : string * string * proto_class) (rule : string * list string) : list registration :=
  let '(suffix, meth, proto) := entry in
  if endswith rule.1 suffix && bool_decide (meth ∈ rule.2) then [Registration rule.1 meth (proto_fields proto)] else [].

Definition registrations : list registration :=
  (mlflow_endpoints ≫= endpoint_registrations)
  ++ (_NON_REGISTRY_PROTO_ROUTES ≫= λ entry, url_rules ≫= rule_registrations entry).

Lemma foldl_bind {A B C} (f : C → B → C) (g : A → list B) (h : C → A → C) (l : list A) (c : C) :
  (∀ c a, h c a = foldl f c (g a)) → foldl h c l = foldl f c (l ≫= g).
Proof. intros Hh. revert c. induction l as [|a l IH]; intros c; [done|]. cbn. by rewrite IH Hh foldl_app. Qed.

Lemma register_route_foldl http_path methods fields m :
  _register_route http_path methods fields m = foldl register m (route_registrations http_path methods fields).
Proof. unfold _register_route, route_registrations. revert m. induction methods as [|meth ms IH]; intros m; [done|]. cbn. apply IH. Qed.

(** Building the maps is registering, one by one, in order. *)
Lemma build_registers : _build_proto_route_maps = foldl register no_routes registrations.
Proof.
  unfold _build_proto_route_maps, registrations, _bind_non_registry_proto_routes. rewrite foldl_app.
  rewrite (foldl_bind register endpoint_registrations register_endpoint); last (intros m [[http_path [cls|]] methods]; [apply register_route_foldl|done]).
  apply foldl_bind. intros m [[suffix meth] proto]. apply foldl_bind. intros m' [rule methods]. cbn.
  by destruct (_ && _).
Qed.

(** An invariant of the maps under construction: each entry comes from a
    registration already made, and each registration made has left its entry. *)
Record maps_of (done : list registration) (m : route_maps) : Prop := {
  exact_sound p meth c : _EXACT_COLLIDABLE m !! (p, meth) = Some c →
    ∃ r, r ∈ done ∧ parameterized p = false ∧ reg_path r = p ∧ reg_method r = meth ∧ c = collidable (reg_fields r);
  pattern_sound pat meth c : (pat, meth, c) ∈ _PATTERN_COLLIDABLE m →
    ∃ r, r ∈ done ∧ parameterized (reg_path r) = true ∧ pat = _re_compile_path (reg_path r) ∧ reg_method r = meth ∧ c = collidable (reg_fields r);
  exact_complete r : r ∈ done → parameterized (reg_path r) = false →
    (reg_path r, reg_method r) ∈ _EXACT_PROTO_ROUTES m
    ∧ (collidable (reg_fields r) ≠ [] → is_Some (_EXACT_COLLIDABLE m !! (reg_path r, reg_method r)));
  pattern_complete r : r ∈ done → parameterized (reg_path r) = true →
    (_re_compile_path (reg_path r), reg_method r) ∈ _PATTERN_PROTO_ROUTES m
    ∧ (collidable (reg_fields r) ≠ [] → (_re_compile_path (reg_path r), reg_method r, collidable (reg_fields r)) ∈ _PATTERN_COLLIDABLE m);
}.

Lemma maps_of_nil : maps_of [] no_routes.
Proof. split; cbn; by [intros ???; rewrite lookup_empty|intros ??? ?%not_elem_of_nil|intros ? ?%not_elem_of_nil]. Qed.

Lemma maps_of_snoc done m r : maps_of done m → maps_of (done ++ [r]) (register m r).
Proof.
  intros [He Hp Hec Hpc]. unfold register, register_method. destruct (parameterized (reg_path r)) eqn:Hr; split; cbn.
  - intros p meth c (r'&?&?)%He. exists r'. set_solver.
  - intros pat meth c Hin. case_decide as Hc.
    + apply Hp in Hin as (r'&?&?). exists r'. set_solver.
    + apply elem_of_app in Hin as [(r'&?&?)%Hp|[= -> -> ->]%list_elem_of_singleton]; [exists r'; set_solver|].
      exists r. set_solver.
  - intros r' [Hin| ->%list_elem_of_singleton]%elem_of_app ?; [auto|congruence].
  - intros r' [Hin| ->%list_elem_of_singleton]%elem_of_app Hr'.
    + destruct (Hpc r' Hin Hr'). case_decide; set_solver.
    + split; [set_solver|]. intros. rewrite decide_False; [set_solver|done].
  - intros p meth c. case_decide as Hc; [intros (r'&?&?)%He; exists r'; set_solver|].
    rewrite lookup_insert_Some. intros [[[= <- <-] <-]|[_ (r'&?&?)%He]]; [exists r; set_solver|exists r'; set_solver].
  - intros pat meth c (r'&?&?)%Hp. exists r'. set_solver.
  - intros r' [Hin| ->%list_elem_of_singleton]%elem_of_app Hr'.
    + destruct (Hec r' Hin Hr') as [? Hs]. split; [set_solver|]. intros Hc'. specialize (Hs Hc'). case_decide; [done|].
      destruct (decide ((reg_path r, reg_method r) = (reg_path r', reg_method r'))) as [->|Hne];
        [by rewrite lookup_insert_eq|by rewrite lookup_insert_ne].
    + split; [set_solver|]. intros. rewrite decide_False; [by rewrite lookup_insert_eq|done].
  - intros r' [Hin| ->%list_elem_of_singleton]%elem_of_app ?; [auto|congruence].
Qed.

Lemma maps_of_registrations : maps_of registrations _build_proto_route_maps.
Proof.
  rewrite build_registers. generalize registrations. intros regs.
  induction regs as [|r regs IH] using rev_ind; [apply maps_of_nil|]. rewrite foldl_snoc. by apply maps_of_snoc.
Qed.

(** ** Which class serves a request *)

(** Some registration matches the request, and every one that does has the
    fields of this class: MLflow's routing is unambiguous about it. *)
Record served_by (fields : collidable_pairs) (req_path meth : string) : Prop := {
  served : ∃ r, r ∈ registrations ∧ reg_method r = meth ∧ route_matches (reg_path r) req_path = true;
  served_once r : r ∈ registrations → reg_method r = meth → route_matches (reg_path r) req_path = true → reg_fields r = fields;
}.

Lemma first_pattern_Some p meth rows c :
  first_pattern p meth rows = Some c → ∃ pat, (pat, meth, c) ∈ rows ∧ pat_fullmatch pat p = true.
Proof.
  induction rows as [|[[pat m] c'] rows IH]; cbn; [done|]. case_bool_decide as Hm; cbn.
  - subst. destruct (pat_fullmatch pat p) eqn:E; [intros [= ->]; exists pat; split; [left|done]|].
    intros (pat'&?&?)%IH. exists pat'. split; [by right|done].
  - intros (pat'&?&?)%IH. exists pat'. split; [by right|done].
Qed.

Lemma first_pattern_is_Some p meth rows pat c :
  (pat, meth, c) ∈ rows → pat_fullmatch pat p = true → is_Some (first_pattern p meth rows).
Proof.
  induction rows as [|[[pat' m] c'] rows IH]; [by intros ?%not_elem_of_nil|]. cbn. intros [[= <- <- <-]|Hin]%elem_of_cons Hp.
  - rewrite bool_decide_true; [|done]. by rewrite Hp.
  - destruct (_ && _); [done|by auto].
Qed.

Lemma served_is_proto fields p meth : served_by fields p (head_as_get meth) → _is_proto_route p meth = true.
Proof.
  intros [(r&Hin&Hmeth&Hm) _]. unfold _is_proto_route. rewrite -Hmeth. apply orb_true_iff. destruct maps_of_registrations as [_ _ He Hp].
  unfold route_matches in Hm. destruct (parameterized (reg_path r)) eqn:Hr.
  - right. apply existsb_exists. exists (_re_compile_path (reg_path r), reg_method r).
    split; [apply list_elem_of_In, Hp; done|]. by rewrite bool_decide_true.
  - left. apply bool_decide_eq_true in Hm as ->. apply bool_decide_eq_true. by apply He.
Qed.

(** The pairs the guard finds for a request are those of the class that serves it. *)
Lemma served_collidable fields p meth :
  served_by fields p meth → default [] (_collidable_fields_for p meth) = collidable fields.
Proof.
  intros [(r&Hin&<-&Hm) Hone]. destruct maps_of_registrations as [Hes Hps Hec Hpc]. unfold _collidable_fields_for.
  assert (reg_fields r = fields) as <- by by apply Hone.
  destruct (_EXACT_COLLIDABLE _ !! _) as [c|] eqn:E; cbn.
  { apply Hes in E as (r'&Hr'&Hpar&<-&Heq&->). f_equal. apply Hone; [done..|]. unfold route_matches. rewrite Hpar. by apply bool_decide_eq_true. }
  destruct (first_pattern _ _ _) as [c|] eqn:Ef; cbn.
  { apply first_pattern_Some in Ef as (pat&(r'&Hr'&Hpar&->&Heq&->)%Hps&Hmatch). f_equal. apply Hone; [done..|].
    unfold route_matches. by rewrite Hpar. }
  symmetry. destruct (decide (collidable (reg_fields r) = [])) as [?|Hne]; [done|]. exfalso.
  unfold route_matches in Hm. destruct (parameterized (reg_path r)) eqn:Hr.
  - destruct (Hpc r Hin Hr) as [_ Hc]. destruct (first_pattern_is_Some _ _ _ _ _ (Hc Hne) Hm) as [? Hf]. congruence.
  - apply bool_decide_eq_true in Hm as ->. destruct (Hec r Hin Hr) as [_ Hc]. destruct (Hc Hne). congruence.
Qed.

(** ** Reading what MLflow parses *)

(** MLflow's [_get_request_message], as far as one field goes. A GET with a query
    string is parsed from it: a repeated field from [args.getlist], any other from
    [args.get]. Any other request is parsed from the normalised JSON body, where
    [ParseDict] accepts a field under its name and its [json_name], and the last
    entry wins. An absent field and a [null] are both unset. [repeated] is the
    label of a field in the class that serves a path and a method; in no class of
    MLflow's is a field called [experiment_id] or [name] repeated. *)
Class MlflowParser := {
  request_field : Request → string → string → option json;
  repeated : string → string → string → bool;
  request_field_args req field json_name : method req = "GET" → args req ≠ [] →
    request_field req field json_name =
      if repeated (path req) (method req) field
      then match getlist field (args req) with [] => None | values => Some (JArr (JStr <$> values)) end
      else JStr <$> dict_get field (args req);
  resource_names_are_singular req_path meth field : field ∈ ["experiment_id"; "name"] → repeated req_path meth field = false;
  request_field_body req field json_name : ¬ (method req = "GET" ∧ args req ≠ []) →
    request_field req field json_name =
      match _get_normalized_request_json req with
      | Ok (JObj data) => last_spelled field json_name data ≫= some_value
      | _ => None
      end;
}.
Context `{!MlflowParser}.

(** A request that the two rejections of the hook let pass. *)
Definition passes_guard (req : Request) : Prop :=
  find_dual_spelling_collision req = None ∧ has_unexpected_get_body req = false.

Lemma reads_args_iff req : _mlflow_reads_args req = true ↔ method req = "GET" ∧ args req ≠ [].
Proof. unfold _mlflow_reads_args. rewrite andb_true_iff negb_true_iff bool_decide_eq_true bool_decide_eq_false. done. Qed.

(** A GET or HEAD that passes and is not read from its query string has no body. *)
Lemma passing_get_has_no_body req :
  _is_proto_route (path req) (method req) = true → has_unexpected_get_body req = false → _mlflow_reads_args req = false →
  method req ∈ ["GET"; "HEAD"] → default [] (_request_body req) = [].
Proof.
  intros Hproto Hbody Hargs Hmeth. unfold has_unexpected_get_body in Hbody. unfold _mlflow_reads_args in Hargs.
  rewrite bool_decide_true /= in Hbody; [|done]. rewrite Hargs Hproto /= in Hbody. by destruct (_request_body req) as [[]|].
Qed.

(** No two spellings of one field in the body of a request that passes. *)
Lemma passing_body_spells_once fields req field data :
  served_by fields (path req) (method req) → passes_guard req → _mlflow_reads_args req = false →
  (field, _snake_to_camel field) ∈ fields → _request_body req = Some data →
  field = _snake_to_camel field ∨ ¬ (field ∈ data.*1 ∧ _snake_to_camel field ∈ data.*1).
Proof.
  intros Hserved [Hcol _] Hargs Hfield Hdata. destruct (decide (field = _snake_to_camel field)) as [?|Hne]; [by left|right].
  intros [Hs Hc]. unfold find_dual_spelling_collision in Hcol.
  assert ((field, _snake_to_camel field) ∈ default [] (_collidable_fields_for (path req) (method req))) as Hin.
  { rewrite (served_collidable _ _ _ Hserved). by apply list_elem_of_filter. }
  destruct (_collidable_fields_for _ _) as [c|]; [|by apply not_elem_of_nil in Hin].
  change (default [] (Some c)) with c in Hin. rewrite Hargs Hdata in Hcol.
  destruct c as [|x c]; [by apply not_elem_of_nil in Hin|].
  destruct data as [|kv data]; [by apply not_elem_of_nil in Hs|].
  apply fmap_None in Hcol. apply list_elem_of_In in Hin.
  pose proof (List.find_none _ _ Hcol _ Hin) as Hf. cbn -[has_key] in Hf.
  rewrite !(proj2 (has_key_iff _ _)) in Hf; done.
Qed.

Lemma body_field {req} field camel data :
  _request_body req = Some data → field = camel ∨ ¬ (field ∈ data.*1 ∧ camel ∈ data.*1) →
  match _get_normalized_request_json req with Ok (JObj data) => last_spelled field camel data ≫= some_value | _ => None end
  = match dict_get field data, dict_get camel data with Some v, _ | None, Some v => some_value v | None, None => None end.
Proof.
  unfold _request_body. intros Hdata Honce. pose proof (normalized_keys req) as Hkeys.
  destruct (_get_normalized_request_json req) as [[]|] eqn:E; try done. injection Hdata as ->.
  specialize (Hkeys data eq_refl). destruct Honce as [<-|Honce].
  - rewrite last_spelled_same; [|done]. by destruct (dict_get field data).
  - rewrite last_spelled_one; [|done..]. by destruct (dict_get field data), (dict_get camel data).
Qed.

(** The first value of a list, of a field that is read from repeated arguments. *)
Definition first_value (v : option json) : option json :=
  match v with Some (JArr (x :: _)) => Some x | _ => None end.
Definition repeated_argument req (field : string) : bool :=
  _mlflow_reads_args req && repeated (path req) (method req) field.

Lemma first_of_getlist {A} k (d : list (string * A)) : dict_get k d = head (getlist k d).
Proof.
  unfold getlist. induction d as [|[k' v] d IH]; [done|]. cbn [dict_get]. rewrite filter_cons. cbn [fst].
  destruct (decide (k' = k)); [done|exact IH].
Qed.

Lemma guarded_field fields req field :
  served_by fields (path req) (head_as_get (method req)) → passes_guard req → (field, _snake_to_camel field) ∈ fields →
  proto_request_value req field =
    (true, if repeated_argument req field then first_value (request_field req field (_snake_to_camel field))
           else request_field req field (_snake_to_camel field)).
Proof.
  intros Hserved Hpass Hfield. pose proof (served_is_proto _ _ _ Hserved) as Hproto.
  unfold proto_request_value, repeated_argument. rewrite Hproto. cbn [negb]. destruct (_mlflow_reads_args req) eqn:Hargs; cbn [andb].
  { apply reads_args_iff in Hargs as [Hm Ha]. rewrite request_field_args //. destruct (repeated _ _ _); [|done].
    rewrite first_of_getlist. by destruct (getlist field (args req)). }
  rewrite request_field_body; [|by rewrite -reads_args_iff Hargs].
  destruct (decide (method req ∈ ["GET"; "HEAD"])) as [Hget|Hget].
  - pose proof (passing_get_has_no_body req Hproto (proj2 Hpass) Hargs Hget) as Hnone. unfold _request_body in *.
    destruct (_get_normalized_request_json req) as [[]|]; try done. cbn in Hnone. by subst.
  - assert (head_as_get (method req) = method req) as Heq.
    { unfold head_as_get. case_decide as Hh; [rewrite Hh in Hget; set_solver|done]. }
    rewrite Heq in Hserved. destruct (_request_body req) as [data|] eqn:Hdata.
    + pose proof (passing_body_spells_once _ _ _ _ Hserved Hpass Hargs Hfield Hdata) as Honce.
      rewrite (body_field field _ data Hdata Honce). destruct data as [|kv data]; [done|].
      by destruct (dict_get field (kv :: data)), (dict_get (_snake_to_camel field) (kv :: data)).
    + unfold _request_body in Hdata. by destruct (_get_normalized_request_json req) as [[]|].
Qed.

(** C26: If a request passes the two rejections of the guard, then on a route
    MLflow serves with a protobuf class, a field of that class read through
    proto_request_value is exactly the value MLflow's parser gives it, for every
    method, from the query string or the body, under either spelling; the one
    exception is a repeated field in a query string, of which it is the first of
    the values MLflow reads. *)
Theorem guarded_request_reads_what_mlflow_parses fields req field :
  served_by fields (path req) (head_as_get (method req)) → passes_guard req → (field, _snake_to_camel field) ∈ fields →
  proto_request_value req field =
    (true, if repeated_argument req field then first_value (request_field req field (_snake_to_camel field))
           else request_field req field (_snake_to_camel field)).
Proof. apply guarded_field. Qed.

(** A field that is not repeated is read as MLflow reads it. *)
Lemma guarded_singular_field fields req field :
  served_by fields (path req) (head_as_get (method req)) → passes_guard req → (field, _snake_to_camel field) ∈ fields →
  repeated (path req) (method req) field = false →
  proto_request_value req field = (true, request_field req field (_snake_to_camel field)).
Proof. intros Hs Hp Hf Hr. rewrite (guarded_field fields) //. unfold repeated_argument. by rewrite Hr andb_false_r. Qed.
End guard_facts.
