(* ===== verification/Validators.v ===== *)
(** * The validators ([validators/])

    One definition per validator: what it reads of the request, the resources it
    finds there, and the permission it asks for on each. A validator returns a
    boolean in the process state, or raises. The request is an argument where the
    source has Flask's proxy. *)
From S2P Require Import Prelude PyStrings Json Permissions Regex RegexSafety Database Repositories Users Groups Cache Resolution Store Requests.
From Stdlib Require Import Ascii.
From stdpp Require Import pretty.
#[local] Open Scope Z_scope.

(** The attributes of [config] the request layer reads. *)
Class RequestConfig := {
  RESTRICT_RESOURCE_CREATION : bool;
  OIDC_WORKSPACE_REQUIRE_CREATION_CONTEXT : bool;
  OIDC_WORKSPACE_DENY_DEFAULT_CREATION : bool;
}.

(** MLflow's path check ([mlflow.utils.uri]), and Python's [repr] of a container. *)
Class ValidatorLibs := {
  validate_path_is_safe : string → outcome string;
  container_repr : json → string;
}.

(** ** Python helpers *)

(** [posixpath.normpath] *)
Definition normpath_step (absolute : bool) (new_comps : list string) (comp : string) : list string :=
  if decide (comp = "" ∨ comp = ".") then new_comps
  else if decide (comp ≠ ".." ∨ (absolute = false ∧ new_comps = []) ∨ last new_comps = Some "..") then new_comps ++ [comp]
  else take (length new_comps - 1) new_comps.
Definition normpath (p : string) : string :=
  if decide (p = "") then "."
  else
    let initial_slashes :=
      if startswith p "/" then if startswith p "//" && negb (startswith p "///") then "//" else "/" else "" in
    let comps := foldl (normpath_step (negb (String.eqb initial_slashes ""))) [] (py_split "/" p) in
    let r := initial_slashes +:+ String.concat "/" comps in
    if decide (r = "") then "." else r.

(** [list(dict.fromkeys(values))]: a container is not hashable; booleans are the
    integers 0 and 1. *)
Definition scalar_eqb (v w : json) : bool :=
  match v, w with
  | JNull, JNull => true
  | JStr s, JStr t => String.eqb s t
  | JBool b, JBool c => Bool.eqb b c
  | JNum n, JNum m => n =? m
  | JBool b, JNum n | JNum n, JBool b => n =? Z.b2z b
  | _, _ => false
  end.
Definition hashable (v : json) : bool := match v with JArr _ | JObj _ => false | _ => true end.
Fixpoint dict_fromkeys_from (seen values : list json) : outcome (list json) :=
  match values with
  | [] => Ok []
  | v :: values =>
      if negb (hashable v) then Raise (OtherException "TypeError")
      else if existsb (scalar_eqb v) seen then dict_fromkeys_from seen values
      else rest ← dict_fromkeys_from (v :: seen) values; Ok (v :: rest)
  end.
Definition distinct (values : list json) : outcome (list json) := dict_fromkeys_from [] values.

(** [v.get(key)] on what should be a dict, and iteration. *)
Definition py_get (key : string) (v : json) : outcome (option json) :=
  match v with
  | JObj d => Ok (dict_get key d ≫= some_value)
  | _ => Raise (OtherException "AttributeError")
  end.
Definition py_iter (v : json) : outcome (list json) :=
  match v with
  | JArr l => Ok l
  | JObj d => Ok (JStr <$> d.*1)
  | JStr s => Ok ((λ c, JStr (String c "")) <$> chars_of s)
  | _ => Raise (OtherException "TypeError")
  end.
Definition truthy_values (l : list json) : list json := filter (λ v, json_truthy v = true) l.
(** [request.get_json(silent=True) or {}] *)
Definition body_or_empty (req : Request) : json :=
  match get_json req with Some v => if json_truthy v then v else JObj [] | None => JObj [] end.

(** [all(check(v) for v in values)], and loops that return False at the first
    value refused. *)
Fixpoint all_m {S A} (check : A → M S bool) (values : list A) : M S bool :=
  match values with
  | [] => mret true
  | v :: values => ok ← check v; if ok : bool then all_m check values else mret false
  end.

Section validators.
Context `{SqlBackend, PyRe, UserLibs, Config, RequestConfig, TrackingStore, CacheBackend PermissionResult, CacheBackend Permission}.
Context `{MlflowServer, MlflowEntities, ValidatorLibs}.
Abbreviation W A := (M world A).

(** [str(value)] *)
Definition py_str (v : json) : string :=
  match v with
  | JNull => "None"
  | JBool true => "True"
  | JBool false => "False"
  | JNum n => pretty n
  | JStr s => s
  | JArr _ | JObj _ => container_repr v
  end.

(** [effective_experiment_permission(id, username).permission], and the like for
    the other resource types, on an identifier taken from the request. *)
Definition effective_of (resolve : option string → string → string → W PermissionResult) (req : Request) (id : json) (username : string) : W Permission :=
  id ← lift (identifier id);
  r ← resolve (get_request_workspace req) id username;
  mret (permission r).
Definition experiment_permission := effective_of effective_experiment_permission.

(** ** [validators/experiment.py] *)

Definition _get_permission_from_experiment_id (req : Request) (username : string) : W Permission :=
  experiment_id ← lift (get_experiment_id req);
  experiment_permission req experiment_id username.

Definition _get_permission_from_experiment_name (req : Request) (username : string) : W Permission :=
  experiment_name ← lift (get_request_param req "experiment_name");
  store_exp ← lift (get_experiment_by_name experiment_name);
  match store_exp with
  | None => lift (get_permission "MANAGE")
  | Some experiment_id => experiment_permission req (JStr experiment_id) username
  end.

Definition _experiment_id_from_artifact_path (artifact_path : string) : option string :=
  let artifact_path := match validate_path_is_safe artifact_path with Ok p => p | Raise _ => artifact_path end in
  let segments := filter (λ s, s ≠ "" ∧ s ≠ ".") (py_split "/" (normpath artifact_path)) in
  match segments with
  | [] => None
  | "workspaces" :: rest =>
      match rest with
      | _ :: id :: _ => if py_isdigit id then Some id else None
      | _ => None
      end
  | id :: _ => if py_isdigit id then Some id else None
  end.

Definition _get_experiment_id_from_view_args (req : Request) : option string :=
  let artifact_path := dict_get "artifact_path" (view_args req) in
  if truthy artifact_path then artifact_path ≫= _experiment_id_from_artifact_path
  else
    let query_path := dict_get "path" (args req) in
    if truthy query_path then query_path ≫= _experiment_id_from_artifact_path else None.

Definition _get_permission_from_experiment_id_artifact_proxy (req : Request) (username : string) : W Permission :=
  match _get_experiment_id_from_view_args req with
  | Some experiment_id => experiment_permission req (JStr experiment_id) username
  | None => lift (get_permission DEFAULT_MLFLOW_PERMISSION)
  end.

Definition may (f : Permission → bool) (m : W Permission) : W bool := p ← m; mret (f p).

Definition validate_can_read_experiment req username := may can_read (_get_permission_from_experiment_id req username).
Definition validate_can_read_experiment_by_name req username := may can_read (_get_permission_from_experiment_name req username).
Definition validate_can_update_experiment req username := may can_update (_get_permission_from_experiment_id req username).
Definition validate_can_delete_experiment req username := may can_delete (_get_permission_from_experiment_id req username).
Definition validate_can_manage_experiment req username := may can_manage (_get_permission_from_experiment_id req username).
Definition validate_can_read_experiment_artifact_proxy req username := may can_read (_get_permission_from_experiment_id_artifact_proxy req username).
Definition validate_can_update_experiment_artifact_proxy req username := may can_update (_get_permission_from_experiment_id_artifact_proxy req username).
Definition validate_can_delete_experiment_artifact_proxy req username := may can_delete (_get_permission_from_experiment_id_artifact_proxy req username).

(** The permission on every experiment of a list. *)
Definition on_all_experiments (f : Permission → bool) (req : Request) (username : string) (ids : list json) : W bool :=
  all_m (λ id, may f (experiment_permission req id username)) ids.

Definition validate_can_read_experiments_from_experiment_ids (req : Request) (username : string) : W bool :=
  experiment_ids ← lift (
    if bool_decide (method req = "POST") && is_json req then
      let data := body_or_empty req in
      a ← py_get "experiment_ids" data;
      b ← py_get "experimentIds" data;
      let items v := match v with Some (JArr l) => l | _ => [] end in
      Ok (items a ++ items b)
    else Ok (JStr <$> getlist "experiment_ids" (args req)));
  on_all_experiments can_read req username experiment_ids.

Definition validate_can_update_experiment_from_experiment_id (req : Request) (username : string) : W bool :=
  experiment_id ← lift (get_request_param req "experiment_id");
  may can_update (experiment_permission req experiment_id username).

Definition validate_can_create_experiment (req : Request) (username : string) : W bool :=
  if negb RESTRICT_RESOURCE_CREATION then mret true
  else
    experiment_name ← lift (get_request_param req "name");
    may can_update (effective_of effective_new_experiment_permission req experiment_name username).

(** ** [validators/registered_model.py] *)

Definition _get_permission_from_registered_model_name (req : Request) (username : string) : W Permission :=
  model_name ← lift (get_model_name req);
  effective_of effective_registered_model_permission req model_name username.

Definition _get_permission_from_model_id (req : Request) (username : string) : W Permission :=
  model_id ← lift (get_model_id req);
  experiment_id ← lift (logged_model_experiment_id model_id);
  experiment_permission req (JStr experiment_id) username.

Definition _get_permission_from_model_version req username := _get_permission_from_registered_model_name req username.

Definition _get_permission_from_trace_request_id (req : Request) (username : string) : W Permission :=
  request_id ← lift (get_request_param req "request_id");
  experiment_id ← lift (trace_experiment_id request_id);
  experiment_permission req (JStr experiment_id) username.

Definition validate_can_read_registered_model req username := may can_read (_get_permission_from_registered_model_name req username).
Definition validate_can_update_registered_model req username := may can_update (_get_permission_from_registered_model_name req username).
Definition validate_can_delete_registered_model req username := may can_delete (_get_permission_from_registered_model_name req username).
Definition validate_can_manage_registered_model req username := may can_manage (_get_permission_from_registered_model_name req username).
Definition validate_can_read_logged_model req username := may can_read (_get_permission_from_model_id req username).
Definition validate_can_update_logged_model req username := may can_update (_get_permission_from_model_id req username).
Definition validate_can_delete_logged_model req username := may can_delete (_get_permission_from_model_id req username).
Definition validate_can_manage_logged_model req username := may can_manage (_get_permission_from_model_id req username).
Definition validate_can_read_model_version_artifact req username := may can_read (_get_permission_from_model_version req username).
Definition validate_can_read_trace_artifact req username := may can_read (_get_permission_from_trace_request_id req username).

Definition validate_can_create_registered_model (req : Request) (username : string) : W bool :=
  if negb RESTRICT_RESOURCE_CREATION then mret true
  else
    model_name ← lift (get_model_name req);
    may can_update (effective_of effective_new_registered_model_permission req model_name username).

(** ** [validators/run.py] *)

Definition _permission_for_run (req : Request) (run_id : json) (username : string) : W Permission :=
  experiment_id ← lift (run_experiment_id run_id);
  experiment_permission req (JStr experiment_id) username.

Definition _get_permission_from_run_id (req : Request) (username : string) : W Permission :=
  run_id ← lift (get_request_param req "run_id");
  _permission_for_run req run_id username.

Definition validate_can_read_run req username := may can_read (_get_permission_from_run_id req username).
Definition validate_can_update_run req username := may can_update (_get_permission_from_run_id req username).
Definition validate_can_delete_run req username := may can_delete (_get_permission_from_run_id req username).
Definition validate_can_manage_run req username := may can_manage (_get_permission_from_run_id req username).
Definition validate_can_read_run_artifact req username := may can_read (_get_permission_from_run_id req username).

Definition validate_can_update_run_artifact (req : Request) (username : string) : W bool :=
  let run_id := dict_get "run_uuid" (args req) in
  match run_id with
  | None | Some "" => mret false
  | Some run_id => may can_update (_permission_for_run req (JStr run_id) username)
  end.

(** READ on the experiment of every run of a list. *)
Definition read_all_runs (req : Request) (username : string) (run_ids : list string) : W bool :=
  all_m (λ run_id, may can_read (_permission_for_run req (JStr run_id) username)) run_ids.

Definition validate_can_read_metric_history_bulk_interval (req : Request) (username : string) : W bool :=
  let run_ids := getlist "run_ids" (args req) in
  read_all_runs req username (if decide (run_ids = []) then getlist "run_id" (args req) else run_ids).

(** ** [validators/stuff.py] *)

Definition validate_can_read_metric_history_bulk (req : Request) (username : string) (run_ids : option (list string)) : W bool :=
  let run_ids := default (getlist "run_id" (args req)) run_ids in
  if decide (run_ids = []) then raise (MlflowException INVALID_PARAMETER_VALUE)
  else read_all_runs req username run_ids.

Definition validate_can_search_datasets (req : Request) (username : string) : W bool :=
  experiment_ids ← lift (
    if bool_decide (method req = "POST") && is_json req then
      ids ← py_get "experiment_ids" (body_or_empty req);
      match ids with
      | Some ids => if json_truthy ids then py_iter ids else Ok []
      | None => Ok []
      end
    else Ok (JStr <$> getlist "experiment_ids" (args req)));
  match experiment_ids with
  | [] => raise (MlflowException INVALID_PARAMETER_VALUE)
  | _ => on_all_experiments can_read req username experiment_ids
  end.

Definition validate_can_create_promptlab_run (req : Request) (username : string) : W bool :=
  experiment_id ← lift (match get_request_param req "experiment_id" with
                        | Raise (MlflowException _) => Raise (MlflowException INVALID_PARAMETER_VALUE)
                        | o => o
                        end);
  may can_update (experiment_permission req experiment_id username).

Definition validate_can_create_gateway (req : Request) (username : string) : W bool := mret true.

(** [re.fullmatch(r"gateway/([^/]+)/invocations", path)]: the group has no slash,
    so it is what lies between the two of the text. *)
Definition gateway_path_re : re := Seq (lit "gateway/") (Seq segment (lit "/invocations")).
Definition gateway_of_path (p : string) : option string :=
  if fullmatch gateway_path_re p then py_split "/" p !! 1%nat else None.

Definition _extract_gateway_name (req : Request) : option string :=
  let gateway_path :=
    if bool_decide (method req = "GET") then JStr <$> dict_get "gateway_path" (args req)
    else match get_json req with Some (JObj d) => dict_get "gateway_path" d | _ => None end in
  match gateway_path with
  | Some v => if json_truthy v then gateway_of_path (strip_char "/" (py_str v)) else None
  | None => None
  end.

(** [any(get_permission(p.permission).can_use for p in perms)] *)
Fixpoint any_can_use (rows : list perm_row) : outcome bool :=
  match rows with
  | [] => Ok false
  | r :: rows => p ← get_permission (p_permission r); if can_use p then Ok true else any_can_use rows
  end.

Definition validate_gateway_proxy (req : Request) (username : string) : W bool :=
  match _extract_gateway_name req with
  | gateway_name =>
      if decide (method req = "GET") then
        if truthy gateway_name then can_use_gateway_endpoint (get_request_workspace req) (default "" gateway_name) username
        else
          perms ← on_store (SqlAlchemyStore.list_gateway_endpoint_permissions username);
          lift (any_can_use perms)
      else if truthy gateway_name then can_update_gateway_endpoint (get_request_workspace req) (default "" gateway_name) username
      else mret false
  end.

Definition validate_can_invoke_scorer (req : Request) (username : string) : W bool :=
  let args := match get_json req with Some (JObj d) => d | _ => [] end in
  match dict_get "experiment_id" args with
  | None => mret false
  | Some experiment_id =>
      if negb (json_truthy experiment_id) then mret false
      else
        p ← experiment_permission req (JStr (py_str experiment_id)) username;
        mret (if json_truthy (default (JBool false) (dict_get "log_assessments" args)) then can_update p else can_read p)
  end.

(** ** [validators/scorers.py] *)

Definition scorer_permission (name_param : string) (req : Request) (username : string) : W Permission :=
  experiment_id ← lift (get_request_param req "experiment_id");
  name ← lift (get_request_param req name_param);
  experiment_id ← lift (identifier experiment_id);
  name ← lift (identifier name);
  r ← effective_scorer_permission (get_request_workspace req) experiment_id name username;
  mret (permission r).
Definition _get_permission_from_scorer_name := scorer_permission "name".
Definition _get_permission_from_scorer_permission_request := scorer_permission "scorer_name".

Definition validate_can_read_scorer req username := may can_read (_get_permission_from_scorer_name req username).
Definition validate_can_update_scorer req username := may can_update (_get_permission_from_scorer_name req username).
Definition validate_can_delete_scorer req username := may can_delete (_get_permission_from_scorer_name req username).
Definition validate_can_manage_scorer req username := may can_manage (_get_permission_from_scorer_name req username).
Definition validate_can_manage_scorer_permission req username := may can_manage (_get_permission_from_scorer_permission_request req username).

(** ** [validators/prompt_optimization_job.py] *)

Definition _get_permission_from_prompt_optimization_job_id (req : Request) (username : string) : W Permission :=
  job_id ← lift (get_url_param req "job_id");
  params ← lift (job_params job_id);
  experiment_id ← lift (py_get "experiment_id" params);
  experiment_permission req (default JNull experiment_id) username.

Definition validate_can_read_prompt_optimization_job req username := may can_read (_get_permission_from_prompt_optimization_job_id req username).
Definition validate_can_update_prompt_optimization_job req username := may can_update (_get_permission_from_prompt_optimization_job_id req username).
Definition validate_can_delete_prompt_optimization_job req username := may can_delete (_get_permission_from_prompt_optimization_job_id req username).

(** ** [validators/trace.py] *)

Definition _json_body (req : Request) : json := body_or_empty req.

Definition _field_values (container : json) (snake camel : string) : list json :=
  match container with
  | JObj d => omap (λ key, dict_get key d ≫= some_value) [snake; camel]
  | _ => []
  end.

Definition list_items (v : json) : list json := match v with JArr l => l | _ => [] end.

(** [for locations in ...: for location in locations or []: ...] *)
Fixpoint location_ids (locations : list json) : outcome (list json) :=
  match locations with
  | [] => Ok []
  | v :: rest =>
      items ← (if json_truthy v then py_iter v else Ok []);
      rest ← location_ids rest;
      Ok ((items ≫= λ location, _field_values location "mlflow_experiment" "mlflowExperiment"
                  ≫= λ mlflow_experiment, _field_values mlflow_experiment "experiment_id" "experimentId") ++ rest)
  end.

Definition _all_experiment_ids_from_search (req : Request) : outcome (list json) :=
  let body := _json_body req in
  from_locations ← location_ids (_field_values body "locations" "locations");
  Ok (truthy_values (
    (JStr <$> getlist "experiment_ids" (args req))
    ++ (_field_values body "experiment_ids" "experimentIds" ≫= list_items)
    ++ from_locations)).

Definition _all_trace_ids_from_batch (req : Request) : list json :=
  truthy_values ((JStr <$> getlist "trace_ids" (args req)) ++ (_field_values (_json_body req) "trace_ids" "traceIds" ≫= list_items)).

(** The values under some keys, those that count as true. *)
Definition truthy_at (keys : list string) (d : list (string * json)) : list json :=
  truthy_values (omap (λ key, dict_get key d) keys).
Definition truthy_at_strings (keys : list string) (d : list (string * string)) : list json :=
  truthy_values (omap (λ key, JStr <$> dict_get key d) keys).

Definition body_dict (req : Request) : outcome (list (string * json)) :=
  match _json_body req with JObj d => Ok d | _ => Raise (OtherException "AttributeError") end.

Definition _all_single_trace_ids (req : Request) : outcome (list json) :=
  body ← body_dict req;
  distinct (
    truthy_at_strings ["trace_id"; "request_id"] (view_args req)
    ++ truthy_at_strings ["trace_id"; "traceId"; "request_id"; "requestId"] (args req)
    ++ truthy_at ["trace_id"; "traceId"; "request_id"; "requestId"] body).

Definition _require_read_on_all (req : Request) (username : string) (experiment_ids : list json) : W bool :=
  match experiment_ids with
  | [] => mret false
  | _ => on_all_experiments can_read req username experiment_ids
  end.

(** [try: experiment_id = ... except Exception: return False] *)
Definition on_resolved (f : Permission → bool) (req : Request) (username : string) (experiment_id : outcome string) : W bool :=
  match experiment_id with
  | Raise _ => mret false
  | Ok experiment_id => may f (experiment_permission req (JStr experiment_id) username)
  end.

Definition _require_on_all_traces (attr : Permission → bool) (req : Request) (username : string) : W bool :=
  trace_ids ← lift (_all_single_trace_ids req);
  match trace_ids with
  | [] => mret false
  | _ => all_m (λ trace_id, on_resolved attr req username (trace_experiment_id trace_id)) trace_ids
  end.

Definition validate_can_read_traces_from_experiment_ids (req : Request) (username : string) : W bool :=
  ids ← lift (_all_experiment_ids_from_search req);
  _require_read_on_all req username ids.

(** The experiments of every trace, or a refusal at the first that has none. *)
Fixpoint experiments_of (trace_ids : list json) : option (list json) :=
  match trace_ids with
  | [] => Some []
  | t :: trace_ids =>
      match trace_experiment_id t with
      | Raise _ => None
      | Ok e => cons (JStr e) <$> experiments_of trace_ids
      end
  end.

Definition validate_can_read_traces_from_trace_ids (req : Request) (username : string) : W bool :=
  match experiments_of (_all_trace_ids_from_batch req) with
  | None => mret false
  | Some experiment_ids => _require_read_on_all req username experiment_ids
  end.

Definition validate_can_read_trace := _require_on_all_traces can_read.
Definition validate_can_update_trace := _require_on_all_traces can_update.

Definition on_named_experiments (f : Permission → bool) (req : Request) (username : string) : W bool :=
  let experiment_ids := _field_values (_json_body req) "experiment_id" "experimentId"
                        ++ truthy_at_strings ["experiment_id"] (args req) in
  match experiment_ids with
  | [] => mret false
  | _ => on_all_experiments f req username experiment_ids
  end.
Definition validate_can_update_trace_from_experiment_id := on_named_experiments can_update.
Definition validate_can_delete_traces_from_experiment_id := on_named_experiments can_delete.

Definition _run_ids_from_all (req : Request) : outcome (list json) :=
  body ← body_dict req;
  distinct (omap (λ key,
    match dict_get key body with
    | Some v => if json_truthy v then Some v else head (truthy_at_strings [key] (args req))
    | None => head (truthy_at_strings [key] (args req))
    end) ["run_id"; "runId"; "run_uuid"]).

Definition validate_can_update_trace_from_run_id (req : Request) (username : string) : W bool :=
  run_ids ← lift (_run_ids_from_all req);
  match run_ids with
  | [] => mret false
  | _ => all_m (λ run_id, on_resolved can_update req username (run_experiment_id run_id)) run_ids
  end.

(** ** [validators/workspace.py] *)

Definition _extract_workspace_name_from_path (req : Request) : option string :=
  match split_str "/mlflow/workspaces/" (path req) with
  | [_; rest] => if decide (rest = "") then None else head (py_split "/" (rstrip_char "/" rest))
  | _ => None
  end.

Definition validate_can_create_workspace (req : Request) (username : string) : W bool :=
  if negb MLFLOW_ENABLE_WORKSPACES then mret false
  else auth_context ← lift (get_auth_context req); mret (is_admin auth_context).

(** The three validators of one workspace. *)
Definition on_workspace (f : Permission → bool) (req : Request) : W bool :=
  if negb MLFLOW_ENABLE_WORKSPACES then mret false
  else
    auth_context ← lift (get_auth_context req);
    if is_admin auth_context then mret true
    else match _extract_workspace_name_from_path req with
         | None => mret false
         | Some workspace_name =>
             perm ← get_workspace_permission_cached (Requests.username auth_context) workspace_name;
             mret (match perm with Some p => f p | None => false end)
         end.
Definition validate_can_read_workspace (req : Request) (username : string) : W bool := on_workspace can_read req.
Definition validate_can_update_workspace (req : Request) (username : string) : W bool := on_workspace can_manage req.
Definition validate_can_delete_workspace (req : Request) (username : string) : W bool := on_workspace can_manage req.
Definition validate_can_list_workspaces (req : Request) (username : string) : W bool := mret MLFLOW_ENABLE_WORKSPACES.

(** ** [validators/gateway.py] *)

Definition _safe_param (req : Request) (nm : string) : option json :=
  match get_request_param req nm with Ok v => if json_truthy v then Some v else None | Raise _ => None end.

(** [_resolve_endpoint_name_from_id] and its two siblings: None on any error. *)
Definition name_from_id (lookup : json → outcome string) (id : json) : option string :=
  match lookup id with Ok nm => Some nm | Raise _ => None end.
Definition _resolve_endpoint_name_from_id := name_from_id gateway_endpoint_name.
Definition _resolve_secret_name_from_id := name_from_id gateway_secret_name.
Definition _resolve_model_definition_name_from_id := name_from_id gateway_model_definition_name.

(** Every name the request refers to, directly or by id. *)
Definition all_gateway_names (name_param id_param : string) (resolve : json → option string) (req : Request) : outcome (list json) :=
  let direct := match _safe_param req name_param with Some v => [v] | None => [] end in
  let resolved :=
    match _safe_param req id_param ≫= resolve with
    | Some nm => if decide (nm = "") then [] else [JStr nm]
    | None => []
    end in
  distinct (direct ++ resolved).
Definition _all_gateway_endpoint_names := all_gateway_names "name" "endpoint_id" _resolve_endpoint_name_from_id.
Definition _all_gateway_secret_names := all_gateway_names "secret_name" "secret_id" _resolve_secret_name_from_id.
Definition _all_gateway_model_definition_names := all_gateway_names "name" "model_definition_id" _resolve_model_definition_name_from_id.

Definition _get_gateway_endpoint_name_for_update (req : Request) : option string := _safe_param req "endpoint_id" ≫= _resolve_endpoint_name_from_id.
Definition _get_gateway_secret_name_for_update (req : Request) : option string := _safe_param req "secret_id" ≫= _resolve_secret_name_from_id.
Definition _get_gateway_model_definition_name_for_update (req : Request) : option string :=
  _safe_param req "model_definition_id" ≫= _resolve_model_definition_name_from_id.

Definition on_every_name (check : option string → string → string → W bool) (names : Request → outcome (list json)) (req : Request) (username : string) : W bool :=
  names ← lift (names req);
  match names with
  | [] => mret false
  | _ => all_m (λ nm, nm ← lift (identifier nm); check (get_request_workspace req) nm username) names
  end.
Definition on_current_name (check : option string → string → string → W bool) (current : Request → option string) (req : Request) (username : string) : W bool :=
  match current req with
  | None | Some "" => mret false
  | Some nm => check (get_request_workspace req) nm username
  end.

Definition validate_can_read_gateway_endpoint := on_every_name can_read_gateway_endpoint _all_gateway_endpoint_names.
Definition validate_can_update_gateway_endpoint := on_current_name can_update_gateway_endpoint _get_gateway_endpoint_name_for_update.
Definition validate_can_delete_gateway_endpoint := on_every_name can_manage_gateway_endpoint _all_gateway_endpoint_names.
Definition validate_can_manage_gateway_endpoint_validator := on_every_name can_manage_gateway_endpoint _all_gateway_endpoint_names.
Definition validate_can_read_gateway_secret := on_every_name can_read_gateway_secret _all_gateway_secret_names.
Definition validate_can_update_gateway_secret := on_current_name can_update_gateway_secret _get_gateway_secret_name_for_update.
Definition validate_can_delete_gateway_secret := on_every_name can_manage_gateway_secret _all_gateway_secret_names.
Definition validate_can_read_gateway_model_definition := on_every_name can_read_gateway_model_definition _all_gateway_model_definition_names.
Definition validate_can_update_gateway_model_definition := on_current_name can_update_gateway_model_definition _get_gateway_model_definition_name_for_update.
Definition validate_can_delete_gateway_model_definition := on_every_name can_manage_gateway_model_definition _all_gateway_model_definition_names.
End validators.
