(* ===== verification/Hooks.v ===== *)
(** * What the two request hooks share

    [flask.g], the state a hook runs in, and the routing tables that both derive
    from MLflow's [get_endpoints]. *)
From S2P Require Import Prelude PyStrings Json Permissions Cache Resolution Requests.

(** ** The state *)

(** The attributes of [flask.g]: names stashed for the after-request handlers,
    as JSON where they come from the body, and the memo of the permission checks. *)
Record flask_g := MkG {
  _deleting_workspace_name : option string;
  _updating_gateway_endpoint_old_name : option string;
  _deleting_gateway_endpoint_name : option string;
  _deleting_gateway_secret_name : option json;
  _deleting_gateway_model_definition_name : option json;
  _after_request_perm_cache : gmap (string * string * string) bool;
}.
Definition empty_g : flask_g := MkG None None None None None ∅.

Definition set_deleting_workspace_name v g := MkG v (_updating_gateway_endpoint_old_name g) (_deleting_gateway_endpoint_name g) (_deleting_gateway_secret_name g) (_deleting_gateway_model_definition_name g) (_after_request_perm_cache g).
Definition set_updating_gateway_endpoint_old_name v g := MkG (_deleting_workspace_name g) v (_deleting_gateway_endpoint_name g) (_deleting_gateway_secret_name g) (_deleting_gateway_model_definition_name g) (_after_request_perm_cache g).
Definition set_deleting_gateway_endpoint_name v g := MkG (_deleting_workspace_name g) (_updating_gateway_endpoint_old_name g) v (_deleting_gateway_secret_name g) (_deleting_gateway_model_definition_name g) (_after_request_perm_cache g).
Definition set_deleting_gateway_secret_name v g := MkG (_deleting_workspace_name g) (_updating_gateway_endpoint_old_name g) (_deleting_gateway_endpoint_name g) v (_deleting_gateway_model_definition_name g) (_after_request_perm_cache g).
Definition set_deleting_gateway_model_definition_name v g := MkG (_deleting_workspace_name g) (_updating_gateway_endpoint_old_name g) (_deleting_gateway_endpoint_name g) (_deleting_gateway_secret_name g) v (_after_request_perm_cache g).
Definition set_after_request_perm_cache v g := MkG (_deleting_workspace_name g) (_updating_gateway_endpoint_old_name g) (_deleting_gateway_endpoint_name g) (_deleting_gateway_secret_name g) (_deleting_gateway_model_definition_name g) v.

Section state.
Context `{CacheBackend PermissionResult, CacheBackend Permission}.

Record hook_state := HookState { h_world : world; h_g : flask_g }.

Definition on_world {A} (m : M world A) : M hook_state A := λ s,
  let '(o, w) := m (h_world s) in (o, HookState w (h_g s)).
Definition modify_g (f : flask_g → flask_g) : M hook_state unit := modify (λ s, HookState (h_world s) (f (h_g s))).

Lemma on_world_run {A} (m : M world A) s : on_world m s = ((m (h_world s)).1, HookState (m (h_world s)).2 (h_g s)).
Proof. unfold on_world. by destruct (m (h_world s)). Qed.
End state.
Arguments hook_state {_ _}.

(** ** Dicts in insertion order *)

(** [d[k] = v]: an existing key keeps its place. *)
Fixpoint dict_set {K V} `{EqDecision K} (k : K) (v : V) (d : list (K * V)) : list (K * V) :=
  match d with
  | [] => [(k, v)]
  | (k', w) :: d => if decide (k' = k) then (k', v) :: d else (k', w) :: dict_set k v d
  end.
Definition dict_update {K V} `{EqDecision K} (d new : list (K * V)) : list (K * V) :=
  foldl (λ d kv, dict_set kv.1 kv.2 d) d new.
Fixpoint dict_find {K V} `{EqDecision K} (k : K) (d : list (K * V)) : option V :=
  match d with
  | [] => None
  | (k', v) :: d => if decide (k' = k) then Some v else dict_find k d
  end.

Lemma dict_find_In {K V} `{EqDecision K} (k : K) (v : V) d : dict_find k d = Some v → (k, v) ∈ d.
Proof.
  induction d as [|[k' w] d IH]; cbn; [done|]. case_decide as Hk; [intros [= ->]; subst; left|].
  intros. right. auto.
Qed.

Lemma dict_set_In {K V} `{EqDecision K} (k : K) (v : V) d kv : kv ∈ dict_set k v d → kv = (k, v) ∨ kv ∈ d.
Proof.
  induction d as [|[k' w] d IH]; cbn; [intros ->%list_elem_of_singleton; by left|].
  case_decide as Hk; intros [->|Hin]%elem_of_cons; [left; by rewrite Hk|right; by right|right; by left|].
  destruct (IH Hin); [by left|right; by right].
Qed.

Lemma dict_find_set {K V} `{EqDecision K} (k : K) (v : V) d : dict_find k (dict_set k v d) = Some v.
Proof.
  induction d as [|[k' w] d IH]; cbn; [by case_decide|]. case_decide as Hk; cbn; [by case_decide|]. by case_decide.
Qed.

Lemma dict_find_set_ne {K V} `{EqDecision K} (k k' : K) (v : V) d : k ≠ k' → dict_find k' (dict_set k v d) = dict_find k' d.
Proof.
  intros Hne. induction d as [|[k'' w] d IH]; cbn; [by case_decide|].
  case_decide as Hk; cbn; [subst; by case_decide|]. by case_decide.
Qed.

Lemma dict_set_bound {K V} `{EqDecision K} (k k' : K) (v : V) d : is_Some (dict_find k' d) → is_Some (dict_find k' (dict_set k v d)).
Proof. intros Hd. destruct (decide (k = k')) as [<-|Hne]; [by rewrite dict_find_set|by rewrite dict_find_set_ne]. Qed.

Lemma dict_update_keeps {K V} `{EqDecision K} (k : K) (d new : list (K * V)) : is_Some (dict_find k d) → is_Some (dict_find k (dict_update d new)).
Proof. unfold dict_update. revert d. induction new as [|[k' v] new IH]; intros d Hd; [done|]. by apply IH, dict_set_bound. Qed.

Lemma dict_update_binds {K V} `{EqDecision K} (k : K) (v : V) (d new : list (K * V)) : (k, v) ∈ new → is_Some (dict_find k (dict_update d new)).
Proof.
  unfold dict_update. revert d. induction new as [|[k' w] new IH]; intros d; [by intros ?%not_elem_of_nil|].
  intros [[= <- <-]|Hin]%elem_of_cons; [|by apply IH]. cbn.
  apply (dict_update_keeps k (dict_set k v d) new). by rewrite dict_find_set.
Qed.

Lemma dict_update_In {K V} `{EqDecision K} (d new : list (K * V)) kv : kv ∈ dict_update d new → kv ∈ d ∨ kv ∈ new.
Proof.
  unfold dict_update. revert d. induction new as [|[k v] new IH]; intros d; [by left|]. cbn [foldl].
  intros [[->|?]%dict_set_In|?]%IH; [right; left|by left|right; by right].
Qed.

(** ** [get_endpoints] *)

(** What a routing table holds: one of the hook's own functions, or the function
    with which MLflow itself serves a route that has no request class. *)
Inductive endpoint_handler (V : Type) := Handler (v : V) | PlainFunction.
Arguments Handler {V} _.
Arguments PlainFunction {V}.
#[export] Instance endpoint_handler_eq_dec `{EqDecision V} : EqDecision (endpoint_handler V).
Proof. solve_decision. Defined.

Section endpoints.
Context `{MlflowServer}.

Definition get_endpoints {V} (get_handler : string → option V) : list (string * option (endpoint_handler V) * list string) :=
  (λ '(http_path, cls, methods),
    (http_path, match cls with Some c => Handler <$> get_handler (proto_name c) | None => Some PlainFunction end, methods))
  <$> mlflow_endpoints.

(** [{(http_path, method): handler for ... in get_endpoints(f) for method in methods if handler in ours}] *)
Definition our_endpoints {V} (get_handler : string → option V) : list ((string * string) * V) :=
  get_endpoints get_handler ≫= λ '(http_path, handler, methods),
    match handler with
    | Some (Handler v) => (λ m, ((http_path, m), v)) <$> methods
    | _ => []
    end.
End endpoints.
