(* ===== verification/AfterRequest.v ===== *)
(** * The after-request hook ([hooks/after_request.py])

    Grants to creators, cascades, and the filtering of search results with its
    re-fetch loops. MLflow's messages and searches are a parameter
    ([ResponseApi]). A loop whose number of rounds the store decides takes fuel;
    [None] means it is still running. *)
From S2P Require Import Prelude PyStrings Json Permissions Regex RegexSafety Database Repositories Users Groups Cache Resolution Store Requests Validators Hooks.

(** ** MLflow's messages and searches *)

(** A response: [resp.json] and [resp.get_json(silent=True)] read [resp_json]. *)
Record response := MkResponse { status_code : Z; resp_json : option json }.

(** A row of a search result: the experiment id (the model name) that its
    permission hangs on, the workspace attribute if the entity has one, the rest. *)
Record search_row := SearchRow { row_key : string; row_workspace : option string; row_proto : json }.

(** One search endpoint: its response message, the page size of the request, the
    search with the other parameters of the request, and the workspace an entity
    is in. *)
Record search_api := SearchApi {
  parse_response : option json → outcome (list search_row * string);
  response_json : list search_row → string → json;
  request_max_results : Request → outcome nat;
  search_page : Request → string → outcome (list search_row);
  workspace_of : string → outcome (option string);
}.

Class ResponseApi := {
  experiments_search : search_api;
  registered_models_search : search_api;
  model_versions_search : search_api;
  logged_models_search : search_api;
  (** [search_logged_models]: the batch, and whether another one follows. *)
  logged_models_page : Request → string → outcome (list search_row * bool);
  logged_models_token : Request → Z → string;
  logged_models_offset : string → outcome Z;
  parse_start_offset_from_page_token : string → outcome Z;
  create_page_token : Z → string;
  (** Fields of the response messages. *)
  created_experiment_id : option json → outcome string;
  created_model_name : option json → outcome string;
  registered_scorer : option json → outcome (string * string);
  created_endpoint_name : option json → outcome string;
  updated_endpoint_name : option json → outcome string;
  created_secret_name : option json → outcome string;
  created_model_definition_name : option json → outcome string;
  (** The names in a gateway listing, with what is listed. *)
  listed : option json → outcome (list (string * json));
  listing_json : list (string * json) → json;
}.

(** [for x in list(message): if not check(x): message.remove(x)] *)
Fixpoint filter_m {S A} (check : A → M S bool) (l : list A) : M S (list A) :=
  match l with
  | [] => mret []
  | x :: l => keep ← check x; rest ← filter_m check l; mret (if keep : bool then x :: rest else rest)
  end.

Section after_request.
Context `{SqlBackend, PyRe, UserLibs, ColumnTyping, Config, TrackingStore, CacheBackend PermissionResult, CacheBackend Permission}.
Context `{MlflowServer, MlflowEntities, ValidatorLibs, ResponseApi}.
Abbreviation HM A := (M hook_state A).

(** A call of [store], with the cache invalidation its wrappers do. *)
Definition store_call (c : call) : HM unit := on_world (run_call c).
(** [try: store... except Exception: warning] *)
Definition store_call_logged (c : call) : HM unit := catch (store_call c) (λ _, mret tt).

(** ** The request-scoped memo *)

Definition memoized (key : string * string * string) (lookup : M world bool) : HM bool :=
  cached ← gets (λ s, _after_request_perm_cache (h_g s) !! key);
  match cached with
  | Some b => mret b
  | None =>
      b ← on_world lookup;
      _ ← modify_g (λ g, set_after_request_perm_cache (<[key := b]> (_after_request_perm_cache g)) g);
      mret b
  end.

Definition _cached_can_read_experiment (req : Request) (experiment_id username : string) : HM bool :=
  memoized ("exp", experiment_id, username) (can_read_experiment (get_request_workspace req) experiment_id username).
Definition _cached_can_read_registered_model (req : Request) (model_name username : string) : HM bool :=
  memoized ("rm", model_name, username) (can_read_registered_model (get_request_workspace req) model_name username).
Definition _cached_can_read_gateway_endpoint (req : Request) (nm username : string) : HM bool :=
  memoized ("gw_ep", nm, username) (can_read_gateway_endpoint (get_request_workspace req) nm username).
Definition _cached_can_read_gateway_secret (req : Request) (nm username : string) : HM bool :=
  memoized ("gw_secret", nm, username) (can_read_gateway_secret (get_request_workspace req) nm username).
Definition _cached_can_read_gateway_model_definition (req : Request) (nm username : string) : HM bool :=
  memoized ("gw_md", nm, username) (can_read_gateway_model_definition (get_request_workspace req) nm username).

Definition _can_access_workspace (username : string) (workspace : option string) : HM bool :=
  if negb MLFLOW_ENABLE_WORKSPACES then mret true
  else match workspace with
       | None | Some "" => mret true
       | Some workspace =>
           memoized ("ws", workspace, username)
             (perm ← get_workspace_permission_cached username workspace;
              mret (match perm with Some p => can_read p | None => false end))
       end.

(** ** Creators and cascades *)

Definition _set_can_manage_experiment_permission (req : Request) (resp : response) : HM unit :=
  experiment_id ← lift (created_experiment_id (resp_json resp));
  username ← lift (get_fastapi_username req);
  store_call (CreateExperimentPermission experiment_id username (name MANAGE)).

Definition _set_can_manage_registered_model_permission (req : Request) (resp : response) : HM unit :=
  nm ← lift (created_model_name (resp_json resp));
  username ← lift (get_fastapi_username req);
  store_call (CreateRegisteredModelPermission nm username (name MANAGE)).

Definition _delete_can_manage_registered_model_permission (req : Request) (resp : response) : HM unit :=
  model_name ← lift (get_model_name req);
  if negb (json_truthy model_name) then mret tt
  else
    model_name ← lift (identifier model_name);
    _ ← store_call (WipeGroupModelPermissions model_name);
    store_call (WipeRegisteredModelPermissions model_name).

Definition _rename_registered_model_permission (req : Request) (resp : response) : HM unit :=
  let data := match request_json req with Some v => if json_truthy v then v else JObj [] | None => JObj [] end in
  nm ← lift (py_get "name" data);
  new_name ← lift (py_get "new_name" data);
  match nm, new_name with
  | Some nm, Some new_name =>
      if negb (json_truthy nm && json_truthy new_name) then mret tt
      else
        nm ← lift (identifier nm);
        new_name ← lift (identifier new_name);
        _ ← store_call (RenameRegisteredModelPermissions nm new_name);
        store_call (RenameGroupModelPermissions nm new_name)
  | _, _ => mret tt
  end.

Definition _set_can_manage_scorer_permission (req : Request) (resp : response) : HM unit :=
  '(experiment_id, scorer_name) ← lift (registered_scorer (resp_json resp));
  username ← lift (get_fastapi_username req);
  store_call (CreateScorerPermission experiment_id scorer_name username (name MANAGE)).

Definition _delete_scorer_permissions_cascade (req : Request) (resp : response) : HM unit :=
  let data := match request_json req with Some v => if json_truthy v then v else JObj [] | None => JObj [] end in
  experiment_id ← lift (py_get "experiment_id" data);
  scorer_name ← lift (py_get "name" data);
  match experiment_id, scorer_name with
  | Some e, Some n =>
      if json_truthy e && json_truthy n then store_call (DeleteScorerPermissionsForScorer (py_str e) (py_str n)) else mret tt
  | _, _ => mret tt
  end.

Definition _set_can_manage_gateway_endpoint_permission (req : Request) (resp : response) : HM unit :=
  nm ← lift (created_endpoint_name (resp_json resp));
  username ← lift (get_fastapi_username req);
  store_call (CreateGatewayEndpointPermission nm username (name MANAGE)).
Definition _set_can_manage_gateway_secret_permission (req : Request) (resp : response) : HM unit :=
  nm ← lift (created_secret_name (resp_json resp));
  username ← lift (get_fastapi_username req);
  store_call (CreateGatewaySecretPermission nm username (name MANAGE)).
Definition _set_can_manage_gateway_model_definition_permission (req : Request) (resp : response) : HM unit :=
  nm ← lift (created_model_definition_name (resp_json resp));
  username ← lift (get_fastapi_username req);
  store_call (CreateGatewayModelDefinitionPermission nm username (name MANAGE)).

Definition _rename_gateway_endpoint_permission (req : Request) (resp : response) : HM unit :=
  old_name ← gets (λ s, _updating_gateway_endpoint_old_name (h_g s));
  match old_name with
  | None | Some "" => mret tt
  | Some old_name =>
      new_name ← lift (updated_endpoint_name (resp_json resp));
      if decide (new_name = "" ∨ new_name = old_name) then mret tt
      else store_call_logged (RenameGatewayEndpointPermissions old_name new_name)
  end.

Definition _delete_gateway_endpoint_permissions_cascade (req : Request) (resp : response) : HM unit :=
  nm ← gets (λ s, _deleting_gateway_endpoint_name (h_g s));
  match nm with
  | None | Some "" => mret tt
  | Some nm => store_call_logged (WipeGatewayEndpointPermissions nm)
  end.
(** The stashed name may be any JSON value; the lookup of it is inside the [try]. *)
Definition wipe_stashed (nm : option json) (wipe : string → call) : HM unit :=
  match nm with
  | None => mret tt
  | Some v =>
      if negb (json_truthy v) then mret tt
      else catch (nm ← lift (identifier v); store_call (wipe nm)) (λ _, mret tt)
  end.
Definition _delete_gateway_secret_permissions_cascade (req : Request) (resp : response) : HM unit :=
  nm ← gets (λ s, _deleting_gateway_secret_name (h_g s)); wipe_stashed nm WipeGatewaySecretPermissions.
Definition _delete_gateway_model_definition_permissions_cascade (req : Request) (resp : response) : HM unit :=
  nm ← gets (λ s, _deleting_gateway_model_definition_name (h_g s)); wipe_stashed nm WipeGatewayModelDefinitionPermissions.

Definition _auto_grant_workspace_manage_permission (req : Request) (resp : response) : HM unit :=
  if negb MLFLOW_ENABLE_WORKSPACES then mret tt
  else if decide (300 ≤ status_code resp) then mret tt
  else match resp_json resp with
       | None => mret tt
       | Some data =>
           if negb (json_truthy data) then mret tt
           else
             workspace ← lift (py_get "workspace" data);
             let workspace_name := match workspace with Some (JObj d) => dict_get "name" d | _ => None end in
             match workspace_name with
             | None => mret tt
             | Some v =>
                 if negb (json_truthy v) then mret tt
                 else
                   auth_context ← lift (get_auth_context req);
                   _ ← catch (nm ← lift (identifier v);
                              store_call (CreateWorkspacePermission nm (Requests.username auth_context) (name MANAGE)))
                         (λ _, mret tt);
                   on_world flush_workspace_cache
             end
       end.

Definition _cascade_delete_workspace_permissions (req : Request) (resp : response) : HM unit :=
  if negb MLFLOW_ENABLE_WORKSPACES then mret tt
  else if decide (300 ≤ status_code resp) then mret tt
  else
    nm ← gets (λ s, _deleting_workspace_name (h_g s));
    match nm with
    | None | Some "" => mret tt
    | Some nm =>
        _ ← store_call_logged (WipeWorkspacePermissions nm);
        on_world flush_workspace_cache
    end.

(** ** Filtering *)

Definition _filter_list_workspaces (req : Request) (resp : response) : HM response :=
  if negb MLFLOW_ENABLE_WORKSPACES then mret resp
  else if decide (status_code resp ≠ 200) then mret resp
  else
    auth_context ← lift (get_auth_context req);
    if is_admin auth_context then mret resp
    else match resp_json resp with
         | None => mret resp
         | Some data =>
             if negb (json_truthy data) then mret resp
             else
               present ← lift (py_in "workspaces" data);
               if negb present then mret resp
               else
                 workspaces ← lift (v ← py_item "workspaces" data; py_iter v);
                 filtered ← filter_m (λ ws,
                   nm ← lift (py_get "name" ws);
                   nm ← lift (identifier (default (JStr "") nm));
                   perm ← on_world (get_workspace_permission_cached (Requests.username auth_context) nm);
                   mret (match perm with Some p => can_read p | None => false end)) workspaces;
                 match data with
                 | JObj d => mret (MkResponse (status_code resp) (Some (JObj (dict_set "workspaces" (JArr filtered) d))))
                 | _ => mret resp
                 end
         end.

(** [ws_map[key] = get_experiment(key).workspace], None on an error. *)
Definition row_workspace_or_none (api : search_api) (key : string) : option string :=
  match workspace_of api key with Ok w => w | Raise _ => None end.

(** The rows of a page that stay: readable, then in an accessible workspace. *)
Definition filter_page (api : search_api) (can_read_row : string → HM bool) (username : string) (rows : list search_row) : HM (list search_row) :=
  rows ← filter_m (λ r, can_read_row (row_key r)) rows;
  if MLFLOW_ENABLE_WORKSPACES
  then filter_m (λ r, _can_access_workspace username (row_workspace_or_none api (row_key r))) rows
  else mret rows.

(** The test on a re-fetched row, whose workspace attribute is at hand. *)
Definition refetched_readable (can_read_row : string → HM bool) (username : string) (r : search_row) : HM bool :=
  ok ← can_read_row (row_key r);
  if ok : bool then _can_access_workspace username (row_workspace r) else mret false.

(** [while len(rows) < max_results and next_page_token != "": ...] *)
Fixpoint refetch_loop (fuel : nat) (page : string → outcome (list search_row)) (keep : search_row → HM bool)
    (max_results : nat) (rows : list search_row) (next_page_token : string) : HM (option (list search_row * string)) :=
  if negb (bool_decide (length rows < max_results)%nat && negb (String.eqb next_page_token "")) then mret (Some (rows, next_page_token))
  else match fuel with
       | O => mret None
       | S fuel =>
           refetched ← lift (page next_page_token);
           let refetched := take (max_results - length rows) refetched in
           if decide (refetched = []) then mret (Some (rows, ""))
           else
             readable ← filter_m keep refetched;
             start_offset ← lift (parse_start_offset_from_page_token next_page_token);
             refetch_loop fuel page keep max_results (rows ++ readable) (create_page_token (start_offset + Z.of_nat (length refetched)))
       end.

(** The three filters that page by offset. *)
Definition filter_search (api : search_api) (can_read_row : Request → string → string → HM bool) (fuel : nat) (req : Request) (resp : response) : HM (option response) :=
  if get_fastapi_admin_status req then mret (Some resp)
  else
    '(rows, next_page_token) ← lift (parse_response api (resp_json resp));
    max_results ← lift (request_max_results api req);
    username ← lift (get_fastapi_username req);
    let check key := can_read_row req key username in
    rows ← filter_page api check username rows;
    result ← refetch_loop fuel (search_page api req) (refetched_readable check username) max_results rows next_page_token;
    mret ((λ '(rows, token), MkResponse (status_code resp) (Some (response_json api rows token))) <$> result).

Definition _filter_search_experiments := filter_search experiments_search _cached_can_read_experiment.
Definition _filter_search_registered_models := filter_search registered_models_search _cached_can_read_registered_model.
Definition _filter_search_model_versions := filter_search model_versions_search _cached_can_read_registered_model.

(** Logged models page by a token that holds an offset; the loop stops inside a
    batch when the page is full. [next] is the token after each row. *)
Fixpoint scan_batch (keep : search_row → HM bool) (token_at : nat → option string) (max_results : nat)
    (models : list search_row) (index : nat) (batch : list search_row) : HM (list search_row * option (option string)) :=
  match batch with
  | [] => mret (models, None)
  | model :: batch =>
      ok ← keep model;
      if negb ok then scan_batch keep token_at max_results models (S index) batch
      else
        let models := models ++ [model] in
        if decide (max_results ≤ length models)%nat then mret (models, Some (token_at index))
        else scan_batch keep token_at max_results models (S index) batch
  end.

Fixpoint logged_models_loop (fuel : nat) (req : Request) (keep : search_row → HM bool) (max_results : nat)
    (models : list search_row) (next_page_token : option string) : HM (option (list search_row * option string)) :=
  match next_page_token with
  | Some token =>
      if decide (length models < max_results)%nat then
        match fuel with
        | O => mret None
        | S fuel =>
            '(batch, more) ← lift (logged_models_page req token);
            offset ← lift (logged_models_offset token);
            let is_last_page := negb more in
            let token_at index :=
              if is_last_page && bool_decide (index = length batch - 1)%nat then None
              else Some (logged_models_token req (offset + Z.of_nat index + 1)) in
            '(models, broke) ← scan_batch keep token_at max_results models 0 batch;
            let next := match broke with
                        | Some t => t
                        | None => if is_last_page then None else Some (logged_models_token req (offset + Z.of_nat max_results))
                        end in
            logged_models_loop fuel req keep max_results models next
        end
      else mret (Some (models, next_page_token))
  | None => mret (Some (models, None))
  end.

Definition _filter_search_logged_models (fuel : nat) (req : Request) (resp : response) : HM (option response) :=
  if get_fastapi_admin_status req then mret (Some resp)
  else
    let api := logged_models_search in
    '(models, token) ← lift (parse_response api (resp_json resp));
    max_results ← lift (request_max_results api req);
    username ← lift (get_fastapi_username req);
    let check key := _cached_can_read_experiment req key username in
    models ← filter_page api check username models;
    let keep r :=
      ok ← check (row_key r);
      if ok : bool then
        if MLFLOW_ENABLE_WORKSPACES then _can_access_workspace username (row_workspace_or_none api (row_key r)) else mret true
      else mret false in
    result ← logged_models_loop fuel req keep max_results models (if decide (token = "") then None else Some token);
    mret ((λ '(models, token), MkResponse (status_code resp) (Some (response_json api models (default "" token)))) <$> result).

(** The gateway listings come as one page. *)
Definition filter_listing (can_read_name : Request → string → string → HM bool) (req : Request) (resp : response) : HM response :=
  if get_fastapi_admin_status req then mret resp
  else
    items ← lift (listed (resp_json resp));
    username ← lift (get_fastapi_username req);
    items ← filter_m (λ item, can_read_name req item.1 username) items;
    mret (MkResponse (status_code resp) (Some (listing_json items))).
Definition _filter_list_gateway_endpoints := filter_listing _cached_can_read_gateway_endpoint.
Definition _filter_list_gateway_secrets := filter_listing _cached_can_read_gateway_secret.
Definition _filter_list_gateway_model_definitions := filter_listing _cached_can_read_gateway_model_definition.
End after_request.

(** ** The table of handlers *)

Inductive after_handler :=
  | H_set_can_manage_experiment | H_set_can_manage_registered_model | H_delete_can_manage_registered_model
  | H_filter_search_experiments | H_filter_search_logged_models | H_filter_search_registered_models | H_filter_search_model_versions
  | H_rename_registered_model | H_set_can_manage_scorer | H_delete_scorer_cascade
  | H_set_can_manage_gateway_endpoint | H_set_can_manage_gateway_secret | H_set_can_manage_gateway_model_definition
  | H_rename_gateway_endpoint | H_delete_gateway_endpoint_cascade | H_delete_gateway_secret_cascade | H_delete_gateway_model_definition_cascade
  | H_filter_list_gateway_endpoints | H_filter_list_gateway_secrets | H_filter_list_gateway_model_definitions
  | H_filter_list_workspaces | H_auto_grant_workspace | H_cascade_delete_workspace.
#[export] Instance after_handler_eq_dec : EqDecision after_handler.
Proof. solve_decision. Defined.

Definition AFTER_REQUEST_PATH_HANDLERS : list (string * after_handler) := [
  ("CreateExperiment", H_set_can_manage_experiment);
  ("CreateRegisteredModel", H_set_can_manage_registered_model);
  ("DeleteRegisteredModel", H_delete_can_manage_registered_model);
  ("SearchExperiments", H_filter_search_experiments);
  ("SearchLoggedModels", H_filter_search_logged_models);
  ("SearchRegisteredModels", H_filter_search_registered_models);
  ("SearchModelVersions", H_filter_search_model_versions);
  ("RenameRegisteredModel", H_rename_registered_model);
  ("RegisterScorer", H_set_can_manage_scorer);
  ("DeleteScorer", H_delete_scorer_cascade);
  ("CreateGatewayEndpoint", H_set_can_manage_gateway_endpoint);
  ("CreateGatewaySecret", H_set_can_manage_gateway_secret);
  ("CreateGatewayModelDefinition", H_set_can_manage_gateway_model_definition);
  ("UpdateGatewayEndpoint", H_rename_gateway_endpoint);
  ("DeleteGatewayEndpoint", H_delete_gateway_endpoint_cascade);
  ("DeleteGatewaySecret", H_delete_gateway_secret_cascade);
  ("DeleteGatewayModelDefinition", H_delete_gateway_model_definition_cascade);
  ("ListGatewayEndpoints", H_filter_list_gateway_endpoints);
  ("ListGatewaySecretInfos", H_filter_list_gateway_secrets);
  ("ListGatewayModelDefinitions", H_filter_list_gateway_model_definitions);
  ("ListWorkspaces", H_filter_list_workspaces);
  ("CreateWorkspace", H_auto_grant_workspace);
  ("DeleteWorkspace", H_cascade_delete_workspace)].

Definition CREATOR_GRANT_HANDLERS : list after_handler := [
  H_set_can_manage_experiment; H_set_can_manage_registered_model; H_set_can_manage_scorer;
  H_set_can_manage_gateway_endpoint; H_set_can_manage_gateway_secret; H_set_can_manage_gateway_model_definition;
  H_auto_grant_workspace].

Definition CREATOR_GRANT_REQUEST_CLASSES : list string :=
  fst <$> filter (λ ch, ch.2 ∈ CREATOR_GRANT_HANDLERS) AFTER_REQUEST_PATH_HANDLERS.

Definition _get_after_request_handler (request_class : string) : option after_handler := dict_find request_class AFTER_REQUEST_PATH_HANDLERS.

Section after_request_hook.
Context `{SqlBackend, PyRe, UserLibs, ColumnTyping, Config, TrackingStore, CacheBackend PermissionResult, CacheBackend Permission}.
Context `{MlflowServer, MlflowEntities, ValidatorLibs, ResponseApi}.

Definition AFTER_REQUEST_HANDLERS : list ((string * string) * after_handler) :=
  dict_update [] (filter (λ kv, contains "/graphql" kv.1.1 = false) (our_endpoints _get_after_request_handler)).

Definition then_same (m : M hook_state unit) (resp : response) : M hook_state (option response) := _ ← m; mret (Some resp).

Definition run_after_handler (fuel : nat) (h : after_handler) (req : Request) (resp : response) : M hook_state (option response) :=
  match h with
  | H_set_can_manage_experiment => then_same (_set_can_manage_experiment_permission req resp) resp
  | H_set_can_manage_registered_model => then_same (_set_can_manage_registered_model_permission req resp) resp
  | H_delete_can_manage_registered_model => then_same (_delete_can_manage_registered_model_permission req resp) resp
  | H_filter_search_experiments => _filter_search_experiments fuel req resp
  | H_filter_search_logged_models => _filter_search_logged_models fuel req resp
  | H_filter_search_registered_models => _filter_search_registered_models fuel req resp
  | H_filter_search_model_versions => _filter_search_model_versions fuel req resp
  | H_rename_registered_model => then_same (_rename_registered_model_permission req resp) resp
  | H_set_can_manage_scorer => then_same (_set_can_manage_scorer_permission req resp) resp
  | H_delete_scorer_cascade => then_same (_delete_scorer_permissions_cascade req resp) resp
  | H_set_can_manage_gateway_endpoint => then_same (_set_can_manage_gateway_endpoint_permission req resp) resp
  | H_set_can_manage_gateway_secret => then_same (_set_can_manage_gateway_secret_permission req resp) resp
  | H_set_can_manage_gateway_model_definition => then_same (_set_can_manage_gateway_model_definition_permission req resp) resp
  | H_rename_gateway_endpoint => then_same (_rename_gateway_endpoint_permission req resp) resp
  | H_delete_gateway_endpoint_cascade => then_same (_delete_gateway_endpoint_permissions_cascade req resp) resp
  | H_delete_gateway_secret_cascade => then_same (_delete_gateway_secret_permissions_cascade req resp) resp
  | H_delete_gateway_model_definition_cascade => then_same (_delete_gateway_model_definition_permissions_cascade req resp) resp
  | H_filter_list_gateway_endpoints => r ← _filter_list_gateway_endpoints req resp; mret (Some r)
  | H_filter_list_gateway_secrets => r ← _filter_list_gateway_secrets req resp; mret (Some r)
  | H_filter_list_gateway_model_definitions => r ← _filter_list_gateway_model_definitions req resp; mret (Some r)
  | H_filter_list_workspaces => r ← _filter_list_workspaces req resp; mret (Some r)
  | H_auto_grant_workspace => then_same (_auto_grant_workspace_manage_permission req resp) resp
  | H_cascade_delete_workspace => then_same (_cascade_delete_workspace_permissions req resp) resp
  end.

(** The hook under [catch_mlflow_exception]; the decorator is MLflow's, so the
    exception is what this definition gives. *)
Definition after_request_hook (fuel : nat) (req : Request) (resp : response) : M hook_state (option response) :=
  if decide (400 ≤ status_code resp < 600) then mret (Some resp)
  else match dict_find (path req, head_as_get (method req)) AFTER_REQUEST_HANDLERS with
       | Some h => run_after_handler fuel h req resp
       | None => mret (Some resp)
       end.
End after_request_hook.
