(* ===== verification/BeforeRequest.v ===== *)
(** * The before-request hook ([hooks/before_request.py])

    The tables that bind a validator to a route, how a request finds its
    validator, and the hook. MLflow's route helpers, its default workspace and
    its exception decorator are parameters ([MlflowRoutes]). *)
From S2P Require Import Prelude PyStrings Json Permissions Regex RegexSafety Database Repositories Users Groups Cache Resolution Store Requests Validators Hooks AfterRequest.
From Stdlib Require Import Ascii.

(** What the hook returns when it answers the request itself. *)
Inductive hook_response := AuthRequired | BadRequest | Forbidden | MlflowError (e : exc).

(** [_BUDGET_POLICY_PROTOS]: the classes this MLflow has. [caught] is what
    [catch_mlflow_exception] makes of an exception: a response, or the exception
    again. *)
Class MlflowRoutes := {
  _BUDGET_POLICY_PROTOS : list string;
  _add_static_prefix : string → string;
  _get_ajax_path : string → Z → string;
  _get_rest_path : string → Z → string;
  DEFAULT_WORKSPACE_NAME : string;
  caught : exc → outcome hook_response;
}.

(** The functions the tables hold; the hook compares them by identity. *)
Inductive validator :=
  | V_can_create_experiment | V_can_create_registered_model | V_can_read_experiment | V_can_read_experiment_by_name
  | V_can_delete_experiment | V_can_update_experiment | V_can_read_run | V_can_delete_run | V_can_update_run
  | V_can_read_experiments_from_experiment_ids | V_can_read_traces_from_experiment_ids | V_can_read_trace
  | V_can_read_traces_from_trace_ids | V_can_update_trace | V_can_update_trace_from_run_id
  | V_can_delete_traces_from_experiment_id | V_can_read_registered_model | V_can_delete_registered_model
  | V_can_update_registered_model | V_can_read_scorer | V_can_delete_scorer | V_can_read_prompt_optimization_job
  | V_can_delete_prompt_optimization_job | V_can_update_prompt_optimization_job | V_can_create_gateway
  | V_can_read_gateway_endpoint | V_can_update_gateway_endpoint | V_can_delete_gateway_endpoint
  | V_can_read_gateway_secret | V_can_update_gateway_secret | V_can_delete_gateway_secret
  | V_can_read_gateway_model_definition | V_can_update_gateway_model_definition
  | V_can_delete_gateway_model_definition | V_can_read_logged_model | V_can_delete_logged_model
  | V_can_update_logged_model | V_can_create_workspace | V_can_read_workspace | V_can_list_workspaces
  | V_can_update_workspace | V_can_delete_workspace | V_can_read_run_artifact | V_can_update_run_artifact
  | V_can_read_model_version_artifact | V_can_read_trace_artifact | V_can_read_metric_history_bulk
  | V_can_read_metric_history_bulk_interval | V_can_search_datasets | V_can_create_promptlab_run | V_gateway_proxy
  | V_can_invoke_scorer | V_deny_non_admin | V_can_read_experiment_artifact_proxy
  | V_can_update_experiment_artifact_proxy | V_can_delete_experiment_artifact_proxy.
#[export] Instance validator_eq_dec : EqDecision validator.
Proof. solve_decision. Defined.

Definition _is_unprotected_route (p : string) : bool :=
  existsb (startswith p) ["/static"; "/favicon.ico"; "/health"; "/metrics"; "/docs"; "/redoc"; "/openapi.json"].

(** ** The tables by request class *)

Definition PROTO_HANDLERS : list (string * validator) := [
  ("CreateExperiment", V_can_create_experiment);
  ("CreateRegisteredModel", V_can_create_registered_model);
  ("GetExperiment", V_can_read_experiment);
  ("GetExperimentByName", V_can_read_experiment_by_name);
  ("DeleteExperiment", V_can_delete_experiment);
  ("RestoreExperiment", V_can_delete_experiment);
  ("UpdateExperiment", V_can_update_experiment);
  ("SetExperimentTag", V_can_update_experiment);
  ("DeleteExperimentTag", V_can_update_experiment);
  ("CreateRun", V_can_update_experiment);
  ("GetRun", V_can_read_run);
  ("DeleteRun", V_can_delete_run);
  ("RestoreRun", V_can_delete_run);
  ("UpdateRun", V_can_update_run);
  ("LogMetric", V_can_update_run);
  ("LogBatch", V_can_update_run);
  ("LogModel", V_can_update_run);
  ("SetTag", V_can_update_run);
  ("DeleteTag", V_can_update_run);
  ("LogParam", V_can_update_run);
  ("GetMetricHistory", V_can_read_run);
  ("ListArtifacts", V_can_read_run);
  ("SearchRuns", V_can_read_experiments_from_experiment_ids);
  ("SearchTraces", V_can_read_traces_from_experiment_ids);
  ("SearchTracesV3", V_can_read_traces_from_experiment_ids);
  ("QueryTraceMetrics", V_can_read_traces_from_experiment_ids);
  ("CalculateTraceFilterCorrelation", V_can_read_traces_from_experiment_ids);
  ("GetTraceInfo", V_can_read_trace);
  ("GetTraceInfoV3", V_can_read_trace);
  ("GetTrace", V_can_read_trace);
  ("GetAssessmentRequest", V_can_read_trace);
  ("BatchGetTraces", V_can_read_traces_from_trace_ids);
  ("BatchGetTraceInfos", V_can_read_traces_from_trace_ids);
  ("SetTraceTag", V_can_update_trace);
  ("SetTraceTagV3", V_can_update_trace);
  ("DeleteTraceTag", V_can_update_trace);
  ("DeleteTraceTagV3", V_can_update_trace);
  ("CreateAssessment", V_can_update_trace);
  ("UpdateAssessment", V_can_update_trace);
  ("DeleteAssessment", V_can_update_trace);
  ("LinkPromptsToTrace", V_can_update_trace);
  ("LinkTracesToRun", V_can_update_trace_from_run_id);
  ("DeleteTraces", V_can_delete_traces_from_experiment_id);
  ("DeleteTracesV3", V_can_delete_traces_from_experiment_id);
  ("GetRegisteredModel", V_can_read_registered_model);
  ("DeleteRegisteredModel", V_can_delete_registered_model);
  ("UpdateRegisteredModel", V_can_update_registered_model);
  ("RenameRegisteredModel", V_can_update_registered_model);
  ("GetLatestVersions", V_can_read_registered_model);
  ("CreateModelVersion", V_can_update_registered_model);
  ("GetModelVersion", V_can_read_registered_model);
  ("DeleteModelVersion", V_can_delete_registered_model);
  ("UpdateModelVersion", V_can_update_registered_model);
  ("TransitionModelVersionStage", V_can_update_registered_model);
  ("GetModelVersionDownloadUri", V_can_read_registered_model);
  ("SetRegisteredModelTag", V_can_update_registered_model);
  ("DeleteRegisteredModelTag", V_can_update_registered_model);
  ("SetModelVersionTag", V_can_update_registered_model);
  ("DeleteModelVersionTag", V_can_delete_registered_model);
  ("SetRegisteredModelAlias", V_can_update_registered_model);
  ("DeleteRegisteredModelAlias", V_can_delete_registered_model);
  ("GetModelVersionByAlias", V_can_read_registered_model);
  ("RegisterScorer", V_can_update_experiment);
  ("ListScorers", V_can_read_experiment);
  ("GetScorer", V_can_read_scorer);
  ("DeleteScorer", V_can_delete_scorer);
  ("ListScorerVersions", V_can_read_scorer);
  ("CreatePromptOptimizationJob", V_can_update_experiment);
  ("GetPromptOptimizationJob", V_can_read_prompt_optimization_job);
  ("SearchPromptOptimizationJobs", V_can_read_experiment);
  ("DeletePromptOptimizationJob", V_can_delete_prompt_optimization_job);
  ("CancelPromptOptimizationJob", V_can_update_prompt_optimization_job);
  ("CreateGatewayEndpoint", V_can_create_gateway);
  ("GetGatewayEndpoint", V_can_read_gateway_endpoint);
  ("UpdateGatewayEndpoint", V_can_update_gateway_endpoint);
  ("DeleteGatewayEndpoint", V_can_delete_gateway_endpoint);
  ("CreateGatewaySecret", V_can_create_gateway);
  ("GetGatewaySecretInfo", V_can_read_gateway_secret);
  ("UpdateGatewaySecret", V_can_update_gateway_secret);
  ("DeleteGatewaySecret", V_can_delete_gateway_secret);
  ("CreateGatewayModelDefinition", V_can_create_gateway);
  ("GetGatewayModelDefinition", V_can_read_gateway_model_definition);
  ("UpdateGatewayModelDefinition", V_can_update_gateway_model_definition);
  ("DeleteGatewayModelDefinition", V_can_delete_gateway_model_definition);
  ("AttachModelToGatewayEndpoint", V_can_update_gateway_endpoint);
  ("DetachModelFromGatewayEndpoint", V_can_update_gateway_endpoint);
  ("CreateGatewayEndpointBinding", V_can_update_gateway_endpoint);
  ("DeleteGatewayEndpointBinding", V_can_update_gateway_endpoint);
  ("ListGatewayEndpointBindings", V_can_read_gateway_endpoint);
  ("SetGatewayEndpointTag", V_can_update_gateway_endpoint);
  ("DeleteGatewayEndpointTag", V_can_update_gateway_endpoint)].

Definition LOGGED_MODEL_BEFORE_REQUEST_HANDLERS : list (string * validator) := [
  ("CreateLoggedModel", V_can_update_experiment);
  ("GetLoggedModel", V_can_read_logged_model);
  ("DeleteLoggedModel", V_can_delete_logged_model);
  ("FinalizeLoggedModel", V_can_update_logged_model);
  ("DeleteLoggedModelTag", V_can_delete_logged_model);
  ("SetLoggedModelTags", V_can_update_logged_model);
  ("LogLoggedModelParamsRequest", V_can_update_logged_model)].

Definition WORKSPACE_BEFORE_REQUEST_HANDLERS : list (string * validator) := [
  ("CreateWorkspace", V_can_create_workspace);
  ("GetWorkspace", V_can_read_workspace);
  ("ListWorkspaces", V_can_list_workspaces);
  ("UpdateWorkspace", V_can_update_workspace);
  ("DeleteWorkspace", V_can_delete_workspace)].

Definition get_logged_model_before_request_handler (request_class : string) : option validator := dict_find request_class LOGGED_MODEL_BEFORE_REQUEST_HANDLERS.
Definition get_workspace_before_request_handler (request_class : string) : option validator := dict_find request_class WORKSPACE_BEFORE_REQUEST_HANDLERS.

Definition GATEWAY_GUARDRAIL_OPERATIONS : list string :=
  ["create"; "get"; "list"; "delete"; "add-to-endpoint"; "remove-from-endpoint"; "list-for-endpoint"; "update-config"].

Abbreviation route := (string * string)%type.

Section tables.
Context `{MlflowServer, MlflowRoutes}.

Definition BEFORE_REQUEST_HANDLERS : list (string * validator) :=
  dict_update PROTO_HANDLERS ((λ bp, (bp, V_deny_non_admin)) <$> _BUDGET_POLICY_PROTOS).

Definition _get_before_request_handler (request_class : string) : option validator := dict_find request_class BEFORE_REQUEST_HANDLERS.

(** ** The tables by route *)

Definition GET_ARTIFACT : string := _add_static_prefix "/get-artifact".
Definition UPLOAD_ARTIFACT : string := _get_ajax_path "/mlflow/upload-artifact" 2.
Definition GET_MODEL_VERSION_ARTIFACT : string := _add_static_prefix "/model-versions/get-artifact".
Definition GET_TRACE_ARTIFACT : string := _get_ajax_path "/mlflow/get-trace-artifact" 2.
Definition GET_METRIC_HISTORY_BULK : string := _get_ajax_path "/mlflow/metrics/get-history-bulk" 2.
Definition GET_METRIC_HISTORY_BULK_INTERVAL : string := _get_ajax_path "/mlflow/metrics/get-history-bulk-interval" 2.
Definition GET_METRIC_HISTORY_BULK_INTERVAL_REST : string := _get_rest_path "/mlflow/metrics/get-history-bulk-interval" 2.
Definition SEARCH_DATASETS : string := _get_ajax_path "/mlflow/experiments/search-datasets" 2.
Definition CREATE_PROMPTLAB_RUN : string := _get_ajax_path "/mlflow/runs/create-promptlab-run" 2.
Definition GATEWAY_PROXY : string := _get_ajax_path "/mlflow/gateway-proxy" 2.
Definition INVOKE_SCORER : string := _get_ajax_path "/mlflow/scorer/invoke" 3.
Definition GATEWAY_SUPPORTED_PROVIDERS : string := _get_ajax_path "/mlflow/gateway/supported-providers" 3.
Definition GATEWAY_SUPPORTED_MODELS : string := _get_ajax_path "/mlflow/gateway/supported-models" 3.
Definition GATEWAY_PROVIDER_CONFIG : string := _get_ajax_path "/mlflow/gateway/provider-config" 3.
Definition GATEWAY_SECRETS_CONFIG : string := _get_ajax_path "/mlflow/gateway/secrets/config" 3.

Definition FLASK_VALIDATORS : list (route * validator) := [
  ((GET_ARTIFACT, "GET"), V_can_read_run_artifact);
  ((UPLOAD_ARTIFACT, "POST"), V_can_update_run_artifact);
  ((GET_MODEL_VERSION_ARTIFACT, "GET"), V_can_read_model_version_artifact);
  ((GET_TRACE_ARTIFACT, "GET"), V_can_read_trace_artifact);
  ((GET_METRIC_HISTORY_BULK, "GET"), V_can_read_metric_history_bulk);
  ((GET_METRIC_HISTORY_BULK_INTERVAL, "GET"), V_can_read_metric_history_bulk_interval);
  ((GET_METRIC_HISTORY_BULK_INTERVAL_REST, "GET"), V_can_read_metric_history_bulk_interval);
  ((SEARCH_DATASETS, "POST"), V_can_search_datasets);
  ((CREATE_PROMPTLAB_RUN, "POST"), V_can_create_promptlab_run);
  ((GATEWAY_PROXY, "GET"), V_gateway_proxy);
  ((GATEWAY_PROXY, "POST"), V_gateway_proxy);
  ((INVOKE_SCORER, "POST"), V_can_invoke_scorer);
  ((GATEWAY_SUPPORTED_PROVIDERS, "GET"), V_gateway_proxy);
  ((GATEWAY_SUPPORTED_MODELS, "GET"), V_gateway_proxy);
  ((GATEWAY_PROVIDER_CONFIG, "GET"), V_deny_non_admin);
  ((GATEWAY_SECRETS_CONFIG, "GET"), V_deny_non_admin)].

Definition GUARDRAIL_VALIDATORS : list (route * validator) :=
  GATEWAY_GUARDRAIL_OPERATIONS ≫= λ operation,
    [_get_ajax_path ("/mlflow/gateway/guardrails/" +:+ operation) 3; _get_rest_path ("/mlflow/gateway/guardrails/" +:+ operation) 3] ≫= λ p,
      (λ m, ((p, m), V_deny_non_admin)) <$> ["GET"; "POST"; "PUT"; "PATCH"; "DELETE"].

Definition _bind_non_proto_route (suffix meth : string) (v : validator) (table : list (route * validator)) : list (route * validator) :=
  foldl (λ table '(rule, methods), if endswith rule suffix && bool_decide (meth ∈ methods) then dict_set (rule, meth) v table else table) table url_rules.

Definition NON_PROTO_ROUTES : list (string * string * validator) := [
  ("mlflow/experiments/search-datasets", "POST", V_can_search_datasets);
  ("mlflow/get-trace-artifact", "GET", V_can_read_trace_artifact);
  ("mlflow/metrics/get-history-bulk", "GET", V_can_read_metric_history_bulk);
  ("mlflow/metrics/get-history-bulk-interval", "GET", V_can_read_metric_history_bulk_interval);
  ("mlflow/upload-artifact", "POST", V_can_update_run_artifact);
  ("mlflow/runs/create-promptlab-run", "POST", V_can_create_promptlab_run);
  ("mlflow/gateway-proxy", "GET", V_gateway_proxy);
  ("mlflow/gateway-proxy", "POST", V_gateway_proxy)].

(** The dict after the comprehension, the two updates and the loop. *)
Definition BEFORE_REQUEST_VALIDATORS : list (route * validator) :=
  foldl (λ table '(suffix, meth, v), _bind_non_proto_route suffix meth v table)
    (dict_update (dict_update (dict_update [] (our_endpoints _get_before_request_handler)) FLASK_VALIDATORS) GUARDRAIL_VALIDATORS)
    NON_PROTO_ROUTES.

Definition PARAMETERIZED_BEFORE_REQUEST_VALIDATORS : list ((Pattern * string) * validator) :=
  dict_update [] ((λ '((p, m), v), ((_re_compile_path p, m), v)) <$> filter (λ kv, parameterized kv.1.1 = true) BEFORE_REQUEST_VALIDATORS).

(** [{(_re_compile_path(p), m): handler ...}], with no filter: a route of another
    class is there with None, a plain function with itself. *)
Definition pattern_endpoints (get_handler : string → option validator) : list ((Pattern * string) * option (endpoint_handler validator)) :=
  get_endpoints get_handler ≫= λ '(http_path, handler, methods), (λ m, ((_re_compile_path http_path, m), handler)) <$> methods.

Definition LOGGED_MODEL_BEFORE_REQUEST_VALIDATORS : list ((Pattern * string) * option (endpoint_handler validator)) :=
  dict_update [] (pattern_endpoints get_logged_model_before_request_handler).
Definition WORKSPACE_BEFORE_REQUEST_VALIDATORS : list ((Pattern * string) * option (endpoint_handler validator)) :=
  dict_update [] (filter (λ kv, is_Some kv.2) (pattern_endpoints get_workspace_before_request_handler)).

(** ** Creation *)

Definition class_paths (classes : list string) : list route :=
  mlflow_endpoints ≫= λ '(http_path, cls, methods),
    match cls with
    | Some c => if decide (proto_name c ∈ classes) then (λ m, (http_path, m)) <$> methods else []
    | None => []
    end.
Definition _get_workspace_gated_creation_paths : list route :=
  class_paths ["CreateExperiment"; "CreateRegisteredModel"; "CreateGatewayEndpoint"; "CreateGatewaySecret"; "CreateGatewayModelDefinition"].
Definition _get_create_grant_paths : list route := class_paths CREATOR_GRANT_REQUEST_CLASSES.
Definition _requires_existing_user (p meth : string) : bool := bool_decide ((p, meth) ∈ _get_create_grant_paths).
Definition _is_workspace_gated_creation (p meth : string) : bool := bool_decide ((p, meth) ∈ _get_workspace_gated_creation_paths).

(** ** The artifact proxy *)

Definition _ARTIFACT_PROXY_MARKER : string := "/mlflow-artifacts/".

Fixpoint insert_string (s : string) (l : list string) : list string :=
  match l with
  | [] => [s]
  | t :: l' => if String.leb s t then s :: l else t :: insert_string s l'
  end.
(** [tuple(sorted(prefixes))] of a set. *)
Definition _build_artifact_proxy_prefixes : list string :=
  foldr insert_string [] (remove_dups (omap (λ rule,
    i ← String.index 0 _ARTIFACT_PROXY_MARKER rule.1;
    Some (take_str (i + String.length _ARTIFACT_PROXY_MARKER) rule.1)) url_rules)).
Definition _ARTIFACT_PROXY_PREFIXES : list string := _build_artifact_proxy_prefixes.

(** The module refuses to load without a prefix. *)
Definition artifact_prefixes_check : outcome unit :=
  if decide (_ARTIFACT_PROXY_PREFIXES = []) then Raise (OtherException "RuntimeError") else Ok tt.

Definition _artifact_proxy_family (p : string) : option string :=
  match List.find (startswith p) _ARTIFACT_PROXY_PREFIXES with
  | None => None
  | Some prefix =>
      match py_split "/" (drop_str (String.length prefix) p) with
      | [] | "" :: _ => None
      | family :: _ => Some family
      end
  end.

(** [path] is None for a caller without one. *)
Definition _get_proxy_artifact_validator (meth : string) (p : option string) : option validator :=
  let family := match p with Some p => _artifact_proxy_family p | None => Some "artifacts" end in
  let meth := head_as_get meth in
  if decide (family = Some "mpu") then
    if decide (meth = "POST") then Some V_can_update_experiment_artifact_proxy else None
  else if decide (family = Some "presigned") then
    if decide (meth = "GET") then Some V_can_read_experiment_artifact_proxy else None
  else if decide (family ≠ None ∧ family ≠ Some "artifacts") then None
  else dict_find meth [
    ("GET", V_can_read_experiment_artifact_proxy);
    ("PUT", V_can_update_experiment_artifact_proxy);
    ("DELETE", V_can_delete_experiment_artifact_proxy)].

Definition _is_proxy_artifact_path (p : string) : bool := existsb (startswith p) _ARTIFACT_PROXY_PREFIXES.

(** ** Routes no request reaches *)

Definition find_dead_validator_paths : list string :=
  let registered := fst <$> url_rules in
  let reachable := (λ kv, kv.1.1) <$> PARAMETERIZED_BEFORE_REQUEST_VALIDATORS in
  foldr insert_string [] (remove_dups (filter (λ p,
    (startswith p "/api/" = true ∨ startswith p "/ajax-api/" = true)
    ∧ (p ∉ registered ∨ parameterized p = true ∧ _re_compile_path p ∉ reachable)) ((λ kv, kv.1.1) <$> BEFORE_REQUEST_VALIDATORS))).
End tables.

Section before_request.
Context `{SqlBackend, PyRe, UserLibs, ColumnTyping, Config, RequestConfig, TrackingStore, CacheBackend PermissionResult, CacheBackend Permission}.
Context `{MlflowServer, MlflowEntities, ValidatorLibs, MlflowRoutes}.
Abbreviation HM A := (M hook_state A).

Definition _deny_non_admin (username : string) : M world bool := mret false.

(** Calling a table entry. *)
Definition run_validator (v : validator) (req : Request) (username : string) : M world bool :=
  match v with
  | V_can_create_experiment => validate_can_create_experiment req username
  | V_can_create_registered_model => validate_can_create_registered_model req username
  | V_can_read_experiment => validate_can_read_experiment req username
  | V_can_read_experiment_by_name => validate_can_read_experiment_by_name req username
  | V_can_delete_experiment => validate_can_delete_experiment req username
  | V_can_update_experiment => validate_can_update_experiment req username
  | V_can_read_run => validate_can_read_run req username
  | V_can_delete_run => validate_can_delete_run req username
  | V_can_update_run => validate_can_update_run req username
  | V_can_read_experiments_from_experiment_ids => validate_can_read_experiments_from_experiment_ids req username
  | V_can_read_traces_from_experiment_ids => validate_can_read_traces_from_experiment_ids req username
  | V_can_read_trace => validate_can_read_trace req username
  | V_can_read_traces_from_trace_ids => validate_can_read_traces_from_trace_ids req username
  | V_can_update_trace => validate_can_update_trace req username
  | V_can_update_trace_from_run_id => validate_can_update_trace_from_run_id req username
  | V_can_delete_traces_from_experiment_id => validate_can_delete_traces_from_experiment_id req username
  | V_can_read_registered_model => validate_can_read_registered_model req username
  | V_can_delete_registered_model => validate_can_delete_registered_model req username
  | V_can_update_registered_model => validate_can_update_registered_model req username
  | V_can_read_scorer => validate_can_read_scorer req username
  | V_can_delete_scorer => validate_can_delete_scorer req username
  | V_can_read_prompt_optimization_job => validate_can_read_prompt_optimization_job req username
  | V_can_delete_prompt_optimization_job => validate_can_delete_prompt_optimization_job req username
  | V_can_update_prompt_optimization_job => validate_can_update_prompt_optimization_job req username
  | V_can_create_gateway => validate_can_create_gateway req username
  | V_can_read_gateway_endpoint => validate_can_read_gateway_endpoint req username
  | V_can_update_gateway_endpoint => validate_can_update_gateway_endpoint req username
  | V_can_delete_gateway_endpoint => validate_can_delete_gateway_endpoint req username
  | V_can_read_gateway_secret => validate_can_read_gateway_secret req username
  | V_can_update_gateway_secret => validate_can_update_gateway_secret req username
  | V_can_delete_gateway_secret => validate_can_delete_gateway_secret req username
  | V_can_read_gateway_model_definition => validate_can_read_gateway_model_definition req username
  | V_can_update_gateway_model_definition => validate_can_update_gateway_model_definition req username
  | V_can_delete_gateway_model_definition => validate_can_delete_gateway_model_definition req username
  | V_can_read_logged_model => validate_can_read_logged_model req username
  | V_can_delete_logged_model => validate_can_delete_logged_model req username
  | V_can_update_logged_model => validate_can_update_logged_model req username
  | V_can_create_workspace => validate_can_create_workspace req username
  | V_can_read_workspace => validate_can_read_workspace req username
  | V_can_list_workspaces => validate_can_list_workspaces req username
  | V_can_update_workspace => validate_can_update_workspace req username
  | V_can_delete_workspace => validate_can_delete_workspace req username
  | V_can_read_run_artifact => validate_can_read_run_artifact req username
  | V_can_update_run_artifact => validate_can_update_run_artifact req username
  | V_can_read_model_version_artifact => validate_can_read_model_version_artifact req username
  | V_can_read_trace_artifact => validate_can_read_trace_artifact req username
  | V_can_read_metric_history_bulk => validate_can_read_metric_history_bulk req username None
  | V_can_read_metric_history_bulk_interval => validate_can_read_metric_history_bulk_interval req username
  | V_can_search_datasets => validate_can_search_datasets req username
  | V_can_create_promptlab_run => validate_can_create_promptlab_run req username
  | V_gateway_proxy => validate_gateway_proxy req username
  | V_can_invoke_scorer => validate_can_invoke_scorer req username
  | V_deny_non_admin => _deny_non_admin username
  | V_can_read_experiment_artifact_proxy => validate_can_read_experiment_artifact_proxy req username
  | V_can_update_experiment_artifact_proxy => validate_can_update_experiment_artifact_proxy req username
  | V_can_delete_experiment_artifact_proxy => validate_can_delete_experiment_artifact_proxy req username
  end.

(** MLflow's own functions do not take a user name: the call fails. *)
Definition call_handler (h : endpoint_handler validator) (req : Request) (username : string) : M world bool :=
  match h with
  | Handler v => run_validator v req username
  | PlainFunction => raise (OtherException "TypeError")
  end.

(** ** Finding the validator *)

(** [next((v for (pat, m), v in table.items() if pat.fullmatch(path) and m == method), None)] *)
Fixpoint first_match {V} (req_path meth : string) (table : list ((Pattern * string) * V)) : option V :=
  match table with
  | [] => None
  | ((pat, m), v) :: table =>
      if pat_fullmatch pat req_path && bool_decide (m = meth) then Some v else first_match req_path meth table
  end.

Definition lookup_validator (req : Request) : option (endpoint_handler validator) :=
  let meth := head_as_get (method req) in
  if contains "/mlflow/workspaces" (path req) then mjoin (first_match (path req) meth WORKSPACE_BEFORE_REQUEST_VALIDATORS)
  else if contains "/mlflow/logged-models" (path req) then mjoin (first_match (path req) meth LOGGED_MODEL_BEFORE_REQUEST_VALIDATORS)
  else match dict_find (path req, meth) BEFORE_REQUEST_VALIDATORS with
       | Some v => Some (Handler v)
       | None => Handler <$> first_match (path req) meth PARAMETERIZED_BEFORE_REQUEST_VALIDATORS
       end.

(** The workspace branch also stashes the name that is being deleted. *)
Definition _find_validator (req : Request) : HM (option (endpoint_handler validator)) :=
  let v := lookup_validator req in
  if contains "/mlflow/workspaces" (path req) && bool_decide (v ≠ None ∧ head_as_get (method req) = "DELETE") then
    let ws_name := _extract_workspace_name_from_path req in
    _ ← (if truthy ws_name then modify_g (set_deleting_workspace_name ws_name) else mret tt);
    mret v
  else mret v.

(** [request.get_json(force=True, silent=True) or {}] *)
Definition forced_body (req : Request) : json :=
  match request_json req with Some v => if json_truthy v then v else JObj [] | None => JObj [] end.

(** [data.get(name_key)], or the name behind [data.get(id_key)]. *)
Definition named_or_resolved (name_key id_key : string) (resolve : json → option string) (data : json) : outcome (option json) :=
  nm ← py_get name_key data;
  if json_truthy (default JNull nm) then Ok nm
  else
    id ← py_get id_key data;
    Ok (if json_truthy (default JNull id) then JStr <$> resolve (default JNull id) else None).

Definition _stash_gateway_context (v : option (endpoint_handler validator)) (req : Request) : HM unit :=
  let data := forced_body req in
  if decide (v = Some (Handler V_can_update_gateway_endpoint) ∨ v = Some (Handler V_can_delete_gateway_endpoint)) then
    endpoint_id ← lift (py_get "endpoint_id" data);
    if json_truthy (default JNull endpoint_id) then
      let nm := _resolve_endpoint_name_from_id (default JNull endpoint_id) in
      if truthy nm then
        modify_g (if decide (v = Some (Handler V_can_update_gateway_endpoint)) then set_updating_gateway_endpoint_old_name nm
                  else set_deleting_gateway_endpoint_name nm)
      else mret tt
    else mret tt
  else if decide (v = Some (Handler V_can_delete_gateway_secret)) then
    nm ← lift (named_or_resolved "secret_name" "secret_id" _resolve_secret_name_from_id data);
    if json_truthy (default JNull nm) then modify_g (set_deleting_gateway_secret_name nm) else mret tt
  else if decide (v = Some (Handler V_can_delete_gateway_model_definition)) then
    nm ← lift (named_or_resolved "name" "model_definition_id" _resolve_model_definition_name_from_id data);
    if json_truthy (default JNull nm) then modify_g (set_deleting_gateway_model_definition_name nm) else mret tt
  else mret tt.

(** ** The hook *)

Definition _get_auth_context (req : Request) : option string * bool :=
  (match get_fastapi_username req with Ok u => Some u | Raise _ => None end, get_fastapi_admin_status req).

(** The workspace gate on a creation: None lets it pass. *)
Definition creation_gate (req : Request) (username : string) : HM (option hook_response) :=
  if MLFLOW_ENABLE_WORKSPACES && _is_workspace_gated_creation (path req) (method req) then
    let workspace := get_request_workspace req in
    let effective_workspace := or_default workspace DEFAULT_WORKSPACE_NAME in
    if bool_decide (workspace = None) && OIDC_WORKSPACE_REQUIRE_CREATION_CONTEXT then mret (Some Forbidden)
    else if bool_decide (effective_workspace = DEFAULT_WORKSPACE_NAME) && OIDC_WORKSPACE_DENY_DEFAULT_CREATION then mret (Some Forbidden)
    else match workspace with
         | None => mret None
         | Some workspace =>
             ws_perm ← on_world (get_workspace_permission_cached username workspace);
             match ws_perm with
             | Some p => mret (if can_manage p then None else Some Forbidden)
             | None => mret (Some Forbidden)
             end
         end
  else mret None.

(** [if not validator(username): return forbidden] *)
Definition decide_by (h : endpoint_handler validator) (req : Request) (username : string) : HM (option hook_response) :=
  ok ← on_world (call_handler h req username);
  mret (if ok : bool then None else Some Forbidden).

Definition authorize (v : option (endpoint_handler validator)) (req : Request) (username : string) : HM (option hook_response) :=
  match v with
  | Some h => decide_by h req username
  | None =>
      if negb (_is_proxy_artifact_path (path req)) then mret None
      else if decide (method req = "OPTIONS") then mret None
      else match _get_proxy_artifact_validator (method req) (Some (path req)) with
           | None => mret (Some Forbidden)
           | Some v => decide_by (Handler v) req username
           end
  end.

(** [None]: MLflow's view is called. *)
Definition before_request_body (req : Request) : HM (option hook_response) :=
  if _is_unprotected_route (path req) then mret None
  else match _get_auth_context req with
       | (None, _) => mret (Some AuthRequired)
       | (Some username, is_admin) =>
           v ← _find_validator req;
           _ ← _stash_gateway_context v req;
           match find_dual_spelling_collision req with
           | Some _ => mret (Some BadRequest)
           | None =>
               if has_unexpected_get_body req then mret (Some BadRequest)
               else
                 has_record ← (if _requires_existing_user (path req) (method req)
                               then on_world (on_store (SqlAlchemyStore.has_user username)) else mret true);
                 if negb has_record then mret (Some Forbidden)
                 else if is_admin : bool then mret None
                 else
                   gate ← creation_gate req username;
                   match gate with
                   | Some r => mret (Some r)
                   | None => authorize v req username
                   end
           end
       end.

(** Under [catch_mlflow_exception]. *)
Definition before_request_hook (req : Request) : HM (option hook_response) :=
  catch (before_request_body req) (λ e, r ← lift (caught e); mret (Some r)).
End before_request.
