(* ===== verification/BeforeRequestFacts.v ===== *)
(** * What a request that gets through has passed

    Complete mediation by the before-request hook, and its composition with the
    guard, the validators, the caches and the database; then from the request
    that MLflow parses to the row in the database. *)
From S2P Require Import Prelude PyStrings Json Permissions Regex RegexSafety Database Repositories Users Groups Cache Resolution ResolutionFacts Store Requests RequestFacts.
From S2P Require Import Validators Hooks AfterRequest BeforeRequest.

Section facts.
Context `{SqlBackend, PyRe, UserLibs, ColumnTyping, Config, RequestConfig, TrackingStore, CacheBackend PermissionResult, CacheBackend Permission}.
Context `{MlflowServer, MlflowEntities, ValidatorLibs, MlflowRoutes}.
Implicit Types (req : Request) (s : hook_state).

(** ** The steps before the decision touch only [flask.g] *)

Definition only_g {A} (m : M hook_state A) : Prop := ∀ s, h_world (m s).2 = h_world s.

Lemma only_g_ret {A} (a : A) : only_g (mret a).
Proof. done. Qed.
Lemma only_g_lift {A} (o : outcome A) : only_g (lift o).
Proof. done. Qed.
Lemma only_g_modify f : only_g (modify_g f).
Proof. done. Qed.
Lemma only_g_bind {A B} (m : M hook_state A) (f : A → M hook_state B) : only_g m → (∀ a, only_g (f a)) → only_g (m ≫= f).
Proof. intros Hm Hf s. rewrite M_bind_run. specialize (Hm s). destruct (m s) as [[a|e] s1]; [|done]. cbn in Hm. by rewrite Hf. Qed.
Lemma only_g_if {A} (b : bool) (m1 m2 : M hook_state A) : only_g m1 → only_g m2 → only_g (if b then m1 else m2).
Proof. by destruct b. Qed.

Lemma find_validator_run req s : ∃ s', _find_validator req s = (Ok (lookup_validator req), s') ∧ h_world s' = h_world s.
Proof. unfold _find_validator. destruct (_ && _); [destruct (truthy _)|]; by eexists. Qed.

Lemma stash_only_g v req : only_g (_stash_gateway_context v req).
Proof.
  unfold _stash_gateway_context.
  repeat case_decide; try apply only_g_ret; (apply only_g_bind; [apply only_g_lift|intros a]);
    repeat apply only_g_if; by [apply only_g_modify|apply only_g_ret].
Qed.

Lemma only_g_run {A} (m : M hook_state A) s o s' : only_g m → m s = (o, s') → h_world s' = h_world s.
Proof. intros Hm Hrun. specialize (Hm s). by rewrite Hrun in Hm. Qed.

(** ** Getting through *)

Lemma hook_lets_through req s s' : before_request_hook req s = (Ok None, s') → before_request_body req s = (Ok None, s').
Proof.
  unfold before_request_hook. rewrite catch_run. destruct (before_request_body req s) as [[r|e] s1]; [done|].
  rewrite M_bind_run lift_run. by destruct (caught e).
Qed.

(** The part every request to a protected path passes, whoever sends it. *)
Record identified req (username : string) s : Prop := {
  has_username : get_fastapi_username req = Ok username;
  unambiguous : passes_guard req;
  can_own : _requires_existing_user (path req) (method req) = true → (SqlAlchemyStore.has_user username (w_db (h_world s))).1 = Ok true;
}.

(** What a request has passed when MLflow's view is called for it. *)
Inductive passed req s s' : Prop :=
  | Unprotected : _is_unprotected_route (path req) = true → passed req s s'
  | ByAdministrator username : identified req username s → get_fastapi_admin_status req = true → passed req s s'
  | ByDecision username s0 s1 :
      identified req username s → h_world s0 = h_world s →
      creation_gate req username s0 = (Ok None, s1) →
      authorize (lookup_validator req) req username s1 = (Ok None, s') → passed req s s'.

Lemma has_user_read username : read_only (SqlAlchemyStore.has_user username).
Proof. apply read_only_managed, read_only_gets. Qed.

Lemma body_lets_through req s s' : before_request_body req s = (Ok None, s') → passed req s s'.
Proof.
  unfold before_request_body. destruct (_is_unprotected_route (path req)) eqn:Hun; [by intros; apply Unprotected|].
  unfold _get_auth_context. destruct (get_fastapi_username req) as [username|e] eqn:Huser; [|done].
  destruct (find_validator_run req s) as (s1&Hfind&Hw1). rewrite M_bind_run Hfind.
  rewrite M_bind_run. pose proof (stash_only_g (lookup_validator req) req s1) as Hw2.
  destruct (_stash_gateway_context (lookup_validator req) req s1) as [[[]|e] s2]; [|done]. cbn in Hw2.
  destruct (find_dual_spelling_collision req) eqn:Hcol; [done|].
  destruct (has_unexpected_get_body req) eqn:Hbody; [done|].
  intros (has_record&s3&Hrec&Hrun)%M_bind_ok. destruct has_record; [|done]. cbn [negb] in Hrun.
  assert (h_world s3 = h_world s ∧ (_requires_existing_user (path req) (method req) = true →
    (SqlAlchemyStore.has_user username (w_db (h_world s))).1 = Ok true)) as [Hw3 Hown].
  { destruct (_requires_existing_user _ _).
    - rewrite on_world_run (on_store_read _ _ (has_user_read _)) in Hrec. injection Hrec as Hrec <-. cbn.
      rewrite Hw2 Hw1 in Hrec |- *. by rewrite Hrec.
    - injection Hrec as <-. split; [|done]. by rewrite Hw2. }
  destruct (get_fastapi_admin_status req) eqn:Hadmin; [apply (ByAdministrator _ _ _ username); by try split|].
  apply M_bind_ok in Hrun as ([r|]&s4&Hgate&Hrun); [done|].
  apply (ByDecision _ _ _ username s3 s4); [by split|done|done|done].
Qed.

(** ** The routes that have a validator *)

Lemma our_endpoints_in {V} (get_handler : string → option V) p cls ms m v :
  (p, Some cls, ms) ∈ mlflow_endpoints → get_handler (proto_name cls) = Some v → m ∈ ms → ((p, m), v) ∈ our_endpoints get_handler.
Proof.
  intros Hin Hget Hm. unfold our_endpoints, get_endpoints. apply list_elem_of_bind.
  exists (p, Some (Handler v), ms). split; [apply list_elem_of_fmap; by exists m|].
  apply list_elem_of_fmap. exists (p, Some cls, ms). by rewrite Hget.
Qed.

Lemma bind_keeps suffix m v k table : is_Some (dict_find k table) → is_Some (dict_find k (_bind_non_proto_route suffix m v table)).
Proof.
  unfold _bind_non_proto_route. revert table. induction url_rules as [|[rule ms] rules IH]; intros table Ht; [done|].
  apply IH. destruct (_ && _); [by apply dict_set_bound|done].
Qed.

Lemma bind_loop_keeps k table rows :
  is_Some (dict_find k table) →
  is_Some (dict_find k (foldl (λ table '(suffix, m, v), _bind_non_proto_route suffix m v table) table rows)).
Proof. revert table. induction rows as [|[[suffix m] v] rows IH]; intros table Ht; [done|]. by apply IH, bind_keeps. Qed.

Lemma bind_binds suffix m v rule ms table :
  (rule, ms) ∈ url_rules → endswith rule suffix = true → m ∈ ms → is_Some (dict_find (rule, m) (_bind_non_proto_route suffix m v table)).
Proof.
  intros Hin Hend Hm. unfold _bind_non_proto_route. apply list_elem_of_split in Hin as (l1&l2&->). rewrite foldl_app. cbn [foldl].
  rewrite Hend bool_decide_true; [|done]. cbn [andb]. generalize (foldl (λ t '(r, ms), if endswith r suffix && bool_decide (m ∈ ms) then dict_set (r, m) v t else t) table l1).
  intros t. assert (is_Some (dict_find (rule, m) (dict_set (rule, m) v t))) as Hs by by rewrite dict_find_set.
  revert Hs. generalize (dict_set (rule, m) v t). induction l2 as [|[r' ms'] l2 IH]; intros t' Ht'; [done|].
  apply IH. destruct (_ && _); [by apply dict_set_bound|done].
Qed.

Lemma class_bound p cls ms m v :
  (p, Some cls, ms) ∈ mlflow_endpoints → _get_before_request_handler (proto_name cls) = Some v → m ∈ ms →
  is_Some (dict_find (p, m) BEFORE_REQUEST_VALIDATORS).
Proof.
  intros Hin Hget Hm. apply bind_loop_keeps, dict_update_keeps, dict_update_keeps.
  by apply (dict_update_binds _ v), (our_endpoints_in _ p cls ms).
Qed.

Lemma literal_bound k v : (k, v) ∈ FLASK_VALIDATORS ++ GUARDRAIL_VALIDATORS → is_Some (dict_find k BEFORE_REQUEST_VALIDATORS).
Proof.
  intros [Hin|Hin]%elem_of_app; apply bind_loop_keeps; [apply dict_update_keeps|]; by apply (dict_update_binds _ v).
Qed.

Lemma rule_bound suffix m v rule ms :
  (suffix, m, v) ∈ NON_PROTO_ROUTES → (rule, ms) ∈ url_rules → endswith rule suffix = true → m ∈ ms →
  is_Some (dict_find (rule, m) BEFORE_REQUEST_VALIDATORS).
Proof.
  intros Hrow Hin Hend Hm. unfold BEFORE_REQUEST_VALIDATORS.
  apply list_elem_of_split in Hrow as (l1&l2&->). rewrite foldl_app. cbn [foldl]. apply bind_loop_keeps. by apply (bind_binds suffix m v rule ms).
Qed.

Lemma first_match_bound {V} req_path m pat (table : list ((Pattern * string) * V)) :
  is_Some (dict_find (pat, m) table) → pat_fullmatch pat req_path = true → is_Some (first_match req_path m table).
Proof.
  intros [w Hw] Hp. apply dict_find_In in Hw. induction table as [|[[pat' m'] v'] table IH]; [by apply not_elem_of_nil in Hw|].
  cbn. destruct (pat_fullmatch pat' req_path && bool_decide (m' = m)) eqn:E; [done|].
  apply elem_of_cons in Hw as [[= <- <- <-]|Hw]; [|by apply IH]. by rewrite Hp bool_decide_true in E.
Qed.

(** ** What the tables say of a path and a method

    Read from the tables and from MLflow's routes alone, whatever the lookup
    does with them. *)

(** A registered path serves a request path: itself, or through its parameters. *)
Definition serves (p req_path : string) : Prop :=
  p = req_path ∨ (parameterized p = true ∧ pat_fullmatch (_re_compile_path p) req_path = true).

(** A row of the general table: of a request class, of the literal tables, or
    bound to one of Flask's rules by its suffix. *)
Inductive listed_row (p m : string) : validator → Prop :=
  | RowClass cls ms v :
      (p, Some cls, ms) ∈ mlflow_endpoints → _get_before_request_handler (proto_name cls) = Some v → m ∈ ms → listed_row p m v
  | RowLiteral v : ((p, m), v) ∈ FLASK_VALIDATORS ++ GUARDRAIL_VALIDATORS → listed_row p m v
  | RowRule suffix ms v :
      (suffix, m, v) ∈ NON_PROTO_ROUTES → (p, ms) ∈ url_rules → endswith p suffix = true → m ∈ ms → listed_row p m v.

(** A route of a request class with a validator, for the tables of patterns. *)
Inductive listed_pattern (get_handler : string → option validator) req : validator → Prop :=
  | PatternClass p cls ms v :
      (p, Some cls, ms) ∈ mlflow_endpoints → get_handler (proto_name cls) = Some v → head_as_get (method req) ∈ ms →
      pat_fullmatch (_re_compile_path p) (path req) = true → listed_pattern get_handler req v.

(** The validators some table names for this very request. *)
Inductive listed req : validator → Prop :=
  | ListedRow p v : listed_row p (head_as_get (method req)) v → serves p (path req) → listed req v
  | ListedWorkspace v : listed_pattern get_workspace_before_request_handler req v → listed req v
  | ListedLoggedModel v : listed_pattern get_logged_model_before_request_handler req v → listed req v
  | ListedProxy v : _get_proxy_artifact_validator (method req) (Some (path req)) = Some v → listed req v.

(** Every route MLflow may take this path to is of a class that has a logged-model
    validator: MLflow's logged-model routes do not overlap for one method. *)
Definition only_logged_model_classes req : Prop :=
  ∀ p cls ms, (p, Some cls, ms) ∈ mlflow_endpoints → head_as_get (method req) ∈ ms →
    pat_fullmatch (_re_compile_path p) (path req) = true → is_Some (get_logged_model_before_request_handler (proto_name cls)).

(** The routes this plugin means to protect: those of the request classes in the
    three tables (the workspaces' and the logged models' on the paths of their
    family, the others elsewhere), those its literal tables name (Flask's own and
    the guardrails'), those it finds in Flask's routing table, and the artifact
    proxy. *)
Inductive protected_route req : Prop :=
  | OfClass p cls ms v :
      (p, Some cls, ms) ∈ mlflow_endpoints → _get_before_request_handler (proto_name cls) = Some v →
      head_as_get (method req) ∈ ms → route_matches p (path req) = true →
      contains "/mlflow/workspaces" (path req) = false → contains "/mlflow/logged-models" (path req) = false → protected_route req
  | OfWorkspaceClass v :
      contains "/mlflow/workspaces" (path req) = true →
      listed_pattern get_workspace_before_request_handler req v → protected_route req
  | OfLoggedModelClass v :
      contains "/mlflow/workspaces" (path req) = false → contains "/mlflow/logged-models" (path req) = true →
      listed_pattern get_logged_model_before_request_handler req v → only_logged_model_classes req → protected_route req
  | OfLiteral v :
      ((path req, head_as_get (method req)), v) ∈ FLASK_VALIDATORS ++ GUARDRAIL_VALIDATORS →
      contains "/mlflow/workspaces" (path req) = false → contains "/mlflow/logged-models" (path req) = false → protected_route req
  | OfRule suffix v ms :
      (suffix, head_as_get (method req), v) ∈ NON_PROTO_ROUTES → (path req, ms) ∈ url_rules → endswith (path req) suffix = true →
      head_as_get (method req) ∈ ms →
      contains "/mlflow/workspaces" (path req) = false → contains "/mlflow/logged-models" (path req) = false → protected_route req
  | OfArtifactProxy rule ms i :
      (rule, ms) ∈ url_rules → String.index 0 _ARTIFACT_PROXY_MARKER rule = Some i →
      startswith (path req) (take_str (i + String.length _ARTIFACT_PROXY_MARKER) rule) = true →
      method req ≠ "OPTIONS" → protected_route req.

(** *** The lookup finds only what is listed *)

Lemma our_endpoints_inv {V} (get_handler : string → option V) p m v :
  ((p, m), v) ∈ our_endpoints get_handler →
  ∃ cls ms, (p, Some cls, ms) ∈ mlflow_endpoints ∧ get_handler (proto_name cls) = Some v ∧ m ∈ ms.
Proof.
  unfold our_endpoints, get_endpoints. intros ([[p' h] ms]&Hin&Hrow)%list_elem_of_bind.
  apply list_elem_of_fmap in Hrow as ([[p2 [cls|]] ms2]&[= -> -> ->]&Hend); [|by apply not_elem_of_nil in Hin].
  destruct (get_handler (proto_name cls)) as [w|] eqn:Hget; [|by apply not_elem_of_nil in Hin]. cbn in Hin.
  apply list_elem_of_fmap in Hin as (m'&[= -> -> ->]&Hm). by exists cls, ms2.
Qed.

Lemma pattern_endpoints_inv get_handler pat m h :
  ((pat, m), h) ∈ pattern_endpoints get_handler →
  ∃ p cls ms, (p, cls, ms) ∈ mlflow_endpoints ∧ pat = _re_compile_path p ∧ m ∈ ms ∧
    h = match cls with Some c => Handler <$> get_handler (proto_name c) | None => Some PlainFunction end.
Proof.
  unfold pattern_endpoints, get_endpoints. intros ([[p' h'] ms]&Hin&Hrow)%list_elem_of_bind.
  apply list_elem_of_fmap in Hrow as ([[p2 cls] ms2]&[= -> -> ->]&Hend).
  apply list_elem_of_fmap in Hin as (m'&[= -> -> ->]&Hm). by exists p2, cls, ms2.
Qed.

Lemma bind_row suffix m v table kv :
  kv ∈ _bind_non_proto_route suffix m v table →
  kv ∈ table ∨ ∃ rule ms, kv = ((rule, m), v) ∧ (rule, ms) ∈ url_rules ∧ endswith rule suffix = true ∧ m ∈ ms.
Proof.
  unfold _bind_non_proto_route. assert (url_rules ⊆ url_rules) as Hsub by done. revert Hsub.
  generalize url_rules at 1 3 as rules. intros rules. revert table.
  induction rules as [|[rule ms] rules IH]; intros table Hsub; [by left|]. cbn [foldl].
  intros [Hin|Hrow]%IH; [|by right|set_solver].
  destruct (endswith rule suffix) eqn:Hend; [|by left]. cbn [andb] in Hin. case_bool_decide as Hm; [|by left].
  apply dict_set_In in Hin as [->|Hin]; [|by left]. right. exists rule, ms. split_and!; [done|apply Hsub; left|done|done].
Qed.

Lemma bound_rows rows table kv :
  kv ∈ foldl (λ table '(suffix, m, v), _bind_non_proto_route suffix m v table) table rows → rows ⊆ NON_PROTO_ROUTES →
  kv ∈ table ∨ listed_row kv.1.1 kv.1.2 kv.2.
Proof.
  revert table. induction rows as [|[[suffix m] v] rows IH]; intros table Hin Hsub; [by left|].
  apply IH in Hin as [Hin|?]; [|by right|set_solver].
  apply bind_row in Hin as [?|(rule&ms&->&Hr&He&Hm)]; [by left|]. right. apply (RowRule _ _ suffix ms); [|done..]. apply Hsub. left.
Qed.

Lemma validators_listed p m v : ((p, m), v) ∈ BEFORE_REQUEST_VALIDATORS → listed_row p m v.
Proof.
  intros [Hin|?]%bound_rows; [|done|done]. unfold dict_update in Hin at 1.
  apply dict_update_In in Hin as [[[Hin|Hin]%dict_update_In|Hin]%dict_update_In|Hin]; [by apply not_elem_of_nil in Hin| | |].
  - apply our_endpoints_inv in Hin as (cls&ms&?&?&?). by apply (RowClass _ _ cls ms).
  - apply RowLiteral, elem_of_app. by left.
  - apply RowLiteral, elem_of_app. by right.
Qed.

Lemma first_match_In {V} req_path m (table : list ((Pattern * string) * V)) v :
  first_match req_path m table = Some v → ∃ pat, ((pat, m), v) ∈ table ∧ pat_fullmatch pat req_path = true.
Proof.
  induction table as [|[[pat m'] w] table IH]; [done|]. cbn.
  destruct (pat_fullmatch pat req_path) eqn:Hp; cbn; [case_bool_decide as Hm|].
  - intros [= ->]. exists pat. split; [|done]. rewrite Hm. left.
  - intros (pat'&?&?)%IH. exists pat'. split; [by right|done].
  - intros (pat'&?&?)%IH. exists pat'. split; [by right|done].
Qed.

Lemma pattern_found get_handler table req v :
  (∀ kv, kv ∈ table → kv ∈ pattern_endpoints get_handler) →
  mjoin (first_match (path req) (head_as_get (method req)) table) = Some (Handler v) → listed_pattern get_handler req v.
Proof.
  intros Hsub Hm. destruct (first_match _ _ table) as [h|] eqn:Hf; [|done]. cbn in Hm. subst h.
  apply first_match_In in Hf as (pat&Hin&Hp). apply Hsub, pattern_endpoints_inv in Hin as (p&[cls|]&ms&Hin&->&Hms&Hh); [|done].
  destruct (get_handler (proto_name cls)) as [w|] eqn:Hget; [|done]. injection Hh as ->. by apply (PatternClass _ _ p cls ms).
Qed.

Lemma lookup_listed req v : lookup_validator req = Some (Handler v) → listed req v.
Proof.
  unfold lookup_validator. destruct (contains "/mlflow/workspaces" _); [|destruct (contains "/mlflow/logged-models" _)].
  - intros Hv. apply ListedWorkspace. revert Hv. apply pattern_found. intros kv [Hin|[_ Hin]%list_elem_of_filter]%dict_update_In; [|done].
    by apply not_elem_of_nil in Hin.
  - intros Hv. apply ListedLoggedModel. revert Hv. apply pattern_found. intros kv [Hin|Hin]%dict_update_In; [|done].
    by apply not_elem_of_nil in Hin.
  - destruct (dict_find _ _) as [w|] eqn:Hd.
    + intros [= ->]. apply dict_find_In, validators_listed in Hd. by apply (ListedRow _ (path req)); [|left].
    + destruct (first_match _ _ _) as [w|] eqn:Hf; [|done]. intros [= ->]. apply first_match_In in Hf as (pat&Hin&Hp).
      apply dict_update_In in Hin as [Hin|Hin]; [by apply not_elem_of_nil in Hin|].
      apply list_elem_of_fmap in Hin as ([[p m] w]&[= -> <- ->]&[Hpar Hin]%list_elem_of_filter).
      apply (ListedRow _ p); [by apply validators_listed|by right].
Qed.

(** *** A protected route is found *)

Lemma exact_lookup req :
  contains "/mlflow/workspaces" (path req) = false → contains "/mlflow/logged-models" (path req) = false →
  is_Some (dict_find (path req, head_as_get (method req)) BEFORE_REQUEST_VALIDATORS) → is_Some (lookup_validator req).
Proof. intros Hw Hl [v Hv]. unfold lookup_validator. by rewrite Hw Hl Hv. Qed.

Lemma parameterized_lookup req p :
  contains "/mlflow/workspaces" (path req) = false → contains "/mlflow/logged-models" (path req) = false →
  parameterized p = true → pat_fullmatch (_re_compile_path p) (path req) = true →
  is_Some (dict_find (p, head_as_get (method req)) BEFORE_REQUEST_VALIDATORS) → is_Some (lookup_validator req).
Proof.
  intros Hw Hl Hp Hm [v Hv]. unfold lookup_validator. rewrite Hw Hl.
  destruct (dict_find (path req, _) _); [done|]. apply fmap_is_Some. apply (first_match_bound _ _ (_re_compile_path p)); [|done].
  apply (dict_update_binds _ v). apply list_elem_of_fmap. exists ((p, head_as_get (method req)), v). split; [done|].
  apply list_elem_of_filter. split; [done|]. by apply dict_find_In.
Qed.

Lemma insert_string_in t l x : x ∈ insert_string t l ↔ x = t ∨ x ∈ l.
Proof. induction l as [|u l IH]; cbn; [set_solver|]. destruct (String.leb t u); set_solver. Qed.

Lemma sorted_in l x : x ∈ foldr insert_string [] l ↔ x ∈ l.
Proof. induction l as [|s l IH]; cbn; [done|]. rewrite insert_string_in IH. set_solver. Qed.

Lemma artifact_prefix rule ms i :
  (rule, ms) ∈ url_rules → String.index 0 _ARTIFACT_PROXY_MARKER rule = Some i →
  take_str (i + String.length _ARTIFACT_PROXY_MARKER) rule ∈ _ARTIFACT_PROXY_PREFIXES.
Proof.
  intros Hin Hi. apply sorted_in, elem_of_remove_dups, list_elem_of_omap. exists (rule, ms). split; [done|]. cbn [fst]. by rewrite Hi.
Qed.

Lemma pattern_bound get_handler req v table :
  listed_pattern get_handler req v →
  (∀ p h, pat_fullmatch (_re_compile_path p) (path req) = true →
     ((_re_compile_path p, head_as_get (method req)), h) ∈ pattern_endpoints get_handler → is_Some h →
     ((_re_compile_path p, head_as_get (method req)), h) ∈ table) →
  is_Some (first_match (path req) (head_as_get (method req)) (dict_update [] table)).
Proof.
  intros [p cls ms v' Hin Hget Hm Hp] Hrows. apply (first_match_bound _ _ (_re_compile_path p)); [|done].
  apply (dict_update_binds _ (Some (Handler v'))). apply Hrows; [done| |by eexists].
  unfold pattern_endpoints, get_endpoints. apply list_elem_of_bind. exists (p, Some (Handler v'), ms).
  split; [apply list_elem_of_fmap; by eexists|]. apply list_elem_of_fmap. exists (p, Some cls, ms). by rewrite Hget.
Qed.

Lemma workspace_lookup req v :
  contains "/mlflow/workspaces" (path req) = true → listed_pattern get_workspace_before_request_handler req v → is_Some (lookup_validator req).
Proof.
  intros Hw Hl. unfold lookup_validator. rewrite Hw. unfold WORKSPACE_BEFORE_REQUEST_VALIDATORS.
  destruct (pattern_bound _ _ _ (filter (λ kv, is_Some kv.2) (pattern_endpoints get_workspace_before_request_handler)) Hl) as [h Hf].
  { intros p h _ Hin Hh. apply list_elem_of_filter. by split. }
  rewrite Hf. apply first_match_In in Hf as (pat&[Hin|[Hh _]%list_elem_of_filter]%dict_update_In&_); [by apply not_elem_of_nil in Hin|].
  exact Hh.
Qed.

Lemma logged_model_lookup req v :
  contains "/mlflow/workspaces" (path req) = false → contains "/mlflow/logged-models" (path req) = true →
  listed_pattern get_logged_model_before_request_handler req v → only_logged_model_classes req → is_Some (lookup_validator req).
Proof.
  intros Hw Hlm Hl Honly. unfold lookup_validator. rewrite Hw Hlm. unfold LOGGED_MODEL_BEFORE_REQUEST_VALIDATORS.
  destruct (pattern_bound _ _ _ (pattern_endpoints get_logged_model_before_request_handler) Hl) as [h Hf]; [done|].
  rewrite Hf. apply first_match_In in Hf as (pat&[Hin|Hin]%dict_update_In&Hp); [by apply not_elem_of_nil in Hin|].
  apply pattern_endpoints_inv in Hin as (p&[cls|]&ms&Hin&->&Hm&->); [|by eexists].
  destruct (Honly p cls ms Hin Hm Hp) as [w ->]. by eexists.
Qed.

(** A protected route is decided by a validator listed for it. *)
Lemma protected_has_validator req username s s' :
  protected_route req → authorize (lookup_validator req) req username s = (Ok None, s') →
  ∃ v, listed req v ∧ run_validator v req username (h_world s) = (Ok true, h_world s').
Proof.
  assert (∀ v, listed req v → decide_by (Handler v) req username s = (Ok None, s') →
    ∃ v, listed req v ∧ run_validator v req username (h_world s) = (Ok true, h_world s')) as Hby.
  { intros v Hlisted; unfold decide_by; rewrite M_bind_run on_world_run. cbn [call_handler].
    destruct (run_validator v req username (h_world s)) as [[[]|e] w] eqn:Hv; [|done..]. intros [= <-]. by exists v. }
  intros Hprot. destruct (lookup_validator req) as [[v|]|] eqn:Hl; [intros; by apply (Hby v); [apply lookup_listed|]|done|]. cbn.
  destruct Hprot as [p cls ms v Hin Hget Hm Hmatch Hw Hlm|v Hw Hlist|v Hw Hlm Hlist Honly|v Hin Hw Hlm|suffix v ms Hrow Hin Hend Hm Hw Hlm|rule ms i Hin Hi Hstart Hopt].
  - exfalso. assert (is_Some (lookup_validator req)) as [? ?]; [|congruence].
    pose proof (class_bound _ _ _ _ _ Hin Hget Hm) as Hb. unfold route_matches in Hmatch. destruct (parameterized p) eqn:Hp.
    + by apply (parameterized_lookup req p).
    + apply bool_decide_eq_true in Hmatch. apply exact_lookup; [done..|]. by rewrite Hmatch.
  - exfalso. destruct (workspace_lookup _ _ Hw Hlist) as [? ?]. congruence.
  - exfalso. destruct (logged_model_lookup _ _ Hw Hlm Hlist Honly) as [? ?]. congruence.
  - exfalso. assert (is_Some (lookup_validator req)) as [? ?]; [|congruence].
    apply exact_lookup; [done..|]. by apply (literal_bound _ v).
  - exfalso. assert (is_Some (lookup_validator req)) as [? ?]; [|congruence].
    apply exact_lookup; [done..|]. by apply (rule_bound suffix _ v _ ms).
  - assert (_is_proxy_artifact_path (path req) = true) as ->.
    { apply existsb_exists. eexists. split; [|exact Hstart]. by apply list_elem_of_In, (artifact_prefix rule ms). }
    cbn [negb]. rewrite decide_False //. destruct (_get_proxy_artifact_validator _ _) as [v|] eqn:Hv; [|done]. by apply Hby, ListedProxy.
Qed.

(** The workspace gate reads the database, and may fill the cache. *)
Lemma cached_workspace_keeps_db username ws w : w_db (get_workspace_permission_cached username ws w).2 = w_db w.
Proof.
  unfold get_workspace_permission_cached. destruct MLFLOW_ENABLE_WORKSPACES; [|done]. cbn [negb]. autorewrite with run.
  destruct (cache_get _ _); [done|]. autorewrite with run. rewrite on_store_read; [|apply read_only_lookup_workspace].
  by destruct (_lookup_workspace_permission username ws (w_db w)).1 as [[]|].
Qed.

Lemma gate_keeps_db req username s : w_db (h_world (creation_gate req username s).2) = w_db (h_world s).
Proof.
  unfold creation_gate. destruct (_ && _); [|done]. repeat (destruct (bool_decide _ && _); [done|]).
  destruct (get_request_workspace req) as [ws|]; [|done]. rewrite M_bind_run on_world_run.
  pose proof (cached_workspace_keeps_db username ws (h_world s)) as Hd.
  by destruct (get_workspace_permission_cached username ws (h_world s)) as [[[]|] w'].
Qed.

(** C4: Complete mediation: when the before-request hook lets a request through
    to MLflow's view, and its path is not one of the unprotected prefixes, then
    it carries an authenticated name, is unambiguous, and its sender has a
    record if it creates something; and unless the sender is an administrator, a
    request to a protected route has had a validator that the tables list for
    its own path and method return true for it, asked on the database as it was.
    Protected are the routes of the request classes in the general table, the
    literal Flask and guardrail tables and the Flask rules bound by suffix (on
    paths outside the two families below), the workspace classes on the paths
    with /mlflow/workspaces, the logged-model classes on those with
    /mlflow/logged-models (where every route of MLflow that the path matches is
    of a class in that table), and the artifact proxy. HEAD counts as GET. *)
Theorem nothing_reaches_a_protected_route_unchecked req s s' :
  before_request_hook req s = (Ok None, s') → _is_unprotected_route (path req) = false →
  ∃ username, identified req username s ∧
    (get_fastapi_admin_status req = true ∨
     (protected_route req → ∃ v w, listed req v ∧ run_validator v req username w = (Ok true, h_world s') ∧ w_db w = w_db (h_world s))).
Proof.
  intros Hrun Hun. apply hook_lets_through, body_lets_through in Hrun as [Hu|username Hid Hadmin|username s0 s1 Hid Hw Hgate Hauth].
  - congruence.
  - exists username. auto.
  - exists username. split; [done|]. right. intros Hprot.
    destruct (protected_has_validator _ _ _ _ Hprot Hauth) as (v&Hlisted&Hv). exists v, (h_world s1). split_and!; [done..|].
    pose proof (gate_keeps_db req username s0) as Hd. rewrite Hgate in Hd. by rewrite Hd Hw.
Qed.
End facts.

(** * From the request MLflow parses to the row in the database

    For the routes whose resource is named by one field of the request: the hook
    lets a request through exactly when the database grants the sender the
    capability on the resource that MLflow's own parser finds in it. *)

(** The field, the resource type and the capability of such a validator. *)
Definition direct_check (v : validator) : option (string * string * (Permission → bool)) :=
  match v with
  | V_can_read_experiment => Some ("experiment_id", EXPERIMENT, can_read)
  | V_can_update_experiment => Some ("experiment_id", EXPERIMENT, can_update)
  | V_can_delete_experiment => Some ("experiment_id", EXPERIMENT, can_delete)
  | V_can_read_registered_model => Some ("name", REGISTERED_MODEL, can_read)
  | V_can_update_registered_model => Some ("name", REGISTERED_MODEL, can_update)
  | V_can_delete_registered_model => Some ("name", REGISTERED_MODEL, can_delete)
  | _ => None
  end.

Section end_to_end.
Context `{SqlBackend, PyRe, UserLibs, ColumnTyping, Config, RequestConfig, TrackingStore, CacheBackend PermissionResult, CacheBackend Permission}.
Context `{MlflowServer, MlflowEntities, ValidatorLibs, MlflowRoutes, !MlflowParser}.
Implicit Types (req : Request) (s : hook_state).

(** On a route served with the fields of a class, a parameter that is not in the
    path is read where MLflow reads it. *)
Lemma extract_reads_what_mlflow_parses fields req field :
  served_by fields (path req) (head_as_get (method req)) → passes_guard req → (field, _snake_to_camel field) ∈ fields →
  field ∈ ["experiment_id"; "name"] → dict_get field (view_args req) = None →
  _extract_param_from_all_sources req field = Ok (request_field req field (_snake_to_camel field)).
Proof.
  intros Hs Hg Hf Hn Hv. unfold _extract_param_from_all_sources.
  rewrite (guarded_singular_field fields req field Hs Hg Hf (resource_names_are_singular _ _ _ Hn)) Hv. by destruct (request_field _ _ _).
Qed.

(** The run of such a validator on a parameter that is present. *)
Lemma direct_check_run v field rt f req username w value id r :
  direct_check v = Some (field, rt, f) → _extract_param_from_all_sources req field = Ok (Some value) →
  identifier value = Ok id → coherent w → separable (get_request_workspace req) rt username →
  decision (get_request_workspace req) rt id username None (w_db w) = Ok r →
  ∃ w', run_validator v req username w = (Ok (f (permission r)), w').
Proof.
  intros Hv Hx Hid Hco Hsep Hdec.
  assert (rt ≠ SCORER) as Hrt by by destruct v; simplify_eq/=.
  destruct (resolve_permission_run (get_request_workspace req) rt id username None w Hco Hsep) as (o&w'&Hrun&_&_&Ho).
  specialize (Ho Hrt). rewrite Hdec in Ho. subst o. exists w'.
  destruct v; simplify_eq/=; unfold validate_can_read_experiment, validate_can_update_experiment, validate_can_delete_experiment,
    validate_can_read_registered_model, validate_can_update_registered_model, validate_can_delete_registered_model, may,
    _get_permission_from_experiment_id, _get_permission_from_registered_model_name, get_experiment_id, get_model_name, required_param,
    experiment_permission, effective_of, effective_experiment_permission, effective_registered_model_permission;
    rewrite Hx; autorewrite with run; cbn [mbind outcome_bind]; autorewrite with run; rewrite Hid; autorewrite with run; by rewrite Hrun.
Qed.

Lemma direct_check_no_stash v x req s : direct_check v = Some x → _stash_gateway_context (Some (Handler v)) req s = (Ok tt, s).
Proof. intros Hv. unfold _stash_gateway_context. destruct v; try done; repeat (case_decide; [naive_solver|]); done. Qed.

(** C5: For the routes whose validator reads one field (experiments and
    registered models, for reading, updating and deleting): an identified sender
    who is no administrator is let through exactly when the database grants the
    capability on the resource that MLflow's own parser finds in the request,
    and is refused with 403 otherwise; caches, spellings and the query string
    change nothing. *)
Theorem hook_decides_on_what_mlflow_parses fields req s v field rt f username value id r :
  direct_check v = Some (field, rt, f) → lookup_validator req = Some (Handler v) →
  served_by fields (path req) (head_as_get (method req)) → (field, _snake_to_camel field) ∈ fields → dict_get field (view_args req) = None →
  identified req username s → get_fastapi_admin_status req = false → _is_unprotected_route (path req) = false →
  _is_workspace_gated_creation (path req) (method req) = false →
  coherent (h_world s) → separable (get_request_workspace req) rt username →
  request_field req field (_snake_to_camel field) = Some value → identifier value = Ok id →
  decision (get_request_workspace req) rt id username None (w_db (h_world s)) = Ok r →
  (before_request_hook req s).1 = Ok (if f (permission r) then None else Some Forbidden).
Proof.
  intros Hv Hl Hs Hf Hpath [Huser [Hcol Hbody] Hown] Hadmin Hun Hgate Hco Hsep Hval Hid Hdec.
  assert (field ∈ ["experiment_id"; "name"]) as Hname by (destruct v; try done; injection Hv as <- _ _; set_solver).
  pose proof (extract_reads_what_mlflow_parses _ _ _ Hs (conj Hcol Hbody) Hf Hname Hpath) as Hx. rewrite Hval in Hx.
  destruct (find_validator_run req s) as (s1&Hfind&Hw1). rewrite Hl in Hfind.
  destruct (direct_check_run v field rt f req username (h_world s1) value id r) as [w' Hrun]; try done; [by rewrite Hw1..|].
  assert (∃ s2, (if _requires_existing_user (path req) (method req)
    then on_world (on_store (SqlAlchemyStore.has_user username)) else mret true) s1 = (Ok true, s2) ∧ h_world s2 = h_world s1) as (s2&Hrec&Hw2).
  { destruct (_requires_existing_user _ _); [|by exists s1]. eexists. rewrite on_world_run (on_store_read _ _ (has_user_read _)) Hw1.
    cbn [fst snd]. by rewrite (Hown eq_refl). }
  assert (before_request_body req s = (Ok (if f (permission r) then None else Some Forbidden), HookState w' (h_g s2))) as Hrest.
  { unfold before_request_body, _get_auth_context. rewrite Hun Huser M_bind_run Hfind M_bind_run (direct_check_no_stash _ _ _ _ Hv).
    rewrite Hcol Hbody M_bind_run Hrec Hadmin. cbn [negb]. unfold creation_gate. rewrite Hgate andb_false_r M_bind_run M_ret_run.
    cbn [authorize]. unfold decide_by. by rewrite M_bind_run on_world_run Hw2 /= Hrun. }
  unfold before_request_hook. by rewrite catch_run Hrest.
Qed.
End end_to_end.
