(* ===== verification/AfterRequestFacts.v ===== *)
(** * Search results: what a page holds, and that filling it ends

    The re-fetch loops of the after-request hook, over a store whose search
    result is a finite list; then the same at the real permission checks, over
    memo, caches and database. *)
From S2P Require Import Prelude PyStrings Json Permissions Regex RegexSafety Database Repositories Users Groups Cache Resolution ResolutionFacts Store Requests Validators Hooks.
From S2P Require Import AfterRequest.

Section filtering.
Context {S : Type} (I : S → Prop).

(** On these rows, in a state of [I], the check answers [ok] and stays in [I]. *)
Definition decides {A} (check : A → M S bool) (ok : A → bool) (l : list A) : Prop :=
  ∀ r s, r ∈ l → I s → ∃ s', check r s = (Ok (ok r), s') ∧ I s'.

Lemma decides_sub {A} check (ok : A → bool) l l' : l' ⊆ l → decides check ok l → decides check ok l'.
Proof. intros Hsub Hd r s Hr. apply Hd, Hsub, Hr. Qed.

Lemma filter_m_run {A} check (ok : A → bool) l s :
  decides check ok l → I s → ∃ s', filter_m check l s = (Ok (filter (λ r, ok r = true) l), s') ∧ I s'.
Proof.
  revert s. induction l as [|r l IH]; intros s Hd HI; [by exists s|]. cbn [filter_m].
  destruct (Hd r s) as (s1&Hr&HI1); [left|done|]. rewrite M_bind_run Hr M_bind_run.
  destruct (IH s1) as (s2&Hl&HI2); [|done|]. { apply (decides_sub _ _ (r :: l)); [set_solver|done]. }
  exists s2. rewrite Hl M_ret_run filter_cons. split; [|done]. by destruct (ok r).
Qed.

End filtering.

Section paging.
Context `{CacheBackend PermissionResult, CacheBackend Permission, ResponseApi}.
Variable I : hook_state → Prop.

(** ** Pages of a finite result *)

Variable all_rows : list search_row.
Variable max_results : nat.

Definition offset_token (n : nat) : string := create_page_token (Z.of_nat n).

(** The search with an offset token gives the rows from there on; the token can
    be read back, and is not the empty one. *)
Record pages (page : string → outcome (list search_row)) : Prop := {
  page_rows n : page (create_page_token (Z.of_nat n)) = Ok (take max_results (drop n all_rows));
  token_offset n : parse_start_offset_from_page_token (create_page_token (Z.of_nat n)) = Ok (Z.of_nat n);
  token_nonempty n : create_page_token (Z.of_nat n) ≠ "";
}.

(** A finished page: the rows kept of a stretch of the result, and the token of
    where it stopped, or the one that says there is no more. *)
Record filled {T} (token_at : nat → T) (no_more : T) (ok : search_row → bool) (first : list search_row) (start : nat)
    (rows : list search_row) (token : T) (stop : nat) : Prop := {
  stops_after : (start ≤ stop ≤ length all_rows)%nat;
  holds : rows = first ++ filter (λ r, ok r = true) (take (stop - start) (drop start all_rows));
  not_over : (length rows ≤ max_results)%nat;
  full_or_last : length rows = max_results ∧ token = token_at stop ∨ token = no_more ∧ stop = length all_rows;
}.

Lemma filter_length_le {A} (P : A → Prop) `{∀ x, Decision (P x)} (l : list A) : (length (filter P l) ≤ length l)%nat.
Proof. induction l as [|x l IH]; [done|]. rewrite filter_cons. case_decide; cbn; lia. Qed.

Lemma take_drop_app {A} (a b n : nat) (l : list A) : take a (drop n l) ++ take b (drop (n + a) l) = take (a + b) (drop n l).
Proof. rewrite -drop_drop take_take_drop. done. Qed.

Lemma take_drop_sub {A} (a n : nat) (l : list A) : take a (drop n l) ⊆ l.
Proof. transitivity (drop n l); [apply subseteq_take|apply subseteq_drop]. Qed.

Lemma take_own_length {A} (n : nat) (l : list A) : take (length (take n l)) l = take n l.
Proof. by rewrite length_take -take_take firstn_all. Qed.

(** One round per row at most: enough fuel fills the page. *)
Lemma refetch_fills page keep ok fuel start first s :
  pages page → decides I keep ok all_rows → I s → (length first ≤ max_results)%nat → (start ≤ length all_rows)%nat → (length all_rows - start < fuel)%nat →
  ∃ rows token stop s', refetch_loop fuel page keep max_results first (create_page_token (Z.of_nat start)) s = (Ok (Some (rows, token)), s')
    ∧ I s' ∧ filled offset_token "" ok first start rows token stop.
Proof.
  intros Hp Hd. revert start first s. induction fuel as [|fuel IH]; intros start first s HI Hfirst Hstart Hfuel; [lia|].
  cbn [refetch_loop]. destruct (decide (length first < max_results)%nat) as [Hlt|Hge].
  2:{ rewrite bool_decide_false //. cbn. exists first, (create_page_token (Z.of_nat start)), start, s. split; [done|]. split; [done|].
      split; [lia| |lia|left; split; [lia|done]]. by rewrite Nat.sub_diag take_0 app_nil_r. }
  rewrite bool_decide_true //. destruct (String.eqb_spec (create_page_token (Z.of_nat start)) "") as [He|_]; [by apply (token_nonempty page Hp) in He|].
  cbn [negb andb]. rewrite (page_rows page Hp) M_bind_run lift_run take_take.
  replace ((max_results - length first) `min` max_results)%nat with (max_results - length first)%nat by lia.
  set (refetched := take (max_results - length first) (drop start all_rows)).
  assert (length refetched = (max_results - length first) `min` (length all_rows - start))%nat as Hlen by (unfold refetched; by rewrite length_take length_drop).
  case_decide as Hnil.
  { rewrite Hnil /= in Hlen. exists first, "", start, s. split; [done|]. split; [done|]. split; [lia| |lia|right; split; [done|lia]].
    by rewrite Nat.sub_diag take_0 app_nil_r. }
  assert (length refetched ≠ 0)%nat as Hpos by (by intros ?%length_zero_iff_nil).
  destruct (filter_m_run I keep ok refetched s) as (s1&Hkeep&HI1); [|done|].
  { apply (decides_sub _ _ _ all_rows); [apply take_drop_sub|done]. }
  rewrite M_bind_run Hkeep (token_offset page Hp) M_bind_run lift_run -Nat2Z.inj_add.
  pose proof (filter_length_le (λ r, ok r = true) refetched) as Hfl.
  destruct (IH (start + length refetched)%nat (first ++ filter (λ r, ok r = true) refetched) s1) as (rows&token&stop&s2&Hrun&HI2&[Hst Hh Hno Hfull]);
    [done|rewrite length_app; lia|lia|lia|].
  exists rows, token, stop, s2. split; [exact Hrun|]. split; [done|]. split; [lia| |done|done].
  rewrite Hh -app_assoc -filter_app. do 2 f_equal.
  replace (stop - start)%nat with (length refetched + (stop - (start + length refetched)))%nat by lia.
  rewrite -take_drop_app. f_equal. symmetry. apply take_own_length.
Qed.

(** ** Logged models *)

Record logged_pages req : Prop := {
  logged_rows n : logged_models_page req (logged_models_token req (Z.of_nat n))
    = Ok (take max_results (drop n all_rows), bool_decide (n + max_results < length all_rows)%nat);
  logged_offset n : logged_models_offset (logged_models_token req (Z.of_nat n)) = Ok (Z.of_nat n);
}.

Definition logged_token req (n : nat) : option string := Some (logged_models_token req (Z.of_nat n)).

(** Scanning a batch keeps a prefix of it, up to the row that fills the page. *)
Lemma scan_batch_run keep ok token_at models i batch s :
  decides I keep ok batch → I s → (length models < max_results)%nat →
  ∃ j broke s', scan_batch keep token_at max_results models i batch s = (Ok (models ++ filter (λ r, ok r = true) (take j batch), broke), s') ∧ I s' ∧
    (j ≤ length batch)%nat ∧
    let kept := length (models ++ filter (λ r, ok r = true) (take j batch)) in
    (broke = None ∧ j = length batch ∧ (kept < max_results)%nat ∨ ∃ j', j = S j' ∧ broke = Some (token_at (i + j')%nat) ∧ kept = max_results).
Proof.
  revert models i s. induction batch as [|r batch IH]; intros models i s Hd HI Hlt.
  { exists 0%nat, None, s. cbn. rewrite app_nil_r. split_and!; [done..|]. by left. }
  destruct (Hd r s) as (s1&Hr&HI1); [left|done|]. cbn [scan_batch]. rewrite M_bind_run Hr.
  assert (decides I keep ok batch) as Hd' by (apply (decides_sub _ _ _ (r :: batch)); [set_solver|done]).
  destruct (ok r) eqn:Hok; cbn [negb].
  - case_decide as Hfull.
    + exists 1%nat, (Some (token_at i)), s1. cbn [take]. rewrite filter_cons decide_True // filter_nil. split; [done|]. split; [done|].
      split; [cbn; lia|]. right. exists 0%nat. rewrite length_app /= in Hfull |- *. split; [done|]. split; [by rewrite Nat.add_0_r|lia].
    + destruct (IH (models ++ [r]) (S i) s1) as (j&broke&s2&Hrun&HI2&Hj&Hcase); [done..|lia|].
      exists (S j), broke, s2. cbn [take]. rewrite filter_cons decide_True //. rewrite -app_assoc /= in Hrun, Hcase.
      split; [exact Hrun|]. split; [done|]. split; [cbn; lia|]. cbn zeta in *.
      destruct Hcase as [(->&->&?)|(j'&->&->&?)]; [by left|right]. exists (S j'). split; [done|]. split; [do 2 f_equal; lia|done].
  - destruct (IH models (S i) s1) as (j&broke&s2&Hrun&HI2&Hj&Hcase); [done..|].
    exists (S j), broke, s2. cbn [take]. rewrite filter_cons decide_False; [|by rewrite Hok]. split; [exact Hrun|]. split; [done|].
    split; [cbn; lia|]. cbn zeta in *. destruct Hcase as [(->&->&?)|(j'&->&->&?)]; [by left|right].
    exists (S j'). split; [done|]. split; [do 2 f_equal; lia|done].
Qed.

Lemma logged_fills req keep ok fuel start first s :
  logged_pages req → decides I keep ok all_rows → I s → (length first ≤ max_results)%nat → (start ≤ length all_rows)%nat → (length all_rows - start < fuel)%nat →
  ∃ rows token stop s', logged_models_loop fuel req keep max_results first (logged_token req start) s = (Ok (Some (rows, token)), s')
    ∧ I s' ∧ filled (logged_token req) None ok first start rows token stop.
Proof.
  intros Hp Hd. revert start first s. induction fuel as [|fuel IH]; intros start first s HI Hfirst Hstart Hfuel; [lia|].
  cbn [logged_models_loop logged_token]. case_decide as Hlt.
  2:{ exists first, (logged_token req start), start, s. split; [done|]. split; [done|].
      split; [lia| |lia|left; split; [lia|done]]. by rewrite Nat.sub_diag take_0 app_nil_r. }
  rewrite M_bind_run (logged_rows req Hp) lift_run M_bind_run (logged_offset req Hp) lift_run. cbn zeta.
  set (batch := take max_results (drop start all_rows)).
  assert (length batch = max_results `min` (length all_rows - start))%nat as Hlen by (unfold batch; by rewrite length_take length_drop).
  match goal with |- context [scan_batch keep ?t _ _ _ _] => set (token_at := t) end.
  destruct (scan_batch_run keep ok token_at first 0 batch s) as (j&broke&s1&Hrun&HI1&Hj&Hcase);
    [apply (decides_sub _ _ _ all_rows); [apply take_drop_sub|done]|done|done|].
  rewrite M_bind_run Hrun. set (rows := first ++ filter (λ r, ok r = true) (take j batch)) in *.
  assert (rows = first ++ filter (λ r, ok r = true) (take (start + j - start) (drop start all_rows))) as Hrows.
  { unfold rows, batch. rewrite take_take. do 3 f_equal. lia. }
  assert (∀ t, length rows = max_results ∨ t = None →
    t = logged_token req (start + j) ∧ length rows = max_results ∨ t = None ∧ (start + j = length all_rows)%nat →
    ∃ rows' token stop s', logged_models_loop fuel req keep max_results rows t s1 = (Ok (Some (rows', token)), s')
      ∧ I s' ∧ filled (logged_token req) None ok first start rows' token stop) as Hdone.
  { intros t Hend Ht. exists rows, t, (start + j)%nat, s1. split.
    - destruct fuel as [|fuel']; [destruct t; cbn; [|done]; case_decide; [destruct Hend; [lia|done]|done]|].
      destruct t as [t|]; [|done]. cbn. rewrite decide_False //. destruct Hend; [lia|done].
    - split; [done|]. split; [lia|done| |]; naive_solver lia. }
  destruct Hcase as [(->&->&Hkept)|(j'&->&->&Hkept)].
  - destruct (decide (start + max_results < length all_rows)%nat) as [Hmore|Hlast]; cbn [negb].
    2:{ rewrite bool_decide_false //. apply Hdone; [by right|right; split; [done|lia]]. }
    rewrite bool_decide_true //= -Nat2Z.inj_add. change (Some (logged_models_token req _)) with (logged_token req (start + max_results)).
    destruct (IH (start + max_results)%nat rows s1) as (rows'&token&stop&s2&Hrun'&HI2&[Hst Hh Hno Hfull]); [done|lia..|].
    exists rows', token, stop, s2. split; [exact Hrun'|]. split; [done|]. split; [lia| |done|done].
    rewrite Hh Hrows -app_assoc -filter_app. do 2 f_equal.
    replace (start + length batch - start)%nat with max_results by lia.
    replace (stop - start)%nat with (max_results + (stop - (start + max_results)))%nat by lia. apply take_drop_app.
  - apply Hdone; [by left|]. unfold token_at. cbn [plus].
    destruct (decide (start + max_results < length all_rows)%nat) as [Hmore|Hlast].
    + rewrite bool_decide_true //=. left. split; [|done]. unfold logged_token. do 2 f_equal. lia.
    + rewrite bool_decide_false //=. case_bool_decide; [right; split; [done|lia]|left]. split; [|done]. unfold logged_token. do 2 f_equal. lia.
Qed.
End paging.

(** * Search results hold what the database lets the user read

    The paging lemmas at the real permission checks: memo, caches and database. *)

Section search.
Context `{SqlBackend, PyRe, UserLibs, ColumnTyping, Config, TrackingStore, CacheBackend PermissionResult, CacheBackend Permission}.
Context `{MlflowServer, MlflowEntities, ValidatorLibs, ResponseApi}.
Implicit Types (req : Request) (s : hook_state).

(** ** What the database says *)

Definition may_read (rt : string) req (username : string) (d : db) (id : string) : bool :=
  match decision (get_request_workspace req) rt id username None d with Ok r => can_read (permission r) | Raise _ => false end.

Definition may_enter (username : string) (d : db) (workspace : option string) : bool :=
  if negb MLFLOW_ENABLE_WORKSPACES then true
  else match workspace with
       | None | Some "" => true
       | Some w => match (_lookup_workspace_permission username w d).1 with Ok (Some p) => can_read p | _ => false end
       end.

Definition row_readable (rt : string) req (username : string) (d : db) (r : search_row) : bool :=
  may_read rt req username d (row_key r) && may_enter username d (row_workspace r).

(** ** The state during a filter: coherent caches, an unchanged database, and a
    memo that repeats the database *)

Record filtering (tag rt : string) req (username : string) (d : db) s : Prop := {
  f_coherent : coherent (h_world s);
  f_db : w_db (h_world s) = d;
  f_memo id b : _after_request_perm_cache (h_g s) !! (tag, id, username) = Some b → b = may_read rt req username d id;
  f_workspaces w b : w ≠ "" → MLFLOW_ENABLE_WORKSPACES = true → _after_request_perm_cache (h_g s) !! ("ws", w, username) = Some b → b = may_enter username d (Some w);
}.

Section checks.
Variables (tag rt : string) (req : Request) (username : string) (d : db).
Hypothesis Htag : tag ≠ "ws".
Hypothesis Hrt : rt ≠ SCORER.
Hypothesis Hsep : separable (get_request_workspace req) rt username.

Definition cached_read (id : string) : M hook_state bool :=
  memoized (tag, id, username) (can can_read (resolve_permission (get_request_workspace req) rt id username None)).

Lemma cached_read_run id s :
  (∃ r, decision (get_request_workspace req) rt id username None d = Ok r) → filtering tag rt req username d s →
  ∃ s', cached_read id s = (Ok (may_read rt req username d id), s') ∧ filtering tag rt req username d s'.
Proof.
  intros [r Hr] Hf. unfold cached_read, memoized. rewrite M_bind_run gets_run.
  destruct (_after_request_perm_cache (h_g s) !! _) as [b|] eqn:E. { exists s. by rewrite (f_memo _ _ _ _ _ _ Hf _ _ E). }
  destruct Hf as [Hco Hd Hmemo Hws].
  destruct (resolve_permission_run (get_request_workspace req) rt id username None (h_world s) Hco Hsep) as (o&w'&Hrun&Hco'&Hd'&Ho).
  specialize (Ho Hrt). rewrite Hd Hr in Ho. subst o.
  assert (may_read rt req username d id = can_read (permission r)) as Hmr by (unfold may_read; by rewrite Hr).
  rewrite M_bind_run on_world_run /can M_bind_run Hrun M_ret_run. cbn [fst snd]. rewrite Hmr. eexists. split; [done|].
  split; cbn; [done|by rewrite Hd'| |].
  - intros id' b. rewrite lookup_insert_Some. intros [[[= <-] <-]|[_ Hb]]; [done|by apply Hmemo].
  - intros w b Hne Hon. rewrite lookup_insert_ne; [by apply Hws|]. by intros [= ? ?].
Qed.

Lemma access_run workspace s :
  (∀ w, workspace = Some w → colon_free w = true) → filtering tag rt req username d s →
  ∃ s', _can_access_workspace username workspace s = (Ok (may_enter username d workspace), s') ∧ filtering tag rt req username d s'.
Proof.
  intros Hfree Hf. unfold _can_access_workspace, may_enter. destruct MLFLOW_ENABLE_WORKSPACES eqn:Hon; [|by exists s]. cbn [negb].
  destruct workspace as [[|c w]|]; [by exists s| |by exists s]. unfold memoized. rewrite M_bind_run gets_run.
  destruct (_after_request_perm_cache (h_g s) !! _) as [b|] eqn:E.
  { exists s. assert (String c w ≠ "") as Hne by done. rewrite (f_workspaces _ _ _ _ _ _ Hf _ _ Hne Hon E). unfold may_enter. by rewrite Hon. }
  destruct Hf as [Hco Hd Hmemo Hws].
  destruct (get_workspace_permission_cached_spec username (String c w) (h_world s) Hco Hon (Hfree _ eq_refl)) as (w'&Hrun&Hco'&Hd').
  rewrite Hd in Hrun. destruct (lookup_workspace_total username (String c w) d) as [o Ho]. rewrite Ho in Hrun |- *.
  rewrite M_bind_run on_world_run M_bind_run Hrun M_ret_run. cbn [fst snd].
  eexists. split; [reflexivity|]. split; cbn; [done|by rewrite Hd'| |].
  - intros id' b. rewrite lookup_insert_ne; [by apply Hmemo|]. by intros [= <-].
  - intros w0 b Hne _. rewrite lookup_insert_Some. intros [[[= <-] <-]|[_ Hb]]; [|by apply Hws].
    unfold may_enter. rewrite Hon Ho. by destruct o.
Qed.

Abbreviation during := (filtering tag rt req username d).

(** ** A result whose rows can be decided *)

Record decidable_rows (api : search_api) (rows : list search_row) : Prop := {
  each_decided r : r ∈ rows → ∃ p, decision (get_request_workspace req) rt (row_key r) username None d = Ok p;
  each_workspace r w : r ∈ rows → row_workspace r = Some w → colon_free w = true;
  same_workspace_of r : r ∈ rows → row_workspace_or_none api (row_key r) = row_workspace r;
}.

Lemma cached_read_decides api rows : decidable_rows api rows → decides during (λ r, cached_read (row_key r)) (λ r, may_read rt req username d (row_key r)) rows.
Proof. intros Hrows r s Hr Hf. apply cached_read_run; [|done]. by apply (each_decided api rows). Qed.

Lemma access_decides api rows :
  decidable_rows api rows →
  decides during (λ r, _can_access_workspace username (row_workspace_or_none api (row_key r))) (λ r, may_enter username d (row_workspace r)) rows.
Proof.
  intros Hrows r s Hr Hf. rewrite (same_workspace_of _ _ Hrows r Hr). apply access_run; [|done].
  intros w. by apply (each_workspace _ _ Hrows).
Qed.

Lemma refetched_decides api rows :
  decidable_rows api rows → decides during (refetched_readable cached_read username) (row_readable rt req username d) rows.
Proof.
  intros Hrows r s Hr Hf. unfold refetched_readable, row_readable. rewrite M_bind_run.
  destruct (cached_read_decides api rows Hrows r s Hr Hf) as (s1&->&Hf1). destruct (may_read _ _ _ _ _); [|by exists s1].
  apply access_run; [|done]. intros w. by apply (each_workspace _ _ Hrows).
Qed.

Lemma filter_andb {A} (f g : A → bool) (l : list A) : filter (λ x, g x = true) (filter (λ x, f x = true) l) = filter (λ x, f x && g x = true) l.
Proof.
  induction l as [|x l IH]; [done|]. rewrite !filter_cons. destruct (f x) eqn:Ef, (g x) eqn:Eg; cbn [andb];
    repeat case_decide; rewrite ?filter_cons ?Eg; repeat case_decide; try done; by rewrite IH.
Qed.

Lemma filter_all {A} (P : A → Prop) `{Hdec : ∀ x, Decision (P x)} (l : list A) : (∀ x, x ∈ l → P x) → filter P l = l.
Proof.
  induction l as [|x l IH]; intros HP; [done|]. rewrite filter_cons decide_True; [|apply HP; left]. f_equal. apply IH. intros y Hy. apply HP. by right.
Qed.

Lemma filter_page_run api rows all s :
  decidable_rows api all → rows ⊆ all → during s →
  ∃ s', filter_page api cached_read username rows s = (Ok (filter (λ r, row_readable rt req username d r = true) rows), s') ∧ during s'.
Proof.
  intros Hrows Hsub Hf. unfold filter_page. rewrite M_bind_run.
  destruct (filter_m_run during _ _ rows s (decides_sub _ _ _ _ _ Hsub (cached_read_decides api all Hrows)) Hf) as (s1&->&Hf1).
  unfold row_readable. rewrite -filter_andb. destruct MLFLOW_ENABLE_WORKSPACES eqn:Hon.
  - apply filter_m_run; [|done]. apply (decides_sub _ _ _ all); [|by apply access_decides].
    intros x Hx. apply Hsub. by apply list_elem_of_filter in Hx as [_ ?].
  - exists s1. split; [|done]. rewrite (filter_all (λ r, may_enter username d (row_workspace r) = true)); [done|]. intros r _. unfold may_enter. by rewrite Hon.
Qed.
End checks.

(** The three filters that page by offset, with what each row hangs on. *)
Definition offset_filter (h : after_handler) : option (search_api * string * string) :=
  match h with
  | H_filter_search_experiments => Some (experiments_search, "exp", EXPERIMENT)
  | H_filter_search_registered_models => Some (registered_models_search, "rm", REGISTERED_MODEL)
  | H_filter_search_model_versions => Some (model_versions_search, "rm", REGISTERED_MODEL)
  | _ => None
  end.

Lemma offset_filter_run h api tag rt fuel req resp :
  offset_filter h = Some (api, tag, rt) →
  run_after_handler fuel h req resp = filter_search api (λ req id username, cached_read tag rt req username id) fuel req resp
  ∧ tag ≠ "ws" ∧ rt ≠ SCORER.
Proof. by destruct h; intros [= <- <- <-]. Qed.

(** C27: Filtering an experiment, model or model-version search ends, and
    returns exactly what the database lets the user read: for a search of
    finitely many rows, with fuel for one round per row, the page holds the
    readable rows of one stretch of the result from where MLflow's page began,
    in order, never more than max_results; and it is either full, with the token
    of the row after the stretch, or the last one, with every row of the result
    considered. *)
Theorem filtered_search_fills_its_page h api tag rt fuel req resp s username d all_rows max_results start :
  offset_filter h = Some (api, tag, rt) → get_fastapi_admin_status req = false → get_fastapi_username req = Ok username →
  separable (get_request_workspace req) rt username → filtering tag rt req username d s →
  pages all_rows max_results (search_page api req) → decidable_rows rt req username d api all_rows →
  request_max_results api req = Ok max_results → (start ≤ length all_rows)%nat → (length all_rows < fuel)%nat →
  parse_response api (resp_json resp) =
    Ok (take max_results (drop start all_rows), if decide (start + max_results < length all_rows)%nat then offset_token (start + max_results) else "") →
  ∃ rows token stop s', run_after_handler fuel h req resp s = (Ok (Some (MkResponse (status_code resp) (Some (response_json api rows token)))), s')
    ∧ filled all_rows max_results offset_token "" (row_readable rt req username d) [] start rows token stop.
Proof.
  intros Hh Hadmin Huser Hsep Hf Hpages Hrows Hmax Hstart Hfuel Hparse.
  destruct (offset_filter_run h api tag rt fuel req resp Hh) as (->&Htag&Hrt). unfold filter_search.
  rewrite Hadmin Hparse M_bind_run lift_run Hmax M_bind_run lift_run Huser M_bind_run lift_run M_bind_run.
  change (λ key, cached_read tag rt req username key) with (cached_read tag rt req username).
  set (page1 := take max_results (drop start all_rows)).
  destruct (filter_page_run tag rt req username d Htag Hrt Hsep api page1 all_rows s Hrows (take_drop_sub _ _ _) Hf) as (s1&->&Hf1).
  set (first := filter _ page1). rewrite M_bind_run.
  assert (length first ≤ max_results)%nat as Hfirst.
  { unfold first. etransitivity; [apply filter_length_le|]. unfold page1. rewrite length_take. lia. }
  case_decide as Hmore.
  - change (offset_token (start + max_results)) with (create_page_token (Z.of_nat (start + max_results))).
    destruct (refetch_fills (filtering tag rt req username d) all_rows max_results (search_page api req)
      (refetched_readable (cached_read tag rt req username) username) (row_readable rt req username d) fuel (start + max_results) first s1)
      as (rows&token&stop&s2&->&_&[Hst Hh' Hno Hfull]); [done|by apply (refetched_decides tag rt req username d Htag Hrt Hsep api)|done|done|lia|lia|].
    exists rows, token, stop, s2. split; [done|]. split; [lia| |done|done].
    rewrite Hh' /first /page1 -filter_app. cbn [app]. f_equal.
    replace (stop - start)%nat with (max_results + (stop - (start + max_results)))%nat by lia. apply take_drop_app.
  - assert (refetch_loop fuel (search_page api req) (refetched_readable (cached_read tag rt req username) username) max_results first "" s1
      = (Ok (Some (first, "")), s1)) as ->. { destruct fuel; cbn [refetch_loop]; by rewrite andb_false_r. }
    exists first, "", (length all_rows), s1. split; [done|]. split; [lia| |done|by right].
    cbn [app]. unfold first, page1. f_equal. rewrite !take_ge ?length_drop; [done|lia..].
Qed.

(** The same for logged models, whose loop stops inside a batch: it ends,
    the page holds the readable rows of one stretch, and its token is that of
    the row after the last one looked at, so no readable row is skipped or
    served twice. *)
Theorem filtered_logged_models_fill_their_page fuel req resp s username d all_rows max_results start :
  get_fastapi_admin_status req = false → get_fastapi_username req = Ok username →
  separable (get_request_workspace req) EXPERIMENT username → filtering "exp" EXPERIMENT req username d s →
  logged_pages all_rows max_results req → decidable_rows EXPERIMENT req username d logged_models_search all_rows →
  request_max_results logged_models_search req = Ok max_results → (start ≤ length all_rows)%nat → (length all_rows < fuel)%nat →
  (∀ n, logged_models_token req n ≠ "") →
  parse_response logged_models_search (resp_json resp) =
    Ok (take max_results (drop start all_rows), if decide (start + max_results < length all_rows)%nat then logged_models_token req (Z.of_nat (start + max_results)) else "") →
  ∃ rows token stop s', run_after_handler fuel H_filter_search_logged_models req resp s
      = (Ok (Some (MkResponse (status_code resp) (Some (response_json logged_models_search rows (default "" token))))), s')
    ∧ filled all_rows max_results (logged_token req) None (row_readable EXPERIMENT req username d) [] start rows token stop.
Proof.
  intros Hadmin Huser Hsep Hf Hpages Hrows Hmax Hstart Hfuel Htok Hparse. assert ("exp" ≠ "ws") as Htag by done. assert (EXPERIMENT ≠ SCORER) as Hrt by done.
  cbn [run_after_handler]. unfold _filter_search_logged_models.
  rewrite Hadmin Hparse M_bind_run lift_run Hmax M_bind_run lift_run Huser M_bind_run lift_run M_bind_run.
  change (λ key, _cached_can_read_experiment req key username) with (cached_read "exp" EXPERIMENT req username).
  change (_cached_can_read_experiment req) with (λ key username, cached_read "exp" EXPERIMENT req username key). cbv beta.
  set (page1 := take max_results (drop start all_rows)).
  destruct (filter_page_run "exp" EXPERIMENT req username d Htag Hrt Hsep logged_models_search page1 all_rows s Hrows (take_drop_sub _ _ _) Hf) as (s1&->&Hf1).
  set (first := filter _ page1). rewrite M_bind_run.
  match goal with |- context [logged_models_loop fuel req ?k _ _ _] => set (keep := k) end.
  assert (decides (filtering "exp" EXPERIMENT req username d) keep (row_readable EXPERIMENT req username d) all_rows) as Hkeep.
  { intros r s0 Hr Hf0. unfold keep, row_readable. rewrite M_bind_run.
    destruct (cached_read_decides "exp" EXPERIMENT req username d Htag Hrt Hsep _ all_rows Hrows r s0 Hr Hf0) as (s2&->&Hf2).
    destruct (may_read _ _ _ _ _); [|by exists s2]. cbn [andb].
    destruct (access_decides "exp" EXPERIMENT req username d Htag _ all_rows Hrows r s2 Hr Hf2) as (s3&Hacc&Hf3). unfold may_enter in *.
    destruct MLFLOW_ENABLE_WORKSPACES; [by exists s3|by exists s2]. }
  assert (length first ≤ max_results)%nat as Hfirst.
  { unfold first. etransitivity; [apply filter_length_le|]. unfold page1. rewrite length_take. lia. }
  case_decide as Hmore.
  - rewrite decide_False; [|apply Htok]. change (Some (logged_models_token req (Z.of_nat (start + max_results)))) with (logged_token req (start + max_results)).
    destruct (logged_fills (filtering "exp" EXPERIMENT req username d) all_rows max_results req keep (row_readable EXPERIMENT req username d)
      fuel (start + max_results) first s1) as (rows&token&stop&s2&->&_&[Hst Hh' Hno Hfull]); [done..|lia|lia|].
    exists rows, token, stop, s2. split; [done|]. split; [lia| |done|done].
    rewrite Hh' /first /page1 -filter_app. cbn [app]. f_equal.
    replace (stop - start)%nat with (max_results + (stop - (start + max_results)))%nat by lia. apply take_drop_app.
  - exists first, None, (length all_rows), s1. split; [by destruct fuel|]. split; [lia| |done|by right].
    cbn [app]. unfold first, page1. f_equal. rewrite !take_ge ?length_drop; [done|lia..].
Qed.
End search.
