(* ===== verification/SampleMlflow.v ===== *)
(** * A process state over the sample database, and a small MLflow

    Caches that never expire, the shipped source order, workspaces on, and a
    tracking store whose experiments are named after their id. *)
From S2P Require Import Prelude PyStrings Permissions Regex RegexSafety Database Repositories Users Groups Samples Cache Resolution ResolutionFacts Store Json Requests.
From S2P Require Import RequestFacts Validators Hooks AfterRequest AfterRequestFacts BeforeRequest.
From stdpp Require Import pretty.
From Stdlib Require Import Ascii.
#[local] Open Scope Z_scope.

#[export] Instance map_ttl {K V} `{Countable K} : TTLCache K V | 100 := map_cache.
#[export] Existing Instance LocalTTLCacheBackend.local_backend | 100.

#[export] Instance sample_config : Config | 100 := {|
  PERMISSION_SOURCE_ORDER := ["user"; "group"; "regex"; "group-regex"];
  DEFAULT_MLFLOW_PERMISSION := "MANAGE";
  MLFLOW_ENABLE_WORKSPACES := true;
|}.

#[export] Instance sample_tracking : TrackingStore | 100 := {| get_experiment_name := λ id, Ok (id +:+ "-name") |}.

(** A database that compares a text column with a number by its decimal form. *)
#[export] Instance sample_columns : ColumnTyping | 100 := {|
  text_column_eq := λ n, Some (String.eqb (pretty.pretty n));
  int_column_eq := λ s, Some (λ n, String.eqb (pretty.pretty n) s);
|}.

(** Just started: nothing is cached. *)
Definition fresh_world (d : db) : world := World d (∅ : gmap string PermissionResult) (∅ : gmap string Permission) ∅ ∅ [].

Lemma fresh_coherent d : coherent (fresh_world d).
Proof. split; [intros u ws p _|intros ws rt id u sc r _ _]; cbn; by rewrite /LocalTTLCacheBackend.get /= lookup_empty. Qed.

(** Two scorers of one experiment, with different grants. *)
Definition scorer_db : db :=
  set_perms Scorers (λ _, PermTables
    [PermRow (ScorerKey "exp1" "a") 2 "MANAGE" false; PermRow (ScorerKey "exp1" "b") 2 "READ" false] [] [] []) sample_db.

(** A gateway grant to a group of bob. *)
Definition gateway_db : db :=
  set_perms GatewayEndpoints (λ _, PermTables [] [PermRow (Key "gw") 1 "USE" false] [] []) sample_db.

(** * A small MLflow for the request layer

    A dozen routes, a strict parser, a tracking store whose entities live in the
    experiment of their own name, and searches over a list of experiments. *)

Definition two_words : list (string * string) := [("experiment_id", "experimentId"); ("new_name", "newName")].
Definition run_fields : list (string * string) := [("run_id", "runId"); ("run_uuid", "runUuid"); ("status", "status")].

#[export] Instance sample_mlflow : MlflowServer | 100.
Proof.
  refine {|
    mlflow_endpoints := [
      ("/api/2.0/mlflow/experiments/update", Some (ProtoClass "UpdateExperiment" two_words), ["POST"]);
      ("/api/2.0/mlflow/experiments/get", Some (ProtoClass "GetExperiment" [("experiment_id", "experimentId")]), ["GET"]);
      ("/api/2.0/mlflow/experiments/search", Some (ProtoClass "SearchExperiments" [("max_results", "maxResults")]), ["GET"; "POST"]);
      ("/api/2.0/mlflow/logged-models/search", Some (ProtoClass "SearchLoggedModels" [("max_results", "maxResults")]), ["POST"]);
      ("/api/2.0/mlflow/runs/update", Some (ProtoClass "UpdateRun" run_fields), ["POST"]);
      ("/api/2.0/mlflow/registered-models/rename", Some (ProtoClass "RenameRegisteredModel" [("name", "name"); ("new_name", "newName")]), ["POST"]);
      ("/api/3.0/mlflow/prompt-optimization/jobs/<job_id>", Some (ProtoClass "GetPromptOptimizationJob" [("job_id", "jobId")]), ["GET"]);
      ("/graphql", None, ["POST"])];
    url_rules := [
      ("/ajax-api/2.0/mlflow/experiments/search-datasets", ["POST"; "OPTIONS"]);
      ("/api/2.0/mlflow-artifacts/artifacts", ["GET"; "HEAD"; "OPTIONS"]);
      ("/api/2.0/mlflow-artifacts/artifacts/<path:artifact_path>", ["GET"; "HEAD"; "PUT"; "DELETE"; "OPTIONS"]);
      ("/api/2.0/mlflow-artifacts/mpu/create/<path:artifact_path>", ["POST"; "OPTIONS"])];
    _get_normalized_request_json := λ req,
      match request_json req with
      | Some (JObj d) => if decide (NoDup d.*1) then Ok (JObj d) else Raise (OtherException "ValueError")
      | Some v => Ok v
      | None => Ok JNull
      end;
    SearchDatasets := ProtoClass "SearchDatasets" [("experiment_ids", "experimentIds")];
  |}.
  intros req data. destruct (request_json req) as [[]|]; try done. by case_decide; [intros [= <-]|].
Defined.

#[export] Instance sample_parser : MlflowParser | 100.
Proof.
  refine {| request_field := λ req field camel,
    if decide (method req = "GET" ∧ args req ≠ [])
    then if bool_decide (field = "experiment_ids")
         then match getlist field (args req) with [] => None | values => Some (JArr (JStr <$> values)) end
         else JStr <$> dict_get field (args req)
    else match _get_normalized_request_json req with
         | Ok (JObj data) => last_spelled field camel data ≫= some_value
         | _ => None
         end;
    repeated _ _ field := bool_decide (field = "experiment_ids") |}.
  - intros req field camel Hm Ha. by rewrite decide_True.
  - intros _ _ field Hf. apply bool_decide_eq_false. set_solver.
  - intros req field camel Hn. by rewrite decide_False.
Defined.

Definition string_id (v : json) : outcome string :=
  match v with JStr s => Ok s | _ => Raise (OtherException "StatementError") end.

#[export] Instance sample_entities : MlflowEntities | 100 := {|
  get_experiment_by_name v := match v with JStr s => Ok (Some s) | _ => Ok None end;
  run_experiment_id := string_id;
  logged_model_experiment_id := string_id;
  trace_experiment_id := string_id;
  gateway_endpoint_name := string_id;
  gateway_secret_name := string_id;
  gateway_model_definition_name := string_id;
  job_params j := Ok (JObj [("experiment_id", JStr j)]);
  identifier := string_id;
  identifier_str s := eq_refl;
|}.

#[export] Instance sample_validator_libs : ValidatorLibs | 100 := {| validate_path_is_safe := Ok; container_repr := λ _, "" |}.

#[export] Instance sample_request_config : RequestConfig | 100 := {|
  RESTRICT_RESOURCE_CREATION := true;
  OIDC_WORKSPACE_REQUIRE_CREATION_CONTEXT := false;
  OIDC_WORKSPACE_DENY_DEFAULT_CREATION := false;
|}.

#[export] Instance sample_routes : MlflowRoutes | 100 := {|
  _BUDGET_POLICY_PROTOS := [];
  _add_static_prefix p := p;
  _get_ajax_path p v := (if decide (v = 2) then "/ajax-api/2.0" else "/ajax-api/3.0") +:+ p;
  _get_rest_path p v := (if decide (v = 2) then "/api/2.0" else "/api/3.0") +:+ p;
  DEFAULT_WORKSPACE_NAME := "default";
  caught e := match e with MlflowException _ => Ok (MlflowError e) | e => Raise e end;
|}.

(** ** Searches over a list of experiment ids; a token is as long as its offset *)

Definition ids : list string := ["exp1"; "prod"; "dev"; "exp2"; "prod2"; "exp3"].
Definition rows : list search_row := (λ id, SearchRow id None (JStr id)) <$> ids.

Fixpoint bars (n : nat) : string := match n with O => "|" | S n => String "|"%char (bars n) end.
Definition offset_of (t : string) : nat := String.length t - 1.
Lemma bars_length n : String.length (bars n) = S n.
Proof. induction n as [|n IH]; [done|]. cbn. by rewrite IH. Qed.

Definition page_size : nat := 2.
Definition sample_page (start : nat) : list search_row := take page_size (drop start rows).

Definition sample_parse (v : option json) : outcome (list search_row * string) :=
  match v with
  | Some (JObj [("rows", JArr l); ("token", JStr t)]) => Ok (omap (λ r, match r with JStr id => Some (SearchRow id None (JStr id)) | _ => None end) l, t)
  | _ => Raise (OtherException "ParseError")
  end.
Definition sample_json (l : list search_row) (t : string) : json := JObj [("rows", JArr (row_proto <$> l)); ("token", JStr t)].

Definition sample_search : search_api :=
  SearchApi sample_parse sample_json (λ _, Ok page_size) (λ _ t, Ok (sample_page (offset_of t))) (λ _, Ok None).

#[export] Instance sample_responses : ResponseApi | 100 := {|
  experiments_search := sample_search;
  registered_models_search := sample_search;
  model_versions_search := sample_search;
  logged_models_search := sample_search;
  logged_models_page := λ _ t, Ok (sample_page (offset_of t), bool_decide (offset_of t + page_size < length rows)%nat);
  logged_models_token := λ _ n, bars (Z.to_nat n);
  logged_models_offset t := Ok (Z.of_nat (offset_of t));
  parse_start_offset_from_page_token t := Ok (Z.of_nat (offset_of t));
  create_page_token n := bars (Z.to_nat n);
  created_experiment_id := λ _, Ok "new";
  created_model_name := λ _, Ok "new";
  registered_scorer := λ _, Ok ("exp1", "new");
  created_endpoint_name := λ _, Ok "new";
  updated_endpoint_name := λ _, Ok "new";
  created_secret_name := λ _, Ok "new";
  created_model_definition_name := λ _, Ok "new";
  listed := λ _, Ok [];
  listing_json := λ _, JNull;
|}.

Lemma offset_of_bars n : offset_of (bars (Z.to_nat (Z.of_nat n))) = n.
Proof. unfold offset_of. rewrite Nat2Z.id bars_length. lia. Qed.

Lemma sample_pages req : pages rows page_size (search_page sample_search req).
Proof.
  split; intros n.
  - cbn [search_page sample_search create_page_token sample_responses]. by rewrite offset_of_bars.
  - cbn [create_page_token parse_start_offset_from_page_token sample_responses]. by rewrite offset_of_bars.
  - cbn. by destruct (Z.to_nat (Z.of_nat n)).
Qed.

Lemma sample_logged_pages req : logged_pages rows page_size req.
Proof.
  split; intros n; cbn [logged_models_page logged_models_token logged_models_offset sample_responses]; by rewrite offset_of_bars.
Qed.

(** ** Requests *)

Definition as_bob : option AuthContext := Some (MkAuthContext "bob" false None).

Definition post (p : string) (body : list (string * json)) : Request := MkRequest "POST" p [] [] true (Some (JObj body)) [] as_bob.
Definition get (p : string) (query : list (string * string)) : Request := MkRequest "GET" p query [] false None [] as_bob.

Definition fresh_hook (d : db) : hook_state := HookState (fresh_world d) empty_g.
