(* ===== verification/RequestWitnesses.v ===== *)
(** * Concrete instances of the request-layer properties, on the small MLflow *)
From S2P Require Import Prelude PyStrings Json Permissions Regex RegexSafety Database Repositories Users Samples Groups Cache Resolution ResolutionFacts Store.
From S2P Require Import Requests RequestFacts Validators Hooks AfterRequest BeforeRequest BeforeRequestFacts AfterRequestFacts SampleMlflow.

Definition update_path : string := "/api/2.0/mlflow/experiments/update".

(** Renaming an experiment, its id under the camelCase spelling. *)
Definition rename (id : string) : Request := post update_path [("experimentId", JStr id); ("new_name", JStr "renamed")].

Lemma update_served : served_by two_words update_path "POST".
Proof.
  split.
  - exists (Registration update_path "POST" two_words). split_and!; [|reflexivity|vm_compute; reflexivity].
    vm_compute. left.
  - assert (Forall (λ r, reg_method r = "POST" → route_matches (reg_path r) update_path = true → reg_fields r = two_words) registrations) as Hall
      by (apply (bool_decide_unpack _); vm_compute; exact I).
    intros r Hr. by apply (proj1 (Forall_forall _ _) Hall).
Qed.

Lemma guarded_request_reads_what_mlflow_parses_witness :
  passes_guard (rename "dev") ∧
  proto_request_value (rename "dev") "experiment_id" = (true, Some (JStr "dev")) ∧
  request_field (rename "dev") "experiment_id" "experimentId" = Some (JStr "dev") ∧
  find_dual_spelling_collision (post update_path [("experiment_id", JStr "dev"); ("experimentId", JStr "exp1")]) = Some "experiment_id".
Proof.
  assert (passes_guard (rename "dev")) as Hpass by (split; vm_compute; reflexivity).
  split_and!; [done| |vm_compute; reflexivity|vm_compute; reflexivity].
  rewrite (guarded_request_reads_what_mlflow_parses two_words (rename "dev") "experiment_id" update_served Hpass);
    [vm_compute; reflexivity|vm_compute; left].
Defined.

(** Two spellings of one id are caught; two fields for one id are not: the run
    validators fall back to [run_uuid] while MLflow reads [runId]. *)
Lemma run_validator_reads_another_run :
  let req := post "/api/2.0/mlflow/runs/update" [("runId", JStr "exp1"); ("run_uuid", JStr "dev")] in
  passes_guard req ∧ get_request_param req "run_id" = Ok (JStr "dev") ∧
  request_field req "run_id" "runId" = Some (JStr "exp1") ∧
  (before_request_hook req (fresh_hook sample_db)).1 = Ok None ∧
  can_update <$> (permission <$> decision None EXPERIMENT "exp1" "bob" None sample_db) = Ok false.
Proof. split_and!; [split; vm_compute; reflexivity|vm_compute; reflexivity..]. Qed.

Lemma hook_allows_dev : (before_request_hook (rename "dev") (fresh_hook sample_db)).1 = Ok None.
Proof. vm_compute. reflexivity. Qed.

Lemma nothing_reaches_a_protected_route_unchecked_witness :
  ∃ v w, listed (rename "dev") v ∧ run_validator v (rename "dev") "bob" w = (Ok true, h_world (before_request_hook (rename "dev") (fresh_hook sample_db)).2) ∧ w_db w = sample_db.
Proof.
  destruct (nothing_reaches_a_protected_route_unchecked (rename "dev") (fresh_hook sample_db)
    (before_request_hook (rename "dev") (fresh_hook sample_db)).2) as (username&[Huser _ _]&[Hadmin|Hchecked]).
  - rewrite -hook_allows_dev. apply surjective_pairing.
  - reflexivity.
  - discriminate.
  - injection Huser as <-. apply Hchecked.
    apply (OfClass _ update_path (ProtoClass "UpdateExperiment" two_words) ["POST"] V_can_update_experiment);
      [vm_compute; left|vm_compute; reflexivity|left|vm_compute; reflexivity..].
Defined.

Lemma separable_none rt username : colon_free rt = true → colon_free username = true → separable None rt username.
Proof. intros ??. by split_and!. Qed.

Lemma bob_identified req :
  environ req = as_bob → passes_guard req → _requires_existing_user (path req) (method req) = false → identified req "bob" (fresh_hook sample_db).
Proof. intros He Hp Hr. split; [unfold get_fastapi_username, get_auth_context; by rewrite He|done|by rewrite Hr]. Qed.

(** Bob manages "dev" by a pattern and only reads "exp1". *)
Lemma hook_decides_on_what_mlflow_parses_witness :
  (before_request_hook (rename "exp1") (fresh_hook sample_db)).1 = Ok (Some Forbidden) ∧
  (before_request_hook (rename "dev") (fresh_hook sample_db)).1 = Ok None.
Proof.
  assert (∀ id r, decision None EXPERIMENT id "bob" None sample_db = Ok r → passes_guard (rename id) →
    (before_request_hook (rename id) (fresh_hook sample_db)).1 = Ok (if can_update (permission r) then None else Some Forbidden)) as Hdecided.
  { intros id r Hdec Hpass.
    apply (hook_decides_on_what_mlflow_parses two_words (rename id) (fresh_hook sample_db) V_can_update_experiment "experiment_id" EXPERIMENT can_update "bob" (JStr id) id r);
      [reflexivity|vm_compute; reflexivity|exact update_served|left|reflexivity| |reflexivity..|apply fresh_coherent|by apply separable_none| |reflexivity|exact Hdec].
    - apply bob_identified; [reflexivity|exact Hpass|vm_compute; reflexivity].
    - vm_compute. reflexivity. }
  split.
  - apply (Hdecided "exp1" (MkResult READ "user")); [vm_compute; reflexivity|split; vm_compute; reflexivity].
  - apply (Hdecided "dev" (MkResult MANAGE "regex")); [vm_compute; reflexivity|split; vm_compute; reflexivity].
Defined.

(** ** Search results *)

Definition search_request : Request := get "/api/2.0/mlflow/experiments/search" [].
Definition first_page : response := MkResponse 200 (Some (sample_json (sample_page 0) (bars 2))).

Lemma sample_rows_decidable req api :
  environ req = as_bob → (∀ key, workspace_of api key = Ok None) → decidable_rows EXPERIMENT req "bob" sample_db api rows.
Proof.
  intros He Hapi. assert (get_request_workspace req = None) as Hws by (unfold get_request_workspace, get_auth_context; by rewrite He).
  assert (Forall (λ id, ∃ p, decision None EXPERIMENT id "bob" None sample_db = Ok p) ids) as Hall
    by (repeat constructor; eexists; vm_compute; reflexivity).
  split.
  - intros r (id&->&Hid)%list_elem_of_fmap. rewrite Hws. by apply (proj1 (Forall_forall _ _) Hall).
  - by intros r w (id&->&Hid)%list_elem_of_fmap.
  - intros r (id&->&Hid)%list_elem_of_fmap. cbn. unfold row_workspace_or_none. by rewrite Hapi.
Qed.

Lemma fresh_filtering tag rt req username d : filtering tag rt req username d (fresh_hook d).
Proof. split; [apply fresh_coherent|done|intros id b; by rewrite lookup_empty|intros w b _ _; by rewrite lookup_empty]. Qed.

(** Two to a page: the unreadable "prod" is dropped and the loop fetches on. *)
Lemma filtered_search_fills_its_page_witness :
  (run_after_handler 7 H_filter_search_experiments search_request first_page (fresh_hook sample_db)).1
    = Ok (Some (MkResponse 200 (Some (JObj [("rows", JArr [JStr "exp1"; JStr "dev"]); ("token", JStr (bars 3))])))) ∧
  ∃ rs token stop, filled rows page_size offset_token "" (row_readable EXPERIMENT search_request "bob" sample_db) [] 0 rs token stop
    ∧ (run_after_handler 7 H_filter_search_experiments search_request first_page (fresh_hook sample_db)).1 = Ok (Some (MkResponse 200 (Some (sample_json rs token)))).
Proof.
  split; [vm_compute; reflexivity|].
  destruct (filtered_search_fills_its_page H_filter_search_experiments sample_search "exp" EXPERIMENT 7 search_request first_page
    (fresh_hook sample_db) "bob" sample_db rows page_size 0) as (rs&token&stop&s'&Hrun&Hfilled);
    [reflexivity|reflexivity|reflexivity|by apply separable_none|apply fresh_filtering|apply sample_pages|by apply sample_rows_decidable|reflexivity|cbn; lia|cbn; lia|vm_compute; reflexivity|].
  exists rs, token, stop. split; [exact Hfilled|]. by rewrite Hrun.
Defined.

Definition models_request : Request := post "/api/2.0/mlflow/logged-models/search" [].

Lemma filtered_logged_models_fill_their_page_witness :
  (run_after_handler 7 H_filter_search_logged_models models_request first_page (fresh_hook sample_db)).1
    = Ok (Some (MkResponse 200 (Some (JObj [("rows", JArr [JStr "exp1"; JStr "dev"]); ("token", JStr (bars 3))])))) ∧
  ∃ rs token stop, filled rows page_size (logged_token models_request) None (row_readable EXPERIMENT models_request "bob" sample_db) [] 0 rs token stop
    ∧ (run_after_handler 7 H_filter_search_logged_models models_request first_page (fresh_hook sample_db)).1 = Ok (Some (MkResponse 200 (Some (sample_json rs (default "" token))))).
Proof.
  split; [vm_compute; reflexivity|].
  destruct (filtered_logged_models_fill_their_page 7 models_request first_page (fresh_hook sample_db) "bob" sample_db rows page_size 0)
    as (rs&token&stop&s'&Hrun&Hfilled);
    [reflexivity|reflexivity|by apply separable_none|apply fresh_filtering|apply sample_logged_pages|by apply sample_rows_decidable|reflexivity|cbn; lia|cbn; lia| |vm_compute; reflexivity|].
  - intros n. cbn. by destruct (Z.to_nat n).
  - exists rs, token, stop. split; [exact Hfilled|]. by rewrite Hrun.
Defined.

(** ** What the model of the request layer shows *)

(** A rename of a model that MLflow has done is reported as a failure when no
    group holds a grant on it; the rows of the users are renamed all the same. *)
Definition model_db : db := set_perms RegisteredModels (λ _, PermTables [PermRow (Key "llm") 2 "MANAGE" false] [] [] []) sample_db.
Definition rename_model : Request := post "/api/2.0/mlflow/registered-models/rename" [("name", JStr "llm"); ("new_name", JStr "llm2")].

Lemma rename_without_group_grants_reports_failure :
  (after_request_hook 0 rename_model (MkResponse 200 None) (fresh_hook model_db)).1 = Raise (MlflowException RESOURCE_DOES_NOT_EXIST) ∧
  p_key <$> t_user (perms (w_db (h_world (after_request_hook 0 rename_model (MkResponse 200 None) (fresh_hook model_db)).2)) RegisteredModels) = [Key "llm2"].
Proof. split; vm_compute; reflexivity. Qed.

(** A HEAD on a protobuf route is answered with an error where its GET passes:
    the parameters are looked for in the body. *)
Lemma head_of_get_experiment_fails :
  let query := [("experiment_id", "dev")] in
  let path := "/api/2.0/mlflow/experiments/get" in
  (before_request_hook (get path query) (fresh_hook sample_db)).1 = Ok None ∧
  (before_request_hook (MkRequest "HEAD" path query [] false None [] as_bob) (fresh_hook sample_db)).1 = Ok (Some (MlflowError (MlflowException INVALID_PARAMETER_VALUE))).
Proof. split; vm_compute; reflexivity. Qed.

(** The artifact proxy: a path with no experiment falls back to the default
    permission, a family that is not known is refused. *)
Lemma artifact_requests_are_decided :
  let fetch m p rest := (before_request_hook (MkRequest m p [] [("artifact_path", rest)] false None [] as_bob) (fresh_hook sample_db)).1 in
  fetch "GET" "/api/2.0/mlflow-artifacts/other/x" "x" = Ok (Some Forbidden) ∧
  fetch "POST" "/api/2.0/mlflow-artifacts/artifacts/1/x" "1/x" = Ok (Some Forbidden) ∧
  fetch "OPTIONS" "/api/2.0/mlflow-artifacts/artifacts/1/x" "1/x" = Ok None.
Proof. split_and!; vm_compute; reflexivity. Qed.
