(* ===== verification/Concurrency.v ===== *)
(** * Concurrent callbacks ([AuthStateRepository.consume])

    [consume] runs two statements in one transaction: a read, then the delete
    whose row count decides who owns the attempt. Under read-committed
    isolation other callbacks run between the two, so each thread is a small
    state machine whose steps interleave freely over one database. *)
From S2P Require Import Prelude PyStrings Permissions Database Repositories Users Sessions.
Import AuthStateRepository.

Inductive thread :=
  | NotStarted
  | HasRow (attempt : AuthAttempt) (expired : bool)
  | Finished (result : option AuthAttempt).

#[export] Instance thread_eq_dec : EqDecision thread.
Proof. solve_decision. Defined.

Definition after_read (row : option (AuthAttempt * bool)) : thread :=
  match row with Some (attempt, expired) => HasRow attempt expired | None => Finished None end.

Definition system : Type := db * list thread.

Section system.
Context `{SqlBackend} (state : string).

(** One step: a thread reads, a thread claims, or an unrelated login
    inserts its own state. *)
Inductive step (clock : Z → Prop) : system → system → Prop :=
  | step_read i now d ts row d' :
      clock now → ts !! i = Some NotStarted → consume_read now state d = (Ok row, d') →
      step clock (d, ts) (d', <[i := after_read row]> ts)
  | step_claim i attempt expired d ts claimed d' :
      ts !! i = Some (HasRow attempt expired) → consume_claim state d = (Ok claimed, d') →
      step clock (d, ts) (d', <[i := Finished (consume_result attempt expired claimed)]> ts)
  | step_other now token provider_id redirect lifetime d ts :
      token ≠ state → step clock (d, ts) ((create now token provider_id redirect lifetime d).2, ts).

(** A thread run alone is [consume]: its read, then its claim. *)
Lemma consume_is_read_then_claim now d :
  state ≠ "" →
  consume now state d =
    match consume_read now state d with
    | (Ok (Some (attempt, expired)), d1) =>
        match consume_claim state d1 with
        | (Ok claimed, d2) => (Ok (consume_result attempt expired claimed), d2)
        | (Raise e, _) => (Raise (session_exc e), d)
        end
    | (Ok None, d1) => (Ok None, d1)
    | (Raise e, _) => (Raise (session_exc e), d)
    end.
Proof.
  intros Hs. unfold consume. rewrite decide_False //. autorewrite with run.
  destruct (consume_read now state d) as [[[[a e]|]|e] d1]; [|done..].
  autorewrite with run. by destruct (consume_claim state d1) as [[n|e'] d2].
Qed.

Definition rows_of (d : db) : list auth_state_row := filter (λ r, st_state r = state) (auth_states d).

Definition winner (t : thread) : Prop := match t with Finished (Some _) => True | _ => False end.
#[export] Instance winner_dec t : Decision (winner t).
Proof. destruct t as [| |[]]; cbn; apply _. Defined.

Definition winners (ts : list thread) : nat := length (filter winner ts).

Lemma winners_insert i t t' ts :
  ts !! i = Some t → ¬ winner t →
  winners (<[i := t']> ts) = (winners ts + (if decide (winner t') then 1 else 0))%nat.
Proof.
  intros Hi Ht. unfold winners. revert i Hi. induction ts as [|x ts IH]; intros [|i] Hi; try done.
  - injection Hi as ->. change (<[0%nat := t']> (t :: ts)) with (t' :: ts). rewrite !filter_cons (decide_False (P:=winner t)) //.
    case_decide; cbn; lia.
  - change (<[S i := t']> (x :: ts)) with (x :: <[i := t']> ts). rewrite !filter_cons. specialize (IH i Hi).
    destruct (decide (winner x)); cbn [length]; lia.
Qed.

Lemma rows_of_claim d : rows_of (set_auth_states (filter (λ r, st_state r ≠ state)) d) = [].
Proof. unfold rows_of. apply filter_nil_iff. intros r [Hne _]%list_elem_of_filter. done. Qed.

Lemma rows_of_unique d : NoDup (st_state <$> auth_states d) → (length (rows_of d) ≤ 1)%nat.
Proof.
  intros Hnd. unfold rows_of. destruct (filter _ _) as [|r l] eqn:E; [cbn; lia|].
  assert (r ∈ filter (λ r, st_state r = state) (auth_states d)) as [Heq Hr]%list_elem_of_filter by (rewrite E; set_solver).
  subst. rewrite (filter_unique st_state _ r Hnd Hr) in E. injection E as <-. done.
Qed.

Lemma create_other now token provider_id redirect lifetime d :
  token ≠ state → NoDup (st_state <$> auth_states d) →
  let d' := (create now token provider_id redirect lifetime d).2 in
  rows_of d' = rows_of d ∧ NoDup (st_state <$> auth_states d').
Proof.
  intros Hne Hnd. unfold create. autorewrite with run. unfold add_state, flush_unique.
  case_decide as Hnd'; [|done]. cbn [snd]. split; [|exact Hnd']. unfold rows_of. cbn.
  rewrite filter_app filter_cons decide_False //. by rewrite filter_nil app_nil_r.
Qed.

(** The row counts as one unclaimed attempt. *)
Definition tokens (s : system) : nat := (winners s.2 + length (rows_of s.1))%nat.

Definition inv (s : system) : Prop :=
  NoDup (st_state <$> auth_states s.1) ∧ (tokens s ≤ 1)%nat.

Lemma step_inv clock s s' : inv s → step clock s s' → inv s'.
Proof.
  intros [Hnd Htok] Hstep. destruct Hstep as [i now d ts row d' _ Hi Hread|i a e d ts n d' Hi Hclaim|now token p r l d ts Hne].
  - apply M_bind_ok in Hread as (o&?&[_ ->]%ask_ok&[-> ->]%ret_ok). split; [done|].
    unfold tokens in *. cbn [fst snd] in *. rewrite (winners_insert i NotStarted) //.
    destruct o as [r|]; (destruct (decide (winner _)) as [[]|_]; lia).
  - apply M_bind_ok in Hclaim as (o&?&[-> ->]%gets_ok&([]&?&Hmod&[-> ->]%ret_ok)%M_bind_ok).
    injection Hmod as <-. split; [by apply NoDup_fmap_filter|].
    unfold tokens in *. cbn [fst snd] in *. rewrite (winners_insert i (HasRow a e)) //.
    rewrite rows_of_claim. fold (rows_of d). pose proof (rows_of_unique d Hnd).
    destruct (rows_of d) as [|r l]; cbn [length] in *; [destruct (decide (winner _)) as [[]|_]; lia|].
    destruct (decide (winner _)); lia.
  - destruct (create_other now token p r l d Hne Hnd) as [Hrows Hnd']. split; [exact Hnd'|].
    unfold tokens in *. cbn [fst snd] in *. by rewrite Hrows.
Qed.

Lemma steps_inv clock s s' : inv s → rtc (step clock) s s' → inv s'.
Proof. intros Hinv Hsteps. induction Hsteps; eauto using step_inv. Qed.

Lemma initial_inv d n : NoDup (st_state <$> auth_states d) → inv (d, replicate n NotStarted).
Proof.
  intros Hnd. split; [done|]. unfold tokens. cbn [fst snd]. pose proof (rows_of_unique d Hnd).
  enough (winners (replicate n NotStarted) = 0%nat) by lia.
  unfold winners. rewrite (proj2 (filter_nil_iff _ _)); [done|]. by intros t [-> _]%elem_of_replicate.
Qed.

Lemma winners_unique ts i j a b :
  (winners ts ≤ 1)%nat → ts !! i = Some (Finished (Some a)) → ts !! j = Some (Finished (Some b)) → i = j.
Proof.
  intros Htok Hi Hj. destruct (decide (i = j)) as [|Hne]; [done|]. exfalso. enough (2 ≤ winners ts)%nat by lia.
  pose proof (winners_insert i (Finished None) (Finished (Some a)) (<[i := Finished None]> ts)) as H1.
  pose proof (winners_insert j (Finished None) (Finished (Some b)) (<[j := Finished None]> (<[i := Finished None]> ts))) as H2.
  rewrite list_insert_insert_eq (list_insert_id ts i _ Hi) in H1.
  rewrite list_insert_insert_eq (list_insert_id (<[i := Finished None]> ts) j (Finished (Some b))) in H2; [|rewrite list_lookup_insert_ne //].
  rewrite H1; [|apply list_lookup_insert_eq, (lookup_lt_Some _ _ _ Hi)|by intros []].
  rewrite H2; [|apply list_lookup_insert_eq; rewrite length_insert; exact (lookup_lt_Some _ _ _ Hj)|by intros []].
  destruct (decide (winner (Finished (Some a)))) as [_|[]], (decide (winner (Finished (Some b)))) as [_|[]]; [lia|done..].
Qed.

(** C31: However the reads and claiming deletes of concurrent callbacks that
    carry one state interleave, at most one of them is given the login attempt. *)
Theorem at_most_one_callback_wins clock d n d' ts' i j a b :
  wf_db d → rtc (step clock) (d, replicate n NotStarted) (d', ts') →
  ts' !! i = Some (Finished (Some a)) → ts' !! j = Some (Finished (Some b)) → i = j.
Proof.
  intros Hwf Hsteps. destruct (steps_inv clock _ _ (initial_inv d n (wf_states _ Hwf)) Hsteps) as [_ Htok].
  apply winners_unique. unfold tokens in Htok. cbn [fst snd] in Htok. lia.
Qed.

(** ** Exactly one wins

    When the attempt exists and no callback reads a clock past its expiry. *)
Definition attempt_of (r : auth_state_row) : AuthAttempt :=
  MkAttempt (st_state r) (or_default (st_provider_id r) "") (st_relay_state r).

Definition fresh_inv (r : auth_state_row) (s : system) : Prop :=
  NoDup (st_state <$> auth_states s.1) ∧ tokens s = 1%nat ∧
  (rows_of s.1 = [] ∨ rows_of s.1 = [r]) ∧
  (∀ i a e, s.2 !! i = Some (HasRow a e) → e = false ∧ a = attempt_of r) ∧
  (∀ i o, s.2 !! i = Some (Finished o) → rows_of s.1 = [] ∧ (o = None ∨ o = Some (attempt_of r))).

Lemma step_fresh_inv (r : auth_state_row) clock s s' :
  (∀ now, clock now → now < st_expires_at r) → fresh_inv r s → step clock s s' → fresh_inv r s'.
Proof.
  intros Hclock (Hnd&Htok&Hrows&Hexp&Hfin) Hstep. unfold fresh_inv, tokens in *.
  destruct Hstep as [i now d ts row d' Hnow Hi Hread|i a e d ts n d' Hi Hclaim|now token p rd l d ts Hne]; cbn [fst snd] in *.
  - apply M_bind_ok in Hread as (o&?&[Ho ->]%ask_ok&[-> ->]%ret_ok). apply query_one_or_none_ok in Ho. fold (rows_of d) in Ho.
    rewrite (winners_insert i NotStarted) //. destruct o as [r'|]; cbn [after_read fmap option_fmap option_map].
    + destruct Hrows as [Hr|Hr]; [congruence|]. assert (r' = r) as -> by congruence.
      assert (bool_decide (st_expires_at r ≤ now) = false) as -> by (apply bool_decide_eq_false; specialize (Hclock now Hnow); lia).
      split_and!; [done|destruct (decide (winner _)) as [[]|_]; lia|by right| |].
      * intros j a e [[-> [[= <- <-] _]]|[_ Hj]]%list_lookup_insert_Some; [done|exact (Hexp _ _ _ Hj)].
      * intros j o [[_ [[=] _]]|[_ Hj]]%list_lookup_insert_Some. exact (Hfin _ _ Hj).
    + split_and!; [done|destruct (decide (winner _)) as [[]|_]; lia|by left| |].
      * intros j a e [[_ [[=] _]]|[_ Hj]]%list_lookup_insert_Some. exact (Hexp _ _ _ Hj).
      * intros j o [[-> [[= <-] _]]|[_ Hj]]%list_lookup_insert_Some; [by split; [|left]|exact (Hfin _ _ Hj)].
  - apply M_bind_ok in Hclaim as (o&?&[-> ->]%gets_ok&([]&?&Hmod&[-> ->]%ret_ok)%M_bind_ok). injection Hmod as <-.
    rewrite rows_of_claim. fold (rows_of d). rewrite (winners_insert i (HasRow a e)) //.
    destruct (Hexp i a e Hi) as [-> ->].
    split_and!; [by apply NoDup_fmap_filter| |by left| |].
    + destruct Hrows as [Hr|Hr]; rewrite Hr in Htok |- *; cbn [length] in *.
      * destruct (decide (winner _)) as [[]|_]; lia.
      * destruct (decide (winner _)) as [_|[]]; [lia|done].
    + intros j a' e' [[_ [[=] _]]|[_ Hj]]%list_lookup_insert_Some. exact (Hexp _ _ _ Hj).
    + intros j o [[-> [[= <-] _]]|[_ Hj]]%list_lookup_insert_Some; split; try done.
      * unfold consume_result. case_decide; auto.
      * by destruct (Hfin _ _ Hj).
  - destruct (create_other now token p rd l d Hne Hnd) as [Hr Hnd']. by rewrite Hr.
Qed.

Lemma steps_fresh_inv (r : auth_state_row) clock s s' :
  (∀ now, clock now → now < st_expires_at r) → fresh_inv r s → rtc (step clock) s s' → fresh_inv r s'.
Proof. intros Hclock Hinv Hsteps. induction Hsteps; eauto using step_fresh_inv. Qed.

Lemma initial_fresh_inv (r : auth_state_row) d n :
  NoDup (st_state <$> auth_states d) → r ∈ auth_states d → st_state r = state → fresh_inv r (d, replicate n NotStarted).
Proof.
  intros Hnd Hr Hst.
  assert (rows_of d = [r]) as Hrows by (unfold rows_of; rewrite -Hst; by apply filter_unique).
  assert (∀ i t, replicate n NotStarted !! i = Some t → t = NotStarted) as Hrep by (intros i t; by intros [-> _]%lookup_replicate).
  unfold fresh_inv, tokens. cbn [fst snd]. rewrite Hrows. split_and!; [done| |by right| |].
  - unfold winners. rewrite (proj2 (filter_nil_iff _ _)); [done|]. by intros t [-> _]%elem_of_replicate.
  - by intros i a e ?%Hrep.
  - by intros i o ?%Hrep.
Qed.

(** C38: When the state names a stored attempt that no callback sees as expired,
    and every callback has finished, exactly one of them holds the attempt and
    it is the stored one. *)
Theorem exactly_one_callback_wins clock d n d' ts' r :
  wf_db d → r ∈ auth_states d → st_state r = state → (∀ now, clock now → now < st_expires_at r) →
  rtc (step clock) (d, replicate (S n) NotStarted) (d', ts') →
  (∀ i, (i ≤ n)%nat → ∃ o, ts' !! i = Some (Finished o)) →
  ∃ i, ts' !! i = Some (Finished (Some (attempt_of r))) ∧ ∀ j o, j ≠ i → ts' !! j = Some (Finished o) → o = None.
Proof.
  intros Hwf Hr Hst Hclock Hsteps Hall.
  destruct (steps_fresh_inv r clock _ _ Hclock (initial_fresh_inv r d (S n) (wf_states _ Hwf) Hr Hst) Hsteps) as (_&Htok&_&_&Hfin).
  destruct (Hall 0%nat) as (o0&H0); [lia|]. destruct (Hfin _ _ H0) as [Hrows _].
  unfold tokens in Htok. cbn [fst snd] in *. rewrite Hrows in Htok. cbn in Htok.
  unfold winners in Htok. destruct (filter winner ts') as [|t l] eqn:E; [done|].
  assert (t ∈ filter winner ts') as [Hw Ht]%list_elem_of_filter by (rewrite E; set_solver).
  destruct t as [| |[a|]]; try done. apply list_elem_of_lookup in Ht as (i&Hi).
  exists i. destruct (Hfin _ _ Hi) as [_ [|Ha]]; [done|]. rewrite Hi Ha. split; [done|].
  intros j o Hne Hj. destruct (Hfin _ _ Hj) as [_ [|Ho]]; [done|]. destruct Hne. subst o.
  eapply eq_sym, winners_unique; [|exact Hi|exact Hj]. unfold winners. rewrite E. cbn in *. lia.
Qed.
End system.
