(* ===== verification/Kubernetes.v ===== *)
(** * Kubernetes service accounts ([kubernetes.py])

    The subject of a projected token, parsed into a namespace and a name, and the
    username and group they stand for. *)
From S2P Require Import Prelude PyStrings Json Regex.
From Stdlib Require Import Ascii.

(** [json.loads] on text: [None] where it raises. *)
Class JsonLoads := { json_loads : string → option json }.

Definition SERVICE_ACCOUNT_PREFIX : string := "system:serviceaccount:".

(** [re.match] with a [$] at the end: a final newline may follow the match. *)
Definition newline : ascii := ascii_of_nat 10.
Definition match_dollar (r : re) (s : string) : bool := fullmatch (Seq r (opt (Chr (Ascii.eqb newline)))) s.

Definition alnum : ascii → bool := one_of "abcdefghijklmnopqrstuvwxyz0123456789".
Definition alnum_dash : ascii → bool := one_of "-abcdefghijklmnopqrstuvwxyz0123456789".
Definition DNS_LABEL : re := Seq (Chr alnum) (opt (Seq (Star (Chr alnum_dash)) (Chr alnum))).
Definition MAX_LABEL_LENGTH : nat := 63.

Record ServiceAccount := MkServiceAccount {
  sa_namespace : string;
  sa_name : string;
}.

(** [USERNAME_TEMPLATE] and [GROUP_TEMPLATE]. *)
Definition sa_username (a : ServiceAccount) : string :=
  sa_name a +:+ "." +:+ sa_namespace a +:+ "@serviceaccount.cluster.local".
Definition sa_group (a : ServiceAccount) : string := "k8s:" +:+ sa_namespace a.

Definition valid_label (s : string) : bool :=
  negb (String.eqb s "") && (String.length s <=? MAX_LABEL_LENGTH)%nat && match_dollar DNS_LABEL s.
Definition valid_dns_label (value : json) : bool :=
  match value with JStr s => valid_label s | _ => false end.

(** The two groups of [SERVICE_ACCOUNT_SUBJECT.match(subject)]. Neither group
    may contain a colon, so the first one ends at the first colon, and the second
    one takes the rest, a final newline included. *)
Definition match_subject (subject : string) : option (string * string) :=
  if startswith subject SERVICE_ACCOUNT_PREFIX then
    match py_split_once ":" (drop_str (String.length SERVICE_ACCOUNT_PREFIX) subject) with
    | Some (namespace, name) =>
        if decide (namespace = "" ∨ name = "" ∨ py_count ":" name ≠ 0%nat) then None else Some (namespace, name)
    | None => None
    end
  else None.

Definition ServiceAccountError : exc := OtherException "ServiceAccountError".
Definition ValueError : exc := OtherException "ValueError".

Definition parse_service_account (subject : json) : outcome ServiceAccount :=
  match subject with
  | JStr subject =>
      match match_subject subject with
      | None => Raise ServiceAccountError
      | Some (namespace, name) =>
          if negb (valid_label namespace) || negb (valid_label name) then Raise ServiceAccountError
          else Ok (MkServiceAccount namespace name)
      end
  | _ => Raise ServiceAccountError
  end.

(** An empty allowlist allows nothing. *)
Definition namespace_is_allowed (namespace : string) (allowlist : list string) : bool :=
  bool_decide (namespace ∈ allowlist).

Definition load_inline_jwks `{JsonLoads} (raw : json) : outcome json :=
  parsed ← match raw with
           | JStr text => match json_loads text with Some v => Ok v | None => Raise ValueError end
           | _ => Ok raw
           end;
  match parsed with
  | JObj fields =>
      match get_key "keys" (dict_of fields) with
      | JArr (_ :: _) => Ok parsed
      | _ => Raise ValueError
      end
  | _ => Raise ValueError
  end.

(** ** The pod's own credentials *)

(** The two mounted files: the token's text, and whether the CA bundle reads. *)
Class PodFiles := { token_file : option string; ca_file_readable : bool }.
Definition IN_CLUSTER_CA_PATH : string := "/var/run/secrets/kubernetes.io/serviceaccount/ca.crt".

Definition in_cluster_credentials `{PodFiles} : option string * option string :=
  match token_file with
  | None => (None, None)
  | Some text =>
      let token := py_strip text in
      (if decide (token = "") then None else Some token, if ca_file_readable then Some IN_CLUSTER_CA_PATH else None)
  end.

(** ** What a parsed account stands for *)

(** The characters a valid label may hold: those of a DNS label, and one newline. *)
Definition label_char (c : ascii) : bool := alnum_dash c || Ascii.eqb newline c.

Lemma alnum_dash_of_alnum c : alnum c = true → alnum_dash c = true.
Proof. unfold alnum, alnum_dash, one_of. rewrite !bool_decide_eq_true. cbn. set_solver. Qed.

Lemma valid_label_chars s : valid_label s = true → Forall (λ c, label_char c = true) (chars_of s).
Proof.
  unfold valid_label, match_dollar, fullmatch. rewrite !andb_true_iff matches_lang.
  intros [_ (l&e&->&Hl&He)%lang_seq]. apply Forall_app. split.
  - revert Hl. intros (c&rest&->&(x&->&Hx)%lang_chr&Hrest)%lang_seq.
    assert (∀ y, alnum_dash y = true → label_char y = true) as Hdash.
    { intros y Hy. unfold label_char. by rewrite Hy. }
    apply Forall_app. split; [constructor; eauto using alnum_dash_of_alnum|].
    apply lang_alt in Hrest as [->%lang_eps|Hrest]; [done|].
    revert Hrest. intros (mid&last&->&Hmid%lang_star_chr&(y&->&Hy)%lang_chr)%lang_seq.
    apply Forall_app. split; [eapply Forall_impl; eauto|constructor; eauto using alnum_dash_of_alnum].
  - apply lang_alt in He as [->%lang_eps|(y&->&Hy)%lang_chr]; [done|]. constructor; [|done].
    unfold label_char. by rewrite Hy orb_true_r.
Qed.

Lemma match_subject_spec subject namespace name :
  match_subject subject = Some (namespace, name) →
  subject = SERVICE_ACCOUNT_PREFIX +:+ namespace +:+ String ":" name.
Proof.
  unfold match_subject. destruct (startswith _ _) eqn:Hs; [|done]. apply startswith_drop in Hs.
  destruct (py_split_once _ _) as [[l r]|] eqn:Hsplit; [|done]. case_decide; [done|].
  intros [= -> ->]. apply py_split_once_spec in Hsplit as [Heq _]. by rewrite Hs Heq.
Qed.

Lemma parse_service_account_Ok subject a :
  parse_service_account subject = Ok a →
  subject = JStr (SERVICE_ACCOUNT_PREFIX +:+ sa_namespace a +:+ String ":" (sa_name a)) ∧
  valid_label (sa_namespace a) = true ∧ valid_label (sa_name a) = true.
Proof.
  destruct subject; cbn [parse_service_account]; try done.
  destruct (match_subject s) as [[namespace name]|] eqn:E; [|done].
  destruct (valid_label namespace) eqn:?, (valid_label name) eqn:?; try done.
  intros [= <-]. apply match_subject_spec in E as ->. done.
Qed.

Lemma count_absent c s : Forall (λ x, label_char x = true) (chars_of s) → label_char c = false → py_count c s = 0%nat.
Proof.
  intros Hall Hc. induction s as [|x s IH]; [done|]. cbn in *. apply Forall_cons in Hall as [Hx Hs].
  destruct (Ascii.eqb_spec x c) as [->|]; [congruence|]. auto.
Qed.

Lemma username_separates a b :
  valid_label (sa_name a) = true → valid_label (sa_name b) = true → sa_username a = sa_username b → a = b.
Proof.
  intros Ha Hb Heq.
  assert (∀ x, valid_label (sa_name x) = true →
    py_split_once "." (sa_username x) = Some (sa_name x, sa_namespace x +:+ "@serviceaccount.cluster.local")) as Hsplit.
  { intros x Hx. apply py_split_once_spec. split; [done|]. by apply count_absent; [apply valid_label_chars|]. }
  pose proof (Hsplit a Ha) as Hsa. rewrite Heq (Hsplit b Hb) in Hsa. injection Hsa as Hn Hns.
  apply append_inj_r in Hns. destruct a, b; cbn in *. by subst.
Qed.

(** Distinct service accounts have distinct usernames: if two token
    subjects parse to accounts with one username, the subjects are the same. *)
Theorem service_accounts_never_share_a_username subject1 subject2 a1 a2 :
  parse_service_account subject1 = Ok a1 → parse_service_account subject2 = Ok a2 →
  sa_username a1 = sa_username a2 → subject1 = subject2.
Proof.
  intros (->&_&Hn1)%parse_service_account_Ok (->&_&Hn2)%parse_service_account_Ok Heq.
  by rewrite (username_separates a1 a2).
Qed.

(** The [$] of [DNS_LABEL] lets one newline through, into the username. *)
Definition newline_subject : json :=
  JStr (SERVICE_ACCOUNT_PREFIX +:+ "team-a:trainer" +:+ String newline "").
Lemma a_newline_reaches_the_username :
  ∃ a, parse_service_account newline_subject = Ok a ∧ py_count newline (sa_username a) = 1%nat.
Proof. eexists. split; vm_compute; reflexivity. Qed.
