(* ===== verification/ProviderRegistry.v ===== *)
(** * The identity provider registry ([provider_registry.py])

    From the configured JSON to the providers that authenticate: one entry is
    validated at a time and dropped with the reasons; duplicated ids drop every
    copy, a repeated issuer drops the later entries; with nothing configured a
    single provider is synthesised from the flat variables. *)
From S2P Require Import Prelude PyStrings Json Regex Kubernetes.
From Stdlib Require Import Ascii.

(** ** Constants *)

Definition DEFAULT_PROVIDER_ID : string := "default".
Definition PROVIDER_TYPES : list string := ["oidc"; "saml"; "k8s"].
Definition PROVISIONING_MODES : list string := ["jit"; "scim"; "none"].
Definition GROUP_SYNC_MODES : list string := ["none"; "first_login"; "every_login"].
Definition GROUP_SYNC_STRATEGIES : list string := ["additive"; "authoritative"].
Definition TOKEN_PROVIDER_TYPES : list string := ["oidc"; "k8s"].
Definition KUBERNETES_ONLY_FIELDS : list string :=
  ["jwks_inline"; "jwks_uri"; "in_cluster"; "ca_bundle_path"; "namespace_allowlist"].
Definition ADMIN_SOURCES : list string := ["claims"; "none"].
Definition IDENTITY_BINDINGS : list string := ["subject"; "email"].
Definition HMAC_ALGORITHMS : list string := ["HS256"; "HS384"; "HS512"].
Definition ASYMMETRIC_ALGORITHMS : list string :=
  ["RS256"; "RS384"; "RS512"; "PS256"; "PS384"; "PS512"; "ES256"; "ES384"; "ES512"; "EdDSA"].
Definition NONE_ALGORITHM : string := "NONE".
Definition DEFAULT_ALGORITHMS : list string := ["RS256"].

(** [INTERACTIVE_BY_DEFAULT.get(provider_type, True)] *)
Definition interactive_by_default (provider_type : json) : bool :=
  match provider_type with JStr s => bool_decide (s ≠ "k8s") | _ => true end.

(** [_CANONICAL_ALGORITHMS.get(upper)] *)
Definition canonical_algorithm (upper : string) : option string :=
  head (filter (λ algorithm, py_upper algorithm = upper) (ASYMMETRIC_ALGORITHMS ++ HMAC_ALGORITHMS)).

(** ** Providers *)

Record ProviderConfig := MkProvider {
  pr_id : string;
  pr_type : string;
  pr_display_name : string;
  provisioning : string;
  group_sync : string;
  group_sync_mode : string;
  admin_source : string;
  identity_binding : string;
  interactive : bool;
  allowed_email_domains : list string;
  allowed_algorithms : list string;
  audience : option string;
  issuer : option string;
  discovery_url : option string;
  client_id : option string;
  jwks_inline : option json;
  jwks_uri : option string;
  ca_bundle_path : option string;
  in_cluster : bool;
  namespace_allowlist : list string;
}.

Definition has_own_key_source (p : ProviderConfig) : bool := truthy (discovery_url p) || truthy (issuer p).

(** Why an entry, or the whole payload, was rejected; [label] is what the message
    calls the entry. *)
Inductive registry_error :=
  | IdRequired (index : nat)
  | DuplicateId (label : string)
  | NotAString (label key : string)
  | NotStrings (label key : string)
  | UnknownValue (label key : string)
  | ScimAdminSource (label : string)
  | InteractiveNotBool (label : string)
  | NoBrowserFlow (label : string)
  | EmailWithoutDomains (label : string)
  | AlgorithmsNotStrings (label : string)
  | NoAlgorithm (label : string)
  | NoneAlgorithm (label : string)
  | SymmetricAlgorithm (label algorithm : string)
  | UnknownAlgorithm (label algorithm : string)
  | FieldRequired (label key : string)
  | OnlyForKubernetes (label key : string)
  | NoKeySource (label : string)
  | InvalidInlineJwks (label : string)
  | NamespaceNeverMatches (label namespace : string)
  | SamlExtraMissing (label : string)
  | NotParsed (origin : string)
  | NotAnArray (origin : string)
  | NotAnObject (origin : string) (index : nat)
  | WrongShape (origin : string)
  | Unreadable (path : string)
  | FallingBack (origin : string)
  | DuplicateIssuer (label claimed_by : string).

Record RegistryLoadResult := MkResult {
  providers : list ProviderConfig;
  errors : list registry_error;
  source : string;
}.

Definition interactive_providers (r : RegistryLoadResult) : list ProviderConfig :=
  filter (λ p, interactive p = true) (providers r).
Definition by_id (provider_id : string) (r : RegistryLoadResult) : option ProviderConfig :=
  head (filter (λ p, pr_id p = provider_id) (providers r)).

(** ** Reading one entry *)

Definition _as_tuple (value : json) : list string :=
  match value with
  | JStr s => omap text_of [JStr s]
  | JArr l => omap text_of l
  | _ => []
  end.

Definition _STRING_FIELDS : list string :=
  ["type"; "display_name"; "provisioning"; "group_sync"; "group_sync_mode"; "admin_source";
   "identity_binding"; "audience"; "issuer"; "discovery_url"; "client_id"].
Definition _LIST_FIELDS : list string := ["allowed_email_domains"; "allowed_algorithms"].

Definition is_str (v : json) : bool := match v with JStr _ => true | _ => false end.
Definition is_null (v : json) : bool := match v with JNull => true | _ => false end.
Definition is_str_or_list (v : json) : bool := match v with JStr _ | JArr _ => true | _ => false end.

(** One error per key that fails the test. *)
Definition complain {A} (bad : A → bool) (error : A → registry_error) (keys : list A) : list registry_error :=
  error <$> filter (λ key, bad key = true) keys.
Definition complain_if (bad : bool) (error : registry_error) : list registry_error :=
  if bad then [error] else [].

Definition _validate_field_types (entry : claims) (label : string) : list registry_error :=
  complain (λ key, let v := get_key key entry in negb (is_null v) && negb (is_str v)) (NotAString label) _STRING_FIELDS ++
  complain (λ key, let v := get_key key entry in negb (is_null v) && negb (is_str_or_list v)) (NotStrings label) _LIST_FIELDS.

(** One algorithm name: its canonical spelling, or why it is refused. *)
Definition check_algorithm (label algorithm : string) : registry_error + string :=
  let upper := py_upper algorithm in
  if decide (upper = NONE_ALGORITHM) then inl (NoneAlgorithm label)
  else if decide (upper ∈ HMAC_ALGORITHMS) then inl (SymmetricAlgorithm label algorithm)
  else match canonical_algorithm upper with
       | None => inl (UnknownAlgorithm label algorithm)
       | Some canonical => inr canonical
       end.

(** The loop over the names: canonical names and errors, in order. *)
Definition check_algorithms (label : string) (raw : list string) : list string * list registry_error :=
  let checked := check_algorithm label <$> raw in
  (omap (λ r, match r with inr a => Some a | inl _ => None end) checked,
   omap (λ r, match r with inl e => Some e | inr _ => None end) checked).

Definition _validate_algorithms (value : json) (label : string) : list string * list registry_error :=
  match value with
  | JNull => (DEFAULT_ALGORITHMS, [])
  | _ =>
      let items := match value with JArr l => l | _ => [value] end in
      if existsb (λ item, negb (is_str item)) items then (DEFAULT_ALGORITHMS, [AlgorithmsNotStrings label])
      else
        let raw := _as_tuple value in
        if decide (raw = []) then (DEFAULT_ALGORITHMS, [NoAlgorithm label])
        else
          let '(algorithms, errors) := check_algorithms label raw in
          if decide (errors = []) then (algorithms, []) else (DEFAULT_ALGORITHMS, errors)
  end.

Definition _validate_admin_source (admin_source : json) (label : string) : list registry_error :=
  match admin_source with
  | JStr "scim" => [ScimAdminSource label]
  | _ => complain_if (negb (json_in admin_source ADMIN_SOURCES)) (UnknownValue label "admin_source")
  end.

(** ** [_validate] *)

Section validate.
Context `{JsonLoads}.

(** [saml_extra]: whether a SAML implementation is importable. *)
Variable saml_extra : bool.

Definition _validate_kubernetes (entry : claims) (label : string) : list registry_error :=
  let has key := json_truthy (get_key key entry) in
  let allowlist := _as_tuple (get_key "namespace_allowlist" entry) in
  complain_if (negb (has "discovery_url" || has "jwks_inline" || has "jwks_uri" || has "in_cluster")) (NoKeySource label) ++
  complain_if (has "jwks_inline" && match load_inline_jwks (get_key "jwks_inline" entry) with Ok _ => false | Raise _ => true end)
    (InvalidInlineJwks label) ++
  complain_if (bool_decide (allowlist = [])) (FieldRequired label "namespace_allowlist") ++
  complain (λ namespace, negb (valid_label namespace)) (NamespaceNeverMatches label) allowlist.

Definition check_interactive (entry : claims) (provider_type : json) (label : string) : list registry_error :=
  let interactive_default := interactive_by_default provider_type in
  match get_or (JBool interactive_default) "interactive" entry with
  | JBool interactive => complain_if (interactive && negb interactive_default) (NoBrowserFlow label)
  | _ => [InteractiveNotBool label]
  end.

Definition check_token_provider (entry : claims) (provider_type : json) (label : string) : list registry_error :=
  if json_in provider_type TOKEN_PROVIDER_TYPES then
    complain_if (bool_decide (text_of (get_key "issuer" entry) = None)) (FieldRequired label "issuer") ++
    (if json_in provider_type ["k8s"] then _validate_kubernetes entry label
     else complain (λ field, json_truthy (get_key field entry)) (OnlyForKubernetes label) KUBERNETES_ONLY_FIELDS) ++
    complain_if (json_in provider_type ["oidc"] && bool_decide (text_of (get_key "discovery_url" entry) = None))
      (FieldRequired label "discovery_url")
  else [].

(** The errors of an entry whose fields have the right types, in the order the
    checks run. *)
Definition entry_errors (entry : claims) (label : string) : list registry_error :=
  let provider_type := get_or (JStr "oidc") "type" entry in
  let one_of_names key default names :=
    complain_if (negb (json_in (get_or (JStr default) key entry) names)) (UnknownValue label key) in
  let identity_binding := get_or (JStr "subject") "identity_binding" entry in
  complain_if (negb (json_in provider_type PROVIDER_TYPES)) (UnknownValue label "type") ++
  one_of_names "provisioning" "jit" PROVISIONING_MODES ++
  one_of_names "group_sync" "every_login" GROUP_SYNC_MODES ++
  one_of_names "group_sync_mode" "authoritative" GROUP_SYNC_STRATEGIES ++
  _validate_admin_source (get_or (JStr "claims") "admin_source" entry) label ++
  complain_if (negb (json_in identity_binding IDENTITY_BINDINGS)) (UnknownValue label "identity_binding") ++
  check_interactive entry provider_type label ++
  complain_if (json_in identity_binding ["email"] && bool_decide (_as_tuple (get_key "allowed_email_domains" entry) = []))
    (EmailWithoutDomains label) ++
  (_validate_algorithms (get_key "allowed_algorithms" entry) label).2 ++
  complain_if (bool_decide (text_of (get_key "audience" entry) = None)) (FieldRequired label "audience") ++
  check_token_provider entry provider_type label ++
  complain_if (json_in provider_type ["saml"] && negb saml_extra) (SamlExtraMissing label).

(** [value.strip() if isinstance(value, str) else None] *)
Definition stripped (value : json) : option string :=
  match value with JStr s => Some (py_strip s) | _ => None end.
(** The string of a value already known to be one. *)
Definition known_str (value : json) : string := match value with JStr s => s | _ => "" end.

(** The provider of an entry without errors. *)
Definition provider_of (entry : claims) (provider_id : string) : ProviderConfig :=
  let provider_type := get_or (JStr "oidc") "type" entry in
  let text key default := known_str (get_or (JStr default) key entry) in
  {| pr_id := provider_id;
     pr_type := known_str provider_type;
     pr_display_name := or_default (match get_key "display_name" entry with JStr s => Some s | _ => None end) provider_id;
     provisioning := text "provisioning" "jit";
     group_sync := text "group_sync" "every_login";
     group_sync_mode := text "group_sync_mode" "authoritative";
     admin_source := text "admin_source" (if decide (provider_id = DEFAULT_PROVIDER_ID) then "claims" else "none");
     identity_binding := text "identity_binding" "subject";
     interactive := json_truthy (get_or (JBool (interactive_by_default provider_type)) "interactive" entry);
     allowed_email_domains := _as_tuple (get_key "allowed_email_domains" entry);
     allowed_algorithms := (_validate_algorithms (get_key "allowed_algorithms" entry) provider_id).1;
     audience := stripped (get_key "audience" entry);
     issuer := stripped (get_key "issuer" entry);
     discovery_url := stripped (get_key "discovery_url" entry);
     client_id := stripped (get_key "client_id" entry);
     jwks_inline := match get_key "jwks_inline" entry with JStr s => Some (JStr s) | JObj o => Some (JObj o) | _ => None end;
     jwks_uri := text_of (get_key "jwks_uri" entry);
     ca_bundle_path := text_of (get_key "ca_bundle_path" entry);
     in_cluster := json_truthy (get_or (JBool false) "in_cluster" entry);
     namespace_allowlist := _as_tuple (get_key "namespace_allowlist" entry) |}.

Definition _validate (entry : claims) (index : nat) (seen_ids : list string) : option ProviderConfig * list registry_error :=
  match text_of (get_key "id" entry) with
  | None => (None, [IdRequired index])
  | Some provider_id =>
      if decide (provider_id ∈ seen_ids) then (None, [DuplicateId provider_id])
      else match _validate_field_types entry provider_id with
           | [] => match entry_errors entry provider_id with
                   | [] => (Some (provider_of entry provider_id), [])
                   | errors => (None, errors)
                   end
           | type_errors => (None, type_errors)
           end
  end.

(** ** The whole payload *)

(** [bool(value.strip())] for a string; anything else but [None] is present. *)
Definition _is_present (value : json) : bool :=
  match value with
  | JNull => false
  | JStr s => negb (String.eqb (py_strip s) "")
  | _ => true
  end.

(** The objects of the array, and one error per item that is none. *)
Fixpoint objects_of (origin : string) (index : nat) (parsed : list json) : list claims * list registry_error :=
  match parsed with
  | [] => ([], [])
  | item :: parsed =>
      let '(entries, errors) := objects_of origin (S index) parsed in
      match item with
      | JObj fields => (dict_of fields :: entries, errors)
      | _ => (entries, NotAnObject origin index :: errors)
      end
  end.

Definition _parse_entries (raw : json) (origin : string) : list claims * list registry_error :=
  match (match raw with JStr text => json_loads text | _ => Some raw end) with
  | None => ([], [NotParsed origin])
  | Some parsed =>
      match (match parsed with JObj fields => get_or parsed "providers" (dict_of fields) | _ => parsed end) with
      | JArr items => objects_of origin 0 items
      | _ => ([], [NotAnArray origin])
      end
  end.

(** The flat [OIDC_*] variables. *)
Record FlatConfig := MkFlat {
  OIDC_PROVIDER_DISPLAY_NAME : option string;
  OIDC_AUDIENCE : option string;
  OIDC_ISSUER : option string;
  OIDC_DISCOVERY_URL : option string;
  OIDC_CLIENT_ID : option string;
}.

Definition _legacy_providers (app_config : FlatConfig) : list ProviderConfig :=
  [{| pr_id := DEFAULT_PROVIDER_ID;
      pr_type := "oidc";
      pr_display_name := or_default (OIDC_PROVIDER_DISPLAY_NAME app_config) DEFAULT_PROVIDER_ID;
      provisioning := "jit";
      group_sync := "every_login";
      group_sync_mode := "authoritative";
      admin_source := "claims";
      identity_binding := "subject";
      interactive := true;
      allowed_email_domains := [];
      allowed_algorithms := ASYMMETRIC_ALGORITHMS;
      audience := audience ← OIDC_AUDIENCE app_config; text_of (JStr audience);
      issuer := OIDC_ISSUER app_config;
      discovery_url := OIDC_DISCOVERY_URL app_config;
      client_id := OIDC_CLIENT_ID app_config;
      jwks_inline := None;
      jwks_uri := None;
      ca_bundle_path := None;
      in_cluster := false;
      namespace_allowlist := [] |}].

(** The loop of [_reject_duplicate_issuers]: [seen] maps an issuer to the id of
    the provider that claimed it. *)
Fixpoint keep_first_issuers (seen : gmap string string) (ps : list ProviderConfig) : list ProviderConfig * list registry_error :=
  match ps with
  | [] => ([], [])
  | p :: ps =>
      match nonempty (issuer p) with
      | None => let '(kept, errors) := keep_first_issuers seen ps in (p :: kept, errors)
      | Some i =>
          match seen !! i with
          | Some claimed_by => let '(kept, errors) := keep_first_issuers seen ps in (kept, DuplicateIssuer (pr_id p) claimed_by :: errors)
          | None => let '(kept, errors) := keep_first_issuers (<[i := pr_id p]> seen) ps in (p :: kept, errors)
          end
      end
  end.
Definition _reject_duplicate_issuers (ps : list ProviderConfig) : list ProviderConfig * list registry_error :=
  keep_first_issuers ∅ ps.

(** The ids counted in the first pass, blank ones left out. *)
Definition entry_id (entry : claims) : option string := text_of (get_key "id" entry).
Definition duplicate_ids (entries : list claims) : list string :=
  let ids := omap entry_id entries in filter (λ i, (1 < length (filter (λ j, j = i) ids))%nat) ids.

(** The second pass: the kept providers, in order, and the errors. *)
Fixpoint validate_entries (duplicates : list string) (seen_ids : list string) (index : nat) (entries : list claims)
    : list ProviderConfig * list registry_error :=
  match entries with
  | [] => ([], [])
  | entry :: entries =>
      match (match entry_id entry with Some i => if decide (i ∈ duplicates) then Some i else None | None => None end) with
      | Some i =>
          let '(ps, errors) := validate_entries duplicates (if decide (i ∈ seen_ids) then seen_ids else i :: seen_ids) (S index) entries in
          (ps, complain_if (bool_decide (i ∉ seen_ids)) (DuplicateId i) ++ errors)
      | None =>
          match _validate entry index seen_ids with
          | (None, entry_errors) =>
              let '(ps, errors) := validate_entries duplicates seen_ids (S index) entries in (ps, entry_errors ++ errors)
          | (Some provider, _) =>
              let '(ps, errors) := validate_entries duplicates (pr_id provider :: seen_ids) (S index) entries in (provider :: ps, errors)
          end
      end
  end.

Definition registry_of_entries (entries : list claims) (parse_errors : list registry_error) (source : string) : RegistryLoadResult :=
  let '(ps, errors) := validate_entries (duplicate_ids entries) [] 0 entries in
  let '(kept, issuer_errors) := _reject_duplicate_issuers ps in
  MkResult kept (parse_errors ++ errors ++ issuer_errors) source.

Definition registry_of_raw (raw : json) (source origin : string) (app_config : FlatConfig) : RegistryLoadResult :=
  let '(entries, errors) := _parse_entries raw origin in
  if decide (entries = [] ∧ errors ≠ []) then MkResult (_legacy_providers app_config) (errors ++ [FallingBack origin]) "legacy"
  else registry_of_entries entries errors source.

(** [config_manager.get] of the two keys, and the file as it reads. *)
Definition build_provider_registry (get : string → json) (read_file : string → option string) (app_config : FlatConfig) : RegistryLoadResult :=
  let raw := get "AUTH_PROVIDERS" in
  if _is_present raw then
    match raw with
    | JStr _ | JArr _ | JObj _ => registry_of_raw raw "env" "AUTH_PROVIDERS" app_config
    | _ => MkResult (_legacy_providers app_config) [WrongShape "AUTH_PROVIDERS"] "legacy"
    end
  else match text_of (get "AUTH_PROVIDERS_FILE") with
       | None => MkResult (_legacy_providers app_config) [] "legacy"
       | Some path =>
           match read_file path with
           | None => MkResult (_legacy_providers app_config) [Unreadable path] "legacy"
           | Some text => registry_of_raw (JStr text) "file" "AUTH_PROVIDERS_FILE" app_config
           end
       end.
End validate.
