(* ===== verification/RegistryFacts.v ===== *)
(** * Every provider of the registry is well formed

    What an entry that validates guarantees, and that the registry as a whole
    names each provider and each issuer once. *)
From S2P Require Import Prelude PyStrings Json Regex Kubernetes ProviderRegistry.

(** ** What the rest of the code relies on *)

Record well_formed (p : ProviderConfig) : Prop := {
  wf_id : pr_id p ≠ "" ∧ py_strip (pr_id p) = pr_id p;
  wf_type : pr_type p ∈ PROVIDER_TYPES;
  wf_provisioning : provisioning p ∈ PROVISIONING_MODES;
  wf_group_sync : group_sync p ∈ GROUP_SYNC_MODES;
  wf_group_sync_mode : group_sync_mode p ∈ GROUP_SYNC_STRATEGIES;
  wf_admin_source : admin_source p ∈ ADMIN_SOURCES;
  wf_identity_binding : identity_binding p ∈ IDENTITY_BINDINGS;
  wf_email : identity_binding p = "email" → allowed_email_domains p ≠ [];
  wf_algorithms : allowed_algorithms p ≠ [] ∧ allowed_algorithms p ⊆ ASYMMETRIC_ALGORITHMS;
  wf_audience : truthy (audience p) = true;
  wf_issuer : pr_type p ∈ TOKEN_PROVIDER_TYPES → truthy (issuer p) = true;
  wf_oidc : pr_type p = "oidc" →
    truthy (discovery_url p) = true ∧ jwks_uri p = None ∧ ca_bundle_path p = None ∧
    in_cluster p = false ∧ namespace_allowlist p = [] ∧
    match jwks_inline p with Some v => json_truthy v = false | None => True end;
  wf_k8s : pr_type p = "k8s" →
    interactive p = false ∧ namespace_allowlist p ≠ [] ∧
    Forall (λ namespace, valid_label namespace = true) (namespace_allowlist p);
}.

(** ** Error lists that are empty *)

Lemma complain_if_nil b e : complain_if b e = [] ↔ b = false.
Proof. by destruct b. Qed.

Lemma complain_nil {A} (bad : A → bool) error keys : complain bad error keys = [] ↔ ∀ key, key ∈ keys → bad key = false.
Proof.
  assert (∀ l, error <$> l = [] ↔ l = []) as Hnil by (by intros []).
  unfold complain. rewrite Hnil. induction keys as [|k keys IH]; [set_solver|].
  rewrite filter_cons. case_decide as E.
  - split; [done|]. intros Hall. rewrite Hall in E; [done|left].
  - rewrite IH. apply not_true_is_false in E. set_solver.
Qed.

Lemma json_in_known v names : negb (json_in v names) = false → known_str v ∈ names ∧ v = JStr (known_str v).
Proof. rewrite negb_false_iff. by intros (s&->&?)%json_in_true. Qed.

Lemma in_one v s : json_in v [s] = true ↔ v = JStr s.
Proof. rewrite json_in_true. setoid_rewrite list_elem_of_singleton. naive_solver. Qed.

Lemma stripped_truthy v : text_of v ≠ None → truthy (stripped v) = true.
Proof. destruct v; try done. cbn. case_decide as E; [done|]. intros _. by apply negb_true_iff, String.eqb_neq. Qed.

(** ** Algorithms *)

Lemma check_algorithm_inr label algorithm canonical :
  check_algorithm label algorithm = inr canonical → canonical ∈ ASYMMETRIC_ALGORITHMS.
Proof.
  unfold check_algorithm. case_decide; [done|]. case_decide as Hmac; [done|].
  destruct (canonical_algorithm _) as [c|] eqn:E; [|done]. intros [= <-].
  unfold canonical_algorithm in E. apply head_Some_elem_of, list_elem_of_filter in E as [Hup Hin].
  apply elem_of_app in Hin as [?|Hin]; [done|]. exfalso. apply Hmac. rewrite -Hup.
  repeat (apply elem_of_cons in Hin as [->|Hin]; [vm_compute; set_solver|]). by apply not_elem_of_nil in Hin.
Qed.

Lemma validate_algorithms_ok value label algorithms :
  _validate_algorithms value label = (algorithms, []) → algorithms ≠ [] ∧ algorithms ⊆ ASYMMETRIC_ALGORITHMS.
Proof.
  assert (DEFAULT_ALGORITHMS ≠ [] ∧ DEFAULT_ALGORITHMS ⊆ ASYMMETRIC_ALGORITHMS) as Hdefault.
  { split; [done|]. unfold DEFAULT_ALGORITHMS, ASYMMETRIC_ALGORITHMS. set_solver. }
  unfold _validate_algorithms. destruct value; [by intros [= <-]|..].
  all: destruct (existsb _ _); [done|]; case_decide as Hraw; [done|].
  all: unfold check_algorithms; set (raw := _as_tuple _) in *; clearbody raw.
  all: case_decide as Herr; [|by intros [= _ ?]]; intros [= <-]; clear Hdefault.
  all: split; [|intros a (r&Hr&Ha)%list_elem_of_omap; destruct r; [done|]; injection Ha as ->;
    apply list_elem_of_fmap in Hr as (x&Hx&_); exact (check_algorithm_inr _ _ _ (eq_sym Hx))].
  all: destruct raw as [|x raw]; [done|]; cbn in *; by destruct (check_algorithm label x).
Qed.

(** ** One entry *)

Section entries.
Context `{JsonLoads}.
Variable saml_extra : bool.

Lemma admin_source_known entry label provider_id :
  _validate_admin_source (get_or (JStr "claims") "admin_source" entry) label = [] →
  admin_source (provider_of entry provider_id) ∈ ADMIN_SOURCES.
Proof.
  cbn. unfold get_or. destruct (entry !! "admin_source") as [v|]; intros Hv; [|by case_decide; vm_compute; set_solver].
  unfold _validate_admin_source in Hv.
  assert (negb (json_in v ADMIN_SOURCES) = false) as [? _]%json_in_known; [|done].
  apply (complain_if_nil _ (UnknownValue label "admin_source")). destruct v; try done. repeat case_match; done.
Qed.

Lemma type_of_provider entry provider_id ty :
  pr_type (provider_of entry provider_id) = ty → json_in (get_or (JStr "oidc") "type" entry) PROVIDER_TYPES = true →
  get_or (JStr "oidc") "type" entry = JStr ty.
Proof. cbn. intros <- (s&->&_)%json_in_true. done. Qed.

Lemma kubernetes_entry entry label :
  _validate_kubernetes entry label = [] →
  _as_tuple (get_key "namespace_allowlist" entry) ≠ [] ∧
  Forall (λ namespace, valid_label namespace = true) (_as_tuple (get_key "namespace_allowlist" entry)).
Proof.
  unfold _validate_kubernetes. intros (_&(_&(Hne&Hall)%app_nil)%app_nil)%app_nil.
  apply complain_if_nil, bool_decide_eq_false in Hne. split; [done|]. apply Forall_forall. intros n Hn.
  by apply negb_false_iff, (proj1 (complain_nil _ _ _) Hall).
Qed.

Lemma falsy_text v : json_truthy v = false → text_of v = None.
Proof. destruct v; try done. cbn. intros ->%negb_false_iff%String.eqb_eq. reflexivity. Qed.

Lemma falsy_tuple v : json_truthy v = false → _as_tuple v = [].
Proof. destruct v as [| | |s|[]|]; try done. cbn. by intros ->%negb_false_iff%String.eqb_eq. Qed.

(** An OIDC entry carries none of the fields that choose a cluster's keys. *)
Lemma oidc_entry entry provider_id label :
  complain (λ field, json_truthy (get_key field entry)) (OnlyForKubernetes label) KUBERNETES_ONLY_FIELDS = [] →
  let p := provider_of entry provider_id in
  jwks_uri p = None ∧ ca_bundle_path p = None ∧ in_cluster p = false ∧ namespace_allowlist p = [] ∧
  match jwks_inline p with Some v => json_truthy v = false | None => True end.
Proof.
  rewrite complain_nil. intros Hall.
  assert (∀ field, field ∈ KUBERNETES_ONLY_FIELDS → json_truthy (get_key field entry) = false) as Hf by done. clear Hall.
  cbn. repeat split.
  - apply falsy_text, Hf. vm_compute; set_solver.
  - apply falsy_text, Hf. vm_compute; set_solver.
  - specialize (Hf "in_cluster" ltac:(vm_compute; set_solver)). unfold get_key, get_or in *. by destruct (entry !! _).
  - apply falsy_tuple, Hf. vm_compute; set_solver.
  - specialize (Hf "jwks_inline" ltac:(vm_compute; set_solver)). by destruct (get_key "jwks_inline" entry).
Qed.

Lemma accepted_entry_well_formed entry provider_id :
  provider_id ≠ "" → py_strip provider_id = provider_id → entry_errors saml_extra entry provider_id = [] →
  well_formed (provider_of entry provider_id).
Proof.
  intros Hne Hstrip Herr. unfold entry_errors in Herr. cbv zeta in Herr.
  apply app_nil in Herr as [Hty Herr]. apply app_nil in Herr as [Hpr Herr]. apply app_nil in Herr as [Hgs Herr].
  apply app_nil in Herr as [Hgm Herr]. apply app_nil in Herr as [Has Herr]. apply app_nil in Herr as [Hib Herr].
  apply app_nil in Herr as [Hin Herr]. apply app_nil in Herr as [Hem Herr]. apply app_nil in Herr as [Hal Herr].
  apply app_nil in Herr as [Hau Herr]. apply app_nil in Herr as [Htok _].
  apply complain_if_nil in Hty, Hpr, Hgs, Hgm, Hib, Hem, Hau.
  pose proof (json_in_known _ _ Hty) as [Htype Hty']. apply negb_false_iff in Hty.
  assert (∀ ty, pr_type (provider_of entry provider_id) = ty → get_or (JStr "oidc") "type" entry = JStr ty) as Hof
    by (intros ty Heq; exact (type_of_provider _ _ _ Heq Hty)).
  unfold check_token_provider in Htok.
  split; try done.
  - exact (proj1 (json_in_known _ _ Hpr)).
  - exact (proj1 (json_in_known _ _ Hgs)).
  - exact (proj1 (json_in_known _ _ Hgm)).
  - exact (admin_source_known _ _ _ Has).
  - exact (proj1 (json_in_known _ _ Hib)).
  - intros Hemail. cbn in Hemail |- *. apply json_in_known in Hib as [_ Hib]. rewrite Hemail in Hib.
    rewrite Hib in Hem. cbn in Hem. by apply bool_decide_eq_false in Hem.
  - cbn. destruct (_validate_algorithms (get_key "allowed_algorithms" entry) provider_id) as [algs errs] eqn:E.
    cbn in Hal. subst errs. by apply validate_algorithms_ok in E.
  - apply stripped_truthy. by apply bool_decide_eq_false in Hau.
  - intros Htt. assert (json_in (get_or (JStr "oidc") "type" entry) TOKEN_PROVIDER_TYPES = true) as Ht.
    { rewrite Hty'. by apply bool_decide_eq_true. }
    rewrite Ht in Htok.
    apply app_nil in Htok as [Hiss _]. apply stripped_truthy. by apply complain_if_nil, bool_decide_eq_false in Hiss.
  - intros Hoidc. rewrite (Hof _ Hoidc) /= in Htok. apply app_nil in Htok as [_ [Hk Hd]%app_nil].
    split; [apply stripped_truthy; by apply complain_if_nil, bool_decide_eq_false in Hd|]. exact (oidc_entry _ _ _ Hk).
  - intros Hk8s. rewrite (Hof _ Hk8s) /= in Htok. apply app_nil in Htok as [_ [Hk _]%app_nil].
    split; [|exact (kubernetes_entry _ _ Hk)]. unfold check_interactive in Hin. cbn -[interactive_by_default]. rewrite (Hof _ Hk8s) in Hin |- *.
    change (interactive_by_default (JStr "k8s")) with false in *.
    destruct (get_or (JBool false) "interactive" entry); try done. by apply complain_if_nil in Hin; destruct b.
Qed.

Lemma validated_well_formed entry index seen p errs :
  _validate saml_extra entry index seen = (Some p, errs) →
  well_formed p ∧ entry_id entry = Some (pr_id p) ∧ pr_id p ∉ seen.
Proof.
  unfold _validate, entry_id. destruct (text_of _) as [i|] eqn:Hid; [|done].
  case_decide as Hseen; [done|]. destruct (_validate_field_types entry i); [|done].
  destruct (entry_errors saml_extra entry i) eqn:E; [|done]. intros [= <- _].
  pose proof Hid as (raw&_&_&Hne)%text_of_Some. apply text_of_stripped in Hid as Hs.
  split; [by apply accepted_entry_well_formed|]. done.
Qed.

(** ** The registry *)

Definition issuers (ps : list ProviderConfig) : list string := omap (λ p, nonempty (issuer p)) ps.

(** Every provider accepted by the second pass is well formed, and its id is in
    none of the entries before it. *)
Lemma validate_entries_spec duplicates entries seen index ps errs :
  validate_entries saml_extra duplicates seen index entries = (ps, errs) →
  Forall well_formed ps ∧ NoDup (pr_id <$> ps) ∧ Forall (λ p, pr_id p ∉ seen) ps.
Proof.
  revert seen index ps errs. induction entries as [|entry entries IH]; intros seen index ps errs; cbn [validate_entries].
  { intros [= <- _]. repeat constructor. }
  destruct (match entry_id entry with Some i => _ | None => _ end) as [i|].
  - destruct (validate_entries saml_extra duplicates _ _ entries) as [ps' errs'] eqn:E. intros [= <- _].
    apply IH in E as (Hwf&Hnd&Hseen). split; [done|]. split; [done|].
    eapply Forall_impl; [exact Hseen|]. intros p. cbn. case_decide; set_solver.
  - destruct (_validate saml_extra entry index seen) as [[p|] entry_errs] eqn:Ev.
    + destruct (validate_entries saml_extra duplicates _ _ entries) as [ps' errs'] eqn:E. intros [= <- _].
      apply IH in E as (Hwf&Hnd&Hseen). apply validated_well_formed in Ev as (Hp&_&Hnew).
      split; [by constructor|]. split.
      * cbn. constructor; [|done]. intros (q&Heq&Hq)%list_elem_of_fmap. rewrite Forall_forall in Hseen.
        apply (Hseen q Hq). rewrite -Heq. left.
      * constructor; [done|]. eapply Forall_impl; [exact Hseen|]. cbn. set_solver.
    + destruct (validate_entries saml_extra duplicates _ _ entries) as [ps' errs'] eqn:E. intros [= <- _].
      exact (IH _ _ _ _ E).
Qed.

Lemma keep_first_issuers_spec seen ps kept errs :
  keep_first_issuers seen ps = (kept, errs) →
  kept `sublist_of` ps ∧ NoDup (issuers kept) ∧ Forall (λ i, seen !! i = None) (issuers kept).
Proof.
  revert seen kept errs. induction ps as [|p ps IH]; intros seen kept errs; cbn [keep_first_issuers].
  { intros [= <- _]. repeat constructor. }
  destruct (nonempty (issuer p)) as [i|] eqn:Hi.
  - destruct (seen !! i) as [claimed|] eqn:Hseen.
    + destruct (keep_first_issuers seen ps) as [kept' errs'] eqn:E. intros [= <- _].
      apply IH in E as (Hsub&?&?). split; [by constructor|done].
    + destruct (keep_first_issuers _ ps) as [kept' errs'] eqn:E. intros [= <- _].
      apply IH in E as (Hsub&Hnd&Hnew). split; [by constructor|].
      unfold issuers in *. cbn. rewrite Hi. rewrite Forall_forall in Hnew. split.
      * constructor; [|done]. intros Hin. specialize (Hnew _ Hin). by rewrite lookup_insert_eq in Hnew.
      * constructor; [done|]. apply Forall_forall. intros j Hj. specialize (Hnew _ Hj).
        by apply lookup_insert_None in Hnew as [].
  - destruct (keep_first_issuers seen ps) as [kept' errs'] eqn:E. intros [= <- _].
    apply IH in E as (Hsub&?&?). split; [by constructor|]. unfold issuers in *. cbn. by rewrite Hi.
Qed.

Definition registry_well_formed (ps : list ProviderConfig) : Prop :=
  Forall well_formed ps ∧ NoDup (pr_id <$> ps) ∧ NoDup (issuers ps).

Lemma registry_of_entries_well_formed entries parse_errors src :
  registry_well_formed (providers (registry_of_entries saml_extra entries parse_errors src)).
Proof.
  unfold registry_of_entries. destruct (validate_entries _ _ _ _ _) as [ps errs] eqn:E.
  destruct (_reject_duplicate_issuers ps) as [kept issuer_errs] eqn:Ek. cbn.
  apply validate_entries_spec in E as (Hwf&Hnd&_). apply keep_first_issuers_spec in Ek as (Hsub&Hiss&_).
  split; [|split; [|done]].
  - rewrite Forall_forall in Hwf. apply Forall_forall. intros p Hp. exact (Hwf p (elem_of_sublist _ _ _ Hp Hsub)).
  - refine (sublist_NoDup _ _ Hnd _). clear -Hsub. induction Hsub; by constructor.
Qed.

Lemma registry_of_raw_cases raw src origin app_config :
  let r := registry_of_raw saml_extra raw src origin app_config in
  (source r = "legacy" ∧ providers r = _legacy_providers app_config) ∨ registry_well_formed (providers r).
Proof.
  unfold registry_of_raw. destruct (_parse_entries raw origin) as [entries errs]. case_decide; [by left|].
  right. apply registry_of_entries_well_formed.
Qed.

(** C29: Whatever is configured, the registry is either the single provider of
    the flat variables, or only holds well-formed providers (known modes,
    asymmetric algorithms, a pinned audience and issuer, a key source of its own
    for OIDC, a namespace allowlist of valid labels for Kubernetes), each id
    once and each issuer once. *)
Theorem registry_providers_are_well_formed get read_file app_config :
  let r := build_provider_registry saml_extra get read_file app_config in
  (source r = "legacy" ∧ providers r = _legacy_providers app_config) ∨ registry_well_formed (providers r).
Proof.
  unfold build_provider_registry. destruct (_is_present (get "AUTH_PROVIDERS")).
  - destruct (get "AUTH_PROVIDERS"); try apply registry_of_raw_cases; by left.
  - destruct (text_of _); [|by left]. destruct (read_file _); [|by left]. apply registry_of_raw_cases.
Qed.
End entries.

(** ** A Kubernetes provider without keys of its own

    The check for a key source looks at the raw fields: [in_cluster] alone, or a
    blank [jwks_uri], passes it, and leaves a provider that names no keys. *)
Definition cluster_entry : claims :=
  list_to_map [("id", JStr "cluster"); ("type", JStr "k8s"); ("audience", JStr "mlflow");
               ("issuer", JStr "https://kubernetes.default.svc"); ("in_cluster", JBool true);
               ("namespace_allowlist", JArr [JStr "team-a"])].
Definition keyless (p : ProviderConfig) : bool :=
  bool_decide (jwks_uri p = None) && bool_decide (discovery_url p = None) && match jwks_inline p with None => true | Some _ => false end.
Lemma a_cluster_provider_may_name_no_keys `{JsonLoads} saml_extra :
  ∃ p, _validate saml_extra cluster_entry 0 [] = (Some p, []) ∧ keyless p = true.
Proof. eexists. split; vm_compute; reflexivity. Qed.
