(* ===== verification/TokenVerification.v ===== *)
(** * Validating a bearer token ([auth.py])

    The provider is chosen by the token's unverified issuer; keys, algorithms,
    issuer and audience are that provider's alone. JWT verification, HTTP and the
    decoding of base64 are parameters. *)
From S2P Require Import Prelude PyStrings Json Regex Kubernetes ProviderRegistry Cache.
From Stdlib Require Import Ascii.

(** ["=" * (-len(payload) % 4)] *)
Definition padding (payload : string) : string :=
  match (String.length payload mod 4)%nat with 0%nat => "" | 1%nat => "===" | 2%nat => "==" | _ => "=" end.

(** ** What it calls *)

(** [base64] and [hashlib] of the standard library; [None] where decoding
    raises. *)
Class Encodings := {
  urlsafe_b64decode : string → option string;
  b64decode_utf8 : string → option string;
  jwks_digest : json → string;
}.

(** TLS verification of a request: [verify=True/False], or a CA bundle. *)
Inductive tls := VerifyFlag (verify : bool) | VerifyWith (ca_bundle : string).
Record http_get_request := MkGet { get_url : string; get_verify : tls; get_auth : option string }.

(** The network, by the number of the request: [requests.get(...).json()]. *)
Class Network := { http_get : nat → http_get_request → outcome json }.

(** The constraints [_claims_options_for] builds: required values of [aud] and
    [iss]. *)
Record claims_options := MkOptions { opt_aud : option string; opt_iss : option string }.

(** [claims["iss"] == value]; [aud] may be a list that holds the value. *)
Definition iss_is (value : string) (c : claims) : Prop := c !! "iss" = Some (JStr value).
Definition aud_holds (value : string) (c : claims) : Prop :=
  match c !! "aud" with
  | Some (JStr a) => a = value
  | Some (JArr l) => JStr value ∈ l
  | _ => False
  end.

Definition BadSignatureError : exc := OtherException "BadSignatureError".

(** authlib's [JsonWebToken(algorithms).decode(token, jwks)] and
    [payload.validate()]. [signed_by jwks algorithm token c]: the token carries
    [c] under a signature of that algorithm that a key of the set verifies. *)
Class JwtLib := {
  signed_by : json → string → string → claims → Prop;
  jwt_decode : list string → string → json → outcome claims;
  jwt_validate : option claims_options → claims → outcome unit;
  jwt_decode_signed algorithms token jwks c :
    jwt_decode algorithms token jwks = Ok c → ∃ algorithm, algorithm ∈ algorithms ∧ signed_by jwks algorithm token c;
  jwt_validate_essential options c :
    jwt_validate (Some options) c = Ok tt →
    (∀ a, opt_aud options = Some a → aud_holds a c) ∧ (∀ i, opt_iss options = Some i → iss_is i c);
}.

(** The settings this module reads. *)
Class TokenConfig := {
  AUTH_PROVIDERS : list ProviderConfig;
  DISCOVERY_URL : option string;
  OIDC_VERIFY_SSL : bool;
}.

(** ** The JWKS caches *)

Inductive provider_key :=
  | FetchedFrom (provider_id source : string)
  | InlineKeys (provider_id digest : string).

#[export] Instance provider_key_eq_dec : EqDecision provider_key.
Proof. solve_decision. Defined.
#[export] Instance provider_key_countable : Countable provider_key.
Proof.
  refine (inj_countable' (λ k, match k with FetchedFrom p s => inl (p, s) | InlineKeys p d => inr (p, d) end)
    (λ k, match k with inl (p, s) => FetchedFrom p s | inr (p, d) => InlineKeys p d end) _). by intros [].
Defined.

(** [requests_made] counts the requests sent: the position in time. *)
Record token_state `{TTLCache unit json, TTLCache provider_key json} := TokenState {
  _jwks_cache : ttl unit json;
  _provider_jwks_cache : ttl provider_key json;
  requests_made : nat;
}.
Arguments TokenState {_ _} _ _ _.

Section tokens.
Context `{JsonLoads, Encodings, PodFiles, Network, JwtLib, TokenConfig, TTLCache unit json, TTLCache provider_key json}.

Definition set_jwks_cache (f : ttl unit json → ttl unit json) (s : token_state) : token_state :=
  TokenState (f (_jwks_cache s)) (_provider_jwks_cache s) (requests_made s).
Definition set_provider_jwks_cache (f : ttl provider_key json → ttl provider_key json) (s : token_state) : token_state :=
  TokenState (_jwks_cache s) (f (_provider_jwks_cache s)) (requests_made s).

(** One request: whatever it returns, it has been sent. *)
Definition send (request : http_get_request) : M token_state json := λ s,
  (http_get (requests_made s) request, TokenState (_jwks_cache s) (_provider_jwks_cache s) (S (requests_made s))).

(** ** [_load_jwks] *)

(** The cache [_load_jwks] is given, under the key it is given. *)
Record cache_slot := MkSlot {
  slot_get : token_state → option json;
  slot_set : json → token_state → token_state;
  slot_pop : token_state → token_state;
}.
Definition default_slot : cache_slot :=
  MkSlot (λ s, ttl_get tt (_jwks_cache s)) (λ v, set_jwks_cache (ttl_setitem tt v)) (set_jwks_cache (ttl_pop tt)).
Definition provider_slot (key : provider_key) : cache_slot :=
  MkSlot (λ s, ttl_get key (_provider_jwks_cache s)) (λ v, set_provider_jwks_cache (ttl_setitem key v))
    (set_provider_jwks_cache (ttl_pop key)).

(** [metadata.get("jwks_uri")], which a document that is no object does not
    have. *)
Definition metadata_jwks_uri (metadata : json) : outcome string :=
  match metadata with
  | JObj fields =>
      match get_key "jwks_uri" (dict_of fields) with
      | JStr uri => if decide (uri = "") then Raise ValueError else Ok uri
      | v => if json_truthy v then Raise (OtherException "MissingSchema") else Raise ValueError
      end
  | _ => Raise (OtherException "AttributeError")
  end.

Definition fetch_jwks (url : string) (direct : bool) (verify : tls) (auth_token : option string) : M token_state json :=
  jwks_uri ← (if direct then mret url
              else metadata ← send (MkGet url verify auth_token); lift (metadata_jwks_uri metadata));
  send (MkGet jwks_uri verify auth_token).

Definition _load_jwks (url : string) (slot : cache_slot) (force_refresh direct : bool) (verify : tls) (auth_token : option string)
    : M token_state json :=
  _ ← (if force_refresh then modify (slot_pop slot) else mret tt);
  cached ← gets (slot_get slot);
  match cached ≫= some_value with
  | Some jwks => mret jwks
  | None =>
      jwks ← fetch_jwks url direct verify auth_token;
      _ ← modify (slot_set slot jwks);
      mret jwks
  end.

Definition _get_oidc_jwks (force_refresh : bool) : M token_state json :=
  match DISCOVERY_URL with
  | None => raise ValueError
  | Some url => _load_jwks url default_slot force_refresh false (VerifyFlag OIDC_VERIFY_SSL) None
  end.

(** ** One provider's keys *)

Definition _verify_for (p : ProviderConfig) : outcome tls :=
  match (if truthy (ca_bundle_path p) then ca_bundle_path p else None) with
  | Some bundle => Ok (VerifyWith bundle)
  | None =>
      if in_cluster p then
        match in_cluster_credentials.2 with Some ca => Ok (VerifyWith ca) | None => Raise ValueError end
      else Ok (VerifyFlag OIDC_VERIFY_SSL)
  end.

Definition _in_cluster_token (p : ProviderConfig) : option string :=
  if in_cluster p then in_cluster_credentials.1 else None.

Definition inline_material (p : ProviderConfig) : option json :=
  v ← jwks_inline p; if json_truthy v then Some v else None.

Definition _get_provider_jwks (p : ProviderConfig) (force_refresh : bool) : M token_state json :=
  match inline_material p with
  | Some material =>
      let slot := provider_slot (InlineKeys (pr_id p) (jwks_digest material)) in
      cached ← gets (slot_get slot);
      match cached ≫= some_value with
      | Some jwks => mret jwks
      | None =>
          parsed ← lift (load_inline_jwks material);
          _ ← modify (slot_set slot parsed);
          mret parsed
      end
  | None =>
      match nonempty (jwks_uri p), nonempty (discovery_url p) with
      | Some uri, _ =>
          verify ← lift (_verify_for p);
          _load_jwks uri (provider_slot (FetchedFrom (pr_id p) uri)) force_refresh true verify (_in_cluster_token p)
      | None, None => _get_oidc_jwks force_refresh
      | None, Some url =>
          verify ← lift (_verify_for p);
          _load_jwks url (provider_slot (FetchedFrom (pr_id p) url)) force_refresh false verify None
      end
  end.

(** ** Choosing the provider *)

(** Every failure reads as no issuer. *)
Definition _unverified_issuer (token : string) : option string :=
  payload ← py_split "." token !! 1%nat;
  decoded ← urlsafe_b64decode (payload +:+ padding payload);
  content ← json_loads decoded;
  match content with
  | JObj fields => match get_key "iss" (dict_of fields) with JStr issuer => Some issuer | _ => None end
  | _ => None
  end.

Definition token_providers : list ProviderConfig := filter (λ p, pr_type p ∈ TOKEN_PROVIDER_TYPES) AUTH_PROVIDERS.

Definition _resolve_provider (token : string) : outcome ProviderConfig :=
  match token_providers with
  | [] => Raise ValueError
  | [p] => Ok p
  | ps =>
      match nonempty (_unverified_issuer token) with
      | None => Raise ValueError
      | Some iss =>
          match filter (λ p, issuer p = Some iss) ps with
          | p :: _ => Ok p
          | [] => Raise ValueError
          end
      end
  end.
Definition resolve_token_provider (token : string) : outcome ProviderConfig := _resolve_provider token.

(** ** Validation *)

Definition _claims_options_for (p : ProviderConfig) : option claims_options :=
  match nonempty (audience p), nonempty (issuer p) with
  | None, None => None
  | aud, iss => Some (MkOptions aud iss)
  end.

Definition _jwt_for (p : ProviderConfig) : outcome (list string) :=
  match filter (λ algorithm, algorithm ∈ ASYMMETRIC_ALGORITHMS) (allowed_algorithms p) with
  | [] => Raise ValueError
  | algorithms => Ok algorithms
  end.

(** Keys, decode, [payload.validate()]. *)
Definition decode_with (p : ProviderConfig) (algorithms : list string) (force_refresh : bool) (token : string) : M token_state claims :=
  jwks ← _get_provider_jwks p force_refresh;
  payload ← lift (jwt_decode algorithms token jwks);
  _ ← lift (jwt_validate (_claims_options_for p) payload);
  mret payload.

(** A bad signature refreshes this provider's keys and retries once. *)
Definition validate_token (token : string) : M token_state claims :=
  p ← lift (_resolve_provider token);
  algorithms ← lift (_jwt_for p);
  catch (decode_with p algorithms false token)
    (λ e, if decide (e = BadSignatureError) then decode_with p algorithms true token else raise e).
End tokens.
