(* ===== verification/TokenFacts.v ===== *)
(** * A validated token satisfies the policy of one provider

    Every key set in the caches came from the source its key names, so the keys
    that verify a token are those of the provider whose issuer it carries. *)
From S2P Require Import Prelude PyStrings Json Regex Kubernetes ProviderRegistry Cache TokenVerification.

(** ** Invariants that failures keep too

    [keeps I m Q]: [m] keeps [I] whether it returns or raises, and what it returns
    satisfies [Q]. *)
Definition keeps {S A} (I : S → Prop) (m : M S A) (Q : A → Prop) : Prop :=
  ∀ s, I s → I (m s).2 ∧ ∀ a, (m s).1 = Ok a → Q a.

Section keeps.
Context {S A B : Type} (I : S → Prop).

Lemma keeps_ret (a : A) (Q : A → Prop) : Q a → keeps I (mret a) Q.
Proof. intros HQ s Hs. split; [done|]. by intros ? [= <-]. Qed.

Lemma keeps_lift (o : outcome A) (Q : A → Prop) : (∀ a, o = Ok a → Q a) → keeps I (lift o) Q.
Proof. intros HQ s Hs. split; [done|]. exact HQ. Qed.

Lemma keeps_raise e (Q : A → Prop) : keeps I (raise e) Q.
Proof. intros s Hs. by split. Qed.

Lemma keeps_bind (m : M S A) (f : A → M S B) (P : A → Prop) (Q : B → Prop) :
  keeps I m P → (∀ a, P a → keeps I (f a) Q) → keeps I (m ≫= f) Q.
Proof.
  intros Hm Hf s Hs. rewrite M_bind_run. destruct (Hm s Hs) as [HI HP].
  destruct (m s) as [[a|e] s1]; cbn in *; [exact (Hf a (HP a eq_refl) s1 HI)|done].
Qed.

Lemma keeps_modify (f : S → S) (Q : unit → Prop) : (∀ s, I s → I (f s)) → Q tt → keeps I (modify f) Q.
Proof. intros Hf HQ s Hs. split; [by apply Hf|]. by intros [] _. Qed.

Lemma keeps_catch (m : M S A) (h : exc → M S A) (Q : A → Prop) :
  keeps I m Q → (∀ e, keeps I (h e) Q) → keeps I (catch m h) Q.
Proof.
  intros Hm Hh s Hs. unfold catch. destruct (Hm s Hs) as [HI HQ].
  destruct (m s) as [[a|e] s1]; [done|]. exact (Hh e s1 HI).
Qed.
End keeps.

Section facts.
Context `{JsonLoads, Encodings, PodFiles, Network, JwtLib, TokenConfig, TTLCache unit json, TTLCache provider_key json}.

(** ** Where a key set comes from *)

(** At some moment, [url] answered with [jwks]: itself, or through the document
    that names the key set. *)
Definition served (url : string) (jwks : json) : Prop :=
  (∃ n verify auth, http_get n (MkGet url verify auth) = Ok jwks) ∨
  (∃ n verify metadata uri m, http_get n (MkGet url verify None) = Ok metadata ∧
    metadata_jwks_uri metadata = Ok uri ∧ http_get m (MkGet uri verify None) = Ok jwks).

Definition inline_served (digest : string) (jwks : json) : Prop :=
  ∃ material, jwks_digest material = digest ∧ load_inline_jwks material = Ok jwks.

Definition default_served (jwks : json) : Prop := ∃ url, DISCOVERY_URL = Some url ∧ served url jwks.

(** The source a provider names for its keys: written into its configuration, at
    a key-set URL, or behind a discovery document. A provider of the flat
    variables, and a cluster that only says [in_cluster], may name none. *)
Inductive key_source := WrittenKeys (digest : string) | KeysBehind (url : string).
Definition own_key_source (p : ProviderConfig) : option key_source :=
  match inline_material p with
  | Some material => Some (WrittenKeys (jwks_digest material))
  | None =>
      match nonempty (jwks_uri p), nonempty (discovery_url p) with
      | Some url, _ => Some (KeysBehind url)
      | None, Some url => Some (KeysBehind url)
      | None, None => None
      end
  end.
Definition comes_from (source : key_source) (jwks : json) : Prop :=
  match source with WrittenKeys digest => inline_served digest jwks | KeysBehind url => served url jwks end.

(** The keys a provider's tokens are verified with: of the source it names, or,
    when it names none, the deployment's. *)
Definition verification_keys (p : ProviderConfig) (jwks : json) : Prop :=
  match own_key_source p with
  | Some source => comes_from source jwks
  | None => default_served jwks
  end.

(** Every cached key set came from the source its key names. *)
Definition jwks_from_their_source (s : token_state) : Prop :=
  (∀ jwks, ttl_get tt (_jwks_cache s) = Some jwks → default_served jwks) ∧
  (∀ provider_id source jwks, ttl_get (FetchedFrom provider_id source) (_provider_jwks_cache s) = Some jwks → served source jwks) ∧
  (∀ provider_id digest jwks, ttl_get (InlineKeys provider_id digest) (_provider_jwks_cache s) = Some jwks → inline_served digest jwks).

Abbreviation inv := jwks_from_their_source.

(** What a slot of the caches may hold. *)
Definition slot_holds (slot : cache_slot) (P : json → Prop) : Prop :=
  (∀ s jwks, inv s → slot_get slot s = Some jwks → P jwks) ∧
  (∀ s jwks, inv s → P jwks → inv (slot_set slot jwks s)) ∧
  (∀ s, inv s → inv (slot_pop slot s)).

Lemma default_slot_holds : slot_holds default_slot default_served.
Proof.
  split; [|split]; cbn.
  - intros s jwks (Hd&_) Hget. by apply Hd.
  - intros s jwks (_&Hrest) HP. split; [|exact Hrest]. intros w Hw%ttl_get_setitem. by subst.
  - intros s (_&Hrest). split; [|exact Hrest]. intros w. cbn. by rewrite ttl_get_pop.
Qed.

(** Entries under other keys are older, those under [key] are the new one. *)
Lemma provider_set key jwks (P : provider_key → json → Prop) (c : ttl provider_key json) :
  (∀ k w, ttl_get k c = Some w → P k w) → P key jwks → ∀ k w, ttl_get k (ttl_setitem key jwks c) = Some w → P k w.
Proof.
  intros Hc HP k w Hw. destruct (decide (key = k)) as [<-|Hne].
  - by apply ttl_get_setitem in Hw as ->.
  - by apply Hc, (ttl_get_setitem_ne key k jwks).
Qed.

Lemma provider_pop key (P : provider_key → json → Prop) (c : ttl provider_key json) :
  (∀ k w, ttl_get k c = Some w → P k w) → ∀ k w, ttl_get k (ttl_pop key c) = Some w → P k w.
Proof. intros Hc k w Hw. by apply Hc, (ttl_get_pop_sub key). Qed.

Definition key_holds (k : provider_key) (jwks : json) : Prop :=
  match k with FetchedFrom _ source => served source jwks | InlineKeys _ digest => inline_served digest jwks end.

Lemma inv_keys s : inv s ↔
  (∀ jwks, ttl_get tt (_jwks_cache s) = Some jwks → default_served jwks) ∧
  (∀ k jwks, ttl_get k (_provider_jwks_cache s) = Some jwks → key_holds k jwks).
Proof.
  split.
  - intros (Hd&Hf&Hi). split; [done|]. intros [provider_id source|provider_id digest] jwks; [apply Hf|apply Hi].
  - intros (Hd&Hk). split; [done|]. split; intros ??? Hget; exact (Hk _ _ Hget).
Qed.

Lemma provider_slot_holds key : slot_holds (provider_slot key) (key_holds key).
Proof.
  split; [|split]; cbn.
  - intros s jwks [_ Hk]%inv_keys. apply Hk.
  - intros s jwks [Hd Hk]%inv_keys HP. apply inv_keys. split; [exact Hd|]. by apply provider_set.
  - intros s [Hd Hk]%inv_keys. apply inv_keys. split; [exact Hd|]. by apply provider_pop.
Qed.

(** ** Fetching *)

Lemma keeps_send request : keeps inv (send request) (λ v, ∃ n, http_get n request = Ok v).
Proof. intros s Hs. split; [exact Hs|]. intros v Hv. by exists (requests_made s). Qed.

Lemma keeps_fetch url direct verify auth :
  (direct = false → auth = None) → keeps inv (fetch_jwks url direct verify auth) (served url).
Proof.
  intros Hauth. unfold fetch_jwks. destruct direct.
  - apply (keeps_bind _ _ _ (λ uri, uri = url)); [by apply keeps_ret|]. intros ? ->.
    intros s Hs. destruct (keeps_send (MkGet url verify auth) s Hs) as [? Hv]. split; [done|].
    intros v [n Hn]%Hv. left. eauto.
  - rewrite Hauth //. apply (keeps_bind _ _ _ (λ uri, ∃ n metadata, http_get n (MkGet url verify None) = Ok metadata ∧ metadata_jwks_uri metadata = Ok uri)).
    + eapply keeps_bind; [apply keeps_send|]. intros metadata [n Hn]. apply keeps_lift. eauto.
    + intros uri (n&metadata&Hn&Huri) s Hs. destruct (keeps_send (MkGet uri verify None) s Hs) as [? Hv]. split; [done|].
      intros v [m Hm]%Hv. right. eauto 10.
Qed.

Lemma keeps_load url slot force direct verify auth (P : json → Prop) :
  slot_holds slot P → (∀ jwks, served url jwks → P jwks) → (direct = false → auth = None) →
  keeps inv (_load_jwks url slot force direct verify auth) P.
Proof.
  intros (Hget&Hset&Hpop) Hserved Hauth. unfold _load_jwks.
  apply (keeps_bind _ _ _ (λ _, True)).
  { destruct force; [by apply keeps_modify|by apply keeps_ret]. }
  intros _ _. apply (keeps_bind _ _ _ (λ cached, ∀ jwks, cached = Some jwks → P jwks)).
  { intros s Hs. split; [done|]. intros c [= <-] jwks. by apply Hget. }
  intros cached Hc. destruct (cached ≫= some_value) as [jwks|] eqn:E.
  - apply keeps_ret, Hc. destruct cached as [v|]; [|done]. by destruct v; simplify_eq/=.
  - eapply keeps_bind; [by apply (keeps_fetch url direct verify auth)|]. intros jwks Hj.
    apply (keeps_bind _ _ _ (λ _, True)); [apply keeps_modify; [|done]; intros; by apply Hset; [|apply Hserved]|].
    intros _ _. by apply keeps_ret, Hserved.
Qed.

Lemma keeps_provider_jwks p force : keeps inv (_get_provider_jwks p force) (verification_keys p).
Proof.
  unfold _get_provider_jwks, verification_keys, own_key_source. destruct (inline_material p) as [material|].
  - destruct (provider_slot_holds (InlineKeys (pr_id p) (jwks_digest material))) as (Hget&Hset&_).
    apply (keeps_bind _ _ _ (λ cached, ∀ jwks, cached = Some jwks → inline_served (jwks_digest material) jwks)).
    { intros s Hs. split; [done|]. intros c [= <-] jwks. by apply Hget. }
    intros cached Hc. destruct (cached ≫= some_value) as [jwks|] eqn:E.
    + apply keeps_ret, Hc. destruct cached as [v|]; [|done]. by destruct v; simplify_eq/=.
    + apply (keeps_bind _ _ _ (inline_served (jwks_digest material))); [apply keeps_lift; intros; by exists material|].
      intros jwks Hj. apply (keeps_bind _ _ _ (λ _, True)); [apply keeps_modify; [|done]; intros; by apply Hset|].
      intros _ _. by apply keeps_ret.
  - destruct (nonempty (jwks_uri p)) as [uri|], (nonempty (discovery_url p)) as [url|].
    1-3: apply (keeps_bind _ _ _ (λ _, True)); [by apply keeps_lift|]; intros verify _;
      by apply keeps_load; [apply (provider_slot_holds (FetchedFrom _ _))| |].
    unfold _get_oidc_jwks. destruct DISCOVERY_URL as [url|] eqn:E; [|apply keeps_raise].
    apply keeps_load; [apply default_slot_holds|by intros jwks Hj; exists url|done].
Qed.

(** ** Choosing *)

Lemma resolved_provider token p :
  _resolve_provider token = Ok p →
  p ∈ AUTH_PROVIDERS ∧ pr_type p ∈ TOKEN_PROVIDER_TYPES ∧
  (token_providers = [p] ∨ ∃ iss, _unverified_issuer token = Some iss ∧ issuer p = Some iss).
Proof.
  assert (∀ q, q ∈ token_providers → q ∈ AUTH_PROVIDERS ∧ pr_type q ∈ TOKEN_PROVIDER_TYPES) as Hin.
  { intros q [??]%list_elem_of_filter. done. }
  unfold _resolve_provider. destruct token_providers as [|q [|q' ps]] eqn:E; [done|..].
  - intros [= ->]. destruct (Hin p) as [??]; [left|]. auto.
  - destruct (_unverified_issuer token) as [iss|]; [|done]. cbn [nonempty mbind option_bind]. case_decide; [done|].
    destruct (filter _ _) as [|r rs] eqn:Ef; [done|]. intros [= ->].
    assert (p ∈ filter (λ p, issuer p = Some iss) (q :: q' :: ps)) as [Hiss Hp]%list_elem_of_filter by (rewrite Ef; left).
    destruct (Hin p Hp). eauto 10.
Qed.

Lemma jwt_algorithms p algorithms :
  _jwt_for p = Ok algorithms → algorithms ⊆ ASYMMETRIC_ALGORITHMS ∧ algorithms ⊆ allowed_algorithms p.
Proof.
  unfold _jwt_for. intros Hf.
  assert (algorithms = filter (λ a, a ∈ ASYMMETRIC_ALGORITHMS) (allowed_algorithms p)) as -> by (destruct (filter _ _); by simplify_eq).
  split; intros a [??]%list_elem_of_filter; done.
Qed.

(** [c] is what [token] says under the policy of [p]. *)
Definition accepted_by (p : ProviderConfig) (token : string) (c : claims) : Prop :=
  (∃ jwks algorithm, verification_keys p jwks ∧ algorithm ∈ ASYMMETRIC_ALGORITHMS ∧ algorithm ∈ allowed_algorithms p ∧
    signed_by jwks algorithm token c) ∧
  (∀ a, nonempty (audience p) = Some a → aud_holds a c) ∧
  (∀ i, nonempty (issuer p) = Some i → iss_is i c).

Lemma claims_options_hold p c :
  jwt_validate (_claims_options_for p) c = Ok tt →
  (∀ a, nonempty (audience p) = Some a → aud_holds a c) ∧ (∀ i, nonempty (issuer p) = Some i → iss_is i c).
Proof.
  unfold _claims_options_for. destruct (nonempty (audience p)) as [a|], (nonempty (issuer p)) as [i|]; try done.
  all: intros [Ha Hi]%jwt_validate_essential; cbn in *; split; intros ? [= <-]; auto.
Qed.

Lemma keeps_decode p algorithms force token :
  _jwt_for p = Ok algorithms → keeps inv (decode_with p algorithms force token) (accepted_by p token).
Proof.
  intros [Hasym Hallowed]%jwt_algorithms. eapply keeps_bind; [apply keeps_provider_jwks|]. intros jwks Hkeys.
  eapply keeps_bind; [apply keeps_lift; intros c Hc; exact Hc|]. intros c (algorithm&Hin&Hsigned)%jwt_decode_signed.
  eapply keeps_bind; [apply keeps_lift; intros u Hu; exact Hu|]. intros [] Hv. apply keeps_ret.
  split; [|by apply claims_options_hold]. eauto 10.
Qed.

Lemma keeps_validate token :
  keeps inv (validate_token token) (λ c, ∃ p, _resolve_provider token = Ok p ∧ accepted_by p token c).
Proof.
  unfold validate_token. eapply keeps_bind; [apply keeps_lift; intros p Hp; exact Hp|]. intros p Hp.
  eapply keeps_bind; [apply keeps_lift; intros a Ha; exact Ha|]. intros algorithms Halg.
  assert (∀ force, keeps inv (decode_with p algorithms force token) (λ c, ∃ p, _resolve_provider token = Ok p ∧ accepted_by p token c)) as Hdec.
  { intros force s Hs. destruct (keeps_decode p algorithms force token Halg s Hs) as [? Hacc]. split; [done|]. intros c Hc. exists p. split; [exact Hp|exact (Hacc c Hc)]. }
  apply keeps_catch; [apply Hdec|]. intros e. case_decide; [apply Hdec|apply keeps_raise].
Qed.

(** C18: A validated token is accepted under the policy of one token provider,
    the only one or the one whose issuer the token names: signed with an
    asymmetric algorithm that provider allows, by a key of the source that this
    provider names (keys written into its configuration, a key-set URL or a
    discovery document), or, if it names no source of its own, by a key that the
    deployment-wide OIDC_DISCOVERY_URL served; for its audience and from its
    issuer where it pins them; and the key caches keep every key set under its
    source, also when validation fails. *)
Theorem validated_tokens_obey_one_provider token s :
  jwks_from_their_source s →
  jwks_from_their_source (validate_token token s).2 ∧
  ∀ c, (validate_token token s).1 = Ok c →
    ∃ p, p ∈ AUTH_PROVIDERS ∧ pr_type p ∈ TOKEN_PROVIDER_TYPES ∧ accepted_by p token c ∧
      (token_providers = [p] ∨ ∃ iss, _unverified_issuer token = Some iss ∧ issuer p = Some iss).
Proof.
  intros Hs. destruct (keeps_validate token s Hs) as [? Hc]. split; [done|].
  intros c (p&(Hp&Hty&Hiss)%resolved_provider&Hacc)%Hc. eauto 10.
Qed.

(** A cluster provider that names no keys is verified with the deployment's. *)
Lemma keyless_providers_use_the_deployment_keys p jwks :
  own_key_source p = None → verification_keys p jwks → default_served jwks.
Proof. unfold verification_keys. by intros ->. Qed.
End facts.
