(* ===== verification/Identity.v ===== *)
(** * External identities: who a login reaches, what it may write, and its admission
    ([mlflow_oidc_auth/identity_resolution.py], [provisioning_policy.py],
    [utils/oidc_field_extraction.py], the admission of [routers/auth.py], [user.py]) *)
From S2P Require Import Prelude PyStrings Json Ownership Permissions Database Users Sessions Groups ProviderRegistry Repositories.
From Stdlib Require Import Ascii.
#[local] Open Scope Z_scope.

(** ** Field extraction *)

Inductive extraction_error :=
  | NoFieldsConfigured
  | FieldNotAString (field : string)
  | NoFieldProvided.

Fixpoint extract_from_fields (payload : claims) (fields : list string) : extraction_error + string :=
  match fields with
  | [] => inl NoFieldProvided
  | field :: rest =>
      match payload !! field with
      | None | Some JNull => extract_from_fields payload rest
      | Some (JStr value) =>
          let stripped_value := py_strip value in
          if decide (stripped_value = "") then extract_from_fields payload rest else inr stripped_value
      | Some _ => inl (FieldNotAString field)
      end
  end.

Definition extract_field_from_payload (payload : claims) (field_list : list string) : extraction_error + string :=
  if decide (field_list = []) then inl NoFieldsConfigured else extract_from_fields payload field_list.

Definition extract_username (payload : claims) (OIDC_USERNAME_FIELD : list string) : extraction_error + string :=
  match extract_field_from_payload payload OIDC_USERNAME_FIELD with
  | inl e => inl e
  | inr value => inr (normalize_username value)
  end.

Definition extract_display_name (payload : claims) (OIDC_DISPLAY_NAME_FIELD : list string) : extraction_error + string :=
  extract_field_from_payload payload OIDC_DISPLAY_NAME_FIELD.

(** ** Identity resolution *)

Inductive Resolution := MATCHED | LINK | CREATE | REFUSED.

#[export] Instance Resolution_eq_dec : EqDecision Resolution.
Proof. solve_decision. Defined.

(** The reason texts, by case. *)
Inductive identity_reason :=
  | AlreadyBound
  | NoIdentityBound
  | NoSubjectAsserted
  | AuthorisedNoCompeting
  | NoLocalUser
  | RefusedNoSubject
  | RefusedNoEmail
  | RefusedUnverified
  | RefusedNotSingleAddress (email : string)
  | RefusedDomain (domain : string)
  | RefusedUsernameMismatch (username : string)
  | RefusedForeignProviders (providers : list string).

Record IdentityDecision := MkIdentityDecision {
  resolution : Resolution;
  d_username : option string;
  d_reason : identity_reason;
}.

Definition is_allowed (d : IdentityDecision) : bool := bool_decide (resolution d ≠ REFUSED).

Definition _email_from_claims (c : claims) : option string :=
  match c !! "email" with
  | Some (JStr email) =>
      let email := py_lower (py_strip email) in
      if decide (email = "") then None else Some email
  | _ => None
  end.

(** Only a literal [True] counts. *)
Definition _email_is_verified (c : claims) : bool :=
  match c !! "email_verified" with Some (JBool true) => true | _ => false end.

Definition _domain_of (email : string) : option string :=
  if decide (py_count "@" email ≠ 1%nat) then None
  else match py_split_once "@" email with
       | None => None
       | Some (local, domain) =>
           if decide (py_strip local = "" ∨ py_strip domain = "") then None else Some (py_strip domain)
       end.

Definition _refuse (provider : ProviderConfig) (subject : string) (reason : identity_reason) : M audited IdentityDecision :=
  _ ← emit (IdentityRefused subject (pr_id provider));
  mret (MkIdentityDecision REFUSED None reason).

Section resolve.
Context `{SqlBackend}.

(** The tail of [_resolve_by_email], once the email names the account. *)
Definition link_or_create (provider : ProviderConfig) (subject username : string) : M audited IdentityDecision :=
  exists_ ← on_db (UserRepository.exist username);
  if negb exists_ then mret (MkIdentityDecision CREATE None NoLocalUser)
  else
    bound_providers ← on_db (UserIdentityRepository.list_providers_for_username username);
    let foreign := filter (λ bound, bound ≠ pr_id provider) bound_providers in
    if decide (foreign ≠ []) then _refuse provider subject (RefusedForeignProviders foreign)
    else mret (MkIdentityDecision LINK (Some username) AuthorisedNoCompeting).

Definition _resolve_by_email (provider : ProviderConfig) (subject : string) (c : claims) (username : option string) : M audited IdentityDecision :=
  match _email_from_claims c with
  | None => _refuse provider subject RefusedNoEmail
  | Some email =>
      if negb (_email_is_verified c) then _refuse provider subject RefusedUnverified
      else match _domain_of email with
      | None => _refuse provider subject (RefusedNotSingleAddress email)
      | Some domain =>
          if decide (domain ∉ (py_lower <$> allowed_email_domains provider)) then _refuse provider subject (RefusedDomain domain)
          else
            let email_username := normalize_username email in
            match username with
            | Some u =>
                if decide (normalize_username u ≠ email_username) then _refuse provider subject (RefusedUsernameMismatch u)
                else link_or_create provider subject email_username
            | None => link_or_create provider subject email_username
            end
      end
  end.

(** [subject] is [None] when the claim is absent; the audit line then names
    [str(None)]. *)
Definition resolve_identity (provider : ProviderConfig) (subject : option string) (c : claims) (username : option string) : M audited IdentityDecision :=
  match subject with
  | None => _refuse provider "None" RefusedNoSubject
  | Some s =>
      let subject := py_strip s in
      if decide (subject = "") then _refuse provider s RefusedNoSubject
      else
        existing ← on_db (UserIdentityRepository.get_username_by_identity (pr_id provider) subject);
        if truthy existing then mret (MkIdentityDecision MATCHED existing AlreadyBound)
        else if decide (identity_binding provider = "email") then _resolve_by_email provider subject c username
        else mret (MkIdentityDecision CREATE None NoIdentityBound)
  end.
End resolve.

(** ** The provisioning policy *)

Inductive outcome_reason :=
  | IdentityReason (r : identity_reason)
  | NoUsernameDerived
  | Adopting
  | BelongsToAnother (username provider_id : string)
  | NotProvisioned (provider_id provisioning : string)
  | NewPrincipal.

Record ProvisioningOutcome := MkOutcome {
  po_allowed : bool;
  po_create : bool;
  po_username : option string;
  po_reason : outcome_reason;
}.

Section policy.
Context {S : Type}.

Definition apply_provisioning_policy (provider : ProviderConfig) (decision : IdentityDecision) (derived_username : option string)
    (user_exists : string → M S bool) (providers_bound_to : string → M S (list string)) : M S ProvisioningOutcome :=
  if negb (is_allowed decision) then mret (MkOutcome false false None (IdentityReason (d_reason decision)))
  else if decide (resolution decision = MATCHED ∨ resolution decision = LINK)
  then mret (MkOutcome true false (d_username decision) (IdentityReason (d_reason decision)))
  else match derived_username with
  | None | Some "" => mret (MkOutcome false false None NoUsernameDerived)
  | Some derived_username =>
      taken ← user_exists derived_username;
      if taken : bool then
        bound_to ← providers_bound_to derived_username;
        let foreign := filter (λ bound, bound ≠ pr_id provider) bound_to in
        if decide (foreign = [] ∧ pr_id provider = DEFAULT_PROVIDER_ID)
        then mret (MkOutcome true false (Some derived_username) Adopting)
        else mret (MkOutcome false false None (BelongsToAnother derived_username (pr_id provider)))
      else if decide (provisioning provider ≠ "jit")
      then mret (MkOutcome false false None (NotProvisioned (pr_id provider) (provisioning provider)))
      else mret (MkOutcome true true (Some derived_username) NewPrincipal)
  end.
End policy.

(** ** Groups and administrators *)

Definition TypeError : exc := OtherException "TypeError".

(** The members a membership test sees; [None] for a value that is no
    container. *)
Definition members (groups : json) : option (list json) :=
  match groups with JArr l => Some l | JObj fields => Some (JStr <$> fields.*1) | _ => None end.
Definition strings (l : list json) : list string := omap (λ v, match v with JStr s => Some s | _ => None end) l.

(** [any(group in user_groups for group in names)]: without names nothing is
    tested. *)
Definition any_in (names : list string) (user_groups : json) : outcome bool :=
  match names with
  | [] => Ok false
  | _ => match members user_groups with
         | None => Raise TypeError
         | Some l => Ok (existsb (λ group, bool_decide (group ∈ strings l)) names)
         end
  end.

(** The group names the store is given: it rejects anything but strings. *)
Definition group_names (user_groups : json) : outcome (list string) :=
  match members user_groups with
  | None => Raise TypeError
  | Some l => if decide (length (strings l) = length l) then Ok (strings l) else Raise TypeError
  end.

Definition local_group_name (provider : ProviderConfig) (claimed : string) : string :=
  if decide (pr_id provider = DEFAULT_PROVIDER_ID) then claimed else pr_id provider +:+ ":" +:+ claimed.

Definition groups_to_apply (provider : ProviderConfig) (claimed_groups : list string) (current_groups : option (list string)) (is_new_user : bool) : option (list string) :=
  if decide (group_sync provider = "none") then None
  else if decide (group_sync provider = "first_login" ∧ is_new_user = false) then None
  else
    let claimed := local_group_name provider <$> filter (λ g, g ≠ "") claimed_groups in
    if decide (group_sync_mode provider = "authoritative") then Some (dict_fromkeys claimed)
    else match current_groups with
    | None => None
    | Some current => Some (dict_fromkeys (current ++ claimed))
    end.

Definition admin_from_claims (provider : ProviderConfig) (claimed_groups admin_group_names : list string) : bool :=
  if decide (admin_source provider ≠ "claims") then false
  else existsb (λ group, bool_decide (group ∈ claimed_groups)) admin_group_names.

(** * Admission at login ([mlflow_oidc_auth/routers/auth.py],
    [_process_oidc_callback_fastapi] from the group check to the binding of the
    identity, with [mlflow_oidc_auth/user.py])

    The flow around it is in [SignIn]. Every store call is a transaction of its
    own, so a failure half way leaves the earlier ones committed. *)

(** ** [user.py] *)

Section create_user.
Context `{SqlBackend, UserLibs}.

(** The randomness and the clock one login uses; the configured mode; and what
    the database raises if it cannot commit the revocation of a session during
    this request ([None]: it commits). *)
Record login_env := LoginEnv {
  le_now : Z;
  le_salt : string;
  le_token : string;
  le_enforcement : Enforcement;
  le_outage : option exc;
}.

(** [update_user(username, is_admin=..., is_service_account=..., written_by=...)];
    no caller overrides ownership. *)
Definition refresh (is_admin is_service_account : bool) (written_by : option string) : user_update :=
  UserUpdate None None (Some is_admin) (Some is_service_account) None None written_by false.

Definition create_user (env : login_env) (username display_name : string) (is_admin is_service_account : bool)
    (written_by : option string) : M audited bool :=
  catch (
    _ ← on_db (UserRepository.get_profile username);
    _ ← UserRepository.update (le_enforcement env) (le_now env) (le_salt env) username (refresh is_admin is_service_account written_by);
    mret false)
  (λ exc,
    if decide (exc = MlflowException RESOURCE_DOES_NOT_EXIST) then
      _ ← on_db (UserRepository.create (le_salt env) username (le_token env) display_name is_admin is_service_account);
      mret true
    else raise exc).
End create_user.

(** ** The callback *)

Record login_config := LoginConfig {
  OIDC_ADMIN_GROUP_NAME : list string;
  OIDC_GROUP_NAME : list string;
}.

Inductive login_error :=
  | NotAllowedToLogin
  | CannotSignInHere
  | CouldNotCompleteSignIn.

Section login.
Context `{SqlBackend, UserLibs}.

(** Fail closed: an unreadable binding set is not an empty one. *)
Definition _providers_bound_to (username : string) : M audited (list string) :=
  catch (on_db (UserIdentityRepository.list_providers_for_username username)) (λ _, mret ["<unknown>"]).

(** The subject of the userinfo: [None] when it is not a usable string. *)
Definition subject_of (userinfo : claims) : option string :=
  match userinfo !! "sub" with
  | Some (JStr s) => if decide (py_strip s = "") then None else Some s
  | _ => None
  end.

Definition decide_identity (provider : ProviderConfig) (subject : option string) (userinfo : claims) (username : string) : M audited IdentityDecision :=
  match subject with
  | None => mret (MkIdentityDecision CREATE None NoSubjectAsserted)
  | Some s => resolve_identity provider (Some s) userinfo (Some username)
  end.

(** Bind the identity; a failure fails the login. *)
Definition bind_identity (provider : ProviderConfig) (subject : option string) (username : string) : M audited bool :=
  match subject with
  | None => mret true
  | Some s =>
      catch (_ ← on_db (UserIdentityRepository.link (pr_id provider) (py_strip s) username false); mret true)
        (λ _, _ ← emit (IdentityBindFailed username (pr_id provider)); mret false)
  end.

(** Whether the claims make an administrator; a provider that may not say so is
    not asked. *)
Definition claimed_admin (provider : ProviderConfig) (user_groups : json) (admin_group_names : list string) : outcome bool :=
  if decide (admin_source provider ≠ "claims") then Ok false else any_in admin_group_names user_groups.

(** From the groups to the bound account: the name, and whether it is new. *)
Definition admission (env : login_env) (cfg : login_config) (provider : ProviderConfig) (userinfo : claims)
    (username display_name : string) (user_groups : json) : M audited (login_error + string * bool) :=
  is_admin ← lift (claimed_admin provider user_groups (OIDC_ADMIN_GROUP_NAME cfg));
  allowed ← (if is_admin : bool then mret true else lift (any_in (OIDC_GROUP_NAME cfg) user_groups));
  if negb allowed then mret (inl NotAllowedToLogin)
  else
    let subject := subject_of userinfo in
    if decide (subject = None ∧ pr_id provider ≠ DEFAULT_PROVIDER_ID) then mret (inl CannotSignInHere)
    else
      decision ← decide_identity provider subject userinfo username;
      outcome ← apply_provisioning_policy provider decision (Some username)
        (λ name, on_db (UserRepository.exist name)) _providers_bound_to;
      if negb (po_allowed outcome) then
        _ ← emit (LoginRefused username (pr_id provider));
        mret (inl CannotSignInHere)
      else
        let username := or_default (po_username outcome) username in
        _ ← (if po_create outcome || bool_decide (admin_source provider = "claims")
             then create_user env username display_name is_admin false (Some ("oidc:" +:+ pr_id provider))
             else mret false);
        bound ← bind_identity provider subject username;
        if negb bound then mret (inl CouldNotCompleteSignIn) else mret (inr (username, po_create outcome)).
End login.
