(* ===== verification/AuthMiddleware.v ===== *)
(** * Authentication ([middleware/auth_middleware.py])

    Who the sender is: a password, a bearer token or a session; the account
    behind it, provisioned on the way where that is configured; and what becomes
    of a request whose sender is nobody or inactive. With the silent refresh of
    [routers/auth.py]. *)
From S2P Require Import Prelude PyStrings Json Ownership Permissions Regex RegexSafety Database Repositories Users Groups Sessions Cache Resolution Store.
From S2P Require Import Requests Validators Hooks AfterRequest BeforeRequest Kubernetes ProviderRegistry TokenVerification Identity.
From Stdlib Require Import Ascii.

(** ** Configuration and the identity provider's client *)

(** A group plugin is the function [get_user_groups] of the configured module. *)
Class AuthConfig := {
  OIDC_PROVISION_ON_BEARER_AUTH : bool;
  OIDC_GROUP_DETECTION_PLUGIN : option (json → outcome json);
  OIDC_GROUPS_ATTRIBUTE : string;
  group_names_config : login_config;
  OIDC_TRUST_BEARER_GROUP_CLAIMS : bool;
  OIDC_USERNAME_FIELD : list string;
  OIDC_DISPLAY_NAME_FIELD : list string;
  OIDC_SESSION_EXPIRY_LEEWAY_SECONDS : Z;
  OIDC_USE_REFRESH_TOKEN : bool;
  AUTOMATIC_LOGIN_REDIRECT : bool;
}.
Abbreviation ADMIN_GROUPS := (OIDC_ADMIN_GROUP_NAME group_names_config).
Abbreviation ALLOWED_GROUPS := (OIDC_GROUP_NAME group_names_config).

(** [oauth.oidc.fetch_access_token] with a refresh token; [None] when the client
    has no such method. *)
Class IdpClient := { fetch_access_token : option (json → outcome json) }.

(** ** The state a request runs in *)

(** [au_session] is the signed cookie, [None] without the session middleware;
    [resolved_session] is [request.state.resolved_session]. *)
Section state.
Context `{CacheBackend PermissionResult, CacheBackend Permission, TTLCache unit json, TTLCache provider_key json}.
Context `{TTLCache (string * string) bool}.

Record auth_state := AuthState {
  au_world : world;
  au_audit : list audit_event;
  au_tokens : token_state;
  _denial_audit_seen : ttl (string * string) bool;
  au_session : option claims;
  resolved_session : option ResolvedSession;
}.

Definition au_db (s : auth_state) : db := w_db (au_world s).

Definition in_world {A} (m : M world A) : M auth_state A := λ s,
  let '(o, w) := m (au_world s) in
  (o, AuthState w (au_audit s) (au_tokens s) (_denial_audit_seen s) (au_session s) (resolved_session s)).
Definition in_store {A} (m : M db A) : M auth_state A := in_world (on_store m).
Definition in_audited {A} (m : M audited A) : M auth_state A := λ s,
  let '(o, a) := m (Audited (au_db s) (au_audit s)) in
  (o, AuthState (set_db (a_db a) (au_world s)) (audit a) (au_tokens s) (_denial_audit_seen s) (au_session s) (resolved_session s)).
Definition in_tokens {A} (m : M token_state A) : M auth_state A := λ s,
  let '(o, t) := m (au_tokens s) in
  (o, AuthState (au_world s) (au_audit s) t (_denial_audit_seen s) (au_session s) (resolved_session s)).
Definition set_seen (f : ttl (string * string) bool → ttl (string * string) bool) : M auth_state unit := modify (λ s,
  AuthState (au_world s) (au_audit s) (au_tokens s) (f (_denial_audit_seen s)) (au_session s) (resolved_session s)).
Definition set_session (session : claims) : M auth_state unit := modify (λ s,
  AuthState (au_world s) (au_audit s) (au_tokens s) (_denial_audit_seen s) (Some session) (resolved_session s)).
Definition set_resolved (r : ResolvedSession) : M auth_state unit := modify (λ s,
  AuthState (au_world s) (au_audit s) (au_tokens s) (_denial_audit_seen s) (au_session s) (Some r)).
Definition emit_audit_event (e : audit_event) : M auth_state unit := in_audited (emit e).

(** The first denial of its kind within the window is recorded. *)
Definition _should_audit_denial (username reason : string) : M auth_state bool :=
  seen ← gets (λ s, ttl_get (username, reason) (_denial_audit_seen s));
  match seen with
  | Some _ => mret false
  | None => _ ← set_seen (ttl_setitem (username, reason) true); mret true
  end.
End state.
Arguments auth_state {_ _ _ _ _}.

Definition DENIAL_UNKNOWN_USER : string := "unknown_user".
Definition DENIAL_INACTIVE : string := "inactive".
Definition DENIAL_LOOKUP_ERROR : string := "lookup_error".
(** [DENIAL_AUDIT_EVENTS.get(reason, ...)] *)
Definition denial_event (reason : string) : string :=
  if decide (reason = DENIAL_UNKNOWN_USER) then "auth.denied_unknown_user"
  else if decide (reason = DENIAL_INACTIVE) then "auth.denied_inactive"
  else "auth.denied_lookup_error".

Definition normalize_workspace_header (raw_workspace : option string) : option string :=
  raw ← nonempty raw_workspace; nonempty (Some (py_strip raw)).

(** ** The request *)

(** Header names are lower case; [root_path] and [base_url_path] are the
    application's mount point as the server reports it. *)
Record HttpRequest := MkHttp {
  http_path : string;
  http_query : string;
  headers : list (string * string);
  root_path : string;
  base_url_path : string;
}.
Definition header (name : string) (req : HttpRequest) : option string := dict_get name (headers req).

Definition _is_unprotected_route (path : string) : bool :=
  existsb (startswith path)
    ["/health"; "/login"; "/callback"; "/oidc/static"; "/metrics"; "/docs"; "/redoc"; "/openapi.json"; "/oidc/ui"; "/static-files"].

(** [urllib.parse.quote(s, safe="")] *)
Definition hex_digit (n : nat) : ascii := default "0"%char (String.get n "0123456789ABCDEF").
Definition unreserved (c : ascii) : bool :=
  let n := nat_of_ascii c in
  is_digit c || ((65 <=? n) && (n <=? 90))%nat || ((97 <=? n) && (n <=? 122))%nat || one_of "_.-~" c.
Fixpoint quote (s : string) : string :=
  match s with
  | EmptyString => ""
  | String c s =>
      if unreserved c then String c (quote s)
      else let n := nat_of_ascii c in String "%" (String (hex_digit (n / 16)) (String (hex_digit (n mod 16)) (quote s)))
  end.

(** Why authentication failed. *)
Inductive auth_error :=
  | InvalidBasicCredentials
  | InvalidBasicFormat
  | InvalidServiceAccountToken
  | NamespaceNotAllowed
  | UsernameNotFound (e : extraction_error)
  | InvalidToken
  | NoSession
  | SessionNotRecognised
  | SessionExpired
  | SessionAccessFailed
  | SessionError.

Definition IndexError : exc := OtherException "IndexError".
Definition AttributeError : exc := OtherException "AttributeError".

(** [auth_header.split(" ", 1)[1]] *)
Definition credentials (auth_header : string) : outcome string :=
  match py_split_once " " auth_header with Some (_, rest) => Ok rest | None => Raise IndexError end.

(** ** The silent refresh of an expired session ([routers/auth.py]) *)

(** [isinstance(value, (int, float))], and the number; [True] is 1. *)
Definition number (v : json) : option Z :=
  match v with JNum n => Some n | JBool b => Some (if b then 1 else 0) | _ => None end.
Definition positive_number (v : json) : option Z := n ← number v; if decide (0 < n) then Some n else None.

Definition _extract_session_expiry (now : Z) (token_response : claims) : outcome (option Z) :=
  match positive_number (get_key "expires_at" token_response) with
  | Some n => Ok (Some n)
  | None =>
      userinfo ← match get_key "userinfo" token_response with
                 | JObj fields => Ok (dict_of fields)
                 | v => if json_truthy v then Raise AttributeError else Ok ∅
                 end;
      match positive_number (get_key "exp" userinfo), positive_number (get_key "expires_in" token_response) with
      | Some n, _ => Ok (Some n)
      | None, Some n => Ok (Some (now + n))
      | None, None => Ok None
      end
  end.

Section session.
Context `{AuthConfig, IdpClient}.

Definition _persist_session_auth (now : Z) (session token_response : claims) : outcome claims :=
  expiry ← _extract_session_expiry now token_response;
  let session := match expiry with Some n => <["expires_at" := JNum n]> session | None => delete "expires_at" session end in
  let refresh_token := get_key "refresh_token" token_response in
  Ok (if OIDC_USE_REFRESH_TOKEN then
        if json_truthy refresh_token then <["refresh_token" := refresh_token]> session else session
      else delete "refresh_token" session).

(** The refreshed session, or [None]. *)
Definition refresh_session_with_idp (now : Z) (session : claims) : outcome (option claims) :=
  if negb OIDC_USE_REFRESH_TOKEN then Ok None
  else
    let refresh_token := get_key "refresh_token" session in
    if negb (json_truthy refresh_token) then Ok None
    else match fetch_access_token with
         | None => Ok None
         | Some fetch =>
             match fetch refresh_token with
             | Raise _ => Ok None
             | Ok (JObj []) => Ok None
             | Ok (JObj fields) => session ← _persist_session_auth now session (dict_of fields); Ok (Some session)
             | Ok new_token => if json_truthy new_token then Raise AttributeError else Ok None
             end
         end.

Definition _is_session_expired (now : Z) (session : claims) : bool :=
  match number (get_key "expires_at" session) with
  | None => false
  | Some expires_at => bool_decide (expires_at - Z.max 0 OIDC_SESSION_EXPIRY_LEEWAY_SECONDS ≤ now)
  end.
End session.

(** ** Who the sender is *)

Section middleware.
Context `{SqlBackend, PyRe, UserLibs, ColumnTyping, Config, TrackingStore}.
Context `{CacheBackend PermissionResult, CacheBackend Permission, TTLCache unit json, TTLCache provider_key json}.
Context `{TTLCache (string * string) bool}.
Context `{JsonLoads, Encodings, PodFiles, Network, JwtLib, TokenConfig, AuthConfig, IdpClient}.

(** [env]: the clock, the salt and the random password of this request. *)
Variable env : login_env.
Abbreviation auth := (M auth_state).

Definition _authenticate_basic_auth_sync (username password : string) : auth bool :=
  in_store (SqlAlchemyStore.authenticate_user (le_now env) username password).

Definition _authenticate_basic_auth (auth_header : string) : auth (auth_error + string) :=
  catch (
    encoded_credentials ← lift (credentials auth_header);
    decoded_credentials ← lift (match b64decode_utf8 encoded_credentials with Some text => Ok text | None => Raise ValueError end);
    match py_split_once ":" decoded_credentials with
    | None => raise ValueError
    | Some (username, password) =>
        verified ← _authenticate_basic_auth_sync (py_lower username) password;
        mret (if verified : bool then inr (py_lower username) else inl InvalidBasicCredentials)
    end)
  (λ _, mret (inl InvalidBasicFormat)).

(** [user_module.update_user]: the store call with its cache wrapper. *)
Definition set_user_groups (username : string) (names : list string) : auth unit :=
  in_world (run_call (SetUserGroups username names)).

(** The three writes of a provisioning: account, groups, memberships. Each is a
    transaction of its own. *)
Definition provision_user (username display_name : string) (is_admin is_service_account : bool) (names : outcome (list string)) : auth unit :=
  _ ← in_audited (create_user env username display_name is_admin is_service_account None);
  names ← lift names;
  _ ← in_store (SqlAlchemyStore.populate_groups names);
  set_user_groups username names.

(** [has_user], [None] when it fails. *)
Definition user_is_known (username : string) : auth (option bool) :=
  catch (known ← in_store (SqlAlchemyStore.has_user username); mret (Some known)) (λ _, mret None).

Definition bearer_groups (token : json) (payload : claims) : outcome json :=
  user_groups ← match OIDC_GROUP_DETECTION_PLUGIN with
                | Some get_user_groups => get_user_groups token
                | None => Ok (get_or (JArr []) OIDC_GROUPS_ATTRIBUTE payload)
                end;
  Ok (match user_groups with JStr s => JArr [JStr s] | _ => user_groups end).

(** The gate and the writes, once the provider and the groups are known. *)
Definition provision_bearer_user (username : string) (payload : claims) (p : ProviderConfig) (user_groups : json) : auth unit :=
  is_admin_claim ← lift (any_in ADMIN_GROUPS user_groups);
  allowed ← (if is_admin_claim : bool then mret true else lift (any_in ALLOWED_GROUPS user_groups));
  if negb allowed then mret tt
  else
    let is_admin := is_admin_claim && OIDC_TRUST_BEARER_GROUP_CLAIMS &&
      admin_from_claims p (strings (default [] (members user_groups))) ADMIN_GROUPS in
    let display_name := match extract_display_name payload OIDC_DISPLAY_NAME_FIELD with inr name => name | inl _ => username end in
    catch (provision_user username display_name is_admin false (group_names user_groups)) (λ _, mret tt).

Definition _maybe_provision_bearer_user (username token : string) (payload : claims) : auth unit :=
  if negb OIDC_PROVISION_ON_BEARER_AUTH then mret tt
  else
    known ← user_is_known username;
    match known with
    | None | Some true => mret tt
    | Some false =>
        match resolve_token_provider token with
        | Raise _ => mret tt
        | Ok p =>
            if negb (truthy (audience p) && truthy (issuer p)) then mret tt
            else if decide (pr_type p = "k8s") then mret tt
            else match bearer_groups (JStr token) payload with
                 | Raise _ => mret tt
                 | Ok user_groups => provision_bearer_user username payload p user_groups
                 end
        end
    end.

Definition _provider_for (token : string) : option ProviderConfig :=
  match resolve_token_provider token with Ok p => Some p | Raise _ => None end.

Definition _provision_service_account (account : ServiceAccount) (p : ProviderConfig) : auth unit :=
  known ← user_is_known (sa_username account);
  match known with
  | None | Some true => mret tt
  | Some false =>
      let display_name := sa_namespace account +:+ "/" +:+ sa_name account +:+ " (service account)" in
      catch (
        _ ← provision_user (sa_username account) display_name false true (Ok [sa_group account]);
        emit_audit_event (ServiceAccountProvisioned (sa_username account) (pr_id p) (sa_namespace account) (sa_name account)))
      (λ _, mret tt)
  end.

(** The allowlist is consulted on every request. *)
Definition _authenticate_service_account (payload : claims) (p : ProviderConfig) : auth (auth_error + string) :=
  match parse_service_account (get_key "sub" payload) with
  | Raise _ => mret (inl InvalidServiceAccountToken)
  | Ok account =>
      if negb (namespace_is_allowed (sa_namespace account) (namespace_allowlist p)) then
        first ← _should_audit_denial (sa_username account) "namespace_not_allowed";
        _ ← (if first : bool then emit_audit_event (NamespaceDenied (sa_username account) (pr_id p) (sa_namespace account)) else mret tt);
        mret (inl NamespaceNotAllowed)
      else
        _ ← _provision_service_account account p;
        mret (inr (sa_username account))
  end.

Definition _authenticate_bearer_token (auth_header : string) : auth (auth_error + string) :=
  catch (
    token ← lift (credentials auth_header);
    payload ← in_tokens (validate_token token);
    match (p ← _provider_for token; if decide (pr_type p = "k8s") then Some p else None) with
    | Some p => _authenticate_service_account payload p
    | None =>
        match extract_username payload OIDC_USERNAME_FIELD with
        | inl e => mret (inl (UsernameNotFound e))
        | inr username =>
            _ ← _maybe_provision_bearer_user username token payload;
            mret (inr username)
        end
    end)
  (λ _, mret (inl InvalidToken)).

(** A session that outlived the provider's token is refreshed or cleared. *)
Definition keep_session_alive (session : claims) (username : string) : auth (auth_error + string) :=
  if negb (_is_session_expired (le_now env) session) then mret (inr username)
  else
    refreshed ← lift (refresh_session_with_idp (le_now env) session);
    match refreshed with
    | Some session => _ ← set_session session; mret (inr username)
    | None => _ ← set_session ∅; mret (inl SessionExpired)
    end.

(** Starlette raises when [request.session] is read without the middleware. A
    session id that is no string cannot be bound to the query. *)
Definition _authenticate_session : auth (auth_error + string) :=
  session ← gets au_session;
  match session with
  | None => mret (inl SessionError)
  | Some session =>
      catch (
        let session_id := get_key "session_id" session in
        if negb (json_truthy session_id) then mret (inl NoSession)
        else
          session_id ← lift (match session_id with JStr s => Ok s | _ => Raise TypeError end);
          resolved ← in_store (SqlAlchemyStore.resolve_auth_session (le_now env) session_id);
          match resolved with
          | None => _ ← set_session ∅; mret (inl SessionNotRecognised)
          | Some r => _ ← set_resolved r; keep_session_alive session (rs_username r)
          end)
      (λ _, mret (inl SessionAccessFailed))
  end.

Definition _authenticate_user (req : HttpRequest) : auth (auth_error + string) :=
  match header "authorization" req with
  | Some auth_header =>
      if startswith auth_header "Basic " then _authenticate_basic_auth auth_header
      else if startswith auth_header "Bearer " then _authenticate_bearer_token auth_header
      else _authenticate_session
  | None => _authenticate_session
  end.

(** [(is_admin, is_active, denial_reason)] *)
Definition _get_user_auth_state (username : string) : auth (bool * bool * string) :=
  catch (
    profile ← in_store (SqlAlchemyStore.get_user_profile username);
    let user := profile.1 in
    mret (if u_active user then (u_is_admin user, true, "") else (u_is_admin user, false, DENIAL_INACTIVE)))
  (λ e, mret (false, false, if decide (e = MlflowException RESOURCE_DOES_NOT_EXIST) then DENIAL_UNKNOWN_USER else DENIAL_LOOKUP_ERROR)).

Definition _get_user_admin_status (username : string) : auth bool :=
  state ← _get_user_auth_state username;
  let '(is_admin, is_active, _) := state in mret (is_admin && is_active).

(** ** Turning a request away *)

(** The answer of the middleware: [Passed ctx] calls the next handler with the
    context in the scope. *)
Inductive answer :=
  | Passed (ctx : option AuthContext)
  | Unauthorized
  | AdminRequired
  | RedirectTo (url : string).

Context `{MlflowRoutes}.

Definition segment_1 (p : string) : string := default "" (py_split "/" p !! 1%nat).
Definition REST_PATH_PREFIX : string := "/" +:+ segment_1 (_get_rest_path "/probe" 2).
Definition AJAX_PATH_PREFIX : string := "/" +:+ segment_1 (_get_ajax_path "/probe" 2).
Definition API_PATH_PREFIXES : list string := [REST_PATH_PREFIX; AJAX_PATH_PREFIX].

(** [get_base_path] ([utils/request_helpers_fastapi.py]) *)
Definition get_base_path (req : HttpRequest) : string :=
  match nonempty (header "x-forwarded-prefix" req) with
  | Some forwarded_prefix => rstrip_char "/" forwarded_prefix
  | None =>
      if decide (root_path req ≠ "") then rstrip_char "/" (root_path req)
      else if decide (base_url_path req ≠ "" ∧ base_url_path req ≠ "/") then rstrip_char "/" (base_url_path req)
      else ""
  end.

Definition _handle_auth_redirect (req : HttpRequest) : answer :=
  let target := if decide (http_query req = "") then http_path req else http_path req +:+ "?" +:+ http_query req in
  let next_param := "?next=" +:+ quote target in
  if AUTOMATIC_LOGIN_REDIRECT then RedirectTo (get_base_path req +:+ "/login" +:+ next_param)
  else RedirectTo (get_base_path req +:+ "/oidc/ui").

Definition _is_document_request (req : HttpRequest) : bool :=
  let sec_fetch_dest := py_lower (default "" (header "sec-fetch-dest" req)) in
  if decide (sec_fetch_dest = "") then contains "text/html" (py_lower (default "" (header "accept" req)))
  else bool_decide (sec_fetch_dest = "document").

Definition _deny (req : HttpRequest) : answer :=
  if existsb (startswith (http_path req)) API_PATH_PREFIXES then Unauthorized
  else if startswith (http_path req) "/oidc/trash" then AdminRequired
  else if negb (_is_document_request req) then Unauthorized
  else _handle_auth_redirect req.

(** ** [dispatch] *)

(** Admin and active flags: of the session's row when there is one. *)
Definition auth_state_of (username : string) : auth (bool * bool * string) :=
  resolved ← gets resolved_session;
  match resolved with
  | Some r => mret (rs_is_admin r, rs_is_active r, if rs_is_active r then "" else DENIAL_INACTIVE)
  | None => _get_user_auth_state username
  end.

Definition audit_denial (username denial_reason : string) : auth unit :=
  first ← _should_audit_denial username denial_reason;
  if first : bool then emit_audit_event (SignInDenied (denial_event denial_reason) username) else mret tt.

Definition dispatch (req : HttpRequest) : auth answer :=
  if _is_unprotected_route (http_path req) then mret (Passed None)
  else
    result ← _authenticate_user req;
    match result with
    | inl _ => mret (_deny req)
    | inr username =>
        if decide (username = "") then mret (_deny req)
        else
          state ← auth_state_of username;
          let '(is_admin, is_active, denial_reason) := state in
          if negb is_active then
            _ ← audit_denial username denial_reason;
            mret (_deny req)
          else
            let workspace := if MLFLOW_ENABLE_WORKSPACES then normalize_workspace_header (header "x-mlflow-workspace" req) else None in
            mret (Passed (Some (MkAuthContext username is_admin workspace)))
    end.
End middleware.
