(* ===== verification/AuthFacts.v ===== *)
(** * Only active accounts get through, on credentials that check out *)
From S2P Require Import Prelude PyStrings Json Ownership Permissions Regex RegexSafety Database Repositories RepositoryFacts RepositoryInvariant Users UserFacts.
From S2P Require Import Groups Sessions Cache Resolution Store Requests Validators Hooks AfterRequest BeforeRequest.
From S2P Require Import Kubernetes ProviderRegistry TokenVerification TokenFacts Identity AuthMiddleware.
From Stdlib Require Import Ascii.
#[local] Open Scope Z_scope.

(** ** Names are in canonical case *)

Lemma label_char_lower c : label_char c = true → lower_ascii c = c.
Proof. destruct c as [[] [] [] [] [] [] [] []]; vm_compute; done. Qed.

Lemma lower_fixed s : Forall (λ c, lower_ascii c = c) (chars_of s) → py_lower s = s.
Proof. induction s as [|c s IH]; cbn; [done|]. intros [-> ?]%Forall_cons. by rewrite IH. Qed.

Lemma lower_app s t : py_lower (s +:+ t) = py_lower s +:+ py_lower t.
Proof.
  induction s as [|c s IH]; [done|].
  change (py_lower (String c s +:+ t)) with (String (lower_ascii c) (py_lower (s +:+ t))). by rewrite IH.
Qed.

Lemma valid_label_lower s : valid_label s = true → py_lower s = s.
Proof. intros Hs%valid_label_chars. apply lower_fixed. eapply Forall_impl; [exact Hs|]. exact label_char_lower. Qed.

Lemma sa_username_lower a :
  valid_label (sa_namespace a) = true → valid_label (sa_name a) = true → normalize_username (sa_username a) = sa_username a.
Proof.
  intros Hns Hn. unfold normalize_username, sa_username. rewrite !lower_app (valid_label_lower _ Hns) (valid_label_lower _ Hn). done.
Qed.

Lemma extract_username_lower c fields name : extract_username c fields = inr name → normalize_username name = name.
Proof.
  unfold extract_username. destruct (extract_field_from_payload c fields) as [e|v]; [done|]. intros [= <-].
  apply py_lower_idemp.
Qed.

(** ** Runs of the parts *)

Section facts.
Context `{SqlBackend, PyRe, UserLibs, ColumnTyping, Config, TrackingStore}.
Context `{CacheBackend PermissionResult, CacheBackend Permission, TTLCache unit json, TTLCache provider_key json}.
Context `{TTLCache (string * string) bool}.
Context `{JsonLoads, Encodings, PodFiles, Network, JwtLib, TokenConfig, AuthConfig, IdpClient, MlflowRoutes}.
Variable env : login_env.

Lemma in_store_run {A} (m : M db A) s :
  in_store m s = ((m (au_db s)).1, AuthState (set_db (m (au_db s)).2 (au_world s)) (au_audit s) (au_tokens s)
    (_denial_audit_seen s) (au_session s) (resolved_session s)).
Proof. unfold in_store, in_world, on_store, au_db. by destruct (m (w_db (au_world s))). Qed.

Lemma in_store_ok {A} (m : M db A) s a s' :
  in_store m s = (Ok a, s') → (m (au_db s)).1 = Ok a ∧ au_db s' = (m (au_db s)).2 ∧ resolved_session s' = resolved_session s.
Proof. rewrite in_store_run. intros [= ? <-]. done. Qed.

Lemma in_tokens_ok {A} (m : M token_state A) s a s' :
  in_tokens m s = (Ok a, s') → (m (au_tokens s)).1 = Ok a ∧ resolved_session s' = resolved_session s ∧ au_db s' = au_db s.
Proof. unfold in_tokens. destruct (m (au_tokens s)) as [o t]. by intros [= -> <-]. Qed.

(** Computations that leave [request.state.resolved_session] alone, whatever
    their outcome. *)
Definition keeps_resolved {A} (m : M auth_state A) : Prop := ∀ s, resolved_session (m s).2 = resolved_session s.

Lemma kr_ret {A} (a : A) : keeps_resolved (mret a).
Proof. done. Qed.
Lemma kr_lift {A} (o : outcome A) : keeps_resolved (lift o).
Proof. done. Qed.
Lemma kr_bind {A B} (m : M auth_state A) (f : A → M auth_state B) :
  keeps_resolved m → (∀ a, keeps_resolved (f a)) → keeps_resolved (m ≫= f).
Proof.
  intros Hm Hf s. rewrite M_bind_run. specialize (Hm s). destruct (m s) as [[a|e] s1]; cbn in *; [by rewrite Hf|done].
Qed.
Lemma kr_catch {A} (m : M auth_state A) h : keeps_resolved m → (∀ e, keeps_resolved (h e)) → keeps_resolved (catch m h).
Proof. intros Hm Hh s. unfold catch. specialize (Hm s). destruct (m s) as [[a|e] s1]; cbn in *; [done|by rewrite Hh]. Qed.
Lemma kr_gets {A} (f : auth_state → A) : keeps_resolved (gets f).
Proof. done. Qed.
Lemma kr_in_world {A} (m : M world A) : keeps_resolved (in_world m).
Proof. intros s. unfold in_world. by destruct (m (au_world s)). Qed.
Lemma kr_in_audited {A} (m : M audited A) : keeps_resolved (in_audited m).
Proof. intros s. unfold in_audited. by destruct (m _). Qed.
Lemma kr_in_tokens {A} (m : M token_state A) : keeps_resolved (in_tokens m).
Proof. intros s. unfold in_tokens. by destruct (m _). Qed.
Lemma kr_set_seen f : keeps_resolved (set_seen f).
Proof. done. Qed.
End facts.

Create HintDb resolved.
#[export] Hint Resolve kr_ret kr_lift kr_gets kr_in_world kr_in_audited kr_in_tokens kr_set_seen : resolved.
#[export] Hint Extern 1 (keeps_resolved (in_store _)) => apply kr_in_world : resolved.
#[export] Hint Extern 1 (keeps_resolved (emit_audit_event _)) => apply kr_in_audited : resolved.
(** One step of a [keeps_resolved] goal. *)
Ltac kr_step :=
  first [ solve [auto with resolved] | apply kr_bind; intros | apply kr_catch; intros | progress intros
        | case_match | case_decide ].
Ltac kr := repeat kr_step.

Section dispatch.
Context `{SqlBackend, PyRe, UserLibs, ColumnTyping, Config, TrackingStore}.
Context `{CacheBackend PermissionResult, CacheBackend Permission, TTLCache unit json, TTLCache provider_key json}.
Context `{TTLCache (string * string) bool}.
Context `{JsonLoads, Encodings, PodFiles, Network, JwtLib, TokenConfig, AuthConfig, IdpClient, MlflowRoutes}.
Variable env : login_env.

(** ** What the sender presented *)

(** A password that verifies against the unexpired hash of an account. *)
Definition password_of (auth_header name : string) (d : db) : Prop :=
  ∃ encoded text u password, credentials auth_header = Ok encoded ∧ b64decode_utf8 encoded = Some text ∧
    py_split_once ":" text = Some (u, password) ∧ name = py_lower u ∧
    ∃ v, v ∈ users d ∧ u_username v = name ∧ (∀ e, u_password_expiration v = Some e → le_now env ≤ e) ∧
      check_password_hash (u_password_hash v) password = true.

(** A token that one provider's policy accepts, and that names this account. *)
Definition token_of (auth_header name : string) : Prop :=
  ∃ token c p, credentials auth_header = Ok token ∧ _resolve_provider token = Ok p ∧ accepted_by p token c ∧
    if decide (pr_type p = "k8s") then
      ∃ a, parse_service_account (get_key "sub" c) = Ok a ∧ sa_namespace a ∈ namespace_allowlist p ∧ name = sa_username a
    else extract_username c OIDC_USERNAME_FIELD = inr name.

(** A live session of an existing user. *)
Definition session_of (name : string) (s : auth_state) : Prop :=
  ∃ cookie session_id u row, au_session s = Some cookie ∧ get_key "session_id" cookie = JStr session_id ∧
    (u, row) ∈ AuthSessionRepository.resolvable (le_now env) session_id (au_db s) ∧ u_username u = name.

Definition presented (req : HttpRequest) (s : auth_state) (name : string) : Prop :=
  match header "authorization" req with
  | Some h =>
      if startswith h "Basic " then password_of h name (au_db s)
      else if startswith h "Bearer " then token_of h name
      else session_of name s
  | None => session_of name s
  end.

(** ** The three ways *)

Lemma basic_presented h s name s' :
  wf_db (au_db s) → _authenticate_basic_auth env h s = (Ok (inr name), s') →
  password_of h name (au_db s) ∧ resolved_session s' = resolved_session s.
Proof.
  intros Hwf (encoded&s1&[Hcred ->]%lift_ok&Hrun)%catch_inr%M_bind_ok.
  apply M_bind_ok in Hrun as (text&s1&[Htext ->]%lift_ok&Hrun).
  assert (b64decode_utf8 encoded = Some text) as Hdecoded by (destruct (b64decode_utf8 encoded); by simplify_eq).
  destruct (py_split_once ":" text) as [[u password]|] eqn:Hsplit; [|done].
  apply M_bind_ok in Hrun as (verified&s1&(Hv&_&Hres)%in_store_ok&[Heq ->]%ret_ok).
  destruct verified; [|done]. injection Heq as ->. split; [|done].
  destruct (authenticate_spec (le_now env) (py_lower u) password (au_db s) Hwf) as (b&Hb&Hiff).
  unfold SqlAlchemyStore.authenticate_user in Hv. rewrite Hb in Hv. injection Hv as ->.
  destruct (proj1 Hiff eq_refl) as (v&Hin&Hname&Hexp&Hhash).
  exists encoded, text, u, password. repeat (split; [done|]). exists v.
  unfold normalize_username in Hname. rewrite py_lower_idemp in Hname. done.
Qed.

Lemma kr_provision_user username display_name is_admin sa names :
  keeps_resolved (provision_user env username display_name is_admin sa names).
Proof. unfold provision_user, set_user_groups. kr. Qed.

Lemma kr_maybe_provision username token payload : keeps_resolved (_maybe_provision_bearer_user env username token payload).
Proof.
  pose proof kr_provision_user. unfold _maybe_provision_bearer_user, user_is_known, provision_bearer_user. kr; try done.
Qed.

Lemma kr_service_account payload p : keeps_resolved (_authenticate_service_account env payload p).
Proof.
  pose proof kr_provision_user.
  unfold _authenticate_service_account, _provision_service_account, user_is_known, _should_audit_denial. kr; try done.
Qed.

Lemma service_account_presented payload p s name s' :
  _authenticate_service_account env payload p s = (Ok (inr name), s') →
  ∃ a, parse_service_account (get_key "sub" payload) = Ok a ∧ sa_namespace a ∈ namespace_allowlist p ∧ name = sa_username a.
Proof.
  unfold _authenticate_service_account. destruct (parse_service_account _) as [a|e]; [|done].
  unfold namespace_is_allowed. destruct (bool_decide _) eqn:Hns; cbn [negb].
  - apply bool_decide_eq_true in Hns. intros (u&s1&_&[[= ->] _]%ret_ok)%M_bind_ok. eauto.
  - intros (f&s1&_&(u&s2&_&[[=] _]%ret_ok)%M_bind_ok)%M_bind_ok.
Qed.

Lemma bearer_presented h s name s' :
  jwks_from_their_source (au_tokens s) → _authenticate_bearer_token env h s = (Ok (inr name), s') →
  token_of h name ∧ resolved_session s' = resolved_session s.
Proof.
  intros Hkeys (token&s1&[Hcred ->]%lift_ok&Hrun)%catch_inr%M_bind_ok.
  apply M_bind_ok in Hrun as (c&s1&(Hc&Hres&_)%in_tokens_ok&Hrun).
  destruct (keeps_validate token (au_tokens s) Hkeys) as [_ Hvalid]. destruct (Hvalid c Hc) as (p&Hp&Hacc).
  unfold _provider_for, resolve_token_provider in Hrun. rewrite Hp in Hrun. cbn [mbind option_bind] in Hrun.
  unfold token_of. setoid_rewrite Hcred.
  destruct (decide (pr_type p = "k8s")) as [Hk|Hk].
  - split; [|pose proof (kr_service_account c p s1) as Hkr; rewrite Hrun in Hkr; cbn in Hkr; congruence].
    exists token, c, p. rewrite decide_True //. repeat (split; [done|]). exact (service_account_presented _ _ _ _ _ Hrun).
  - destruct (extract_username c OIDC_USERNAME_FIELD) as [e|u] eqn:Hu; [done|].
    apply M_bind_ok in Hrun as (x&s2&Hprov&[[= ->] ->]%ret_ok).
    split; [|pose proof (kr_maybe_provision u token c s1) as Hkr; rewrite Hprov in Hkr; cbn in Hkr; congruence].
    exists token, c, p. rewrite decide_False //.
Qed.

Lemma keep_session_alive_ok cookie username s name s' :
  keep_session_alive env cookie username s = (Ok (inr name), s') →
  name = username ∧ au_db s' = au_db s ∧ resolved_session s' = resolved_session s.
Proof.
  unfold keep_session_alive. destruct (_is_session_expired _ _); cbn [negb].
  - intros (r&s1&[_ ->]%lift_ok&Hrun)%M_bind_ok. destruct r as [cookie'|].
    + by apply M_bind_ok in Hrun as (x&s1&[= _ <-]&[[= ->] ->]%ret_ok).
    + by apply M_bind_ok in Hrun as (x&s1&_&[[=] _]%ret_ok).
  - by intros [[= ->] ->]%ret_ok.
Qed.

Lemma session_presented s name s' :
  _authenticate_session env s = (Ok (inr name), s') →
  session_of name s ∧ au_db s' = au_db s ∧
  ∃ u r, u ∈ users (au_db s) ∧ u_username u = name ∧ resolved_session s' = Some r ∧
    rs_is_admin r = u_is_admin u ∧ rs_is_active r = u_active u.
Proof.
  intros (session&s1&[-> ->]%gets_ok&Hrun)%M_bind_ok. destruct (au_session s) as [cookie|] eqn:Hcookie; [|done].
  apply catch_inr in Hrun. cbv zeta in Hrun. destruct (json_truthy _); [|done]. cbn [negb] in Hrun.
  apply M_bind_ok in Hrun as (session_id&s1&[Hid ->]%lift_ok&Hrun).
  apply M_bind_ok in Hrun as (resolved&s1&(Hres&Hdb&_)%in_store_ok&Hrun).
  destruct resolved as [r|]; [|by apply M_bind_ok in Hrun as (x&s2&_&[[=] _]%ret_ok)].
  apply M_bind_ok in Hrun as (x&s2&[= _ <-]&(->&Hdb2&Hr)%keep_session_alive_ok).
  unfold SqlAlchemyStore.resolve_auth_session, AuthSessionRepository.resolve in Hres, Hdb. case_decide; [done|].
  destruct (managed _ _) as [o d] eqn:Hm. cbn in Hres, Hdb. subst o. rewrite managed_ok in Hm.
  apply M_bind_ok in Hm as (row&d1&[Hrow ->]%ask_ok&[Heq ->]%ret_ok). destruct row as [[u row]|]; [|done].
  apply query_one_or_none_ok in Hrow. injection Heq as ->.
  assert ((u, row) ∈ AuthSessionRepository.resolvable (le_now env) session_id (au_db s)) as Hin by (rewrite Hrow; left).
  split; [|split; [rewrite Hdb2; exact Hdb|]].
  - exists cookie, session_id, u, row. split; [done|]. split; [|done]. destruct (get_key "session_id" cookie); by simplify_eq.
  - exists u, (MkResolved (u_username u) (u_is_admin u) (u_active u) (s_expires_at row)). split; [|done].
    unfold AuthSessionRepository.resolvable in Hin. apply list_elem_of_bind in Hin as (v&Hv&Hvin).
    apply list_elem_of_bind in Hv as (w&Hw&_). case_decide; [|by apply not_elem_of_nil in Hw].
    apply list_elem_of_singleton in Hw. by simplify_eq.
Qed.

(** ** The account behind the name *)

Lemma get_user_auth_state_ok name s is_admin reason s' :
  _get_user_auth_state name s = (Ok (is_admin, true, reason), s') →
  ∃ u, u ∈ users (au_db s') ∧ u_username u = normalize_username name ∧ u_active u = true ∧ u_is_admin u = is_admin.
Proof.
  intros [Hrun|(e&s1&_&[[=] _]%ret_ok)]%catch_cases. apply M_bind_ok in Hrun as ([u gs]&s2&(Hp&Hdb&_)%in_store_ok&[Heq ->]%ret_ok).
  unfold SqlAlchemyStore.get_user_profile, UserRepository.get_profile in Hp, Hdb. cbv zeta in Hp, Hdb.
  destruct (managed _ _) as [o d] eqn:Hm. cbn in Hp, Hdb. subst o. rewrite managed_ok in Hm.
  apply M_bind_ok in Hm as (v&d1&[Hv ->]%ask_ok&Hm). destruct v as [v|]; [|done].
  apply M_bind_ok in Hm as (gs'&d1&[_ ->]%gets_ok&[[= -> _] ->]%ret_ok).
  apply query_one_or_none_ok in Hv. exists v. rewrite Hdb.
  assert (v ∈ filter (λ u, u_username u = normalize_username name) (users (au_db s))) as [Hname Hin]%list_elem_of_filter
    by (rewrite Hv; left).
  cbn in Heq. destruct (u_active v); [|done]. by injection Heq as ->.
Qed.

(** The account [name] stands for, as the context of the request says. *)
Definition active_account (name : string) (is_admin : bool) (d : db) : Prop :=
  ∃ u, u ∈ users d ∧ u_username u = name ∧ u_active u = true ∧ u_is_admin u = is_admin.

Lemma authenticated req s name s' :
  wf_db (au_db s) → jwks_from_their_source (au_tokens s) → resolved_session s = None →
  _authenticate_user env req s = (Ok (inr name), s') →
  presented req s name ∧
  ((resolved_session s' = None ∧ normalize_username name = name) ∨
   ∃ u r, u ∈ users (au_db s') ∧ u_username u = name ∧ resolved_session s' = Some r ∧
     rs_is_admin r = u_is_admin u ∧ rs_is_active r = u_active u).
Proof.
  intros Hwf Hkeys Hnone.
  assert (∀ t, _authenticate_session env s = (Ok (inr name), t) → session_of name s ∧
    ∃ u r, u ∈ users (au_db t) ∧ u_username u = name ∧ resolved_session t = Some r ∧
      rs_is_admin r = u_is_admin u ∧ rs_is_active r = u_active u) as Hsession.
  { intros t (Hs&Hdb&u&r&Hrest)%session_presented. split; [done|]. exists u, r. by rewrite Hdb. }
  unfold _authenticate_user, presented. destruct (header "authorization" req) as [h|]; [|intros []%Hsession; auto].
  destruct (startswith h "Basic "); [|destruct (startswith h "Bearer ")].
  - intros [Hp Hr]%basic_presented; [|done]. split; [done|]. left. rewrite Hr. split; [done|].
    destruct Hp as (?&?&u&?&_&_&_&->&_). apply py_lower_idemp.
  - intros [Ht Hr]%bearer_presented; [|done]. split; [done|]. left. rewrite Hr. split; [done|].
    destruct Ht as (token&c&p&_&_&_&Ht). case_decide as Hk; [|exact (extract_username_lower _ _ _ Ht)].
    destruct Ht as (a&(_&?&?)%parse_service_account_Ok&_&->). by apply sa_username_lower.
  - intros []%Hsession. auto.
Qed.

Lemma auth_state_of_ok name s is_admin reason s' :
  ((resolved_session s = None ∧ normalize_username name = name) ∨
   ∃ u r, u ∈ users (au_db s) ∧ u_username u = name ∧ resolved_session s = Some r ∧
     rs_is_admin r = u_is_admin u ∧ rs_is_active r = u_active u) →
  auth_state_of name s = (Ok (is_admin, true, reason), s') → active_account name is_admin (au_db s').
Proof.
  intros Hacc (resolved&s1&[-> ->]%gets_ok&Hrun)%M_bind_ok.
  destruct Hacc as [[Hnone Hname]|(u&r&Hin&Hname&Hsome&Hadmin&Hactive)].
  - rewrite Hnone in Hrun. destruct (get_user_auth_state_ok _ _ _ _ _ Hrun) as (u&Hin&Hu&Hrest). exists u. by rewrite -Hname.
  - rewrite Hsome in Hrun. apply ret_ok in Hrun as [[= -> Ha _] ->]. exists u. rewrite -Hadmin -Hactive. done.
Qed.

Lemma deny_is_no_pass req c : Passed c ≠ _deny req.
Proof. unfold _deny, _handle_auth_redirect. repeat case_match; discriminate. Qed.

Lemma passed_without_account req s s' : dispatch env req s = (Ok (Passed None), s') → _is_unprotected_route (http_path req) = true.
Proof.
  unfold dispatch. destruct (_is_unprotected_route _) eqn:Hpath; [done|].
  intros (result&s1&_&Hrun)%M_bind_ok. destruct result as [e|name]; [by apply ret_ok in Hrun as [?%deny_is_no_pass _]|].
  case_decide; [by apply ret_ok in Hrun as [?%deny_is_no_pass _]|].
  apply M_bind_ok in Hrun as ([[is_admin is_active] reason]&s2&_&Hrun).
  destruct is_active; cbn [negb] in Hrun; [by apply ret_ok in Hrun as [? _]|by apply M_bind_ok in Hrun as (x&s3&_&[?%deny_is_no_pass _]%ret_ok)].
Qed.

Lemma passed_with_account req s ctx s' :
  wf_db (au_db s) → jwks_from_their_source (au_tokens s) → resolved_session s = None →
  dispatch env req s = (Ok (Passed (Some ctx)), s') →
  presented req s (username ctx) ∧ active_account (username ctx) (is_admin ctx) (au_db s').
Proof.
  intros Hwf Hkeys Hnone. unfold dispatch. destruct (_is_unprotected_route _); [by intros [? _]%ret_ok|].
  intros (result&s1&Hauth&Hrun)%M_bind_ok. destruct result as [e|name]; [by apply ret_ok in Hrun as [?%deny_is_no_pass _]|].
  case_decide; [by apply ret_ok in Hrun as [?%deny_is_no_pass _]|].
  destruct (authenticated req s name s1 Hwf Hkeys Hnone Hauth) as [Hpresented Hacc].
  apply M_bind_ok in Hrun as ([[is_admin is_active] reason]&s2&Hstate&Hrun).
  destruct is_active; cbn [negb] in Hrun; [|by apply M_bind_ok in Hrun as (x&s3&_&[?%deny_is_no_pass _]%ret_ok)].
  apply ret_ok in Hrun as [[= ->] ->]. split; [done|]. exact (auth_state_of_ok _ _ _ _ _ Hacc Hstate).
Qed.

(** C6: A request passes authentication with a context only if its sender
    presented a password that verifies, a token that one provider's policy
    accepts or a live session, and the account of exactly that name exists at
    that moment, is active, and is an administrator just when the context says
    so; without a context it passes only on an unprotected prefix. *)
Theorem only_active_accounts_get_through req s ctx s' :
  wf_db (au_db s) → jwks_from_their_source (au_tokens s) → resolved_session s = None →
  dispatch env req s = (Ok (Passed ctx), s') →
  match ctx with
  | None => _is_unprotected_route (http_path req) = true
  | Some ctx => presented req s (username ctx) ∧ active_account (username ctx) (is_admin ctx) (au_db s')
  end.
Proof.
  intros Hwf Hkeys Hnone Hrun. destruct ctx as [ctx|]; [exact (passed_with_account _ _ _ _ Hwf Hkeys Hnone Hrun)|exact (passed_without_account _ _ _ Hrun)].
Qed.
End dispatch.
