(* ===== verification/ProvisioningFacts.v ===== *)
(** * Accounts created by a bearer token

    When one is created and what it may be, and where this path and the login
    disagree. *)
From S2P Require Import Prelude PyStrings Json Ownership Permissions Regex RegexSafety Database Repositories RepositoryFacts RepositoryInvariant Users UserFacts.
From S2P Require Import Groups Sessions Cache Resolution ResolutionFacts Store StoreFacts StoreCaches StoreCoherence Requests Validators Hooks AfterRequest BeforeRequest.
From S2P Require Import Kubernetes ProviderRegistry TokenVerification Identity AuthMiddleware AuthFacts.

(** ** The groups a user is put in touch nothing else *)

(** The tables that membership does not concern. *)
Definition beside_groups (d : db) := (users d, user_identities d, auth_sessions d, auth_states d, perms d).
Definition users_kept {A} (m : M db A) : Prop := ∀ d, beside_groups (m d).2 = beside_groups d.

Section users_kept.
Context `{SqlBackend}.

Lemma uk_ret {A} (a : A) : users_kept (mret a).
Proof. done. Qed.
Lemma uk_gets {A} (f : db → A) : users_kept (gets f).
Proof. done. Qed.
Lemma uk_bind {A B} (m : M db A) (f : A → M db B) : users_kept m → (∀ a, users_kept (f a)) → users_kept (m ≫= f).
Proof.
  intros Hm Hf d. rewrite M_bind_run. specialize (Hm d). destruct (m d) as [[a|e] d1]; cbn in *; [by rewrite Hf|done].
Qed.
Lemma uk_managed {A} (m : M db A) : users_kept m → users_kept (managed m).
Proof. intros Hm d. rewrite managed_run. specialize (Hm d). by destruct (m d) as [[a|e] d1]. Qed.

Lemma uk_create_groups names : users_kept (GroupRepository.create_groups names).
Proof.
  apply uk_managed. induction names as [|n names IH]; cbn [GroupRepository.create_missing]; [apply uk_ret|].
  apply uk_bind; [apply uk_gets|]. intros o. apply uk_bind; [|done]. destruct o; [apply uk_ret|].
  intros d. unfold GroupRepository.insert_group. by destruct (flush_unique _ _).
Qed.

Lemma uk_write_memberships f : users_kept (GroupRepository.write_memberships f).
Proof. intros d. unfold GroupRepository.write_memberships. by destruct (flush_unique _ _). Qed.

Lemma uk_set_groups username names : users_kept (GroupRepository.set_groups_for_user username names).
Proof.
  unfold GroupRepository.set_groups_for_user. apply uk_managed, uk_bind; [done|]. intros u.
  apply uk_bind; [apply uk_gets|]. intros gs. apply uk_bind; [apply uk_write_memberships|]. intros _.
  induction (dict_fromkeys names) as [|n ns IH]; cbn [GroupRepository.add_memberships]; [apply uk_ret|].
  apply uk_bind; [done|]. intros g. apply uk_bind; [apply uk_write_memberships|done].
Qed.
End users_kept.

(** ** One provisioning *)

Section provisioning.
Context `{SqlBackend, PyRe, UserLibs, ColumnTyping, Config, TrackingStore}.
Context `{CacheBackend PermissionResult, CacheBackend Permission, TTLCache unit json, TTLCache provider_key json}.
Context `{TTLCache (string * string) bool}.
Context `{JsonLoads, Encodings, PodFiles, Network, JwtLib, TokenConfig, AuthConfig}.
Variable env : login_env.

Definition unknown (username : string) (d : db) : Prop :=
  ∀ u, u ∈ users d → u_username u ≠ normalize_username username.

Lemma get_profile_unknown username d :
  unknown username d → UserRepository.get_profile username d = (Raise (MlflowException RESOURCE_DOES_NOT_EXIST), d).
Proof. intros Hno. unfold UserRepository.get_profile. cbv zeta. autorewrite with run. by rewrite filter_username_none. Qed.

(** Creating an account that does not exist: one new row, or nothing. *)
Lemma create_user_unknown username display_name is_admin sa w :
  unknown username (a_db w) →
  create_user env username display_name is_admin sa None w =
    match UserRepository.create (le_salt env) username (le_token env) display_name is_admin sa (a_db w) with
    | (Ok _, d) => (Ok true, Audited d (audit w))
    | (Raise e, d) => (Raise e, Audited d (audit w))
    end.
Proof.
  intros Hno. unfold create_user. rewrite catch_run M_bind_run on_db_run get_profile_unknown //. cbn [fst snd].
  destruct (decide _) as [_|[]]; [|done]. rewrite M_bind_run on_db_run. cbn [a_db audit].
  by destruct (UserRepository.create _ _ _ _ _ _ _) as [[u|e] d].
Qed.

(** What [provision_user] leaves of everything but groups and memberships: the
    same, or one more user. *)
Definition one_more (username : string) (is_admin sa : bool) (s s' : auth_state) : Prop :=
  beside_groups (au_db s') = beside_groups (au_db s) ∨
  ∃ u, beside_groups (au_db s') = beside_groups (set_users (λ us, us ++ [u]) (au_db s)) ∧ u_username u = normalize_username username ∧
    u_is_admin u = is_admin ∧ u_is_service_account u = sa.

Lemma users_in_store {A} (m : M db A) s : users_kept m → beside_groups (au_db (in_store m s).2) = beside_groups (au_db s).
Proof. intros Hm. rewrite in_store_run. apply Hm. Qed.

Lemma users_set_user_groups username names s :
  username ≠ "" → beside_groups (au_db (set_user_groups username names s).2) = beside_groups (au_db s).
Proof.
  intros Hne. unfold set_user_groups, in_world, au_db.
  assert (arguments_given (SetUserGroups username names)) as Hgiven by (repeat constructor; done).
  rewrite run_call_run //. cbn [body]. unfold discard.
  pose proof (uk_set_groups username names (w_db (au_world s))) as Hkept.
  autorewrite with run. unfold SqlAlchemyStore.set_user_groups.
  destruct (GroupRepository.set_groups_for_user username names _) as [[[]|e] d]; cbn in *; [|exact Hkept].
  rewrite (invalidation_keeps_db (SetUserGroups username names)). exact Hkept.
Qed.

Lemma in_audited_run {A} (m : M audited A) s :
  in_audited m s =
    ((m (Audited (au_db s) (au_audit s))).1,
     AuthState (set_db (a_db (m (Audited (au_db s) (au_audit s))).2) (au_world s)) (audit (m (Audited (au_db s) (au_audit s))).2)
       (au_tokens s) (_denial_audit_seen s) (au_session s) (resolved_session s)).
Proof. unfold in_audited. by destruct (m _). Qed.

Lemma provision_user_run username display_name is_admin sa names s :
  username ≠ "" → unknown username (au_db s) →
  let d := (UserRepository.create (le_salt env) username (le_token env) display_name is_admin sa (au_db s)) in
  beside_groups (au_db (provision_user env username display_name is_admin sa names s).2) = beside_groups d.2.
Proof.
  intros Hne Hno. cbv zeta. unfold provision_user. rewrite M_bind_run in_audited_run create_user_unknown //. cbn [a_db audit].
  destruct (UserRepository.create _ _ _ _ _ _ _) as [[u|e] d]; cbn [fst snd a_db audit]; [|done].
  rewrite M_bind_run lift_run. destruct names as [names|e]; [|done]. cbn [fst snd].
  rewrite M_bind_run in_store_run. pose proof (uk_create_groups names d) as Hgroups.
  unfold SqlAlchemyStore.populate_groups. cbn [au_db au_world w_db set_db].
  destruct (GroupRepository.create_groups names d) as [[[]|e] d1]; cbn [fst snd] in *; [|done].
  rewrite users_set_user_groups //.
Qed.

Lemma user_is_known_run username s :
  user_is_known username s =
    (Ok (Some (bool_decide (filter (λ u, u_username u = normalize_username username) (users (au_db s)) ≠ []))), s).
Proof.
  unfold user_is_known. rewrite catch_run M_bind_run in_store_run.
  unfold SqlAlchemyStore.has_user, UserRepository.exist. autorewrite with run. cbn [fst snd].
  f_equal. destruct s as [w log tokens seen session resolved]. cbn. by rewrite set_db_id.
Qed.

Lemma unknown_of_filter username d : filter (λ u, u_username u = normalize_username username) (users d) = [] → unknown username d.
Proof.
  intros Hf u Hu Hn. assert (u ∈ filter (λ u, u_username u = normalize_username username) (users d)) as Hin
    by (by apply list_elem_of_filter). rewrite Hf in Hin. by apply not_elem_of_nil in Hin.
Qed.

(** ** The gate *)

Definition claimed (user_groups : json) : list string := strings (default [] (members user_groups)).

Lemma strings_of_names names : strings (JStr <$> names) = names.
Proof. induction names as [|n ns IH]; [done|]. change (n :: strings (JStr <$> ns) = n :: ns). by rewrite IH. Qed.

Lemma any_in_true names user_groups : any_in names user_groups = Ok true → ∃ g, g ∈ names ∧ g ∈ claimed user_groups.
Proof.
  unfold any_in, claimed. destruct names as [|n names]; [done|]. destruct (members user_groups) as [l|]; [|done].
  intros Hok. injection Hok as Hex.
  apply (existsb_exists (λ group, bool_decide (group ∈ strings l)) (n :: names)) in Hex as (g&Hg&Hin%bool_decide_eq_true).
  exists g. by rewrite list_elem_of_In.
Qed.

Lemma users_after_catch username display_name is_admin sa names s :
  username ≠ "" → unknown username (au_db s) →
  one_more username is_admin sa s
    (catch (provision_user env username display_name is_admin sa names) (λ _, mret tt) s).2.
Proof.
  intros Hne Hno. pose proof (provision_user_run username display_name is_admin sa names s Hne Hno) as Hrun.
  assert (beside_groups (au_db (catch (provision_user env username display_name is_admin sa names) (λ _, mret tt) s).2) =
    beside_groups (au_db (provision_user env username display_name is_admin sa names s).2)) as Hcatch.
  { rewrite catch_run. by destruct (provision_user _ _ _ _ _ _ s) as [[[]|e] s1]. }
  unfold one_more. rewrite Hcatch Hrun create_run. destruct (_validate_username _) as [[]|]; [|by left].
  cbv zeta. case_decide; [|by left]. right. eexists. split; [reflexivity|]. done.
Qed.

Lemma provision_bearer_user_gated username payload p user_groups s :
  username ≠ "" → unknown username (au_db s) →
  let s' := (provision_bearer_user env username payload p user_groups s).2 in
  au_db s' = au_db s ∨
  (∃ g, g ∈ ADMIN_GROUPS ++ ALLOWED_GROUPS ∧ g ∈ claimed user_groups) ∧
  ∃ is_admin, one_more username is_admin false s s' ∧
    (is_admin = true → OIDC_TRUST_BEARER_GROUP_CLAIMS = true ∧ admin_source p = "claims" ∧
      ∃ g, g ∈ ADMIN_GROUPS ∧ g ∈ claimed user_groups).
Proof.
  intros Hne Hno. cbv zeta. unfold provision_bearer_user. rewrite M_bind_run lift_run. cbn [fst snd].
  destruct (any_in ADMIN_GROUPS user_groups) as [is_admin_claim|e] eqn:Eadmin; [|by left].
  rewrite M_bind_run. destruct is_admin_claim.
  - rewrite M_ret_run. cbn [fst snd negb]. right.
    destruct (any_in_true _ _ Eadmin) as (g&Hg&Hclaimed). split; [exists g; split; [apply elem_of_app; by left|done]|].
    eexists. split; [by apply users_after_catch|]. intros Hadmin%andb_true_iff. destruct Hadmin as [Htrust Hsource].
    unfold admin_from_claims in Hsource. case_decide as Hclaims; [done|]. cbn in Htrust. eauto.
  - rewrite lift_run. cbn [fst snd]. destruct (any_in ALLOWED_GROUPS user_groups) as [[]|e] eqn:Eallowed; cbn [negb]; [|by left..].
    right. destruct (any_in_true _ _ Eallowed) as (g&Hg&Hclaimed). split; [exists g; split; [apply elem_of_app; by right|done]|].
    eexists. split; [by apply users_after_catch|]. done.
Qed.

(** On which grounds a token of an OIDC provider is given an account, and what
    that account is. *)
Definition provisioned_from_claims (username token : string) (payload : claims) (p : ProviderConfig) (s s' : auth_state) : Prop :=
  pr_type p ≠ "k8s" ∧ OIDC_PROVISION_ON_BEARER_AUTH = true ∧ unknown username (au_db s) ∧
  truthy (audience p) = true ∧ truthy (issuer p) = true ∧
  ∃ user_groups, bearer_groups (JStr token) payload = Ok user_groups ∧
    (∃ g, g ∈ ADMIN_GROUPS ++ ALLOWED_GROUPS ∧ g ∈ claimed user_groups) ∧
    ∃ is_admin, one_more username is_admin false s s' ∧
      (is_admin = true → OIDC_TRUST_BEARER_GROUP_CLAIMS = true ∧ admin_source p = "claims" ∧
        ∃ g, g ∈ ADMIN_GROUPS ∧ g ∈ claimed user_groups).

(** The same for a service account of a cluster: its namespace is on the list of
    this provider. No opt-in is asked for, and no administrator is made. *)
Definition provisioned_from_cluster (payload : claims) (p : ProviderConfig) (s s' : auth_state) : Prop :=
  pr_type p = "k8s" ∧
  ∃ account, parse_service_account (get_key "sub" payload) = Ok account ∧ sa_namespace account ∈ namespace_allowlist p ∧
    unknown (sa_username account) (au_db s) ∧ one_more (sa_username account) false true s s'.

Lemma maybe_provision_gated username token payload p s :
  username ≠ "" → resolve_token_provider token = Ok p →
  let s' := (_maybe_provision_bearer_user env username token payload s).2 in
  au_db s' = au_db s ∨ provisioned_from_claims username token payload p s s'.
Proof.
  intros Hne Hp. cbv zeta. unfold _maybe_provision_bearer_user, provisioned_from_claims. destruct OIDC_PROVISION_ON_BEARER_AUTH; [|by left]. cbn [negb].
  rewrite M_bind_run user_is_known_run. cbn [fst snd]. case_bool_decide as Hf; [by left|].
  apply unknown_of_filter in Hf. rewrite Hp.
  destruct (truthy (audience p)) eqn:Haud, (truthy (issuer p)) eqn:Hiss; cbn [andb negb]; try by left.
  case_decide as Htype; [by left|]. destruct (bearer_groups (JStr token) payload) as [user_groups|e] eqn:Hgroups; [|by left].
  destruct (provision_bearer_user_gated username payload p user_groups s Hne Hf) as [?|[Hg Hadmin]]; [by left|].
  right. split_and!; [done..|]. by exists user_groups.
Qed.

Lemma audit_keeps_db e s : au_db (emit_audit_event e s).2 = au_db s.
Proof. unfold emit_audit_event. by rewrite in_audited_run. Qed.
Lemma denial_keeps_db username reason s : ∃ b s', _should_audit_denial username reason s = (Ok b, s') ∧ au_db s' = au_db s.
Proof.
  unfold _should_audit_denial. rewrite M_bind_run gets_run. destruct (ttl_get _ _); [by do 2 eexists|].
  rewrite M_bind_run. by do 2 eexists.
Qed.

Lemma service_account_gated payload p s :
  pr_type p = "k8s" →
  let s' := (_authenticate_service_account env payload p s).2 in
  au_db s' = au_db s ∨ provisioned_from_cluster payload p s s'.
Proof.
  intros Hk. cbv zeta. unfold _authenticate_service_account, provisioned_from_cluster.
  destruct (parse_service_account _) as [account|e]; [|by left].
  unfold namespace_is_allowed. case_bool_decide as Hns; cbn [negb].
  2:{ left. rewrite M_bind_run. destruct (denial_keeps_db (sa_username account) "namespace_not_allowed" s) as (b&s1&->&Hs1).
      rewrite M_bind_run. destruct b; [|exact Hs1].
      destruct (emit_audit_event _ s1) as [[[]|e] s2] eqn:He; pose proof (audit_keeps_db (NamespaceDenied (sa_username account) (pr_id p) (sa_namespace account)) s1) as Hs2;
        rewrite He in Hs2; cbn in *; congruence. }
  assert (∀ m : M auth_state unit, (m s).1 = Ok tt → (_ ← m; mret (inr (sa_username account) : auth_error + string)) s = (Ok (inr (sa_username account)), (m s).2)) as Hthen.
  { intros m Hm. rewrite M_bind_run. destruct (m s) as [o s1]. cbn in Hm. by subst o. }
  assert ((_provision_service_account env account p s).1 = Ok tt) as Htotal.
  { unfold _provision_service_account. rewrite M_bind_run user_is_known_run. case_bool_decide; [done|]. rewrite catch_run.
    by match goal with |- context [match ?r with _ => _ end] => destruct r as [[[]|e] s1] end. }
  rewrite Hthen //. cbn [snd]. revert Htotal. unfold _provision_service_account. rewrite M_bind_run user_is_known_run.
  case_bool_decide as Hf; [by left|]. apply unknown_of_filter in Hf. intros _. right. split; [done|]. exists account. split_and!; [done..|].
  assert (sa_username account ≠ "") as Hne by (unfold sa_username; by destruct (sa_name account)).
  pose proof (users_after_catch (sa_username account) (sa_namespace account +:+ "/" +:+ sa_name account +:+ " (service account)") false true (Ok [sa_group account]) s Hne Hf) as Hone.
  unfold one_more in *. rewrite catch_run in Hone. rewrite catch_run M_bind_run.
  destruct (provision_user _ _ _ _ _ _ s) as [[[]|e] s1]; [|exact Hone].
  pose proof (audit_keeps_db (ServiceAccountProvisioned (sa_username account) (pr_id p) (sa_namespace account) (sa_name account)) s1) as Ha.
  destruct (emit_audit_event _ s1) as [[[]|e] s2]; cbn in *; by rewrite Ha.
Qed.

Lemma extracted_name_not_empty payload username : extract_username payload OIDC_USERNAME_FIELD = inr username → username ≠ "".
Proof.
  unfold extract_username, extract_field_from_payload. case_decide; [done|].
  assert (∀ fields v, extract_from_fields payload fields = inr v → v ≠ "") as Hv.
  { induction fields as [|f fields IH]; intros v; cbn; [done|]. destruct (payload !! f) as [[]|]; try done; try apply IH.
    case_decide; [apply IH|]. by intros [= <-]. }
  destruct (extract_from_fields _ _) as [e|v] eqn:E; [done|]. intros [= <-]. apply Hv in E.
  unfold normalize_username. by destruct v.
Qed.

Lemma same_start_claims username token payload p s s1 s' :
  au_db s1 = au_db s → provisioned_from_claims username token payload p s1 s' ↔ provisioned_from_claims username token payload p s s'.
Proof. intros E. unfold provisioned_from_claims, one_more. by rewrite E. Qed.
Lemma same_start_cluster payload p s s1 s' :
  au_db s1 = au_db s → provisioned_from_cluster payload p s1 s' ↔ provisioned_from_cluster payload p s s'.
Proof. intros E. unfold provisioned_from_cluster, one_more. by rewrite E. Qed.

(** C28: Authenticating by bearer token, of whatever provider, leaves the
    database alone, or adds one account of an unknown name at most and touches
    nothing else but groups and memberships, and only for a validated token.
    From a provider that is no cluster: when the deployment opted in, the
    provider pins audience and issuer, and a claimed group is an administrator
    or allowed group; the account is an administrator only when bearer group
    claims are trusted and the provider may confer it through an administrator
    group. From a cluster, where no opt-in is asked for: for a well-formed
    service account whose namespace is on the provider's allowlist; the account
    is a service account and never an administrator. *)
Theorem bearer_provisioning_is_gated auth_header s :
  let s' := (_authenticate_bearer_token env auth_header s).2 in
  au_db s' = au_db s ∨
  ∃ token payload p, credentials auth_header = Ok token ∧ (validate_token token (au_tokens s)).1 = Ok payload ∧
    resolve_token_provider token = Ok p ∧
    ((∃ username, extract_username payload OIDC_USERNAME_FIELD = inr username ∧ provisioned_from_claims username token payload p s s') ∨
     provisioned_from_cluster payload p s s').
Proof.
  cbv zeta. unfold _authenticate_bearer_token. rewrite catch_run M_bind_run lift_run.
  destruct (credentials auth_header) as [token|e] eqn:Hcred; [|by left]. rewrite M_bind_run.
  assert (∀ A (m : M token_state A), (in_tokens m s).1 = (m (au_tokens s)).1 ∧ au_db (in_tokens m s).2 = au_db s) as Htok
    by (intros A m; unfold in_tokens; by destruct (m (au_tokens s))).
  destruct (Htok _ (validate_token token)) as [Hv Hdb]. destruct (in_tokens (validate_token token) s) as [[payload|e] s1]; cbn in Hv, Hdb; [|by left].
  assert (∀ (m : M auth_state (auth_error + string)), match m s1 with (Ok a, s2) => (Ok a, s2) | (Raise e, s2) => (mret (inl InvalidToken) : M auth_state (auth_error + string)) s2 end.2 = (m s1).2) as Hcatch
    by (intros m; by destruct (m s1) as [[]]).
  rewrite Hcatch. unfold _provider_for. destruct (resolve_token_provider token) as [p|e] eqn:Hp; cbn [mbind option_bind].
  2:{ unfold validate_token in Hv. unfold resolve_token_provider in Hp. by rewrite M_bind_run lift_run Hp in Hv. }
  rewrite -Hdb. setoid_rewrite <-(same_start_claims _ _ _ _ _ s1 _ Hdb). setoid_rewrite <-(same_start_cluster _ _ _ s1 _ Hdb).
  case_decide as Hk.
  - destruct (service_account_gated payload p s1 Hk) as [Hs|Hs]; [by left|right]. by exists token, payload, p; eauto.
  - destruct (extract_username payload OIDC_USERNAME_FIELD) as [e|username] eqn:Hu; [by left|].
    rewrite M_bind_run. pose proof (maybe_provision_gated username token payload p s1 (extracted_name_not_empty _ _ Hu) Hp) as Hm. cbv zeta in Hm.
    assert (∀ o s2, _maybe_provision_bearer_user env username token payload s1 = (o, s2) →
      (match (o, s2) with (Ok a, t) => (mret (inr username) : M auth_state (auth_error + string)) t | (Raise e, t) => (Raise e, t) end).2 = s2) as Hend
      by (intros [a|e] s2 _; done).
    destruct (_maybe_provision_bearer_user env username token payload s1) as [o s2] eqn:Hrun. rewrite (Hend o s2 eq_refl). cbn [snd] in Hm.
    destruct Hm as [Hm|Hm]; [by left|right]. exists token, payload, p. split_and!; [done..|]. left. by exists username.
Qed.

(** ** Where the login would have refused

    The login's gate asks whether the provider may confer administrator rights;
    the bearer gate only asks for the name of the group. *)

(** A sender whose only claimed deployment group is an administrator group,
    from a provider that may not confer administrator rights, is refused by the
    login with nothing written, and given an account by a bearer token. *)
Theorem bearer_provisions_what_login_refuses username display_name payload p names s :
  username ≠ "" → _validate_username (normalize_username username) = Ok tt → NoDup (u_username <$> users (au_db s)) →
  unknown username (au_db s) → admin_source p ≠ "claims" →
  Exists (λ g, g ∈ names) ADMIN_GROUPS → Forall (λ g, g ∉ names) ALLOWED_GROUPS →
  admission env group_names_config p payload username display_name (JArr (JStr <$> names)) (Audited (au_db s) (au_audit s)) =
    (Ok (inl NotAllowedToLogin), Audited (au_db s) (au_audit s)) ∧
  ∃ u, u ∈ users (au_db (provision_bearer_user env username payload p (JArr (JStr <$> names)) s).2) ∧
    u_username u = normalize_username username.
Proof.
  intros Hne Hvalid Hnodup Hno Hsource Hadmin Hallowed.
  pose proof (strings_of_names names) as Hstrings.
  split.
  - unfold admission, claimed_admin. rewrite decide_True // M_bind_run lift_run M_bind_run lift_run.
    rewrite (_ : any_in ALLOWED_GROUPS _ = Ok false); [done|]. unfold any_in. destruct ALLOWED_GROUPS as [|n ns] eqn:E; [done|]. rewrite -E.
    cbn [members]. rewrite Hstrings. f_equal. apply not_true_is_false. intros (g&Hg&Hin%bool_decide_eq_true)%existsb_exists.
    rewrite Forall_forall in Hallowed. apply (Hallowed g); [rewrite -E; by apply list_elem_of_In|done].
  - unfold provision_bearer_user. rewrite M_bind_run lift_run. cbn [fst snd].
    assert (any_in ADMIN_GROUPS (JArr (JStr <$> names)) = Ok true) as ->.
    { apply Exists_exists in Hadmin as (g&Hg&Hin). unfold any_in. destruct ADMIN_GROUPS as [|n ns] eqn:E; [by apply not_elem_of_nil in Hg|].
      cbn [members]. f_equal. apply existsb_exists. exists g. split; [by apply list_elem_of_In|]. rewrite Hstrings. by apply bool_decide_eq_true. }
    rewrite M_bind_run M_ret_run. cbn [fst snd negb]. rewrite catch_run.
    set (display := match extract_display_name _ _ with inr n => n | inl _ => _ end). set (is_admin := (_ && _)%bool).
    pose proof (provision_user_run username display is_admin false (group_names (JArr (JStr <$> names))) s Hne Hno) as Hrun.
    rewrite create_run Hvalid in Hrun. cbv zeta in Hrun. rewrite decide_True in Hrun.
    + exists (created_row (le_salt env) username (le_token env) display is_admin false (au_db s)). split; [|done].
      apply (f_equal (λ t, t.1.1.1.1)) in Hrun. unfold beside_groups in Hrun.
      destruct (provision_user _ _ _ _ _ _ s) as [[[]|e] s1]; cbn [fst snd] in *; rewrite ?M_ret_run ?Hrun; cbn; set_solver.
    + rewrite fmap_app NoDup_app. split; [done|]. split; [|by repeat constructor; apply not_elem_of_nil].
      intros n (u&->&Hu)%list_elem_of_fmap. cbn. intros Heq%list_elem_of_singleton. by apply (Hno u Hu).
Qed.
End provisioning.
