(* ===== verification/AuthWitnesses.v ===== *)
(** * Authentication on the sample database

    A corporate provider and a cluster, a network that serves two key sets, and
    tokens of the form [header.provider.person]. *)
From S2P Require Import Prelude PyStrings Json Ownership Permissions Regex RegexSafety Database Repositories Users Samples UserFacts.
From S2P Require Import Groups Sessions Cache Resolution ResolutionFacts Store SampleMlflow Requests Validators Hooks AfterRequest BeforeRequest AfterRequestFacts.
From S2P Require Import Kubernetes ProviderRegistry RegistryFacts TokenVerification TokenFacts Identity AuthMiddleware AuthFacts ProvisioningFacts.
From Stdlib Require Import Ascii.
#[local] Open Scope Z_scope.

(** ** The providers *)

Definition corp : ProviderConfig :=
  MkProvider "corp" "oidc" "Corp" "none" "every_login" "authoritative" "none" "subject" true [] ["RS256"] (Some "mlflow")
    (Some "https://corp") (Some "https://corp/.well-known") None None None None false [].
Definition cluster : ProviderConfig :=
  MkProvider "cluster" "k8s" "Cluster" "jit" "every_login" "authoritative" "none" "subject" false [] ["RS256"] (Some "mlflow")
    (Some "https://kube") None None None (Some "https://kube/keys") None false ["team-a"].

#[export] Instance sample_tokens_config : TokenConfig | 100 := {|
  AUTH_PROVIDERS := [corp; cluster];
  DISCOVERY_URL := Some "https://corp/.well-known";
  OIDC_VERIFY_SSL := true;
|}.
#[export] Instance sample_loads : JsonLoads | 100 := {|
  json_loads text :=
    if startswith text "corp" then Some (JObj [("iss", JStr "https://corp")])
    else if startswith text "kube" then Some (JObj [("iss", JStr "https://kube")]) else None;
|}.
#[export] Instance sample_encodings : Encodings | 100 := {| urlsafe_b64decode := Some; b64decode_utf8 := Some; jwks_digest := λ _, "digest" |}.
#[export] Instance sample_pod : PodFiles | 100 := {| token_file := None; ca_file_readable := false |}.
#[export] Instance sample_network : Network | 100 := {|
  http_get n request :=
    if decide (get_url request = "https://corp/.well-known") then Ok (JObj [("jwks_uri", JStr "https://corp/keys")])
    else if decide (get_url request = "https://corp/keys") then Ok (JStr "corp-keys")
    else if decide (get_url request = "https://kube/keys") then Ok (JStr "kube-keys")
    else Raise (OtherException "ConnectionError");
|}.

(** ** The tokens *)

Definition person (name : string) (groups : list string) : claims :=
  list_to_map [("iss", JStr "https://corp"); ("aud", JStr "mlflow"); ("email", JStr name); ("groups", JArr (JStr <$> groups))].
Definition trainer : claims :=
  list_to_map [("iss", JStr "https://kube"); ("aud", JStr "mlflow"); ("sub", JStr "system:serviceaccount:team-a:trainer")].

(** What a key set verifies. *)
Definition verified (jwks : json) (token : string) : option claims :=
  match jwks with
  | JStr "corp-keys" =>
      if decide (token = "h.corp.bob") then Some (person "Bob" ["team"])
      else if decide (token = "h.corp.carol") then Some (person "carol" ["team"])
      else if decide (token = "h.corp.dan") then Some (person "dan" ["admins"]) else None
  | JStr "kube-keys" => if decide (token = "h.kube.trainer") then Some trainer else None
  | _ => None
  end.
Definition claim_is (c : claims) (key : string) (value : option string) : bool :=
  match value with
  | None => true
  | Some v => match c !! key with Some (JStr w) => bool_decide (w = v) | _ => false end
  end.

#[export, refine] Instance sample_jwt : JwtLib | 100 := {|
  signed_by jwks algorithm token c := algorithm = "RS256" ∧ verified jwks token = Some c;
  jwt_decode algorithms token jwks :=
    if decide ("RS256" ∈ algorithms) then match verified jwks token with Some c => Ok c | None => Raise BadSignatureError end
    else Raise (OtherException "UnsupportedAlgorithmError");
  jwt_validate options c :=
    match options with
    | Some o => if claim_is c "aud" (opt_aud o) && claim_is c "iss" (opt_iss o) then Ok tt else Raise (OtherException "InvalidClaimError")
    | None => Ok tt
    end;
|}.
Proof.
  - intros algorithms token jwks c. case_decide; [|done]. destruct (verified jwks token) eqn:E; [|done]. intros [= <-]. eauto.
  - intros [a i] c. unfold claim_is, aud_holds, iss_is. cbn.
    destruct a as [a|], i as [i|], (c !! "aud") as [[]|], (c !! "iss") as [[]|]; cbn; repeat case_bool_decide; naive_solver.
Defined.

#[export] Instance sample_auth_config : AuthConfig | 100 := {|
  OIDC_PROVISION_ON_BEARER_AUTH := true;
  OIDC_GROUP_DETECTION_PLUGIN := None;
  OIDC_GROUPS_ATTRIBUTE := "groups";
  group_names_config := LoginConfig ["admins"] ["team"];
  OIDC_TRUST_BEARER_GROUP_CLAIMS := false;
  OIDC_USERNAME_FIELD := ["email"];
  OIDC_DISPLAY_NAME_FIELD := ["name"];
  OIDC_SESSION_EXPIRY_LEEWAY_SECONDS := 0;
  OIDC_USE_REFRESH_TOKEN := false;
  AUTOMATIC_LOGIN_REDIRECT := true;
|}.
#[export] Instance no_idp : IdpClient | 100 := {| fetch_access_token := None |}.

Definition env : login_env := LoginEnv 100 "salt" "random" REPORT None.
Definition no_keys : token_state := TokenState (∅ : gmap unit json) (∅ : gmap provider_key json) 0.
Definition started : auth_state :=
  AuthState (fresh_world sample_db) [] no_keys (∅ : gmap (string * string) bool) (Some {[ "session_id" := JStr "sid-bob" ]}) None.
Definition request_with (authorization : option string) : HttpRequest :=
  MkHttp "/api/2.0/mlflow/experiments/get" "" (match authorization with Some h => [("authorization", h)] | None => [] end) "" "".

Lemma no_keys_cached : jwks_from_their_source no_keys.
Proof. split; [|split]; by intros *; rewrite /= lookup_empty. Qed.

(** ** Witnesses *)

Definition trainer_subject : json := JStr "system:serviceaccount:team-a:trainer".
Lemma service_accounts_never_share_a_username_witness : trainer_subject = trainer_subject.
Proof.
  apply (service_accounts_never_share_a_username trainer_subject trainer_subject
    (MkServiceAccount "team-a" "trainer") (MkServiceAccount "team-a" "trainer")); vm_compute; reflexivity.
Defined.

Lemma validated_tokens_obey_one_provider_witness :
  ∃ p, p ∈ AUTH_PROVIDERS ∧ pr_type p ∈ TOKEN_PROVIDER_TYPES ∧ accepted_by p "h.kube.trainer" trainer ∧
    (token_providers = [p] ∨ ∃ iss, _unverified_issuer "h.kube.trainer" = Some iss ∧ issuer p = Some iss).
Proof. apply (validated_tokens_obey_one_provider "h.kube.trainer" no_keys no_keys_cached). vm_compute. reflexivity. Defined.

Definition bob_request : HttpRequest := request_with (Some "Bearer h.corp.bob").
Lemma only_active_accounts_get_through_witness :
  presented env bob_request started "bob" ∧
  active_account "bob" false (au_db (dispatch env bob_request started).2).
Proof.
  apply (only_active_accounts_get_through env bob_request started (Some (MkAuthContext "bob" false None)));
    [apply sample_wf|apply no_keys_cached|reflexivity|].
  rewrite [LHS]surjective_pairing. by apply (f_equal2 pair); [vm_compute|].
Defined.

(** A token of the directory, and one of a cluster. *)
Definition account_by_token (auth_header : string) : Prop :=
  let s' := (_authenticate_bearer_token env auth_header started).2 in
  au_db s' = au_db started ∨
  ∃ token payload p, credentials auth_header = Ok token ∧ (validate_token token (au_tokens started)).1 = Ok payload ∧
    resolve_token_provider token = Ok p ∧
    ((∃ username, extract_username payload OIDC_USERNAME_FIELD = inr username ∧ provisioned_from_claims username token payload p started s') ∨
     provisioned_from_cluster payload p started s').
Lemma bearer_provisioning_is_gated_witness : account_by_token "Bearer h.corp.carol" ∧ account_by_token "Bearer h.kube.trainer".
Proof.
  split; [apply (bearer_provisioning_is_gated env "Bearer h.corp.carol" started)|apply (bearer_provisioning_is_gated env "Bearer h.kube.trainer" started)].
Defined.
(** Both are new accounts. *)
Lemma tokens_make_accounts :
  (λ u, (u_username u, u_is_admin u, u_is_service_account u)) <$>
    filter (λ u, u_id u ∉ (u_id <$> users sample_db))
      (users (au_db (_authenticate_bearer_token env "Bearer h.kube.trainer" (_authenticate_bearer_token env "Bearer h.corp.carol" started).2).2)) =
    [("carol", false, false); ("trainer.team-a@serviceaccount.cluster.local", false, true)].
Proof. vm_compute. reflexivity. Qed.

Lemma nobody_called username : bool_decide (filter (λ u, u_username u = normalize_username username) (users sample_db) = []) = true →
  unknown username (au_db started).
Proof. intros Hf%bool_decide_eq_true. by apply unknown_of_filter. Qed.

Lemma bearer_provisions_what_login_refuses_witness :
  (admission env group_names_config corp (person "dan" ["admins"]) "dan" "Dan" (JArr (JStr <$> ["admins"])) (Audited (au_db started) (au_audit started))).1 =
    Ok (inl NotAllowedToLogin) ∧
  ∃ u, u ∈ users (au_db (provision_bearer_user env "dan" (person "dan" ["admins"]) corp (JArr (JStr <$> ["admins"])) started).2) ∧
    u_username u = "dan".
Proof.
  destruct (bearer_provisions_what_login_refuses env "dan" "Dan" (person "dan" ["admins"]) corp ["admins"] started) as [Hlogin Huser];
    [done|reflexivity|apply (bool_decide_unpack _); vm_compute; exact I|by apply nobody_called; vm_compute|done|
     by left; left|repeat constructor; intros Hin%list_elem_of_singleton; done|].
  split; [by rewrite Hlogin|exact Huser].
Defined.

(** ** Particular runs *)

(** The session of bob, and a token of a pod: both get through. *)
Lemma a_session_gets_through :
  (dispatch env (request_with None) started).1 = Ok (Passed (Some (MkAuthContext "bob" false None))).
Proof. vm_compute. reflexivity. Qed.
Lemma a_pod_gets_through :
  (dispatch env (request_with (Some "Bearer h.kube.trainer")) started).1 =
    Ok (Passed (Some (MkAuthContext "trainer.team-a@serviceaccount.cluster.local" false None))).
Proof. vm_compute. reflexivity. Qed.
Lemma a_wrong_password_is_refused : (dispatch env (request_with (Some "Basic bob:guess")) started).1 = Ok Unauthorized.
Proof. vm_compute. reflexivity. Qed.

(** The login puts the members of a provider's groups into groups of that
    provider; the bearer path puts them into the deployment's groups of the same
    name. *)
Lemma bearer_groups_are_not_namespaced :
  groups_to_apply corp ["team"] None true = Some ["corp:team"] ∧
  (GroupRepository.list_groups_for_user "carol"
    (au_db (_maybe_provision_bearer_user env "carol" "h.corp.carol" (person "carol" ["team"]) started).2)).1 = Ok ["team"].
Proof. split; vm_compute; reflexivity. Qed.
