(* ===== verification/RedirectUri.v ===== *)
(** * URLs, and the address a provider sends the browser back to ([utils/uri.py])

    First [urllib.parse] and [html.escape], in the part the sign-in flow uses:
    splitting and joining a URL, its port, the encoding of a query string. *)
From S2P Require Import Prelude PyStrings Json Regex Kubernetes AuthMiddleware.
From stdpp Require Import pretty.
From Stdlib Require Import Ascii.
#[local] Open Scope Z_scope.

(** ** Splitting a text *)

(** The text up to the first character of [stop], and from it on. *)
Fixpoint span_until (stop : ascii → bool) (s : string) : string * string :=
  match s with
  | EmptyString => ("", "")
  | String c rest => if stop c then ("", s) else let '(before, after) := span_until stop rest in (String c before, after)
  end.

(** [s.partition(c)] without the separator, which only counts as found or not. *)
Definition partition (c : ascii) (s : string) : string * string := default (s, "") (py_split_once c s).
(** [s.rsplit(c, 1)]: what is before the last [c], and after it; no [before]
    without a [c]. *)
Fixpoint rsplit_once (c : ascii) (s : string) : option (string * string) :=
  match s with
  | EmptyString => None
  | String d rest =>
      match rsplit_once c rest with
      | Some (before, after) => Some (String d before, after)
      | None => if decide (d = c) then Some ("", rest) else None
      end
  end.

Fixpoint remove_chars (gone : ascii → bool) (s : string) : string :=
  match s with EmptyString => "" | String c rest => if gone c then remove_chars gone rest else String c (remove_chars gone rest) end.
Fixpoint drop_while (p : ascii → bool) (s : string) : string :=
  match s with EmptyString => "" | String c rest => if p c then drop_while p rest else s end.
Definition all_chars (p : ascii → bool) (s : string) : bool := forallb p (String.list_ascii_of_string s).
Definition has_char (c : ascii) (s : string) : bool := existsb (λ d, bool_decide (d = c)) (String.list_ascii_of_string s).

Definition is_alpha (c : ascii) : bool :=
  let n := nat_of_ascii c in ((65 <=? n) && (n <=? 90) || (97 <=? n) && (n <=? 122))%nat.

(** ** [urlsplit] *)

Record SplitResult := MkSplit { scheme : string; netloc : string; url_path : string; url_query : string; fragment : string }.

Definition C0_CONTROL_OR_SPACE (c : ascii) : bool := (nat_of_ascii c <=? 32)%nat.
Definition UNSAFE_URL_BYTE (c : ascii) : bool := bool_decide (nat_of_ascii c ∈ [9; 10; 13]%nat).
Definition scheme_char (c : ascii) : bool := is_alpha c || is_digit c || one_of "+-." c.

(** A bracketed host is an address of IPv6, or of the future. *)
Class UrlLib := { check_bracketed_netloc : string → bool }.

Definition split_scheme (url : string) : string * string :=
  match url with
  | String c _ =>
      match py_split_once ":" url with
      | Some (before, after) => if is_alpha c && all_chars scheme_char before then (py_lower before, after) else ("", url)
      | None => ("", url)
      end
  | EmptyString => ("", "")
  end.

Definition urlsplit `{UrlLib} (url : string) : outcome SplitResult :=
  let url := remove_chars UNSAFE_URL_BYTE (drop_while C0_CONTROL_OR_SPACE url) in
  let '(scheme, url) := split_scheme url in
  let '(netloc, url) := if startswith url "//" then span_until (one_of "/?#") (drop_str 2 url) else ("", url) in
  let opened := has_char "[" netloc in
  let closed := has_char "]" netloc in
  if negb (Bool.eqb opened closed) then Raise ValueError
  else if opened && negb (check_bracketed_netloc netloc) then Raise ValueError
  else
    let '(url, fragment) := partition "#" url in
    let '(url, query) := partition "?" url in
    Ok (MkSplit scheme netloc url query fragment).

Definition uses_netloc : list string :=
  [""; "ftp"; "http"; "gopher"; "nntp"; "telnet"; "imap"; "wais"; "file"; "mms"; "https"; "shttp"; "snews"; "prospero"; "rtsp"; "rtsps";
   "rtspu"; "rsync"; "svn"; "svn+ssh"; "sftp"; "nfs"; "git"; "git+ssh"; "ws"; "wss"; "itms-services"].

Definition urlunsplit (parts : SplitResult) : string :=
  let url := url_path parts in
  let url :=
    if decide (netloc parts ≠ "" ∨ (scheme parts ≠ "" ∧ scheme parts ∈ uses_netloc ∧ startswith url "//" = false))
    then "//" +:+ netloc parts +:+ (if negb (String.eqb url "") && negb (startswith url "/") then "/" +:+ url else url)
    else url in
  let url := if decide (scheme parts = "") then url else scheme parts +:+ ":" +:+ url in
  let url := if decide (url_query parts = "") then url else url +:+ "?" +:+ url_query parts in
  if decide (fragment parts = "") then url else url +:+ "#" +:+ fragment parts.

(** ** [urlparse]: the parameters of the last segment are split off *)

Definition uses_params : list string :=
  [""; "ftp"; "hdl"; "prospero"; "http"; "https"; "shttp"; "rtsp"; "rtsps"; "rtspu"; "sip"; "sips"; "mms"; "sftp"; "tel"].

Record ParseResult := MkParse { parsed : SplitResult; params : string }.

Definition _splitparams (url : string) : string * string :=
  match rsplit_once "/" url with
  | Some (before, last) => let '(segment, params) := partition ";" last in (before +:+ "/" +:+ segment, params)
  | None => partition ";" url
  end.

Definition set_url_path (path : string) (s : SplitResult) : SplitResult := MkSplit (scheme s) (netloc s) path (url_query s) (fragment s).
Definition set_netloc (netloc : string) (s : SplitResult) : SplitResult := MkSplit (scheme s) netloc (url_path s) (url_query s) (fragment s).

Definition urlparse `{UrlLib} (url : string) : outcome ParseResult :=
  split ← urlsplit url;
  if decide (scheme split ∈ uses_params ∧ has_char ";" (url_path split) = true) then
    let '(path, params) := _splitparams (url_path split) in Ok (MkParse (set_url_path path split) params)
  else Ok (MkParse split "").

Definition urlunparse (p : ParseResult) : string :=
  let path := url_path (parsed p) in
  urlunsplit (set_url_path (if decide (params p = "") then path else path +:+ ";" +:+ params p) (parsed p)).

(** [parsed.port] *)
Definition hostinfo (netloc : string) : string := match rsplit_once "@" netloc with Some (_, info) => info | None => netloc end.
Definition port_text (netloc : string) : string :=
  let info := hostinfo netloc in
  if has_char "[" info then (partition ":" (partition "]" (partition "[" info).2).2).2 else (partition ":" info).2.

Fixpoint decimal (value : Z) (s : string) : Z :=
  match s with EmptyString => value | String c rest => decimal (10 * value + (Z.of_nat (nat_of_ascii c) - 48)) rest end.

Definition port (netloc : string) : outcome (option Z) :=
  let text := port_text netloc in
  if decide (text = "") then Ok None
  else if negb (py_isdigit text) then Raise ValueError
  else if decimal 0 text <=? 65535 then Ok (Some (decimal 0 text)) else Raise ValueError.

(** ** [urlencode] and [html.escape] *)

(** [quote_plus] *)
Definition quote_plus (s : string) : string :=
  String.concat "+" (quote <$> py_split " " s).
Definition urlencode (pairs : list (string * string)) : string :=
  String.concat "&" ((λ kv, quote_plus kv.1 +:+ "=" +:+ quote_plus kv.2) <$> pairs).

Fixpoint html_escape (s : string) : string :=
  match s with
  | EmptyString => ""
  | String c rest =>
      (if decide (c = "&"%char) then "&amp;"
       else if decide (c = "<"%char) then "&lt;"
       else if decide (c = ">"%char) then "&gt;"
       else if decide (nat_of_ascii c = 34%nat) then "&quot;"
       else if decide (c = "'"%char) then "&#x27;"
       else String c "") +:+ html_escape rest
  end.

(** * The address a provider sends the browser back to ([utils/uri.py]) *)

Section uri.
Context `{UrlLib}.

(** A standard port is taken off: [split(":")[0]] keeps what is before the first
    colon of the host. Outside Flask nothing is logged for a malformed URL. *)
Definition normalize_url_port (url : string) : string :=
  if decide (url = "") then url
  else
    match
      (parsed_url ← urlparse url;
       let s := parsed parsed_url in
       standard ← (if decide (scheme s = "http") then p ← port (netloc s); Ok (bool_decide (p = Some 80))
                   else if decide (scheme s = "https") then p ← port (netloc s); Ok (bool_decide (p = Some 443))
                   else Ok false);
       if standard : bool then
         let new_netloc :=
           match rsplit_once "@" (netloc s) with
           | Some (userinfo, host_port) => userinfo +:+ "@" +:+ (partition ":" host_port).1
           | None => (partition ":" (netloc s)).1
           end in
         Ok (urlunparse (MkParse (set_netloc new_netloc s) (params parsed_url)))
       else Ok url)
    with
    | Ok normalized => normalized
    | Raise _ => url
    end.

(** The request's own address and mount point, as the server reports them. *)
Definition _get_base_url_from_request (url root_path : string) : outcome string :=
  parsed_url ← urlparse url;
  let s := parsed parsed_url in
  Ok (normalize_url_port (urlunparse (MkParse (MkSplit (scheme s) (netloc s) root_path "" "") ""))).

Definition _get_dynamic_redirect_uri (url root_path callback_path : string) : outcome string :=
  base_url ← _get_base_url_from_request url root_path;
  let callback_path :=
    if decide (callback_path = "") then "/" else if negb (startswith callback_path "/") then "/" +:+ callback_path else callback_path in
  Ok (base_url +:+ callback_path).

Definition get_configured_or_dynamic_redirect_uri (url root_path callback_path : string) (configured_uri : option string) : outcome string :=
  match configured_uri with
  | Some uri => if decide (py_strip uri = "") then _get_dynamic_redirect_uri url root_path callback_path else Ok (py_strip uri)
  | None => _get_dynamic_redirect_uri url root_path callback_path
  end.
End uri.
