(* ===== verification/OAuthClients.v ===== *)
(** * The clients of the identity providers
    ([oauth.py], [authorization_response.py])

    One client of authlib per provider, registered when it is first needed; the
    check that a provider can do the configured PKCE method; and the issuer an
    authorization response must name (RFC 9207). *)
From S2P Require Import Prelude PyStrings Json Ownership Permissions Database Users Groups Sessions Kubernetes ProviderRegistry TokenVerification AuthMiddleware.
From Stdlib Require Import Ascii.

(** ** authlib *)

Record client_settings := MkSettings { cs_client_id : string; cs_client_secret : string; cs_server_metadata_url : string }.
Record client_kwargs := MkKwargs { ck_scope : string; ck_verify : bool; ck_code_challenge_method : option string }.

(** [oauth] is what authlib's registry holds, with what its clients have fetched;
    [oauth_attr name] is [getattr(oauth, name, None)]. A method a client lacks is
    [None]. [authorize_redirect] keeps the attempt in the session and answers the
    address to send the browser to; [authorize_access_token] checks it against the
    query of the callback and exchanges the code. In the session both touch the
    keys of attempts only. *)
Class AuthlibOAuth := {
  oauth : Type;
  client : Type;
  oauth_register : string → client_kwargs → client_settings → M oauth unit;
  oauth_attr : string → oauth → option client;
  load_server_metadata : client → option (bool → M oauth claims);
  fetch_jwk_set : client → option (M oauth unit);
  server_metadata : client → option claims;
  authorize_redirect : client → option (string → string → M (oauth * claims) string);
  authorize_access_token : client → option (list (string * string) → M (oauth * claims) claims);
  authorize_redirect_keeps c authorize uri state x cookie key :
    authorize_redirect c = Some authorize → startswith key "_state_" = false → (authorize uri state (x, cookie)).2.2 !! key = cookie !! key;
  authorize_access_token_keeps c exchange query x cookie key :
    authorize_access_token c = Some exchange → startswith key "_state_" = false → (exchange query (x, cookie)).2.2 !! key = cookie !! key;
}.

Class OAuthConfig := {
  OIDC_CLIENT_ID : option string;
  OIDC_CLIENT_SECRET : option string;
  OIDC_SCOPE : option string;
  OIDC_CODE_CHALLENGE : option string;
  AUTH_PROVIDERS_SOURCE : string;
  config_manager_get : string → option string;
}.

Definition LEGACY_CLIENT_NAME : string := "oidc".
Definition PKCEUnsupportedError : exc := OtherException "PKCEUnsupportedError".

Definition client_name (provider_id : string) : string :=
  if decide (provider_id = DEFAULT_PROVIDER_ID) then LEGACY_CLIENT_NAME else provider_id.

(** ** Settings of a client *)

(** [re.sub(r"[^A-Z0-9]+", "_", s)] *)
Definition key_char (c : ascii) : bool := is_digit c || let n := nat_of_ascii c in ((65 <=? n) && (n <=? 90))%nat.
Fixpoint collapse (in_run : bool) (s : string) : string :=
  match s with
  | EmptyString => ""
  | String c rest =>
      if key_char c then String c (collapse false rest)
      else if in_run then collapse true rest else String "_" (collapse true rest)
  end.
Definition _secret_env_key (provider_id : string) : string := "OIDC_CLIENT_SECRET_" +:+ collapse false (py_upper provider_id).

(** [s.split()] *)
Fixpoint words_from (word : string) (s : string) : list string :=
  match s with
  | EmptyString => if decide (word = "") then [] else [word]
  | String c rest =>
      if is_space c then (if decide (word = "") then words_from "" rest else word :: words_from "" rest)
      else words_from (word +:+ String c "") rest
  end.
Definition py_words (s : string) : list string := words_from "" s.
Fixpoint replace_char (c d : ascii) (s : string) : string :=
  match s with EmptyString => "" | String e rest => String (if decide (e = c) then d else e) (replace_char c d rest) end.

Section oauth.
Context `{TokenConfig, AuthConfig, AuthlibOAuth, OAuthConfig}.

(** [config.AUTH_PROVIDERS] *)
Definition auth_providers : RegistryLoadResult := MkResult AUTH_PROVIDERS [] AUTH_PROVIDERS_SOURCE.

Definition _has_required_config : bool := truthy OIDC_CLIENT_ID && truthy OIDC_CLIENT_SECRET && truthy DISCOVERY_URL.

(** The ids that share a key, by key. *)
Definition _colliding_secret_keys : gmap string (list string) :=
  filter (λ kv : string * list string, (1 < length kv.2)%nat)
    (foldl (λ by_key p, <[_secret_env_key (pr_id p) := default [] (by_key !! _secret_env_key (pr_id p)) ++ [pr_id p]]> by_key) ∅ AUTH_PROVIDERS).
Definition collides (provider_id : string) : bool := existsb (λ kv : string * list string, bool_decide (provider_id ∈ kv.2)) (map_to_list _colliding_secret_keys).

Definition _client_secret_for (provider_id : string) : option string :=
  if decide (provider_id = DEFAULT_PROVIDER_ID) then OIDC_CLIENT_SECRET else config_manager_get (_secret_env_key provider_id).

Definition _build_scope : string :=
  let scopes := py_words (replace_char "," " " (default "" OIDC_SCOPE)) in
  let scopes := if OIDC_USE_REFRESH_TOKEN && negb (bool_decide ("offline_access" ∈ scopes)) then scopes ++ ["offline_access"] else scopes in
  String.concat " " (dict_fromkeys scopes).

Definition settings_of (client_id client_secret metadata_url : option string) : option client_settings :=
  id ← nonempty client_id; secret ← nonempty client_secret; url ← nonempty metadata_url; Some (MkSettings id secret url).

Definition or_flat (provider_id : string) (own flat : option string) : option string :=
  match nonempty own with
  | Some s => Some s
  | None => if decide (provider_id = DEFAULT_PROVIDER_ID) then flat else None
  end.

Definition _client_settings (provider_id : string) : option client_settings :=
  if collides provider_id then None
  else
    match by_id provider_id auth_providers with
    | None =>
        if negb (bool_decide (provider_id = DEFAULT_PROVIDER_ID)) || negb (bool_decide (AUTH_PROVIDERS_SOURCE = "legacy")) || negb _has_required_config
        then None else settings_of OIDC_CLIENT_ID OIDC_CLIENT_SECRET DISCOVERY_URL
    | Some provider =>
        if decide (pr_type provider ≠ "oidc") then None
        else settings_of (or_flat provider_id (client_id provider) OIDC_CLIENT_ID) (_client_secret_for provider_id)
               (or_flat provider_id (discovery_url provider) DISCOVERY_URL)
    end.

(** ** Registration *)

(** authlib's registry and the module's [_registered]. *)
Record oauth_state := OAuthState { os_oauth : oauth; _registered : gmap string bool }.

Definition on_oauth {A} (m : M oauth A) : M oauth_state A := λ s,
  let '(o, x) := m (os_oauth s) in (o, OAuthState x (_registered s)).
Definition set_registered (provider_id : string) : M oauth_state unit := modify (λ s, OAuthState (os_oauth s) (<[provider_id := true]> (_registered s))).

Definition get_client (provider_id : string) : M oauth_state (option client) := gets (λ s, oauth_attr (client_name provider_id) (os_oauth s)).
(** [oauth.oidc] *)
Definition legacy_client : M oauth_state client :=
  found ← gets (λ s, oauth_attr LEGACY_CLIENT_NAME (os_oauth s));
  lift (match found with Some c => Ok c | None => Raise (OtherException "AttributeError") end).

Definition ensure_client_registered (provider_id : string) : M oauth_state bool :=
  registered ← gets (λ s, default false (_registered s !! provider_id));
  if registered : bool then mret true
  else
    match _client_settings provider_id with
    | None => mret false
    | Some settings =>
        catch (
          _ ← on_oauth (oauth_register (client_name provider_id) (MkKwargs _build_scope OIDC_VERIFY_SSL OIDC_CODE_CHALLENGE) settings);
          _ ← set_registered provider_id;
          mret true)
        (λ _, mret false)
    end.

Fixpoint register_each (results : gmap string bool) (ps : list ProviderConfig) : M oauth_state (gmap string bool) :=
  match ps with
  | [] => mret results
  | p :: ps =>
      if decide (pr_type p ≠ "oidc") then register_each results ps
      else
        done ← ensure_client_registered (pr_id p);
        register_each (<[pr_id p := done]> results) ps
  end.

Definition ensure_all_clients_registered : M oauth_state (gmap string bool) :=
  results ← register_each ∅ AUTH_PROVIDERS;
  if bool_decide (results = ∅) && bool_decide (AUTH_PROVIDERS_SOURCE = "legacy") && _has_required_config then
    done ← ensure_client_registered DEFAULT_PROVIDER_ID;
    mret (<[DEFAULT_PROVIDER_ID := done]> results)
  else mret results.

Definition ensure_oidc_client_registered : M oauth_state bool := ensure_client_registered DEFAULT_PROVIDER_ID.
Definition is_oidc_configured (provider_id : string) : M oauth_state bool := ensure_client_registered provider_id.

(** ** PKCE *)

(** Only a list of methods that leaves the configured one out is a failure. *)
Definition assert_pkce_supported (c : client) : M oauth_state unit :=
  match nonempty OIDC_CODE_CHALLENGE, load_server_metadata c with
  | Some challenge, Some loader =>
      metadata ← catch (metadata ← on_oauth (loader false); mret (Some metadata)) (λ _, mret None);
      match get_key "code_challenge_methods_supported" (default ∅ metadata) with
      | JArr ((_ :: _) as supported) => if existsb (λ v, match v with JStr s => bool_decide (s = challenge) | _ => false end) supported then mret tt else raise PKCEUnsupportedError
      | _ => mret tt
      end
  | _, _ => mret tt
  end.

(** Whether the provider says that it always names itself in a response. *)
Definition _iss_parameter_supported (provider : ProviderConfig) : M oauth_state bool :=
  found ← get_client (pr_id provider);
  match c ← found; load_server_metadata c with
  | None => mret false
  | Some loader =>
      catch (metadata ← on_oauth (loader false);
             mret (json_truthy (get_key "authorization_response_iss_parameter_supported" metadata)))
        (λ _, mret false)
  end.
End oauth.

(** ** The issuer of an authorization response *)

Definition IssuerMismatchError : exc := OtherException "IssuerMismatchError".

(** [returned_iss] is [None], a text, or a sequence of values; anything else is
    no issuer. *)
Definition validate_response_issuer (returned_iss : json) (expected_iss : option string) (iss_parameter_supported : bool) : outcome unit :=
  match expected_iss with
  | None => Ok tt
  | Some expected =>
      returned_iss ← match returned_iss with
                     | JArr [] => Ok JNull
                     | JArr [iss] => Ok iss
                     | JArr _ => Raise IssuerMismatchError
                     | iss => Ok iss
                     end;
      returned ← match returned_iss with
                 | JNull => Ok None
                 | JStr iss => Ok (if decide (py_strip iss = "") then None else Some iss)
                 | _ => Raise IssuerMismatchError
                 end;
      match returned with
      | None => if iss_parameter_supported then Raise IssuerMismatchError else Ok tt
      | Some iss => if decide (iss = expected) then Ok tt else Raise IssuerMismatchError
      end
  end.
