(* ===== verification/SignIn.v ===== *)
(** * Signing in and out with a browser ([routers/auth.py])

    A login stores an attempt and sends the browser to the provider; the callback
    takes the attempt back, checks who answers, exchanges the code, finds or
    creates the account and opens a session; a logout revokes it. *)
From S2P Require Import Prelude PyStrings Json Ownership Permissions Regex RegexSafety Database Repositories Users Groups Sessions Cache Resolution Store.
From S2P Require Import Requests Validators Kubernetes ProviderRegistry TokenVerification Identity AuthMiddleware.
From S2P Require Import RedirectUri OAuthClients.
From Stdlib Require Import Ascii.
#[local] Open Scope Z_scope.

(** ** Configuration, MLflow's workspaces, requests *)

(** A workspace plugin is the function [get_user_workspaces] of the configured
    module. [SESSION_COOKIE_MAX_AGE_SECONDS] is never zero. *)
Class SignInConfig := {
  OIDC_REDIRECT_URI : option string;
  OIDC_PROVIDER_DISPLAY_NAME : string;
  DEFAULT_LANDING_PAGE_IS_PERMISSIONS : bool;
  SESSION_COOKIE_MAX_AGE_SECONDS : option Z;
  OIDC_WORKSPACE_DETECTION_PLUGIN : option (json → outcome (list string));
  OIDC_WORKSPACE_CLAIM_NAME : string;
  OIDC_WORKSPACE_DEFAULT_PERMISSION : string;
}.

(** MLflow's workspace store, when it can be had. *)
Class MlflowWorkspaces := {
  workspace_store : Type;
  _get_workspace_store : outcome unit;
  get_workspace : string → workspace_store → outcome unit;
  create_workspace : string → M workspace_store unit;
}.

(** [lr_username] is what the authentication middleware set on [request.state]. *)
Record LoginRequest := MkLogin {
  lr_query : list (string * string);
  lr_url : string;
  lr_base_url : string;
  lr_root_path : string;
  lr_username : option string;
}.

(** [query_params.get(key)], the last value of a repeated key, and
    [query_params.getlist(key)]. *)
Definition query_getlist (key : string) (req : LoginRequest) : list string := (filter (λ kv, kv.1 = key) (lr_query req)).*2.
Definition query_get (key : string) (req : LoginRequest) : option string := last (query_getlist key req).

Record ProviderEntry := MkProviderEntry { pe_id : string; pe_display_name : string; pe_type : string; pe_login_url : string }.
Record AuthStatus := MkAuthStatus { authenticated : bool; as_username : option string; as_provider : option string }.

Definition CALLBACK : string := "/callback".
Definition LOGIN : string := "/login".
Definition UI_ROUTER_PREFIX : string := "/oidc/ui".
Definition DEFAULT_SESSION_LIFETIME_SECONDS : Z := 14 * 24 * 60 * 60.
Definition DEFAULT_STATE_LIFETIME_SECONDS : Z := 15 * 60.
Definition RuntimeError : exc := OtherException "RuntimeError".
Definition AssertionError : exc := OtherException "AssertionError".

(** Of a [next] target: the characters browsers drop or read as a slash. *)
Definition FORBIDDEN_IN_NEXT (c : ascii) : bool := bool_decide (nat_of_ascii c ∈ [0; 9; 10; 13; 11; 12]%nat).
Definition backslash : ascii := ascii_of_nat 92.

(** What a completed login leaves in the cookie. *)
Definition _LOGIN_SESSION_KEYS : list string := ["session_id"; "username"; "authenticated"; "refresh_token"; "expires_at"].

Section sign_in.
Context `{SqlBackend, PyRe, UserLibs, ColumnTyping, Config, TrackingStore}.
Context `{CacheBackend PermissionResult, CacheBackend Permission, TTLCache unit json, TTLCache provider_key json}.
Context `{TTLCache (string * string) bool}.
Context `{TokenConfig, AuthConfig, ValidatorLibs}.
Context `{UrlLib, AuthlibOAuth, OAuthConfig, SignInConfig, MlflowWorkspaces}.

(** The clock and the randomness of this request, with the random ids of a new
    attempt and of a new session. *)
Variables (env : login_env) (state_token session_token : string).

Record signin_state := SignIn { si_auth : auth_state; si_oauth : oauth_state; si_workspaces : workspace_store }.
Abbreviation S A := (M signin_state A).

Definition si_db (s : signin_state) : db := au_db (si_auth s).
Definition si_session (s : signin_state) : option claims := au_session (si_auth s).

Definition in_auth {A} (m : M auth_state A) : S A := λ s,
  let '(o, a) := m (si_auth s) in (o, SignIn a (si_oauth s) (si_workspaces s)).
Definition in_oauth {A} (m : M oauth_state A) : S A := λ s,
  let '(o, x) := m (si_oauth s) in (o, SignIn (si_auth s) x (si_workspaces s)).
Definition in_workspaces {A} (m : M workspace_store A) : S A := λ s,
  let '(o, w) := m (si_workspaces s) in (o, SignIn (si_auth s) (si_oauth s) w).

(** [request.session] *)
Definition session : S claims :=
  found ← gets si_session;
  lift (match found with Some session => Ok session | None => Raise AssertionError end).
Definition put_session (c : claims) : S unit := in_auth (set_session c).
Definition set_in_session (key : string) (v : json) : S unit := c ← session; put_session (<[key := v]> c).

(** A method of a client that reads and writes the session. *)
Definition by_client {A} (m : M (oauth * claims) A) : S A :=
  c ← session;
  x ← gets (λ s, os_oauth (si_oauth s));
  let '(o, (x', c')) := m (x, c) in
  _ ← in_oauth (on_oauth (λ _, (Ok tt, x')));
  _ ← put_session c';
  lift o.

(** ** Addresses *)

Definition _sanitize_next (value : option string) : outcome (option string) :=
  match nonempty value with
  | None => Ok None
  | Some value =>
      if negb (startswith value "/") then Ok None
      else if startswith value "//" then Ok None
      else if has_char backslash value then Ok None
      else if negb (all_chars (λ c, negb (FORBIDDEN_IN_NEXT c)) value) then Ok None
      else
        p ← urlparse value;
        if decide (scheme (parsed p) ≠ "" ∨ netloc (parsed p) ≠ "") then Ok None else Ok (Some value)
  end.

Definition _build_ui_url (req : LoginRequest) (path : string) (query_params : list (string * string)) : string :=
  let url := rstrip_char "/" (lr_base_url req) +:+ UI_ROUTER_PREFIX +:+ path in
  match query_params with [] => url | _ => url +:+ "?" +:+ urlencode query_params end.

(** [{"error": errors}], with [doseq] *)
Definition error_page (req : LoginRequest) (errors : list string) : string := _build_ui_url req "/auth" (pair "error" <$> errors).

Definition _absolute_path (req : LoginRequest) (path : string) : outcome string :=
  match nonempty OIDC_REDIRECT_URI with
  | None => Ok (rstrip_char "/" (lr_base_url req) +:+ path)
  | Some configured =>
      p ← urlparse configured;
      if decide (scheme (parsed p) ≠ "" ∧ netloc (parsed p) ≠ "") then Ok (scheme (parsed p) +:+ "://" +:+ netloc (parsed p) +:+ path)
      else Ok (rstrip_char "/" (lr_base_url req) +:+ path)
  end.

(** ** Providers *)

Definition _interactive_provider (provider_id : string) : option ProviderConfig :=
  find (λ p, bool_decide (pr_id p = provider_id)) (interactive_providers auth_providers).

Fixpoint entries (req : LoginRequest) (ps : list ProviderConfig) : outcome (list ProviderEntry) :=
  match ps with
  | [] => Ok []
  | p :: ps =>
      url ← _absolute_path req (LOGIN +:+ "/" +:+ pr_id p);
      rest ← entries req ps;
      Ok (MkProviderEntry (pr_id p) (if decide (pr_display_name p = "") then pr_id p else pr_display_name p) (pr_type p) url :: rest)
  end.
Definition providers (req : LoginRequest) : S (list ProviderEntry) := lift (entries req (interactive_providers auth_providers)).

(** ** Beginning a login *)

Definition callback_path (provider_id : string) : string :=
  if decide (provider_id = DEFAULT_PROVIDER_ID) then CALLBACK else CALLBACK +:+ "/" +:+ provider_id.

Definition redirect_uri (req : LoginRequest) (provider_id : string) : string :=
  match get_configured_or_dynamic_redirect_uri (lr_url req) (lr_root_path req) (callback_path provider_id)
          (if decide (provider_id = DEFAULT_PROVIDER_ID) then OIDC_REDIRECT_URI else None) with
  | Ok uri => uri
  | Raise _ => rstrip_char "/" (lr_base_url req) +:+ callback_path provider_id
  end.

Definition NOT_AVAILABLE : exc := HTTPException 500 "OIDC authentication not available".

(** [get_client(provider_id) or (oauth.oidc if provider_id == DEFAULT_PROVIDER_ID else None)] *)
Definition login_client (provider_id : string) : S client :=
  found ← in_oauth (get_client provider_id);
  match found with
  | Some c => mret c
  | None => if decide (provider_id = DEFAULT_PROVIDER_ID) then in_oauth legacy_client else raise NOT_AVAILABLE
  end.

Definition is_http (e : exc) : bool := match e with HTTPException _ _ => true | _ => false end.

Definition redirect_to_provider (c : client) (uri oauth_state : string) : S string :=
  catch (
    match authorize_redirect c with
    | None => raise NOT_AVAILABLE
    | Some authorize =>
        _ ← in_oauth (assert_pkce_supported c);
        by_client (authorize uri oauth_state)
    end)
  (λ e,
    if is_http e then raise e
    else if decide (e = PKCEUnsupportedError) then raise (HTTPException 500 "OIDC login is misconfigured; see the server logs")
    else raise (HTTPException 500 "Failed to initiate OIDC login")).

(** The address the browser is sent to. *)
Definition _begin_login (req : LoginRequest) (provider_id : string) : S string :=
  catch (
    configured ← in_oauth (is_oidc_configured provider_id);
    if negb configured then raise (HTTPException 500 "OIDC authentication not available - configuration error")
    else
      _ ← session;
      next_target ← lift (_sanitize_next (query_get "next" req));
      oauth_state ← in_auth (in_store (SqlAlchemyStore.create_auth_state (le_now env) state_token provider_id next_target DEFAULT_STATE_LIFETIME_SECONDS));
      c ← login_client provider_id;
      redirect_to_provider c (redirect_uri req provider_id) oauth_state)
  (λ e, if is_http e then raise e else raise (HTTPException 500 "Failed to initiate OIDC login")).

Definition login_with_provider (req : LoginRequest) (provider_id : string) : S string :=
  match _interactive_provider provider_id with
  | None => raise (HTTPException 404 "Unknown identity provider")
  | Some _ => _begin_login req provider_id
  end.

Definition login (req : LoginRequest) : S string := _begin_login req DEFAULT_PROVIDER_ID.

(** ** The exchange *)

Definition _client_for_exchange (provider_id : string) : S client :=
  if decide (provider_id ≠ "" ∧ provider_id ≠ DEFAULT_PROVIDER_ID) then
    found ← in_oauth (get_client provider_id);
    lift (match found with Some c => Ok c | None => Raise RuntimeError end)
  else
    found ← in_oauth (get_client DEFAULT_PROVIDER_ID);
    match found with Some c => mret c | None => in_oauth legacy_client end.

(** The methods are looked up outside the [try]: without a legacy client this
    raises. *)
Definition _refresh_oidc_jwks : S unit :=
  c ← in_oauth legacy_client;
  match fetch_jwk_set c, load_server_metadata c with
  | Some refresh, _ => catch (in_oauth (on_oauth refresh)) (λ _, mret tt)
  | None, Some refresh => catch (_ ← in_oauth (on_oauth (refresh true)); mret tt) (λ _, mret tt)
  | None, None => mret tt
  end.

Definition _call_authorize_access_token (req : LoginRequest) (provider_id : string) : S claims :=
  c ← _client_for_exchange provider_id;
  match authorize_access_token c with
  | None => raise (OtherException "AttributeError")
  | Some exchange => by_client (exchange (lr_query req))
  end.

Definition _authorize_access_token_with_key_refresh (req : LoginRequest) (provider_id : string) : S claims :=
  catch (_call_authorize_access_token req provider_id) (λ e, _ ← _refresh_oidc_jwks; raise e).

(** ** Sessions *)

(** [store.revoke_auth_session], on a database that may fail: the transaction is
    then rolled back, and the error reaches the caller. *)
Definition revoke_session (session_id : string) : S unit :=
  _ ← in_auth (in_store (match le_outage env with
                         | None => SqlAlchemyStore.revoke_auth_session (le_now env) session_id
                         | Some e => raise e
                         end));
  mret tt.

(** Best effort: the cookie no longer names the previous session either way. *)
Definition _retire_previous_login : S unit :=
  c ← session;
  let previous_session_id := get_key "session_id" c in
  _ ← put_session (foldr delete c _LOGIN_SESSION_KEYS);
  if negb (json_truthy previous_session_id) then mret tt
  else catch (
    id ← lift (match previous_session_id with JStr id => Ok id | _ => Raise TypeError end);
    revoke_session id) (λ _, mret tt).

Definition _open_server_session (username : string) : S string :=
  let max_age := default DEFAULT_SESSION_LIFETIME_SECONDS SESSION_COOKIE_MAX_AGE_SECONDS in
  in_auth (in_store (SqlAlchemyStore.create_auth_session session_token username (le_now env + max_age) None)).

(** ** The account behind a userinfo *)

Definition extraction_text (e : extraction_error) : string :=
  match e with
  | NoFieldsConfigured => "No username fields configured"
  | FieldNotAString field => "Invalid OIDC username field: " +:+ field +:+ " is not a string"
  | NoFieldProvided => "No username provided in OIDC userinfo"
  end.
Definition login_error_text (e : login_error) : string :=
  match e with
  | NotAllowedToLogin => "User is not allowed to login"
  | CannotSignInHere => "This account cannot be used to sign in here"
  | CouldNotCompleteSignIn => "Could not complete sign-in for this account"
  end.

Definition _current_groups (username : string) : S (option (list string)) :=
  catch (groups ← in_auth (in_store (SqlAlchemyStore.get_groups_for_user username)); mret (Some groups)) (λ _, mret None).

(** The local name of a claimed group, in an f-string for every provider but the
    default one; the database takes no group name that is not a text. *)
Definition claimed_group (provider : ProviderConfig) (group : json) : option string :=
  match group with
  | JStr s => Some s
  | v => if decide (pr_id provider = DEFAULT_PROVIDER_ID) then None else Some (py_str v)
  end.
Definition applied_groups (provider : ProviderConfig) (user_groups : json) (current : option (list string)) (is_new_user : bool) : outcome (option (list string)) :=
  if decide (group_sync provider = "none" ∨ (group_sync provider = "first_login" ∧ is_new_user = false)) then Ok None
  else
    match members user_groups with
    | None => Raise TypeError
    | Some groups =>
        let groups := filter (λ g, json_truthy g = true) groups in
        match groups_to_apply provider (omap (claimed_group provider) groups) current is_new_user with
        | None => Ok None
        | Some names => if forallb (λ g, bool_decide (is_Some (claimed_group provider g))) groups then Ok (Some names) else Raise TypeError
        end
    end.

Definition sync_groups (provider : ProviderConfig) (user_groups : json) (username : string) (is_new_user : bool) : S unit :=
  current ← _current_groups username;
  groups ← lift (applied_groups provider user_groups current is_new_user);
  match groups with
  | None => mret tt
  | Some groups =>
      _ ← in_auth (in_store (SqlAlchemyStore.populate_groups groups));
      in_auth (set_user_groups username groups)
  end.

(** ** Workspaces of a userinfo *)

Definition user_workspaces (access_token : json) (userinfo : claims) : list string :=
  match OIDC_WORKSPACE_DETECTION_PLUGIN with
  | Some get_user_workspaces => match get_user_workspaces access_token with Ok l => l | Raise _ => [] end
  | None =>
      match get_or (JArr []) OIDC_WORKSPACE_CLAIM_NAME userinfo with
      | JStr s => [s]
      | JArr l => py_str <$> l
      | _ => []
      end
  end.

(** A workspace MLflow does not know is created, if MLflow agrees. *)
Definition ensure_workspace (name : string) : S unit :=
  match _get_workspace_store with
  | Raise _ => mret tt
  | Ok _ =>
      catch (in_workspaces (ask (get_workspace name)))
        (λ _, catch (in_workspaces (create_workspace name)) (λ _, mret tt))
  end.

Fixpoint assign_workspaces (username : string) (names : list string) : S unit :=
  match names with
  | [] => mret tt
  | ws_name :: names =>
      if decide (ws_name = "") then assign_workspaces username names
      else
        _ ← ensure_workspace ws_name;
        _ ← catch (in_auth (in_world (run_call (CreateWorkspacePermission ws_name username OIDC_WORKSPACE_DEFAULT_PERMISSION)))) (λ _, mret tt);
        assign_workspaces username names
  end.

(** ** Completing a login *)

(** From the groups to the workspaces: the errors, or the account. *)
Definition manage_user (provider : ProviderConfig) (access_token : json) (userinfo : claims) (username display_name : string) : S (list string + string) :=
  user_groups ← lift (bearer_groups access_token userinfo);
  admitted ← in_auth (in_audited (admission env group_names_config provider userinfo username display_name user_groups));
  match admitted with
  | inl e => mret (inl [login_error_text e])
  | inr (username, is_new_user) =>
      _ ← sync_groups provider user_groups username is_new_user;
      _ ← (if MLFLOW_ENABLE_WORKSPACES then assign_workspaces username (user_workspaces access_token userinfo) else mret tt);
      mret (inr username)
  end.

Definition persist_session (token_response : claims) : S unit :=
  c ← session;
  c ← lift (_persist_session_auth (le_now env) c token_response);
  put_session c.

(** From the client to the account, once the attempt is known to be this
    browser's own. *)
Definition exchange_code (req : LoginRequest) (provider : ProviderConfig) : S (list string + string) :=
  catch (
    found ← catch (c ← _client_for_exchange (pr_id provider); mret (Some c)) (λ e, if decide (e = RuntimeError) then mret None else raise e);
    match c ← found; authorize_access_token c with
    | None => mret (inl ["OIDC configuration error: OAuth client not properly initialized."])
    | Some _ =>
        token_response ← _authorize_access_token_with_key_refresh req (pr_id provider);
        if decide (token_response = ∅) then mret (inl ["Failed to exchange authorization code"])
        else if negb (json_truthy (get_key "userinfo" token_response)) then mret (inl ["No user information received"])
        else
          userinfo ← lift (match get_key "userinfo" token_response with JObj fields => Ok (dict_of fields) | _ => Raise AttributeError end);
          match extract_username userinfo OIDC_USERNAME_FIELD with
          | inl e => mret (inl [extraction_text e])
          | inr username =>
              let display_name := match extract_display_name userinfo OIDC_DISPLAY_NAME_FIELD with inr name => name | inl _ => username end in
              managed_user ← catch (manage_user provider (get_key "access_token" token_response) userinfo username display_name)
                               (λ _, mret (inl ["Failed to update user/groups"]));
              match managed_user with
              | inl errors => mret (inl errors)
              | inr username => _ ← persist_session token_response; mret (inr username)
              end
          end
    end)
  (λ _, mret (inl ["Failed to process authentication response"])).

(** The provider of the attempt, if the attempt is this callback's: taken from
    its row, configured, at its own callback, and answered by its own issuer. *)
Definition attributed (req : LoginRequest) (provider_id : option string) (attempt : AuthAttempt) : S (list string + ProviderConfig) :=
  match by_id (at_provider_id attempt) auth_providers with
  | None => mret (inl ["Identity provider is no longer configured"])
  | Some provider =>
      if decide (pr_id provider ≠ default DEFAULT_PROVIDER_ID provider_id) then mret (inl ["Invalid state parameter"])
      else
        supported ← in_oauth (_iss_parameter_supported provider);
        match validate_response_issuer (JArr (JStr <$> query_getlist "iss" req)) (issuer provider) supported with
        | Ok tt => mret (inr provider)
        | Raise e => if decide (e = IssuerMismatchError) then mret (inl ["Authorization response came from an unexpected issuer"]) else raise e
        end
  end.

(** [attempt.redirect_after_login or session.get("redirect_after_login")] *)
Definition remember_target (attempt : AuthAttempt) : S unit :=
  c ← session;
  put_session (<["redirect_after_login" :=
    match nonempty (at_redirect_after_login attempt) with Some target => JStr target | None => get_key "redirect_after_login" c end]> c).

Definition _process_oidc_callback_fastapi (req : LoginRequest) (provider_id : option string) : S (list string + string) :=
  if truthy (query_get "error" req) then
    let safe_desc := html_escape (default "" (query_get "error_description" req)) in
    mret (inl ("OIDC provider error" :: (if decide (safe_desc = "") then [] else [safe_desc])))
  else
    attempt ← in_auth (in_store (SqlAlchemyStore.consume_auth_state (le_now env) (default "" (query_get "state" req))));
    match attempt with
    | None => mret (inl ["Invalid state parameter"])
    | Some attempt =>
        checked ← attributed req provider_id attempt;
        match checked with
        | inl errors => mret (inl errors)
        | inr provider =>
            _ ← remember_target attempt;
            _ ← _retire_previous_login;
            if negb (truthy (query_get "code" req)) then mret (inl ["No authorization code received"])
            else exchange_code req provider
        end
    end.

(** Where the browser goes after a login. *)
Definition landing_page (req : LoginRequest) : S string :=
  c ← session;
  _ ← put_session (delete "redirect_after_login" c);
  let target := get_key "redirect_after_login" c in
  mret (if json_truthy target then py_str target
        else if DEFAULT_LANDING_PAGE_IS_PERMISSIONS then _build_ui_url req "/user" []
        else rstrip_char "/" (lr_base_url req)).

Definition _complete_login (req : LoginRequest) (provider_id : option string) : S string :=
  catch (
    configured ← in_oauth (is_oidc_configured (or_default provider_id DEFAULT_PROVIDER_ID));
    if negb configured then mret (error_page req ["OIDC authentication not available - configuration error"])
    else
      _ ← session;
      result ← _process_oidc_callback_fastapi req provider_id;
      match result with
      | inl errors => mret (error_page req errors)
      | inr username =>
          if decide (username = "") then raise (HTTPException 401 "Authentication failed")
          else
            opened ← catch (session_id ← _open_server_session username; _ ← set_in_session "session_id" (JStr session_id); mret true)
                       (λ _, _ ← put_session ∅; mret false);
            if negb opened then mret (error_page req ["session_error"])
            else
              _ ← set_in_session "authenticated" (JBool true);
              _ ← in_auth (emit_audit_event (AuditEvent "auth.login" (Some username) None None [("method", JStr "oidc")]));
              landing_page req
      end)
  (λ e, if is_http e then raise e else raise (HTTPException 500 "Internal server error during authentication")).

Definition callback_for_provider (req : LoginRequest) (provider_id : string) : S string :=
  match _interactive_provider provider_id with
  | None => raise (HTTPException 404 "Unknown identity provider")
  | Some _ => _complete_login req (Some provider_id)
  end.

Definition callback (req : LoginRequest) : S string := _complete_login req None.

(** ** Signing out *)

Definition LOGOUT_FAILED : exc := HTTPException 503 "Logout failed: the session could not be revoked. Please try again.".

Definition revoke_current (req : LoginRequest) (session_id : json) : S unit :=
  catch (
    id ← lift (match session_id with JStr id => Ok id | _ => Raise TypeError end);
    revoke_session id)
  (λ _, _ ← in_auth (emit_audit_event (LogoutFailed (or_default (lr_username req) "<unknown>"))); raise LOGOUT_FAILED).

Definition provider_logout (req : LoginRequest) : S (option string) :=
  c ← in_oauth legacy_client;
  match server_metadata c with
  | None => mret None
  | Some metadata =>
      let end_session_endpoint := get_key "end_session_endpoint" metadata in
      mret (if json_truthy end_session_endpoint then
              Some (py_str end_session_endpoint +:+ "?" +:+
                urlencode [("post_logout_redirect_uri", _build_ui_url req "/auth" []); ("client_id", default "None" OIDC_CLIENT_ID)])
            else None)
  end.

Definition logout (req : LoginRequest) : S string :=
  catch (
    c ← session;
    let session_id := get_key "session_id" c in
    _ ← (if json_truthy session_id then revoke_current req session_id else mret tt);
    _ ← put_session ∅;
    _ ← match nonempty (lr_username req) with
        | Some username => in_auth (emit_audit_event (AuditEvent "auth.logout" (Some username) None None []))
        | None => mret tt
        end;
    away ← provider_logout req;
    mret (default (_build_ui_url req "/auth" []) away))
  (λ e, if is_http e then raise e else mret (_build_ui_url req "/auth" [])).

(** ** Who is signed in *)

Definition auth_status : S AuthStatus :=
  catch (
    c ← session;
    id ← lift (match get_key "session_id" c with JStr id => Ok id | v => if json_truthy v then Raise TypeError else Ok "" end);
    resolved ← in_auth (in_store (SqlAlchemyStore.resolve_auth_session (le_now env) id));
    let username := r ← resolved; if rs_is_active r then Some (rs_username r) else None in
    mret (MkAuthStatus (truthy username) username (if truthy username then Some OIDC_PROVIDER_DISPLAY_NAME else None)))
  (λ _, raise (HTTPException 500 "Failed to get authentication status")).
End sign_in.
