(* ===== verification/DataFetching.v ===== *)
(** * Listings of MLflow's stores ([utils/data_fetching.py])

    MLflow serves its listings in pages linked by tokens; the loops here follow
    the tokens to the end. How many pages there are is up to the store, so a
    loop takes fuel, and gives [None] when it runs out. *)
From S2P Require Import Prelude PyStrings Json Permissions Regex RegexSafety Database Repositories Groups Cache Resolution ResolutionFacts Batch AfterRequest AfterRequestFacts.

(** ** The stores' listings *)

(** A gateway's dict, its values as text. *)
Abbreviation dict := (gmap string string).

(** A page and the token of the next one: no token, or an empty one, on the last. *)
Definition page (A : Type) : Type := list A * option string.

Record logged_model := MkLoggedModel { lm_id : string; lm_experiment_id : string }.

(** An item of a gateway listing: with a [to_dict] method, with a [__dict__],
    or a dict already. *)
Inductive listed := ToDict (d : dict) | Vars (d : dict) | Plain (d : dict).

(** A registered model is listed by its name. [search_experiments_default] is
    [search_experiments()] without arguments: its first page. *)
Class MlflowListings := {
  search_registered_models : option string → Z → option (list string) → option string → outcome (page string);
  search_experiments : Z → Z → option (list string) → option string → option string → outcome (page experiment);
  search_experiments_default : outcome (list experiment);
  search_logged_models : Z → option string → list string → option string → option (list json) → outcome (page logged_model);
  list_gateway_endpoints : outcome (list listed);
  list_secret_infos : outcome (list listed);
  list_gateway_model_definitions : outcome (list listed);
}.

(** ** Following the tokens *)

(** [while True: ...]: [search] is the call with its other arguments. *)
Fixpoint fetch_pages {A} (fuel : nat) (search : option string → outcome (page A)) (page_token : option string) (all : list A) : outcome (option (list A)) :=
  match fuel with
  | O => Ok None
  | S fuel =>
      result ← search page_token;
      let all := all ++ result.1 in
      match nonempty result.2 with
      | Some token => fetch_pages fuel search (Some token) all
      | None => Ok (Some all)
      end
  end.

Section fetching.
Context `{SqlBackend, PyRe, Config, TrackingStore, CacheBackend PermissionResult, CacheBackend Permission, MlflowListings}.

Definition fetch_all_registered_models (fuel : nat) (filter_string : option string) (order_by : option (list string)) (max_results_per_page : Z) : outcome (option (list string)) :=
  fetch_pages fuel (search_registered_models filter_string max_results_per_page order_by) None [].

Definition fetch_all_experiments (fuel : nat) (view_type max_results_per_page : Z) (order_by : option (list string)) (filter_string : option string) : outcome (option (list experiment)) :=
  fetch_pages fuel (search_experiments view_type max_results_per_page order_by filter_string) None [].

Definition IS_PROMPT : string := "tags.`mlflow.prompt.is_prompt` = 'true'".
Definition fetch_all_prompts (fuel : nat) (max_results_per_page : Z) : outcome (option (list string)) :=
  fetch_all_registered_models fuel (Some IS_PROMPT) None max_results_per_page.

Definition fetch_registered_models_paginated (filter_string : option string) (max_results : Z) (order_by : option (list string)) (page_token : option string) : outcome (page string) :=
  search_registered_models filter_string max_results order_by page_token.

Definition fetch_experiments_paginated (view_type max_results : Z) (order_by : option (list string)) (filter_string page_token : option string) : outcome (page experiment) :=
  search_experiments view_type max_results order_by filter_string page_token.

(** [[item for item in items if can_read(item)]] is [filter_m]. *)
Definition readable {A} (listing : outcome (option (list A))) (can_read_item : A → M world bool) : M world (option (list A)) :=
  all ← lift listing;
  match all with
  | None => mret None
  | Some all => kept ← filter_m can_read_item all; mret (Some kept)
  end.

Definition fetch_readable_experiments (fuel : nat) (ws : option string) (username : string) (view_type max_results_per_page : Z) (order_by : option (list string)) (filter_string : option string) : M world (option (list experiment)) :=
  readable (fetch_all_experiments fuel view_type max_results_per_page order_by filter_string) (λ e, can_read_experiment ws (exp_id e) username).

Definition fetch_readable_registered_models (fuel : nat) (ws : option string) (username : string) (filter_string : option string) (order_by : option (list string)) (max_results_per_page : Z) : M world (option (list string)) :=
  readable (fetch_all_registered_models fuel filter_string order_by max_results_per_page) (λ nm, can_read_registered_model ws nm username).

(** The loop filters each page before it asks for the next. *)
Fixpoint readable_logged_models (fuel : nat) (search : option string → outcome (page logged_model)) (ws : option string) (username : string) (page_token : option string) (all : list logged_model) : M world (option (list logged_model)) :=
  match fuel with
  | O => mret None
  | S fuel =>
      result ← lift (search page_token);
      kept ← filter_m (λ m, can can_read (effective_experiment_permission ws (lm_experiment_id m) username)) result.1;
      match nonempty result.2 with
      | Some token => readable_logged_models fuel search ws username (Some token) (all ++ kept)
      | None => mret (Some (all ++ kept))
      end
  end.

Definition fetch_readable_logged_models (fuel : nat) (ws : option string) (username : string) (experiment_ids : option (list string)) (filter_string : option string) (order_by : option (list json)) (max_results_per_page : Z) : M world (option (list logged_model)) :=
  readable_logged_models fuel
    (λ token, search_logged_models max_results_per_page token (default [] experiment_ids) filter_string order_by) ws username None [].

(** ** The gateway's listings *)

Definition as_dict (item : listed) : dict := match item with ToDict d | Vars d | Plain d => d end.

Definition fetch_all_gateway_endpoints : outcome (list dict) := result ← list_gateway_endpoints; Ok (map as_dict result).
Definition fetch_all_gateway_secrets : outcome (list dict) := result ← list_secret_infos; Ok (map as_dict result).
Definition fetch_all_gateway_model_definitions : outcome (list dict) := result ← list_gateway_model_definitions; Ok (map as_dict result).
End fetching.

(** ** The pages a store serves *)

(** From [token] on there are [n] pages, and their rows are [rows]. *)
Inductive served_pages {A} (search : option string → outcome (page A)) : option string → nat → list A → Prop :=
  | last_page token rows next : search token = Ok (rows, next) → nonempty next = None → served_pages search token 1 rows
  | one_more_page token rows next t n rest :
      search token = Ok (rows, next) → nonempty next = Some t → served_pages search (Some t) n rest →
      served_pages search token (S n) (rows ++ rest).

Lemma fetch_pages_complete {A} (search : option string → outcome (page A)) token n rows fuel all :
  served_pages search token n rows → (n ≤ fuel)%nat → fetch_pages fuel search token all = Ok (Some (all ++ rows)).
Proof.
  intros Hs. revert fuel all. induction Hs as [token rows next Hp Hn|token rows next t n rest Hp Hn _ IH]; intros fuel all Hle;
    (destruct fuel as [|fuel]; [lia|]); cbn [fetch_pages]; rewrite Hp; cbn [mbind outcome_bind]; rewrite Hn; [done|].
  rewrite IH; [|lia]. by rewrite -app_assoc.
Qed.

Section facts.
Context `{SqlBackend, PyRe, Config, TrackingStore, CacheBackend PermissionResult, CacheBackend Permission, MlflowListings}.

(** What the database lets the user read; nothing where the decision fails. *)
Definition readable_id (ws : option string) (rt username : string) (d : db) (id : string) : bool :=
  match decision ws rt id username None d with Ok r => can_read (permission r) | Raise _ => false end.
Definition decided (ws : option string) (rt username : string) (d : db) (id : string) : Prop :=
  ∃ r, decision ws rt id username None d = Ok r.

(** The state of a listing: coherent caches over one database. *)
Definition over (d : db) (w : world) : Prop := coherent w ∧ w_db w = d.

Lemma reads_decide {A} (key : A → string) ws rt username d (items : list A) :
  separable ws rt username → rt ≠ SCORER → (∀ x, x ∈ items → decided ws rt username d (key x)) →
  decides (over d) (λ x, can can_read (resolve_permission ws rt (key x) username None)) (λ x, readable_id ws rt username d (key x)) items.
Proof.
  intros Hsep Hrt Hd x w Hx [Hco Hw]. destruct (Hd x Hx) as [r Hr].
  destruct (resolve_permission_run ws rt (key x) username None w Hco Hsep) as (o&w1&Hrun&Hco1&Hdb1&Ho).
  specialize (Ho Hrt). rewrite Hw Hr in Ho. subst o. exists w1. unfold can, readable_id.
  autorewrite with run. rewrite Hrun Hr. split; [done|]. split; [done|]. by rewrite Hdb1.
Qed.

Lemma reads_run {A} (key : A → string) ws rt username d (items : list A) w :
  separable ws rt username → rt ≠ SCORER → over d w → (∀ x, x ∈ items → decided ws rt username d (key x)) →
  ∃ w', filter_m (λ x, can can_read (resolve_permission ws rt (key x) username None)) items w =
      (Ok (filter (λ x, readable_id ws rt username d (key x) = true) items), w') ∧ over d w'.
Proof.
  intros Hsep Hrt Hw Hd. exact (filter_m_run (over d) _ _ items w (reads_decide key ws rt username d items Hsep Hrt Hd) Hw).
Qed.

(** The rows of a served listing, filtered page by page. *)
Lemma readable_logged_models_run search ws username token n rows fuel all w d :
  served_pages search token n rows → (n ≤ fuel)%nat → over d w → separable ws EXPERIMENT username →
  (∀ m, m ∈ rows → decided ws EXPERIMENT username d (lm_experiment_id m)) →
  ∃ w', readable_logged_models fuel search ws username token all w =
      (Ok (Some (all ++ filter (λ m, readable_id ws EXPERIMENT username d (lm_experiment_id m) = true) rows)), w') ∧ over d w'.
Proof.
  intros Hs Hle Hw Hsep. revert fuel all w Hle Hw.
  induction Hs as [token rows next Hp Hn|token rows next t n rest Hp Hn _ IH]; intros fuel all w Hle Hw Hd;
    (destruct fuel as [|fuel]; [lia|]); cbn [readable_logged_models];
    (destruct (reads_run lm_experiment_id ws EXPERIMENT username d rows w Hsep) as (w1&Hrun&Hw1); [done|done|intros m Hm; apply Hd; set_solver|]);
    rewrite M_bind_run lift_run Hp; cbn [fst snd]; unfold effective_experiment_permission; rewrite M_bind_run Hrun Hn.
  - by exists w1.
  - destruct (IH fuel (all ++ filter (λ m, readable_id ws EXPERIMENT username d (lm_experiment_id m) = true) rows) w1) as (w2&->&Hw2);
      [lia|done|intros m Hm; apply Hd; set_solver|]. exists w2. by rewrite filter_app -app_assoc.
Qed.

(** For listings of [n] pages, [n] rounds of fuel are enough, and the readable
    experiments, models and logged models of all pages are returned, in order. *)
Theorem every_readable_row_is_fetched ws username d w models fuel n filter_string order_by max_results view_type experiments experiment_ids logged order :
  over d w → separable ws EXPERIMENT username → separable ws REGISTERED_MODEL username → (n ≤ fuel)%nat →
  served_pages (search_experiments view_type max_results order_by filter_string) None n experiments →
  served_pages (search_registered_models filter_string max_results order_by) None n models →
  served_pages (λ token, search_logged_models max_results token experiment_ids filter_string order) None n logged →
  (∀ e, e ∈ experiments → decided ws EXPERIMENT username d (exp_id e)) →
  (∀ m, m ∈ logged → decided ws EXPERIMENT username d (lm_experiment_id m)) → (∀ nm, nm ∈ models → decided ws REGISTERED_MODEL username d nm) →
  (fetch_readable_experiments fuel ws username view_type max_results order_by filter_string w).1 =
    Ok (Some (filter (λ e, readable_id ws EXPERIMENT username d (exp_id e) = true) experiments)) ∧
  (fetch_readable_registered_models fuel ws username filter_string order_by max_results w).1 =
    Ok (Some (filter (λ nm, readable_id ws REGISTERED_MODEL username d nm = true) models)) ∧
  (fetch_readable_logged_models fuel ws username (Some experiment_ids) filter_string order max_results w).1 =
    Ok (Some (filter (λ m, readable_id ws EXPERIMENT username d (lm_experiment_id m) = true) logged)).
Proof.
  intros Hw He Hm Hle Hexps Hmodels Hlogged Hde Hdl Hdm.
  split; [|split].
  - unfold fetch_readable_experiments, fetch_all_experiments, readable. rewrite (fetch_pages_complete _ _ _ _ _ _ Hexps Hle) M_bind_run lift_run.
    destruct (reads_run exp_id ws EXPERIMENT username d experiments w He) as (w1&Hrun&_); [done..|].
    rewrite M_bind_run. unfold can_read_experiment, effective_experiment_permission. by rewrite Hrun.
  - unfold fetch_readable_registered_models, fetch_all_registered_models, readable. rewrite (fetch_pages_complete _ _ _ _ _ _ Hmodels Hle) M_bind_run lift_run.
    destruct (reads_run id ws REGISTERED_MODEL username d models w Hm) as (w1&Hrun&_); [done..|].
    rewrite M_bind_run. unfold can_read_registered_model, effective_registered_model_permission. cbn in Hrun. by rewrite Hrun.
  - destruct (readable_logged_models_run _ ws username None n logged fuel [] w d Hlogged Hle Hw He Hdl) as (w1&Hrun&_).
    unfold fetch_readable_logged_models. cbn [default]. by rewrite Hrun.
Qed.
End facts.
