(* ===== verification/ApiModels.v ===== *)
(** * The models of the management API ([models/])

    Request bodies and responses, one record per Pydantic model, and what a
    handler fills them with from a row of the database. The constant fields
    ([kind], [status]) are constants here too. *)
From S2P Require Import Prelude PyStrings Database.
From stdpp Require Import pretty.
#[local] Open Scope Z_scope.

(** ** Request bodies *)

Record PermissionBody := MkPermissionBody { pb_permission : string }.
Record PatternBody := MkPatternBody { pt_regex : string; pt_priority : Z; pt_permission : string }.

Definition ExperimentPermission : Type := PermissionBody.
Definition RegisteredModelPermission : Type := PermissionBody.
Definition PromptPermission : Type := PermissionBody.
Definition ScorerPermission : Type := PermissionBody.
Definition GatewayPermission : Type := PermissionBody.
Definition ExperimentRegexCreate : Type := PatternBody.
Definition RegisteredModelRegexCreate : Type := PatternBody.
Definition PromptRegexCreate : Type := PatternBody.
Definition ScorerRegexCreate : Type := PatternBody.
Definition GatewayRegexCreate : Type := PatternBody.

(** ** Responses *)

Record MessageResponse := MkMessage { mr_message : string }.
Record StatusOnlyResponse := MkStatus { so_status : string }.
Record StatusMessageResponse := MkStatusMessage { sm_status : string; sm_message : string }.
Definition status_only : StatusOnlyResponse := MkStatus "success".
Definition status_message (message : string) : StatusMessageResponse := MkStatusMessage "success" message.

Record NamedPermissionSummary := MkNamedSummary { ns_name : string; ns_permission : string; ns_kind : string }.
Record ExperimentPermissionSummary := MkExperimentSummary { es_name : string; es_id : string; es_permission : string; es_kind : string }.
Record ExperimentRegexPermission := MkExperimentRegex { er_id : string; er_regex : string; er_priority : Z; er_permission : string }.

Record ExperimentPermissionRecord := MkExperimentRecord {
  ep_experiment_id : string; ep_permission : string; ep_user_id : option Z; ep_group_id : option Z }.
Record ExperimentPermissionResponse := MkExperimentResponse { experiment_permission : ExperimentPermissionRecord }.

Record RegisteredModelPermissionRecord := MkModelRecord {
  rm_name : string; rm_user_id : option Z; rm_permission : string; rm_group_id : option Z; rm_prompt : bool }.
Record RegisteredModelPermissionResponse := MkModelResponse { registered_model_permission : RegisteredModelPermissionRecord }.
Record PromptPermissionResponse := MkPromptResponse { prompt_permission : RegisteredModelPermissionRecord }.

Record RegisteredModelRegexPermissionRecord := MkModelRegexRecord {
  mx_id : Z; mx_regex : string; mx_priority : Z; mx_user_id : Z; mx_permission : string; mx_prompt : bool }.
Record RegisteredModelRegexPermissionResponse := MkModelRegexResponse { model_regex : RegisteredModelRegexPermissionRecord }.
Record PromptRegexPermissionResponse := MkPromptRegexResponse { prompt_regex : RegisteredModelRegexPermissionRecord }.

Record ScorerPermissionRecord := MkScorerRecord { sp_experiment_id : string; sp_scorer_name : string; sp_user_id : Z; sp_permission : string }.
Record ScorerPermissionResponse := MkScorerResponse { scorer_permission : ScorerPermissionRecord }.
Record ScorerRegexPermissionRecord := MkScorerRegexRecord {
  sx_id : Z; sx_regex : string; sx_priority : Z; sx_user_id : Z; sx_permission : string }.
Record ScorerRegexPermissionResponse := MkScorerRegexResponse { pattern : ScorerRegexPermissionRecord }.

Record UserGatewayRegexPermissionItem := MkUserGatewayRegex {
  ug_id : Z; ug_regex : string; ug_priority : Z; ug_user_id : option Z; ug_permission : string; ug_kind : string }.

Record GroupUser := MkGroupUser { gu_username : string; gu_is_admin : bool }.
Record GroupExperimentPermissionItem := MkGroupExperiment { ge_id : string; ge_name : string; ge_permission : string; ge_kind : string }.
Record GroupNamedPermissionItem := MkGroupNamed { gn_name : string; gn_permission : string; gn_kind : string }.
Record GroupScorerPermissionItem := MkGroupScorer {
  gs_experiment_id : string; gs_scorer_name : string; gs_group_id : option Z; gs_permission : string; gs_kind : string }.
Record GroupExperimentRegexPermissionItem := MkGroupExperimentRegex {
  gx_id : Z; gx_regex : string; gx_priority : Z; gx_group_id : option Z; gx_permission : string; gx_kind : string }.
Record GroupScorerRegexPermissionItem := MkGroupScorerRegex {
  gz_id : Z; gz_regex : string; gz_priority : Z; gz_group_id : option Z; gz_permission : string; gz_kind : string }.
Record GroupGatewayRegexPermissionItem := MkGroupGatewayRegex {
  gw_id : Z; gw_regex : string; gw_priority : Z; gw_group_id : option Z; gw_permission : string; gw_kind : string }.
Record GroupRegisteredModelRegexPermissionItem := MkGroupModelRegex {
  gm_id : Z; gm_regex : string; gm_priority : Z; gm_group_id : option Z; gm_permission : string; gm_prompt : bool; gm_kind : string }.
Definition GroupPromptRegexPermissionItem : Type := GroupRegisteredModelRegexPermissionItem.

(** ** Filled from a row

    [Record] of [entity.to_json()]: the entity has the columns of the row, with
    the owner as [user_id] or [group_id] after the table it comes from, and the
    other one absent. *)

(** The resource a row is about; the experiment, for a scorer. *)
Definition row_instance (p : perm_row) : string := match p_key p with Key name => name | ScorerKey experiment_id _ => experiment_id end.
Definition row_scorer_name (p : perm_row) : string := match p_key p with ScorerKey _ scorer_name => scorer_name | Key _ => "" end.

Definition experiment_record (p : perm_row) : ExperimentPermissionRecord :=
  MkExperimentRecord (row_instance p) (p_permission p) (Some (p_owner p)) None.
(** The user table has no prompt column; the entity's default is [False]. *)
Definition model_record (p : perm_row) : RegisteredModelPermissionRecord :=
  MkModelRecord (row_instance p) (Some (p_owner p)) (p_permission p) None false.
Definition model_regex_record (r : regex_row) : RegisteredModelRegexPermissionRecord :=
  MkModelRegexRecord (r_id r) (r_regex r) (r_priority r) (r_owner r) (r_permission r) (r_prompt r).
Definition scorer_record (p : perm_row) : ScorerPermissionRecord :=
  MkScorerRecord (row_instance p) (row_scorer_name p) (p_owner p) (p_permission p).
Definition scorer_regex_record (r : regex_row) : ScorerRegexPermissionRecord :=
  MkScorerRegexRecord (r_id r) (r_regex r) (r_priority r) (r_owner r) (r_permission r).
(** [id=str(perm.id)] *)
Definition experiment_regex_item (r : regex_row) : ExperimentRegexPermission :=
  MkExperimentRegex (pretty (r_id r)) (r_regex r) (r_priority r) (r_permission r).
Definition user_named_item (p : perm_row) : NamedPermissionSummary := MkNamedSummary (row_instance p) (p_permission p) "user".
Definition user_gateway_regex_item (r : regex_row) : UserGatewayRegexPermissionItem :=
  MkUserGatewayRegex (r_id r) (r_regex r) (r_priority r) (Some (r_owner r)) (r_permission r) "user".
Definition group_named_item (p : perm_row) : GroupNamedPermissionItem := MkGroupNamed (row_instance p) (p_permission p) "group".
Definition group_scorer_item (p : perm_row) : GroupScorerPermissionItem :=
  MkGroupScorer (row_instance p) (row_scorer_name p) (Some (p_owner p)) (p_permission p) "group".
Definition group_experiment_regex_item (r : regex_row) : GroupExperimentRegexPermissionItem :=
  MkGroupExperimentRegex (r_id r) (r_regex r) (r_priority r) (Some (r_owner r)) (r_permission r) "group".
Definition group_scorer_regex_item (r : regex_row) : GroupScorerRegexPermissionItem :=
  MkGroupScorerRegex (r_id r) (r_regex r) (r_priority r) (Some (r_owner r)) (r_permission r) "group".
Definition group_gateway_regex_item (r : regex_row) : GroupGatewayRegexPermissionItem :=
  MkGroupGatewayRegex (r_id r) (r_regex r) (r_priority r) (Some (r_owner r)) (r_permission r) "group".
Definition group_model_regex_item (r : regex_row) : GroupRegisteredModelRegexPermissionItem :=
  MkGroupModelRegex (r_id r) (r_regex r) (r_priority r) (Some (r_owner r)) (r_permission r) (r_prompt r) "group".
