(* ===== verification/FastApi.v ===== *)
(** * FastAPI requests, their errors and dependencies
    ([exceptions.py], [utils/request_helpers_fastapi.py], [dependencies.py])

    What the routes that FastAPI serves itself share: the request with what
    [AuthMiddleware] left on it, how an exception becomes a status, who the
    sender is, and the dependencies that guard the management API. *)
From S2P Require Import Prelude PyStrings Json Permissions Regex RegexSafety Database Repositories Users Groups Sessions Cache Resolution Store.
From S2P Require Import Requests Validators TokenVerification Identity AuthMiddleware ProviderRegistry Kubernetes.

(** ** The request *)

(** [fa_state]: the username and admin flag that [AuthMiddleware] set on
    [request.state], if it did. [fa_json] is [await request.json()]. *)
Record FastApiRequest := MkFastApi {
  fa_http : HttpRequest;
  fa_method : string;
  fa_query : list (string * string);
  fa_path_params : list (string * string);
  fa_json : outcome json;
  fa_state : option AuthContext;
}.

Definition state_username (req : FastApiRequest) : option string := username <$> fa_state req.
Definition state_is_admin (req : FastApiRequest) : bool := match fa_state req with Some ctx => is_admin ctx | None => false end.

(** [bridge.user.get_request_workspace] reads Flask's request: on a route that
    FastAPI serves there is none, and the bridge answers [None]. *)
Definition flaskless_workspace : option string := None.

(** ** Errors *)

(** [exc.error_code] is the name of a code, a text; the constants of
    [databricks_pb2] are numbers. *)
Class ErrorCodeNumbers := { code_number : error_code → Z }.
Definition code_name (c : error_code) : string :=
  match c with
  | INVALID_PARAMETER_VALUE => "INVALID_PARAMETER_VALUE"
  | INVALID_STATE => "INVALID_STATE"
  | RESOURCE_DOES_NOT_EXIST => "RESOURCE_DOES_NOT_EXIST"
  | RESOURCE_ALREADY_EXISTS => "RESOURCE_ALREADY_EXISTS"
  | INTERNAL_ERROR => "INTERNAL_ERROR"
  | OtherCode name => name
  end.

Definition UNAUTHENTICATED : error_code := OtherCode "UNAUTHENTICATED".

(** A Python text never equals a number. *)
Inductive py_value := PyText (s : string) | PyNumber (n : Z).
#[export] Instance py_value_eq_dec : EqDecision py_value.
Proof. solve_decision. Defined.

(** [getattr(e, "error_code", None) == CODE] *)
Definition has_error_code `{ErrorCodeNumbers} (e : exc) (code : error_code) : bool :=
  match e with
  | MlflowException c => bool_decide (PyText (code_name c) = PyNumber (code_number code))
  | _ => false
  end.

(** The handler that [register_exception_handlers] installs. *)
Definition handle_mlflow_exception (code : error_code) : Z :=
  let error_code := code_name code in
  if decide (error_code = "RESOURCE_ALREADY_EXISTS") then 409
  else if decide (error_code = "RESOURCE_DOES_NOT_EXIST") then 404
  else if decide (error_code = "INVALID_PARAMETER_VALUE") then 400
  else if decide (error_code = "UNAUTHORIZED") then 401
  else if decide (error_code = "UNAUTHENTICATED") then 401
  else if decide (error_code = "PERMISSION_DENIED") then 403
  else if decide (error_code = "INVALID_STATE") then 400
  else 500.

(** The status of an exception that leaves a handler: FastAPI's own for an
    [HTTPException], the installed handler's, or an internal server error. *)
Definition exc_status (e : exc) : Z :=
  match e with
  | HTTPException status_code _ => status_code
  | MlflowException code => handle_mlflow_exception code
  | _ => 500
  end.

(** A handler run as FastAPI runs it: a response, or the status of the failure. *)
Inductive reply (A : Type) := Replied (status : Z) (body : A) | Failed (status : Z).
Arguments Replied {A} _ _.
Arguments Failed {A} _.

Definition respond {S A} (status : Z) (handler : M S A) : M S (reply A) :=
  catch (body ← handler; mret (Replied status body)) (λ e, mret (Failed (exc_status e))).

(** [except Exception: raise HTTPException(...)] *)
Definition or_http {S A} (status : Z) (detail : string) (m : M S A) : M S A :=
  catch m (λ _, raise (HTTPException status detail)).

(** With a [ValueError] arm before it, for the id of a pattern. *)
Definition INVALID_PATTERN_ID : exc := HTTPException 400 "Invalid pattern ID format. Expected an integer.".
Definition or_bad_id {S A} (status : Z) (detail : string) (m : M S A) : M S A :=
  catch m (λ e, if decide (e = ValueError) then raise INVALID_PATTERN_ID else raise (HTTPException status detail)).

(** The [except MlflowException] arm of the handlers that single out one code,
    then [except Exception]. [str(e)] is the message, which is not modelled. *)
Definition or_mlflow `{ErrorCodeNumbers} {S A} (code : error_code) (status : Z) (detail failure : string) (m : M S A) : M S A :=
  catch m (λ e,
    match e with
    | MlflowException _ =>
        if has_error_code e code then raise (HTTPException status detail)
        else if has_error_code e INVALID_PARAMETER_VALUE then raise (HTTPException 400 "")
        else raise e
    | _ => raise (HTTPException 500 failure)
    end).

(** ** Who sent the request ([utils/request_helpers_fastapi.py]) *)

Section fastapi.
Context `{SqlBackend, PyRe, UserLibs, ColumnTyping, Config, TrackingStore}.
Context `{CacheBackend PermissionResult, CacheBackend Permission, TTLCache unit json, TTLCache provider_key json}.
Context `{TTLCache (string * string) bool}.
Context `{JsonLoads, Encodings, PodFiles, Network, JwtLib, TokenConfig, AuthConfig, ValidatorLibs}.

(** The clock of this request. *)
Variable now : Z.
Abbreviation auth := (M auth_state).

(** [request.session] raises without the session middleware; a session id that
    is no string cannot be bound to the query. *)
Definition session_username : auth (option string) :=
  session ← gets au_session;
  session ← lift (match session with Some s => Ok s | None => Raise (OtherException "AssertionError") end);
  session_id ← lift (match get_or (JStr "") "session_id" session with JStr s => Ok s | _ => Raise TypeError end);
  resolved ← in_store (SqlAlchemyStore.resolve_auth_session now session_id);
  mret (match resolved with
        | Some r => if rs_is_active r then Some (rs_username r) else None
        | None => None
        end).

Definition get_username_from_session (req : FastApiRequest) : auth (option string) :=
  if truthy (state_username req) then mret (state_username req)
  else catch session_username (λ _, mret None).

(** The name is looked up; the password of the credentials is not read. *)
Definition get_username_from_basic_auth (credentials : option (string * string)) : auth (option string) :=
  match credentials with
  | None => mret None
  | Some (username, _) =>
      catch (
        profile ← in_store (SqlAlchemyStore.get_user_profile username);
        mret (nonempty (Some (u_username profile.1))))
      (λ _, mret None)
  end.

Definition get_username_from_bearer_token (credentials : option string) : auth (option string) :=
  match credentials with
  | None => mret None
  | Some token =>
      catch (
        token_data ← in_tokens (validate_token token);
        mret (match extract_username token_data OIDC_USERNAME_FIELD with inr username => nonempty (Some username) | inl _ => None end))
      (λ _, mret None)
  end.

Definition AUTHENTICATION_REQUIRED : string := "Authentication required. Please provide valid credentials.".

Definition get_authenticated_username (req : FastApiRequest) (basic_username bearer_username : option string) : auth string :=
  username ← get_username_from_session req;
  let username := if negb (truthy username) && truthy basic_username then basic_username else username in
  let username := if negb (truthy username) && truthy bearer_username then bearer_username else username in
  match nonempty username with
  | Some username => mret username
  | None => raise (HTTPException 401 AUTHENTICATION_REQUIRED)
  end.

Definition get_username (req : FastApiRequest) : auth string :=
  catch (
    basic_username ← get_username_from_basic_auth None;
    bearer_username ← get_username_from_bearer_token None;
    get_authenticated_username req basic_username bearer_username)
  (λ e, match e with
        | HTTPException _ detail =>
            if contains "Authentication" detail || contains "credentials" detail then raise (MlflowException UNAUTHENTICATED)
            else raise (MlflowException INVALID_PARAMETER_VALUE)
        | e => raise e
        end).

Definition get_is_admin (req : FastApiRequest) : auth bool :=
  username ← get_username req;
  profile ← in_store (SqlAlchemyStore.get_user_profile username);
  mret (u_is_admin profile.1).

Definition is_authenticated (req : FastApiRequest) : auth bool :=
  catch (
    basic_username ← get_username_from_basic_auth None;
    bearer_username ← get_username_from_bearer_token None;
    username ← get_authenticated_username req basic_username bearer_username;
    mret (truthy (Some username)))
  (λ e, match e with HTTPException _ _ => mret false | e => raise e end).

(** ** The dependencies ([dependencies.py]) *)

Definition ADMIN_REQUIRED : string := "Administrator privileges required for this operation".

(** The name and the flag, or the given failure whatever went wrong. *)
Definition identify (req : FastApiRequest) (failure : exc) : auth (string * bool) :=
  catch (
    username ← get_username req;
    is_admin ← get_is_admin req;
    mret (username, is_admin))
  (λ _, raise failure).

Definition check_admin_permission (req : FastApiRequest) : auth string :=
  sender ← identify req (HTTPException 403 ADMIN_REQUIRED);
  let '(username, is_admin) := sender in
  if negb is_admin then raise (HTTPException 403 ADMIN_REQUIRED) else mret username.

(** [if not is_admin and not can_manage(...): raise HTTPException(403, ...)],
    after the two sub-dependencies. A dependency that returns nothing gives the
    handler [None]. *)
Definition require_manage (req : FastApiRequest) (can_manage : string → M world bool) (detail : string) : auth (option string) :=
  current_username ← get_username req;
  is_admin ← get_is_admin req;
  if is_admin : bool then mret None
  else
    ok ← in_world (can_manage current_username);
    if ok : bool then mret None else raise (HTTPException 403 detail).

Definition check_experiment_manage_permission (req : FastApiRequest) (experiment_id : string) : auth (option string) :=
  require_manage req (can_manage_experiment flaskless_workspace experiment_id)
    ("Insufficient permissions to manage experiment " +:+ experiment_id).
Definition check_registered_model_manage_permission (req : FastApiRequest) (name : string) : auth (option string) :=
  require_manage req (can_manage_registered_model flaskless_workspace name) ("Insufficient permissions to manage " +:+ name).
Definition check_prompt_manage_permission (req : FastApiRequest) (prompt_name : string) : auth (option string) :=
  require_manage req (can_manage_registered_model flaskless_workspace prompt_name) ("Insufficient permissions to manage " +:+ prompt_name).
Definition check_gateway_endpoint_manage_permission (req : FastApiRequest) (name : string) : auth (option string) :=
  require_manage req (can_manage_gateway_endpoint flaskless_workspace name) ("Insufficient permissions to manage endpoint " +:+ name).
Definition check_gateway_secret_manage_permission (req : FastApiRequest) (name : string) : auth (option string) :=
  require_manage req (can_manage_gateway_secret flaskless_workspace name) ("Insufficient permissions to manage secret " +:+ name).
Definition check_gateway_model_definition_manage_permission (req : FastApiRequest) (name : string) : auth (option string) :=
  require_manage req (can_manage_gateway_model_definition flaskless_workspace name)
    ("Insufficient permissions to manage model definition " +:+ name).

(** [request.query_params.get(key) or request.path_params.get(key)], then the
    body of a request that has one. *)
Definition scorer_param (req : FastApiRequest) (key : string) : option json :=
  let value := match nonempty (dict_get key (fa_query req)) with Some v => Some v | None => nonempty (dict_get key (fa_path_params req)) end in
  match value with
  | Some v => Some (JStr v)
  | None =>
      if decide (fa_method req ∈ ["POST"; "PATCH"; "DELETE"]) then
        match fa_json req with
        | Ok (JObj body) => v ← Some (get_key key (dict_of body)); if json_truthy v then Some v else None
        | _ => None
        end
      else None
  end.

(** Both sub-dependencies have run before the parameters are read. *)
Definition check_scorer_manage_permission (req : FastApiRequest) : auth (option string) :=
  current_username ← get_username req;
  is_admin ← get_is_admin req;
  match scorer_param req "experiment_id", scorer_param req "scorer_name" with
  | Some experiment_id, Some scorer_name =>
      if is_admin : bool then mret None
      else
        ok ← in_world (can_manage_scorer flaskless_workspace (py_str experiment_id) (py_str scorer_name) current_username);
        if ok : bool then mret None
        else raise (HTTPException 403 ("Insufficient permissions to manage scorer " +:+ py_str scorer_name))
  | _, _ => raise (HTTPException 400 "Missing required parameters: experiment_id and scorer_name")
  end.

Definition require_workspace (req : FastApiRequest) (workspace : string) (allowed : Permission → bool) (detail : string) : auth string :=
  sender ← identify req (HTTPException 403 "Authentication required");
  let '(username, is_admin) := sender in
  if is_admin : bool then mret username
  else if negb MLFLOW_ENABLE_WORKSPACES then raise (HTTPException 403 "Workspaces are not enabled")
  else
    perm ← in_world (get_workspace_permission_cached username workspace);
    match perm with
    | Some p => if allowed p then mret username else raise (HTTPException 403 detail)
    | None => raise (HTTPException 403 detail)
    end.

Definition check_workspace_manage_permission (req : FastApiRequest) (workspace : string) : auth string :=
  require_workspace req workspace can_manage ("MANAGE permission required on workspace '" +:+ workspace +:+ "'").
Definition check_workspace_read_permission (req : FastApiRequest) (workspace : string) : auth string :=
  require_workspace req workspace can_read ("READ permission required on workspace '" +:+ workspace +:+ "'").
End fastapi.
