(* ===== verification/RouterLib.v ===== *)
(** * What the permission routers share

    A call of the store from a handler, the pattern ids of a path, and the
    listings that show a user what the sender may see. *)
From S2P Require Import Prelude PyStrings Json Permissions Regex RegexSafety Database Repositories Users Groups Sessions Cache Resolution Batch Store.
From S2P Require Import Requests AfterRequest Validators TokenVerification Identity AuthMiddleware ProviderRegistry Kubernetes DataFetching ApiModels FastApi.
From Stdlib Require Import Ascii.
#[local] Open Scope Z_scope.

(** ** [int(s)]

    A sign, then digits that single underscores may separate, with whitespace
    around; no more than [sys.get_int_max_str_digits()] of them. *)
Fixpoint int_digits (value : Z) (after_digit : bool) (s : string) : option Z :=
  match s with
  | EmptyString => if after_digit then Some value else None
  | String c rest =>
      if is_digit c then int_digits (10 * value + (Z.of_nat (nat_of_ascii c) - 48)) true rest
      else if decide (c = "_"%char) then (if after_digit then int_digits value false rest else None)
      else None
  end.

Definition INT_MAX_STR_DIGITS : Z := 4300.
Definition py_int (s : string) : option Z :=
  let text := py_strip s in
  if INT_MAX_STR_DIGITS <? Z.of_nat (List.length (filter (λ c, is_digit c = true) (String.list_ascii_of_string text))) then None
  else
    match text with
    | String "-" digits => Z.opp <$> int_digits 0 false digits
    | String "+" digits => int_digits 0 false digits
    | digits => int_digits 0 false digits
    end.

Definition parse_id {S} (id : string) : M S Z := lift (match py_int id with Some n => Ok n | None => Raise ValueError end).

(** ** Shown from a batch *)

(** [permissions[key]] *)
Definition permission_at (permissions : gmap string PermissionResult) (key : string) : outcome PermissionResult :=
  match permissions !! key with Some r => Ok r | None => Raise KeyError end.

(** [[item for item in items if f(permissions[item.key].permission)]] *)
Fixpoint keep_where {A} (key : A → string) (f : Permission → bool) (permissions : gmap string PermissionResult) (items : list A) : outcome (list A) :=
  match items with
  | [] => Ok []
  | item :: rest =>
      r ← permission_at permissions (key item);
      kept ← keep_where key f permissions rest;
      Ok (if f (permission r) then item :: kept else kept)
  end.

(** [permission.name != NO_PERMISSIONS.name] *)
Definition some_permission (p : Permission) : bool := negb (String.eqb (name p) (name NO_PERMISSIONS)).

(** [[format(item, permissions[item.key]) for item in items]] *)
Fixpoint format_where {A B} (key : A → string) (format : A → PermissionResult → B) (permissions : gmap string PermissionResult) (items : list A) : outcome (list B) :=
  match items with
  | [] => Ok []
  | item :: rest =>
      r ← permission_at permissions (key item);
      others ← format_where key format permissions rest;
      Ok (format item r :: others)
  end.

Definition experiment_summary (e : experiment) (r : PermissionResult) : ExperimentPermissionSummary :=
  MkExperimentSummary (exp_name e) (exp_id e) (name (permission r)) (kind r).
Definition named_summary (resource : string) (r : PermissionResult) : NamedPermissionSummary :=
  MkNamedSummary resource (name (permission r)) (kind r).

Section routers.
Context `{SqlBackend, PyRe, UserLibs, ColumnTyping, Config, TrackingStore}.
Context `{CacheBackend PermissionResult, CacheBackend Permission, TTLCache unit json, TTLCache provider_key json}.
Context `{TTLCache (string * string) bool}.
Abbreviation auth := (M auth_state).

(** [store.<method>(...)] for a method that the cache wrappers may wrap. [c]
    names it; the wrappers of the methods the routers call here read no
    argument. *)
Definition store_call {A} (c : call) (method : M db A) : auth A := in_world (called (method_name c) (arguments c) method).

(** The same for a result that the handler drops. *)
Definition store_write (c : call) : auth unit := in_world (run_call c).

(** All of them for an administrator; what the user can access for the user
    themself; what the sender can manage otherwise. *)
Definition shown_items {A} (key : A → string) (batch_resolve : string → list A → M world (gmap string PermissionResult))
    (username current_username : string) (is_admin : bool) (permissions : gmap string PermissionResult) (items : list A) : auth (list A) :=
  if is_admin then mret items
  else if decide (current_username = username) then lift (keep_where key some_permission permissions items)
  else
    current_user_permissions ← in_world (batch_resolve current_username items);
    lift (keep_where key can_manage current_user_permissions items).

Definition batch_listing {A B} (key : A → string) (format : A → PermissionResult → B)
    (batch_resolve : string → list A → M world (gmap string PermissionResult))
    (username current_username : string) (is_admin : bool) (items : list A) : auth (list B) :=
  permissions ← in_world (batch_resolve username items);
  shown ← shown_items key batch_resolve username current_username is_admin permissions items;
  lift (format_where key format permissions shown).

(** ** Shown one resource at a time: the gateway's *)
Fixpoint gateway_summaries (resource_name : dict → string) (effective : string → string → M world PermissionResult)
    (username current_username : string) (is_admin : bool) (items : list dict) : auth (list NamedPermissionSummary) :=
  match items with
  | [] => mret []
  | item :: rest =>
      let resource := resource_name item in
      if decide (resource = "") then gateway_summaries resource_name effective username current_username is_admin rest
      else
        perm_result ← in_world (effective resource username);
        shown ← (if is_admin then mret true
                 else if decide (current_username = username) then mret (some_permission (permission perm_result))
                 else caller_perm ← in_world (effective resource current_username); mret (can_manage (permission caller_perm)));
        results ← gateway_summaries resource_name effective username current_username is_admin rest;
        mret (if shown : bool then named_summary resource perm_result :: results else results)
  end.

(** [is_admin or effective(...).permission.can_manage] *)
Definition admin_or_manages (is_admin : bool) (effective : M world PermissionResult) : auth bool :=
  if is_admin then mret true else r ← in_world effective; mret (can_manage (permission r)).

(** [if not is_admin and not effective(...).permission.can_manage: raise HTTPException(403, ...)] *)
Definition manager_only (is_admin : bool) (effective : M world PermissionResult) (detail : string) : auth unit :=
  ok ← admin_or_manages is_admin effective;
  if ok : bool then mret tt else raise (HTTPException 403 detail).
End routers.
