(* ===== verification/UserPermissions.v ===== *)
(** * The permissions of a user ([routers/user_permissions.py])

    One definition per handler, with its path parameters, its body and what its
    dependencies give it. A dependency that returns nothing gives [None]. *)
From S2P Require Import Prelude PyStrings Json Permissions Regex RegexSafety Database Repositories Users Groups Sessions Cache Resolution Batch Store.
From S2P Require Import Requests AfterRequest Validators TokenVerification Identity AuthMiddleware ProviderRegistry Kubernetes DataFetching ApiModels FastApi RouterLib.

Module UserPermissionsRouter.
Section handlers.
Context `{SqlBackend, PyRe, UserLibs, ColumnTyping, Config, TrackingStore}.
Context `{CacheBackend PermissionResult, CacheBackend Permission, TTLCache unit json, TTLCache provider_key json}.
Context `{TTLCache (string * string) bool}.
Context `{MlflowListings, ErrorCodeNumbers}.

(** MLflow's own workspace of the request, which the batch resolution reads. *)
Variable mlflow_workspace : option string.

Abbreviation auth := (M auth_state).

(** [search_experiments()] without arguments: the first page. *)
Definition get_user_experiment_permissions (username current_username : string) (is_admin : bool) : auth (list ExperimentPermissionSummary) :=
  all_experiments ← lift search_experiments_default;
  batch_listing exp_id experiment_summary (batch_resolve_experiment_permissions mlflow_workspace) username current_username is_admin all_experiments.

Definition create_user_experiment_permission (username experiment_id : string) (permission_data : ExperimentPermission)
    (current_username : option string) : auth MessageResponse :=
  _ ← store_write (CreateExperimentPermission experiment_id username (pb_permission permission_data));
  _ ← emit_audit_event (AuditEvent "permission.create" current_username (Some "experiment_permission") (Some experiment_id)
      [("username", JStr username); ("permission", JStr (pb_permission permission_data))]);
  mret (MkMessage "Experiment permission has been created.").

Definition get_user_experiment_permission (username experiment_id : string) : auth ExperimentPermissionResponse :=
  ep ← in_store (SqlAlchemyStore.get_experiment_permission experiment_id username);
  mret (MkExperimentResponse (experiment_record ep)).

Definition update_user_experiment_permission (username experiment_id : string) (permission_data : ExperimentPermission)
    (current_username : option string) : auth MessageResponse :=
  _ ← store_write (UpdateExperimentPermission experiment_id username (pb_permission permission_data));
  _ ← emit_audit_event (AuditEvent "permission.update" current_username (Some "experiment_permission") (Some experiment_id)
      [("username", JStr username); ("permission", JStr (pb_permission permission_data))]);
  mret (MkMessage "Experiment permission has been changed.").

Definition delete_user_experiment_permission (username experiment_id : string) (current_username : option string) : auth MessageResponse :=
  _ ← store_write (DeleteExperimentPermission experiment_id username);
  _ ← emit_audit_event (AuditEvent "permission.delete" current_username (Some "experiment_permission") (Some experiment_id)
      [("username", JStr username)]);
  mret (MkMessage "Experiment permission has been deleted.").

Definition create_user_experiment_pattern_permission (username : string) (pattern_data : ExperimentRegexCreate) (admin_username : string)
    : auth StatusMessageResponse :=
  or_http 500 "Failed to create experiment pattern permission" (
    _ ← store_write (CreateExperimentRegexPermission (pt_regex pattern_data) (pt_priority pattern_data) (pt_permission pattern_data) username);
    _ ← emit_audit_event (AuditEvent "permission.create" (Some admin_username) (Some "experiment_regex_permission") (Some username)
      [("regex", JStr (pt_regex pattern_data)); ("priority", JNum (pt_priority pattern_data)); ("permission", JStr (pt_permission pattern_data))]);
    mret (status_message ("Experiment pattern permission created for " +:+ username))).

Definition list_user_experiment_pattern_permissions (username admin_username : string) : auth (list ExperimentRegexPermission) :=
  or_http 500 "Failed to retrieve experiment pattern permissions" (
    permissions ← in_store (SqlAlchemyStore.list_experiment_regex_permissions username);
    mret (map experiment_regex_item permissions)).

Definition get_user_experiment_pattern_permission (username id admin_username : string) : auth ExperimentRegexPermission :=
  or_bad_id 404 "Experiment pattern permission not found" (
    pattern_id ← parse_id id;
    permission ← in_store (SqlAlchemyStore.get_experiment_regex_permission username pattern_id);
    mret (experiment_regex_item permission)).

Definition update_user_experiment_pattern_permission (username id : string) (pattern_data : ExperimentRegexCreate) (admin_username : string)
    : auth StatusMessageResponse :=
  or_bad_id 500 "Failed to update experiment pattern permission" (
    pattern_id ← parse_id id;
    _ ← store_write (UpdateExperimentRegexPermission (pt_regex pattern_data) (pt_priority pattern_data)
      (pt_permission pattern_data) username pattern_id);
    _ ← emit_audit_event (AuditEvent "permission.update" (Some admin_username) (Some "experiment_regex_permission") (Some username)
      [("id", JStr id); ("regex", JStr (pt_regex pattern_data)); ("priority", JNum (pt_priority pattern_data));
      ("permission", JStr (pt_permission pattern_data))]);
    mret (status_message ("Experiment pattern permission updated for " +:+ username))).

Definition delete_user_experiment_pattern_permission (username id admin_username : string) : auth StatusMessageResponse :=
  or_bad_id 500 "Failed to delete experiment pattern permission" (
    pattern_id ← parse_id id;
    _ ← store_write (DeleteExperimentRegexPermission username pattern_id);
    _ ← emit_audit_event (AuditEvent "permission.delete" (Some admin_username) (Some "experiment_regex_permission") (Some username)
      [("id", JStr id)]);
    mret (status_message ("Experiment pattern permission deleted for " +:+ username))).

Definition get_user_prompts (fuel : nat) (username current_username : string) (is_admin : bool) : auth (option (list NamedPermissionSummary)) :=
  listing ← lift (fetch_all_prompts fuel 1000);
  match listing with
  | None => mret None
  | Some items =>
      summaries ← batch_listing id named_summary (batch_resolve_prompt_permissions mlflow_workspace) username current_username is_admin items;
      mret (Some summaries)
  end.

Definition create_user_prompt_permission (username name : string) (permission_data : PromptPermission) (current_username : option string)
    : auth StatusMessageResponse :=
  or_mlflow RESOURCE_ALREADY_EXISTS 409 "Prompt permission already exists" "Failed to create prompt permission" (
    _ ← store_write (CreateRegisteredModelPermission name username (pb_permission permission_data));
    _ ← emit_audit_event (AuditEvent "permission.create" current_username (Some "prompt_permission") (Some name) [("username", JStr username);
      ("permission", JStr (pb_permission permission_data))]);
    mret (status_message ("Prompt permission created for " +:+ username +:+ " on " +:+ name))).

Definition get_user_prompt_permission (username name : string) : auth PromptPermissionResponse :=
  or_http 404 "Prompt permission not found" (
    rmp ← in_store (SqlAlchemyStore.get_registered_model_permission name username);
    mret (MkPromptResponse (model_record rmp))).

Definition update_user_prompt_permission (username name : string) (permission_data : PromptPermission) (current_username : option string)
    : auth StatusMessageResponse :=
  or_mlflow RESOURCE_DOES_NOT_EXIST 404 "Prompt permission does not exist" "Failed to update prompt permission" (
    _ ← store_write (UpdateRegisteredModelPermission name username (pb_permission permission_data));
    _ ← emit_audit_event (AuditEvent "permission.update" current_username (Some "prompt_permission") (Some name) [("username", JStr username);
      ("permission", JStr (pb_permission permission_data))]);
    mret (status_message ("Prompt permission updated for " +:+ username +:+ " on " +:+ name))).

Definition delete_user_prompt_permission (username name : string) (current_username : option string) : auth StatusMessageResponse :=
  or_http 500 "Failed to delete prompt permission" (
    _ ← store_write (DeleteRegisteredModelPermission name username);
    _ ← emit_audit_event (AuditEvent "permission.delete" current_username (Some "prompt_permission") (Some name) [("username", JStr username)]);
    mret (status_message ("Prompt permission deleted for " +:+ username +:+ " on " +:+ name))).

Definition get_user_prompt_pattern_permissions (username admin_username : string) : auth (list RegisteredModelRegexPermissionRecord) :=
  or_http 500 "Failed to retrieve prompt pattern permissions" (
    rm ← in_store (SqlAlchemyStore.list_prompt_regex_permissions username true);
    mret (map model_regex_record rm)).

Definition create_user_prompt_regex_permission (username : string) (pattern_data : PromptRegexCreate) (admin_username : string)
    : auth StatusMessageResponse :=
  or_http 500 "Failed to create prompt pattern permission" (
    _ ← store_write (CreatePromptRegexPermission (pt_regex pattern_data) (pt_priority pattern_data) (pt_permission pattern_data) username true);
    _ ← emit_audit_event (AuditEvent "permission.create" (Some admin_username) (Some "prompt_regex_permission") (Some username)
      [("regex", JStr (pt_regex pattern_data)); ("priority", JNum (pt_priority pattern_data)); ("permission", JStr (pt_permission pattern_data))]);
    mret (status_message ("Prompt pattern permission created for " +:+ username))).

Definition get_user_prompt_regex_permission (username id admin_username : string) : auth PromptRegexPermissionResponse :=
  or_bad_id 404 "Prompt pattern permission not found" (
    pattern_id ← parse_id id;
    rm ← in_store (SqlAlchemyStore.get_prompt_regex_permission pattern_id username true);
    mret (MkPromptRegexResponse (model_regex_record rm))).

Definition update_user_prompt_regex_permission (username id : string) (pattern_data : PromptRegexCreate) (admin_username : string)
    : auth PromptRegexPermissionResponse :=
  or_bad_id 500 "Failed to update prompt pattern permission" (
    pattern_id ← parse_id id;
    rm ← store_call (UpdatePromptRegexPermission pattern_id (pt_regex pattern_data) (pt_priority pattern_data)
      (pt_permission pattern_data) username true) (SqlAlchemyStore.update_prompt_regex_permission pattern_id (pt_regex pattern_data)
      (pt_priority pattern_data) (pt_permission pattern_data) username true);
    _ ← emit_audit_event (AuditEvent "permission.update" (Some admin_username) (Some "prompt_regex_permission") (Some username) [("id", JStr id);
      ("regex", JStr (pt_regex pattern_data)); ("priority", JNum (pt_priority pattern_data)); ("permission", JStr (pt_permission pattern_data))]);
    mret (MkPromptRegexResponse (model_regex_record rm))).

Definition delete_user_prompt_regex_permission (username id admin_username : string) : auth StatusOnlyResponse :=
  or_bad_id 500 "Failed to delete prompt pattern permission" (
    pattern_id ← parse_id id;
    _ ← store_write (DeletePromptRegexPermission pattern_id username);
    _ ← emit_audit_event (AuditEvent "permission.delete" (Some admin_username) (Some "prompt_regex_permission") (Some username) [("id", JStr id)]);
    mret status_only).

Definition get_user_registered_models (fuel : nat) (username current_username : string) (is_admin : bool)
    : auth (option (list NamedPermissionSummary)) :=
  listing ← lift (fetch_all_registered_models fuel None None 1000);
  match listing with
  | None => mret None
  | Some items =>
      summaries ← batch_listing id named_summary (batch_resolve_model_permissions mlflow_workspace) username current_username is_admin items;
      mret (Some summaries)
  end.

Definition create_user_registered_model_permission (username name : string) (permission_data : RegisteredModelPermission)
    (current_username : option string) : auth StatusMessageResponse :=
  or_mlflow RESOURCE_ALREADY_EXISTS 409 "Registered model permission already exists" "Failed to create registered model permission" (
    _ ← store_write (CreateRegisteredModelPermission name username (pb_permission permission_data));
    _ ← emit_audit_event (AuditEvent "permission.create" current_username (Some "registered_model_permission") (Some name)
      [("username", JStr username); ("permission", JStr (pb_permission permission_data))]);
    mret (status_message ("Registered model permission created for " +:+ username +:+ " on " +:+ name))).

Definition get_user_registered_model_permission (username name : string) : auth RegisteredModelPermissionResponse :=
  or_http 404 "Registered model permission not found" (
    rmp ← in_store (SqlAlchemyStore.get_registered_model_permission name username);
    mret (MkModelResponse (model_record rmp))).

Definition update_user_registered_model_permission (username name : string) (permission_data : RegisteredModelPermission)
    (current_username : option string) : auth StatusMessageResponse :=
  or_mlflow RESOURCE_DOES_NOT_EXIST 404 "Registered model permission does not exist" "Failed to update registered model permission" (
    _ ← store_write (UpdateRegisteredModelPermission name username (pb_permission permission_data));
    _ ← emit_audit_event (AuditEvent "permission.update" current_username (Some "registered_model_permission") (Some name)
      [("username", JStr username); ("permission", JStr (pb_permission permission_data))]);
    mret (status_message ("Registered model permission updated for " +:+ username +:+ " on " +:+ name))).

Definition delete_user_registered_model_permission (username name : string) (current_username : option string) : auth StatusMessageResponse :=
  or_http 500 "Failed to delete registered model permission" (
    _ ← store_write (DeleteRegisteredModelPermission name username);
    _ ← emit_audit_event (AuditEvent "permission.delete" current_username (Some "registered_model_permission") (Some name)
      [("username", JStr username)]);
    mret (status_message ("Registered model permission deleted for " +:+ username +:+ " on " +:+ name))).

Definition get_user_scorer_permissions (username current_username : string) (is_admin : bool) : auth (list ScorerPermissionRecord) :=
  or_http 500 "Failed to retrieve scorer permissions" (
    perms ← in_store (SqlAlchemyStore.list_scorer_permissions username);
    filtered ← (if is_admin || bool_decide (current_username = username) then mret perms
                else filter_m (λ sp, admin_or_manages false (effective_experiment_permission flaskless_workspace (row_instance sp)
                  current_username)) perms);
    mret (map scorer_record filtered)).

Definition create_user_scorer_permission (username experiment_id scorer_name : string) (permission_data : ScorerPermission)
    (current_username : option string) : auth ScorerPermissionResponse :=
  or_mlflow RESOURCE_ALREADY_EXISTS 409 "Scorer permission already exists" "Failed to create scorer permission" (
    sp ← store_call (CreateScorerPermission experiment_id scorer_name username (pb_permission permission_data))
      (SqlAlchemyStore.create_scorer_permission experiment_id scorer_name username (pb_permission permission_data));
    _ ← emit_audit_event (AuditEvent "permission.create" current_username (Some "scorer_permission") (Some scorer_name)
      [("username", JStr username); ("experiment_id", JStr experiment_id); ("permission", JStr (pb_permission permission_data))]);
    mret (MkScorerResponse (scorer_record sp))).

Definition get_user_scorer_permission (username experiment_id scorer_name : string) : auth ScorerPermissionResponse :=
  or_http 404 "Scorer permission not found" (
    sp ← in_store (SqlAlchemyStore.get_scorer_permission experiment_id scorer_name username);
    mret (MkScorerResponse (scorer_record sp))).

Definition update_user_scorer_permission (username experiment_id scorer_name : string) (permission_data : ScorerPermission)
    (current_username : option string) : auth StatusMessageResponse :=
  or_mlflow RESOURCE_DOES_NOT_EXIST 404 "Scorer permission does not exist" "Failed to update scorer permission" (
    _ ← store_write (UpdateScorerPermission experiment_id scorer_name username (pb_permission permission_data));
    _ ← emit_audit_event (AuditEvent "permission.update" current_username (Some "scorer_permission") (Some scorer_name)
      [("username", JStr username); ("experiment_id", JStr experiment_id); ("permission", JStr (pb_permission permission_data))]);
    mret (status_message ("Scorer permission updated for " +:+ username +:+ " on " +:+ scorer_name))).

Definition delete_user_scorer_permission (username experiment_id scorer_name : string) (current_username : option string)
    : auth StatusMessageResponse :=
  or_http 500 "Failed to delete scorer permission" (
    _ ← store_write (DeleteScorerPermission experiment_id scorer_name username);
    _ ← emit_audit_event (AuditEvent "permission.delete" current_username (Some "scorer_permission") (Some scorer_name)
      [("username", JStr username); ("experiment_id", JStr experiment_id)]);
    mret (status_message ("Scorer permission deleted for " +:+ username +:+ " on " +:+ scorer_name))).

Definition get_user_scorer_regex_permissions (username admin_username : string) : auth (list ScorerRegexPermissionRecord) :=
  or_http 500 "Failed to retrieve scorer pattern permissions" (
    perms ← in_store (SqlAlchemyStore.list_scorer_regex_permissions username);
    mret (map scorer_regex_record perms)).

Definition create_user_scorer_regex_permission (username : string) (pattern_data : ScorerRegexCreate) (admin_username : string)
    : auth ScorerRegexPermissionResponse :=
  or_mlflow RESOURCE_ALREADY_EXISTS 409 "Scorer pattern permission already exists" "Failed to create scorer pattern permission" (
    perm ← store_call (CreateScorerRegexPermission (pt_regex pattern_data) (pt_priority pattern_data) (pt_permission pattern_data) username)
      (SqlAlchemyStore.create_scorer_regex_permission (pt_regex pattern_data) (pt_priority pattern_data) (pt_permission pattern_data) username);
    _ ← emit_audit_event (AuditEvent "permission.create" (Some admin_username) (Some "scorer_regex_permission") (Some username)
      [("regex", JStr (pt_regex pattern_data)); ("priority", JNum (pt_priority pattern_data)); ("permission", JStr (pt_permission pattern_data))]);
    mret (MkScorerRegexResponse (scorer_regex_record perm))).

Definition get_user_scorer_pattern_permission (username : string) (id : Z) (admin_username : string) : auth ScorerRegexPermissionResponse :=
  or_http 404 "Scorer pattern permission not found" (
    perm ← in_store (SqlAlchemyStore.get_scorer_regex_permission username id);
    mret (MkScorerRegexResponse (scorer_regex_record perm))).

Definition update_user_scorer_pattern_permission (username : string) (id : Z) (pattern_data : ScorerRegexCreate) (admin_username : string)
    : auth ScorerRegexPermissionResponse :=
  or_http 500 "Failed to update scorer pattern permission" (
    perm ← store_call (UpdateScorerRegexPermission id (pt_regex pattern_data) (pt_priority pattern_data) (pt_permission pattern_data) username)
      (SqlAlchemyStore.update_scorer_regex_permission id (pt_regex pattern_data) (pt_priority pattern_data) (pt_permission pattern_data) username);
    _ ← emit_audit_event (AuditEvent "permission.update" (Some admin_username) (Some "scorer_regex_permission") (Some username) [("id", JNum id);
      ("regex", JStr (pt_regex pattern_data)); ("priority", JNum (pt_priority pattern_data)); ("permission", JStr (pt_permission pattern_data))]);
    mret (MkScorerRegexResponse (scorer_regex_record perm))).

Definition delete_user_scorer_pattern_permission (username : string) (id : Z) (admin_username : string) : auth StatusMessageResponse :=
  or_http 500 "Failed to delete scorer pattern permission" (
    _ ← store_write (DeleteScorerRegexPermission id username);
    _ ← emit_audit_event (AuditEvent "permission.delete" (Some admin_username) (Some "scorer_regex_permission") (Some username) [("id", JNum id)]);
    mret (status_message ("Scorer pattern permission deleted for " +:+ username))).

Definition get_user_registered_model_regex_permissions (username admin_username : string) : auth (list RegisteredModelRegexPermissionRecord) :=
  or_http 500 "Failed to retrieve registered model pattern permissions" (
    rm ← in_store (SqlAlchemyStore.list_registered_model_regex_permissions username);
    mret (map model_regex_record rm)).

Definition create_user_registered_model_regex_permission (username : string) (pattern_data : RegisteredModelRegexCreate) (admin_username : string)
    : auth StatusMessageResponse :=
  or_http 500 "Failed to create registered model pattern permission" (
    _ ← store_write (CreateRegisteredModelRegexPermission (pt_regex pattern_data) (pt_priority pattern_data) (pt_permission pattern_data) username);
    _ ← emit_audit_event (AuditEvent "permission.create" (Some admin_username) (Some "registered_model_regex_permission") (Some username)
      [("regex", JStr (pt_regex pattern_data)); ("priority", JNum (pt_priority pattern_data)); ("permission", JStr (pt_permission pattern_data))]);
    mret (status_message ("Registered model pattern permission created for " +:+ username))).

Definition get_user_registered_model_regex_permission (username id admin_username : string) : auth RegisteredModelRegexPermissionResponse :=
  or_bad_id 404 "Registered model pattern permission not found" (
    pattern_id ← parse_id id;
    rm ← in_store (SqlAlchemyStore.get_registered_model_regex_permission pattern_id username);
    mret (MkModelRegexResponse (model_regex_record rm))).

Definition update_user_registered_model_regex_permission (username id : string) (pattern_data : RegisteredModelRegexCreate)
    (admin_username : string) : auth RegisteredModelRegexPermissionResponse :=
  or_bad_id 500 "Failed to update registered model pattern permission" (
    pattern_id ← parse_id id;
    rm ← store_call (UpdateRegisteredModelRegexPermission pattern_id (pt_regex pattern_data) (pt_priority pattern_data)
      (pt_permission pattern_data) username) (SqlAlchemyStore.update_registered_model_regex_permission pattern_id (pt_regex pattern_data)
      (pt_priority pattern_data) (pt_permission pattern_data) username);
    _ ← emit_audit_event (AuditEvent "permission.update" (Some admin_username) (Some "registered_model_regex_permission") (Some username)
      [("id", JStr id); ("regex", JStr (pt_regex pattern_data)); ("priority", JNum (pt_priority pattern_data));
      ("permission", JStr (pt_permission pattern_data))]);
    mret (MkModelRegexResponse (model_regex_record rm))).

Definition delete_user_registered_model_regex_permission (username id admin_username : string) : auth StatusOnlyResponse :=
  or_bad_id 500 "Failed to delete registered model pattern permission" (
    pattern_id ← parse_id id;
    _ ← store_write (DeleteRegisteredModelRegexPermission pattern_id username);
    _ ← emit_audit_event (AuditEvent "permission.delete" (Some admin_username) (Some "registered_model_regex_permission") (Some username)
      [("id", JStr id)]);
    mret status_only).

Definition get_user_gateway_endpoint_permissions (username current_username : string) (is_admin : bool) : auth (list NamedPermissionSummary) :=
  or_http 500 "Failed to retrieve gateway endpoint permissions" (
    items ← lift fetch_all_gateway_endpoints;
    gateway_summaries name_of (effective_gateway_endpoint_permission flaskless_workspace) username current_username is_admin items).

Definition create_user_gateway_endpoint_permission (username name : string) (permission_data : GatewayPermission) (admin_username : string)
    : auth NamedPermissionSummary :=
  or_http 500 "Failed to create gateway endpoint permission" (
    perm ← store_call (CreateGatewayEndpointPermission name username (pb_permission permission_data))
      (SqlAlchemyStore.create_gateway_endpoint_permission name username (pb_permission permission_data));
    _ ← emit_audit_event (AuditEvent "permission.create" (Some admin_username) (Some "gateway_endpoint_permission") (Some name)
      [("username", JStr username); ("permission", JStr (pb_permission permission_data))]);
    mret (user_named_item perm)).

Definition get_user_gateway_endpoint_permission (username name admin_username : string) : auth NamedPermissionSummary :=
  or_http 404 "Gateway endpoint permission not found" (
    perm ← in_store (SqlAlchemyStore.get_gateway_endpoint_permission name username);
    mret (user_named_item perm)).

Definition update_user_gateway_endpoint_permission (username name : string) (permission_data : GatewayPermission) (admin_username : string)
    : auth StatusMessageResponse :=
  or_http 500 "Failed to update gateway endpoint permission" (
    _ ← store_write (UpdateGatewayEndpointPermission name username (pb_permission permission_data));
    _ ← emit_audit_event (AuditEvent "permission.update" (Some admin_username) (Some "gateway_endpoint_permission") (Some name)
      [("username", JStr username); ("permission", JStr (pb_permission permission_data))]);
    mret (status_message ("Gateway endpoint permission updated for " +:+ username +:+ " on " +:+ name))).

Definition delete_user_gateway_endpoint_permission (username name admin_username : string) : auth StatusMessageResponse :=
  or_http 500 "Failed to delete gateway endpoint permission" (
    _ ← store_write (DeleteGatewayEndpointPermission name username);
    _ ← emit_audit_event (AuditEvent "permission.delete" (Some admin_username) (Some "gateway_endpoint_permission") (Some name)
      [("username", JStr username)]);
    mret (status_message ("Gateway endpoint permission deleted for " +:+ username +:+ " on " +:+ name))).

Definition get_user_gateway_endpoint_pattern_permissions (username admin_username : string) : auth (list UserGatewayRegexPermissionItem) :=
  or_http 500 "Failed to retrieve gateway endpoint pattern permissions" (
    perms ← in_store (SqlAlchemyStore.list_gateway_endpoint_regex_permissions username);
    mret (map user_gateway_regex_item perms)).

Definition create_user_gateway_endpoint_pattern_permission (username : string) (pattern_data : GatewayRegexCreate) (admin_username : string)
    : auth UserGatewayRegexPermissionItem :=
  or_http 500 "Failed to create gateway endpoint pattern permission" (
    perm ← store_call (CreateGatewayEndpointRegexPermission (pt_regex pattern_data) (pt_priority pattern_data)
      (pt_permission pattern_data) username) (SqlAlchemyStore.create_gateway_endpoint_regex_permission (pt_regex pattern_data)
      (pt_priority pattern_data) (pt_permission pattern_data) username);
    _ ← emit_audit_event (AuditEvent "permission.create" (Some admin_username) (Some "gateway_endpoint_regex_permission") (Some username)
      [("regex", JStr (pt_regex pattern_data)); ("priority", JNum (pt_priority pattern_data)); ("permission", JStr (pt_permission pattern_data))]);
    mret (user_gateway_regex_item perm)).

Definition get_user_gateway_endpoint_pattern_permission (username : string) (id : Z) (admin_username : string)
    : auth UserGatewayRegexPermissionItem :=
  or_http 404 "Gateway endpoint pattern permission not found" (
    perm ← in_store (SqlAlchemyStore.get_gateway_endpoint_regex_permission id username);
    mret (user_gateway_regex_item perm)).

Definition update_user_gateway_endpoint_pattern_permission (username : string) (id : Z) (pattern_data : GatewayRegexCreate)
    (admin_username : string) : auth UserGatewayRegexPermissionItem :=
  or_http 500 "Failed to update gateway endpoint pattern permission" (
    perm ← store_call (UpdateGatewayEndpointRegexPermission id (pt_regex pattern_data) (pt_priority pattern_data)
      (pt_permission pattern_data) username) (SqlAlchemyStore.update_gateway_endpoint_regex_permission id (pt_regex pattern_data)
      (pt_priority pattern_data) (pt_permission pattern_data) username);
    _ ← emit_audit_event (AuditEvent "permission.update" (Some admin_username) (Some "gateway_endpoint_regex_permission") (Some username)
      [("id", JNum id); ("regex", JStr (pt_regex pattern_data)); ("priority", JNum (pt_priority pattern_data));
      ("permission", JStr (pt_permission pattern_data))]);
    mret (user_gateway_regex_item perm)).

Definition delete_user_gateway_endpoint_pattern_permission (username : string) (id : Z) (admin_username : string) : auth StatusMessageResponse :=
  or_http 500 "Failed to delete gateway endpoint pattern permission" (
    _ ← store_write (DeleteGatewayEndpointRegexPermission id username);
    _ ← emit_audit_event (AuditEvent "permission.delete" (Some admin_username) (Some "gateway_endpoint_regex_permission") (Some username)
      [("id", JNum id)]);
    mret (status_message ("Gateway endpoint pattern permission deleted for " +:+ username))).

Definition get_user_gateway_model_definition_permissions (username current_username : string) (is_admin : bool) : auth (list NamedPermissionSummary)
    :=
  or_http 500 "Failed to retrieve gateway model definition permissions" (
    items ← lift fetch_all_gateway_model_definitions;
    gateway_summaries name_of (effective_gateway_model_definition_permission flaskless_workspace) username current_username is_admin items).

Definition create_user_gateway_model_definition_permission (username name : string) (permission_data : GatewayPermission) (admin_username : string)
    : auth NamedPermissionSummary :=
  or_http 500 "Failed to create gateway model definition permission" (
    perm ← store_call (CreateGatewayModelDefinitionPermission name username (pb_permission permission_data))
      (SqlAlchemyStore.create_gateway_model_definition_permission name username (pb_permission permission_data));
    _ ← emit_audit_event (AuditEvent "permission.create" (Some admin_username) (Some "gateway_model_definition_permission") (Some name)
      [("username", JStr username); ("permission", JStr (pb_permission permission_data))]);
    mret (user_named_item perm)).

Definition get_user_gateway_model_definition_permission (username name admin_username : string) : auth NamedPermissionSummary :=
  or_http 404 "Gateway model definition permission not found" (
    perm ← in_store (SqlAlchemyStore.get_gateway_model_definition_permission name username);
    mret (user_named_item perm)).

Definition update_user_gateway_model_definition_permission (username name : string) (permission_data : GatewayPermission) (admin_username : string)
    : auth StatusMessageResponse :=
  or_http 500 "Failed to update gateway model definition permission" (
    _ ← store_write (UpdateGatewayModelDefinitionPermission name username (pb_permission permission_data));
    _ ← emit_audit_event (AuditEvent "permission.update" (Some admin_username) (Some "gateway_model_definition_permission") (Some name)
      [("username", JStr username); ("permission", JStr (pb_permission permission_data))]);
    mret (status_message ("Gateway model definition permission updated for " +:+ username +:+ " on " +:+ name))).

Definition delete_user_gateway_model_definition_permission (username name admin_username : string) : auth StatusMessageResponse :=
  or_http 500 "Failed to delete gateway model definition permission" (
    _ ← store_write (DeleteGatewayModelDefinitionPermission name username);
    _ ← emit_audit_event (AuditEvent "permission.delete" (Some admin_username) (Some "gateway_model_definition_permission") (Some name)
      [("username", JStr username)]);
    mret (status_message ("Gateway model definition permission deleted for " +:+ username +:+ " on " +:+ name))).

Definition get_user_gateway_model_definition_pattern_permissions (username admin_username : string) : auth (list UserGatewayRegexPermissionItem) :=
  or_http 500 "Failed to retrieve gateway model definition pattern permissions" (
    perms ← in_store (SqlAlchemyStore.list_gateway_model_definition_regex_permissions username);
    mret (map user_gateway_regex_item perms)).

Definition create_user_gateway_model_definition_pattern_permission (username : string) (pattern_data : GatewayRegexCreate) (admin_username : string)
    : auth UserGatewayRegexPermissionItem :=
  or_http 500 "Failed to create gateway model definition pattern permission" (
    perm ← store_call (CreateGatewayModelDefinitionRegexPermission (pt_regex pattern_data) (pt_priority pattern_data)
      (pt_permission pattern_data) username) (SqlAlchemyStore.create_gateway_model_definition_regex_permission (pt_regex pattern_data)
      (pt_priority pattern_data) (pt_permission pattern_data) username);
    _ ← emit_audit_event (AuditEvent "permission.create" (Some admin_username) (Some "gateway_model_definition_regex_permission") (Some username)
      [("regex", JStr (pt_regex pattern_data)); ("priority", JNum (pt_priority pattern_data)); ("permission", JStr (pt_permission pattern_data))]);
    mret (user_gateway_regex_item perm)).

Definition get_user_gateway_model_definition_pattern_permission (username : string) (id : Z) (admin_username : string)
    : auth UserGatewayRegexPermissionItem :=
  or_http 404 "Gateway model definition pattern permission not found" (
    perm ← in_store (SqlAlchemyStore.get_gateway_model_definition_regex_permission id username);
    mret (user_gateway_regex_item perm)).

Definition update_user_gateway_model_definition_pattern_permission (username : string) (id : Z) (pattern_data : GatewayRegexCreate)
    (admin_username : string) : auth UserGatewayRegexPermissionItem :=
  or_http 500 "Failed to update gateway model definition pattern permission" (
    perm ← store_call (UpdateGatewayModelDefinitionRegexPermission id (pt_regex pattern_data) (pt_priority pattern_data)
      (pt_permission pattern_data) username) (SqlAlchemyStore.update_gateway_model_definition_regex_permission id (pt_regex pattern_data)
      (pt_priority pattern_data) (pt_permission pattern_data) username);
    _ ← emit_audit_event (AuditEvent "permission.update" (Some admin_username) (Some "gateway_model_definition_regex_permission") (Some username)
      [("id", JNum id); ("regex", JStr (pt_regex pattern_data)); ("priority", JNum (pt_priority pattern_data));
      ("permission", JStr (pt_permission pattern_data))]);
    mret (user_gateway_regex_item perm)).

Definition delete_user_gateway_model_definition_pattern_permission (username : string) (id : Z) (admin_username : string)
    : auth StatusMessageResponse :=
  or_http 500 "Failed to delete gateway model definition pattern permission" (
    _ ← store_write (DeleteGatewayModelDefinitionRegexPermission id username);
    _ ← emit_audit_event (AuditEvent "permission.delete" (Some admin_username) (Some "gateway_model_definition_regex_permission") (Some username)
      [("id", JNum id)]);
    mret (status_message ("Gateway model definition pattern permission deleted for " +:+ username))).

Definition get_user_gateway_secret_permissions (username current_username : string) (is_admin : bool) : auth (list NamedPermissionSummary) :=
  or_http 500 "Failed to retrieve gateway secret permissions" (
    items ← lift fetch_all_gateway_secrets;
    gateway_summaries secret_name_of (effective_gateway_secret_permission flaskless_workspace) username current_username is_admin items).

Definition create_user_gateway_secret_permission (username name : string) (permission_data : GatewayPermission) (admin_username : string)
    : auth NamedPermissionSummary :=
  or_http 500 "Failed to create gateway secret permission" (
    perm ← store_call (CreateGatewaySecretPermission name username (pb_permission permission_data))
      (SqlAlchemyStore.create_gateway_secret_permission name username (pb_permission permission_data));
    _ ← emit_audit_event (AuditEvent "permission.create" (Some admin_username) (Some "gateway_secret_permission") (Some name)
      [("username", JStr username); ("permission", JStr (pb_permission permission_data))]);
    mret (user_named_item perm)).

Definition get_user_gateway_secret_permission (username name admin_username : string) : auth NamedPermissionSummary :=
  or_http 404 "Gateway secret permission not found" (
    perm ← in_store (SqlAlchemyStore.get_gateway_secret_permission name username);
    mret (user_named_item perm)).

Definition update_user_gateway_secret_permission (username name : string) (permission_data : GatewayPermission) (admin_username : string)
    : auth StatusMessageResponse :=
  or_http 500 "Failed to update gateway secret permission" (
    _ ← store_write (UpdateGatewaySecretPermission name username (pb_permission permission_data));
    _ ← emit_audit_event (AuditEvent "permission.update" (Some admin_username) (Some "gateway_secret_permission") (Some name)
      [("username", JStr username); ("permission", JStr (pb_permission permission_data))]);
    mret (status_message ("Gateway secret permission updated for " +:+ username +:+ " on " +:+ name))).

Definition delete_user_gateway_secret_permission (username name admin_username : string) : auth StatusMessageResponse :=
  or_http 500 "Failed to delete gateway secret permission" (
    _ ← store_write (DeleteGatewaySecretPermission name username);
    _ ← emit_audit_event (AuditEvent "permission.delete" (Some admin_username) (Some "gateway_secret_permission") (Some name)
      [("username", JStr username)]);
    mret (status_message ("Gateway secret permission deleted for " +:+ username +:+ " on " +:+ name))).

Definition get_user_gateway_secret_pattern_permissions (username admin_username : string) : auth (list UserGatewayRegexPermissionItem) :=
  or_http 500 "Failed to retrieve gateway secret pattern permissions" (
    perms ← in_store (SqlAlchemyStore.list_gateway_secret_regex_permissions username);
    mret (map user_gateway_regex_item perms)).

Definition create_user_gateway_secret_pattern_permission (username : string) (pattern_data : GatewayRegexCreate) (admin_username : string)
    : auth UserGatewayRegexPermissionItem :=
  or_http 500 "Failed to create gateway secret pattern permission" (
    perm ← store_call (CreateGatewaySecretRegexPermission (pt_regex pattern_data) (pt_priority pattern_data) (pt_permission pattern_data) username)
      (SqlAlchemyStore.create_gateway_secret_regex_permission (pt_regex pattern_data) (pt_priority pattern_data)
      (pt_permission pattern_data) username);
    _ ← emit_audit_event (AuditEvent "permission.create" (Some admin_username) (Some "gateway_secret_regex_permission") (Some username)
      [("regex", JStr (pt_regex pattern_data)); ("priority", JNum (pt_priority pattern_data)); ("permission", JStr (pt_permission pattern_data))]);
    mret (user_gateway_regex_item perm)).

Definition get_user_gateway_secret_pattern_permission (username : string) (id : Z) (admin_username : string) : auth UserGatewayRegexPermissionItem :=
  or_http 404 "Gateway secret pattern permission not found" (
    perm ← in_store (SqlAlchemyStore.get_gateway_secret_regex_permission id username);
    mret (user_gateway_regex_item perm)).

Definition update_user_gateway_secret_pattern_permission (username : string) (id : Z) (pattern_data : GatewayRegexCreate) (admin_username : string)
    : auth UserGatewayRegexPermissionItem :=
  or_http 500 "Failed to update gateway secret pattern permission" (
    perm ← store_call (UpdateGatewaySecretRegexPermission id (pt_regex pattern_data) (pt_priority pattern_data)
      (pt_permission pattern_data) username) (SqlAlchemyStore.update_gateway_secret_regex_permission id (pt_regex pattern_data)
      (pt_priority pattern_data) (pt_permission pattern_data) username);
    _ ← emit_audit_event (AuditEvent "permission.update" (Some admin_username) (Some "gateway_secret_regex_permission") (Some username)
      [("id", JNum id); ("regex", JStr (pt_regex pattern_data)); ("priority", JNum (pt_priority pattern_data));
      ("permission", JStr (pt_permission pattern_data))]);
    mret (user_gateway_regex_item perm)).

Definition delete_user_gateway_secret_pattern_permission (username : string) (id : Z) (admin_username : string) : auth StatusMessageResponse :=
  or_http 500 "Failed to delete gateway secret pattern permission" (
    _ ← store_write (DeleteGatewaySecretRegexPermission id username);
    _ ← emit_audit_event (AuditEvent "permission.delete" (Some admin_username) (Some "gateway_secret_regex_permission") (Some username)
      [("id", JNum id)]);
    mret (status_message ("Gateway secret pattern permission deleted for " +:+ username))).

End handlers.
End UserPermissionsRouter.
