(* ===== verification/GroupPermissions.v ===== *)
(** * The permissions of a group ([routers/group_permissions.py])

    One definition per handler, with its path parameters, its body and what its
    dependencies give it. The entities of the patterns all have a [to_json], which
    is a dict. *)
From S2P Require Import Prelude PyStrings Json Permissions Regex RegexSafety Database Repositories Users Groups Sessions Cache Resolution Batch Store.
From S2P Require Import Requests AfterRequest Validators TokenVerification Identity AuthMiddleware ProviderRegistry Kubernetes DataFetching ApiModels FastApi RouterLib.

Module GroupPermissionsRouter.
Section handlers.
Context `{SqlBackend, PyRe, UserLibs, ColumnTyping, Config, TrackingStore}.
Context `{CacheBackend PermissionResult, CacheBackend Permission, TTLCache unit json, TTLCache provider_key json}.
Context `{TTLCache (string * string) bool}.

Abbreviation auth := (M auth_state).

Definition list_groups (username : string) : auth (list string) :=
  or_http 500 "Failed to retrieve groups" (in_store SqlAlchemyStore.get_groups).

Definition get_group_users (group_name admin_username : string) : auth (list GroupUser) :=
  or_http 404 "Group not found or error retrieving users" (
    users ← in_store (SqlAlchemyStore.get_group_users group_name);
    mret (map (λ user, MkGroupUser (u_username user) (u_is_admin user)) users)).

(** The loop skips what the sender does not manage before it asks MLflow for the name. *)
Fixpoint group_experiment_items (current_username : string) (is_admin : bool) (group_experiments : list perm_row)
    : auth (list GroupExperimentPermissionItem) :=
  match group_experiments with
  | [] => mret []
  | experiment :: rest =>
      can_manage ← admin_or_manages is_admin (effective_experiment_permission flaskless_workspace (row_instance experiment) current_username);
      if negb can_manage then group_experiment_items current_username is_admin rest
      else
        mlflow_experiment ← lift (get_experiment_name (row_instance experiment));
        items ← group_experiment_items current_username is_admin rest;
        mret (MkGroupExperiment (row_instance experiment) mlflow_experiment (p_permission experiment) "group" :: items)
  end.

Definition get_group_experiments (group_name current_username : string) (is_admin : bool) : auth (list GroupExperimentPermissionItem) :=
  or_http 500 "Failed to retrieve group experiment permissions" (
    group_experiments ← in_store (SqlAlchemyStore.get_group_experiments group_name);
    group_experiment_items current_username is_admin group_experiments).

Definition create_group_experiment_permission (group_name experiment_id : string) (permission_data : ExperimentPermission)
    (current_username : option string) : auth StatusMessageResponse :=
  or_http 500 "Failed to create group experiment permission" (
    _ ← store_write (CreateGroupExperimentPermission group_name experiment_id (pb_permission permission_data));
    _ ← emit_audit_event (AuditEvent "permission.create" current_username (Some "group_experiment_permission") (Some experiment_id)
      [("group_name", JStr group_name); ("permission", JStr (pb_permission permission_data))]);
    mret (status_message ("Experiment permission created for group " +:+ group_name +:+ " on experiment " +:+ experiment_id))).

Definition update_group_experiment_permission (group_name experiment_id : string) (permission_data : ExperimentPermission)
    (current_username : option string) : auth StatusMessageResponse :=
  or_http 500 "Failed to update group experiment permission" (
    _ ← store_write (UpdateGroupExperimentPermission group_name experiment_id (pb_permission permission_data));
    _ ← emit_audit_event (AuditEvent "permission.update" current_username (Some "group_experiment_permission") (Some experiment_id)
      [("group_name", JStr group_name); ("permission", JStr (pb_permission permission_data))]);
    mret (status_message ("Experiment permission updated for group " +:+ group_name +:+ " on experiment " +:+ experiment_id))).

Definition delete_group_experiment_permission (group_name experiment_id : string) (current_username : option string) : auth StatusMessageResponse :=
  or_http 500 "Failed to delete group experiment permission" (
    _ ← store_write (DeleteGroupExperimentPermission group_name experiment_id);
    _ ← emit_audit_event (AuditEvent "permission.delete" current_username (Some "group_experiment_permission") (Some experiment_id)
      [("group_name", JStr group_name)]);
    mret (status_message ("Experiment permission deleted for group " +:+ group_name +:+ " on experiment " +:+ experiment_id))).

Definition get_group_registered_models (group_name current_username : string) (is_admin : bool) : auth (list GroupNamedPermissionItem) :=
  or_http 500 "Failed to retrieve group registered model permissions" (
    rows ← in_store (SqlAlchemyStore.get_group_models group_name);
    items ← filter_m (λ row, admin_or_manages is_admin (effective_registered_model_permission flaskless_workspace (row_instance row)
      current_username)) rows;
    mret (map group_named_item items)).

Definition create_group_registered_model_permission (group_name name : string) (permission_data : RegisteredModelPermission)
    (current_username : string) (is_admin : bool) : auth StatusMessageResponse :=
  _ ← manager_only is_admin (effective_registered_model_permission flaskless_workspace name current_username)
      ("Insufficient permissions to manage registered model " +:+ name);
  or_http 500 "Failed to create group registered model permission" (
    _ ← store_write (CreateGroupModelPermission group_name name (pb_permission permission_data));
    _ ← emit_audit_event (AuditEvent "permission.create" (Some current_username) (Some "group_registered_model_permission") (Some name)
      [("group_name", JStr group_name); ("permission", JStr (pb_permission permission_data))]);
    mret (status_message ("Registered model permission created for group " +:+ group_name +:+ " on model " +:+ name))).

Definition update_group_registered_model_permission (group_name name : string) (permission_data : RegisteredModelPermission)
    (current_username : string) (is_admin : bool) : auth StatusMessageResponse :=
  _ ← manager_only is_admin (effective_registered_model_permission flaskless_workspace name current_username)
      ("Insufficient permissions to manage registered model " +:+ name);
  or_http 500 "Failed to update group registered model permission" (
    _ ← store_write (UpdateGroupModelPermission group_name name (pb_permission permission_data));
    _ ← emit_audit_event (AuditEvent "permission.update" (Some current_username) (Some "group_registered_model_permission") (Some name)
      [("group_name", JStr group_name); ("permission", JStr (pb_permission permission_data))]);
    mret (status_message ("Registered model permission updated for group " +:+ group_name +:+ " on model " +:+ name))).

Definition delete_group_registered_model_permission (group_name name current_username : string) (is_admin : bool) : auth StatusMessageResponse :=
  _ ← manager_only is_admin (effective_registered_model_permission flaskless_workspace name current_username)
      ("Insufficient permissions to manage registered model " +:+ name);
  or_http 500 "Failed to delete group registered model permission" (
    _ ← store_write (DeleteGroupModelPermission group_name name);
    _ ← emit_audit_event (AuditEvent "permission.delete" (Some current_username) (Some "group_registered_model_permission") (Some name)
      [("group_name", JStr group_name)]);
    mret (status_message ("Registered model permission deleted for group " +:+ group_name +:+ " on model " +:+ name))).

Definition get_group_prompts (group_name current_username : string) (is_admin : bool) : auth (list GroupNamedPermissionItem) :=
  or_http 500 "Failed to get group prompt permissions" (
    rows ← in_store (SqlAlchemyStore.get_group_prompts group_name);
    items ← filter_m (λ row, admin_or_manages is_admin (effective_prompt_permission flaskless_workspace (row_instance row) current_username)) rows;
    mret (map group_named_item items)).

Definition create_group_prompt_permission (group_name prompt_name : string) (permission_data : PromptPermission) (current_username : string)
    (is_admin : bool) : auth StatusMessageResponse :=
  _ ← manager_only is_admin (effective_prompt_permission flaskless_workspace prompt_name current_username)
      ("Insufficient permissions to manage prompt " +:+ prompt_name);
  or_http 500 "Failed to create group prompt permission" (
    _ ← store_write (CreateGroupPromptPermission group_name prompt_name (pb_permission permission_data));
    _ ← emit_audit_event (AuditEvent "permission.create" (Some current_username) (Some "group_prompt_permission") (Some prompt_name)
      [("group_name", JStr group_name); ("permission", JStr (pb_permission permission_data))]);
    mret (status_message ("Prompt permission created for group " +:+ group_name +:+ " on prompt " +:+ prompt_name))).

Definition update_group_prompt_permission (group_name prompt_name : string) (permission_data : PromptPermission) (current_username : string)
    (is_admin : bool) : auth StatusMessageResponse :=
  _ ← manager_only is_admin (effective_prompt_permission flaskless_workspace prompt_name current_username)
      ("Insufficient permissions to manage prompt " +:+ prompt_name);
  or_http 500 "Failed to update group prompt permission" (
    _ ← store_write (UpdateGroupPromptPermission group_name prompt_name (pb_permission permission_data));
    _ ← emit_audit_event (AuditEvent "permission.update" (Some current_username) (Some "group_prompt_permission") (Some prompt_name)
      [("group_name", JStr group_name); ("permission", JStr (pb_permission permission_data))]);
    mret (status_message ("Prompt permission updated for group " +:+ group_name +:+ " on prompt " +:+ prompt_name))).

Definition delete_group_prompt_permission (group_name prompt_name current_username : string) (is_admin : bool) : auth StatusMessageResponse :=
  _ ← manager_only is_admin (effective_prompt_permission flaskless_workspace prompt_name current_username)
      ("Insufficient permissions to manage prompt " +:+ prompt_name);
  or_http 500 "Failed to delete group prompt permission" (
    _ ← store_write (DeleteGroupPromptPermission group_name prompt_name);
    _ ← emit_audit_event (AuditEvent "permission.delete" (Some current_username) (Some "group_prompt_permission") (Some prompt_name)
      [("group_name", JStr group_name)]);
    mret (status_message ("Prompt permission deleted for group " +:+ group_name +:+ " on prompt " +:+ prompt_name))).

Definition get_group_experiment_pattern_permissions (group_name admin_username : string) : auth (list GroupExperimentRegexPermissionItem) :=
  or_http 500 "Failed to get group experiment pattern permissions" (
    patterns ← in_store (SqlAlchemyStore.list_group_experiment_regex_permissions group_name);
    mret (map group_experiment_regex_item patterns)).

Definition create_group_experiment_pattern_permission (group_name : string) (pattern_data : ExperimentRegexCreate) (admin_username : string)
    : auth StatusMessageResponse :=
  or_http 500 "Failed to create group experiment pattern permission" (
    _ ← store_write (CreateGroupExperimentRegexPermission group_name (pt_regex pattern_data) (pt_priority pattern_data) (pt_permission pattern_data));
    _ ← emit_audit_event (AuditEvent "permission.create" (Some admin_username) (Some "group_experiment_regex_permission") (Some group_name)
      [("regex", JStr (pt_regex pattern_data)); ("priority", JNum (pt_priority pattern_data)); ("permission", JStr (pt_permission pattern_data))]);
    mret (status_message ("Experiment pattern permission created for group " +:+ group_name))).

Definition get_group_experiment_pattern_permission (group_name : string) (id : Z) (admin_username : string)
    : auth GroupExperimentRegexPermissionItem :=
  or_http 500 "Failed to get group experiment pattern permission" (
    pattern ← in_store (SqlAlchemyStore.get_group_experiment_regex_permission group_name id);
    mret (group_experiment_regex_item pattern)).

Definition update_group_experiment_pattern_permission (group_name : string) (id : Z) (pattern_data : ExperimentRegexCreate)
    (admin_username : string) : auth StatusMessageResponse :=
  or_http 500 "Failed to update group experiment pattern permission" (
    _ ← store_write (UpdateGroupExperimentRegexPermission id group_name (pt_regex pattern_data) (pt_priority pattern_data)
      (pt_permission pattern_data));
    _ ← emit_audit_event (AuditEvent "permission.update" (Some admin_username) (Some "group_experiment_regex_permission") (Some group_name)
      [("id", JNum id); ("regex", JStr (pt_regex pattern_data)); ("priority", JNum (pt_priority pattern_data));
      ("permission", JStr (pt_permission pattern_data))]);
    mret (status_message ("Experiment pattern permission updated for group " +:+ group_name))).

Definition delete_group_experiment_pattern_permission (group_name : string) (id : Z) (admin_username : string) : auth StatusMessageResponse :=
  or_http 500 "Failed to delete group experiment pattern permission" (
    _ ← store_write (DeleteGroupExperimentRegexPermission group_name id);
    _ ← emit_audit_event (AuditEvent "permission.delete" (Some admin_username) (Some "group_experiment_regex_permission") (Some group_name)
      [("id", JNum id)]);
    mret (status_message ("Experiment pattern permission deleted for group " +:+ group_name))).

Definition get_group_registered_model_pattern_permissions (group_name admin_username : string) : auth (list GroupRegisteredModelRegexPermissionItem)
    :=
  or_http 500 "Failed to get group registered model pattern permissions" (
    patterns ← in_store (SqlAlchemyStore.list_group_registered_model_regex_permissions group_name);
    mret (map group_model_regex_item patterns)).

Definition create_group_registered_model_pattern_permission (group_name : string) (pattern_data : RegisteredModelRegexCreate)
    (admin_username : string) : auth StatusMessageResponse :=
  or_http 500 "Failed to create group registered model pattern permission" (
    _ ← store_write (CreateGroupRegisteredModelRegexPermission group_name (pt_regex pattern_data) (pt_priority pattern_data)
      (pt_permission pattern_data));
    _ ← emit_audit_event (AuditEvent "permission.create" (Some admin_username) (Some "group_registered_model_regex_permission") (Some group_name)
      [("regex", JStr (pt_regex pattern_data)); ("priority", JNum (pt_priority pattern_data)); ("permission", JStr (pt_permission pattern_data))]);
    mret (status_message ("Registered model pattern permission created for group " +:+ group_name))).

Definition get_group_registered_model_pattern_permission (group_name : string) (id : Z) (admin_username : string)
    : auth GroupRegisteredModelRegexPermissionItem :=
  or_http 500 "Failed to get group registered model pattern permission" (
    pattern ← in_store (SqlAlchemyStore.get_group_registered_model_regex_permission group_name id);
    mret (group_model_regex_item pattern)).

Definition update_group_registered_model_pattern_permission (group_name : string) (id : Z) (pattern_data : RegisteredModelRegexCreate)
    (admin_username : string) : auth StatusMessageResponse :=
  or_http 500 "Failed to update group registered model pattern permission" (
    _ ← store_write (UpdateGroupRegisteredModelRegexPermission id group_name (pt_regex pattern_data) (pt_priority pattern_data)
      (pt_permission pattern_data));
    _ ← emit_audit_event (AuditEvent "permission.update" (Some admin_username) (Some "group_registered_model_regex_permission") (Some group_name)
      [("id", JNum id); ("regex", JStr (pt_regex pattern_data)); ("priority", JNum (pt_priority pattern_data));
      ("permission", JStr (pt_permission pattern_data))]);
    mret (status_message ("Registered model pattern permission updated for group " +:+ group_name))).

Definition delete_group_registered_model_pattern_permission (group_name : string) (id : Z) (admin_username : string) : auth StatusMessageResponse :=
  or_http 500 "Failed to delete group registered model pattern permission" (
    _ ← store_write (DeleteGroupRegisteredModelRegexPermission group_name id);
    _ ← emit_audit_event (AuditEvent "permission.delete" (Some admin_username) (Some "group_registered_model_regex_permission") (Some group_name)
      [("id", JNum id)]);
    mret (status_message ("Registered model pattern permission deleted for group " +:+ group_name))).

Definition get_group_prompt_pattern_permissions (group_name admin_username : string) : auth (list GroupPromptRegexPermissionItem) :=
  or_http 500 "Failed to get group prompt pattern permissions" (
    patterns ← in_store (SqlAlchemyStore.list_group_prompt_regex_permissions group_name true);
    mret (map group_model_regex_item patterns)).

Definition create_group_prompt_pattern_permission (group_name : string) (pattern_data : PromptRegexCreate) (admin_username : string)
    : auth StatusMessageResponse :=
  or_http 500 "Failed to create group prompt pattern permission" (
    _ ← store_write (CreateGroupPromptRegexPermission (pt_regex pattern_data) (pt_priority pattern_data)
      (pt_permission pattern_data) group_name true);
    _ ← emit_audit_event (AuditEvent "permission.create" (Some admin_username) (Some "group_prompt_regex_permission") (Some group_name)
      [("regex", JStr (pt_regex pattern_data)); ("priority", JNum (pt_priority pattern_data)); ("permission", JStr (pt_permission pattern_data))]);
    mret (status_message ("Prompt pattern permission created for group " +:+ group_name))).

Definition get_group_prompt_pattern_permission (group_name : string) (id : Z) (admin_username : string) : auth GroupPromptRegexPermissionItem :=
  or_http 500 "Failed to get group prompt pattern permission" (
    pattern ← in_store (SqlAlchemyStore.get_group_prompt_regex_permission id group_name true);
    mret (group_model_regex_item pattern)).

Definition update_group_prompt_pattern_permission (group_name : string) (id : Z) (pattern_data : PromptRegexCreate) (admin_username : string)
    : auth StatusMessageResponse :=
  or_http 500 "Failed to update group prompt pattern permission" (
    _ ← store_write (UpdateGroupPromptRegexPermission id (pt_regex pattern_data) (pt_priority pattern_data)
      (pt_permission pattern_data) group_name true);
    _ ← emit_audit_event (AuditEvent "permission.update" (Some admin_username) (Some "group_prompt_regex_permission") (Some group_name)
      [("id", JNum id); ("regex", JStr (pt_regex pattern_data)); ("priority", JNum (pt_priority pattern_data));
      ("permission", JStr (pt_permission pattern_data))]);
    mret (status_message ("Prompt pattern permission updated for group " +:+ group_name))).

Definition delete_group_prompt_pattern_permission (group_name : string) (id : Z) (admin_username : string) : auth StatusMessageResponse :=
  or_http 500 "Failed to delete group prompt pattern permission" (
    _ ← store_write (DeleteGroupPromptRegexPermission id group_name);
    _ ← emit_audit_event (AuditEvent "permission.delete" (Some admin_username) (Some "group_prompt_regex_permission") (Some group_name)
      [("id", JNum id)]);
    mret (status_message ("Prompt pattern permission deleted for group " +:+ group_name))).

Definition get_group_scorers (group_name current_username : string) (is_admin : bool) : auth (list GroupScorerPermissionItem) :=
  or_http 500 "Failed to retrieve group scorer permissions" (
    group_scorers ← in_store (SqlAlchemyStore.list_group_scorer_permissions group_name);
    filtered ← (if is_admin then mret group_scorers
                else filter_m (λ sp, admin_or_manages false (effective_experiment_permission flaskless_workspace (row_instance sp)
                  current_username)) group_scorers);
    mret (map group_scorer_item filtered)).

Definition create_group_scorer_permission (group_name experiment_id scorer_name : string) (permission_data : ScorerPermission)
    (current_username : option string) : auth StatusMessageResponse :=
  or_http 500 "Failed to create group scorer permission" (
    _ ← store_write (CreateGroupScorerPermission group_name experiment_id scorer_name (pb_permission permission_data));
    _ ← emit_audit_event (AuditEvent "permission.create" current_username (Some "group_scorer_permission") (Some scorer_name)
      [("group_name", JStr group_name); ("experiment_id", JStr experiment_id); ("permission", JStr (pb_permission permission_data))]);
    mret (status_message ("Scorer permission created for group " +:+ group_name +:+ " on scorer " +:+ scorer_name))).

Definition update_group_scorer_permission (group_name experiment_id scorer_name : string) (permission_data : ScorerPermission)
    (current_username : option string) : auth StatusMessageResponse :=
  or_http 500 "Failed to update group scorer permission" (
    _ ← store_write (UpdateGroupScorerPermission group_name experiment_id scorer_name (pb_permission permission_data));
    _ ← emit_audit_event (AuditEvent "permission.update" current_username (Some "group_scorer_permission") (Some scorer_name)
      [("group_name", JStr group_name); ("experiment_id", JStr experiment_id); ("permission", JStr (pb_permission permission_data))]);
    mret (status_message ("Scorer permission updated for group " +:+ group_name +:+ " on scorer " +:+ scorer_name))).

Definition delete_group_scorer_permission (group_name experiment_id scorer_name : string) (current_username : option string)
    : auth StatusMessageResponse :=
  or_http 500 "Failed to delete group scorer permission" (
    _ ← store_write (DeleteGroupScorerPermission group_name experiment_id scorer_name);
    _ ← emit_audit_event (AuditEvent "permission.delete" current_username (Some "group_scorer_permission") (Some scorer_name)
      [("group_name", JStr group_name); ("experiment_id", JStr experiment_id)]);
    mret (status_message ("Scorer permission deleted for group " +:+ group_name +:+ " on scorer " +:+ scorer_name))).

Definition get_group_scorer_pattern_permissions (group_name admin_username : string) : auth (list GroupScorerRegexPermissionItem) :=
  or_http 500 "Failed to get group scorer pattern permissions" (
    patterns ← in_store (SqlAlchemyStore.list_group_scorer_regex_permissions group_name);
    mret (map group_scorer_regex_item patterns)).

Definition create_group_scorer_pattern_permission (group_name : string) (pattern_data : ScorerRegexCreate) (admin_username : string)
    : auth StatusMessageResponse :=
  or_http 500 "Failed to create group scorer pattern permission" (
    _ ← store_write (CreateGroupScorerRegexPermission group_name (pt_regex pattern_data) (pt_priority pattern_data) (pt_permission pattern_data));
    _ ← emit_audit_event (AuditEvent "permission.create" (Some admin_username) (Some "group_scorer_regex_permission") (Some group_name)
      [("regex", JStr (pt_regex pattern_data)); ("priority", JNum (pt_priority pattern_data)); ("permission", JStr (pt_permission pattern_data))]);
    mret (status_message ("Scorer pattern permission created for group " +:+ group_name))).

Definition get_group_scorer_pattern_permission (group_name : string) (id : Z) (admin_username : string) : auth GroupScorerRegexPermissionItem :=
  or_http 500 "Failed to get group scorer pattern permission" (
    pattern ← in_store (SqlAlchemyStore.get_group_scorer_regex_permission group_name id);
    mret (group_scorer_regex_item pattern)).

Definition update_group_scorer_pattern_permission (group_name : string) (id : Z) (pattern_data : ScorerRegexCreate) (admin_username : string)
    : auth StatusMessageResponse :=
  or_http 500 "Failed to update group scorer pattern permission" (
    _ ← store_write (UpdateGroupScorerRegexPermission id group_name (pt_regex pattern_data) (pt_priority pattern_data) (pt_permission pattern_data));
    _ ← emit_audit_event (AuditEvent "permission.update" (Some admin_username) (Some "group_scorer_regex_permission") (Some group_name)
      [("id", JNum id); ("regex", JStr (pt_regex pattern_data)); ("priority", JNum (pt_priority pattern_data));
      ("permission", JStr (pt_permission pattern_data))]);
    mret (status_message ("Scorer pattern permission updated for group " +:+ group_name))).

Definition delete_group_scorer_pattern_permission (group_name : string) (id : Z) (admin_username : string) : auth StatusMessageResponse :=
  or_http 500 "Failed to delete group scorer pattern permission" (
    _ ← store_write (DeleteGroupScorerRegexPermission id group_name);
    _ ← emit_audit_event (AuditEvent "permission.delete" (Some admin_username) (Some "group_scorer_regex_permission") (Some group_name)
      [("id", JNum id)]);
    mret (status_message ("Scorer pattern permission deleted for group " +:+ group_name))).

Definition get_group_gateway_endpoint_permissions (group_name admin_username : string) : auth (list GroupNamedPermissionItem) :=
  or_http 500 "Failed to retrieve group gateway endpoint permissions" (
    perms ← in_store (SqlAlchemyStore.list_group_gateway_endpoint_permissions group_name);
    mret (map group_named_item perms)).

Definition create_group_gateway_endpoint_permission (group_name name : string) (permission_data : GatewayPermission) (admin_username : string)
    : auth GroupNamedPermissionItem :=
  or_http 500 "Failed to create group gateway endpoint permission" (
    perm ← store_call (CreateGroupGatewayEndpointPermission group_name name (pb_permission permission_data))
      (SqlAlchemyStore.create_group_gateway_endpoint_permission group_name name (pb_permission permission_data));
    _ ← emit_audit_event (AuditEvent "permission.create" (Some admin_username) (Some "group_gateway_endpoint_permission") (Some name)
      [("group_name", JStr group_name); ("permission", JStr (pb_permission permission_data))]);
    mret (group_named_item perm)).

Definition get_group_gateway_endpoint_permission (group_name name admin_username : string) : auth GroupNamedPermissionItem :=
  or_http 404 "Group gateway endpoint permission not found" (
    perm ← in_store (SqlAlchemyStore.get_user_groups_gateway_endpoint_permission name group_name);
    mret (group_named_item perm)).

Definition update_group_gateway_endpoint_permission (group_name name : string) (permission_data : GatewayPermission) (admin_username : string)
    : auth StatusMessageResponse :=
  or_http 500 "Failed to update group gateway endpoint permission" (
    _ ← store_write (UpdateGroupGatewayEndpointPermission group_name name (pb_permission permission_data));
    _ ← emit_audit_event (AuditEvent "permission.update" (Some admin_username) (Some "group_gateway_endpoint_permission") (Some name)
      [("group_name", JStr group_name); ("permission", JStr (pb_permission permission_data))]);
    mret (status_message ("Gateway endpoint permission updated for group " +:+ group_name +:+ " on " +:+ name))).

Definition delete_group_gateway_endpoint_permission (group_name name admin_username : string) : auth StatusMessageResponse :=
  or_http 500 "Failed to delete group gateway endpoint permission" (
    _ ← store_write (DeleteGroupGatewayEndpointPermission group_name name);
    _ ← emit_audit_event (AuditEvent "permission.delete" (Some admin_username) (Some "group_gateway_endpoint_permission") (Some name)
      [("group_name", JStr group_name)]);
    mret (status_message ("Gateway endpoint permission deleted for group " +:+ group_name +:+ " on " +:+ name))).

Definition get_group_gateway_endpoint_pattern_permissions (group_name admin_username : string) : auth (list GroupGatewayRegexPermissionItem) :=
  or_http 500 "Failed to retrieve group gateway endpoint pattern permissions" (
    perms ← in_store (SqlAlchemyStore.list_group_gateway_endpoint_regex_permissions group_name);
    mret (map group_gateway_regex_item perms)).

Definition create_group_gateway_endpoint_pattern_permission (group_name : string) (pattern_data : GatewayRegexCreate) (admin_username : string)
    : auth GroupGatewayRegexPermissionItem :=
  or_http 500 "Failed to create group gateway endpoint pattern permission" (
    perm ← store_call (CreateGroupGatewayEndpointRegexPermission group_name (pt_regex pattern_data) (pt_priority pattern_data)
      (pt_permission pattern_data)) (SqlAlchemyStore.create_group_gateway_endpoint_regex_permission group_name (pt_regex pattern_data)
      (pt_priority pattern_data) (pt_permission pattern_data));
    _ ← emit_audit_event (AuditEvent "permission.create" (Some admin_username) (Some "group_gateway_endpoint_regex_permission") (Some group_name)
      [("regex", JStr (pt_regex pattern_data)); ("priority", JNum (pt_priority pattern_data)); ("permission", JStr (pt_permission pattern_data))]);
    mret (group_gateway_regex_item perm)).

Definition get_group_gateway_endpoint_pattern_permission (group_name : string) (id : Z) (admin_username : string)
    : auth GroupGatewayRegexPermissionItem :=
  or_http 404 "Group gateway endpoint pattern permission not found" (
    perm ← in_store (SqlAlchemyStore.get_group_gateway_endpoint_regex_permission id group_name);
    mret (group_gateway_regex_item perm)).

Definition update_group_gateway_endpoint_pattern_permission (group_name : string) (id : Z) (pattern_data : GatewayRegexCreate)
    (admin_username : string) : auth GroupGatewayRegexPermissionItem :=
  or_http 500 "Failed to update group gateway endpoint pattern permission" (
    perm ← store_call (UpdateGroupGatewayEndpointRegexPermission id group_name (pt_regex pattern_data) (pt_priority pattern_data)
      (pt_permission pattern_data)) (SqlAlchemyStore.update_group_gateway_endpoint_regex_permission id group_name (pt_regex pattern_data)
      (pt_priority pattern_data) (pt_permission pattern_data));
    _ ← emit_audit_event (AuditEvent "permission.update" (Some admin_username) (Some "group_gateway_endpoint_regex_permission") (Some group_name)
      [("id", JNum id); ("regex", JStr (pt_regex pattern_data)); ("priority", JNum (pt_priority pattern_data));
      ("permission", JStr (pt_permission pattern_data))]);
    mret (group_gateway_regex_item perm)).

Definition delete_group_gateway_endpoint_pattern_permission (group_name : string) (id : Z) (admin_username : string) : auth StatusMessageResponse :=
  or_http 500 "Failed to delete group gateway endpoint pattern permission" (
    _ ← store_write (DeleteGroupGatewayEndpointRegexPermission id group_name);
    _ ← emit_audit_event (AuditEvent "permission.delete" (Some admin_username) (Some "group_gateway_endpoint_regex_permission") (Some group_name)
      [("id", JNum id)]);
    mret (status_message ("Gateway endpoint pattern permission deleted for group " +:+ group_name))).

Definition get_group_gateway_model_definition_permissions (group_name admin_username : string) : auth (list GroupNamedPermissionItem) :=
  or_http 500 "Failed to retrieve group gateway model definition permissions" (
    perms ← in_store (SqlAlchemyStore.list_group_gateway_model_definition_permissions group_name);
    mret (map group_named_item perms)).

Definition create_group_gateway_model_definition_permission (group_name name : string) (permission_data : GatewayPermission)
    (admin_username : string) : auth GroupNamedPermissionItem :=
  or_http 500 "Failed to create group gateway model definition permission" (
    perm ← store_call (CreateGroupGatewayModelDefinitionPermission group_name name (pb_permission permission_data))
      (SqlAlchemyStore.create_group_gateway_model_definition_permission group_name name (pb_permission permission_data));
    _ ← emit_audit_event (AuditEvent "permission.create" (Some admin_username) (Some "group_gateway_model_definition_permission") (Some name)
      [("group_name", JStr group_name); ("permission", JStr (pb_permission permission_data))]);
    mret (group_named_item perm)).

Definition get_group_gateway_model_definition_permission (group_name name admin_username : string) : auth GroupNamedPermissionItem :=
  or_http 404 "Group gateway model definition permission not found" (
    perm ← in_store (SqlAlchemyStore.get_user_groups_gateway_model_definition_permission name group_name);
    mret (group_named_item perm)).

Definition update_group_gateway_model_definition_permission (group_name name : string) (permission_data : GatewayPermission)
    (admin_username : string) : auth StatusMessageResponse :=
  or_http 500 "Failed to update group gateway model definition permission" (
    _ ← store_write (UpdateGroupGatewayModelDefinitionPermission group_name name (pb_permission permission_data));
    _ ← emit_audit_event (AuditEvent "permission.update" (Some admin_username) (Some "group_gateway_model_definition_permission") (Some name)
      [("group_name", JStr group_name); ("permission", JStr (pb_permission permission_data))]);
    mret (status_message ("Gateway model definition permission updated for group " +:+ group_name +:+ " on " +:+ name))).

Definition delete_group_gateway_model_definition_permission (group_name name admin_username : string) : auth StatusMessageResponse :=
  or_http 500 "Failed to delete group gateway model definition permission" (
    _ ← store_write (DeleteGroupGatewayModelDefinitionPermission group_name name);
    _ ← emit_audit_event (AuditEvent "permission.delete" (Some admin_username) (Some "group_gateway_model_definition_permission") (Some name)
      [("group_name", JStr group_name)]);
    mret (status_message ("Gateway model definition permission deleted for group " +:+ group_name +:+ " on " +:+ name))).

Definition get_group_gateway_model_definition_pattern_permissions (group_name admin_username : string) : auth (list GroupGatewayRegexPermissionItem)
    :=
  or_http 500 "Failed to retrieve group gateway model definition pattern permissions" (
    perms ← in_store (SqlAlchemyStore.list_group_gateway_model_definition_regex_permissions group_name);
    mret (map group_gateway_regex_item perms)).

Definition create_group_gateway_model_definition_pattern_permission (group_name : string) (pattern_data : GatewayRegexCreate)
    (admin_username : string) : auth GroupGatewayRegexPermissionItem :=
  or_http 500 "Failed to create group gateway model definition pattern permission" (
    perm ← store_call (CreateGroupGatewayModelDefinitionRegexPermission group_name (pt_regex pattern_data) (pt_priority pattern_data)
      (pt_permission pattern_data)) (SqlAlchemyStore.create_group_gateway_model_definition_regex_permission group_name (pt_regex pattern_data)
      (pt_priority pattern_data) (pt_permission pattern_data));
    _ ← emit_audit_event (AuditEvent "permission.create" (Some admin_username) (Some "group_gateway_model_definition_regex_permission")
      (Some group_name) [("regex", JStr (pt_regex pattern_data)); ("priority", JNum (pt_priority pattern_data));
      ("permission", JStr (pt_permission pattern_data))]);
    mret (group_gateway_regex_item perm)).

Definition get_group_gateway_model_definition_pattern_permission (group_name : string) (id : Z) (admin_username : string)
    : auth GroupGatewayRegexPermissionItem :=
  or_http 404 "Group gateway model definition pattern permission not found" (
    perm ← in_store (SqlAlchemyStore.get_group_gateway_model_definition_regex_permission id group_name);
    mret (group_gateway_regex_item perm)).

Definition update_group_gateway_model_definition_pattern_permission (group_name : string) (id : Z) (pattern_data : GatewayRegexCreate)
    (admin_username : string) : auth GroupGatewayRegexPermissionItem :=
  or_http 500 "Failed to update group gateway model definition pattern permission" (
    perm ← store_call (UpdateGroupGatewayModelDefinitionRegexPermission id group_name (pt_regex pattern_data) (pt_priority pattern_data)
      (pt_permission pattern_data)) (SqlAlchemyStore.update_group_gateway_model_definition_regex_permission id group_name (pt_regex pattern_data)
      (pt_priority pattern_data) (pt_permission pattern_data));
    _ ← emit_audit_event (AuditEvent "permission.update" (Some admin_username) (Some "group_gateway_model_definition_regex_permission")
      (Some group_name) [("id", JNum id); ("regex", JStr (pt_regex pattern_data)); ("priority", JNum (pt_priority pattern_data));
      ("permission", JStr (pt_permission pattern_data))]);
    mret (group_gateway_regex_item perm)).

Definition delete_group_gateway_model_definition_pattern_permission (group_name : string) (id : Z) (admin_username : string)
    : auth StatusMessageResponse :=
  or_http 500 "Failed to delete group gateway model definition pattern permission" (
    _ ← store_write (DeleteGroupGatewayModelDefinitionRegexPermission id group_name);
    _ ← emit_audit_event (AuditEvent "permission.delete" (Some admin_username) (Some "group_gateway_model_definition_regex_permission")
      (Some group_name) [("id", JNum id)]);
    mret (status_message ("Gateway model definition pattern permission deleted for group " +:+ group_name))).

Definition get_group_gateway_secret_permissions (group_name admin_username : string) : auth (list GroupNamedPermissionItem) :=
  or_http 500 "Failed to retrieve group gateway secret permissions" (
    perms ← in_store (SqlAlchemyStore.list_group_gateway_secret_permissions group_name);
    mret (map group_named_item perms)).

Definition create_group_gateway_secret_permission (group_name name : string) (permission_data : GatewayPermission) (admin_username : string)
    : auth GroupNamedPermissionItem :=
  or_http 500 "Failed to create group gateway secret permission" (
    perm ← store_call (CreateGroupGatewaySecretPermission group_name name (pb_permission permission_data))
      (SqlAlchemyStore.create_group_gateway_secret_permission group_name name (pb_permission permission_data));
    _ ← emit_audit_event (AuditEvent "permission.create" (Some admin_username) (Some "group_gateway_secret_permission") (Some name)
      [("group_name", JStr group_name); ("permission", JStr (pb_permission permission_data))]);
    mret (group_named_item perm)).

Definition get_group_gateway_secret_permission (group_name name admin_username : string) : auth GroupNamedPermissionItem :=
  or_http 404 "Group gateway secret permission not found" (
    perm ← in_store (SqlAlchemyStore.get_user_groups_gateway_secret_permission name group_name);
    mret (group_named_item perm)).

Definition update_group_gateway_secret_permission (group_name name : string) (permission_data : GatewayPermission) (admin_username : string)
    : auth StatusMessageResponse :=
  or_http 500 "Failed to update group gateway secret permission" (
    _ ← store_write (UpdateGroupGatewaySecretPermission group_name name (pb_permission permission_data));
    _ ← emit_audit_event (AuditEvent "permission.update" (Some admin_username) (Some "group_gateway_secret_permission") (Some name)
      [("group_name", JStr group_name); ("permission", JStr (pb_permission permission_data))]);
    mret (status_message ("Gateway secret permission updated for group " +:+ group_name +:+ " on " +:+ name))).

Definition delete_group_gateway_secret_permission (group_name name admin_username : string) : auth StatusMessageResponse :=
  or_http 500 "Failed to delete group gateway secret permission" (
    _ ← store_write (DeleteGroupGatewaySecretPermission group_name name);
    _ ← emit_audit_event (AuditEvent "permission.delete" (Some admin_username) (Some "group_gateway_secret_permission") (Some name)
      [("group_name", JStr group_name)]);
    mret (status_message ("Gateway secret permission deleted for group " +:+ group_name +:+ " on " +:+ name))).

Definition get_group_gateway_secret_pattern_permissions (group_name admin_username : string) : auth (list GroupGatewayRegexPermissionItem) :=
  or_http 500 "Failed to retrieve group gateway secret pattern permissions" (
    perms ← in_store (SqlAlchemyStore.list_group_gateway_secret_regex_permissions group_name);
    mret (map group_gateway_regex_item perms)).

Definition create_group_gateway_secret_pattern_permission (group_name : string) (pattern_data : GatewayRegexCreate) (admin_username : string)
    : auth GroupGatewayRegexPermissionItem :=
  or_http 500 "Failed to create group gateway secret pattern permission" (
    perm ← store_call (CreateGroupGatewaySecretRegexPermission group_name (pt_regex pattern_data) (pt_priority pattern_data)
      (pt_permission pattern_data)) (SqlAlchemyStore.create_group_gateway_secret_regex_permission group_name (pt_regex pattern_data)
      (pt_priority pattern_data) (pt_permission pattern_data));
    _ ← emit_audit_event (AuditEvent "permission.create" (Some admin_username) (Some "group_gateway_secret_regex_permission") (Some group_name)
      [("regex", JStr (pt_regex pattern_data)); ("priority", JNum (pt_priority pattern_data)); ("permission", JStr (pt_permission pattern_data))]);
    mret (group_gateway_regex_item perm)).

Definition get_group_gateway_secret_pattern_permission (group_name : string) (id : Z) (admin_username : string)
    : auth GroupGatewayRegexPermissionItem :=
  or_http 404 "Group gateway secret pattern permission not found" (
    perm ← in_store (SqlAlchemyStore.get_group_gateway_secret_regex_permission id group_name);
    mret (group_gateway_regex_item perm)).

Definition update_group_gateway_secret_pattern_permission (group_name : string) (id : Z) (pattern_data : GatewayRegexCreate)
    (admin_username : string) : auth GroupGatewayRegexPermissionItem :=
  or_http 500 "Failed to update group gateway secret pattern permission" (
    perm ← store_call (UpdateGroupGatewaySecretRegexPermission id group_name (pt_regex pattern_data) (pt_priority pattern_data)
      (pt_permission pattern_data)) (SqlAlchemyStore.update_group_gateway_secret_regex_permission id group_name (pt_regex pattern_data)
      (pt_priority pattern_data) (pt_permission pattern_data));
    _ ← emit_audit_event (AuditEvent "permission.update" (Some admin_username) (Some "group_gateway_secret_regex_permission") (Some group_name)
      [("id", JNum id); ("regex", JStr (pt_regex pattern_data)); ("priority", JNum (pt_priority pattern_data));
      ("permission", JStr (pt_permission pattern_data))]);
    mret (group_gateway_regex_item perm)).

Definition delete_group_gateway_secret_pattern_permission (group_name : string) (id : Z) (admin_username : string) : auth StatusMessageResponse :=
  or_http 500 "Failed to delete group gateway secret pattern permission" (
    _ ← store_write (DeleteGroupGatewaySecretRegexPermission id group_name);
    _ ← emit_audit_event (AuditEvent "permission.delete" (Some admin_username) (Some "group_gateway_secret_regex_permission") (Some group_name)
      [("id", JNum id)]);
    mret (status_message ("Gateway secret pattern permission deleted for group " +:+ group_name))).

End handlers.
End GroupPermissionsRouter.
