(* ===== verification/WorkspaceRouters.v ===== *)
(** * The permissions of a workspace
    ([routers/workspace_permissions.py], [routers/workspace_regex_permissions.py])

    One definition per handler; [serve_workspace] runs it behind its dependency. *)
From stdpp Require Import pretty.
From S2P Require Import Prelude PyStrings Json Permissions Regex RegexSafety Database Repositories Users Groups Sessions Cache Resolution Batch Store.
From S2P Require Import Requests AfterRequest Validators TokenVerification Identity AuthMiddleware ProviderRegistry Kubernetes DataFetching ApiModels FastApi RouterLib.
#[local] Open Scope Z_scope.

(** ** Bodies and responses ([models/workspace.py]) *)

Record WorkspaceUserPermissionRequest := MkWorkspaceUserRequest { wur_username : string; wur_permission : string }.
Record WorkspaceGroupPermissionRequest := MkWorkspaceGroupRequest { wgr_group_name : string; wgr_permission : string }.
Record WorkspaceUserPermissionResponse := MkWorkspaceUser { wu_workspace : string; wu_username : string; wu_permission : string }.
Record WorkspaceGroupPermissionResponse := MkWorkspaceGroup { wg_workspace : string; wg_group_name : string; wg_permission : string }.
Record WorkspaceRegexPermissionRequest := MkWorkspaceRegexRequest {
  wrr_regex : string; wrr_priority : Z; wrr_permission : string; wrr_username : string }.
Record WorkspaceGroupRegexPermissionRequest := MkWorkspaceGroupRegexRequest {
  wgrr_regex : string; wgrr_priority : Z; wgrr_permission : string; wgrr_group_name : string }.
Record WorkspaceRegexPermissionResponse := MkWorkspaceRegex {
  wr_id : Z; wr_regex : string; wr_priority : Z; wr_permission : string; wr_username : string }.
Record WorkspaceGroupRegexPermissionResponse := MkWorkspaceGroupRegex {
  wgx_id : Z; wgx_regex : string; wgx_priority : Z; wgx_permission : string; wgx_group_name : string }.

Definition str_of_int (n : Z) : string := pretty n.

(** ** The entities of a listing: the row with the name of its owner *)

(** [self.user.username if self.user else None] *)
Definition owner_username (d : db) (r : perm_row) : option string := u_username <$> head (filter (λ u, u_id u = p_owner r) (users d)).
Definition owner_group_name (d : db) (r : perm_row) : option string := g_name <$> head (filter (λ g, g_id g = p_owner r) (groups d)).

Module WorkspacePermissionsRouter.
Section handlers.
Context `{SqlBackend, PyRe, UserLibs, ColumnTyping, Config, TrackingStore}.
Context `{CacheBackend PermissionResult, CacheBackend Permission, TTLCache unit json, TTLCache provider_key json}.
Context `{TTLCache (string * string) bool}.
Abbreviation auth := (M auth_state).

Definition list_workspace_users (workspace : string) : auth (list WorkspaceUserPermissionResponse) :=
  in_store (
    perms ← SqlAlchemyStore.list_workspace_permissions workspace;
    gets (λ d, map (λ p, MkWorkspaceUser (row_instance p) (or_default (owner_username d p) (str_of_int (p_owner p))) (p_permission p)) perms)).

Definition list_workspace_groups (workspace : string) : auth (list WorkspaceGroupPermissionResponse) :=
  in_store (
    perms ← SqlAlchemyStore.list_workspace_group_permissions workspace;
    gets (λ d, map (λ p, MkWorkspaceGroup (row_instance p) (or_default (owner_group_name d p) (str_of_int (p_owner p))) (p_permission p)) perms)).

Definition create_workspace_user_permission (body : WorkspaceUserPermissionRequest) (workspace current_username : string)
    : auth WorkspaceUserPermissionResponse :=
  _ ← lift (_validate_permission (wur_permission body));
  perm ← store_call (CreateWorkspacePermission workspace (wur_username body) (wur_permission body))
           (SqlAlchemyStore.create_workspace_permission workspace (wur_username body) (wur_permission body));
  _ ← in_world (invalidate_workspace_permission (wur_username body) workspace);
  _ ← emit_audit_event (AuditEvent "permission.create" (Some current_username) (Some "workspace_permission") (Some workspace)
    [("username", JStr (wur_username body)); ("permission", JStr (wur_permission body))]);
  mret (MkWorkspaceUser (row_instance perm) (wur_username body) (p_permission perm)).

Definition create_workspace_group_permission (body : WorkspaceGroupPermissionRequest) (workspace current_username : string)
    : auth WorkspaceGroupPermissionResponse :=
  _ ← lift (_validate_permission (wgr_permission body));
  perm ← store_call (CreateWorkspaceGroupPermission workspace (wgr_group_name body) (wgr_permission body))
           (SqlAlchemyStore.create_workspace_group_permission workspace (wgr_group_name body) (wgr_permission body));
  _ ← emit_audit_event (AuditEvent "permission.create" (Some current_username) (Some "group_workspace_permission") (Some workspace)
    [("group_name", JStr (wgr_group_name body)); ("permission", JStr (wgr_permission body))]);
  mret (MkWorkspaceGroup (row_instance perm) (wgr_group_name body) (p_permission perm)).

(** The user is that of the path; the one of the body is not read. *)
Definition update_workspace_user_permission (body : WorkspaceUserPermissionRequest) (workspace username current_username : string)
    : auth WorkspaceUserPermissionResponse :=
  _ ← lift (_validate_permission (wur_permission body));
  perm ← store_call (UpdateWorkspacePermission workspace username (wur_permission body))
           (SqlAlchemyStore.update_workspace_permission workspace username (wur_permission body));
  _ ← in_world (invalidate_workspace_permission username workspace);
  _ ← emit_audit_event (AuditEvent "permission.update" (Some current_username) (Some "workspace_permission") (Some workspace)
    [("username", JStr username); ("permission", JStr (wur_permission body))]);
  mret (MkWorkspaceUser (row_instance perm) username (p_permission perm)).

Definition update_workspace_group_permission (body : WorkspaceGroupPermissionRequest) (workspace group_name current_username : string)
    : auth WorkspaceGroupPermissionResponse :=
  _ ← lift (_validate_permission (wgr_permission body));
  perm ← store_call (UpdateWorkspaceGroupPermission workspace group_name (wgr_permission body))
           (SqlAlchemyStore.update_workspace_group_permission workspace group_name (wgr_permission body));
  _ ← emit_audit_event (AuditEvent "permission.update" (Some current_username) (Some "group_workspace_permission") (Some workspace)
    [("group_name", JStr group_name); ("permission", JStr (wgr_permission body))]);
  mret (MkWorkspaceGroup (row_instance perm) group_name (p_permission perm)).

Definition delete_workspace_user_permission (workspace username current_username : string) : auth unit :=
  _ ← store_call (DeleteWorkspacePermission workspace username) (SqlAlchemyStore.delete_workspace_permission workspace username);
  _ ← in_world (invalidate_workspace_permission username workspace);
  emit_audit_event (AuditEvent "permission.delete" (Some current_username) (Some "workspace_permission") (Some workspace)
    [("username", JStr username)]).

Definition delete_workspace_group_permission (workspace group_name current_username : string) : auth unit :=
  _ ← store_call (DeleteWorkspaceGroupPermission workspace group_name) (SqlAlchemyStore.delete_workspace_group_permission workspace group_name);
  emit_audit_event (AuditEvent "permission.delete" (Some current_username) (Some "group_workspace_permission") (Some workspace)
    [("group_name", JStr group_name)]).
End handlers.
End WorkspacePermissionsRouter.

Module WorkspaceRegexPermissionsRouter.
Section handlers.
Context `{SqlBackend, PyRe, UserLibs, ColumnTyping, Config, TrackingStore}.
Context `{CacheBackend PermissionResult, CacheBackend Permission, TTLCache unit json, TTLCache provider_key json}.
Context `{TTLCache (string * string) bool}.
Abbreviation auth := (M auth_state).

Definition user_pattern (username : string) (perm : regex_row) : WorkspaceRegexPermissionResponse :=
  MkWorkspaceRegex (r_id perm) (r_regex perm) (r_priority perm) (r_permission perm) username.
Definition group_pattern (group_name : string) (perm : regex_row) : WorkspaceGroupRegexPermissionResponse :=
  MkWorkspaceGroupRegex (r_id perm) (r_regex perm) (r_priority perm) (r_permission perm) group_name.
Definition pattern_line (event resource_type : string) (admin_username : string) (id : Z) (detail : list (string * json)) : audit_event :=
  AuditEvent event (Some admin_username) (Some resource_type) (Some (str_of_int id)) detail.
Definition user_pattern_detail (body : WorkspaceRegexPermissionRequest) : list (string * json) :=
  [("username", JStr (wrr_username body)); ("regex", JStr (wrr_regex body)); ("priority", JNum (wrr_priority body)); ("permission", JStr (wrr_permission body))].
Definition group_pattern_detail (body : WorkspaceGroupRegexPermissionRequest) : list (string * json) :=
  [("group_name", JStr (wgrr_group_name body)); ("regex", JStr (wgrr_regex body)); ("priority", JNum (wgrr_priority body)); ("permission", JStr (wgrr_permission body))].

Definition create_user_regex_permission (body : WorkspaceRegexPermissionRequest) (admin_username : string) : auth WorkspaceRegexPermissionResponse :=
  _ ← lift (_validate_permission (wrr_permission body));
  perm ← store_call (CreateWorkspaceRegexPermission (wrr_regex body) (wrr_priority body) (wrr_permission body) (wrr_username body))
           (SqlAlchemyStore.create_workspace_regex_permission (wrr_regex body) (wrr_priority body) (wrr_permission body) (wrr_username body));
  _ ← in_world flush_workspace_cache;
  _ ← emit_audit_event (pattern_line "permission.create" "workspace_regex_permission" admin_username (r_id perm) (user_pattern_detail body));
  mret (user_pattern (wrr_username body) perm).

(** The owner is shown by the number of its account. *)
Definition list_user_regex_permissions : auth (list WorkspaceRegexPermissionResponse) :=
  perms ← in_store SqlAlchemyStore.list_all_workspace_regex_permissions;
  mret (map (λ p, user_pattern (str_of_int (r_owner p)) p) perms).

Definition update_user_regex_permission (body : WorkspaceRegexPermissionRequest) (permission_id : Z) (admin_username : string)
    : auth WorkspaceRegexPermissionResponse :=
  _ ← lift (_validate_permission (wrr_permission body));
  perm ← store_call (UpdateWorkspaceRegexPermission (wrr_regex body) (wrr_priority body) (wrr_permission body) (wrr_username body) permission_id)
           (SqlAlchemyStore.update_workspace_regex_permission (wrr_regex body) (wrr_priority body) (wrr_permission body) (wrr_username body) permission_id);
  _ ← in_world flush_workspace_cache;
  _ ← emit_audit_event (pattern_line "permission.update" "workspace_regex_permission" admin_username permission_id (user_pattern_detail body));
  mret (user_pattern (wrr_username body) perm).

Definition delete_user_regex_permission (permission_id : Z) (username admin_username : string) : auth unit :=
  _ ← store_call (DeleteWorkspaceRegexPermission username permission_id) (SqlAlchemyStore.delete_workspace_regex_permission username permission_id);
  _ ← in_world flush_workspace_cache;
  emit_audit_event (pattern_line "permission.delete" "workspace_regex_permission" admin_username permission_id [("username", JStr username)]).

Definition create_group_regex_permission (body : WorkspaceGroupRegexPermissionRequest) (admin_username : string)
    : auth WorkspaceGroupRegexPermissionResponse :=
  _ ← lift (_validate_permission (wgrr_permission body));
  perm ← store_call (CreateWorkspaceGroupRegexPermission (wgrr_group_name body) (wgrr_regex body) (wgrr_priority body) (wgrr_permission body))
           (SqlAlchemyStore.create_workspace_group_regex_permission (wgrr_group_name body) (wgrr_regex body) (wgrr_priority body) (wgrr_permission body));
  _ ← in_world flush_workspace_cache;
  _ ← emit_audit_event (pattern_line "permission.create" "group_workspace_regex_permission" admin_username (r_id perm) (group_pattern_detail body));
  mret (group_pattern (wgrr_group_name body) perm).

Definition list_group_regex_permissions : auth (list WorkspaceGroupRegexPermissionResponse) :=
  perms ← in_store SqlAlchemyStore.list_all_workspace_group_regex_permissions;
  mret (map (λ p, group_pattern (str_of_int (r_owner p)) p) perms).

Definition update_group_regex_permission (body : WorkspaceGroupRegexPermissionRequest) (permission_id : Z) (admin_username : string)
    : auth WorkspaceGroupRegexPermissionResponse :=
  _ ← lift (_validate_permission (wgrr_permission body));
  perm ← store_call (UpdateWorkspaceGroupRegexPermission permission_id (wgrr_group_name body) (wgrr_regex body) (wgrr_priority body) (wgrr_permission body))
           (SqlAlchemyStore.update_workspace_group_regex_permission permission_id (wgrr_group_name body) (wgrr_regex body) (wgrr_priority body) (wgrr_permission body));
  _ ← in_world flush_workspace_cache;
  _ ← emit_audit_event (pattern_line "permission.update" "group_workspace_regex_permission" admin_username permission_id (group_pattern_detail body));
  mret (group_pattern (wgrr_group_name body) perm).

Definition delete_group_regex_permission (permission_id : Z) (group_name admin_username : string) : auth unit :=
  _ ← store_call (DeleteWorkspaceGroupRegexPermission group_name permission_id) (SqlAlchemyStore.delete_workspace_group_regex_permission group_name permission_id);
  _ ← in_world flush_workspace_cache;
  emit_audit_event (pattern_line "permission.delete" "group_workspace_regex_permission" admin_username permission_id [("group_name", JStr group_name)]).
End handlers.
End WorkspaceRegexPermissionsRouter.

(** ** The requests *)

Inductive WorkspaceRequest :=
  | ask_list_workspace_users (workspace : string)
  | ask_list_workspace_groups (workspace : string)
  | ask_create_workspace_user_permission (body : WorkspaceUserPermissionRequest) (workspace : string)
  | ask_create_workspace_group_permission (body : WorkspaceGroupPermissionRequest) (workspace : string)
  | ask_update_workspace_user_permission (body : WorkspaceUserPermissionRequest) (workspace username : string)
  | ask_update_workspace_group_permission (body : WorkspaceGroupPermissionRequest) (workspace group_name : string)
  | ask_delete_workspace_user_permission (workspace username : string)
  | ask_delete_workspace_group_permission (workspace group_name : string)
  | ask_create_user_regex_permission (body : WorkspaceRegexPermissionRequest)
  | ask_list_user_regex_permissions
  | ask_update_user_regex_permission (body : WorkspaceRegexPermissionRequest) (permission_id : Z)
  | ask_delete_user_regex_permission (permission_id : Z) (username : string)
  | ask_create_group_regex_permission (body : WorkspaceGroupRegexPermissionRequest)
  | ask_list_group_regex_permissions
  | ask_update_group_regex_permission (body : WorkspaceGroupRegexPermissionRequest) (permission_id : Z)
  | ask_delete_group_regex_permission (permission_id : Z) (group_name : string).

Definition workspace_answer (r : WorkspaceRequest) : Type :=
  match r with
  | ask_list_workspace_users _ => list WorkspaceUserPermissionResponse
  | ask_list_workspace_groups _ => list WorkspaceGroupPermissionResponse
  | ask_create_workspace_user_permission _ _ | ask_update_workspace_user_permission _ _ _ => WorkspaceUserPermissionResponse
  | ask_create_workspace_group_permission _ _ | ask_update_workspace_group_permission _ _ _ => WorkspaceGroupPermissionResponse
  | ask_create_user_regex_permission _ | ask_update_user_regex_permission _ _ => WorkspaceRegexPermissionResponse
  | ask_list_user_regex_permissions => list WorkspaceRegexPermissionResponse
  | ask_create_group_regex_permission _ | ask_update_group_regex_permission _ _ => WorkspaceGroupRegexPermissionResponse
  | ask_list_group_regex_permissions => list WorkspaceGroupRegexPermissionResponse
  | _ => unit
  end.

(** The workspace that a dependency is asked about. *)
Definition asked_workspace (r : WorkspaceRequest) : option string :=
  match r with
  | ask_list_workspace_users w | ask_list_workspace_groups w
  | ask_create_workspace_user_permission _ w | ask_create_workspace_group_permission _ w
  | ask_update_workspace_user_permission _ w _ | ask_update_workspace_group_permission _ w _
  | ask_delete_workspace_user_permission w _ | ask_delete_workspace_group_permission w _ => Some w
  | _ => None
  end.

Section serve.
Context `{SqlBackend, PyRe, UserLibs, ColumnTyping, Config, TrackingStore}.
Context `{CacheBackend PermissionResult, CacheBackend Permission, TTLCache unit json, TTLCache provider_key json}.
Context `{TTLCache (string * string) bool}.
Context `{JsonLoads, Encodings, PodFiles, Network, JwtLib, TokenConfig, AuthConfig, ValidatorLibs}.
Variables (now : Z) (http : FastApiRequest).
Abbreviation auth := (M auth_state).
Import WorkspacePermissionsRouter WorkspaceRegexPermissionsRouter.

Definition reads_workspace (workspace : string) : auth string := check_workspace_read_permission now http workspace.
Definition manages_workspace (workspace : string) : auth string := check_workspace_manage_permission now http workspace.
Definition administrates : auth string := check_admin_permission now http.

Definition serve_workspace (r : WorkspaceRequest) : auth (reply (workspace_answer r)) :=
  match r with
  | ask_list_workspace_users w => respond 200 (_ ← reads_workspace w; list_workspace_users w)
  | ask_list_workspace_groups w => respond 200 (_ ← reads_workspace w; list_workspace_groups w)
  | ask_create_workspace_user_permission body w => respond 201 (u ← manages_workspace w; create_workspace_user_permission body w u)
  | ask_create_workspace_group_permission body w => respond 201 (u ← manages_workspace w; create_workspace_group_permission body w u)
  | ask_update_workspace_user_permission body w username => respond 200 (u ← manages_workspace w; update_workspace_user_permission body w username u)
  | ask_update_workspace_group_permission body w group_name => respond 200 (u ← manages_workspace w; update_workspace_group_permission body w group_name u)
  | ask_delete_workspace_user_permission w username => respond 204 (u ← manages_workspace w; delete_workspace_user_permission w username u)
  | ask_delete_workspace_group_permission w group_name => respond 204 (u ← manages_workspace w; delete_workspace_group_permission w group_name u)
  | ask_create_user_regex_permission body => respond 201 (u ← administrates; create_user_regex_permission body u)
  | ask_list_user_regex_permissions => respond 200 (_ ← administrates; list_user_regex_permissions)
  | ask_update_user_regex_permission body id => respond 200 (u ← administrates; update_user_regex_permission body id u)
  | ask_delete_user_regex_permission id username => respond 204 (u ← administrates; delete_user_regex_permission id username u)
  | ask_create_group_regex_permission body => respond 201 (u ← administrates; create_group_regex_permission body u)
  | ask_list_group_regex_permissions => respond 200 (_ ← administrates; list_group_regex_permissions)
  | ask_update_group_regex_permission body id => respond 200 (u ← administrates; update_group_regex_permission body id u)
  | ask_delete_group_regex_permission id group_name => respond 204 (u ← administrates; delete_group_regex_permission id group_name u)
  end.
End serve.
