(* ===== verification/UsersRouter.v ===== *)
(** * The accounts ([routers/users.py])

    One definition per handler, then the requests with their dependencies. The
    token that is drawn, the salt and the clock are those of the [login_env]. *)
From S2P Require Import Prelude PyStrings Json Ownership Permissions Regex RegexSafety Database Repositories Users Groups Sessions Cache Resolution Batch Store.
From S2P Require Import Requests AfterRequest Validators TokenVerification Identity AuthMiddleware ProviderRegistry Kubernetes RedirectUri DataFetching ApiModels FastApi RouterLib.
From Stdlib Require Import Ascii.
#[local] Open Scope Z_scope.

(** ** Bodies and responses ([models/user.py], [models/responses.py]) *)

Record CreateAccessTokenRequest := MkTokenRequest { tr_username : option string; tr_expiration : option string }.
Record CreateUserRequest := MkUserRequest { cu_username : string; cu_display_name : string; cu_is_admin : bool; cu_is_service_account : bool }.
Record GroupRecord := MkGroupRecord { gr_id : Z; gr_group_name : string }.
Record CurrentUserProfile := MkProfile {
  cp_display_name : string;
  cp_groups : list GroupRecord;
  cp_id : Z;
  cp_is_admin : bool;
  cp_is_service_account : bool;
  cp_password_expiration : option string;
  cp_username : string;
}.
Record TokenCreated := MkToken { tc_token : string; tc_message : string }.
Record OwnershipChange := MkOwnership { oc_username : string; oc_managed_by : string; oc_previous : string }.

(** [datetime.fromisoformat] and [isoformat], which read and write the offset too. *)
Class DateTimes := {
  fromisoformat : string → option datetime;
  isoformat : datetime → string;
}.

(** [re.fullmatch(r"manual|scim|oidc:[A-Za-z0-9._-]+", s)] *)
Definition provider_id_char (c : ascii) : bool := is_alpha c || is_digit c || existsb (λ d, bool_decide (c = d)) ["."; "_"; "-"]%char.
Definition is_owner (managed_by : string) : bool :=
  String.eqb managed_by "manual" || String.eqb managed_by "scim" ||
  (startswith managed_by "oidc:" && negb (String.eqb (drop_str 5 managed_by) "") && all_chars provider_id_char (drop_str 5 managed_by)).

(** [if s.endswith("Z"): s = s[:-1] + "+00:00"] *)
Definition utc_offset (s : string) : string := if endswith s "Z" then take_str (String.length s - 1) s +:+ "+00:00" else s.

Definition MAX_TOKEN_LIFETIME : Z := 366 * 24 * 60 * 60.

Section handlers.
Context `{SqlBackend, PyRe, UserLibs, ColumnTyping, Config, TrackingStore}.
Context `{CacheBackend PermissionResult, CacheBackend Permission, TTLCache unit json, TTLCache provider_key json}.
Context `{TTLCache (string * string) bool, DateTimes}.
Variable env : login_env.
Abbreviation auth := (M auth_state).

(** ** [create_access_token] *)

Definition requested_expiration (token_request : option CreateAccessTokenRequest) : outcome (option datetime) :=
  match r ← token_request; nonempty (tr_expiration r) with
  | None => Ok None
  | Some expiration_str =>
      match fromisoformat (utc_offset expiration_str) with
      | None => Raise (HTTPException 400 "Invalid expiration date format")
      | Some expiration =>
          let expiration := aware expiration in
          if instant expiration <? le_now env then Raise (HTTPException 400 "Expiration date must be in the future")
          else if le_now env + MAX_TOKEN_LIFETIME <? instant expiration then Raise (HTTPException 400 "Expiration date must be less than 1 year in the future")
          else Ok (Some expiration)
      end
  end.

Definition token_target (token_request : option CreateAccessTokenRequest) (current_username : string) (is_admin : bool) : outcome string :=
  match r ← token_request; nonempty (tr_username r) with
  | None => Ok current_username
  | Some target_username =>
      if negb (bool_decide (target_username = current_username)) && negb is_admin then Raise (HTTPException 403 ADMIN_REQUIRED)
      else Ok target_username
  end.

(** [written_by="manual", admin_override=True] *)
Definition new_secret (token : string) (expiration : option datetime) : user_update :=
  UserUpdate (Some token) expiration None None None None (Some MANUAL) true.

(** [except HTTPException: raise], then [except Exception] *)
Definition http_or {A} (status : Z) (detail : string) (m : auth A) : auth A :=
  catch m (λ e, match e with HTTPException _ _ => raise e | _ => raise (HTTPException status detail) end).

Definition profile_or_404 (username : string) : auth (user_row * list group_row) :=
  catch (in_store (SqlAlchemyStore.get_user_profile username))
    (λ e, match e with MlflowException _ => raise (HTTPException 404 ("User " +:+ username +:+ " not found")) | _ => raise e end).

Definition create_access_token (token_request : option CreateAccessTokenRequest) (current_username : string) (is_admin : bool) : auth TokenCreated :=
  http_or 500 "Failed to create access token" (
    target_username ← lift (token_target token_request current_username is_admin);
    expiration ← lift (requested_expiration token_request);
    '(user, _) ← profile_or_404 target_username;
    let new_token := le_token env in
    _ ← in_audited (SqlAlchemyStore.update_user (le_enforcement env) (le_now env) (le_salt env) target_username (new_secret new_token expiration));
    _ ← emit_audit_event (AuditEvent "user.token_rotate" (Some current_username) (Some "user") (Some target_username)
      [("expiration", match expiration with Some e => JStr (isoformat e) | None => JNull end);
       ("expiration_cleared", JBool (bool_decide (is_Some (u_password_expiration user)) && bool_decide (expiration = None)))]);
    mret (MkToken new_token ("Token for " +:+ target_username +:+ " has been created"))).

(** ** The other handlers *)

Definition list_users (service : bool) (username : string) : auth (list string) :=
  or_http 500 "Failed to retrieve users" (in_store (SqlAlchemyStore.list_usernames service)).

(** The status with the answer: an account that exists is refreshed, without an
    audit line of the router. The message, with the id, is left out. *)
Definition create_new_user (user_request : CreateUserRequest) (admin_username : string) : auth Z :=
  or_http 500 "Failed to create user" (
    status ← in_audited (create_user env (cu_username user_request) (cu_display_name user_request) (cu_is_admin user_request)
      (cu_is_service_account user_request) None);
    if status : bool then
      _ ← emit_audit_event (AuditEvent "user.create" (Some admin_username) (Some "user") (Some (cu_username user_request))
        [("is_admin", JBool (cu_is_admin user_request)); ("is_service_account", JBool (cu_is_service_account user_request))]);
      mret 201
    else mret 200).

Definition owned_by (managed_by : string) : user_update := UserUpdate None None None None None (Some managed_by) (Some MANUAL) true.

Definition set_user_ownership (username managed_by admin_username : string) : auth OwnershipChange :=
  if negb (is_owner managed_by) then raise (HTTPException 400 "managed_by must be 'manual', 'scim', or 'oidc:<provider-id>'")
  else
    _ ← profile_or_404 username;
    '(user, _) ← in_store (SqlAlchemyStore.get_user_profile username);
    let previous := u_managed_by user in
    _ ← in_audited (SqlAlchemyStore.update_user (le_enforcement env) (le_now env) (le_salt env) username (owned_by managed_by));
    _ ← emit_audit_event (AuditEvent "user.ownership_set" (Some admin_username) (Some "user") (Some username)
      [("from", JStr previous); ("to", JStr managed_by)]);
    mret (MkOwnership username managed_by previous).

(** [get_user_profile] raises where it finds nobody, so its 404 is never given. *)
Definition delete_user (username admin_username : string) : auth unit :=
  http_or 500 "Failed to delete user" (
    _ ← in_store (SqlAlchemyStore.get_user_profile username);
    _ ← in_audited (SqlAlchemyStore.delete_user username);
    emit_audit_event (AuditEvent "user.delete" (Some admin_username) (Some "user") (Some username) [])).

Definition profile_of (username : string) : auth CurrentUserProfile :=
  or_http 404 "User not found" (
    '(user, user_groups) ← in_store (SqlAlchemyStore.get_user_profile username);
    mret (MkProfile (u_display_name user) (map (λ g, MkGroupRecord (g_id g) (g_name g)) user_groups) (u_id user) (u_is_admin user)
      (u_is_service_account user) ((isoformat ∘ naive) <$> u_password_expiration user) (u_username user))).
Definition get_current_user_information (current_username : string) : auth CurrentUserProfile := profile_of current_username.
Definition get_user_information (username admin_username : string) : auth CurrentUserProfile := profile_of username.
End handlers.

(** ** The requests *)

Inductive UsersRequest :=
  | ask_create_access_token (token_request : option CreateAccessTokenRequest)
  | ask_list_users (service : bool)
  | ask_create_new_user (user_request : CreateUserRequest)
  | ask_set_user_ownership (username managed_by : string)
  | ask_delete_user (username : string)
  | ask_get_current_user_information
  | ask_get_user_information (username : string).

Definition users_answer (r : UsersRequest) : Type :=
  match r with
  | ask_create_access_token _ => TokenCreated
  | ask_list_users _ => list string
  | ask_set_user_ownership _ _ => OwnershipChange
  | ask_create_new_user _ | ask_delete_user _ => unit
  | ask_get_current_user_information | ask_get_user_information _ => CurrentUserProfile
  end.

(** For a handler that chooses the status itself. *)
Definition respond_as {S} (handler : M S Z) : M S (reply unit) :=
  catch (status ← handler; mret (Replied status tt)) (λ e, mret (Failed (exc_status e))).

Section serve.
Context `{SqlBackend, PyRe, UserLibs, ColumnTyping, Config, TrackingStore}.
Context `{CacheBackend PermissionResult, CacheBackend Permission, TTLCache unit json, TTLCache provider_key json}.
Context `{TTLCache (string * string) bool}.
Context `{JsonLoads, Encodings, PodFiles, Network, JwtLib, TokenConfig, AuthConfig, ValidatorLibs, DateTimes}.
Variables (env : login_env) (http : FastApiRequest).
Abbreviation auth := (M auth_state).

Definition serve_users (r : UsersRequest) : auth (reply (users_answer r)) :=
  match r with
  | ask_create_access_token token_request => respond 200 (
      current_username ← get_username (le_now env) http; is_admin ← get_is_admin (le_now env) http; create_access_token env token_request current_username is_admin)
  | ask_list_users service => respond 200 (username ← get_username (le_now env) http; list_users service username)
  | ask_create_new_user user_request =>
      respond_as (admin_username ← check_admin_permission (le_now env) http; create_new_user env user_request admin_username)
  | ask_set_user_ownership username managed_by => respond 200 (
      admin_username ← check_admin_permission (le_now env) http; set_user_ownership env username managed_by admin_username)
  | ask_delete_user username => respond 200 (admin_username ← check_admin_permission (le_now env) http; delete_user username admin_username)
  | ask_get_current_user_information => respond 200 (username ← get_username (le_now env) http; get_current_user_information username)
  | ask_get_user_information username => respond 200 (admin_username ← check_admin_permission (le_now env) http; get_user_information username admin_username)
  end.
End serve.
