(* ===== verification/Management.v ===== *)
(** * The endpoints of the permission routers

    A request of either router, served: its dependencies, the handler, and the
    reply that FastAPI makes of what comes out. Which path leads to which
    handler is the framework's business. *)
From S2P Require Import Prelude PyStrings Json Permissions Regex RegexSafety Database Repositories Users Groups Sessions Cache Resolution Batch Store.
From S2P Require Import Requests AfterRequest Validators TokenVerification Identity AuthMiddleware ProviderRegistry Kubernetes DataFetching ApiModels FastApi RouterLib.
From S2P Require Import UserPermissions GroupPermissions.

(** ** The requests *)

(** One constructor per endpoint, with its path parameters and its body. *)
Inductive UserRequest :=
  | ask_get_user_experiment_permissions (username : string)
  | ask_create_user_experiment_permission (username experiment_id : string) (permission_data : ExperimentPermission)
  | ask_get_user_experiment_permission (username experiment_id : string)
  | ask_update_user_experiment_permission (username experiment_id : string) (permission_data : ExperimentPermission)
  | ask_delete_user_experiment_permission (username experiment_id : string)
  | ask_create_user_experiment_pattern_permission (username : string) (pattern_data : ExperimentRegexCreate)
  | ask_list_user_experiment_pattern_permissions (username : string)
  | ask_get_user_experiment_pattern_permission (username id : string)
  | ask_update_user_experiment_pattern_permission (username id : string) (pattern_data : ExperimentRegexCreate)
  | ask_delete_user_experiment_pattern_permission (username id : string)
  | ask_get_user_prompts (username : string)
  | ask_create_user_prompt_permission (username name : string) (permission_data : PromptPermission)
  | ask_get_user_prompt_permission (username name : string)
  | ask_update_user_prompt_permission (username name : string) (permission_data : PromptPermission)
  | ask_delete_user_prompt_permission (username name : string)
  | ask_get_user_prompt_pattern_permissions (username : string)
  | ask_create_user_prompt_regex_permission (username : string) (pattern_data : PromptRegexCreate)
  | ask_get_user_prompt_regex_permission (username id : string)
  | ask_update_user_prompt_regex_permission (username id : string) (pattern_data : PromptRegexCreate)
  | ask_delete_user_prompt_regex_permission (username id : string)
  | ask_get_user_registered_models (username : string)
  | ask_create_user_registered_model_permission (username name : string) (permission_data : RegisteredModelPermission)
  | ask_get_user_registered_model_permission (username name : string)
  | ask_update_user_registered_model_permission (username name : string) (permission_data : RegisteredModelPermission)
  | ask_delete_user_registered_model_permission (username name : string)
  | ask_get_user_scorer_permissions (username : string)
  | ask_create_user_scorer_permission (username experiment_id scorer_name : string) (permission_data : ScorerPermission)
  | ask_get_user_scorer_permission (username experiment_id scorer_name : string)
  | ask_update_user_scorer_permission (username experiment_id scorer_name : string) (permission_data : ScorerPermission)
  | ask_delete_user_scorer_permission (username experiment_id scorer_name : string)
  | ask_get_user_scorer_regex_permissions (username : string)
  | ask_create_user_scorer_regex_permission (username : string) (pattern_data : ScorerRegexCreate)
  | ask_get_user_scorer_pattern_permission (username : string) (id : Z)
  | ask_update_user_scorer_pattern_permission (username : string) (id : Z) (pattern_data : ScorerRegexCreate)
  | ask_delete_user_scorer_pattern_permission (username : string) (id : Z)
  | ask_get_user_registered_model_regex_permissions (username : string)
  | ask_create_user_registered_model_regex_permission (username : string) (pattern_data : RegisteredModelRegexCreate)
  | ask_get_user_registered_model_regex_permission (username id : string)
  | ask_update_user_registered_model_regex_permission (username id : string) (pattern_data : RegisteredModelRegexCreate)
  | ask_delete_user_registered_model_regex_permission (username id : string)
  | ask_get_user_gateway_endpoint_permissions (username : string)
  | ask_create_user_gateway_endpoint_permission (username name : string) (permission_data : GatewayPermission)
  | ask_get_user_gateway_endpoint_permission (username name : string)
  | ask_update_user_gateway_endpoint_permission (username name : string) (permission_data : GatewayPermission)
  | ask_delete_user_gateway_endpoint_permission (username name : string)
  | ask_get_user_gateway_endpoint_pattern_permissions (username : string)
  | ask_create_user_gateway_endpoint_pattern_permission (username : string) (pattern_data : GatewayRegexCreate)
  | ask_get_user_gateway_endpoint_pattern_permission (username : string) (id : Z)
  | ask_update_user_gateway_endpoint_pattern_permission (username : string) (id : Z) (pattern_data : GatewayRegexCreate)
  | ask_delete_user_gateway_endpoint_pattern_permission (username : string) (id : Z)
  | ask_get_user_gateway_model_definition_permissions (username : string)
  | ask_create_user_gateway_model_definition_permission (username name : string) (permission_data : GatewayPermission)
  | ask_get_user_gateway_model_definition_permission (username name : string)
  | ask_update_user_gateway_model_definition_permission (username name : string) (permission_data : GatewayPermission)
  | ask_delete_user_gateway_model_definition_permission (username name : string)
  | ask_get_user_gateway_model_definition_pattern_permissions (username : string)
  | ask_create_user_gateway_model_definition_pattern_permission (username : string) (pattern_data : GatewayRegexCreate)
  | ask_get_user_gateway_model_definition_pattern_permission (username : string) (id : Z)
  | ask_update_user_gateway_model_definition_pattern_permission (username : string) (id : Z) (pattern_data : GatewayRegexCreate)
  | ask_delete_user_gateway_model_definition_pattern_permission (username : string) (id : Z)
  | ask_get_user_gateway_secret_permissions (username : string)
  | ask_create_user_gateway_secret_permission (username name : string) (permission_data : GatewayPermission)
  | ask_get_user_gateway_secret_permission (username name : string)
  | ask_update_user_gateway_secret_permission (username name : string) (permission_data : GatewayPermission)
  | ask_delete_user_gateway_secret_permission (username name : string)
  | ask_get_user_gateway_secret_pattern_permissions (username : string)
  | ask_create_user_gateway_secret_pattern_permission (username : string) (pattern_data : GatewayRegexCreate)
  | ask_get_user_gateway_secret_pattern_permission (username : string) (id : Z)
  | ask_update_user_gateway_secret_pattern_permission (username : string) (id : Z) (pattern_data : GatewayRegexCreate)
  | ask_delete_user_gateway_secret_pattern_permission (username : string) (id : Z).

(** What the endpoint answers with. *)
Definition user_answer (r : UserRequest) : Type :=
  match r with
  | ask_get_user_experiment_permissions _ => list ExperimentPermissionSummary
  | ask_create_user_experiment_permission _ _ _ => MessageResponse
  | ask_get_user_experiment_permission _ _ => ExperimentPermissionResponse
  | ask_update_user_experiment_permission _ _ _ => MessageResponse
  | ask_delete_user_experiment_permission _ _ => MessageResponse
  | ask_create_user_experiment_pattern_permission _ _ => StatusMessageResponse
  | ask_list_user_experiment_pattern_permissions _ => list ExperimentRegexPermission
  | ask_get_user_experiment_pattern_permission _ _ => ExperimentRegexPermission
  | ask_update_user_experiment_pattern_permission _ _ _ => StatusMessageResponse
  | ask_delete_user_experiment_pattern_permission _ _ => StatusMessageResponse
  | ask_get_user_prompts _ => option (list NamedPermissionSummary)
  | ask_create_user_prompt_permission _ _ _ => StatusMessageResponse
  | ask_get_user_prompt_permission _ _ => PromptPermissionResponse
  | ask_update_user_prompt_permission _ _ _ => StatusMessageResponse
  | ask_delete_user_prompt_permission _ _ => StatusMessageResponse
  | ask_get_user_prompt_pattern_permissions _ => list RegisteredModelRegexPermissionRecord
  | ask_create_user_prompt_regex_permission _ _ => StatusMessageResponse
  | ask_get_user_prompt_regex_permission _ _ => PromptRegexPermissionResponse
  | ask_update_user_prompt_regex_permission _ _ _ => PromptRegexPermissionResponse
  | ask_delete_user_prompt_regex_permission _ _ => StatusOnlyResponse
  | ask_get_user_registered_models _ => option (list NamedPermissionSummary)
  | ask_create_user_registered_model_permission _ _ _ => StatusMessageResponse
  | ask_get_user_registered_model_permission _ _ => RegisteredModelPermissionResponse
  | ask_update_user_registered_model_permission _ _ _ => StatusMessageResponse
  | ask_delete_user_registered_model_permission _ _ => StatusMessageResponse
  | ask_get_user_scorer_permissions _ => list ScorerPermissionRecord
  | ask_create_user_scorer_permission _ _ _ _ => ScorerPermissionResponse
  | ask_get_user_scorer_permission _ _ _ => ScorerPermissionResponse
  | ask_update_user_scorer_permission _ _ _ _ => StatusMessageResponse
  | ask_delete_user_scorer_permission _ _ _ => StatusMessageResponse
  | ask_get_user_scorer_regex_permissions _ => list ScorerRegexPermissionRecord
  | ask_create_user_scorer_regex_permission _ _ => ScorerRegexPermissionResponse
  | ask_get_user_scorer_pattern_permission _ _ => ScorerRegexPermissionResponse
  | ask_update_user_scorer_pattern_permission _ _ _ => ScorerRegexPermissionResponse
  | ask_delete_user_scorer_pattern_permission _ _ => StatusMessageResponse
  | ask_get_user_registered_model_regex_permissions _ => list RegisteredModelRegexPermissionRecord
  | ask_create_user_registered_model_regex_permission _ _ => StatusMessageResponse
  | ask_get_user_registered_model_regex_permission _ _ => RegisteredModelRegexPermissionResponse
  | ask_update_user_registered_model_regex_permission _ _ _ => RegisteredModelRegexPermissionResponse
  | ask_delete_user_registered_model_regex_permission _ _ => StatusOnlyResponse
  | ask_get_user_gateway_endpoint_permissions _ => list NamedPermissionSummary
  | ask_create_user_gateway_endpoint_permission _ _ _ => NamedPermissionSummary
  | ask_get_user_gateway_endpoint_permission _ _ => NamedPermissionSummary
  | ask_update_user_gateway_endpoint_permission _ _ _ => StatusMessageResponse
  | ask_delete_user_gateway_endpoint_permission _ _ => StatusMessageResponse
  | ask_get_user_gateway_endpoint_pattern_permissions _ => list UserGatewayRegexPermissionItem
  | ask_create_user_gateway_endpoint_pattern_permission _ _ => UserGatewayRegexPermissionItem
  | ask_get_user_gateway_endpoint_pattern_permission _ _ => UserGatewayRegexPermissionItem
  | ask_update_user_gateway_endpoint_pattern_permission _ _ _ => UserGatewayRegexPermissionItem
  | ask_delete_user_gateway_endpoint_pattern_permission _ _ => StatusMessageResponse
  | ask_get_user_gateway_model_definition_permissions _ => list NamedPermissionSummary
  | ask_create_user_gateway_model_definition_permission _ _ _ => NamedPermissionSummary
  | ask_get_user_gateway_model_definition_permission _ _ => NamedPermissionSummary
  | ask_update_user_gateway_model_definition_permission _ _ _ => StatusMessageResponse
  | ask_delete_user_gateway_model_definition_permission _ _ => StatusMessageResponse
  | ask_get_user_gateway_model_definition_pattern_permissions _ => list UserGatewayRegexPermissionItem
  | ask_create_user_gateway_model_definition_pattern_permission _ _ => UserGatewayRegexPermissionItem
  | ask_get_user_gateway_model_definition_pattern_permission _ _ => UserGatewayRegexPermissionItem
  | ask_update_user_gateway_model_definition_pattern_permission _ _ _ => UserGatewayRegexPermissionItem
  | ask_delete_user_gateway_model_definition_pattern_permission _ _ => StatusMessageResponse
  | ask_get_user_gateway_secret_permissions _ => list NamedPermissionSummary
  | ask_create_user_gateway_secret_permission _ _ _ => NamedPermissionSummary
  | ask_get_user_gateway_secret_permission _ _ => NamedPermissionSummary
  | ask_update_user_gateway_secret_permission _ _ _ => StatusMessageResponse
  | ask_delete_user_gateway_secret_permission _ _ => StatusMessageResponse
  | ask_get_user_gateway_secret_pattern_permissions _ => list UserGatewayRegexPermissionItem
  | ask_create_user_gateway_secret_pattern_permission _ _ => UserGatewayRegexPermissionItem
  | ask_get_user_gateway_secret_pattern_permission _ _ => UserGatewayRegexPermissionItem
  | ask_update_user_gateway_secret_pattern_permission _ _ _ => UserGatewayRegexPermissionItem
  | ask_delete_user_gateway_secret_pattern_permission _ _ => StatusMessageResponse
  end.

(** One constructor per endpoint, with its path parameters and its body. *)
Inductive GroupRequest :=
  | ask_list_groups
  | ask_get_group_users (group_name : string)
  | ask_get_group_experiments (group_name : string)
  | ask_create_group_experiment_permission (group_name experiment_id : string) (permission_data : ExperimentPermission)
  | ask_update_group_experiment_permission (group_name experiment_id : string) (permission_data : ExperimentPermission)
  | ask_delete_group_experiment_permission (group_name experiment_id : string)
  | ask_get_group_registered_models (group_name : string)
  | ask_create_group_registered_model_permission (group_name name : string) (permission_data : RegisteredModelPermission)
  | ask_update_group_registered_model_permission (group_name name : string) (permission_data : RegisteredModelPermission)
  | ask_delete_group_registered_model_permission (group_name name : string)
  | ask_get_group_prompts (group_name : string)
  | ask_create_group_prompt_permission (group_name prompt_name : string) (permission_data : PromptPermission)
  | ask_update_group_prompt_permission (group_name prompt_name : string) (permission_data : PromptPermission)
  | ask_delete_group_prompt_permission (group_name prompt_name : string)
  | ask_get_group_experiment_pattern_permissions (group_name : string)
  | ask_create_group_experiment_pattern_permission (group_name : string) (pattern_data : ExperimentRegexCreate)
  | ask_get_group_experiment_pattern_permission (group_name : string) (id : Z)
  | ask_update_group_experiment_pattern_permission (group_name : string) (id : Z) (pattern_data : ExperimentRegexCreate)
  | ask_delete_group_experiment_pattern_permission (group_name : string) (id : Z)
  | ask_get_group_registered_model_pattern_permissions (group_name : string)
  | ask_create_group_registered_model_pattern_permission (group_name : string) (pattern_data : RegisteredModelRegexCreate)
  | ask_get_group_registered_model_pattern_permission (group_name : string) (id : Z)
  | ask_update_group_registered_model_pattern_permission (group_name : string) (id : Z) (pattern_data : RegisteredModelRegexCreate)
  | ask_delete_group_registered_model_pattern_permission (group_name : string) (id : Z)
  | ask_get_group_prompt_pattern_permissions (group_name : string)
  | ask_create_group_prompt_pattern_permission (group_name : string) (pattern_data : PromptRegexCreate)
  | ask_get_group_prompt_pattern_permission (group_name : string) (id : Z)
  | ask_update_group_prompt_pattern_permission (group_name : string) (id : Z) (pattern_data : PromptRegexCreate)
  | ask_delete_group_prompt_pattern_permission (group_name : string) (id : Z)
  | ask_get_group_scorers (group_name : string)
  | ask_create_group_scorer_permission (group_name experiment_id scorer_name : string) (permission_data : ScorerPermission)
  | ask_update_group_scorer_permission (group_name experiment_id scorer_name : string) (permission_data : ScorerPermission)
  | ask_delete_group_scorer_permission (group_name experiment_id scorer_name : string)
  | ask_get_group_scorer_pattern_permissions (group_name : string)
  | ask_create_group_scorer_pattern_permission (group_name : string) (pattern_data : ScorerRegexCreate)
  | ask_get_group_scorer_pattern_permission (group_name : string) (id : Z)
  | ask_update_group_scorer_pattern_permission (group_name : string) (id : Z) (pattern_data : ScorerRegexCreate)
  | ask_delete_group_scorer_pattern_permission (group_name : string) (id : Z)
  | ask_get_group_gateway_endpoint_permissions (group_name : string)
  | ask_create_group_gateway_endpoint_permission (group_name name : string) (permission_data : GatewayPermission)
  | ask_get_group_gateway_endpoint_permission (group_name name : string)
  | ask_update_group_gateway_endpoint_permission (group_name name : string) (permission_data : GatewayPermission)
  | ask_delete_group_gateway_endpoint_permission (group_name name : string)
  | ask_get_group_gateway_endpoint_pattern_permissions (group_name : string)
  | ask_create_group_gateway_endpoint_pattern_permission (group_name : string) (pattern_data : GatewayRegexCreate)
  | ask_get_group_gateway_endpoint_pattern_permission (group_name : string) (id : Z)
  | ask_update_group_gateway_endpoint_pattern_permission (group_name : string) (id : Z) (pattern_data : GatewayRegexCreate)
  | ask_delete_group_gateway_endpoint_pattern_permission (group_name : string) (id : Z)
  | ask_get_group_gateway_model_definition_permissions (group_name : string)
  | ask_create_group_gateway_model_definition_permission (group_name name : string) (permission_data : GatewayPermission)
  | ask_get_group_gateway_model_definition_permission (group_name name : string)
  | ask_update_group_gateway_model_definition_permission (group_name name : string) (permission_data : GatewayPermission)
  | ask_delete_group_gateway_model_definition_permission (group_name name : string)
  | ask_get_group_gateway_model_definition_pattern_permissions (group_name : string)
  | ask_create_group_gateway_model_definition_pattern_permission (group_name : string) (pattern_data : GatewayRegexCreate)
  | ask_get_group_gateway_model_definition_pattern_permission (group_name : string) (id : Z)
  | ask_update_group_gateway_model_definition_pattern_permission (group_name : string) (id : Z) (pattern_data : GatewayRegexCreate)
  | ask_delete_group_gateway_model_definition_pattern_permission (group_name : string) (id : Z)
  | ask_get_group_gateway_secret_permissions (group_name : string)
  | ask_create_group_gateway_secret_permission (group_name name : string) (permission_data : GatewayPermission)
  | ask_get_group_gateway_secret_permission (group_name name : string)
  | ask_update_group_gateway_secret_permission (group_name name : string) (permission_data : GatewayPermission)
  | ask_delete_group_gateway_secret_permission (group_name name : string)
  | ask_get_group_gateway_secret_pattern_permissions (group_name : string)
  | ask_create_group_gateway_secret_pattern_permission (group_name : string) (pattern_data : GatewayRegexCreate)
  | ask_get_group_gateway_secret_pattern_permission (group_name : string) (id : Z)
  | ask_update_group_gateway_secret_pattern_permission (group_name : string) (id : Z) (pattern_data : GatewayRegexCreate)
  | ask_delete_group_gateway_secret_pattern_permission (group_name : string) (id : Z).

(** What the endpoint answers with. *)
Definition group_answer (r : GroupRequest) : Type :=
  match r with
  | ask_list_groups => list string
  | ask_get_group_users _ => list GroupUser
  | ask_get_group_experiments _ => list GroupExperimentPermissionItem
  | ask_create_group_experiment_permission _ _ _ => StatusMessageResponse
  | ask_update_group_experiment_permission _ _ _ => StatusMessageResponse
  | ask_delete_group_experiment_permission _ _ => StatusMessageResponse
  | ask_get_group_registered_models _ => list GroupNamedPermissionItem
  | ask_create_group_registered_model_permission _ _ _ => StatusMessageResponse
  | ask_update_group_registered_model_permission _ _ _ => StatusMessageResponse
  | ask_delete_group_registered_model_permission _ _ => StatusMessageResponse
  | ask_get_group_prompts _ => list GroupNamedPermissionItem
  | ask_create_group_prompt_permission _ _ _ => StatusMessageResponse
  | ask_update_group_prompt_permission _ _ _ => StatusMessageResponse
  | ask_delete_group_prompt_permission _ _ => StatusMessageResponse
  | ask_get_group_experiment_pattern_permissions _ => list GroupExperimentRegexPermissionItem
  | ask_create_group_experiment_pattern_permission _ _ => StatusMessageResponse
  | ask_get_group_experiment_pattern_permission _ _ => GroupExperimentRegexPermissionItem
  | ask_update_group_experiment_pattern_permission _ _ _ => StatusMessageResponse
  | ask_delete_group_experiment_pattern_permission _ _ => StatusMessageResponse
  | ask_get_group_registered_model_pattern_permissions _ => list GroupRegisteredModelRegexPermissionItem
  | ask_create_group_registered_model_pattern_permission _ _ => StatusMessageResponse
  | ask_get_group_registered_model_pattern_permission _ _ => GroupRegisteredModelRegexPermissionItem
  | ask_update_group_registered_model_pattern_permission _ _ _ => StatusMessageResponse
  | ask_delete_group_registered_model_pattern_permission _ _ => StatusMessageResponse
  | ask_get_group_prompt_pattern_permissions _ => list GroupPromptRegexPermissionItem
  | ask_create_group_prompt_pattern_permission _ _ => StatusMessageResponse
  | ask_get_group_prompt_pattern_permission _ _ => GroupPromptRegexPermissionItem
  | ask_update_group_prompt_pattern_permission _ _ _ => StatusMessageResponse
  | ask_delete_group_prompt_pattern_permission _ _ => StatusMessageResponse
  | ask_get_group_scorers _ => list GroupScorerPermissionItem
  | ask_create_group_scorer_permission _ _ _ _ => StatusMessageResponse
  | ask_update_group_scorer_permission _ _ _ _ => StatusMessageResponse
  | ask_delete_group_scorer_permission _ _ _ => StatusMessageResponse
  | ask_get_group_scorer_pattern_permissions _ => list GroupScorerRegexPermissionItem
  | ask_create_group_scorer_pattern_permission _ _ => StatusMessageResponse
  | ask_get_group_scorer_pattern_permission _ _ => GroupScorerRegexPermissionItem
  | ask_update_group_scorer_pattern_permission _ _ _ => StatusMessageResponse
  | ask_delete_group_scorer_pattern_permission _ _ => StatusMessageResponse
  | ask_get_group_gateway_endpoint_permissions _ => list GroupNamedPermissionItem
  | ask_create_group_gateway_endpoint_permission _ _ _ => GroupNamedPermissionItem
  | ask_get_group_gateway_endpoint_permission _ _ => GroupNamedPermissionItem
  | ask_update_group_gateway_endpoint_permission _ _ _ => StatusMessageResponse
  | ask_delete_group_gateway_endpoint_permission _ _ => StatusMessageResponse
  | ask_get_group_gateway_endpoint_pattern_permissions _ => list GroupGatewayRegexPermissionItem
  | ask_create_group_gateway_endpoint_pattern_permission _ _ => GroupGatewayRegexPermissionItem
  | ask_get_group_gateway_endpoint_pattern_permission _ _ => GroupGatewayRegexPermissionItem
  | ask_update_group_gateway_endpoint_pattern_permission _ _ _ => GroupGatewayRegexPermissionItem
  | ask_delete_group_gateway_endpoint_pattern_permission _ _ => StatusMessageResponse
  | ask_get_group_gateway_model_definition_permissions _ => list GroupNamedPermissionItem
  | ask_create_group_gateway_model_definition_permission _ _ _ => GroupNamedPermissionItem
  | ask_get_group_gateway_model_definition_permission _ _ => GroupNamedPermissionItem
  | ask_update_group_gateway_model_definition_permission _ _ _ => StatusMessageResponse
  | ask_delete_group_gateway_model_definition_permission _ _ => StatusMessageResponse
  | ask_get_group_gateway_model_definition_pattern_permissions _ => list GroupGatewayRegexPermissionItem
  | ask_create_group_gateway_model_definition_pattern_permission _ _ => GroupGatewayRegexPermissionItem
  | ask_get_group_gateway_model_definition_pattern_permission _ _ => GroupGatewayRegexPermissionItem
  | ask_update_group_gateway_model_definition_pattern_permission _ _ _ => GroupGatewayRegexPermissionItem
  | ask_delete_group_gateway_model_definition_pattern_permission _ _ => StatusMessageResponse
  | ask_get_group_gateway_secret_permissions _ => list GroupNamedPermissionItem
  | ask_create_group_gateway_secret_permission _ _ _ => GroupNamedPermissionItem
  | ask_get_group_gateway_secret_permission _ _ => GroupNamedPermissionItem
  | ask_update_group_gateway_secret_permission _ _ _ => StatusMessageResponse
  | ask_delete_group_gateway_secret_permission _ _ => StatusMessageResponse
  | ask_get_group_gateway_secret_pattern_permissions _ => list GroupGatewayRegexPermissionItem
  | ask_create_group_gateway_secret_pattern_permission _ _ => GroupGatewayRegexPermissionItem
  | ask_get_group_gateway_secret_pattern_permission _ _ => GroupGatewayRegexPermissionItem
  | ask_update_group_gateway_secret_pattern_permission _ _ _ => GroupGatewayRegexPermissionItem
  | ask_delete_group_gateway_secret_pattern_permission _ _ => StatusMessageResponse
  end.

(** ** Serving *)

Section management.
Context `{SqlBackend, PyRe, UserLibs, ColumnTyping, Config, TrackingStore}.
Context `{CacheBackend PermissionResult, CacheBackend Permission, TTLCache unit json, TTLCache provider_key json}.
Context `{TTLCache (string * string) bool}.
Context `{JsonLoads, Encodings, PodFiles, Network, JwtLib, TokenConfig, AuthConfig, ValidatorLibs}.
Context `{MlflowListings, ErrorCodeNumbers}.

(** The clock, MLflow's workspace, and the pages a listing may take. *)
Variables (now : Z) (mlflow_workspace : option string) (fuel : nat).
Abbreviation auth := (M auth_state).

(** FastAPI runs the dependencies in the order of the parameters, then the handler. *)
Definition serve_user (http : FastApiRequest) (r : UserRequest) : auth (reply (user_answer r)) :=
  match r with
  | ask_get_user_experiment_permissions username => respond 200 (current_username ← get_username now http; is_admin ← get_is_admin now http;
      UserPermissionsRouter.get_user_experiment_permissions mlflow_workspace username current_username is_admin)
  | ask_create_user_experiment_permission username experiment_id permission_data => respond 200 (current_username ←
      check_experiment_manage_permission now http experiment_id; UserPermissionsRouter.create_user_experiment_permission username experiment_id
      permission_data current_username)
  | ask_get_user_experiment_permission username experiment_id => respond 200 (_ ← check_experiment_manage_permission now http experiment_id;
      UserPermissionsRouter.get_user_experiment_permission username experiment_id)
  | ask_update_user_experiment_permission username experiment_id permission_data => respond 200 (current_username ←
      check_experiment_manage_permission now http experiment_id; UserPermissionsRouter.update_user_experiment_permission username experiment_id
      permission_data current_username)
  | ask_delete_user_experiment_permission username experiment_id => respond 200 (current_username ← check_experiment_manage_permission now http
      experiment_id; UserPermissionsRouter.delete_user_experiment_permission username experiment_id current_username)
  | ask_create_user_experiment_pattern_permission username pattern_data => respond 201 (admin_username ← check_admin_permission now http;
      UserPermissionsRouter.create_user_experiment_pattern_permission username pattern_data admin_username)
  | ask_list_user_experiment_pattern_permissions username => respond 200 (admin_username ← check_admin_permission now http;
      UserPermissionsRouter.list_user_experiment_pattern_permissions username admin_username)
  | ask_get_user_experiment_pattern_permission username id => respond 200 (admin_username ← check_admin_permission now http;
      UserPermissionsRouter.get_user_experiment_pattern_permission username id admin_username)
  | ask_update_user_experiment_pattern_permission username id pattern_data => respond 200 (admin_username ← check_admin_permission now http;
      UserPermissionsRouter.update_user_experiment_pattern_permission username id pattern_data admin_username)
  | ask_delete_user_experiment_pattern_permission username id => respond 200 (admin_username ← check_admin_permission now http;
      UserPermissionsRouter.delete_user_experiment_pattern_permission username id admin_username)
  | ask_get_user_prompts username => respond 200 (current_username ← get_username now http; is_admin ← get_is_admin now http;
      UserPermissionsRouter.get_user_prompts mlflow_workspace fuel username current_username is_admin)
  | ask_create_user_prompt_permission username name permission_data => respond 201 (current_username ← check_registered_model_manage_permission now
      http name; UserPermissionsRouter.create_user_prompt_permission username name permission_data current_username)
  | ask_get_user_prompt_permission username name => respond 200 (_ ← check_registered_model_manage_permission now http name;
      UserPermissionsRouter.get_user_prompt_permission username name)
  | ask_update_user_prompt_permission username name permission_data => respond 200 (current_username ← check_registered_model_manage_permission now
      http name; UserPermissionsRouter.update_user_prompt_permission username name permission_data current_username)
  | ask_delete_user_prompt_permission username name => respond 200 (current_username ← check_registered_model_manage_permission now http name;
      UserPermissionsRouter.delete_user_prompt_permission username name current_username)
  | ask_get_user_prompt_pattern_permissions username => respond 200 (admin_username ← check_admin_permission now http;
      UserPermissionsRouter.get_user_prompt_pattern_permissions username admin_username)
  | ask_create_user_prompt_regex_permission username pattern_data => respond 201 (admin_username ← check_admin_permission now http;
      UserPermissionsRouter.create_user_prompt_regex_permission username pattern_data admin_username)
  | ask_get_user_prompt_regex_permission username id => respond 200 (admin_username ← check_admin_permission now http;
      UserPermissionsRouter.get_user_prompt_regex_permission username id admin_username)
  | ask_update_user_prompt_regex_permission username id pattern_data => respond 200 (admin_username ← check_admin_permission now http;
      UserPermissionsRouter.update_user_prompt_regex_permission username id pattern_data admin_username)
  | ask_delete_user_prompt_regex_permission username id => respond 200 (admin_username ← check_admin_permission now http;
      UserPermissionsRouter.delete_user_prompt_regex_permission username id admin_username)
  | ask_get_user_registered_models username => respond 200 (current_username ← get_username now http; is_admin ← get_is_admin now http;
      UserPermissionsRouter.get_user_registered_models mlflow_workspace fuel username current_username is_admin)
  | ask_create_user_registered_model_permission username name permission_data => respond 201 (current_username ←
      check_registered_model_manage_permission now http name; UserPermissionsRouter.create_user_registered_model_permission username name
      permission_data current_username)
  | ask_get_user_registered_model_permission username name => respond 200 (_ ← check_registered_model_manage_permission now http name;
      UserPermissionsRouter.get_user_registered_model_permission username name)
  | ask_update_user_registered_model_permission username name permission_data => respond 200 (current_username ←
      check_registered_model_manage_permission now http name; UserPermissionsRouter.update_user_registered_model_permission username name
      permission_data current_username)
  | ask_delete_user_registered_model_permission username name => respond 200 (current_username ← check_registered_model_manage_permission now http
      name; UserPermissionsRouter.delete_user_registered_model_permission username name current_username)
  | ask_get_user_scorer_permissions username => respond 200 (current_username ← get_username now http; is_admin ← get_is_admin now http;
      UserPermissionsRouter.get_user_scorer_permissions username current_username is_admin)
  | ask_create_user_scorer_permission username experiment_id scorer_name permission_data => respond 201 (current_username ←
      check_experiment_manage_permission now http experiment_id; UserPermissionsRouter.create_user_scorer_permission username experiment_id
      scorer_name permission_data current_username)
  | ask_get_user_scorer_permission username experiment_id scorer_name => respond 200 (_ ← check_experiment_manage_permission now http
      experiment_id; UserPermissionsRouter.get_user_scorer_permission username experiment_id scorer_name)
  | ask_update_user_scorer_permission username experiment_id scorer_name permission_data => respond 200 (current_username ←
      check_experiment_manage_permission now http experiment_id; UserPermissionsRouter.update_user_scorer_permission username experiment_id
      scorer_name permission_data current_username)
  | ask_delete_user_scorer_permission username experiment_id scorer_name => respond 200 (current_username ← check_experiment_manage_permission now
      http experiment_id; UserPermissionsRouter.delete_user_scorer_permission username experiment_id scorer_name current_username)
  | ask_get_user_scorer_regex_permissions username => respond 200 (admin_username ← check_admin_permission now http;
      UserPermissionsRouter.get_user_scorer_regex_permissions username admin_username)
  | ask_create_user_scorer_regex_permission username pattern_data => respond 201 (admin_username ← check_admin_permission now http;
      UserPermissionsRouter.create_user_scorer_regex_permission username pattern_data admin_username)
  | ask_get_user_scorer_pattern_permission username id => respond 200 (admin_username ← check_admin_permission now http;
      UserPermissionsRouter.get_user_scorer_pattern_permission username id admin_username)
  | ask_update_user_scorer_pattern_permission username id pattern_data => respond 200 (admin_username ← check_admin_permission now http;
      UserPermissionsRouter.update_user_scorer_pattern_permission username id pattern_data admin_username)
  | ask_delete_user_scorer_pattern_permission username id => respond 200 (admin_username ← check_admin_permission now http;
      UserPermissionsRouter.delete_user_scorer_pattern_permission username id admin_username)
  | ask_get_user_registered_model_regex_permissions username => respond 200 (admin_username ← check_admin_permission now http;
      UserPermissionsRouter.get_user_registered_model_regex_permissions username admin_username)
  | ask_create_user_registered_model_regex_permission username pattern_data => respond 201 (admin_username ← check_admin_permission now http;
      UserPermissionsRouter.create_user_registered_model_regex_permission username pattern_data admin_username)
  | ask_get_user_registered_model_regex_permission username id => respond 200 (admin_username ← check_admin_permission now http;
      UserPermissionsRouter.get_user_registered_model_regex_permission username id admin_username)
  | ask_update_user_registered_model_regex_permission username id pattern_data => respond 200 (admin_username ← check_admin_permission now http;
      UserPermissionsRouter.update_user_registered_model_regex_permission username id pattern_data admin_username)
  | ask_delete_user_registered_model_regex_permission username id => respond 200 (admin_username ← check_admin_permission now http;
      UserPermissionsRouter.delete_user_registered_model_regex_permission username id admin_username)
  | ask_get_user_gateway_endpoint_permissions username => respond 200 (current_username ← get_username now http; is_admin ← get_is_admin now http;
      UserPermissionsRouter.get_user_gateway_endpoint_permissions username current_username is_admin)
  | ask_create_user_gateway_endpoint_permission username name permission_data => respond 201 (admin_username ← check_admin_permission now http;
      UserPermissionsRouter.create_user_gateway_endpoint_permission username name permission_data admin_username)
  | ask_get_user_gateway_endpoint_permission username name => respond 200 (admin_username ← check_admin_permission now http;
      UserPermissionsRouter.get_user_gateway_endpoint_permission username name admin_username)
  | ask_update_user_gateway_endpoint_permission username name permission_data => respond 200 (admin_username ← check_admin_permission now http;
      UserPermissionsRouter.update_user_gateway_endpoint_permission username name permission_data admin_username)
  | ask_delete_user_gateway_endpoint_permission username name => respond 200 (admin_username ← check_admin_permission now http;
      UserPermissionsRouter.delete_user_gateway_endpoint_permission username name admin_username)
  | ask_get_user_gateway_endpoint_pattern_permissions username => respond 200 (admin_username ← check_admin_permission now http;
      UserPermissionsRouter.get_user_gateway_endpoint_pattern_permissions username admin_username)
  | ask_create_user_gateway_endpoint_pattern_permission username pattern_data => respond 201 (admin_username ← check_admin_permission now http;
      UserPermissionsRouter.create_user_gateway_endpoint_pattern_permission username pattern_data admin_username)
  | ask_get_user_gateway_endpoint_pattern_permission username id => respond 200 (admin_username ← check_admin_permission now http;
      UserPermissionsRouter.get_user_gateway_endpoint_pattern_permission username id admin_username)
  | ask_update_user_gateway_endpoint_pattern_permission username id pattern_data => respond 200 (admin_username ← check_admin_permission now http;
      UserPermissionsRouter.update_user_gateway_endpoint_pattern_permission username id pattern_data admin_username)
  | ask_delete_user_gateway_endpoint_pattern_permission username id => respond 200 (admin_username ← check_admin_permission now http;
      UserPermissionsRouter.delete_user_gateway_endpoint_pattern_permission username id admin_username)
  | ask_get_user_gateway_model_definition_permissions username => respond 200 (current_username ← get_username now http; is_admin ← get_is_admin
      now http; UserPermissionsRouter.get_user_gateway_model_definition_permissions username current_username is_admin)
  | ask_create_user_gateway_model_definition_permission username name permission_data => respond 201 (admin_username ← check_admin_permission now
      http; UserPermissionsRouter.create_user_gateway_model_definition_permission username name permission_data admin_username)
  | ask_get_user_gateway_model_definition_permission username name => respond 200 (admin_username ← check_admin_permission now http;
      UserPermissionsRouter.get_user_gateway_model_definition_permission username name admin_username)
  | ask_update_user_gateway_model_definition_permission username name permission_data => respond 200 (admin_username ← check_admin_permission now
      http; UserPermissionsRouter.update_user_gateway_model_definition_permission username name permission_data admin_username)
  | ask_delete_user_gateway_model_definition_permission username name => respond 200 (admin_username ← check_admin_permission now http;
      UserPermissionsRouter.delete_user_gateway_model_definition_permission username name admin_username)
  | ask_get_user_gateway_model_definition_pattern_permissions username => respond 200 (admin_username ← check_admin_permission now http;
      UserPermissionsRouter.get_user_gateway_model_definition_pattern_permissions username admin_username)
  | ask_create_user_gateway_model_definition_pattern_permission username pattern_data => respond 201 (admin_username ← check_admin_permission now
      http; UserPermissionsRouter.create_user_gateway_model_definition_pattern_permission username pattern_data admin_username)
  | ask_get_user_gateway_model_definition_pattern_permission username id => respond 200 (admin_username ← check_admin_permission now http;
      UserPermissionsRouter.get_user_gateway_model_definition_pattern_permission username id admin_username)
  | ask_update_user_gateway_model_definition_pattern_permission username id pattern_data => respond 200 (admin_username ← check_admin_permission
      now http; UserPermissionsRouter.update_user_gateway_model_definition_pattern_permission username id pattern_data admin_username)
  | ask_delete_user_gateway_model_definition_pattern_permission username id => respond 200 (admin_username ← check_admin_permission now http;
      UserPermissionsRouter.delete_user_gateway_model_definition_pattern_permission username id admin_username)
  | ask_get_user_gateway_secret_permissions username => respond 200 (current_username ← get_username now http; is_admin ← get_is_admin now http;
      UserPermissionsRouter.get_user_gateway_secret_permissions username current_username is_admin)
  | ask_create_user_gateway_secret_permission username name permission_data => respond 201 (admin_username ← check_admin_permission now http;
      UserPermissionsRouter.create_user_gateway_secret_permission username name permission_data admin_username)
  | ask_get_user_gateway_secret_permission username name => respond 200 (admin_username ← check_admin_permission now http;
      UserPermissionsRouter.get_user_gateway_secret_permission username name admin_username)
  | ask_update_user_gateway_secret_permission username name permission_data => respond 200 (admin_username ← check_admin_permission now http;
      UserPermissionsRouter.update_user_gateway_secret_permission username name permission_data admin_username)
  | ask_delete_user_gateway_secret_permission username name => respond 200 (admin_username ← check_admin_permission now http;
      UserPermissionsRouter.delete_user_gateway_secret_permission username name admin_username)
  | ask_get_user_gateway_secret_pattern_permissions username => respond 200 (admin_username ← check_admin_permission now http;
      UserPermissionsRouter.get_user_gateway_secret_pattern_permissions username admin_username)
  | ask_create_user_gateway_secret_pattern_permission username pattern_data => respond 201 (admin_username ← check_admin_permission now http;
      UserPermissionsRouter.create_user_gateway_secret_pattern_permission username pattern_data admin_username)
  | ask_get_user_gateway_secret_pattern_permission username id => respond 200 (admin_username ← check_admin_permission now http;
      UserPermissionsRouter.get_user_gateway_secret_pattern_permission username id admin_username)
  | ask_update_user_gateway_secret_pattern_permission username id pattern_data => respond 200 (admin_username ← check_admin_permission now http;
      UserPermissionsRouter.update_user_gateway_secret_pattern_permission username id pattern_data admin_username)
  | ask_delete_user_gateway_secret_pattern_permission username id => respond 200 (admin_username ← check_admin_permission now http;
      UserPermissionsRouter.delete_user_gateway_secret_pattern_permission username id admin_username)
  end.

(** FastAPI runs the dependencies in the order of the parameters, then the handler. *)
Definition serve_group (http : FastApiRequest) (r : GroupRequest) : auth (reply (group_answer r)) :=
  match r with
  | ask_list_groups => respond 200 (username ← get_username now http; GroupPermissionsRouter.list_groups username)
  | ask_get_group_users group_name => respond 200 (admin_username ← check_admin_permission now http; GroupPermissionsRouter.get_group_users
      group_name admin_username)
  | ask_get_group_experiments group_name => respond 200 (current_username ← get_username now http; is_admin ← get_is_admin now http;
      GroupPermissionsRouter.get_group_experiments group_name current_username is_admin)
  | ask_create_group_experiment_permission group_name experiment_id permission_data => respond 201 (current_username ←
      check_experiment_manage_permission now http experiment_id; GroupPermissionsRouter.create_group_experiment_permission group_name experiment_id
      permission_data current_username)
  | ask_update_group_experiment_permission group_name experiment_id permission_data => respond 200 (current_username ←
      check_experiment_manage_permission now http experiment_id; GroupPermissionsRouter.update_group_experiment_permission group_name experiment_id
      permission_data current_username)
  | ask_delete_group_experiment_permission group_name experiment_id => respond 200 (current_username ← check_experiment_manage_permission now http
      experiment_id; GroupPermissionsRouter.delete_group_experiment_permission group_name experiment_id current_username)
  | ask_get_group_registered_models group_name => respond 200 (current_username ← get_username now http; is_admin ← get_is_admin now http;
      GroupPermissionsRouter.get_group_registered_models group_name current_username is_admin)
  | ask_create_group_registered_model_permission group_name name permission_data => respond 201 (current_username ← get_username now http; is_admin
      ← get_is_admin now http; GroupPermissionsRouter.create_group_registered_model_permission group_name name permission_data current_username
      is_admin)
  | ask_update_group_registered_model_permission group_name name permission_data => respond 200 (current_username ← get_username now http; is_admin
      ← get_is_admin now http; GroupPermissionsRouter.update_group_registered_model_permission group_name name permission_data current_username
      is_admin)
  | ask_delete_group_registered_model_permission group_name name => respond 200 (current_username ← get_username now http; is_admin ← get_is_admin
      now http; GroupPermissionsRouter.delete_group_registered_model_permission group_name name current_username is_admin)
  | ask_get_group_prompts group_name => respond 200 (current_username ← get_username now http; is_admin ← get_is_admin now http;
      GroupPermissionsRouter.get_group_prompts group_name current_username is_admin)
  | ask_create_group_prompt_permission group_name prompt_name permission_data => respond 201 (current_username ← get_username now http; is_admin ←
      get_is_admin now http; GroupPermissionsRouter.create_group_prompt_permission group_name prompt_name permission_data current_username is_admin)
  | ask_update_group_prompt_permission group_name prompt_name permission_data => respond 200 (current_username ← get_username now http; is_admin ←
      get_is_admin now http; GroupPermissionsRouter.update_group_prompt_permission group_name prompt_name permission_data current_username is_admin)
  | ask_delete_group_prompt_permission group_name prompt_name => respond 200 (current_username ← get_username now http; is_admin ← get_is_admin now
      http; GroupPermissionsRouter.delete_group_prompt_permission group_name prompt_name current_username is_admin)
  | ask_get_group_experiment_pattern_permissions group_name => respond 200 (admin_username ← check_admin_permission now http;
      GroupPermissionsRouter.get_group_experiment_pattern_permissions group_name admin_username)
  | ask_create_group_experiment_pattern_permission group_name pattern_data => respond 201 (admin_username ← check_admin_permission now http;
      GroupPermissionsRouter.create_group_experiment_pattern_permission group_name pattern_data admin_username)
  | ask_get_group_experiment_pattern_permission group_name id => respond 200 (admin_username ← check_admin_permission now http;
      GroupPermissionsRouter.get_group_experiment_pattern_permission group_name id admin_username)
  | ask_update_group_experiment_pattern_permission group_name id pattern_data => respond 200 (admin_username ← check_admin_permission now http;
      GroupPermissionsRouter.update_group_experiment_pattern_permission group_name id pattern_data admin_username)
  | ask_delete_group_experiment_pattern_permission group_name id => respond 200 (admin_username ← check_admin_permission now http;
      GroupPermissionsRouter.delete_group_experiment_pattern_permission group_name id admin_username)
  | ask_get_group_registered_model_pattern_permissions group_name => respond 200 (admin_username ← check_admin_permission now http;
      GroupPermissionsRouter.get_group_registered_model_pattern_permissions group_name admin_username)
  | ask_create_group_registered_model_pattern_permission group_name pattern_data => respond 201 (admin_username ← check_admin_permission now http;
      GroupPermissionsRouter.create_group_registered_model_pattern_permission group_name pattern_data admin_username)
  | ask_get_group_registered_model_pattern_permission group_name id => respond 200 (admin_username ← check_admin_permission now http;
      GroupPermissionsRouter.get_group_registered_model_pattern_permission group_name id admin_username)
  | ask_update_group_registered_model_pattern_permission group_name id pattern_data => respond 200 (admin_username ← check_admin_permission now
      http; GroupPermissionsRouter.update_group_registered_model_pattern_permission group_name id pattern_data admin_username)
  | ask_delete_group_registered_model_pattern_permission group_name id => respond 200 (admin_username ← check_admin_permission now http;
      GroupPermissionsRouter.delete_group_registered_model_pattern_permission group_name id admin_username)
  | ask_get_group_prompt_pattern_permissions group_name => respond 200 (admin_username ← check_admin_permission now http;
      GroupPermissionsRouter.get_group_prompt_pattern_permissions group_name admin_username)
  | ask_create_group_prompt_pattern_permission group_name pattern_data => respond 201 (admin_username ← check_admin_permission now http;
      GroupPermissionsRouter.create_group_prompt_pattern_permission group_name pattern_data admin_username)
  | ask_get_group_prompt_pattern_permission group_name id => respond 200 (admin_username ← check_admin_permission now http;
      GroupPermissionsRouter.get_group_prompt_pattern_permission group_name id admin_username)
  | ask_update_group_prompt_pattern_permission group_name id pattern_data => respond 200 (admin_username ← check_admin_permission now http;
      GroupPermissionsRouter.update_group_prompt_pattern_permission group_name id pattern_data admin_username)
  | ask_delete_group_prompt_pattern_permission group_name id => respond 200 (admin_username ← check_admin_permission now http;
      GroupPermissionsRouter.delete_group_prompt_pattern_permission group_name id admin_username)
  | ask_get_group_scorers group_name => respond 200 (current_username ← get_username now http; is_admin ← get_is_admin now http;
      GroupPermissionsRouter.get_group_scorers group_name current_username is_admin)
  | ask_create_group_scorer_permission group_name experiment_id scorer_name permission_data => respond 201 (current_username ←
      check_experiment_manage_permission now http experiment_id; GroupPermissionsRouter.create_group_scorer_permission group_name experiment_id
      scorer_name permission_data current_username)
  | ask_update_group_scorer_permission group_name experiment_id scorer_name permission_data => respond 200 (current_username ←
      check_experiment_manage_permission now http experiment_id; GroupPermissionsRouter.update_group_scorer_permission group_name experiment_id
      scorer_name permission_data current_username)
  | ask_delete_group_scorer_permission group_name experiment_id scorer_name => respond 200 (current_username ← check_experiment_manage_permission
      now http experiment_id; GroupPermissionsRouter.delete_group_scorer_permission group_name experiment_id scorer_name current_username)
  | ask_get_group_scorer_pattern_permissions group_name => respond 200 (admin_username ← check_admin_permission now http;
      GroupPermissionsRouter.get_group_scorer_pattern_permissions group_name admin_username)
  | ask_create_group_scorer_pattern_permission group_name pattern_data => respond 201 (admin_username ← check_admin_permission now http;
      GroupPermissionsRouter.create_group_scorer_pattern_permission group_name pattern_data admin_username)
  | ask_get_group_scorer_pattern_permission group_name id => respond 200 (admin_username ← check_admin_permission now http;
      GroupPermissionsRouter.get_group_scorer_pattern_permission group_name id admin_username)
  | ask_update_group_scorer_pattern_permission group_name id pattern_data => respond 200 (admin_username ← check_admin_permission now http;
      GroupPermissionsRouter.update_group_scorer_pattern_permission group_name id pattern_data admin_username)
  | ask_delete_group_scorer_pattern_permission group_name id => respond 200 (admin_username ← check_admin_permission now http;
      GroupPermissionsRouter.delete_group_scorer_pattern_permission group_name id admin_username)
  | ask_get_group_gateway_endpoint_permissions group_name => respond 200 (admin_username ← check_admin_permission now http;
      GroupPermissionsRouter.get_group_gateway_endpoint_permissions group_name admin_username)
  | ask_create_group_gateway_endpoint_permission group_name name permission_data => respond 201 (admin_username ← check_admin_permission now http;
      GroupPermissionsRouter.create_group_gateway_endpoint_permission group_name name permission_data admin_username)
  | ask_get_group_gateway_endpoint_permission group_name name => respond 200 (admin_username ← check_admin_permission now http;
      GroupPermissionsRouter.get_group_gateway_endpoint_permission group_name name admin_username)
  | ask_update_group_gateway_endpoint_permission group_name name permission_data => respond 200 (admin_username ← check_admin_permission now http;
      GroupPermissionsRouter.update_group_gateway_endpoint_permission group_name name permission_data admin_username)
  | ask_delete_group_gateway_endpoint_permission group_name name => respond 200 (admin_username ← check_admin_permission now http;
      GroupPermissionsRouter.delete_group_gateway_endpoint_permission group_name name admin_username)
  | ask_get_group_gateway_endpoint_pattern_permissions group_name => respond 200 (admin_username ← check_admin_permission now http;
      GroupPermissionsRouter.get_group_gateway_endpoint_pattern_permissions group_name admin_username)
  | ask_create_group_gateway_endpoint_pattern_permission group_name pattern_data => respond 201 (admin_username ← check_admin_permission now http;
      GroupPermissionsRouter.create_group_gateway_endpoint_pattern_permission group_name pattern_data admin_username)
  | ask_get_group_gateway_endpoint_pattern_permission group_name id => respond 200 (admin_username ← check_admin_permission now http;
      GroupPermissionsRouter.get_group_gateway_endpoint_pattern_permission group_name id admin_username)
  | ask_update_group_gateway_endpoint_pattern_permission group_name id pattern_data => respond 200 (admin_username ← check_admin_permission now
      http; GroupPermissionsRouter.update_group_gateway_endpoint_pattern_permission group_name id pattern_data admin_username)
  | ask_delete_group_gateway_endpoint_pattern_permission group_name id => respond 200 (admin_username ← check_admin_permission now http;
      GroupPermissionsRouter.delete_group_gateway_endpoint_pattern_permission group_name id admin_username)
  | ask_get_group_gateway_model_definition_permissions group_name => respond 200 (admin_username ← check_admin_permission now http;
      GroupPermissionsRouter.get_group_gateway_model_definition_permissions group_name admin_username)
  | ask_create_group_gateway_model_definition_permission group_name name permission_data => respond 201 (admin_username ← check_admin_permission
      now http; GroupPermissionsRouter.create_group_gateway_model_definition_permission group_name name permission_data admin_username)
  | ask_get_group_gateway_model_definition_permission group_name name => respond 200 (admin_username ← check_admin_permission now http;
      GroupPermissionsRouter.get_group_gateway_model_definition_permission group_name name admin_username)
  | ask_update_group_gateway_model_definition_permission group_name name permission_data => respond 200 (admin_username ← check_admin_permission
      now http; GroupPermissionsRouter.update_group_gateway_model_definition_permission group_name name permission_data admin_username)
  | ask_delete_group_gateway_model_definition_permission group_name name => respond 200 (admin_username ← check_admin_permission now http;
      GroupPermissionsRouter.delete_group_gateway_model_definition_permission group_name name admin_username)
  | ask_get_group_gateway_model_definition_pattern_permissions group_name => respond 200 (admin_username ← check_admin_permission now http;
      GroupPermissionsRouter.get_group_gateway_model_definition_pattern_permissions group_name admin_username)
  | ask_create_group_gateway_model_definition_pattern_permission group_name pattern_data => respond 201 (admin_username ← check_admin_permission
      now http; GroupPermissionsRouter.create_group_gateway_model_definition_pattern_permission group_name pattern_data admin_username)
  | ask_get_group_gateway_model_definition_pattern_permission group_name id => respond 200 (admin_username ← check_admin_permission now http;
      GroupPermissionsRouter.get_group_gateway_model_definition_pattern_permission group_name id admin_username)
  | ask_update_group_gateway_model_definition_pattern_permission group_name id pattern_data => respond 200 (admin_username ← check_admin_permission
      now http; GroupPermissionsRouter.update_group_gateway_model_definition_pattern_permission group_name id pattern_data admin_username)
  | ask_delete_group_gateway_model_definition_pattern_permission group_name id => respond 200 (admin_username ← check_admin_permission now http;
      GroupPermissionsRouter.delete_group_gateway_model_definition_pattern_permission group_name id admin_username)
  | ask_get_group_gateway_secret_permissions group_name => respond 200 (admin_username ← check_admin_permission now http;
      GroupPermissionsRouter.get_group_gateway_secret_permissions group_name admin_username)
  | ask_create_group_gateway_secret_permission group_name name permission_data => respond 201 (admin_username ← check_admin_permission now http;
      GroupPermissionsRouter.create_group_gateway_secret_permission group_name name permission_data admin_username)
  | ask_get_group_gateway_secret_permission group_name name => respond 200 (admin_username ← check_admin_permission now http;
      GroupPermissionsRouter.get_group_gateway_secret_permission group_name name admin_username)
  | ask_update_group_gateway_secret_permission group_name name permission_data => respond 200 (admin_username ← check_admin_permission now http;
      GroupPermissionsRouter.update_group_gateway_secret_permission group_name name permission_data admin_username)
  | ask_delete_group_gateway_secret_permission group_name name => respond 200 (admin_username ← check_admin_permission now http;
      GroupPermissionsRouter.delete_group_gateway_secret_permission group_name name admin_username)
  | ask_get_group_gateway_secret_pattern_permissions group_name => respond 200 (admin_username ← check_admin_permission now http;
      GroupPermissionsRouter.get_group_gateway_secret_pattern_permissions group_name admin_username)
  | ask_create_group_gateway_secret_pattern_permission group_name pattern_data => respond 201 (admin_username ← check_admin_permission now http;
      GroupPermissionsRouter.create_group_gateway_secret_pattern_permission group_name pattern_data admin_username)
  | ask_get_group_gateway_secret_pattern_permission group_name id => respond 200 (admin_username ← check_admin_permission now http;
      GroupPermissionsRouter.get_group_gateway_secret_pattern_permission group_name id admin_username)
  | ask_update_group_gateway_secret_pattern_permission group_name id pattern_data => respond 200 (admin_username ← check_admin_permission now http;
      GroupPermissionsRouter.update_group_gateway_secret_pattern_permission group_name id pattern_data admin_username)
  | ask_delete_group_gateway_secret_pattern_permission group_name id => respond 200 (admin_username ← check_admin_permission now http;
      GroupPermissionsRouter.delete_group_gateway_secret_pattern_permission group_name id admin_username)
  end.

End management.

(** ** What the requests write *)

(** Who may ask: an administrator, or whoever manages the resource, or the
    workspace, too. *)
Inductive need := AdminOnly | ManagerOf (resource_type resource_id : string) | ManagerOfWorkspace (workspace : string).

(** A dependency that returns nothing leaves the sender out of the audit line. *)
Inductive actor := SenderNamed | SenderLeftOut.

Record management_write := MkWrite {
  mw_need : need;
  mw_call : call;
  mw_actor : actor;
  mw_resource_type : string;
  mw_resource_id : string;
}.

(** What each endpoint may write: who may ask for it, the call of the store it comes
    down to, and what the audit line names. *)
Definition user_write (r : UserRequest) : option management_write :=
  match r with
  | ask_create_user_experiment_permission username experiment_id permission_data => Some (MkWrite (ManagerOf EXPERIMENT experiment_id)
      (CreateExperimentPermission experiment_id username (pb_permission permission_data)) SenderLeftOut "experiment_permission" experiment_id)
  | ask_update_user_experiment_permission username experiment_id permission_data => Some (MkWrite (ManagerOf EXPERIMENT experiment_id)
      (UpdateExperimentPermission experiment_id username (pb_permission permission_data)) SenderLeftOut "experiment_permission" experiment_id)
  | ask_delete_user_experiment_permission username experiment_id => Some (MkWrite (ManagerOf EXPERIMENT experiment_id)
      (DeleteExperimentPermission experiment_id username) SenderLeftOut "experiment_permission" experiment_id)
  | ask_create_user_experiment_pattern_permission username pattern_data => Some (MkWrite AdminOnly (CreateExperimentRegexPermission (pt_regex
      pattern_data) (pt_priority pattern_data) (pt_permission pattern_data) username) SenderNamed "experiment_regex_permission" username)
  | ask_update_user_experiment_pattern_permission username id pattern_data => pattern_id ← py_int id;
      Some (MkWrite AdminOnly (UpdateExperimentRegexPermission (pt_regex pattern_data) (pt_priority pattern_data)
      (pt_permission pattern_data) username pattern_id) SenderNamed "experiment_regex_permission" username)
  | ask_delete_user_experiment_pattern_permission username id => pattern_id ← py_int id;
      Some (MkWrite AdminOnly (DeleteExperimentRegexPermission username pattern_id) SenderNamed "experiment_regex_permission" username)
  | ask_create_user_prompt_permission username name permission_data => Some (MkWrite (ManagerOf REGISTERED_MODEL name)
      (CreateRegisteredModelPermission name username (pb_permission permission_data)) SenderLeftOut "prompt_permission" name)
  | ask_update_user_prompt_permission username name permission_data => Some (MkWrite (ManagerOf REGISTERED_MODEL name)
      (UpdateRegisteredModelPermission name username (pb_permission permission_data)) SenderLeftOut "prompt_permission" name)
  | ask_delete_user_prompt_permission username name => Some (MkWrite (ManagerOf REGISTERED_MODEL name)
      (DeleteRegisteredModelPermission name username) SenderLeftOut "prompt_permission" name)
  | ask_create_user_prompt_regex_permission username pattern_data => Some (MkWrite AdminOnly (CreatePromptRegexPermission (pt_regex pattern_data)
      (pt_priority pattern_data) (pt_permission pattern_data) username true) SenderNamed "prompt_regex_permission" username)
  | ask_update_user_prompt_regex_permission username id pattern_data => pattern_id ← py_int id;
      Some (MkWrite AdminOnly (UpdatePromptRegexPermission pattern_id (pt_regex pattern_data) (pt_priority pattern_data)
      (pt_permission pattern_data) username true) SenderNamed "prompt_regex_permission" username)
  | ask_delete_user_prompt_regex_permission username id => pattern_id ← py_int id;
      Some (MkWrite AdminOnly (DeletePromptRegexPermission pattern_id username) SenderNamed "prompt_regex_permission" username)
  | ask_create_user_registered_model_permission username name permission_data => Some (MkWrite (ManagerOf REGISTERED_MODEL name)
      (CreateRegisteredModelPermission name username (pb_permission permission_data)) SenderLeftOut "registered_model_permission" name)
  | ask_update_user_registered_model_permission username name permission_data => Some (MkWrite (ManagerOf REGISTERED_MODEL name)
      (UpdateRegisteredModelPermission name username (pb_permission permission_data)) SenderLeftOut "registered_model_permission" name)
  | ask_delete_user_registered_model_permission username name => Some (MkWrite (ManagerOf REGISTERED_MODEL name)
      (DeleteRegisteredModelPermission name username) SenderLeftOut "registered_model_permission" name)
  | ask_create_user_scorer_permission username experiment_id scorer_name permission_data => Some (MkWrite (ManagerOf EXPERIMENT experiment_id)
      (CreateScorerPermission experiment_id scorer_name username (pb_permission permission_data)) SenderLeftOut "scorer_permission" scorer_name)
  | ask_update_user_scorer_permission username experiment_id scorer_name permission_data => Some (MkWrite (ManagerOf EXPERIMENT experiment_id)
      (UpdateScorerPermission experiment_id scorer_name username (pb_permission permission_data)) SenderLeftOut "scorer_permission" scorer_name)
  | ask_delete_user_scorer_permission username experiment_id scorer_name => Some (MkWrite (ManagerOf EXPERIMENT experiment_id)
      (DeleteScorerPermission experiment_id scorer_name username) SenderLeftOut "scorer_permission" scorer_name)
  | ask_create_user_scorer_regex_permission username pattern_data => Some (MkWrite AdminOnly (CreateScorerRegexPermission (pt_regex pattern_data)
      (pt_priority pattern_data) (pt_permission pattern_data) username) SenderNamed "scorer_regex_permission" username)
  | ask_update_user_scorer_pattern_permission username id pattern_data => Some (MkWrite AdminOnly (UpdateScorerRegexPermission id (pt_regex
      pattern_data) (pt_priority pattern_data) (pt_permission pattern_data) username) SenderNamed "scorer_regex_permission" username)
  | ask_delete_user_scorer_pattern_permission username id => Some (MkWrite AdminOnly (DeleteScorerRegexPermission id username)
      SenderNamed "scorer_regex_permission" username)
  | ask_create_user_registered_model_regex_permission username pattern_data => Some (MkWrite AdminOnly (CreateRegisteredModelRegexPermission
      (pt_regex pattern_data) (pt_priority pattern_data) (pt_permission pattern_data) username)
      SenderNamed "registered_model_regex_permission" username)
  | ask_update_user_registered_model_regex_permission username id pattern_data => pattern_id ← py_int id;
      Some (MkWrite AdminOnly (UpdateRegisteredModelRegexPermission pattern_id (pt_regex pattern_data) (pt_priority pattern_data)
      (pt_permission pattern_data) username) SenderNamed "registered_model_regex_permission" username)
  | ask_delete_user_registered_model_regex_permission username id => pattern_id ← py_int id;
      Some (MkWrite AdminOnly (DeleteRegisteredModelRegexPermission pattern_id username) SenderNamed "registered_model_regex_permission" username)
  | ask_create_user_gateway_endpoint_permission username name permission_data => Some (MkWrite AdminOnly (CreateGatewayEndpointPermission name
      username (pb_permission permission_data)) SenderNamed "gateway_endpoint_permission" name)
  | ask_update_user_gateway_endpoint_permission username name permission_data => Some (MkWrite AdminOnly (UpdateGatewayEndpointPermission name
      username (pb_permission permission_data)) SenderNamed "gateway_endpoint_permission" name)
  | ask_delete_user_gateway_endpoint_permission username name => Some (MkWrite AdminOnly (DeleteGatewayEndpointPermission name username)
      SenderNamed "gateway_endpoint_permission" name)
  | ask_create_user_gateway_endpoint_pattern_permission username pattern_data => Some (MkWrite AdminOnly (CreateGatewayEndpointRegexPermission
      (pt_regex pattern_data) (pt_priority pattern_data) (pt_permission pattern_data) username)
      SenderNamed "gateway_endpoint_regex_permission" username)
  | ask_update_user_gateway_endpoint_pattern_permission username id pattern_data => Some (MkWrite AdminOnly (UpdateGatewayEndpointRegexPermission
      id (pt_regex pattern_data) (pt_priority pattern_data) (pt_permission pattern_data) username)
      SenderNamed "gateway_endpoint_regex_permission" username)
  | ask_delete_user_gateway_endpoint_pattern_permission username id => Some (MkWrite AdminOnly (DeleteGatewayEndpointRegexPermission id username)
      SenderNamed "gateway_endpoint_regex_permission" username)
  | ask_create_user_gateway_model_definition_permission username name permission_data => Some (MkWrite AdminOnly
      (CreateGatewayModelDefinitionPermission name username (pb_permission permission_data)) SenderNamed "gateway_model_definition_permission" name)
  | ask_update_user_gateway_model_definition_permission username name permission_data => Some (MkWrite AdminOnly
      (UpdateGatewayModelDefinitionPermission name username (pb_permission permission_data)) SenderNamed "gateway_model_definition_permission" name)
  | ask_delete_user_gateway_model_definition_permission username name => Some (MkWrite AdminOnly (DeleteGatewayModelDefinitionPermission name
      username) SenderNamed "gateway_model_definition_permission" name)
  | ask_create_user_gateway_model_definition_pattern_permission username pattern_data => Some (MkWrite AdminOnly
      (CreateGatewayModelDefinitionRegexPermission (pt_regex pattern_data) (pt_priority pattern_data) (pt_permission pattern_data) username)
      SenderNamed "gateway_model_definition_regex_permission" username)
  | ask_update_user_gateway_model_definition_pattern_permission username id pattern_data => Some (MkWrite AdminOnly
      (UpdateGatewayModelDefinitionRegexPermission id (pt_regex pattern_data) (pt_priority pattern_data) (pt_permission pattern_data) username)
      SenderNamed "gateway_model_definition_regex_permission" username)
  | ask_delete_user_gateway_model_definition_pattern_permission username id => Some (MkWrite AdminOnly (DeleteGatewayModelDefinitionRegexPermission
      id username) SenderNamed "gateway_model_definition_regex_permission" username)
  | ask_create_user_gateway_secret_permission username name permission_data => Some (MkWrite AdminOnly (CreateGatewaySecretPermission name username
      (pb_permission permission_data)) SenderNamed "gateway_secret_permission" name)
  | ask_update_user_gateway_secret_permission username name permission_data => Some (MkWrite AdminOnly (UpdateGatewaySecretPermission name username
      (pb_permission permission_data)) SenderNamed "gateway_secret_permission" name)
  | ask_delete_user_gateway_secret_permission username name => Some (MkWrite AdminOnly (DeleteGatewaySecretPermission name username)
      SenderNamed "gateway_secret_permission" name)
  | ask_create_user_gateway_secret_pattern_permission username pattern_data => Some (MkWrite AdminOnly (CreateGatewaySecretRegexPermission
      (pt_regex pattern_data) (pt_priority pattern_data) (pt_permission pattern_data) username)
      SenderNamed "gateway_secret_regex_permission" username)
  | ask_update_user_gateway_secret_pattern_permission username id pattern_data => Some (MkWrite AdminOnly (UpdateGatewaySecretRegexPermission id
      (pt_regex pattern_data) (pt_priority pattern_data) (pt_permission pattern_data) username)
      SenderNamed "gateway_secret_regex_permission" username)
  | ask_delete_user_gateway_secret_pattern_permission username id => Some (MkWrite AdminOnly (DeleteGatewaySecretRegexPermission id username)
      SenderNamed "gateway_secret_regex_permission" username)
  | _ => None
  end.

(** What each endpoint may write: who may ask for it, the call of the store it comes
    down to, and what the audit line names. *)
Definition group_write (r : GroupRequest) : option management_write :=
  match r with
  | ask_create_group_experiment_permission group_name experiment_id permission_data => Some (MkWrite (ManagerOf EXPERIMENT experiment_id)
      (CreateGroupExperimentPermission group_name experiment_id (pb_permission permission_data))
      SenderLeftOut "group_experiment_permission" experiment_id)
  | ask_update_group_experiment_permission group_name experiment_id permission_data => Some (MkWrite (ManagerOf EXPERIMENT experiment_id)
      (UpdateGroupExperimentPermission group_name experiment_id (pb_permission permission_data))
      SenderLeftOut "group_experiment_permission" experiment_id)
  | ask_delete_group_experiment_permission group_name experiment_id => Some (MkWrite (ManagerOf EXPERIMENT experiment_id)
      (DeleteGroupExperimentPermission group_name experiment_id) SenderLeftOut "group_experiment_permission" experiment_id)
  | ask_create_group_registered_model_permission group_name name permission_data => Some (MkWrite (ManagerOf REGISTERED_MODEL name)
      (CreateGroupModelPermission group_name name (pb_permission permission_data)) SenderNamed "group_registered_model_permission" name)
  | ask_update_group_registered_model_permission group_name name permission_data => Some (MkWrite (ManagerOf REGISTERED_MODEL name)
      (UpdateGroupModelPermission group_name name (pb_permission permission_data)) SenderNamed "group_registered_model_permission" name)
  | ask_delete_group_registered_model_permission group_name name => Some (MkWrite (ManagerOf REGISTERED_MODEL name)
      (DeleteGroupModelPermission group_name name) SenderNamed "group_registered_model_permission" name)
  | ask_create_group_prompt_permission group_name prompt_name permission_data => Some (MkWrite (ManagerOf PROMPT prompt_name)
      (CreateGroupPromptPermission group_name prompt_name (pb_permission permission_data)) SenderNamed "group_prompt_permission" prompt_name)
  | ask_update_group_prompt_permission group_name prompt_name permission_data => Some (MkWrite (ManagerOf PROMPT prompt_name)
      (UpdateGroupPromptPermission group_name prompt_name (pb_permission permission_data)) SenderNamed "group_prompt_permission" prompt_name)
  | ask_delete_group_prompt_permission group_name prompt_name => Some (MkWrite (ManagerOf PROMPT prompt_name)
      (DeleteGroupPromptPermission group_name prompt_name) SenderNamed "group_prompt_permission" prompt_name)
  | ask_create_group_experiment_pattern_permission group_name pattern_data => Some (MkWrite AdminOnly (CreateGroupExperimentRegexPermission
      group_name (pt_regex pattern_data) (pt_priority pattern_data) (pt_permission pattern_data))
      SenderNamed "group_experiment_regex_permission" group_name)
  | ask_update_group_experiment_pattern_permission group_name id pattern_data => Some (MkWrite AdminOnly (UpdateGroupExperimentRegexPermission id
      group_name (pt_regex pattern_data) (pt_priority pattern_data) (pt_permission pattern_data))
      SenderNamed "group_experiment_regex_permission" group_name)
  | ask_delete_group_experiment_pattern_permission group_name id => Some (MkWrite AdminOnly (DeleteGroupExperimentRegexPermission group_name id)
      SenderNamed "group_experiment_regex_permission" group_name)
  | ask_create_group_registered_model_pattern_permission group_name pattern_data => Some (MkWrite AdminOnly
      (CreateGroupRegisteredModelRegexPermission group_name (pt_regex pattern_data) (pt_priority pattern_data) (pt_permission pattern_data))
      SenderNamed "group_registered_model_regex_permission" group_name)
  | ask_update_group_registered_model_pattern_permission group_name id pattern_data => Some (MkWrite AdminOnly
      (UpdateGroupRegisteredModelRegexPermission id group_name (pt_regex pattern_data) (pt_priority pattern_data) (pt_permission pattern_data))
      SenderNamed "group_registered_model_regex_permission" group_name)
  | ask_delete_group_registered_model_pattern_permission group_name id => Some (MkWrite AdminOnly (DeleteGroupRegisteredModelRegexPermission
      group_name id) SenderNamed "group_registered_model_regex_permission" group_name)
  | ask_create_group_prompt_pattern_permission group_name pattern_data => Some (MkWrite AdminOnly (CreateGroupPromptRegexPermission (pt_regex
      pattern_data) (pt_priority pattern_data) (pt_permission pattern_data) group_name true) SenderNamed "group_prompt_regex_permission" group_name)
  | ask_update_group_prompt_pattern_permission group_name id pattern_data => Some (MkWrite AdminOnly (UpdateGroupPromptRegexPermission id (pt_regex
      pattern_data) (pt_priority pattern_data) (pt_permission pattern_data) group_name true) SenderNamed "group_prompt_regex_permission" group_name)
  | ask_delete_group_prompt_pattern_permission group_name id => Some (MkWrite AdminOnly (DeleteGroupPromptRegexPermission id group_name)
      SenderNamed "group_prompt_regex_permission" group_name)
  | ask_create_group_scorer_permission group_name experiment_id scorer_name permission_data => Some (MkWrite (ManagerOf EXPERIMENT experiment_id)
      (CreateGroupScorerPermission group_name experiment_id scorer_name (pb_permission permission_data))
      SenderLeftOut "group_scorer_permission" scorer_name)
  | ask_update_group_scorer_permission group_name experiment_id scorer_name permission_data => Some (MkWrite (ManagerOf EXPERIMENT experiment_id)
      (UpdateGroupScorerPermission group_name experiment_id scorer_name (pb_permission permission_data))
      SenderLeftOut "group_scorer_permission" scorer_name)
  | ask_delete_group_scorer_permission group_name experiment_id scorer_name => Some (MkWrite (ManagerOf EXPERIMENT experiment_id)
      (DeleteGroupScorerPermission group_name experiment_id scorer_name) SenderLeftOut "group_scorer_permission" scorer_name)
  | ask_create_group_scorer_pattern_permission group_name pattern_data => Some (MkWrite AdminOnly (CreateGroupScorerRegexPermission group_name
      (pt_regex pattern_data) (pt_priority pattern_data) (pt_permission pattern_data)) SenderNamed "group_scorer_regex_permission" group_name)
  | ask_update_group_scorer_pattern_permission group_name id pattern_data => Some (MkWrite AdminOnly (UpdateGroupScorerRegexPermission id
      group_name (pt_regex pattern_data) (pt_priority pattern_data) (pt_permission pattern_data))
      SenderNamed "group_scorer_regex_permission" group_name)
  | ask_delete_group_scorer_pattern_permission group_name id => Some (MkWrite AdminOnly (DeleteGroupScorerRegexPermission id group_name)
      SenderNamed "group_scorer_regex_permission" group_name)
  | ask_create_group_gateway_endpoint_permission group_name name permission_data => Some (MkWrite AdminOnly (CreateGroupGatewayEndpointPermission
      group_name name (pb_permission permission_data)) SenderNamed "group_gateway_endpoint_permission" name)
  | ask_update_group_gateway_endpoint_permission group_name name permission_data => Some (MkWrite AdminOnly (UpdateGroupGatewayEndpointPermission
      group_name name (pb_permission permission_data)) SenderNamed "group_gateway_endpoint_permission" name)
  | ask_delete_group_gateway_endpoint_permission group_name name => Some (MkWrite AdminOnly (DeleteGroupGatewayEndpointPermission group_name name)
      SenderNamed "group_gateway_endpoint_permission" name)
  | ask_create_group_gateway_endpoint_pattern_permission group_name pattern_data => Some (MkWrite AdminOnly
      (CreateGroupGatewayEndpointRegexPermission group_name (pt_regex pattern_data) (pt_priority pattern_data) (pt_permission pattern_data))
      SenderNamed "group_gateway_endpoint_regex_permission" group_name)
  | ask_update_group_gateway_endpoint_pattern_permission group_name id pattern_data => Some (MkWrite AdminOnly
      (UpdateGroupGatewayEndpointRegexPermission id group_name (pt_regex pattern_data) (pt_priority pattern_data) (pt_permission pattern_data))
      SenderNamed "group_gateway_endpoint_regex_permission" group_name)
  | ask_delete_group_gateway_endpoint_pattern_permission group_name id => Some (MkWrite AdminOnly (DeleteGroupGatewayEndpointRegexPermission id
      group_name) SenderNamed "group_gateway_endpoint_regex_permission" group_name)
  | ask_create_group_gateway_model_definition_permission group_name name permission_data => Some (MkWrite AdminOnly
      (CreateGroupGatewayModelDefinitionPermission group_name name (pb_permission permission_data))
      SenderNamed "group_gateway_model_definition_permission" name)
  | ask_update_group_gateway_model_definition_permission group_name name permission_data => Some (MkWrite AdminOnly
      (UpdateGroupGatewayModelDefinitionPermission group_name name (pb_permission permission_data))
      SenderNamed "group_gateway_model_definition_permission" name)
  | ask_delete_group_gateway_model_definition_permission group_name name => Some (MkWrite AdminOnly (DeleteGroupGatewayModelDefinitionPermission
      group_name name) SenderNamed "group_gateway_model_definition_permission" name)
  | ask_create_group_gateway_model_definition_pattern_permission group_name pattern_data => Some (MkWrite AdminOnly
      (CreateGroupGatewayModelDefinitionRegexPermission group_name (pt_regex pattern_data) (pt_priority pattern_data) (pt_permission pattern_data))
      SenderNamed "group_gateway_model_definition_regex_permission" group_name)
  | ask_update_group_gateway_model_definition_pattern_permission group_name id pattern_data => Some (MkWrite AdminOnly
      (UpdateGroupGatewayModelDefinitionRegexPermission id group_name (pt_regex pattern_data) (pt_priority pattern_data)
      (pt_permission pattern_data)) SenderNamed "group_gateway_model_definition_regex_permission" group_name)
  | ask_delete_group_gateway_model_definition_pattern_permission group_name id => Some (MkWrite AdminOnly
      (DeleteGroupGatewayModelDefinitionRegexPermission id group_name) SenderNamed "group_gateway_model_definition_regex_permission" group_name)
  | ask_create_group_gateway_secret_permission group_name name permission_data => Some (MkWrite AdminOnly (CreateGroupGatewaySecretPermission
      group_name name (pb_permission permission_data)) SenderNamed "group_gateway_secret_permission" name)
  | ask_update_group_gateway_secret_permission group_name name permission_data => Some (MkWrite AdminOnly (UpdateGroupGatewaySecretPermission
      group_name name (pb_permission permission_data)) SenderNamed "group_gateway_secret_permission" name)
  | ask_delete_group_gateway_secret_permission group_name name => Some (MkWrite AdminOnly (DeleteGroupGatewaySecretPermission group_name name)
      SenderNamed "group_gateway_secret_permission" name)
  | ask_create_group_gateway_secret_pattern_permission group_name pattern_data => Some (MkWrite AdminOnly (CreateGroupGatewaySecretRegexPermission
      group_name (pt_regex pattern_data) (pt_priority pattern_data) (pt_permission pattern_data))
      SenderNamed "group_gateway_secret_regex_permission" group_name)
  | ask_update_group_gateway_secret_pattern_permission group_name id pattern_data => Some (MkWrite AdminOnly
      (UpdateGroupGatewaySecretRegexPermission id group_name (pt_regex pattern_data) (pt_priority pattern_data) (pt_permission pattern_data))
      SenderNamed "group_gateway_secret_regex_permission" group_name)
  | ask_delete_group_gateway_secret_pattern_permission group_name id => Some (MkWrite AdminOnly (DeleteGroupGatewaySecretRegexPermission id
      group_name) SenderNamed "group_gateway_secret_regex_permission" group_name)
  | _ => None
  end.
