(* ===== verification/ManagementFacts.v ===== *)
(** * What a management request may do

    Both permission routers against one specification: the table of
    [Management.v] says who may ask for an endpoint and which call of the store it
    comes down to. *)
From S2P Require Import Prelude PyStrings Json Permissions Regex RegexSafety Database Repositories RepositoryFacts RepositoryInvariant Users Groups Sessions Cache Resolution ResolutionFacts Batch.
From S2P Require Import Store StoreFacts StoreCaches StoreCoherence Requests AfterRequest BeforeRequestFacts Validators TokenVerification Identity AuthMiddleware AuthFacts ProvisioningFacts.
From S2P Require Import ProviderRegistry Kubernetes DataFetching ApiModels FastApi RouterLib UserPermissions GroupPermissions Management.

(** Goes through a store call of the goal's [read_only], by the shape of its code. *)
Ltac read_step :=
  lazymatch goal with
  | |- read_only (_ ≫= _) => apply read_only_bind; [|intros ?]
  | |- read_only (managed _) => apply read_only_managed
  | |- read_only (mret _) => apply read_only_ret
  | |- read_only (gets _) => apply read_only_gets
  | |- read_only (ask _) => apply read_only_ask
  | |- read_only (lift _) => apply read_only_lift
  | |- read_only (raise _) => apply read_only_raise
  | |- read_only (catch _ _) => apply read_only_catch; [|intros ?]
  | |- read_only (if ?b then _ else _) => destruct b
  | |- read_only (match ?x with _ => _ end) => destruct x
  | |- read_only ?x => let h := head x in unfold h; cbv zeta
  end.
Ltac read_store := repeat read_step.

(** ** Reads of the world *)

Section keeps.
Context `{SqlBackend, PyRe, ColumnTyping, Config, TrackingStore, CacheBackend PermissionResult, CacheBackend Permission}.

Definition keeps_db {S A} (db_of : S → db) (m : M S A) : Prop := ∀ s, db_of (m s).2 = db_of s.
Abbreviation keeps := (keeps_db w_db).
Abbreviation keeps_m := (keeps_db (λ s : world * memo, w_db s.1)).

Lemma keeps_db_bind {S A B} (db_of : S → db) (m : M S A) (f : A → M S B) : keeps_db db_of m → (∀ a, keeps_db db_of (f a)) → keeps_db db_of (m ≫= f).
Proof. intros Hm Hf s. rewrite M_bind_run. specialize (Hm s). destruct (m s) as [[a|e] s1]; cbn in *; [by rewrite Hf|done]. Qed.
Lemma keeps_db_lift {S A} (db_of : S → db) (o : outcome A) : keeps_db db_of (lift o : M S A).
Proof. done. Qed.
Lemma keeps_db_ret {S A} (db_of : S → db) (a : A) : keeps_db db_of (mret a : M S A).
Proof. done. Qed.

Lemma keeps_record rt id u p : keeps (record_permission_fallback rt id u p).
Proof. done. Qed.

Lemma keeps_workspace_fallback ws r u : keeps (_apply_workspace_fallback ws r u).
Proof.
  intros w. unfold _apply_workspace_fallback. case_decide; [done|]. destruct (negb _); [done|]. destruct ws as [[|a ws]|]; [done| |done].
  rewrite M_bind_run. pose proof (cached_workspace_keeps_db u (String a ws) w) as Hd.
  by destruct (get_workspace_permission_cached u (String a ws) w) as [[[]|] w'].
Qed.

Lemma keeps_resolve ws rt id u sc : keeps (resolve_permission ws rt id u sc).
Proof.
  intros w. unfold resolve_permission. autorewrite with run. destruct (cache_get _ _); [done|]. autorewrite with run.
  destruct (build_sources rt id u sc) as [config|e] eqn:Eb; [|done]. autorewrite with run.
  rewrite on_store_read; [|exact (read_only_store_or_default _ (build_sources_read _ _ _ _ _ Eb))].
  destruct (get_permission_from_store_or_default config (w_db w)).1 as [r|e]; [|done]. rewrite M_bind_run.
  pose proof (keeps_workspace_fallback ws r u w) as Hd. destruct (_apply_workspace_fallback ws r u w) as [[r'|e] w1]; cbn in Hd; [|done].
  autorewrite with run. by destruct (decide _); autorewrite with run.
Qed.

Lemma keeps_on_world {A} (m : M world A) : keeps m → keeps_m (on_world m).
Proof. intros Hm [w memo0]. unfold on_world. cbn. specialize (Hm w). by destruct (m w) as [o w']. Qed.

Lemma keeps_from_context ws ctx rt id us gs rs grs nm : keeps_m (resolve_from_context ws ctx rt id us gs rs grs nm).
Proof.
  unfold resolve_from_context. repeat (apply keeps_db_bind; [|intros ?]); try apply keeps_db_lift.
  - apply keeps_on_world, keeps_db_bind; [by case_decide|done].
  - unfold _apply_workspace_fallback_batch. case_decide; [done|]. destruct (negb _); [done|]. destruct ws as [[|ch ws]|]; [done| |done].
    repeat (apply keeps_db_bind; [|intros ?]); try done.
    + case_match; [done|]. repeat (apply keeps_db_bind; [|intros ?]); try done. apply keeps_on_world. intros w. apply cached_workspace_keeps_db.
    + by case_match.
Qed.

Lemma keeps_comprehension {A} (key : A → string) resolve acc items :
  (∀ x, keeps_m (resolve x)) → keeps_m (dict_comprehension key resolve acc items).
Proof. intros Hr. revert acc. induction items as [|x items IH]; intros acc; [done|]. cbn. apply keeps_db_bind; [apply Hr|]. intros r. apply IH. Qed.

Lemma keeps_batch {A} u (key : A → string) resolve items : (∀ ctx x, keeps_m (resolve ctx x)) → keeps (batch u key resolve items).
Proof.
  intros Hr. unfold batch. apply keeps_db_bind.
  - intros w. rewrite on_store_read //. read_store.
  - intros ctx w. unfold with_fresh_memo. pose proof (keeps_comprehension key (resolve ctx) ∅ items (Hr ctx) (w, ∅)) as Hd.
    by destruct (dict_comprehension key (resolve ctx) ∅ items (w, ∅)) as [o s].
Qed.
End keeps.

(** ** Wrapped store methods *)

Section wrapped.
Context `{SqlBackend, PyRe, ColumnTyping, Config, TrackingStore, CacheBackend PermissionResult, CacheBackend Permission}.

Lemma logged_keeps (i : M world unit) : keeps_db w_db i → keeps_db w_db (logged_not_raised i).
Proof. intros Hi w. unfold logged_not_raised. autorewrite with run. specialize (Hi w). by destruct (i w) as [[[]|e] w1]. Qed.

Lemma keeps_invalidate_user username : keeps_db w_db (invalidate_user_workspace_entries username).
Proof. intros w. unfold invalidate_user_workspace_entries. by destruct MLFLOW_ENABLE_WORKSPACES. Qed.
Lemma keeps_invalidate_pair username ws : keeps_db w_db (invalidate_workspace_permission username ws).
Proof. intros w. unfold invalidate_workspace_permission. by destruct MLFLOW_ENABLE_WORKSPACES. Qed.
Lemma keeps_flush_workspaces : keeps_db w_db flush_workspace_cache.
Proof. done. Qed.
Lemma keeps_invalidate_group group_name ws : keeps_db w_db (invalidate_group_workspace_permission group_name ws).
Proof.
  intros w. unfold invalidate_group_workspace_permission, on_store. destruct MLFLOW_ENABLE_WORKSPACES; [|done]. cbn [negb]. autorewrite with run.
  rewrite (read_only_run (GroupRepository.list_group_members group_name)); [|unfold GroupRepository.list_group_members, get_group; reads].
  by destruct (GroupRepository.list_group_members group_name (w_db w)).1.
Qed.

(** A wrapper that gives back the result of the method and its database. *)
Definition passes_results (wrap : ∀ A, list string → M world A → M world A) : Prop :=
  ∀ A args (m : M world A) w a w', wrap A args m w = (Ok a, w') → ∃ w1, m w = (Ok a, w1) ∧ w_db w' = w_db w1.

Lemma then_invalidate_ok {A} (m : M world A) i w a w' :
  keeps_db w_db i → then_invalidate m i w = (Ok a, w') → ∃ w1, m w = (Ok a, w1) ∧ w_db w' = w_db w1.
Proof.
  intros Hi. unfold then_invalidate. autorewrite with run. destruct (m w) as [[x|e] w1]; [|done].
  autorewrite with run. specialize (Hi w1). destruct (i w1) as [[[]|e] w2]; [|done]. autorewrite with run. intros [= -> <-]. eauto.
Qed.

Lemma wrappers_pass_results :
  passes_results (@_wrap_with_cache_flush _ _) ∧ passes_results (@_wrap_with_membership_invalidation _ _ _) ∧
  passes_results (@_wrap_with_workspace_group_invalidation _ _ _ _) ∧ passes_results (@_wrap_with_workspace_user_invalidation _ _) ∧
  passes_results (@_wrap_with_workspace_flush _ _).
Proof.
  split_and!; intros A args m w a w'; apply then_invalidate_ok; repeat case_match; try done; apply logged_keeps;
    auto using keeps_invalidate_user, keeps_invalidate_pair, keeps_invalidate_group.
Qed.

Lemma installed_ok wrap methods nm {A} args (m : M world A) w a w' :
  passes_results wrap → installed methods (wrap A) nm args m w = (Ok a, w') → ∃ w1, m w = (Ok a, w1) ∧ w_db w' = w_db w1.
Proof. intros Hw. unfold installed. case_decide; [apply Hw|eauto]. Qed.

(** A wrapped method that returns has run on the database, which only it changed. *)
Lemma called_ok {A} nm args (m : M db A) w a w' : called nm args m w = (Ok a, w') → m (w_db w) = (Ok a, w_db w').
Proof.
  destruct wrappers_pass_results as (H1'&H2'&H3'&H4'&H5').
  intros (w5&(w4&(w3&(w2&(w1&Hc&E1)%(installed_ok _ _ _ _ _ _ _ _ H1')&E2)%(installed_ok _ _ _ _ _ _ _ _ H2')&E3)%(installed_ok _ _ _ _ _ _ _ _ H3')
    &E4)%(installed_ok _ _ _ _ _ _ _ _ H4')&E5)%(installed_ok _ _ _ _ _ _ _ _ H5').
  rewrite E5 E4 E3 E2 E1. unfold on_store in Hc. destruct (m (w_db w)) as [o d]. by injection Hc as -> <-.
Qed.
End wrapped.

(** ** Handlers that only look *)

Section routers.
Context `{SqlBackend, PyRe, UserLibs, ColumnTyping, Config, TrackingStore}.
Context `{CacheBackend PermissionResult, CacheBackend Permission, TTLCache unit json, TTLCache provider_key json}.
Context `{TTLCache (string * string) bool}.
Context `{JsonLoads, Encodings, PodFiles, Network, JwtLib, TokenConfig, AuthConfig, ValidatorLibs}.
Context `{MlflowListings, ErrorCodeNumbers}.
Abbreviation auth := (M auth_state).

(** The database and the audit log are what they were. *)
Definition untouched (s s' : auth_state) : Prop := au_db s' = au_db s ∧ au_audit s' = au_audit s.

#[local] Instance untouched_preorder : PreOrder untouched.
Proof. split; [by intros s|]. intros s1 s2 s3 [E1 E2] [E3 E4]. split; congruence. Qed.

Definition observes {A} (m : auth A) : Prop := ∀ s, untouched s (m s).2.

Lemma observes_ret {A} (a : A) : observes (mret a). Proof. done. Qed.
Lemma observes_lift {A} (o : outcome A) : observes (lift o). Proof. done. Qed.
Lemma observes_raise {A} e : observes (raise e : auth A). Proof. done. Qed.
Lemma observes_bind {A B} (m : auth A) (f : A → auth B) : observes m → (∀ a, observes (f a)) → observes (m ≫= f).
Proof. intros Hm Hf s. rewrite M_bind_run. specialize (Hm s). destruct (m s) as [[a|e] s1]; cbn in *; [|done]. by etrans; [|apply Hf]. Qed.
Lemma observes_catch {A} (m : auth A) h : observes m → (∀ e, observes (h e)) → observes (catch m h).
Proof. intros Hm Hf s. rewrite catch_run. specialize (Hm s). destruct (m s) as [[a|e] s1]; cbn in *; [done|]. by etrans; [|apply Hf]. Qed.
Lemma observes_store {A} (m : M db A) : read_only m → observes (in_store m).
Proof. intros Hm s. rewrite in_store_run. split; [|done]. cbn. apply Hm. Qed.
Lemma observes_world {A} (m : M world A) : keeps_db w_db m → observes (in_world m).
Proof. intros Hm s. unfold in_world. specialize (Hm (au_world s)). by destruct (m (au_world s)) as [o w]. Qed.
Lemma observes_filter {A} (check : A → auth bool) l : (∀ x, observes (check x)) → observes (filter_m check l).
Proof. intros Hc. induction l as [|x l IH]; [done|]. cbn. apply observes_bind; [apply Hc|]. intros b. apply observes_bind; [apply IH|]. done. Qed.

Lemma observes_or_http {A} status detail (m : auth A) : observes m → observes (or_http status detail m).
Proof. intros Hm. by apply observes_catch. Qed.
Lemma observes_or_bad_id {A} status detail (m : auth A) : observes m → observes (or_bad_id status detail m).
Proof. intros Hm. apply observes_catch; [done|]. intros e. by case_decide. Qed.

Lemma observes_admin_or_manages is_admin m : keeps_db w_db m → observes (admin_or_manages is_admin m).
Proof. intros Hm. unfold admin_or_manages. destruct is_admin; [done|]. apply observes_bind; [by apply observes_world|done]. Qed.

Lemma observes_batch {A B} (key : A → string) (format : A → PermissionResult → B) batch_resolve u cu is_admin items :
  (∀ u items, keeps_db w_db (batch_resolve u items)) → observes (batch_listing key format batch_resolve u cu is_admin items).
Proof.
  intros Hb. unfold batch_listing, shown_items. apply observes_bind; [by apply observes_world|]. intros permissions.
  apply observes_bind; [|done]. destruct is_admin; [done|]. case_decide; [done|]. apply observes_bind; [by apply observes_world|done].
Qed.

Lemma observes_gateway nm effective u cu is_admin items :
  (∀ n u, keeps_db w_db (effective n u)) → observes (gateway_summaries nm effective u cu is_admin items).
Proof.
  intros He. induction items as [|x items IH]; [done|]. cbn [gateway_summaries]. case_decide; [done|].
  apply observes_bind; [by apply observes_world|]. intros r. apply observes_bind.
  - destruct is_admin; [done|]. case_decide; [done|]. apply observes_bind; [by apply observes_world|done].
  - intros shown. by apply observes_bind.
Qed.

Lemma observes_group_experiments cu is_admin rows : observes (GroupPermissionsRouter.group_experiment_items cu is_admin rows).
Proof.
  induction rows as [|x rows IH]; [done|]. cbn [GroupPermissionsRouter.group_experiment_items].
  apply observes_bind; [apply observes_admin_or_manages, keeps_resolve|]. intros [|]; [|done].
  apply observes_bind; [done|]. intros n. by apply observes_bind.
Qed.

(** ** Handlers that write *)

(** What the request did to the database and to the audit log: the call, and one
    line that names it. *)
Definition verb (c : call) : string := default "" (split_str "_" (method_name c) !! 0%nat).
Definition audit_line (w : management_write) (u : string) (detail : list (string * json)) : audit_event :=
  AuditEvent ("permission." +:+ verb (mw_call w)) (match mw_actor w with SenderNamed => Some u | SenderLeftOut => None end)
    (Some (mw_resource_type w)) (Some (mw_resource_id w)) detail.
Definition performed (w : management_write) (u : string) (s s' : auth_state) : Prop :=
  body (mw_call w) (au_db s) = (Ok tt, au_db s') ∧ ∃ detail, au_audit s' = au_audit s ++ [audit_line w u detail].

(** All of it when the call succeeds; nothing and an error when it fails. *)
Definition writes {A} (w : management_write) (u : string) (m : auth A) : Prop := ∀ s, wf_db (au_db s) →
  match m s with
  | (Ok _, s') => performed w u s s'
  | (Raise _, s') => untouched s s' ∧ (body (mw_call w) (au_db s)).1 ≠ Ok tt
  end.

Lemma writes_catch {A} w u (m : auth A) h :
  writes w u m → (∀ e s, ∃ e', h e s = (Raise e', s)) → writes w u (catch m h).
Proof.
  intros Hm Hh s Hwf. rewrite catch_run. specialize (Hm s Hwf). destruct (m s) as [[a|e] s1]; [done|].
  by destruct (Hh e s1) as [e' ->].
Qed.

Lemma writes_or_http {A} w u status detail (m : auth A) : writes w u m → writes w u (or_http status detail m).
Proof. intros Hm. apply writes_catch; [done|]. intros e s. by eexists. Qed.
Lemma writes_or_bad_id {A} w u status detail (m : auth A) : writes w u m → writes w u (or_bad_id status detail m).
Proof. intros Hm. apply writes_catch; [done|]. intros e s. case_decide; by eexists. Qed.
Lemma writes_or_mlflow {A} w u code status detail failure (m : auth A) : writes w u m → writes w u (or_mlflow code status detail failure m).
Proof.
  intros Hm. apply writes_catch; [done|]. intros e s. destruct e; try by eexists.
Qed.

Lemma in_world_run {A} (m : M world A) s :
  in_world m s = ((m (au_world s)).1, AuthState (m (au_world s)).2 (au_audit s) (au_tokens s) (_denial_audit_seen s) (au_session s) (resolved_session s)).
Proof. unfold in_world. by destruct (m (au_world s)). Qed.

Lemma writes_call {A B} w u (m : M db A) (e : A → audit_event) (answer : A → B) :
  (∀ d, body (mw_call w) d = discard m d) → is_gateway_rename (mw_call w) = false → (∀ a, ∃ detail, e a = audit_line w u detail) →
  writes w u (a ← store_call (mw_call w) m; _ ← emit_audit_event (e a); mret (answer a)).
Proof.
  intros Hb Hg He s Hwf. unfold store_call. rewrite M_bind_run in_world_run.
  destruct (called _ _ m (au_world s)) as [[a|x] w1] eqn:Hc; cbn [fst snd].
  - apply called_ok in Hc. rewrite M_bind_run. unfold emit_audit_event. rewrite in_audited_run. cbn.
    unfold performed. rewrite Hb. cbn. split; [unfold discard; by rewrite M_bind_run /au_db Hc|].
    destruct (He a) as [detail ->]. by exists detail.
  - apply called_raise in Hc as (d&Hm&->). assert (body (mw_call w) (w_db (au_world s)) = (Raise x, d)) as Hbody by (by rewrite Hb /discard M_bind_run Hm).
    split; [|by rewrite /au_db Hbody]. split; [|done]. exact (body_atomic (mw_call w) Hg _ x _ Hwf Hbody).
Qed.

Lemma writes_write {B} w u (e : audit_event) (answer : B) :
  is_gateway_rename (mw_call w) = false → (∃ detail, e = audit_line w u detail) →
  writes w u (_ ← store_write (mw_call w); _ ← emit_audit_event e; mret answer).
Proof.
  intros Hg He s Hwf. unfold store_write, run_call.
  refine (writes_call w u (body (mw_call w)) (λ _, e) (λ _, answer) _ Hg (λ _, He) s Hwf).
  intros d. unfold discard. rewrite M_bind_run. by destruct (body (mw_call w) d) as [[[]|x] d'].
Qed.


(** ** The dependencies *)

(** An administrator, or a user whom the database lets manage the resource. On
    these routes no request workspace takes part in the decision. *)
Definition is_administrator (u : string) (d : db) : Prop :=
  ∃ v, v ∈ users d ∧ u_username v = normalize_username u ∧ u_is_admin v = true.
Definition permitted (n : need) (u : string) (d : db) : Prop :=
  is_administrator u d ∨
  match n with
  | AdminOnly => False
  | ManagerOf rt id => ∃ r, decision flaskless_workspace rt id u None d = Ok r ∧ can_manage (permission r) = true
  | ManagerOfWorkspace w => MLFLOW_ENABLE_WORKSPACES = true ∧ ∃ p, (_lookup_workspace_permission u w d).1 = Ok (Some p) ∧ can_manage p = true
  end.
(** The question can be decided, and the answer is no. *)
Definition refused (n : need) (u : string) (d : db) : Prop :=
  ¬ permitted n u d ∧
  match n with ManagerOf rt id => ∃ r, decision flaskless_workspace rt id u None d = Ok r | _ => True end.

(** A request that the authentication middleware let through, from a user of the
    database, and the databases and caches the server keeps. *)
Definition sent_by (u : string) (http : FastApiRequest) : Prop := state_username http = Some u ∧ u ≠ "" ∧ colon_free u = true.
Definition served (u : string) (s : auth_state) : Prop :=
  wf_db (au_db s) ∧ coherent (au_world s) ∧ ∃ v, v ∈ users (au_db s) ∧ u_username v = normalize_username u.

Variables (now : Z) (http : FastApiRequest) (u : string).
Hypothesis Hsent : sent_by u http.

Lemma get_username_run s : get_username now http s = (Ok u, s).
Proof.
  destruct Hsent as (Hu&Hne&_). unfold get_username, get_authenticated_username, get_username_from_session. rewrite Hu.
  destruct u as [|ch rest]; [done|]. done.
Qed.

Lemma get_is_admin_observed s : (get_is_admin now http s).2 = s.
Proof.
  unfold get_is_admin. rewrite M_bind_run get_username_run M_bind_run in_store_run.
  assert (read_only (SqlAlchemyStore.get_user_profile u)) as -> by read_store.
  assert (set_db (au_db s) (au_world s) = au_world s) as -> by apply set_db_id.
  by destruct (SqlAlchemyStore.get_user_profile u (au_db s)).1, s.
Qed.

Lemma get_is_admin_run s :
  served u s → ∃ b, get_is_admin now http s = (Ok b, s) ∧ (if b : bool then is_administrator u (au_db s) else ¬ is_administrator u (au_db s)).
Proof.
  intros (Hwf&_&v&Hv&Hname). pose proof (get_is_admin_observed s) as Hs.
  assert (SqlAlchemyStore.get_user_profile u (au_db s) =
    (Ok (UserRow (u_id v) (u_username v) (u_display_name v) "REDACTED" (u_password_expiration v)
           (u_is_admin v) (u_is_service_account v) (u_active v) (u_managed_by v), UserRepository.groups_of v (au_db s)), au_db s)) as Hp.
  { unfold SqlAlchemyStore.get_user_profile, UserRepository.get_profile. cbv zeta. rewrite managed_run M_bind_run.
    unfold ask. rewrite -Hname (filter_username _ _ Hwf Hv). done. }
  destruct (get_is_admin now http s) as [o s1] eqn:Hrun. cbn in Hs. subst s1.
  unfold get_is_admin in Hrun. rewrite M_bind_run get_username_run M_bind_run in_store_run Hp in Hrun. cbn in Hrun. injection Hrun as <- _.
  exists (u_is_admin v). split; [done|]. destruct (u_is_admin v) eqn:Ha; [by exists v|]. intros (v'&Hv'&Hn'&Ha').
  pose proof (filter_username _ _ Hwf Hv) as Hf. rewrite Hname -Hn' (filter_username _ _ Hwf Hv') in Hf. injection Hf as ->. congruence.
Qed.

(** A dependency: it looks; what it lets through is permitted, what it can decide
    to refuse gets a 403. *)
Definition guards {A} (n : need) (ok : A → Prop) (dependency : auth A) : Prop := ∀ s, served u s →
  untouched s (dependency s).2 ∧
  match (dependency s).1 with
  | Ok a => permitted n u (au_db s) ∧ ok a
  | Raise e => ¬ permitted n u (au_db s) ∧ (refused n u (au_db s) → exc_status e = 403)
  end.

Lemma admin_guards : guards AdminOnly (λ name, name = u) (check_admin_permission now http).
Proof.
  intros s Hs. unfold check_admin_permission, identify. rewrite M_bind_run catch_run M_bind_run get_username_run M_bind_run.
  destruct (get_is_admin_run s Hs) as (b&->&Hb). destruct b; cbn; (split; [done|]).
  - split; [by left|done].
  - split; [by intros [|]|done].
Qed.

Lemma managed_by rt id s :
  rt ≠ SCORER → separable flaskless_workspace rt u → served u s →
  ∃ w', resolve_permission flaskless_workspace rt id u None (au_world s) = (decision flaskless_workspace rt id u None (au_db s), w') ∧ w_db w' = au_db s.
Proof.
  intros Hrt Hsep (_&Hco&_). destruct (resolve_permission_run flaskless_workspace rt id u None (au_world s) Hco Hsep) as (o&w'&Hrun&_&Hdb&Ho).
  exists w'. by rewrite Hrun (Ho Hrt).
Qed.

(** The common question of the manage dependencies and of the group handlers. *)
Lemma manager_answer rt id (o : outcome bool) (d : db) :
  ¬ is_administrator u d →
  o = (r ← decision flaskless_workspace rt id u None d; Ok (can_manage (permission r))) →
  match o with
  | Ok true => permitted (ManagerOf rt id) u d
  | Ok false => ¬ permitted (ManagerOf rt id) u d
  | Raise _ => ¬ permitted (ManagerOf rt id) u d ∧ ¬ refused (ManagerOf rt id) u d
  end.
Proof.
  intros Hadm ->. destruct (decision flaskless_workspace rt id u None d) as [r|e] eqn:Hd; cbn.
  - destruct (can_manage (permission r)) eqn:Hm; [right; by exists r|]. intros [|(r'&Hr'&Hm')]; [done|]. congruence.
  - split; [intros [|(r'&Hr'&Hm')]; [done|congruence]|]. intros [_ (r'&Hr')]. congruence.
Qed.

Lemma manage_guards rt id detail :
  rt ≠ SCORER → separable flaskless_workspace rt u →
  guards (ManagerOf rt id) (λ name, name = None)
    (require_manage now http (λ user, can can_manage (resolve_permission flaskless_workspace rt id user None)) detail).
Proof.
  intros Hrt Hsep s Hs. unfold require_manage. rewrite M_bind_run get_username_run M_bind_run.
  destruct (get_is_admin_run s Hs) as (b&->&Hb). destruct b; [split; [done|]; split; [by left|done]|].
  rewrite M_bind_run in_world_run. unfold can. rewrite M_bind_run. destruct (managed_by rt id s Hrt Hsep Hs) as (w'&->&Hdb).
  pose proof (manager_answer rt id _ (au_db s) Hb eq_refl) as Ha.
  destruct (decision flaskless_workspace rt id u None (au_db s)) as [r|e]; cbn in *; [destruct (can_manage (permission r)); cbn|]; (split; [by split|]).
  1,2: done. split; [apply Ha|]. intros Hr. by destruct (proj2 Ha).
Qed.

(** The group routes of models and prompts ask inside the handler. *)
Definition manager_dependency (rt id detail : string) : auth string :=
  current_username ← get_username now http;
  is_admin ← get_is_admin now http;
  _ ← manager_only is_admin (resolve_permission flaskless_workspace rt id current_username None) detail;
  mret current_username.

Lemma manager_guards rt id detail :
  rt ≠ SCORER → separable flaskless_workspace rt u → guards (ManagerOf rt id) (λ name, name = u) (manager_dependency rt id detail).
Proof.
  intros Hrt Hsep s Hs. unfold manager_dependency. rewrite M_bind_run get_username_run M_bind_run.
  destruct (get_is_admin_run s Hs) as (b&->&Hb). destruct b; [split; [done|]; split; [by left|done]|].
  unfold manager_only, admin_or_manages. rewrite !M_bind_run in_world_run. destruct (managed_by rt id s Hrt Hsep Hs) as (w'&->&Hdb).
  pose proof (manager_answer rt id _ (au_db s) Hb eq_refl) as Ha.
  destruct (decision flaskless_workspace rt id u None (au_db s)) as [r|e]; cbn in *; [destruct (can_manage (permission r)); cbn|]; (split; [by split|]).
  1,2: done. split; [apply Ha|]. intros Hr. by destruct (proj2 Ha).
Qed.

(** ** A request, served *)

(** There is a reply. One that may write is carried out exactly when the sender
    is permitted and the store's call succeeds; else nothing changes, and a
    refusal is a 403. *)
Definition settled {A} (w : option management_write) (s : auth_state) (served_request : outcome (reply A) * auth_state) : Prop :=
  ∃ answer, served_request.1 = Ok answer ∧
    match w, answer with
    | None, _ => untouched s served_request.2
    | Some w, Replied _ _ => permitted (mw_need w) u (au_db s) ∧ performed w u s served_request.2
    | Some w, Failed status =>
        untouched s served_request.2 ∧ (refused (mw_need w) u (au_db s) → status = 403) ∧
        (permitted (mw_need w) u (au_db s) → (body (mw_call w) (au_db s)).1 ≠ Ok tt)
    end.

Lemma settled_write {A B} status w (dependency : auth A) ok (handler : A → auth B) s :
  guards (mw_need w) ok dependency → (∀ a, ok a → writes w u (handler a)) → served u s →
  settled (Some w) s (respond status (a ← dependency; handler a) s).
Proof.
  intros Hg Hw Hs. unfold respond, settled. rewrite catch_run !M_bind_run. destruct (Hg s Hs) as [[E1 E2] Hok].
  destruct (dependency s) as [[a|e] s1]; cbn in *.
  2:{ eexists. split; [done|]. cbn. split; [by split|]. destruct Hok as [Hno H403]. split; [apply H403|]. intros Hp. by destruct Hno. }
  destruct Hok as [Hp Ha]. pose proof (Hw a Ha s1) as Hh. rewrite E1 in Hh. specialize (Hh (proj1 Hs)).
  destruct (handler a s1) as [[b|e] s2]; cbn; (eexists; split; [done|]).
  - split; [done|]. unfold performed in *. by rewrite -E1 -E2.
  - destruct Hh as [Hu Hb]. split; [exact (PreOrder_Transitive s s1 s2 (conj E1 E2) Hu)|]. split; [|done]. intros [Hno _]. by destruct Hno.
Qed.

Lemma settled_read {A} status w (m : auth A) s : observes m → settled (A:=A) None s (respond status m s) ∧ (w = None → settled w s (respond status m s)).
Proof.
  intros Hm. assert (settled (A:=A) None s (respond status m s)) as Hset; [|split; [done|by intros ->]].
  unfold respond, settled. rewrite catch_run M_bind_run. specialize (Hm s). destruct (m s) as [[a|e] s1]; cbn; (eexists; split; [done|done]).
Qed.

Lemma observes_get_username : observes (get_username now http).
Proof. intros s. by rewrite get_username_run. Qed.
Lemma observes_get_is_admin : observes (get_is_admin now http).
Proof. intros s. by rewrite get_is_admin_observed. Qed.
Lemma observes_check_admin : observes (check_admin_permission now http).
Proof.
  intros s. unfold check_admin_permission, identify. rewrite M_bind_run catch_run M_bind_run get_username_run M_bind_run.
  pose proof (get_is_admin_observed s) as Hs. destruct (get_is_admin now http s) as [[[]|e] s1]; cbn in Hs; by subst s1.
Qed.
Lemma observes_require_manage can_manage_it detail : (∀ user, keeps_db w_db (can_manage_it user)) → observes (require_manage now http can_manage_it detail).
Proof.
  intros Hc. unfold require_manage. apply observes_bind; [apply observes_get_username|]. intros user. apply observes_bind; [apply observes_get_is_admin|].
  intros []; [done|]. apply observes_bind; [by apply observes_world|]. by intros [].
Qed.

Lemma settled_manager {B} status w rt id detail (handler : string → auth B) s :
  mw_need w = ManagerOf rt id → rt ≠ SCORER → separable flaskless_workspace rt u → writes w u (handler u) → served u s →
  settled (Some w) s (respond status (
    current_username ← get_username now http;
    is_admin ← get_is_admin now http;
    _ ← manager_only is_admin (resolve_permission flaskless_workspace rt id current_username None) detail;
    handler current_username) s).
Proof.
  intros Hn Hrt Hsep Hw Hs.
  assert (settled (Some w) s (respond status (a ← manager_dependency rt id detail; handler a) s)) as Hset.
  { apply (settled_write status w _ (λ name, name = u)); [rewrite Hn; by apply manager_guards|by intros a ->|done]. }
  refine (eq_ind _ (settled (Some w) s) Hset _ _). unfold respond, manager_dependency. rewrite !catch_run !M_bind_run get_username_run !M_bind_run.
  destruct (get_is_admin now http s) as [[b|e] s1]; [|done]. rewrite !M_bind_run. by destruct (manager_only _ _ _ s1) as [[[]|e] s2].
Qed.

Lemma writes_parse {A} w id n (m : Z → auth A) : py_int id = Some n → writes w u (m n) → writes w u (n ← parse_id id; m n).
Proof. intros Hid Hm s. unfold parse_id. rewrite Hid. exact (Hm s). Qed.
Lemma observes_stop {A} id (m : Z → auth A) : py_int id = None → observes (n ← parse_id id; m n).
Proof. intros Hid s. unfold parse_id. by rewrite Hid. Qed.
Lemma observes_parse id : observes (parse_id id : auth Z).
Proof. done. Qed.

Lemma separable_here rt : colon_free rt = true → separable flaskless_workspace rt u.
Proof. intros Hrt. split; [done|]. split; [apply Hsent|done]. Qed.
End routers.

(** ** The two routers *)

(** Both go through a handler by the shape of its code. *)
Ltac write_step :=
  lazymatch goal with
  | |- writes _ _ (or_http _ _ _) => apply writes_or_http
  | |- writes _ _ (or_bad_id _ _ _) => apply writes_or_bad_id
  | |- writes _ _ (or_mlflow _ _ _ _ _) => apply writes_or_mlflow
  | |- writes _ _ (parse_id _ ≫= _) => eapply writes_parse; [eassumption|]
  | |- writes _ _ (store_write _ ≫= _) => apply writes_write; [reflexivity|eexists; reflexivity]
  | |- writes _ _ (store_call _ _ ≫= _) => apply writes_call; [reflexivity|reflexivity|intros ?; eexists; reflexivity]
  | |- writes _ _ ?m => let h := head m in unfold h
  end.
Ltac observe_step :=
  lazymatch goal with
  | |- observes (parse_id _ ≫= _) => first [apply observes_stop; assumption | apply observes_bind; [apply observes_parse|intros ?]]
  | |- observes (_ ≫= _) => apply observes_bind; [|intros ?]
  | |- observes (mret _) => apply observes_ret
  | |- observes (lift _) => apply observes_lift
  | |- observes (in_store _) => apply observes_store; read_store
  | |- observes (or_http _ _ _) => apply observes_or_http
  | |- observes (or_bad_id _ _ _) => apply observes_or_bad_id
  | |- observes (get_username _ _) => eapply observes_get_username; eassumption
  | |- observes (get_is_admin _ _) => eapply observes_get_is_admin; eassumption
  | |- observes (check_admin_permission _ _) => eapply observes_check_admin; eassumption
  | |- observes (require_manage _ _ _ _) => eapply observes_require_manage; [eassumption|intros ?]
  | |- observes (filter_m _ _) => apply observes_filter; intros ?
  | |- observes (admin_or_manages _ _) => apply observes_admin_or_manages
  | |- observes (gateway_summaries _ _ _ _ _ _) => apply observes_gateway; intros ? ?
  | |- observes (batch_listing _ _ _ _ _ _ _) => apply observes_batch; intros ? ?
  | |- observes (GroupPermissionsRouter.group_experiment_items _ _ _) => apply observes_group_experiments
  | |- observes (if ?b then _ else _) => destruct b
  | |- observes (match ?x with _ => _ end) => destruct x
  | |- observes ?m => let h := head m in unfold h
  | |- keeps_db _ (resolve_permission _ _ _ _ _) => apply keeps_resolve
  | |- keeps_db _ (resolve_from_context _ _ _ _ _ _ _ _ _) => apply keeps_from_context
  | |- keeps_db _ (batch _ _ _ _) => apply keeps_batch; intros ? ?
  | |- keeps_db _ (_ ≫= _) => apply keeps_db_bind; [|intros ?]
  | |- keeps_db _ (mret _) => apply keeps_db_ret
  | |- keeps_db _ (lift _) => apply keeps_db_lift
  | |- keeps_db _ ?m => let h := head m in unfold h
  end.

(** The rule of the request's guard, then the handler. *)
Ltac settle :=
  lazymatch goal with
  | |- settled _ None _ _ => apply settled_read; repeat observe_step
  | Hsent : sent_by _ _, Hs : served _ _ |- settled _ (Some _) _ (respond _ (check_admin_permission _ _ ≫= _) _) =>
      eapply settled_write; [apply (admin_guards _ _ _ Hsent)|intros ? ->; repeat write_step|exact Hs]
  | Hsent : sent_by _ _, Hs : served _ _ |- settled _ (Some _) _ (respond _ (get_username _ _ ≫= _) _) =>
      eapply (settled_manager _ _ _ Hsent);
        [reflexivity|discriminate|by apply (separable_here _ _ Hsent)|cbv beta; repeat write_step|exact Hs]
  | Hsent : sent_by _ _, Hs : served _ _ |- settled _ (Some _) _ _ =>
      eapply settled_write; [by apply (manage_guards _ _ _ Hsent); [|apply (separable_here _ _ Hsent)]|intros ? ->; repeat write_step|exact Hs]
  end.

Section served_requests.
Context `{SqlBackend, PyRe, UserLibs, ColumnTyping, Config, TrackingStore}.
Context `{CacheBackend PermissionResult, CacheBackend Permission, TTLCache unit json, TTLCache provider_key json}.
Context `{TTLCache (string * string) bool}.
Context `{JsonLoads, Encodings, PodFiles, Network, JwtLib, TokenConfig, AuthConfig, ValidatorLibs}.
Context `{MlflowListings, ErrorCodeNumbers}.

(** C11: Every request to the 70 endpoints that manage user permissions gets a
    reply, and when its sender is a user known to the database: a write is
    answered with success exactly when the sender is an administrator or, where
    the endpoint asks for that, may manage the resource, and the store call
    succeeds; then the database is what that call makes of it and the audit log
    has exactly one more line, naming the call, the resource and its type. In
    every other case the database and the audit log are untouched, a sender the
    database refuses gets a 403, and requests that only read touch neither. *)
Theorem user_permission_requests_are_settled now http u mlflow_workspace fuel r s :
  sent_by u http → served u s → settled u (user_write r) s (serve_user now mlflow_workspace fuel http r s).
Proof.
  intros Hsent Hs. destruct r; cbn [serve_user user_write]; try (destruct (py_int id) eqn:Hid; cbn [mbind option_bind]).
  all: settle; done.
Qed.

(** C19: The same for the endpoints that manage group permissions: a write
    happens, with its one audit line, exactly when its sender may make it and
    the store call succeeds, and nothing else touches the database or the audit
    log. *)
Theorem group_permission_requests_are_settled now http u r s :
  sent_by u http → served u s → settled u (group_write r) s (serve_group now http r s).
Proof.
  intros Hsent Hs. destruct r; cbn [serve_group group_write].
  all: settle; done.
Qed.
End served_requests.
