(* ===== verification/ManagementWitnesses.v ===== *)
(** * Management requests on the sample database *)
From S2P Require Import Prelude PyStrings Json Ownership Permissions Regex RegexSafety Database Repositories Users Samples UserFacts.
From S2P Require Import Groups Sessions Cache Resolution ResolutionFacts Batch Store SampleMlflow Requests Validators Hooks AfterRequest BeforeRequest AfterRequestFacts.
From S2P Require Import Kubernetes ProviderRegistry RegistryFacts TokenVerification TokenFacts Identity AuthMiddleware AuthFacts ProvisioningFacts AuthWitnesses.
From S2P Require Import DataFetching ApiModels FastApi RouterLib UserPermissions GroupPermissions Management ManagementFacts.

Definition gateway_endpoint (n : string) : listed := Plain {[ "name" := n ]}.
#[export] Instance sample_listings : MlflowListings | 100 := {|
  search_registered_models _ _ _ _ := Ok (["m1"; "m2"], None);
  search_experiments _ _ _ _ _ := Ok ([], None);
  search_experiments_default := Ok [];
  search_logged_models _ _ _ _ _ := Ok ([], None);
  list_gateway_endpoints := Ok [gateway_endpoint "gw"; gateway_endpoint "gw:x"];
  list_secret_infos := Ok [];
  list_gateway_model_definitions := Ok [];
|}.
#[export] Instance sample_codes : ErrorCodeNumbers | 100 := {| code_number _ := 1 |}.

(** A request that the middleware has let through. *)
Definition request_of (username : string) (is_admin : bool) : FastApiRequest :=
  MkFastApi (request_with None) "POST" [] [] (Ok JNull) (Some (MkAuthContext username is_admin None)).

Lemma sent u is_admin : u ≠ "" → colon_free u = true → sent_by u (request_of u is_admin).
Proof. done. Qed.
Lemma alice_served : served "alice" started.
Proof. split; [exact sample_wf|]. split; [apply fresh_coherent|]. exists alice. split; [exact alice_in|done]. Qed.
Lemma bob_served : served "bob" started.
Proof. split; [exact sample_wf|]. split; [apply fresh_coherent|]. exists bob. split; [exact bob_in|done]. Qed.

Definition grant : UserRequest := ask_create_user_registered_model_permission "bob" "m9" (MkPermissionBody "READ").
Lemma user_permission_requests_are_settled_witness :
  settled "alice" (user_write grant) started (serve_user 100 None 5 (request_of "alice" true) grant started) ∧
  (serve_user 100 None 5 (request_of "alice" true) grant started).1 =
    Ok (Replied 201 (status_message "Registered model permission created for bob on m9")).
Proof.
  split; [|vm_compute; reflexivity].
  apply (user_permission_requests_are_settled 100 (request_of "alice" true) "alice" None 5 grant started); [by apply sent|exact alice_served].
Defined.

Definition group_grant : GroupRequest := ask_create_group_experiment_pattern_permission "team" (MkPatternBody "^exp" 1 "READ").
Lemma group_permission_requests_are_settled_witness :
  settled "bob" (group_write group_grant) started (serve_group 100 (request_of "bob" false) group_grant started) ∧
  (serve_group 100 (request_of "bob" false) group_grant started).1 = Ok (Failed 403).
Proof.
  split; [|vm_compute; reflexivity].
  apply (group_permission_requests_are_settled 100 (request_of "bob" false) "bob" group_grant started); [by apply sent|exact bob_served].
Defined.

(** ** A user name with a colon *)

(** bob may only read the endpoint [gw:x]. *)
Definition poisoned_db : db :=
  set_perms GatewayEndpoints (λ _, PermTables [PermRow (Key "gw:x") 2 "READ" false] [] [] []) sample_db.
Definition before_listing : auth_state :=
  AuthState (fresh_world poisoned_db) [] no_keys (∅ : gmap (string * string) bool) None None.
Definition after_listing : auth_state :=
  (serve_user 100 None 5 (request_of "bob" false) (ask_get_user_gateway_endpoint_permissions "x:bob") before_listing).2.

(** The listing of the gateway permissions of a user name that holds a
    colon caches the default under the key of another resource: bob, who may
    only read the endpoint gw:x, asks for the permissions of the name x:bob, and
    is then taken for a manager of gw:x. *)
Theorem a_crafted_name_poisons_the_cache :
  decision None GATEWAY_ENDPOINT "gw:x" "bob" None poisoned_db = Ok (Resolution.MkResult READ "user") ∧
  (effective_gateway_endpoint_permission None "gw:x" "bob" (au_world before_listing)).1 = Ok (Resolution.MkResult READ "user") ∧
  (effective_gateway_endpoint_permission None "gw:x" "bob" (au_world after_listing)).1 = Ok (Resolution.MkResult MANAGE "fallback").
Proof. split; [|split]; vm_compute; reflexivity. Qed.
