(* ===== verification/AccountFacts.v ===== *)
(** * What a request about a workspace's permissions, or about accounts, may do

    Each request about a workspace that writes is refined by a program on the
    database alone, which also says what the audit log records; each request about
    accounts by an operation of the user repository. Witnesses are at the end. *)
From S2P Require Import Prelude PyStrings Json Permissions Regex RegexSafety Database Repositories RepositoryFacts RepositoryInvariant Users Groups Sessions Cache Resolution.
From S2P Require Import ResolutionFacts Batch Store StoreFacts StoreCaches StoreCoherence Requests AfterRequest BeforeRequestFacts Validators TokenVerification Identity.
From S2P Require Import AuthMiddleware AuthFacts ProvisioningFacts ProviderRegistry Kubernetes DataFetching ApiModels FastApi RouterLib UserPermissions GroupPermissions Management.
From S2P Require Import ManagementFacts WorkspaceRouters.

Section specs.
Context `{SqlBackend, PyRe, UserLibs, ColumnTyping}.
Import WorkspaceRegexPermissionsRouter.

(** ** The specification *)

Definition checked {A} (level : string) (m : M db A) : M db A := _ ← lift (_validate_permission level); m.
Definition then_line {A} (m : M db A) (line : A → audit_event) : M db audit_event := a ← m; mret (line a).

Section lines.
Variable u : string.
Definition workspace_line (event resource_type workspace : string) (detail : list (string * json)) : audit_event :=
  AuditEvent event (Some u) (Some resource_type) (Some workspace) detail.

(** Who may make the request, and what it does to the database. *)
Definition workspace_spec (r : WorkspaceRequest) : option (need * M db audit_event) :=
  match r with
  | ask_list_workspace_users _ | ask_list_workspace_groups _ | ask_list_user_regex_permissions | ask_list_group_regex_permissions => None
  | ask_create_workspace_user_permission b w => Some (ManagerOfWorkspace w, checked (wur_permission b)
      (then_line (SqlAlchemyStore.create_workspace_permission w (wur_username b) (wur_permission b)) (λ _,
        workspace_line "permission.create" "workspace_permission" w [("username", JStr (wur_username b)); ("permission", JStr (wur_permission b))])))
  | ask_create_workspace_group_permission b w => Some (ManagerOfWorkspace w, checked (wgr_permission b)
      (then_line (SqlAlchemyStore.create_workspace_group_permission w (wgr_group_name b) (wgr_permission b)) (λ _,
        workspace_line "permission.create" "group_workspace_permission" w [("group_name", JStr (wgr_group_name b)); ("permission", JStr (wgr_permission b))])))
  | ask_update_workspace_user_permission b w username => Some (ManagerOfWorkspace w, checked (wur_permission b)
      (then_line (SqlAlchemyStore.update_workspace_permission w username (wur_permission b)) (λ _,
        workspace_line "permission.update" "workspace_permission" w [("username", JStr username); ("permission", JStr (wur_permission b))])))
  | ask_update_workspace_group_permission b w group_name => Some (ManagerOfWorkspace w, checked (wgr_permission b)
      (then_line (SqlAlchemyStore.update_workspace_group_permission w group_name (wgr_permission b)) (λ _,
        workspace_line "permission.update" "group_workspace_permission" w [("group_name", JStr group_name); ("permission", JStr (wgr_permission b))])))
  | ask_delete_workspace_user_permission w username => Some (ManagerOfWorkspace w,
      then_line (SqlAlchemyStore.delete_workspace_permission w username) (λ _,
        workspace_line "permission.delete" "workspace_permission" w [("username", JStr username)]))
  | ask_delete_workspace_group_permission w group_name => Some (ManagerOfWorkspace w,
      then_line (SqlAlchemyStore.delete_workspace_group_permission w group_name) (λ _,
        workspace_line "permission.delete" "group_workspace_permission" w [("group_name", JStr group_name)]))
  | ask_create_user_regex_permission b => Some (AdminOnly, checked (wrr_permission b)
      (then_line (SqlAlchemyStore.create_workspace_regex_permission (wrr_regex b) (wrr_priority b) (wrr_permission b) (wrr_username b)) (λ perm,
        pattern_line "permission.create" "workspace_regex_permission" u (r_id perm) (user_pattern_detail b))))
  | ask_update_user_regex_permission b id => Some (AdminOnly, checked (wrr_permission b)
      (then_line (SqlAlchemyStore.update_workspace_regex_permission (wrr_regex b) (wrr_priority b) (wrr_permission b) (wrr_username b) id) (λ _,
        pattern_line "permission.update" "workspace_regex_permission" u id (user_pattern_detail b))))
  | ask_delete_user_regex_permission id username => Some (AdminOnly,
      then_line (SqlAlchemyStore.delete_workspace_regex_permission username id) (λ _,
        pattern_line "permission.delete" "workspace_regex_permission" u id [("username", JStr username)]))
  | ask_create_group_regex_permission b => Some (AdminOnly, checked (wgrr_permission b)
      (then_line (SqlAlchemyStore.create_workspace_group_regex_permission (wgrr_group_name b) (wgrr_regex b) (wgrr_priority b) (wgrr_permission b)) (λ perm,
        pattern_line "permission.create" "group_workspace_regex_permission" u (r_id perm) (group_pattern_detail b))))
  | ask_update_group_regex_permission b id => Some (AdminOnly, checked (wgrr_permission b)
      (then_line (SqlAlchemyStore.update_workspace_group_regex_permission id (wgrr_group_name b) (wgrr_regex b) (wgrr_priority b) (wgrr_permission b)) (λ _,
        pattern_line "permission.update" "group_workspace_regex_permission" u id (group_pattern_detail b))))
  | ask_delete_group_regex_permission id group_name => Some (AdminOnly,
      then_line (SqlAlchemyStore.delete_workspace_group_regex_permission group_name id) (λ _,
        pattern_line "permission.delete" "group_workspace_regex_permission" u id [("group_name", JStr group_name)]))
  end.
End lines.
End specs.

Section facts.
Context `{SqlBackend, PyRe, UserLibs, ColumnTyping, Config, TrackingStore}.
Context `{CacheBackend PermissionResult, CacheBackend Permission, TTLCache unit json, TTLCache provider_key json}.
Context `{TTLCache (string * string) bool}.
Context `{JsonLoads, Encodings, PodFiles, Network, JwtLib, TokenConfig, AuthConfig, ValidatorLibs}.
Context `{MlflowListings, ErrorCodeNumbers}.
Abbreviation auth := (M auth_state).

(** ** Handlers *)

(** The handler does what the program says, or nothing, for the program's reason. *)
Definition carries_out {A} (program : M db audit_event) (m : auth A) : Prop := ∀ s, wf_db (au_db s) →
  match m s with
  | (Ok _, s') => ∃ e, program (au_db s) = (Ok e, au_db s') ∧ au_audit s' = au_audit s ++ [e]
  | (Raise x, s') => untouched s s' ∧ (program (au_db s)).1 = Raise x
  end.

(** It never fails, and adds one line to the log. *)
Definition says {A} (e : audit_event) (m : auth A) : Prop := ∀ s, ∃ a s', m s = (Ok a, s') ∧ au_db s' = au_db s ∧ au_audit s' = au_audit s ++ [e].

Lemma says_emit e : says e (emit_audit_event e).
Proof. intros s. by do 2 eexists. Qed.
Lemma says_answer {A} e (a : A) : says e (_ ← emit_audit_event e; mret a).
Proof. intros s. by do 2 eexists. Qed.
Lemma says_after {A} e (i : M world unit) (m : auth A) :
  (∀ w, (i w).1 = Ok tt ∧ w_db (i w).2 = w_db w) → says e m → says e (_ ← in_world i; m).
Proof.
  intros Hi Hm s. rewrite M_bind_run in_world_run. destruct (Hi (au_world s)) as [-> Hdb].
  match goal with |- context [m ?t] => destruct (Hm t) as (a&s'&->&Hd&Ha) end.
  exists a, s'. split_and!; [done| |exact Ha]. by rewrite Hd /au_db /= Hdb.
Qed.

Lemma carries_out_checked {A} level program (m : auth A) :
  carries_out program m → carries_out (checked level program) (_ ← lift (_validate_permission level); m).
Proof.
  intros Hm s Hwf. unfold checked. rewrite !M_bind_run !lift_run. destruct (_validate_permission level) as [[]|e]; [exact (Hm s Hwf)|].
  by split.
Qed.

Lemma carries_out_call {A B} c (m : M db A) (line : A → audit_event) (k : A → auth B) :
  (∀ d, body c d = discard m d) → is_gateway_rename c = false → (∀ a, says (line a) (k a)) →
  carries_out (then_line m line) (a ← store_call c m; k a).
Proof.
  intros Hb Hg Hk s Hwf. unfold store_call, then_line. rewrite !M_bind_run in_world_run.
  destruct (called _ _ m (au_world s)) as [[a|x] w1] eqn:Hc; cbn [fst snd].
  - apply called_ok in Hc. fold (au_db s) in Hc. rewrite Hc M_ret_run.
    match goal with |- context [k a ?t] => destruct (Hk a t) as (b&s'&->&Hd&Ha) end. exists (line a). by rewrite Hd.
  - apply called_raise in Hc as (d&Hm&->). fold (au_db s) in Hm. rewrite Hm. split; [|done]. split; [|done].
    apply (body_atomic c Hg (au_db s) x d Hwf). by rewrite Hb /discard M_bind_run Hm.
Qed.

(** ** The dependency of a workspace *)

Variables (now : Z) (http : FastApiRequest) (u : string).
Hypothesis Hsent : sent_by u http.

Lemma identify_run failure s :
  served u s → ∃ b, identify now http failure s = (Ok (u, b), s) ∧ (if b : bool then is_administrator u (au_db s) else ¬ is_administrator u (au_db s)).
Proof.
  intros Hs. unfold identify. rewrite catch_run M_bind_run (get_username_run _ _ _ Hsent) M_bind_run.
  destruct (get_is_admin_run now http u Hsent s Hs) as (b&->&Hb). by exists b.
Qed.

Lemma workspace_guards w : colon_free w = true → guards u (ManagerOfWorkspace w) (λ name, name = u) (check_workspace_manage_permission now http w).
Proof.
  intros Hw s Hs. unfold check_workspace_manage_permission, require_workspace. rewrite M_bind_run.
  destruct (identify_run (HTTPException 403 "Authentication required") s Hs) as (b&->&Hb).
  destruct b; [split; [done|]; split; [by left|done]|].
  destruct MLFLOW_ENABLE_WORKSPACES eqn:E; cbn [negb].
  2:{ split; [done|]. split; [|done]. intros [|[? _]]; [done|congruence]. }
  rewrite M_bind_run in_world_run. destruct Hs as (_&Hco&_).
  destruct (get_workspace_permission_cached_spec u w (au_world s) Hco E Hw) as (w'&->&_&Hdb). cbn [fst snd].
  destruct (lookup_workspace_total u w (w_db (au_world s))) as [o Ho]. rewrite Ho.
  assert (∀ p, o = Some p → can_manage p = true → permitted (ManagerOfWorkspace w) u (au_db s)) as Hyes.
  { intros p -> Hp. right. split; [done|]. by exists p. }
  assert ((∀ p, o = Some p → can_manage p = false) → ¬ permitted (ManagerOfWorkspace w) u (au_db s)) as Hno.
  { intros Hall [|(_&p&Hl&Hp)]; [done|]. unfold au_db in Hl. rewrite Ho in Hl. injection Hl as ->. by rewrite (Hall p eq_refl) in Hp. }
  destruct o as [p|]; [destruct (can_manage p) eqn:Hp|]; (split; [by split|]); cbn [fst].
  - split; [by eapply Hyes|done].
  - split; [apply Hno; by intros ? [= <-]|done].
  - split; [by apply Hno|done].
Qed.

(** ** A request, served *)

(** There is a reply. A write is answered with success exactly when the sender may
    make it and its program succeeds, and does what the program does; else nothing
    changes, and the status says why. *)
Definition settled_by {A} (w : option (need * M db audit_event)) (s : auth_state) (served_request : outcome (reply A) * auth_state) : Prop :=
  ∃ answer, served_request.1 = Ok answer ∧
    match w, answer with
    | None, _ => untouched s served_request.2
    | Some (n, program), Replied _ _ => permitted n u (au_db s) ∧
        ∃ e, program (au_db s) = (Ok e, au_db served_request.2) ∧ au_audit served_request.2 = au_audit s ++ [e]
    | Some (n, program), Failed status =>
        untouched s served_request.2 ∧ (refused n u (au_db s) → status = 403) ∧
        (permitted n u (au_db s) → ∃ x, (program (au_db s)).1 = Raise x ∧ status = exc_status x)
    end.

Lemma settled_program {A B} status n program (dependency : auth A) ok (handler : A → auth B) s :
  guards u n ok dependency → (∀ a, ok a → carries_out program (handler a)) → served u s →
  settled_by (Some (n, program)) s (respond status (a ← dependency; handler a) s).
Proof.
  intros Hg Hw Hs. unfold respond, settled_by. rewrite catch_run !M_bind_run. destruct (Hg s Hs) as [[E1 E2] Hok].
  destruct (dependency s) as [[a|e] s1]; cbn in *.
  2:{ eexists. split; [done|]. cbn. split; [by split|]. destruct Hok as [Hno H403]. split; [apply H403|]. intros Hp. by destruct Hno. }
  destruct Hok as [Hp Ha]. pose proof (Hw a Ha s1) as Hh. rewrite E1 in Hh. specialize (Hh (proj1 Hs)).
  destruct (handler a s1) as [[b|e] s2]; cbn; (eexists; split; [done|]).
  - split; [done|]. destruct Hh as (l&Hr&Hl). exists l. by rewrite Hr Hl E2.
  - destruct Hh as [[U1 U2] Hb]. split; [split; congruence|]. split; [intros [Hno _]; by destruct Hno|]. intros _. by exists e.
Qed.

Lemma settled_look {A} status (m : auth A) s : observes m → settled_by None s (respond status m s).
Proof.
  intros Hm. unfold respond, settled_by. rewrite catch_run M_bind_run. specialize (Hm s). destruct (m s) as [[a|e] s1]; cbn; (eexists; split; [done|done]).
Qed.

Lemma observes_identify failure : observes (identify now http failure).
Proof.
  intros s. unfold identify. rewrite catch_run M_bind_run (get_username_run _ _ _ Hsent) M_bind_run.
  pose proof (get_is_admin_observed now http u Hsent s) as Hs. destruct (get_is_admin now http s) as [[b|e] s1]; cbn in Hs; by subst s1.
Qed.
Lemma observes_require_workspace w allowed detail : observes (require_workspace now http w allowed detail).
Proof.
  unfold require_workspace. apply observes_bind; [apply observes_identify|]. intros [name [|]]; [done|]. destruct (negb _); [done|].
  apply observes_bind; [apply observes_world; intros w0; apply cached_workspace_keeps_db|]. intros [p|]; [|done]. by destruct (allowed p).
Qed.

Lemma quiet_invalidate username w w0 : (invalidate_workspace_permission username w w0).1 = Ok tt ∧ w_db (invalidate_workspace_permission username w w0).2 = w_db w0.
Proof. done. Qed.
Lemma quiet_flush w0 : (flush_workspace_cache w0).1 = Ok tt ∧ w_db (flush_workspace_cache w0).2 = w_db w0.
Proof. done. Qed.

Ltac carry_step :=
  lazymatch goal with
  | |- carries_out (checked _ _) _ => apply carries_out_checked
  | |- carries_out (then_line _ _) _ => apply carries_out_call; [reflexivity|reflexivity|intros ?]
  | |- says _ (in_world _ ≫= _) => apply says_after; [first [apply quiet_invalidate|apply quiet_flush]|]
  | |- says _ (_ ≫= _) => apply says_answer
  | |- says _ _ => apply says_emit
  end.

(** C22: Every request to the 16 endpoints that manage the permissions and the
    patterns of workspaces gets a reply. A write is answered with success
    exactly when its sender is an administrator or, for a permission, manages
    the workspace while workspaces are enabled, and when the level is one of the
    five and the store's operation succeeds; then the database is what that
    operation makes of it and the audit log has exactly one more line, with the
    sender, the row and what it was given. In every other case both are
    untouched, and the status is 403 or that of the operation's own failure. *)
Theorem workspace_permission_requests_are_settled r s :
  served u s → (∀ w, asked_workspace r = Some w → colon_free w = true) →
  settled_by (workspace_spec u r) s (serve_workspace now http r s).
Proof.
  intros Hs Hw. destruct r; cbn [workspace_spec serve_workspace].
  all: try (apply settled_look, observes_bind; [first [apply observes_require_workspace|exact (observes_check_admin _ _ _ Hsent)]|intros ?];
    first [apply observes_store; read_store|apply observes_bind; [apply observes_store; read_store|done]]).
  all: eapply settled_program; [first [exact (admin_guards _ _ _ Hsent)|apply workspace_guards, Hw; reflexivity]| |exact Hs]; intros ? ->; repeat carry_step.
Qed.
End facts.

(** * What a request about accounts may do

    Every write is one operation of the user repository, so what holds of the
    histories of those operations holds here. *)
From S2P Require Import Ownership Permissions Regex RegexSafety Database Repositories RepositoryFacts RepositoryInvariant Users UserFacts Groups Sessions Cache Resolution.
From S2P Require Import ResolutionFacts Batch Store StoreFacts StoreCaches StoreCoherence Requests AfterRequest BeforeRequestFacts Validators TokenVerification Identity.
From S2P Require Import AuthMiddleware AuthFacts ProvisioningFacts ProviderRegistry Kubernetes DataFetching ApiModels FastApi RouterLib UserPermissions GroupPermissions Management.
From S2P Require Import ManagementFacts UsersRouter.
#[local] Open Scope Z_scope.

Section facts.
Context `{SqlBackend, PyRe, UserLibs, ColumnTyping, Config, TrackingStore}.
Context `{CacheBackend PermissionResult, CacheBackend Permission, TTLCache unit json, TTLCache provider_key json}.
Context `{TTLCache (string * string) bool}.
Context `{JsonLoads, Encodings, PodFiles, Network, JwtLib, TokenConfig, AuthConfig, ValidatorLibs, DateTimes}.
Abbreviation auth := (M auth_state).
Variable env : login_env.

(** ** The operations *)

Definition audited_of (s : auth_state) : audited := Audited (au_db s) (au_audit s).

(** Running an operation of the repository either does what [run_user_op] does, or
    fails and leaves the database. *)
Definition runs_op {A} (op : db → user_op) (m : auth A) : Prop := ∀ s, wf_db (au_db s) →
  match m s with
  | (Ok _, s') => au_db s' = a_db (run_user_op (op (au_db s)) (audited_of s))
  | (Raise _, s') => au_db s' = au_db s
  end.

Lemma update_fails enforcement now salt username c w e w' :
  wf_db (a_db w) → UserRepository.update enforcement now salt username c w = (Raise e, w') → a_db w' = a_db w.
Proof.
  intros Hwf. destruct (username_cases (a_db w) (normalize_username username) Hwf) as [(v&Hv&Hn)|Hno].
  - rewrite (update_run _ _ _ _ _ _ v) //. destruct (allowed _); [|by intros [= _ <-]].
    destruct (if decide (guarded c) then _ else _) as [[]|x]; [done|by intros [= _ <-]].
  - rewrite update_unknown //. by intros [= _ <-].
Qed.
Lemma delete_fails username w e w' : wf_db (a_db w) → UserRepository.delete username w = (Raise e, w') → a_db w' = a_db w.
Proof.
  intros Hwf. destruct (username_cases (a_db w) (normalize_username username) Hwf) as [(v&Hv&Hn)|Hno].
  - rewrite (delete_run _ _ v) //. destruct (UserRepository._assert_not_last_active_admin _ _); [done|by intros [= _ <-]].
  - rewrite delete_unknown //. by intros [= _ <-].
Qed.

Lemma runs_audited {A} op (m : M audited A) :
  (∀ w, wf_db (a_db w) → match m w with (Ok _, w') => a_db w' = a_db (run_user_op (op (a_db w)) w) | (Raise _, w') => a_db w' = a_db w end) →
  runs_op op (in_audited m).
Proof.
  intros Hop s Hwf. rewrite in_audited_run. specialize (Hop (audited_of s) Hwf). fold (audited_of s).
  by destruct (m (audited_of s)) as [[a|e] w'].
Qed.
Definition update_op (username : string) (c : user_update) : user_op := UpdateUser (le_enforcement env) (le_now env) (le_salt env) username c.
Lemma runs_update username c :
  runs_op (λ _, update_op username c) (in_audited (SqlAlchemyStore.update_user (le_enforcement env) (le_now env) (le_salt env) username c)).
Proof.
  apply runs_audited. intros w Hwf. cbn [run_user_op update_op]. destruct (SqlAlchemyStore.update_user _ _ _ _ _ w) as [[a|e] w'] eqn:Hm.
  - unfold SqlAlchemyStore.update_user in Hm. by rewrite Hm.
  - exact (update_fails _ _ _ _ _ _ _ _ Hwf Hm).
Qed.
Lemma runs_delete username : runs_op (λ _, DeleteUser username) (in_audited (SqlAlchemyStore.delete_user username)).
Proof.
  apply runs_audited. intros w Hwf. cbn [run_user_op]. destruct (SqlAlchemyStore.delete_user _ w) as [[a|e] w'] eqn:Hm.
  - unfold SqlAlchemyStore.delete_user in Hm. by rewrite Hm.
  - exact (delete_fails _ _ _ _ Hwf Hm).
Qed.

(** What [create_user] comes down to. *)
Definition create_op (d : db) (username display_name : string) (is_admin is_sa : bool) : user_op :=
  if decide (filter (λ u, u_username u = normalize_username username) (users d) = [])
  then CreateUser (le_salt env) username (le_token env) display_name is_admin is_sa
  else update_op username (refresh is_admin is_sa None).

Lemma create_user_op username display_name is_admin is_sa w :
  wf_db (a_db w) →
  let op := create_op (a_db w) username display_name is_admin is_sa in
  match create_user env username display_name is_admin is_sa None w with
  | (Ok _, w') => a_db w' = a_db (run_user_op op w)
  | (Raise _, w') => a_db w' = a_db w
  end.
Proof.
  intros Hwf. unfold create_op. cbv zeta. case_decide as Hno.
  - rewrite create_user_unknown; [|by apply unknown_of_filter]. cbn [run_user_op].
    rewrite (on_db_run (UserRepository.create _ _ _ _ _ _)) create_run. destruct (_validate_username _); [|done]. cbv zeta. by case_decide.
  - unfold create_user. rewrite catch_run M_bind_run on_db_run.
    destruct (username_cases (a_db w) (normalize_username username) Hwf) as [(v&Hv&Hn)|Hnone].
    2:{ exfalso. apply Hno, filter_nil_iff. exact Hnone. }
    assert (UserRepository.get_profile username (a_db w) = (Ok (UserRow (u_id v) (u_username v) (u_display_name v) "REDACTED" (u_password_expiration v)
           (u_is_admin v) (u_is_service_account v) (u_active v) (u_managed_by v), UserRepository.groups_of v (a_db w)), a_db w)) as ->.
    { unfold UserRepository.get_profile. cbv zeta. rewrite managed_run M_bind_run ask_run -Hn (filter_username _ _ Hwf Hv). done. }
    cbn [fst snd]. rewrite M_bind_run. replace (Audited (a_db w) (audit w)) with w by (by destruct w).
    unfold update_op. cbn [run_user_op]. destruct (UserRepository.update _ _ _ _ _ w) as [[u|e] w'] eqn:Hup; [done|].
    pose proof (update_fails _ _ _ _ _ _ _ _ Hwf Hup) as Hd. rewrite -Hd.
    assert (e ≠ MlflowException RESOURCE_DOES_NOT_EXIST) as Hne.
    { rewrite (update_run _ _ _ _ _ _ v) // in Hup. destruct (allowed _); [|by injection Hup as <- _].
      destruct (if decide (guarded _) then _ else _) as [[]|x] eqn:Hg; [done|]. injection Hup as <- _.
      case_decide; [|done]. unfold UserRepository._assert_not_last_active_admin in Hg. destruct (negb _); [done|]. case_decide; [|done]. by injection Hg as <-. }
    by rewrite decide_False.
Qed.

Lemma runs_create username display_name is_admin is_sa :
  runs_op (λ d, create_op d username display_name is_admin is_sa) (in_audited (create_user env username display_name is_admin is_sa None)).
Proof. apply runs_audited. intros w Hwf. by apply create_user_op. Qed.

(** What comes before and after the operation. *)
Definition ends_well {A} (m : auth A) : Prop := ∀ s, ∃ a s', m s = (Ok a, s') ∧ au_db s' = au_db s.
Lemma ends_emit e : ends_well (emit_audit_event e).
Proof. intros s. by do 2 eexists. Qed.
Lemma ends_ret {A} (a : A) : ends_well (mret a).
Proof. intros s. by do 2 eexists. Qed.
Lemma ends_bind {A B} (m : auth A) (f : A → auth B) : ends_well m → (∀ a, ends_well (f a)) → ends_well (m ≫= f).
Proof.
  intros Hm Hf s. rewrite M_bind_run. destruct (Hm s) as (a&s1&->&Hd1). destruct (Hf a s1) as (b&s2&->&Hd2). exists b, s2. split; [done|]. congruence.
Qed.

Lemma runs_then {A B} op (m : auth A) (k : A → auth B) : runs_op op m → (∀ a, ends_well (k a)) → runs_op op (m ≫= k).
Proof.
  intros Hm Hk s Hwf. rewrite M_bind_run. specialize (Hm s Hwf). destruct (m s) as [[a|e] s1]; [|done].
  destruct (Hk a s1) as (b&s2&->&Hd). by rewrite Hd.
Qed.
Lemma runs_after {A B} op (m : auth A) (k : A → auth B) : observes m → (∀ a, runs_op op (k a)) → runs_op op (m ≫= k).
Proof.
  intros Hm Hk s Hwf. rewrite M_bind_run. specialize (Hm s). destruct (m s) as [[a|e] s1]; destruct Hm as [E1 E2]; [|done].
  specialize (Hk a s1). cbn in E1, E2. rewrite E1 in Hk. specialize (Hk Hwf). assert (audited_of s1 = audited_of s) as Hsame by (unfold audited_of; by rewrite E1 E2).
  destruct (k a s1) as [[b|e] s2]; [by rewrite Hk Hsame|done].
Qed.
Lemma runs_or_http {A} op status detail (m : auth A) : runs_op op m → runs_op op (or_http status detail m).
Proof. intros Hm s Hwf. unfold or_http. rewrite catch_run. specialize (Hm s Hwf). by destruct (m s) as [[a|e] s1]. Qed.
Lemma runs_http_or {A} op status detail (m : auth A) : runs_op op m → runs_op op (http_or status detail m).
Proof. intros Hm s Hwf. unfold http_or. rewrite catch_run. specialize (Hm s Hwf). destruct (m s) as [[a|e] s1]; [done|]. by destruct e. Qed.

Lemma observes_profile_or_404 username : observes (profile_or_404 username).
Proof. unfold profile_or_404. apply observes_catch; [apply observes_store; read_store|]. intros []; done. Qed.

Lemma runs_known {A B} op (a : A) (k : A → auth B) : runs_op op (k a) → runs_op op (lift (Ok a) ≫= k).
Proof. done. Qed.

Lemma observes_profile username : observes (profile_of username).
Proof. apply observes_or_http, observes_bind; [apply observes_store; read_store|by intros []]. Qed.

(** ** The handlers *)

Lemma token_runs tr cu is_admin target expiration :
  token_target tr cu is_admin = Ok target → requested_expiration env tr = Ok expiration →
  runs_op (λ _, update_op target (new_secret (le_token env) expiration)) (create_access_token env tr cu is_admin).
Proof.
  intros Ht He. unfold create_access_token. rewrite Ht He. apply runs_http_or, runs_known, runs_known.
  apply runs_after; [apply observes_profile_or_404|intros [user groups]]. cbv zeta.
  apply runs_then; [apply runs_update|intros row]. apply ends_bind; [apply ends_emit|intros ?; apply ends_ret].
Qed.

Lemma token_fails tr cu is_admin e :
  (token_target tr cu is_admin = Raise e ∨ ∃ t, token_target tr cu is_admin = Ok t ∧ requested_expiration env tr = Raise e) →
  ∀ s, create_access_token env tr cu is_admin s = (Raise e, s).
Proof.
  intros Hcases s. unfold create_access_token, http_or. rewrite catch_run M_bind_run lift_run.
  assert (token_target tr cu is_admin = Raise e ∨ requested_expiration env tr = Raise e → ∃ st detail, e = HTTPException st detail) as Hhttp.
  { intros [He|He].
    - unfold token_target in He. destruct (r ← tr; _); [|done]. destruct (negb _ && _); [|done]. injection He as <-. by eexists _, _.
    - unfold requested_expiration in He. destruct (r ← tr; _); [|done]. destruct (fromisoformat _); [|by injection He as <-; eexists _, _].
      destruct (_ <? _); [by injection He as <-; eexists _, _|]. destruct (_ <? _); [by injection He as <-; eexists _, _|done]. }
  destruct Hcases as [Ht|(t&Ht&He)].
  - destruct (Hhttp (or_introl Ht)) as (st&detail&->). by rewrite Ht.
  - destruct (Hhttp (or_intror He)) as (st&detail&->). by rewrite Ht M_bind_run lift_run He.
Qed.

Lemma create_runs r admin_username :
  runs_op (λ d, create_op d (cu_username r) (cu_display_name r) (cu_is_admin r) (cu_is_service_account r)) (create_new_user env r admin_username).
Proof.
  unfold create_new_user. apply runs_or_http, runs_then; [apply runs_create|]. intros []; [|apply ends_ret].
  apply ends_bind; [apply ends_emit|intros ?; apply ends_ret].
Qed.

Lemma ownership_runs username managed_by admin_username :
  is_owner managed_by = true → runs_op (λ _, update_op username (owned_by managed_by)) (set_user_ownership env username managed_by admin_username).
Proof.
  intros Ho. unfold set_user_ownership. rewrite Ho. cbn [negb]. apply runs_after; [apply observes_profile_or_404|intros _].
  apply runs_after; [apply observes_store; read_store|intros [user groups]]. cbv zeta.
  apply runs_then; [apply runs_update|intros row]. apply ends_bind; [apply ends_emit|intros ?; apply ends_ret].
Qed.

Lemma delete_runs username admin_username : runs_op (λ _, DeleteUser username) (delete_user username admin_username).
Proof.
  unfold delete_user. apply runs_http_or, runs_after; [apply observes_store; read_store|intros _].
  apply runs_then; [apply runs_delete|intros ?; apply ends_emit].
Qed.

(** ** The requests *)

Definition target_of (u : string) (tr : option CreateAccessTokenRequest) : string := default u (r ← tr; nonempty (tr_username r)).
(** Requests that need no administrator. *)
Definition own_request (u : string) (r : UsersRequest) : bool :=
  match r with
  | ask_create_access_token tr => bool_decide (target_of u tr = u)
  | ask_list_users _ | ask_get_current_user_information => true
  | _ => false
  end.
(** The operation a request stands for. *)
Definition account_write (u : string) (r : UsersRequest) : option (db → user_op) :=
  match r with
  | ask_create_access_token tr =>
      match requested_expiration env tr with Ok expiration => Some (λ _, update_op (target_of u tr) (new_secret (le_token env) expiration)) | Raise _ => None end
  | ask_create_new_user c => Some (λ d, create_op d (cu_username c) (cu_display_name c) (cu_is_admin c) (cu_is_service_account c))
  | ask_set_user_ownership username managed_by => if is_owner managed_by then Some (λ _, update_op username (owned_by managed_by)) else None
  | ask_delete_user username => Some (λ _, DeleteUser username)
  | _ => None
  end.

Variables (http : FastApiRequest) (u : string).
Hypothesis Hsent : sent_by u http.

Definition done_by {A} (write : option (db → user_op)) (allowed : Prop) (s : auth_state) (run : outcome (reply A) * auth_state) : Prop :=
  ∃ answer, run.1 = Ok answer ∧
  match answer with
  | Failed _ => au_db run.2 = au_db s
  | Replied _ _ => allowed ∧ au_db run.2 = match write with None => au_db s | Some op => a_db (run_user_op (op (au_db s)) (audited_of s)) end
  end.

(** [respond] and [respond_as] are both of this form. *)
Definition reply_with {A B} (f : A → reply B) (m : auth A) : auth (reply B) := catch (a ← m; mret (f a)) (λ e, mret (Failed (exc_status e))).
Definition answers {A B} (f : A → reply B) : Prop := ∀ a, ∃ status b, f a = Replied status b.
Lemma answers_status {A} status : answers (@Replied A status).
Proof. intros a. by eexists _, _. Qed.
Lemma answers_as : answers (λ status, Replied status tt).
Proof. intros a. by eexists _, _. Qed.

Lemma done_fail {A B} (f : A → reply B) write allowed (m : auth A) s e s' :
  m s = (Raise e, s') → au_db s' = au_db s → done_by write allowed s (reply_with f m s).
Proof. intros Hm Hd. unfold reply_with, done_by. rewrite catch_run M_bind_run Hm. by eexists. Qed.
Lemma done_ok {A B} (f : A → reply B) write (allowed : Prop) (m : auth A) s a s' :
  answers f → m s = (Ok a, s') → allowed → au_db s' = match write with None => au_db s | Some op => a_db (run_user_op (op (au_db s)) (audited_of s)) end →
  done_by write allowed s (reply_with f m s).
Proof.
  intros Hf Hm Ha Hd. unfold reply_with, done_by. rewrite catch_run M_bind_run Hm. destruct (Hf a) as (status&b&Hfa).
  exists (f a). split; [done|]. by rewrite Hfa.
Qed.
Lemma done_look {A B} (f : A → reply B) (allowed : Prop) (m : auth A) s : answers f → observes m → allowed → done_by None allowed s (reply_with f m s).
Proof.
  intros Hf Hm Ha. destruct (Hm s) as [Hd _]. destruct (m s) as [[a|e] s1] eqn:E; [exact (done_ok f None allowed m s a s1 Hf E Ha Hd)|exact (done_fail f None allowed m s e s1 E Hd)].
Qed.
Lemma done_run {A B} (f : A → reply B) op (allowed : Prop) (m : auth A) s :
  answers f → wf_db (au_db s) → allowed → runs_op op m → done_by (Some op) allowed s (reply_with f m s).
Proof.
  intros Hf Hwf Ha Hm. specialize (Hm s Hwf). destruct (m s) as [[a|e] s1] eqn:E;
    [exact (done_ok f (Some op) allowed m s a s1 Hf E Ha Hm)|exact (done_fail f (Some op) allowed m s e s1 E Hm)].
Qed.

Lemma sender_run {A} (k : string → bool → auth A) s :
  served u s → ∃ b, (if b : bool then is_administrator u (au_db s) else ¬ is_administrator u (au_db s)) ∧
    (current_username ← get_username (le_now env) http; is_admin ← get_is_admin (le_now env) http; k current_username is_admin) s = k u b s.
Proof.
  intros Hs. destruct (get_is_admin_run (le_now env) http u Hsent s Hs) as (b&Hb&Hadm). exists b. split; [done|].
  by rewrite M_bind_run (get_username_run _ _ _ Hsent) M_bind_run Hb.
Qed.

Lemma admin_run {A} (k : string → auth A) s :
  served u s →
  (is_administrator u (au_db s) ∧ (a ← check_admin_permission (le_now env) http; k a) s = k u s) ∨
  (¬ is_administrator u (au_db s) ∧ (a ← check_admin_permission (le_now env) http; k a) s = (Raise (HTTPException 403 ADMIN_REQUIRED), s)).
Proof.
  intros Hs. destruct (get_is_admin_run (le_now env) http u Hsent s Hs) as (b&Hb&Hadm).
  unfold check_admin_permission, identify. rewrite !M_bind_run catch_run M_bind_run (get_username_run _ _ _ Hsent) M_bind_run Hb M_ret_run.
  destruct b; [by left|by right].
Qed.

Lemma done_admin {A B} (f : A → reply B) (write : option (db → user_op)) (k : string → auth A) s :
  served u s → (∀ allowed : Prop, allowed → done_by write allowed s (reply_with f (k u) s)) →
  done_by write (false = true ∨ is_administrator u (au_db s)) s (reply_with f (a ← check_admin_permission (le_now env) http; k a) s) ∧
  (false = false → ¬ is_administrator u (au_db s) → (reply_with f (a ← check_admin_permission (le_now env) http; k a) s).1 = Ok (Failed 403)).
Proof.
  intros Hs Hk. destruct (admin_run k s Hs) as [[Ha Hrun]|[Hna Hrun]].
  - split; [|done]. specialize (Hk _ (or_intror Ha : false = true ∨ _)). unfold reply_with in *. rewrite catch_run M_bind_run Hrun. by rewrite catch_run M_bind_run in Hk.
  - split; [exact (done_fail f _ _ _ _ _ _ Hrun eq_refl)|]. intros _ _. unfold reply_with. by rewrite catch_run M_bind_run Hrun.
Qed.

Lemma target_cases tr b :
  token_target tr u b = if b || bool_decide (target_of u tr = u) then Ok (target_of u tr) else Raise (HTTPException 403 ADMIN_REQUIRED).
Proof.
  unfold token_target, target_of. destruct (r ← tr; _) as [t|]; cbn; [|by rewrite bool_decide_true // orb_true_r].
  destruct b, (bool_decide (t = u)) eqn:E; cbn; try done.
Qed.

Lemma done_token tr s :
  served u s →
  let run := respond 200 (current_username ← get_username (le_now env) http; is_admin ← get_is_admin (le_now env) http;
    create_access_token env tr current_username is_admin) s in
  done_by (account_write u (ask_create_access_token tr)) (own_request u (ask_create_access_token tr) = true ∨ is_administrator u (au_db s)) s run ∧
  (own_request u (ask_create_access_token tr) = false → ¬ is_administrator u (au_db s) → run.1 = Ok (Failed 403)).
Proof.
  intros Hs. cbv zeta. destruct (sender_run (create_access_token env tr) s Hs) as (b&Hadm&Hrun).
  change (respond 200 ?m) with (reply_with (Replied 200) m). cbn [own_request account_write]. pose proof (target_cases tr b) as Ht.
  destruct (b || bool_decide (target_of u tr = u)) eqn:Hallowed.
  - split.
    2:{ intros Hno Hna. destruct b; [done|]. cbn in Hallowed. by rewrite Hno in Hallowed. }
    assert (bool_decide (target_of u tr = u) = true ∨ is_administrator u (au_db s)) as Ha by (destruct b; [by right|left; exact Hallowed]).
    destruct (requested_expiration env tr) as [expiration|e] eqn:He.
    + pose proof (token_runs tr u b _ _ Ht He s (proj1 Hs)) as Hdone. rewrite -Hrun in Hdone.
      match type of Hdone with match ?r with _ => _ end => destruct r as [[a|e] s1] eqn:E end.
      * eapply done_ok; [apply answers_status|exact E|exact Ha|exact Hdone].
      * eapply done_fail; [exact E|exact Hdone].
    + eapply done_fail; [|reflexivity]. rewrite Hrun. apply token_fails. right. exists (target_of u tr). split; [exact Ht|exact He].
  - assert (∀ s0, create_access_token env tr u b s0 = (Raise (HTTPException 403 ADMIN_REQUIRED), s0)) as Hfail by (apply token_fails; by left).
    rewrite Hfail in Hrun. split; [exact (done_fail _ _ _ _ _ _ _ Hrun eq_refl)|]. intros _ _. unfold reply_with. by rewrite catch_run M_bind_run Hrun.
Qed.

(** C21: Every request to the endpoints for accounts gets a reply. One that
    fails leaves the database alone. One that succeeds comes from an
    administrator, or concerns the sender's own token, own profile or the list
    of names; and it does to the database exactly what one operation of the user
    repository does, or nothing where it only reads. So the database stays well
    formed and keeps an active administrator. Without the right, the answer is
    403. *)
Theorem account_requests_are_user_operations r s :
  served u s →
  let run := serve_users env http r s in
  done_by (account_write u r) (own_request u r = true ∨ is_administrator u (au_db s)) s run ∧
  (own_request u r = false → ¬ is_administrator u (au_db s) → run.1 = Ok (Failed 403)) ∧
  wf_db (au_db run.2) ∧ (has_active_admin (au_db s) → has_active_admin (au_db run.2)).
Proof.
  intros Hs. cbv zeta.
  assert (done_by (account_write u r) (own_request u r = true ∨ is_administrator u (au_db s)) s (serve_users env http r s) ∧
    (own_request u r = false → ¬ is_administrator u (au_db s) → (serve_users env http r s).1 = Ok (Failed 403))) as [Hdone H403].
  { destruct r as [tr|service|c|username managed_by|username| |username]; cbn [serve_users account_write own_request].
    - exact (done_token tr s Hs).
    - split; [|done]. apply (done_look (Replied 200)); [apply answers_status| |by left].
      apply observes_bind; [exact (observes_get_username _ _ _ Hsent)|intros ?]. apply observes_or_http, observes_store. read_store.
    - apply (done_admin (λ status, Replied status tt) _ (create_new_user env c)); [exact Hs|intros allowed Ha].
      apply done_run; [apply answers_as|exact (proj1 Hs)|exact Ha|apply create_runs].
    - apply (done_admin (Replied 200) _ (set_user_ownership env username managed_by)); [exact Hs|intros allowed Ha]. destruct (is_owner managed_by) eqn:Ho.
      + apply done_run; [apply answers_status|exact (proj1 Hs)|exact Ha|by apply ownership_runs].
      + apply done_look; [apply answers_status| |exact Ha]. intros s0. unfold set_user_ownership. by rewrite Ho.
    - apply (done_admin (Replied 200) _ (delete_user username)); [exact Hs|intros allowed Ha].
      apply done_run; [apply answers_status|exact (proj1 Hs)|exact Ha|apply delete_runs].
    - split; [|done]. apply (done_look (Replied 200)); [apply answers_status| |by left].
      apply observes_bind; [exact (observes_get_username _ _ _ Hsent)|intros ?]. apply observes_profile.
    - apply (done_admin (Replied 200) _ (get_user_information username)); [exact Hs|intros allowed Ha].
      apply done_look; [apply answers_status|apply observes_profile|exact Ha]. }
  split; [exact Hdone|]. split; [exact H403|]. destruct Hdone as (answer&_&Hanswer). pose proof (proj1 Hs) as Hwf.
  assert (au_db (serve_users env http r s).2 = au_db s ∨ ∃ op, au_db (serve_users env http r s).2 = a_db (run_user_op op (audited_of s))) as [-> |[op ->]].
  { destruct answer; [|by left]. destruct Hanswer as [_ ->]. destruct (account_write u r) as [op|]; [right; by eexists|by left]. }
  - done.
  - split; [by apply (run_user_op_wf op (audited_of s))|intros Ha; by apply (run_user_op_admin op (audited_of s))].
Qed.

(** ** Tokens *)

Lemma token_made tr cu is_admin s t s' :
  wf_db (au_db s) → create_access_token env tr cu is_admin s = (Ok t, s') →
  tc_token t = le_token env ∧ ∃ target v, token_target tr cu is_admin = Ok target ∧ v ∈ users (au_db s) ∧ u_username v = normalize_username target.
Proof.
  unfold create_access_token, http_or. intros Hwf [Hrun|(e&s1&_&Hrun)]%catch_cases; [|by destruct e].
  apply M_bind_ok in Hrun as (target&s1&[Ht ->]%lift_ok&Hrun). apply M_bind_ok in Hrun as (expiration&s2&[_ ->]%lift_ok&Hrun).
  apply M_bind_ok in Hrun as ([user groups]&s3&Hprofile&Hrun). pose proof (observes_profile_or_404 target s) as [Hd _]. rewrite Hprofile in Hd. cbn in Hd.
  apply M_bind_ok in Hrun as (row&s4&Hup&Hrun). apply M_bind_ok in Hrun as (?&s5&_&[-> _]%ret_ok). split; [done|]. exists target.
  destruct (username_cases (au_db s) (normalize_username target) Hwf) as [(v&Hv&Hn)|Hno]; [by exists v|].
  rewrite in_audited_run in Hup. unfold SqlAlchemyStore.update_user in Hup. by rewrite update_unknown // Hd in Hup.
Qed.

Definition with_token (expiration : option datetime) (v : user_row) : user_row :=
  UserRow (u_id v) (u_username v) (u_display_name v) (generate_password_hash TOKEN_HASH_METHOD (le_salt env) (le_token env)) (column_datetime <$> expiration)
    (u_is_admin v) (u_is_service_account v) (u_active v) (u_managed_by v).

(** What a request asks for: nothing, or the moment its text names, which lies in
    the next 366 days. *)
Definition asked_for (tr : option CreateAccessTokenRequest) (expiration : option datetime) : Prop :=
  match r ← tr; nonempty (tr_expiration r), expiration with
  | None, None => True
  | Some text, Some e =>
      (∃ t, fromisoformat (utc_offset text) = Some t ∧ instant e = instant t) ∧ is_Some (utcoffset e) ∧
      le_now env ≤ instant e ≤ le_now env + MAX_TOKEN_LIFETIME
  | _, _ => False
  end.

Lemma requested_asked_for tr expiration : requested_expiration env tr = Ok expiration → asked_for tr expiration.
Proof.
  unfold requested_expiration, asked_for. destruct (r ← tr; _) as [text|]; [|by intros [= <-]].
  destruct (fromisoformat _) as [x|]; [|done]. cbv zeta.
  destruct (_ <? le_now env) eqn:E1; [done|]. destruct (_ <? instant _) eqn:E2; [done|]. intros [= <-].
  split; [by exists x|]. split; [by eexists|]. lia.
Qed.

(** C34: A token that was given out is its user's, and its user's alone: no row
    changes but that of the account named in the request, or else of the sender,
    which gets a new hash and, as its expiration, what a column without time
    zone keeps of the moment requested. That moment is in the next 366 days.
    From then on the token signs that user in exactly as long as the column,
    read as UTC, has not passed; that is up to the moment requested wherever the
    column keeps that moment (on SQLite and MySQL, which drop an offset, when it
    is given in UTC). Without an expiration it is good until it is replaced. *)
Theorem a_new_token_signs_its_user_in tr s status t s' :
  served u s → serve_users env http (ask_create_access_token tr) s = (Ok (Replied status t), s') →
  ∃ v expiration, v ∈ users (au_db s) ∧ u_username v = normalize_username (target_of u tr) ∧
    users (au_db s') = replace_row v (with_token expiration v) (users (au_db s)) ∧
    asked_for tr expiration ∧
    (∀ later, (UserRepository.authenticate later (target_of u tr) (tc_token t) (au_db s')).1 =
      Ok (match expiration with Some e => bool_decide (later ≤ column_datetime e) | None => true end)) ∧
    (∀ e, expiration = Some e → column_datetime e = instant e → ∀ later,
      (UserRepository.authenticate later (target_of u tr) (tc_token t) (au_db s')).1 = Ok (bool_decide (later ≤ instant e))).
Proof.
  intros Hs Hrun.
  destruct (sender_run (create_access_token env tr) s Hs) as (b&Hadm&Hk). cbn [serve_users] in Hrun. unfold respond in Hrun. rewrite catch_run M_bind_run Hk in Hrun.
  destruct (create_access_token env tr u b s) as [[t'|e] s1] eqn:Hmade; [|done]. rewrite M_ret_run in Hrun. injection Hrun as <- -> ->.
  destruct (token_made _ _ _ _ _ _ (proj1 Hs) Hmade) as (->&target&v&Ht&Hv&Hn).
  assert (target = target_of u tr) as -> by (rewrite target_cases in Ht; by case_match; simplify_eq).
  destruct (requested_expiration env tr) as [expiration|e] eqn:He.
  2:{ rewrite (token_fails tr u b e) in Hmade; [done|]. right. exists (target_of u tr). by split. }
  pose proof (token_runs tr u b _ _ Ht He s (proj1 Hs)) as Hd. rewrite Hmade in Hd. cbn [run_user_op update_op] in Hd.
  rewrite (update_run _ _ _ _ _ (audited_of s) v (proj1 Hs) Hv Hn) in Hd.
  assert (allowed (write_decision (le_enforcement env) (new_secret (le_token env) expiration) v) = true) as Hallowed.
  { unfold write_decision, evaluate_write. cbv zeta. cbn. match goal with |- context [decide (?a ∨ ?b)] => by destruct (decide (a ∨ b)) end. }
  rewrite Hallowed in Hd. destruct (decide (guarded _)) as [[|]|_] in Hd; [done|done|]. cbn [snd a_db] in Hd.
  assert (users (au_db s') = replace_row v (with_token expiration v) (users (au_db s))) as Husers by (by rewrite Hd).
  exists v, expiration.
  enough (∀ later, (UserRepository.authenticate later (target_of u tr) (le_token env) (au_db s')).1 =
    Ok (match expiration with Some e => bool_decide (later ≤ column_datetime e) | None => true end)) as Hlogin.
  { split_and!; [done|done|exact Husers|by apply requested_asked_for|exact Hlogin|]. intros e -> Heq later. by rewrite Hlogin Heq. }
  intros later.
  assert (wf_db (au_db s')) as Hwf' by (rewrite Hd; by apply wf_updated_db, Hs).
  assert (with_token expiration v ∈ users (au_db s')) as Hin by (rewrite Husers; apply list_elem_of_fmap; exists v; by rewrite decide_True).
  destruct (authenticate_spec later (target_of u tr) (le_token env) (au_db s') Hwf') as (ok&Hauth&Hiff). rewrite Hauth. cbn. f_equal.
  apply eq_true_iff_eq. rewrite Hiff. split.
  - intros (w&Hw&Hnw&Hexp&_). assert (w = with_token expiration v) as -> by (apply (user_unique_name (au_db s')); [done|done|done|by rewrite Hnw -Hn]).
    destruct expiration as [e|]; [|done]. apply bool_decide_eq_true. by apply Hexp.
  - intros Hexp. exists (with_token expiration v). split_and!; [done|done| |apply check_generated].
    destruct expiration as [e|]; [|done]. cbn. intros ? [= <-]. by apply bool_decide_eq_true in Hexp.
Qed.
End facts.

(** * Requests about accounts and workspaces on the sample database *)
From S2P Require Import Samples UserFacts Groups Sessions Cache Resolution ResolutionFacts Batch Store SampleMlflow Requests Validators Hooks AfterRequest BeforeRequest.
From S2P Require Import AfterRequestFacts Kubernetes ProviderRegistry RegistryFacts TokenVerification TokenFacts Identity AuthMiddleware AuthFacts ProvisioningFacts AuthWitnesses.
From S2P Require Import DataFetching ApiModels FastApi RouterLib UserPermissions GroupPermissions Management ManagementFacts ManagementWitnesses WorkspaceRouters UsersRouter.
#[local] Open Scope Z_scope.

#[export] Instance sample_times : DateTimes | 100 := {|
  fromisoformat s :=
    if decide (s = "1970-01-01T01:23:20+00:00") then Some (Datetime 5000 (Some 0))
    else if decide (s = "1970-01-01T01:23:20") then Some (naive 5000)
    else if decide (s = "1971-01-02T02:00:00+02:00") then Some (Datetime (366 * 86400 + 7200) (Some 7200))
    else None;
  isoformat t :=
    match utcoffset t with Some 0 => "1970-01-01T01:23:20+00:00" | Some _ => "1971-01-02T02:00:00+02:00" | None => "1970-01-01T01:23:20" end;
|}.

(** ** Workspaces *)

Definition ws_grant : WorkspaceRequest := ask_create_workspace_user_permission (MkWorkspaceUserRequest "bob" "EDIT") "ws2".
Lemma workspace_permission_requests_are_settled_witness :
  settled_by "alice" (workspace_spec "alice" ws_grant) started (serve_workspace 100 (request_of "alice" true) ws_grant started) ∧
  (serve_workspace 100 (request_of "alice" true) ws_grant started).1 = Ok (Replied 201 (MkWorkspaceUser "ws2" "bob" "EDIT")).
Proof.
  split; [|vm_compute; reflexivity].
  apply (workspace_permission_requests_are_settled 100 (request_of "alice" true) "alice"); [by apply sent|exact alice_served|by intros w [= <-]].
Defined.

(** A member of the group that manages [ws1] has a grant of his own, which comes
    first in the configured order. *)
Lemma own_grants_come_first :
  (serve_workspace 100 (request_of "bob" false) (ask_delete_workspace_user_permission "ws1" "bob") started).1 = Ok (Failed 403).
Proof. vm_compute. reflexivity. Qed.

(** ** Accounts *)

Definition bob_goes : UsersRequest := ask_delete_user "bob".
Lemma account_requests_are_user_operations_witness :
  (done_by (account_write env "alice" bob_goes) (own_request "alice" bob_goes = true ∨ is_administrator "alice" (au_db started)) started
     (serve_users env (request_of "alice" true) bob_goes started) ∧
   (own_request "alice" bob_goes = false → ¬ is_administrator "alice" (au_db started) →
      (serve_users env (request_of "alice" true) bob_goes started).1 = Ok (Failed 403)) ∧
   wf_db (au_db (serve_users env (request_of "alice" true) bob_goes started).2) ∧
   (has_active_admin (au_db started) → has_active_admin (au_db (serve_users env (request_of "alice" true) bob_goes started).2))) ∧
  (serve_users env (request_of "alice" true) bob_goes started).1 = Ok (Replied 200 tt).
Proof.
  split; [|vm_compute; reflexivity].
  apply (account_requests_are_user_operations env (request_of "alice" true) "alice"); [by apply sent|exact alice_served].
Defined.

Definition rotation : option CreateAccessTokenRequest := Some (MkTokenRequest None (Some "1970-01-01T01:23:20Z")).
Definition rotated : outcome (reply TokenCreated) * auth_state := serve_users env (request_of "bob" false) (ask_create_access_token rotation) started.
Lemma a_new_token_signs_its_user_in_witness :
  ∃ v expiration, v ∈ users (au_db started) ∧ u_username v = normalize_username (target_of "bob" rotation) ∧
    users (au_db rotated.2) = replace_row v (with_token env expiration v) (users (au_db started)) ∧
    asked_for env rotation expiration ∧
    (∀ later, (UserRepository.authenticate later (target_of "bob" rotation) "random" (au_db rotated.2)).1 =
      Ok (match expiration with Some e => bool_decide (later ≤ column_datetime e) | None => true end)) ∧
    (∀ e, expiration = Some e → column_datetime e = instant e → ∀ later,
      (UserRepository.authenticate later (target_of "bob" rotation) "random" (au_db rotated.2)).1 = Ok (bool_decide (later ≤ instant e))).
Proof.
  apply (a_new_token_signs_its_user_in env (request_of "bob" false) "bob" (sent "bob" false ltac:(done) eq_refl) rotation started 200
    (MkToken "random" "Token for bob has been created")); [exact bob_served|].
  change (rotated = (Ok (Replied 200 (MkToken "random" "Token for bob has been created")), rotated.2)).
  rewrite [LHS]surjective_pairing. by apply (f_equal2 pair); [vm_compute|].
Defined.

(** The offset of the request is lost in the column of SQLite: of a token asked for
    with one that lies ahead of UTC, the row shows the local time, which is read
    back as UTC. This one, asked for at the limit of 366 days, is good for two
    hours more than the router lets anyone ask for. *)
Definition local_rotation : option CreateAccessTokenRequest := Some (MkTokenRequest None (Some "1971-01-02T02:00:00+02:00")).
Lemma a_local_time_outlives_the_limit :
  let limit := le_now env + MAX_TOKEN_LIFETIME in
  let s' := (serve_users env (request_of "bob" false) (ask_create_access_token local_rotation) started).2 in
  (∃ e, requested_expiration env local_rotation = Ok (Some e) ∧ instant e = 366 * 86400 ∧ instant e ≤ limit) ∧
  (UserRepository.authenticate (366 * 86400 + 7200) "bob" "random" (au_db s')).1 = Ok true ∧ limit < 366 * 86400 + 7200.
Proof.
  cbv zeta. split; [|split; [vm_compute; reflexivity|by vm_compute]]. eexists. split; [vm_compute; reflexivity|]. split; [reflexivity|by vm_compute].
Qed.

(** Creating an account that exists refreshes its flags, and the router leaves no
    line: here an administrator stops being one. *)
Definition carol : user_row := UserRow 3 "carol" "Carol" "pw" None true false true "manual".
Definition two_admins : auth_state :=
  AuthState (fresh_world (set_users (λ us, us ++ [carol]) sample_db)) [] no_keys (∅ : gmap (string * string) bool) None None.
Definition recreated : outcome (reply unit) * auth_state :=
  serve_users env (request_of "alice" true) (ask_create_new_user (MkUserRequest "carol" "Carol" false false)) two_admins.
Lemma recreating_an_account_demotes_it :
  recreated.1 = Ok (Replied 200 tt) ∧ au_audit recreated.2 = [] ∧
  filter (λ v, u_username v = "carol") (users (au_db recreated.2)) = [UserRow 3 "carol" "Carol" "pw" None false false true "manual"].
Proof. split_and!; vm_compute; reflexivity. Qed.
