(* ===== verification/SignInFacts.v ===== *)
(** * What signing in can and cannot do

    The login flow ends where it may: on this site, with a session only for the
    account that the provider of the browser's own attempt vouched for. *)
From S2P Require Import Prelude PyStrings Json Ownership Permissions Regex RegexSafety Database Repositories RepositoryFacts Users Groups Sessions Cache Resolution Store StoreFacts StoreCoherence.
From S2P Require Import Requests Validators Kubernetes ProviderRegistry TokenVerification Identity AuthMiddleware AuthFacts ManagementFacts.
From S2P Require Import RedirectUri OAuthClients SignIn.
From Stdlib Require Import Ascii.
#[local] Open Scope Z_scope.

(** ** Redirect targets *)

(** What a browser reads of a location: leading blanks and any tabs and line
    ends are dropped. *)
Definition browser_text (url : string) : string := remove_chars UNSAFE_URL_BYTE (drop_while C0_CONTROL_OR_SPACE url).
Definition slash_like (c : ascii) : bool := bool_decide (c = "/"%char ∨ c = backslash).

(** It leaves the site that sent it: it has a scheme of its own, or begins with
    two slashes, for which a browser takes backslashes too. *)
Definition leaves_site (url : string) : bool :=
  negb (String.eqb (split_scheme (browser_text url)).1 "") ||
  match browser_text url with String a (String b _) => slash_like a && slash_like b | _ => false end.

Definition acceptable_next (t : string) : bool :=
  startswith t "/" && negb (startswith t "//") && negb (has_char backslash t) && all_chars (λ c, negb (FORBIDDEN_IN_NEXT c)) t.

Lemma remove_chars_id gone s : all_chars (λ c, negb (gone c)) s = true → remove_chars gone s = s.
Proof. induction s as [|c s IH]; [done|]. cbn. intros [Hc Hs]%andb_true_iff. apply negb_true_iff in Hc. by rewrite Hc IH. Qed.

Lemma all_chars_impl (p q : ascii → bool) s : (∀ c, p c = true → q c = true) → all_chars p s = true → all_chars q s = true.
Proof. intros Hpq. unfold all_chars. rewrite !forallb_forall. auto. Qed.

Lemma unsafe_is_forbidden c : UNSAFE_URL_BYTE c = true → FORBIDDEN_IN_NEXT c = true.
Proof. unfold UNSAFE_URL_BYTE, FORBIDDEN_IN_NEXT. rewrite !bool_decide_eq_true. rewrite !elem_of_cons. tauto. Qed.

Lemma starts_slash t : startswith t "/" = true → ∃ rest, t = String "/" rest.
Proof. intros Hs%startswith_drop. exists (drop_str 1 t). exact Hs. Qed.
Lemma starts_slashes rest : startswith (String "/" (String "/" rest)) "//" = true.
Proof. by destruct rest. Qed.

Lemma browser_text_path t :
  startswith t "/" = true → all_chars (λ c, negb (FORBIDDEN_IN_NEXT c)) t = true → browser_text t = t.
Proof.
  intros [rest ->]%starts_slash Hc. unfold browser_text.
  change (drop_while C0_CONTROL_OR_SPACE (String "/" rest)) with (String "/" rest). apply remove_chars_id.
  eapply all_chars_impl; [|exact Hc]. intros c. rewrite !negb_true_iff. intros Hf. apply not_true_is_false. intros Hu%unsafe_is_forbidden. congruence.
Qed.

Lemma split_scheme_path t : startswith t "/" = true → split_scheme t = ("", t).
Proof. intros [rest ->]%starts_slash. unfold split_scheme. by destruct (py_split_once _ _) as [[]|]. Qed.

Lemma has_char_second c s t : has_char c (String s (String c t)) = true.
Proof. unfold has_char. cbn. rewrite (bool_decide_true (c = c)) //. by rewrite orb_true_r. Qed.

Lemma acceptable_stays t : acceptable_next t = true → leaves_site t = false.
Proof.
  unfold acceptable_next. rewrite !andb_true_iff !negb_true_iff. intros [[[Hs Hss] Hb] Hc]. unfold leaves_site.
  rewrite browser_text_path // split_scheme_path //. apply starts_slash in Hs as [[|b rest] ->]; [done|]. cbn [fst String.eqb negb orb].
  apply not_true_is_false. intros [_ [-> | ->]%bool_decide_eq_true]%andb_true_iff.
  - by rewrite starts_slashes in Hss.
  - by rewrite has_char_second in Hb.
Qed.

Section sanitize.
Context `{UrlLib}.

Lemma urlparse_path t :
  startswith t "/" = true → startswith t "//" = false → all_chars (λ c, negb (FORBIDDEN_IN_NEXT c)) t = true →
  ∃ p, urlparse t = Ok p ∧ scheme (parsed p) = "" ∧ netloc (parsed p) = "".
Proof.
  intros Hs Hss Hc. assert (∃ sp, urlsplit t = Ok sp ∧ scheme sp = "" ∧ netloc sp = "") as (sp&Hsp&Hscheme&Hnet).
  { unfold urlsplit. fold (browser_text t). rewrite browser_text_path // split_scheme_path //. cbv zeta. rewrite Hss. cbn [has_char existsb String.list_ascii_of_string Bool.eqb negb andb].
    destruct (partition "#" t) as [u f]. destruct (partition "?" u) as [v q]. by eexists. }
  unfold urlparse. rewrite Hsp. cbn [mbind outcome_bind]. case_decide; [|by exists (MkParse sp "")].
  destruct (_splitparams _) as [path ps]. by exists (MkParse (set_url_path path sp) ps).
Qed.

(** The prefix and character checks decide; the check of the parsed URL after them
    never fails, and never raises. *)
Lemma sanitize_next_run value :
  _sanitize_next value = Ok (match nonempty value with Some t => if acceptable_next t then Some t else None | None => None end).
Proof.
  unfold _sanitize_next. destruct (nonempty value) as [t|]; [|done]. unfold acceptable_next.
  destruct (startswith t "/") eqn:Hs; [|done]. destruct (startswith t "//") eqn:Hss; [done|]. destruct (has_char backslash t); [done|].
  destruct (all_chars _ t) eqn:Hc; [|done]. destruct (urlparse_path t Hs Hss Hc) as (p&->&Hscheme&Hnet). cbn [mbind outcome_bind].
  rewrite decide_False //. intros [?|?]; congruence.
Qed.
End sanitize.

(** ** What a login flow may do to attempts and sessions *)

(** No attempt is added, and no session that is live is new. *)
Definition tamed (d d' : db) : Prop :=
  (∀ r, r ∈ auth_states d' → r ∈ auth_states d) ∧
  (∀ x, x ∈ auth_sessions d' → s_revoked_at x = None → x ∈ auth_sessions d).

#[export] Instance tamed_preorder : PreOrder tamed.
Proof. split; [by split|]. intros d1 d2 d3 [H1 H2] [H3 H4]. split; [by eauto|]. intros x Hx Hn. by apply H2; [apply H4|]. Qed.

(** The tables of attempts and sessions are the same. *)
Definition apart (d d' : db) : Prop := auth_states d' = auth_states d ∧ auth_sessions d' = auth_sessions d.
Lemma apart_tamed d d' : apart d d' → tamed d d'.
Proof. intros [E1 E2]. split; by rewrite ?E1 ?E2. Qed.

#[export] Hint Extern 2 (tamed _ _) => apply apart_tamed; split; reflexivity : within.

Section tamed.
Context `{SqlBackend, UserLibs}.

Lemma tamed_managed {A} (m : M db A) : within tamed m → within tamed (managed m).
Proof. intros Hm d. rewrite managed_run. specialize (Hm d). by destruct (m d) as [[a|e] d']. Qed.
Lemma tamed_modify (f : db → db) : (∀ d, apart d (f d)) → within tamed (modify f).
Proof. intros Hf d. apply apart_tamed, Hf. Qed.

Lemma tamed_get_user n : within tamed (get_user n).
Proof. intros d. reflexivity. Qed.
Lemma tamed_get_group n : within tamed (get_group n).
Proof. intros d. reflexivity. Qed.
Lemma tamed_find_user n : within tamed (AuthSessionRepository.find_user n).
Proof. intros d. reflexivity. Qed.
Lemma tamed_memberships f : within tamed (GroupRepository.write_memberships f).
Proof. intros d. unfold GroupRepository.write_memberships. case_match; apply apart_tamed; by split. Qed.
Lemma tamed_add_identity i : within tamed (UserIdentityRepository.add_identity i).
Proof. intros d. unfold UserIdentityRepository.add_identity. case_match; apply apart_tamed; by split. Qed.

Lemma tamed_revoke_where now (P : auth_session_row → Prop) `{∀ s, Decision (P s)} d :
  tamed d (set_auth_sessions (UserRepository.revoke_where now P) d).
Proof.
  split; [done|]. intros x. cbn. unfold UserRepository.revoke_where. intros (y&->&Hy)%list_elem_of_fmap Hx. by case_decide.
Qed.

(** On the audited database. *)
Lemma on_db_tamed {A} (m : M db A) : within tamed m → within (via a_db tamed) (on_db m).
Proof. intros Hm w. unfold via, on_db. specialize (Hm (a_db w)). by destruct (m (a_db w)) as [o d]. Qed.
Lemma emit_tamed e : within (via a_db tamed) (emit e).
Proof. intros w. unfold via. reflexivity. Qed.
Lemma managed_audited_tamed {A} (m : M audited A) : within (via a_db tamed) m → within (via a_db tamed) (managed_audited m).
Proof. intros Hm w. unfold managed_audited. specialize (Hm w). destruct (m w) as [[a|e] w']; [done|]. unfold via. reflexivity. Qed.
End tamed.

#[export] Hint Resolve tamed_get_user tamed_get_group tamed_find_user tamed_memberships tamed_add_identity emit_tamed : within.
#[export] Hint Extern 4 (within tamed (managed _)) => apply tamed_managed : within.

Ltac tamed_step :=
  first [ within_step | apply tamed_managed | apply on_db_tamed | apply managed_audited_tamed
        | apply within_modify; intros ?; solve [auto with within | apply tamed_revoke_where] ].

Section operations.
Context `{SqlBackend, PyRe, UserLibs, ColumnTyping}.

Lemma tamed_exist n : within tamed (UserRepository.exist n).
Proof. unfold UserRepository.exist. repeat tamed_step. Qed.
Lemma tamed_get_profile n : within tamed (UserRepository.get_profile n).
Proof. unfold UserRepository.get_profile. repeat tamed_step. Qed.
Lemma tamed_create salt username password display_name is_admin is_service :
  within tamed (UserRepository.create salt username password display_name is_admin is_service).
Proof.
  unfold UserRepository.create, already_exists_on_conflict. cbv zeta. repeat tamed_step.
  intros d. case_match; apply apart_tamed; by split.
Qed.
Lemma tamed_insert_group n : within tamed (GroupRepository.insert_group n).
Proof. intros d. unfold GroupRepository.insert_group. case_match; apply apart_tamed; by split. Qed.
Lemma tamed_create_groups names : within tamed (GroupRepository.create_groups names).
Proof.
  unfold GroupRepository.create_groups. apply tamed_managed. induction names as [|n names IH]; cbn [GroupRepository.create_missing]; [by repeat tamed_step|].
  repeat tamed_step. apply tamed_insert_group.
Qed.
Lemma tamed_set_groups username names : within tamed (GroupRepository.set_groups_for_user username names).
Proof.
  unfold GroupRepository.set_groups_for_user. cbv zeta. apply tamed_managed. apply within_bind; [apply _|apply tamed_get_user|intros user].
  apply within_bind; [apply _|intros d; reflexivity|intros old]. apply within_bind; [apply _|apply tamed_memberships|intros _].
  induction (dict_fromkeys names) as [|n rest IH]; cbn [GroupRepository.add_memberships]; repeat tamed_step.
Qed.
Lemma tamed_identity p subject : within tamed (UserIdentityRepository.get_username_by_identity p subject).
Proof. unfold UserIdentityRepository.get_username_by_identity. repeat tamed_step. Qed.
Lemma tamed_providers n : within tamed (UserIdentityRepository.list_providers_for_username n).
Proof. unfold UserIdentityRepository.list_providers_for_username. repeat tamed_step. Qed.
Lemma tamed_link p subject username more : within tamed (UserIdentityRepository.link p subject username more).
Proof. unfold UserIdentityRepository.link. cbv zeta. repeat tamed_step. Qed.
Lemma tamed_list_groups n : within tamed (GroupRepository.list_groups_for_user n).
Proof. unfold GroupRepository.list_groups_for_user. repeat tamed_step. Qed.
Lemma tamed_revoke now id : within tamed (AuthSessionRepository.revoke now id).
Proof. unfold AuthSessionRepository.revoke, AuthSessionRepository.revoke_rows. repeat tamed_step. Qed.

Lemma tamed_workspace_grant ws username permission : within tamed (WorkspacePermissions.create ws username permission).
Proof.
  assert (respects (same_outside Workspaces) (WorkspacePermissions.create ws username permission)) as Hr by frame.
  intros d. destruct (Hr d) as (_&_&_&_&Hsessions&Hstates&_). by apply apart_tamed.
Qed.

#[local] Hint Resolve tamed_exist tamed_get_profile tamed_create tamed_create_groups tamed_set_groups tamed_identity tamed_providers tamed_link
  tamed_list_groups tamed_revoke on_db_tamed : within.

(** *** On the audited database *)

Lemma tamed_update enforcement now salt username c : within (via a_db tamed) (UserRepository.update enforcement now salt username c).
Proof. unfold UserRepository.update, UserRepository.revoke_sessions. cbv zeta. repeat tamed_step. Qed.
#[local] Hint Resolve tamed_update : within.

Lemma tamed_create_user env username display_name is_admin is_service written_by :
  within (via a_db tamed) (create_user env username display_name is_admin is_service written_by).
Proof. unfold create_user. repeat tamed_step. Qed.
#[local] Hint Resolve tamed_create_user : within.

Lemma tamed_refuse p subject reason : within (via a_db tamed) (_refuse p subject reason).
Proof. unfold _refuse. repeat tamed_step. Qed.
#[local] Hint Resolve tamed_refuse : within.
Lemma tamed_link_or_create p subject username : within (via a_db tamed) (link_or_create p subject username).
Proof. unfold link_or_create. repeat tamed_step. Qed.
#[local] Hint Resolve tamed_link_or_create : within.
Lemma tamed_resolve_identity p subject c username : within (via a_db tamed) (resolve_identity p subject c username).
Proof.
  unfold resolve_identity, _resolve_by_email. repeat tamed_step.
Qed.
#[local] Hint Resolve tamed_resolve_identity : within.
Lemma tamed_policy p decision derived user_exists bound :
  (∀ n, within (via a_db tamed) (user_exists n)) → (∀ n, within (via a_db tamed) (bound n)) →
  within (via a_db tamed) (apply_provisioning_policy p decision derived user_exists bound).
Proof. intros He Hb. unfold apply_provisioning_policy. repeat (first [apply He|apply Hb|tamed_step]). Qed.
Lemma tamed_bind_identity p subject username : within (via a_db tamed) (bind_identity p subject username).
Proof. unfold bind_identity. repeat tamed_step. Qed.
#[local] Hint Resolve tamed_bind_identity : within.

Lemma tamed_admit env cfg p userinfo username display_name user_groups :
  within (via a_db tamed) (admission env cfg p userinfo username display_name user_groups).
Proof.
  unfold admission, decide_identity. cbv zeta. repeat (first [apply tamed_policy; intros ?|tamed_step]).
Qed.
End operations.

(** ** The flow *)

Section flow.
Context `{SqlBackend, PyRe, UserLibs, ColumnTyping, Config, TrackingStore}.
Context `{CacheBackend PermissionResult, CacheBackend Permission, TTLCache unit json, TTLCache provider_key json}.
Context `{TTLCache (string * string) bool}.
Context `{TokenConfig, AuthConfig, ValidatorLibs}.
Context `{UrlLib, AuthlibOAuth, OAuthConfig, SignInConfig, MlflowWorkspaces}.
Variables (env : login_env) (state_token session_token : string).

#[local] Hint Resolve tamed_exist tamed_get_profile tamed_create tamed_create_groups tamed_set_groups tamed_identity tamed_providers tamed_link
  tamed_list_groups tamed_revoke tamed_update tamed_create_user tamed_admit tamed_workspace_grant : within.

(** The target that the cookie remembers. *)
Definition cookie_target (a : auth_state) : option json := c ← au_session a; c !! "redirect_after_login".
Definition calm (a a' : auth_state) : Prop := tamed (au_db a) (au_db a') ∧ (cookie_target a' = cookie_target a ∨ cookie_target a' = None).
#[export] Instance calm_preorder : PreOrder calm.
Proof.
  split; [by split; [|left]|]. intros a1 a2 a3 [T12 C12] [T23 C23]. split; [etrans; [exact T12|exact T23]|].
  destruct C23 as [->|]; [exact C12|by right].
Qed.
Abbreviation calmly := (within (via si_auth calm)).

Lemma calm_in_auth {A} (m : M auth_state A) : within calm m → calmly (in_auth m).
Proof. intros Hm s. unfold via, in_auth. specialize (Hm (si_auth s)). by destruct (m (si_auth s)). Qed.
Lemma calm_in_oauth {A} (m : M oauth_state A) : calmly (in_oauth m).
Proof. intros s. unfold via, in_oauth. destruct (m (si_oauth s)). reflexivity. Qed.
Lemma calm_in_workspaces {A} (m : M workspace_store A) : calmly (in_workspaces m).
Proof. intros s. unfold via, in_workspaces. destruct (m (si_workspaces s)). reflexivity. Qed.
Lemma calm_session : calmly session.
Proof. intros s. reflexivity. Qed.

Lemma calm_in_store {A} (m : M db A) : within tamed m → within calm (in_store m).
Proof. intros Hm s. rewrite in_store_run. split; [|by left]. exact (Hm (au_db s)). Qed.
Lemma calm_in_audited {A} (m : M audited A) : within (via a_db tamed) m → within calm (in_audited m).
Proof. intros Hm s. unfold in_audited. specialize (Hm (Audited (au_db s) (au_audit s))). destruct (m _) as [o a]. split; [exact Hm|by left]. Qed.
Lemma calm_run_call c : within tamed (body c) → within calm (in_world (run_call c)).
Proof.
  intros Hm s. rewrite in_world_run. split; [|by left]. unfold au_db. cbn [au_world snd]. unfold run_call.
  destruct (called _ _ (body c) (au_world s)) as [[a|e] w] eqn:Hc; cbn [snd].
  - apply called_ok in Hc. pose proof (Hm (w_db (au_world s))) as Ht. by rewrite Hc in Ht.
  - apply called_raise in Hc as (d&Hd&->). pose proof (Hm (w_db (au_world s))) as Ht. by rewrite Hd in Ht.
Qed.
Lemma calm_emit e : within calm (emit_audit_event e).
Proof. apply calm_in_audited, emit_tamed. Qed.

(** A change of the cookie that leaves the target alone, or drops it. *)
Definition keeps_target (c c' : claims) : Prop := c' !! "redirect_after_login" = c !! "redirect_after_login" ∨ c' !! "redirect_after_login" = None.

Lemma session_cases s : session s = (match si_session s with Some c => Ok c | None => Raise AssertionError end, s).
Proof. done. Qed.

Lemma calm_put {A} (f : claims → claims) (k : claims → M signin_state A) :
  (∀ c, keeps_target c (f c)) → (∀ c, calmly (k c)) → calmly (c ← session; _ ← put_session (f c); k c).
Proof.
  intros Hf Hk s. rewrite M_bind_run session_cases. destruct (si_session s) as [c|] eqn:Hs; [|reflexivity].
  rewrite M_bind_run. etrans; [|apply Hk]. split; [reflexivity|]. unfold cookie_target. cbn. unfold si_session in Hs. rewrite Hs. apply Hf.
Qed.

Lemma calm_put_last (f : claims → claims) : (∀ c, keeps_target c (f c)) → calmly (c ← session; put_session (f c)).
Proof.
  intros Hf s. rewrite M_bind_run session_cases. destruct (si_session s) as [c|] eqn:Hs; [|reflexivity].
  split; [reflexivity|]. unfold cookie_target. cbn. unfold si_session in Hs. rewrite Hs. apply Hf.
Qed.
Lemma calm_clear : calmly (put_session ∅).
Proof. intros s. split; [reflexivity|]. by right. Qed.

Lemma calm_by_client {A} (m : M (oauth * claims) A) :
  (∀ x c, (m (x, c)).2.2 !! "redirect_after_login" = c !! "redirect_after_login") → calmly (by_client m).
Proof.
  intros Hm s. unfold by_client. rewrite M_bind_run session_cases. destruct (si_session s) as [c|] eqn:Hs; [|reflexivity].
  rewrite M_bind_run gets_run. specialize (Hm (os_oauth (si_oauth s)) c). destruct (m _) as [o [x' c']]. cbn in Hm.
  split; [reflexivity|]. left. unfold cookie_target, si_session in *. cbn. by rewrite Hs.
Qed.

Lemma keeps_delete c key : key ≠ "redirect_after_login" → keeps_target c (delete key c).
Proof. intros Hk. left. by apply lookup_delete_ne. Qed.

Lemma calm_revoke id : calmly (revoke_session env id).
Proof.
  unfold revoke_session. apply within_bind; [apply _| |intros _; apply within_ret, _]. apply calm_in_auth.
  destruct (le_outage env) as [e|]; apply calm_in_store; [by intros d|exact (tamed_revoke _ _)].
Qed.

Lemma calm_retire : calmly (_retire_previous_login env).
Proof.
  apply (calm_put (λ c, foldr delete c _LOGIN_SESSION_KEYS) (λ c,
    let previous_session_id := get_key "session_id" c in
    if negb (json_truthy previous_session_id) then mret tt
    else catch (
      id ← lift (match previous_session_id with JStr id => Ok id | _ => Raise TypeError end);
      revoke_session env id) (λ _, mret tt))).
  - intros c. left. unfold _LOGIN_SESSION_KEYS. cbn [foldr]. by rewrite !lookup_delete_ne.
  - intros c. cbv zeta. case_match; [apply within_ret, _|]. repeat (first [apply calm_revoke|within_step]).
Qed.

Lemma persist_keeps_target now c token_response c' : _persist_session_auth now c token_response = Ok c' → keeps_target c c'.
Proof.
  unfold _persist_session_auth. intros (expiry&_&Hc)%outcome_bind_ok. injection Hc as <-. left.
  destruct OIDC_USE_REFRESH_TOKEN, expiry; repeat case_match; repeat (rewrite lookup_insert_ne // || rewrite lookup_delete_ne //).
Qed.

Lemma calm_persist token_response : calmly (persist_session env token_response).
Proof.
  intros s. unfold persist_session. rewrite M_bind_run session_cases. destruct (si_session s) as [c|] eqn:Hs; [|reflexivity].
  rewrite M_bind_run lift_run. destruct (_persist_session_auth _ _ _) as [c'|e] eqn:Hp; [|reflexivity].
  split; [reflexivity|]. unfold cookie_target. cbn. unfold si_session in Hs. rewrite Hs. exact (persist_keeps_target _ _ _ _ Hp).
Qed.

Lemma calm_ensure_workspace n : calmly (ensure_workspace n).
Proof. unfold ensure_workspace. repeat (first [apply calm_in_workspaces|within_step]). Qed.

Lemma calm_assign_workspaces username names : calmly (assign_workspaces username names).
Proof.
  induction names as [|n names IH]; cbn [assign_workspaces]; [apply within_ret, _|]. case_match; [exact IH|].
  apply within_bind; [apply _|apply calm_ensure_workspace|intros _]. apply within_bind; [apply _| |intros _; exact IH].
  apply within_catch; [apply _| |intros _; apply within_ret, _]. apply calm_in_auth, calm_run_call. cbn [body]. unfold discard.
  apply within_bind; [apply _| |intros _; apply within_ret, _].
  apply tamed_managed, within_bind; [apply _|apply tamed_get_user|intros user; apply tamed_workspace_grant].
Qed.

Lemma calm_sync_groups p user_groups username is_new : calmly (sync_groups p user_groups username is_new).
Proof.
  unfold sync_groups, _current_groups. apply within_bind; [apply _| |intros current].
  { repeat within_step. apply calm_in_auth, calm_in_store, tamed_list_groups. }
  apply within_bind; [apply _|apply within_lift, _|intros [names|]]; [|apply within_ret, _].
  apply within_bind; [apply _| |intros _]; [apply calm_in_auth, calm_in_store, tamed_create_groups|].
  apply calm_in_auth, calm_run_call. cbn [body]. unfold discard.
  apply within_bind; [apply _|exact (tamed_set_groups _ _)|intros _; apply within_ret, _].
Qed.

Lemma calm_manage_user p access_token userinfo username display_name : calmly (manage_user env p access_token userinfo username display_name).
Proof.
  unfold manage_user. apply within_bind; [apply _|apply within_lift, _|intros user_groups].
  apply within_bind; [apply _|apply calm_in_auth, calm_in_audited, tamed_admit|intros [e|[name is_new]]]; [apply within_ret, _|].
  apply within_bind; [apply _|apply calm_sync_groups|intros _]. apply within_bind; [apply _| |intros _; apply within_ret, _].
  case_match; [apply calm_assign_workspaces|apply within_ret, _].
Qed.

Lemma calm_call_exchange req provider_id : calmly (_call_authorize_access_token req provider_id).
Proof.
  unfold _call_authorize_access_token, _client_for_exchange. apply within_bind; [apply _| |intros c].
  { repeat (first [apply calm_in_oauth|within_step]). }
  destruct (authorize_access_token c) as [exchange|] eqn:He; [|apply within_raise, _].
  apply calm_by_client. intros x cookie. by apply (authorize_access_token_keeps c).
Qed.

Lemma calm_exchange_code req p : calmly (exchange_code env req p).
Proof.
  unfold exchange_code, _authorize_access_token_with_key_refresh, _refresh_oidc_jwks, _client_for_exchange.
  repeat (first [apply calm_call_exchange|apply calm_manage_user|apply calm_persist|apply calm_in_oauth|within_step]).
Qed.

(** ** Where a login may send the browser *)

Definition harmless (t : string) : Prop := t = "" ∨ acceptable_next t = true.
(** Every remembered target was one that [_sanitize_next] lets through. *)
Definition safe (a : auth_state) : Prop :=
  (∀ r t, r ∈ auth_states (au_db a) → st_relay_state r = Some t → harmless t) ∧
  (∀ v, cookie_target a = Some v → v = JNull ∨ ∃ t, v = JStr t ∧ harmless t).

Lemma calm_safe a a' : calm a a' → safe a → safe a'.
Proof.
  intros [[Hstates _] Htarget] [Hrows Hcookie]. split; [eauto|]. intros v Hv. apply Hcookie. destruct Htarget; congruence.
Qed.

Lemma calmly_safe {A} (m : M signin_state A) s : calmly m → safe (si_auth s) → safe (si_auth (m s).2).
Proof. intros Hm. apply calm_safe, Hm. Qed.

(** *** Taking the attempt back *)

Lemma consume_run now state d :
  ∃ o, (AuthStateRepository.consume now state d).1 = o ∧ tamed d (AuthStateRepository.consume now state d).2 ∧
    ∀ attempt, o = Ok (Some attempt) → ∃ r, r ∈ auth_states d ∧ st_state r = state ∧ now < st_expires_at r ∧
      attempt = MkAttempt state (or_default (st_provider_id r) "") (st_relay_state r) ∧
      ∀ x, x ∈ auth_states (AuthStateRepository.consume now state d).2 → st_state x ≠ state.
Proof.
  eexists. split; [done|]. unfold AuthStateRepository.consume. case_decide; [by split; [reflexivity|]|]. rewrite managed_run.
  unfold AuthStateRepository.consume_read. rewrite !M_bind_run ask_run.
  destruct (query_one_or_none _) as [[r|]|e] eqn:Hq; [|by split; [reflexivity|]|by split; [reflexivity|]].
  apply query_one_or_none_ok in Hq. destruct (filter_singleton _ _ _ Hq) as [Hr Hstate].
  rewrite M_ret_run. cbn [fmap option_fmap option_map]. rewrite M_bind_run. unfold AuthStateRepository.consume_claim. rewrite M_bind_run gets_run M_bind_run modify_run !M_ret_run.
  cbn [fst snd]. split.
  - split; [|done]. intros x. cbn. by intros [_ Hx]%list_elem_of_filter.
  - intros attempt Ha. injection Ha as Ha. unfold AuthStateRepository.consume_result in Ha. case_decide; [done|]. case_bool_decide as Hexp; [done|].
    injection Ha as <-. exists r. split_and!; [done|done|lia|by rewrite Hstate|]. intros x. cbn. by intros [Hx _]%list_elem_of_filter.
Qed.

Lemma calm_consume now state : within calm (in_store (SqlAlchemyStore.consume_auth_state now state)).
Proof. apply calm_in_store. intros d. by destruct (consume_run now state d) as (o&_&Ht&_). Qed.

Lemma calm_attributed req provider_id attempt : calmly (attributed req provider_id attempt).
Proof. unfold attributed. repeat (first [apply calm_in_oauth|within_step]). Qed.

Lemma remember_target_safe attempt s :
  (∀ t, at_redirect_after_login attempt = Some t → harmless t) → safe (si_auth s) → safe (si_auth (remember_target attempt s).2).
Proof.
  intros Ha Hs. unfold remember_target. rewrite M_bind_run session_cases. destruct (si_session s) as [c|] eqn:Hc; [|done].
  destruct Hs as [Hrows Hcookie]. split; [done|]. intros v. unfold cookie_target. cbn. rewrite lookup_insert_eq. intros [= <-].
  destruct (nonempty (at_redirect_after_login attempt)) as [t|] eqn:Ht.
  - right. exists t. split; [done|]. apply Ha. unfold nonempty in Ht. destruct (at_redirect_after_login attempt) as [t'|]; [|done]. cbn in Ht. by case_decide; simplify_eq.
  - unfold get_key, get_or. destruct (c !! _) as [v|] eqn:Hv; [|by left]. apply Hcookie. unfold cookie_target, si_session in *. by rewrite Hc.
Qed.

(** What follows once the attempt is known. *)
Definition after_target (req : LoginRequest) (provider : ProviderConfig) : M signin_state (list string + string) :=
  _ ← _retire_previous_login env;
  if negb (truthy (query_get "code" req)) then mret (inl ["No authorization code received"]) else exchange_code env req provider.

Lemma calm_after_target req p : calmly (after_target req p).
Proof. unfold after_target. apply within_bind; [apply _|apply calm_retire|intros _]. case_match; [apply within_ret, _|apply calm_exchange_code]. Qed.

(** The attempt that this callback may complete, on the database [d] and with
    the OAuth clients [x]. *)
Definition own_attempt (req : LoginRequest) (provider_id : option string) (d : db) (x : oauth_state) (r : auth_state_row) (p : ProviderConfig) : Prop :=
  r ∈ auth_states d ∧ st_state r = default "" (query_get "state" req) ∧ le_now env < st_expires_at r ∧
  by_id (or_default (st_provider_id r) "") auth_providers = Some p ∧ pr_id p = default DEFAULT_PROVIDER_ID provider_id ∧
  ∃ supported, (_iss_parameter_supported p x).1 = Ok supported ∧
    validate_response_issuer (JArr (JStr <$> query_getlist "iss" req)) (issuer p) supported = Ok tt.

(** Two databases that differ in attempts and sessions at most: the accounts, the
    groups, the identities and the grants are the same. *)
Definition same_accounts (d d' : db) : Prop := ∃ f g, d' = set_auth_sessions f (set_auth_states g d).
#[export] Instance same_accounts_preorder : PreOrder same_accounts.
Proof.
  split; [by intros []; exists id, id|]. intros d1 d2 d3 (f1&g1&->) (f2&g2&->). by exists (f2 ∘ f1), (g2 ∘ g1).
Qed.

Lemma consume_same_accounts now state d : same_accounts d (AuthStateRepository.consume now state d).2.
Proof.
  unfold AuthStateRepository.consume. case_decide; [reflexivity|]. rewrite managed_run.
  unfold AuthStateRepository.consume_read. rewrite !M_bind_run ask_run.
  destruct (query_one_or_none _) as [[r|]|e]; [|reflexivity..]. rewrite M_ret_run. cbn [fmap option_fmap option_map].
  eexists id, _. by destruct d.
Qed.

Lemma attributed_ok req provider_id attempt s p s' :
  attributed req provider_id attempt s = (Ok (inr p), s') →
  by_id (at_provider_id attempt) auth_providers = Some p ∧ pr_id p = default DEFAULT_PROVIDER_ID provider_id ∧
  (∃ supported, (_iss_parameter_supported p (si_oauth s)).1 = Ok supported ∧
     validate_response_issuer (JArr (JStr <$> query_getlist "iss" req)) (issuer p) supported = Ok tt) ∧
  si_auth s' = si_auth s ∧ si_oauth s' = (_iss_parameter_supported p (si_oauth s)).2.
Proof.
  unfold attributed. destruct (by_id _ _) as [provider|]; [|by intros [? _]%ret_ok]. case_decide as Hid; [by intros [? _]%ret_ok|].
  intros (supported&s1&Hs&Hrun)%M_bind_ok. unfold in_oauth in Hs. destruct (_iss_parameter_supported _ _) as [o x] eqn:Hiss. injection Hs as -> <-.
  destruct (validate_response_issuer _ _ _) as [[]|e] eqn:Hv; [|destruct (decide (e = _)); [by apply ret_ok in Hrun as [? _]|done]].
  apply ret_ok in Hrun as [[= ->] ->]. rewrite Hiss. split_and!; [done|by apply dec_stable|by exists supported|done..].
Qed.

(** The callback stops before anything of the browser's changes; or the attempt
    is its own, and gone. *)
Lemma process_cases req provider_id s res s' :
  _process_oidc_callback_fastapi env req provider_id s = (res, s') →
  (via si_auth calm s s' ∧ ∀ u, res ≠ Ok (inr u)) ∨
  ∃ r p s1, own_attempt req provider_id (si_db s) (si_oauth s) r p ∧ via si_auth calm s s1 ∧ si_session s1 = si_session s ∧
    same_accounts (si_db s) (si_db s1) ∧ si_oauth s1 = (_iss_parameter_supported p (si_oauth s)).2 ∧
    (∀ x, x ∈ auth_states (si_db s1) → st_state x ≠ st_state r) ∧
    (_ ← remember_target (MkAttempt (st_state r) (or_default (st_provider_id r) "") (st_relay_state r)); after_target req p) s1 = (res, s').
Proof.
  unfold _process_oidc_callback_fastapi. case_match.
  { rewrite M_ret_run. intros [= <- <-]. left. by split; [reflexivity|]. }
  rewrite M_bind_run. destruct (in_auth _ s) as [[attempt|e] s1] eqn:Hc.
  2:{ intros [= <- <-]. left. split; [|done]. refine (within_step _ _ _ _ _ _ Hc). apply calm_in_auth, calm_consume. }
  assert (via si_auth calm s s1) as Hcalm by (eapply within_step, Hc; apply calm_in_auth, calm_consume).
  destruct attempt as [attempt|]; [|rewrite M_ret_run; intros [= <- <-]; by left].
  assert (∃ r, r ∈ auth_states (si_db s) ∧ st_state r = default "" (query_get "state" req) ∧ le_now env < st_expires_at r ∧
    attempt = MkAttempt (st_state r) (or_default (st_provider_id r) "") (st_relay_state r) ∧
    (∀ x, x ∈ auth_states (si_db s1) → st_state x ≠ st_state r) ∧ si_session s1 = si_session s ∧
    same_accounts (si_db s) (si_db s1) ∧ si_oauth s1 = si_oauth s) as (r&Hr&Hstate&Hexp&->&Hgone&Hsess&Hacc&Hx).
  { unfold in_auth in Hc. rewrite in_store_run in Hc.
    destruct (consume_run (le_now env) (default "" (query_get "state" req)) (au_db (si_auth s))) as (o&Ho&_&Hok).
    injection Hc as Ha <-. unfold SqlAlchemyStore.consume_auth_state in Ha. rewrite Ho in Ha. destruct (Hok _ Ha) as (r&Hr&Hstate&Hexp&->&Hgone).
    exists r. rewrite Hstate. split_and!; try done. apply consume_same_accounts. }
  rewrite M_bind_run. destruct (attributed _ _ _ s1) as [[[errors|p]|e] s2] eqn:Hat.
  - rewrite M_ret_run. intros [= <- <-]. left. split; [|done]. etrans; [exact Hcalm|]. refine (within_step _ _ _ _ _ _ Hat). apply calm_attributed.
  - pose proof Hat as (Hby&Hid&Hiss&Hsame&Hx2)%attributed_ok. rewrite Hx in Hiss Hx2. intros Hrun. right. exists r, p, s2.
    split_and!; [split_and!; try done| | | |exact Hx2| |exact Hrun].
    + unfold via. rewrite Hsame. exact Hcalm.
    + unfold si_session in *. by rewrite Hsame.
    + unfold si_db in *. by rewrite Hsame.
    + unfold si_db in *. by rewrite Hsame.
  - intros [= <- <-]. left. split; [|done]. etrans; [exact Hcalm|]. refine (within_step _ _ _ _ _ _ Hat). apply calm_attributed.
Qed.

(** *** Computations that keep the remembered targets safe *)

Definition keeps_safe (s s' : signin_state) : Prop := safe (si_auth s) → safe (si_auth s').
#[export] Instance keeps_safe_preorder : PreOrder keeps_safe.
Proof. split; [by intros s|]. intros s1 s2 s3 S12 S23. unfold keeps_safe. eauto. Qed.
Lemma safely {A} (m : M signin_state A) : calmly m → within keeps_safe m.
Proof. intros Hm s Hs. exact (calmly_safe m s Hm Hs). Qed.
Lemma within_known {A B} (R : relation signin_state) (a : A) (f : A → M signin_state B) : within R (f a) → within R (lift (Ok a) ≫= f).
Proof. done. Qed.

Lemma set_in_session_calm key v : key ≠ "redirect_after_login" → calmly (set_in_session key v).
Proof. intros Hk. apply (calm_put_last (λ c, <[key := v]> c)). intros c. left. by apply lookup_insert_ne. Qed.

Lemma landing_calm req : calmly (landing_page req).
Proof.
  apply (calm_put (delete "redirect_after_login") (λ c, mret (if json_truthy (get_key "redirect_after_login" c) then py_str (get_key "redirect_after_login" c)
    else if DEFAULT_LANDING_PAGE_IS_PERMISSIONS then _build_ui_url req "/user" [] else rstrip_char "/" (lr_base_url req)))).
  - intros c. right. apply lookup_delete_eq.
  - intros c. apply within_ret, _.
Qed.

Lemma created_states now token provider_id target lifetime d r :
  r ∈ auth_states (AuthStateRepository.create now token provider_id target lifetime d).2 → r ∈ auth_states d ∨ st_relay_state r = target.
Proof.
  unfold AuthStateRepository.create. cbv zeta. rewrite managed_run M_bind_run. unfold AuthStateRepository.add_state.
  destruct (flush_unique _ _) as [rows|e] eqn:Hf; [|by left]. rewrite M_ret_run. cbn.
  assert (rows = auth_states d ++ [AuthStateRow token (Some provider_id) target (now + lifetime)]) as ->
    by (unfold flush_unique in Hf; by case_decide; simplify_eq).
  intros [?| ->%list_elem_of_singleton]%elem_of_app; [by left|by right].
Qed.

Lemma create_state_safe now token provider_id target lifetime :
  (∀ t, target = Some t → harmless t) → within keeps_safe (in_auth (in_store (SqlAlchemyStore.create_auth_state now token provider_id target lifetime))).
Proof.
  intros Ht s [Hrows Hcookie]. unfold in_auth. rewrite in_store_run. split; [|exact Hcookie]. intros r t Hr Hrelay.
  destruct (created_states now token provider_id target lifetime (au_db (si_auth s)) r Hr) as [Hold|Hnew]; [by apply (Hrows r)|].
  apply Ht. congruence.
Qed.

Lemma created_session token username expires_at d :
  auth_states (AuthSessionRepository.create token username expires_at None d).2 = auth_states d ∧
  match AuthSessionRepository.create token username expires_at None d with
  | (Ok id, d') => id = token ∧ ∃ u, u ∈ users d ∧ u_username u = normalize_username username ∧
      users d' = users d ∧ auth_sessions d' = auth_sessions d ++ [AuthSessionRow token (u_id u) None expires_at None]
  | (Raise _, d') => d' = d
  end.
Proof.
  unfold AuthSessionRepository.create. cbv zeta. rewrite managed_run M_bind_run. unfold AuthSessionRepository.find_user. rewrite ask_run.
  destruct (query_one_or_none _) as [[u|]|e] eqn:Hq; [|done..]. apply query_one_or_none_ok in Hq.
  destruct (filter_singleton _ _ _ Hq) as [Hu Hname]. rewrite M_bind_run. unfold AuthSessionRepository.add_session.
  destruct (flush_unique _ _) as [rows|e] eqn:Hf; [|done]. rewrite M_ret_run. cbn. split; [done|]. split; [done|]. exists u. split_and!; try done.
  unfold flush_unique in Hf. by case_decide; simplify_eq.
Qed.

Lemma create_session_safe token username expires_at :
  within keeps_safe (in_auth (in_store (SqlAlchemyStore.create_auth_session token username expires_at None))).
Proof.
  intros s [Hrows Hcookie]. unfold in_auth. rewrite in_store_run. split; [|exact Hcookie]. intros r t Hr.
  apply Hrows. change (r ∈ auth_states (AuthSessionRepository.create token username expires_at None (au_db (si_auth s))).2) in Hr.
  by rewrite (proj1 (created_session _ _ _ _)) in Hr.
Qed.

Lemma redirect_calm c uri oauth_state : calmly (redirect_to_provider c uri oauth_state).
Proof.
  unfold redirect_to_provider. apply within_catch; [apply _| |intros e; repeat within_step].
  destruct (authorize_redirect c) as [authorize|] eqn:Ha; [|apply within_raise, _].
  apply within_bind; [apply _|apply calm_in_oauth|intros _]. apply calm_by_client. intros x cookie. by apply (authorize_redirect_keeps c).
Qed.

Lemma begin_safe req provider_id : within keeps_safe (_begin_login env state_token req provider_id).
Proof.
  unfold _begin_login. apply within_catch; [apply _| |intros e; repeat within_step].
  apply within_bind; [apply _|apply safely, calm_in_oauth|intros configured]. case_match; [apply within_raise, _|].
  apply within_bind; [apply _|apply safely, calm_session|intros _]. rewrite sanitize_next_run.
  apply within_known, within_bind; [apply _| |intros oauth_state].
  - apply create_state_safe. intros t Ht. right. destruct (nonempty _) as [t'|]; [|done]. destruct (acceptable_next t') eqn:Ha; [|done]. congruence.
  - apply within_bind; [apply _| |intros c; apply safely, redirect_calm]. apply safely. unfold login_client.
    repeat (first [apply calm_in_oauth|within_step]).
Qed.

Lemma logout_safe req : within keeps_safe (logout env req).
Proof.
  unfold logout. apply within_catch; [apply _| |intros e; repeat within_step].
  apply within_bind; [apply _|apply safely, calm_session|intros c]. cbv zeta.
  apply within_bind; [apply _| |intros _]; [apply safely; case_match; [|apply within_ret, _]|].
  { unfold revoke_current. apply within_catch; [apply _| |intros e].
    - repeat (first [apply calm_revoke|within_step]).
    - apply within_bind; [apply _|apply calm_in_auth, calm_emit|intros _; apply within_raise, _]. }
  apply within_bind; [apply _|apply safely, calm_clear|intros _]. apply within_bind; [apply _| |intros _].
  - apply safely. case_match; [apply calm_in_auth, calm_emit|apply within_ret, _].
  - apply safely. apply within_bind; [apply _| |intros away; apply within_ret, _]. unfold provider_logout. repeat (first [apply calm_in_oauth|within_step]).
Qed.

(** ** Completing a login *)

(** The end of the flow, for the account that was let in. *)
Definition enter (req : LoginRequest) (username : string) : M signin_state string :=
  if decide (username = "") then raise (HTTPException 401 "Authentication failed")
  else
    opened ← catch (session_id ← _open_server_session env session_token username; _ ← set_in_session "session_id" (JStr session_id); mret true)
               (λ _, _ ← put_session ∅; mret false);
    if negb opened then mret (error_page req ["session_error"])
    else
      _ ← set_in_session "authenticated" (JBool true);
      _ ← in_auth (emit_audit_event (AuditEvent "auth.login" (Some username) None None [("method", JStr "oidc")]));
      landing_page req.
Definition internal_error (e : exc) : exc := if is_http e then e else HTTPException 500 "Internal server error during authentication".

(** The OAuth clients once the provider's own is known to be registered, and once
    its metadata has been asked for as well. *)
Definition clients_ready (provider_id : option string) (x : oauth_state) : oauth_state :=
  (is_oidc_configured (or_default provider_id DEFAULT_PROVIDER_ID) x).2.
Definition clients_at_exchange (provider_id : option string) (p : ProviderConfig) (x : oauth_state) : oauth_state :=
  (_iss_parameter_supported p (clients_ready provider_id x)).2.

(** Either nobody is let in; or the browser's own attempt led to [username]. *)
Lemma complete_cases req provider_id s o s' :
  _complete_login env session_token req provider_id s = (o, s') →
  (via si_auth calm s s' ∧ ∀ url, o = Ok url → ∃ errors, url = error_page req errors) ∨
   ∃ r p s1 s2 res, own_attempt req provider_id (si_db s) (clients_ready provider_id (si_oauth s)) r p ∧
    via si_auth calm s s1 ∧ si_session s1 = si_session s ∧
    same_accounts (si_db s) (si_db s1) ∧ si_oauth s1 = clients_at_exchange provider_id p (si_oauth s) ∧
    (∀ x, x ∈ auth_states (si_db s1) → st_state x ≠ st_state r) ∧
    (_ ← remember_target (MkAttempt (st_state r) (or_default (st_provider_id r) "") (st_relay_state r)); after_target req p) s1 = (res, s2) ∧
    match res with
    | Ok (inr username) => catch (enter req username) (λ e, raise (internal_error e)) s2 = (o, s')
    | Ok (inl errors) => o = Ok (error_page req errors) ∧ s' = s2
    | Raise e => o = Raise (internal_error e) ∧ s' = s2
    end.
Proof.
  unfold _complete_login. rewrite catch_run M_bind_run.
  assert (∀ e t, (if is_http e then raise e else raise (HTTPException 500 "Internal server error during authentication") : M signin_state string) t = (o, s')
    → o = Raise (internal_error e) ∧ s' = t) as Hfail by (intros e t; unfold internal_error; by destruct (is_http e); intros [= <- <-]).
  destruct (in_oauth _ s) as [c s0] eqn:Hconf.
  assert (si_auth s0 = si_auth s ∧ si_oauth s0 = clients_ready provider_id (si_oauth s)) as [Hsame Hx0]
    by (unfold in_oauth, clients_ready in *; destruct (is_oidc_configured _ _); by injection Hconf as _ <-).
  assert (via si_auth calm s s0) as Hcalm by (unfold via; rewrite Hsame; reflexivity).
  destruct c as [[]|e]; [| |by intros [-> ->]%Hfail; left]; cbn [negb]; [|rewrite M_ret_run; intros [= <- <-]; left; split; [done|]; intros url [= <-]; by eexists].
  rewrite M_bind_run session_cases. destruct (si_session s0) as [cookie|]; [|by intros [-> ->]%Hfail; left].
  rewrite M_bind_run. destruct (_process_oidc_callback_fastapi _ _ _ s0) as [res s2] eqn:Hproc.
  intros Hend. destruct (process_cases _ _ _ _ _ Hproc) as [[Hquiet Hno]|(r&p&s1&Hown&Hc1&Hsess&Hacc&Hx1&Hgone&Hrest)].
  - assert (via si_auth calm s s2) as Hc by (etrans; [exact Hcalm|exact Hquiet]). left.
    destruct res as [[errors|u]|e]; [|by destruct (Hno u)|by apply Hfail in Hend as [-> ->]].
    rewrite M_ret_run in Hend. injection Hend as <- <-. split; [done|]. intros url [= <-]. by exists errors.
  - right. exists r, p, s1, s2, res. unfold si_db, si_session, via in *. rewrite Hsame in Hown, Hc1, Hsess, Hacc |- *. rewrite Hx0 in Hown Hx1. split_and!; try done.
    destruct res as [[errors|u]|e]; [rewrite M_ret_run in Hend; by simplify_eq| |by apply Hfail in Hend].
    etrans; [|exact Hend]. change (catch (enter req u) (λ e, raise (internal_error e)) s2
      = catch (enter req u) (λ e, if is_http e then raise e else raise (HTTPException 500 "Internal server error during authentication")) s2).
    rewrite !catch_run. destruct (enter req u s2) as [[url|e] s3]; [done|]. unfold internal_error. by destruct (is_http e).
Qed.
End flow.
