(* ===== verification/SignInSafety.v ===== *)
(** * A login ends on this site, for its own attempt, and a logout ends the session *)
From S2P Require Import Prelude PyStrings Json Ownership Permissions Regex RegexSafety Database Repositories RepositoryFacts Users Groups Sessions SessionFacts Cache Resolution.
From S2P Require Import Store Requests Validators Kubernetes ProviderRegistry TokenVerification Identity AuthMiddleware AuthFacts RedirectUri OAuthClients SignIn SignInFacts.
From S2P Require Import Samples UserFacts ResolutionFacts SampleMlflow Hooks AfterRequest BeforeRequest AfterRequestFacts RegistryFacts TokenFacts ProvisioningFacts AuthWitnesses.
From Stdlib Require Import Ascii.
#[local] Open Scope Z_scope.

Lemma catch_bind_run {S A B} (m : M S A) (f : A → M S B) h s :
  catch (m ≫= f) h s = match m s with (Ok a, s') => catch (f a) h s' | (Raise e, s') => h e s' end.
Proof. rewrite catch_run M_bind_run. by destruct (m s) as [[a|e] s1]. Qed.

Lemma tamed_dead d d' id : tamed d d' → dead id d → dead id d'.
Proof.
  intros [_ Hlive] Hd. apply Forall_forall. intros x Hx Hid Hn. unfold dead in Hd. rewrite Forall_forall in Hd.
  exact (Hd x (Hlive x Hx Hn) Hid Hn).
Qed.

Lemma revoke_run `{SqlBackend} now id d :
  ∃ b d', AuthSessionRepository.revoke now id d = (Ok b, d') ∧ dead id d' ∧ same_accounts d d'.
Proof.
  do 2 eexists. split; [reflexivity|]. split; [|eexists _, (λ l, l); by destruct d]. apply Forall_fmap, Forall_forall. intros x _ Hid.
  cbn in *. case_decide as Hc; [done|]. cbn in *. destruct (s_revoked_at x); [done|]. by destruct Hc.
Qed.

Section safety.
Context `{SqlBackend, PyRe, UserLibs, ColumnTyping, Config, TrackingStore}.
Context `{CacheBackend PermissionResult, CacheBackend Permission, TTLCache unit json, TTLCache provider_key json}.
Context `{TTLCache (string * string) bool}.
Context `{TokenConfig, AuthConfig, ValidatorLibs}.
Context `{UrlLib, AuthlibOAuth, OAuthConfig, SignInConfig, MlflowWorkspaces}.

(** ** Opening the session *)

Definition lifetime : Z := default DEFAULT_SESSION_LIFETIME_SECONDS SESSION_COOKIE_MAX_AGE_SECONDS.
Definition same_db (s s' : signin_state) : Prop := si_db s' = si_db s.
#[export] Instance same_db_preorder : PreOrder same_db.
Proof. split; [by intros s|]. intros s1 s2 s3. unfold same_db. congruence. Qed.

Lemma same_db_put c : within same_db (put_session c).
Proof. intros s. reflexivity. Qed.
Lemma same_db_session : within same_db session.
Proof. intros s. reflexivity. Qed.
Lemma same_db_emit e : within same_db (in_auth (emit_audit_event e)).
Proof. intros s. reflexivity. Qed.
Lemma same_db_oauth {A} (m : M oauth_state A) : within same_db (in_oauth m).
Proof. intros s. unfold same_db, in_oauth. by destruct (m (si_oauth s)). Qed.
#[local] Hint Resolve same_db_put same_db_session same_db_emit same_db_oauth : within.
Lemma same_db_set key v : within same_db (set_in_session key v).
Proof. unfold set_in_session. repeat within_step. Qed.
Lemma same_db_landing req : within same_db (landing_page req).
Proof. unfold landing_page. repeat within_step. Qed.
#[local] Hint Resolve same_db_set same_db_landing : within.

Section entering.
Variables (env : login_env) (session_token : string) (req : LoginRequest).

(** The session a login opens. *)
Definition opened (u : user_row) : auth_session_row := AuthSessionRow session_token (u_id u) None (le_now env + lifetime) None.

Lemma open_cases username s :
  match _open_server_session env session_token username s with
  | (Ok id, s1) => id = session_token ∧ ∃ u, u ∈ users (si_db s1) ∧ u_username u = normalize_username username ∧
      auth_states (si_db s1) = auth_states (si_db s) ∧ auth_sessions (si_db s1) = auth_sessions (si_db s) ++ [opened u]
  | (Raise _, s1) => si_db s1 = si_db s
  end.
Proof.
  unfold _open_server_session, in_auth. rewrite in_store_run. unfold SqlAlchemyStore.create_auth_session.
  pose proof (created_session session_token username (le_now env + lifetime) (au_db (si_auth s))) as [Hstates Hcases].
  destruct (AuthSessionRepository.create _ _ _ _ _) as [[id|e] d]; [|exact Hcases]. destruct Hcases as (->&u&Hu&Hn&Husers&Hsessions).
  split; [done|]. exists u. unfold si_db, au_db in *. cbn in *. by rewrite Husers.
Qed.

Lemma enter_session username s o s' :
  enter env session_token req username s = (o, s') →
  si_db s' = si_db s ∨
  ∃ u, u ∈ users (si_db s') ∧ u_username u = normalize_username username ∧
    auth_states (si_db s') = auth_states (si_db s) ∧ auth_sessions (si_db s') = auth_sessions (si_db s) ++ [opened u].
Proof.
  unfold enter. case_decide; [by intros [= <- <-]; left|]. rewrite M_bind_run catch_bind_run.
  pose proof (open_cases username s) as Ho. destruct (_open_server_session _ _ _ s) as [[id|e] s1].
  - destruct Ho as (->&u&Hu&Hn&Hstates&Hsessions). intros Hrun. right. exists u. assert (same_db s1 s') as ->; [|done].
    match type of Hrun with context [match ?r with _ => _ end] => destruct r as [[b|e] s2] eqn:Hset end.
    + assert (same_db s1 s2) as Hsame by (refine (within_step _ _ _ _ _ _ Hset); repeat within_step). etrans; [exact Hsame|].
      refine (within_step _ _ _ _ _ _ Hrun). repeat within_step.
    + injection Hrun as _ <-. refine (within_step _ _ _ _ _ _ Hset). repeat within_step.
  - intros Hrun. left. rewrite -Ho. change (same_db s1 s'). rewrite M_bind_run in Hrun. injection Hrun as _ <-. reflexivity.
Qed.
End entering.

(** ** What the provider said *)

Definition display_name_of (userinfo : claims) (username : string) : string :=
  match extract_display_name userinfo OIDC_DISPLAY_NAME_FIELD with inr name => name | inl _ => username end.

(** The exchange for this callback's query, by the client registered for the
    provider among [x], yields a userinfo that the login policy, asked on the
    database [d], admits under this name. *)
Definition vouched (env : login_env) (req : LoginRequest) (p : ProviderConfig) (d : db) (x : oauth_state) (cookie : claims) (name : string) : Prop :=
  ∃ c exchange token_response fields derived user_groups trail is_new,
    oauth_attr (client_name (if decide (pr_id p = "") then DEFAULT_PROVIDER_ID else pr_id p)) (os_oauth x) = Some c ∧
    authorize_access_token c = Some exchange ∧ (exchange (lr_query req) (os_oauth x, cookie)).1 = Ok token_response ∧
    get_key "userinfo" token_response = JObj fields ∧ extract_username (dict_of fields) OIDC_USERNAME_FIELD = inr derived ∧
    bearer_groups (get_key "access_token" token_response) (dict_of fields) = Ok user_groups ∧
    (admission env group_names_config p (dict_of fields) derived (display_name_of (dict_of fields) derived) user_groups (Audited d trail)).1 = Ok (inr (name, is_new)).

Definition same_cookie (s s' : signin_state) : Prop := si_session s' = si_session s.
#[export] Instance same_cookie_preorder : PreOrder same_cookie.
Proof. split; [by intros s|]. intros s1 s2 s3. unfold same_cookie. congruence. Qed.
Lemma same_cookie_oauth {A} (m : M oauth_state A) : within same_cookie (in_oauth m).
Proof. intros s. unfold same_cookie, in_oauth. by destruct (m (si_oauth s)). Qed.
#[local] Hint Resolve same_cookie_oauth : within.
Lemma same_cookie_client provider_id : within same_cookie (_client_for_exchange provider_id).
Proof. unfold _client_for_exchange. repeat within_step. Qed.
#[local] Hint Resolve same_cookie_client : within.

Lemma legacy_client_ok s c s' : legacy_client s = (Ok c, s') → oauth_attr LEGACY_CLIENT_NAME (os_oauth s) = Some c ∧ s' = s.
Proof. intros (found&s1&[-> ->]%gets_ok&[Hf ->]%lift_ok)%M_bind_ok. destruct (oauth_attr _ _); by simplify_eq. Qed.

Lemma in_oauth_ok {A} (m : M oauth_state A) s a s' :
  in_oauth m s = (Ok a, s') → ∃ x, m (si_oauth s) = (Ok a, x) ∧ s' = SignIn (si_auth s) x (si_workspaces s).
Proof. unfold in_oauth. destruct (m _) as [o x]. intros [= -> <-]. by exists x. Qed.
Lemma signin_eta s : SignIn (si_auth s) (si_oauth s) (si_workspaces s) = s.
Proof. by destruct s. Qed.

(** Looking a client up changes nothing. *)
Lemma client_for_exchange_ok p s c s' :
  _client_for_exchange (pr_id p) s = (Ok c, s') →
  oauth_attr (client_name (if decide (pr_id p = "") then DEFAULT_PROVIDER_ID else pr_id p)) (os_oauth (si_oauth s)) = Some c ∧ s' = s.
Proof.
  unfold _client_for_exchange. case_decide as Hid.
  - destruct Hid as [Hne _]. rewrite (decide_False _ _ Hne). intros (found&s1&(x&[-> ->]%gets_ok&->)%in_oauth_ok&[Hf ->]%lift_ok)%M_bind_ok.
    destruct (oauth_attr _ _) eqn:Ho; [|done]. injection Hf as ->. by rewrite signin_eta.
  - assert (client_name (if decide (pr_id p = "") then DEFAULT_PROVIDER_ID else pr_id p) = LEGACY_CLIENT_NAME) as ->.
    { case_decide; [done|]. unfold client_name. rewrite decide_True //. destruct (decide (pr_id p = DEFAULT_PROVIDER_ID)); [done|]. by destruct Hid. }
    intros (found&s1&(x&[-> ->]%gets_ok&->)%in_oauth_ok&Hf)%M_bind_ok. rewrite signin_eta in Hf.
    destruct (oauth_attr (client_name DEFAULT_PROVIDER_ID) _) as [c'|] eqn:Ho.
    + apply ret_ok in Hf as [-> ->]. by split.
    + apply in_oauth_ok in Hf as (x'&[Hl ->]%legacy_client_ok&->). by rewrite signin_eta.
Qed.

Lemma by_client_ok {A} (m : M (oauth * claims) A) s a s' cookie :
  si_session s = Some cookie → by_client m s = (Ok a, s') → (m (os_oauth (si_oauth s), cookie)).1 = Ok a ∧ si_db s' = si_db s.
Proof.
  intros Hs. unfold by_client. rewrite M_bind_run session_cases Hs M_bind_run gets_run. destruct (m _) as [o [x' c']] eqn:Hm.
  intros Hrun. rewrite !M_bind_run in Hrun. by injection Hrun as -> <-.
Qed.

Lemma exchange_ok req p s cookie token_response s' :
  si_session s = Some cookie → _authorize_access_token_with_key_refresh req (pr_id p) s = (Ok token_response, s') →
  si_db s' = si_db s ∧
  ∃ c exchange, oauth_attr (client_name (if decide (pr_id p = "") then DEFAULT_PROVIDER_ID else pr_id p)) (os_oauth (si_oauth s)) = Some c ∧
    authorize_access_token c = Some exchange ∧ (exchange (lr_query req) (os_oauth (si_oauth s), cookie)).1 = Ok token_response.
Proof.
  intros Hs [Hrun|(e&s1&_&Hrun)]%catch_cases.
  2:{ rewrite M_bind_run in Hrun. by destruct (_refresh_oidc_jwks s1) as [[|] ?]. }
  apply M_bind_ok in Hrun as (c&s1&[Hc ->]%client_for_exchange_ok&Hrun). destruct (authorize_access_token c) as [exchange|] eqn:He; [|done].
  apply (by_client_ok _ _ _ _ cookie) in Hrun as [Hx Hdb]; [|done]. split; [done|]. by exists c, exchange.
Qed.

Lemma manage_user_ok env p access_token userinfo derived display_name s name s' :
  manage_user env p access_token userinfo derived display_name s = (Ok (inr name), s') →
  ∃ user_groups trail is_new, bearer_groups access_token userinfo = Ok user_groups ∧
    (admission env group_names_config p userinfo derived display_name user_groups (Audited (si_db s) trail)).1 = Ok (inr (name, is_new)).
Proof.
  intros (user_groups&s1&[Hg ->]%lift_ok&Hrun)%M_bind_ok. apply M_bind_ok in Hrun as (admitted&s2&Ha&Hrun).
  destruct admitted as [e|[account is_new]]; [by apply ret_ok in Hrun as [? _]|].
  apply M_bind_ok in Hrun as (?&s3&_&Hrun). apply M_bind_ok in Hrun as (?&s4&_&[[= ->] _]%ret_ok).
  unfold in_auth, in_audited in Ha. exists user_groups, (au_audit (si_auth s)), is_new. split; [done|].
  unfold si_db. destruct (admission _ _ _ _ _ _ _ _) as [r w]. by injection Ha.
Qed.

Lemma exchange_code_ok env req p s cookie name s' :
  si_session s = Some cookie → exchange_code env req p s = (Ok (inr name), s') → vouched env req p (si_db s) (si_oauth s) cookie name.
Proof.
  intros Hs Hrun%catch_inr. apply M_bind_ok in Hrun as (found&s1&Hfound&Hrun).
  destruct (c ← found; authorize_access_token c) eqn:Hexists; [|by apply ret_ok in Hrun as [? _]].
  assert (s1 = s) as ->.
  { apply catch_cases in Hfound as [(c&s2&[_ ->]%client_for_exchange_ok&[_ ->]%ret_ok)%M_bind_ok|(e&s2&_&Hf)]; [done|].
    case_decide; [|done]. by apply ret_ok in Hf as [-> _]. }
  apply M_bind_ok in Hrun as (token_response&s2&Hex&Hrun).
  apply (exchange_ok _ _ _ cookie) in Hex as (Hdb&c&exchange&Hc&He&Hx); [|done].
  case_decide; [by apply ret_ok in Hrun as [? _]|]. case_match; [by apply ret_ok in Hrun as [? _]|].
  apply M_bind_ok in Hrun as (userinfo&s3&[Hu ->]%lift_ok&Hrun).
  destruct (get_key "userinfo" token_response) as [| | | | |fields] eqn:Hfields; try done. injection Hu as <-.
  destruct (extract_username _ _) as [e|derived] eqn:Hderived; [by apply ret_ok in Hrun as [? _]|]. cbv zeta in Hrun.
  apply M_bind_ok in Hrun as (managed&s4&Hm&Hrun). destruct managed as [errors|account]; [by apply ret_ok in Hrun as [? _]|].
  apply M_bind_ok in Hrun as (?&s5&_&[[= ->] _]%ret_ok). apply catch_inr, manage_user_ok in Hm as (user_groups&trail&is_new&Hg&Ha). rewrite Hdb in Ha.
  exists c, exchange, token_response, fields, derived, user_groups, trail, is_new. by split_and!.
Qed.

(** A revocation commits, or is as if it had not been tried. *)
Lemma revoke_session_run env id s :
  ∃ o s', revoke_session env id s = (o, s') ∧ si_session s' = si_session s ∧ si_oauth s' = si_oauth s ∧
    same_accounts (si_db s) (si_db s') ∧
    match o with
    | Ok _ => le_outage env = None ∧ dead id (si_db s')
    | Raise e => le_outage env = Some e ∧ si_db s' = si_db s
    end.
Proof.
  unfold revoke_session, in_auth. destruct (le_outage env) as [e|] eqn:Hout; rewrite M_bind_run in_store_run.
  - eexists _, _. split; [reflexivity|]. cbn. split_and!; [done|done|reflexivity|done|done].
  - unfold SqlAlchemyStore.revoke_auth_session. destruct (revoke_run (le_now env) id (au_db (si_auth s))) as (b&d'&Hr&Hd&Hacc).
    rewrite Hr M_ret_run. eexists _, _. split; [reflexivity|]. by split_and!.
Qed.

(** ** The browser's cookie and its previous session *)

Definition retired (c : claims) : claims := foldr delete c _LOGIN_SESSION_KEYS.

Lemma retire_run env s c :
  si_session s = Some c →
  ∃ s', _retire_previous_login env s = (Ok tt, s') ∧ si_session s' = Some (retired c) ∧
    same_accounts (si_db s) (si_db s') ∧ si_oauth s' = si_oauth s ∧
    (le_outage env = None → ∀ id, get_key "session_id" c = JStr id → id ≠ "" → dead id (si_db s')).
Proof.
  intros Hs. unfold _retire_previous_login. rewrite M_bind_run session_cases Hs M_bind_run. cbv zeta. unfold put_session, in_auth, set_session. rewrite modify_run.
  destruct (negb _) eqn:Ht.
  { rewrite M_ret_run. eexists. split_and!; [done|done|reflexivity|done|]. intros _ id Hid Hne. rewrite Hid in Ht. apply negb_true_iff, negb_false_iff, String.eqb_eq in Ht. by destruct Hne. }
  rewrite catch_run M_bind_run lift_run. destruct (get_key "session_id" c) as [| | |id| |]; try (eexists; split_and!; [done|done|reflexivity|done|done]).
  match goal with |- context [revoke_session env id ?s0] => destruct (revoke_session_run env id s0) as (o&s'&->&Hsess&Hx&Hacc&Hok) end.
  destruct o as [[]|e]; eexists; (split_and!; [done|exact Hsess|exact Hacc|exact Hx|]).
  - intros _ id' [= <-] _. by apply Hok.
  - intros Hnone. destruct Hok as [Hok _]. congruence.
Qed.

Lemma dead_opened env token u d id :
  id ≠ token → dead id d → ∀ d', auth_sessions d' = auth_sessions d ++ [opened env token u] → dead id d'.
Proof.
  intros Hne Hd d' E. unfold dead. rewrite E. apply Forall_app. split; [exact Hd|]. apply Forall_singleton. intros Hid. by destruct Hne.
Qed.

(** The cookie's records of attempts, which authlib checks the state against. *)
Definition same_attempts (c c' : claims) : Prop := ∀ key, startswith key "_state_" = true → c' !! key = c !! key.

Lemma attempts_kept v c : same_attempts c (retired (<["redirect_after_login" := v]> c)).
Proof.
  intros key Hkey. unfold retired, _LOGIN_SESSION_KEYS. cbn [foldr].
  rewrite !lookup_delete_ne ?lookup_insert_ne //; intros <-; by vm_compute in Hkey.
Qed.

(** What a callback does for an attempt of its own. *)
Lemma after_own_attempt env req p attempt s res s' :
  (_ ← remember_target attempt; after_target env req p) s = (res, s') →
  tamed (si_db s) (si_db s') ∧
  ∀ name, res = Ok (inr name) → ∃ browser cookie, si_session s = Some browser ∧ same_attempts browser cookie ∧
    (∃ d, same_accounts (si_db s) d ∧ vouched env req p d (si_oauth s) cookie name) ∧
    (le_outage env = None → ∀ id, get_key "session_id" browser = JStr id → id ≠ "" → dead id (si_db s')).
Proof.
  rewrite M_bind_run. unfold remember_target. rewrite M_bind_run session_cases. destruct (si_session s) as [c|] eqn:Hs; [|by intros [= <- <-]].
  match goal with |- context [put_session (<["redirect_after_login" := ?x]> c)] => set (v := x) end. set (c1 := <["redirect_after_login" := v]> c).
  destruct (put_session c1 s) as [o1 s1] eqn:Hput. assert (o1 = Ok tt ∧ si_session s1 = Some c1 ∧ si_db s1 = si_db s ∧ si_oauth s1 = si_oauth s) as (->&Hs1&Hdb&Hx1) by (by injection Hput as <- <-).
  intros Hrun. assert (via si_auth calm s1 s') as [Ht _] by (refine (within_step _ _ _ _ _ _ Hrun); apply calm_after_target).
  rewrite -Hdb. split; [exact Ht|]. intros name ->. exists c, (retired c1).
  destruct (retire_run env s1 c1 Hs1) as (s2&Hretire&Hs2&Hacc&Hx2&Hdead). unfold after_target in Hrun. rewrite M_bind_run Hretire in Hrun.
  destruct (negb _); [by apply ret_ok in Hrun as [? _]|].
  split_and!; [done|apply attempts_kept| |].
  { exists (si_db s2). split; [exact Hacc|]. rewrite -Hx1 -Hx2. exact (exchange_code_ok _ _ _ _ _ _ _ Hs2 Hrun). }
  intros Hup id Hid Hne. assert (via si_auth calm s2 s') as [Ht2 _] by (refine (within_step _ _ _ _ _ _ Hrun); apply calm_exchange_code).
  refine (tamed_dead _ _ _ Ht2 (Hdead Hup id _ Hne)). unfold c1, get_key, get_or in *. by rewrite lookup_insert_ne.
Qed.

(** C7: Whatever a callback answers, it lets in at most one account, and only to
    complete an attempt of its own: either the database shows no new attempt and
    no new live session; or the state in the query named an attempt that had not
    expired, was begun with the provider this callback belongs to, whose answer
    came from its issuer as its metadata asks, and is gone afterwards; the
    client registered for this provider at that moment exchanged the code,
    against the records of attempts in the browser's own cookie; the login
    policy, asked on the server's own database as this callback found it
    (attempts and sessions apart), admitted the name under the claims of that
    very exchange; the one new live session is that of the account of that name,
    for the configured time; and, unless the database could not commit the
    revocation, the session the browser had before is dead. *)
Theorem a_login_completes_only_its_own_attempt env session_token req provider_id s o s' :
  _complete_login env session_token req provider_id s = (o, s') →
  tamed (si_db s) (si_db s') ∨
  ∃ r p browser cookie name u,
    own_attempt env req provider_id (si_db s) (clients_ready provider_id (si_oauth s)) r p ∧
    (∀ x, x ∈ auth_states (si_db s') → st_state x ≠ st_state r) ∧
    si_session s = Some browser ∧ same_attempts browser cookie ∧
    (∃ d, same_accounts (si_db s) d ∧ vouched env req p d (clients_at_exchange provider_id p (si_oauth s)) cookie name) ∧
    u ∈ users (si_db s') ∧ u_username u = normalize_username name ∧
    (∀ x, x ∈ auth_sessions (si_db s') → s_revoked_at x = None → x ∈ auth_sessions (si_db s) ∨ x = opened env session_token u) ∧
    (le_outage env = None → ∀ id, get_key "session_id" browser = JStr id → id ≠ "" → id ≠ session_token → dead id (si_db s')).
Proof.
  intros [[[Ht _] _]|(r&p&s1&s2&res&Hown&[Ht1 _]&Hcookie&Hacc&Hclients&Hgone&Hrun&Hend)]%complete_cases; [by left|].
  apply after_own_attempt in Hrun as [Ht2 Hin]. assert (tamed (si_db s) (si_db s2)) as Ht by (etrans; [exact Ht1|exact Ht2]).
  destruct res as [[errors|name]|e]; [destruct Hend as [_ ->]; by left| |destruct Hend as [_ ->]; by left].
  destruct (enter env session_token req name s2) as [o3 s3] eqn:Henter.
  assert (s3 = s') as -> by (rewrite catch_run Henter in Hend; destruct o3; by injection Hend).
  apply enter_session in Henter as [->|(u&Hu&Hn&Hstates&Hsessions)]; [by left|right].
  destruct (Hin name eq_refl) as (browser&cookie&Hbrowser&Hsame&(d&Hd&Hvouched)&Hdead). rewrite Hclients in Hvouched.
  exists r, p, browser, cookie, name, u. split_and!; try done.
  - intros x. rewrite Hstates. intros Hx. apply Hgone, (proj1 Ht2), Hx.
  - by rewrite -Hcookie.
  - exists d. split; [exact (transitivity Hacc Hd)|exact Hvouched].
  - intros x. rewrite Hsessions. intros [Hx| ->%list_elem_of_singleton]%elem_of_app Hn'; [left; by apply Ht|by right].
  - intros Hup id Hid Hne Htoken. exact (dead_opened env session_token u _ id Htoken (Hdead Hup id Hid Hne) _ Hsessions).
Qed.

(** ** Signing out *)

Lemma provider_logout_run req s : ∃ o, provider_logout req s = (o, s) ∧ ∀ e, o = Raise e → is_http e = false.
Proof.
  destruct s as [a x w]. unfold provider_logout. rewrite M_bind_run. unfold in_oauth, legacy_client. cbn [si_oauth]. rewrite M_bind_run gets_run lift_run.
  destruct (oauth_attr _ _) as [c|]; [|by eexists; split; [reflexivity|]; intros e [= <-]].
  destruct (server_metadata c); by eexists; split; [reflexivity|].
Qed.

(** The cookie is emptied, and then nothing fails. *)
Definition sign_off (env : login_env) (req : LoginRequest) : M signin_state string :=
  _ ← put_session ∅;
  _ ← match nonempty (lr_username req) with
      | Some username => in_auth (emit_audit_event (AuditEvent "auth.logout" (Some username) None None []))
      | None => mret tt
      end;
  away ← provider_logout req;
  mret (default (_build_ui_url req "/auth" []) away).

Lemma sign_off_run env req s :
  ∃ o s', sign_off env req s = (o, s') ∧ si_session s' = Some ∅ ∧ si_db s' = si_db s ∧ ∀ e, o = Raise e → is_http e = false.
Proof.
  unfold sign_off. rewrite M_bind_run. destruct (put_session ∅ s) as [o1 s1] eqn:Hput.
  assert (o1 = Ok tt ∧ si_session s1 = Some ∅ ∧ si_db s1 = si_db s) as (->&Hs1&Hdb) by (by injection Hput as <- <-).
  rewrite M_bind_run. match goal with |- context [match ?m s1 with _ => _ end] => destruct (m s1) as [o2 s2] eqn:Hemit end.
  assert (o2 = Ok tt ∧ si_session s2 = Some ∅ ∧ si_db s2 = si_db s) as (->&Hs2&Hdb2).
  { destruct (nonempty _); injection Hemit as <- <-; by split_and!. }
  rewrite M_bind_run. destruct (provider_logout_run req s2) as (o&->&Ho). destruct o as [away|e]; (do 2 eexists; split_and!; [reflexivity|done|done|]); [done|intros e' [= <-]; by apply Ho].
Qed.

Lemma revoke_current_run env req v s :
  match v, le_outage env with
  | JStr id, None => ∃ s', revoke_current env req v s = (Ok tt, s') ∧ same_accounts (si_db s) (si_db s') ∧ dead id (si_db s')
  | _, _ => ∃ s', revoke_current env req v s = (Raise LOGOUT_FAILED, s') ∧ si_session s' = si_session s ∧ si_db s' = si_db s ∧
      last (au_audit (si_auth s')) = Some (LogoutFailed (or_default (lr_username req) "<unknown>"))
  end.
Proof.
  assert (∀ s1, ∃ s', (_ ← in_auth (emit_audit_event (LogoutFailed (or_default (lr_username req) "<unknown>"))); raise LOGOUT_FAILED : M signin_state unit) s1
    = (Raise LOGOUT_FAILED, s') ∧ si_session s' = si_session s1 ∧ si_db s' = si_db s1 ∧
      last (au_audit (si_auth s')) = Some (LogoutFailed (or_default (lr_username req) "<unknown>"))) as Hfail.
  { intros s1. eexists. split; [reflexivity|]. cbn. split_and!; [done|done|by apply last_snoc]. }
  unfold revoke_current. rewrite catch_run M_bind_run lift_run. destruct v as [| | |id| |]; try (destruct (le_outage env); exact (Hfail s)).
  destruct (revoke_session_run env id s) as (o&s1&->&Hsess&_&Hacc&Ho). destruct o as [[]|e]; destruct Ho as [-> Ho]; [by eexists|].
  destruct (Hfail s1) as (s'&->&Hs'&Hd'&Hl). exists s'. by rewrite Hs' Hd'.
Qed.

(** C9: A logout that finds a session id in the cookie revokes every session of
    that id, leaves the rest of the database but sessions and attempts alone,
    empties the cookie and then redirects, if the database commits the
    revocation; if the database fails, or the id is no text, it answers 503,
    changes neither the database nor the cookie, so that the browser can try
    again, and its last audit line reports the failed logout. Without an id it
    only empties the cookie. Nobody is told that they are signed out while their
    session lives. *)
Theorem logout_ends_the_session env req s c o s' :
  si_session s = Some c → logout env req s = (o, s') →
  match get_key "session_id" c, le_outage env with
  | JStr id, None =>
      ∃ url, o = Ok url ∧ si_session s' = Some ∅ ∧ (id ≠ "" → dead id (si_db s')) ∧ same_accounts (si_db s) (si_db s')
  | v, _ =>
      if json_truthy v
      then o = Raise LOGOUT_FAILED ∧ si_session s' = Some c ∧ si_db s' = si_db s ∧
           last (au_audit (si_auth s')) = Some (LogoutFailed (or_default (lr_username req) "<unknown>"))
      else ∃ url, o = Ok url ∧ si_session s' = Some ∅ ∧ si_db s' = si_db s
  end.
Proof.
  intros Hs. unfold logout. rewrite catch_run M_bind_run session_cases Hs. cbv zeta. fold (sign_off env req). rewrite M_bind_run.
  assert (∀ s1, catch (sign_off env req) (λ e, if is_http e then raise e else mret (_build_ui_url req "/auth" [])) s1 = (o, s') →
    ∃ url, o = Ok url ∧ si_session s' = Some ∅ ∧ si_db s' = si_db s1) as Hoff.
  { intros s1. destruct (sign_off_run env req s1) as (o1&s2&Hrun&Hcookie&Hdb&Hhttp). rewrite catch_run Hrun.
    destruct o1 as [url|e]; [|rewrite (Hhttp e eq_refl)]; intros [= <- <-]; by eexists. }
  pose proof (revoke_current_run env req (get_key "session_id" c) s) as Hr.
  destruct (json_truthy (get_key "session_id" c)) eqn:Ht.
  - destruct (get_key "session_id" c) as [| | |id| |], (le_outage env); rewrite ?Ht.
    all: try (destruct Hr as (s1&->&Hsess&Hdb&Hl); cbn [is_http LOGOUT_FAILED]; intros [= <- <-]; by rewrite Hsess).
    destruct Hr as (s1&->&Hacc&Hd). intros (url&Ho&Hc&Hdb)%Hoff. exists url. by rewrite Hdb.
  - intros (url&Ho&Hc&Hdb)%Hoff.
    destruct (get_key "session_id" c) as [| | |id| |], (le_outage env); rewrite ?Ht; try by exists url.
    exists url. rewrite Hdb. split_and!; [done|done| |reflexivity]. intros Hne. apply String.eqb_neq in Hne. cbn in Ht. by rewrite Hne in Ht.
Qed.

(** ** Visits *)

(** What browsers ask of this router. *)
Inductive sign_in_request :=
  | Begin (req : LoginRequest)
  | BeginAt (req : LoginRequest) (provider_id : string)
  | Return (req : LoginRequest)
  | ReturnTo (req : LoginRequest) (provider_id : string)
  | SignOut (req : LoginRequest)
  | AskStatus.

Definition run_request (env : login_env) (state_token session_token : string) (r : sign_in_request) : M signin_state unit :=
  match r with
  | Begin req => _ ← login env state_token req; mret tt
  | BeginAt req provider_id => _ ← login_with_provider env state_token req provider_id; mret tt
  | Return req => _ ← callback env session_token req; mret tt
  | ReturnTo req provider_id => _ ← callback_for_provider env session_token req provider_id; mret tt
  | SignOut req => _ ← logout env req; mret tt
  | AskStatus => _ ← auth_status env; mret tt
  end.

(** The server, and the cookies it has signed: a browser may come with any of
    them, or with none. *)
Record site := Site { server : signin_state; issued : list claims }.
Definition arrives (c : claims) (s : signin_state) : signin_state :=
  let a := si_auth s in
  SignIn (AuthState (au_world a) (au_audit a) (au_tokens a) (_denial_audit_seen a) (Some c) None) (si_oauth s) (si_workspaces s).
Definition remembered (c : claims) : option json := c !! "redirect_after_login".

(** The rest of the application neither adds attempts nor writes targets. *)
Inductive visit : site → site → Prop :=
  | Served env state_token session_token r c s s' cookies :
      c ∈ ∅ :: cookies → (run_request env state_token session_token r (arrives c s)).2 = s' →
      visit (Site s cookies) (Site s' (option_list (si_session s') ++ cookies))
  | Elsewhere c c' s s' cookies :
      c ∈ ∅ :: cookies → remembered c' = remembered c → (∀ r, r ∈ auth_states (si_db s') → r ∈ auth_states (si_db s)) →
      visit (Site s cookies) (Site s' (c' :: cookies)).

(** An address on this site: a page of the application, or a path of this host. *)
Definition on_site (req : LoginRequest) (url : string) : Prop :=
  (∃ errors, url = error_page req errors) ∨ url = _build_ui_url req "/user" [] ∨ url = rstrip_char "/" (lr_base_url req) ∨
  (startswith url "/" = true ∧ leaves_site url = false).

Lemma py_str_target s : py_str (JStr s) = s.
Proof. done. Qed.

Lemma landing_on_site req s url s' : safe (si_auth s) → landing_page req s = (Ok url, s') → on_site req url.
Proof.
  intros [_ Hsafe]. unfold landing_page. rewrite M_bind_run session_cases. destruct (si_session s) as [c|] eqn:Hs; [|done].
  rewrite M_bind_run. unfold put_session, in_auth, set_session. rewrite modify_run M_ret_run. intros [= <- _].
  destruct (json_truthy _) eqn:Ht; [|case_match; [by right; left|by do 2 right; left]].
  unfold cookie_target, si_session in *. rewrite Hs in Hsafe. unfold get_key, get_or in *. destruct (c !! "redirect_after_login") as [v|] eqn:Hv; [|done].
  destruct (Hsafe v Hv) as [->|(t&->&[->|Ha])]; [done|done|]. do 3 right. rewrite py_str_target. split; [|by apply acceptable_stays].
  unfold acceptable_next in Ha. rewrite !andb_true_iff in Ha. tauto.
Qed.

#[local] Hint Resolve create_session_safe : within.
Lemma open_safe env session_token username : within keeps_safe (_open_server_session env session_token username).
Proof. apply create_session_safe. Qed.
Lemma set_safe key v : key ≠ "redirect_after_login" → within keeps_safe (set_in_session key v).
Proof. intros Hk. by apply safely, set_in_session_calm. Qed.
Lemma emit_safe e : within keeps_safe (in_auth (emit_audit_event e)).
Proof. apply safely, calm_in_auth, calm_emit. Qed.

(** What a login does before it chooses the address. *)
Lemma opening_safe env session_token username :
  within keeps_safe (catch (session_id ← _open_server_session env session_token username; _ ← set_in_session "session_id" (JStr session_id); mret true)
                       (λ _, _ ← put_session ∅; mret false)).
Proof.
  apply within_catch; [apply _| |intros e; apply within_bind; [apply _|apply safely, calm_clear|intros _; apply within_ret, _]].
  apply within_bind; [apply _|apply open_safe|intros id]. apply within_bind; [apply _|by apply set_safe|intros _; apply within_ret, _].
Qed.

Lemma enter_safe env session_token req username : within keeps_safe (enter env session_token req username).
Proof.
  unfold enter. case_decide; [apply within_raise, _|]. apply within_bind; [apply _|apply opening_safe|intros opened]. case_match; [apply within_ret, _|].
  apply within_bind; [apply _|by apply set_safe|intros _]. apply within_bind; [apply _|apply emit_safe|intros _]. apply safely, landing_calm.
Qed.

Lemma enter_on_site env session_token req username s url s' :
  safe (si_auth s) → enter env session_token req username s = (Ok url, s') → on_site req url.
Proof.
  intros Hs. unfold enter. case_decide; [done|]. intros (b&s1&Hopen&Hrun)%M_bind_ok.
  assert (keeps_safe s s1) as K1 by exact (within_step _ _ _ _ _ (opening_safe _ _ _) Hopen).
  destruct b; cbn [negb] in Hrun; [|apply ret_ok in Hrun as [-> _]; by left; exists ["session_error"]].
  apply M_bind_ok in Hrun as (?&s2&Hset&Hrun). apply M_bind_ok in Hrun as (?&s3&Hemit&Hrun).
  refine (landing_on_site _ _ _ _ _ Hrun).
  refine (within_step keeps_safe _ _ _ _ (emit_safe _) Hemit _). refine (within_step keeps_safe _ _ _ _ (set_safe _ _ _) Hset _); [done|]. by apply K1.
Qed.

(** The state in which a callback enters. *)
Lemma own_attempt_safe env req provider_id s x r p s1 res s2 :
  safe (si_auth s) → own_attempt env req provider_id (si_db s) x r p → via si_auth calm s s1 →
  (_ ← remember_target (MkAttempt (st_state r) (or_default (st_provider_id r) "") (st_relay_state r)); after_target env req p) s1 = (res, s2) →
  safe (si_auth s2).
Proof.
  intros Hs (Hr&_) Hcalm Hrun. assert (safe (si_auth s1)) as Hs1 by exact (calm_safe _ _ Hcalm Hs). rewrite M_bind_run in Hrun.
  assert (safe (si_auth (remember_target (MkAttempt (st_state r) (or_default (st_provider_id r) "") (st_relay_state r)) s1).2)) as Hs2.
  { apply remember_target_safe; [|done]. intros t Ht. exact (proj1 Hs r t Hr Ht). }
  destruct (remember_target _ s1) as [[[]|e] s3]; [|by injection Hrun as _ <-].
  refine (calm_safe _ _ _ Hs2). exact (within_step (via si_auth calm) _ _ _ _ (calm_after_target _ _ _) Hrun).
Qed.

Lemma complete_safe env session_token req provider_id : within keeps_safe (_complete_login env session_token req provider_id).
Proof.
  intros s Hs. destruct (_complete_login _ _ _ _ s) as [o s'] eqn:Hrun.
  apply complete_cases in Hrun as [[Hcalm _]|(r&p&s1&s2&res&Hown&Hcalm&_&_&_&_&Hafter&Hend)]; [exact (calm_safe _ _ Hcalm Hs)|].
  assert (safe (si_auth s2)) as Hs2 by exact (own_attempt_safe _ _ _ _ _ _ _ _ _ _ Hs Hown Hcalm Hafter).
  destruct res as [[errors|name]|e]; [by destruct Hend as [_ ->]| |by destruct Hend as [_ ->]].
  refine (within_step keeps_safe (catch (enter env session_token req name) (λ e, raise (internal_error e))) _ _ _ _ Hend Hs2).
  apply within_catch; [apply _|apply enter_safe|intros e; apply within_raise, _].
Qed.

Lemma callback_on_site env session_token req provider_id s url s' :
  safe (si_auth s) → _complete_login env session_token req provider_id s = (Ok url, s') → on_site req url.
Proof.
  intros Hs [[_ Herrors]|(r&p&s1&s2&res&Hown&Hcalm&_&_&_&_&Hafter&Hend)]%complete_cases; [by left; apply Herrors|].
  assert (safe (si_auth s2)) as Hs2 by exact (own_attempt_safe _ _ _ _ _ _ _ _ _ _ Hs Hown Hcalm Hafter).
  destruct res as [[errors|name]|e]; [destruct Hend as [[= ->] _]; by left; exists errors| |by destruct Hend].
  rewrite catch_run in Hend. destruct (enter _ _ _ _ s2) as [[u|e] s3] eqn:Henter; [|done]. injection Hend as <- <-.
  exact (enter_on_site _ _ _ _ _ _ _ Hs2 Henter).
Qed.

Lemma status_safe env : within keeps_safe (auth_status env).
Proof.
  apply safely. unfold auth_status. apply within_catch; [apply _| |intros e; apply within_raise, _].
  apply within_bind; [apply _|apply calm_session|intros c]. apply within_bind; [apply _|apply within_lift, _|intros id].
  apply within_bind; [apply _| |intros resolved; apply within_ret, _]. apply calm_in_auth, calm_in_store. intros d. unfold SqlAlchemyStore.resolve_auth_session, AuthSessionRepository.resolve.
  case_decide; [reflexivity|]. rewrite managed_run M_bind_run ask_run. by destruct (query_one_or_none _) as [row|e].
Qed.

Lemma request_safe env state_token session_token r : within keeps_safe (run_request env state_token session_token r).
Proof.
  destruct r as [req|req id|req|req id|req|]; (apply within_bind; [apply _| |intros _; apply within_ret, _]).
  - apply begin_safe.
  - unfold login_with_provider. case_match; [apply begin_safe|apply within_raise, _].
  - apply complete_safe.
  - unfold callback_for_provider. case_match; [apply complete_safe|apply within_raise, _].
  - apply logout_safe.
  - apply status_safe.
Qed.

(** The invariant of the site. *)
Definition safe_cookie (c : claims) : Prop := ∀ v, remembered c = Some v → v = JNull ∨ ∃ t, v = JStr t ∧ harmless t.
Definition safe_site (x : site) : Prop :=
  (∀ r t, r ∈ auth_states (si_db (server x)) → st_relay_state r = Some t → harmless t) ∧ ∀ c, c ∈ ∅ :: issued x → safe_cookie c.

Lemma arrives_safe x c : safe_site x → c ∈ ∅ :: issued x → safe (si_auth (arrives c (server x))).
Proof. intros [Hrows Hcookies] Hc. split; [exact Hrows|exact (Hcookies c Hc)]. Qed.

Lemma visit_safe x y : visit x y → safe_site x → safe_site y.
Proof.
  intros [env st tok r c s s' cookies Hc <-|c c' s s' cookies Hc Hsame Hrows] Hx.
  - destruct (request_safe env st tok r _ (arrives_safe _ _ Hx Hc)) as [Hr Hcookie]. split; [exact Hr|]. destruct Hx as [_ Hcookies].
    intros c' [->|[Hc'|Hc']%elem_of_app]%elem_of_cons; [apply Hcookies; left| |apply Hcookies; by right].
    intros v Hv. apply Hcookie. unfold cookie_target. change (au_session (si_auth ?t)) with (si_session t).
    destruct (si_session _) as [new|]; [|by apply not_elem_of_nil in Hc']. by apply list_elem_of_singleton in Hc' as ->.
  - destruct Hx as [Hr Hcookies]. split; [intros r t Hin; exact (Hr r t (Hrows r Hin))|].
    intros c'' [->|[->|Hc']%elem_of_cons]%elem_of_cons; [apply Hcookies; left| |apply Hcookies; by right].
    intros v. rewrite Hsame. exact (Hcookies c Hc v).
Qed.

(** C8: However browsers log in and out, with whatever cookies the server ever
    signed, a completed login leads to a page of the application or to a path of
    the same host, as a browser reads it: next is no open redirect, neither
    through the attempt nor through the cookie. *)
Theorem a_login_never_leaves_the_site x y env session_token req provider_id c url s' :
  auth_states (si_db (server x)) = [] → issued x = [] → rtc visit x y → c ∈ ∅ :: issued y →
  _complete_login env session_token req provider_id (arrives c (server y)) = (Ok url, s') → on_site req url.
Proof.
  intros Hrows Hissued Hvisits Hc. apply callback_on_site, arrives_safe; [|exact Hc]. clear Hc.
  assert (safe_site x) as Hx.
  { split; [intros r t; rewrite Hrows; by intros ?%not_elem_of_nil|]. rewrite Hissued. intros c' ->%list_elem_of_singleton. done. }
  clear Hrows Hissued. induction Hvisits as [|x1 x2 x3 Hvisit _ IH]; [done|]. exact (IH (visit_safe _ _ Hvisit Hx)).
Qed.
End safety.

(** * Signing in on the sample database *)

(** A provider with an application of its own. *)
Definition sso : ProviderConfig :=
  MkProvider "corp" "oidc" "Corp" "none" "every_login" "authoritative" "none" "subject" true [] ["RS256"] (Some "mlflow")
    (Some "https://corp") (Some "https://corp/.well-known") (Some "app") None None None false [].
#[local] Instance sso_tokens : TokenConfig | 50 := {|
  AUTH_PROVIDERS := [sso];
  DISCOVERY_URL := None;
  OIDC_VERIFY_SSL := true;
|}.
#[export] Instance sample_urls : UrlLib | 100 := {| check_bracketed_netloc _ := true |}.
#[export] Instance sample_oauth_config : OAuthConfig | 100 := {|
  OIDC_CLIENT_ID := None;
  OIDC_CLIENT_SECRET := None;
  OIDC_SCOPE := Some "openid,email";
  OIDC_CODE_CHALLENGE := Some "S256";
  AUTH_PROVIDERS_SOURCE := "AUTH_PROVIDERS";
  config_manager_get key := if decide (key = "OIDC_CLIENT_SECRET_CORP") then Some "secret" else None;
|}.
#[export] Instance sample_sign_in : SignInConfig | 100 := {|
  OIDC_REDIRECT_URI := None;
  OIDC_PROVIDER_DISPLAY_NAME := "Corp";
  DEFAULT_LANDING_PAGE_IS_PERMISSIONS := true;
  SESSION_COOKIE_MAX_AGE_SECONDS := Some 3600;
  OIDC_WORKSPACE_DETECTION_PLUGIN := None;
  OIDC_WORKSPACE_CLAIM_NAME := "workspaces";
  OIDC_WORKSPACE_DEFAULT_PERMISSION := "READ";
|}.
#[export] Instance sample_workspaces : MlflowWorkspaces | 100 := {|
  workspace_store := list string;
  _get_workspace_store := Ok tt;
  get_workspace name known := if decide (name ∈ known) then Ok tt else Raise (MlflowException RESOURCE_DOES_NOT_EXIST);
  create_workspace name := modify (cons name);
|}.

(** ** A client that knows bob *)

Definition state_key (state : string) : string := "_state_" +:+ state.
Lemma other_key key state : startswith key "_state_" = false → key ≠ state_key state.
Proof. intros Hk ->. by destruct state. Qed.

Definition bobs_token : claims :=
  list_to_map [("access_token", JStr "h.corp.bob");
    ("userinfo", JObj [("sub", JStr "sub-bob"); ("email", JStr "Bob"); ("groups", JArr [JStr "team"])])].

#[export, refine] Instance sample_oauth : AuthlibOAuth | 100 := {|
  oauth := list string;
  client := string;
  oauth_register name _ _ := modify (cons name);
  oauth_attr name registered := if decide (name ∈ registered) then Some name else None;
  load_server_metadata _ := Some (λ _, mret (list_to_map [("code_challenge_methods_supported", JArr [JStr "S256"])]));
  fetch_jwk_set _ := None;
  server_metadata _ := None;
  authorize_redirect _ := Some (λ uri state '(x, c),
    (Ok ("https://corp/authorize?state=" +:+ state), (x, <[state_key state := JStr uri]> c)));
  authorize_access_token _ := Some (λ query '(x, c),
    match query with
    | (_, state) :: _ =>
        if decide (is_Some (c !! state_key state)) then (Ok bobs_token, (x, delete (state_key state) c))
        else (Raise (OtherException "MismatchingStateError"), (x, c))
    | [] => (Raise (OtherException "MismatchingStateError"), (x, c))
    end);
|}.
Proof.
  - intros _ authorize uri state x cookie key [= <-] Hk. cbn. by rewrite lookup_insert_ne; [|apply not_eq_sym, other_key].
  - intros _ exchange query x cookie key [= <-] Hk. destruct query as [|[k state] query]; [done|]. case_decide; [|done].
    cbn. by rewrite lookup_delete_ne; [|apply not_eq_sym, other_key].
Defined.

Definition asks (query : list (string * string)) : LoginRequest := MkLogin query "https://mlflow/callback/corp" "https://mlflow/" "" None.
Definition at_server (d : db) : signin_state :=
  SignIn (AuthState (fresh_world d) [] no_keys (∅ : gmap (string * string) bool) None None) (OAuthState [] ∅) [].

(** ** An attempt of bob's browser, with its earlier session *)

Definition bobs_browser : claims := list_to_map [(state_key "state-1", JNull); ("session_id", JStr "sid-bob")].
Definition comes_back : LoginRequest := asks [("state", "state-1"); ("code", "c0de"); ("iss", "https://corp")].
Definition bob_returns : signin_state := arrives bobs_browser (at_server sample_db).
Definition bob_in_again : outcome string * signin_state := _complete_login env "sid-new" comes_back (Some "corp") bob_returns.

Lemma a_login_completes_only_its_own_attempt_witness :
  bob_in_again.1 = Ok "https://mlflow/oidc/ui/user" ∧
  (tamed (si_db bob_returns) (si_db bob_in_again.2) ∨
   ∃ r p browser cookie name u,
     own_attempt env comes_back (Some "corp") (si_db bob_returns) (clients_ready (Some "corp") (si_oauth bob_returns)) r p ∧ (∀ x, x ∈ auth_states (si_db bob_in_again.2) → st_state x ≠ st_state r) ∧
     si_session bob_returns = Some browser ∧ same_attempts browser cookie ∧
     (∃ d, same_accounts (si_db bob_returns) d ∧ vouched env comes_back p d (clients_at_exchange (Some "corp") p (si_oauth bob_returns)) cookie name) ∧
     u ∈ users (si_db bob_in_again.2) ∧ u_username u = normalize_username name ∧
     (∀ x, x ∈ auth_sessions (si_db bob_in_again.2) → s_revoked_at x = None → x ∈ auth_sessions (si_db bob_returns) ∨ x = opened env "sid-new" u) ∧
     (le_outage env = None → ∀ id, get_key "session_id" browser = JStr id → id ≠ "" → id ≠ "sid-new" → dead id (si_db bob_in_again.2))).
Proof.
  split; [vm_compute; reflexivity|].
  apply (a_login_completes_only_its_own_attempt env "sid-new" comes_back (Some "corp") bob_returns bob_in_again.1).
  exact (surjective_pairing bob_in_again).
Defined.

(** What it leaves in the database. *)
Lemma bob_has_one_live_session :
  filter (λ x, s_user_id x = 2 ∧ s_revoked_at x = None) (auth_sessions (si_db bob_in_again.2)) = [AuthSessionRow "sid-new" 2 None 3700 None].
Proof. vm_compute. reflexivity. Qed.

(** ** Bob signs out *)

Definition bob_out : outcome string * signin_state := logout env (asks []) bob_returns.
(** While the database cannot commit. *)
Definition env_down : login_env := LoginEnv 100 "salt" "random" REPORT (Some (OtherException "OperationalError")).
Definition bob_still_in : outcome string * signin_state := logout env_down (asks []) bob_returns.
Lemma logout_ends_the_session_witness :
  (∃ url, bob_out.1 = Ok url ∧ si_session bob_out.2 = Some ∅ ∧ ("sid-bob" ≠ "" → dead "sid-bob" (si_db bob_out.2)) ∧
     same_accounts (si_db bob_returns) (si_db bob_out.2)) ∧
  (bob_still_in.1 = Raise LOGOUT_FAILED ∧ si_session bob_still_in.2 = Some bobs_browser ∧ si_db bob_still_in.2 = si_db bob_returns ∧
     last (au_audit (si_auth bob_still_in.2)) = Some (LogoutFailed "<unknown>")).
Proof.
  split.
  - exact (logout_ends_the_session env (asks []) bob_returns bobs_browser _ _ eq_refl (surjective_pairing bob_out)).
  - exact (logout_ends_the_session env_down (asks []) bob_returns bobs_browser _ _ eq_refl (surjective_pairing bob_still_in)).
Defined.

(** ** From the login to the page that [next] names *)

Definition opening : site := Site (at_server (set_auth_states (λ _, []) sample_db)) [].
Definition begins : signin_state := (run_request env "st-1" "" (BeginAt (asks [("next", "/models/m1")]) "corp") (arrives ∅ (server opening))).2.
Definition begun : site := Site begins (option_list (si_session begins) ++ []).
Definition cookie_given : claims := default ∅ (si_session begins).
Definition lands : outcome string * signin_state :=
  _complete_login env "sid-new" (asks [("state", "st-1"); ("code", "c0de")]) (Some "corp") (arrives cookie_given (server begun)).

Lemma a_login_never_leaves_the_site_witness :
  lands.1 = Ok "/models/m1" ∧ on_site (asks [("state", "st-1"); ("code", "c0de")]) "/models/m1".
Proof.
  split; [vm_compute; reflexivity|].
  apply (a_login_never_leaves_the_site opening begun env "sid-new" _ (Some "corp") cookie_given "/models/m1" lands.2); [done|done| | |].
  - apply rtc_once. apply (Served env "st-1" "" (BeginAt (asks [("next", "/models/m1")]) "corp") ∅); [by left|done].
  - unfold cookie_given. cbn [issued begun]. destruct (si_session begins) as [c|]; [right; by left|by left].
  - change (lands = (Ok "/models/m1", lands.2)). rewrite [LHS]surjective_pairing. by apply (f_equal2 pair); [vm_compute|].
Defined.
