(* ===== verification/ConfigProviders.v ===== *)
(** * Where configuration comes from: the providers ([config_providers/])

    The base class, the environment, and the five back ends, each with the state
    of its object. What a service answers is a parameter. *)
From S2P Require Import Prelude PyStrings Json Kubernetes Identity AuthMiddleware RouterLib.
From Stdlib Require Import Ascii.
#[local] Open Scope Z_scope.

(** ** [base.py]: sensitivity levels *)

Inductive SecretLevel :=
  | PUBLIC
  | SENSITIVE
  | SECRET.

#[export] Instance SecretLevel_eq_dec : EqDecision SecretLevel.
Proof. solve_decision. Defined.

(** The dict as [base.py] builds it, and as [mlflow_env.py], which only the
    command line imports, extends it. *)
Definition SECRET_CLASSIFICATION : gmap string SecretLevel :=
  list_to_map [("SECRET_KEY", SECRET); ("OIDC_CLIENT_SECRET", SECRET); ("OIDC_USERS_DB_URI", SENSITIVE); ("OIDC_CLIENT_ID", SENSITIVE)].
Definition MLFLOW_CLASSIFICATION : gmap string SecretLevel :=
  list_to_map [("MLFLOW_BACKEND_STORE_URI", SECRET); ("MLFLOW_REGISTRY_STORE_URI", SECRET); ("MLFLOW_FLASK_SERVER_SECRET_KEY", SECRET)] ∪ SECRET_CLASSIFICATION.

(** What the process holds outside the provider objects: [os.environ] and the
    classification. *)
Record host := MkHost {
  environ : gmap string string;
  classification : gmap string SecretLevel;
}.

Definition get_secret_level (h : host) (key : string) : SecretLevel := default PUBLIC (classification h !! key).

(** [os.environ.get(key, default)] *)
Definition getenv (h : host) (key default : string) : string := match environ h !! key with Some v => v | None => default end.
(** [os.environ.get(key, "").lower() == "true"] *)
Definition switched_on (h : host) (key : string) : bool := String.eqb (py_lower (getenv h key "")) "true".

(** [int(s)] of a text *)
Definition int_of_text (s : string) : outcome Z := match py_int s with Some n => Ok n | None => Raise ValueError end.

(** [cache.get(key, default)], where a service may have filled the cache with
    something other than a dict. *)
Definition cache_get (cache : json) (key : string) (default : json) : outcome json :=
  match cache with JObj fields => Ok (get_or default key (dict_of fields)) | _ => Raise AttributeError end.

(** [s.replace(old, "")] and [s.replace(old, new)] *)
Definition replace_str (old new s : string) : string :=
  if decide (old = "") then String.concat new ("" :: map (λ c, String c "") (String.list_ascii_of_string s) ++ [""])
  else String.concat new (split_str old s).

(** [s.rstrip("\n\r")] *)
Fixpoint rstrip_newlines (s : string) : string :=
  match s with
  | EmptyString => ""
  | String c s =>
      match rstrip_newlines s with
      | EmptyString => if decide (c = ascii_of_nat 10 ∨ c = ascii_of_nat 13) then "" else String c ""
      | t => String c t
      end
  end.

(** ** The services *)

Definition ResourceNotFoundException : exc := OtherException "ResourceNotFoundException".

(** How a Vault client presents itself. *)
Inductive vault_auth :=
  | Anonymous
  | Token (token : string)
  | AppRole (role_id secret_id : string).

(** The entries of a directory: the name, [is_file()], and what [read_text()] does. *)
Record dir_entry := MkEntry {
  entry_name : string;
  is_file : bool;
  read_text : outcome string;
}.

(** The libraries that are installed, and the services as they are when asked. *)
Class ConfigServices := {
  services : Type;
  boto3_installed : bool;
  azure_installed : bool;
  hvac_installed : bool;
  boto3_client : services → string → string → outcome unit;
  get_secret_value : services → string → string → outcome (option string);
  get_parameters_by_path : services → string → string → outcome (list (list (string * string)));
  SecretClient : services → string → outcome unit;
  get_secret : services → string → string → outcome (option string);
  SecretClient_close : services → string → outcome unit;
  approle_login : services → string → option string → string → string → outcome unit;
  read_secret_version : services → string → option string → vault_auth → string → string → outcome json;
  read_secret : services → string → option string → vault_auth → string → outcome json;
  is_dir : services → string → bool;
  iterdir : services → string → outcome (list dir_entry);
}.

Section providers.
Context `{ConfigServices, JsonLoads}.

(** ** The interface [ConfigProvider] *)

(** A class of providers: the state of an instance, and the methods. [get(key)]
    answers [None] for a key it does not have. *)
Record provider_class := MkProviderClass {
  instance : Type;
  provider_name : string;
  provider_priority : Z;
  is_available : services → host → instance → outcome bool;
  provider_get : services → host → string → json → M instance json;
  provider_get_many : services → host → list string → M instance (list (string * json));
  provider_refresh : services → M instance unit;
  provider_close : services → M instance unit;
}.

Record ConfigProvider := MkConfigProvider {
  class_of : provider_class;
  object : instance class_of;
}.

Definition name_of (p : ConfigProvider) : string := provider_name (class_of p).
Definition priority_of (p : ConfigProvider) : Z := provider_priority (class_of p).
Definition available (sv : services) (h : host) (p : ConfigProvider) : outcome bool := is_available (class_of p) sv h (object p).

(** The default methods of the base class. *)
Definition DEFAULT_PRIORITY : Z := 100.
Fixpoint base_get_many {S} (get : string → M S json) (keys : list string) : M S (list (string * json)) :=
  match keys with
  | [] => mret []
  | key :: keys =>
      value ← get key;
      rest ← base_get_many get keys;
      mret (match value with JNull => rest | _ => (key, value) :: rest end)
  end.
Definition base_refresh {S} (sv : services) : M S unit := mret tt.
Definition base_close {S} (sv : services) : M S unit := mret tt.

(** ** [env_provider.py] *)

Definition env_get (sv : services) (h : host) (key : string) (default : json) : M unit json :=
  mret (match environ h !! key with Some value => JStr value | None => default end).
Definition env_get_many (sv : services) (h : host) (keys : list string) : M unit (list (string * json)) :=
  mret (omap (λ key, value ← environ h !! key; Some (key, JStr value)) keys).
Definition env_class : provider_class :=
  MkProviderClass unit "env" 1000 (λ _ _ _, Ok true) env_get env_get_many base_refresh base_close.
Definition EnvProvider : ConfigProvider := MkConfigProvider env_class tt.

(** ** [aws_secrets_provider.py] *)

Record aws_secrets := MkAwsSecrets {
  as_client : bool;
  as_cache : json;
  as_secret_name : string;
  as_region : string;
  as_cache_ttl : Z;
  as_initialized : bool;
}.

Definition AWSSecretsManagerProvider_init (h : host) : outcome aws_secrets :=
  cache_ttl ← int_of_text (getenv h "CONFIG_AWS_SECRETS_CACHE_TTL" "300");
  Ok (MkAwsSecrets false (JObj []) (getenv h "CONFIG_AWS_SECRETS_NAME" "mlflow-oidc-auth")
        (getenv h "CONFIG_AWS_SECRETS_REGION" (getenv h "AWS_REGION" "us-east-1")) cache_ttl false).

Definition as_set (client : bool) (cache : json) (initialized : bool) : M aws_secrets unit :=
  modify (λ p, MkAwsSecrets client cache (as_secret_name p) (as_region p) (as_cache_ttl p) initialized).
Definition as_set_cache (cache : json) : M aws_secrets unit :=
  modify (λ p, MkAwsSecrets (as_client p) cache (as_secret_name p) (as_region p) (as_cache_ttl p) (as_initialized p)).

Definition aws_is_available (key : string) (h : host) : bool := switched_on h key && boto3_installed.

Definition as_load_secrets (sv : services) : M aws_secrets unit :=
  p ← gets id;
  if negb (as_client p) then mret tt
  else
    match get_secret_value sv (as_region p) (as_secret_name p) with
    | Ok secret_string =>
        match nonempty secret_string with
        | None => mret tt
        | Some text => as_set_cache (match json_loads text with Some parsed => parsed | None => JObj [] end)
        end
    | Raise e => if decide (e = ResourceNotFoundException) then as_set_cache (JObj []) else raise e
    end.

Definition as_ensure_initialized (sv : services) : M aws_secrets unit :=
  p ← gets id;
  if as_initialized p then mret tt
  else
    _ ← lift (boto3_client sv "secretsmanager" (as_region p));
    _ ← as_set true (as_cache p) false;
    _ ← as_load_secrets sv;
    p ← gets id;
    as_set (as_client p) (as_cache p) true.

Definition as_get (sv : services) (h : host) (key : string) (default : json) : M aws_secrets json :=
  if decide (get_secret_level h key = PUBLIC) then mret default
  else _ ← as_ensure_initialized sv; ask (λ p, cache_get (as_cache p) key default).

Definition as_refresh (sv : services) : M aws_secrets unit :=
  p ← gets id; if as_initialized p then as_load_secrets sv else mret tt.
Definition as_close (sv : services) : M aws_secrets unit := as_set false (JObj []) false.

Definition AWSSecretsManagerProvider : provider_class :=
  MkProviderClass aws_secrets "aws-secrets-manager" 10 (λ _ h _, Ok (aws_is_available "CONFIG_AWS_SECRETS_ENABLED" h))
    as_get (λ sv h, base_get_many (λ key, as_get sv h key JNull)) as_refresh as_close.

(** ** [aws_parameter_store_provider.py] *)

Record parameter_store := MkParameterStore {
  ps_client : bool;
  ps_cache : claims;
  ps_prefix : string;
  ps_region : string;
  ps_initialized : bool;
}.

Definition AWSParameterStoreProvider_init (h : host) : parameter_store :=
  MkParameterStore false ∅ (getenv h "CONFIG_AWS_PARAMETER_STORE_PREFIX" "/mlflow-oidc-auth/")
    (getenv h "CONFIG_AWS_PARAMETER_STORE_REGION" (getenv h "AWS_REGION" "us-east-1")) false.

Definition ps_set (client : bool) (cache : claims) (initialized : bool) : M parameter_store unit :=
  modify (λ p, MkParameterStore client cache (ps_prefix p) (ps_region p) initialized).

(** The two loops over the pages and their parameters. *)
Definition ps_collect (prefix : string) (cache : claims) (pages : list (list (string * string))) : claims :=
  foldl (λ cache '(name, value), <[replace_str prefix "" name := JStr value]> cache) cache (mjoin pages).

Definition ps_load_parameters (sv : services) : M parameter_store unit :=
  p ← gets id;
  if negb (ps_client p) then mret tt
  else
    ps_set true (match get_parameters_by_path sv (ps_region p) (ps_prefix p) with
                 | Ok pages => ps_collect (ps_prefix p) (ps_cache p) pages
                 | Raise _ => ∅
                 end) (ps_initialized p).

Definition ps_ensure_initialized (sv : services) : M parameter_store unit :=
  p ← gets id;
  if ps_initialized p then mret tt
  else
    _ ← lift (boto3_client sv "ssm" (ps_region p));
    _ ← ps_set true (ps_cache p) false;
    _ ← ps_load_parameters sv;
    p ← gets id;
    ps_set (ps_client p) (ps_cache p) true.

Definition ps_get (sv : services) (h : host) (key : string) (default : json) : M parameter_store json :=
  if decide (get_secret_level h key = SECRET) then mret default
  else _ ← ps_ensure_initialized sv; gets (λ p, get_or default key (ps_cache p)).

(** Unlike [get], without a look at the sensitivity of the keys. *)
Definition ps_get_many (sv : services) (h : host) (keys : list string) : M parameter_store (list (string * json)) :=
  _ ← ps_ensure_initialized sv;
  gets (λ p, omap (λ key, value ← ps_cache p !! key; Some (key, value)) keys).

Definition ps_refresh (sv : services) : M parameter_store unit :=
  p ← gets id;
  if ps_initialized p then (_ ← ps_set (ps_client p) ∅ true; ps_load_parameters sv) else mret tt.
Definition ps_close (sv : services) : M parameter_store unit := ps_set false ∅ false.

Definition AWSParameterStoreProvider : provider_class :=
  MkProviderClass parameter_store "aws-parameter-store" 50 (λ _ h _, Ok (aws_is_available "CONFIG_AWS_PARAMETER_STORE_ENABLED" h))
    ps_get ps_get_many ps_refresh ps_close.

(** ** [azure_keyvault_provider.py] *)

Record key_vault := MkKeyVault {
  kv_client : bool;
  kv_cache : claims;
  kv_vault_name : string;
  kv_initialized : bool;
}.

Definition AzureKeyVaultProvider_init (h : host) : key_vault := MkKeyVault false ∅ (getenv h "CONFIG_AZURE_KEYVAULT_NAME" "") false.

Definition kv_set (client : bool) (cache : claims) (initialized : bool) : M key_vault unit :=
  modify (λ p, MkKeyVault client cache (kv_vault_name p) initialized).

Definition kv_is_available (h : host) (p : key_vault) : bool :=
  switched_on h "CONFIG_AZURE_KEYVAULT_ENABLED" && negb (String.eqb (kv_vault_name p) "") && azure_installed.

Definition vault_url (p : key_vault) : string := "https://" +:+ kv_vault_name p +:+ ".vault.azure.net".

Definition kv_ensure_initialized (sv : services) : M key_vault unit :=
  p ← gets id;
  if kv_initialized p then mret tt
  else _ ← lift (SecretClient sv (vault_url p)); kv_set true (kv_cache p) true.

Definition _key_to_secret_name (key : string) : string := String.concat "-" (py_split "_" key).

Definition kv_get (sv : services) (h : host) (key : string) (default : json) : M key_vault json :=
  if decide (get_secret_level h key = PUBLIC) then mret default
  else
    p ← gets id;
    match kv_cache p !! key with
    | Some value => mret value
    | None =>
        _ ← kv_ensure_initialized sv;
        match get_secret sv (vault_url p) (_key_to_secret_name key) with
        | Ok secret =>
            let value := match secret with Some text => JStr text | None => JNull end in
            p ← gets id; _ ← kv_set (kv_client p) (<[key := value]> (kv_cache p)) (kv_initialized p); mret value
        | Raise _ => mret default
        end
    end.

Definition kv_refresh (sv : services) : M key_vault unit := p ← gets id; kv_set (kv_client p) ∅ (kv_initialized p).
Definition kv_close (sv : services) : M key_vault unit :=
  p ← gets id;
  _ ← lift (if kv_client p then SecretClient_close sv (vault_url p) else Ok tt);
  kv_set false ∅ false.

Definition AzureKeyVaultProvider : provider_class :=
  MkProviderClass key_vault "azure-keyvault" 10 (λ _ h p, Ok (kv_is_available h p))
    kv_get (λ sv h, base_get_many (λ key, kv_get sv h key JNull)) kv_refresh kv_close.

(** ** [vault_provider.py] *)

Record hashicorp_vault := MkVault {
  hv_client : bool;
  hv_cache : json;
  hv_addr : string;
  hv_token : option string;
  hv_role_id : option string;
  hv_secret_id : option string;
  hv_path : string;
  hv_namespace : option string;
  hv_kv_version : Z;
  hv_initialized : bool;
}.

Definition HashiCorpVaultProvider_init (h : host) : outcome hashicorp_vault :=
  kv_version ← int_of_text (getenv h "CONFIG_VAULT_KV_VERSION" "2");
  Ok (MkVault false (JObj []) (getenv h "CONFIG_VAULT_ADDR" "http://localhost:8200") (environ h !! "CONFIG_VAULT_TOKEN")
        (environ h !! "CONFIG_VAULT_ROLE_ID") (environ h !! "CONFIG_VAULT_SECRET_ID")
        (getenv h "CONFIG_VAULT_PATH" "secret/data/mlflow-oidc-auth") (environ h !! "CONFIG_VAULT_NAMESPACE") kv_version false).

Definition hv_set (client : bool) (cache : json) (initialized : bool) : M hashicorp_vault unit :=
  modify (λ p, MkVault client cache (hv_addr p) (hv_token p) (hv_role_id p) (hv_secret_id p) (hv_path p) (hv_namespace p) (hv_kv_version p) initialized).

Definition hv_is_available (h : host) (p : hashicorp_vault) : bool :=
  switched_on h "CONFIG_VAULT_ENABLED" && (truthy (hv_token p) || (truthy (hv_role_id p) && truthy (hv_secret_id p))) && hvac_installed.

(** How the client is authenticated: a token first, then an AppRole. *)
Definition hv_auth (p : hashicorp_vault) : vault_auth :=
  match nonempty (hv_token p), nonempty (hv_role_id p), nonempty (hv_secret_id p) with
  | Some token, _, _ => Token token
  | None, Some role_id, Some secret_id => AppRole role_id secret_id
  | _, _, _ => Anonymous
  end.

(** [path.split("/")[-1]], and [path.rsplit("/", 1)[0] if "/" in path else "secret"] *)
Definition kv2_path (path : string) : string := List.last (py_split "/" path) "".
Definition kv2_mount_point (path : string) : string :=
  if contains "/" path then String.concat "/" (removelast (py_split "/" path)) else "secret".

(** [response.get("data", {})], which raises on what is no dict. *)
Definition data_of (response : json) : outcome json := cache_get response "data" (JObj []).

Definition hv_read (sv : services) (p : hashicorp_vault) : outcome json :=
  if decide (hv_kv_version p = 2)
  then response ← read_secret_version sv (hv_addr p) (hv_namespace p) (hv_auth p) (kv2_path (hv_path p)) (kv2_mount_point (hv_path p));
       data ← data_of response; data_of data
  else response ← read_secret sv (hv_addr p) (hv_namespace p) (hv_auth p) (hv_path p); data_of response.

Definition hv_load_secrets (sv : services) : M hashicorp_vault unit :=
  p ← gets id;
  if negb (hv_client p) then mret tt
  else hv_set true (match hv_read sv p with Ok cache => cache | Raise _ => JObj [] end) (hv_initialized p).

Definition hv_ensure_initialized (sv : services) : M hashicorp_vault unit :=
  p ← gets id;
  if hv_initialized p then mret tt
  else
    _ ← hv_set true (hv_cache p) false;
    _ ← lift (match hv_auth p with AppRole role_id secret_id => approle_login sv (hv_addr p) (hv_namespace p) role_id secret_id | _ => Ok tt end);
    _ ← hv_load_secrets sv;
    p ← gets id;
    hv_set (hv_client p) (hv_cache p) true.

Definition hv_get (sv : services) (h : host) (key : string) (default : json) : M hashicorp_vault json :=
  if decide (get_secret_level h key = PUBLIC) then mret default
  else _ ← hv_ensure_initialized sv; ask (λ p, cache_get (hv_cache p) key default).

Definition hv_refresh (sv : services) : M hashicorp_vault unit :=
  p ← gets id; if hv_initialized p then hv_load_secrets sv else mret tt.
Definition hv_close (sv : services) : M hashicorp_vault unit := hv_set false (JObj []) false.

Definition HashiCorpVaultProvider : provider_class :=
  MkProviderClass hashicorp_vault "hashicorp-vault" 10 (λ _ h p, Ok (hv_is_available h p))
    hv_get (λ sv h, base_get_many (λ key, hv_get sv h key JNull)) hv_refresh hv_close.

(** ** [kubernetes_provider.py] *)

Record kubernetes_secrets := MkKubernetesSecrets {
  ks_secrets_path : string;
  ks_cache : claims;
  ks_initialized : bool;
}.

Definition KubernetesSecretsProvider_init (h : host) : kubernetes_secrets :=
  MkKubernetesSecrets (getenv h "CONFIG_K8S_SECRETS_PATH" "/var/run/secrets/mlflow-oidc-auth") ∅ false.

Definition ks_set (cache : claims) (initialized : bool) : M kubernetes_secrets unit :=
  modify (λ p, MkKubernetesSecrets (ks_secrets_path p) cache initialized).

Definition ks_is_available (sv : services) (h : host) (p : kubernetes_secrets) : bool :=
  switched_on h "CONFIG_K8S_SECRETS_ENABLED" && is_dir sv (ks_secrets_path p).

(** The loop over the directory: hidden entries, directories and files that cannot
    be read are skipped. *)
Definition ks_collect (entries : list dir_entry) : claims :=
  foldl (λ cache secret_file,
    if is_file secret_file && negb (startswith (entry_name secret_file) ".") then
      match read_text secret_file with
      | Ok text => <[entry_name secret_file := JStr (rstrip_newlines text)]> cache
      | Raise _ => cache
      end
    else cache) ∅ entries.

Definition ks_load_secrets (sv : services) : M kubernetes_secrets unit :=
  p ← gets id;
  _ ← ks_set ∅ (ks_initialized p);
  if negb (is_dir sv (ks_secrets_path p)) then mret tt
  else entries ← lift (iterdir sv (ks_secrets_path p)); ks_set (ks_collect entries) (ks_initialized p).

Definition ks_ensure_initialized (sv : services) : M kubernetes_secrets unit :=
  p ← gets id;
  if ks_initialized p then mret tt
  else _ ← ks_load_secrets sv; p ← gets id; ks_set (ks_cache p) true.

Definition ks_get (sv : services) (h : host) (key : string) (default : json) : M kubernetes_secrets json :=
  if decide (get_secret_level h key = PUBLIC) then mret default
  else _ ← ks_ensure_initialized sv; gets (λ p, get_or default key (ks_cache p)).

Definition ks_refresh (sv : services) : M kubernetes_secrets unit :=
  p ← gets id; _ ← ks_set ∅ (ks_initialized p); ks_load_secrets sv.
Definition ks_close (sv : services) : M kubernetes_secrets unit := ks_set ∅ false.

Definition KubernetesSecretsProvider : provider_class :=
  MkProviderClass kubernetes_secrets "kubernetes-secrets" 20 (λ sv h p, Ok (ks_is_available sv h p))
    ks_get (λ sv h, base_get_many (λ key, ks_get sv h key JNull)) ks_refresh ks_close.

End providers.
