(* ===== verification/Configuration.v ===== *)
(** * The configuration: the provider chain, the settings, MLflow's environment

    [config_providers/manager.py], [config.py] and [config_providers/mlflow_env.py]. *)
From S2P Require Import Prelude PyStrings Json Permissions Ownership Kubernetes ProviderRegistry Identity AuthMiddleware Validators RouterLib ConfigProviders.
From stdpp Require Import pretty.
From Stdlib Require Import Ascii.
#[local] Open Scope Z_scope.

(** A setting as text, where the setting is one; the plugin takes text settings
    for text. *)
Definition text_setting (v : json) : option string := match v with JStr s => Some s | _ => None end.

(** What startup reports: the cases of [logger.warning]. *)
Inductive config_warning :=
  | SecretKeyNotConfigured
  | PkceDisabled (value : string)
  | PlainNotSupported
  | UnrecognisedCodeChallenge (value : string)
  | RestrictionHasNoEffect
  | DefaultPermissionIsPermissive
  | UsernameFieldEmpty
  | DisplayNameFieldEmpty
  | GroupNameEmpty
  | AdminGroupNameEmpty
  | RegistryError (message : registry_error).

Section configuration.
Context `{ConfigServices, JsonLoads, ValidatorLibs}.

(** ** [manager.py]: the chain *)

(** [_load_builtin_providers]: the modules of the package import without the SDKs;
    a constructor may raise, which is not caught. *)
Definition _load_builtin_providers (h : host) : outcome (list ConfigProvider) :=
  secrets_manager ← AWSSecretsManagerProvider_init h;
  vault ← HashiCorpVaultProvider_init h;
  Ok [MkConfigProvider AWSSecretsManagerProvider secrets_manager;
      MkConfigProvider AWSParameterStoreProvider (AWSParameterStoreProvider_init h);
      MkConfigProvider AzureKeyVaultProvider (AzureKeyVaultProvider_init h);
      MkConfigProvider HashiCorpVaultProvider vault;
      MkConfigProvider KubernetesSecretsProvider (KubernetesSecretsProvider_init h);
      EnvProvider].

(** The entry points, each with what loading and calling it gives: an error, an
    object of another kind ([None]) or a provider. *)
Abbreviation entry_points := (outcome (list (outcome (option ConfigProvider)))).

Definition _load_entry_point_providers (eps : entry_points) : list ConfigProvider :=
  match eps with
  | Ok eps => omap (λ loaded, match loaded with Ok p => p | Raise _ => None end) eps
  | Raise _ => []
  end.

(** [[p for p in all_providers if p.is_available()]] *)
Fixpoint only_available (sv : services) (h : host) (ps : list ConfigProvider) : outcome (list ConfigProvider) :=
  match ps with
  | [] => Ok []
  | p :: ps =>
      ok ← available sv h p;
      rest ← only_available sv h ps;
      Ok (if ok : bool then p :: rest else rest)
  end.

Definition enabled_by_name (h : host) (ps : list ConfigProvider) : list ConfigProvider :=
  match nonempty (environ h !! "CONFIG_PROVIDERS") with
  | None => ps
  | Some enabled_names => filter (λ p, name_of p ∈ py_strip <$> py_split "," enabled_names) ps
  end.

Definition _discover_providers (sv : services) (h : host) (eps : entry_points) : outcome (list ConfigProvider) :=
  builtin ← _load_builtin_providers h;
  available_providers ← only_available sv h (enabled_by_name h (builtin ++ _load_entry_point_providers eps));
  Ok (match sort_by priority_of available_providers with
      | [] => [EnvProvider]
      | providers => providers
      end).

Definition register_provider (provider : ConfigProvider) (providers : list ConfigProvider) : list ConfigProvider :=
  sort_by priority_of (providers ++ [provider]).

(** The loop of [get]: the providers asked keep what the call changed in them. *)
Fixpoint ask_chain (sv : services) (h : host) (key : string) (default : json) (ps : list ConfigProvider) : outcome json * list ConfigProvider :=
  match ps with
  | [] => (Ok default, [])
  | p :: rest =>
      match provider_get (class_of p) sv h key JNull (object p) with
      | (Ok JNull, o) =>
          let '(answer, rest) := ask_chain sv h key default rest in
          (answer, MkConfigProvider (class_of p) o :: rest)
      | (answer, o) => (answer, MkConfigProvider (class_of p) o :: rest)
      end
  end.

(** The loops of [refresh] and [close]: a provider that raises is passed over. *)
Definition try_each (act : ∀ c : provider_class, M (instance c) unit) (ps : list ConfigProvider) : list ConfigProvider :=
  (λ p, MkConfigProvider (class_of p) (act (class_of p) (object p)).2) <$> ps.

(** The process: the environment, the chain, what was reported. *)
Record process := MkProcess {
  host_of : host;
  chain : list ConfigProvider;
  reported : list config_warning;
}.

Definition set_chain (ps : list ConfigProvider) (s : process) : process := MkProcess (host_of s) ps (reported s).
Definition warn (w : config_warning) : M process unit := modify (λ s, MkProcess (host_of s) (chain s) (reported s ++ [w])).
Definition warn_when (b : bool) (w : config_warning) : M process unit := if b then warn w else mret tt.

(** The singleton, as the module builds it. *)
Definition config_manager (sv : services) (h : host) (eps : entry_points) : outcome process :=
  providers ← _discover_providers sv h eps; Ok (MkProcess h providers []).

Section typed.
Variable sv : services.

Definition get (key : string) (default : json) : M process json := λ s,
  let '(answer, ps) := ask_chain sv (host_of s) key default (chain s) in (answer, set_chain ps s).

Definition get_bool (key : string) (default : bool) : M process bool :=
  value ← get key JNull;
  mret (match value with
        | JNull => default
        | JBool b => b
        | v => bool_decide (py_lower (py_str v) ∈ ["true"; "1"; "t"])
        end).

(** [int(value)] of a JSON value, or [ValueError]/[TypeError] *)
Definition int_of_json (v : json) : option Z :=
  match v with
  | JBool b => Some (if b then 1 else 0)
  | JNum n => Some n
  | JStr s => py_int s
  | _ => None
  end.
Definition get_int (key : string) (default : Z) : M process Z :=
  value ← get key JNull;
  mret (match value with JNull => default | v => match int_of_json v with Some n => n | None => default end end).

Definition get_list (key : string) (default_value : list json) : M process (list json) :=
  value ← get key JNull;
  mret (match value with
        | JNull => default_value
        | JArr items => items
        | v => JStr ∘ py_strip <$> py_split "," (py_str v)
        end).

Definition refresh_chain : M process unit := modify (λ s, set_chain (try_each (λ c, provider_refresh c sv) (chain s)) s).
Definition close_chain : M process unit := modify (λ s, set_chain (try_each (λ c, provider_close c sv) (chain s)) s).
End typed.
End configuration.

(** ** [config.py]: the settings *)

Module AppConfig.
Record t := Make {
  DEFAULT_MLFLOW_PERMISSION : json;
  RESTRICT_RESOURCE_CREATION : bool;
  PERMISSION_SOURCE_ORDER : list json;
  SECRET_KEY : json;
  OIDC_CLIENT_SECRET : json;
  SESSION_COOKIE_NAME : json;
  SESSION_COOKIE_MAX_AGE_SECONDS : option Z;
  SESSION_COOKIE_SAMESITE : string;
  SESSION_COOKIE_SECURE : bool;
  OIDC_USERS_DB_URI : json;
  OIDC_DISCOVERY_URL : json;
  OIDC_CLIENT_ID : json;
  OIDC_REDIRECT_URI : json;
  OIDC_SCOPE : json;
  OIDC_PROVIDER_DISPLAY_NAME : json;
  OIDC_GROUPS_ATTRIBUTE : json;
  OIDC_AUDIENCE : json;
  OIDC_SESSION_EXPIRY_LEEWAY_SECONDS : Z;
  OIDC_USE_REFRESH_TOKEN : bool;
  OIDC_JWKS_CACHE_TTL_SECONDS : Z;
  OIDC_HTTP_TIMEOUT_SECONDS : Z;
  OIDC_VERIFY_SSL : bool;
  OIDC_CODE_CHALLENGE : option string;
  MANAGED_BY_ENFORCEMENT : Enforcement;
  PERMISSION_CACHE_TTL_SECONDS : Z;
  OIDC_USERNAME_FIELD : list json;
  OIDC_DISPLAY_NAME_FIELD : list json;
  OIDC_GROUP_NAME : list json;
  OIDC_ADMIN_GROUP_NAME : list json;
  OIDC_GROUP_DETECTION_PLUGIN : json;
  OIDC_ISSUER : json;
  OIDC_PROVISION_ON_BEARER_AUTH : bool;
  OIDC_TRUST_BEARER_GROUP_CLAIMS : bool;
  OIDC_ALEMBIC_VERSION_TABLE : json;
  EXTEND_MLFLOW_MENU : bool;
  EXTEND_MLFLOW_REAUTH : bool;
  DEFAULT_LANDING_PAGE_IS_PERMISSIONS : bool;
  AUTOMATIC_LOGIN_REDIRECT : bool;
  OIDC_GEN_AI_GATEWAY_ENABLED : bool;
  MLFLOW_ENABLE_WORKSPACES : bool;
  WORKSPACE_CACHE_MAX_SIZE : Z;
  WORKSPACE_CACHE_TTL_SECONDS : Z;
  TRUSTED_PROXIES : list json;
  CACHE_BACKEND : json;
  CACHE_REDIS_URL : json;
  CACHE_KEY_PREFIX : json;
  DB_POOL_SIZE : Z;
  DB_POOL_MAX_OVERFLOW : Z;
  DB_POOL_RECYCLE_SECONDS : Z;
  OIDC_WORKSPACE_CLAIM_NAME : json;
  OIDC_WORKSPACE_DETECTION_PLUGIN : json;
  OIDC_WORKSPACE_DEFAULT_PERMISSION : json;
  OIDC_WORKSPACE_REQUIRE_CREATION_CONTEXT : bool;
  OIDC_WORKSPACE_DENY_DEFAULT_CREATION : bool;
  AUDIT_LOG_ENABLED : bool;
  AUDIT_LOG_LEVEL : json;
  ENABLE_API_DOCS : bool;
  AUTH_PROVIDERS : RegistryLoadResult;
}.
End AppConfig.
Abbreviation AppConfig := AppConfig.t.

Definition CODE_CHALLENGE_DISABLED_VALUES : list string := [""; "none"; "off"; "false"; "no"; "disabled"; "0"].
Definition CODE_CHALLENGE_ENABLED_VALUES : list string := ["true"; "yes"; "on"; "enabled"; "1"].
Definition CODE_CHALLENGE_METHODS : list string := ["S256"].

Section settings.
Context `{ConfigServices, JsonLoads, ValidatorLibs}.

(** The method, or [None] for no PKCE, and what is reported. *)
Definition _parse_code_challenge (value : json) : option string * list config_warning :=
  match value with
  | JNull => (Some "S256", [])
  | value =>
      let normalized := py_strip (py_str value) in
      let lowered := py_lower normalized in
      if decide (lowered ∈ CODE_CHALLENGE_DISABLED_VALUES) then (None, [PkceDisabled normalized])
      else if decide (lowered ∈ CODE_CHALLENGE_ENABLED_VALUES) then (Some "S256", [])
      else
        match List.find (λ method, String.eqb lowered (py_lower method)) CODE_CHALLENGE_METHODS with
        | Some method => (Some method, [])
        | None =>
            if decide (lowered = "plain") then (Some "S256", [PlainNotSupported])
            else (Some "S256", [UnrecognisedCodeChallenge normalized])
        end
  end.

Definition _has_usable_entry (field_list : list json) : bool :=
  existsb (λ field, match field with JStr s => negb (String.eqb (py_strip s) "") | _ => false end) field_list.

(** [get_permission] of a setting: a name of no level, and a value that is no
    text, raise; both callers return. *)
Definition permission_of_setting (v : json) : outcome Permission :=
  match v with JStr s => get_permission s | _ => Raise KeyError end.
Definition default_permission_grants (grants : Permission → bool) (c : AppConfig) : bool :=
  match permission_of_setting (AppConfig.DEFAULT_MLFLOW_PERMISSION c) with Ok p => grants p | Raise _ => false end.

Definition _warn_if_resource_creation_restriction_is_inert (c : AppConfig) : M process unit :=
  if negb (AppConfig.RESTRICT_RESOURCE_CREATION c) || AppConfig.MLFLOW_ENABLE_WORKSPACES c then mret tt
  else warn_when (default_permission_grants can_update c) RestrictionHasNoEffect.

Definition _warn_if_default_permission_is_permissive (c : AppConfig) : M process unit :=
  if AppConfig.MLFLOW_ENABLE_WORKSPACES c then mret tt
  else warn_when (default_permission_grants can_read c) DefaultPermissionIsPermissive.

Definition _warn_if_username_field_unusable (c : AppConfig) : M process unit :=
  _ ← warn_when (negb (_has_usable_entry (AppConfig.OIDC_USERNAME_FIELD c))) UsernameFieldEmpty;
  warn_when (negb (_has_usable_entry (AppConfig.OIDC_DISPLAY_NAME_FIELD c))) DisplayNameFieldEmpty.

Definition _warn_if_group_name_unusable (c : AppConfig) : M process unit :=
  _ ← warn_when (negb (_has_usable_entry (AppConfig.OIDC_GROUP_NAME c))) GroupNameEmpty;
  warn_when (negb (_has_usable_entry (AppConfig.OIDC_ADMIN_GROUP_NAME c))) AdminGroupNameEmpty.

Fixpoint warn_all (ws : list config_warning) : M process unit :=
  match ws with [] => mret tt | w :: ws => _ ← warn w; warn_all ws end.
Definition _warn_if_provider_registry_invalid (c : AppConfig) : M process unit :=
  warn_all (RegistryError <$> errors (AppConfig.AUTH_PROVIDERS c)).

Variable sv : services.
(** [secrets.token_hex(16)], whether a SAML implementation is importable, and the
    file [AUTH_PROVIDERS_FILE] names. *)
Variable saml_extra : bool.
Variable random_key : string.
Variable read_file : string → option string.

Abbreviation get := (get sv).
Abbreviation get_bool := (get_bool sv).
Abbreviation get_int := (get_int sv).
Abbreviation get_list := (get_list sv).
Definition texts (l : list string) : list json := JStr <$> l.

(** [build_provider_registry(config_manager, self)]: the second key is read when
    the first is not present. *)
Definition load_registry (flat : FlatConfig) : M process RegistryLoadResult :=
  raw ← get "AUTH_PROVIDERS" JNull;
  path ← (if _is_present raw then mret JNull else get "AUTH_PROVIDERS_FILE" JNull);
  mret (build_provider_registry saml_extra (λ key, if decide (key = "AUTH_PROVIDERS") then raw else path) read_file flat).

Definition load_secret_key : M process json :=
  _secret_key ← get "SECRET_KEY" JNull;
  if json_truthy _secret_key then mret _secret_key
  else _ ← warn SecretKeyNotConfigured; mret (JStr random_key).

Definition load_samesite : M process string :=
  v ← get "SESSION_COOKIE_SAMESITE" (JStr "lax");
  match v with
  | JStr s => let samesite := py_lower s in
              if decide (samesite ∈ ["lax"; "strict"; "none"]) then mret samesite else raise ValueError
  | _ => raise AttributeError
  end.

Definition load_code_challenge : M process (option string) :=
  value ← get "OIDC_CODE_CHALLENGE" (JStr "S256");
  let '(challenge, ws) := _parse_code_challenge value in
  _ ← warn_all ws;
  mret challenge.

Definition load_enforcement : M process Enforcement :=
  value ← get "MANAGED_BY_ENFORCEMENT" (JStr "report");
  mret (parse_enforcement (match value with JNull => None | v => Some (py_str v) end)).

(** [__init__] up to the checks. *)
Definition load_settings : M process AppConfig :=
  c_DEFAULT_MLFLOW_PERMISSION ← get "DEFAULT_MLFLOW_PERMISSION" (JStr "NO_PERMISSIONS");
  c_RESTRICT_RESOURCE_CREATION ← get_bool "RESTRICT_RESOURCE_CREATION" false;
  c_PERMISSION_SOURCE_ORDER ← get_list "PERMISSION_SOURCE_ORDER" (texts ["user"; "group"; "regex"; "group-regex"]);
  c_SECRET_KEY ← load_secret_key;
  c_OIDC_CLIENT_SECRET ← get "OIDC_CLIENT_SECRET" JNull;
  c_SESSION_COOKIE_NAME ← get "SESSION_COOKIE_NAME" (JStr "session");
  c_SESSION_COOKIE_MAX_AGE_SECONDS ← get_int "SESSION_COOKIE_MAX_AGE_SECONDS" (14 * 24 * 60 * 60);
  c_SESSION_COOKIE_SAMESITE ← load_samesite;
  c_SESSION_COOKIE_SECURE ← get_bool "SESSION_COOKIE_SECURE" false;
  c_OIDC_USERS_DB_URI ← get "OIDC_USERS_DB_URI" (JStr "sqlite:///auth.db");
  c_OIDC_DISCOVERY_URL ← get "OIDC_DISCOVERY_URL" JNull;
  c_OIDC_CLIENT_ID ← get "OIDC_CLIENT_ID" JNull;
  c_OIDC_REDIRECT_URI ← get "OIDC_REDIRECT_URI" JNull;
  c_OIDC_SCOPE ← get "OIDC_SCOPE" (JStr "openid email profile");
  c_OIDC_PROVIDER_DISPLAY_NAME ← get "OIDC_PROVIDER_DISPLAY_NAME" (JStr "Login with OIDC");
  c_OIDC_GROUPS_ATTRIBUTE ← get "OIDC_GROUPS_ATTRIBUTE" (JStr "groups");
  c_OIDC_AUDIENCE ← get "OIDC_AUDIENCE" JNull;
  c_OIDC_SESSION_EXPIRY_LEEWAY_SECONDS ← get_int "OIDC_SESSION_EXPIRY_LEEWAY_SECONDS" 30;
  c_OIDC_USE_REFRESH_TOKEN ← get_bool "OIDC_USE_REFRESH_TOKEN" false;
  c_OIDC_JWKS_CACHE_TTL_SECONDS ← get_int "OIDC_JWKS_CACHE_TTL_SECONDS" 300;
  c_OIDC_HTTP_TIMEOUT_SECONDS ← get_int "OIDC_HTTP_TIMEOUT_SECONDS" 10;
  c_OIDC_VERIFY_SSL ← get_bool "OIDC_VERIFY_SSL" true;
  c_OIDC_CODE_CHALLENGE ← load_code_challenge;
  c_MANAGED_BY_ENFORCEMENT ← load_enforcement;
  c_PERMISSION_CACHE_TTL_SECONDS ← get_int "PERMISSION_CACHE_TTL_SECONDS" 30;
  c_OIDC_USERNAME_FIELD ← get_list "OIDC_USERNAME_FIELD" (texts ["email"; "preferred_username"]);
  c_OIDC_DISPLAY_NAME_FIELD ← get_list "OIDC_DISPLAY_NAME_FIELD" (texts ["name"]);
  c_OIDC_GROUP_NAME ← get_list "OIDC_GROUP_NAME" (texts ["mlflow"]);
  c_OIDC_ADMIN_GROUP_NAME ← get_list "OIDC_ADMIN_GROUP_NAME" (texts ["mlflow-admin"]);
  c_OIDC_GROUP_DETECTION_PLUGIN ← get "OIDC_GROUP_DETECTION_PLUGIN" JNull;
  c_OIDC_ISSUER ← get "OIDC_ISSUER" JNull;
  c_OIDC_PROVISION_ON_BEARER_AUTH ← get_bool "OIDC_PROVISION_ON_BEARER_AUTH" false;
  c_OIDC_TRUST_BEARER_GROUP_CLAIMS ← get_bool "OIDC_TRUST_BEARER_GROUP_CLAIMS" false;
  c_OIDC_ALEMBIC_VERSION_TABLE ← get "OIDC_ALEMBIC_VERSION_TABLE" (JStr "alembic_version");
  c_EXTEND_MLFLOW_MENU ← get_bool "EXTEND_MLFLOW_MENU" true;
  c_EXTEND_MLFLOW_REAUTH ← get_bool "EXTEND_MLFLOW_REAUTH" true;
  c_DEFAULT_LANDING_PAGE_IS_PERMISSIONS ← get_bool "DEFAULT_LANDING_PAGE_IS_PERMISSIONS" true;
  c_AUTOMATIC_LOGIN_REDIRECT ← get_bool "AUTOMATIC_LOGIN_REDIRECT" false;
  c_OIDC_GEN_AI_GATEWAY_ENABLED ← get_bool "OIDC_GEN_AI_GATEWAY_ENABLED" true;
  c_MLFLOW_ENABLE_WORKSPACES ← get_bool "MLFLOW_ENABLE_WORKSPACES" false;
  c_WORKSPACE_CACHE_MAX_SIZE ← get_int "WORKSPACE_CACHE_MAX_SIZE" 1024;
  c_WORKSPACE_CACHE_TTL_SECONDS ← get_int "WORKSPACE_CACHE_TTL_SECONDS" 300;
  c_TRUSTED_PROXIES ← get_list "TRUSTED_PROXIES" (texts []);
  c_CACHE_BACKEND ← get "CACHE_BACKEND" (JStr "local");
  c_CACHE_REDIS_URL ← get "CACHE_REDIS_URL" JNull;
  c_CACHE_KEY_PREFIX ← get "CACHE_KEY_PREFIX" (JStr "mlflow_oidc_auth:");
  c_DB_POOL_SIZE ← get_int "OIDC_DB_POOL_SIZE" 0;
  c_DB_POOL_MAX_OVERFLOW ← get_int "OIDC_DB_POOL_MAX_OVERFLOW" 0;
  c_DB_POOL_RECYCLE_SECONDS ← get_int "OIDC_DB_POOL_RECYCLE_SECONDS" 0;
  c_OIDC_WORKSPACE_CLAIM_NAME ← get "OIDC_WORKSPACE_CLAIM_NAME" (JStr "workspace");
  c_OIDC_WORKSPACE_DETECTION_PLUGIN ← get "OIDC_WORKSPACE_DETECTION_PLUGIN" JNull;
  c_OIDC_WORKSPACE_DEFAULT_PERMISSION ← get "OIDC_WORKSPACE_DEFAULT_PERMISSION" (JStr "NO_PERMISSIONS");
  c_OIDC_WORKSPACE_REQUIRE_CREATION_CONTEXT ← get_bool "OIDC_WORKSPACE_REQUIRE_CREATION_CONTEXT" false;
  c_OIDC_WORKSPACE_DENY_DEFAULT_CREATION ← get_bool "OIDC_WORKSPACE_DENY_DEFAULT_CREATION" false;
  c_AUDIT_LOG_ENABLED ← get_bool "AUDIT_LOG_ENABLED" true;
  c_AUDIT_LOG_LEVEL ← get "AUDIT_LOG_LEVEL" (JStr "INFO");
  c_ENABLE_API_DOCS ← get_bool "ENABLE_API_DOCS" false;
  c_AUTH_PROVIDERS ← load_registry (MkFlat (text_setting c_OIDC_PROVIDER_DISPLAY_NAME) (text_setting c_OIDC_AUDIENCE)
    (text_setting c_OIDC_ISSUER) (text_setting c_OIDC_DISCOVERY_URL) (text_setting c_OIDC_CLIENT_ID));
  mret {|
    AppConfig.DEFAULT_MLFLOW_PERMISSION := c_DEFAULT_MLFLOW_PERMISSION;
    AppConfig.RESTRICT_RESOURCE_CREATION := c_RESTRICT_RESOURCE_CREATION;
    AppConfig.PERMISSION_SOURCE_ORDER := c_PERMISSION_SOURCE_ORDER;
    AppConfig.SECRET_KEY := c_SECRET_KEY;
    AppConfig.OIDC_CLIENT_SECRET := c_OIDC_CLIENT_SECRET;
    AppConfig.SESSION_COOKIE_NAME := c_SESSION_COOKIE_NAME;
    AppConfig.SESSION_COOKIE_MAX_AGE_SECONDS := if decide (c_SESSION_COOKIE_MAX_AGE_SECONDS = 0) then None else Some c_SESSION_COOKIE_MAX_AGE_SECONDS;
    AppConfig.SESSION_COOKIE_SAMESITE := c_SESSION_COOKIE_SAMESITE;
    AppConfig.SESSION_COOKIE_SECURE := c_SESSION_COOKIE_SECURE;
    AppConfig.OIDC_USERS_DB_URI := c_OIDC_USERS_DB_URI;
    AppConfig.OIDC_DISCOVERY_URL := c_OIDC_DISCOVERY_URL;
    AppConfig.OIDC_CLIENT_ID := c_OIDC_CLIENT_ID;
    AppConfig.OIDC_REDIRECT_URI := c_OIDC_REDIRECT_URI;
    AppConfig.OIDC_SCOPE := c_OIDC_SCOPE;
    AppConfig.OIDC_PROVIDER_DISPLAY_NAME := c_OIDC_PROVIDER_DISPLAY_NAME;
    AppConfig.OIDC_GROUPS_ATTRIBUTE := c_OIDC_GROUPS_ATTRIBUTE;
    AppConfig.OIDC_AUDIENCE := c_OIDC_AUDIENCE;
    AppConfig.OIDC_SESSION_EXPIRY_LEEWAY_SECONDS := c_OIDC_SESSION_EXPIRY_LEEWAY_SECONDS;
    AppConfig.OIDC_USE_REFRESH_TOKEN := c_OIDC_USE_REFRESH_TOKEN;
    AppConfig.OIDC_JWKS_CACHE_TTL_SECONDS := c_OIDC_JWKS_CACHE_TTL_SECONDS;
    AppConfig.OIDC_HTTP_TIMEOUT_SECONDS := c_OIDC_HTTP_TIMEOUT_SECONDS;
    AppConfig.OIDC_VERIFY_SSL := c_OIDC_VERIFY_SSL;
    AppConfig.OIDC_CODE_CHALLENGE := c_OIDC_CODE_CHALLENGE;
    AppConfig.MANAGED_BY_ENFORCEMENT := c_MANAGED_BY_ENFORCEMENT;
    AppConfig.PERMISSION_CACHE_TTL_SECONDS := c_PERMISSION_CACHE_TTL_SECONDS;
    AppConfig.OIDC_USERNAME_FIELD := c_OIDC_USERNAME_FIELD;
    AppConfig.OIDC_DISPLAY_NAME_FIELD := c_OIDC_DISPLAY_NAME_FIELD;
    AppConfig.OIDC_GROUP_NAME := c_OIDC_GROUP_NAME;
    AppConfig.OIDC_ADMIN_GROUP_NAME := c_OIDC_ADMIN_GROUP_NAME;
    AppConfig.OIDC_GROUP_DETECTION_PLUGIN := c_OIDC_GROUP_DETECTION_PLUGIN;
    AppConfig.OIDC_ISSUER := c_OIDC_ISSUER;
    AppConfig.OIDC_PROVISION_ON_BEARER_AUTH := c_OIDC_PROVISION_ON_BEARER_AUTH;
    AppConfig.OIDC_TRUST_BEARER_GROUP_CLAIMS := c_OIDC_TRUST_BEARER_GROUP_CLAIMS;
    AppConfig.OIDC_ALEMBIC_VERSION_TABLE := c_OIDC_ALEMBIC_VERSION_TABLE;
    AppConfig.EXTEND_MLFLOW_MENU := c_EXTEND_MLFLOW_MENU;
    AppConfig.EXTEND_MLFLOW_REAUTH := c_EXTEND_MLFLOW_REAUTH;
    AppConfig.DEFAULT_LANDING_PAGE_IS_PERMISSIONS := c_DEFAULT_LANDING_PAGE_IS_PERMISSIONS;
    AppConfig.AUTOMATIC_LOGIN_REDIRECT := c_AUTOMATIC_LOGIN_REDIRECT;
    AppConfig.OIDC_GEN_AI_GATEWAY_ENABLED := c_OIDC_GEN_AI_GATEWAY_ENABLED;
    AppConfig.MLFLOW_ENABLE_WORKSPACES := c_MLFLOW_ENABLE_WORKSPACES;
    AppConfig.WORKSPACE_CACHE_MAX_SIZE := c_WORKSPACE_CACHE_MAX_SIZE;
    AppConfig.WORKSPACE_CACHE_TTL_SECONDS := c_WORKSPACE_CACHE_TTL_SECONDS;
    AppConfig.TRUSTED_PROXIES := c_TRUSTED_PROXIES;
    AppConfig.CACHE_BACKEND := c_CACHE_BACKEND;
    AppConfig.CACHE_REDIS_URL := c_CACHE_REDIS_URL;
    AppConfig.CACHE_KEY_PREFIX := c_CACHE_KEY_PREFIX;
    AppConfig.DB_POOL_SIZE := c_DB_POOL_SIZE;
    AppConfig.DB_POOL_MAX_OVERFLOW := c_DB_POOL_MAX_OVERFLOW;
    AppConfig.DB_POOL_RECYCLE_SECONDS := c_DB_POOL_RECYCLE_SECONDS;
    AppConfig.OIDC_WORKSPACE_CLAIM_NAME := c_OIDC_WORKSPACE_CLAIM_NAME;
    AppConfig.OIDC_WORKSPACE_DETECTION_PLUGIN := c_OIDC_WORKSPACE_DETECTION_PLUGIN;
    AppConfig.OIDC_WORKSPACE_DEFAULT_PERMISSION := c_OIDC_WORKSPACE_DEFAULT_PERMISSION;
    AppConfig.OIDC_WORKSPACE_REQUIRE_CREATION_CONTEXT := c_OIDC_WORKSPACE_REQUIRE_CREATION_CONTEXT;
    AppConfig.OIDC_WORKSPACE_DENY_DEFAULT_CREATION := c_OIDC_WORKSPACE_DENY_DEFAULT_CREATION;
    AppConfig.AUDIT_LOG_ENABLED := c_AUDIT_LOG_ENABLED;
    AppConfig.AUDIT_LOG_LEVEL := c_AUDIT_LOG_LEVEL;
    AppConfig.ENABLE_API_DOCS := c_ENABLE_API_DOCS;
    AppConfig.AUTH_PROVIDERS := c_AUTH_PROVIDERS |}.

Definition AppConfig_init : M process AppConfig :=
  c ← load_settings;
  _ ← _warn_if_resource_creation_restriction_is_inert c;
  _ ← _warn_if_default_permission_is_permissive c;
  _ ← _warn_if_username_field_unusable c;
  _ ← _warn_if_group_name_unusable c;
  _ ← _warn_if_provider_registry_invalid c;
  mret c.

Definition AppConfig_refresh : M process AppConfig := _ ← refresh_chain sv; AppConfig_init.

(** ** [mlflow_env.py] *)

(** The mapping is the identity on its keys. *)
Definition MLFLOW_ENV_MAPPINGS : list (string * string) :=
  (λ k, (k, k)) <$>
    ["MLFLOW_BACKEND_STORE_URI"; "MLFLOW_REGISTRY_STORE_URI"; "MLFLOW_DEFAULT_ARTIFACT_ROOT"; "MLFLOW_ARTIFACTS_DESTINATION";
     "MLFLOW_SERVE_ARTIFACTS"; "MLFLOW_ARTIFACTS_ONLY"; "MLFLOW_WORKERS"; "MLFLOW_GUNICORN_OPTS"; "MLFLOW_UVICORN_OPTS";
     "MLFLOW_STATIC_PREFIX"; "MLFLOW_FLASK_SERVER_SECRET_KEY"].

Definition set_environ (env_var value : string) : M process unit :=
  modify (λ s, MkProcess (MkHost (<[env_var := value]> (environ (host_of s))) (classification (host_of s))) (chain s) (reported s)).

Definition hidden (h : host) (config_key : string) : bool :=
  bool_decide (get_secret_level h config_key ∈ [SECRET; SENSITIVE]).

Fixpoint configure_from (override_existing : bool) (mappings : list (string * string)) : M process (list (string * json)) :=
  match mappings with
  | [] => mret []
  | (config_key, env_var) :: mappings =>
      h ← gets host_of;
      if negb override_existing && truthy (environ h !! env_var) then configure_from override_existing mappings
      else
        value ← get config_key JNull;
        match value with
        | JNull => configure_from override_existing mappings
        | value =>
            _ ← set_environ env_var (py_str value);
            configured ← configure_from override_existing mappings;
            mret ((env_var, value) :: configured)
        end
  end.
Definition configure_mlflow_environment (override_existing : bool) : M process (list (string * json)) :=
  configure_from override_existing MLFLOW_ENV_MAPPINGS.

Definition get_mlflow_config_summary (h : host) : list (string * string) :=
  omap (λ '(config_key, env_var),
    value ← nonempty (environ h !! env_var);
    Some (env_var, if hidden h config_key then "********" else value)) MLFLOW_ENV_MAPPINGS.
End settings.
