(* ===== verification/ConfigStartup.v ===== *)
(** * What the configuration guarantees

    The chain and its order, the sensitivity of keys; startup, the defaults, and
    MLflow's environment; and the configuration of a sample deployment. *)
From S2P Require Import Prelude PyStrings Json Permissions Regex Database Cache Resolution ResolutionFacts Ownership Kubernetes ProviderRegistry RegistryFacts Identity.
From S2P Require Import AuthMiddleware Validators RouterLib OAuthClients ConfigProviders Configuration.
From Stdlib Require Import Ascii.
#[local] Open Scope Z_scope.

Section facts.
Context `{ConfigServices, JsonLoads, ValidatorLibs}.
Implicit Types (sv : services) (h : host) (key : string) (p : ConfigProvider) (s : process).

(** ** One question to the chain *)

Definition answer_of sv h key p : outcome json := (provider_get (class_of p) sv h key JNull (object p)).1.
Definition asked sv h key p : ConfigProvider := MkConfigProvider (class_of p) (provider_get (class_of p) sv h key JNull (object p)).2.
Definition silent sv h key p : Prop := answer_of sv h key p = Ok JNull.

Lemma ask_chain_spec sv h key d ps :
  (∃ before p after, ps = before ++ p :: after ∧ Forall (silent sv h key) before ∧ ¬ silent sv h key p ∧
     ask_chain sv h key d ps = (answer_of sv h key p, (asked sv h key <$> before ++ [p]) ++ after)) ∨
  (Forall (silent sv h key) ps ∧ ask_chain sv h key d ps = (Ok d, asked sv h key <$> ps)).
Proof.
  induction ps as [|p ps IH]; [by right|]. cbn [ask_chain].
  destruct (provider_get (class_of p) sv h key JNull (object p)) as [o x] eqn:E.
  assert (answer_of sv h key p = o) as Ho by by rewrite /answer_of E.
  assert (asked sv h key p = MkConfigProvider (class_of p) x) as Hx by by rewrite /asked E.
  assert (o = Ok JNull ∨ o ≠ Ok JNull) as [->|Hne] by (destruct o as [[]|]; auto).
  - destruct IH as [(before&q&after&->&Hb&Hq&->)|[Hs ->]].
    + left. exists (p :: before), q, after. split_and!; [done|by constructor|done|]. cbn. by rewrite Hx.
    + right. split; [by constructor|]. cbn. by rewrite Hx.
  - left. exists [], p, ps. split_and!; [done|constructor|by rewrite /silent Ho|]. cbn. rewrite Ho Hx.
    by destruct o as [[]|].
Qed.

Lemma ask_chain_classes sv h key d ps : class_of <$> (ask_chain sv h key d ps).2 = class_of <$> ps.
Proof.
  destruct (ask_chain_spec sv h key d ps) as [(b&p&a&->&_&_&->)|[_ ->]]; cbn [snd].
  - rewrite !fmap_app !fmap_cons -list_fmap_compose. cbn. by rewrite -app_assoc.
  - by rewrite -list_fmap_compose.
Qed.

Lemma get_run sv key d s :
  get sv key d s = ((ask_chain sv (host_of s) key d (chain s)).1, set_chain (ask_chain sv (host_of s) key d (chain s)).2 s).
Proof. unfold get. by destruct (ask_chain _ _ _ _ _). Qed.

(** ** What every operation leaves alone: which providers, in which order *)

Definition classes s : list provider_class := class_of <$> chain s.
Definition same_classes : relation process := via classes eq.

#[local] Instance same_classes_preorder : PreOrder same_classes.
Proof. unfold same_classes. apply _. Qed.

Lemma within_get sv key d : within same_classes (get sv key d).
Proof. intros s. rewrite get_run. unfold same_classes, via, classes. cbn [snd chain set_chain]. by rewrite ask_chain_classes. Qed.
Lemma within_warn w : within same_classes (warn w).
Proof. done. Qed.
Lemma within_set_environ k v : within same_classes (set_environ k v).
Proof. done. Qed.
#[local] Hint Resolve within_get within_warn within_set_environ : within.

Lemma within_get_bool sv key d : within same_classes (get_bool sv key d).
Proof. unfold get_bool. by repeat within_step. Qed.
Lemma within_get_int sv key d : within same_classes (get_int sv key d).
Proof. unfold get_int. by repeat within_step. Qed.
Lemma within_get_list sv key d : within same_classes (get_list sv key d).
Proof. unfold get_list. by repeat within_step. Qed.
Lemma within_warn_when b w : within same_classes (warn_when b w).
Proof. unfold warn_when. by repeat within_step. Qed.
Lemma within_warn_all ws : within same_classes (warn_all ws).
Proof. induction ws; cbn; by repeat within_step. Qed.
#[local] Hint Resolve within_get_bool within_get_int within_get_list within_warn_when within_warn_all : within.

Lemma within_load_settings sv saml_extra random_key read_file : within same_classes (load_settings sv saml_extra random_key read_file).
Proof.
  unfold load_settings, load_secret_key, load_samesite, load_code_challenge, load_enforcement, load_registry.
  by repeat within_step.
Qed.
#[local] Hint Resolve within_load_settings : within.

Lemma within_init sv saml_extra random_key read_file : within same_classes (AppConfig_init sv saml_extra random_key read_file).
Proof.
  unfold AppConfig_init, _warn_if_resource_creation_restriction_is_inert, _warn_if_default_permission_is_permissive,
    _warn_if_username_field_unusable, _warn_if_group_name_unusable, _warn_if_provider_registry_invalid.
  by repeat within_step.
Qed.

Lemma within_configure sv override mappings : within same_classes (configure_from sv override mappings).
Proof. induction mappings as [|[k v] ms IH]; cbn [configure_from]; by repeat first [apply IH | within_step]. Qed.

(** ** The order of the chain, over the life of the process *)

Definition ordered (ps : list ConfigProvider) : Prop :=
  ps ≠ [] ∧ StronglySorted (λ p q, priority_of p ≤ priority_of q) ps.

Lemma ordered_classes ps ps' : class_of <$> ps = class_of <$> ps' → ordered ps → ordered ps'.
Proof.
  intros Hc [Hne Hs]. split; [by intros ->; destruct ps|]. clear Hne. revert ps' Hc.
  induction Hs as [|p ps Hs IH Hp]; intros [|p' ps'] Hc; try done; [constructor|].
  injection Hc as Hcp Hc. constructor; [by apply IH|]. unfold priority_of in *. rewrite -Hcp.
  clear -Hp Hc. revert ps' Hc. induction Hp as [|q ps Hq Hp IH]; intros [|q' ps'] Hc; try done.
  injection Hc as Hcq Hc. constructor; [by rewrite -Hcq|by apply IH].
Qed.

Lemma ordered_sort p ps : ordered (sort_by priority_of (ps ++ [p])).
Proof.
  split; [|apply sort_by_sorted]. intros Hn. pose proof (sort_by_perm priority_of (ps ++ [p])) as Hp.
  rewrite Hn in Hp. apply Permutation_nil in Hp. by destruct ps.
Qed.

Lemma ordered_discovery sv h eps ps : _discover_providers sv h eps = Ok ps → ordered ps.
Proof.
  unfold _discover_providers. rewrite !outcome_bind_ok. intros (b&_&Hrun). apply outcome_bind_ok in Hrun as (av&_&[= <-]).
  destruct (sort_by priority_of av) as [|p qs] eqn:E.
  - split; [done|by repeat constructor].
  - split; [done|]. rewrite -E. apply sort_by_sorted.
Qed.

(** What the process may do with its chain; the services change in between, and
    the environment is anyone's to write. *)
Inductive chain_step : process → process → Prop :=
  | asks sv key d s : chain_step s (get sv key d s).2
  | loads sv saml_extra random_key read_file s : chain_step s (AppConfig_init sv saml_extra random_key read_file s).2
  | refreshes sv s : chain_step s (refresh_chain sv s).2
  | closes sv s : chain_step s (close_chain sv s).2
  | registers p s : chain_step s (set_chain (register_provider p (chain s)) s)
  | configures sv override s : chain_step s (configure_mlflow_environment sv override s).2
  | environment_changes h s : chain_step s (MkProcess h (chain s) (reported s)).

(** A state of the process: started, and any number of steps. *)
Definition reachable s : Prop := ∃ sv h eps s0, config_manager sv h eps = Ok s0 ∧ rtc chain_step s0 s.

Lemma try_each_classes (act : ∀ c : provider_class, M (instance c) unit) ps : class_of <$> try_each act ps = class_of <$> ps.
Proof. unfold try_each. by rewrite -list_fmap_compose. Qed.

Lemma step_ordered s s' : chain_step s s' → ordered (chain s) → ordered (chain s').
Proof.
  assert (∀ s s', same_classes s s' → ordered (chain s) → ordered (chain s')) as Hkeep by (intros ?? Hs; by apply ordered_classes).
  intros [ ] Ho; cbn [chain set_chain].
  - exact (Hkeep _ _ (within_get _ _ _ _) Ho).
  - exact (Hkeep _ _ (within_init _ _ _ _ _) Ho).
  - eapply ordered_classes; [|exact Ho]. symmetry. apply try_each_classes.
  - eapply ordered_classes; [|exact Ho]. symmetry. apply try_each_classes.
  - apply ordered_sort.
  - exact (Hkeep _ _ (within_configure _ _ _ _) Ho).
  - exact Ho.
Qed.

Lemma reachable_ordered s : reachable s → ordered (chain s).
Proof.
  intros (sv&h&eps&s0&Hstart&Hs). unfold config_manager in Hstart. apply outcome_bind_ok in Hstart as (ps&Hps&[= <-]).
  apply ordered_discovery in Hps.
  remember (MkProcess h ps []) as s0 eqn:E. assert (ordered (chain s0)) as Ho by by rewrite E. clear E Hps.
  induction Hs as [|s1 s2 s3 Hstep _ IH]; [done|]. apply IH. exact (step_ordered _ _ Hstep Ho).
Qed.

(** In an ordered chain, who is ahead of a provider is at least as strong. *)
Lemma ordered_ahead before p after q :
  ordered (before ++ p :: after) → q ∈ before ++ p :: after → priority_of q < priority_of p → q ∈ before.
Proof.
  intros [_ Hs] Hq Hlt. apply elem_of_app in Hq as [Hq|Hq]; [done|]. exfalso.
  assert (StronglySorted (λ p q, priority_of p ≤ priority_of q) (p :: after)) as Hp by (clear -Hs; induction before; [done|]; inversion Hs; auto).
  apply StronglySorted_inv in Hp as [_ Hall]. apply elem_of_cons in Hq as [->|Hq]; [lia|].
  rewrite Forall_forall in Hall. specialize (Hall _ Hq). cbn in Hall. lia.
Qed.

(** C16: Whatever the process has done since it started (questions, startups,
    refreshes, closings, registrations of providers, changes of the environment
    and of what the services hold), the chain of providers is not empty, and a
    key is answered by the strongest provider that has it: no provider of a
    smaller priority number has a value for it, and the default is the answer
    only when no provider has one. *)
Theorem the_strongest_provider_answers sv key d s :
  reachable s →
  chain s ≠ [] ∧
  ((∃ p, p ∈ chain s ∧ (get sv key d s).1 = answer_of sv (host_of s) key p ∧ ¬ silent sv (host_of s) key p ∧
     ∀ q, q ∈ chain s → priority_of q < priority_of p → silent sv (host_of s) key q) ∨
  (Forall (silent sv (host_of s) key) (chain s) ∧ (get sv key d s).1 = Ok d)).
Proof.
  intros Hr%reachable_ordered. split; [exact (proj1 Hr)|]. rewrite get_run. cbn [fst].
  destruct (ask_chain_spec sv (host_of s) key d (chain s)) as [(before&p&after&Hc&Hb&Hp&->)|[Hall ->]]; [left|by right].
  exists p. rewrite Hc in Hr |- *. split_and!; [set_solver|done|done|]. intros q Hq Hlt.
  rewrite Forall_forall in Hb. apply Hb. exact (ordered_ahead _ _ _ _ Hr Hq Hlt).
Qed.

(** ** Sensitivity: who may hold which key *)

Inductive builtin : provider_class → Prop :=
  | builtin_env : builtin env_class
  | builtin_aws_secrets : builtin AWSSecretsManagerProvider
  | builtin_parameter_store : builtin AWSParameterStoreProvider
  | builtin_key_vault : builtin AzureKeyVaultProvider
  | builtin_vault : builtin HashiCorpVaultProvider
  | builtin_kubernetes : builtin KubernetesSecretsProvider.

(** The secret stores hold what is not public, the parameter store what is no
    secret, the environment anything. *)
Definition admits (level : SecretLevel) (name : string) : bool :=
  if decide (name ∈ ["aws-secrets-manager"; "azure-keyvault"; "hashicorp-vault"; "kubernetes-secrets"]) then negb (bool_decide (level = PUBLIC))
  else if decide (name = "aws-parameter-store") then negb (bool_decide (level = SECRET))
  else true.

Lemma not_admitted sv h key (c : provider_class) d (o : instance c) :
  builtin c → admits (get_secret_level h key) (provider_name c) = false → provider_get c sv h key d o = (Ok d, o).
Proof.
  intros Hb. revert o. destruct Hb; intros o; unfold admits; cbn -[get_secret_level]; intros Hl;
    try discriminate; apply negb_false_iff, bool_decide_eq_true in Hl;
    unfold as_get, ps_get, kv_get, hv_get, ks_get; by rewrite decide_True.
Qed.

Lemma not_admitted_asked sv h key p :
  builtin (class_of p) → admits (get_secret_level h key) (name_of p) = false → silent sv h key p ∧ asked sv h key p = p.
Proof.
  intros Hb Ha. pose proof (not_admitted sv h key (class_of p) JNull (object p) Hb Ha) as Hg.
  unfold silent, answer_of, asked. rewrite Hg. by destruct p.
Qed.

(** C25: With the built-in providers, a key is answered by a provider admitted
    for its sensitivity or by the default: a secret never by the parameter
    store, a public key by no secret store; a provider that is not admitted is
    not contacted, its object stays as it was. *)
Theorem a_key_is_answered_where_it_belongs sv key d s :
  Forall (λ p, builtin (class_of p)) (chain s) →
  let level := get_secret_level (host_of s) key in
  ((∃ p, p ∈ chain s ∧ admits level (name_of p) = true ∧ (get sv key d s).1 = answer_of sv (host_of s) key p) ∨ (get sv key d s).1 = Ok d) ∧
  ∀ i p, chain s !! i = Some p → admits level (name_of p) = false → chain (get sv key d s).2 !! i = Some p.
Proof.
  intros Hb level. rewrite Forall_forall in Hb. rewrite get_run. cbn [fst snd chain set_chain].
  destruct (ask_chain_spec sv (host_of s) key d (chain s)) as [(before&p&after&Hc&Hs&Hp&->)|[Hs ->]]; cbn [fst snd].
  - split.
    + left. exists p. rewrite Hc. split_and!; [set_solver| |done].
      destruct (admits level (name_of p)) eqn:Ha; [done|]. destruct Hp.
      apply (not_admitted_asked sv (host_of s) key p); [apply Hb; rewrite Hc; set_solver|exact Ha].
    + intros i q Hq Ha. pose proof (Hb q (list_elem_of_lookup_2 _ _ _ Hq)) as Hbq.
      pose proof (not_admitted_asked sv (host_of s) key q Hbq Ha) as [_ Hsame].
      rewrite Hc cons_middle assoc in Hq. apply lookup_app_Some in Hq as [Hq|[Hlen Hq]].
      * rewrite lookup_app_l; [by rewrite list_lookup_fmap Hq /= Hsame|]. rewrite length_fmap. exact (lookup_lt_Some _ _ _ Hq).
      * rewrite lookup_app_r; by rewrite length_fmap.
  - split; [by right|]. intros i q Hq Ha. pose proof (Hb q (list_elem_of_lookup_2 _ _ _ Hq)) as Hbq.
    pose proof (not_admitted_asked sv (host_of s) key q Hbq Ha) as [_ Hsame]. by rewrite list_lookup_fmap Hq /= Hsame.
Qed.

End facts.

(** * Startup: what fails, what the defaults are, what MLflow is told *)
From S2P Require Import RegexSafety Database Cache Resolution ResolutionFacts Ownership Kubernetes ProviderRegistry RegistryFacts Identity AuthMiddleware Validators RouterLib.
From S2P Require Import OAuthClients ConfigProviders Configuration.
#[local] Open Scope Z_scope.

Section startup.
Context `{ConfigServices, JsonLoads, ValidatorLibs}.
Variable sv : services.
Implicit Types (h : host) (key : string) (p : ConfigProvider) (s : process).

(** ** Secrets of the additional providers *)

Inductive secret_store : provider_class → Prop :=
  | store_aws_secrets : secret_store AWSSecretsManagerProvider
  | store_key_vault : secret_store AzureKeyVaultProvider
  | store_vault : secret_store HashiCorpVaultProvider
  | store_kubernetes : secret_store KubernetesSecretsProvider.

(** The classification, with or without the entries of [mlflow_env.py]. *)
Definition as_shipped h : Prop := classification h = SECRET_CLASSIFICATION ∨ classification h = MLFLOW_CLASSIFICATION.

Lemma secret_level_listed h key :
  as_shipped h → get_secret_level h key = PUBLIC ∨
  key ∈ ["SECRET_KEY"; "OIDC_CLIENT_SECRET"; "OIDC_USERS_DB_URI"; "OIDC_CLIENT_ID";
         "MLFLOW_BACKEND_STORE_URI"; "MLFLOW_REGISTRY_STORE_URI"; "MLFLOW_FLASK_SERVER_SECRET_KEY"].
Proof.
  unfold get_secret_level. intros [-> | ->]; unfold MLFLOW_CLASSIFICATION, SECRET_CLASSIFICATION; cbn;
    rewrite ?lookup_union !lookup_insert lookup_empty; repeat case_decide; subst; set_solver.
Qed.

Lemma secret_stores_ignore key d ps h :
  Forall (λ p, secret_store (class_of p)) ps → get_secret_level h key = PUBLIC → ask_chain sv h key d ps = (Ok d, ps).
Proof.
  intros Hs Hl. induction Hs as [|[c o] ps Hp Hs IH]; [done|]. cbn [ask_chain class_of object] in *.
  rewrite (not_admitted sv h key c JNull o).
  - by rewrite IH.
  - destruct Hp; constructor.
  - rewrite Hl. by destruct Hp.
Qed.

(** The client secret of an additional identity provider, and the registry of
    providers itself, are public keys to the configuration: with the four secret
    stores as the only providers, whatever they hold, they are not found, and no
    store is even asked. *)
Theorem additional_client_secrets_are_in_no_secret_store provider_id key d s :
  as_shipped (host_of s) → Forall (λ p, secret_store (class_of p)) (chain s) →
  key = _secret_env_key provider_id ∨ key = "AUTH_PROVIDERS" ∨ key = "AUTH_PROVIDERS_FILE" →
  get sv key d s = (Ok d, s).
Proof.
  intros Hc Hs Hk. rewrite get_run (secret_stores_ignore key d (chain s) (host_of s) Hs).
  - by destruct s.
  - destruct (secret_level_listed (host_of s) key Hc) as [?|Hin]; [done|]. exfalso.
    destruct Hk as [-> | [-> | ->]]; [unfold _secret_env_key in Hin|..];
      repeat (apply elem_of_cons in Hin as [Hin|Hin]; [discriminate Hin|]); by apply not_elem_of_nil in Hin.
Qed.

(** ** Startup fails on one setting only *)

(** The states the providers can be in after any questions, and that they answer
    every question in each. *)
Definition question h : relation (list ConfigProvider) := λ ps ps', ∃ key d, ps' = (ask_chain sv h key d ps).2.
Definition answering h (ps : list ConfigProvider) : Prop :=
  ∀ ps', rtc (question h) ps ps' → ∀ key d, ∃ v, (ask_chain sv h key d ps').1 = Ok v.

(** It is enough that every provider answers in the states of an invariant. *)
Lemma answering_invariant h (I : ConfigProvider → Prop) ps :
  (∀ p key, I p → ∃ v o, provider_get (class_of p) sv h key JNull (object p) = (Ok v, o) ∧ I (MkConfigProvider (class_of p) o)) →
  Forall I ps → answering h ps.
Proof.
  intros HI.
  assert (∀ key d ps, Forall I ps → (∃ v, (ask_chain sv h key d ps).1 = Ok v) ∧ Forall I (ask_chain sv h key d ps).2) as Hask.
  { intros key d. induction 1 as [|[c o] qs Hp Hqs IH]; [split; [by eexists|constructor]|]. cbn [ask_chain class_of object].
    destruct (HI _ key Hp) as (w&o'&Hg&Hw). cbn [class_of object] in Hg, Hw. rewrite Hg.
    destruct (ask_chain sv h key d qs) as [a qs']. cbn [fst snd] in *.
    destruct IH as [[v ->] Hs]. destruct w; (split; [by eexists|]); by constructor. }
  intros Hps ps' Hr key d. apply Hask. induction Hr as [|qs qs1 qs2 (k&d'&->) _ IH]; [done|]. apply IH, Hask, Hps.
Qed.

(** What is read ahead of the cookie setting. *)
Definition ahead_of_samesite (random_key : string) : M process unit :=
  _ ← get sv "DEFAULT_MLFLOW_PERMISSION" (JStr "NO_PERMISSIONS");
  _ ← get_bool sv "RESTRICT_RESOURCE_CREATION" false;
  _ ← get_list sv "PERMISSION_SOURCE_ORDER" (texts ["user"; "group"; "regex"; "group-regex"]);
  _ ← load_secret_key sv random_key;
  _ ← get sv "OIDC_CLIENT_SECRET" JNull;
  _ ← get sv "SESSION_COOKIE_NAME" (JStr "session");
  _ ← get_int sv "SESSION_COOKIE_MAX_AGE_SECONDS" (14 * 24 * 60 * 60);
  mret tt.

(** What startup can yield, and what it makes of the value read for the cookie. *)
Definition sane (random_key : string) (c : AppConfig) : Prop :=
  AppConfig.SESSION_COOKIE_SAMESITE c ∈ ["lax"; "strict"; "none"] ∧
  (AppConfig.OIDC_CODE_CHALLENGE c = None ∨ AppConfig.OIDC_CODE_CHALLENGE c = Some "S256") ∧
  (json_truthy (AppConfig.SECRET_KEY c) = true ∨ AppConfig.SECRET_KEY c = JStr random_key) ∧
  AppConfig.SESSION_COOKIE_MAX_AGE_SECONDS c ≠ Some 0.
Definition startup_outcome (random_key : string) (v : json) (o : outcome AppConfig) : Prop :=
  match v, o with
  | JStr t, Ok c => AppConfig.SESSION_COOKIE_SAMESITE c = py_lower t ∧ sane random_key c
  | JStr t, Raise e => py_lower t ∉ ["lax"; "strict"; "none"] ∧ e = ValueError
  | _, Raise e => e = AttributeError
  | _, Ok _ => False
  end.

Section calm.
Variables (h : host) (ps0 : list ConfigProvider).
Hypothesis Hanswering : answering h ps0.

Definition calm s : Prop := host_of s = h ∧ rtc (question h) ps0 (chain s).

(** A part of startup that does not fail, and what it yields. *)
Definition steady {A} (Q : A → Prop) (m : M process A) : Prop :=
  ∀ s, calm s → ∃ a s', m s = (Ok a, s') ∧ calm s' ∧ Q a.

Lemma steady_bind {A B} (Q : A → Prop) (R : B → Prop) m f : steady Q m → (∀ a, Q a → steady R (f a)) → steady R (m ≫= f).
Proof. intros Hm Hf s Hs. rewrite M_bind_run. destruct (Hm s Hs) as (a&s1&->&Hc&Ha). by apply Hf. Qed.
Lemma steady_ret {A} (Q : A → Prop) a : Q a → steady Q (mret a).
Proof. intros Ha s Hs. by exists a, s. Qed.
Lemma steady_weaken {A} (Q R : A → Prop) m : steady Q m → (∀ a, Q a → R a) → steady R m.
Proof. intros Hm HQ s Hs. destruct (Hm s Hs) as (a&s1&?&?&?). exists a, s1. auto. Qed.

Lemma steady_get key d : steady (λ _, True) (get sv key d).
Proof.
  intros s [Hh Hc]. rewrite get_run Hh. destruct (Hanswering _ Hc key d) as [v Hv]. rewrite Hv.
  eexists _, _. split; [reflexivity|]. split; [|done]. split; [done|]. cbn [chain set_chain]. eapply rtc_r; [exact Hc|by exists key, d].
Qed.
Lemma steady_get_bool key d : steady (λ _, True) (get_bool sv key d).
Proof. eapply steady_bind; [apply steady_get|]. intros; by apply steady_ret. Qed.
Lemma steady_get_int key d : steady (λ _, True) (get_int sv key d).
Proof. eapply steady_bind; [apply steady_get|]. intros; by apply steady_ret. Qed.
Lemma steady_get_list key d : steady (λ _, True) (get_list sv key d).
Proof. eapply steady_bind; [apply steady_get|]. intros; by apply steady_ret. Qed.
Lemma steady_warn w : steady (λ _, True) (warn w).
Proof. intros s Hs. by eexists _, _. Qed.
Lemma steady_warn_when b w : steady (λ _, True) (warn_when b w).
Proof. destruct b; [apply steady_warn|by apply steady_ret]. Qed.
Lemma steady_warn_all ws : steady (λ _, True) (warn_all ws).
Proof. induction ws; [by apply steady_ret|]. eapply steady_bind; [apply steady_warn|]. by intros. Qed.

Lemma steady_secret_key random_key : steady (λ v, json_truthy v = true ∨ v = JStr random_key) (load_secret_key sv random_key).
Proof.
  eapply steady_bind; [apply steady_get|]. intros v _. destruct (json_truthy v) eqn:E; [apply steady_ret; by left|].
  eapply steady_bind; [apply steady_warn|]. intros ? _. apply steady_ret. by right.
Qed.

Lemma parse_code_challenge_cases v : (_parse_code_challenge v).1 = None ∨ (_parse_code_challenge v).1 = Some "S256".
Proof.
  unfold _parse_code_challenge, CODE_CHALLENGE_METHODS. cbn [List.find].
  destruct v; [by right|..]; repeat first [case_decide | case_match]; cbn in *; simplify_eq; auto.
Qed.

Lemma steady_code_challenge : steady (λ c, c = None ∨ c = Some "S256") (load_code_challenge sv).
Proof.
  eapply steady_bind; [apply steady_get|]. intros v _. pose proof (parse_code_challenge_cases v) as Hv.
  destruct (_parse_code_challenge v) as [c ws]. eapply steady_bind; [apply steady_warn_all|]. intros _ _. by apply steady_ret.
Qed.
Lemma steady_enforcement : steady (λ _, True) (load_enforcement sv).
Proof. eapply steady_bind; [apply steady_get|]. intros; by apply steady_ret. Qed.
Lemma steady_registry saml_extra read_file flat : steady (λ _, True) (load_registry sv saml_extra read_file flat).
Proof.
  eapply steady_bind; [apply steady_get|]. intros raw _. apply (steady_bind (λ _, True)); [|intros; by apply steady_ret].
  destruct (_is_present raw); [by apply steady_ret|apply steady_get].
Qed.

(** A part that reads the cookie setting after [before], and fails only on it. *)
Definition fails_on_cookie (random_key : string) (before : M process unit) (m : M process AppConfig) : Prop :=
  ∀ s, calm s → ∃ v, (get sv "SESSION_COOKIE_SAMESITE" (JStr "lax") (before s).2).1 = Ok v ∧ startup_outcome random_key v (m s).1.

Lemma fails_bind {A} (Q : A → Prop) random_key r before (f : A → M process AppConfig) :
  steady Q r → (∀ a, Q a → fails_on_cookie random_key before (f a)) → fails_on_cookie random_key (_ ← r; before) (r ≫= f).
Proof. intros Hr Hf s Hs. rewrite !M_bind_run. destruct (Hr s Hs) as (a&s1&->&Hc&Ha). by apply Hf. Qed.

Lemma fails_samesite random_key (f : string → M process AppConfig) :
  (∀ t, t ∈ ["lax"; "strict"; "none"] → steady (λ c, AppConfig.SESSION_COOKIE_SAMESITE c = t ∧ sane random_key c) (f t)) →
  fails_on_cookie random_key (mret tt) (load_samesite sv ≫= f).
Proof.
  intros Hf s Hs. rewrite M_ret_run. cbn [snd]. unfold load_samesite. rewrite !M_bind_run.
  destruct (steady_get "SESSION_COOKIE_SAMESITE" (JStr "lax") s Hs) as (v&s1&->&Hc&_). exists v. split; [done|].
  destruct v as [| | |t| |]; try done. cbv zeta. case_decide as Ht; [|done].
  destruct (Hf _ Ht s1 Hc) as (c&s2&Hrun&_&Hsane). cbn. rewrite Hrun. exact Hsane.
Qed.

Lemma steady_checks c : steady (λ c', c' = c)
  (_ ← _warn_if_resource_creation_restriction_is_inert c; _ ← _warn_if_default_permission_is_permissive c; _ ← _warn_if_username_field_unusable c;
   _ ← _warn_if_group_name_unusable c; _ ← _warn_if_provider_registry_invalid c; mret c).
Proof.
  unfold _warn_if_resource_creation_restriction_is_inert, _warn_if_default_permission_is_permissive,
    _warn_if_username_field_unusable, _warn_if_group_name_unusable, _warn_if_provider_registry_invalid.
  repeat first [ apply steady_warn_when | apply steady_warn_all | by apply steady_ret | case_match
               | eapply (steady_bind (λ _, True)); [|intros ? _] ].
Qed.

#[local] Ltac steady_read :=
  first [apply steady_get_bool | apply steady_get_int | apply steady_get_list | apply steady_secret_key
       | apply steady_code_challenge | apply steady_enforcement | apply steady_registry | apply steady_get].

Lemma fails_settings saml_extra random_key read_file :
  fails_on_cookie random_key (ahead_of_samesite random_key) (load_settings sv saml_extra random_key read_file).
Proof.
  unfold load_settings, ahead_of_samesite.
  do 7 (eapply fails_bind; [steady_read|intros ? ?]). apply fails_samesite. intros t Ht.
  repeat (eapply steady_bind; [steady_read|intros ? ?]).
  apply steady_ret. cbn. split; [done|]. unfold sane. cbn. split_and!; try done. case_decide; congruence.
Qed.
End calm.

(** C37: As long as the providers of the process answer every question in the
    states that questions bring them to, building the settings raises exactly
    when the value then read for SESSION_COOKIE_SAMESITE, after the reads the
    code makes ahead of it, is none of lax, strict, none: ValueError for a text,
    AttributeError for anything else. Otherwise it yields settings with that
    word in lower case, with PKCE as S256 or off, with a secret key that is not
    blank unless the random one is, and with no cookie age of 0, which becomes
    no age. *)
Theorem startup_fails_only_on_the_cookie_setting saml_extra random_key read_file s :
  answering (host_of s) (chain s) →
  ∃ v, (get sv "SESSION_COOKIE_SAMESITE" (JStr "lax") (ahead_of_samesite random_key s).2).1 = Ok v ∧
    startup_outcome random_key v (AppConfig_init sv saml_extra random_key read_file s).1.
Proof.
  intros Ha. assert (calm (host_of s) (chain s) s) as Hs by (split; [done|apply rtc_refl]).
  destruct (fails_settings _ _ Ha saml_extra random_key read_file s Hs) as (v&Hv&Hout). exists v. split; [exact Hv|].
  unfold AppConfig_init. rewrite M_bind_run.
  destruct (load_settings sv saml_extra random_key read_file s) as [[c|e] s1]; [|done].
  match goal with |- startup_outcome _ _ (?m s1).1 => assert ((m s1).1 = Ok c) as -> end; [|done].
  by destruct (steady_checks (host_of s1) (chain s1) c s1 (conj eq_refl (rtc_refl _ _))) as (?&?&->&_&->).
Qed.

(** ** The defaults *)

Definition mute s : Prop :=
  Forall (λ p, ∀ key, provider_get (class_of p) sv (host_of s) key JNull (object p) = (Ok JNull, object p)) (chain s).

Lemma get_mute key d s : mute s → get sv key d s = (Ok d, s).
Proof.
  intros Hm. rewrite get_run. assert (ask_chain sv (host_of s) key d (chain s) = (Ok d, chain s)) as ->.
  { unfold mute in Hm. revert Hm. generalize (host_of s) as h, (chain s) as ps. intros h ps.
    induction 1 as [|[c o] ps Hp Hs IH]; [done|]. cbn [ask_chain class_of object] in *. by rewrite Hp IH. }
  by destruct s.
Qed.

(** The settings of a process that is told nothing. *)
Definition default_settings (random_key : string) : AppConfig := {|
  AppConfig.DEFAULT_MLFLOW_PERMISSION := JStr "NO_PERMISSIONS";
  AppConfig.RESTRICT_RESOURCE_CREATION := false;
  AppConfig.PERMISSION_SOURCE_ORDER := texts ["user"; "group"; "regex"; "group-regex"];
  AppConfig.SECRET_KEY := JStr random_key;
  AppConfig.OIDC_CLIENT_SECRET := JNull;
  AppConfig.SESSION_COOKIE_NAME := JStr "session";
  AppConfig.SESSION_COOKIE_MAX_AGE_SECONDS := Some (14 * 24 * 60 * 60);
  AppConfig.SESSION_COOKIE_SAMESITE := "lax";
  AppConfig.SESSION_COOKIE_SECURE := false;
  AppConfig.OIDC_USERS_DB_URI := JStr "sqlite:///auth.db";
  AppConfig.OIDC_DISCOVERY_URL := JNull;
  AppConfig.OIDC_CLIENT_ID := JNull;
  AppConfig.OIDC_REDIRECT_URI := JNull;
  AppConfig.OIDC_SCOPE := JStr "openid email profile";
  AppConfig.OIDC_PROVIDER_DISPLAY_NAME := JStr "Login with OIDC";
  AppConfig.OIDC_GROUPS_ATTRIBUTE := JStr "groups";
  AppConfig.OIDC_AUDIENCE := JNull;
  AppConfig.OIDC_SESSION_EXPIRY_LEEWAY_SECONDS := 30;
  AppConfig.OIDC_USE_REFRESH_TOKEN := false;
  AppConfig.OIDC_JWKS_CACHE_TTL_SECONDS := 300;
  AppConfig.OIDC_HTTP_TIMEOUT_SECONDS := 10;
  AppConfig.OIDC_VERIFY_SSL := true;
  AppConfig.OIDC_CODE_CHALLENGE := Some "S256";
  AppConfig.MANAGED_BY_ENFORCEMENT := REPORT;
  AppConfig.PERMISSION_CACHE_TTL_SECONDS := 30;
  AppConfig.OIDC_USERNAME_FIELD := texts ["email"; "preferred_username"];
  AppConfig.OIDC_DISPLAY_NAME_FIELD := texts ["name"];
  AppConfig.OIDC_GROUP_NAME := texts ["mlflow"];
  AppConfig.OIDC_ADMIN_GROUP_NAME := texts ["mlflow-admin"];
  AppConfig.OIDC_GROUP_DETECTION_PLUGIN := JNull;
  AppConfig.OIDC_ISSUER := JNull;
  AppConfig.OIDC_PROVISION_ON_BEARER_AUTH := false;
  AppConfig.OIDC_TRUST_BEARER_GROUP_CLAIMS := false;
  AppConfig.OIDC_ALEMBIC_VERSION_TABLE := JStr "alembic_version";
  AppConfig.EXTEND_MLFLOW_MENU := true;
  AppConfig.EXTEND_MLFLOW_REAUTH := true;
  AppConfig.DEFAULT_LANDING_PAGE_IS_PERMISSIONS := true;
  AppConfig.AUTOMATIC_LOGIN_REDIRECT := false;
  AppConfig.OIDC_GEN_AI_GATEWAY_ENABLED := true;
  AppConfig.MLFLOW_ENABLE_WORKSPACES := false;
  AppConfig.WORKSPACE_CACHE_MAX_SIZE := 1024;
  AppConfig.WORKSPACE_CACHE_TTL_SECONDS := 300;
  AppConfig.TRUSTED_PROXIES := texts [];
  AppConfig.CACHE_BACKEND := JStr "local";
  AppConfig.CACHE_REDIS_URL := JNull;
  AppConfig.CACHE_KEY_PREFIX := JStr "mlflow_oidc_auth:";
  AppConfig.DB_POOL_SIZE := 0;
  AppConfig.DB_POOL_MAX_OVERFLOW := 0;
  AppConfig.DB_POOL_RECYCLE_SECONDS := 0;
  AppConfig.OIDC_WORKSPACE_CLAIM_NAME := JStr "workspace";
  AppConfig.OIDC_WORKSPACE_DETECTION_PLUGIN := JNull;
  AppConfig.OIDC_WORKSPACE_DEFAULT_PERMISSION := JStr "NO_PERMISSIONS";
  AppConfig.OIDC_WORKSPACE_REQUIRE_CREATION_CONTEXT := false;
  AppConfig.OIDC_WORKSPACE_DENY_DEFAULT_CREATION := false;
  AppConfig.AUDIT_LOG_ENABLED := true;
  AppConfig.AUDIT_LOG_LEVEL := JStr "INFO";
  AppConfig.ENABLE_API_DOCS := false;
  AppConfig.AUTH_PROVIDERS := ProviderRegistry.MkResult (_legacy_providers (MkFlat (Some "Login with OIDC") None None None None)) [] "legacy" |}.

Lemma mute_bind {A B} (m : M process A) (f : A → M process B) a s s' r : m s = (Ok a, s') → f a s' = r → (m ≫= f) s = r.
Proof. intros Hm <-. by rewrite M_bind_run Hm. Qed.

Lemma get_bool_mute key d s : mute s → get_bool sv key d s = (Ok d, s).
Proof. intros Hs. by rewrite /get_bool M_bind_run (get_mute _ _ _ Hs). Qed.
Lemma get_int_mute key d s : mute s → get_int sv key d s = (Ok d, s).
Proof. intros Hs. by rewrite /get_int M_bind_run (get_mute _ _ _ Hs). Qed.
Lemma get_list_mute key d s : mute s → get_list sv key d s = (Ok d, s).
Proof. intros Hs. by rewrite /get_list M_bind_run (get_mute _ _ _ Hs). Qed.
Lemma secret_key_mute random_key s :
  mute s → load_secret_key sv random_key s = (Ok (JStr random_key), MkProcess (host_of s) (chain s) (reported s ++ [SecretKeyNotConfigured])).
Proof. intros Hs. by rewrite /load_secret_key M_bind_run (get_mute _ _ _ Hs). Qed.
Lemma samesite_mute s : mute s → load_samesite sv s = (Ok "lax", s).
Proof. intros Hs. by rewrite /load_samesite M_bind_run (get_mute _ _ _ Hs). Qed.
Lemma code_challenge_mute s : mute s → load_code_challenge sv s = (Ok (Some "S256"), s).
Proof. intros Hs. by rewrite /load_code_challenge M_bind_run (get_mute _ _ _ Hs). Qed.
Lemma enforcement_mute s : mute s → load_enforcement sv s = (Ok REPORT, s).
Proof. intros Hs. by rewrite /load_enforcement M_bind_run (get_mute _ _ _ Hs). Qed.
Lemma registry_mute saml_extra read_file flat s :
  mute s → load_registry sv saml_extra read_file flat s = (Ok (ProviderRegistry.MkResult (_legacy_providers flat) [] "legacy"), s).
Proof. intros Hs. unfold load_registry. by rewrite M_bind_run (get_mute _ _ _ Hs) M_bind_run (get_mute _ _ _ Hs). Qed.

Lemma settings_mute saml_extra random_key read_file s :
  mute s → load_settings sv saml_extra random_key read_file s =
  (Ok (default_settings random_key), MkProcess (host_of s) (chain s) (reported s ++ [SecretKeyNotConfigured])).
Proof.
  intros Hm. unfold load_settings.
  repeat (eapply mute_bind;
    [first [apply get_bool_mute | apply get_int_mute | apply get_list_mute | apply secret_key_mute | apply samesite_mute
           | apply code_challenge_mute | apply enforcement_mute | apply registry_mute | apply get_mute]; exact Hm|]).
  reflexivity.
Qed.

Lemma init_mute saml_extra random_key read_file s :
  mute s → AppConfig_init sv saml_extra random_key read_file s =
  (Ok (default_settings random_key), MkProcess (host_of s) (chain s) (reported s ++ [SecretKeyNotConfigured])).
Proof. intros Hm. eapply mute_bind; [by apply settings_mute|]. reflexivity. Qed.

(** ** MLflow's environment *)

Definition env_of s : gmap string string := environ (host_of s).

Lemma get_env key d s : env_of (get sv key d s).2 = env_of s.
Proof. by rewrite get_run. Qed.

(** A mapping whose pairs repeat the key, each key once. *)
Definition plain (mappings : list (string * string)) : Prop := Forall (λ m, m.1 = m.2) mappings ∧ NoDup mappings.*2.
Lemma plain_mlflow : plain MLFLOW_ENV_MAPPINGS.
Proof. split; [by repeat constructor|]. apply (bool_decide_unpack _). by vm_compute. Qed.

Record configured_env (override : bool) (ks : list string) (e e' : gmap string string) (o : outcome (list (string * json))) : Prop := {
  others_kept k : k ∉ ks → e' !! k = e !! k;
  present_kept k : override = false → truthy (e !! k) = true → e' !! k = e !! k;
  told configured : o = Ok configured →
    (∀ k v, (k, v) ∈ configured → k ∈ ks ∧ v ≠ JNull ∧ e' !! k = Some (py_str v)) ∧ (∀ k, k ∉ configured.*1 → e' !! k = e !! k);
}.

Lemma configure_from_env override mappings s :
  plain mappings →
  configured_env override mappings.*2 (env_of s) (env_of (configure_from sv override mappings s).2) (configure_from sv override mappings s).1.
Proof.
  revert s. induction mappings as [|[k k'] ms IH]; intros s [Hf Hnd].
  { split; [done..|]. intros ? [= <-]. split; [|done]. by intros k v ?%not_elem_of_nil. }
  apply Forall_cons in Hf as [Hk Hf]. cbn in Hk. subst k'. apply NoDup_cons in Hnd as [Hnk Hnd].
  assert (∀ s1, env_of s1 = env_of s →
    configured_env override (k :: ms.*2) (env_of s) (env_of (configure_from sv override ms s1).2) (configure_from sv override ms s1).1) as Hskip.
  { intros s1 Hs1. destruct (IH s1 (conj Hf Hnd)) as [Ho Hp Ht]. rewrite Hs1 in Ho Hp Ht. split.
    - intros j Hj. apply Ho. set_solver.
    - exact Hp.
    - intros c Hc. destruct (Ht c Hc) as [Hin Hout]. split; [|exact Hout]. intros j v Hj. destruct (Hin j v Hj) as (?&?&?). set_solver. }
  cbn [configure_from]. rewrite M_bind_run gets_run.
  destruct (negb override && truthy (environ (host_of s) !! k)) eqn:Eb; [by apply Hskip|].
  rewrite M_bind_run. pose proof (get_env k JNull s) as Henv. destruct (get sv k JNull s) as [[v|e] s1]; cbn [fst snd] in *.
  2:{ rewrite Henv. by split. }
  destruct (decide (is_null v = true)) as [Hv|Hv]; [destruct v; try done; by apply Hskip|].
  match goal with |- configured_env _ _ _ (env_of (?m s1).2) _ =>
    assert (m s1 = (_ ← set_environ k (py_str v); configured ← configure_from sv override ms; mret ((k, v) :: configured)) s1) as -> by by destruct v end.
  rewrite M_bind_run. cbn [set_environ modify]. set (s2 := MkProcess _ _ _).
  assert (env_of s2 = <[k := py_str v]> (env_of s)) as Hs2 by (rewrite -Henv; done).
  destruct (IH s2 (conj Hf Hnd)) as [Ho Hp Ht]. rewrite Hs2 in Ho Hp Ht.
  rewrite M_bind_run. destruct (configure_from sv override ms s2) as [[c|e] s3]; cbn [fst snd mret M_ret] in *.
  all: assert (∀ j, j ∉ k :: ms.*2 → env_of s3 !! j = env_of s !! j) as Ho'
    by (intros j [Hjk Hj]%not_elem_of_cons; rewrite (Ho j Hj); apply lookup_insert_ne; congruence).
  all: assert (∀ j, override = false → truthy (env_of s !! j) = true → env_of s3 !! j = env_of s !! j) as Hp'
    by (intros j -> Hj; destruct (decide (j = k)) as [->|Hjk]; [unfold env_of in Hj; by rewrite Hj in Eb|];
        assert (<[k := py_str v]> (env_of s) !! j = env_of s !! j) as Hj' by (apply lookup_insert_ne; congruence);
        rewrite Hp ?Hj' //).
  - split; [exact Ho'|exact Hp'|]. intros c' [= <-]. destruct (Ht c eq_refl) as [Hin Hout]. split.
    + intros j w [[= -> ->]|Hj]%elem_of_cons.
      * split_and!; [set_solver|by destruct v|]. rewrite (Ho k Hnk). apply lookup_insert_eq.
      * destruct (Hin j w Hj) as (?&?&?). split_and!; [set_solver|done|done].
    + intros j [Hjk Hj]%not_elem_of_cons. cbn in Hjk. rewrite (Hout j Hj). apply lookup_insert_ne; congruence.
  - split; [exact Ho'|exact Hp'|done].
Qed.

#[local] Opaque configure_from.

(** Telling MLflow its configuration touches MLflow's variables only, and of
    those none that the environment already has a value for, unless asked to
    override; the call reports exactly what it set, each variable at the text of
    the value the providers gave. *)
Theorem configuring_mlflow_keeps_what_is_set override s o s' :
  configure_mlflow_environment sv override s = (o, s') →
  configured_env override MLFLOW_ENV_MAPPINGS.*2 (env_of s) (env_of s') o.
Proof.
  intros Hrun. pose proof (configure_from_env override MLFLOW_ENV_MAPPINGS s plain_mlflow) as Hc.
  unfold configure_mlflow_environment in Hrun. rewrite Hrun in Hc. exact Hc.
Qed.

(** The summary printed at startup reveals no secret: environments that differ
    in the values of hidden variables only, each set in both or in neither, have
    the same summary. *)
Theorem the_summary_reveals_no_secret h h' :
  classification h = classification h' →
  (∀ k, hidden h k = false → environ h !! k = environ h' !! k) →
  (∀ k, hidden h k = true → truthy (environ h !! k) = truthy (environ h' !! k)) →
  get_mlflow_config_summary h = get_mlflow_config_summary h'.
Proof.
  intros Hc Hv Hh. assert (∀ k, hidden h k = hidden h' k) as Hsame by (intros k; unfold hidden, get_secret_level; by rewrite Hc).
  assert (∀ k, (value ← nonempty (environ h !! k); Some (k, if hidden h k then "********" else value)) =
    (value ← nonempty (environ h' !! k); Some (k, if hidden h' k then "********" else value))) as Hk.
  { intros k. rewrite -Hsame. destruct (hidden h k) eqn:E; [|by rewrite (Hv k E)]. specialize (Hh k E).
    destruct (environ h !! k) as [[|? ?]|], (environ h' !! k) as [[|? ?]|]; done. }
  unfold get_mlflow_config_summary. destruct plain_mlflow as [Hf _]. revert Hf. generalize MLFLOW_ENV_MAPPINGS. intros ms Hf.
  induction Hf as [|[k k'] ms Heq _ IH]; [done|]. cbn in Heq. subst k'. specialize (Hk k). cbn in Hk |- *. by rewrite Hk IH.
Qed.
End startup.

(** ** From the settings to the decisions *)

Section decisions.
Context `{SqlBackend, PyRe, TrackingStore, ConfigServices, JsonLoads, ValidatorLibs}.

(** The settings the resolution reads. *)
Definition resolution_config (c : AppConfig) : Config := {|
  Resolution.PERMISSION_SOURCE_ORDER := py_str <$> AppConfig.PERMISSION_SOURCE_ORDER c;
  Resolution.DEFAULT_MLFLOW_PERMISSION := py_str (AppConfig.DEFAULT_MLFLOW_PERMISSION c);
  Resolution.MLFLOW_ENABLE_WORKSPACES := AppConfig.MLFLOW_ENABLE_WORKSPACES c;
|}.

(** An installation whose providers know no key starts, with PKCE and TLS
    verification on and with no account or administration from bearer tokens;
    and on its settings every permission decision other than NO_PERMISSIONS is
    the level that a source (user, group, pattern, group pattern) answered for
    that resource. *)
Theorem a_fresh_installation_denies_by_default sv saml_extra random_key read_file s :
  mute sv s →
  ∃ c s', AppConfig_init sv saml_extra random_key read_file s = (Ok c, s') ∧
    AppConfig.OIDC_CODE_CHALLENGE c = Some "S256" ∧ AppConfig.OIDC_VERIFY_SSL c = true ∧
    AppConfig.OIDC_PROVISION_ON_BEARER_AUTH c = false ∧ AppConfig.OIDC_TRUST_BEARER_GROUP_CLAIMS c = false ∧
    ∀ ws rt id u sc d r,
      decision (H1 := resolution_config c) ws rt id u sc d = Ok r → permission r ≠ NO_PERMISSIONS →
      ∃ sources f n, build_sources rt id u sc = Ok sources ∧ kind r ∈ ["user"; "group"; "regex"; "group-regex"] ∧
        sources !! kind r = Some f ∧ (f d).1 = Ok n ∧ get_permission n = Ok (permission r).
Proof.
  intros Hm. rewrite (init_mute sv saml_extra random_key read_file s Hm). do 2 eexists. split; [reflexivity|].
  do 4 (split; [reflexivity|]). intros ws rt id u sc d r.
  unfold decision. rewrite outcome_bind_ok. intros (sources&Hs&Hd). apply outcome_bind_ok in Hd as (r0&Hr0&Hw).
  unfold apply_workspace in Hw. cbn in Hw. assert (r0 = r) as -> by (case_decide; congruence).
  unfold get_permission_from_store_or_default in Hr0.
  rewrite M_bind_run (read_only_run _ _ (read_only_first_source _ _ (build_sources_read _ _ _ _ _ Hs))) in Hr0.
  pose proof (first_source_spec sources ["user"; "group"; "regex"; "group-regex"] d (build_sources_read _ _ _ _ _ Hs)) as Hspec.
  destruct (first_source _ _ d).1 as [[r1|]|e]; cbn in Hr0, Hspec; [|injection Hr0 as <-; done|done].
  injection Hr0 as ->. destruct Hspec as (pre&post&f&n&Ho&_&Hf&Hn&Hp). intros _.
  exists sources, f, n. split_and!; try done. change ["user"; "group"; "regex"; "group-regex"] with (py_str <$> texts ["user"; "group"; "regex"; "group-regex"]).
  cbn in Ho |- *. rewrite Ho. set_solver.
Qed.
End decisions.

(** * The configuration of a sample deployment

    AWS with a secret and two parameters, and an empty environment. *)
From S2P Require Import Repositories Users Samples Cache Resolution ResolutionFacts Ownership Kubernetes ProviderRegistry RegistryFacts Identity AuthMiddleware Validators.
From S2P Require Import SampleMlflow RouterLib OAuthClients ConfigProviders Configuration.
#[local] Open Scope Z_scope.

(** What the services hold: the text of the AWS secret. *)
#[export] Instance sample_services : ConfigServices | 100 := {|
  services := option string;
  boto3_installed := true;
  azure_installed := false;
  hvac_installed := false;
  boto3_client _ _ _ := Ok tt;
  get_secret_value secret _ _ := match secret with Some text => Ok (Some text) | None => Raise ResourceNotFoundException end;
  get_parameters_by_path _ _ prefix := Ok [[(prefix +:+ "SESSION_COOKIE_NAME", "mlflow"); (prefix +:+ "SECRET_KEY", "leaked")]];
  SecretClient _ _ := Ok tt;
  get_secret _ _ _ := Raise (OtherException "ResourceNotFoundError");
  SecretClient_close _ _ := Ok tt;
  approle_login _ _ _ _ _ := Ok tt;
  read_secret_version _ _ _ _ _ _ := Raise (OtherException "InvalidPath");
  read_secret _ _ _ _ _ := Raise (OtherException "InvalidPath");
  is_dir _ _ := false;
  iterdir _ _ := Ok [];
|}.

#[local] Instance secret_loads : JsonLoads | 50 := {|
  json_loads text := if decide (text = "the secret") then Some (JObj [("SECRET_KEY", JStr "s3cret")]) else None;
|}.

(** ** A process on AWS, started and asked once *)

Definition aws_env : gmap string string :=
  list_to_map [("CONFIG_AWS_SECRETS_ENABLED", "true"); ("CONFIG_AWS_PARAMETER_STORE_ENABLED", "True"); ("SECRET_KEY", "from-env"); ("MLFLOW_WORKERS", "4")].
Definition aws_host : host := MkHost aws_env MLFLOW_CLASSIFICATION.
Definition secret_held : services := Some "the secret".
Definition nothing_held : services := None.

Definition aws_providers : list ConfigProvider :=
  [MkConfigProvider AWSSecretsManagerProvider (MkAwsSecrets false (JObj []) "mlflow-oidc-auth" "us-east-1" 300 false);
   MkConfigProvider AWSParameterStoreProvider (AWSParameterStoreProvider_init aws_host); EnvProvider].
Definition aws_start : process := MkProcess aws_host aws_providers [].

Lemma aws_starts : config_manager secret_held aws_host (Ok []) = Ok aws_start.
Proof. reflexivity. Qed.

(** The parameter store holds a value under the secret's name; it is not asked. *)
Lemma a_key_is_answered_where_it_belongs_witness :
  (let level := get_secret_level aws_host "SECRET_KEY" in
   ((∃ p, p ∈ chain aws_start ∧ admits level (name_of p) = true ∧ (get nothing_held "SECRET_KEY" JNull aws_start).1 = answer_of nothing_held aws_host "SECRET_KEY" p) ∨
    (get nothing_held "SECRET_KEY" JNull aws_start).1 = Ok JNull) ∧
   ∀ i p, chain aws_start !! i = Some p → admits level (name_of p) = false → chain (get nothing_held "SECRET_KEY" JNull aws_start).2 !! i = Some p) ∧
  (get nothing_held "SECRET_KEY" JNull aws_start).1 = Ok (JStr "from-env") ∧ (get nothing_held "SESSION_COOKIE_NAME" JNull aws_start).1 = Ok (JStr "mlflow").
Proof.
  split; [|split; vm_compute; reflexivity].
  apply (a_key_is_answered_where_it_belongs nothing_held "SECRET_KEY" JNull aws_start). repeat constructor.
Defined.

Definition stores_only : process := MkProcess aws_host (take 1 aws_providers) [].
Lemma additional_client_secrets_are_in_no_secret_store_witness :
  get secret_held (_secret_env_key "okta-eu") JNull stores_only = (Ok JNull, stores_only).
Proof.
  apply (additional_client_secrets_are_in_no_secret_store secret_held "okta-eu"); [by right|by repeat constructor|by left].
Defined.

(** ** The environment alone *)

Definition env_process (env : gmap string string) : process := MkProcess (MkHost env SECRET_CLASSIFICATION) [EnvProvider] [].

(** The secret store and the environment, which holds no word for the cookie. *)
Definition never_host : host := MkHost {[ "SESSION_COOKIE_SAMESITE" := "never" ]} SECRET_CLASSIFICATION.
Definition store_at (client initialized : bool) (held : json) : ConfigProvider :=
  MkConfigProvider AWSSecretsManagerProvider (MkAwsSecrets client held "mlflow-oidc-auth" "us-east-1" 300 initialized).
Definition never : process := MkProcess never_host [store_at false false (JObj []); EnvProvider] [].

Lemma store_and_environment_answer : answering secret_held never_host (chain never).
Proof.
  apply (answering_invariant secret_held never_host
    (λ p, p ∈ [EnvProvider; store_at false false (JObj []); store_at true true (JObj [("SECRET_KEY", JStr "s3cret")])])); [|by repeat constructor].
  intros p key Hp. repeat (apply elem_of_cons in Hp as [-> |Hp]); [..|by apply not_elem_of_nil in Hp].
  - eexists _, _. split; [reflexivity|]. left.
  - destruct (decide (get_secret_level never_host key = PUBLIC)) as [Hl|Hl].
    + exists JNull, (object (store_at false false (JObj []))). split; [cbn; unfold as_get; by rewrite decide_True|]. right. left.
    + eexists _, (object (store_at true true (JObj [("SECRET_KEY", JStr "s3cret")]))).
      split; [cbn; unfold as_get; rewrite decide_False; [reflexivity|done]|]. right. right. left.
  - destruct (decide (get_secret_level never_host key = PUBLIC)) as [Hl|Hl].
    + exists JNull, (object (store_at true true (JObj [("SECRET_KEY", JStr "s3cret")]))). split; [cbn; unfold as_get; by rewrite decide_True|]. right. right. left.
    + eexists _, (object (store_at true true (JObj [("SECRET_KEY", JStr "s3cret")]))).
      split; [cbn; unfold as_get; rewrite decide_False; [reflexivity|done]|]. right. right. left.
Qed.

Lemma startup_fails_only_on_the_cookie_setting_witness :
  (∃ v, (get secret_held "SESSION_COOKIE_SAMESITE" (JStr "lax") (ahead_of_samesite secret_held "r4nd0m" never).2).1 = Ok v ∧
    startup_outcome "r4nd0m" v (AppConfig_init secret_held false "r4nd0m" (λ _, None) never).1) ∧
  (AppConfig_init secret_held false "r4nd0m" (λ _, None) never).1 = Raise ValueError.
Proof.
  split; [|vm_compute; reflexivity]. apply (startup_fails_only_on_the_cookie_setting secret_held false "r4nd0m" (λ _, None) never).
  exact store_and_environment_answer.
Defined.

(** Registered last, the store of secrets is asked first. *)
Definition env_start : process := env_process {[ "SECRET_KEY" := "from-env" ]}.
Definition registered : process := set_chain (register_provider (store_at false false (JObj [])) (chain env_start)) env_start.

Lemma the_strongest_provider_answers_witness :
  (chain registered ≠ [] ∧
   ((∃ p, p ∈ chain registered ∧ (get secret_held "SECRET_KEY" JNull registered).1 = answer_of secret_held (host_of registered) "SECRET_KEY" p ∧
      ¬ silent secret_held (host_of registered) "SECRET_KEY" p ∧
      ∀ q, q ∈ chain registered → priority_of q < priority_of p → silent secret_held (host_of registered) "SECRET_KEY" q) ∨
    (Forall (silent secret_held (host_of registered) "SECRET_KEY") (chain registered) ∧ (get secret_held "SECRET_KEY" JNull registered).1 = Ok JNull))) ∧
  (get secret_held "SECRET_KEY" JNull registered).1 = Ok (JStr "s3cret").
Proof.
  split; [|vm_compute; reflexivity]. apply (the_strongest_provider_answers secret_held "SECRET_KEY" JNull registered).
  exists secret_held, (host_of env_start), (Ok []), env_start. split; [reflexivity|]. apply rtc_once, registers.
Defined.

(** A negative age is kept as it is: the cookie is over before it is set. *)
Lemma a_cookie_may_be_over_at_once :
  AppConfig.SESSION_COOKIE_MAX_AGE_SECONDS <$> (AppConfig_init secret_held false "r4nd0m" (λ _, None) (env_process {[ "SESSION_COOKIE_MAX_AGE_SECONDS" := "-1" ]})).1 =
    Ok (Some (-1)).
Proof. vm_compute. reflexivity. Qed.

(** A word for yes other than true, 1 and t reads as no. *)
Lemma a_yes_turns_verification_off :
  (get_bool secret_held "OIDC_VERIFY_SSL" true (env_process {[ "OIDC_VERIFY_SSL" := "yes" ]})).1 = Ok false.
Proof. vm_compute. reflexivity. Qed.

(** A name left empty is a list of one empty name. *)
Lemma an_empty_list_is_not_empty :
  (get_list secret_held "OIDC_GROUP_NAME" [] (env_process {[ "OIDC_GROUP_NAME" := "" ]})).1 = Ok [JStr ""].
Proof. vm_compute. reflexivity. Qed.

(** ** A fresh installation: bob reads his experiment for a grant *)

Definition nothing_set : process := env_process ∅.
Lemma nothing_set_mute : mute secret_held nothing_set.
Proof. constructor; [done|constructor]. Qed.

Lemma a_fresh_installation_denies_by_default_witness :
  (∃ c s', AppConfig_init secret_held false "r4nd0m" (λ _, None) nothing_set = (Ok c, s') ∧
    AppConfig.OIDC_CODE_CHALLENGE c = Some "S256" ∧ AppConfig.OIDC_VERIFY_SSL c = true ∧
    AppConfig.OIDC_PROVISION_ON_BEARER_AUTH c = false ∧ AppConfig.OIDC_TRUST_BEARER_GROUP_CLAIMS c = false ∧
    ∀ ws rt id u sc d r,
      decision (H1 := resolution_config c) ws rt id u sc d = Ok r → permission r ≠ NO_PERMISSIONS →
      ∃ sources f n, build_sources rt id u sc = Ok sources ∧ kind r ∈ ["user"; "group"; "regex"; "group-regex"] ∧
        sources !! kind r = Some f ∧ (f d).1 = Ok n ∧ get_permission n = Ok (permission r)) ∧
  (permission <$> decision (H1 := resolution_config (default_settings "r4nd0m")) None EXPERIMENT "exp1" "bob" None sample_db,
   permission <$> decision (H1 := resolution_config (default_settings "r4nd0m")) None EXPERIMENT "other" "alice" None sample_db) = (Ok READ, Ok NO_PERMISSIONS).
Proof.
  split; [|vm_compute; reflexivity].
  apply (a_fresh_installation_denies_by_default secret_held false "r4nd0m" (λ _, None) nothing_set nothing_set_mute).
Defined.

(** ** MLflow's environment *)

Definition configured : process := (configure_mlflow_environment secret_held false aws_start).2.
Lemma configuring_mlflow_keeps_what_is_set_witness :
  configured_env false MLFLOW_ENV_MAPPINGS.*2 (env_of aws_start) (env_of configured) (configure_mlflow_environment secret_held false aws_start).1 ∧
  (configure_mlflow_environment secret_held false aws_start).1 = Ok [].
Proof.
  split; [|vm_compute; reflexivity].
  apply (configuring_mlflow_keeps_what_is_set secret_held false aws_start). apply surjective_pairing.
Defined.
