(* ===== verification/Entities.v ===== *)
(** * The entities and their JSON ([entities/]), and the entities of rows
    ([to_mlflow_entity] in [db/models/])

    What [from_json] does not convert it passes on as it is, so those fields are
    JSON values here. A dict is the list of its pairs in the order of insertion. *)
From S2P Require Import Prelude PyStrings Json Database Identity Kubernetes AuthMiddleware RouterLib ApiModels Users WorkspaceRouters UsersRouter Configuration Samples.
From S2P Require Import AccountFacts.
#[local] Open Scope Z_scope.

Abbreviation dict := (list (string * json)).

(** [d[key]], [d.get(key)]; [d[new] = d.pop(old)], where [old] is a key of [d]. *)
Definition item (key : string) (d : dict) : outcome json := match dict_of d !! key with Some v => Ok v | None => Raise KeyError end.
Definition optional (key : string) (d : dict) : json := get_key key (dict_of d).
Definition without (key : string) (d : dict) : dict := filter (λ kv, kv.1 ≠ key) d.
Definition moved (old new : string) (d : dict) : dict :=
  match dict_of d !! old with Some v => without new (without old d) ++ [(new, v)] | None => d end.

Definition json_id (n : option Z) : json := match n with Some n => JNum n | None => JNull end.

(** [if user_id is not None: try: int(user_id) ... raise ValueError] *)
Definition id_field (key : string) (d : dict) : outcome (option Z) :=
  match optional key d with
  | JNull => Ok None
  | v => match int_of_json v with Some n => Ok (Some n) | None => Raise ValueError end
  end.

(** ** [entities/_base.py] *)

Module PermissionBase.
Record t := Make { instance : json; permission : json; user_id : option Z; group_id : option Z }.

Definition to_json (self : t) : dict :=
  [("instance", instance self); ("permission", permission self); ("user_id", json_id (user_id self)); ("group_id", json_id (group_id self))].

(** The subclasses are called after their resource: [to_json] and [from_json] of
    one whose constructor names it [key]. *)
Definition to_json_as (key : string) (self : t) : dict := moved "instance" key (to_json self).
Definition from_json_as (key : string) (d : dict) : outcome t :=
  user_id ← id_field "user_id" d;
  group_id ← id_field "group_id" d;
  instance ← item key d;
  permission ← item "permission" d;
  mret (Make instance permission user_id group_id).

(** The entities of a user's row and of a group's. *)
Definition of_user_row (self : perm_row) : t := Make (JStr (row_instance self)) (JStr (p_permission self)) (Some (p_owner self)) None.
Definition of_group_row (self : perm_row) : t := Make (JStr (row_instance self)) (JStr (p_permission self)) None (Some (p_owner self)).
End PermissionBase.

Module RegexPermissionBase.
Record t := Make { id : json; regex : json; priority : json; permission : json; user_id : option Z; group_id : option Z }.

(** [{k: v for k, v in asdict(self).items() if v is not None}] *)
Definition to_json (self : t) : dict :=
  filter (λ kv, is_Some (some_value kv.2))
    [("id", id self); ("regex", regex self); ("priority", priority self); ("permission", permission self);
     ("user_id", json_id (user_id self)); ("group_id", json_id (group_id self))].

(** [except KeyError as e: raise ValueError(...)] *)
Definition required (key : string) (d : dict) : outcome json := match item key d with Ok v => Ok v | Raise _ => Raise ValueError end.
Definition from_json (dictionary : dict) : outcome t :=
  id_ ← required "id" dictionary;
  regex ← required "regex" dictionary;
  priority ← required "priority" dictionary;
  permission ← required "permission" dictionary;
  user_id ← id_field "user_id" dictionary;
  group_id ← id_field "group_id" dictionary;
  mret (Make id_ regex priority permission user_id group_id).

(** The subclasses read one owner, and the permission as [permission] does. *)
Definition user_from_json (permission : dict → outcome json) (d : dict) : outcome t :=
  user_id ← id_field "user_id" d;
  id_ ← item "id" d;
  regex ← item "regex" d;
  priority ← item "priority" d;
  permission ← permission d;
  mret (Make id_ regex priority permission user_id None).
Definition group_from_json (permission : dict → outcome json) (d : dict) : outcome t :=
  group_id ← id_field "group_id" d;
  id_ ← item "id" d;
  regex ← item "regex" d;
  priority ← item "priority" d;
  permission ← permission d;
  mret (Make id_ regex priority permission None group_id).
(** [d["permission"]] and [d.get("permission")]. *)
Definition demanded (d : dict) : outcome json := item "permission" d.
Definition tolerated (d : dict) : outcome json := Ok (optional "permission" d).

Definition of_user_row (self : regex_row) : t :=
  Make (JNum (r_id self)) (JStr (r_regex self)) (JNum (r_priority self)) (JStr (r_permission self)) (Some (r_owner self)) None.
Definition of_group_row (self : regex_row) : t :=
  Make (JNum (r_id self)) (JStr (r_regex self)) (JNum (r_priority self)) (JStr (r_permission self)) None (Some (r_owner self)).
End RegexPermissionBase.

(** ** [entities/experiment.py], [entities/gateway_*.py] *)

Module ExperimentPermission.
Definition to_json : PermissionBase.t → dict := PermissionBase.to_json_as "experiment_id".
Definition from_json : dict → outcome PermissionBase.t := PermissionBase.from_json_as "experiment_id".
End ExperimentPermission.
Module GatewayEndpointPermission.
Definition to_json : PermissionBase.t → dict := PermissionBase.to_json_as "endpoint_id".
Definition from_json : dict → outcome PermissionBase.t := PermissionBase.from_json_as "endpoint_id".
End GatewayEndpointPermission.
Module GatewayModelDefinitionPermission.
Definition to_json : PermissionBase.t → dict := PermissionBase.to_json_as "model_definition_id".
Definition from_json : dict → outcome PermissionBase.t := PermissionBase.from_json_as "model_definition_id".
End GatewayModelDefinitionPermission.
Module GatewaySecretPermission.
Definition to_json : PermissionBase.t → dict := PermissionBase.to_json_as "secret_id".
Definition from_json : dict → outcome PermissionBase.t := PermissionBase.from_json_as "secret_id".
End GatewaySecretPermission.

Module ExperimentRegexPermission.
Definition from_json : dict → outcome RegexPermissionBase.t := RegexPermissionBase.user_from_json RegexPermissionBase.tolerated.
End ExperimentRegexPermission.
Module ExperimentGroupRegexPermission.
Definition from_json : dict → outcome RegexPermissionBase.t := RegexPermissionBase.group_from_json RegexPermissionBase.demanded.
End ExperimentGroupRegexPermission.
(** Endpoints, model definitions and secrets alike. *)
Module GatewayRegexPermission.
Definition from_json : dict → outcome RegexPermissionBase.t := RegexPermissionBase.user_from_json RegexPermissionBase.tolerated.
End GatewayRegexPermission.
Module GatewayGroupRegexPermission.
Definition from_json : dict → outcome RegexPermissionBase.t := RegexPermissionBase.group_from_json RegexPermissionBase.tolerated.
End GatewayGroupRegexPermission.

(** ** [entities/registered_model.py] *)

Module RegisteredModelPermission.
Record t := Make { name : json; permission : json; user_id : option Z; group_id : option Z; prompt : bool }.
Definition to_json (self : t) : dict :=
  [("name", name self); ("user_id", json_id (user_id self)); ("permission", permission self); ("group_id", json_id (group_id self)); ("prompt", JBool (prompt self))].
Definition from_json (dictionary : dict) : outcome t :=
  user_id ← id_field "user_id" dictionary;
  group_id ← id_field "group_id" dictionary;
  name ← item "name" dictionary;
  permission ← item "permission" dictionary;
  mret (Make name permission user_id group_id (json_truthy (optional "prompt" dictionary))).
Definition of_user_row (self : perm_row) : t := Make (JStr (row_instance self)) (JStr (p_permission self)) (Some (p_owner self)) None false.
Definition of_group_row (self : perm_row) : t := Make (JStr (row_instance self)) (JStr (p_permission self)) None (Some (p_owner self)) (p_prompt self).
End RegisteredModelPermission.

(** [RegisteredModelRegexPermission] and [RegisteredModelGroupRegexPermission]. *)
Module RegisteredModelRegexPermission.
Record t := Make { base : RegexPermissionBase.t; prompt : bool }.
Definition to_json (self : t) : dict := without "prompt" (RegexPermissionBase.to_json (base self)) ++ [("prompt", JBool (prompt self))].
Definition from_json (dictionary : dict) : outcome t :=
  base ← RegexPermissionBase.user_from_json RegexPermissionBase.demanded dictionary;
  mret (Make base (json_truthy (optional "prompt" dictionary))).
Definition group_from_json (dictionary : dict) : outcome t :=
  base ← RegexPermissionBase.group_from_json RegexPermissionBase.demanded dictionary;
  mret (Make base (json_truthy (optional "prompt" dictionary))).
Definition of_user_row (self : regex_row) : t := Make (RegexPermissionBase.of_user_row self) (r_prompt self).
Definition of_group_row (self : regex_row) : t := Make (RegexPermissionBase.of_group_row self) (r_prompt self).
End RegisteredModelRegexPermission.

(** ** [entities/scorer.py] *)

Module ScorerPermission.
Record t := Make { experiment_id : json; scorer_name : json; permission : json; user_id : json; group_id : json }.
Definition to_json (self : t) : dict :=
  [("experiment_id", experiment_id self); ("scorer_name", scorer_name self); ("permission", permission self); ("user_id", user_id self); ("group_id", group_id self)].
Definition from_json (dictionary : dict) : outcome t :=
  experiment_id ← item "experiment_id" dictionary;
  scorer_name ← item "scorer_name" dictionary;
  permission ← item "permission" dictionary;
  mret (Make experiment_id scorer_name permission (optional "user_id" dictionary) (optional "group_id" dictionary)).
Definition of_user_row (self : perm_row) : t := Make (JStr (row_instance self)) (JStr (row_scorer_name self)) (JStr (p_permission self)) (JNum (p_owner self)) JNull.
Definition of_group_row (self : perm_row) : t := Make (JStr (row_instance self)) (JStr (row_scorer_name self)) (JStr (p_permission self)) JNull (JNum (p_owner self)).
End ScorerPermission.

(** [ScorerRegexPermission] and [ScorerGroupRegexPermission]: the owner is under
    [owner], ["user_id"] or ["group_id"]. *)
Module ScorerRegexPermission.
Record t := Make { id : json; regex : json; priority : json; owner_id : json; permission : json }.
Definition to_json (owner : string) (self : t) : dict :=
  [("id", id self); ("regex", regex self); ("priority", priority self); (owner, owner_id self); ("permission", permission self)].
Definition from_json (owner : string) (dictionary : dict) : outcome t :=
  id_ ← item "id" dictionary;
  regex ← item "regex" dictionary;
  priority ← item "priority" dictionary;
  owner_id ← item owner dictionary;
  permission ← item "permission" dictionary;
  mret (Make id_ regex priority owner_id permission).
Definition of_row (self : regex_row) : t :=
  Make (JNum (r_id self)) (JStr (r_regex self)) (JNum (r_priority self)) (JNum (r_owner self)) (JStr (r_permission self)).
End ScorerRegexPermission.

(** ** [entities/workspace.py] *)

Module WorkspacePermission.
(** [owner] is the user's name or the group's, where the row has its owner. *)
Record t := Make { workspace : json; owner_id : json; permission : json; owner : option string }.
Definition json_name (name : option string) : json := match name with Some name => JStr name | None => JNull end.
Definition to_json (self : t) : dict :=
  [("workspace", workspace self); ("user_id", owner_id self); ("permission", permission self); ("username", json_name (owner self))].
Definition group_to_json (self : t) : dict :=
  [("workspace", workspace self); ("group_id", owner_id self); ("permission", permission self); ("group_name", json_name (owner self))].
(** The relationship to the owner is a lookup in its table. *)
Definition of_user_row (d : db) (self : perm_row) : t := Make (JStr (row_instance self)) (JNum (p_owner self)) (JStr (p_permission self)) (owner_username d self).
Definition of_group_row (d : db) (self : perm_row) : t := Make (JStr (row_instance self)) (JNum (p_owner self)) (JStr (p_permission self)) (owner_group_name d self).
End WorkspacePermission.
Module WorkspaceRegexPermission.
Definition from_json : dict → outcome RegexPermissionBase.t := RegexPermissionBase.user_from_json RegexPermissionBase.tolerated.
Definition group_from_json : dict → outcome RegexPermissionBase.t := RegexPermissionBase.group_from_json RegexPermissionBase.demanded.
End WorkspaceRegexPermission.

(** ** [entities/group.py], [entities/user.py] *)

Module Group.
Record t := Make { id : json; group_name : json }.
Definition to_json (self : t) : dict := [("id", id self); ("group_name", group_name self)].
Definition from_json (dictionary : dict) : outcome t :=
  id_ ← item "id" dictionary;
  group_name ← item "group_name" dictionary;
  mret (Make id_ group_name).
Definition of_row (self : group_row) : t := Make (JNum (g_id self)) (JStr (g_name self)).
End Group.

Module UserGroup.
Record t := Make { user_id : Z; group_id : Z }.
Definition to_json (self : t) : dict := [("user_id", JNum (user_id self)); ("group_id", JNum (group_id self))].
(** [try: int(value) ... raise ValueError]; no value is no integer either. *)
Definition int_field (v : json) : outcome Z := match int_of_json v with Some n => Ok n | None => Raise ValueError end.
Definition from_json (dictionary : dict) : outcome t :=
  user_id ← item "user_id" dictionary;
  group_id ← item "group_id" dictionary;
  user_id ← int_field user_id;
  group_id ← int_field group_id;
  mret (Make user_id group_id).
Definition of_row (self : membership_row) : t := Make (m_user_id self) (m_group_id self).
End UserGroup.

(** [for p in value]: lists, the characters of a text, the keys of a dict. *)
Definition iterated (value : json) : outcome (list json) :=
  match value with
  | JArr l => Ok l
  | JStr s => Ok (map (λ c, JStr (String c "")) (String.list_ascii_of_string s))
  | JObj fields => Ok (map (λ kv, JStr kv.1) fields)
  | _ => Raise TypeError
  end.
(** [[Entity.from_json(p) for p in value]]; [wrong] is what the first line of
    [from_json] raises on something other than a dict. *)
Fixpoint entities_of {A} (wrong : exc) (from_json : dict → outcome A) (l : list json) : outcome (list A) :=
  match l with
  | [] => Ok []
  | JObj fields :: l => x ← from_json fields; rest ← entities_of wrong from_json l; mret (x :: rest)
  | _ :: _ => Raise wrong
  end.

Section user.
Context `{DateTimes}.

Inductive datetime_value :=
  | DateTime (t : datetime)
  | Value (v : json).
Definition _parse_optional_datetime (value : datetime_value) : outcome (option datetime) :=
  match value with
  | Value JNull => Ok None
  | DateTime t => Ok (Some t)
  | Value (JStr s) => match fromisoformat (utc_offset s) with Some t => Ok (Some t) | None => Raise ValueError end
  | Value _ => Raise TypeError
  end.
End user.

Module User.
Section user.
Context `{DateTimes}.

Record t := Make {
  id : json;
  username : json;
  password_hash : json;
  password_expiration : option datetime;
  is_admin : bool;
  is_service_account : json;
  display_name : json;
  experiment_permissions : list PermissionBase.t;
  registered_model_permissions : list RegisteredModelPermission.t;
  scorer_permissions : list ScorerPermission.t;
  gateway_endpoint_permissions : list PermissionBase.t;
  gateway_model_definition_permissions : list PermissionBase.t;
  gateway_secret_permissions : list PermissionBase.t;
  groups : list Group.t;
  active : bool;
  managed_by : string;
}.

Definition objects {A} (to_json : A → dict) (l : list A) : json := JArr (map (λ x, JObj (to_json x)) l).
Definition to_json (self : t) : dict :=
  [("id", id self);
   ("username", username self);
   ("is_admin", JBool (is_admin self));
   ("is_service_account", is_service_account self);
   ("experiment_permissions", objects ExperimentPermission.to_json (experiment_permissions self));
   ("registered_model_permissions", objects RegisteredModelPermission.to_json (registered_model_permissions self));
   ("scorer_permissions", objects ScorerPermission.to_json (scorer_permissions self));
   ("gateway_endpoint_permissions", objects GatewayEndpointPermission.to_json (gateway_endpoint_permissions self));
   ("gateway_model_definition_permissions", objects GatewayModelDefinitionPermission.to_json (gateway_model_definition_permissions self));
   ("gateway_secret_permissions", objects GatewaySecretPermission.to_json (gateway_secret_permissions self));
   ("password_expiration", match password_expiration self with Some t => JStr (isoformat t) | None => JNull end);
   ("display_name", display_name self);
   ("groups", objects Group.to_json (groups self))].

(** [dictionary.get(key, [])], read one by one. *)
Definition listed {A} (wrong : exc) (from_json : dict → outcome A) (key : string) (dictionary : dict) : outcome (list A) :=
  l ← iterated (get_or (JArr []) key (dict_of dictionary));
  entities_of wrong from_json l.

Definition from_json (dictionary : dict) : outcome t :=
  password_expiration ← _parse_optional_datetime (Value (optional "password_expiration" dictionary));
  experiment_permissions ← listed AttributeError ExperimentPermission.from_json "experiment_permissions" dictionary;
  registered_model_permissions ← listed AttributeError RegisteredModelPermission.from_json "registered_model_permissions" dictionary;
  scorer_permissions ← listed TypeError ScorerPermission.from_json "scorer_permissions" dictionary;
  gateway_endpoint_permissions ← listed AttributeError GatewayEndpointPermission.from_json "gateway_endpoint_permissions" dictionary;
  gateway_model_definition_permissions ← listed AttributeError GatewayModelDefinitionPermission.from_json "gateway_model_definition_permissions" dictionary;
  gateway_secret_permissions ← listed AttributeError GatewaySecretPermission.from_json "gateway_secret_permissions" dictionary;
  groups ← listed TypeError Group.from_json "groups" dictionary;
  mret (Make (optional "id" dictionary) (optional "username" dictionary) (JStr "REDACTED") password_expiration
          (json_truthy (get_or (JBool false) "is_admin" (dict_of dictionary))) (get_or (JBool false) "is_service_account" (dict_of dictionary))
          (optional "display_name" dictionary) experiment_permissions registered_model_permissions scorer_permissions gateway_endpoint_permissions
          gateway_model_definition_permissions gateway_secret_permissions groups true "manual").

(** [SqlUser.to_mlflow_entity]: a relationship is the rows of its table that
    name this user. *)
Definition related {A} (entity : perm_row → A) (tbl : table) (self : user_row) (d : db) : list A :=
  map entity (filter (λ p, p_owner p = u_id self) (t_user (perms d tbl))).
Definition to_mlflow_entity (self : user_row) (d : db) : t :=
  Make (JNum (u_id self)) (JStr (u_username self)) (JStr (u_password_hash self)) (naive <$> u_password_expiration self) (u_is_admin self)
    (JBool (u_is_service_account self)) (JStr (u_display_name self))
    (related PermissionBase.of_user_row Experiments self d)
    (related RegisteredModelPermission.of_user_row RegisteredModels self d)
    (related ScorerPermission.of_user_row Scorers self d)
    (related PermissionBase.of_user_row GatewayEndpoints self d)
    (related PermissionBase.of_user_row GatewayModelDefinitions self d)
    (related PermissionBase.of_user_row GatewaySecrets self d)
    (map Group.of_row (UserRepository.groups_of self d)) (u_active self) (u_managed_by self).
End user.
End User.

(** ** Models of the API from the JSON of an entity: [Record( **entity.to_json())]

    A value of the declared type is taken as it is, and an undeclared key is
    ignored; [None] where a value is not of its type, which Pydantic converts or
    refuses. *)

Definition text (key : string) (d : dict) : option string := match optional key d with JStr s => Some s | _ => None end.
Definition number (key : string) (d : dict) : option Z := match optional key d with JNum n => Some n | _ => None end.
Definition number_or_none (key : string) (d : dict) : option (option Z) := match optional key d with JNum n => Some (Some n) | JNull => Some None | _ => None end.
Definition flag (key : string) (d : dict) : option bool := match get_or (JBool false) key (dict_of d) with JBool b => Some b | _ => None end.

Definition experiment_model (d : dict) : option ExperimentPermissionRecord :=
  experiment_id ← text "experiment_id" d; permission ← text "permission" d; user_id ← number_or_none "user_id" d; group_id ← number_or_none "group_id" d;
  mret (MkExperimentRecord experiment_id permission user_id group_id).
Definition registered_model_model (d : dict) : option RegisteredModelPermissionRecord :=
  name ← text "name" d; user_id ← number_or_none "user_id" d; permission ← text "permission" d; group_id ← number_or_none "group_id" d; prompt ← flag "prompt" d;
  mret (MkModelRecord name user_id permission group_id prompt).
Definition registered_model_regex_model (d : dict) : option RegisteredModelRegexPermissionRecord :=
  id ← number "id" d; regex ← text "regex" d; priority ← number "priority" d; user_id ← number "user_id" d; permission ← text "permission" d; prompt ← flag "prompt" d;
  mret (MkModelRegexRecord id regex priority user_id permission prompt).
Definition scorer_model (d : dict) : option ScorerPermissionRecord :=
  experiment_id ← text "experiment_id" d; scorer_name ← text "scorer_name" d; user_id ← number "user_id" d; permission ← text "permission" d;
  mret (MkScorerRecord experiment_id scorer_name user_id permission).
Definition scorer_regex_model (d : dict) : option ScorerRegexPermissionRecord :=
  id ← number "id" d; regex ← text "regex" d; priority ← number "priority" d; user_id ← number "user_id" d; permission ← text "permission" d;
  mret (MkScorerRegexRecord id regex priority user_id permission).
Definition group_model (d : dict) : option GroupRecord :=
  id ← number "id" d; group_name ← text "group_name" d; mret (MkGroupRecord id group_name).

(** * Entities survive their JSON, and the API shows the columns of the row *)

(** ** Permissions *)

Section permissions.
Import PermissionBase.
Ltac by_fields := intros [? ? [] []]; reflexivity.

Lemma experiment_permission_round_trip p : ExperimentPermission.from_json (ExperimentPermission.to_json p) = Ok p.
Proof. revert p. by_fields. Qed.
Lemma gateway_endpoint_round_trip p : GatewayEndpointPermission.from_json (GatewayEndpointPermission.to_json p) = Ok p.
Proof. revert p. by_fields. Qed.
Lemma gateway_model_definition_round_trip p : GatewayModelDefinitionPermission.from_json (GatewayModelDefinitionPermission.to_json p) = Ok p.
Proof. revert p. by_fields. Qed.
Lemma gateway_secret_round_trip p : GatewaySecretPermission.from_json (GatewaySecretPermission.to_json p) = Ok p.
Proof. revert p. by_fields. Qed.
Lemma model_permission_round_trip p : RegisteredModelPermission.from_json (RegisteredModelPermission.to_json p) = Ok p.
Proof. by destruct p as [? ? [] [] []]. Qed.
Lemma scorer_permission_round_trip p : ScorerPermission.from_json (ScorerPermission.to_json p) = Ok p.
Proof. by destruct p. Qed.
Lemma group_round_trip g : Group.from_json (Group.to_json g) = Ok g.
Proof. by destruct g. Qed.
Lemma user_group_round_trip g : UserGroup.from_json (UserGroup.to_json g) = Ok g.
Proof. by destruct g. Qed.
End permissions.

(** ** Patterns

    [to_json] leaves out what is [None]. What a row always has, an id, a regex
    and a priority, is there to be read back. *)

Section patterns.
Import RegexPermissionBase.

Definition has_columns (p : t) : Prop := id p ≠ JNull ∧ regex p ≠ JNull ∧ priority p ≠ JNull.

Lemma user_pattern_round_trip p : has_columns p → group_id p = None → user_from_json tolerated (to_json p) = Ok p.
Proof.
  destruct p as [i r pr pm [u|] g]; intros (Hi&Hr&Hp) Hg; cbn in Hi, Hr, Hp, Hg; subst g; destruct i, r, pr; try done; by destruct pm.
Qed.
Lemma group_pattern_round_trip p : has_columns p → user_id p = None → permission p ≠ JNull → group_from_json demanded (to_json p) = Ok p.
Proof.
  destruct p as [i r pr pm u [g|]]; intros (Hi&Hr&Hp) Hg Hpm; cbn in Hi, Hr, Hp, Hg, Hpm; subst u; destruct i, r, pr; try done; by destruct pm.
Qed.
Lemma gateway_group_pattern_round_trip p : has_columns p → user_id p = None → group_from_json tolerated (to_json p) = Ok p.
Proof.
  destruct p as [i r pr pm u [g|]]; intros (Hi&Hr&Hp) Hg; cbn in Hi, Hr, Hp, Hg; subst u; destruct i, r, pr; try done; by destruct pm.
Qed.
Lemma base_pattern_round_trip p : has_columns p → permission p ≠ JNull → from_json (to_json p) = Ok p.
Proof.
  destruct p as [i r pr pm [u|] [g|]]; intros (Hi&Hr&Hp) Hpm; cbn in Hi, Hr, Hp, Hpm; destruct i, r, pr; try done; by destruct pm.
Qed.
(** Where it is a group's, a pattern without a permission does not come back. *)
Lemma group_pattern_without_permission i r pr g :
  ExperimentGroupRegexPermission.from_json (to_json (Make (JNum i) (JStr r) (JNum pr) JNull None (Some g))) = Raise KeyError.
Proof. reflexivity. Qed.

Lemma model_pattern_round_trip p :
  has_columns (RegisteredModelRegexPermission.base p) → group_id (RegisteredModelRegexPermission.base p) = None → permission (RegisteredModelRegexPermission.base p) ≠ JNull →
  RegisteredModelRegexPermission.from_json (RegisteredModelRegexPermission.to_json p) = Ok p.
Proof.
  destruct p as [[i r pr pm [u|] g] []]; intros (Hi&Hr&Hp) Hg Hpm; cbn in Hi, Hr, Hp, Hg, Hpm; subst g; destruct i, r, pr; try done; by destruct pm.
Qed.
Lemma model_group_pattern_round_trip p :
  has_columns (RegisteredModelRegexPermission.base p) → user_id (RegisteredModelRegexPermission.base p) = None → permission (RegisteredModelRegexPermission.base p) ≠ JNull →
  RegisteredModelRegexPermission.group_from_json (RegisteredModelRegexPermission.to_json p) = Ok p.
Proof.
  destruct p as [[i r pr pm u [g|]] []]; intros (Hi&Hr&Hp) Hg Hpm; cbn in Hi, Hr, Hp, Hg, Hpm; subst u; destruct i, r, pr; try done; by destruct pm.
Qed.
End patterns.

(** Every pattern of the database comes back. *)
Theorem stored_patterns_come_back r :
  let user := RegexPermissionBase.of_user_row r in let group := RegexPermissionBase.of_group_row r in
  (∀ read, In read [ExperimentRegexPermission.from_json; GatewayRegexPermission.from_json; WorkspaceRegexPermission.from_json; RegexPermissionBase.from_json] →
     read (RegexPermissionBase.to_json user) = Ok user) ∧
  (∀ read, In read [ExperimentGroupRegexPermission.from_json; GatewayGroupRegexPermission.from_json; WorkspaceRegexPermission.group_from_json; RegexPermissionBase.from_json] →
     read (RegexPermissionBase.to_json group) = Ok group) ∧
  RegisteredModelRegexPermission.from_json (RegisteredModelRegexPermission.to_json (RegisteredModelRegexPermission.of_user_row r)) = Ok (RegisteredModelRegexPermission.of_user_row r) ∧
  RegisteredModelRegexPermission.group_from_json (RegisteredModelRegexPermission.to_json (RegisteredModelRegexPermission.of_group_row r)) = Ok (RegisteredModelRegexPermission.of_group_row r) ∧
  ScorerRegexPermission.from_json "user_id" (ScorerRegexPermission.to_json "user_id" (ScorerRegexPermission.of_row r)) = Ok (ScorerRegexPermission.of_row r) ∧
  ScorerRegexPermission.from_json "group_id" (ScorerRegexPermission.to_json "group_id" (ScorerRegexPermission.of_row r)) = Ok (ScorerRegexPermission.of_row r).
Proof.
  assert (has_columns (RegexPermissionBase.of_user_row r)) as Hu by done. assert (has_columns (RegexPermissionBase.of_group_row r)) as Hg by done. cbn zeta. split_and!.
  - intros read [<- | [<- | [<- | [<- | []]]]]; first [by apply user_pattern_round_trip|by apply base_pattern_round_trip].
  - intros read [<- | [<- | [<- | [<- | []]]]]; first [by apply group_pattern_round_trip|by apply gateway_group_pattern_round_trip|by apply base_pattern_round_trip].
  - by apply model_pattern_round_trip.
  - by apply model_group_pattern_round_trip.
  - done.
  - done.
Qed.

(** ** Users *)

Lemma entities_of_objects {A} (wrong : exc) (to_json : A → dict) (from_json : dict → outcome A) l :
  (∀ x, from_json (to_json x) = Ok x) → entities_of wrong from_json (map (λ x, JObj (to_json x)) l) = Ok l.
Proof. intros Hx. induction l as [|x l IH]; [done|]. cbn [map entities_of]. by rewrite Hx /= IH. Qed.

Lemma listed_objects {A} (wrong : exc) (to_json : A → dict) (from_json : dict → outcome A) key d l :
  (∀ x, from_json (to_json x) = Ok x) → dict_of d !! key = Some (User.objects to_json l) → User.listed wrong from_json key d = Ok l.
Proof. intros Hx Hd. unfold User.listed, get_or. rewrite Hd. by apply entities_of_objects. Qed.

(** A time whose text is read as that time, as [datetime.fromisoformat] reads all
    that [isoformat] writes, which has no Z. *)
Definition reads_back `{DateTimes} (t : datetime) : Prop := fromisoformat (isoformat t) = Some t ∧ endswith (isoformat t) "Z" = false.

Section user.
Context `{DateTimes}.
Import User.

(** What [to_json] does not show. *)
Definition as_shown (u : t) : t :=
  Make (id u) (username u) (JStr "REDACTED") (password_expiration u) (is_admin u) (is_service_account u) (display_name u)
    (experiment_permissions u) (registered_model_permissions u) (scorer_permissions u) (gateway_endpoint_permissions u)
    (gateway_model_definition_permissions u) (gateway_secret_permissions u) (groups u) true "manual".

Lemma expiration_round_trip e :
  (∀ t, e = Some t → reads_back t) →
  _parse_optional_datetime (Value (match e with Some t => JStr (isoformat t) | None => JNull end)) = Ok e.
Proof. intros He. destruct e as [t|]; [|done]. destruct (He t eq_refl) as [Ht Hz]. cbn. unfold utc_offset. by rewrite Hz Ht. Qed.

Lemma user_json_round_trip u : (∀ t, password_expiration u = Some t → reads_back t) → from_json (to_json u) = Ok (as_shown u).
Proof.
  intros He. unfold from_json. change (optional "password_expiration" (to_json u)) with (match password_expiration u with Some t => JStr (isoformat t) | None => JNull end).
  rewrite expiration_round_trip //. cbn [mbind outcome_bind].
  rewrite (listed_objects _ _ _ "experiment_permissions" (to_json u) (experiment_permissions u) experiment_permission_round_trip); [|reflexivity]. cbn [mbind outcome_bind].
  rewrite (listed_objects _ _ _ "registered_model_permissions" (to_json u) (registered_model_permissions u) model_permission_round_trip); [|reflexivity]. cbn [mbind outcome_bind].
  rewrite (listed_objects _ _ _ "scorer_permissions" (to_json u) (scorer_permissions u) scorer_permission_round_trip); [|reflexivity]. cbn [mbind outcome_bind].
  rewrite (listed_objects _ _ _ "gateway_endpoint_permissions" (to_json u) (gateway_endpoint_permissions u) gateway_endpoint_round_trip); [|reflexivity]. cbn [mbind outcome_bind].
  rewrite (listed_objects _ _ _ "gateway_model_definition_permissions" (to_json u) (gateway_model_definition_permissions u) gateway_model_definition_round_trip); [|reflexivity]. cbn [mbind outcome_bind].
  rewrite (listed_objects _ _ _ "gateway_secret_permissions" (to_json u) (gateway_secret_permissions u) gateway_secret_round_trip); [|reflexivity]. cbn [mbind outcome_bind].
  by rewrite (listed_objects _ _ _ "groups" (to_json u) (groups u) group_round_trip).
Qed.

End user.

(** ** Responses

    What the handlers answer, built straight from the row in the model of the
    routers, is what the source builds from the JSON of the row's entity. *)
Theorem responses_are_built_from_entities p r g :
  experiment_model (ExperimentPermission.to_json (PermissionBase.of_user_row p)) = Some (experiment_record p) ∧
  registered_model_model (RegisteredModelPermission.to_json (RegisteredModelPermission.of_user_row p)) = Some (model_record p) ∧
  scorer_model (ScorerPermission.to_json (ScorerPermission.of_user_row p)) = Some (scorer_record p) ∧
  registered_model_regex_model (RegisteredModelRegexPermission.to_json (RegisteredModelRegexPermission.of_user_row r)) = Some (model_regex_record r) ∧
  scorer_regex_model (ScorerRegexPermission.to_json "user_id" (ScorerRegexPermission.of_row r)) = Some (scorer_regex_record r) ∧
  group_model (Group.to_json (Group.of_row g)) = Some (MkGroupRecord (g_id g) (g_name g)).
Proof. split_and!; reflexivity. Qed.

(** The models of patterns demand a user: those of groups do not fit them. *)
Lemma group_patterns_do_not_fit r :
  registered_model_regex_model (RegisteredModelRegexPermission.to_json (RegisteredModelRegexPermission.of_group_row r)) = None ∧
  scorer_regex_model (ScorerRegexPermission.to_json "group_id" (ScorerRegexPermission.of_row r)) = None.
Proof. split; reflexivity. Qed.

(** A user of the database comes back from the JSON of its entity with every
    column, permission and group it shows, but without its password hash, active,
    and owned by the administrators: [to_json] leaves these three columns out,
    and a deactivated user comes back active. *)
Theorem a_stored_user_comes_back `{DateTimes} u d :
  (∀ t, u_password_expiration u = Some t → reads_back (naive t)) →
  User.from_json (User.to_json (User.to_mlflow_entity u d)) =
    Ok (User.to_mlflow_entity (UserRow (u_id u) (u_username u) (u_display_name u) "REDACTED" (u_password_expiration u) (u_is_admin u) (u_is_service_account u) true "manual") d).
Proof. intros He. rewrite user_json_round_trip; [done|]. intros t. cbn. destruct (u_password_expiration u) as [e|]; [|done]. intros [= <-]. by apply He. Qed.

(** * A deactivated user and its JSON *)

(** Deactivated by its directory, with a token that expires. *)
Definition leaver : user_row := UserRow 2 "bob" "Bob" "hash" (Some 5000) true false false "scim".

Lemma a_stored_user_comes_back_witness :
  User.from_json (User.to_json (User.to_mlflow_entity leaver sample_db)) =
    Ok (User.to_mlflow_entity (UserRow 2 "bob" "Bob" "REDACTED" (Some 5000) true false true "manual") sample_db) ∧
  (User.active <$> User.from_json (User.to_json (User.to_mlflow_entity leaver sample_db))) = Ok true.
Proof.
  split; [|vm_compute; reflexivity]. apply (a_stored_user_comes_back leaver sample_db). intros t [= <-]. split; vm_compute; reflexivity.
Defined.

(** A text where a list of objects is expected is read character by character. *)
Lemma experiments_may_be_no_text :
  User.from_json [("experiment_permissions", JStr "")] = User.from_json [] ∧
  User.from_json [("experiment_permissions", JStr "7")] = Raise AuthMiddleware.AttributeError ∧
  User.from_json [("groups", JStr "7")] = Raise Identity.TypeError ∧
  User.from_json [("groups", JNull)] = Raise Identity.TypeError.
Proof. vm_compute. split_and!; reflexivity. Qed.
