(* ===== verification/Ui.v ===== *)
(** * The pages of the management UI ([routers/ui.py])

    Paths are POSIX paths as texts: [os.path.join] and [os.path.normpath] are
    defined here. The file system is asked whether a name is a file or a
    directory, and links are not followed. *)
From S2P Require Import Prelude PyStrings Requests Kubernetes ProviderRegistry TokenVerification AuthMiddleware RedirectUri OAuthClients SignIn.
From Stdlib Require Import Ascii.
#[local] Open Scope Z_scope.

(** ** [posixpath] *)

Definition slash : ascii := "/"%char.

Definition path_join (a b : string) : string :=
  if startswith b "/" then b else if String.eqb a "" || endswith a "/" then a +:+ b else a +:+ "/" +:+ b.

(** [splitroot]: two slashes at the front are not one. *)
Definition split_root (path : string) : string * string :=
  match path with
  | String "/" (String "/" (String "/" _ as rest)) => ("/", String "/" (String "/" rest))
  | String "/" (String "/" rest) => ("//", rest)
  | String "/" rest => ("/", rest)
  | _ => ("", path)
  end.

(** One component after those kept, the last one first. *)
Definition norm_step (rooted : bool) (new_comps : list string) (comp : string) : list string :=
  if decide (comp = "" ∨ comp = ".") then new_comps
  else if negb (String.eqb comp "..") || (negb rooted && bool_decide (new_comps = [])) || bool_decide (head new_comps = Some "..") then comp :: new_comps
  else tail new_comps.
Definition norm_comps (rooted : bool) (comps : list string) : list string := reverse (foldl (norm_step rooted) [] comps).

Definition normpath (path : string) : string :=
  if decide (path = "") then "."
  else
    let '(initial_slashes, rest) := split_root path in
    let path := initial_slashes +:+ String.concat "/" (norm_comps (negb (String.eqb initial_slashes "")) (py_split slash rest)) in
    if decide (path = "") then "." else path.

(** ** The routes *)

(** [ui_dir_path] is where the package keeps the built UI. *)
Class UiFiles := {
  ui_dir_path : string;
  isfile : string → bool;
  is_dir : string → bool;
}.
Class UiConfig := { OIDC_PROVIDER_DISPLAY_NAME : string; OIDC_GEN_AI_GATEWAY_ENABLED : bool; ui_workspaces_enabled : bool }.

Definition RuntimeError : exc := OtherException "RuntimeError".

Section ui.
Context `{UiFiles}.

Definition _get_ui_directory : outcome (string * string) :=
  let index_file := ui_dir_path +:+ "/index.html" in
  if negb (is_dir ui_dir_path) then Raise RuntimeError
  else if negb (isfile index_file) then Raise RuntimeError
  else Ok (ui_dir_path, index_file).

(** The file that is sent. *)
Definition serve_spa_root : outcome string :=
  ui ← _get_ui_directory; mret ui.2.

Definition serve_spa (filename : string) : outcome string :=
  '(dir, index_file) ← _get_ui_directory;
  let safe_root := dir +:+ "/" in
  let candidate := normpath (path_join dir filename) in
  mret (if negb (startswith candidate safe_root) then index_file else if isfile candidate then candidate else index_file).

(** The address a browser is sent on to. *)
Definition redirect_to_ui (req : HttpRequest) : string := get_base_path req +:+ UI_ROUTER_PREFIX +:+ "/".

Record SpaConfig := MkSpaConfig {
  basePath : string;
  uiPath : string;
  provider : string;
  authenticated : bool;
  gen_ai_gateway_enabled : bool;
  workspaces_enabled : bool;
}.
Definition serve_spa_config `{UiConfig} (base_path : string) (authenticated : bool) : SpaConfig :=
  MkSpaConfig base_path (base_path +:+ UI_ROUTER_PREFIX) OIDC_PROVIDER_DISPLAY_NAME authenticated OIDC_GEN_AI_GATEWAY_ENABLED ui_workspaces_enabled.
End ui.

Example dots_go_up : normpath "/srv/ui/../../etc//./passwd" = "/etc/passwd".
Proof. reflexivity. Qed.
Example nothing_above_the_root : normpath "/../../a" = "/a".
Proof. reflexivity. Qed.
Example relative_paths_climb : normpath "../a/../.." = "../..".
Proof. reflexivity. Qed.
Example two_slashes_stay : normpath "//a/b" = "//a/b" ∧ normpath "///a/b" = "/a/b" ∧ normpath "/." = "/" ∧ normpath "." = ".".
Proof. by split_and!. Qed.

(** * The UI serves its own files and no others *)

(** ** Names and paths *)

Definition no_slash (s : string) : Prop := slash ∉ String.list_ascii_of_string s.
(** The name of an entry of a directory. *)
Definition segment (s : string) : Prop := s ≠ "" ∧ s ≠ "." ∧ s ≠ ".." ∧ no_slash s.

#[export] Instance segment_dec s : Decision (segment s).
Proof. unfold segment, no_slash. apply _. Defined.

Lemma segment_no_slash s : segment s → no_slash s.
Proof. by intros (_&_&_&H). Qed.

Lemma no_slash_cons c s : no_slash (String c s) ↔ c ≠ slash ∧ no_slash s.
Proof. unfold no_slash. cbn. rewrite not_elem_of_cons. naive_solver. Qed.

Lemma py_split_no_slash s : Forall no_slash (py_split slash s).
Proof.
  induction s as [|c s IH]; [repeat constructor; by apply not_elem_of_nil|]. cbn [py_split]. destruct (decide (c = slash)) as [->|Hc].
  - constructor; [by apply not_elem_of_nil|done].
  - destruct (py_split slash s) as [|w ws]; [repeat constructor; apply no_slash_cons; by split; [|apply not_elem_of_nil]|].
    inversion_clear IH as [|? ? Hw Hws]. constructor; [by apply no_slash_cons|done].
Qed.

Lemma py_split_nonempty s : py_split slash s ≠ [].
Proof. destruct s as [|c s]; [done|]. cbn. case_decide; [done|]. by destruct (py_split slash s). Qed.

Lemma py_split_app_slash w s : no_slash w → py_split slash (w +:+ String slash s) = w :: py_split slash s.
Proof.
  induction w as [|c w IH]; intros Hw; [done|]. apply no_slash_cons in Hw as [Hc Hw].
  change (String c w +:+ String slash s) with (String c (w +:+ String slash s)). cbn [py_split]. rewrite (IH Hw). by destruct (decide (c = slash)).
Qed.

Lemma py_split_plain w : no_slash w → py_split slash w = [w].
Proof.
  induction w as [|c w IH]; intros Hw; [done|]. apply no_slash_cons in Hw as [Hc Hw]. cbn [py_split]. rewrite (IH Hw). by destruct (decide (c = slash)).
Qed.

Lemma concat_cons w u ws : String.concat "/" (w :: u :: ws) = w +:+ String slash (String.concat "/" (u :: ws)).
Proof. reflexivity. Qed.

Lemma py_split_concat ws : ws ≠ [] → Forall no_slash ws → py_split slash (String.concat "/" ws) = ws.
Proof.
  intros Hne Hws. induction Hws as [|w ws Hw Hws IH]; [done|]. destruct ws as [|u ws]; [by apply py_split_plain|].
  rewrite concat_cons (py_split_app_slash _ _ Hw). by rewrite (IH ltac:(done)).
Qed.

Lemma py_split_end p : py_split slash (p +:+ "/") = py_split slash p ++ [""].
Proof.
  induction p as [|c p IH]; [done|]. change (String c p +:+ "/") with (String c (p +:+ "/")). cbn [py_split]. rewrite IH. destruct (decide (c = slash)); [done|].
  pose proof (py_split_nonempty p) as Hne. by destruct (py_split slash p).
Qed.

Lemma endswith_slash s : endswith s "/" = true → ∃ p, s = p +:+ "/".
Proof.
  unfold endswith. rewrite andb_true_iff. intros [Hl He]. apply Nat.leb_le in Hl. apply String.eqb_eq in He. cbn [String.length] in *.
  induction s as [|c s IH]; [cbn in Hl; lia|]. destruct s as [|d s].
  - cbn in He. injection He as ->. by exists "".
  - destruct IH as [p Hp]; [cbn; lia|cbn in *; by rewrite Nat.sub_0_r|]. exists (String c p). by rewrite Hp.
Qed.

(** ** Prefixes *)

Lemma prefix_cons c d s t : String.prefix (String c s) (String d t) = bool_decide (c = d) && String.prefix s t.
Proof. cbn [String.prefix]. by destruct (ascii_dec c d) as [->|Hne]; [rewrite bool_decide_true|rewrite bool_decide_false]. Qed.
Lemma app_cons c s t : String c s +:+ t = String c (s +:+ t).
Proof. reflexivity. Qed.

Lemma str_app_assoc a b c : a +:+ (b +:+ c) = (a +:+ b) +:+ c.
Proof. induction a as [|d a IH]; [done|exact (f_equal (String d) IH)]. Qed.

Lemma prefix_segment b c s r :
  no_slash b → no_slash c → String.prefix (b +:+ String slash s) (c +:+ String slash r) = true → b = c ∧ String.prefix s r = true.
Proof.
  revert c. induction b as [|x b IH]; intros [|d c]; rewrite ?no_slash_cons ?app_cons => Hb Hc.
  - change ("" +:+ String slash s) with (String slash s). change ("" +:+ String slash r) with (String slash r). by rewrite prefix_cons.
  - change ("" +:+ String slash s) with (String slash s). rewrite prefix_cons bool_decide_false; [|intros <-; by destruct Hc]. done.
  - change ("" +:+ String slash r) with (String slash r). rewrite prefix_cons bool_decide_false; [|intros ->; by destruct Hb]. done.
  - rewrite prefix_cons andb_true_iff bool_decide_eq_true. intros [-> Hp]. destruct (IH c (proj2 Hb) (proj2 Hc) Hp) as [-> ?]. done.
Qed.

Lemma prefix_slash_plain b s c : no_slash c → String.prefix (b +:+ String slash s) c = false.
Proof.
  revert c. induction b as [|x b IH]; intros [|d c]; rewrite ?no_slash_cons ?app_cons => Hc; [done| |done|].
  - change ("" +:+ String slash s) with (String slash s). rewrite prefix_cons bool_decide_false; [|intros <-; by destruct Hc]. done.
  - rewrite prefix_cons (IH c (proj2 Hc)). apply andb_false_r.
Qed.

(** A directory in front of a path is in front of its names. *)
Lemma prefix_directory base comps :
  base ≠ [] → Forall no_slash base → Forall no_slash comps →
  String.prefix (String.concat "/" base +:+ "/") (String.concat "/" comps) = true → ∃ rest, rest ≠ [] ∧ comps = base ++ rest.
Proof.
  intros Hne Hb. revert comps. induction Hb as [|b base Hb Hbase IH]; intros comps Hc; [done|].
  assert (∀ s, String.prefix (b +:+ String slash s) (String.concat "/" comps) = true →
    ∃ comps', comps = b :: comps' ∧ comps' ≠ [] ∧ Forall no_slash comps' ∧ String.prefix s (String.concat "/" comps') = true) as Hfirst.
  { intros s. destruct Hc as [|c comps Hc Hcs]; [by destruct b|]. destruct comps as [|u comps]; [by rewrite prefix_slash_plain|].
    rewrite concat_cons. intros [<- Hp]%prefix_segment; [|done..]. by exists (u :: comps). }
  destruct base as [|u base].
  - intros Hp. destruct (Hfirst "" Hp) as (rest&->&Hr&_). by exists rest.
  - rewrite concat_cons -str_app_assoc. intros Hp. destruct (Hfirst _ Hp) as (comps'&->&_&Hcs&Hp'). destruct (IH ltac:(done) comps' Hcs Hp') as (rest&?&->). by exists rest.
Qed.

(** ** Normal paths *)

Lemma norm_step_segments acc comp : Forall segment acc → no_slash comp → Forall segment (norm_step true acc comp).
Proof.
  intros Hacc Hcomp. unfold norm_step. case_decide as Hd; [done|]. assert (comp ≠ "" ∧ comp ≠ ".") as [He Hdot] by naive_solver.
  destruct (String.eqb_spec comp "..") as [->|Hdd]; cbn [negb orb andb].
  - rewrite bool_decide_false; [|intros Hh; destruct Hacc as [|x acc (_&_&Hx&_) _]; [done|]; by injection Hh as ->].
    destruct Hacc; [constructor|done].
  - by constructor.
Qed.

Lemma norm_comps_segments comps : Forall no_slash comps → Forall segment (norm_comps true comps).
Proof.
  intros Hc. unfold norm_comps. apply Forall_reverse. assert (∀ acc, Forall segment acc → Forall segment (foldl (norm_step true) acc comps)) as Hfold; [|by apply Hfold].
  induction Hc as [|c comps Hc _ IH]; intros acc Hacc; [done|]. cbn [foldl]. by apply IH, norm_step_segments.
Qed.

Lemma norm_comps_normal comps : Forall segment comps → norm_comps true comps = comps.
Proof.
  intros Hc. unfold norm_comps. assert (∀ acc, foldl (norm_step true) acc comps = reverse comps ++ acc) as Hfold; [|by rewrite Hfold app_nil_r reverse_involutive].
  induction Hc as [|c comps (He&Hd&Hdd&_) _ IH]; intros acc; [done|]. cbn [foldl]. rewrite IH reverse_cons -app_assoc. f_equal. unfold norm_step.
  rewrite decide_False; [|by intros [|]]. by destruct (String.eqb_spec c "..").
Qed.

(** ** [serve_spa] *)

Section ui.
Context `{UiFiles}.
Variable base : list string.

(** [Path.resolve()] answers a path from the root, without dots. *)
Hypothesis Hbase : base ≠ [] ∧ Forall segment base.
Hypothesis Hdir : ui_dir_path = "/" +:+ String.concat "/" base.

(** What lies under the directory. *)
Definition under_ui (file : string) : Prop :=
  ∃ names, names ≠ [] ∧ Forall segment names ∧ file = "/" +:+ String.concat "/" (base ++ names).

Lemma base_no_slash : Forall no_slash base.
Proof. eapply Forall_impl; [exact (proj2 Hbase)|exact segment_no_slash]. Qed.

Lemma base_first : ∃ c s, String.concat "/" base = String c s ∧ c ≠ slash.
Proof.
  destruct Hbase as [Hne Hb]. destruct Hb as [|w ws (Hw&_&_&Hns) _]; [done|]. destruct w as [|c w]; [done|]. apply no_slash_cons in Hns as [Hc _].
  destruct ws as [|u ws]; [by exists c, w|]. rewrite concat_cons app_cons. eexists _, _. by split.
Qed.

Lemma concat_app_names names : names ≠ [] → String.concat "/" (base ++ names) = String.concat "/" base +:+ "/" +:+ String.concat "/" names.
Proof.
  intros Hn. clear Hdir. destruct Hbase as [Hne _]. clear Hbase. induction base as [|w ws IH]; [done|]. destruct ws as [|u ws].
  - destruct names as [|n names]; [done|]. reflexivity.
  - cbn [app]. rewrite !concat_cons. change (u :: ws ++ names) with ((u :: ws) ++ names). rewrite (IH ltac:(done)).
    by rewrite -str_app_assoc.
Qed.

Lemma joined_rooted filename : ∃ rest, path_join ui_dir_path filename = String slash rest.
Proof.
  unfold path_join. rewrite Hdir. destruct (startswith filename "/") eqn:Hs.
  - apply startswith_drop in Hs. rewrite Hs. by eexists.
  - case_match; by eexists.
Qed.

(** A normal path that starts in the directory is under it. *)
Lemma normpath_under path rest : path = String slash rest → startswith (normpath path) (ui_dir_path +:+ "/") = true → under_ui (normpath path).
Proof.
  intros ->. destruct base_first as (c&s&Hcs&Hc). unfold normpath, startswith.
  destruct (decide (String slash rest = "")) as [|_]; [done|].
  assert (∃ p, split_root (String slash rest) = ("/", p) ∨ split_root (String slash rest) = ("//", p)) as [p [-> | ->]].
  { unfold split_root. cbn. repeat case_match; simplify_eq; eauto. }
  - cbn [String.eqb negb]. set (comps := norm_comps true (py_split slash p)).
    assert (Forall segment comps) as Hcomps by apply norm_comps_segments, py_split_no_slash.
    destruct (decide ("/" +:+ String.concat "/" comps = "")) as [|_]; [done|]. rewrite Hdir. change (("/" +:+ String.concat "/" base) +:+ "/") with (String slash (String.concat "/" base +:+ "/")).
    change ("/" +:+ String.concat "/" comps) with (String slash (String.concat "/" comps)). rewrite prefix_cons bool_decide_true // andb_true_l. intros Hp.
    destruct (prefix_directory base comps (proj1 Hbase) base_no_slash) as (names&Hn&Heq); [|done|].
    { eapply Forall_impl; [exact Hcomps|exact segment_no_slash]. }
    exists names. rewrite Heq. split_and!; [done| |done]. rewrite Heq in Hcomps. by apply Forall_app in Hcomps as [_ ?].
  - destruct (decide _) as [Hnil|_]; [by destruct (norm_comps _ _)|]. rewrite Hdir Hcs. generalize (String.concat "/" (norm_comps true (py_split slash p))). intros x Hp.
    exfalso. revert Hp. change ((("/" +:+ String c s) +:+ "/")) with (String slash (String c (s +:+ "/"))). cbn [String.eqb negb].
    change ("//" +:+ ?x) with (String slash (String slash x)). rewrite !prefix_cons (bool_decide_false (c = slash)) // andb_false_r.
Qed.

Lemma index_under_ui : under_ui (ui_dir_path +:+ "/index.html").
Proof.
  exists ["index.html"]. split_and!; [done|by apply (bool_decide_unpack _)|]. rewrite concat_app_names //. by rewrite Hdir.
Qed.

Lemma ui_directory_found dir index_file :
  _get_ui_directory = Ok (dir, index_file) → dir = ui_dir_path ∧ index_file = ui_dir_path +:+ "/index.html" ∧ isfile index_file = true.
Proof. unfold _get_ui_directory. destruct (is_dir _); [|done]. cbn [negb]. destruct (isfile _) eqn:Hf; [|done]. by intros [= <- <-]. Qed.

(** No name ends the directory with a slash, so a relative name is joined with
    one. *)
Lemma join_relative names : names ≠ [] → Forall segment names → path_join ui_dir_path (String.concat "/" names) = "/" +:+ String.concat "/" (base ++ names).
Proof.
  intros Hn Hnames. unfold path_join.
  assert (startswith (String.concat "/" names) "/" = false) as ->.
  { unfold startswith. destruct Hnames as [|w ws (Hw&_&_&Hns) _]; [done|]. destruct w as [|c w]; [done|]. apply no_slash_cons in Hns as [Hc _].
    destruct ws as [|u ws]; rewrite ?concat_cons ?app_cons prefix_cons bool_decide_false //; by intros <-. }
  assert (endswith ui_dir_path "/" = false) as ->.
  { destruct (endswith ui_dir_path "/") eqn:He; [|done]. exfalso. apply endswith_slash in He as [p Hp].
    assert (py_split slash ui_dir_path = "" :: base) as Hsplit.
    { rewrite Hdir. change ("/" +:+ String.concat "/" base) with ("" +:+ String slash (String.concat "/" base)).
      rewrite py_split_app_slash; [|by apply not_elem_of_nil]. by rewrite (py_split_concat base (proj1 Hbase) base_no_slash). }
    rewrite Hp py_split_end in Hsplit. assert ("" ∈ base) as Hin; [|destruct Hbase as [_ Hb]; rewrite Forall_forall in Hb; by destruct (Hb _ Hin)].
    destruct (py_split slash p) as [|w ws]; [by destruct Hbase; injection Hsplit as <-|]. injection Hsplit as _ <-. apply elem_of_app. right. by left. }
  rewrite orb_false_r. destruct (String.eqb_spec ui_dir_path "") as [He|_]; [by rewrite Hdir in He|]. rewrite concat_app_names // Hdir. reflexivity.
Qed.

Lemma normpath_normal comps : comps ≠ [] → Forall segment comps → normpath ("/" +:+ String.concat "/" comps) = "/" +:+ String.concat "/" comps.
Proof.
  intros Hn Hc. unfold normpath. destruct (decide ("/" +:+ String.concat "/" comps = "")) as [|_]; [done|].
  assert (split_root ("/" +:+ String.concat "/" comps) = ("/", String.concat "/" comps)) as ->.
  { destruct Hc as [|w ws (Hw&_&_&Hns) _]; [done|]. destruct w as [|c w]; [done|]. apply no_slash_cons in Hns as [Hc _].
    change ("/" +:+ String.concat "/" (String c w :: ws)) with (String slash (String.concat "/" (String c w :: ws))).
    destruct ws as [|u ws]; rewrite ?concat_cons ?app_cons; unfold split_root; cbn; repeat (case_match; simplify_eq; try done). }
  cbn [String.eqb negb]. rewrite (py_split_concat comps Hn) ?(norm_comps_normal comps Hc); [|eapply Forall_impl; [exact Hc|exact segment_no_slash]].
  by destruct (decide _).
Qed.

(** C14: Whatever path a browser asks the UI for, the file sent lies under the
    directory of the UI and is a file; a name of a file there gets it, any other
    path the page of the application; and the request fails only where the UI
    was not built. *)
Theorem the_ui_serves_its_own_files filename :
  (∀ file, serve_spa filename = Ok file → under_ui file ∧ isfile file = true) ∧
  (is_dir ui_dir_path = true → isfile (ui_dir_path +:+ "/index.html") = true → ∃ file, serve_spa filename = Ok file) ∧
  (∀ names, filename = String.concat "/" names → names ≠ [] → Forall segment names → is_dir ui_dir_path = true → isfile (ui_dir_path +:+ "/index.html") = true →
     serve_spa filename = Ok (if isfile (ui_dir_path +:+ "/" +:+ filename) then ui_dir_path +:+ "/" +:+ filename else ui_dir_path +:+ "/index.html")).
Proof.
  split_and!.
  - intros file. unfold serve_spa. destruct _get_ui_directory as [[dir index_file]|e] eqn:Hui; [|done]. cbn [mbind outcome_bind].
    apply ui_directory_found in Hui as (->&->&Hindex). intros [= <-]. destruct (startswith _ _) eqn:Hs; cbn [negb]; [|split; [exact index_under_ui|done]].
    destruct (isfile (normpath _)) eqn:Hf; [|split; [exact index_under_ui|done]]. split; [|done].
    destruct (joined_rooted filename) as [rest Hrest]. exact (normpath_under _ rest Hrest Hs).
  - intros Hd Hi. unfold serve_spa, _get_ui_directory. rewrite Hd Hi. by eexists.
  - intros names -> Hn Hnames Hd Hi. unfold serve_spa, _get_ui_directory. rewrite Hd Hi. cbn [negb mbind outcome_bind].
    rewrite join_relative // normpath_normal; [|by destruct base|by apply Forall_app; destruct Hbase].
    by rewrite concat_app_names // Hdir !str_app_assoc startswith_app.
Qed.
End ui.

(** * The UI in a directory with three files *)

#[export] Instance sample_ui : UiFiles | 100 := {|
  ui_dir_path := "/srv/app/ui";
  isfile f := bool_decide (f ∈ ["/srv/app/ui/index.html"; "/srv/app/ui/assets/main.js"; "/etc/passwd"; "/srv/app/ui-secrets/key"]);
  is_dir d := bool_decide (d = "/srv/app/ui");
|}.

Lemma the_ui_serves_its_own_files_witness :
  ((∀ file, serve_spa "../../../etc/passwd" = Ok file → under_ui ["srv"; "app"; "ui"] file ∧ isfile file = true) ∧
   (is_dir ui_dir_path = true → isfile (ui_dir_path +:+ "/index.html") = true → ∃ file, serve_spa "../../../etc/passwd" = Ok file) ∧
   (∀ names, "../../../etc/passwd" = String.concat "/" names → names ≠ [] → Forall segment names → is_dir ui_dir_path = true → isfile (ui_dir_path +:+ "/index.html") = true →
      serve_spa "../../../etc/passwd" =
        Ok (if isfile (ui_dir_path +:+ "/" +:+ "../../../etc/passwd") then ui_dir_path +:+ "/" +:+ "../../../etc/passwd" else ui_dir_path +:+ "/index.html"))) ∧
  serve_spa "../../../etc/passwd" = Ok "/srv/app/ui/index.html" ∧ serve_spa "/etc/passwd" = Ok "/srv/app/ui/index.html" ∧
  serve_spa "../ui-secrets/key" = Ok "/srv/app/ui/index.html" ∧ serve_spa "a/../assets//./main.js" = Ok "/srv/app/ui/assets/main.js".
Proof.
  split; [|vm_compute; split_and!; reflexivity].
  apply (the_ui_serves_its_own_files ["srv"; "app"; "ui"]); [by apply (bool_decide_unpack _)|reflexivity].
Defined.
