(* ===== verification/AuditLog.v ===== *)
(** * The audit log ([audit.py])

    One line of JSON per event. [json.dumps] is defined here with the settings
    the source uses: ASCII only, [", "] and [": "]. *)
From S2P Require Import Prelude PyStrings Database Json Validators UsersRouter Configuration SampleMlflow AccountFacts.
From stdpp Require Import pretty.
From Stdlib Require Import Ascii.
#[local] Open Scope Z_scope.

(** ** [json.dumps] *)

Definition hex_digit (n : nat) : ascii := ascii_of_nat (if (n <? 10)%nat then 48 + n else 87 + n)%nat.
Definition quote : ascii := ascii_of_nat 34.
Definition back_slash : ascii := ascii_of_nat 92.
(** The short escapes: backspace, tab, line feed, form feed, carriage return,
    the quote and the backslash. *)
Definition short_escape (n : nat) : option ascii :=
  match n with
  | 8%nat => Some "b"%char | 9%nat => Some "t"%char | 10%nat => Some "n"%char | 12%nat => Some "f"%char | 13%nat => Some "r"%char
  | 34%nat => Some quote | 92%nat => Some back_slash | _ => None
  end.
Definition escape_ascii (c : ascii) : string :=
  let n := nat_of_ascii c in
  match short_escape n with
  | Some d => String back_slash (String d "")
  | None =>
      if (32 <=? n)%nat && (n <=? 126)%nat then String c ""
      else String back_slash ("u00" +:+ String (hex_digit (n / 16)) (String (hex_digit (n mod 16)) ""))
  end.
Fixpoint escape_text (s : string) : string := match s with EmptyString => "" | String c s => escape_ascii c +:+ escape_text s end.
Definition quoted (s : string) : string := String quote (escape_text s +:+ String quote "").

Fixpoint json_dumps (v : json) : string :=
  match v with
  | JNull => "null"
  | JBool b => if b then "true" else "false"
  | JNum n => pretty n
  | JStr s => quoted s
  | JArr l => "[" +:+ String.concat ", " (map json_dumps l) +:+ "]"
  | JObj fields => "{" +:+ String.concat ", " (map (λ kv, quoted kv.1 +:+ ": " +:+ json_dumps kv.2) fields) +:+ "}"
  end.

(** ** The level *)

(** The attributes of [logging] in capitals: the levels, and two that are none. *)
Inductive attribute :=
  | Level (n : Z)
  | NoLevel.
Definition logging_attributes : list (string * attribute) :=
  [("CRITICAL", Level 50); ("FATAL", Level 50); ("ERROR", Level 40); ("WARNING", Level 30); ("WARN", Level 30); ("INFO", Level 20); ("DEBUG", Level 10);
   ("NOTSET", Level 0); ("BASIC_FORMAT", NoLevel); ("_STYLES", NoLevel)].
Definition logging_getattr (name : string) (default_value : attribute) : attribute :=
  default default_value (snd <$> find (λ kv, String.eqb kv.1 name) logging_attributes).

(** [logger.log(level, line)] of a logger set to DEBUG: the line, if the level is
    enabled. *)
Definition logger_log (level : attribute) (line : string) : outcome (option string) :=
  match level with
  | NoLevel => Raise (OtherException "TypeError")
  | Level n => Ok (if 10 <=? n then Some line else None)
  end.

(** ** [emit_audit_event] *)

Definition json_or_null (o : option string) : json := match o with Some s => JStr s | None => JNull end.

Section audit.
Context `{DateTimes, ValidatorLibs}.
(** [config.AUDIT_LOG_ENABLED] and [config.AUDIT_LOG_LEVEL]. *)
Variables (enabled : bool) (level : json).

Definition _resolve_level : attribute := logging_getattr (py_upper (py_str level)) (Level 20).

Definition audit_record (now : Z) (event : string) (actor resource_type resource_id : option string) (detail : list (string * json)) (status : string) : json :=
  JObj [("timestamp", JStr (isoformat (Datetime now (Some 0)))); ("event", JStr event); ("actor", json_or_null actor); ("resource_type", json_or_null resource_type);
        ("resource_id", json_or_null resource_id); ("detail", JObj detail); ("status", JStr status)].

(** What is written to the log. *)
Definition emit_audit_event (now : Z) (event : string) (actor resource_type resource_id : option string) (detail : list (string * json)) (status : string)
    : outcome (option string) :=
  if negb enabled then Ok None
  else logger_log _resolve_level (json_dumps (audit_record now event actor resource_type resource_id detail status)).
End audit.

(** * The audit log cannot be forged *)

(** ** A line of the log is one line, and a text in it can be read back *)

Definition printable (s : string) : Prop := Forall (λ c, (32 ≤ nat_of_ascii c ≤ 126)%nat) (String.list_ascii_of_string s).

(** What a reader makes of a text, up to the quote that ends it. *)
Definition hex_value (c : ascii) : nat := let n := nat_of_ascii c in (if n <? 58 then n - 48 else n - 87)%nat.
Definition long_escape (c : ascii) : ascii :=
  match c with "b" => ascii_of_nat 8 | "t" => ascii_of_nat 9 | "n" => ascii_of_nat 10 | "f" => ascii_of_nat 12 | "r" => ascii_of_nat 13 | c => c end%char.
Fixpoint read_text (s : string) : option (string * string) :=
  match s with
  | EmptyString => None
  | String c s =>
      if decide (c = quote) then Some ("", s)
      else if decide (c = back_slash) then
        match s with
        | String "u" (String _ (String _ (String h (String l s)))) => '(text, rest) ← read_text s; Some (String (ascii_of_nat (16 * hex_value h + hex_value l)) text, rest)
        | String d s => '(text, rest) ← read_text s; Some (String (long_escape d) text, rest)
        | EmptyString => None
        end
      else '(text, rest) ← read_text s; Some (String c text, rest)
  end.

Lemma printable_app s t : printable s → printable t → printable (s +:+ t).
Proof.
  unfold printable. intros Hs Ht. induction s as [|c s IH]; [done|]. inversion_clear Hs. change (String c s +:+ t) with (String c (s +:+ t)). constructor; [done|by apply IH].
Qed.
Lemma printable_concat sep l : printable sep → Forall printable l → printable (String.concat sep l).
Proof.
  intros Hsep Hl. induction Hl as [|s l Hs Hl IH]; [constructor|]. destruct l as [|t l]; [done|].
  change (printable (s +:+ sep +:+ String.concat sep (t :: l))). by repeat apply printable_app.
Qed.

Lemma escape_ascii_printable c : printable (escape_ascii c).
Proof. destruct c as [[] [] [] [] [] [] [] []]; apply (bool_decide_unpack _); vm_compute; exact I. Qed.
Lemma escape_text_printable s : printable (escape_text s).
Proof. induction s as [|c s IH]; [constructor|]. apply printable_app; [apply escape_ascii_printable|done]. Qed.
Lemma quoted_printable s : printable (quoted s).
Proof. constructor; [vm_compute; lia|]. apply printable_app; [apply escape_text_printable|]. by apply (bool_decide_unpack _). Qed.

Lemma pretty_printable (n : Z) : printable (pretty n).
Proof.
  assert (∀ m s, printable s → printable (pretty_N_go m s)) as Hgo.
  { intros m. induction (N.lt_wf_0 m) as [m _ IH]. intros s Hs. destruct (decide (m = 0%N)) as [->|Hm]; [done|].
    rewrite pretty_N_go_step; last lia. apply IH; [apply N.div_lt; lia|]. constructor; [|done].
    assert (m `mod` 10 < 10)%N as Hd by (apply N.mod_lt; lia). destruct (m `mod` 10)%N as [|p]; [vm_compute; lia|].
    do 4 (destruct p as [p|p|]; try (exfalso; lia); try (vm_compute; lia)). }
  destruct n as [|p|p]; [by apply (bool_decide_unpack _)|apply (Hgo (Npos p)); constructor|]. constructor; [vm_compute; lia|apply (Hgo (Npos p)); constructor].
Qed.

Lemma json_dumps_printable : ∀ v, printable (json_dumps v).
Proof.
  fix IH 1. intros [|b|n|s|l|fields]; cbn [json_dumps].
  - by apply (bool_decide_unpack _).
  - destruct b; by apply (bool_decide_unpack _).
  - apply pretty_printable.
  - apply quoted_printable.
  - repeat apply printable_app; [by apply (bool_decide_unpack _)| |by apply (bool_decide_unpack _)]. apply printable_concat; [by apply (bool_decide_unpack _)|].
    induction l as [|v l IHl]; constructor; [apply IH|exact IHl].
  - repeat apply printable_app; [by apply (bool_decide_unpack _)| |by apply (bool_decide_unpack _)]. apply printable_concat; [by apply (bool_decide_unpack _)|].
    induction fields as [|[k v] fields IHf]; constructor; [|exact IHf]. cbn [fst snd]. repeat apply printable_app; [apply quoted_printable|by apply (bool_decide_unpack _)|apply IH].
Qed.

Lemma read_escaped c s : read_text (escape_ascii c +:+ s) = '(text, rest) ← read_text s; Some (String c text, rest).
Proof. destruct c as [[] [] [] [] [] [] [] []]; reflexivity. Qed.

Lemma read_quoted s rest : quoted s +:+ rest = String quote (escape_text s +:+ String quote rest) ∧ read_text (escape_text s +:+ String quote rest) = Some (s, rest).
Proof.
  assert (∀ a b c, (a +:+ b) +:+ c = a +:+ (b +:+ c)) as Hassoc by (intros a b c; induction a as [|x a IH]; [done|exact (f_equal (String x) IH)]).
  split; [unfold quoted; change (String quote (escape_text s +:+ String quote "") +:+ rest) with (String quote ((escape_text s +:+ String quote "") +:+ rest)); by rewrite Hassoc|].
  induction s as [|c s IH]; [done|]. cbn [escape_text]. by rewrite Hassoc read_escaped IH.
Qed.

(** ** Different events have different lines *)

Lemma str_app_inj p s t : p +:+ s = p +:+ t → s = t.
Proof. induction p as [|c p IH]; [done|]. change (String c p +:+ s = String c p +:+ t) with (String c (p +:+ s) = String c (p +:+ t)). by intros [= ?%IH]. Qed.
Lemma quoted_inj s t r r' : quoted s +:+ r = quoted t +:+ r' → s = t ∧ r = r'.
Proof.
  destruct (read_quoted s r) as [-> Hs], (read_quoted t r') as [-> Ht]. intros [= Heq]. rewrite Heq Ht in Hs. by injection Hs as -> ->.
Qed.
Lemma json_or_null_inj a b r r' : json_dumps (json_or_null a) +:+ r = json_dumps (json_or_null b) +:+ r' → a = b ∧ r = r'.
Proof. destruct a as [a|], b as [b|]; cbn [json_or_null json_dumps]; [by intros [-> ->]%quoted_inj|done|done|by intros ->%str_app_inj]. Qed.

Section lines.
Context `{DateTimes, ValidatorLibs}.

(** The line, field by field. *)
Definition field (key value rest : string) : string := quoted key +:+ (": " +:+ (value +:+ (", " +:+ rest))).
Lemma line_of_record now event actor rtype rid detail status :
  json_dumps (audit_record now event actor rtype rid detail status) =
    "{" +:+ field "timestamp" (quoted (isoformat (Datetime now (Some 0)))) (field "event" (quoted event) (field "actor" (json_dumps (json_or_null actor))
      (field "resource_type" (json_dumps (json_or_null rtype)) (field "resource_id" (json_dumps (json_or_null rid))
        (field "detail" (json_dumps (JObj detail)) ((quoted "status" +:+ (": " +:+ quoted status)) +:+ "}")))))).
Proof.
  assert (∀ a b c, (a +:+ b) +:+ c = a +:+ (b +:+ c)) as Hassoc by (intros a b c; induction a as [|x a IH]; [done|exact (f_equal (String x) IH)]).
  unfold audit_record, field. remember (JObj detail) as d. cbn [json_dumps map String.concat fst snd]. by rewrite !Hassoc.
Qed.

Lemma field_inj key v v' rest rest' : field key v rest = field key v' rest' → v +:+ (", " +:+ rest) = v' +:+ (", " +:+ rest').
Proof. unfold field. intros Heq%str_app_inj. by apply str_app_inj in Heq. Qed.

(** C20: What an event writes to the audit log is one line of printable ASCII,
    whatever characters its names and details hold, and two events at the same
    time with the same line have the same event, actor and resource. *)
Theorem audit_lines_cannot_be_forged enabled level now event actor rtype rid detail status line :
  emit_audit_event enabled level now event actor rtype rid detail status = Ok (Some line) →
  printable line ∧
  ∀ event' actor' rtype' rid' detail' status',
    emit_audit_event enabled level now event' actor' rtype' rid' detail' status' = Ok (Some line) → event' = event ∧ actor' = actor ∧ rtype' = rtype ∧ rid' = rid.
Proof.
  unfold emit_audit_event. destruct enabled; [|done]. cbn [negb]. destruct (_resolve_level level) as [n|]; [|done]. cbn [logger_log]. destruct (10 <=? n); [|done].
  intros Hline. apply (inj Ok), (inj Some) in Hline as <-. split; [apply json_dumps_printable|].
  intros event' actor' rtype' rid' detail' status' Heq. apply (inj Ok), (inj Some) in Heq. rewrite !line_of_record in Heq.
  apply str_app_inj, field_inj, quoted_inj in Heq as [_ Heq]. apply str_app_inj, field_inj, quoted_inj in Heq as [-> Heq].
  apply str_app_inj, field_inj, json_or_null_inj in Heq as [-> Heq]. apply str_app_inj, field_inj, json_or_null_inj in Heq as [-> Heq].
  apply str_app_inj, field_inj, json_or_null_inj in Heq as [-> _]. done.
Qed.

(** A named level from DEBUG on, in any case, and every unknown one writes. *)
Lemma known_levels_write level now event actor rtype rid detail status :
  py_upper level ∉ ["NOTSET"; "BASIC_FORMAT"; "_STYLES"] → ∃ line, emit_audit_event true (JStr level) now event actor rtype rid detail status = Ok (Some line).
Proof.
  intros Hl. unfold emit_audit_event, _resolve_level. cbn [negb py_str]. unfold logging_getattr, logging_attributes. revert Hl. generalize (py_upper level). intros l Hl.
  rewrite !not_elem_of_cons in Hl. destruct Hl as (H1&H2&H3&_). cbn [find fst].
  repeat (match goal with |- context [String.eqb ?k l] => destruct (String.eqb_spec k l) as [Hk|_]; [try (exfalso; by subst l); by eexists|] end). by eexists.
Qed.
(** [NOTSET] silences the log, and [BASIC_FORMAT] fails every request that
    writes to it. *)
Lemma a_level_may_silence_the_log now event actor rtype rid detail status :
  emit_audit_event true (JStr "notset") now event actor rtype rid detail status = Ok None ∧
  emit_audit_event true (JStr "basic_format") now event actor rtype rid detail status = Raise (OtherException "TypeError").
Proof. by split. Qed.
End lines.

(** * A username with a line break in it *)

(** A name that ends the line and starts another. *)
Definition forger : string := "bob" +:+ String (ascii_of_nat 34) (String "}" (String (ascii_of_nat 10) "{forged")).
Definition forged_line : string := default "" (match emit_audit_event true (JStr "info") 5000 "permission.create" (Some forger) None None [("reason", JStr "x")] "success" with Ok o => o | Raise _ => None end).

Lemma audit_lines_cannot_be_forged_witness :
  (printable forged_line ∧
   ∀ event' actor' rtype' rid' detail' status',
     emit_audit_event true (JStr "info") 5000 event' actor' rtype' rid' detail' status' = Ok (Some forged_line) →
     event' = "permission.create" ∧ actor' = Some forger ∧ rtype' = None ∧ rid' = None) ∧
  json_dumps (JStr forger) = String (ascii_of_nat 34) ("bob\" +:+ String (ascii_of_nat 34) ("}\n{forged" +:+ String (ascii_of_nat 34) "")).
Proof.
  split; [|vm_compute; reflexivity].
  apply (audit_lines_cannot_be_forged true (JStr "info") 5000 "permission.create" (Some forger) None None [("reason", JStr "x")] "success"). reflexivity.
Defined.
