(* ===== verification/Assembly.v ===== *)
(** * The application put together
    ([app.py], [routers/__init__.py], [routers/_prefix.py], [routers/health.py],
    [middleware/auth_aware_wsgi_middleware.py])

    The twins of the routes under the prefix of the user interface, what startup
    leaves behind and the probes say of it, and the hand-over of the
    authentication context to Flask. *)
From S2P Require Import Prelude PyStrings Json Permissions Ownership Regex RegexSafety Database Repositories Users Groups Sessions Cache Resolution Batch Store Requests Validators.
From S2P Require Import Hooks AfterRequest BeforeRequest Kubernetes ProviderRegistry TokenVerification Identity AuthMiddleware OAuthClients DataFetching ApiModels FastApi.

(** ** Routes and their twins *)

(** What describes a route: the values by keyword. *)
Definition _COPIED_ROUTE_FIELDS : list string :=
  ["response_model"; "status_code"; "tags"; "dependencies"; "summary"; "description"; "response_description"; "responses"; "deprecated"; "operation_id";
   "response_model_include"; "response_model_exclude"; "response_model_by_alias"; "response_model_exclude_unset"; "response_model_exclude_defaults";
   "response_model_exclude_none"; "response_class"; "callbacks"; "openapi_extra"; "generate_unique_id_function"; "strict_content_type"].
Definition AJAX_ROUTE_NAME_SUFFIX : string := "_ajax".

Section routes.
Context `{MlflowRoutes}.
(** Handlers, and the values of a route's attributes. *)
Context {endpoint attribute : Type}.

Record APIRoute := MkRoute {
  rt_path : string;
  rt_endpoint : endpoint;
  rt_methods : gset string;
  rt_class : string;
  rt_name : string;
  rt_include_in_schema : bool;
  rt_attributes : gmap string attribute;
}.
(** A router may also hold mounts and plain routes. *)
Inductive router_entry :=
  | Api (r : APIRoute)
  | OtherRoute.

Definition to_ajax_path (path : string) : option string :=
  let rest_prefix := REST_PATH_PREFIX +:+ "/" in
  if negb (startswith path rest_prefix) then None else Some (AJAX_PATH_PREFIX +:+ "/" +:+ drop_str (String.length rest_prefix) path).

Definition _copied_route_kwargs (route : APIRoute) : gmap string attribute := filter (λ kv, kv.1 ∈ _COPIED_ROUTE_FIELDS) (rt_attributes route).

(** The route that [add_api_route] adds for one of the router's. *)
Definition ajax_twin (entry : router_entry) : option APIRoute :=
  match entry with
  | OtherRoute => None
  | Api route =>
      ajax_path ← to_ajax_path (rt_path route);
      Some (MkRoute ajax_path (rt_endpoint route) (rt_methods route) (rt_class route) (rt_name route +:+ AJAX_ROUTE_NAME_SUFFIX) false (_copied_route_kwargs route))
  end.
Definition ajax_alias_router (router : list router_entry) : list APIRoute := omap ajax_twin router.
Definition _include_router (oidc_app router : list router_entry) : list router_entry :=
  let alias := ajax_alias_router router in
  if decide (alias = []) then oidc_app ++ router else (oidc_app ++ router) ++ map Api alias.
End routes.
Arguments APIRoute : clear implicits.
Arguments router_entry : clear implicits.

(** ** Startup and the probes *)

Section probes.
Context `{TokenConfig, AuthConfig, AuthlibOAuth, OAuthConfig}.

Record process_state := MkProcessState { ps_oauth : oauth_state; _oidc_initialized : bool; _oidc_provider_status : gmap string bool }.
Definition in_clients {A} (m : M oauth_state A) : M process_state A := λ s,
  let '(o, x) := m (ps_oauth s) in (o, MkProcessState x (_oidc_initialized s) (_oidc_provider_status s)).

(** What runs before the first request. *)
Definition lifespan_startup : M process_state unit :=
  results ← in_clients ensure_all_clients_registered;
  modify (λ s, MkProcessState (ps_oauth s) (if existsb snd (map_to_list results) then true else _oidc_initialized s) results).

Definition is_oidc_ready (s : process_state) : bool := _oidc_initialized s.
Definition get_oidc_provider_status (s : process_state) : gmap string bool := _oidc_provider_status s.

Record ReadyContent := MkReady { ready_status : string; check_oidc : bool; check_database : bool }.
(** [ping] is whether the database answers [SELECT 1]. *)
Definition health_check_ready (ping : bool) : M process_state (Z * ReadyContent) :=
  oidc ← catch (in_clients (is_oidc_configured DEFAULT_PROVIDER_ID)) (λ _, mret false);
  let all_ready := oidc && ping in
  mret (if all_ready then 200 else 503, MkReady (if all_ready then "ready" else "not_ready") oidc ping).

Definition health_check_root : Z * string := (200, "ok").
Definition health_check_live : Z * string := (200, "live").

Record StartupContent := MkStartup { startup_status : string; oidc_initialized : bool; startup_providers : gmap string bool }.
Definition health_check_startup : M process_state (Z * StartupContent) :=
  gets (λ s,
    if is_oidc_ready s then (200, MkStartup "started" true (get_oidc_provider_status s))
    else (503, MkStartup "initializing" false (get_oidc_provider_status s))).
End probes.

(** ** The bridge to Flask *)

(** The kinds of an ASGI scope. *)
Inductive scope_type :=
  | Http
  | OtherScope (name : string).

(** [AuthInjectingWSGIApp.__call__]: the environment that asgiref builds has no
    context, for what a client sends is under keys of its own. *)
Definition AuthInjectingWSGIApp (auth_context : option AuthContext) (req : Request) : Request :=
  match auth_context with
  | Some ctx => MkRequest (method req) (path req) (args req) (view_args req) (is_json req) (request_json req) (form req) (Some ctx)
  | None => req
  end.

(** What Flask is called with: a request, or the three arguments of an ASGI
    application, which it does not take. *)
Inductive flask_call :=
  | WsgiCall (req : Request)
  | AsgiCall (type : string).
Definition AuthAwareWSGIMiddleware (type : scope_type) (auth_context : option AuthContext) (req : Request) : flask_call :=
  match type with
  | Http => WsgiCall (AuthInjectingWSGIApp auth_context req)
  | OtherScope name => AsgiCall name
  end.

(** * Twins carry their guards, and what the probes say *)

(** ** Twins *)

Section routes.
Context `{MlflowRoutes}.
Context {endpoint attribute : Type}.
Implicit Types (route twin : APIRoute endpoint attribute) (router oidc_app : list (router_entry endpoint attribute)).

Lemma to_ajax_path_spec p q : to_ajax_path p = Some q ↔ ∃ rest, p = (REST_PATH_PREFIX +:+ "/") +:+ rest ∧ q = AJAX_PATH_PREFIX +:+ "/" +:+ rest.
Proof.
  unfold to_ajax_path. destruct (startswith p _) eqn:Hs; cbn [negb].
  - apply startswith_drop in Hs as Hp. split.
    + intros [= <-]. eexists. by split; [exact Hp|].
    + intros (rest&->&->). by rewrite drop_str_app.
  - split; [done|]. intros (rest&->&->). by rewrite startswith_app in Hs.
Qed.

(** A twin answers the same methods with the same handler under the same
    options, its dependencies among them. *)
Definition twin_of route twin : Prop :=
  (∃ rest, rt_path route = (REST_PATH_PREFIX +:+ "/") +:+ rest ∧ rt_path twin = AJAX_PATH_PREFIX +:+ "/" +:+ rest) ∧
  rt_endpoint twin = rt_endpoint route ∧ rt_methods twin = rt_methods route ∧ rt_class twin = rt_class route ∧
  (∀ field, field ∈ _COPIED_ROUTE_FIELDS → rt_attributes twin !! field = rt_attributes route !! field).

Lemma ajax_twin_of entry twin : ajax_twin entry = Some twin → ∃ route, entry = Api route ∧ twin_of route twin.
Proof.
  destruct entry as [route|]; [|done]. cbn [ajax_twin]. destruct (to_ajax_path (rt_path route)) as [q|] eqn:Hq; [|done]. intros [= <-]. exists route. split; [done|].
  split_and!; [by apply to_ajax_path_spec|done..|]. intros field Hf. unfold _copied_route_kwargs. cbn [rt_attributes].
  destruct (rt_attributes route !! field) as [v|] eqn:Hv; [by apply map_lookup_filter_Some|]. apply map_lookup_filter_None. by left.
Qed.
Lemma ajax_twin_exists route rest : rt_path route = (REST_PATH_PREFIX +:+ "/") +:+ rest → is_Some (ajax_twin (Api route)).
Proof.
  intros Hp. cbn [ajax_twin]. assert (to_ajax_path (rt_path route) = Some (AJAX_PATH_PREFIX +:+ "/" +:+ rest)) as -> by (apply to_ajax_path_spec; by exists rest). by eexists.
Qed.

Lemma elem_of_include oidc_app router entry :
  entry ∈ _include_router oidc_app router ↔ entry ∈ oidc_app ∨ entry ∈ router ∨ ∃ twin, twin ∈ ajax_alias_router router ∧ entry = Api twin.
Proof.
  unfold _include_router. case_decide as E.
  - rewrite E elem_of_app. split; [naive_solver|]. intros [?|[?|(twin&Hin&_)]]; [by left|by right|by apply elem_of_nil in Hin].
  - rewrite !elem_of_app list_elem_of_fmap. split; naive_solver.
Qed.

(** Every route of the API gets a twin under the prefix of the user interface,
    with the same handler, methods and dependencies, so the same guard; and
    nothing else is added. *)
Theorem twins_carry_their_guards oidc_app router :
  (∀ entry, entry ∈ oidc_app ∨ entry ∈ router → entry ∈ _include_router oidc_app router) ∧
  (∀ route rest, Api route ∈ router → rt_path route = (REST_PATH_PREFIX +:+ "/") +:+ rest → ∃ twin, Api twin ∈ _include_router oidc_app router ∧ twin_of route twin) ∧
  (∀ entry, entry ∈ _include_router oidc_app router →
     entry ∈ oidc_app ∨ entry ∈ router ∨ ∃ route twin, entry = Api twin ∧ Api route ∈ router ∧ twin_of route twin).
Proof.
  split_and!.
  - intros entry Hin. apply elem_of_include. naive_solver.
  - intros route rest Hin Hp. destruct (ajax_twin_exists _ _ Hp) as [twin Ht]. exists twin. split.
    + apply elem_of_include. right; right. exists twin. split; [|done]. apply list_elem_of_omap. by exists (Api route).
    + apply ajax_twin_of in Ht as (route'&[= <-]&Ht). done.
  - intros entry [?|[?|(twin&Hin&->)]]%elem_of_include; [by left|by right; left|]. right; right.
    apply list_elem_of_omap in Hin as (entry&Hin&(route&->&Ht)%ajax_twin_of). by exists route, twin.
Qed.
End routes.

(** ** The probes *)

Section probes.
Context `{TokenConfig, AuthConfig, AuthlibOAuth, OAuthConfig}.

Lemma ensure_client_run id s : ∃ b s', ensure_client_registered id s = (Ok b, s') ∧ (∀ id', id' ≠ id → _registered s' !! id' = _registered s !! id').
Proof.
  unfold ensure_client_registered. rewrite M_bind_run. cbn [gets fst snd]. destruct (default false (_registered s !! id)); [by exists true, s|].
  destruct (_client_settings id) as [settings|]; [|by exists false, s]. unfold catch. rewrite M_bind_run.
  destruct (on_oauth _ s) as [[u|e] s1] eqn:Hr.
  - eexists true, _. split; [done|]. intros id' Hne. unfold on_oauth in Hr. destruct (oauth_register _ _ _ _). injection Hr as _ <-. cbn. rewrite lookup_insert_ne; [done|congruence].
  - exists false, s1. split; [done|]. intros id' _. unfold on_oauth in Hr. destruct (oauth_register _ _ _ _). by injection Hr as _ <-.
Qed.

Lemma register_each_run results ps s :
  ∃ r s', register_each results ps s = (Ok r, s') ∧ (∀ id, id ∉ map pr_id ps → _registered s' !! id = _registered s !! id).
Proof.
  revert results s. induction ps as [|p ps IH]; intros results s; [by exists results, s|]. cbn [register_each map]. case_decide.
  - destruct (IH results s) as (r&s'&Hr&Hs'). exists r, s'. split; [done|]. intros id Hid. apply Hs'. intros ?. apply Hid. by right.
  - destruct (ensure_client_run (pr_id p) s) as (b&s1&Hb&Hs1). rewrite M_bind_run Hb. destruct (IH (<[pr_id p := b]> results) s1) as (r&s'&Hr&Hs').
    exists r, s'. split; [done|]. intros id Hid. rewrite not_elem_of_cons in Hid. rewrite Hs' //; [|naive_solver]. apply Hs1. naive_solver.
Qed.

(** Nobody but the provider that lacks its settings is left out. *)
Lemma unconfigured_client id s :
  default false (_registered s !! id) = false → _client_settings id = None → ensure_client_registered id s = (Ok false, s).
Proof. intros Hr Hs. unfold ensure_client_registered. rewrite M_bind_run. cbn [gets fst snd]. by rewrite Hr Hs. Qed.

Lemma no_default_provider : by_id DEFAULT_PROVIDER_ID auth_providers = None → DEFAULT_PROVIDER_ID ∉ map pr_id AUTH_PROVIDERS.
Proof.
  unfold by_id, auth_providers. cbn [providers]. intros Hnone Hin. apply list_elem_of_fmap in Hin as (p&Hid&Hin).
  assert (p ∈ filter (λ p, pr_id p = DEFAULT_PROVIDER_ID) AUTH_PROVIDERS) as Hp by (by apply list_elem_of_filter).
  destruct (filter _ _) as [|q qs]; [by apply elem_of_nil in Hp|done].
Qed.

Lemma startup_run s :
  ∃ results x, ensure_all_clients_registered (ps_oauth s) = (Ok results, x) ∧
    lifespan_startup s = (Ok tt, MkProcessState x (if existsb snd (map_to_list results) then true else _oidc_initialized s) results).
Proof.
  destruct (register_each_run ∅ AUTH_PROVIDERS (ps_oauth s)) as (r&x&Hr&_).
  assert (∃ results x, ensure_all_clients_registered (ps_oauth s) = (Ok results, x)) as (results&x'&Hall).
  { unfold ensure_all_clients_registered. rewrite M_bind_run Hr. case_match; [|by eexists _, _].
    destruct (ensure_client_run DEFAULT_PROVIDER_ID x) as (b&x'&Hb&_). rewrite M_bind_run Hb. by eexists _, _. }
  exists results, x'. split; [done|]. unfold lifespan_startup, in_clients. by rewrite M_bind_run Hall.
Qed.

Lemma some_registered (results : gmap string bool) : existsb snd (map_to_list results) = true ↔ ∃ id, results !! id = Some true.
Proof.
  rewrite existsb_exists. split.
  - intros ([id b]&Hin&Hb). cbn in Hb. subst b. exists id. by apply elem_of_map_to_list, list_elem_of_In.
  - intros [id Hid]. exists (id, true). split; [|done]. by apply list_elem_of_In, elem_of_map_to_list.
Qed.

(** The startup probe of a fresh process succeeds exactly when some provider was
    registered, and names the providers with what became of each. *)
Theorem the_startup_probe_reports_the_providers s s' :
  _oidc_initialized s = false → lifespan_startup s = (Ok tt, s') →
  ∃ code content results, health_check_startup s' = (Ok (code, content), s') ∧ (ensure_all_clients_registered (ps_oauth s)).1 = Ok results ∧
    startup_providers content = results ∧ (code = 200 ↔ ∃ id, results !! id = Some true) ∧ (code = 200 ∨ code = 503).
Proof.
  intros Hs Hrun. destruct (startup_run s) as (results&x&Hall&Hl). rewrite Hl in Hrun. injection Hrun as <-.
  unfold health_check_startup, is_oidc_ready, get_oidc_provider_status, gets. cbn [_oidc_initialized _oidc_provider_status]. rewrite Hs Hall. pose proof (some_registered results) as Hsome.
  destruct (existsb snd (map_to_list results)); eexists _, _, results; (split_and!; [done..| |by eauto]); cbn; split; try done.
  - intros _. by apply Hsome.
  - intros Hex. by apply Hsome in Hex.
Qed.

(** Readiness asks for the provider that is called default: a deployment of
    other providers is started and never ready. *)
Theorem a_deployment_without_a_default_provider_is_never_ready s s' ping :
  by_id DEFAULT_PROVIDER_ID auth_providers = None → AUTH_PROVIDERS_SOURCE ≠ "legacy" → _registered (ps_oauth s) !! DEFAULT_PROVIDER_ID = None →
  lifespan_startup s = (Ok tt, s') → health_check_ready ping s' = (Ok (503, MkReady "not_ready" false ping), s').
Proof.
  intros Hnone Hsource Hfresh Hrun. destruct (startup_run s) as (results&x&Hall&Hl). rewrite Hl in Hrun. injection Hrun as <-.
  assert (_registered x !! DEFAULT_PROVIDER_ID = None) as Hx.
  { destruct (register_each_run ∅ AUTH_PROVIDERS (ps_oauth s)) as (r&x'&Hr&Hx'). revert Hall. unfold ensure_all_clients_registered. rewrite M_bind_run Hr.
    rewrite (bool_decide_false (AUTH_PROVIDERS_SOURCE = "legacy")) // andb_false_r andb_false_l. intros [= _ <-]. rewrite Hx' //. by apply no_default_provider. }
  assert (_client_settings DEFAULT_PROVIDER_ID = None) as Hsettings.
  { unfold _client_settings. destruct (collides _); [done|]. rewrite Hnone (bool_decide_false (AUTH_PROVIDERS_SOURCE = "legacy")) //=. }
  unfold health_check_ready, is_oidc_configured. rewrite M_bind_run. unfold catch, in_clients. cbn [ps_oauth].
  rewrite unconfigured_client //. by rewrite Hx.
Qed.
End probes.

(** ** The bridge *)

(** Flask sees the context that authentication put into the scope, and none where
    it put none. *)
Theorem flask_sees_the_context_of_authentication auth_context req ctx :
  environ req = None → get_auth_context (AuthInjectingWSGIApp auth_context req) = Ok ctx ↔ auth_context = Some ctx.
Proof. intros Hreq. unfold get_auth_context. destruct auth_context as [c|]; cbn [AuthInjectingWSGIApp environ]; [|rewrite Hreq]; split; congruence. Qed.
