(* ===== verification/GraphQL.v ===== *)
(** * Authorization of GraphQL fields ([graphql/middleware.py])

    Graphene asks the middleware before it resolves a field: the field is
    resolved, perhaps with a narrowed input, or it is null. *)
From S2P Require Import Prelude PyStrings Json Permissions Regex RegexSafety Database Repositories Users Groups Cache Resolution Store Requests AfterRequest Validators RedirectUri.
From S2P Require Import RepositoryFacts ResolutionFacts Batch DataFetching Ownership Samples UserFacts Sessions SampleMlflow Hooks BeforeRequest AfterRequestFacts.
From Stdlib Require Import Ascii.
#[local] Open Scope Z_scope.

(** ** [_extract_first_filter_value]

    The two patterns are searched from the left; where each can match at all the
    rest of it is determined, so a search is one pass. The keys are plain
    words, which [re.escape] leaves alone. *)

Definition is_word (c : ascii) : bool := is_alpha c || is_digit c || bool_decide (c = "_"%char).
Definition is_quote (c : ascii) : bool := bool_decide (c = "'"%char ∨ c = ascii_of_nat 34).

(** [re.search]: the first position, at the start of a word, where [here] matches. *)
Fixpoint search_word {A} (here : string → option A) (after_word : bool) (s : string) : option A :=
  match (if after_word then None else here s) with
  | Some a => Some a
  | None => match s with EmptyString => None | String c s => search_word here (is_word c) s end
  end.

(** [(['\x22])(?P<val>[^'\x22]+)\1] *)
Definition quoted (s : string) : option string :=
  match s with
  | String q s =>
      if is_quote q then
        match span_until is_quote s with
        | (String _ _ as val, String q' _) => if decide (q' = q) then Some val else None
        | _ => None
        end
      else None
  | EmptyString => None
  end.

(** [key\b\s*=\s*] and a quoted text *)
Definition equality_here (key s : string) : option string :=
  if startswith s key then
    let rest := drop_str (String.length key) s in
    match lstrip rest with
    | String "=" value => quoted (lstrip value)
    | _ => None
    end
  else None.

(** [key\b\s+IN\s*\((?P<vals>[^)]+)\)] in any case *)
Definition membership_here (key s : string) : option string :=
  if startswith (py_lower s) (py_lower key) then
    match drop_str (String.length key) s with
    | String c rest =>
        if is_space c then
          let rest := lstrip rest in
          if startswith (py_lower rest) "in" then
            match lstrip (drop_str 2 rest) with
            | String "(" vals =>
                match span_until (λ c, bool_decide (c = ")"%char)) vals with
                | (String _ _ as raw_vals, String _ _) => Some raw_vals
                | _ => None
                end
            | _ => None
            end
          else None
        else None
    | EmptyString => None
    end
  else None.

(** A token in quotes, without them. *)
Definition unquoted (token : string) : option string :=
  match token with
  | String q rest =>
      if is_quote q && (1 <=? String.length rest)%nat && endswith rest (String q "")
      then Some (take_str (String.length rest - 1) rest) else None
  | EmptyString => None
  end.
Fixpoint first_quoted (tokens : list string) : option string :=
  match tokens with
  | [] => None
  | token :: tokens => match unquoted (py_strip token) with Some v => Some v | None => first_quoted tokens end
  end.

Definition _extract_first_filter_value (filter_str key : string) : option string :=
  match search_word (equality_here key) false filter_str with
  | Some v => Some v
  | None => raw_vals ← search_word (membership_here key) false filter_str; first_quoted (py_split "," raw_vals)
  end.

(** ** The middleware *)

(** The input object, read and set by name whether it is a dict or not. *)
Abbreviation gql_input := (gmap string json).

Definition PROTECTED_FIELDS : list string :=
  ["mlflowGetExperiment"; "mlflowGetRun"; "mlflowListArtifacts"; "mlflowGetMetricHistoryBulkInterval"; "mlflowSearchRuns"; "mlflowSearchDatasets";
   "mlflowSearchModelVersions"; "modelVersions"].

Definition _get_input_attr (input_obj : option gql_input) (name : string) (default : json) : json :=
  match input_obj with None => default | Some input => get_or default name input end.
Definition _set_input_attr (input_obj : option gql_input) (name : string) (value : json) : option gql_input := <[name := value]> <$> input_obj.

(** [a or b] *)
Definition json_or (a b : json) : json := if json_truthy a then a else b.

(** [for x in value] *)
Definition items_of (value : json) : outcome (list json) :=
  match value with
  | JArr l => Ok l
  | JStr s => Ok ((λ c, JStr (String c "")) <$> String.list_ascii_of_string s)
  | JObj fields => Ok ((λ kv, JStr kv.1) <$> fields)
  | _ => Raise (OtherException "TypeError")
  end.

(** [_AuthContext] *)
Record gql_auth := MkGqlAuth { ga_username : option string; ga_is_admin : bool }.
Definition _get_auth_context (req : Request) : gql_auth :=
  MkGqlAuth (match get_fastapi_username req with Ok u => Some u | Raise _ => None end) (get_fastapi_admin_status req).

Section graphql.
Context `{SqlBackend, PyRe, Config, TrackingStore, CacheBackend PermissionResult, CacheBackend Permission, MlflowEntities, ValidatorLibs}.

(** Flask's request, whose workspace takes part in the decisions. *)
Variable req : Request.
Abbreviation W A := (M world A).

Definition _can_read_experiment (experiment_id username : string) : W bool :=
  can can_read (effective_experiment_permission (get_request_workspace req) experiment_id username).
Definition _can_read_run (run_id username : string) : W bool :=
  experiment_id ← lift (run_experiment_id (JStr run_id));
  _can_read_experiment experiment_id username.
Definition _can_read_model (model_name username : string) : W bool :=
  can can_read (effective_registered_model_permission (get_request_workspace req) model_name username).

(** [True if id is None else can_read(str(id), username)] *)
Definition unless_none (id : json) (can_read_it : string → W bool) : W bool :=
  match id with JNull => mret true | id => can_read_it (py_str id) end.

(** The loop of the bulk metric history. *)
Fixpoint all_runs (run_ids : list json) (username : string) : W bool :=
  match run_ids with
  | [] => mret true
  | run_id :: run_ids => ok ← _can_read_run (py_str run_id) username; if ok : bool then all_runs run_ids username else mret false
  end.

Definition model_versions_allowed (input_obj : option gql_input) (username : string) : W bool :=
  let filter_str := json_or (_get_input_attr input_obj "filter" JNull) (_get_input_attr input_obj "filter_string" JNull) in
  if negb (json_truthy filter_str) then mret false
  else
    let extract := _extract_first_filter_value (py_str filter_str) in
    match nonempty (extract "name") with
    | Some model_name => _can_read_model model_name username
    | None =>
        match nonempty (match nonempty (extract "run_id") with Some run_id => Some run_id | None => extract "run_uuid" end) with
        | Some run_id => _can_read_run run_id username
        | None => mret false
        end
    end.

(** The answer and the input as it is afterwards. [root_experiment_id] is
    [root.info.experiment_id], null where there is none. *)
Definition _check_authorization (field_name : string) (root_experiment_id : json) (input_obj : option gql_input) (username : string) : W (bool * option gql_input) :=
  let same (m : W bool) : W (bool * option gql_input) := ok ← m; mret (ok, input_obj) in
  match input_obj with
  | None => mret (true, input_obj)
  | Some _ =>
      if decide (field_name = "mlflowGetExperiment") then
        same (unless_none (_get_input_attr input_obj "experiment_id" JNull) (λ id, _can_read_experiment id username))
      else if decide (field_name ∈ ["mlflowGetRun"; "mlflowListArtifacts"]) then
        same (unless_none (json_or (_get_input_attr input_obj "run_id" JNull) (_get_input_attr input_obj "run_uuid" JNull)) (λ id, _can_read_run id username))
      else if decide (field_name = "mlflowGetMetricHistoryBulkInterval") then
        same (run_ids ← lift (items_of (json_or (_get_input_attr input_obj "run_ids" (JArr [])) (JArr []))); all_runs run_ids username)
      else if decide (field_name ∈ ["mlflowSearchRuns"; "mlflowSearchDatasets"]) then
        experiment_ids ← lift (items_of (json_or (_get_input_attr input_obj "experiment_ids" (JArr [])) (JArr [])));
        readable_ids ← filter_m (λ exp_id, _can_read_experiment exp_id username) (py_str <$> experiment_ids);
        if decide (readable_ids = []) then mret (false, input_obj)
        else mret (true, _set_input_attr input_obj "experiment_ids" (JArr (JStr <$> readable_ids)))
      else if decide (field_name = "modelVersions") then
        same (unless_none root_experiment_id (λ id, _can_read_experiment id username))
      else if decide (field_name = "mlflowSearchModelVersions") then same (model_versions_allowed input_obj username)
      else mret (true, input_obj)
  end.

(** [next_] resolves the field from the input; [None] is a null field. *)
Definition resolve {A} (next_ : option gql_input → W A) (field_name : string) (root_experiment_id : json) (input : option gql_input) : W (option A) :=
  let resolved (input : option gql_input) : W (option A) := a ← next_ input; mret (Some a) in
  if decide (field_name ∉ PROTECTED_FIELDS) then resolved input
  else
    let auth := _get_auth_context req in
    match ga_username auth with
    | None => mret None
    | Some username =>
        if ga_is_admin auth then resolved input
        else
          checked ← catch (_check_authorization field_name root_experiment_id input username) (λ _, mret (false, input));
          let '(allowed, input) := checked : bool * option gql_input in
          if allowed then resolved input else mret None
    end.
End graphql.

(** * What a GraphQL query gets to see *)

(** ** Computations over one database

    [over d] are the states with coherent caches over [d]. A computation keeps
    the state there, and what it answers has the property. *)
Section settles.
Context `{SqlBackend, PyRe, Config, TrackingStore, CacheBackend PermissionResult, CacheBackend Permission}.




End settles.

(** ** The rule *)

Section facts.
Context `{SqlBackend, PyRe, Config, TrackingStore, CacheBackend PermissionResult, CacheBackend Permission, MlflowEntities, ValidatorLibs}.
Variables (req : Request) (u : string) (d : db).
Abbreviation ws := (get_request_workspace req).



(** The username and the resource types keep the cache keys apart. *)
Hypotheses (Hexp : separable ws EXPERIMENT u) (Hmodel : separable ws REGISTERED_MODEL u).






End facts.

Section middleware.
Context `{SqlBackend, PyRe, Config, TrackingStore, CacheBackend PermissionResult, CacheBackend Permission, MlflowEntities, ValidatorLibs}.


(** Administrators and the other fields pass as they are. *)
Theorem graphql_passes_unchanged {A} (next_ : option gql_input → M world A) req field root input w :
  field ∉ PROTECTED_FIELDS ∨ (∃ u, get_fastapi_username req = Ok u) ∧ get_fastapi_admin_status req = true →
  resolve req next_ field root input w = (a ← next_ input; mret (Some a)) w.
Proof.
  unfold resolve. intros [Hf|[[u Hu] Ha]]; [by rewrite decide_True|]. case_decide; [done|]. unfold _get_auth_context. cbn [ga_username ga_is_admin]. by rewrite Hu Ha.
Qed.

(** The model versions of a run are a field without arguments, and so are never
    checked. *)
Theorem nested_model_versions_are_not_checked {A} (next_ : option gql_input → M world A) req u root w :
  get_fastapi_username req = Ok u → resolve req next_ "modelVersions" root None w = (a ← next_ None; mret (Some a)) w.
Proof.
  intros Hu. unfold resolve. case_decide; [done|]. unfold _get_auth_context. cbn [ga_username ga_is_admin]. rewrite Hu.
  by destruct (get_fastapi_admin_status req).
Qed.
End middleware.

(** ** Reading a filter back *)

Definition unquotable (v : string) : Prop := v ≠ "" ∧ existsb is_quote (String.list_ascii_of_string v) = false.

Lemma span_until_app stop v c rest :
  existsb stop (String.list_ascii_of_string v) = false → stop c = true → span_until stop (v +:+ String c rest) = (v, String c rest).
Proof.
  intros Hv Hc. induction v as [|x v IH].
  - change ("" +:+ String c rest) with (String c rest). cbn [span_until]. by rewrite Hc.
  - change (String x v +:+ String c rest) with (String x (v +:+ String c rest)). cbn in Hv. apply orb_false_iff in Hv as [Hx Hv].
    cbn [span_until]. by rewrite Hx (IH Hv).
Qed.

(** [key = 'value'], with either quote and anything after it. *)
Definition equality_filter (key v : string) (q : ascii) (rest : string) : string := key +:+ " = " +:+ String q (v +:+ String q rest).

(** A comparison at the start of a filter is read as it is written: the value of
    the key, whatever follows. *)
Theorem filters_are_read_as_written key v q rest :
  key ≠ "" → is_quote q = true → unquotable v → _extract_first_filter_value (equality_filter key v q rest) key = Some v.
Proof.
  intros Hkey Hq [Hne Hv]. unfold _extract_first_filter_value.
  assert (equality_here key (equality_filter key v q rest) = Some v) as Hhere.
  { unfold equality_here, equality_filter. rewrite startswith_app drop_str_app.
    change (lstrip (" = " +:+ String q (v +:+ String q rest))) with (String "=" (" " +:+ String q (v +:+ String q rest))). cbn beta iota.
    change (lstrip (" " +:+ String q (v +:+ String q rest))) with (lstrip (String q (v +:+ String q rest))).
    assert (is_space q = false) as Hsp.
    { unfold is_quote in Hq. apply bool_decide_eq_true in Hq as [-> | ->]; reflexivity. }
    unfold lstrip at 1. rewrite Hsp. cbn [quoted]. rewrite Hq (span_until_app is_quote v q rest Hv Hq). destruct v as [|x v]; [done|]. by rewrite decide_True. }
  unfold equality_filter in *. destruct key as [|k key]; [done|].
  change (String k key +:+ ?r) with (String k (key +:+ r)) in *. cbn [search_word]. by rewrite Hhere.
Qed.

(** * GraphQL queries on the sample database *)

Definition graphql_request : Request := post "/graphql" [].
(** A resolver that gives back its input. *)
Definition resolved_input (input : option gql_input) : M world (option gql_input) := mret input.
Definition asks (field : string) (input : option gql_input) : outcome (option (option gql_input)) :=
  (resolve graphql_request resolved_input field JNull input (fresh_world sample_db)).1.

(** Bob reads [exp1]; a pattern of his denies [prod]. *)
Definition runs_of (ids : list string) : gql_input := {[ "experiment_ids" := JArr (JStr <$> ids) ]}.
Lemma searches_are_narrowed :
  asks "mlflowSearchRuns" (Some (runs_of ["exp1"; "prod"])) = Ok (Some (Some (runs_of ["exp1"]))) ∧
  asks "mlflowSearchRuns" (Some (runs_of ["prod"])) = Ok None ∧
  asks "mlflowGetExperiment" (Some {[ "experiment_id" := JStr "prod" ]}) = Ok None ∧
  asks "mlflowGetRun" (Some {[ "run_uuid" := JStr "exp1" ]}) = Ok (Some (Some {[ "run_uuid" := JStr "exp1" ]})).
Proof. split_and!; vm_compute; reflexivity. Qed.


(** What the extraction takes for the model that a filter asks for: the first of
    a list only, and the value of any tag that is called [name]. *)
Lemma what_a_filter_seems_to_ask :
  _extract_first_filter_value "name IN ('mine', 'theirs')" "name" = Some "mine" ∧
  _extract_first_filter_value "tags.name = 'mine'" "name" = Some "mine" ∧
  _extract_first_filter_value "run_id in ('r1','r2')" "run_id" = Some "r1" ∧
  _extract_first_filter_value "source_path = 'my name = ' AND name='theirs'" "name" = Some " AND name=" ∧
  _extract_first_filter_value "model_name = 'm'" "name" = None ∧
  _extract_first_filter_value "name LIKE 'm%'" "name" = None.
Proof. split_and!; vm_compute; reflexivity. Qed.

(** A search for the model versions with a tag is let through on a model that is
    named like the tag's value. *)
Lemma a_tag_passes_for_a_model :
  asks "mlflowSearchModelVersions" (Some {[ "filter" := JStr "tags.name = 'llm'" ]}) = Ok (Some (Some {[ "filter" := JStr "tags.name = 'llm'" ]})).
Proof. vm_compute. reflexivity. Qed.

Lemma filters_are_read_as_written_witness :
  _extract_first_filter_value "name = 'llm' AND version_number = 1" "name" = Some "llm".
Proof. apply (filters_are_read_as_written "name" "llm" "'"%char " AND version_number = 1"); [done|reflexivity|split; [done|reflexivity]]. Defined.

(** Bob is denied the model [secret] and reads [llm]. Asked for both, the
    middleware looks at the first. *)
Definition closed_model : db :=
  set_perms RegisteredModels (λ pt, PermTables (PermRow (Key "secret") 2 "NO_PERMISSIONS" false :: t_user pt) (t_group pt) (t_regex pt) (t_group_regex pt)) sample_db.
Definition versions_of (filter : string) : outcome (option (option gql_input)) :=
  (resolve graphql_request resolved_input "mlflowSearchModelVersions" JNull (Some {[ "filter" := JStr filter ]}) (fresh_world closed_model)).1.
Lemma a_list_opens_a_closed_model :
  versions_of "name = 'secret'" = Ok None ∧ versions_of "name IN ('secret')" = Ok None ∧
  versions_of "name IN ('llm', 'secret')" = Ok (Some (Some {[ "filter" := JStr "name IN ('llm', 'secret')" ]})).
Proof. split_and!; vm_compute; reflexivity. Qed.
