(* ===== verification/ResourceRouters.v ===== *)
(** * The grants of a resource ([routers/*_permissions.py] by resource)

    The seven routers that list, for a resource, the users and the groups with a
    grant on it, and the resources the sender may manage. One module per router;
    the handlers get their path parameters and what their dependencies give. *)
From S2P Require Import Prelude PyStrings Json Permissions Regex RegexSafety Database Repositories Users Groups Sessions Cache Resolution Batch Store Requests AfterRequest.
From S2P Require Import Validators TokenVerification Identity AuthMiddleware ProviderRegistry Kubernetes DataFetching ApiModels FastApi RouterLib.

(** ** The responses ([models/permission.py], [models/group.py], [models/scorer.py]) *)

Inductive account_kind := user_account | service_account.
Record UserPermission := MkUserPermission { up_name : string; up_permission : string; up_kind : account_kind }.
Record GroupPermissionEntry := MkGroupEntry { gp_name : string; gp_permission : string }.
Record ScorerSummary := MkScorerSummary {
  ss_experiment_id : string; ss_name : string; ss_version : Z; ss_creation_time : Z; ss_scorer_id : option string }.
Record GatewayEndpointItem := MkEndpointItem {
  ge_endpoint_name : string; ge_type : string; ge_description : string; ge_route_type : string; ge_auth_type : string }.
Record GatewayModelItem := MkModelItem { gd_name : string; gd_source : string }.

(** MLflow's scorers of an experiment; an entity and its summary have the same
    fields. *)
Class ScorerListing := { list_scorers_of : string → outcome (list ScorerSummary) }.

(** ** What the handlers share *)

(** [{key: value for ...}.get(k)]: a later item replaces an earlier one. *)
Definition comprehension_get {K} `{EqDecision K} (k : K) (items : list (K * string)) : option string :=
  foldl (λ found item, if decide (item.1 = k) then Some item.2 else found) None items.

Definition user_entry (key : resource_key) (user : user_row * list perm_row) : option UserPermission :=
  p ← comprehension_get key ((λ r, (p_key r, p_permission r)) <$> user.2);
  Some (MkUserPermission (u_username user.1) p (if u_is_service_account user.1 then service_account else user_account)).

Section shared.
Context `{SqlBackend, PyRe, UserLibs, ColumnTyping, Config, TrackingStore}.
Context `{CacheBackend PermissionResult, CacheBackend Permission, TTLCache unit json, TTLCache provider_key json}.
Context `{TTLCache (string * string) bool}.
Abbreviation auth := (M auth_state).

(** [store.list_users(all=True)]: the users, each with its grants of one family. *)
Definition users_with (t : table) : M db (list (user_row * list perm_row)) :=
  all_users ← SqlAlchemyStore.list_users false true;
  permissions ← gets (λ d, t_user (perms d t));
  mret ((λ u, (u, filter (λ r, p_owner r = u_id u) permissions)) <$> all_users).

(** The loop over the users. *)
Definition granted_users (t : table) (key : resource_key) : auth (list UserPermission) :=
  list_users ← in_store (users_with t);
  mret (omap (user_entry key) list_users).

Definition granted_groups (groups : M db (list (string * string))) (detail : string) : auth (list GroupPermissionEntry) :=
  or_http 500 detail (
    groups ← in_store groups;
    mret ((λ '(name, permission), MkGroupEntry name permission) <$> groups)).

(** [list_groups_for_model] and [list_groups_for_prompt]: one table, two flags. *)
Definition list_groups_where (prompt : bool) (name : string) : M db (list (string * string)) :=
  managed (gets (λ d,
    g ← groups d;
    r ← t_group (perms d RegisteredModels);
    if decide (p_owner r = g_id g ∧ p_key r = Key name ∧ p_prompt r = prompt) then [(g_name g, p_permission r)] else [])).
End shared.

(** ** The routers *)

Module ExperimentPermissionsRouter.
Section handlers.
Context `{SqlBackend, PyRe, UserLibs, ColumnTyping, Config, TrackingStore}.
Context `{CacheBackend PermissionResult, CacheBackend Permission, TTLCache unit json, TTLCache provider_key json}.
Context `{TTLCache (string * string) bool, MlflowListings}.
Variable mlflow_workspace : option string.

Definition get_experiment_users (experiment_id : string) : M auth_state (list UserPermission) := granted_users Experiments (Key experiment_id).
Definition get_experiment_groups (experiment_id : string) : M auth_state (list GroupPermissionEntry) :=
  granted_groups (GroupPermissions.list_groups_for_resource Experiments (Key experiment_id)) "Failed to retrieve experiment group permissions".

(** [search_experiments()] without arguments: the first page. *)
Definition list_experiments (username : string) (is_admin : bool) : M auth_state (list experiment) :=
  all_experiments ← lift search_experiments_default;
  if is_admin then mret all_experiments else in_world (filter_manageable_experiments mlflow_workspace username all_experiments).
End handlers.
End ExperimentPermissionsRouter.

(** A registered model is its name here; the tags, description and aliases that
    the response repeats are left out. *)
Module RegisteredModelPermissionsRouter.
Section handlers.
Context `{SqlBackend, PyRe, UserLibs, ColumnTyping, Config, TrackingStore}.
Context `{CacheBackend PermissionResult, CacheBackend Permission, TTLCache unit json, TTLCache provider_key json}.
Context `{TTLCache (string * string) bool, MlflowListings}.
Variables (mlflow_workspace : option string) (fuel : nat).

Definition get_registered_model_users (name : string) : M auth_state (list UserPermission) := granted_users RegisteredModels (Key name).
Definition get_registered_model_groups (name : string) : M auth_state (list GroupPermissionEntry) :=
  granted_groups (list_groups_where false name) "Failed to retrieve registered model group permissions".
Definition list_models (username : string) (is_admin : bool) : M auth_state (option (list string)) :=
  all_models ← lift (fetch_all_registered_models fuel None None 1000);
  match all_models with
  | None => mret None
  | Some all_models =>
      if is_admin then mret (Some all_models)
      else registered_models ← in_world (filter_manageable_models mlflow_workspace username all_models); mret (Some registered_models)
  end.
End handlers.
End RegisteredModelPermissionsRouter.

(** Prompts have the user grants of registered models. *)
Module PromptPermissionsRouter.
Section handlers.
Context `{SqlBackend, PyRe, UserLibs, ColumnTyping, Config, TrackingStore}.
Context `{CacheBackend PermissionResult, CacheBackend Permission, TTLCache unit json, TTLCache provider_key json}.
Context `{TTLCache (string * string) bool, MlflowListings}.
Variables (mlflow_workspace : option string) (fuel : nat).

Definition get_prompt_users (prompt_name : string) : M auth_state (list UserPermission) := granted_users RegisteredModels (Key prompt_name).
Definition get_prompt_groups (prompt_name : string) : M auth_state (list GroupPermissionEntry) :=
  granted_groups (list_groups_where true prompt_name) "Failed to retrieve prompt group permissions".
Definition list_prompts (username : string) (is_admin : bool) : M auth_state (option (list string)) :=
  all_prompts ← lift (fetch_all_prompts fuel 1000);
  match all_prompts with
  | None => mret None
  | Some all_prompts =>
      if is_admin then mret (Some all_prompts)
      else prompts ← in_world (filter_manageable_prompts mlflow_workspace username all_prompts); mret (Some prompts)
  end.
End handlers.
End PromptPermissionsRouter.

Module ScorersPermissionsRouter.
Section handlers.
Context `{SqlBackend, PyRe, UserLibs, ColumnTyping, Config, TrackingStore}.
Context `{CacheBackend PermissionResult, CacheBackend Permission, TTLCache unit json, TTLCache provider_key json}.
Context `{TTLCache (string * string) bool, ScorerListing}.

Definition list_scorers (experiment_id username : string) (is_admin : bool) : M auth_state (list ScorerSummary) :=
  all_scorers ← or_http 500 "Failed to retrieve scorers" (lift (list_scorers_of experiment_id));
  if is_admin then mret all_scorers
  else in_world (filter_m (λ scorer, can_manage_scorer flaskless_workspace experiment_id (ss_name scorer) username) all_scorers).

Definition get_scorer_users (experiment_id scorer_name : string) : M auth_state (list UserPermission) :=
  users ← or_http 500 "Failed to retrieve scorer user permissions" (in_store (users_with Scorers));
  mret (omap (user_entry (ScorerKey experiment_id scorer_name)) users).
Definition get_scorer_groups (experiment_id scorer_name : string) : M auth_state (list GroupPermissionEntry) :=
  granted_groups (GroupPermissions.list_groups_for_resource Scorers (ScorerKey experiment_id scorer_name)) "Failed to retrieve scorer group permissions".
End handlers.
End ScorersPermissionsRouter.

(** The three gateway routers: the whole listing is in one [try]. *)
Module GatewayPermissionsRouters.
Section handlers.
Context `{SqlBackend, PyRe, UserLibs, ColumnTyping, Config, TrackingStore}.
Context `{CacheBackend PermissionResult, CacheBackend Permission, TTLCache unit json, TTLCache provider_key json}.
Context `{TTLCache (string * string) bool, MlflowListings}.

(** All for an administrator, the manageable ones for others. *)
Definition gateway_items {B} (fetch : outcome (list dict)) (manageable : list dict → M world (list dict)) (format : dict → B) (detail : string)
    (is_admin : bool) : M auth_state (list B) :=
  or_http 500 detail (
    all_items ← lift fetch;
    items ← (if is_admin then mret all_items else in_world (manageable all_items));
    mret (format <$> items)).

Definition endpoint_item (endpoint : dict) : GatewayEndpointItem :=
  MkEndpointItem (default "" (endpoint !! "name")) (default "" (endpoint !! "endpoint_type")) (default "" (endpoint !! "description"))
    (default "" (endpoint !! "route_type")) (default "" (endpoint !! "auth_type")).
Definition model_item (model : dict) : GatewayModelItem :=
  MkModelItem (default "" (model !! "name")) (or_default (model !! "source") (default "" (model !! "provider"))).

Definition get_gateway_endpoint_users (name : string) : M auth_state (list UserPermission) := granted_users GatewayEndpoints (Key name).
Definition get_gateway_endpoint_groups (name : string) : M auth_state (list GroupPermissionEntry) :=
  granted_groups (GroupPermissions.list_groups_for_resource GatewayEndpoints (Key name)) "Failed to retrieve gateway endpoint group permissions".
Definition list_gateway_endpoints (username : string) (is_admin : bool) : M auth_state (list GatewayEndpointItem) :=
  gateway_items fetch_all_gateway_endpoints (filter_manageable_gateway_endpoints flaskless_workspace username) endpoint_item
    "Failed to retrieve gateway endpoints" is_admin.

Definition get_gateway_secret_users (name : string) : M auth_state (list UserPermission) := granted_users GatewaySecrets (Key name).
Definition get_gateway_secret_groups (name : string) : M auth_state (list GroupPermissionEntry) :=
  granted_groups (GroupPermissions.list_groups_for_resource GatewaySecrets (Key name)) "Failed to retrieve gateway secret group permissions".
Definition list_gateway_secrets (username : string) (is_admin : bool) : M auth_state (list string) :=
  gateway_items fetch_all_gateway_secrets (filter_manageable_gateway_secrets flaskless_workspace username) secret_name_of
    "Failed to retrieve gateway secrets" is_admin.

Definition get_gateway_model_definition_users (name : string) : M auth_state (list UserPermission) := granted_users GatewayModelDefinitions (Key name).
Definition get_gateway_model_definition_groups (name : string) : M auth_state (list GroupPermissionEntry) :=
  granted_groups (GroupPermissions.list_groups_for_resource GatewayModelDefinitions (Key name)) "Failed to retrieve gateway model definition group permissions".
Definition list_gateway_model_definitions (username : string) (is_admin : bool) : M auth_state (list GatewayModelItem) :=
  gateway_items fetch_all_gateway_model_definitions (filter_manageable_gateway_model_definitions flaskless_workspace username) model_item
    "Failed to retrieve gateway model definitions" is_admin.
End handlers.
End GatewayPermissionsRouters.

(** ** The requests *)

Inductive ResourceRequest : Type → Type :=
  | ask_get_experiment_users (experiment_id : string) : ResourceRequest (list UserPermission)
  | ask_get_experiment_groups (experiment_id : string) : ResourceRequest (list GroupPermissionEntry)
  | ask_list_experiments : ResourceRequest (list experiment)
  | ask_get_registered_model_users (name : string) : ResourceRequest (list UserPermission)
  | ask_get_registered_model_groups (name : string) : ResourceRequest (list GroupPermissionEntry)
  | ask_list_models : ResourceRequest (option (list string))
  | ask_get_prompt_users (prompt_name : string) : ResourceRequest (list UserPermission)
  | ask_get_prompt_groups (prompt_name : string) : ResourceRequest (list GroupPermissionEntry)
  | ask_list_prompts : ResourceRequest (option (list string))
  | ask_list_scorers (experiment_id : string) : ResourceRequest (list ScorerSummary)
  | ask_get_scorer_users (experiment_id scorer_name : string) : ResourceRequest (list UserPermission)
  | ask_get_scorer_groups (experiment_id scorer_name : string) : ResourceRequest (list GroupPermissionEntry)
  | ask_get_gateway_endpoint_users (name : string) : ResourceRequest (list UserPermission)
  | ask_get_gateway_endpoint_groups (name : string) : ResourceRequest (list GroupPermissionEntry)
  | ask_list_gateway_endpoints : ResourceRequest (list GatewayEndpointItem)
  | ask_get_gateway_secret_users (name : string) : ResourceRequest (list UserPermission)
  | ask_get_gateway_secret_groups (name : string) : ResourceRequest (list GroupPermissionEntry)
  | ask_list_gateway_secrets : ResourceRequest (list string)
  | ask_get_gateway_model_definition_users (name : string) : ResourceRequest (list UserPermission)
  | ask_get_gateway_model_definition_groups (name : string) : ResourceRequest (list GroupPermissionEntry)
  | ask_list_gateway_model_definitions : ResourceRequest (list GatewayModelItem).

Section serving.
Context `{SqlBackend, PyRe, UserLibs, ColumnTyping, Config, TrackingStore}.
Context `{CacheBackend PermissionResult, CacheBackend Permission, TTLCache unit json, TTLCache provider_key json}.
Context `{TTLCache (string * string) bool}.
Context `{JsonLoads, Encodings, PodFiles, Network, JwtLib, TokenConfig, AuthConfig, ValidatorLibs}.
Context `{MlflowListings, ScorerListing}.
Variables (now : Z) (mlflow_workspace : option string) (fuel : nat).
Abbreviation auth := (M auth_state).

(** The handlers that ask who the sender is. *)
Definition as_sender {A} (http : FastApiRequest) (handler : string → bool → auth A) : auth (reply A) :=
  respond 200 (username ← get_username now http; is_admin ← get_is_admin now http; handler username is_admin).

Definition serve_resource {A} (http : FastApiRequest) (r : ResourceRequest A) : auth (reply A) :=
  match r in ResourceRequest A return auth (reply A) with
  | ask_get_experiment_users experiment_id =>
      respond 200 (_ ← check_experiment_manage_permission now http experiment_id; ExperimentPermissionsRouter.get_experiment_users experiment_id)
  | ask_get_experiment_groups experiment_id =>
      respond 200 (_ ← check_experiment_manage_permission now http experiment_id; ExperimentPermissionsRouter.get_experiment_groups experiment_id)
  | ask_list_experiments => as_sender http (ExperimentPermissionsRouter.list_experiments mlflow_workspace)
  | ask_get_registered_model_users name =>
      respond 200 (_ ← check_registered_model_manage_permission now http name; RegisteredModelPermissionsRouter.get_registered_model_users name)
  | ask_get_registered_model_groups name =>
      respond 200 (_ ← check_registered_model_manage_permission now http name; RegisteredModelPermissionsRouter.get_registered_model_groups name)
  | ask_list_models => as_sender http (RegisteredModelPermissionsRouter.list_models mlflow_workspace fuel)
  | ask_get_prompt_users prompt_name =>
      respond 200 (_ ← check_prompt_manage_permission now http prompt_name; PromptPermissionsRouter.get_prompt_users prompt_name)
  | ask_get_prompt_groups prompt_name =>
      respond 200 (_ ← check_prompt_manage_permission now http prompt_name; PromptPermissionsRouter.get_prompt_groups prompt_name)
  | ask_list_prompts => as_sender http (PromptPermissionsRouter.list_prompts mlflow_workspace fuel)
  | ask_list_scorers experiment_id => as_sender http (ScorersPermissionsRouter.list_scorers experiment_id)
  | ask_get_scorer_users experiment_id scorer_name =>
      respond 200 (_ ← check_scorer_manage_permission now http; ScorersPermissionsRouter.get_scorer_users experiment_id scorer_name)
  | ask_get_scorer_groups experiment_id scorer_name =>
      respond 200 (_ ← check_scorer_manage_permission now http; ScorersPermissionsRouter.get_scorer_groups experiment_id scorer_name)
  | ask_get_gateway_endpoint_users name =>
      respond 200 (_ ← check_gateway_endpoint_manage_permission now http name; GatewayPermissionsRouters.get_gateway_endpoint_users name)
  | ask_get_gateway_endpoint_groups name =>
      respond 200 (_ ← check_gateway_endpoint_manage_permission now http name; GatewayPermissionsRouters.get_gateway_endpoint_groups name)
  | ask_list_gateway_endpoints => as_sender http GatewayPermissionsRouters.list_gateway_endpoints
  | ask_get_gateway_secret_users name =>
      respond 200 (_ ← check_gateway_secret_manage_permission now http name; GatewayPermissionsRouters.get_gateway_secret_users name)
  | ask_get_gateway_secret_groups name =>
      respond 200 (_ ← check_gateway_secret_manage_permission now http name; GatewayPermissionsRouters.get_gateway_secret_groups name)
  | ask_list_gateway_secrets => as_sender http GatewayPermissionsRouters.list_gateway_secrets
  | ask_get_gateway_model_definition_users name =>
      respond 200 (_ ← check_gateway_model_definition_manage_permission now http name; GatewayPermissionsRouters.get_gateway_model_definition_users name)
  | ask_get_gateway_model_definition_groups name =>
      respond 200 (_ ← check_gateway_model_definition_manage_permission now http name; GatewayPermissionsRouters.get_gateway_model_definition_groups name)
  | ask_list_gateway_model_definitions => as_sender http GatewayPermissionsRouters.list_gateway_model_definitions
  end.
End serving.

(** * Who sees the grants of a resource *)
From S2P Require Import RepositoryFacts RepositoryInvariant Users Groups Sessions Cache Resolution ResolutionFacts Batch Store StoreFacts StoreCaches StoreCoherence Requests.
From S2P Require Import AfterRequest BeforeRequestFacts Validators TokenVerification Identity AuthMiddleware AuthFacts ProvisioningFacts ProviderRegistry Kubernetes DataFetching.
From S2P Require Import ApiModels FastApi RouterLib UserPermissions GroupPermissions Management ManagementFacts BatchFacts.

(** ** What a listing shows *)

Definition kind_of (u : user_row) : account_kind := if u_is_service_account u then service_account else user_account.

(** One entry for each user with a grant on the resource: its name, the level of
    the grant, the kind of account. *)
Definition shows_users (t : table) (key : resource_key) (d : db) (l : list UserPermission) : Prop :=
  NoDup (up_name <$> l) ∧
  ∀ e, e ∈ l ↔ ∃ u r, u ∈ users d ∧ r ∈ t_user (perms d t) ∧ p_owner r = u_id u ∧ p_key r = key ∧ e = MkUserPermission (u_username u) (p_permission r) (kind_of u).

(** One for each group; models and prompts share their table. *)
Definition shows_groups (t : table) (key : resource_key) (flag : option bool) (d : db) (l : list GroupPermissionEntry) : Prop :=
  ∀ e, e ∈ l ↔ ∃ g r, g ∈ groups d ∧ r ∈ t_group (perms d t) ∧ p_owner r = g_id g ∧ p_key r = key ∧
    match flag with Some b => p_prompt r = b | None => True end ∧ e = MkGroupEntry (g_name g) (p_permission r).

Lemma comprehension_get_app {K} `{EqDecision K} (k : K) l1 l2 :
  comprehension_get k (l1 ++ l2) = match comprehension_get k l2 with Some v => Some v | None => comprehension_get k l1 end.
Proof.
  unfold comprehension_get. rewrite foldl_app. generalize (foldl (λ found item, if decide (item.1 = k) then Some item.2 else found) None l1).
  induction l2 as [|x l2 IH] using rev_ind; intros o; [done|]. rewrite !foldl_app. cbn. case_decide; [done|]. apply IH.
Qed.

Lemma comprehension_get_Some {K} `{EqDecision K} (k : K) l v : NoDup l.*1 → comprehension_get k l = Some v ↔ (k, v) ∈ l.
Proof.
  induction l as [|[k' v'] l IH] using rev_ind; [cbn; intros _; split; [done|by intros ?%not_elem_of_nil]|].
  rewrite fmap_app. intros (Hl&Hdis&_)%NoDup_app. rewrite comprehension_get_app elem_of_app list_elem_of_singleton. cbn. case_decide as E.
  - subst k'. split; [by intros [= ->]; right|]. intros [Hin|[= ->]]; [|done]. exfalso. apply (Hdis k); [|by left]. by apply list_elem_of_fmap_2' with (k, v).
  - rewrite (IH Hl). split; [by left|]. intros [|[= ]]; congruence.
Qed.

Lemma keys_of_owner owner rows : NoDup (perm_pk <$> rows) → NoDup (p_key <$> filter (λ r, p_owner r = owner) rows).
Proof.
  induction rows as [|r rows IH]; [constructor|]. cbn. intros [Hr Hrows]%NoDup_cons. case_decide as Ho; [|by apply IH].
  cbn. apply NoDup_cons. split; [|by apply IH]. intros (r'&Hk&[Ho' Hin]%list_elem_of_filter)%list_elem_of_fmap. apply Hr.
  apply list_elem_of_fmap. exists r'. split; [|done]. unfold perm_pk. by rewrite Hk Ho Ho'.
Qed.

Lemma entry_Some key u rows e :
  NoDup (p_key <$> rows) →
  user_entry key (u, rows) = Some e ↔ ∃ r, r ∈ rows ∧ p_key r = key ∧ e = MkUserPermission (u_username u) (p_permission r) (kind_of u).
Proof.
  intros Hnd. unfold user_entry, kind_of. cbn [fst snd].
  assert (NoDup ((λ r, (p_key r, p_permission r)) <$> rows).*1) as Hnd' by by rewrite -list_fmap_compose.
  set (l := (λ r, (p_key r, p_permission r)) <$> rows) in *. pose proof (λ v, comprehension_get_Some key l v Hnd') as Hget. destruct (comprehension_get key l) as [p|]; cbn.
  - split; [|intros (r&Hr&Hk&->)].
    + intros [= <-]. pose proof (proj1 (Hget p) eq_refl) as Hp. apply list_elem_of_fmap in Hp as (r&[= -> ->]&Hr). by exists r.
    + assert (Some p = Some (p_permission r)) as [= ->]; [|done]. apply Hget. rewrite -Hk. exact (list_elem_of_fmap_2 (λ r, (p_key r, p_permission r)) _ _ Hr).
  - split; [done|]. intros (r&Hr&Hk&->). assert (None = Some (p_permission r)) as [=]. apply Hget. rewrite -Hk.
    exact (list_elem_of_fmap_2 (λ r, (p_key r, p_permission r)) _ _ Hr).
Qed.

Lemma entry_name key u rows e : user_entry key (u, rows) = Some e → up_name e = u_username u.
Proof. unfold user_entry, mbind, option_bind. case_match; [|done]. by intros [= <-]. Qed.

#[local] Arguments user_entry : simpl never.
Lemma entry_names key (rows : user_row → list perm_row) us :
  NoDup (u_username <$> us) → NoDup (up_name <$> omap (user_entry key) ((λ u, (u, rows u)) <$> us)).
Proof.
  induction us as [|u us IH]; [constructor|]. cbn. intros [Hu Hus]%NoDup_cons. destruct (user_entry key (u, rows u)) as [e|] eqn:E; [|by apply IH].
  cbn. apply NoDup_cons. split; [|by apply IH]. rewrite (entry_name _ _ _ _ E). intros (e'&Hn&(x&(u'&->&Hu')%list_elem_of_fmap&Hx)%list_elem_of_omap)%list_elem_of_fmap.
  apply Hu. rewrite Hn (entry_name _ _ _ _ Hx). by apply list_elem_of_fmap_2.
Qed.

Lemma user_entries_shown t key d :
  wf_db d → shows_users t key d (omap (user_entry key) ((λ u, (u, filter (λ r, p_owner r = u_id u) (t_user (perms d t)))) <$> users d)).
Proof.
  intros Hwf. split; [by apply entry_names, wf_usernames|]. intros e. rewrite list_elem_of_omap.
  assert (∀ u, NoDup (p_key <$> filter (λ r, p_owner r = u_id u) (t_user (perms d t)))) as Hnd by (intros u; by apply keys_of_owner, (wf_user_unique t (user_ids d)), wf_perms).
  split.
  - intros (x&(u&->&Hu)%list_elem_of_fmap&(r&[Ho Hr]%list_elem_of_filter&Hk&->)%(entry_Some _ _ _ _ (Hnd _))). by exists u, r.
  - intros (u&r&Hu&Hr&Ho&Hk&->). exists (u, filter (λ r, p_owner r = u_id u) (t_user (perms d t))). split; [apply list_elem_of_fmap; by exists u|].
    apply entry_Some; [done|]. exists r. split; [by apply list_elem_of_filter|done].
Qed.

Lemma group_pairs_shown t (P : perm_row → Prop) `{∀ r, Decision (P r)} key flag d :
  (∀ r, P r ↔ p_key r = key ∧ match flag with Some b => p_prompt r = b | None => True end) →
  shows_groups t key flag d ((λ '(name, permission), MkGroupEntry name permission) <$>
    (g ← groups d; r ← t_group (perms d t); if decide (p_owner r = g_id g ∧ P r) then [(g_name g, p_permission r)] else [])).
Proof.
  intros HP e. rewrite list_elem_of_fmap. split.
  - intros ([n p]&->&(g&(r&Hin&Hr)%list_elem_of_bind&Hg)%list_elem_of_bind). case_decide as Hd; [|by apply not_elem_of_nil in Hin].
    apply list_elem_of_singleton in Hin as [= -> ->]. destruct Hd as [Ho HPr]. exists g, r. by destruct (proj1 (HP r) HPr).
  - intros (g&r&Hg&Hr&Ho&Hk&Hf&->). exists (g_name g, p_permission r). split; [done|]. apply list_elem_of_bind. exists g. split; [|done].
    apply list_elem_of_bind. exists r. split; [|done]. rewrite decide_True; [by apply list_elem_of_singleton|]. split; [done|]. by apply HP.
Qed.
Section facts.
Context `{SqlBackend, PyRe, UserLibs, ColumnTyping, Config, TrackingStore}.
Context `{CacheBackend PermissionResult, CacheBackend Permission, TTLCache unit json, TTLCache provider_key json}.
Context `{TTLCache (string * string) bool}.
Context `{JsonLoads, Encodings, PodFiles, Network, JwtLib, TokenConfig, AuthConfig, ValidatorLibs}.
Context `{MlflowListings, ScorerListing}.

(** ** The handlers *)

Lemma users_with_run t d :
  users_with t d = (Ok ((λ u, (u, filter (λ r, p_owner r = u_id u) (t_user (perms d t)))) <$> users d), d).
Proof. done. Qed.


(** Every handler answers, with the grants, and looks only. *)
Lemma in_store_same {A} (m : M db A) a s : m (au_db s) = (Ok a, au_db s) → in_store m s = (Ok a, s).
Proof. intros Hm. rewrite in_store_run Hm. cbn [fst snd]. rewrite set_db_id. by destruct s. Qed.

Lemma granted_users_run t key s :
  wf_db (au_db s) → ∃ l, granted_users t key s = (Ok l, s) ∧ shows_users t key (au_db s) l.
Proof.
  intros Hwf. unfold granted_users. rewrite M_bind_run (in_store_same _ _ _ (users_with_run t (au_db s))). eexists. split; [done|]. by apply user_entries_shown.
Qed.

Lemma granted_groups_run (m : M db (list (string * string))) detail pairs s :
  m (au_db s) = (Ok pairs, au_db s) →
  granted_groups m detail s = (Ok ((λ '(name, permission), MkGroupEntry name permission) <$> pairs), s).
Proof. intros Hm. unfold granted_groups, or_http. by rewrite catch_run M_bind_run (in_store_same _ _ _ Hm). Qed.

Lemma resource_groups_run t key detail s :
  ∃ l, granted_groups (GroupPermissions.list_groups_for_resource t key) detail s = (Ok l, s) ∧ shows_groups t key None (au_db s) l.
Proof.
  eexists. split; [by apply granted_groups_run|]. apply (group_pairs_shown t (λ r, p_key r = key)). intros r. by split; [|intros []].
Qed.
Lemma flagged_groups_run flag nm detail s :
  ∃ l, granted_groups (list_groups_where flag nm) detail s = (Ok l, s) ∧ shows_groups RegisteredModels (Key nm) (Some flag) (au_db s) l.
Proof.
  eexists. split; [by apply granted_groups_run|]. apply (group_pairs_shown RegisteredModels (λ r, p_key r = Key nm ∧ p_prompt r = flag)). done.
Qed.

(** ** Who may ask for a listing, and what it shows *)

Definition resource_rule {A} (r : ResourceRequest A) : option (need * (db → A → Prop)) :=
  match r with
  | ask_get_experiment_users experiment_id => Some (ManagerOf EXPERIMENT experiment_id, shows_users Experiments (Key experiment_id))
  | ask_get_experiment_groups experiment_id => Some (ManagerOf EXPERIMENT experiment_id, shows_groups Experiments (Key experiment_id) None)
  | ask_get_registered_model_users name => Some (ManagerOf REGISTERED_MODEL name, shows_users RegisteredModels (Key name))
  | ask_get_registered_model_groups name => Some (ManagerOf REGISTERED_MODEL name, shows_groups RegisteredModels (Key name) (Some false))
  | ask_get_prompt_users name => Some (ManagerOf REGISTERED_MODEL name, shows_users RegisteredModels (Key name))
  | ask_get_prompt_groups name => Some (ManagerOf REGISTERED_MODEL name, shows_groups RegisteredModels (Key name) (Some true))
  | ask_get_gateway_endpoint_users name => Some (ManagerOf GATEWAY_ENDPOINT name, shows_users GatewayEndpoints (Key name))
  | ask_get_gateway_endpoint_groups name => Some (ManagerOf GATEWAY_ENDPOINT name, shows_groups GatewayEndpoints (Key name) None)
  | ask_get_gateway_secret_users name => Some (ManagerOf GATEWAY_SECRET name, shows_users GatewaySecrets (Key name))
  | ask_get_gateway_secret_groups name => Some (ManagerOf GATEWAY_SECRET name, shows_groups GatewaySecrets (Key name) None)
  | ask_get_gateway_model_definition_users name => Some (ManagerOf GATEWAY_MODEL_DEFINITION name, shows_users GatewayModelDefinitions (Key name))
  | ask_get_gateway_model_definition_groups name => Some (ManagerOf GATEWAY_MODEL_DEFINITION name, shows_groups GatewayModelDefinitions (Key name) None)
  | _ => None
  end.

(** A reply that shows the grants is for those who may see them. *)
Definition shown_to {A} (n : need) (shows : db → A → Prop) (u : string) (s : auth_state) (served_request : outcome (reply A) * auth_state) : Prop :=
  untouched s served_request.2 ∧
  match served_request.1 with
  | Ok (Replied status body) => status = 200 ∧ permitted n u (au_db s) ∧ shows (au_db s) body
  | Ok (Failed status) => ¬ permitted n u (au_db s) ∧ (refused n u (au_db s) → status = 403)
  | Raise _ => False
  end.

Lemma shown_after {A B} n (ok : B → Prop) (dependency : M auth_state B) (handler : M auth_state A) (shows : db → A → Prop) u s :
  guards u n ok dependency → served u s →
  (∀ s, wf_db (au_db s) → ∃ l, handler s = (Ok l, s) ∧ shows (au_db s) l) →
  shown_to n shows u s (respond 200 (_ ← dependency; handler) s).
Proof.
  intros Hg Hs Hh. unfold respond, shown_to. rewrite catch_run !M_bind_run. destruct (Hg s Hs) as [[E1 E2] Hok].
  destruct (dependency s) as [[a|e] s1]; cbn in *; [|done]. destruct (Hh s1) as (l&->&Hl); [rewrite E1; apply Hs|]. cbn.
  rewrite E1 in Hl. split; [done|]. split; [done|]. by destruct Hok.
Qed.

(** C13: The grants on an experiment, a model, a prompt or a resource of the
    gateway are shown to administrators and to users whom the database lets
    manage that resource, and to nobody else: such a request is answered with
    exactly the users (or the groups) that hold a grant on the resource, each
    user once, with the level of its grant; every other sender that can be
    decided gets a 403. Either way the database and the audit log stay as they
    are. *)
Theorem grants_are_shown_to_managers_only now mlflow_workspace fuel http u {A} (r : ResourceRequest A) n shows s :
  sent_by u http → served u s → resource_rule r = Some (n, shows) →
  shown_to n shows u s (serve_resource now mlflow_workspace fuel http r s).
Proof.
  intros Hsent Hs Hr. destruct r; cbn [resource_rule] in Hr; try discriminate Hr; injection Hr as <- <-; cbn [serve_resource];
    (eapply shown_after; [by apply (manage_guards _ _ _ Hsent); [|apply (separable_here _ _ Hsent)]|exact Hs|intros s' Hwf]);
    first [by apply granted_users_run | apply resource_groups_run | apply flagged_groups_run].
Qed.

(** The dependency of the scorer routes asks about the scorer that the query
    names, if it names one, and the handler shows the scorer of the path. *)
Theorem scorer_grants_follow_the_query now mlflow_workspace fuel http u experiment_id scorer_name e n s :
  sent_by u http → served u s →
  scorer_param http "experiment_id" = Some (JStr e) → scorer_param http "scorer_name" = Some (JStr n) →
  (can_manage_scorer flaskless_workspace e n u (au_world s)).1 = Ok true →
  (∃ l, (serve_resource now mlflow_workspace fuel http (ask_get_scorer_users experiment_id scorer_name) s).1 = Ok (Replied 200 l) ∧
     shows_users Scorers (ScorerKey experiment_id scorer_name) (au_db s) l) ∧
  (∃ l, (serve_resource now mlflow_workspace fuel http (ask_get_scorer_groups experiment_id scorer_name) s).1 = Ok (Replied 200 l) ∧
     shows_groups Scorers (ScorerKey experiment_id scorer_name) None (au_db s) l).
Proof.
  intros Hsent Hs He Hn Hm.
  assert (∃ s1, check_scorer_manage_permission now http s = (Ok None, s1) ∧ au_db s1 = au_db s) as (s1&Hrun&Hdb).
  { unfold check_scorer_manage_permission. rewrite M_bind_run (get_username_run now http u Hsent) M_bind_run.
    destruct (get_is_admin_run now http u Hsent s Hs) as (b&->&_). rewrite He Hn. destruct b; [by exists s|]. rewrite M_bind_run in_world_run.
    change (py_str (JStr e)) with e. change (py_str (JStr n)) with n.
    assert (keeps_db w_db (can_manage_scorer flaskless_workspace e n u)) as Hk by by repeat observe_step.
    specialize (Hk (au_world s)). destruct (can_manage_scorer flaskless_workspace e n u (au_world s)) as [o w]. cbn in Hm, Hk. subst o. eexists. split; [done|exact Hk]. }
  assert (wf_db (au_db s1)) as Hwf by (rewrite Hdb; apply Hs). rewrite -Hdb. unfold serve_resource, respond. rewrite !catch_run !M_bind_run Hrun. split.
  - destruct (granted_users_run Scorers (ScorerKey experiment_id scorer_name) s1 Hwf) as (l&Hl&Hshows). exists l. split; [|done].
    unfold ScorersPermissionsRouter.get_scorer_users, or_http. unfold granted_users in Hl. rewrite M_bind_run in Hl. rewrite M_bind_run catch_run.
    destruct (in_store (users_with Scorers) s1) as [[us|x] s2]; [|done]. by injection Hl as -> ->.
  - destruct (resource_groups_run Scorers (ScorerKey experiment_id scorer_name) "Failed to retrieve scorer group permissions" s1) as (l&Hl&Hshows).
    exists l. split; [|done]. unfold ScorersPermissionsRouter.get_scorer_groups. by rewrite Hl.
Qed.

(** ** Nothing is changed *)

Lemma keeps_filter_gateway nm can_manage_it items : (∀ n, keeps_db w_db (can_manage_it n)) → keeps_db w_db (filter_gateway nm can_manage_it items).
Proof.
  intros Hc. induction items as [|x items IH]; [done|]. cbn [filter_gateway]. case_decide; [done|]. apply keeps_db_bind.
  - intros w. rewrite catch_run. specialize (Hc (nm x) w). by destruct (can_manage_it (nm x) w) as [[]].
  - intros keep. by apply keeps_db_bind.
Qed.
Lemma keeps_filter_m {A} (check : A → M world bool) l : (∀ x, keeps_db w_db (check x)) → keeps_db w_db (filter_m check l).
Proof. intros Hc. induction l as [|x l IH]; [done|]. cbn. apply keeps_db_bind; [apply Hc|]. intros b. by apply keeps_db_bind. Qed.

Theorem resource_requests_only_look now mlflow_workspace fuel http u {A} (r : ResourceRequest A) s :
  sent_by u http → served u s → untouched s (serve_resource now mlflow_workspace fuel http r s).2.
Proof.
  intros Hsent Hs.
  assert (∀ m : M auth_state A, observes m → untouched s (respond 200 m s).2) as Hlook.
  { intros m Hm. destruct (settled_read u 200 None m s Hm) as [(a&_&Hu) _]. exact Hu. }
  destruct r; cbn [serve_resource]; unfold as_sender; apply Hlook; clear Hlook;
    repeat first [apply observes_raise | observe_step | apply observes_world | apply keeps_filter_gateway; intros ? | apply keeps_filter_m; intros ?].
Qed.

(** ** What the sender may manage *)

(** The first page of experiments: all of it for an administrator, for others
    those that the single-resource decision lets them manage. *)
Theorem experiments_are_listed_by_the_decision now ws fuel http v exps s :
  sent_by (u_username v) http → served (u_username v) s → v ∈ users (au_db s) → separable ws EXPERIMENT (u_username v) →
  regexes_compile (au_db s) Experiments → valid_permission DEFAULT_MLFLOW_PERMISSION →
  (∀ e, e ∈ exps → get_experiment_name (exp_id e) = Ok (exp_name e)) → search_experiments_default = Ok exps →
  ∃ l, (serve_resource now ws fuel http ask_list_experiments s).1 = Ok (Replied 200 l) ∧
    (is_administrator (u_username v) (au_db s) → l = exps) ∧
    (¬ is_administrator (u_username v) (au_db s) →
     l = filter (λ e, manages (decision ws EXPERIMENT (exp_id e) (u_username v) None (au_db s)) = true) exps).
Proof.
  intros Hsent Hs Hv Hsep Hre Hdef Hnames Hexps.
  unfold serve_resource, as_sender, respond. rewrite catch_run !M_bind_run (get_username_run now http _ Hsent) M_bind_run.
  destruct (get_is_admin_run now http _ Hsent s Hs) as (b&->&Hb). unfold ExperimentPermissionsRouter.list_experiments. rewrite M_bind_run lift_run Hexps.
  destruct b; [by exists exps|]. rewrite in_world_run. destruct Hs as (Hwf&Hco&_).
  destruct (batch_experiments_spec ws v exps (au_world s) Hwf Hv Hco Hsep Hre Hdef Hnames) as (m&w'&Hrun&_&_&Hm&Hdom).
  unfold filter_manageable_experiments. rewrite M_bind_run Hrun lift_run. rewrite (keep_manageable_spec exp_id _ m exps Hm); [by eexists|].
  intros e He. apply Hdom. by apply list_elem_of_fmap_2.
Qed.
End facts.

(** * Listings of grants on the sample database *)
From S2P Require Import Ownership Permissions Regex RegexSafety Database Repositories Users Samples UserFacts Groups Sessions Cache Resolution ResolutionFacts Batch Store.
From S2P Require Import SampleMlflow Requests Validators Hooks AfterRequest BeforeRequest AfterRequestFacts Kubernetes ProviderRegistry RegistryFacts TokenVerification TokenFacts.
From S2P Require Import Identity AuthMiddleware AuthFacts ProvisioningFacts AuthWitnesses DataFetching ApiModels FastApi RouterLib UserPermissions GroupPermissions Management.
From S2P Require Import ManagementFacts ManagementWitnesses.
#[local] Open Scope Z_scope.

#[export] Instance sample_scorers : ScorerListing | 100 := {| list_scorers_of e := Ok [MkScorerSummary e "a" 1 0 None; MkScorerSummary e "b" 2 0 None] |}.

Lemma grants_are_shown_to_managers_only_witness :
  shown_to (ManagerOf EXPERIMENT "exp1") (shows_users Experiments (Key "exp1")) "alice" started
    (serve_resource 100 None 5 (request_of "alice" true) (ask_get_experiment_users "exp1") started) ∧
  (serve_resource 100 None 5 (request_of "alice" true) (ask_get_experiment_users "exp1") started).1 = Ok (Replied 200 [MkUserPermission "bob" "READ" user_account]) ∧
  (serve_resource 100 None 5 (request_of "alice" true) (ask_get_experiment_groups "exp1") started).1 = Ok (Replied 200 [MkGroupEntry "team" "EDIT"; MkGroupEntry "ops" "USE"]) ∧
  (serve_resource 100 None 5 (request_of "bob" false) (ask_get_experiment_users "exp1") started).1 = Ok (Failed 403).
Proof.
  split; [|split; [vm_compute; reflexivity|split; vm_compute; reflexivity]].
  apply (grants_are_shown_to_managers_only 100 None 5 (request_of "alice" true) "alice" (ask_get_experiment_users "exp1") _ _ started);
    [by apply sent|exact alice_served|reflexivity].
Defined.

(** Bob manages scorer [a] of the first experiment and reads scorer [b] of the
    second, which alice manages. *)
Definition two_scorers : db :=
  set_perms Scorers (λ _, PermTables
    [PermRow (ScorerKey "exp1" "a") 2 "MANAGE" false; PermRow (ScorerKey "exp2" "b") 2 "READ" false; PermRow (ScorerKey "exp2" "b") 1 "MANAGE" false]
    [PermRow (ScorerKey "exp2" "b") 1 "EDIT" false] [] []) sample_db.
Lemma two_scorers_wf : wf_db two_scorers.
Proof.
  constructor; try (apply (bool_decide_unpack _); vm_compute; exact I).
  intros []; (constructor; unfold rows_valid; first
    [apply (bool_decide_unpack _); vm_compute; exact I | intros _; apply (bool_decide_unpack _); vm_compute; exact I | by intros []]).
Qed.
Definition scorers_started : auth_state := AuthState (fresh_world two_scorers) [] no_keys (∅ : gmap (string * string) bool) None None.
Definition scorer_request (query : list (string * string)) : FastApiRequest :=
  MkFastApi (request_with None) "GET" query [("experiment_id", "exp2"); ("scorer_name", "b")] (Raise ValueError) (Some (MkAuthContext "bob" false None)).
Definition other_scorer : list (string * string) := [("experiment_id", "exp1"); ("scorer_name", "a")].

(** Asked plainly, bob is refused; naming a scorer of his own in the query he
    sees the grants on the other one. *)
Lemma a_query_opens_every_scorer :
  (serve_resource 100 None 5 (scorer_request []) (ask_get_scorer_users "exp2" "b") scorers_started).1 = Ok (Failed 403) ∧
  (serve_resource 100 None 5 (scorer_request other_scorer) (ask_get_scorer_users "exp2" "b") scorers_started).1 =
    Ok (Replied 200 [MkUserPermission "alice" "MANAGE" user_account; MkUserPermission "bob" "READ" user_account]) ∧
  (serve_resource 100 None 5 (scorer_request other_scorer) (ask_get_scorer_groups "exp2" "b") scorers_started).1 = Ok (Replied 200 [MkGroupEntry "team" "EDIT"]).
Proof. split; [|split]; vm_compute; reflexivity. Qed.

Lemma scorer_grants_follow_the_query_witness :
  ∃ l, (serve_resource 100 None 5 (scorer_request other_scorer) (ask_get_scorer_users "exp2" "b") scorers_started).1 = Ok (Replied 200 l) ∧
    shows_users Scorers (ScorerKey "exp2" "b") two_scorers l.
Proof.
  refine (proj1 (scorer_grants_follow_the_query 100 None 5 (scorer_request other_scorer) "bob" "exp2" "b" "exp1" "a" scorers_started _ _ _ _ _)).
  - done.
  - split; [exact two_scorers_wf|]. split; [apply fresh_coherent|]. exists bob. split; [right; by left|done].
  - reflexivity.
  - reflexivity.
  - vm_compute. reflexivity.
Defined.
