(* ===== verification/Trash.v ===== *)
(** * The trash ([routers/trash.py])

    What was deleted softly in MLflow's tracking store: listed, restored, and
    deleted for good, by administrators. The tracking store is a state that its
    methods read and change. *)
From S2P Require Import Prelude PyStrings Json Ownership Permissions Regex RegexSafety Database Repositories Users Groups Sessions Cache Resolution Batch Store Requests.
From S2P Require Import AfterRequest Validators TokenVerification Identity AuthMiddleware ProviderRegistry Kubernetes DataFetching ApiModels FastApi RouterLib.
From stdpp Require Import pretty.
From Stdlib Require Import Ascii.
#[local] Open Scope Z_scope.

(** ** MLflow's entities and store *)

Definition DELETED : string := "deleted".
Definition ViewType_DELETED_ONLY : Z := 2.
Definition ViewType_ALL : Z := 3.

Record ExperimentInfo := MkExperimentInfo {
  ei_experiment_id : string;
  ei_name : string;
  ei_lifecycle_stage : string;
  ei_artifact_location : string;
  ei_tags : list (string * string);
  ei_creation_time : option Z;
  ei_last_update_time : option Z;
}.

Record RunInfo := MkRunInfo {
  ri_run_id : string;
  ri_experiment_id : string;
  ri_run_name : option string;
  ri_status : string;
  ri_start_time : option Z;
  ri_end_time : option Z;
  ri_lifecycle_stage : string;
  ri_artifact_uri : string;
}.

(** The tracking store: which of the methods that stores may lack it has, and what
    its methods do. A search is one page of deleted items, with the other
    arguments of the call fixed. [set_order] is the order in which the elements
    of [set(l)] are visited; [timedelta_ms] the floating-point
    [int(timedelta(...).total_seconds() * 1000)] of the four texts. *)
Class TrashStore := {
  backend : Type;
  has_get_deleted_runs : bool;
  has_hard_delete_run : bool;
  has_hard_delete_experiment : bool;
  _get_deleted_runs : Z → backend → outcome (list string);
  get_run : string → backend → outcome RunInfo;
  get_experiment : string → backend → outcome ExperimentInfo;
  search_deleted_runs : list string → option string → backend → outcome (page RunInfo);
  search_deleted_experiments : option string → option string → backend → outcome (page ExperimentInfo);
  experiment_info : experiment → ExperimentInfo;
  delete_artifacts : string → M backend unit;
  _hard_delete_run : string → M backend unit;
  _hard_delete_experiment : string → M backend unit;
  store_restore_run : string → M backend unit;
  store_restore_experiment : string → M backend unit;
  set_order : list string → list string;
  timedelta_ms : option string → option string → option string → option string → outcome Z;
}.

(** ** [_parse_time_delta] and [_split_csv] *)

Definition amount_char (c : ascii) : bool := is_digit c || bool_decide (c = "."%char).
Fixpoint span_amount (s : string) : string * string :=
  match s with
  | EmptyString => ("", "")
  | String c rest => if amount_char c then let '(amount, rest) := span_amount rest in (String c amount, rest) else ("", s)
  end.

(** [((?P<unit>[\.\d]+?)u)?]: an amount runs up to the first other character. *)
Definition time_component (unit_char : ascii) (s : string) : option string * string :=
  match span_amount s with
  | (amount, String u rest) => if negb (String.eqb amount "") && bool_decide (u = unit_char) then (Some amount, rest) else (None, s)
  | _ => (None, s)
  end.

(** [regex.match(older_than)]: the four groups, or no match. *)
Definition match_time_delta (older_than : string) : option (option string * option string * option string * option string) :=
  let '(days, s) := time_component "d" older_than in
  let '(hours, s) := time_component "h" s in
  let '(minutes, s) := time_component "m" s in
  let '(seconds, s) := time_component "s" s in
  if decide (s = "" ∨ s = String (ascii_of_nat 10) "") then Some (days, hours, minutes, seconds) else None.

(** [[value.strip() for value in raw.split(",") if value.strip()]] *)
Definition _split_csv (raw : option string) : list string :=
  match nonempty raw with
  | None => []
  | Some raw => filter (λ value, value ≠ "") (py_strip <$> py_split "," raw)
  end.

(** ** The replies *)

(** Why an item was not deleted. *)
Inductive spared :=
  | NotDeleted
  | NotOlder
  | ErrorOf (e : exc).

Record CleanupReport := MkCleanup {
  deleted_runs : list string;
  failed_runs : list (string * spared);
  deleted_experiments : list string;
  failed_experiments : list (string * spared);
}.

(** A handler answers with content, or with an error and its status. *)
Inductive answer (A : Type) :=
  | Content (content : A)
  | Refusal (status : Z) (error : string).
Arguments Content {A} _.
Arguments Refusal {A} _ _.

Section trash.
Context `{TrashStore, MlflowListings}.
Context `{TTLCache unit json, TTLCache provider_key json, TTLCache (string * string) bool}.
Context `{CacheBackend PermissionResult, CacheBackend Permission}.

Definition _parse_time_delta (older_than : string) : outcome Z :=
  match match_time_delta older_than with
  | None => Raise (MlflowException INVALID_PARAMETER_VALUE)
  | Some (days, hours, minutes, seconds) => timedelta_ms days hours minutes seconds
  end.

Record trash_state := TrashState { tr_auth : auth_state; tr_backend : backend }.
Definition in_auth {A} (m : M auth_state A) : M trash_state A := λ s,
  let '(o, a) := m (tr_auth s) in (o, TrashState a (tr_backend s)).
Definition in_backend {A} (m : M backend A) : M trash_state A := λ s,
  let '(o, b) := m (tr_backend s) in (o, TrashState (tr_auth s) b).
Definition from_backend {A} (f : backend → outcome A) : M trash_state A := in_backend (ask f).
Abbreviation trash A := (M trash_state A).

(** The clock in milliseconds; the stack frames left for the recursion of the page
    loops; the rounds for those of [fetch_all_experiments]. *)
Variables (now_ms : Z) (frames fuel : nat).

(** [fetch_runs], [fetch_experiments]: the pages from [token] on; a page that
    cannot be had, for an error of the store or of the recursion limit, ends the
    list. *)
Fixpoint fetch_or_stop {A} (frames : nat) (search : option string → outcome (page A)) (token : option string) : list A :=
  match frames with
  | O => []
  | S frames =>
      match search token with
      | Raise _ => []
      | Ok found => match nonempty found.2 with Some next => found.1 ++ fetch_or_stop frames search (Some next) | None => found.1 end
      end
  end.

Definition fetch_runs (experiment_ids : list string) : trash (list RunInfo) :=
  gets (λ s, fetch_or_stop frames (λ token, search_deleted_runs experiment_ids token (tr_backend s)) None).
Definition fetch_experiments (filter_string : option string) : trash (list ExperimentInfo) :=
  gets (λ s, fetch_or_stop frames (λ token, search_deleted_experiments filter_string token (tr_backend s)) None).

(** ** The listings *)

Definition list_deleted_experiments (admin_username : string) : trash (option (list ExperimentInfo)) :=
  or_http 500 "Failed to retrieve deleted experiments" (
    deleted_experiments ← lift (fetch_all_experiments fuel ViewType_DELETED_ONLY 1000 None None);
    mret (option_map (map experiment_info) deleted_experiments)).

(** The loop over the run ids. *)
Fixpoint deleted_among (experiment_filter run_ids : list string) : trash (list RunInfo) :=
  match run_ids with
  | [] => mret []
  | run_id :: run_ids =>
      run ← catch (run ← from_backend (get_run run_id); mret (Some run)) (λ _, mret None);
      rest ← deleted_among experiment_filter run_ids;
      mret (match run with
            | Some run =>
                if negb (String.eqb (ri_lifecycle_stage run) DELETED) then rest
                else if negb (bool_decide (experiment_filter = [])) && negb (bool_decide (ri_experiment_id run ∈ experiment_filter)) then rest
                else run :: rest
            | None => rest
            end)
  end.

Definition list_deleted_runs (admin_username : string) (experiment_ids older_than : option string) : trash (option (answer (list RunInfo))) :=
  let experiment_filter := _split_csv experiment_ids in
  time_delta ← catch (match nonempty older_than with
                      | Some older_than => d ← lift (_parse_time_delta older_than); mret (Some d)
                      | None => mret (Some 0)
                      end)
                 (λ e, match e with MlflowException _ => mret None | e => raise e end);
  match time_delta with
  | None => mret (Some (Refusal 400 "Invalid time format"))
  | Some time_delta =>
      or_http 500 "Failed to retrieve deleted runs" (
        run_ids ← (if has_get_deleted_runs then ids ← from_backend (_get_deleted_runs time_delta); mret (Some ids)
                   else
                     targets ← (if decide (experiment_filter = [])
                                then all ← lift (fetch_all_experiments fuel ViewType_ALL 1000 None None); mret (option_map (map exp_id) all)
                                else mret (Some experiment_filter));
                     match targets with
                     | None => mret None
                     | Some targets => runs ← fetch_runs targets; mret (Some (ri_run_id <$> runs))
                     end);
        match run_ids with
        | None => mret None
        | Some run_ids => runs ← deleted_among experiment_filter run_ids; mret (Some (Content runs))
        end)
  end.

(** ** [permanently_delete_all_trashed_entities] *)

(** [[get_experiment(i) for i in ids]], or the first id without an experiment. *)
Fixpoint named_experiments (ids : list string) : trash (string + list ExperimentInfo) :=
  match ids with
  | [] => mret (inr [])
  | exp_id :: ids =>
      found ← catch (e ← from_backend (get_experiment exp_id); mret (Some e)) (λ _, mret None);
      match found with
      | None => mret (inl exp_id)
      | Some e => rest ← named_experiments ids; mret (match rest with inl i => inl i | inr es => inr (e :: es) end)
      end
  end.

Definition not_deleted (experiments : list ExperimentInfo) : list string :=
  ei_experiment_id <$> filter (λ e, ei_lifecycle_stage e ≠ DELETED) experiments.
Definition not_old (time_threshold : Z) (experiments : list ExperimentInfo) : list string :=
  ei_experiment_id <$> filter (λ e, match ei_last_update_time e with None => true | Some t => time_threshold <=? t end = true) experiments.

(** The experiments to delete, or the refusal. *)
Definition target_experiments (older_than experiment_ids : option string) (time_threshold : Z) : trash (Z * string + list string) :=
  if negb has_hard_delete_experiment then mret (inr [])
  else if truthy experiment_ids then
    let ids := _split_csv experiment_ids in
    experiments ← named_experiments ids;
    mret (match experiments with
          | inl exp_id => inl (404, "Experiment " +:+ exp_id +:+ " not found")
          | inr experiments =>
              if decide (not_deleted experiments ≠ []) then inl (400, "Experiments are not in deleted lifecycle stage")
              else if truthy older_than && negb (bool_decide (not_old time_threshold experiments = [])) then inl (400, "Experiments are not older")
              else inr ids
          end)
  else
    experiment_list ← fetch_experiments (if truthy older_than then Some ("last_update_time < " +:+ pretty time_threshold) else None);
    mret (inr (ei_experiment_id <$> experiment_list)).

(** One run of the loop: the reason it was not deleted, if it was not. *)
Definition cleanup_run (older_than : option string) (deleted_run_ids_older_than : list string) (run_id : string) : trash (option spared) :=
  catch (
    run ← from_backend (get_run run_id);
    if negb (String.eqb (ri_lifecycle_stage run) DELETED) then mret (Some NotDeleted)
    else if truthy older_than && negb (bool_decide (run_id ∈ deleted_run_ids_older_than)) then mret (Some NotOlder)
    else
      _ ← catch (in_backend (delete_artifacts (ri_artifact_uri run))) (λ _, mret tt);
      _ ← in_backend (_hard_delete_run run_id);
      mret None)
  (λ e, mret (Some (ErrorOf e))).

Definition cleanup_experiment (experiment_id : string) : trash (option spared) :=
  catch (_ ← in_backend (_hard_delete_experiment experiment_id); mret None) (λ e, mret (Some (ErrorOf e))).

(** A deletion loop: the ids that went, and those that did not with the reason. *)
Fixpoint cleanup_each (one : string → trash (option spared)) (ids : list string) : trash (list string * list (string * spared)) :=
  match ids with
  | [] => mret ([], [])
  | id :: ids =>
      failure ← one id;
      rest ← cleanup_each one ids;
      mret (match failure with None => (id :: rest.1, rest.2) | Some e => (rest.1, (id, e) :: rest.2) end)
  end.

(** [target_run_ids] is the very list [deleted_run_ids_older_than] unless runs are
    named, so extending the one extends the other. *)
Definition extend_targets (run_ids : option string) (deleted_run_ids_older_than from_experiments : list string) : list string * list string :=
  if truthy run_ids then (_split_csv run_ids ++ from_experiments, deleted_run_ids_older_than)
  else (deleted_run_ids_older_than ++ from_experiments, deleted_run_ids_older_than ++ from_experiments).

Definition CLEANUP_FAILED : string := "Cleanup operation failed".

(** From the listing of the deleted runs on. *)
Definition cleanup_older_than (admin_username : string) (older_than run_ids experiment_ids : option string) (time_delta : Z) : trash (answer CleanupReport) :=
  deleted_run_ids_older_than ← (if has_get_deleted_runs then catch (from_backend (_get_deleted_runs time_delta)) (λ _, mret []) else mret []);
  targets ← target_experiments older_than experiment_ids (now_ms - time_delta);
  match targets with
  | inl (status, error) => mret (Refusal status error)
  | inr target_experiment_ids =>
      runs_from_experiments ← (if decide (target_experiment_ids = []) then mret [] else fetch_runs target_experiment_ids);
      let '(target_run_ids, deleted_run_ids_older_than) := extend_targets run_ids deleted_run_ids_older_than (ri_run_id <$> runs_from_experiments) in
      runs ← cleanup_each (cleanup_run older_than deleted_run_ids_older_than) (set_order target_run_ids);
      experiments ← (if has_hard_delete_experiment then cleanup_each cleanup_experiment target_experiment_ids else mret ([], []));
      _ ← in_auth (emit_audit_event (AuditEvent "trash.cleanup" (Some admin_username) (Some "trash") None
             [("deleted_runs_count", JNum (Z.of_nat (length runs.1))); ("deleted_experiments_count", JNum (Z.of_nat (length experiments.1)));
              ("older_than", match older_than with Some t => JStr t | None => JNull end)]));
      mret (Content (MkCleanup runs.1 runs.2 experiments.1 experiments.2))
  end.

Definition permanently_delete_all_trashed_entities (admin_username : string) (older_than run_ids experiment_ids : option string) : trash (answer CleanupReport) :=
  or_http 500 CLEANUP_FAILED (
    if negb has_hard_delete_run then mret (Refusal 400 "Backend store does not support permanent deletion of runs")
    else
      match (match older_than with Some older_than => _parse_time_delta older_than | None => Ok 0 end) with
      | Ok time_delta => cleanup_older_than admin_username older_than run_ids experiment_ids time_delta
      | Raise (MlflowException _) => mret (Refusal 400 "Invalid time format")
      | Raise e => raise e
      end).

(** ** Restoring *)

Definition restored_line (admin_username resource_type resource_id : string) : audit_event :=
  AuditEvent "trash.restore" (Some admin_username) (Some resource_type) (Some resource_id) [].

Definition restore_experiment (experiment_id admin_username : string) : trash (answer ExperimentInfo) :=
  found ← catch (e ← from_backend (get_experiment experiment_id); mret (Some e)) (λ _, mret None);
  match found with
  | None => mret (Refusal 404 ("Experiment " +:+ experiment_id +:+ " not found"))
  | Some experiment =>
      if negb (String.eqb (ei_lifecycle_stage experiment) DELETED) then mret (Refusal 400 "Experiment is not deleted")
      else
        or_http 500 "Failed to restore experiment" (
          _ ← in_backend (store_restore_experiment experiment_id);
          restored ← from_backend (get_experiment experiment_id);
          _ ← in_auth (emit_audit_event (restored_line admin_username "experiment" experiment_id));
          mret (Content restored))
  end.

Definition restore_run (run_id admin_username : string) : trash (answer RunInfo) :=
  found ← catch (r ← from_backend (get_run run_id); mret (Some r)) (λ _, mret None);
  match found with
  | None => mret (Refusal 404 ("Run " +:+ run_id +:+ " not found"))
  | Some run =>
      if negb (String.eqb (ri_lifecycle_stage run) DELETED) then mret (Refusal 400 "Run is not deleted")
      else
        or_http 500 "Failed to restore run" (
          _ ← in_backend (store_restore_run run_id);
          restored ← from_backend (get_run run_id);
          _ ← in_auth (emit_audit_event (restored_line admin_username "run" run_id));
          mret (Content restored))
  end.
End trash.

(** ** The requests, with their dependency *)

Inductive TrashRequest : Type → Type :=
  | ask_list_deleted_experiments : TrashRequest (option (list ExperimentInfo))
  | ask_list_deleted_runs (experiment_ids older_than : option string) : TrashRequest (option (answer (list RunInfo)))
  | ask_cleanup (older_than run_ids experiment_ids : option string) : TrashRequest (answer CleanupReport)
  | ask_restore_experiment (experiment_id : string) : TrashRequest (answer ExperimentInfo)
  | ask_restore_run (run_id : string) : TrashRequest (answer RunInfo).

Section requests.
Context `{SqlBackend, PyRe, UserLibs, ColumnTyping, Config, TrackingStore}.
Context `{CacheBackend PermissionResult, CacheBackend Permission, TTLCache unit json, TTLCache provider_key json}.
Context `{TTLCache (string * string) bool}.
Context `{JsonLoads, Encodings, PodFiles, Network, JwtLib, TokenConfig, AuthConfig, ValidatorLibs}.
Context `{TrashStore, MlflowListings}.
Variables (now now_ms : Z) (frames fuel : nat).

Definition handle_trash {A} (r : TrashRequest A) (admin_username : string) : M trash_state A :=
  match r with
  | ask_list_deleted_experiments => list_deleted_experiments fuel admin_username
  | ask_list_deleted_runs experiment_ids older_than => list_deleted_runs frames fuel admin_username experiment_ids older_than
  | ask_cleanup older_than run_ids experiment_ids => permanently_delete_all_trashed_entities now_ms frames admin_username older_than run_ids experiment_ids
  | ask_restore_experiment experiment_id => restore_experiment experiment_id admin_username
  | ask_restore_run run_id => restore_run run_id admin_username
  end.

Definition serve_trash {A} (http : FastApiRequest) (r : TrashRequest A) : M trash_state (reply A) :=
  respond 200 (admin_username ← in_auth (check_admin_permission now http); handle_trash r admin_username).
End requests.

(** * What the trash endpoints may touch *)
From S2P Require Import RepositoryFacts RepositoryInvariant ResolutionFacts StoreFacts StoreCaches StoreCoherence BeforeRequestFacts AuthFacts ProvisioningFacts UserPermissions.
From S2P Require Import GroupPermissions Management ManagementFacts.
#[local] Open Scope Z_scope.

(** ** What MLflow documents of its store

    A reading method shows an item as it is, or fails. Deleting a run touches that
    run; deleting or restoring an experiment touches it and its runs; a search
    for deleted experiments finds deleted experiments. *)
Class TrashStoreLaws `{TrashStore} := {
  run_of : string → backend → option RunInfo;
  experiment_of : string → backend → option ExperimentInfo;
  get_run_shows id b r : get_run id b = Ok r → run_of id b = Some r ∧ ri_run_id r = id;
  get_experiment_shows id b e : get_experiment id b = Ok e → experiment_of id b = Some e;
  search_shows filter_string token b p e :
    search_deleted_experiments filter_string token b = Ok p → e ∈ p.1 → experiment_of (ei_experiment_id e) b = Some e ∧ ei_lifecycle_stage e = DELETED;
  delete_artifacts_keeps uri b id :
    run_of id (delete_artifacts uri b).2 = run_of id b ∧ experiment_of id (delete_artifacts uri b).2 = experiment_of id b;
  hard_delete_run_keeps run_id b id :
    (id ≠ run_id → run_of id (_hard_delete_run run_id b).2 = run_of id b) ∧ experiment_of id (_hard_delete_run run_id b).2 = experiment_of id b;
  restore_run_keeps run_id b id :
    (id ≠ run_id → run_of id (store_restore_run run_id b).2 = run_of id b) ∧ experiment_of id (store_restore_run run_id b).2 = experiment_of id b;
  hard_delete_experiment_keeps experiment_id b :
    (∀ id, id ≠ experiment_id → experiment_of id (_hard_delete_experiment experiment_id b).2 = experiment_of id b) ∧
    (∀ e, experiment_of experiment_id (_hard_delete_experiment experiment_id b).2 = Some e → experiment_of experiment_id b = Some e) ∧
    (∀ id r, run_of id b = Some r → ri_experiment_id r ≠ experiment_id → run_of id (_hard_delete_experiment experiment_id b).2 = Some r);
  restore_experiment_keeps experiment_id b :
    (∀ id, id ≠ experiment_id → experiment_of id (store_restore_experiment experiment_id b).2 = experiment_of id b) ∧
    (∀ id r, run_of id b = Some r → ri_experiment_id r ≠ experiment_id → run_of id (store_restore_experiment experiment_id b).2 = Some r);
  set_order_elem x l : x ∈ set_order l ↔ x ∈ l;
  set_order_nodup l : NoDup (set_order l);
}.

Section facts.
Context `{SqlBackend, PyRe, UserLibs, ColumnTyping, Config, TrackingStore}.
Context `{CacheBackend PermissionResult, CacheBackend Permission, TTLCache unit json, TTLCache provider_key json}.
Context `{TTLCache (string * string) bool}.
Context `{JsonLoads, Encodings, PodFiles, Network, JwtLib, TokenConfig, AuthConfig, ValidatorLibs}.
Context `{MlflowListings, ErrorCodeNumbers, TrashStoreLaws}.
Implicit Types (b : backend) (s : trash_state).

(** ** What is not in the trash *)

Definition live_experiment (id : string) (e : ExperimentInfo) b : Prop := experiment_of id b = Some e ∧ ei_lifecycle_stage e ≠ DELETED.
(** A run that is not deleted, of an experiment that is not. *)
Definition live_run (id : string) (r : RunInfo) b : Prop :=
  run_of id b = Some r ∧ ri_lifecycle_stage r ≠ DELETED ∧ ∃ e, live_experiment (ri_experiment_id r) e b.

Record spares_live b b' : Prop := {
  experiments_spared id e : live_experiment id e b → live_experiment id e b';
  runs_spared id r : live_run id r b → live_run id r b';
}.

#[local] Instance spares_live_preorder : PreOrder spares_live.
Proof. split; [by intros b; split|]. intros b1 b2 b3 [E1 R1] [E2 R2]. split; auto. Qed.

Lemma spares_same b b' :
  (∀ id, run_of id b' = run_of id b) → (∀ id, experiment_of id b' = experiment_of id b) → spares_live b b'.
Proof.
  intros Hr He. split; unfold live_run, live_experiment; intros id x; by rewrite ?Hr ?He.
Qed.

(** Touching one deleted run. *)
Lemma spares_one_run id0 r0 b b' :
  run_of id0 b = Some r0 → ri_lifecycle_stage r0 = DELETED →
  (∀ id, id ≠ id0 → run_of id b' = run_of id b) → (∀ id, experiment_of id b' = experiment_of id b) → spares_live b b'.
Proof.
  intros Hrun0 Hd Hr He. split; unfold live_run, live_experiment; [intros id e; by rewrite He|].
  intros id r (Hrun&Hstage&e&Hexp&Hlive). assert (id ≠ id0) as Hne by (intros ->; congruence).
  split_and!; [by rewrite Hr|done|]. exists e. by rewrite He.
Qed.

(** Touching one experiment that is not live, and its runs. *)
Lemma spares_one_experiment id0 b b' :
  (∀ e, ¬ live_experiment id0 e b) →
  (∀ id, id ≠ id0 → experiment_of id b' = experiment_of id b) →
  (∀ id r, run_of id b = Some r → ri_experiment_id r ≠ id0 → run_of id b' = Some r) → spares_live b b'.
Proof.
  intros Hnot He Hr. split.
  - intros id e Hlive. assert (id ≠ id0) as Hne by (intros ->; by apply Hnot in Hlive).
    unfold live_experiment. by rewrite He.
  - intros id r (Hrun&Hstage&e&Hlive). assert (ri_experiment_id r ≠ id0) as Hne by (intros Heq; rewrite Heq in Hlive; by apply Hnot in Hlive).
    split_and!; [by apply Hr|done|]. exists e. unfold live_experiment. by rewrite He.
Qed.

Definition keeps_live : relation trash_state := via tr_backend spares_live.
#[local] Instance keeps_live_preorder : PreOrder keeps_live.
Proof. unfold keeps_live. apply _. Qed.

(** What only looks at the store. *)
Definition same_backend : relation trash_state := via tr_backend eq.
#[local] Instance same_backend_preorder : PreOrder same_backend.
Proof. unfold same_backend. apply _. Qed.

Lemma same_keeps s s' : same_backend s s' → keeps_live s s'.
Proof. unfold same_backend, keeps_live, via. by intros ->. Qed.
Lemma within_same_keeps {A} (m : M trash_state A) : within same_backend m → within keeps_live m.
Proof. intros Hm s. apply same_keeps, Hm. Qed.

Lemma in_backend_run {A} (m : M backend A) s : in_backend m s = ((m (tr_backend s)).1, TrashState (tr_auth s) (m (tr_backend s)).2).
Proof. unfold in_backend. by destruct (m (tr_backend s)). Qed.
Lemma from_backend_run {A} (f : backend → outcome A) s : from_backend f s = (f (tr_backend s), s).
Proof. unfold from_backend. rewrite in_backend_run. by destruct s. Qed.
Lemma in_auth_run {A} (m : M auth_state A) s : in_auth m s = ((m (tr_auth s)).1, TrashState (m (tr_auth s)).2 (tr_backend s)).
Proof. unfold in_auth. by destruct (m (tr_auth s)). Qed.

Lemma same_from_backend {A} (f : backend → outcome A) : within same_backend (from_backend f).
Proof. intros s. by rewrite from_backend_run. Qed.
Lemma same_in_auth {A} (m : M auth_state A) : within same_backend (in_auth m).
Proof. intros s. by rewrite in_auth_run. Qed.
Lemma same_fetch_runs frames ids : within same_backend (fetch_runs frames ids).
Proof. done. Qed.
Lemma same_fetch_experiments frames f : within same_backend (fetch_experiments frames f).
Proof. done. Qed.
#[local] Hint Resolve same_from_backend same_in_auth same_fetch_runs same_fetch_experiments : within.

Lemma same_deleted_among experiment_filter ids : within same_backend (deleted_among experiment_filter ids).
Proof. induction ids; cbn [deleted_among]; by repeat within_step. Qed.
Lemma same_named_experiments ids : within same_backend (named_experiments ids).
Proof. induction ids; cbn [named_experiments]; by repeat within_step. Qed.
#[local] Hint Resolve same_deleted_among same_named_experiments : within.

Lemma same_target_experiments frames older_than experiment_ids t : within same_backend (target_experiments frames older_than experiment_ids t).
Proof. unfold target_experiments. by repeat within_step. Qed.

(** ** Deletions *)

Lemma cleanup_run_spares older_than old run_id : within keeps_live (cleanup_run older_than old run_id).
Proof.
  intros s. unfold cleanup_run. rewrite catch_run M_bind_run from_backend_run.
  destruct (get_run run_id (tr_backend s)) as [r|e] eqn:Hr; [|done].
  destruct (String.eqb_spec (ri_lifecycle_stage r) DELETED) as [Hd|]; cbn [negb]; [|done].
  destruct (_ && _); [done|]. rewrite M_bind_run catch_run in_backend_run.
  pose proof (λ id, proj1 (delete_artifacts_keeps (ri_artifact_uri r) (tr_backend s) id)) as Har.
  pose proof (λ id, proj2 (delete_artifacts_keeps (ri_artifact_uri r) (tr_backend s) id)) as Hae.
  destruct (delete_artifacts (ri_artifact_uri r) (tr_backend s)) as [o b1]; cbn [fst snd] in *.
  assert (∀ s1, tr_backend s1 = b1 → keeps_live s (catch (_ ← in_backend (_hard_delete_run run_id); mret (None : option spared)) (λ e, mret (Some (ErrorOf e))) s1).2) as Hgo.
  { intros s1 Hs1. rewrite catch_run M_bind_run in_backend_run Hs1.
    destruct (get_run_shows _ _ _ Hr) as [Hrun _].
    assert (spares_live (tr_backend s) (_hard_delete_run run_id b1).2) as Hsp.
    { apply (spares_one_run run_id r); [done..| |]; intros id.
      - intros Hne. by rewrite (proj1 (hard_delete_run_keeps run_id b1 id) Hne).
      - by rewrite (proj2 (hard_delete_run_keeps run_id b1 id)). }
    by destruct (_hard_delete_run run_id b1) as [[]]. }
  destruct o as [[]|e]; apply Hgo; done.
Qed.

Lemma cleanup_run_experiments older_than old run_id s id :
  experiment_of id (tr_backend (cleanup_run older_than old run_id s).2) = experiment_of id (tr_backend s).
Proof.
  unfold cleanup_run. rewrite catch_run M_bind_run from_backend_run. destruct (get_run run_id (tr_backend s)) as [r|e]; [|done].
  destruct (negb _); [done|]. destruct (_ && _); [done|]. rewrite M_bind_run catch_run in_backend_run.
  pose proof (proj2 (delete_artifacts_keeps (ri_artifact_uri r) (tr_backend s) id)) as Hae.
  destruct (delete_artifacts (ri_artifact_uri r) (tr_backend s)) as [[[]|e] b1]; cbn [fst snd] in *; rewrite ?M_ret_run M_bind_run in_backend_run;
    pose proof (proj2 (hard_delete_run_keeps run_id b1 id)) as Hhe; cbn [tr_backend] in *; destruct (_hard_delete_run run_id b1) as [[]]; cbn in *; congruence.
Qed.

Lemma cleanup_each_spares one ids : (∀ id, within keeps_live (one id)) → within keeps_live (cleanup_each one ids).
Proof. intros Hone. induction ids as [|id ids IH]; cbn [cleanup_each]; repeat first [apply Hone | apply IH | within_step]. Qed.

Lemma cleanup_each_experiments older_than old ids s id :
  experiment_of id (tr_backend (cleanup_each (cleanup_run older_than old) ids s).2) = experiment_of id (tr_backend s).
Proof.
  revert s. induction ids as [|i ids IH]; intros s; [done|]. cbn [cleanup_each]. rewrite M_bind_run.
  pose proof (cleanup_run_experiments older_than old i s id) as Hi. destruct (cleanup_run older_than old i s) as [[a|e] s1]; cbn [snd] in Hi |- *; [|done].
  rewrite M_bind_run -Hi. specialize (IH s1). by destruct (cleanup_each _ ids s1) as [[]].
Qed.

(** The ids are those of experiments that are not live. *)
Definition dead (ids : list string) b : Prop := ∀ id e, id ∈ ids → ¬ live_experiment id e b.

Lemma cleanup_experiments_spares ids s : dead ids (tr_backend s) → keeps_live s (cleanup_each cleanup_experiment ids s).2.
Proof.
  revert s. induction ids as [|i ids IH]; intros s Hd; [done|]. cbn [cleanup_each]. rewrite M_bind_run.
  unfold cleanup_experiment at 1. rewrite catch_run M_bind_run in_backend_run.
  destruct (hard_delete_experiment_keeps i (tr_backend s)) as (He&Hi&Hr).
  assert (spares_live (tr_backend s) (_hard_delete_experiment i (tr_backend s)).2) as Hsp.
  { apply (spares_one_experiment i); [|done|done]. intros e. apply Hd. set_solver. }
  assert (dead ids (_hard_delete_experiment i (tr_backend s)).2) as Hd'.
  { intros id e Hin [Hx Hst]. destruct (decide (id = i)) as [->|Hne].
    - apply (Hd i e); [set_solver|]. split; [by apply Hi|done].
    - apply (Hd id e); [set_solver|]. split; [by rewrite -He|done]. }
  destruct (_hard_delete_experiment i (tr_backend s)) as [[u|x] b1]; cbn [fst snd] in *; rewrite M_ret_run M_bind_run;
    (specialize (IH (TrashState (tr_auth s) b1) Hd'); destruct (cleanup_each cleanup_experiment ids _) as [[]]; cbn [snd] in *; (refine (transitivity (y := TrashState (tr_auth s) b1) _ IH); exact Hsp)).
Qed.

(** ** The experiments chosen for deletion are in the trash *)

Lemma named_experiments_shown ids s es s' :
  named_experiments ids s = (Ok (inr es), s') → s' = s ∧ Forall2 (λ i e, experiment_of i (tr_backend s) = Some e) ids es.
Proof.
  revert es s'. induction ids as [|i ids IH]; intros es s'; cbn [named_experiments].
  { rewrite M_ret_run. intros [= <- <-]. by split; [|constructor]. }
  rewrite M_bind_run catch_run M_bind_run from_backend_run.
  destruct (get_experiment i (tr_backend s)) as [e|x] eqn:He; rewrite M_ret_run; [|by rewrite M_ret_run].
  rewrite M_bind_run. destruct (named_experiments ids s) as [[[j|rest]|x] s1] eqn:Hrun; rewrite ?M_ret_run; [done| |done].
  intros [= <- <-]. destruct (IH _ _ eq_refl) as [-> Hall]. split; [done|]. constructor; [by apply get_experiment_shows|done].
Qed.

Lemma fetch_or_stop_elem {A} frames (search : option string → outcome (page A)) token x :
  x ∈ fetch_or_stop frames search token → ∃ t p, search t = Ok p ∧ x ∈ p.1.
Proof.
  revert token. induction frames as [|frames IH]; intros token; cbn [fetch_or_stop]; [by intros ?%not_elem_of_nil|].
  destruct (search token) as [p|e] eqn:E; [|by intros ?%not_elem_of_nil].
  destruct (nonempty p.2); [rewrite elem_of_app; intros [Hx|Hx]; [by exists token, p|exact (IH _ Hx)]|by exists token, p].
Qed.

Lemma target_experiments_dead frames older_than experiment_ids t s ids s' :
  target_experiments frames older_than experiment_ids t s = (Ok (inr ids), s') → s' = s ∧ dead ids (tr_backend s).
Proof.
  unfold target_experiments. destruct (negb _); [rewrite M_ret_run; intros [= <- <-]; split; [done|]; by intros ?? ?%not_elem_of_nil|].
  destruct (truthy experiment_ids).
  - rewrite M_bind_run. destruct (named_experiments _ s) as [[[j|es]|x] s1] eqn:Hrun; rewrite ?M_ret_run; [done| |done].
    case_decide as Hnd; [done|]. destruct (_ && _); [done|]. intros [= <- <-].
    destruct (named_experiments_shown _ _ _ _ Hrun) as [-> Hall]. split; [done|].
    intros id e Hin [He Hst]. apply list_elem_of_lookup in Hin as [k Hk].
    destruct (Forall2_lookup_l _ _ _ _ _ Hall Hk) as (e'&Hk'&He'). rewrite He in He'. injection He' as <-.
    assert (ei_experiment_id e ∈ not_deleted es) as Hx.
    { unfold not_deleted. apply list_elem_of_fmap. exists e. split; [done|]. apply list_elem_of_filter. split; [done|]. exact (list_elem_of_lookup_2 _ _ _ Hk'). }
    rewrite Hnd in Hx. by apply not_elem_of_nil in Hx.
  - rewrite M_bind_run. unfold fetch_experiments. rewrite gets_run M_ret_run. intros [= <- <-]. split; [done|].
    intros id e Hin [He Hst]. apply list_elem_of_fmap in Hin as (e'&->&Hin). apply fetch_or_stop_elem in Hin as (tk&p&Hs&Hp).
    destruct (search_shows _ _ _ _ _ Hs Hp) as [He' Hd]. congruence.
Qed.

Lemma cleanup_older_than_keeps_live now_ms frames admin older_than run_ids experiment_ids time_delta :
  within keeps_live (cleanup_older_than now_ms frames admin older_than run_ids experiment_ids time_delta).
Proof.
  unfold cleanup_older_than.
  apply within_bind; [apply _|apply within_same_keeps; by repeat within_step|intros old].
  intros s. rewrite M_bind_run.
  destruct (target_experiments frames older_than experiment_ids (now_ms - time_delta) s) as [[[[st er]|ids]|e] s1] eqn:Ht.
  1,3: pose proof (same_target_experiments frames older_than experiment_ids (now_ms - time_delta) s) as Hs; rewrite Ht in Hs; exact (same_keeps _ _ Hs).
  apply target_experiments_dead in Ht as [-> Hdead].
  rewrite M_bind_run. assert (∃ runs, (if decide (ids = []) then mret [] else fetch_runs frames ids) s = (Ok runs, s)) as [runs ->] by (case_decide; by eexists).
  destruct (extend_targets run_ids old (ri_run_id <$> runs)) as [targets old'].
  rewrite M_bind_run. pose proof (cleanup_each_spares (cleanup_run older_than old') (set_order targets) (cleanup_run_spares older_than old') s) as Hk.
  pose proof (cleanup_each_experiments older_than old' (set_order targets) s) as He.
  destruct (cleanup_each (cleanup_run older_than old') (set_order targets) s) as [[rs|e] s1]; [|exact Hk]. cbn [snd] in Hk, He.
  etrans; [exact Hk|]. rewrite M_bind_run.
  assert (keeps_live s1 ((if has_hard_delete_experiment then cleanup_each cleanup_experiment ids else mret ([], [])) s1).2) as Hk2.
  { destruct has_hard_delete_experiment; [|done]. apply cleanup_experiments_spares. intros id e Hin [Hx Hst]. apply (Hdead id e Hin). by split; [rewrite -He|]. }
  destruct ((if has_hard_delete_experiment then cleanup_each cleanup_experiment ids else mret ([], [])) s1) as [[es|e] s2]; [|exact Hk2]. cbn [snd] in Hk2.
  etrans; [exact Hk2|]. by rewrite M_bind_run in_auth_run.
Qed.

Lemma cleanup_keeps_live now_ms frames admin older_than run_ids experiment_ids :
  within keeps_live (permanently_delete_all_trashed_entities now_ms frames admin older_than run_ids experiment_ids).
Proof.
  unfold permanently_delete_all_trashed_entities, or_http.
  apply within_catch; [apply _| |intros; by apply within_raise; apply _].
  destruct (negb has_hard_delete_run); [apply within_ret; apply _|].
  destruct (match older_than with Some _ => _ | None => _ end) as [td|e]; [apply cleanup_older_than_keeps_live|].
  destruct e; first [apply within_ret; apply _ | apply within_raise; apply _].
Qed.

(** ** Restoring *)

Lemma restore_run_keeps_live run_id admin : within keeps_live (restore_run run_id admin).
Proof.
  unfold restore_run. intros s. rewrite M_bind_run catch_run M_bind_run from_backend_run.
  destruct (get_run run_id (tr_backend s)) as [r|e] eqn:Hr; rewrite M_ret_run; [|done].
  destruct (String.eqb_spec (ri_lifecycle_stage r) DELETED) as [Hd|]; cbn [negb]; [|done].
  unfold or_http. rewrite catch_run M_bind_run in_backend_run. destruct (get_run_shows _ _ _ Hr) as [Hrun _].
  assert (spares_live (tr_backend s) (store_restore_run run_id (tr_backend s)).2) as Hsp.
  { apply (spares_one_run run_id r); [done..| |]; intros id; [intros Hne; by apply restore_run_keeps|apply restore_run_keeps]. }
  destruct (store_restore_run run_id (tr_backend s)) as [[u|x] b1]; cbn [fst snd] in *; [|exact Hsp].
  rewrite M_bind_run from_backend_run. cbn [tr_backend]. destruct (get_run run_id b1); [|exact Hsp].
  rewrite M_bind_run in_auth_run. exact Hsp.
Qed.

Lemma restore_experiment_keeps_live experiment_id admin : within keeps_live (restore_experiment experiment_id admin).
Proof.
  unfold restore_experiment. intros s. rewrite M_bind_run catch_run M_bind_run from_backend_run.
  destruct (get_experiment experiment_id (tr_backend s)) as [x|e] eqn:Hx; rewrite M_ret_run; [|done].
  destruct (String.eqb_spec (ei_lifecycle_stage x) DELETED) as [Hd|]; cbn [negb]; [|done].
  unfold or_http. rewrite catch_run M_bind_run in_backend_run. apply get_experiment_shows in Hx.
  destruct (restore_experiment_keeps experiment_id (tr_backend s)) as [He Hr].
  assert (spares_live (tr_backend s) (store_restore_experiment experiment_id (tr_backend s)).2) as Hsp.
  { apply (spares_one_experiment experiment_id); [|done|done]. intros e [He' Hst]. congruence. }
  destruct (store_restore_experiment experiment_id (tr_backend s)) as [[u|y] b1]; cbn [fst snd] in *; [|exact Hsp].
  rewrite M_bind_run from_backend_run. cbn [tr_backend]. destruct (get_experiment experiment_id b1); [|exact Hsp].
  rewrite M_bind_run in_auth_run. exact Hsp.
Qed.

Lemma handle_keeps_live now_ms frames fuel {A} (r : TrashRequest A) admin : within keeps_live (handle_trash now_ms frames fuel r admin).
Proof.
  destruct r; cbn [handle_trash].
  - apply within_same_keeps. unfold list_deleted_experiments, or_http. by repeat within_step.
  - apply within_same_keeps. unfold list_deleted_runs, or_http. by repeat within_step.
  - apply cleanup_keeps_live.
  - apply restore_experiment_keeps_live.
  - apply restore_run_keeps_live.
Qed.

(** C17: The trash is emptied by administrators only, and nothing else is ever
    lost with it: whoever sends a request to the trash and whatever it names, an
    experiment that is not deleted stays as it is, and so does every run of it
    that is not deleted; a sender who is no administrator gets 403 and changes
    nothing at all. *)
Theorem the_trash_loses_nothing_alive now now_ms frames fuel http u {A} (r : TrashRequest A) s :
  sent_by u http → served u (tr_auth s) →
  let run := serve_trash now now_ms frames fuel http r s in
  spares_live (tr_backend s) (tr_backend run.2) ∧
  (¬ is_administrator u (au_db (tr_auth s)) → run.1 = Ok (Failed 403) ∧ tr_backend run.2 = tr_backend s ∧ untouched (tr_auth s) (tr_auth run.2)).
Proof.
  intros Hsent Hs. destruct (admin_guards now http u Hsent (tr_auth s) Hs) as [Hun Hok].
  cbv zeta. unfold serve_trash, respond. rewrite catch_run !M_bind_run in_auth_run.
  destruct (check_admin_permission now http (tr_auth s)) as [[name|e] a]; cbn [fst snd] in *.
  - destruct Hok as [Hper ->]. split.
    + pose proof (handle_keeps_live now_ms frames fuel r u (TrashState a (tr_backend s))) as Hk. unfold keeps_live, via in Hk. cbn [tr_backend] in Hk.
      by destruct (handle_trash now_ms frames fuel r u _) as [[]].
    + intros Hno. exfalso. destruct Hper as [Hadm|[]]. done.
  - split; [reflexivity|]. intros Hno. cbn. split_and!; [|done|exact Hun].
    assert (refused AdminOnly u (au_db (tr_auth s))) as Href by (split; [by intros [|[]]|done]). by rewrite (proj2 Hok Href).
Qed.
End facts.

(** * What a cleanup reports, and how it reads ages *)

(** ** Ages *)

(** An amount as the source writes it: digits and dots, at least one. *)
Definition amount (s : string) : Prop := s ≠ "" ∧ forallb amount_char (String.list_ascii_of_string s) = true.
Definition amount_or_none (o : option string) : Prop := match o with Some a => amount a | None => True end.

Definition write_component (unit_char : ascii) (o : option string) : string :=
  match o with Some a => a +:+ String unit_char "" | None => "" end.
Definition write_time_delta (days hours minutes seconds : option string) : string :=
  write_component "d" days +:+ write_component "h" hours +:+ write_component "m" minutes +:+ write_component "s" seconds.

(** What may follow an amount of one unit: nothing, or another amount, which is
    not followed by that unit. *)
Definition stops (unit_char : ascii) (s : string) : Prop :=
  match span_amount s with (_, String u _) => u ≠ unit_char | (_, EmptyString) => True end.

Lemma append_assoc_str (a b c : string) : (a +:+ b) +:+ c = a +:+ b +:+ c.
Proof. induction a as [|x a IH]; [done|]. exact (f_equal (String x) IH). Qed.

Lemma span_amount_app a c s : forallb amount_char (String.list_ascii_of_string a) = true → amount_char c = false →
  span_amount (a +:+ String c s) = (a, String c s).
Proof.
  intros Ha Hc. induction a as [|x a IH]; [change ("" +:+ ?t) with t; cbn [span_amount]; by rewrite Hc|]. cbn [String.list_ascii_of_string forallb] in Ha. apply andb_true_iff in Ha as [Hx Ha].
  change (span_amount (String x (a +:+ String c s)) = (String x a, String c s)). cbn [span_amount]. by rewrite Hx (IH Ha).
Qed.

Lemma span_amount_spec s : s = (span_amount s).1 +:+ (span_amount s).2 ∧ forallb amount_char (String.list_ascii_of_string (span_amount s).1) = true.
Proof.
  induction s as [|c s [IH1 IH2]]; [done|]. cbn [span_amount]. destruct (amount_char c) eqn:E; [|done].
  destruct (span_amount s) as [a r]. cbn in *. split; [exact (f_equal (String c) IH1)|]. by rewrite E IH2.
Qed.

Lemma time_component_write u o s :
  amount_char u = false → amount_or_none o → (o = None → stops u s) → time_component u (write_component u o +:+ s) = (o, s).
Proof.
  intros Hu Ho Hs. unfold time_component. destruct o as [a|].
  - destruct Ho as [Hne Ha]. cbn [write_component]. rewrite append_assoc_str. change (String u "" +:+ s) with (String u s).
    rewrite (span_amount_app _ _ _ Ha Hu). rewrite bool_decide_true // andb_true_r. by destruct (String.eqb_spec a "").
  - specialize (Hs eq_refl). change (write_component u None +:+ s) with s. unfold stops in Hs. destruct (span_amount s) as [a [|c r]]; [done|].
    by rewrite (bool_decide_false _ Hs) andb_false_r.
Qed.

Lemma time_component_inv u s o s' : time_component u s = (o, s') → amount_or_none o ∧ s = write_component u o +:+ s'.
Proof.
  unfold time_component. destruct (span_amount_spec s) as [Hs Ha]. destruct (span_amount s) as [a [|c r]] eqn:E; [by intros [= <- <-]|].
  destruct (negb (String.eqb a "") && bool_decide (c = u)) eqn:Eb; [|by intros [= <- <-]]. intros [= <- <-].
  apply andb_true_iff in Eb as [Hne ->%bool_decide_eq_true]. apply negb_true_iff, String.eqb_neq in Hne.
  split; [by split|]. cbn [write_component]. rewrite append_assoc_str. exact Hs.
Qed.

Lemma stops_write u u' o s : amount_char u' = false → u ≠ u' → amount_or_none o → (o = None → stops u s) → stops u (write_component u' o +:+ s).
Proof.
  intros Hu' Hne Ho Hs. destruct o as [a|]; [|exact (Hs eq_refl)]. destruct Ho as [_ Ha].
  unfold stops. cbn [write_component]. rewrite append_assoc_str. change (String u' "" +:+ s) with (String u' s). rewrite (span_amount_app _ _ _ Ha Hu'). congruence.
Qed.

(** The age filter is read back as it is written: four optional amounts, in
    the order days, hours, minutes, seconds. What is read is what stands there,
    up to a final line feed, which the pattern lets pass. *)
Theorem ages_are_read_as_written :
  (∀ days hours minutes seconds, amount_or_none days → amount_or_none hours → amount_or_none minutes → amount_or_none seconds →
     match_time_delta (write_time_delta days hours minutes seconds) = Some (days, hours, minutes, seconds)) ∧
  (∀ s days hours minutes seconds, match_time_delta s = Some (days, hours, minutes, seconds) →
     amount_or_none days ∧ amount_or_none hours ∧ amount_or_none minutes ∧ amount_or_none seconds ∧
     (s = write_time_delta days hours minutes seconds ∨ s = write_time_delta days hours minutes seconds +:+ String (ascii_of_nat 10) "")).
Proof.
  split.
  - intros d h m sec Hd Hh Hm Hs. unfold match_time_delta, write_time_delta.
    assert (write_component "s" sec = write_component "s" sec +:+ "") as -> by (symmetry; clear; induction (write_component "s" sec) as [|c s IH]; [done|exact (f_equal (String c) IH)]).
    rewrite (time_component_write "d" d); [|done|done|intros ->; by repeat (apply stops_write; [done|done|done|intros _])].
    rewrite (time_component_write "h" h); [|done|done|intros ->; by repeat (apply stops_write; [done|done|done|intros _])].
    rewrite (time_component_write "m" m); [|done|done|intros ->; by repeat (apply stops_write; [done|done|done|intros _])].
    by rewrite (time_component_write "s" sec).
  - intros s d h m sec. unfold match_time_delta.
    destruct (time_component "d" s) as [d' s1] eqn:E1. destruct (time_component "h" s1) as [h' s2] eqn:E2.
    destruct (time_component "m" s2) as [m' s3] eqn:E3. destruct (time_component "s" s3) as [sec' s4] eqn:E4.
    apply time_component_inv in E1 as [? ->], E2 as [? ->], E3 as [? ->], E4 as [? ->].
    case_decide as Hend; [|done]. intros [= <- <- <- <-]. split_and!; [done..|].
    unfold write_time_delta. destruct Hend as [-> | ->]; [left|right]; rewrite ?append_assoc_str; [|done].
    do 3 f_equal. induction (write_component "s" sec') as [|c t IH]; [done|]. exact (f_equal (String c) IH).
Qed.

(** ** Reports *)

Section reports.
Context `{TrashStore, MlflowListings}.
Context `{TTLCache unit json, TTLCache provider_key json, TTLCache (string * string) bool}.
Context `{CacheBackend PermissionResult, CacheBackend Permission}.
Implicit Types (s : trash_state).

Lemma cleanup_each_accounts one ids s (r : list string * list (string * spared)) s' :
  cleanup_each one ids s = (Ok r, s') → r.1 ++ r.2.*1 ≡ₚ ids.
Proof.
  revert s r s'. induction ids as [|i ids IH]; intros s r s'; cbn [cleanup_each]; [by rewrite M_ret_run; intros [= <- _]|].
  rewrite M_bind_ok. intros (f&s1&_&Hrun). apply M_bind_ok in Hrun as (rest&s2&Hrest&[-> _]%ret_ok).
  specialize (IH _ _ _ Hrest). destruct f; cbn; [by rewrite -Permutation_middle IH|by rewrite IH].
Qed.

(** Each id passed the single deletion, or was given its reason by it. *)
Lemma cleanup_each_outcomes one ids s (r : list string * list (string * spared)) s' :
  cleanup_each one ids s = (Ok r, s') →
  (∀ id, id ∈ r.1 → ∃ t t', one id t = (Ok None, t')) ∧ (∀ id e, (id, e) ∈ r.2 → ∃ t t', one id t = (Ok (Some e), t')).
Proof.
  revert s r s'. induction ids as [|i ids IH]; intros s r s'; cbn [cleanup_each].
  { rewrite M_ret_run. intros [= <- _]. split; cbn; [by intros ? ?%not_elem_of_nil|by intros ? ? ?%not_elem_of_nil]. }
  rewrite M_bind_ok. intros (f&s1&Hone&Hrun). apply M_bind_ok in Hrun as (rest&s2&Hrest&[-> _]%ret_ok).
  destruct (IH _ _ _ Hrest) as [Hd Hf]. destruct f as [e|]; cbn; split; try done.
  - intros id e' [[= -> ->]|Hin]%elem_of_cons; eauto.
  - intros id [->|Hin]%elem_of_cons; eauto.
Qed.

Lemma cleanup_run_old older_than old id s s' : truthy older_than = true → cleanup_run older_than old id s = (Ok None, s') → id ∈ old.
Proof.
  intros Ho. unfold cleanup_run. rewrite catch_run M_bind_run. destruct (from_backend (get_run id) s) as [[r|e] s1]; [|done].
  destruct (negb (String.eqb (ri_lifecycle_stage r) DELETED)); [done|]. rewrite Ho andb_true_l.
  destruct (bool_decide (id ∈ old)) eqn:E; [|done]. intros _. by apply bool_decide_eq_true in E.
Qed.

Lemma cleanup_run_not_older older_than old id s s' : id ∈ old → cleanup_run older_than old id s ≠ (Ok (Some NotOlder), s').
Proof.
  intros Ho. unfold cleanup_run. rewrite catch_run M_bind_run. destruct (from_backend (get_run id) s) as [[r|e] s1]; [|done].
  destruct (negb (String.eqb (ri_lifecycle_stage r) DELETED)); [done|]. rewrite (bool_decide_true _ Ho) andb_false_r.
  rewrite M_bind_run. destruct (catch _ _ s1) as [[]]; [|done]. rewrite M_bind_run. by destruct (in_backend _ _) as [[]].
Qed.

Variables (now_ms : Z) (frames : nat).

(** What the requester asked to have deleted, read off the request and the store
    as it was: the age; the runs that are older; the experiments, named or all
    those the search for deleted ones yields; the runs, named or the older ones,
    and with them those of the experiments. *)
Definition age_meant (older_than : option string) : outcome Z :=
  match older_than with Some t => _parse_time_delta t | None => Ok 0 end.
Definition runs_older (time_delta : Z) (b : backend) : list string :=
  if has_get_deleted_runs then match _get_deleted_runs time_delta b with Ok ids => ids | Raise _ => [] end else [].
Definition experiments_meant (older_than experiment_ids : option string) (time_delta : Z) (b : backend) : list string :=
  if negb has_hard_delete_experiment then []
  else if truthy experiment_ids then _split_csv experiment_ids
  else ei_experiment_id <$> fetch_or_stop frames (λ token, search_deleted_experiments
         (if truthy older_than then Some ("last_update_time < " +:+ pretty (now_ms - time_delta)) else None) token b) None.
Definition runs_of_experiments (ids : list string) (b : backend) : list string :=
  if decide (ids = []) then [] else ri_run_id <$> fetch_or_stop frames (λ token, search_deleted_runs ids token b) None.
Definition runs_meant (older_than run_ids experiment_ids : option string) (time_delta : Z) (b : backend) : list string :=
  (if truthy run_ids then _split_csv run_ids else runs_older time_delta b) ++
  runs_of_experiments (experiments_meant older_than experiment_ids time_delta b) b.

(** A search served in [n] pages, from a token on. *)
Inductive paged {A} (search : option string → outcome (page A)) : option string → nat → list A → Prop :=
  | last_page token found : search token = Ok found → nonempty found.2 = None → paged search token 1 found.1
  | page_and_more token found next n rest :
      search token = Ok found → nonempty found.2 = Some next → paged search (Some next) n rest → paged search token (S n) (found.1 ++ rest).

(** With a frame for every page the whole search is fetched. *)
Lemma fetch_paged {A} (search : option string → outcome (page A)) token n rows fr :
  paged search token n rows → (n ≤ fr)%nat → fetch_or_stop fr search token = rows.
Proof.
  intros Hp. revert fr. induction Hp as [token found Hs Hn|token found next n rest Hs Hn _ IH]; intros [|fr] Hle; try lia; cbn [fetch_or_stop]; rewrite Hs Hn; [done|].
  by rewrite IH; [|lia].
Qed.

(** What a cleanup worked on. *)
Record worked (older_than run_ids experiment_ids : option string) s (rep : CleanupReport) (time_delta : Z) : Prop := {
  age_read : age_meant older_than = Ok time_delta;
  runs_reported : ∃ t t',
    cleanup_each (cleanup_run older_than (if truthy run_ids then runs_older time_delta (tr_backend s) else runs_meant older_than run_ids experiment_ids time_delta (tr_backend s)))
      (set_order (runs_meant older_than run_ids experiment_ids time_delta (tr_backend s))) t = (Ok (deleted_runs rep, failed_runs rep), t');
  experiments_reported : deleted_experiments rep ++ (failed_experiments rep).*1 ≡ₚ experiments_meant older_than experiment_ids time_delta (tr_backend s);
}.

Lemma named_experiments_same ids s o s' : named_experiments ids s = (o, s') → tr_backend s' = tr_backend s.
Proof.
  revert s o s'. induction ids as [|i ids IH]; intros s o s'; cbn [named_experiments]; [by rewrite M_ret_run; intros [= _ <-]|].
  rewrite M_bind_run catch_run M_bind_run. unfold from_backend, in_backend, ask. destruct (get_experiment i (tr_backend s)) as [e|e]; rewrite M_ret_run.
  - rewrite M_bind_run. destruct (named_experiments ids _) as [o1 s1] eqn:E. apply IH in E. cbn in E.
    destruct o1; [rewrite M_ret_run|]; by intros [= _ <-].
  - rewrite M_ret_run. by intros [= _ <-].
Qed.

Lemma target_experiments_meant older_than experiment_ids time_delta s ids s' :
  target_experiments frames older_than experiment_ids (now_ms - time_delta) s = (Ok (inr ids), s') →
  ids = experiments_meant older_than experiment_ids time_delta (tr_backend s) ∧ tr_backend s' = tr_backend s.
Proof.
  unfold target_experiments, experiments_meant. destruct has_hard_delete_experiment; cbn [negb]; [|by intros [[= ->] ->]%ret_ok].
  destruct (truthy experiment_ids).
  - intros (es&s1&Hn&Hrun)%M_bind_ok. apply named_experiments_same in Hn. destruct es as [i|es]; [by apply ret_ok in Hrun as [? _]|].
    case_decide; [by apply ret_ok in Hrun as [? _]|]. destruct (_ && _); [by apply ret_ok in Hrun as [? _]|]. by apply ret_ok in Hrun as [[= ->] ->].
  - unfold fetch_experiments. by intros (es&s1&[-> ->]%gets_ok&[[= ->] ->]%ret_ok)%M_bind_ok.
Qed.

Lemma cleanup_worked admin older_than run_ids experiment_ids s rep s' :
  permanently_delete_all_trashed_entities now_ms frames admin older_than run_ids experiment_ids s = (Ok (Content rep), s') →
  ∃ time_delta, worked older_than run_ids experiment_ids s rep time_delta.
Proof.
  unfold permanently_delete_all_trashed_entities, or_http. intros [Hrun|(e&s1&_&Hx)]%catch_cases; [|done].
  destruct (negb has_hard_delete_run); [done|]. change (match older_than with Some t => _parse_time_delta t | None => Ok 0 end) with (age_meant older_than) in Hrun.
  destruct (age_meant older_than) as [td|e] eqn:Htd; [|by destruct e].
  exists td. unfold cleanup_older_than in Hrun. apply M_bind_ok in Hrun as (old&s1&Hold&Hrun).
  assert (old = runs_older td (tr_backend s) ∧ s1 = s) as [-> ->].
  { unfold runs_older. destruct has_get_deleted_runs; [|by apply ret_ok in Hold as [-> ->]].
    unfold from_backend, in_backend, ask in Hold. rewrite catch_run in Hold.
    destruct (_get_deleted_runs td (tr_backend s)) as [l|e]; [|rewrite M_ret_run in Hold]; injection Hold as <- <-; by destruct s. }
  apply M_bind_ok in Hrun as ([[st er]|ids]&s2&Hids&Hrun); [done|]. apply target_experiments_meant in Hids as [-> Hs2].
  apply M_bind_ok in Hrun as (extra&s3&Hextra&Hrun).
  set (exps := experiments_meant older_than experiment_ids td (tr_backend s)) in *.
  assert (ri_run_id <$> extra = runs_of_experiments exps (tr_backend s)) as Hx.
  { unfold runs_of_experiments. case_decide; [by apply ret_ok in Hextra as [-> _]|]. unfold fetch_runs in Hextra. apply gets_ok in Hextra as [-> _]. by rewrite Hs2. }
  rewrite Hx in Hrun.
  assert (extend_targets run_ids (runs_older td (tr_backend s)) (runs_of_experiments exps (tr_backend s)) =
    (runs_meant older_than run_ids experiment_ids td (tr_backend s),
     if truthy run_ids then runs_older td (tr_backend s) else runs_meant older_than run_ids experiment_ids td (tr_backend s))) as Htargets
    by (unfold extend_targets, runs_meant; by destruct (truthy run_ids)).
  rewrite Htargets in Hrun.
  apply M_bind_ok in Hrun as (runs&s4&Hruns&Hrun). apply M_bind_ok in Hrun as (done_exps&s5&Hexps&Hrun).
  apply M_bind_ok in Hrun as (u&s6&_&[[= ->] _]%ret_ok). split; cbn [deleted_runs failed_runs deleted_experiments failed_experiments].
  - exact Htd.
  - exists s3, s4. rewrite Hruns. by destruct runs.
  - unfold exps, experiments_meant in *. destruct has_hard_delete_experiment; [exact (cleanup_each_accounts _ _ _ _ _ Hexps)|by apply ret_ok in Hexps as [-> _]].
Qed.

(** C33: A cleanup that answers with a report accounts for exactly what it was
    asked to delete, as the request and the store at its start say: the runs
    named in it, or else all deleted ones older than the age, and with them the
    runs found for the experiments; the experiments named in it, or else those
    the search for deleted ones yields, page by page until it ends or fails.
    Each of these runs (as the elements of a set) and each of these experiments
    is reported, as deleted or as failed, and nothing else is. When runs are
    named with an age, none is deleted that is not older. When none are named,
    the age of a run is never a reason to spare it: the list of old runs that it
    is compared with is the list of targets itself, the runs found in
    experiments included. *)
Theorem a_cleanup_accounts_for_every_target admin older_than run_ids experiment_ids s rep s' :
  permanently_delete_all_trashed_entities now_ms frames admin older_than run_ids experiment_ids s = (Ok (Content rep), s') →
  ∃ time_delta, age_meant older_than = Ok time_delta ∧
    let runs := runs_meant older_than run_ids experiment_ids time_delta (tr_backend s) in
    deleted_runs rep ++ (failed_runs rep).*1 ≡ₚ set_order runs ∧
    deleted_experiments rep ++ (failed_experiments rep).*1 ≡ₚ experiments_meant older_than experiment_ids time_delta (tr_backend s) ∧
    (truthy run_ids = true → truthy older_than = true → ∀ r, r ∈ deleted_runs rep → r ∈ runs_older time_delta (tr_backend s)) ∧
    (truthy run_ids = false → (∀ x l, x ∈ set_order l → x ∈ l) → ∀ r, (r, NotOlder) ∉ failed_runs rep).
Proof.
  intros (td&[Hage (t&t'&Hruns) Hexps])%cleanup_worked. exists td.
  pose proof (cleanup_each_accounts _ _ _ _ _ Hruns) as Hall. pose proof (cleanup_each_outcomes _ _ _ _ _ Hruns) as [Hd Hf].
  cbn [fst snd] in Hall, Hd, Hf. cbv zeta. split_and!; [exact Hage|exact Hall|exact Hexps| |].
  - intros Hr Ho r (u&u'&Hin)%Hd. rewrite Hr in Hin. exact (cleanup_run_old _ _ _ _ _ Ho Hin).
  - intros Hr Hso r Hin. rewrite Hr in Hf. destruct (Hf _ _ Hin) as (u&u'&Hone). cbn [fst snd] in *.
    apply cleanup_run_not_older in Hone; [done|]. apply Hso. rewrite -Hall. apply elem_of_app. right.
    apply list_elem_of_fmap. by exists (r, NotOlder).
Qed.
End reports.

(** * The trash of a sample tracking store *)
From S2P Require Import Samples UserFacts SampleMlflow Hooks BeforeRequest AfterRequestFacts RegistryFacts TokenFacts AuthWitnesses ManagementWitnesses.
#[local] Open Scope Z_scope.

(** ** A store: experiments and runs by id, where deleting and restoring an
    experiment takes its runs along *)

Record tracking := MkTracking { t_experiments : gmap string ExperimentInfo; t_runs : gmap string RunInfo }.

Definition with_stage (stage : string) (r : RunInfo) : RunInfo :=
  MkRunInfo (ri_run_id r) (ri_experiment_id r) (ri_run_name r) (ri_status r) (ri_start_time r) (ri_end_time r) stage (ri_artifact_uri r).
Definition with_experiment_stage (stage : string) (e : ExperimentInfo) : ExperimentInfo :=
  MkExperimentInfo (ei_experiment_id e) (ei_name e) stage (ei_artifact_location e) (ei_tags e) (ei_creation_time e) (ei_last_update_time e).

(** In milliseconds; [ri_end_time] stands for the time of the deletion. *)
Definition sample_now : Z := 1000 * 24 * 60 * 60 * 1000.
Definition ms_of (unit_ms : Z) (o : option string) : Z := match o with Some s => unit_ms * default 0 (py_int s) | None => 0 end.

#[export] Instance sample_trash : TrashStore | 100 := {|
  backend := tracking;
  has_get_deleted_runs := true;
  has_hard_delete_run := true;
  has_hard_delete_experiment := true;
  _get_deleted_runs td b :=
    Ok (omap (λ '(id, r), if decide (ri_lifecycle_stage r = DELETED ∧ match ri_end_time r with Some t => t <=? sample_now - td | None => false end = true) then Some id else None) (map_to_list (t_runs b)));
  get_run id b := match t_runs b !! id with
                  | Some r => if decide (ri_run_id r = id) then Ok r else Raise (MlflowException RESOURCE_DOES_NOT_EXIST)
                  | None => Raise (MlflowException RESOURCE_DOES_NOT_EXIST)
                  end;
  get_experiment id b := match t_experiments b !! id with Some e => Ok e | None => Raise (MlflowException RESOURCE_DOES_NOT_EXIST) end;
  search_deleted_runs ids token b := Ok (filter (λ r, ri_lifecycle_stage r = DELETED ∧ ri_experiment_id r ∈ ids) (map_to_list (t_runs b)).*2, None);
  search_deleted_experiments _ token b :=
    Ok (omap (λ '(id, e), if decide (ei_experiment_id e = id ∧ ei_lifecycle_stage e = DELETED) then Some e else None) (map_to_list (t_experiments b)), None);
  experiment_info e := MkExperimentInfo (exp_id e) (exp_name e) DELETED "" [] None None;
  delete_artifacts uri := mret tt;
  _hard_delete_run id := modify (λ b, MkTracking (t_experiments b) (delete id (t_runs b)));
  _hard_delete_experiment id := modify (λ b, MkTracking (delete id (t_experiments b)) (filter (λ r, ri_experiment_id r.2 ≠ id) (t_runs b)));
  store_restore_run id := modify (λ b, MkTracking (t_experiments b) (alter (with_stage "active") id (t_runs b)));
  store_restore_experiment id :=
    modify (λ b, MkTracking (alter (with_experiment_stage "active") id (t_experiments b))
                   ((λ r, if decide (ri_experiment_id r = id) then with_stage "active" r else r) <$> t_runs b));
  set_order := remove_dups;
  timedelta_ms d h m s := Ok (ms_of 86400000 d + ms_of 3600000 h + ms_of 60000 m + ms_of 1000 s);
|}.

#[export] Program Instance sample_trash_laws : TrashStoreLaws | 100 := {|
  run_of id b := match t_runs b !! id with Some r => if decide (ri_run_id r = id) then Some r else None | None => None end;
  experiment_of id b := t_experiments b !! id;
|}.
Next Obligation. intros id b r. cbn. destruct (t_runs b !! id); [|done]. case_decide; [|done]. by intros [= <-]. Qed.
Next Obligation. intros id b e. cbn. destruct (t_experiments b !! id); [by intros [= <-]|done]. Qed.
Next Obligation.
  intros f token b p e. cbn. intros [= <-]. cbn. rewrite list_elem_of_omap. intros ([k x]&Hin%elem_of_map_to_list&Hx).
  case_decide as Hd; [|done]. injection Hx as <-. by destruct Hd as [-> ?].
Qed.
Next Obligation. done. Qed.
Next Obligation. intros rid b id. cbn. split; [|done]. intros Hne. rewrite lookup_delete_ne; [done|congruence]. Qed.
Next Obligation. intros rid b id. cbn. split; [|done]. intros Hne. rewrite lookup_alter_ne; [done|congruence]. Qed.
Next Obligation.
  intros eid b. cbn. split_and!.
  - intros id Hne. rewrite lookup_delete_ne; [done|congruence].
  - intros e. by rewrite lookup_delete_eq.
  - intros id r. destruct (t_runs b !! id) as [r'|] eqn:Hr; [|done]. case_decide as Hid; [|done]. intros [= <-] Hne.
    rewrite (map_lookup_filter_Some_2 (λ r, ri_experiment_id r.2 ≠ eid) _ _ _ Hr Hne). by rewrite decide_True.
Qed.
Next Obligation.
  intros eid b. cbn. split.
  - intros id Hne. rewrite lookup_alter_ne; [done|congruence].
  - intros id r. destruct (t_runs b !! id) as [r'|] eqn:Hr; [|done]. case_decide as Hid; [|done]. intros [= <-] Hne.
    rewrite lookup_fmap Hr /=. rewrite (decide_False _ _ Hne). by case_decide.
Qed.
Next Obligation. intros x l. apply elem_of_remove_dups. Qed.
Next Obligation. intros l. apply NoDup_remove_dups. Qed.

(** ** What is in it *)

Definition sample_experiment (id stage : string) (updated : Z) : ExperimentInfo := MkExperimentInfo id ("name-" +:+ id) stage ("s3://" +:+ id) [] (Some 0) (Some updated).
Definition sample_run (id experiment stage : string) (deleted : Z) : RunInfo := MkRunInfo id experiment None "FINISHED" None (Some deleted) stage ("s3://" +:+ id).
Definition days (n : Z) : Z := n * 24 * 60 * 60 * 1000.

(** Experiment [e2] was deleted long ago, its run [young] yesterday. *)
Definition sample_tracking_store : tracking :=
  MkTracking (list_to_map [("e1", sample_experiment "e1" "active" 0); ("e2", sample_experiment "e2" DELETED (days 1))])
             (list_to_map [("r1", sample_run "r1" "e1" "active" 0); ("r2", sample_run "r2" "e1" DELETED (days 1)); ("young", sample_run "young" "e2" DELETED (days 999))]).
Definition trash_started : trash_state := TrashState started sample_tracking_store.

Definition cleanup_all : TrashRequest (answer CleanupReport) := ask_cleanup None None None.
Lemma the_trash_loses_nothing_alive_witness :
  (let run := serve_trash 100 sample_now 5 5 (request_of "alice" true) cleanup_all trash_started in
   spares_live (tr_backend trash_started) (tr_backend run.2) ∧
   (¬ is_administrator "alice" (au_db (tr_auth trash_started)) → run.1 = Ok (Failed 403) ∧ tr_backend run.2 = tr_backend trash_started ∧ untouched (tr_auth trash_started) (tr_auth run.2))) ∧
  (serve_trash 100 sample_now 5 5 (request_of "alice" true) cleanup_all trash_started).1 = Ok (Replied 200 (Content (MkCleanup ["r2"; "young"] [] ["e2"] []))) ∧
  (serve_trash 100 sample_now 5 5 (request_of "bob" false) cleanup_all trash_started).1 = Ok (Failed 403).
Proof.
  split; [|split; vm_compute; reflexivity].
  apply (the_trash_loses_nothing_alive 100 sample_now 5 5 (request_of "alice" true) "alice" cleanup_all trash_started); [by apply sent|exact alice_served].
Defined.

(** Asked for what is older than a week, a cleanup that names no runs deletes the
    run of yesterday too. *)
Definition cleanup (older_than run_ids experiment_ids : option string) : outcome (answer CleanupReport) * trash_state :=
  permanently_delete_all_trashed_entities sample_now 5 "alice" older_than run_ids experiment_ids trash_started.
Definition week_report : CleanupReport := MkCleanup ["r2"; "young"] [] ["e2"] [].
Definition named_report : CleanupReport := MkCleanup ["r2"] [("young", NotOlder)] ["e2"] [].
Lemma a_young_run_goes_with_the_old : (cleanup (Some "7d") None None).1 = Ok (Content week_report).
Proof. vm_compute. reflexivity. Qed.

(** Naming one run does not spare the experiments in the trash. *)
Lemma naming_a_run_spares_no_experiment : (cleanup None (Some "r2") None).1 = Ok (Content (MkCleanup ["r2"; "young"] [] ["e2"] [])).
Proof. vm_compute. reflexivity. Qed.

Lemma a_cleanup_accounts_for_every_target_witness :
  (∃ time_delta, age_meant (Some "7d") = Ok time_delta ∧
    let runs := runs_meant sample_now 5 (Some "7d") (Some "r2") None time_delta (tr_backend trash_started) in
    deleted_runs named_report ++ (failed_runs named_report).*1 ≡ₚ set_order runs ∧
    deleted_experiments named_report ++ (failed_experiments named_report).*1 ≡ₚ experiments_meant sample_now 5 (Some "7d") None time_delta (tr_backend trash_started) ∧
    (truthy (Some "r2") = true → truthy (Some "7d") = true → ∀ r, r ∈ deleted_runs named_report → r ∈ runs_older time_delta (tr_backend trash_started)) ∧
    (truthy (Some "r2") = false → (∀ x l, x ∈ set_order l → x ∈ l) → ∀ r, (r, NotOlder) ∉ failed_runs named_report)) ∧
  runs_meant sample_now 5 (Some "7d") (Some "r2") None (days 7) (tr_backend trash_started) = ["r2"; "young"] ∧
  experiments_meant sample_now 5 (Some "7d") None (days 7) (tr_backend trash_started) = ["e2"].
Proof.
  split; [|split; vm_compute; reflexivity].
  apply (a_cleanup_accounts_for_every_target sample_now 5 "alice" (Some "7d") (Some "r2") None trash_started named_report (cleanup (Some "7d") (Some "r2") None).2).
  rewrite [LHS]surjective_pairing. by apply (f_equal2 pair); [vm_compute|].
Defined.
