(* ===== verification/Webhooks.v ===== *)
(** * Webhooks ([routers/webhook.py], [models/webhook.py])

    Administrators keep webhooks in MLflow's model registry; the bodies are
    checked before a handler runs. The registry is a state that its methods read
    and change. *)
From S2P Require Import Prelude PyStrings Json Ownership Permissions Regex RegexSafety Database Repositories Users Groups Sessions Cache Resolution Batch Store Requests.
From S2P Require Import AfterRequest Validators TokenVerification Identity AuthMiddleware ProviderRegistry Kubernetes RedirectUri DataFetching ApiModels FastApi RouterLib.
From Stdlib Require Import Ascii.
#[local] Open Scope Z_scope.

(** ** [models/webhook.py]: the bodies and their validators *)

Definition VALID_WEBHOOK_STATUSES : list string := ["ACTIVE"; "DISABLED"].
Definition VALID_WEBHOOK_EVENTS : list string :=
  ["registered_model.created"; "model_version.created"; "model_version_tag.set"; "model_version_tag.deleted";
   "model_version_alias.created"; "model_version_alias.deleted"; "prompt.created"; "prompt_version.created"; "prompt_tag.set";
   "prompt_tag.deleted"; "prompt_version_tag.set"; "prompt_version_tag.deleted"; "prompt_alias.created"; "prompt_alias.deleted"].

(** [parsed.username] and [parsed.password] *)
Definition userinfo (netloc : string) : option string * option string :=
  match rsplit_once "@" netloc with
  | None => (None, None)
  | Some (info, _) => match py_split_once ":" info with Some (username, password) => (Some username, Some password) | None => (Some info, None) end
  end.

Section validators.
Context `{UrlLib}.

(** The address is one the validator returns; it raises [ValueError] for others. *)
Definition https_url (v : string) : bool :=
  if existsb is_space (String.list_ascii_of_string v) then false
  else
    match urlparse v with
    | Raise _ => false
    | Ok p =>
        String.eqb (py_lower (scheme (parsed p))) "https" && negb (String.eqb (netloc (parsed p)) "") &&
        negb (truthy (userinfo (netloc (parsed p))).1 || truthy (userinfo (netloc (parsed p))).2)
    end.

Definition _validate_https_url (allow_none : bool) (v : option string) : outcome (option string) :=
  match v with
  | None => if allow_none then Ok None else Raise ValueError
  | Some url => if https_url url then Ok v else Raise ValueError
  end.

Definition _validate_events (allow_none : bool) (v : option (list string)) : outcome (option (list string)) :=
  match v with
  | None => if allow_none then Ok None else Raise ValueError
  | Some [] => Raise ValueError
  | Some events => if decide (filter (λ event, event ∉ VALID_WEBHOOK_EVENTS) events = []) then Ok v else Raise ValueError
  end.

(** [None] passes either way. *)
Definition _validate_status (v : option string) : outcome (option string) :=
  match v with
  | None => Ok None
  | Some status => if decide (status ∈ VALID_WEBHOOK_STATUSES) then Ok v else Raise ValueError
  end.

Definition _validate_event_type (allow_none : bool) (v : option string) : outcome (option string) :=
  match v with
  | None => if allow_none then Ok None else Raise ValueError
  | Some event => if decide (event ∈ VALID_WEBHOOK_EVENTS) then Ok v else Raise ValueError
  end.

Record WebhookCreateRequest := MkWebhookCreate {
  wc_name : string;
  wc_url : string;
  wc_events : list string;
  wc_description : option string;
  wc_secret : option string;
  wc_status : option string;
}.
Record WebhookUpdateRequest := MkWebhookUpdate {
  wu_name : option string;
  wu_url : option string;
  wu_events : option (list string);
  wu_description : option string;
  wu_secret : option string;
  wu_status : option string;
}.
Record WebhookTestRequest := MkWebhookTest { wt_event_type : option string }.

(** [min_length], [max_length] *)
Definition within_length (shortest longest : nat) (s : string) : bool := (shortest <=? String.length s)%nat && (String.length s <=? longest)%nat.
Definition if_given {A} (check : A → bool) (o : option A) : bool := match o with Some a => check a | None => true end.
Definition passes {A} (o : outcome A) : bool := match o with Ok _ => true | Raise _ => false end.

(** The body is accepted: its fields' bounds and validators. *)
Definition valid_create (b : WebhookCreateRequest) : bool :=
  within_length 1 256 (wc_name b) && if_given (within_length 0 500) (wc_description b) &&
  passes (_validate_https_url false (Some (wc_url b))) && passes (_validate_events false (Some (wc_events b))) && passes (_validate_status (wc_status b)).
Definition valid_update (b : WebhookUpdateRequest) : bool :=
  if_given (within_length 1 256) (wu_name b) && if_given (within_length 0 500) (wu_description b) &&
  passes (_validate_https_url true (wu_url b)) && passes (_validate_events true (wu_events b)) && passes (_validate_status (wu_status b)).
Definition valid_test (b : WebhookTestRequest) : bool := passes (_validate_event_type true (wt_event_type b)).
End validators.

(** ** MLflow's registry *)

(** A webhook as MLflow shows it, its events and status as texts; the response of
    the API has the same fields. *)
Record Webhook := MkWebhook {
  webhook_id : string;
  webhook_name : string;
  webhook_url : string;
  webhook_events : list string;
  webhook_description : option string;
  webhook_status : string;
  creation_timestamp : Z;
  last_updated_timestamp : Z;
}.
Record WebhookTestResult := MkTestResult { success : bool; response_status : option Z; response_body : option string; error_message : option string }.

(** [WebhookEvent.from_str] and [WebhookStatus(...)] give the text of the value.
    [secret_unreadable] tells the exceptions of a secret that cannot be decrypted. *)
Class WebhookStore := {
  webhook_registry : Type;
  get_store : webhook_registry → outcome unit;
  create_webhook_in : string → string → list string → option string → option string → string → M webhook_registry Webhook;
  list_webhooks_in : option Z → option string → webhook_registry → outcome (list Webhook * option string);
  get_webhook_in : string → webhook_registry → outcome Webhook;
  update_webhook_in : string → option string → option string → option string → option (list string) → option string → option string → M webhook_registry Webhook;
  delete_webhook_in : string → M webhook_registry unit;
  WebhookEvent_from_str : string → outcome string;
  WebhookStatus : string → outcome string;
  secret_unreadable : exc → bool;
  deliver_test : Webhook → option string → webhook_registry → outcome WebhookTestResult;
}.

Record WebhookListResponse := MkWebhookList { webhooks : list Webhook; next_page_token : option string }.

(** The text of a refusal that depends on the request. *)
Definition invalid_event_type (event : string) : exc := HTTPException 400 ("Invalid event type: " +:+ event).
Definition STORE_UNAVAILABLE : exc :=
  HTTPException 503 "Webhook service temporarily unavailable. Ensure MLflow is properly configured with SQL backend.".
Definition SECRETS_UNREADABLE : exc := HTTPException 503 "Webhook secrets cannot be decrypted.".
Definition SERVICE_UNAVAILABLE : exc := HTTPException 503 "Webhook service temporarily unavailable.".

Section handlers.
Context `{WebhookStore}.
Context `{TTLCache unit json, TTLCache provider_key json, TTLCache (string * string) bool}.
Context `{CacheBackend PermissionResult, CacheBackend Permission}.

Record webhook_state := WebhookState { ws_auth : auth_state; ws_registry : webhook_registry }.
Definition with_auth {A} (m : M auth_state A) : M webhook_state A := λ s,
  let '(o, a) := m (ws_auth s) in (o, WebhookState a (ws_registry s)).
Definition with_registry {A} (m : M webhook_registry A) : M webhook_state A := λ s,
  let '(o, r) := m (ws_registry s) in (o, WebhookState (ws_auth s) r).
Definition from_registry {A} (f : webhook_registry → outcome A) : M webhook_state A := with_registry (ask f).
Abbreviation hook A := (M webhook_state A).

(** The store; whatever goes wrong with it is a 503. *)
Definition _get_model_registry_store : hook unit := catch (from_registry get_store) (λ _, raise STORE_UNAVAILABLE).

Definition event_of (event : string) : outcome string :=
  match WebhookEvent_from_str event with Ok e => Ok e | Raise _ => Raise (invalid_event_type event) end.
Definition audit_line (event admin_username webhook_id : string) (detail : list (string * json)) : audit_event :=
  AuditEvent event (Some admin_username) (Some "webhook") (Some webhook_id) detail.
Definition text_or_null (o : option string) : json := match o with Some s => JStr s | None => JNull end.
Definition texts_or_null (o : option (list string)) : json := match o with Some l => JArr (JStr <$> l) | None => JNull end.

Definition create_webhook (webhook_data : WebhookCreateRequest) (admin_username : string) : hook Webhook :=
  _ ← _get_model_registry_store;
  webhook_events ← lift (mapM event_of (wc_events webhook_data));
  status ← lift (match nonempty (wc_status webhook_data) with Some status => WebhookStatus status | None => Ok "ACTIVE" end);
  webhook ← with_registry (create_webhook_in (wc_name webhook_data) (wc_url webhook_data) webhook_events (wc_description webhook_data) (wc_secret webhook_data) status);
  _ ← with_auth (emit_audit_event (audit_line "webhook.create" admin_username (webhook_id webhook)
        [("name", JStr (wc_name webhook_data)); ("url", JStr (wc_url webhook_data)); ("events", JArr (JStr <$> wc_events webhook_data))]));
  mret webhook.

Definition list_webhooks (max_results : option Z) (page_token : option string) (admin_username : string) : hook WebhookListResponse :=
  _ ← _get_model_registry_store;
  page ← catch (from_registry (list_webhooks_in max_results page_token))
           (λ e, raise (if secret_unreadable e then SECRETS_UNREADABLE else SERVICE_UNAVAILABLE));
  mret (MkWebhookList page.1 page.2).

Definition get_webhook (id admin_username : string) : hook Webhook :=
  _ ← _get_model_registry_store;
  from_registry (get_webhook_in id).

Definition update_webhook (id : string) (webhook_data : WebhookUpdateRequest) (admin_username : string) : hook Webhook :=
  _ ← _get_model_registry_store;
  webhook_events ← lift (match wu_events webhook_data with Some events => es ← mapM event_of events; Ok (Some es) | None => Ok None end);
  status ← lift (match wu_status webhook_data with Some status => st ← WebhookStatus status; Ok (Some st) | None => Ok None end);
  webhook ← with_registry (update_webhook_in id (wu_name webhook_data) (wu_description webhook_data) (wu_url webhook_data) webhook_events (wu_secret webhook_data) status);
  _ ← with_auth (emit_audit_event (audit_line "webhook.update" admin_username id
        [("name", text_or_null (wu_name webhook_data)); ("url", text_or_null (wu_url webhook_data));
         ("events", texts_or_null (wu_events webhook_data)); ("status", text_or_null (wu_status webhook_data))]));
  mret webhook.

Definition delete_webhook (id admin_username : string) : hook string :=
  _ ← _get_model_registry_store;
  _ ← with_registry (delete_webhook_in id);
  _ ← with_auth (emit_audit_event (audit_line "webhook.delete" admin_username id []));
  mret ("Webhook " +:+ id +:+ " deleted successfully").

Definition test_webhook_endpoint (id : string) (test_data : option WebhookTestRequest) (admin_username : string) : hook WebhookTestResult :=
  _ ← _get_model_registry_store;
  webhook ← from_registry (get_webhook_in id);
  event ← lift (match d ← test_data; nonempty (wt_event_type d) with Some event_type => e ← event_of event_type; Ok (Some e) | None => Ok None end);
  from_registry (deliver_test webhook event).
End handlers.

(** ** The requests: the dependency, then the body, then the handler *)

Inductive WebhookRequest : Type → Type :=
  | ask_create_webhook (webhook_data : WebhookCreateRequest) : WebhookRequest Webhook
  | ask_list_webhooks (max_results : option Z) (page_token : option string) : WebhookRequest WebhookListResponse
  | ask_get_webhook (id : string) : WebhookRequest Webhook
  | ask_update_webhook (id : string) (webhook_data : WebhookUpdateRequest) : WebhookRequest Webhook
  | ask_delete_webhook (id : string) : WebhookRequest string
  | ask_test_webhook (id : string) (test_data : option WebhookTestRequest) : WebhookRequest WebhookTestResult.

Section requests.
Context `{SqlBackend, PyRe, UserLibs, ColumnTyping, Config, TrackingStore}.
Context `{CacheBackend PermissionResult, CacheBackend Permission, TTLCache unit json, TTLCache provider_key json}.
Context `{TTLCache (string * string) bool}.
Context `{JsonLoads, Encodings, PodFiles, Network, JwtLib, TokenConfig, AuthConfig, ValidatorLibs}.
Context `{UrlLib, WebhookStore}.
Variable now : Z.

(** What FastAPI checks of a request before the handler: [1 <= max_results <= 1000]
    and the bodies. *)
Definition valid_webhook_request {A} (r : WebhookRequest A) : bool :=
  match r with
  | ask_create_webhook webhook_data => valid_create webhook_data
  | ask_list_webhooks max_results _ => if_given (λ n, (1 <=? n) && (n <=? 1000)) max_results
  | ask_update_webhook _ webhook_data => valid_update webhook_data
  | ask_test_webhook _ test_data => if_given valid_test test_data
  | _ => true
  end.

Definition handle_webhook {A} (r : WebhookRequest A) (admin_username : string) : M webhook_state A :=
  match r with
  | ask_create_webhook webhook_data => create_webhook webhook_data admin_username
  | ask_list_webhooks max_results page_token => list_webhooks max_results page_token admin_username
  | ask_get_webhook id => get_webhook id admin_username
  | ask_update_webhook id webhook_data => update_webhook id webhook_data admin_username
  | ask_delete_webhook id => delete_webhook id admin_username
  | ask_test_webhook id test_data => test_webhook_endpoint id test_data admin_username
  end.

Definition UNPROCESSABLE : exc := HTTPException 422 "".
Definition serve_webhook {A} (http : FastApiRequest) (r : WebhookRequest A) : M webhook_state (reply A) :=
  respond 200 (
    admin_username ← with_auth (check_admin_permission now http);
    if negb (valid_webhook_request r) then raise UNPROCESSABLE else handle_webhook r admin_username).
End requests.

(** * Where webhooks may point *)
From S2P Require Import RepositoryFacts RepositoryInvariant Users Groups Sessions Cache Resolution ResolutionFacts Batch Store StoreFacts StoreCaches StoreCoherence Requests.
From S2P Require Import AfterRequest BeforeRequestFacts Validators TokenVerification Identity AuthMiddleware AuthFacts ProvisioningFacts ProviderRegistry Kubernetes RedirectUri.
From S2P Require Import DataFetching ApiModels FastApi RouterLib UserPermissions GroupPermissions Management ManagementFacts.
#[local] Open Scope Z_scope.

(** ** What the validator lets through *)

Section urls.
Context `{UrlLib}.

(** After leading control characters, which [urlsplit] ignores, the address
    starts with [https://] in any case; the network location that follows is not
    empty, and names no user and no password. It need not name a host: a port
    alone is a location too (see [accepted_addresses]). *)
Definition network_location (url : string) : string :=
  (span_until (one_of "/?#") (drop_str 8 (drop_while C0_CONTROL_OR_SPACE url))).1.
Definition https_with_location (url : string) : Prop :=
  startswith (py_lower (drop_while C0_CONTROL_OR_SPACE url)) "https://" = true ∧
  network_location url ≠ "" ∧
  truthy (userinfo (network_location url)).1 = false ∧ truthy (userinfo (network_location url)).2 = false.

Lemma py_lower_app s t : py_lower (s +:+ t) = py_lower s +:+ py_lower t.
Proof. induction s as [|c s IH]; [done|]. exact (f_equal (String (lower_ascii c)) IH). Qed.

Lemma remove_none s : existsb is_space (String.list_ascii_of_string s) = false → remove_chars UNSAFE_URL_BYTE s = s.
Proof.
  induction s as [|c s IH]; [done|]. cbn [String.list_ascii_of_string existsb remove_chars]. intros [Hc Hs]%orb_false_iff.
  assert (UNSAFE_URL_BYTE c = false) as ->; [|by rewrite IH].
  unfold is_space in Hc. apply bool_decide_eq_false in Hc. apply bool_decide_eq_false. rewrite !elem_of_cons. intros Hin. apply Hc. left.
  destruct Hin as [->|[->|[->|?%not_elem_of_nil]]]; [lia..|done].
Qed.

Lemma drop_while_no_space p s : existsb is_space (String.list_ascii_of_string s) = false → existsb is_space (String.list_ascii_of_string (drop_while p s)) = false.
Proof. induction s as [|c s IH]; [done|]. intros Hs. cbn [drop_while]. destruct (p c); [|done]. apply IH. by apply orb_false_iff in Hs as [_ ?]. Qed.

Lemma drop_prefix n p s : String.length p = n → drop_str n (p +:+ s) = s.
Proof. intros <-. apply drop_str_app. Qed.

Lemma https_url_points url : https_url url = true → https_with_location url.
Proof.
  unfold https_url. destruct (existsb is_space (String.list_ascii_of_string url)) eqn:Hsp; [done|].
  unfold urlparse, urlsplit, https_with_location, network_location. rewrite (remove_none _ (drop_while_no_space _ _ Hsp)).
  set (v := drop_while C0_CONTROL_OR_SPACE url). clearbody v. clear Hsp.
  destruct (split_scheme v) as [sch rest] eqn:Hsch.
  destruct (if startswith rest "//" then span_until (one_of "/?#") (drop_str 2 rest) else ("", rest)) as [host path] eqn:Hhost.
  destruct (negb (Bool.eqb _ _)); [done|]. destruct (_ && negb _); [done|].
  destruct (partition "#" path) as [p1 f]. destruct (partition "?" p1) as [p2 q]. cbn [mbind outcome_bind].
  intros Hok.
  assert (py_lower sch = "https" ∧ host ≠ "" ∧ truthy (userinfo host).1 = false ∧ truthy (userinfo host).2 = false) as (Hs&Hh&Hcred).
  { match type of Hok with context [if decide ?P then _ else _] => destruct (decide P); [destruct (_splitparams _) in Hok|] end;
      cbn [parsed scheme netloc set_url_path] in Hok; apply andb_true_iff in Hok as [Hok Hcred]; apply andb_true_iff in Hok as [Hs Hh];
      apply negb_true_iff, orb_false_iff in Hcred as [Hu Hp];
      (split_and!; [by apply String.eqb_eq|by apply negb_true_iff, String.eqb_neq in Hh|exact Hu|exact Hp]). }
  unfold split_scheme in Hsch. destruct v as [|c v']; [injection Hsch as <- <-; done|].
  destruct (py_split_once ":" (String c v')) as [[before after]|] eqn:Hsplit; [|injection Hsch as <- <-; done].
  destruct (is_alpha c && all_chars scheme_char before); [|injection Hsch as <- <-; done].
  injection Hsch as <- <-. rewrite py_lower_idemp in Hs. apply py_split_once_spec in Hsplit as [-> _].
  destruct (startswith after "//") eqn:Hsl; [|by injection Hhost as <- <-].
  apply startswith_drop in Hsl. change (String.length "//") with 2%nat in Hsl. rewrite Hsl in Hhost. set (r := drop_str 2 after) in *. clearbody r. rewrite Hsl.
  change (drop_str 2 ("//" +:+ r)) with (drop_str 2 ("//" +:+ r)) in Hhost. rewrite (drop_prefix 2 "//") // in Hhost.
  assert (String.length before = 5%nat) as Hlen by by rewrite -(py_lower_length before) Hs.
  split.
  - change (String ":" ("//" +:+ r)) with ("://" +:+ r). rewrite py_lower_app Hs. apply startswith_drop.
    rewrite py_lower_app. change (py_lower "://") with "://".
    change (String.length "https://") with (String.length ("https" +:+ "://")).
    change ("https" +:+ "://" +:+ py_lower r) with ("https://" +:+ py_lower r). by rewrite (drop_prefix 8 "https://").
  - assert ((before +:+ String ":" ("//" +:+ r)) = ((before +:+ "://") +:+ r)) as ->.
    { clear. induction before as [|x b IH]; [done|]. exact (f_equal (String x) IH). }
    rewrite drop_prefix; [rewrite Hhost; by split|]. by rewrite append_length Hlen.
Qed.
End urls.

(** ** What MLflow documents of its registry

    Creating stores what it is given; updating changes one webhook, in the fields
    that are given; the text of an event or a status is the one it was read from. *)
Class WebhookStoreLaws `{WebhookStore} := {
  webhook_at : string → webhook_registry → option Webhook;
  create_stores name url events description secret status r w r' :
    create_webhook_in name url events description secret status r = (Ok w, r') →
    webhook_url w = url ∧ webhook_events w = events ∧ webhook_status w = status ∧
    ∀ id, webhook_at id r' = if decide (id = webhook_id w) then Some w else webhook_at id r;
  create_fails name url events description secret status r e r' :
    create_webhook_in name url events description secret status r = (Raise e, r') → ∀ id, webhook_at id r' = webhook_at id r;
  update_stores i name description url events secret status r w r' :
    update_webhook_in i name description url events secret status r = (Ok w, r') →
    ∃ w0, webhook_at i r = Some w0 ∧ webhook_url w = default (webhook_url w0) url ∧ webhook_events w = default (webhook_events w0) events ∧
      webhook_status w = default (webhook_status w0) status ∧ ∀ id, webhook_at id r' = if decide (id = i) then Some w else webhook_at id r;
  update_fails i name description url events secret status r e r' :
    update_webhook_in i name description url events secret status r = (Raise e, r') → ∀ id, webhook_at id r' = webhook_at id r;
  delete_stores_nothing i r id w : webhook_at id (delete_webhook_in i r).2 = Some w → webhook_at id r = Some w;
  from_str_text event e : WebhookEvent_from_str event = Ok e → e = event;
  status_text status s : WebhookStatus status = Ok s → s = status;
}.

Section facts.
Context `{SqlBackend, PyRe, UserLibs, ColumnTyping, Config, TrackingStore}.
Context `{CacheBackend PermissionResult, CacheBackend Permission, TTLCache unit json, TTLCache provider_key json}.
Context `{TTLCache (string * string) bool}.
Context `{JsonLoads, Encodings, PodFiles, Network, JwtLib, TokenConfig, AuthConfig, ValidatorLibs}.
Context `{MlflowListings, ErrorCodeNumbers, UrlLib, WebhookStoreLaws}.
Implicit Types (s : webhook_state) (r : webhook_registry).

Record sound (w : Webhook) : Prop := {
  sound_url : https_with_location (webhook_url w);
  sound_events : webhook_events w ≠ [] ∧ webhook_events w ⊆ VALID_WEBHOOK_EVENTS;
  sound_status : webhook_status w ∈ VALID_WEBHOOK_STATUSES;
}.
Definition all_sound r : Prop := ∀ id w, webhook_at id r = Some w → sound w.

(** A step that leaves a registry of sound webhooks one. *)
Definition keeps_sound : relation webhook_state := via ws_registry (λ r r', all_sound r → all_sound r').
#[local] Instance keeps_sound_preorder : PreOrder keeps_sound.
Proof. unfold keeps_sound. apply via_preorder. split; [by intros ??|]. intros r1 r2 r3 ???. auto. Qed.

Lemma with_registry_run {A} (m : M webhook_registry A) s : with_registry m s = ((m (ws_registry s)).1, WebhookState (ws_auth s) (m (ws_registry s)).2).
Proof. unfold with_registry. by destruct (m (ws_registry s)). Qed.
Lemma with_auth_run {A} (m : M auth_state A) s : with_auth m s = ((m (ws_auth s)).1, WebhookState (m (ws_auth s)).2 (ws_registry s)).
Proof. unfold with_auth. by destruct (m (ws_auth s)). Qed.

Lemma sound_from_registry {A} (f : webhook_registry → outcome A) : within keeps_sound (from_registry f).
Proof. intros s. unfold from_registry. by rewrite with_registry_run. Qed.
Lemma sound_with_auth {A} (m : M auth_state A) : within keeps_sound (with_auth m).
Proof. intros s. by rewrite with_auth_run. Qed.
#[local] Hint Resolve sound_from_registry sound_with_auth : within.
Lemma sound_get_store : within keeps_sound _get_model_registry_store.
Proof. unfold _get_model_registry_store. by repeat within_step. Qed.
#[local] Hint Resolve sound_get_store : within.

Lemma events_of_text events es : mapM event_of events = Ok es → es = events.
Proof.
  revert es. induction events as [|e events IH]; intros es; cbn; [by intros [= <-]|]. rewrite outcome_bind_ok.
  intros (e'&He&Hrest). apply outcome_bind_ok in Hrest as (es'&Hes&[= <-]). rewrite (IH _ Hes). f_equal.
  unfold event_of in He. destruct (WebhookEvent_from_str e) eqn:E; [|done]. injection He as <-. by apply from_str_text.
Qed.

Lemma valid_events_sound events : passes (_validate_events false (Some events)) = true → events ≠ [] ∧ events ⊆ VALID_WEBHOOK_EVENTS.
Proof.
  unfold _validate_events. destruct events as [|e events]; [done|]. case_decide as Hf; [|done]. intros _. split; [done|].
  intros x Hx. destruct (decide (x ∈ VALID_WEBHOOK_EVENTS)) as [|Hn]; [done|]. exfalso.
  assert (x ∈ filter (λ event, event ∉ VALID_WEBHOOK_EVENTS) (e :: events)) as Hin by (by apply list_elem_of_filter). rewrite Hf in Hin. by apply not_elem_of_nil in Hin.
Qed.

Lemma valid_status_sound status : passes (_validate_status (Some status)) = true → status ∈ VALID_WEBHOOK_STATUSES.
Proof. unfold _validate_status. by case_decide. Qed.
Lemma valid_url_sound allow_none url : passes (_validate_https_url allow_none (Some url)) = true → https_with_location url.
Proof. unfold _validate_https_url. destruct (https_url url) eqn:E; [|done]. intros _. by apply https_url_points. Qed.

Lemma create_sound b admin : valid_create b = true → within keeps_sound (create_webhook b admin).
Proof.
  unfold valid_create. rewrite !andb_true_iff. intros [[[[_ _] Hurl%valid_url_sound] Hev%valid_events_sound] Hst].
  unfold create_webhook. apply within_bind; [apply _|apply sound_get_store|intros _]. intros s.
  rewrite M_bind_run lift_run. destruct (mapM event_of (wc_events b)) as [es|] eqn:Hes; [|done]. apply events_of_text in Hes as ->.
  rewrite M_bind_run lift_run.
  destruct (match nonempty (wc_status b) with Some st => WebhookStatus st | None => Ok "ACTIVE" end) as [st|] eqn:Hstatus; [|done].
  assert (st ∈ VALID_WEBHOOK_STATUSES) as Hok.
  { destruct (wc_status b) as [t|]; cbn in Hstatus; [case_decide|]; [by injection Hstatus as <-; left| |by injection Hstatus as <-; left].
    apply status_text in Hstatus as ->. by apply valid_status_sound. }
  rewrite M_bind_run with_registry_run.
  destruct (create_webhook_in _ _ _ _ _ _ _) as [[w|e] r'] eqn:Hc; cbn [fst snd].
  - destruct (create_stores _ _ _ _ _ _ _ _ _ Hc) as (Hu&He&Hs&Hat). rewrite M_bind_run with_auth_run.
    intros Hall id w' Hw'. cbn in Hw'. rewrite Hat in Hw'. case_decide; [|exact (Hall _ _ Hw')]. injection Hw' as <-.
    split; [by rewrite Hu|by rewrite He|by rewrite Hs].
  - intros Hall id w'. cbn. rewrite (create_fails _ _ _ _ _ _ _ _ _ Hc). apply Hall.
Qed.

Lemma update_sound id b admin : valid_update b = true → within keeps_sound (update_webhook id b admin).
Proof.
  unfold valid_update. rewrite !andb_true_iff. intros [[[[_ _] Hurl] Hev] Hst].
  unfold update_webhook. apply within_bind; [apply _|apply sound_get_store|intros _]. intros s.
  rewrite M_bind_run lift_run.
  destruct (match wu_events b with Some events => es ← mapM event_of events; Ok (Some es) | None => Ok None end) as [es|] eqn:Hes; [|done].
  assert (es = wu_events b) as ->.
  { destruct (wu_events b); [|by injection Hes as <-]. apply outcome_bind_ok in Hes as (x&Hx&[= <-]). by rewrite (events_of_text _ _ Hx). }
  rewrite M_bind_run lift_run.
  destruct (match wu_status b with Some status => st ← WebhookStatus status; Ok (Some st) | None => Ok None end) as [st|] eqn:Hstatus; [|done].
  assert (st = wu_status b) as ->.
  { destruct (wu_status b); [|by injection Hstatus as <-]. apply outcome_bind_ok in Hstatus as (x&Hx&[= <-]). by rewrite (status_text _ _ Hx). }
  rewrite M_bind_run with_registry_run.
  destruct (update_webhook_in _ _ _ _ _ _ _ _) as [[w|e] r'] eqn:Hc; cbn [fst snd].
  - destruct (update_stores _ _ _ _ _ _ _ _ _ _ Hc) as (w0&Hw0&Hu&He&Hs&Hat). rewrite M_bind_run with_auth_run.
    intros Hall id' w' Hw'. cbn in Hw'. rewrite Hat in Hw'. case_decide; [|exact (Hall _ _ Hw')]. injection Hw' as <-.
    destruct (Hall _ _ Hw0) as [Hu0 He0 Hs0]. split.
    + rewrite Hu. destruct (wu_url b) as [u|]; [|done]. by apply valid_url_sound in Hurl.
    + rewrite He. destruct (wu_events b) as [[|e l]|]; [done| |done]. by apply valid_events_sound.
    + rewrite Hs. destruct (wu_status b) as [t|]; [|done]. by apply valid_status_sound.
  - intros Hall id' w'. cbn. rewrite (update_fails _ _ _ _ _ _ _ _ _ _ Hc). apply Hall.
Qed.

Lemma delete_sound id admin : within keeps_sound (delete_webhook id admin).
Proof.
  unfold delete_webhook. apply within_bind; [apply _|apply sound_get_store|intros _]. apply within_bind; [apply _| |intros _; by repeat within_step].
  intros s. rewrite with_registry_run. intros Hall id' w Hw. cbn in Hw. apply delete_stores_nothing in Hw. exact (Hall _ _ Hw).
Qed.

Lemma handle_sound {A} (q : WebhookRequest A) admin : valid_webhook_request q = true → within keeps_sound (handle_webhook q admin).
Proof.
  destruct q; cbn [valid_webhook_request handle_webhook]; intros Hv.
  - by apply create_sound.
  - unfold list_webhooks. by repeat within_step.
  - unfold get_webhook. by repeat within_step.
  - by apply update_sound.
  - by apply delete_sound.
  - unfold test_webhook_endpoint. by repeat within_step.
Qed.

Lemma serve_sound now http {A} (q : WebhookRequest A) : within keeps_sound (serve_webhook now http q).
Proof.
  unfold serve_webhook, respond. pose proof (λ admin, handle_sound q admin) as Hq. destruct (valid_webhook_request q); cbn [negb].
  - apply within_catch; [apply _| |by intros e; repeat within_step]. apply within_bind; [apply _| |by intros body; repeat within_step].
    apply within_bind; [apply _|by auto with within|]. intros admin. by apply Hq.
  - by repeat within_step.
Qed.

(** The life of the registry: requests of anyone, and whatever else the process
    does meanwhile. *)
Inductive webhook_step : webhook_state → webhook_state → Prop :=
  | serves now http {A} (q : WebhookRequest A) s : webhook_step s (serve_webhook now http q s).2
  | elsewhere a s : webhook_step s (WebhookState a (ws_registry s)).

(** C24: Whatever requests the webhook API is sent, by whomever, the address of
    every webhook of the registry starts with https:// (in any case, leading
    control characters aside) and goes on with a network location that is not
    empty and names no user and no password; it is not shown to name a host, and
    need not: a port alone passes. Every webhook listens to documented events
    only (to one at least), and is active or disabled, all of this if the
    registry was so at the start. *)
Theorem webhooks_point_to_https_only s s' :
  rtc webhook_step s s' → all_sound (ws_registry s) → all_sound (ws_registry s').
Proof.
  induction 1 as [|s1 s2 s3 Hstep _ IH]; [done|]. intros Hs. apply IH. destruct Hstep as [now http A q s1|a s1]; [|done].
  exact (serve_sound now http q s1 Hs).
Qed.

(** A sender who is no administrator gets 403 and changes nothing. *)
Theorem webhooks_are_for_administrators now http u {A} (q : WebhookRequest A) s :
  sent_by u http → served u (ws_auth s) → ¬ is_administrator u (au_db (ws_auth s)) →
  (serve_webhook now http q s).1 = Ok (Failed 403) ∧ ws_registry (serve_webhook now http q s).2 = ws_registry s.
Proof.
  intros Hsent Hs Hno. destruct (admin_guards now http u Hsent (ws_auth s) Hs) as [_ Hok].
  unfold serve_webhook, respond. rewrite catch_run !M_bind_run with_auth_run.
  destruct (check_admin_permission now http (ws_auth s)) as [[name|e] a]; cbn [fst snd] in *.
  - destruct Hok as [[Hadm|[]] _]. done.
  - assert (refused AdminOnly u (au_db (ws_auth s))) as Href by (split; [by intros [|[]]|done]). cbn. by rewrite (proj2 Hok Href).
Qed.
End facts.

(** * The webhooks of a sample registry *)
From S2P Require Import Samples UserFacts Groups Sessions Cache Resolution ResolutionFacts Batch Store SampleMlflow Requests Validators Hooks AfterRequest BeforeRequest.
From S2P Require Import AfterRequestFacts Kubernetes ProviderRegistry RegistryFacts TokenVerification TokenFacts Identity AuthMiddleware AuthFacts ProvisioningFacts AuthWitnesses.
From S2P Require Import RedirectUri DataFetching ApiModels FastApi RouterLib UserPermissions GroupPermissions Management ManagementFacts ManagementWitnesses.
#[local] Open Scope Z_scope.

#[export] Instance webhook_urls : UrlLib | 100 := {| check_bracketed_netloc _ := true |}.

(** ** A registry: webhooks by id; an address can be taken once *)

Definition changed (w : Webhook) (name description url : option string) (events : option (list string)) (status : option string) : Webhook :=
  MkWebhook (webhook_id w) (default (webhook_name w) name) (default (webhook_url w) url) (default (webhook_events w) events)
    (match description with Some d => Some d | None => webhook_description w end) (default (webhook_status w) status) (creation_timestamp w) 2000.
Definition new_webhook (name url : string) (events : list string) (description : option string) (status : string) : Webhook :=
  MkWebhook ("wh-" +:+ name) name url events description status 1000 1000.

#[export] Instance sample_registry : WebhookStore | 100 := {|
  webhook_registry := gmap string Webhook;
  get_store _ := Ok tt;
  create_webhook_in name url events description secret status := λ r,
    let w := new_webhook name url events description status in
    if r !! webhook_id w is Some _ then (Raise (MlflowException RESOURCE_ALREADY_EXISTS), r) else (Ok w, <[webhook_id w := w]> r);
  list_webhooks_in max_results page_token r := Ok ((map_to_list r).*2, None);
  get_webhook_in id r := match r !! id with Some w => Ok w | None => Raise (MlflowException RESOURCE_DOES_NOT_EXIST) end;
  update_webhook_in id name description url events secret status := λ r,
    match r !! id with
    | Some w => (Ok (changed w name description url events status), <[id := changed w name description url events status]> r)
    | None => (Raise (MlflowException RESOURCE_DOES_NOT_EXIST), r)
    end;
  delete_webhook_in id := modify (delete id);
  WebhookEvent_from_str event := if decide (event ∈ VALID_WEBHOOK_EVENTS) then Ok event else Raise (MlflowException INVALID_PARAMETER_VALUE);
  WebhookStatus status := if decide (status ∈ VALID_WEBHOOK_STATUSES) then Ok status else Raise ValueError;
  secret_unreadable e := false;
  deliver_test w event r := Ok (MkTestResult true (Some 200) None None);
|}.

#[export] Program Instance sample_registry_laws : WebhookStoreLaws | 100 := {| webhook_at id r := r !! id |}.
Next Obligation.
  intros name url events description secret status r w r'. cbn. case_match; [done|]. intros [= <- <-]. split_and!; [done..|].
  intros id. case_decide as E; [subst id; apply lookup_insert_eq|]. apply lookup_insert_ne. by intros <-; apply E.
Qed.
Next Obligation. intros name url events description secret status r e r'. cbn. case_match; [|done]. by intros [= <- <-]. Qed.
Next Obligation.
  intros i name description url events secret status r w r'. cbn. destruct ((r : gmap string Webhook) !! i) as [w0|] eqn:Hw0; [|done]. intros [= <- <-]. exists w0. split_and!; [done..|].
  intros id. case_decide as E; [subst id; apply lookup_insert_eq|]. apply lookup_insert_ne. congruence.
Qed.
Next Obligation. intros i name description url events secret status r e r'. cbn. case_match; [done|]. by intros [= <- <-]. Qed.
Next Obligation. intros i r id w. cbn. intros Hw. by apply lookup_delete_Some in Hw as [_ ?]. Qed.
Next Obligation. intros event e. cbn. case_decide; [|done]. by intros [= <-]. Qed.
Next Obligation. intros status s. cbn. case_decide; [|done]. by intros [= <-]. Qed.

(** ** What alice asks of it *)

Definition webhooks_started : webhook_state := WebhookState started ∅.
Definition wanted (url : string) : WebhookRequest Webhook :=
  ask_create_webhook (MkWebhookCreate "ci" url ["model_version.created"] None (Some "key") None).
Definition asked (url : string) : outcome (reply Webhook) * webhook_state := serve_webhook 100 (request_of "alice" true) (wanted url) webhooks_started.

Lemma webhooks_point_to_https_only_witness :
  all_sound (ws_registry (asked "HTTPS://ci.corp/hook").2) ∧
  (asked "HTTPS://ci.corp/hook").1 = Ok (Replied 200 (new_webhook "ci" "HTTPS://ci.corp/hook" ["model_version.created"] None "ACTIVE")).
Proof.
  split; [|vm_compute; reflexivity].
  apply (webhooks_point_to_https_only webhooks_started (asked "HTTPS://ci.corp/hook").2); [|by intros id w Hw; rewrite /= lookup_empty in Hw].
  apply rtc_once. exact (serves 100 (request_of "alice" true) (wanted "HTTPS://ci.corp/hook") webhooks_started).
Defined.

(** Addresses that are refused: another scheme, credentials, no host, a space. *)
Lemma refused_addresses :
  Forall (λ url, (asked url).1 = Ok (Failed 422))
    ["http://ci.corp/hook"; "https://user@ci.corp/"; "https://:pw@ci.corp"; "https:///hook"; "https:ci.corp"; "https://ci.corp/a b"; "//ci.corp"; ""].
Proof. repeat constructor; vm_compute; reflexivity. Qed.

(** The host is not looked at further: the machine itself will do, and so will a
    port alone. *)
Lemma accepted_addresses :
  Forall (λ url, passes (_validate_https_url false (Some url)) = true)
    ["https://127.0.0.1/"; "https://localhost:8080"; "https://:443"; "https://169.254.169.254/latest/meta-data"].
Proof. repeat constructor; vm_compute; reflexivity. Qed.

Lemma webhooks_are_for_administrators_witness :
  (¬ is_administrator "bob" (au_db (ws_auth webhooks_started)) →
   (serve_webhook 100 (request_of "bob" false) (wanted "https://ci.corp") webhooks_started).1 = Ok (Failed 403) ∧
   ws_registry (serve_webhook 100 (request_of "bob" false) (wanted "https://ci.corp") webhooks_started).2 = ∅) ∧
  (serve_webhook 100 (request_of "bob" false) (wanted "https://ci.corp") webhooks_started).1 = Ok (Failed 403).
Proof.
  split; [|vm_compute; reflexivity].
  apply (webhooks_are_for_administrators 100 (request_of "bob" false) "bob" (wanted "https://ci.corp") webhooks_started); [by apply sent|exact bob_served].
Defined.
