(* ===== verification/Middlewares.v ===== *)
(** * Two middlewares: the headers of a reverse proxy
    ([middleware/proxy_headers_middleware.py]) and the routes FastAPI serves for
    MLflow ([middleware/fastapi_permission_middleware.py])

    [X-Forwarded-*] headers rewrite the scope of a request that comes from a
    trusted proxy: its scheme, its host and, with [X-Forwarded-Prefix], the
    prefix that the router takes off the path. *)
From S2P Require Import Prelude PyStrings Json Permissions Regex RegexSafety Database Repositories Users Groups Sessions Cache Resolution Batch Store Requests AfterRequest.
From S2P Require Import Validators TokenVerification Identity AuthMiddleware DataFetching ApiModels FastApi RouterLib.
From stdpp Require Import pretty.
From Stdlib Require Import Ascii.
#[local] Open Scope Z_scope.

(** [ipaddress]: networks, addresses, and membership. *)
Class IpAddresses := {
  network : Type;
  address : Type;
  ip_network : string → option network;
  ip_address : string → option address;
  ip_in : address → network → bool;
}.

(** The entries of [config.TRUSTED_PROXIES]. *)
Class ProxyConfig := { TRUSTED_PROXIES : list string }.

(** The scope of a request. [sc_http] holds the path, the headers and
    [root_path]; the path is that of [request.url], which a [root_path] leaves
    as it is. *)
Record Scope := MkScope {
  sc_scheme : string;
  sc_server : option (string * Z);
  sc_client : option string;
  sc_hostname : option string;
  sc_method : string;
  sc_query : list (string * string);
  sc_path_params : list (string * string);
  sc_json : outcome json;
  sc_http : HttpRequest;
}.

Record ProxyInfo := MkProxyInfo {
  forwarded_proto : option string;
  forwarded_host : option string;
  forwarded_port : option Z;
  forwarded_prefix : string;
  real_ip : option string;
  is_proxied : bool;
  original_scheme : string;
  original_host : option string;
  original_path : string;
}.

Section proxy.
Context `{IpAddresses, ProxyConfig}.

(** An entry that is no network is skipped. *)
Definition _parse_trusted_proxies (proxy_list : list string) : list network :=
  omap (λ entry, let cidr := py_strip entry in if decide (cidr = "") then None else ip_network cidr) proxy_list.

Definition _trusted_networks : list network := _parse_trusted_proxies TRUSTED_PROXIES.

Definition _is_trusted_proxy (scope : Scope) : bool :=
  match _trusted_networks with
  | [] => true
  | networks =>
      match sc_client scope with
      | None => false
      | Some client_ip_str =>
          match ip_address client_ip_str with
          | None => false
          | Some client_ip => existsb (ip_in client_ip) networks
          end
      end
  end.

Definition _get_forwarded_proto (req : HttpRequest) : option string := header "x-forwarded-proto" req.
Definition _get_forwarded_host (req : HttpRequest) : option string := header "x-forwarded-host" req.
Definition _get_forwarded_port (req : HttpRequest) : option Z := port_header ← nonempty (header "x-forwarded-port" req); py_int port_header.
Definition _get_forwarded_prefix (req : HttpRequest) : string :=
  let prefix := default "" (header "x-forwarded-prefix" req) in
  let prefix := if negb (String.eqb prefix "") && negb (startswith prefix "/") then "/" +:+ prefix else prefix in
  rstrip_char "/" prefix.
Definition _get_real_ip (req : HttpRequest) : option string :=
  match nonempty (header "x-forwarded-for" req) with
  | Some forwarded_for => Some (py_strip (default "" (py_split "," forwarded_for !! 0%nat)))
  | None => header "x-real-ip" req
  end.

(** [[(name, value) if name != b"host" else (b"host", host) for ...]] *)
Definition with_host (host : string) (headers : list (string * string)) : list (string * string) :=
  map (λ h, if decide (h.1 = "host") then ("host", host) else h) headers.

Definition set_http (http : HttpRequest) (scheme : string) (server : option (string * Z)) (s : Scope) : Scope :=
  MkScope scheme server (sc_client s) (sc_hostname s) (sc_method s) (sc_query s) (sc_path_params s) (sc_json s) http.

(** The scope that the next handler sees, and [request.state.proxy_info]. *)
Definition forwarded (scope : Scope) : Scope * option ProxyInfo :=
  if negb (_is_trusted_proxy scope) then (scope, None)
  else
    let req := sc_http scope in
    let proto := _get_forwarded_proto req in
    let host := _get_forwarded_host req in
    let port := _get_forwarded_port req in
    let prefix := _get_forwarded_prefix req in
    let scheme := default (sc_scheme scope) (nonempty proto) in
    let nonzero_port := n ← port; if decide (n = 0) then None else Some n in
    let '(hs, server) :=
      match nonempty host with
      | None => (headers req, sc_server scope)
      | Some h =>
          match nonzero_port with
          | Some n =>
              if decide (n = 80 ∨ n = 443) then (with_host h (headers req), Some (h, n))
              else (with_host (h +:+ ":" +:+ pretty n) (headers req), Some (h, n))
          | None => (with_host h (headers req), Some (h, if decide (proto = Some "https") then 443 else 80))
          end
      end in
    let root := if decide (prefix = "") then root_path req else prefix in
    (set_http (MkHttp (http_path req) (http_query req) hs root (base_url_path req)) scheme server scope,
     Some (MkProxyInfo proto host port prefix (_get_real_ip req)
       (truthy proto || truthy host || negb (String.eqb prefix ""))
       (sc_scheme scope) (match header "host" req with Some h => Some h | None => sc_hostname scope end) (http_path req))).

(** Nothing but the scheme, the server, the host header and the prefix changes. *)
Lemma forwarded_keeps_path scope : http_path (sc_http (forwarded scope).1) = http_path (sc_http scope) ∧
  sc_method (forwarded scope).1 = sc_method scope ∧ sc_json (forwarded scope).1 = sc_json scope.
Proof. unfold forwarded. destruct (negb _); [done|]. cbv zeta. by repeat case_match. Qed.

Lemma forwarded_headers scope name : name ≠ "host" → header name (sc_http (forwarded scope).1) = header name (sc_http scope).
Proof.
  intros Hn. unfold forwarded. destruct (negb _); [done|]. cbv zeta.
  assert (∀ host hs, dict_get name (with_host host hs) = dict_get name hs) as Hw.
  { intros host hs. unfold with_host. induction hs as [|[k v] hs IH]; [done|]. cbn. destruct (decide (k = "host")) as [->|Hk]; cbn.
    - rewrite !decide_False //; congruence.
    - by rewrite IH. }
  unfold header. repeat case_match; simplify_eq; cbn; by rewrite ?Hw.
Qed.

Lemma forwarded_root scope :
  root_path (sc_http (forwarded scope).1) =
    if _is_trusted_proxy scope && negb (String.eqb (_get_forwarded_prefix (sc_http scope)) "")
    then _get_forwarded_prefix (sc_http scope) else root_path (sc_http scope).
Proof.
  unfold forwarded. destruct (_is_trusted_proxy scope); [|done]. cbn [negb andb]. cbv zeta.
  destruct (String.eqb_spec (_get_forwarded_prefix (sc_http scope)) ""); repeat case_match; simplify_eq; cbn; by case_decide.
Qed.
End proxy.

(** * Routes that FastAPI serves for MLflow ([middleware/fastapi_permission_middleware.py])

    Gateway invocations, trace ingestion, jobs, the assistant and the MCP
    registry do not pass through the Flask hooks: this middleware decides about
    them. *)

(** ** The name of the endpoint *)

Definition _ROUTES_NEEDING_BODY : list string := [
  "/gateway/mlflow/v1/chat/completions"; "/gateway/openai/v1/chat/completions"; "/gateway/openai/v1/embeddings";
  "/gateway/openai/v1/responses"; "/gateway/anthropic/v1/messages"].

Definition newline : string := String "010" EmptyString.

(** [^prefix([^...]+)suffix$] on a path: the group, which holds none of the
    excluded characters. *)
Definition group_between (prefix suffix : string) (excluded : ascii → bool) (path : string) : option string :=
  if decide (startswith path prefix = true ∧ endswith path suffix = true ∧ (String.length prefix + String.length suffix < String.length path)%nat) then
    let group := String.substring (String.length prefix) (String.length path - String.length prefix - String.length suffix) path in
    if existsb excluded (String.list_ascii_of_string group) then None else Some group
  else None.
(** [$] also matches before a newline at the end. *)
Definition re_match_group (prefix suffix : string) (excluded : ascii → bool) (path : string) : option string :=
  match group_between prefix suffix excluded path with
  | Some group => Some group
  | None => if endswith path newline then group_between prefix suffix excluded (take_str (String.length path - 1) path) else None
  end.

Definition slash (c : ascii) : bool := bool_decide (c = "/"%char).
Definition slash_or_colon (c : ascii) : bool := slash c || bool_decide (c = ":"%char).
Definition _INVOCATIONS_RE : string → option string := re_match_group "/gateway/" "/mlflow/invocations" slash.
Definition _GEMINI_GENERATE : string → option string := re_match_group "/gateway/gemini/v1beta/models/" ":generateContent" slash_or_colon.
Definition _GEMINI_STREAM : string → option string := re_match_group "/gateway/gemini/v1beta/models/" ":streamGenerateContent" slash_or_colon.

(** A body that is no dict has no [get]. *)
Definition _extract_gateway_endpoint_name (path : string) (body : option json) : outcome (option json) :=
  match _INVOCATIONS_RE path with
  | Some name => Ok (Some (JStr name))
  | None =>
      if decide (path ∈ _ROUTES_NEEDING_BODY) then
        match body with
        | Some body => if json_truthy body then match body with JObj fields => Ok (some_value (get_key "model" (dict_of fields))) | _ => Raise AttributeError end
                       else Ok None
        | None => Ok None
        end
      else
        match _GEMINI_GENERATE path with
        | Some name => Ok (Some (JStr name))
        | None => Ok (JStr <$> _GEMINI_STREAM path)
        end
  end.

(** ** The validators *)

Section guard.
Context `{SqlBackend, PyRe, UserLibs, ColumnTyping, Config, TrackingStore, MlflowEntities}.
Context `{CacheBackend PermissionResult, CacheBackend Permission, TTLCache unit json, TTLCache provider_key json}.
Context `{TTLCache (string * string) bool}.

Definition validator : Type := string → FastApiRequest → M world bool.

(** The parsed body is kept on the request, for whoever serves it. *)
Definition _get_gateway_validator (path : string) : validator := λ username req,
  match (if decide (path ∈ _ROUTES_NEEDING_BODY) then Some <$> fa_json req else Ok None) with
  | Raise _ => mret false
  | Ok body =>
      endpoint_name ← lift (_extract_gateway_endpoint_name path body);
      match endpoint_name with
      | None => mret false
      | Some endpoint_name =>
          endpoint_name ← lift (identifier endpoint_name);
          can_use_gateway_endpoint flaskless_workspace endpoint_name username
      end
  end.

Definition _get_otel_validator : validator := λ username req,
  match nonempty (header "x-mlflow-experiment-id" (fa_http req)) with
  | None => mret false
  | Some experiment_id => can can_update (effective_experiment_permission flaskless_workspace experiment_id username)
  end.

Definition _get_require_authentication_validator : validator := λ _ _, mret true.
Definition _get_mcp_server_registry_validator : validator := λ _ req, mret (bool_decide (fa_method req ∈ ["GET"; "HEAD"])).

Definition _MCP_SERVER_PREFIXES : list string := ["/api/3.0/mlflow/mcp-servers"; "/ajax-api/3.0/mlflow/mcp-servers"].

Definition _find_fastapi_validator (path : string) : option validator :=
  if startswith path "/gateway/" then Some (_get_gateway_validator path)
  else if startswith path "/v1/traces" then Some _get_otel_validator
  else if startswith path "/ajax-api/3.0/jobs" then Some _get_require_authentication_validator
  else if startswith path "/ajax-api/3.0/mlflow/assistant" then Some _get_require_authentication_validator
  else if existsb (startswith path) _MCP_SERVER_PREFIXES then Some _get_mcp_server_registry_validator
  else None.

(** ** The middleware *)

Inductive permission_answer := CallNext | AuthenticationRequired | PermissionDenied.

Definition fastapi_permission_middleware (req : FastApiRequest) : M auth_state permission_answer :=
  match _find_fastapi_validator (http_path (fa_http req)) with
  | None => mret CallNext
  | Some validate =>
      match nonempty (state_username req) with
      | None => mret AuthenticationRequired
      | Some username =>
          if state_is_admin req then mret CallNext
          else
            catch (
              ok ← in_world (validate username req);
              mret (if ok : bool then CallNext else PermissionDenied))
            (λ _, mret PermissionDenied)
      end
  end.
End guard.

(** ** The patterns *)

Lemma group_between_sound prefix suffix excluded path group :
  group_between prefix suffix excluded path = Some group →
  group ≠ "" ∧ existsb excluded (String.list_ascii_of_string group) = false.
Proof.
  unfold group_between. case_decide as Hd; [|done]. destruct (existsb _ _) eqn:He; [done|]. intros [= <-]. split; [|done].
  destruct Hd as (_&_&Hlen). intros Hs. apply (f_equal String.length) in Hs. revert Hs.
  assert (∀ s n m, (n + m <= String.length s)%nat → String.length (String.substring n m s) = m) as Hsub.
  { clear. induction s as [|c s IH]; intros n m Hl; cbn in Hl; [destruct n, m; try lia; done|].
    destruct n as [|n], m as [|m]; cbn; try done; [by rewrite IH; [|lia]|by rewrite IH; [|lia]|by rewrite IH; [|lia]]. }
  rewrite Hsub; [|lia]. cbn. lia.
Qed.
