(* ===== verification/Stack.v ===== *)
(** * The middlewares in their order ([app.py])

    A request passes the workspace context, authentication, the proxy headers
    and the permission middleware before it is routed. *)
From S2P Require Import Prelude PyStrings Json Permissions Regex RegexSafety Database Repositories RepositoryFacts Users Groups Sessions Cache Resolution ResolutionFacts Batch.
From S2P Require Import Store Requests Hooks AfterRequest BeforeRequest Validators Kubernetes ProviderRegistry TokenVerification TokenFacts Identity AuthMiddleware AuthFacts.
From S2P Require Import DataFetching ApiModels FastApi ManagementFacts Middlewares.

(** MLflow's resolution of the workspace of a request, and the status of its
    exceptions. *)
Class WorkspaceContext := {
  resolve_workspace_for_request_if_enabled : string → option string → outcome (option string);
  get_http_status_code : error_code → Z;
}.

(** The path that Starlette routes on: [root_path] is taken off the front of the
    path, when a whole number of segments is left. *)
Class StarletteRouting := {
  get_route_path : string → string → string;
  route_path_plain path : get_route_path "" path = path;
  route_path_prefix prefix rest : get_route_path prefix (prefix +:+ "/" +:+ rest) = "/" +:+ rest;
}.

(** A request that is routed, with MLflow's workspace and the path; or an answer. *)
Inductive arrival :=
  | Routed (req : FastApiRequest) (mlflow_workspace : option string) (route : string)
  | Answered (status : Z)
  | Redirected (url : string).

Section stack.
Context `{SqlBackend, PyRe, UserLibs, ColumnTyping, Config, TrackingStore, MlflowEntities, MlflowRoutes}.
Context `{CacheBackend PermissionResult, CacheBackend Permission, TTLCache unit json, TTLCache provider_key json}.
Context `{TTLCache (string * string) bool}.
Context `{JsonLoads, Encodings, PodFiles, Network, JwtLib, TokenConfig, AuthConfig, IdpClient}.
Context `{IpAddresses, ProxyConfig, WorkspaceContext, StarletteRouting}.
Variable env : login_env.
Abbreviation auth := (M auth_state).

(** [middleware/workspace_context_middleware.py]: the workspace for MLflow's
    context variable, or the status of MLflow's refusal. *)
Definition workspace_context (req : HttpRequest) : outcome (Z + option string) :=
  if negb MLFLOW_ENABLE_WORKSPACES then Ok (inr None)
  else
    match resolve_workspace_for_request_if_enabled (http_path req) (header "x-mlflow-workspace" req) with
    | Ok workspace => Ok (inr workspace)
    | Raise (MlflowException code) => Ok (inl (get_http_status_code code))
    | Raise e => Raise e
    end.

Definition request_of_scope (scope : Scope) (ctx : option AuthContext) : FastApiRequest :=
  MkFastApi (sc_http scope) (sc_method scope) (sc_query scope) (sc_path_params scope) (sc_json scope) ctx.

Definition after_authentication (scope : Scope) (workspace : option string) (ctx : option AuthContext) : auth arrival :=
  let scope := (forwarded scope).1 in
  let req := request_of_scope scope ctx in
  verdict ← fastapi_permission_middleware req;
  mret (match verdict with
        | CallNext => Routed req workspace (get_route_path (root_path (sc_http scope)) (http_path (sc_http scope)))
        | AuthenticationRequired => Answered 401
        | PermissionDenied => Answered 403
        end).

Definition through_the_middlewares (scope : Scope) : auth arrival :=
  context ← lift (workspace_context (sc_http scope));
  match context with
  | inl status => mret (Answered status)
  | inr workspace =>
      answer ← dispatch env (sc_http scope);
      match answer with
      | Unauthorized => mret (Answered 401)
      | AdminRequired => mret (Answered 403)
      | RedirectTo url => mret (Redirected url)
      | Passed ctx => after_authentication scope workspace ctx
      end
  end.

(** ** What the permission middleware decides *)

Definition grants (f : Permission → bool) (rt id username : string) (d : db) : bool :=
  match decision flaskless_workspace rt id username None d with Ok r => f (permission r) | Raise _ => false end.

(** The endpoint a gateway request names, if it names one. *)
Definition named_endpoint (req : FastApiRequest) : option string :=
  let path := http_path (fa_http req) in
  match (if decide (path ∈ _ROUTES_NEEDING_BODY) then Some <$> fa_json req else Ok None) with
  | Raise _ => None
  | Ok body =>
      match _extract_gateway_endpoint_name path body with
      | Ok (Some v) => match identifier v with Ok name => Some name | Raise _ => None end
      | _ => None
      end
  end.

(** The table of the routes, on the database. *)
Definition may_call (req : FastApiRequest) (username : string) (d : db) : bool :=
  let path := http_path (fa_http req) in
  if startswith path "/gateway/" then
    match named_endpoint req with Some name => grants can_use GATEWAY_ENDPOINT name username d | None => false end
  else if startswith path "/v1/traces" then
    match nonempty (header "x-mlflow-experiment-id" (fa_http req)) with Some id => grants can_update EXPERIMENT id username d | None => false end
  else if startswith path "/ajax-api/3.0/jobs" || startswith path "/ajax-api/3.0/mlflow/assistant" then true
  else if existsb (startswith path) _MCP_SERVER_PREFIXES then bool_decide (fa_method req ∈ ["GET"; "HEAD"])
  else true.

Definition native_route (path : string) : bool :=
  startswith path "/gateway/" || startswith path "/v1/traces" || startswith path "/ajax-api/3.0/jobs"
  || startswith path "/ajax-api/3.0/mlflow/assistant" || existsb (startswith path) _MCP_SERVER_PREFIXES.

Definition guard_decision (req : FastApiRequest) (d : db) : permission_answer :=
  if negb (native_route (http_path (fa_http req))) then CallNext
  else
    match nonempty (state_username req) with
    | None => AuthenticationRequired
    | Some username => if state_is_admin req || may_call req username d then CallNext else PermissionDenied
    end.

(** A validator whose answer is [b], an error counting as no. *)
Definition answers (m : M world bool) (b : bool) (w : world) : Prop :=
  ∃ o w', m w = (o, w') ∧ w_db w' = w_db w ∧ (match o with Ok b' => b' | Raise _ => false end) = b.

Lemma answers_ret b w : answers (mret b) b w.
Proof. by exists (Ok b), w. Qed.

Lemma answers_resolve f rt id username w :
  coherent w → colon_free rt = true → colon_free username = true → rt ≠ SCORER →
  answers (can f (resolve_permission flaskless_workspace rt id username None)) (grants f rt id username (w_db w)) w.
Proof.
  intros Hco Hrt Hu Hne. assert (separable flaskless_workspace rt username) as Hsep by (by split).
  destruct (resolve_permission_run flaskless_workspace rt id username None w Hco Hsep) as (o&w'&Hrun&_&Hdb&Ho). specialize (Ho Hne).
  unfold answers, can, grants. rewrite M_bind_run Hrun -Ho. destruct o as [r|e]; [by exists (Ok (f (permission r))), w'|by exists (Raise e), w'].
Qed.

Lemma answers_gateway req username w :
  coherent w → colon_free username = true →
  answers (_get_gateway_validator (http_path (fa_http req)) username req)
    (match named_endpoint req with Some name => grants can_use GATEWAY_ENDPOINT name username (w_db w) | None => false end) w.
Proof.
  intros Hco Hu. unfold _get_gateway_validator, named_endpoint.
  destruct (if decide _ then _ else _) as [body|e]; [|apply answers_ret].
  destruct (_extract_gateway_endpoint_name _ body) as [[v|]|e] eqn:Hx.
  - destruct (identifier v) as [name|e] eqn:Hid.
    + destruct (answers_resolve can_use GATEWAY_ENDPOINT name username w Hco eq_refl Hu) as (o&w'&Hrun&Hrest); [done|].
      exists o, w'. split; [|done]. rewrite M_bind_run lift_run M_bind_run lift_run Hid. exact Hrun.
    + exists (Raise e), w. rewrite M_bind_run lift_run M_bind_run lift_run Hid. done.
  - exists (Ok false), w. by rewrite M_bind_run lift_run.
  - exists (Raise e), w. by rewrite M_bind_run lift_run.
Qed.

Lemma validator_answers req username w :
  coherent w → colon_free username = true →
  match _find_fastapi_validator (http_path (fa_http req)) with
  | None => native_route (http_path (fa_http req)) = false
  | Some validate => native_route (http_path (fa_http req)) = true ∧ answers (validate username req) (may_call req username (w_db w)) w
  end.
Proof.
  intros Hco Hu. unfold _find_fastapi_validator, native_route, may_call.
  destruct (startswith _ "/gateway/"); [split; [done|by apply answers_gateway]|].
  destruct (startswith _ "/v1/traces").
  { split; [done|]. unfold _get_otel_validator. destruct (nonempty _) as [id|]; [by apply answers_resolve|apply answers_ret]. }
  destruct (startswith _ "/ajax-api/3.0/jobs"); [split; [done|apply answers_ret]|].
  destruct (startswith _ "/ajax-api/3.0/mlflow/assistant"); [split; [done|apply answers_ret]|].
  destruct (existsb _ _); [split; [done|apply answers_ret]|done].
Qed.

Lemma guard_run req s :
  coherent (au_world s) → colon_free (default "" (state_username req)) = true →
  ∃ s', fastapi_permission_middleware req s = (Ok (guard_decision req (au_db s)), s') ∧ untouched s s'.
Proof.
  intros Hco Hu. unfold fastapi_permission_middleware, guard_decision.
  destruct (state_username req) as [username|] eqn:Hname; cbn [default] in Hu.
  2:{ pose proof (validator_answers req "" (au_world s) Hco eq_refl) as Hv. destruct (_find_fastapi_validator _) as [v|]; [destruct Hv as [-> _]|rewrite Hv]; by exists s. }
  pose proof (validator_answers req username (au_world s) Hco Hu) as Hv. destruct (_find_fastapi_validator _) as [v|]; [|rewrite Hv; by exists s].
  destruct Hv as [-> (o&w'&Hrun&Hdb&Ho)]. cbn [negb]. unfold nonempty. cbn. case_decide; [by exists s|].
  destruct (state_is_admin req); [by exists s|]. cbn [orb]. rewrite catch_run M_bind_run in_world_run Hrun. cbn. rewrite -Ho.
  destruct o as [[]|e]; cbn; eexists; (split; [done|]); by split.
Qed.

(** C23: On the routes that FastAPI serves for MLflow, the permission middleware
    answers as the table of the routes reads off the database: a gateway request
    needs USE on the endpoint it names (in the path, or in the body), a trace
    UPDATE on the experiment of its header, the MCP registry is read-only, jobs
    and the assistant need an account; administrators pass, no account is a 401,
    and an error is a refusal. The database stays as it was. *)
Theorem permission_middleware_decides req s :
  coherent (au_world s) → colon_free (default "" (state_username req)) = true →
  ∃ s', fastapi_permission_middleware req s = (Ok (guard_decision req (au_db s)), s') ∧ untouched s s'.
Proof. apply guard_run. Qed.

(** ** From the socket to the route *)

Lemma prefixes_of_one p q s : startswith s p = true → startswith s q = true → startswith p q = true ∨ startswith q p = true.
Proof.
  unfold startswith. revert q s. induction p as [|a p IH]; intros q s Hp Hq; [right; by destruct q|]. destruct q as [|b q]; [by left|].
  destruct s as [|c s]; [done|]. cbn in Hp, Hq |- *. repeat case_match; simplify_eq; try done; by apply (IH q s).
Qed.

(** No native route lies under an unprotected prefix. *)
Lemma native_is_protected path : native_route path = true → _is_unprotected_route path = false.
Proof.
  intros Hn. apply not_true_is_false. intros (q&Hq&Hs)%existsb_exists.
  assert (∃ p, p ∈ ["/gateway/"; "/v1/traces"; "/ajax-api/3.0/jobs"; "/ajax-api/3.0/mlflow/assistant"] ++ _MCP_SERVER_PREFIXES ∧ startswith path p = true) as (p&Hp&Hps).
  { unfold native_route in Hn. rewrite !orb_true_iff in Hn.
    destruct_or! Hn; try done; (eexists; split; [|exact Hn]; apply (bool_decide_unpack _); vm_compute; exact I). }
  assert (forallb (λ p, forallb (λ q, negb (startswith p q || startswith q p))
    ["/health"; "/login"; "/callback"; "/oidc/static"; "/metrics"; "/docs"; "/redoc"; "/openapi.json"; "/oidc/ui"; "/static-files"])
    (["/gateway/"; "/v1/traces"; "/ajax-api/3.0/jobs"; "/ajax-api/3.0/mlflow/assistant"] ++ _MCP_SERVER_PREFIXES) = true) as Hall by done.
  rewrite forallb_forall in Hall. specialize (Hall p (proj1 (list_elem_of_In _ _) Hp)). rewrite forallb_forall in Hall. specialize (Hall q Hq).
  destruct (prefixes_of_one p q path Hps Hs) as [E|E]; rewrite E in Hall; [done|]. by rewrite orb_true_r in Hall.
Qed.

Lemma routed_after scope workspace ctx s req ws route s' :
  after_authentication scope workspace ctx s = (Ok (Routed req ws route), s') →
  req = request_of_scope (forwarded scope).1 ctx ∧ ws = workspace ∧
  route = get_route_path (root_path (sc_http (forwarded scope).1)) (http_path (sc_http scope)) ∧
  fastapi_permission_middleware req s = (Ok CallNext, s').
Proof.
  unfold after_authentication. intros (verdict&s1&Hv&Hr)%M_bind_ok. apply ret_ok in Hr as [Hr ->].
  destruct verdict; [|done..]. injection Hr as -> -> ->. by rewrite (proj1 (forwarded_keeps_path scope)).
Qed.

(** C15: Complete mediation for the routes that FastAPI serves for MLflow: when
    no forwarded prefix is honoured, a request routed to one of them comes from
    the active account that authentication identified, which is an
    administrator's or has what the table of the routes asks of the resource. *)
Theorem native_routes_need_a_permission scope s req ws route s' :
  wf_db (au_db s) → jwks_from_their_source (au_tokens s) → resolved_session s = None →
  root_path (sc_http scope) = "" → (_is_trusted_proxy scope = false ∨ _get_forwarded_prefix (sc_http scope) = "") →
  through_the_middlewares scope s = (Ok (Routed req ws route), s') → native_route route = true →
  ∃ ctx s1, fa_state req = Some ctx ∧ dispatch env (sc_http scope) s = (Ok (Passed (Some ctx)), s1) ∧
    presented env (sc_http scope) s (username ctx) ∧ active_account (username ctx) (is_admin ctx) (au_db s1) ∧
    (coherent (au_world s1) → colon_free (username ctx) = true → is_admin ctx = true ∨ may_call req (username ctx) (au_db s1) = true).
Proof.
  intros Hwf Hkeys Hnone Hroot Hprefix Hrun Hnative. unfold through_the_middlewares in Hrun.
  apply M_bind_ok in Hrun as (context&s0&[_ ->]%lift_ok&Hrun). destruct context as [status|workspace]; [by apply ret_ok in Hrun as [? _]|].
  apply M_bind_ok in Hrun as (answer&s1&Hdispatch&Hrun). destruct answer as [ctx| | |url]; [|by apply ret_ok in Hrun as [? _]..].
  apply routed_after in Hrun as (->&->&->&Hguard).
  assert (root_path (sc_http (forwarded scope).1) = "") as Hr.
  { rewrite forwarded_root Hroot. destruct Hprefix as [->| ->]; [done|]. by rewrite andb_false_r. }
  rewrite Hr route_path_plain in Hnative.
  destruct ctx as [ctx|].
  2:{ apply passed_without_account in Hdispatch. by rewrite (native_is_protected _ Hnative) in Hdispatch. }
  destruct (passed_with_account env (sc_http scope) s ctx s1 Hwf Hkeys Hnone Hdispatch) as [Hpresented Hactive].
  exists ctx, s1. do 4 (split; [done|]). intros Hco Hu.
  destruct (guard_run (request_of_scope (forwarded scope).1 (Some ctx)) s1 Hco Hu) as (s2&Hguard2&_).
  rewrite Hguard2 in Hguard. injection Hguard as Hdecision _. unfold guard_decision in Hdecision. cbn in Hdecision.
  rewrite (proj1 (forwarded_keeps_path scope)) Hnative in Hdecision. cbn in Hdecision. case_decide; [done|].
  apply orb_true_iff. by destruct (_ || _).
Qed.

(** An X-Forwarded-Prefix header from a proxy that is trusted, as every
    client is by default, opens every route: a request for /health/... with the
    prefix /health passes authentication as a public path and the permission
    middleware as a path it does not know, and is routed on what follows. *)
Theorem a_forwarded_prefix_opens_every_route scope s ws rest :
  _is_trusted_proxy scope = true → _get_forwarded_prefix (sc_http scope) = "/health" → workspace_context (sc_http scope) = Ok (inr ws) →
  http_path (sc_http scope) = "/health" +:+ "/" +:+ rest →
  ∃ req, through_the_middlewares scope s = (Ok (Routed req ws ("/" +:+ rest)), s) ∧ fa_state req = None.
Proof.
  intros Ht Hp Hws Hpath. exists (request_of_scope (forwarded scope).1 None). split; [|done].
  unfold through_the_middlewares. rewrite M_bind_run lift_run Hws M_bind_run. unfold dispatch. rewrite Hpath. cbn [_is_unprotected_route existsb].
  assert (startswith ("/health" +:+ "/" +:+ rest) "/health" = true) as -> by (by destruct rest). cbn [orb].
  unfold after_authentication. rewrite M_ret_run M_bind_run. unfold fastapi_permission_middleware. cbn [fa_http request_of_scope].
  rewrite (proj1 (forwarded_keeps_path scope)) forwarded_root Ht Hp Hpath. cbn [andb negb].
  by rewrite (route_path_prefix "/health" rest).
Qed.
End stack.

(** * The middlewares on the sample database *)
From S2P Require Import Ownership Permissions Regex RegexSafety Database Repositories RepositoryFacts Users Samples UserFacts Groups Sessions Cache Resolution ResolutionFacts.
From S2P Require Import Batch Store SampleMlflow Requests Validators Hooks AfterRequest BeforeRequest AfterRequestFacts Kubernetes ProviderRegistry RegistryFacts TokenVerification.
From S2P Require Import TokenFacts Identity AuthMiddleware AuthFacts ProvisioningFacts AuthWitnesses DataFetching ApiModels FastApi RouterLib ManagementFacts Middlewares.
From Stdlib Require Import Ascii.
#[local] Open Scope Z_scope.

(** Networks are single addresses, and every client is trusted. *)
#[export] Instance sample_addresses : IpAddresses | 100 := {|
  network := string; address := string; ip_network := Some; ip_address := Some; ip_in a n := String.eqb a n |}.
#[export] Instance sample_proxies : ProxyConfig | 100 := {| TRUSTED_PROXIES := [] |}.
#[export] Instance sample_context : WorkspaceContext | 100 := {|
  resolve_workspace_for_request_if_enabled _ _ := Ok None; get_http_status_code _ := 400 |}.

(** Starlette's own. *)
#[export, refine] Instance starlette : StarletteRouting | 100 := {|
  get_route_path root path :=
    if String.eqb root "" then path
    else if negb (startswith path root) then path
    else let rest := drop_str (String.length root) path in
         if String.eqb rest "" then "" else if startswith rest "/" then rest else path;
|}.
Proof.
  - done.
  - intros prefix rest. destruct (String.eqb_spec prefix "") as [->|_]; [done|]. rewrite startswith_app drop_str_app. cbn. by destruct rest.
Defined.

Definition scope_of (p : string) (headers : list (string * string)) : Scope :=
  MkScope "http" None (Some "203.0.113.9") None "POST" [] [] (Ok JNull) (MkHttp p "" headers "" "").

Definition invocation : Scope := scope_of "/gateway/gw/mlflow/invocations" [("authorization", "Bearer h.corp.bob")].
Definition bob_context : AuthContext := MkAuthContext "bob" false None.

Lemma permission_middleware_decides_witness :
  (∃ s', fastapi_permission_middleware (request_of_scope invocation (Some bob_context)) started =
      (Ok (guard_decision (request_of_scope invocation (Some bob_context)) sample_db), s') ∧ untouched started s') ∧
  guard_decision (request_of_scope invocation (Some bob_context)) sample_db = CallNext ∧
  guard_decision (request_of_scope invocation (Some bob_context))
    (set_perms GatewayEndpoints (λ _, PermTables [PermRow (Key "gw") 2 "READ" false] [] [] []) sample_db) = PermissionDenied.
Proof.
  split; [|split; vm_compute; reflexivity].
  apply (permission_middleware_decides (request_of_scope invocation (Some bob_context)) started); [apply fresh_coherent|done].
Defined.

Lemma native_routes_need_a_permission_witness :
  ∃ ctx s1, fa_state (request_of_scope invocation (Some bob_context)) = Some ctx ∧ dispatch env (sc_http invocation) started = (Ok (Passed (Some ctx)), s1) ∧
    presented env (sc_http invocation) started (username ctx) ∧ active_account (username ctx) (is_admin ctx) (au_db s1) ∧
    (coherent (au_world s1) → colon_free (username ctx) = true →
      is_admin ctx = true ∨ may_call (request_of_scope invocation (Some bob_context)) (username ctx) (au_db s1) = true).
Proof.
  apply (native_routes_need_a_permission env invocation started (request_of_scope invocation (Some bob_context)) None "/gateway/gw/mlflow/invocations"
    (through_the_middlewares env invocation started).2);
    [apply sample_wf|apply no_keys_cached|reflexivity|reflexivity|by right| |reflexivity].
  rewrite [LHS]surjective_pairing. by apply (f_equal2 pair); [vm_compute|].
Defined.

(** Nobody's request for a gateway endpoint. *)
Definition slipped : Scope := scope_of "/health/gateway/gw/mlflow/invocations" [("x-forwarded-prefix", "/health")].
Lemma a_forwarded_prefix_opens_every_route_witness :
  ∃ req, through_the_middlewares env slipped started = (Ok (Routed req None "/gateway/gw/mlflow/invocations"), started) ∧ fa_state req = None.
Proof. apply (a_forwarded_prefix_opens_every_route env slipped started None "gateway/gw/mlflow/invocations"); reflexivity. Defined.
