(* ===== verification/Witnesses.v ===== *)
(** * Concrete instances of the properties, on the sample database *)
From S2P Require Import Prelude PyStrings Permissions Regex RegexSafety Database Repositories RepositoryFacts.
From S2P Require Import RepositoryInvariant Ownership Users Samples UserFacts Groups Sessions SessionFacts Concurrency Identity Cache Resolution ResolutionFacts Batch BatchFacts Store StoreFacts StoreCaches StoreCoherence SampleMlflow.

(** ** Permissions and repositories *)

Lemma compare_permissions_is_capability_order_witness :
  compare_permissions "READ" "EDIT" = Ok true ↔ ("EDIT" = "NO_PERMISSIONS" ∨ ("READ" ≠ "NO_PERMISSIONS" ∧ grants_le READ EDIT)).
Proof. apply compare_permissions_is_capability_order; reflexivity. Defined.

Lemma user_repository_refines_map_witness :
  refines_to Experiments sample_db (run_perm_op Experiments (Key "exp1") "bob" (OpUpdate "EDIT") sample_db)
    (spec_perm_op (known_user sample_db) (user_view Experiments sample_db) (Key "exp1") "bob" (OpUpdate "EDIT")) ∧
  (run_perm_op Experiments (Key "exp1") "bob" (OpUpdate "EDIT") sample_db).1 = Ok (Some "EDIT").
Proof. split; [apply user_repository_refines_map, sample_wf|vm_compute; reflexivity]. Defined.

Lemma group_permission_for_user_is_strongest_witness :
  match GroupPermissions.get_group_permission_for_user_resource Experiments (Key "exp1") "bob" sample_db with
  | (Ok r, d') =>
      d' = sample_db ∧ group_grant Experiments sample_db (Key "exp1") "bob" r ∧
      ∀ r', group_grant Experiments sample_db (Key "exp1") "bob" r' → compare_permissions (p_permission r') (p_permission r) = Ok true
  | (Raise e, d') =>
      d' = sample_db ∧ e = MlflowException RESOURCE_DOES_NOT_EXIST ∧ ∀ r, ¬ group_grant Experiments sample_db (Key "exp1") "bob" r
  end.
Proof. apply (group_permission_for_user_is_strongest Experiments sample_db (Key "exp1") "bob"); [apply sample_wf|discriminate]. Defined.

Lemma group_permission_for_user_order_irrelevant_witness :
  p_permission <$> (GroupPermissions.get_group_permission_for_user_resource Experiments (Key "exp1") "bob" sample_db).1 =
  p_permission <$> (GroupPermissions.get_group_permission_for_user_resource Experiments (Key "exp1") "bob"
    (set_user_groups_rows (λ l, reverse l) sample_db)).1.
Proof.
  apply (group_permission_for_user_order_irrelevant Experiments sample_db (set_user_groups_rows (λ l, reverse l) sample_db));
    [apply sample_wf|discriminate|done|cbn; apply Permutation_swap|done].
Defined.

Lemma list_regex_for_user_sorted_exact_witness :
  ∃ l, RegexPermissions.list_regex_for_user Experiments "bob" sample_db = (Ok l, sample_db) ∧
    StronglySorted (λ r r', r_priority r ≤ r_priority r') l ∧ NoDup (r_id <$> l) ∧
    ∀ r, r ∈ l ↔ owned_regex Experiments sample_db "bob" r.
Proof. apply list_regex_for_user_sorted_exact, sample_wf. Defined.

Lemma model_regex_update_never_changes_a_regex_witness :
  let r := RegexRow 7 "llm" 9 2 "EDIT" false in
  let d' := (ModelRegexPermissions.update 7 "gpt" 9 "EDIT" "bob" false sample_db).2 in
  r_regex <$> t_regex (perms d' RegisteredModels) = r_regex <$> t_regex (perms sample_db RegisteredModels) ∧
  r_priority r = 9 ∧ r_permission r = "EDIT" ∧ r ∈ t_regex (perms d' RegisteredModels).
Proof.
  apply (model_regex_update_never_changes_a_regex 7 "gpt" 9 "EDIT" "bob" false sample_db). vm_compute. reflexivity.
Defined.

(** ** Users *)

Definition sample_world : audited := Audited sample_db [].
Definition demote_all : list user_op :=
  [UpdateUser REPORT 10 "salt" "ALICE" (UserUpdate None None (Some false) None None None None false); DeleteUser "alice"; DeleteUser "bob"].

Lemma an_active_administrator_always_remains_witness :
  wf_db (a_db (run_user_ops demote_all sample_world)) ∧ has_active_admin (a_db (run_user_ops demote_all sample_world)).
Proof.
  apply (an_active_administrator_always_remains demote_all sample_world); [apply sample_wf|exists alice; split; [apply alice_in|reflexivity]].
Defined.

Lemma delete_leaves_no_reference_witness :
  match UserRepository.delete "BOB" sample_world with
  | (Ok _, w') =>
      let d := a_db sample_world in let d' := a_db w' in
      users d' = delete_row bob (users d) ∧ ¬ user_referenced (u_id bob) d' ∧ wf_db d' ∧
      groups d' = groups d ∧ auth_states d' = auth_states d ∧
      (∀ t, t_group (perms d' t) = t_group (perms d t) ∧ t_group_regex (perms d' t) = t_group_regex (perms d t)) ∧
      auth_sessions d' = filter (λ s, s_user_id s ≠ u_id bob) (auth_sessions d) ∧
      user_identities d' = filter (λ i, i_user_id i ≠ u_id bob) (user_identities d) ∧
      user_groups d' = filter (λ m, m_user_id m ≠ u_id bob) (user_groups d) ∧
      (∀ t, t_user (perms d' t) = filter (λ r, p_owner r ≠ u_id bob) (t_user (perms d t)) ∧
            t_regex (perms d' t) = filter (λ r, r_owner r ≠ u_id bob) (t_regex (perms d t)))
  | (Raise e, w') => w' = sample_world ∧ e = MlflowException INVALID_STATE ∧
      UserRepository.is_active_admin bob = true ∧ ∀ v, v ∈ users (a_db sample_world) → UserRepository.is_active_admin v = true → v = bob
  end.
Proof. exact (delete_leaves_no_reference "BOB" sample_world bob sample_wf bob_in eq_refl). Defined.

Definition deactivate : user_update := UserUpdate None None None None (Some false) None None false.
Definition bob_inactive : user_row := UserRow 2 "bob" "Bob" "hunter2" (Some 1000) false false false "oidc:corp".
Definition deactivated_world : audited := (UserRepository.update REPORT 10 "salt" "bob" deactivate sample_world).2.

Lemma deactivation_ends_exactly_the_live_sessions_witness :
  u_active bob_inactive = false ∧ bob_inactive ∈ users (a_db deactivated_world) ∧
  (∀ s, s ∈ auth_sessions (a_db deactivated_world) ∧ live s ↔ s ∈ auth_sessions sample_db ∧ live s ∧ s_user_id s ≠ u_id bob) ∧
  audit deactivated_world = audit sample_world ++ conflict_events REPORT deactivate bob ++
    revoked_events (u_username bob) (Z.of_nat (length (UserRepository.live_sessions_of (u_id bob) sample_db))) "user_deactivated".
Proof.
  apply (deactivation_ends_exactly_the_live_sessions REPORT 10 "salt" "bob" deactivate sample_world bob deactivated_world bob_inactive);
    [apply sample_wf|apply bob_in|reflexivity..].
Defined.

Definition rotate : user_update := UserUpdate (Some "n3w") None None None None None None false.
Definition rotated_world : audited := (UserRepository.update REPORT 10 "salt" "bob" rotate sample_world).2.
Definition bob_rotated : user_row := UserRow 2 "bob" "Bob" "n3w" None false false true "oidc:corp".

Lemma update_changes_only_what_is_supplied_witness :
  users (a_db rotated_world) = replace_row bob bob_rotated (users sample_db) ∧ u_password_expiration bob_rotated = None.
Proof.
  destruct (update_changes_only_what_is_supplied REPORT 10 "salt" "bob" rotate sample_world bob rotated_world bob_rotated)
    as (_&_&_&_&_&_&_&[_ He]&Hu&_); [apply sample_wf|apply bob_in|reflexivity..|]. split; [exact Hu|exact He].
Defined.

Lemma enforcement_refuses_without_a_trace_witness :
  (∃ w', UserRepository.update ENFORCE 10 "salt" "bob" (refresh true false (Some "oidc:other")) sample_world =
     (Raise (MlflowException INVALID_PARAMETER_VALUE), w') ∧ a_db w' = sample_db ∧
     ∃ dec, audit w' = audit sample_world ++ [OwnershipConflict (u_username bob) dec (or_default (Some "oidc:other") MANUAL) false]) ↔
  ENFORCE = ENFORCE ∧ false = false ∧ crosses (Some (u_managed_by bob)) (Some "oidc:other").
Proof.
  apply (enforcement_refuses_without_a_trace ENFORCE 10 "salt" "bob" (refresh true false (Some "oidc:other")) sample_world bob);
    [apply sample_wf|apply bob_in|reflexivity].
Defined.

Lemma authenticate_spec_witness :
  ∃ b, UserRepository.authenticate 10 "Bob" "hunter2" sample_db = (Ok b, sample_db) ∧
    (b = true ↔ ∃ u, u ∈ users sample_db ∧ u_username u = normalize_username "Bob" ∧
       (∀ e, u_password_expiration u = Some e → 10 ≤ e) ∧ check_password_hash (u_password_hash u) "hunter2" = true).
Proof. apply (authenticate_spec 10 "Bob" "hunter2" sample_db), sample_wf. Defined.

Definition carol_db : db := (UserRepository.create "salt" "Carol" "pw" "Carol" false false sample_db).2.

Lemma created_user_authenticates_in_any_case_witness :
  UserRepository.authenticate 10 "CAROL" "pw" carol_db = (Ok true, carol_db) ∧
  (UserRepository.create "salt" "CAROL" "pw" "Carol" false false carol_db).1 = Raise (MlflowException RESOURCE_ALREADY_EXISTS).
Proof.
  apply (created_user_authenticates_in_any_case "salt" "Carol" "CAROL" "pw" "Carol" false false 10 sample_db
    (UserRow 3 "carol" "Carol" "pw" None false false true "manual") carol_db); [apply sample_wf|vm_compute; reflexivity|reflexivity].
Defined.

(** ** Groups *)

Lemma set_groups_for_user_replaces_the_groups_witness :
  match GroupRepository.set_groups_for_user "bob" ["ops"; "ops"] sample_db with
  | (Ok _, d') =>
      wf_db d' ∧
      (∃ l, GroupRepository.list_groups_for_user "bob" d' = (Ok l, d') ∧ NoDup l ∧ ∀ n, n ∈ l ↔ n ∈ ["ops"; "ops"]) ∧
      (∀ m, m_user_id m ≠ u_id bob → m ∈ user_groups d' ↔ m ∈ user_groups sample_db) ∧
      users d' = users sample_db ∧ groups d' = groups sample_db ∧ perms d' = perms sample_db
  | (Raise e, d') => d' = sample_db ∧ e = MlflowException RESOURCE_DOES_NOT_EXIST ∧
      ∃ n, n ∈ ["ops"; "ops"] ∧ ∀ g, g ∈ groups sample_db → g_name g ≠ n
  end.
Proof. apply (set_groups_for_user_replaces_the_groups "bob" ["ops"; "ops"] sample_db bob); [apply sample_wf|apply bob_in|reflexivity]. Defined.

Lemma delete_group_removes_the_group_or_nothing_witness :
  GroupRepository.delete_group "team" sample_db = (Raise (session_exc IntegrityError), sample_db).
Proof.
  pose proof (delete_group_removes_the_group_or_nothing "team" sample_db team sample_wf ltac:(by left) eq_refl) as H'.
  revert H'. case_decide as Hc; [exact id|]. destruct Hc. apply (bool_decide_unpack _). vm_compute. exact I.
Defined.

(** ** Sessions *)

Lemma resolve_honours_exactly_live_sessions_witness :
  ∃ o, AuthSessionRepository.resolve 10 "sid-bob" sample_db = (Ok o, sample_db) ∧
    ∀ r, o = Some r ↔ "sid-bob" ≠ "" ∧ ∃ u s, honoured 10 "sid-bob" sample_db u s ∧
      r = MkResolved (u_username u) (u_is_admin u) (u_active u) (s_expires_at s).
Proof. apply resolve_honours_exactly_live_sessions, sample_wf. Defined.

Definition later_ops : list account_op :=
  [SessionOp (CreateSession "sid-new" "bob" 9000 None); UserOp (UpdateUser REPORT 11 "salt" "bob" rotate); SessionOp (RevokeAll 12 "alice")].

Lemma a_revoked_session_is_never_honoured_again_witness :
  (AuthSessionRepository.resolve 20 "sid-bob"
    (a_db (run_account_ops later_ops (Audited (AuthSessionRepository.revoke 10 "sid-bob" sample_db).2 [])))).1 = Ok None.
Proof.
  apply (a_revoked_session_is_never_honoured_again 10 "sid-bob" sample_db true); [apply sample_wf|reflexivity|].
  repeat constructor; discriminate.
Defined.

Lemma a_deactivated_user_holds_no_session_witness :
  (AuthSessionRepository.resolve 20 "sid-bob" (a_db (run_account_ops later_ops deactivated_world))).1 = Ok None.
Proof.
  apply (a_deactivated_user_holds_no_session REPORT 10 "salt" "bob" deactivate sample_world bob bob_inactive deactivated_world
    later_ops (AuthSessionRow "sid-bob" 2 None 5000 None));
    [apply sample_wf|apply bob_in|reflexivity|reflexivity|reflexivity|by left|reflexivity|repeat constructor; discriminate].
Defined.

(** ** Concurrent callbacks: two threads read, then both claim *)

Definition attempt_1 : AuthAttempt := MkAttempt "state-1" "corp" None.
Definition claimed_db : db := set_auth_states (filter (λ r, st_state r ≠ "state-1")) sample_db.
Definition race_end : system := (claimed_db, [Finished (Some attempt_1); Finished None]).

Lemma race : rtc (step "state-1" (λ now, now < 5000)) (sample_db, replicate 2 NotStarted) race_end.
Proof.
  eapply rtc_l; [by eapply (step_read _ _ 0 10)|]. eapply rtc_l; [by eapply (step_read _ _ 1 11)|].
  eapply rtc_l; [by eapply (step_claim _ _ 0)|]. eapply rtc_l; [by eapply (step_claim _ _ 1)|]. apply rtc_refl.
Qed.

Lemma at_most_one_callback_wins_witness :
  rtc (step "state-1" (λ now, now < 5000)) (sample_db, replicate 2 NotStarted) race_end ∧
  ∀ i a, race_end.2 !! i = Some (Finished (Some a)) → i = 0%nat.
Proof.
  split; [exact race|]. intros i a Hi.
  exact (at_most_one_callback_wins "state-1" (λ now, now < 5000) sample_db 2 claimed_db [Finished (Some attempt_1); Finished None]
    i 0 a attempt_1 sample_wf race Hi eq_refl).
Defined.

Lemma exactly_one_callback_wins_witness :
  ∃ i, race_end.2 !! i = Some (Finished (Some (attempt_of (AuthStateRow "state-1" (Some "corp") None 5000)))) ∧
    ∀ j o, j ≠ i → race_end.2 !! j = Some (Finished o) → o = None.
Proof.
  apply (exactly_one_callback_wins "state-1" (λ now, now < 5000) sample_db 1 claimed_db race_end.2
    (AuthStateRow "state-1" (Some "corp") None 5000)); [apply sample_wf|by left|reflexivity|intros now; exact id|apply race|].
  intros [|[|i]] Hi; [by eexists|by eexists|exfalso; lia].
Defined.

(** ** Permission resolution *)

(** Only the result is computed, never the state reached. *)
Lemma run_ok {St A} (m : M St A) (s : St) a : (m s).1 = Ok a → ∃ s', m s = (Ok a, s').
Proof. destruct (m s) as [o s']. cbn. intros ->. by exists s'. Qed.

Definition ws1 : option string := Some "ws1".

Lemma separable_ws1 rt u : colon_free rt = true → colon_free u = true → separable ws1 rt u.
Proof. intros. split_and!; [done..|]. by intros _ ws [= <-]. Qed.

Lemma resolve_permission_implements_decision_witness :
  coherent (fresh_world sample_db) ∧ separable ws1 EXPERIMENT "bob" ∧
  decision ws1 EXPERIMENT "exp1" "bob" None sample_db = Ok (MkResult READ "user") ∧
  ∃ w', resolve_permission ws1 EXPERIMENT "exp1" "bob" None (fresh_world sample_db) = (Ok (MkResult READ "user"), w') ∧ coherent w'.
Proof.
  pose proof (fresh_coherent sample_db) as Hco. pose proof (separable_ws1 EXPERIMENT "bob" eq_refl eq_refl) as Hsep.
  assert (decision ws1 EXPERIMENT "exp1" "bob" None sample_db = Ok (MkResult READ "user")) as Hd by (vm_compute; reflexivity).
  split_and!; [done..|].
  destruct (resolve_permission_implements_decision ws1 EXPERIMENT "exp1" "bob" None (fresh_world sample_db) Hco Hsep ltac:(done)) as (w'&Hrun&Hco'&_).
  exists w'. split; [|done]. rewrite Hrun. change (w_db (fresh_world sample_db)) with sample_db. by rewrite Hd.
Defined.

Lemma first_configured_source_decides_witness :
  (get_permission_from_store_or_default (_build_experiment_sources "exp1" "bob") sample_db).1 = Ok (MkResult READ "user") ∧
  sources_read (_build_experiment_sources "exp1" "bob") ∧
  ((∃ pre post f n, PERMISSION_SOURCE_ORDER = pre ++ "user" :: post ∧
      Forall (missing (_build_experiment_sources "exp1" "bob") sample_db) pre ∧
      _build_experiment_sources "exp1" "bob" !! "user" = Some f ∧ (f sample_db).1 = Ok n ∧ get_permission n = Ok READ) ∨
   (Forall (missing (_build_experiment_sources "exp1" "bob") sample_db) PERMISSION_SOURCE_ORDER ∧ "user" = "fallback" ∧
      get_permission DEFAULT_MLFLOW_PERMISSION = Ok READ)).
Proof.
  assert ((get_permission_from_store_or_default (_build_experiment_sources "exp1" "bob") sample_db).1 = Ok (MkResult READ "user")) as Hr
    by (vm_compute; reflexivity).
  pose proof (build_sources_read EXPERIMENT "exp1" "bob" None _ eq_refl) as Hc.
  split_and!; [done..|]. pose proof (first_configured_source_decides (_build_experiment_sources "exp1" "bob") sample_db Hc) as H.
  rewrite Hr in H. exact H.
Defined.

Lemma no_default_grant_in_a_workspace_witness :
  (∃ w', resolve_permission ws1 EXPERIMENT "other" "bob" None (fresh_world sample_db) = (Ok (MkResult READ "workspace"), w')) ∧
  (_lookup_workspace_permission "bob" "ws1" sample_db).1 = Ok (Some READ).
Proof.
  assert (∃ w', resolve_permission ws1 EXPERIMENT "other" "bob" None (fresh_world sample_db) = (Ok (MkResult READ "workspace"), w')) as [w' Hrun].
  { apply run_ok. vm_compute. reflexivity. }
  split; [by exists w'|].
  exact (proj1 (proj2 (no_default_grant_in_a_workspace "ws1" EXPERIMENT "other" "bob" None (fresh_world sample_db) _ w'
    (fresh_coherent sample_db) (separable_ws1 EXPERIMENT "bob" eq_refl eq_refl) ltac:(done) eq_refl ltac:(done) Hrun)) eq_refl).
Defined.

Definition ws_patterns : list regex_row :=
  [RegexRow 1 "ws" 1 2 "READ" false; RegexRow 2 "ws1" 1 2 "EDIT" false; RegexRow 3 "w" 2 2 "MANAGE" false].

Lemma ws_patterns_usable : Forall usable ws_patterns.
Proof. repeat constructor; try done; apply (bool_decide_unpack _); vm_compute; exact I. Qed.

Lemma ws_patterns_sorted : StronglySorted (λ x y, r_priority x ≤ r_priority y) ws_patterns.
Proof. repeat constructor; cbn; lia. Qed.

Lemma workspace_regex_strongest_of_first_tier_witness :
  _match_workspace_regex_permission ws_patterns "ws1" = Ok (Some EDIT) ∧
  ∃ r, r ∈ ws_patterns ∧ hits "ws1" r ∧ get_permission (r_permission r) = Ok EDIT ∧ unbeaten "ws1" (r_priority r) EDIT ws_patterns.
Proof.
  assert (_match_workspace_regex_permission ws_patterns "ws1" = Ok (Some EDIT)) as Hm by (vm_compute; reflexivity).
  split; [done|]. pose proof (workspace_regex_strongest_of_first_tier "ws1" ws_patterns ws_patterns_usable ws_patterns_sorted) as H.
  rewrite Hm in H. exact H.
Defined.

Lemma fallback_accounting_is_bounded_witness :
  accounted [FallbackCall EXPERIMENT "e" "bob" MANAGE] (record_call (fresh_world sample_db) (FallbackCall EXPERIMENT "e" "bob" MANAGE)).
Proof.
  exact (fallback_accounting_is_bounded [FallbackCall EXPERIMENT "e" "bob" MANAGE] (fresh_world sample_db) eq_refl eq_refl eq_refl).
Defined.

(** bob manages scorer [a] and may only read scorer [b]. *)
Lemma scorer_decision_is_shared_witness :
  decision ws1 SCORER "exp1" "bob" (Some "b") scorer_db = Ok (MkResult READ "user") ∧
  ∃ w', resolve_permission ws1 SCORER "exp1" "bob" (Some "a") (fresh_world scorer_db) = (Ok (MkResult MANAGE "user"), w') ∧
    resolve_permission ws1 SCORER "exp1" "bob" (Some "b") w' = (Ok (MkResult MANAGE "user"), w').
Proof.
  split; [vm_compute; reflexivity|].
  assert ((let '(o, w') := resolve_permission ws1 SCORER "exp1" "bob" (Some "a") (fresh_world scorer_db) in
    (o, cache_get (_make_cache_key SCORER "exp1" "bob" (_get_cache_workspace ws1)) (_permission_cache w'))) =
    (Ok (MkResult MANAGE "user"), Some (MkResult MANAGE "user"))) as Hrun by (vm_compute; reflexivity).
  destruct (resolve_permission ws1 SCORER "exp1" "bob" (Some "a") (fresh_world scorer_db)) as [o w'] eqn:Hw.
  injection Hrun as -> Hget. exists w'. split; [done|].
  exact (scorer_decision_is_shared ws1 "exp1" "bob" "a" "b" (fresh_world scorer_db) _ w' Hw Hget).
Defined.

(** bob belongs to [team], which may use the endpoint. *)
Lemma gateway_group_grants_miss_the_members_witness :
  MembershipRow 2 1 ∈ user_groups gateway_db ∧
  PermRow (Key "gw") 1 "USE" false ∈ t_group (perms gateway_db GatewayEndpoints) ∧
  missing (_build_gateway_endpoint_sources "gw" "bob") gateway_db "group".
Proof.
  split_and!; [by left|by left|].
  apply (gateway_group_grants_miss_the_members GATEWAY_ENDPOINT "gw" "bob" None _ gateway_db); [by left| |reflexivity].
  intros g Hg. cbn in Hg. rewrite !elem_of_cons in Hg. destruct_or!; [subst; done..|by apply not_elem_of_nil in Hg].
Defined.

(** ** Batches: bob's experiments, one named by an own row, one left to the workspace *)

Definition listing : list experiment := [MkExperiment "exp1" "exp1-name"; MkExperiment "dev" "dev-name"; MkExperiment "x" "x-name"].

Lemma sample_patterns_compile t : regexes_compile sample_db t.
Proof. destruct t; split; repeat constructor; done. Qed.

Lemma manageable_experiments_are_those_decided_manageable_witness :
  ∃ w', filter_manageable_experiments ws1 "bob" listing (fresh_world sample_db) = (Ok [MkExperiment "dev" "dev-name"], w') ∧
    coherent w' ∧ w_db w' = sample_db.
Proof.
  destruct (manageable_experiments_are_those_decided_manageable ws1 bob listing (fresh_world sample_db) sample_wf bob_in
    (fresh_coherent sample_db) (separable_ws1 EXPERIMENT "bob" eq_refl eq_refl) (sample_patterns_compile Experiments))
    as (w'&Hrun&Hco&Hd).
  - by eexists.
  - intros e He. cbn in He. rewrite !elem_of_cons in He. destruct_or!; [subst; done..|by apply not_elem_of_nil in He].
  - exists w'. split_and!; [|done..]. rewrite Hrun. f_equal.
Defined.

Lemma batch_models_resolve_as_one_by_one_witness :
  ∃ m w', batch_resolve_model_permissions ws1 "bob" ["llm-1"; "other"] (fresh_world sample_db) = (Ok m, w') ∧
    m !! "llm-1" = Some (MkResult READ "regex") ∧ is_Some (m !! "other") ∧ m !! "else" = None.
Proof.
  destruct (batch_models_resolve_as_one_by_one ws1 false bob ["llm-1"; "other"] (fresh_world sample_db) sample_wf bob_in
    (fresh_coherent sample_db) (separable_ws1 REGISTERED_MODEL "bob" eq_refl eq_refl) (sample_patterns_compile RegisteredModels))
    as (m&w'&Hrun&_&_&Hm&Hdom).
  - by eexists.
  - exists m, w'. split_and!; [done| | |].
    + destruct (proj2 (Hdom "llm-1") ltac:(by left)) as [r Hr]. rewrite Hr. f_equal.
      specialize (Hm _ _ Hr). vm_compute in Hm. by injection Hm.
    + apply Hdom. right. by left.
    + apply eq_None_not_Some. rewrite Hdom !elem_of_cons. intros [Hx|[Hx|Hx]]; [done..|by apply not_elem_of_nil in Hx].
Defined.

(** The batch counts a default grant that the workspace replaces; the
    single-resource path does not. *)
Lemma batch_counts_overridden_default :
  (let '(o, w') := resolve_permission ws1 EXPERIMENT "x" "bob" None (fresh_world sample_db) in
   (o, _FALLBACK_COUNTS w' !! EXPERIMENT)) = (Ok (MkResult READ "workspace"), None) ∧
  (let '(o, w') := batch_resolve_experiment_permissions ws1 "bob" [MkExperiment "x" "x-name"] (fresh_world sample_db) in
   (o, _FALLBACK_COUNTS w' !! EXPERIMENT)) = (Ok {[ "x" := MkResult READ "workspace" ]}, Some 1).
Proof. split; vm_compute; reflexivity. Qed.

(** ** The store: a cached workspace permission, then the grant is changed *)

Definition before_update : world := (resolve_permission ws1 EXPERIMENT "x" "bob" None (fresh_world sample_db)).2.
Definition promote : call := UpdateWorkspacePermission "ws1" "bob" "EDIT".
Definition after_update : world := (administer promote before_update).2.

Lemma update_history : rtc history_step (fresh_world sample_db) after_update.
Proof.
  eapply rtc_l; [apply (step_resolve ws1 EXPERIMENT "x" "bob" None), separable_ws1; reflexivity|].
  apply rtc_once, step_administer; [by repeat constructor|by intros ?].
Qed.

Lemma caches_agree_after_any_history_witness : wf_db (w_db after_update) ∧ coherent after_update.
Proof.
  apply (caches_agree_after_any_history (fresh_world sample_db)); [reflexivity|exact sample_wf|apply fresh_coherent|apply update_history].
Defined.

Lemma every_answer_is_current_witness :
  (resolve_permission ws1 EXPERIMENT "x" "bob" None before_update).1 = Ok (MkResult READ "workspace") ∧
  (resolve_permission ws1 EXPERIMENT "x" "bob" None after_update).1 = decision ws1 EXPERIMENT "x" "bob" None (w_db after_update) ∧
  decision ws1 EXPERIMENT "x" "bob" None (w_db after_update) = Ok (MkResult EDIT "workspace").
Proof.
  split_and!; [vm_compute; reflexivity| |vm_compute; reflexivity].
  apply (every_answer_is_current (fresh_world sample_db)); [exact sample_wf|apply fresh_coherent|apply update_history| |discriminate].
  apply separable_ws1; reflexivity.
Defined.

Lemma failed_store_calls_leave_no_trace_witness :
  (run_call (CreateExperimentPermission "exp1" "bob" "OWNER") (fresh_world sample_db)).1 = Raise (MlflowException INVALID_PARAMETER_VALUE) ∧
  (run_call (CreateExperimentPermission "exp1" "bob" "OWNER") (fresh_world sample_db)).2 = fresh_world sample_db.
Proof.
  assert ((run_call (CreateExperimentPermission "exp1" "bob" "OWNER") (fresh_world sample_db)).1 =
    Raise (MlflowException INVALID_PARAMETER_VALUE)) as Hr by (vm_compute; reflexivity).
  split; [exact Hr|].
  apply (failed_store_calls_leave_no_trace (CreateExperimentPermission "exp1" "bob" "OWNER") (fresh_world sample_db)
    (MlflowException INVALID_PARAMETER_VALUE)); [exact sample_wf|reflexivity|].
  rewrite -Hr. apply surjective_pairing.
Defined.

(** The pattern with id 1 of [team] on gateway endpoints, asked for as the store does. *)
Definition gateway_pattern_db : db :=
  set_perms GatewayEndpoints (λ _, PermTables [] [] [] [RegexRow 1 "gw" 1 1 "USE" false]) sample_db.

Lemma gateway_group_patterns_out_of_reach_witness :
  (GroupRegexPermissions.get GatewayEndpoints "team" 1 gateway_pattern_db).1 = Ok (RegexRow 1 "gw" 1 1 "USE" false) ∧
  ∃ code, SqlAlchemyStore.get_group_gateway_endpoint_regex_permission 1 "team" gateway_pattern_db = (Raise (MlflowException code), gateway_pattern_db).
Proof.
  split; [vm_compute; reflexivity|].
  apply (gateway_group_patterns_out_of_reach GatewayEndpoints 1 "team" gateway_pattern_db).
  intros g Hg (eq&[= <-]&He). cbn in Hg. rewrite !elem_of_cons in Hg.
  destruct_or!; [subst; vm_compute in He; discriminate..|by apply not_elem_of_nil in Hg].
Defined.

(** Both names already have a grant to [team]: the user rows are renamed and
    committed, the group rows are not, and the cache is not flushed. *)
Definition rename_db : db :=
  set_perms GatewayEndpoints (λ _, PermTables [PermRow (Key "old") 2 "USE" false]
    [PermRow (Key "old") 1 "USE" false; PermRow (Key "new") 1 "READ" false] [] []) sample_db.

Lemma gateway_rename_may_stop_halfway :
  let '(o, w') := run_call (RenameGatewayEndpointPermissions "old" "new") (fresh_world rename_db) in
  (o, t_user (perms (w_db w') GatewayEndpoints), t_group (perms (w_db w') GatewayEndpoints)) =
  (Raise (MlflowException INTERNAL_ERROR), [PermRow (Key "new") 2 "USE" false],
   [PermRow (Key "old") 1 "USE" false; PermRow (Key "new") 1 "READ" false]).
Proof. vm_compute. reflexivity. Qed.
